(* ===== verification/_CoqProject ===== *)
-Q . S2P
Prelude.v
GoLib.v
Domain.v
RouteSort.v
RouteKey.v
VersionState.v
Tables.v
MemDb.v
MemDbModel.v
Storage.v
Msaddr.v
Format.v
Events.v
Runtime.v
RuntimeModel.v
RouteCreation.v
Dto.v
Dao.v
DaoSpec.v
Entity.v
RegCommon.v
LoadBalance.v
Requests.v
Registration.v
Util.v
RouteServices.v
StatefulSessions.v
Validation.v
Registry.v
BlueGreen.v
BlueGreenSpec.v
CandidateSpec.v
PipelineSpec.v
RegistrationSpec.v
Clustering.v
ClusteringSpec.v
Gateways.v
RateLimits.v
ClusterService.v
HttpFilters.v
Cleanup.v
GatewaysSpec.v
Persistence.v
PersistenceSpec.v
RouteServicesSpec.v
ServicesSpec.v
CommitSpec.v
RecoverySpec.v
DisasterRecovery.v
EnvoyApi.v
EnvoyProps.v
EnvoyRoutes.v
EnvoyVirtualHosts.v
Tls.v
EnvoyClusters.v
EnvoyListeners.v
EnvoyBuilder.v
EnvoyActions.v
EnvoyEvents.v
EnvoyProcessor.v
EnvoyManager.v
EnvoyRoutesSpec.v
EnvoyModel.v
ListenerSpec.v
SnapshotSpec.v
ManagerSpec.v
Bootstrap.v
Composite.v
DebugValidate.v
ActiveDCs.v
EventBus.v
Replication.v
ReplicationSpec.v
Migrations.v
MigrationsSpec.v
Controllers.v
Resources.v
Views.v
Watchers.v
Tenants.v
