(* ===== verification/Prelude.v ===== *)
(** * Verification library of the control plane of the service mesh

    The control plane (Go, under [src/control-plane]) keeps the routes,
    clusters, endpoints, deployment versions and gateways of a mesh in an
    in-memory database, changes them by requests of a REST API and by
    blue-green operations, elects one of its instances as the master through a
    table of Postgres, and announces each committed change on a bus, from
    which the configuration of the Envoy gateways is built.  This library is a
    shallow embedding of that code: one definition per function, over explicit
    worlds, with its properties as theorems.

    ** How the parts interact

    A request reaches the node that may handle it ([Controllers.Proxy]), and
    its handler ([Controllers]; a declarative configuration: [Resources]).  It is
    validated ([Validation]), processed into entities ([Requests], with [Format],
    [RouteCreation] and [RegCommon]) and saved by the entity service ([Entity])
    through the repository ([Dao]) in one write transaction ([Runtime]) of the
    in-memory database ([MemDb], [Storage], with the schema of [Tables]); the
    services ([RouteServices], [StatefulSessions], [Registry], [BlueGreen],
    [Cleanup]) open the transactions and publish the events ([Events]) of what
    they commit.  Before a commit the changes are
    flushed to the persistent storage ([Persistence]), which is migrated
    ([Migrations]), loaded by a starting instance and followed by a standby
    instance ([DisasterRecovery]).  Which instance may write is decided by
    [Clustering]; the others follow it over the bus ([EventBus],
    [Replication]).  Clients watch the versions and the data centers
    ([Watchers]), and are shown the rest ([Views]).  An event becomes actions
    ([EnvoyEvents], [EnvoyProcessor]) on the snapshots of the gateways
    ([EnvoyActions], [EnvoyManager]), with the listeners, clusters and route
    configurations that the builders make of the entities ([EnvoyBuilder]);
    the listeners of the master carry the namespaces of the tenants ([Tenants]).

    ** Files and sources

    - [Prelude], [GoLib]: outcomes ([result]: value, error, panic), the state
      monad [prog], frames ([frame R m]: [m] changes the world within the
      preorder [R]), record updates, Go's [strings], [strconv], [net/url] and
      [sort.SliceStable].
    - [Domain], [Tables]: [domain/*.go], [ram/schema.go].  [MemDb]: the
      interface of hashicorp/go-memdb, operations with laws ([MemDbLaws]);
      [MemDbModel] is an instance, made of finite maps, so that the laws are
      consistent and the witnesses compute.  [Storage]: [ram/storage.go].
    - [RouteSort] ([util/routes/sort.go]), [RouteKey]
      ([services/route/routekey]), [VersionState] ([services/version]),
      [Msaddr] ([util/msaddr], [services/cluster/clusterkey]), [Format]
      ([services/route/business/format], [util/routes]), [RouteCreation]
      ([services/route/creator]): pure components.
    - [Runtime]: [dao/impl.go], the world ([World]: committed database, open
      transaction, lock, clock, published events, routing mode) and the
      transaction discipline; [RuntimeModel] is an instance for witnesses.
      [Dao]: [dao/*.go].  [Entity]: [services/entity], [services/envoy],
      [services/route/business/autogenerated.go].
    - [RegCommon], [Requests], [Registration]: [services/route/registration]
      and [services/route/registration.go].  [Dto], [Validation]:
      [restcontrollers/dto].  [RouteServices]: [services/route/v1], [v2], [v3].
      [Util]: [util/utils.go], [services/routingmode].
    - [StatefulSessions]: [services/statefulsession].  [LoadBalance]:
      [services/loadbalance].  [Cleanup]: [services/cleanup].
    - [Registry], [BlueGreen]: [services/bluegreen].  [Gateways]:
      [services/gateway].  [RateLimits]: [services/ratelimit].
      [ClusterService]: [services/cluster].  [HttpFilters]:
      [services/httpFilter].  [Tls]: [services/tls], [util/tls].  [ActiveDCs]:
      [services/active].  [Composite]: [composite].  [Bootstrap]:
      [configuration].  [DebugValidate]: [services/debug].
    - [Clustering]: [clustering], as a state machine of the whole cluster.
    - [EventBus]: [event/bus]; [Replication]: [com9n], [event/bus/grpcbus.go],
      the master and its slaves as a transition system.
    - [Persistence]: [constancy], [ram/loader.go]; [DisasterRecovery]:
      [services/dr].  [Migrations]: the Go migrations of
      [constancy/migration] and [constancy/fix].
    - [EnvoyApi]: the messages of Envoy's API that are built, as records;
      [EnvoyProps]: [envoy/cache/builder/common], [tlsmode], [bg];
      [EnvoyRoutes], [EnvoyVirtualHosts]: [envoy/cache/builder/routeconfig];
      [EnvoyClusters], [EnvoyListeners], [EnvoyBuilder]: the other builders;
      [EnvoyActions]: [envoy/cache/action]; [EnvoyEvents], [EnvoyProcessor]:
      [envoy/cache/event]; [EnvoyManager]: [envoy/cache/manager.go].
      [EnvoyModel] holds concrete parameters for the witnesses.
    - [Tenants]: [services/tm], [services/cache].  [Watchers]: [websocket], with
      the watchers as a transition system.
    - [Controllers]: [restcontrollers], [errorcodes], [services/health].
      [Resources]: [services/configresources] and the [resource.go] of the
      services.  [Views]: [ui], [restcontrollers/dto/converters.go].
    Files that end in [Spec] hold theorems and no code: those of one component
    ([DaoSpec], [GatewaysSpec], [PersistenceSpec], [ReplicationSpec] and the
    like), or of one property of several ([CommitSpec], [RecoverySpec]:
    persistence; [CandidateSpec], [PipelineSpec]: blue-green; [ServicesSpec]:
    rate limits, filters, clusters).  The other components have theirs at the end
    of their own file.

    ** What the theorems show

    - Blue-green: the stages of all versions after a promotion and a rollback
      ([BlueGreenSpec]), that either is committed as a whole; that nothing of a
      deleted candidate is left ([CandidateSpec]); the endpoints and routes a
      pipeline changes ([PipelineSpec]).
    - Clustering ([ClusteringSpec]): a lease excludes other masters, roles agree
      with the known master, an election makes progress; and what breaks when a
      commit fails or a node restarts.
    - Replication ([ReplicationSpec]): what a slave holds was committed; a slave
      whose stream stays intact, and that nothing overtakes while it joins,
      catches up; and the runs in which it does not.
    - Transactions: all or nothing ([Runtime]), the effect of the repository on
      rows ([DaoSpec]), requests that are committed as a whole and announced when
      they are, and those that are committed in parts ([RouteServicesSpec]).
    - The REST API: errors that lose their code ([Controllers]); what an instance
      on standby may change - the routing mode, when its details are read, and
      the namespaces of the composite - and that no other request changes
      anything there; resources are handled in order, and a refused one changes
      nothing ([Resources]); the pages of routes ([Views]).
    - Requests: what validation accepts and lets through ([Validation]);
      that a processed request is consistent ([Requests]); loops of hosts,
      conflicts with gateways, and the routes a deletion selects
      ([RegistrationSpec]); templates of paths and their rewriting
      ([Format], [RouteCreation]).
    - Data: keys of routes and clusters determine what they are made of, the
      order of routes, the pruning of archived versions, backup and restore.
    - Sessions ([StatefulSessions]); exactly what the cleanup of local
      development removes ([Cleanup]) and the deletion of a gateway
      ([GatewaysSpec]); rate limits and the owners of
      external authorisation ([ServicesSpec]); that balanced requests reach the
      data center of their alias ([ActiveDCs]); satellites as a set
      ([Composite]); that the initial configuration is announced
      ([Bootstrap]); the report on orphaned clusters ([DebugValidate]).
    - Persistence: the storage agrees with what is committed, table by table, but
      for header matchers that a commit gives new ids and TLS configurations that
      lose their gateways later ([PersistenceSpec], [CommitSpec]); loading it gives
      the committed database again ([RecoverySpec]); a standby instance follows
      it, but for the four tables it is told nothing of ([DisasterRecovery]); its
      migrations keep one route per key, as far as keys are those of what the
      routes match ([MigrationsSpec]).
    - Watchers: what a client is sent covers every change since the state it got
      first, and the runs in which one client stops all others ([Watchers]).
      Tenants: every listener is built again with the namespaces of the last
      reports (those of a facade ignore them), and a demotion waits for the
      tenant manager ([Tenants]).
    - Envoy: which version serves a request ([EnvoyRoutesSpec]); the shape of
      listeners ([ListenerSpec]); that snapshots stay typed ([SnapshotSpec]);
      what is announced, when, and that the attempts at start-up end
      ([ManagerSpec]).
    A theorem about a flaw of the code states what the code does.

    ** Conventions, bounds, parameters

    Integers are [Z]; where the code narrows one ([int32]) the wrap-around is
    written.  Strings are byte strings.  Recursion is structural throughout:
    loops of the code are over finite lists, and the endless loops of the
    elector are steps of a relation.  One definition takes fuel, the
    registration of a satellite ([Composite.register_attempts]), whose loop ends
    by the clock: [register_attempts_end] shows how much is enough.  What
    differs from run to run (clock, sequences, uuids, iteration order of maps,
    the bus, callbacks before a commit) are fields of the class [Runtime].
    Classes of their own hold what the process and the libraries provide:
    [MemDb] (go-memdb), [Postgres] (storage), [Sha256], [NetUrl],
    [Environment] and [Configuration] (environment and configuration files),
    [TlsMode], [Certificates] (X.509), [Protobuf] (marshalling),
    [SnapshotCache] (go-control-plane), [CompositeService] (answers of the
    baseline and the tenant manager), [VersionAliasesProvider].  Theorems hold
    for every instance.

    ** What is not modelled

    Objects are values: an in-place change of a shared object is visible when it
    is saved (the exceptions are argued where they occur; the elector's shared
    pointer to the master is modelled).  Transactions on Postgres are atomic
    steps; its isolation levels are not modelled.  Updates of one gateway's
    snapshot are atomic.  Left out, with the reason:
    - the network: the server that gives snapshots to the gateways ([envoy/grpc]),
      the generated code of the bus and of protobuf, the terminal events that end
      a subscription when the bus is shut down, the upgrade of connections to
      websockets with their pings, the socket of the tenant manager;
    - SQL: the migrations that change the schema (4, 10, 12, 25) and the fix of
      migration 24, the connection to the database and its listener, the driver
      of the election;
    - the details of certificates for the console and their metrics (X.509 and
      Prometheus), and the watching of their files;
    - what nothing calls: [BulkUpdateClusters], the queue of [util/queue], the
      locks by name;
    - start-up wiring, generated documentation, mocks and test services. *)
From stdpp Require Export base tactics list gmap strings fin_maps sorting.
From Stdlib Require Import ZArith Lia.

Declare Scope prog_scope.
Delimit Scope prog_scope with prog.

(** * Outcomes

    A Go function that returns [(T, error)] yields [Ok] or [Err]; a nil
    dereference, an explicit [panic] or a self-deadlock yields [Panic].  The
    prefix of a wrapped error is kept without its formatted arguments. *)

Inductive error : Type :=
  | ErrNotFound                            (* go-memdb ErrNotFound *)
  | ErrMemDb (msg : string)                (* any other error of go-memdb *)
  | ErrMsg (msg : string)                  (* errors.New / fmt.Errorf *)
  | ErrCp (code msg : string)              (* errorcodes.NewCpError *)
  | ErrWrap (prefix : string) (e : error). (* errors.WrapPrefix *)

Inductive result (A : Type) : Type :=
  | Ok (a : A)
  | Err (e : error)
  | Panic (why : string).
Arguments Ok {A} a.
Arguments Err {A} e.
Arguments Panic {A} why.

#[export] Instance error_eq_dec : EqDecision error.
Proof. solve_decision. Defined.

Definition is_Ok {A} (r : result A) : Prop := exists a, r = Ok a.

(** Outcomes one after another, and over a list. *)
Fixpoint map_result {A B} (f : A -> result B) (l : list A) : result (list B) :=
  match l with
  | [] => Ok []
  | x :: l' =>
      match f x with
      | Ok y => match map_result f l' with Ok ys => Ok (y :: ys) | Err e => Err e | Panic p => Panic p end
      | Err e => Err e
      | Panic p => Panic p
      end
  end.
Definition result_bind {A B} (r : result A) (k : A -> result B) : result B :=
  match r with Ok a => k a | Err e => Err e | Panic p => Panic p end.

Lemma Ok_inj {A} (a b : A) : Ok a = Ok b -> a = b.
Proof. by intros [= ->]. Qed.

(** * Records

    [x <| f := v |>] is the record [x] with field [f] replaced, for records
    with an [Eta] instance; [zero] is Go's zero value. *)

Class Eta (R : Type) : Type := eta : R -> R.
Class Setter {R T : Type} (f : R -> T) : Type := set_field : (T -> T) -> R -> R.
Arguments set_field {R T} f {_} _ !_ /.

Ltac build_setter :=
  match goal with
  | |- @Setter ?R ?T ?f =>
      let i := constr:(_ : Eta R) in
      let e := eval hnf in i in
      exact (fun (set_g : T -> T) (set_r : R) =>
        ltac:(let b := eval cbv beta in (e set_r) in
              match b with
              | context C [f set_r] => let t := context C [set_g (f set_r)] in exact t
              end))
  end.
#[export] Hint Extern 1 (Setter _) => build_setter : typeclass_instances.

Declare Scope record_scope.
Notation "x <| f := v |>" := (set_field f (fun _ => v) x)
  (at level 1, f at next level, v at level 200, left associativity) : record_scope.
#[global] Open Scope record_scope.

Class Zero (A : Type) : Type := zero : A.
#[export] Instance zero_string : Zero string := "".
#[export] Instance zero_Z : Zero Z := 0%Z.
#[export] Instance zero_bool : Zero bool := false.
#[export] Instance zero_option {A} : Zero (option A) := None.
#[export] Instance zero_list {A} : Zero (list A) := [].
#[export] Instance zero_map {A} : Zero (gmap string A) := (∅ : gmap string A).

(** * Effectful code

    A function that reads and writes the world [W].  The world is threaded
    through failures too: what a Go function wrote before it returned an
    error stays written. *)

Definition prog (W A : Type) : Type := W -> result A * W.

Section prog.
Context {W : Type}.

Definition ret {A} (a : A) : prog W A := fun w => (Ok a, w).
Definition fail {A} (e : error) : prog W A := fun w => (Err e, w).
Definition panic {A} (why : string) : prog W A := fun w => (Panic why, w).

Definition bind {A B} (m : prog W A) (k : A -> prog W B) : prog W B :=
  fun w => match m w with
           | (Ok a, w') => k a w'
           | (Err e, w') => (Err e, w')
           | (Panic p, w') => (Panic p, w')
           end.

(** [if err := m; err != nil { log }], the error is dropped. *)
Definition ignore_err (m : prog W unit) : prog W unit :=
  fun w => match m w with
           | (Err _, w') => (Ok tt, w')
           | r => r
           end.

Definition gets {A} (f : W -> A) : prog W A := fun w => (Ok (f w), w).
Definition modify (f : W -> W) : prog W unit := fun w => (Ok tt, f w).

(** [if x, err := m; err == nil { .. }]: [None] is the branch not taken. *)
Definition try_ok {A} (m : prog W A) : prog W (option A) :=
  fun w => match m w with
           | (Ok a, w') => (Ok (Some a), w')
           | (Err _, w') => (Ok None, w')
           | (Panic p, w') => (Panic p, w')
           end.

(** [return errors.WrapPrefix(err, prefix, n)] *)
Definition wrap_err {A} (prefix : string) (m : prog W A) : prog W A :=
  fun w => match m w with
           | (Err e, w') => (Err (ErrWrap prefix e), w')
           | r => r
           end.

(** [goerrors.Error.Unwrap]: an error that is wrapped again keeps its cause. *)
Fixpoint cause (e : error) : error := match e with ErrWrap _ e' => cause e' | _ => e end.
(** An error of [go-errors] is replaced by its cause when that is [known]. *)
Definition unwrap_known {A} (known : error -> bool) (m : prog W A) : prog W A :=
  fun w => match m w with
           | (Err (ErrWrap p e), w') => (Err (if known (cause e) then cause e else ErrWrap p e), w')
           | r => r
           end.

(** Lift a pure outcome. *)
Definition lift {A} (r : result A) : prog W A := fun w => (r, w).

(** [for _, x := range l { if err := f(x); err != nil { return err } }] *)
Fixpoint for_each {A} (l : list A) (f : A -> prog W unit) : prog W unit :=
  match l with
  | [] => ret tt
  | x :: l' => bind (f x) (fun _ => for_each l' f)
  end.

(** The same loop with an accumulator. *)
Fixpoint fold_each {A S} (l : list A) (s : S) (f : S -> A -> prog W S) : prog W S :=
  match l with
  | [] => ret s
  | x :: l' => bind (f s x) (fun s' => fold_each l' s' f)
  end.

(** The same loop collecting one value per element. *)
Fixpoint map_each {A B} (l : list A) (f : A -> prog W B) : prog W (list B) :=
  match l with
  | [] => ret []
  | x :: l' => bind (f x) (fun y => bind (map_each l' f) (fun ys => ret (y :: ys)))
  end.
End prog.

Notation "x <- m ;; k" := (bind m (fun x => k))
  (at level 100, m at next level, right associativity) : prog_scope.
Notation "m ;;; k" := (bind m (fun _ => k))
  (at level 100, right associativity) : prog_scope.
#[global] Open Scope prog_scope.

(** * Frames: what a computation may change

    [frame R m]: whatever the outcome, the worlds before and after are in
    [R].  For a preorder [R] frames compose along the structure of the code. *)

Definition frame {W A} (R : W -> W -> Prop) (m : prog W A) : Prop :=
  forall w, R w (m w).2.

(** [yields m Q]: whenever [m] returns without error, [Q] relates the world
    before, the value and the world after. *)
Definition yields {W A} (m : prog W A) (Q : W -> A -> W -> Prop) : Prop :=
  forall w a w', m w = (Ok a, w') -> Q w a w'.

Section frame.
Context {W : Type} (R : W -> W -> Prop) `{!PreOrder R}.

Lemma frame_ret {A} (a : A) : frame R (ret a).
Proof. intros w; simpl; reflexivity. Qed.
Lemma frame_fail {A} e : frame R (fail (A:=A) e).
Proof. intros w; simpl; reflexivity. Qed.
Lemma frame_panic {A} p : frame R (panic (A:=A) p).
Proof. intros w; simpl; reflexivity. Qed.
Lemma frame_lift {A} (r : result A) : frame R (lift r).
Proof. intros w; simpl; reflexivity. Qed.
Lemma frame_gets {A} (f : W -> A) : frame R (gets f).
Proof. intros w; simpl; reflexivity. Qed.

Lemma frame_bind {A B} (m : prog W A) (k : A -> prog W B) :
  frame R m -> (forall a, frame R (k a)) -> frame R (bind m k).
Proof.
  intros Hm Hk w. unfold bind. specialize (Hm w).
  destruct (m w) as [[a|e|p] w'] eqn:E; simpl in *; [|done|done].
  etransitivity; [exact Hm|]. apply Hk.
Qed.

Lemma frame_ignore_err (m : prog W unit) : frame R m -> frame R (ignore_err m).
Proof.
  intros Hm w. unfold ignore_err. specialize (Hm w).
  by destruct (m w) as [[a|e|p] w'].
Qed.

Lemma frame_wrap_err {A} p (m : prog W A) : frame R m -> frame R (wrap_err p m).
Proof.
  intros Hm w. unfold wrap_err. specialize (Hm w).
  by destruct (m w) as [[a|e|q] w'].
Qed.

Lemma frame_try_ok {A} (m : prog W A) : frame R m -> frame R (try_ok m).
Proof.
  intros Hm w. unfold try_ok. specialize (Hm w).
  by destruct (m w) as [[a|e|q] w'].
Qed.

Lemma frame_for_each {A} (l : list A) (f : A -> prog W unit) :
  (forall a, frame R (f a)) -> frame R (for_each l f).
Proof.
  intros Hf. induction l as [|x l IH]; simpl; [apply frame_ret|].
  apply frame_bind; auto.
Qed.

Lemma frame_fold_each {A S} (l : list A) (s : S) (f : S -> A -> prog W S) :
  (forall s a, frame R (f s a)) -> frame R (fold_each l s f).
Proof.
  intros Hf. revert s. induction l as [|x l IH]; intros s; simpl; [apply frame_ret|].
  apply frame_bind; auto.
Qed.

Lemma frame_map_each {A B} (l : list A) (f : A -> prog W B) :
  (forall a, frame R (f a)) -> frame R (map_each l f).
Proof.
  intros Hf. induction l as [|x l IH]; simpl; [apply frame_ret|].
  repeat (apply frame_bind; intros; auto using frame_ret).
Qed.
End frame.

Create HintDb frame discriminated.
#[export] Hint Resolve frame_ret frame_fail frame_panic frame_lift frame_gets
  frame_bind frame_ignore_err frame_wrap_err frame_try_ok frame_for_each frame_fold_each frame_map_each : frame.

(** * Successful runs *)

Section runs.
Context {W : Type}.

Lemma bind_Ok {A B} (m : prog W A) (k : A -> prog W B) w b w' :
  bind m k w = (Ok b, w') -> exists a w1, m w = (Ok a, w1) /\ k a w1 = (Ok b, w').
Proof. unfold bind. destruct (m w) as [[a|e|p] w1]; [|done..]. intros Hk. by exists a, w1. Qed.
Lemma bind_run {A B} (m : prog W A) (k : A -> prog W B) w a w' : m w = (Ok a, w') -> bind m k w = k a w'.
Proof. intros E. unfold bind. by rewrite E. Qed.
Lemma ret_Ok {A} (a b : A) (w w' : W) : ret a w = (Ok b, w') -> b = a /\ w' = w.
Proof. by intros [= -> ->]. Qed.
Lemma gets_Ok {A} (f : W -> A) b w w' : gets f w = (Ok b, w') -> b = f w /\ w' = w.
Proof. by intros [= -> ->]. Qed.
Lemma lift_Ok {A} (x : result A) (w w' : W) a : lift x w = (Ok a, w') -> x = Ok a /\ w' = w.
Proof. unfold lift. by destruct x; intros [= -> ->]. Qed.
Lemma wrap_err_Ok {A} p (m : prog W A) a w w' : wrap_err p m w = (Ok a, w') -> m w = (Ok a, w').
Proof. unfold wrap_err. by destruct (m w) as [[?|?|?] ?]. Qed.
Lemma ignore_err_Ok (m : prog W unit) w w' : ignore_err m w = (Ok tt, w') -> (m w).2 = w'.
Proof. unfold ignore_err. destruct (m w) as [[?|?|?] ?]; by intros [=]. Qed.
Lemma try_ok_Ok {A} (m : prog W A) o w w' : try_ok m w = (Ok o, w') -> (m w).2 = w'.
Proof. unfold try_ok. destruct (m w) as [[?|?|?] ?]; by intros [=]. Qed.
Lemma try_ok_Some {A} (m : prog W A) a w w' : try_ok m w = (Ok (Some a), w') -> m w = (Ok a, w').
Proof. unfold try_ok. destruct (m w) as [[?|?|?] ?]; by intros [=]; subst. Qed.
Lemma run_pair {A} (m : prog W A) w r : (m w).1 = r -> m w = (r, (m w).2).
Proof. intros <-. apply surjective_pairing. Qed.
Lemma frame_run {A} (R : W -> W -> Prop) (m : prog W A) w r w' : frame R m -> m w = (r, w') -> R w w'.
Proof. intros F E. specialize (F w). by rewrite E in F. Qed.

(** A loop that succeeds: each pass kept the invariant, and after the last one
    what a pass establishes, and later passes keep, holds for every element. *)
Lemma for_each_Ok {A} (l : list A) (f : A -> prog W unit) (I : W -> Prop) (Q : A -> W -> Prop) w w' :
  for_each l f w = (Ok tt, w') -> I w ->
  (forall a w1 w2, a ∈ l -> I w1 -> f a w1 = (Ok tt, w2) ->
     I w2 /\ Q a w2 /\ forall b, Q b w1 -> Q b w2) ->
  I w' /\ (forall b, Q b w -> Q b w') /\ forall a, a ∈ l -> Q a w'.
Proof.
  revert w. induction l as [|x l IH]; intros w; simpl.
  - intros [_ ->]%ret_Ok Hi _. split_and!; [done..|]. by intros a ?%elem_of_nil.
  - intros ([] & w1 & E1 & E2)%bind_Ok Hi Hf.
    destruct (Hf x w w1) as (Hi1 & Hq & Hk); [left|done|done|].
    destruct (IH w1 E2 Hi1) as (Hi' & Hk' & Hq'); [intros; apply Hf; [by right|done..]|].
    split_and!; [done|auto|]. intros a [->|Ha]%elem_of_cons; auto.
Qed.
(** An invariant of the state of a loop that succeeds. *)
Lemma fold_each_inv {A S} (l : list A) (s : S) (f : S -> A -> prog W S) (I : S -> Prop) w s' w' :
  fold_each l s f w = (Ok s', w') -> I s ->
  (forall a s1 s2 w1 w2, a ∈ l -> I s1 -> f s1 a w1 = (Ok s2, w2) -> I s2) -> I s'.
Proof.
  revert s w. induction l as [|x l IH]; intros s w; simpl.
  - by intros [-> _]%ret_Ok.
  - intros (s1 & w1 & E1 & E2)%bind_Ok Hi Hf. eapply IH; [exact E2| |].
    + by eapply Hf; [left|exact Hi|exact E1].
    + intros a t1 t2 v1 v2 Ha. apply Hf. by right.
Qed.
End runs.

(** Splits the run of a sequence that succeeded. *)
Ltac run_ok H :=
  lazymatch type of H with
  | bind _ _ _ = (Ok _, _) =>
      let a := fresh "a" in let w := fresh "w" in let E := fresh "E" in
      apply bind_Ok in H as (a & w & E & H)
  | ret _ _ = (Ok _, _) => apply ret_Ok in H as [-> ->]
  end.

(** * Lists *)

Lemma cons_eq_inv {A} (x y : A) l k : x :: l = y :: k -> x = y /\ l = k.
Proof. by intros [= -> ->]. Qed.

Lemma Some_functional {A} (o : option A) x y : o = Some x -> o = Some y -> x = y.
Proof. congruence. Qed.

Lemma forallb_ext {A} (f g : A -> bool) l : (forall x, f x = g x) -> forallb f l = forallb g l.
Proof. intros H. induction l as [|x l IH]; simpl; [done|]. by rewrite H, IH. Qed.
