(* ===== verification/GoLib.v ===== *)
(** What the control plane uses of Go's standard library: [strings] and
    [strconv] on byte strings, [net/url], [sort.SliceStable], with the lemmas the
    components share.

    Letter case and white space are those of ASCII: the strings these
    functions are applied to are host names, header names, versions and
    paths. *)
From S2P Require Import Prelude.
From Stdlib Require Import Ascii DecimalString DecimalZ.

Open Scope string_scope.
#[global] Arguments String.append !_ _ / : simpl nomatch.

(** * Definitions *)

Definition strings_HasPrefix (s p : string) : bool := String.prefix p s.

Fixpoint str_drop (n : nat) (s : string) : string :=
  match n, s with
  | O, _ => s
  | S n', String _ s' => str_drop n' s'
  | S _, "" => ""
  end.

Fixpoint str_take (n : nat) (s : string) : string :=
  match n, s with
  | S n', String c s' => String c (str_take n' s')
  | _, _ => ""
  end.

Definition strings_HasSuffix (s p : string) : bool :=
  (String.length p <=? String.length s)%nat &&
  String.eqb (str_drop (String.length s - String.length p) s) p.

(** [strings.Index]: [None] is -1. *)
Fixpoint strings_Index (s sub : string) : option nat :=
  if String.prefix sub s then Some O
  else match s with
       | "" => None
       | String _ s' => S <$> strings_Index s' sub
       end.

(** [strings.LastIndex]: [None] is -1. *)
Fixpoint strings_LastIndex (s sub : string) : option nat :=
  match s with
  | "" => if String.prefix sub s then Some O else None
  | String _ s' => match strings_LastIndex s' sub with
                   | Some n => Some (S n)
                   | None => if String.prefix sub s then Some O else None
                   end
  end.

Definition strings_Contains (s sub : string) : bool :=
  match strings_Index s sub with Some _ => true | None => false end.

(** [strings.ReplaceAll s old new] for a non-empty [old]; [skip] bytes of the
    current match are still to be dropped. *)
Fixpoint replace_all (skip : nat) (s old new : string) : string :=
  match s with
  | "" => ""
  | String c s' =>
      match skip with
      | S k => replace_all k s' old new
      | O => if String.prefix old s
             then new ++ replace_all (String.length old - 1) s' old new
             else String c (replace_all O s' old new)
      end
  end.
Definition strings_ReplaceAll (s old new : string) : string := replace_all O s old new.

(** [strings.Split s sep] for a non-empty [sep]; [acc] is the field being
    read, reversed byte by byte. *)
Fixpoint str_rev_app (s acc : string) : string :=
  match s with "" => acc | String c s' => str_rev_app s' (String c acc) end.
Fixpoint split_aux (skip : nat) (s sep acc : string) : list string :=
  match s with
  | "" => [str_rev_app acc ""]
  | String c s' =>
      match skip with
      | S k => split_aux k s' sep acc
      | O => if String.prefix sep s
             then str_rev_app acc "" :: split_aux (String.length sep - 1) s' sep ""
             else split_aux O s' sep (String c acc)
      end
  end.
Definition strings_Split (s sep : string) : list string := split_aux O s sep "".

Definition strings_Join (elems : list string) (sep : string) : string := String.concat sep elems.

Definition strings_TrimPrefix (s p : string) : string :=
  if strings_HasPrefix s p then str_drop (String.length p) s else s.

Definition is_space (c : ascii) : bool :=
  bool_decide (N_of_ascii c ∈ [9; 10; 11; 12; 13; 32]%N).
Fixpoint trim_left (s : string) : string :=
  match s with
  | String c s' => if is_space c then trim_left s' else s
  | "" => ""
  end.
Definition str_rev (s : string) : string := str_rev_app s "".
Definition strings_TrimSpace (s : string) : string :=
  str_rev (trim_left (str_rev (trim_left s))).

Definition ascii_lower (c : ascii) : ascii :=
  let n := N_of_ascii c in
  if ((65 <=? n) && (n <=? 90))%N then ascii_of_N (n + 32) else c.
Fixpoint strings_ToLower (s : string) : string :=
  match s with "" => "" | String c s' => String (ascii_lower c) (strings_ToLower s') end.
Definition strings_EqualFold (s t : string) : bool :=
  String.eqb (strings_ToLower s) (strings_ToLower t).

(** [strconv.Atoi]: an optional sign and at least one decimal digit, in the
    range of a 64-bit [int]. *)
Definition digit_value (c : ascii) : option Z :=
  let n := Z.of_N (N_of_ascii c) in
  if ((48 <=? n) && (n <=? 57))%Z then Some (n - 48)%Z else None.
Fixpoint digits_value (s : string) (acc : Z) : option Z :=
  match s with
  | "" => Some acc
  | String c s' => match digit_value c with
                   | Some d => digits_value s' (10 * acc + d)%Z
                   | None => None
                   end
  end.
Definition int_range (z : Z) : bool := ((- 2 ^ 63 <=? z) && (z <? 2 ^ 63))%Z.
Definition in_range (o : option Z) : option Z :=
  match o with Some z => if int_range z then Some z else None | None => None end.
Definition strconv_Atoi (s : string) : option Z :=
  match s with
  | "" => None
  | String c s' =>
      if String.eqb (String c "") "-"
      then match s' with "" => None | _ => in_range (Z.opp <$> digits_value s' 0) end
      else if String.eqb (String c "") "+"
      then match s' with "" => None | _ => in_range (digits_value s' 0) end
      else in_range (digits_value s 0)
  end.

(** [strconv.Itoa] and the [%d] verb. *)
Definition strconv_Itoa (z : Z) : string := NilZero.string_of_int (Z.to_int z).

(** Conversion to [int32] keeps the low 32 bits, two's complement. *)
Definition int32 (z : Z) : Z := ((z + 2 ^ 31) mod 2 ^ 32 - 2 ^ 31)%Z.

(** * Lemmas *)

Lemma str_app_nil_r s : s ++ "" = s.
Proof. induction s; simpl; congruence. Qed.
Lemma str_app_assoc (a b c : string) : (a ++ b) ++ c = a ++ (b ++ c).
Proof. induction a; simpl; congruence. Qed.
Lemma str_length_app (a b : string) :
  String.length (a ++ b) = (String.length a + String.length b)%nat.
Proof. induction a; simpl; congruence. Qed.

Lemma prefix_spec p s : String.prefix p s = true <-> exists t, s = p ++ t.
Proof.
  revert s. induction p as [|c p IH]; intros [|d s]; simpl; split; intros H;
    try done; try (by eexists); try (by destruct H).
  - destruct (ascii_dec c d) as [->|]; [|done]. apply IH in H as [t ->]. by exists t.
  - destruct H as [t [= -> ->]]. destruct (ascii_dec c c); [|done]. apply IH. by exists t.
Qed.

Lemma prefix_app p s : String.prefix p (p ++ s) = true.
Proof. apply prefix_spec. by exists s. Qed.

Lemma str_drop_app p s : str_drop (String.length p) (p ++ s) = s.
Proof. induction p; simpl; [by destruct s|done]. Qed.
Lemma str_take_app p s : str_take (String.length p) (p ++ s) = p.
Proof. induction p; simpl; [by destruct s|congruence]. Qed.
Lemma str_take_drop n s : str_take n s ++ str_drop n s = s.
Proof. revert s; induction n as [|n IH]; intros [|c s]; simpl; rewrite ?IH; done. Qed.

Lemma str_rev_app_spec s acc : str_rev_app s acc = str_rev_app s "" ++ acc.
Proof.
  revert acc. induction s as [|c s IH]; intros acc; simpl; [done|].
  rewrite IH, (IH (String c "")), str_app_assoc. done.
Qed.
Lemma str_rev_app_app a b acc : str_rev_app (a ++ b) acc = str_rev_app b (str_rev_app a acc).
Proof. revert acc; induction a; intros; simpl; auto. Qed.
Lemma str_rev_rev_app s acc acc' :
  str_rev_app (str_rev_app s acc) acc' = str_rev_app acc (s ++ acc').
Proof. revert acc; induction s as [|c s IH]; intros acc; simpl; [done|]. by rewrite IH. Qed.
Lemma str_rev_involutive s : str_rev (str_rev s) = s.
Proof. unfold str_rev. rewrite str_rev_rev_app. simpl. apply str_app_nil_r. Qed.
Lemma str_rev_app_distr a b : str_rev (a ++ b) = str_rev b ++ str_rev a.
Proof. unfold str_rev. by rewrite str_rev_app_app, str_rev_app_spec. Qed.

Lemma Index_unfold s sub :
  strings_Index s sub =
    if String.prefix sub s then Some O
    else match s with "" => None | String _ s' => S <$> strings_Index s' sub end.
Proof. by destruct s. Qed.

(** The first occurrence: [Index] splits the string around it and there is no
    earlier one. *)
Lemma Index_Some s sub n :
  strings_Index s sub = Some n -> exists u v, s = u ++ sub ++ v /\ String.length u = n.
Proof.
  revert n. induction s as [|c s IH]; intros n; rewrite Index_unfold;
    destruct (String.prefix _ _) eqn:E;
    try (intros [= <-]; apply prefix_spec in E as [t E]; rewrite E; by exists "", t); try done.
  destruct (strings_Index s sub) as [k|]; simpl; intros [= <-].
  destruct (IH k eq_refl) as (u & v & -> & <-). by exists (String c u), v.
Qed.

Lemma Index_app_ge a b sub n :
  strings_Index (a ++ sub ++ b) sub = Some n -> (n <= String.length a)%nat.
Proof.
  revert n. induction a as [|c a IH]; intros n; rewrite Index_unfold; cbn [String.append String.length].
  - rewrite prefix_app. by intros [= <-].
  - destruct (String.prefix _ _); [intros [= <-]; lia|].
    destruct (strings_Index _ _) as [k|] eqn:E; simpl; intros [= <-].
    specialize (IH k eq_refl). lia.
Qed.

Lemma Index_is_Some s sub : strings_Index s sub <> None <-> exists u v, s = u ++ sub ++ v.
Proof.
  split.
  - destruct (strings_Index s sub) as [n|] eqn:E; [|done].
    intros _. apply Index_Some in E as (u & v & -> & _). by exists u, v.
  - intros (u & v & ->). induction u as [|c u IH]; rewrite Index_unfold; cbn [String.append].
    + by rewrite prefix_app.
    + destruct (String.prefix _ _); [done|].
      by destruct (strings_Index (u ++ sub ++ v) sub).
Qed.

Lemma Contains_spec s sub : strings_Contains s sub = true <-> exists u v, s = u ++ sub ++ v.
Proof.
  unfold strings_Contains. rewrite <- Index_is_Some.
  by destruct (strings_Index s sub).
Qed.

(** Removing a non-empty substring that does not occur changes nothing. *)
Lemma ReplaceAll_absent s old new :
  strings_Contains s old = false -> strings_ReplaceAll s old new = s.
Proof.
  unfold strings_ReplaceAll, strings_Contains. induction s as [|c s IH]; [done|].
  rewrite Index_unfold. cbn [replace_all]. destruct (String.prefix _ _); [done|].
  destruct (strings_Index s old); simpl; [done|]. intros _. by rewrite IH.
Qed.

Lemma int32_range z : (- 2 ^ 31 <= int32 z < 2 ^ 31)%Z.
Proof. unfold int32. pose proof (Z.mod_pos_bound (z + 2 ^ 31) (2 ^ 32)). lia. Qed.
Lemma int32_id z : (- 2 ^ 31 <= z < 2 ^ 31)%Z -> int32 z = z.
Proof. intros H. unfold int32. rewrite Z.mod_small; lia. Qed.

Lemma HasSuffix_spec s p : strings_HasSuffix s p = true -> exists u, s = u ++ p.
Proof.
  unfold strings_HasSuffix. intros [_ H%String.eqb_eq]%andb_prop.
  exists (str_take (String.length s - String.length p) s). rewrite <- H at 2. by rewrite str_take_drop.
Qed.
Lemma HasSuffix_app u p : strings_HasSuffix (u ++ p) p = true.
Proof.
  unfold strings_HasSuffix. rewrite str_length_app, Nat.add_sub, str_drop_app, String.eqb_refl, andb_true_r.
  apply Nat.leb_le. lia.
Qed.

Create Rewrite HintDb gostr.
#[export] Hint Rewrite str_app_nil_r str_app_assoc str_length_app : gostr.

Example split_ex : strings_Split "a||b||c" "||" = ["a"; "b"; "c"].
Proof. reflexivity. Qed.
Example replace_ex : strings_ReplaceAll "/a/([^/]+)/([^/]+)" "([^/]+)" "A" = "/a/A/A".
Proof. reflexivity. Qed.
Example atoi_ex : strconv_Atoi "12" = Some 12%Z /\ strconv_Atoi "-7" = Some (-7)%Z /\ strconv_Atoi "1a" = None.
Proof. repeat split. Qed.
Example trim_ex : strings_TrimSpace "  a b " = "a b".
Proof. reflexivity. Qed.
Example itoa_ex : strconv_Itoa 8080 = "8080" /\ strconv_Itoa (-5) = "-5" /\ strconv_Itoa 0 = "0".
Proof. repeat split. Qed.

(** * Strings without a character *)

Fixpoint lacks (c : ascii) (s : string) : bool :=
  match s with "" => true | String d s' => negb (Ascii.eqb d c) && lacks c s' end.

Lemma lacks_app c a b : lacks c (a ++ b) = lacks c a && lacks c b.
Proof. induction a as [|d a IH]; simpl; [done|]. by rewrite IH, andb_assoc. Qed.

Lemma prefix_lacks c sub d s : Ascii.eqb d c = false -> String.prefix (String c sub) (String d s) = false.
Proof.
  intros H. simpl. destruct (ascii_dec c d) as [->|]; [|done]. by rewrite Ascii.eqb_refl in H.
Qed.

(** A separator is found right after a part that lacks its first character. *)
Lemma Index_lacks c sub u v :
  lacks c u = true -> strings_Index (u ++ String c sub ++ v) (String c sub) = Some (String.length u).
Proof.
  induction u as [|d u IH]; intros H.
  - rewrite Index_unfold. cbn [String.append]. change (String c (sub ++ v)) with (String c sub ++ v).
    by rewrite prefix_app.
  - simpl in H. apply andb_prop in H as [Hd Hu]. apply negb_true_iff in Hd.
    change (String d u ++ ?x) with (String d (u ++ x)). rewrite Index_unfold, prefix_lacks by done.
    by rewrite IH.
Qed.
Lemma Index_lacks_None c sub u : lacks c u = true -> strings_Index u (String c sub) = None.
Proof.
  induction u as [|d u IH]; intros H; [done|].
  simpl in H. apply andb_prop in H as [Hd Hu]. apply negb_true_iff in Hd.
  rewrite Index_unfold, prefix_lacks by done. by rewrite IH.
Qed.

Lemma split_aux_lacks c sub u v acc :
  lacks c u = true ->
  split_aux O (u ++ String c sub ++ v) (String c sub) acc
  = (str_rev_app acc "" ++ u) :: strings_Split v (String c sub).
Proof.
  revert acc. induction u as [|d u IH]; intros acc H.
  - cbn [String.append split_aux]. change (String c (sub ++ v)) with (String c sub ++ v).
    rewrite prefix_app, str_app_nil_r. f_equal. cbn [String.length]. rewrite Nat.sub_succ, Nat.sub_0_r.
    clear. unfold strings_Split. generalize (String c sub) as sep. intros sep.
    induction sub as [|e sub IH]; [done|]. exact IH.
  - simpl in H. apply andb_prop in H as [Hd Hu]. apply negb_true_iff in Hd.
    change (String d u ++ ?x) with (String d (u ++ x)). cbn [split_aux].
    rewrite prefix_lacks by done. rewrite IH by done. simpl. by rewrite (str_rev_app_spec acc (String d "")), str_app_assoc.
Qed.
Lemma Split_lacks c sub u v :
  lacks c u = true ->
  strings_Split (u ++ String c sub ++ v) (String c sub) = u :: strings_Split v (String c sub).
Proof. intros H. unfold strings_Split at 1. by rewrite split_aux_lacks. Qed.

Lemma lacks_before c u v u' v' :
  lacks c u = true -> lacks c u' = true -> u ++ String c v = u' ++ String c v' -> u = u' /\ v = v'.
Proof.
  revert u'. induction u as [|d u IH]; intros [|d' u'] H H' E; simpl in *.
  - by injection E as ->.
  - injection E as -> _. by rewrite Ascii.eqb_refl in H'.
  - injection E as -> _. by rewrite Ascii.eqb_refl in H.
  - injection E as -> E. apply andb_prop in H as [_ H], H' as [_ H'].
    destruct (IH u' H H' E) as [-> ->]. done.
Qed.

(** * [net/url] and [net]

    The parser of addresses and the lookup of a service's port are parameters,
    the parts of the host of a parsed address are read from it as the library
    does. *)

Record URL := mkURL { URL_Scheme : string; URL_Host : string }.
(** [url.Parse], [net.LookupPort("tcp", scheme)], and the scheme that the base
    library selects for addresses without one ([constants.SelectUrl]). *)
Class NetUrl : Type := {
  url_Parse : string -> option URL;
  net_LookupPort : string -> option Z;
  SelectUrl : string
}.

Fixpoint all_digits (s : string) : bool :=
  match s with "" => true | String c s' => match digit_value c with Some _ => all_digits s' | None => false end end.
(** The host and, after the last colon, the port when it is digits only;
    brackets around an address of version 6 are dropped. *)
Definition splitHostPort (hostPort : string) : string * string :=
  let '(host, port) :=
    match strings_LastIndex hostPort ":" with
    | Some colon =>
        let after := str_drop (colon + 1) hostPort in
        if all_digits after then (str_take colon hostPort, after) else (hostPort, "")
    | None => (hostPort, "")
    end in
  (if strings_HasPrefix host "[" && strings_HasSuffix host "]" then str_take (String.length host - 2) (str_drop 1 host) else host, port).
Definition URL_Hostname (u : URL) : string := (splitHostPort (URL_Host u)).1.
Definition URL_Port (u : URL) : string := (splitHostPort (URL_Host u)).2.

Example splitHostPort_ex : splitHostPort "[::1]:8080" = ("::1", "8080") /\ splitHostPort "repo" = ("repo", "").
Proof. split; reflexivity. Qed.

(** * [sort.SliceStable]

    The sort is the insertion sort that the library runs on blocks of up to 20
    elements; for a strict weak order every stable sort gives the same list
    ([stable_arrangement_unique]), so the merging of longer inputs does not
    matter there. *)
#[local] Open Scope list_scope.

Section sort.
Context {A : Type} (less : A -> A -> bool).

(** [x] moves left past the elements it is less than; [rp] is the sorted
    prefix, last element first. *)
Fixpoint insertion_step (x : A) (rp : list A) : list A :=
  match rp with
  | [] => [x]
  | y :: rp' => if less x y then y :: insertion_step x rp' else x :: rp
  end.
Definition SliceStable (l : list A) : list A :=
  rev (fold_left (fun rp x => insertion_step x rp) l []).
End sort.

(** * Stable sorting *)

Definition equivalent {A} (less : A -> A -> bool) (x y : A) : bool := negb (less x y) && negb (less y x).

(** [l'] is [l] in ascending order, equivalent elements in the order of [l]. *)
Definition stable_arrangement {A} (less : A -> A -> bool) (l l' : list A) : Prop :=
  l' ≡ₚ l /\
  StronglySorted (fun x y => less y x = false) l' /\
  forall z, List.filter (equivalent less z) l' = List.filter (equivalent less z) l.

Class StrictWeakOrder {A} (less : A -> A -> bool) : Prop := {
  less_irrefl x : less x x = false;
  less_trans x y z : less x y = true -> less y z = true -> less x z = true;
  less_negtrans x y z : less x y = false -> less y z = false -> less x z = false
}.

Section insertion.
Context {A : Type} (less : A -> A -> bool).

Lemma insertion_step_perm x rp : insertion_step less x rp ≡ₚ x :: rp.
Proof.
  induction rp as [|y rp IH]; simpl; [done|]. destruct (less x y); [|done].
  rewrite IH. constructor.
Qed.

Lemma fold_insertion_perm l rp :
  fold_left (fun rp x => insertion_step less x rp) l rp ≡ₚ l ++ rp.
Proof.
  revert rp. induction l as [|x l IH]; intros rp; simpl; [done|].
  rewrite IH, insertion_step_perm. symmetry. apply Permutation_middle.
Qed.

Lemma SliceStable_perm l : SliceStable less l ≡ₚ l.
Proof.
  unfold SliceStable. rewrite <- Permutation_rev, fold_insertion_perm. by rewrite app_nil_r.
Qed.

Context `{!StrictWeakOrder less}.

Lemma less_asym x y : less x y = true -> less y x = false.
Proof.
  intros H. apply not_true_iff_false. intros H'.
  pose proof (less_trans _ _ _ H H'). by rewrite less_irrefl in *.
Qed.

Lemma equivalent_sym x y : equivalent less x y = equivalent less y x.
Proof. unfold equivalent. apply andb_comm. Qed.
Lemma equivalent_not_less z x y :
  equivalent less z x = true -> equivalent less z y = true -> less x y = false.
Proof.
  unfold equivalent. rewrite !andb_true_iff, !negb_true_iff. intros [H1 H2] [H3 H4].
  by apply less_negtrans with z.
Qed.

Definition descending : list A -> Prop := StronglySorted (fun x y => less x y = false).

Lemma insertion_step_sorted x rp : descending rp -> descending (insertion_step less x rp).
Proof.
  unfold descending. induction 1 as [|y rp Hs IH Hy]; simpl; [repeat constructor|].
  destruct (less x y) eqn:E.
  - constructor; [done|]. apply Forall_forall. intros z Hz.
    rewrite insertion_step_perm in Hz. apply elem_of_cons in Hz as [->|Hz].
    + by apply less_asym.
    + rewrite Forall_forall in Hy. by apply Hy.
  - constructor; [by constructor|]. constructor; [done|].
    eapply Forall_impl; [exact Hy|]. intros z Hz. simpl in Hz.
    by apply less_negtrans with y.
Qed.

Lemma insertion_step_filter z x rp :
  List.filter (equivalent less z) (insertion_step less x rp)
  = (if equivalent less z x then [x] else []) ++ List.filter (equivalent less z) rp.
Proof.
  induction rp as [|y rp IH]; simpl; [by destruct (equivalent less z x)|].
  destruct (less x y) eqn:E; simpl; [|by destruct (equivalent less z x)].
  rewrite IH. destruct (equivalent less z x) eqn:Ex, (equivalent less z y) eqn:Ey; try done.
  pose proof (equivalent_not_less _ _ _ Ex Ey). congruence.
Qed.

Lemma fold_insertion_sorted l rp :
  descending rp -> descending (fold_left (fun rp x => insertion_step less x rp) l rp).
Proof. revert rp. induction l; simpl; auto using insertion_step_sorted. Qed.

Lemma fold_insertion_filter z l rp :
  List.filter (equivalent less z) (fold_left (fun rp x => insertion_step less x rp) l rp)
  = rev (List.filter (equivalent less z) l) ++ List.filter (equivalent less z) rp.
Proof.
  revert rp. induction l as [|x l IH]; intros rp; simpl; [done|].
  rewrite IH, insertion_step_filter. destruct (equivalent less z x); simpl; [|done].
  by rewrite <- app_assoc.
Qed.

Lemma StronglySorted_rev (R : A -> A -> Prop) l :
  StronglySorted R l -> StronglySorted (fun x y => R y x) (rev l).
Proof.
  induction 1 as [|x l Hs IH Hx]; simpl; [constructor|].
  apply StronglySorted_app_2; [|done|repeat constructor].
  intros a b Ha Hb. apply list_elem_of_singleton in Hb as ->.
  rewrite Forall_forall in Hx. apply Hx. by rewrite list_elem_of_In, in_rev, <- list_elem_of_In.
Qed.

Lemma filter_rev_list (f : A -> bool) l : List.filter f (rev l) = rev (List.filter f l).
Proof.
  induction l as [|x l IH]; simpl; [done|].
  rewrite List.filter_app, IH. simpl. destruct (f x); simpl; [done|]. by rewrite app_nil_r.
Qed.

Lemma SliceStable_spec l : stable_arrangement less l (SliceStable less l).
Proof.
  split_and!; [apply SliceStable_perm| |].
  - unfold SliceStable. apply (StronglySorted_rev (fun x y => less x y = false)).
    apply fold_insertion_sorted. constructor.
  - intros z. unfold SliceStable. rewrite filter_rev_list, fold_insertion_filter. simpl.
    by rewrite app_nil_r, rev_involutive.
Qed.

(** A stable sort has only one result. *)
Lemma stable_arrangement_unique l l1 l2 :
  stable_arrangement less l l1 -> stable_arrangement less l l2 -> l1 = l2.
Proof.
  intros (P1 & S1 & F1) (P2 & S2 & F2).
  assert (l1 ≡ₚ l2) as P by (by rewrite P1, P2).
  assert (forall z, List.filter (equivalent less z) l1 = List.filter (equivalent less z) l2) as F
    by (intros z; by rewrite F1, F2).
  clear l P1 P2 F1 F2. revert l2 S2 P F.
  induction S1 as [|x l1 Hs IH Hx]; intros l2 S2 P F.
  - by apply Permutation_nil_l in P as ->.
  - destruct l2 as [|y l2]; [by apply Permutation_nil_r in P|].
    apply StronglySorted_inv in S2 as [S2 Hy]. rewrite Forall_forall in Hx, Hy.
    assert (x = y) as ->.
    { assert (less y x = false) as H1.
      { assert (y ∈ x :: l1) as H by (rewrite P; left). apply elem_of_cons in H as [->|H];
          [apply less_irrefl|by apply Hx]. }
      assert (less x y = false) as H2.
      { assert (x ∈ y :: l2) as H by (rewrite <- P; left). apply elem_of_cons in H as [->|H];
          [apply less_irrefl|by apply Hy]. }
      assert (equivalent less x x = true /\ equivalent less x y = true) as [E1 E2].
      { unfold equivalent. by rewrite H1, H2, (less_irrefl (less:=less)). }
      specialize (F x). simpl in F. rewrite E1, E2 in F. by injection F as ->. }
    f_equal. apply IH; [done|by apply Permutation_cons_inv in P|].
    intros z. specialize (F z). simpl in F. destruct (equivalent less z y); [by injection F|done].
Qed.
End insertion.

(** Only the comparisons of elements of the list matter. *)
Lemma SliceStable_ext {A} (less less' : A -> A -> bool) l :
  (forall x y, x ∈ l -> y ∈ l -> less x y = less' x y) -> SliceStable less l = SliceStable less' l.
Proof.
  intros H. unfold SliceStable. f_equal.
  assert (forall (rp : list A), (forall x, x ∈ rp -> x ∈ l) -> forall l0, (forall x, x ∈ l0 -> x ∈ l) ->
    fold_left (fun rp x => insertion_step less x rp) l0 rp
    = fold_left (fun rp x => insertion_step less' x rp) l0 rp) as Hf; [|by apply Hf; [set_solver|]].
  intros rp Hrp l0. revert rp Hrp. induction l0 as [|x l0 IH]; intros rp Hrp Hl; simpl; [done|].
  assert (insertion_step less x rp = insertion_step less' x rp) as ->.
  { assert (x ∈ l) as Hxl by (apply Hl; left). clear IH Hl.
    induction rp as [|y rp IHr]; simpl; [done|].
    rewrite H by (done || (apply Hrp; left)). rewrite IHr; [done|]. intros; apply Hrp; by right. }
  apply IH; [|intros; apply Hl; by right].
  intros y Hy. rewrite insertion_step_perm in Hy. apply elem_of_cons in Hy as [->|Hy]; [|auto].
  apply Hl. left.
Qed.
