(* ===== verification/Domain.v ===== *)
(** The persisted entities of [domain/domain.go]: one record per Go struct, a
    field [T_F] for the Go field [F] of struct [T].

    A pointer field is an [option], a slice a [list] (nil and empty are the
    same; its elements are options where the code can store a nil pointer), an integer a [Z]; a [float64] is kept as the 64 bits that encode it
    and never computed with, a [time.Time] as nanoseconds.  The back references
    of the object graph ([Endpoint.Cluster], [HeaderMatcher.Route],
    [NodeGroup.Clusters] and the like), which MarshalPrepare clears and no modelled code reads,
    are not carried, so the records are trees and copying one is the deep
    copy [Clone] makes. *)
From S2P Require Import Prelude GoLib.
Open Scope string_scope.

(** * Scalars *)

Definition GatewayType := string.
Definition Ingress : GatewayType := "ingress".
Definition Egress : GatewayType := "egress".
Definition Mesh : GatewayType := "mesh".
#[export] Instance zero_GatewayType : Zero GatewayType := "".

Record NullInt := mkNullInt { NullInt_Int64 : Z; NullInt_Valid : bool }.
Record NullBool := mkNullBool { NullBool_Bool : bool; NullBool_Valid : bool }.
#[export] Instance NullInt_zero : Zero NullInt := mkNullInt zero zero.
#[export] Instance NullBool_zero : Zero NullBool := mkNullBool zero zero.
Definition NewNullBool (value : bool) : NullBool := mkNullBool value true.
Definition NewNullInt (value : Z) : NullInt := mkNullInt value true.

(** A value of type [interface{}] read from JSON. *)
Inductive any : Type :=
  | any_nil
  | any_bool (b : bool)
  | any_num (bits : Z)
  | any_str (s : string)
  | any_list (l : list any)
  | any_map (l : list (string * any)).

(** Stages of a deployment version. *)
Definition LegacyStage := "LEGACY".
Definition ActiveStage := "ACTIVE".
Definition CandidateStage := "CANDIDATE".
Definition ArchivedStage := "ARCHIVED".

Definition LbPolicyLeastRequest := "LEAST_REQUEST".
Definition LbPolicyRingHash := "RING_HASH".
Definition DISCOVERY_TYPE_STRICT_DNS := "STRICT_DNS".

(** * Entities *)

Record NodeGroup := mkNodeGroup {
  NodeGroup_Name : string;
  NodeGroup_GatewayType : GatewayType;
  NodeGroup_ForbidVirtualHosts : bool
}.
#[export] Instance NodeGroup_eta : Eta NodeGroup :=
  fun x => mkNodeGroup
     (NodeGroup_Name x) (NodeGroup_GatewayType x)
     (NodeGroup_ForbidVirtualHosts x).
#[export] Instance NodeGroup_zero : Zero NodeGroup :=
  mkNodeGroup zero zero zero.

Record WasmFilter := mkWasmFilter {
  WasmFilter_Id : Z;
  WasmFilter_Name : string;
  WasmFilter_URL : string;
  WasmFilter_SHA256 : string;
  WasmFilter_TlsConfigName : string;
  WasmFilter_Timeout : Z;
  WasmFilter_Params : gmap string any
}.
#[export] Instance WasmFilter_eta : Eta WasmFilter :=
  fun x => mkWasmFilter
     (WasmFilter_Id x) (WasmFilter_Name x) (WasmFilter_URL x)
     (WasmFilter_SHA256 x) (WasmFilter_TlsConfigName x)
     (WasmFilter_Timeout x) (WasmFilter_Params x).
#[export] Instance WasmFilter_zero : Zero WasmFilter :=
  mkWasmFilter zero zero zero zero zero zero zero.

Record ExtAuthzFilter := mkExtAuthzFilter {
  ExtAuthzFilter_Name : string;
  ExtAuthzFilter_ClusterName : string;
  ExtAuthzFilter_Timeout : Z;
  ExtAuthzFilter_ContextExtensions : gmap string string;
  ExtAuthzFilter_NodeGroup : string
}.
#[export] Instance ExtAuthzFilter_eta : Eta ExtAuthzFilter :=
  fun x => mkExtAuthzFilter
     (ExtAuthzFilter_Name x) (ExtAuthzFilter_ClusterName x)
     (ExtAuthzFilter_Timeout x) (ExtAuthzFilter_ContextExtensions x)
     (ExtAuthzFilter_NodeGroup x).
#[export] Instance ExtAuthzFilter_zero : Zero ExtAuthzFilter :=
  mkExtAuthzFilter zero zero zero zero zero.

Record Listener := mkListener {
  Listener_Id : Z;
  Listener_Name : string;
  Listener_BindHost : string;
  Listener_BindPort : string;
  Listener_RouteConfigurationName : string;
  Listener_Version : Z;
  Listener_NodeGroupId : string;
  Listener_WasmFilters : list WasmFilter;
  Listener_WithTls : bool;
  Listener_ExtAuthzFilter : option ExtAuthzFilter
}.
#[export] Instance Listener_eta : Eta Listener :=
  fun x => mkListener
     (Listener_Id x) (Listener_Name x) (Listener_BindHost x)
     (Listener_BindPort x) (Listener_RouteConfigurationName x)
     (Listener_Version x) (Listener_NodeGroupId x) (Listener_WasmFilters x)
     (Listener_WithTls x) (Listener_ExtAuthzFilter x).
#[export] Instance Listener_zero : Zero Listener :=
  mkListener zero zero zero zero zero zero zero zero zero zero.

Record TlsConfig := mkTlsConfig {
  TlsConfig_Id : Z;
  TlsConfig_NodeGroups : list (option NodeGroup);
  TlsConfig_Name : string;
  TlsConfig_Enabled : bool;
  TlsConfig_Insecure : bool;
  TlsConfig_TrustedCA : string;
  TlsConfig_ClientCert : string;
  TlsConfig_PrivateKey : string;
  TlsConfig_SNI : string
}.
#[export] Instance TlsConfig_eta : Eta TlsConfig :=
  fun x => mkTlsConfig
     (TlsConfig_Id x) (TlsConfig_NodeGroups x) (TlsConfig_Name x)
     (TlsConfig_Enabled x) (TlsConfig_Insecure x) (TlsConfig_TrustedCA x)
     (TlsConfig_ClientCert x) (TlsConfig_PrivateKey x) (TlsConfig_SNI x).
#[export] Instance TlsConfig_zero : Zero TlsConfig :=
  mkTlsConfig zero zero zero zero zero zero zero zero zero.

Record DeploymentVersion := mkDeploymentVersion {
  DeploymentVersion_Version : string;
  DeploymentVersion_Stage : string;
  DeploymentVersion_CreatedWhen : Z;
  DeploymentVersion_UpdatedWhen : Z
}.
#[export] Instance DeploymentVersion_eta : Eta DeploymentVersion :=
  fun x => mkDeploymentVersion
     (DeploymentVersion_Version x) (DeploymentVersion_Stage x)
     (DeploymentVersion_CreatedWhen x) (DeploymentVersion_UpdatedWhen x).
#[export] Instance DeploymentVersion_zero : Zero DeploymentVersion :=
  mkDeploymentVersion zero zero zero zero.

Record HashPolicy := mkHashPolicy {
  HashPolicy_Id : Z;
  HashPolicy_HeaderName : string;
  HashPolicy_CookieName : string;
  HashPolicy_CookieTTL : NullInt;
  HashPolicy_CookiePath : string;
  HashPolicy_QueryParamSourceIP : NullBool;
  HashPolicy_QueryParamName : string;
  HashPolicy_Terminal : NullBool;
  HashPolicy_RouteId : Z;
  HashPolicy_EndpointId : Z
}.
#[export] Instance HashPolicy_eta : Eta HashPolicy :=
  fun x => mkHashPolicy
     (HashPolicy_Id x) (HashPolicy_HeaderName x) (HashPolicy_CookieName x)
     (HashPolicy_CookieTTL x) (HashPolicy_CookiePath x)
     (HashPolicy_QueryParamSourceIP x) (HashPolicy_QueryParamName x)
     (HashPolicy_Terminal x) (HashPolicy_RouteId x)
     (HashPolicy_EndpointId x).
#[export] Instance HashPolicy_zero : Zero HashPolicy :=
  mkHashPolicy zero zero zero zero zero zero zero zero zero zero.

Record StatefulSession := mkStatefulSession {
  StatefulSession_Id : Z;
  StatefulSession_CookieName : string;
  StatefulSession_CookieTtl : option Z;
  StatefulSession_CookiePath : string;
  StatefulSession_Enabled : bool;
  StatefulSession_ClusterName : string;
  StatefulSession_Namespace : string;
  StatefulSession_Gateways : list string;
  StatefulSession_DeploymentVersion : string;
  StatefulSession_DeploymentVersionVal : option DeploymentVersion;
  StatefulSession_InitialDeploymentVersion : string
}.
#[export] Instance StatefulSession_eta : Eta StatefulSession :=
  fun x => mkStatefulSession
     (StatefulSession_Id x) (StatefulSession_CookieName x)
     (StatefulSession_CookieTtl x) (StatefulSession_CookiePath x)
     (StatefulSession_Enabled x) (StatefulSession_ClusterName x)
     (StatefulSession_Namespace x) (StatefulSession_Gateways x)
     (StatefulSession_DeploymentVersion x)
     (StatefulSession_DeploymentVersionVal x)
     (StatefulSession_InitialDeploymentVersion x).
#[export] Instance StatefulSession_zero : Zero StatefulSession :=
  mkStatefulSession zero zero zero zero zero zero zero zero zero zero zero.

Record Endpoint := mkEndpoint {
  Endpoint_Id : Z;
  Endpoint_Address : string;
  Endpoint_Port : Z;
  Endpoint_Protocol : string;
  Endpoint_ClusterId : Z;
  Endpoint_DeploymentVersion : string;
  Endpoint_InitialDeploymentVersion : string;
  Endpoint_DeploymentVersionVal : option DeploymentVersion;
  Endpoint_HashPolicies : list HashPolicy;
  Endpoint_Hostname : string;
  Endpoint_OrderId : Z;
  Endpoint_StatefulSessionId : Z;
  Endpoint_StatefulSession : option StatefulSession
}.
#[export] Instance Endpoint_eta : Eta Endpoint :=
  fun x => mkEndpoint
     (Endpoint_Id x) (Endpoint_Address x) (Endpoint_Port x)
     (Endpoint_Protocol x) (Endpoint_ClusterId x)
     (Endpoint_DeploymentVersion x) (Endpoint_InitialDeploymentVersion x)
     (Endpoint_DeploymentVersionVal x) (Endpoint_HashPolicies x)
     (Endpoint_Hostname x) (Endpoint_OrderId x)
     (Endpoint_StatefulSessionId x) (Endpoint_StatefulSession x).
#[export] Instance Endpoint_zero : Zero Endpoint :=
  mkEndpoint zero zero zero zero zero zero zero zero zero zero zero zero zero.

Record Header := mkHeader {
  Header_Name : string;
  Header_Value : string
}.
#[export] Instance Header_eta : Eta Header :=
  fun x => mkHeader
     (Header_Name x) (Header_Value x).
#[export] Instance Header_zero : Zero Header :=
  mkHeader zero zero.

Record RangeMatch := mkRangeMatch {
  RangeMatch_Start : NullInt;
  RangeMatch_End : NullInt
}.
#[export] Instance RangeMatch_eta : Eta RangeMatch :=
  fun x => mkRangeMatch
     (RangeMatch_Start x) (RangeMatch_End x).
#[export] Instance RangeMatch_zero : Zero RangeMatch :=
  mkRangeMatch zero zero.

Record HttpHealthCheck := mkHttpHealthCheck {
  HttpHealthCheck_Id : Z;
  HttpHealthCheck_Host : string;
  HttpHealthCheck_Path : string;
  HttpHealthCheck_RequestHeadersToAdd : list Header;
  HttpHealthCheck_RequestHeadersToRemove : list string;
  HttpHealthCheck_UseHttp2 : bool;
  HttpHealthCheck_ExpectedStatuses : list RangeMatch;
  HttpHealthCheck_CodecClientType : string;
  HttpHealthCheck_HealthCheckId : Z
}.
#[export] Instance HttpHealthCheck_eta : Eta HttpHealthCheck :=
  fun x => mkHttpHealthCheck
     (HttpHealthCheck_Id x) (HttpHealthCheck_Host x)
     (HttpHealthCheck_Path x) (HttpHealthCheck_RequestHeadersToAdd x)
     (HttpHealthCheck_RequestHeadersToRemove x) (HttpHealthCheck_UseHttp2 x)
     (HttpHealthCheck_ExpectedStatuses x)
     (HttpHealthCheck_CodecClientType x) (HttpHealthCheck_HealthCheckId x).
#[export] Instance HttpHealthCheck_zero : Zero HttpHealthCheck :=
  mkHttpHealthCheck zero zero zero zero zero zero zero zero zero.

Record TlsOptions := mkTlsOptions {
  TlsOptions_AlpnProtocols : list string
}.
#[export] Instance TlsOptions_eta : Eta TlsOptions :=
  fun x => mkTlsOptions
     (TlsOptions_AlpnProtocols x).
#[export] Instance TlsOptions_zero : Zero TlsOptions :=
  mkTlsOptions zero.

Record HealthCheck := mkHealthCheck {
  HealthCheck_Id : Z;
  HealthCheck_Timeout : Z;
  HealthCheck_Interval : Z;
  HealthCheck_InitialJitter : Z;
  HealthCheck_IntervalJitter : Z;
  HealthCheck_IntervalJitterPercent : Z;
  HealthCheck_UnhealthyThreshold : Z;
  HealthCheck_HealthyThreshold : Z;
  HealthCheck_ReuseConnection : bool;
  HealthCheck_HttpHealthCheck : option HttpHealthCheck;
  HealthCheck_NoTrafficInterval : Z;
  HealthCheck_UnhealthyInterval : Z;
  HealthCheck_UnhealthyEdgeInterval : Z;
  HealthCheck_HealthyEdgeInterval : Z;
  HealthCheck_EventLogPath : string;
  HealthCheck_AlwaysLogHealthCheckFailures : bool;
  HealthCheck_TlsOptions : option TlsOptions;
  HealthCheck_ClusterId : Z
}.
#[export] Instance HealthCheck_eta : Eta HealthCheck :=
  fun x => mkHealthCheck
     (HealthCheck_Id x) (HealthCheck_Timeout x) (HealthCheck_Interval x)
     (HealthCheck_InitialJitter x) (HealthCheck_IntervalJitter x)
     (HealthCheck_IntervalJitterPercent x)
     (HealthCheck_UnhealthyThreshold x) (HealthCheck_HealthyThreshold x)
     (HealthCheck_ReuseConnection x) (HealthCheck_HttpHealthCheck x)
     (HealthCheck_NoTrafficInterval x) (HealthCheck_UnhealthyInterval x)
     (HealthCheck_UnhealthyEdgeInterval x)
     (HealthCheck_HealthyEdgeInterval x) (HealthCheck_EventLogPath x)
     (HealthCheck_AlwaysLogHealthCheckFailures x) (HealthCheck_TlsOptions x)
     (HealthCheck_ClusterId x).
#[export] Instance HealthCheck_zero : Zero HealthCheck :=
  mkHealthCheck zero zero zero zero zero zero zero zero zero zero zero zero zero
    zero zero zero zero zero.

Record ConsistentHashingLbConfig := mkConsistentHashingLbConfig {
  ConsistentHashingLbConfig_UseHostnameForHashing : bool
}.
#[export] Instance ConsistentHashingLbConfig_eta : Eta ConsistentHashingLbConfig :=
  fun x => mkConsistentHashingLbConfig
     (ConsistentHashingLbConfig_UseHostnameForHashing x).
#[export] Instance ConsistentHashingLbConfig_zero : Zero ConsistentHashingLbConfig :=
  mkConsistentHashingLbConfig zero.

Record CommonLbConfig := mkCommonLbConfig {
  CommonLbConfig_Id : Z;
  CommonLbConfig_HealthyPanicThreshold : Z;
  CommonLbConfig_UpdateMergeWindow : option Z;
  CommonLbConfig_IgnoreNewHostsUntilFirstHc : bool;
  CommonLbConfig_CloseConnectionsOnHostSetChange : bool;
  CommonLbConfig_ConsistentHashingLbConfig : option ConsistentHashingLbConfig
}.
#[export] Instance CommonLbConfig_eta : Eta CommonLbConfig :=
  fun x => mkCommonLbConfig
     (CommonLbConfig_Id x) (CommonLbConfig_HealthyPanicThreshold x)
     (CommonLbConfig_UpdateMergeWindow x)
     (CommonLbConfig_IgnoreNewHostsUntilFirstHc x)
     (CommonLbConfig_CloseConnectionsOnHostSetChange x)
     (CommonLbConfig_ConsistentHashingLbConfig x).
#[export] Instance CommonLbConfig_zero : Zero CommonLbConfig :=
  mkCommonLbConfig zero zero zero zero zero zero.

Record SocketAddress := mkSocketAddress {
  SocketAddress_Address : string;
  SocketAddress_Port : Z;
  SocketAddress_Protocol : string;
  SocketAddress_IPv4_compat : bool
}.
#[export] Instance SocketAddress_eta : Eta SocketAddress :=
  fun x => mkSocketAddress
     (SocketAddress_Address x) (SocketAddress_Port x)
     (SocketAddress_Protocol x) (SocketAddress_IPv4_compat x).
#[export] Instance SocketAddress_zero : Zero SocketAddress :=
  mkSocketAddress zero zero zero zero.

Record DnsResolver := mkDnsResolver {
  DnsResolver_SocketAddress : option SocketAddress
}.
#[export] Instance DnsResolver_eta : Eta DnsResolver :=
  fun x => mkDnsResolver
     (DnsResolver_SocketAddress x).
#[export] Instance DnsResolver_zero : Zero DnsResolver :=
  mkDnsResolver zero.

Record Threshold := mkThreshold {
  Threshold_Id : Z;
  Threshold_MaxConnections : Z
}.
#[export] Instance Threshold_eta : Eta Threshold :=
  fun x => mkThreshold
     (Threshold_Id x) (Threshold_MaxConnections x).
#[export] Instance Threshold_zero : Zero Threshold :=
  mkThreshold zero zero.

Record CircuitBreaker := mkCircuitBreaker {
  CircuitBreaker_Id : Z;
  CircuitBreaker_ThresholdId : Z;
  CircuitBreaker_Threshold : option Threshold
}.
#[export] Instance CircuitBreaker_eta : Eta CircuitBreaker :=
  fun x => mkCircuitBreaker
     (CircuitBreaker_Id x) (CircuitBreaker_ThresholdId x)
     (CircuitBreaker_Threshold x).
#[export] Instance CircuitBreaker_zero : Zero CircuitBreaker :=
  mkCircuitBreaker zero zero zero.

Record TcpKeepalive := mkTcpKeepalive {
  TcpKeepalive_Id : Z;
  TcpKeepalive_Probes : Z;
  TcpKeepalive_Time : Z;
  TcpKeepalive_Interval : Z
}.
#[export] Instance TcpKeepalive_eta : Eta TcpKeepalive :=
  fun x => mkTcpKeepalive
     (TcpKeepalive_Id x) (TcpKeepalive_Probes x) (TcpKeepalive_Time x)
     (TcpKeepalive_Interval x).
#[export] Instance TcpKeepalive_zero : Zero TcpKeepalive :=
  mkTcpKeepalive zero zero zero zero.

Record Cluster := mkCluster {
  Cluster_Id : Z;
  Cluster_Name : string;
  Cluster_LbPolicy : string;
  Cluster_DiscoveryType : string;
  Cluster_DiscoveryTypeOld : string;
  Cluster_Version : Z;
  Cluster_HttpVersion : option Z;
  Cluster_EnableH2 : bool;
  Cluster_TLSId : Z;
  Cluster_TLS : option TlsConfig;
  Cluster_NodeGroups : list (option NodeGroup);
  Cluster_Endpoints : list Endpoint;
  Cluster_HealthChecks : list HealthCheck;
  Cluster_CommonLbConfig : option CommonLbConfig;
  Cluster_DnsResolvers : list DnsResolver;
  Cluster_CircuitBreakerId : Z;
  Cluster_CircuitBreaker : option CircuitBreaker;
  Cluster_TcpKeepaliveId : Z;
  Cluster_TcpKeepalive : option TcpKeepalive;
  Cluster_MaxRequestsPerConnection : Z;
  Cluster_ConnectionIdleTimeout : NullInt
}.
#[export] Instance Cluster_eta : Eta Cluster :=
  fun x => mkCluster
     (Cluster_Id x) (Cluster_Name x) (Cluster_LbPolicy x)
     (Cluster_DiscoveryType x) (Cluster_DiscoveryTypeOld x)
     (Cluster_Version x) (Cluster_HttpVersion x) (Cluster_EnableH2 x)
     (Cluster_TLSId x) (Cluster_TLS x) (Cluster_NodeGroups x)
     (Cluster_Endpoints x) (Cluster_HealthChecks x)
     (Cluster_CommonLbConfig x) (Cluster_DnsResolvers x)
     (Cluster_CircuitBreakerId x) (Cluster_CircuitBreaker x)
     (Cluster_TcpKeepaliveId x) (Cluster_TcpKeepalive x)
     (Cluster_MaxRequestsPerConnection x) (Cluster_ConnectionIdleTimeout x).
#[export] Instance Cluster_zero : Zero Cluster :=
  mkCluster zero zero zero zero zero zero zero zero zero zero zero zero zero
    zero zero zero zero zero zero zero zero.

Record TlsConfigsNodeGroups := mkTlsConfigsNodeGroups {
  TlsConfigsNodeGroups_TlsConfigId : Z;
  TlsConfigsNodeGroups_NodeGroupName : string
}.
#[export] Instance TlsConfigsNodeGroups_eta : Eta TlsConfigsNodeGroups :=
  fun x => mkTlsConfigsNodeGroups
     (TlsConfigsNodeGroups_TlsConfigId x)
     (TlsConfigsNodeGroups_NodeGroupName x).
#[export] Instance TlsConfigsNodeGroups_zero : Zero TlsConfigsNodeGroups :=
  mkTlsConfigsNodeGroups zero zero.

Record ClustersNodeGroup := mkClustersNodeGroup {
  ClustersNodeGroup_ClustersId : Z;
  ClustersNodeGroup_NodegroupsName : string
}.
#[export] Instance ClustersNodeGroup_eta : Eta ClustersNodeGroup :=
  fun x => mkClustersNodeGroup
     (ClustersNodeGroup_ClustersId x) (ClustersNodeGroup_NodegroupsName x).
#[export] Instance ClustersNodeGroup_zero : Zero ClustersNodeGroup :=
  mkClustersNodeGroup zero zero.

Record ListenersWasmFilter := mkListenersWasmFilter {
  ListenersWasmFilter_ListenerId : Z;
  ListenersWasmFilter_WasmFilterId : Z
}.
#[export] Instance ListenersWasmFilter_eta : Eta ListenersWasmFilter :=
  fun x => mkListenersWasmFilter
     (ListenersWasmFilter_ListenerId x) (ListenersWasmFilter_WasmFilterId x).
#[export] Instance ListenersWasmFilter_zero : Zero ListenersWasmFilter :=
  mkListenersWasmFilter zero zero.

Record HeaderMatcher := mkHeaderMatcher {
  HeaderMatcher_Id : Z;
  HeaderMatcher_Name : string;
  HeaderMatcher_Version : Z;
  HeaderMatcher_ExactMatch : string;
  HeaderMatcher_SafeRegexMatch : string;
  HeaderMatcher_RangeMatch : RangeMatch;
  HeaderMatcher_PresentMatch : NullBool;
  HeaderMatcher_PrefixMatch : string;
  HeaderMatcher_SuffixMatch : string;
  HeaderMatcher_InvertMatch : bool;
  HeaderMatcher_RouteId : Z
}.
#[export] Instance HeaderMatcher_eta : Eta HeaderMatcher :=
  fun x => mkHeaderMatcher
     (HeaderMatcher_Id x) (HeaderMatcher_Name x) (HeaderMatcher_Version x)
     (HeaderMatcher_ExactMatch x) (HeaderMatcher_SafeRegexMatch x)
     (HeaderMatcher_RangeMatch x) (HeaderMatcher_PresentMatch x)
     (HeaderMatcher_PrefixMatch x) (HeaderMatcher_SuffixMatch x)
     (HeaderMatcher_InvertMatch x) (HeaderMatcher_RouteId x).
#[export] Instance HeaderMatcher_zero : Zero HeaderMatcher :=
  mkHeaderMatcher zero zero zero zero zero zero zero zero zero zero zero.

Record RetryBackOff := mkRetryBackOff {
  RetryBackOff_BaseInterval : Z;
  RetryBackOff_MaxInterval : Z
}.
#[export] Instance RetryBackOff_eta : Eta RetryBackOff :=
  fun x => mkRetryBackOff
     (RetryBackOff_BaseInterval x) (RetryBackOff_MaxInterval x).
#[export] Instance RetryBackOff_zero : Zero RetryBackOff :=
  mkRetryBackOff zero zero.

Record RetryPolicy := mkRetryPolicy {
  RetryPolicy_Id : Z;
  RetryPolicy_RetryOn : string;
  RetryPolicy_NumRetries : Z;
  RetryPolicy_PerTryTimeout : Z;
  RetryPolicy_HostSelectionRetryMaxAttempts : Z;
  RetryPolicy_RetriableStatusCodes : list Z;
  RetryPolicy_RetryBackOff : option RetryBackOff;
  RetryPolicy_RouteId : Z
}.
#[export] Instance RetryPolicy_eta : Eta RetryPolicy :=
  fun x => mkRetryPolicy
     (RetryPolicy_Id x) (RetryPolicy_RetryOn x) (RetryPolicy_NumRetries x)
     (RetryPolicy_PerTryTimeout x)
     (RetryPolicy_HostSelectionRetryMaxAttempts x)
     (RetryPolicy_RetriableStatusCodes x) (RetryPolicy_RetryBackOff x)
     (RetryPolicy_RouteId x).
#[export] Instance RetryPolicy_zero : Zero RetryPolicy :=
  mkRetryPolicy zero zero zero zero zero zero zero zero.

Record RateLimit := mkRateLimit {
  RateLimit_Name : string;
  RateLimit_LimitRequestsPerSecond : Z;
  RateLimit_Priority : Z
}.
#[export] Instance RateLimit_eta : Eta RateLimit :=
  fun x => mkRateLimit
     (RateLimit_Name x) (RateLimit_LimitRequestsPerSecond x)
     (RateLimit_Priority x).
#[export] Instance RateLimit_zero : Zero RateLimit :=
  mkRateLimit zero zero zero.

Record LuaFilter := mkLuaFilter {
  LuaFilter_Id : Z;
  LuaFilter_Name : string;
  LuaFilter_LuaScript : string
}.
#[export] Instance LuaFilter_eta : Eta LuaFilter :=
  fun x => mkLuaFilter
     (LuaFilter_Id x) (LuaFilter_Name x) (LuaFilter_LuaScript x).
#[export] Instance LuaFilter_zero : Zero LuaFilter :=
  mkLuaFilter zero zero zero.

Record Route := mkRoute {
  Route_Id : Z;
  Route_Uuid : string;
  Route_VirtualHostId : Z;
  Route_RouteKey : string;
  Route_DirectResponseCode : Z;
  Route_Prefix : string;
  Route_Regexp : string;
  Route_Path : string;
  Route_ClusterName : string;
  Route_HostRewriteLiteral : string;
  Route_HostRewrite : string;
  Route_HostAutoRewrite : NullBool;
  Route_PrefixRewrite : string;
  Route_RegexpRewrite : string;
  Route_PathRewrite : string;
  Route_Version : Z;
  Route_Timeout : NullInt;
  Route_IdleTimeout : NullInt;
  Route_DeploymentVersion : string;
  Route_DeploymentVersionVal : option DeploymentVersion;
  Route_InitialDeploymentVersion : string;
  Route_Autogenerated : bool;
  Route_HeaderMatchers : list HeaderMatcher;
  Route_HashPolicies : list HashPolicy;
  Route_RetryPolicy : option RetryPolicy;
  Route_RequestHeadersToAdd : list Header;
  Route_RequestHeadersToRemove : list string;
  Route_Fallback : NullBool;
  Route_RateLimitId : string;
  Route_RateLimit : option RateLimit;
  Route_StatefulSessionId : Z;
  Route_StatefulSession : option StatefulSession;
  Route_Deny : bool;
  Route_LuaFilterName : string;
  Route_LuaFilter : option LuaFilter
}.
#[export] Instance Route_eta : Eta Route :=
  fun x => mkRoute
     (Route_Id x) (Route_Uuid x) (Route_VirtualHostId x) (Route_RouteKey x)
     (Route_DirectResponseCode x) (Route_Prefix x) (Route_Regexp x)
     (Route_Path x) (Route_ClusterName x) (Route_HostRewriteLiteral x)
     (Route_HostRewrite x) (Route_HostAutoRewrite x) (Route_PrefixRewrite x)
     (Route_RegexpRewrite x) (Route_PathRewrite x) (Route_Version x)
     (Route_Timeout x) (Route_IdleTimeout x) (Route_DeploymentVersion x)
     (Route_DeploymentVersionVal x) (Route_InitialDeploymentVersion x)
     (Route_Autogenerated x) (Route_HeaderMatchers x) (Route_HashPolicies x)
     (Route_RetryPolicy x) (Route_RequestHeadersToAdd x)
     (Route_RequestHeadersToRemove x) (Route_Fallback x)
     (Route_RateLimitId x) (Route_RateLimit x) (Route_StatefulSessionId x)
     (Route_StatefulSession x) (Route_Deny x) (Route_LuaFilterName x)
     (Route_LuaFilter x).
#[export] Instance Route_zero : Zero Route :=
  mkRoute zero zero zero zero zero zero zero zero zero zero zero zero zero
    zero zero zero zero zero zero zero zero zero zero zero zero zero
    zero zero zero zero zero zero zero zero zero.

Record VirtualHostDomain := mkVirtualHostDomain {
  VirtualHostDomain_Domain : string;
  VirtualHostDomain_Version : Z;
  VirtualHostDomain_VirtualHostId : Z
}.
#[export] Instance VirtualHostDomain_eta : Eta VirtualHostDomain :=
  fun x => mkVirtualHostDomain
     (VirtualHostDomain_Domain x) (VirtualHostDomain_Version x)
     (VirtualHostDomain_VirtualHostId x).
#[export] Instance VirtualHostDomain_zero : Zero VirtualHostDomain :=
  mkVirtualHostDomain zero zero zero.

Record VirtualHost := mkVirtualHost {
  VirtualHost_Id : Z;
  VirtualHost_Name : string;
  VirtualHost_Version : Z;
  VirtualHost_RouteConfigurationId : Z;
  VirtualHost_Routes : list Route;
  VirtualHost_Domains : list VirtualHostDomain;
  VirtualHost_RequestHeadersToAdd : list Header;
  VirtualHost_RequestHeadersToRemove : list string;
  VirtualHost_RateLimitId : string;
  VirtualHost_RateLimit : option RateLimit
}.
#[export] Instance VirtualHost_eta : Eta VirtualHost :=
  fun x => mkVirtualHost
     (VirtualHost_Id x) (VirtualHost_Name x) (VirtualHost_Version x)
     (VirtualHost_RouteConfigurationId x) (VirtualHost_Routes x)
     (VirtualHost_Domains x) (VirtualHost_RequestHeadersToAdd x)
     (VirtualHost_RequestHeadersToRemove x) (VirtualHost_RateLimitId x)
     (VirtualHost_RateLimit x).
#[export] Instance VirtualHost_zero : Zero VirtualHost :=
  mkVirtualHost zero zero zero zero zero zero zero zero zero zero.

Record RouteConfiguration := mkRouteConfiguration {
  RouteConfiguration_Id : Z;
  RouteConfiguration_Name : string;
  RouteConfiguration_Version : Z;
  RouteConfiguration_NodeGroupId : string;
  RouteConfiguration_VirtualHosts : list VirtualHost
}.
#[export] Instance RouteConfiguration_eta : Eta RouteConfiguration :=
  fun x => mkRouteConfiguration
     (RouteConfiguration_Id x) (RouteConfiguration_Name x)
     (RouteConfiguration_Version x) (RouteConfiguration_NodeGroupId x)
     (RouteConfiguration_VirtualHosts x).
#[export] Instance RouteConfiguration_zero : Zero RouteConfiguration :=
  mkRouteConfiguration zero zero zero zero zero.

Record RouteAction := mkRouteAction {
  RouteAction_ClusterName : string;
  RouteAction_HostRewrite : string;
  RouteAction_HostAutoRewrite : NullBool;
  RouteAction_PrefixRewrite : string;
  RouteAction_RegexpRewrite : string;
  RouteAction_PathRewrite : string
}.
#[export] Instance RouteAction_eta : Eta RouteAction :=
  fun x => mkRouteAction
     (RouteAction_ClusterName x) (RouteAction_HostRewrite x)
     (RouteAction_HostAutoRewrite x) (RouteAction_PrefixRewrite x)
     (RouteAction_RegexpRewrite x) (RouteAction_PathRewrite x).
#[export] Instance RouteAction_zero : Zero RouteAction :=
  mkRouteAction zero zero zero zero zero zero.

Record EnvoyConfigVersion := mkEnvoyConfigVersion {
  EnvoyConfigVersion_NodeGroup : string;
  EnvoyConfigVersion_EntityType : string;
  EnvoyConfigVersion_Version : Z
}.
#[export] Instance EnvoyConfigVersion_eta : Eta EnvoyConfigVersion :=
  fun x => mkEnvoyConfigVersion
     (EnvoyConfigVersion_NodeGroup x) (EnvoyConfigVersion_EntityType x)
     (EnvoyConfigVersion_Version x).
#[export] Instance EnvoyConfigVersion_zero : Zero EnvoyConfigVersion :=
  mkEnvoyConfigVersion zero zero zero.

Record CompositeSatellite := mkCompositeSatellite {
  CompositeSatellite_Namespace : string
}.
#[export] Instance CompositeSatellite_eta : Eta CompositeSatellite :=
  fun x => mkCompositeSatellite
     (CompositeSatellite_Namespace x).
#[export] Instance CompositeSatellite_zero : Zero CompositeSatellite :=
  mkCompositeSatellite zero.

Record MicroserviceVersion := mkMicroserviceVersion {
  MicroserviceVersion_Name : string;
  MicroserviceVersion_Namespace : string;
  MicroserviceVersion_DeploymentVersion : string;
  MicroserviceVersion_InitialDeploymentVersion : string;
  MicroserviceVersion_DeploymentVersionVal : option DeploymentVersion
}.
#[export] Instance MicroserviceVersion_eta : Eta MicroserviceVersion :=
  fun x => mkMicroserviceVersion
     (MicroserviceVersion_Name x) (MicroserviceVersion_Namespace x)
     (MicroserviceVersion_DeploymentVersion x)
     (MicroserviceVersion_InitialDeploymentVersion x)
     (MicroserviceVersion_DeploymentVersionVal x).
#[export] Instance MicroserviceVersion_zero : Zero MicroserviceVersion :=
  mkMicroserviceVersion zero zero zero zero zero.

(** * Methods of the entities *)

Definition HasGenericDomain (vh : VirtualHost) : bool :=
  existsb (fun d => strings_HasPrefix (VirtualHostDomain_Domain d) "*") (VirtualHost_Domains vh).

Definition Header_Equals (h elem : Header) : bool :=
  String.eqb (Header_Name h) (Header_Name elem) && String.eqb (Header_Value h) (Header_Value elem).

(** [vhd.Equals(elem)]: [None] is nil, [same] says both are the same pointer. *)
Definition VirtualHostDomain_Equals (same : bool) (vhd : VirtualHostDomain) (elem : option VirtualHostDomain) : bool :=
  match elem with
  | None => false
  | Some e =>
      same || ((VirtualHostDomain_VirtualHostId vhd =? VirtualHostDomain_VirtualHostId e)%Z
               && String.eqb (VirtualHostDomain_Domain vhd) (VirtualHostDomain_Domain e))
  end.

Definition HeaderMatcher_Equals (same : bool) (h : HeaderMatcher) (elem : option HeaderMatcher) : bool :=
  match elem with
  | None => false
  | Some e =>
      same || (String.eqb (HeaderMatcher_Name h) (HeaderMatcher_Name e)
               && String.eqb (HeaderMatcher_ExactMatch h) (HeaderMatcher_ExactMatch e))
  end.

Definition NullBool_eqb (a b : NullBool) : bool :=
  Bool.eqb (NullBool_Bool a) (NullBool_Bool b) && Bool.eqb (NullBool_Valid a) (NullBool_Valid b).
Definition NullInt_eqb (a b : NullInt) : bool :=
  (NullInt_Int64 a =? NullInt_Int64 b)%Z && Bool.eqb (NullInt_Valid a) (NullInt_Valid b).
Definition nonempty (s : string) : bool := negb (String.eqb s "").

Definition HashPolicy_Equals (same : bool) (h another : HashPolicy) : bool :=
  let terminal := NullBool_eqb (HashPolicy_Terminal h) (HashPolicy_Terminal another) in
  if same then terminal
  else if nonempty (HashPolicy_HeaderName h)
          && String.eqb (HashPolicy_HeaderName h) (HashPolicy_HeaderName another) then terminal
  else if nonempty (HashPolicy_CookieName h)
          && String.eqb (HashPolicy_CookieName h) (HashPolicy_CookieName another)
          && NullInt_eqb (HashPolicy_CookieTTL h) (HashPolicy_CookieTTL another)
          && String.eqb (HashPolicy_CookiePath h) (HashPolicy_CookiePath another) then terminal
  else if nonempty (HashPolicy_QueryParamName h)
          && Bool.eqb (NullBool_Valid (HashPolicy_QueryParamSourceIP h))
                      (NullBool_Valid (HashPolicy_QueryParamSourceIP another))
          && Bool.eqb (NullBool_Bool (HashPolicy_QueryParamSourceIP h))
                      (NullBool_Bool (HashPolicy_QueryParamSourceIP another))
          && String.eqb (HashPolicy_QueryParamName h) (HashPolicy_QueryParamName another) then terminal
  else false.

Definition StatefulSession_Equals (same : bool) (s another : StatefulSession) : bool :=
  if same then true
  else if negb (StatefulSession_Enabled s) && negb (StatefulSession_Enabled another) then true
  else match StatefulSession_CookieTtl s, StatefulSession_CookieTtl another with
       | None, Some _ => false
       | Some _, None => false
       | Some a, Some b =>
           if (a =? b)%Z
           then Bool.eqb (StatefulSession_Enabled s) (StatefulSession_Enabled another)
                && String.eqb (StatefulSession_CookieName s) (StatefulSession_CookieName another)
                && String.eqb (StatefulSession_CookiePath s) (StatefulSession_CookiePath another)
           else false
       | None, None =>
           Bool.eqb (StatefulSession_Enabled s) (StatefulSession_Enabled another)
           && String.eqb (StatefulSession_CookieName s) (StatefulSession_CookieName another)
           && String.eqb (StatefulSession_CookiePath s) (StatefulSession_CookiePath another)
       end.

(** [dv.NumericVersion()]: [None] is the error of [strconv.Atoi]. *)
Definition NumericVersion (dv : DeploymentVersion) : option Z :=
  strconv_Atoi (strings_TrimPrefix (DeploymentVersion_Version dv) "v").

Definition Route_RouteAction (r : Route) : RouteAction :=
  mkRouteAction (Route_ClusterName r) (Route_HostRewrite r) (Route_HostAutoRewrite r)
    (Route_PrefixRewrite r) (Route_RegexpRewrite r) (Route_PathRewrite r).

Definition IsProhibit (r : Route) : bool := (Route_DirectResponseCode r =? 404)%Z.

Definition Product : Z := 0.
Definition Project : Z := 1.
Definition PriorityFromString (priority : string) : result Z :=
  if String.eqb priority "" || strings_EqualFold "PRODUCT" priority then Ok Product
  else if strings_EqualFold "PROJECT" priority then Ok Project
  else match strconv_Atoi priority with
       | Some n => Ok (int32 n)
       | None => Panic "domain: could not resolve priority value"
       end.

(** * Factories ([domain/factories.go]); [now] is the reading of [time.Now()]. *)

Definition NewClusterNodeGroups (clusterId : Z) (nodeGroupName : string) : ClustersNodeGroup :=
  mkClustersNodeGroup clusterId nodeGroupName.

Definition NewDeploymentVersion (now : Z) (version stage : string) : DeploymentVersion :=
  mkDeploymentVersion version stage now now.

Definition NewCluster2 (name : string) (httpVersion : option Z) : Cluster :=
  (zero : Cluster) <| Cluster_Name := name |>
    <| Cluster_LbPolicy := LbPolicyLeastRequest |>
    <| Cluster_DiscoveryType := DISCOVERY_TYPE_STRICT_DNS |>
    <| Cluster_DiscoveryTypeOld := DISCOVERY_TYPE_STRICT_DNS |>
    <| Cluster_HttpVersion := httpVersion |>
    <| Cluster_EnableH2 := match httpVersion with Some v => (v =? 2)%Z | None => false end |>
    <| Cluster_Version := 1%Z |>.

(** The cluster built for [enableH2] is dropped: both branches end in the call
    with a nil HTTP version. *)
Definition NewCluster (name : string) (enableH2 : bool) : Cluster :=
  if enableH2
  then let _dropped := NewCluster2 name (Some 2%Z) in NewCluster2 name None
  else NewCluster2 name None.

Definition NewEnvoyConfigVersion (now : Z) (nodeGroup entityType : string) : EnvoyConfigVersion :=
  mkEnvoyConfigVersion nodeGroup entityType now.

(** * Properties *)

Example set_ex :
  (zero : Route) <| Route_Prefix := "/a" |> <| Route_Deny := true |>
  = (zero : Route) <| Route_Deny := true |> <| Route_Prefix := "/a" |>.
Proof. reflexivity. Qed.
