(* ===== verification/RouteSort.v ===== *)
(** [util/routes/sort.go]: the order in which routes are handed to Envoy, which
    takes the first one that matches. *)
From S2P Require Import Prelude GoLib Domain.
Open Scope string_scope.

(** * The comparison *)

Definition minimalGroupCaptured := "A".

Definition replaceGroupCapturesWithMinimalMatching (str : string) : string :=
  strings_ReplaceAll str "([^/]+)" minimalGroupCaptured.
Definition removeDoubleBackslashes (str : string) : string := strings_ReplaceAll str "\" "".

Definition matchesByRegexp (r : Route) : bool := (0 <? String.length (Route_Regexp r))%nat.
Definition matchesByPrefix (r : Route) : bool := (0 <? String.length (Route_Prefix r))%nat.
Definition matchesByPermissions (r : Route) : bool := Route_Deny r.
Definition getPrefixAsRegexp (r : Route) : string := Route_Prefix r ++ "(/.*)?".

Definition GetComparisonString (r : Route) : string :=
  if matchesByRegexp r
  then replaceGroupCapturesWithMinimalMatching (removeDoubleBackslashes (Route_Regexp r))
  else if matchesByPrefix r then removeDoubleBackslashes (getPrefixAsRegexp r)
  else "".

Definition comparison_length (r : Route) : Z := Z.of_nat (String.length (GetComparisonString r)).
Definition headers_length (r : Route) : Z := Z.of_nat (length (Route_HeaderMatchers r)).

Definition routeMatcherLess (r1 r2 : Route) : bool :=
  let h := (headers_length r1 - headers_length r2)%Z in
  let r := (comparison_length r1 - comparison_length r2)%Z in
  if matchesByPermissions r1 then true
  else if (r =? 0)%Z then
    if (r =? h)%Z then
      if matchesByPrefix r1 && matchesByRegexp r2 then true
      else if matchesByRegexp r1 && matchesByPrefix r2 then false
      else false
    else (0 <? h)%Z
  else (0 <? r)%Z.

(** * The three groups *)

Definition has_header (name : string) (r : Route) : bool :=
  existsb (fun m => strings_EqualFold name (HeaderMatcher_Name m)) (Route_HeaderMatchers r).

Definition OrderRoutesForEnvoy (routes : list Route) : list Route :=
  let balancingRoutes := List.filter (has_header "x-anchor") routes in
  let xVersionRoutes := List.filter (has_header "x-version") routes in
  let otherRoutes := List.filter (fun r => negb (has_header "x-version" r)) routes in
  SliceStable routeMatcherLess balancingRoutes
  ++ SliceStable routeMatcherLess xVersionRoutes
  ++ SliceStable routeMatcherLess otherRoutes.


(** * Properties *)

(** Routes whose comparison is an order: none is a permission, none is matched
    both by prefix and by regexp. *)
Definition plain_route (r : Route) : bool :=
  negb (matchesByPermissions r) && negb (matchesByPrefix r && matchesByRegexp r).

(** The rank of a route: a longer pattern first, then more header matchers,
    then a prefix before a regexp. *)
Definition route_rank (r : Route) : Z * Z * Z :=
  (comparison_length r, headers_length r, if matchesByPrefix r then 1 else 0)%Z.
Definition rank_gtb (a b : Z * Z * Z) : bool :=
  let '(l1, h1, k1) := a in
  let '(l2, h2, k2) := b in
  ((l2 <? l1) || ((l1 =? l2) && ((h2 <? h1) || ((h1 =? h2) && (k2 <? k1)))))%Z.
Definition ranks_before (r1 r2 : Route) : bool := rank_gtb (route_rank r1) (route_rank r2).

#[export] Instance ranks_before_order : StrictWeakOrder ranks_before.
Proof.
  unfold ranks_before. split; intros *;
    repeat match goal with |- context [route_rank ?r] => destruct (route_rank r) as [[??]?]; clear r end;
    unfold rank_gtb; rewrite ?orb_true_iff, ?andb_true_iff, ?orb_false_iff, ?andb_false_iff,
      ?orb_true_iff, ?andb_true_iff, ?orb_false_iff, ?andb_false_iff,
      ?Z.ltb_lt, ?Z.eqb_eq, ?Z.ltb_ge, ?Z.eqb_neq; lia.
Qed.

Lemma matched_length r :
  matchesByPrefix r = false -> matchesByRegexp r = false -> comparison_length r = 0%Z.
Proof. intros Hp Hr. unfold comparison_length, GetComparisonString. by rewrite Hp, Hr. Qed.

(** Removing backslashes keeps the end of the pattern of a prefix. *)
Lemma remove_backslashes_suffix s :
  exists u, removeDoubleBackslashes (s ++ "(/.*)?") = u ++ "(/.*)?".
Proof.
  unfold removeDoubleBackslashes, strings_ReplaceAll.
  induction s as [|c s (u & IH)]; [by exists ""|].
  cbn [String.append replace_all]. destruct (String.prefix "\" _).
  - exists u. exact IH.
  - exists (String c u). by rewrite IH.
Qed.
Lemma prefix_length_pos r :
  matchesByPrefix r = true -> matchesByRegexp r = false -> (0 < comparison_length r)%Z.
Proof.
  intros Hp Hr. unfold comparison_length, GetComparisonString. rewrite Hp, Hr.
  unfold getPrefixAsRegexp. destruct (remove_backslashes_suffix (Route_Prefix r)) as [u ->].
  rewrite str_length_app. simpl String.length. lia.
Qed.

Lemma routeMatcherLess_rank r1 r2 :
  plain_route r1 = true -> plain_route r2 = true -> routeMatcherLess r1 r2 = ranks_before r1 r2.
Proof.
  unfold plain_route. rewrite !andb_true_iff, !negb_true_iff, !andb_false_iff.
  intros [Hd1 H1] [Hd2 H2]. unfold routeMatcherLess, ranks_before, route_rank, rank_gtb.
  rewrite Hd1. pose proof (matched_length r1) as M1. pose proof (matched_length r2) as M2.
  pose proof (prefix_length_pos r1) as P1. pose proof (prefix_length_pos r2) as P2.
  destruct (matchesByPrefix r1), (matchesByRegexp r1), (matchesByPrefix r2), (matchesByRegexp r2);
    destruct H1, H2; try done; simpl;
    repeat match goal with
      | H : ?x = ?x -> _ |- _ => specialize (H eq_refl)
      | H : false = true -> _ |- _ => clear H
      | H : true = false -> _ |- _ => clear H
      end;
    apply eq_true_iff_eq;
    repeat match goal with |- context [(?a =? ?b)%Z] => destruct (Z.eqb_spec a b) end;
    rewrite ?orb_true_iff, ?andb_true_iff, ?Z.ltb_lt; simpl; lia.
Qed.

Lemma SliceStable_routes l :
  forallb plain_route l = true ->
  stable_arrangement ranks_before l (SliceStable routeMatcherLess l).
Proof.
  rewrite forallb_forall. intros H.
  rewrite (SliceStable_ext routeMatcherLess ranks_before); [apply SliceStable_spec, _|].
  intros x y Hx Hy. apply routeMatcherLess_rank; apply H; by apply list_elem_of_In.
Qed.

Lemma forallb_filter {A} (f g : A -> bool) l : forallb f l = true -> forallb f (List.filter g l) = true.
Proof.
  rewrite !forallb_forall. intros H x [Hx _]%filter_In. by apply H.
Qed.
Lemma filter_negb_perm {A} (f : A -> bool) l :
  List.filter f l ++ List.filter (fun x => negb (f x)) l ≡ₚ l.
Proof.
  induction l as [|x l IH]; simpl; [done|]. destruct (f x); simpl.
  - by rewrite IH.
  - by rewrite <- Permutation_middle, IH.
Qed.

(** The routes sent to Envoy are three groups one after the other: the
    routes with an x-anchor matcher, those with an x-version matcher and those
    without one.  When no route is a permission and none is matched both by
    prefix and regexp, each group is the unique stable arrangement of its
    routes by rank: longer pattern first, then more header matchers, then
    prefix before regexp. *)
Theorem OrderRoutesForEnvoy_groups routes :
  forallb plain_route routes = true ->
  exists balancing xversion other,
    OrderRoutesForEnvoy routes = (balancing ++ xversion ++ other)%list /\
    stable_arrangement ranks_before (List.filter (has_header "x-anchor") routes) balancing /\
    stable_arrangement ranks_before (List.filter (has_header "x-version") routes) xversion /\
    stable_arrangement ranks_before
      (List.filter (fun r => negb (has_header "x-version" r)) routes) other.
Proof.
  intros H. eexists _, _, _. split; [reflexivity|].
  split_and!; apply SliceStable_routes, forallb_filter, H.
Qed.

(** Ordering routes loses and invents none, whatever the routes: every route
    comes out once, and a second time when it has an x-anchor matcher. *)
Theorem OrderRoutesForEnvoy_permutation routes :
  OrderRoutesForEnvoy routes ≡ₚ (List.filter (has_header "x-anchor") routes ++ routes)%list.
Proof.
  unfold OrderRoutesForEnvoy. rewrite !SliceStable_perm. by rewrite filter_negb_perm.
Qed.

(** A permission (a route with the deny flag) compares before every route,
    and a route with a longer pattern compares before the permission, so two
    such routes come out in the opposite of the order they came in. *)
Theorem OrderRoutesForEnvoy_deny_flips :
  let deny := (zero : Route) <| Route_Prefix := "/a" |> <| Route_Deny := true |> in
  let long := (zero : Route) <| Route_Prefix := "/a/b" |> in
  OrderRoutesForEnvoy [deny; long] = [long; deny] /\
  OrderRoutesForEnvoy [long; deny] = [deny; long].
Proof. split; reflexivity. Qed.

Definition example_routes : list Route :=
  [(zero : Route) <| Route_Prefix := "/a" |>;
   (zero : Route) <| Route_Regexp := "/a/([^/]+)(/.*)?" |>;
   (zero : Route) <| Route_Prefix := "/a/b" |>;
   (zero : Route) <| Route_Prefix := "/a" |>
     <| Route_HeaderMatchers := [(zero : HeaderMatcher) <| HeaderMatcher_Name := "X-Version" |>] |>].
Example OrderRoutesForEnvoy_example :
  (fun r => (Route_Prefix r, Route_Regexp r)) <$> OrderRoutesForEnvoy example_routes
  = [("/a", ""); ("/a/b", ""); ("", "/a/([^/]+)(/.*)?"); ("/a", "")].
Proof. reflexivity. Qed.
Lemma OrderRoutesForEnvoy_groups_witness :
  forallb plain_route example_routes = true /\
  exists balancing xversion other,
    OrderRoutesForEnvoy example_routes = (balancing ++ xversion ++ other)%list /\
    stable_arrangement ranks_before (List.filter (has_header "x-anchor") example_routes) balancing /\
    stable_arrangement ranks_before (List.filter (has_header "x-version") example_routes) xversion /\
    stable_arrangement ranks_before
      (List.filter (fun r => negb (has_header "x-version" r)) example_routes) other.
Proof. split; [reflexivity|]. apply (OrderRoutesForEnvoy_groups example_routes). reflexivity. Defined.
