(* ===== verification/RouteKey.v ===== *)
(** [services/route/routekey/keygen.go]: the key that identifies what a route
    matches, a SHA-256 digest of a JSON text.

    The JSON encoder is the one of [encoding/json] on the struct types of the
    file, for strings that are valid UTF-8 without U+2028 and U+2029; the digest
    is a parameter. *)
From S2P Require Import Prelude GoLib Domain.
From Stdlib Require Import Ascii DecimalString DecimalZ.
Import Prelude.
Open Scope string_scope.

(** * What a route matches *)

Record KeyRangeMatch := mkKeyRangeMatch { KeyRangeMatch_Start : Z; KeyRangeMatch_End : Z }.

Record HeaderMatch := mkHeaderMatch {
  HeaderMatch_Name : string;
  HeaderMatch_ExactMatch : string;
  HeaderMatch_SafeRegexMatch : string;
  HeaderMatch_RangeMatch : option KeyRangeMatch;
  HeaderMatch_PresentMatch : option bool;
  HeaderMatch_PrefixMatch : string;
  HeaderMatch_SuffixMatch : string;
  HeaderMatch_InvertMatch : bool
}.

Record RouteMatch := mkRouteMatch {
  RouteMatch_Prefix : string;
  RouteMatch_Regexp : string;
  RouteMatch_Path : string;
  RouteMatch_Headers : list HeaderMatch;
  RouteMatch_Version : string
}.

Definition fromHeaderMatcher (hm : HeaderMatcher) : HeaderMatch := {|
  HeaderMatch_Name := HeaderMatcher_Name hm;
  HeaderMatch_ExactMatch := HeaderMatcher_ExactMatch hm;
  HeaderMatch_SafeRegexMatch := HeaderMatcher_SafeRegexMatch hm;
  HeaderMatch_PrefixMatch := HeaderMatcher_PrefixMatch hm;
  HeaderMatch_SuffixMatch := HeaderMatcher_SuffixMatch hm;
  HeaderMatch_InvertMatch := HeaderMatcher_InvertMatch hm;
  HeaderMatch_RangeMatch :=
    let r := HeaderMatcher_RangeMatch hm in
    if NullInt_Valid (RangeMatch_Start r) && NullInt_Valid (RangeMatch_End r)
    then Some (mkKeyRangeMatch (NullInt_Int64 (RangeMatch_Start r)) (NullInt_Int64 (RangeMatch_End r)))
    else None;
  HeaderMatch_PresentMatch :=
    if NullBool_Valid (HeaderMatcher_PresentMatch hm)
    then Some (NullBool_Bool (HeaderMatcher_PresentMatch hm)) else None
|}.

Definition fromRoute (route : Route) : RouteMatch := {|
  RouteMatch_Prefix := Route_Prefix route;
  RouteMatch_Regexp := Route_Regexp route;
  RouteMatch_Path := Route_Path route;
  RouteMatch_Version := Route_InitialDeploymentVersion route;
  RouteMatch_Headers := fromHeaderMatcher <$> Route_HeaderMatchers route
|}.

(** * [json.Marshal] *)

Definition hex_char (n : N) : Ascii.ascii :=
  if (n <? 10)%N then Ascii.ascii_of_N (48 + n) else Ascii.ascii_of_N (87 + n).

Definition dquote : Ascii.ascii := Ascii.ascii_of_N 34.
Definition backslash : Ascii.ascii := Ascii.ascii_of_N 92.

Definition json_char (c : Ascii.ascii) : string :=
  let n := Ascii.N_of_ascii c in
  if (n =? 34)%N || (n =? 92)%N then String backslash (String c "")
  else if (n =? 8)%N then String backslash "b"
  else if (n =? 9)%N then String backslash "t"
  else if (n =? 10)%N then String backslash "n"
  else if (n =? 12)%N then String backslash "f"
  else if (n =? 13)%N then String backslash "r"
  else if (n <? 32)%N || (n =? 38)%N || (n =? 60)%N || (n =? 62)%N
  then String backslash ("u00" ++ String (hex_char (n / 16)) (String (hex_char (n mod 16)) ""))
  else String c "".
Fixpoint json_chars (s : string) : string :=
  match s with "" => "" | String c s' => json_char c ++ json_chars s' end.
Definition json_string (s : string) : string := String dquote (json_chars s ++ String dquote "").

(** The fields of a struct that are not omitted, separated by commas. *)
Fixpoint json_fields (first : bool) (fields : list (string * option string)) : string :=
  match fields with
  | [] => ""
  | (_, None) :: rest => json_fields first rest
  | (k, Some v) :: rest =>
      (if first then "" else ",") ++ json_string k ++ ":" ++ v ++ json_fields false rest
  end.
Definition json_object (fields : list (string * option string)) : string :=
  "{" ++ json_fields true fields ++ "}".

Fixpoint json_elements (first : bool) (l : list string) : string :=
  match l with
  | [] => ""
  | v :: rest => (if first then "" else ",") ++ v ++ json_elements false rest
  end.
Definition json_array (l : list string) : string := "[" ++ json_elements true l ++ "]".

Definition json_bool (b : bool) : string := if b then "true" else "false".
Definition omitempty_string (s : string) : option string :=
  if nonempty s then Some (json_string s) else None.

Definition json_range (r : KeyRangeMatch) : string :=
  json_object [("start", Some (strconv_Itoa (KeyRangeMatch_Start r)));
               ("end", Some (strconv_Itoa (KeyRangeMatch_End r)))].
Definition json_header (h : HeaderMatch) : string :=
  json_object [
    ("Name", omitempty_string (HeaderMatch_Name h));
    ("ExactMatch", omitempty_string (HeaderMatch_ExactMatch h));
    ("SafeRegexMatch", omitempty_string (HeaderMatch_SafeRegexMatch h));
    ("RangeMatch", json_range <$> HeaderMatch_RangeMatch h);
    ("PresentMatch", json_bool <$> HeaderMatch_PresentMatch h);
    ("PrefixMatch", omitempty_string (HeaderMatch_PrefixMatch h));
    ("SuffixMatch", omitempty_string (HeaderMatch_SuffixMatch h));
    ("InvertMatch", if HeaderMatch_InvertMatch h then Some (json_bool true) else None)].
Definition json_Marshal (m : RouteMatch) : string :=
  json_object [
    ("Prefix", omitempty_string (RouteMatch_Prefix m));
    ("Regexp", omitempty_string (RouteMatch_Regexp m));
    ("Path", omitempty_string (RouteMatch_Path m));
    ("Headers", match RouteMatch_Headers m with
                | [] => None
                | l => Some (json_array (json_header <$> l))
                end);
    ("Version", omitempty_string (RouteMatch_Version m))].

(** * Keys *)

(** [crypto/sha256]: the 32 bytes of the digest. *)
Class Sha256 : Type := { sha256_Sum256 : string -> string }.

(** The [%x] verb. *)
Fixpoint hex_string (s : string) : string :=
  match s with
  | "" => ""
  | String c s' =>
      let n := Ascii.N_of_ascii c in
      String (hex_char (n / 16)) (String (hex_char (n mod 16)) (hex_string s'))
  end.

Section keys.
Context `{S : Sha256}.

Definition RouteKey_Generate (routeMatch : RouteMatch) : string :=
  hex_string (sha256_Sum256 (json_Marshal routeMatch)).
Definition GenerateKey (route : Route) : string := RouteKey_Generate (fromRoute route).
Definition without_version (m : RouteMatch) : RouteMatch :=
  mkRouteMatch (RouteMatch_Prefix m) (RouteMatch_Regexp m) (RouteMatch_Path m) (RouteMatch_Headers m) "".
Definition GenerateNoVersionKey (route : Route) : string :=
  RouteKey_Generate (without_version (fromRoute route)).
End keys.

Example json_ex :
  json_Marshal (fromRoute ((zero : Route) <| Route_Prefix := "/a&b" |> <| Route_InitialDeploymentVersion := "v1" |>))
  = "{" ++ json_string "Prefix" ++ ":" ++ String dquote "/a" ++ String backslash "u0026b" ++ String dquote ","
    ++ json_string "Version" ++ ":" ++ json_string "v1" ++ "}".
Proof. reflexivity. Qed.

(** * The encoding can be read back *)

Definition unhex (c : Ascii.ascii) : option N :=
  let n := Ascii.N_of_ascii c in
  if ((48 <=? n) && (n <=? 57))%N then Some (n - 48)%N
  else if ((97 <=? n) && (n <=? 102))%N then Some (n - 87)%N
  else None.
Definition unescape (c : Ascii.ascii) : option Ascii.ascii :=
  let n := Ascii.N_of_ascii c in
  if (n =? 98)%N then Some (Ascii.ascii_of_N 8)
  else if (n =? 116)%N then Some (Ascii.ascii_of_N 9)
  else if (n =? 110)%N then Some (Ascii.ascii_of_N 10)
  else if (n =? 102)%N then Some (Ascii.ascii_of_N 12)
  else if (n =? 114)%N then Some (Ascii.ascii_of_N 13)
  else if (n =? 117)%N then None
  else Some c.
(** The character at the front of the body of a JSON string. *)
Definition read_char (s : string) : option (Ascii.ascii * string) :=
  match s with
  | "" => None
  | String c s' =>
      if Ascii.eqb c dquote then None
      else if Ascii.eqb c backslash then
        match s' with
        | String e r =>
            match unescape e with
            | Some x => Some (x, r)
            | None => match r with
                      | String _ (String _ (String h (String l r'))) =>
                          match unhex h, unhex l with
                          | Some a, Some b => Some (Ascii.ascii_of_N (16 * a + b), r')
                          | _, _ => None
                          end
                      | _ => None
                      end
            end
        | "" => None
        end
      else Some (c, s')
  end.

Lemma read_json_char c r : read_char (json_char c ++ r) = Some (c, r).
Proof. destruct c as [[] [] [] [] [] [] [] []]; reflexivity. Qed.

Lemma json_chars_inj s s' a b :
  json_chars s ++ String dquote a = json_chars s' ++ String dquote b -> s = s' /\ a = b.
Proof.
  revert s'. induction s as [|c s IH]; intros [|c' s']; simpl; rewrite ?str_app_assoc; intros H.
  - by injection H.
  - apply (f_equal read_char) in H. by rewrite read_json_char in H.
  - apply (f_equal read_char) in H. by rewrite read_json_char in H.
  - apply (f_equal read_char) in H. rewrite !read_json_char in H. injection H as -> H.
    apply IH in H as [-> ->]. done.
Qed.
Lemma json_string_inj s s' a b : json_string s ++ a = json_string s' ++ b -> s = s' /\ a = b.
Proof.
  unfold json_string. simpl. rewrite !str_app_assoc. intros [= H]. by apply json_chars_inj in H.
Qed.

Definition read_hex (s : string) : option (Ascii.ascii * string) :=
  match s with
  | String h (String l r) =>
      match unhex h, unhex l with
      | Some a, Some b => Some (Ascii.ascii_of_N (16 * a + b), r)
      | _, _ => None
      end
  | _ => None
  end.
Lemma hex_string_inj s s' : hex_string s = hex_string s' -> s = s'.
Proof.
  assert (forall c r, read_hex (String (hex_char (Ascii.N_of_ascii c / 16))
            (String (hex_char (Ascii.N_of_ascii c mod 16)) r)) = Some (c, r)) as Hr
    by (intros [[] [] [] [] [] [] [] []] r; reflexivity).
  revert s'. induction s as [|c s IH]; intros [|c' s'] H; try done.
  apply (f_equal read_hex) in H. cbn [hex_string] in H. rewrite !Hr in H.
  injection H as -> H. f_equal. auto.
Qed.

(** What follows a value inside an object or an array. *)
Definition delimited (a : string) : bool :=
  match a with
  | String c _ => Ascii.eqb c ","%char || Ascii.eqb c "}"%char || Ascii.eqb c "]"%char
  | "" => false
  end.
(** [self_delimiting v v']: the two texts cannot be confused before a delimiter. *)
Definition self_delimiting (v v' : string) : Prop :=
  forall a b, delimited a = true -> delimited b = true -> v ++ a = v' ++ b -> v = v' /\ a = b.

Fixpoint all_digits (s : string) : bool :=
  match s with
  | "" => true
  | String c s' => negb (Ascii.eqb c ","%char || Ascii.eqb c "}"%char || Ascii.eqb c "]"%char) && all_digits s'
  end.
Lemma all_digits_delimiting u u' : all_digits u = true -> all_digits u' = true -> self_delimiting u u'.
Proof.
  revert u'. induction u as [|c u IH]; intros [|c' u']; intros Hu Hu' a b Ha Hb H; simpl in *.
  - done.
  - subst a. simpl in Ha. rewrite Ha in Hu'. done.
  - subst b. simpl in Hb. rewrite Hb in Hu. done.
  - injection H as -> H. apply andb_prop in Hu as [_ Hu], Hu' as [_ Hu'].
    destruct (IH u' Hu Hu' a b Ha Hb H) as [-> ->]. done.
Qed.
Lemma Itoa_digits z : all_digits (strconv_Itoa z) = true.
Proof.
  assert (forall u, all_digits (NilEmpty.string_of_uint u) = true) as H by (induction u; simpl; auto).
  unfold strconv_Itoa, NilZero.string_of_int, NilZero.string_of_uint.
  destruct (Z.to_int z) as [u|u]; destruct u; simpl; try apply H; done.
Qed.
Lemma Itoa_inj z z' : strconv_Itoa z = strconv_Itoa z' -> z = z'.
Proof.
  assert (forall z, Z.to_int z <> Decimal.Pos Decimal.Nil /\ Z.to_int z <> Decimal.Neg Decimal.Nil) as Hn.
  { intros x. split; intros H; pose proof (DecimalZ.of_to x) as Hx; rewrite H in Hx; simpl in Hx; subst x; done. }
  unfold strconv_Itoa. intros H. apply (f_equal NilZero.int_of_string) in H.
  destruct (Hn z), (Hn z'). rewrite !NilZero.isi in H by done. injection H as H.
  apply (f_equal Z.of_int) in H. by rewrite !DecimalZ.of_to in H.
Qed.

Lemma Itoa_delimiting z z' : self_delimiting (strconv_Itoa z) (strconv_Itoa z').
Proof. apply all_digits_delimiting; apply Itoa_digits. Qed.
Lemma json_string_delimiting s s' : self_delimiting (json_string s) (json_string s').
Proof. intros a b _ _ H. by apply json_string_inj in H as [-> ->]. Qed.

(** Two structs of one type: the same keys, values that do not run together. *)
Definition compatible (f f' : string * option string) : Prop :=
  f.1 = f'.1 /\ forall v v', f.2 = Some v -> f'.2 = Some v' -> self_delimiting v v'.

Lemma json_fields_front first fs r :
  (exists r', json_fields first fs ++ "}" ++ r = "}" ++ r') \/
  (exists k r', k ∈ fs.*1 /\
     json_fields first fs ++ "}" ++ r = (if first then "" else ",") ++ json_string k ++ r').
Proof.
  induction fs as [|[k [v|]] fs IH]; cbn [json_fields].
  - left. by exists r.
  - right. exists k. eexists. split; [left|]. by rewrite !str_app_assoc.
  - destruct IH as [?|(k' & r' & Hk & E)]; [by left|right]. exists k', r'. split; [by right|done].
Qed.
Lemma json_fields_delimited fs r : delimited (json_fields false fs ++ "}" ++ r) = true.
Proof. destruct (json_fields_front false fs r) as [[r' ->]|(k & r' & _ & ->)]; done. Qed.

Lemma front_mismatch (first : bool) k fs r a :
  k ∉ fs.*1 ->
  (if first then "" else ",") ++ json_string k ++ a <> json_fields first fs ++ "}" ++ r.
Proof.
  intros Hk H. destruct (json_fields_front first fs r) as [[r' E]|(k' & r' & Hk' & E)]; rewrite E in H.
  - by destruct first.
  - assert (json_string k ++ a = json_string k' ++ r') as H' by (destruct first; [exact H|exact (f_equal (str_drop 1) H)]).
    by apply json_string_inj in H' as [-> _].
Qed.

Lemma json_fields_inj first fs fs' a b :
  Forall2 compatible fs fs' -> NoDup fs.*1 ->
  json_fields first fs ++ "}" ++ a = json_fields first fs' ++ "}" ++ b -> fs.*2 = fs'.*2 /\ a = b.
Proof.
  intros Hc. revert first. induction Hc as [|[k o] [k' o'] fs fs' [Hk Hv] Hc IH]; intros first Hnd H.
  { simpl in H. by injection H. }
  simpl in Hk. subst k'. rewrite fmap_cons, NoDup_cons in Hnd. destruct Hnd as [Hk Hnd].
  assert (fs.*1 = fs'.*1) as Hkeys.
  { clear -Hc. induction Hc as [|x y l l' [Hxy _] _ IH]; [done|]. by rewrite !fmap_cons, Hxy, IH. }
  destruct o as [v|], o' as [v'|]; cbn [json_fields] in H; rewrite ?str_app_assoc in H.
  - assert (json_string k ++ ":" ++ v ++ json_fields false fs ++ "}" ++ a
            = json_string k ++ ":" ++ v' ++ json_fields false fs' ++ "}" ++ b) as H1
      by (destruct first; [exact H|exact (f_equal (str_drop 1) H)]).
    apply json_string_inj in H1 as [_ H1]. injection H1 as H1.
    apply (Hv v v') in H1 as [-> H1]; [|done|done|apply json_fields_delimited..].
    apply IH in H1 as [Hs ->]; [|done]. by rewrite !fmap_cons, Hs.
  - exfalso. eapply front_mismatch; [|exact H]. by rewrite <- Hkeys.
  - exfalso. eapply front_mismatch; [|symmetry; exact H]. done.
  - apply IH in H as [Hs ->]; [|done]. by rewrite !fmap_cons, Hs.
Qed.

Lemma json_object_inj fs fs' a b :
  Forall2 compatible fs fs' -> NoDup fs.*1 ->
  json_object fs ++ a = json_object fs' ++ b -> fs.*2 = fs'.*2 /\ a = b.
Proof.
  unfold json_object. cbn [String.append]. rewrite !str_app_assoc. intros Hc Hnd [= H].
  by eapply json_fields_inj.
Qed.

Lemma omitempty_compatible k s s' : compatible (k, omitempty_string s) (k, omitempty_string s').
Proof.
  split; [done|]. unfold omitempty_string. simpl. intros v v'.
  destruct (nonempty s), (nonempty s'); try done. intros [= <-] [= <-]. apply json_string_delimiting.
Qed.
Lemma omitempty_inj s s' : omitempty_string s = omitempty_string s' -> s = s'.
Proof.
  unfold omitempty_string, nonempty. destruct (String.eqb_spec s ""), (String.eqb_spec s' ""); simpl; try congruence.
  intros H%(inj Some). by destruct (json_string_inj s s' "" "") as [-> _]; [by rewrite H|].
Qed.
Lemma Some_compatible k v v' : self_delimiting v v' -> compatible (k, Some v) (k, Some v').
Proof. intros H. split; [reflexivity|]. intros x x' H1%(inj Some) H2%(inj Some). by subst. Qed.
Lemma Itoa_compatible k z z' : compatible (k, Some (strconv_Itoa z)) (k, Some (strconv_Itoa z')).
Proof. apply Some_compatible, Itoa_delimiting. Qed.
Lemma json_range_inj r r' a b : json_range r ++ a = json_range r' ++ b -> r = r' /\ a = b.
Proof.
  unfold json_range. intros H. apply json_object_inj in H as [H ->].
  - destruct r, r'. simpl in H. injection H as H1 H2. by apply Itoa_inj in H1, H2; subst.
  - repeat (apply Forall2_cons_2; [apply Itoa_compatible|]). apply Forall2_nil_2.
  - by apply (bool_decide_unpack _).
Qed.
Lemma option_range_inj (o o' : option KeyRangeMatch) : json_range <$> o = json_range <$> o' -> o = o'.
Proof.
  destruct o as [r|], o' as [r'|]; simpl; try done. intros H%(inj Some).
  by destruct (json_range_inj r r' "" "") as [-> _]; [by rewrite H|].
Qed.
Lemma option_bool_inj (o o' : option bool) : json_bool <$> o = json_bool <$> o' -> o = o'.
Proof. by destruct o as [[]|], o' as [[]|]. Qed.
Lemma json_range_compatible k (o o' : option KeyRangeMatch) : compatible (k, json_range <$> o) (k, json_range <$> o').
Proof.
  destruct o as [r|], o' as [r'|]; try (split; [reflexivity|intros ? ? H1 H2; simpl in *; discriminate]).
  apply Some_compatible. intros a b _ _ H. by apply json_range_inj in H as [-> ->].
Qed.
Lemma json_bool_compatible k (o o' : option bool) : compatible (k, json_bool <$> o) (k, json_bool <$> o').
Proof.
  destruct o as [r|], o' as [r'|]; try (split; [reflexivity|intros ? ? H1 H2; simpl in *; discriminate]).
  apply Some_compatible, all_digits_delimiting; [by destruct r|by destruct r'].
Qed.

Definition header_fields (h : HeaderMatch) : list (string * option string) := [
  ("Name", omitempty_string (HeaderMatch_Name h));
  ("ExactMatch", omitempty_string (HeaderMatch_ExactMatch h));
  ("SafeRegexMatch", omitempty_string (HeaderMatch_SafeRegexMatch h));
  ("RangeMatch", json_range <$> HeaderMatch_RangeMatch h);
  ("PresentMatch", json_bool <$> HeaderMatch_PresentMatch h);
  ("PrefixMatch", omitempty_string (HeaderMatch_PrefixMatch h));
  ("SuffixMatch", omitempty_string (HeaderMatch_SuffixMatch h));
  ("InvertMatch", json_bool <$> if HeaderMatch_InvertMatch h then Some true else None)].
Lemma json_header_fields h : json_header h = json_object (header_fields h).
Proof. unfold json_header, header_fields. by destruct (HeaderMatch_InvertMatch h). Qed.

Lemma json_header_inj h h' a b : json_header h ++ a = json_header h' ++ b -> h = h' /\ a = b.
Proof.
  rewrite !json_header_fields. intros H. apply json_object_inj in H as [H ->].
  - unfold header_fields in H. rewrite !fmap_cons in H. cbn [snd] in H.
    apply cons_eq_inv in H as [H1 H]. apply cons_eq_inv in H as [H2 H].
    apply cons_eq_inv in H as [H3 H]. apply cons_eq_inv in H as [H4 H].
    apply cons_eq_inv in H as [H5 H]. apply cons_eq_inv in H as [H6 H].
    apply cons_eq_inv in H as [H7 H]. apply cons_eq_inv in H as [H8 _].
    apply omitempty_inj in H1, H2, H3, H6, H7. apply option_range_inj in H4. apply option_bool_inj in H5, H8.
    destruct h as [? ? ? ? ? ? ? i], h' as [? ? ? ? ? ? ? i']. simpl in *.
    destruct i, i'; by simplify_eq.
  - unfold header_fields.
    repeat (apply Forall2_cons_2; [apply omitempty_compatible || apply json_range_compatible || apply json_bool_compatible|]).
    apply Forall2_nil_2.
  - by apply (bool_decide_unpack _).
Qed.

Lemma json_elements_inj first (l l' : list HeaderMatch) a b :
  json_elements first (json_header <$> l) ++ "]" ++ a = json_elements first (json_header <$> l') ++ "]" ++ b ->
  l = l' /\ a = b.
Proof.
  assert (forall h x, exists y, json_header h ++ x = String "{"%char y) as Hb
    by (intros h x; unfold json_header, json_object; simpl; by eexists).
  revert first l'. induction l as [|h l IH]; intros first [|h' l'] H.
  - split; [done|]. exact (f_equal (str_drop 1) H).
  - exfalso. rewrite fmap_cons in H. cbn [json_elements] in H. rewrite !str_app_assoc in H.
    destruct first; [|done].
    destruct (Hb h' (json_elements false (json_header <$> l') ++ "]" ++ b)) as [y E].
    change ("" ++ ?x) with x in H. cbn [String.append] in H, E. rewrite E in H. done.
  - exfalso. rewrite fmap_cons in H. cbn [json_elements] in H. rewrite !str_app_assoc in H.
    destruct first; [|done].
    destruct (Hb h (json_elements false (json_header <$> l) ++ "]" ++ a)) as [y E].
    cbn [String.append] in H, E. rewrite E in H. done.
  - rewrite !fmap_cons in H. cbn [json_elements] in H. rewrite !str_app_assoc in H.
    assert (json_header h ++ json_elements false (json_header <$> l) ++ "]" ++ a
            = json_header h' ++ json_elements false (json_header <$> l') ++ "]" ++ b) as H1
      by (destruct first; [exact H|exact (f_equal (str_drop 1) H)]).
    apply json_header_inj in H1 as [-> H1]. by apply IH in H1 as [-> ->].
Qed.
Lemma json_array_inj (l l' : list HeaderMatch) a b :
  json_array (json_header <$> l) ++ a = json_array (json_header <$> l') ++ b -> l = l' /\ a = b.
Proof.
  unfold json_array. cbn [String.append]. rewrite !str_app_assoc. intros H.
  apply (f_equal (str_drop 1)) in H. cbn [str_drop] in H. by apply json_elements_inj in H.
Qed.

Definition headers_value (l : list HeaderMatch) : option string :=
  match l with [] => None | l => Some (json_array (json_header <$> l)) end.
Lemma headers_value_inj l l' : headers_value l = headers_value l' -> l = l'.
Proof.
  destruct l as [|h l], l' as [|h' l']; cbn [headers_value]; try done. intros H%(inj Some).
  by destruct (json_array_inj (h :: l) (h' :: l') "" "") as [-> _]; [rewrite H|].
Qed.
Lemma headers_compatible k l l' : compatible (k, headers_value l) (k, headers_value l').
Proof.
  destruct l as [|h l], l' as [|h' l']; try (split; [reflexivity|intros ? ? H1 H2; simpl in *; discriminate]).
  cbn [headers_value]. apply Some_compatible. intros a b _ _ H.
  apply json_array_inj in H as [E ->]. by rewrite E.
Qed.

Lemma json_Marshal_inj m m' : json_Marshal m = json_Marshal m' -> m = m'.
Proof.
  assert (forall m, json_Marshal m = json_object [
    ("Prefix", omitempty_string (RouteMatch_Prefix m));
    ("Regexp", omitempty_string (RouteMatch_Regexp m));
    ("Path", omitempty_string (RouteMatch_Path m));
    ("Headers", headers_value (RouteMatch_Headers m));
    ("Version", omitempty_string (RouteMatch_Version m))]) as E by (intros x; unfold json_Marshal; by destruct (RouteMatch_Headers x)).
  rewrite !E. intros H. apply (f_equal (fun x => x ++ "")) in H.
  apply json_object_inj in H as [H _].
  - rewrite !fmap_cons in H. cbn [snd] in H.
    apply cons_eq_inv in H as [H1 H]. apply cons_eq_inv in H as [H2 H].
    apply cons_eq_inv in H as [H3 H]. apply cons_eq_inv in H as [H4 H].
    apply cons_eq_inv in H as [H5 _].
    apply omitempty_inj in H1, H2, H3, H5. apply headers_value_inj in H4.
    destruct m, m'. simpl in *. by subst.
  - repeat (apply Forall2_cons_2; [apply omitempty_compatible || apply headers_compatible|]).
    apply Forall2_nil_2.
  - by apply (bool_decide_unpack _).
Qed.

(** * Properties *)

Section properties.
Context `{S : Sha256}.

(** The digest does not collide on the texts of these two matches. *)
Definition no_collision (m m' : RouteMatch) : Prop :=
  sha256_Sum256 (json_Marshal m) = sha256_Sum256 (json_Marshal m') -> json_Marshal m = json_Marshal m'.

Lemma RouteKey_Generate_inj m m' :
  no_collision m m' -> RouteKey_Generate m = RouteKey_Generate m' <-> m = m'.
Proof.
  intros Hc. split; [|by intros ->]. unfold RouteKey_Generate.
  intros H%hex_string_inj. by apply json_Marshal_inj, Hc.
Qed.

(** Two header matchers ask for the same: the same texts, the same range where
    both its bounds are set, the same presence where it is set. *)
Definition full_range (m : HeaderMatcher) : Prop :=
  NullInt_Valid (RangeMatch_Start (HeaderMatcher_RangeMatch m)) = true /\ NullInt_Valid (RangeMatch_End (HeaderMatcher_RangeMatch m)) = true.
Definition same_matcher (m m' : HeaderMatcher) : Prop :=
  HeaderMatcher_Name m = HeaderMatcher_Name m' /\
  HeaderMatcher_ExactMatch m = HeaderMatcher_ExactMatch m' /\
  HeaderMatcher_SafeRegexMatch m = HeaderMatcher_SafeRegexMatch m' /\
  HeaderMatcher_PrefixMatch m = HeaderMatcher_PrefixMatch m' /\
  HeaderMatcher_SuffixMatch m = HeaderMatcher_SuffixMatch m' /\
  HeaderMatcher_InvertMatch m = HeaderMatcher_InvertMatch m' /\
  (full_range m <-> full_range m') /\
  (full_range m ->
     NullInt_Int64 (RangeMatch_Start (HeaderMatcher_RangeMatch m)) = NullInt_Int64 (RangeMatch_Start (HeaderMatcher_RangeMatch m')) /\
     NullInt_Int64 (RangeMatch_End (HeaderMatcher_RangeMatch m)) = NullInt_Int64 (RangeMatch_End (HeaderMatcher_RangeMatch m'))) /\
  NullBool_Valid (HeaderMatcher_PresentMatch m) = NullBool_Valid (HeaderMatcher_PresentMatch m') /\
  (NullBool_Valid (HeaderMatcher_PresentMatch m) = true ->
     NullBool_Bool (HeaderMatcher_PresentMatch m) = NullBool_Bool (HeaderMatcher_PresentMatch m')).
Lemma when_same {A} (b b' : bool) (x x' : A) :
  (if b then Some x else None) = (if b' then Some x' else None) <-> (b = true <-> b' = true) /\ (b = true -> x = x').
Proof. destruct b, b'; naive_solver. Qed.
Lemma range_same (s e s' e' : Z) : mkKeyRangeMatch s e = mkKeyRangeMatch s' e' <-> s = s' /\ e = e'.
Proof. split; [by intros [= -> ->]|by intros [-> ->]]. Qed.
Lemma valid_same (b b' : bool) : b = b' <-> (b = true <-> b' = true).
Proof. destruct b, b'; naive_solver. Qed.
Lemma fromHeaderMatcher_same m m' : fromHeaderMatcher m = fromHeaderMatcher m' <-> same_matcher m m'.
Proof.
  unfold same_matcher, full_range. rewrite (valid_same (NullBool_Valid _)).
  pose proof (when_same (NullInt_Valid (RangeMatch_Start (HeaderMatcher_RangeMatch m)) && NullInt_Valid (RangeMatch_End (HeaderMatcher_RangeMatch m)))
    (NullInt_Valid (RangeMatch_Start (HeaderMatcher_RangeMatch m')) && NullInt_Valid (RangeMatch_End (HeaderMatcher_RangeMatch m')))
    (mkKeyRangeMatch (NullInt_Int64 (RangeMatch_Start (HeaderMatcher_RangeMatch m))) (NullInt_Int64 (RangeMatch_End (HeaderMatcher_RangeMatch m))))
    (mkKeyRangeMatch (NullInt_Int64 (RangeMatch_Start (HeaderMatcher_RangeMatch m'))) (NullInt_Int64 (RangeMatch_End (HeaderMatcher_RangeMatch m'))))) as Hr.
  rewrite range_same, !andb_true_iff in Hr.
  pose proof (when_same (NullBool_Valid (HeaderMatcher_PresentMatch m)) (NullBool_Valid (HeaderMatcher_PresentMatch m'))
    (NullBool_Bool (HeaderMatcher_PresentMatch m)) (NullBool_Bool (HeaderMatcher_PresentMatch m'))) as Hp.
  unfold fromHeaderMatcher. cbv zeta. split.
  - intros [= H1 H2 H3 H4 H5 H6 H7 H8]. apply Hr in H4 as [? ?]. apply Hp in H5 as [? ?]. by split_and!.
  - intros (-> & -> & -> & -> & -> & -> & H1 & H2 & H3 & H4).
    f_equal; [by apply Hr|by apply Hp].
Qed.
Lemma fromHeaderMatchers_same l l' : fromHeaderMatcher <$> l = fromHeaderMatcher <$> l' <-> Forall2 same_matcher l l'.
Proof.
  rewrite list_eq_Forall2, Forall2_fmap. split; intros Hl; (eapply Forall2_impl; [exact Hl|]); intros m m' Hm; by apply fromHeaderMatcher_same.
Qed.

(** C39: Two routes have the same route key exactly when they match the same
    requests - the same prefix, regular expression and path, and header matchers
    that ask for the same, one by one in order - and were first registered in
    the same version; the other fields of a route do not matter.  The only
    assumption is that SHA-256 does not collide on the two encoded matches. *)
Theorem GenerateKey_injective (r r' : Route) :
  no_collision (fromRoute r) (fromRoute r') ->
  GenerateKey r = GenerateKey r' <->
    Route_Prefix r = Route_Prefix r' /\ Route_Regexp r = Route_Regexp r' /\ Route_Path r = Route_Path r' /\
    Route_InitialDeploymentVersion r = Route_InitialDeploymentVersion r' /\
    Forall2 same_matcher (Route_HeaderMatchers r) (Route_HeaderMatchers r').
Proof.
  intros Hc. unfold GenerateKey. rewrite RouteKey_Generate_inj by done. rewrite <- fromHeaderMatchers_same. unfold fromRoute. split.
  - by intros [= -> -> -> -> ->].
  - by intros (-> & -> & -> & -> & ->).
Qed.

(** Two routes have the same key without version, the key by which promote
    and rollback pair the routes of two versions, exactly when they match the
    same requests, whatever their versions. *)
Theorem GenerateNoVersionKey_injective (r r' : Route) :
  no_collision (without_version (fromRoute r)) (without_version (fromRoute r')) ->
  GenerateNoVersionKey r = GenerateNoVersionKey r' <->
    Route_Prefix r = Route_Prefix r' /\ Route_Regexp r = Route_Regexp r' /\ Route_Path r = Route_Path r' /\
    (fromHeaderMatcher <$> Route_HeaderMatchers r) = (fromHeaderMatcher <$> Route_HeaderMatchers r').
Proof.
  intros Hc. unfold GenerateNoVersionKey. rewrite RouteKey_Generate_inj by done.
  unfold without_version, fromRoute. simpl. split.
  - by intros [= -> -> -> ->].
  - by intros (-> & -> & -> & ->).
Qed.
End properties.

(** A digest without collisions, for the witnesses. *)
Definition identity_digest : Sha256 := {| sha256_Sum256 := fun s => s |}.

Definition route_v (v : string) : Route :=
  (zero : Route) <| Route_Prefix := "/api" |> <| Route_InitialDeploymentVersion := v |>.
(** A header matcher with half a range is the one without. *)
Definition half_range : HeaderMatcher :=
  (zero : HeaderMatcher) <| HeaderMatcher_Id := 3%Z |> <| HeaderMatcher_Name := "x-version" |>
    <| HeaderMatcher_RangeMatch := mkRangeMatch (NewNullInt 1) zero |>.
Definition no_range : HeaderMatcher := (zero : HeaderMatcher) <| HeaderMatcher_Name := "x-version" |>.
Definition with_matcher (m : HeaderMatcher) : Route := (route_v "v1") <| Route_HeaderMatchers := [m] |>.
Lemma GenerateKey_injective_witness :
  GenerateKey (S := identity_digest) (with_matcher half_range) = GenerateKey (S := identity_digest) (with_matcher no_range) /\
  GenerateKey (S := identity_digest) (route_v "v1") <> GenerateKey (S := identity_digest) (route_v "v2").
Proof.
  split.
  - apply (GenerateKey_injective (S := identity_digest)); [by intros H|]. repeat (split; [reflexivity|]).
    constructor; [|constructor]. repeat (split; [reflexivity|]). split; [split; intros [Ha Hb]; first [discriminate Ha|discriminate Hb]|].
    split; [intros [Ha Hb]; discriminate Hb|]. split; [reflexivity|intros Ha; discriminate Ha].
  - intros He. apply (GenerateKey_injective (S := identity_digest)) in He as (_ & _ & _ & Hv & _); [discriminate Hv|by intros Hsame].
Defined.
Lemma GenerateNoVersionKey_injective_witness :
  GenerateNoVersionKey (S := identity_digest) (route_v "v1") = GenerateNoVersionKey (S := identity_digest) (route_v "v2").
Proof. by apply (GenerateNoVersionKey_injective (S := identity_digest) (route_v "v1") (route_v "v2")). Defined.
