(* ===== verification/VersionState.v ===== *)
(** [services/version/state.go]: the deployment versions of a promote or
    rollback, sorted by number.

    The state owns clones of the versions; [GetActive] and [GetLegacy] hand out
    pointers into it, through which the caller changes stages, so a pointer is
    an index here and [SetStage] the assignment through it.  [sort.Slice] is
    the insertion sort it runs on up to 12 elements; with distinct numbers the
    sorted order is unique. *)
From S2P Require Import Prelude GoLib Domain.
Open Scope string_scope.

Record VersionsState := mkVersionsState {
  versions : list DeploymentVersion;
  versionToPromote : string            (* the version of the version to promote *)
}.

(** A version that is not a number sorts as zero. *)
Definition sort_key (dv : DeploymentVersion) : Z := default 0%Z (NumericVersion dv).
Definition version_less (a b : DeploymentVersion) : bool := (sort_key a <? sort_key b)%Z.

Definition NewVersionState (vs : list DeploymentVersion) : VersionsState :=
  mkVersionsState (SliceStable version_less vs) "".
Definition SetVersionToPromote (v : DeploymentVersion) (st : VersionsState) : VersionsState :=
  mkVersionsState (versions st) (DeploymentVersion_Version v).

Definition has_stage (stage : string) (dv : DeploymentVersion) : bool :=
  String.eqb (DeploymentVersion_Stage dv) stage.

Fixpoint first_of_stage (stage : string) (l : list DeploymentVersion) : option nat :=
  match l with
  | [] => None
  | v :: l' => if has_stage stage v then Some O else S <$> first_of_stage stage l'
  end.
Definition GetActive (st : VersionsState) : option nat := first_of_stage ActiveStage (versions st).
Definition GetLegacy (st : VersionsState) : option nat := first_of_stage LegacyStage (versions st).

(** [p.Stage = stage] through a pointer into the state, and [*p]. *)
Definition SetStage (p : nat) (stage : string) (st : VersionsState) : VersionsState :=
  mkVersionsState
    (alter (fun v : DeploymentVersion => v <| DeploymentVersion_Stage := stage |>) p (versions st))
    (versionToPromote st).
Definition Deref (p : nat) (st : VersionsState) : DeploymentVersion := nth p (versions st) zero.

Definition GetCandidates (st : VersionsState) : list DeploymentVersion :=
  List.filter (fun v => has_stage CandidateStage v
                        && negb (String.eqb (versionToPromote st) (DeploymentVersion_Version v))) (versions st).

(** The loop has no break: it ends on the last archived version. *)
Definition GetOldestArchivedVersion (st : VersionsState) : option DeploymentVersion :=
  last (List.filter (has_stage ArchivedStage) (versions st)).

Definition GetHistorySize (st : VersionsState) : Z :=
  Z.of_nat (length (List.filter (has_stage ArchivedStage) (versions st))).

(** The loop decrements before it compares with zero. *)
Fixpoint archived_to_delete (numberToDelete : Z) (l : list DeploymentVersion) : list DeploymentVersion :=
  match l with
  | [] => []
  | v :: l' =>
      if has_stage ArchivedStage v
      then v :: if (numberToDelete - 1 =? 0)%Z then [] else archived_to_delete (numberToDelete - 1) l'
      else archived_to_delete numberToDelete l'
  end.
Definition GetArchivedVersionsToDelete (numberToDelete : Z) (st : VersionsState) : list DeploymentVersion :=
  archived_to_delete numberToDelete (versions st).

(** * Lemmas *)

#[export] Instance version_less_order : StrictWeakOrder version_less.
Proof. split; unfold version_less; intros *; rewrite ?Z.ltb_lt, ?Z.ltb_ge; lia. Qed.

Lemma NewVersionState_perm vs : versions (NewVersionState vs) ≡ₚ vs.
Proof. apply SliceStable_perm. Qed.
Lemma NewVersionState_sorted vs :
  StronglySorted (fun a b => (sort_key a <= sort_key b)%Z) (versions (NewVersionState vs)).
Proof.
  destruct (SliceStable_spec version_less vs) as (_ & H & _). simpl.
  induction H as [|x l Hs IH Hx]; constructor; [done|].
  eapply Forall_impl; [exact Hx|]. intros y Hy. unfold version_less in Hy. by apply Z.ltb_ge in Hy.
Qed.

Lemma first_of_stage_Some stage l p :
  first_of_stage stage l = Some p -> exists v, l !! p = Some v /\ has_stage stage v = true.
Proof.
  revert p. induction l as [|v l IH]; intros p; simpl; [done|].
  destruct (has_stage stage v) eqn:E; [intros [= <-]; by exists v|].
  destruct (first_of_stage stage l) as [q|]; simpl; [|done]. intros [= <-]. by apply IH.
Qed.
Lemma first_of_stage_None stage l :
  first_of_stage stage l = None <-> forall v, v ∈ l -> has_stage stage v = false.
Proof.
  induction l as [|v l IH]; simpl; [split; [by intros _ v ?%elem_of_nil|done]|].
  destruct (has_stage stage v) eqn:E.
  - split; [done|]. intros H. rewrite H in E; [done|left].
  - destruct (first_of_stage stage l) as [q|]; simpl.
    + split; [done|]. intros H. destruct IH as [_ IH]. discriminate IH. intros; apply H; by right.
    + split; [|done]. intros _ u [->|Hu]%elem_of_cons; [done|]. by apply IH.
Qed.

Lemma archived_to_delete_take k l :
  (0 < k)%Z -> archived_to_delete k l = take (Z.to_nat k) (List.filter (has_stage ArchivedStage) l).
Proof.
  revert k. induction l as [|v l IH]; intros k Hk; simpl; [by rewrite take_nil|].
  destruct (has_stage ArchivedStage v); simpl; [|by apply IH].
  destruct (Z.to_nat k) as [|n] eqn:En; [lia|]. simpl. f_equal.
  destruct (Z.eqb_spec (k - 1) 0); [by replace n with O by lia|].
  rewrite IH by lia. f_equal. lia.
Qed.
Lemma archived_to_delete_all k l :
  (k <= 0)%Z -> archived_to_delete k l = List.filter (has_stage ArchivedStage) l.
Proof.
  revert k. induction l as [|v l IH]; intros k Hk; simpl; [done|].
  destruct (has_stage ArchivedStage v); simpl; [|by apply IH].
  destruct (Z.eqb_spec (k - 1) 0); [lia|]. f_equal. apply IH. lia.
Qed.

Lemma filter_sorted {A} (R : A -> A -> Prop) (f : A -> bool) l :
  StronglySorted R l -> StronglySorted R (List.filter f l).
Proof.
  induction 1 as [|x l Hs IH Hx]; simpl; [constructor|]. destruct (f x); [|done].
  constructor; [done|]. rewrite Forall_forall in *. intros y Hy. apply Hx.
  apply list_elem_of_In, filter_In in Hy as [Hy _]. by apply list_elem_of_In.
Qed.
Lemma sorted_split {A} (R : A -> A -> Prop) l1 l2 x y :
  StronglySorted R (l1 ++ l2)%list -> x ∈ l1 -> y ∈ l2 -> R x y.
Proof.
  induction l1 as [|z l1 IH]; simpl; intros Hs Hx Hy; [by apply elem_of_nil in Hx|].
  apply StronglySorted_inv in Hs as [Hs Hz]. apply elem_of_cons in Hx as [->|Hx]; [|auto].
  rewrite Forall_forall in Hz. apply Hz. apply elem_of_app. by right.
Qed.

(** * Properties *)

(** Pruning keeps the configured number of archived versions: when there are
    more than [historySize] of them, the versions selected for deletion are
    archived ones, exactly [historySize] archived versions are not selected,
    and none of those has a lower number than a selected one. *)
Theorem archived_pruning vs historySize :
  let st := NewVersionState vs in
  let archived := List.filter (has_stage ArchivedStage) (versions st) in
  let selected := GetArchivedVersionsToDelete (GetHistorySize st - historySize) st in
  (0 <= historySize < GetHistorySize st)%Z ->
  exists kept, archived = (selected ++ kept)%list /\
    Z.of_nat (length kept) = historySize /\
    forall d k, d ∈ selected -> k ∈ kept -> (sort_key d <= sort_key k)%Z.
Proof.
  cbv zeta. set (st := NewVersionState vs). intros H. unfold GetArchivedVersionsToDelete.
  rewrite archived_to_delete_take by lia.
  set (archived := List.filter (has_stage ArchivedStage) (versions st)).
  set (n := Z.to_nat (GetHistorySize st - historySize)).
  exists (drop n archived). split_and!.
  - by rewrite take_drop.
  - rewrite length_drop. unfold n, GetHistorySize in *. fold archived in H |- *. lia.
  - intros d k Hd Hk. eapply (sorted_split (fun a b => (sort_key a <= sort_key b)%Z)); [|exact Hd|exact Hk].
    rewrite take_drop. apply filter_sorted, NewVersionState_sorted.
Qed.

(** Asked to delete no archived version, or a negative number of them,
    [GetArchivedVersionsToDelete] selects all of them. *)
Theorem archived_to_delete_nonpositive st k :
  (k <= 0)%Z -> GetArchivedVersionsToDelete k st = List.filter (has_stage ArchivedStage) (versions st).
Proof. apply archived_to_delete_all. Qed.

(** Despite its name, [GetOldestArchivedVersion] returns an archived version
    with the highest number. *)
Theorem GetOldestArchivedVersion_newest vs v :
  GetOldestArchivedVersion (NewVersionState vs) = Some v ->
  has_stage ArchivedStage v = true /\
  forall u, u ∈ vs -> has_stage ArchivedStage u = true -> (sort_key u <= sort_key v)%Z.
Proof.
  unfold GetOldestArchivedVersion. intros H. apply last_Some in H as [l H].
  assert (forall u, u ∈ vs /\ has_stage ArchivedStage u = true <-> u ∈ (l ++ [v])%list) as Hin.
  { intros u. rewrite <- H, (list_elem_of_In (List.filter _ _)), filter_In, <- list_elem_of_In, NewVersionState_perm. done. }
  split; [apply (Hin v), elem_of_app; right; left|].
  intros u Hu Hs. pose proof (proj1 (Hin u) (conj Hu Hs)) as [Hl|Hl]%elem_of_app;
    [|apply list_elem_of_singleton in Hl as ->; lia].
  eapply (sorted_split (fun a b => (sort_key a <= sort_key b)%Z)); [|exact Hl|left].
  rewrite <- H. apply filter_sorted, NewVersionState_sorted.
Qed.

Definition example_versions : list DeploymentVersion :=
  [mkDeploymentVersion "v3" ArchivedStage 0 0; mkDeploymentVersion "v10" LegacyStage 0 0;
   mkDeploymentVersion "v1" ArchivedStage 0 0; mkDeploymentVersion "v2" ArchivedStage 0 0].

Lemma archived_pruning_witness :
  GetHistorySize (NewVersionState example_versions) = 3%Z /\
  GetArchivedVersionsToDelete 2 (NewVersionState example_versions)
  = [mkDeploymentVersion "v1" ArchivedStage 0 0; mkDeploymentVersion "v2" ArchivedStage 0 0] /\
  exists kept, List.filter (has_stage ArchivedStage) (versions (NewVersionState example_versions))
    = (GetArchivedVersionsToDelete 2 (NewVersionState example_versions) ++ kept)%list /\ Z.of_nat (length kept) = 1%Z.
Proof.
  split; [reflexivity|]. split; [reflexivity|].
  destruct (archived_pruning example_versions 1) as (kept & E & L & _);
    [split; [discriminate|reflexivity]|]. exists kept. split; [exact E|exact L].
Defined.
Lemma archived_to_delete_nonpositive_witness :
  GetArchivedVersionsToDelete 0 (NewVersionState example_versions)
  = List.filter (has_stage ArchivedStage) (versions (NewVersionState example_versions)).
Proof. apply (archived_to_delete_nonpositive (NewVersionState example_versions) 0). discriminate. Defined.
Lemma GetOldestArchivedVersion_newest_witness :
  GetOldestArchivedVersion (NewVersionState example_versions) = Some (mkDeploymentVersion "v3" ArchivedStage 0 0) /\
  has_stage ArchivedStage (mkDeploymentVersion "v3" ArchivedStage 0 0) = true.
Proof.
  split; [reflexivity|].
  refine (proj1 (GetOldestArchivedVersion_newest example_versions (mkDeploymentVersion "v3" ArchivedStage 0 0) _)).
  reflexivity.
Defined.
