(* ===== verification/Tables.v ===== *)
(** Tables, identities and index schema of the in-memory database:
    [domain/table.go], [domain/unique.go], [domain/domain_marshalling.go] and
    [ram/schema.go]. *)
From S2P Require Import Prelude GoLib Domain.
From stdpp Require Import finite.
Open Scope string_scope.

(** * Tables *)

Inductive table : Type :=
  | NodeGroupTable | DeploymentVersionTable | ClusterNodeGroupTable | ListenerTable
  | ExtAuthzFilterTable | MicroserviceVersionTable | ClusterTable | EndpointTable
  | RouteConfigurationTable | VirtualHostTable | VirtualHostDomainTable | RouteTable
  | HeaderMatcherTable | HashPolicyTable | RetryPolicyTable | EnvoyConfigVersionTable
  | HealthCheckTable | TlsConfigTable | TlsConfigsNodeGroupsTable | WasmFilterTable
  | ListenersWasmFilterTable | LuaFilterTable | CompositeSatelliteTable
  | StatefulSessionTable | RateLimitTable | CircuitBreakerTable | TcpKeepaliveTable
  | ThresholdTable.

#[export] Instance table_eq_dec : EqDecision table.
Proof. solve_decision. Defined.

Definition table_name (t : table) : string :=
  match t with
  | NodeGroupTable => "node_groups"
  | DeploymentVersionTable => "deployment_versions"
  | ClusterNodeGroupTable => "clusters_node_groups"
  | ListenerTable => "listeners"
  | ExtAuthzFilterTable => "ext_authz_filters"
  | MicroserviceVersionTable => "microservice_versions"
  | ClusterTable => "clusters"
  | EndpointTable => "endpoints"
  | RouteConfigurationTable => "route_configurations"
  | VirtualHostTable => "virtual_hosts"
  | VirtualHostDomainTable => "virtual_host_domains"
  | RouteTable => "routes"
  | HeaderMatcherTable => "header_matchers"
  | HashPolicyTable => "hash_policy"
  | RetryPolicyTable => "retry_policy"
  | EnvoyConfigVersionTable => "envoy_config_version"
  | HealthCheckTable => "health_check"
  | TlsConfigTable => "tls_configs"
  | TlsConfigsNodeGroupsTable => "tls_configs_node_groups"
  | WasmFilterTable => "wasm_filters"
  | ListenersWasmFilterTable => "listeners_wasm_filters"
  | LuaFilterTable => "lua_filters"
  | CompositeSatelliteTable => "composite_satellites"
  | StatefulSessionTable => "stateful_session"
  | RateLimitTable => "rate_limits"
  | CircuitBreakerTable => "circuit_breakers"
  | TcpKeepaliveTable => "tcp_keepalive"
  | ThresholdTable => "thresholds"
  end.

Definition TableRelationOrder : list table :=
  [TcpKeepaliveTable; ThresholdTable; CircuitBreakerTable; NodeGroupTable;
   TlsConfigTable; TlsConfigsNodeGroupsTable; DeploymentVersionTable; ClusterTable;
   ClusterNodeGroupTable; StatefulSessionTable; EndpointTable; RouteConfigurationTable;
   ListenerTable; ExtAuthzFilterTable; WasmFilterTable; ListenersWasmFilterTable;
   LuaFilterTable; VirtualHostTable; VirtualHostDomainTable; RouteTable;
   HeaderMatcherTable; HashPolicyTable; RetryPolicyTable; EnvoyConfigVersionTable;
   HealthCheckTable; CompositeSatelliteTable; RateLimitTable; MicroserviceVersionTable].

#[export] Instance table_finite : finite.Finite table.
Proof.
  refine (finite.Build_Finite _ _ TableRelationOrder _ _).
  - by apply (bool_decide_unpack _).
  - intros t. destruct t; by apply (bool_decide_unpack _).
Defined.
#[export] Instance table_countable : Countable table := finite.finite_countable.

(** [domain.TableType]: the entity stored in each table. *)
Definition entity (t : table) : Type :=
  match t with
  | NodeGroupTable => NodeGroup
  | DeploymentVersionTable => DeploymentVersion
  | ClusterNodeGroupTable => ClustersNodeGroup
  | ListenerTable => Listener
  | ExtAuthzFilterTable => ExtAuthzFilter
  | MicroserviceVersionTable => MicroserviceVersion
  | ClusterTable => Cluster
  | EndpointTable => Endpoint
  | RouteConfigurationTable => RouteConfiguration
  | VirtualHostTable => VirtualHost
  | VirtualHostDomainTable => VirtualHostDomain
  | RouteTable => Route
  | HeaderMatcherTable => HeaderMatcher
  | HashPolicyTable => HashPolicy
  | RetryPolicyTable => RetryPolicy
  | EnvoyConfigVersionTable => EnvoyConfigVersion
  | HealthCheckTable => HealthCheck
  | TlsConfigTable => TlsConfig
  | TlsConfigsNodeGroupsTable => TlsConfigsNodeGroups
  | WasmFilterTable => WasmFilter
  | ListenersWasmFilterTable => ListenersWasmFilter
  | LuaFilterTable => LuaFilter
  | CompositeSatelliteTable => CompositeSatellite
  | StatefulSessionTable => StatefulSession
  | RateLimitTable => RateLimit
  | CircuitBreakerTable => CircuitBreaker
  | TcpKeepaliveTable => TcpKeepalive
  | ThresholdTable => Threshold
  end.

(** * The interface [domain.Unique]: entities with a generated identity *)

Class Unique (t : table) : Type := {
  GetId : entity t -> Z;
  SetId : Z -> entity t -> entity t
}.

#[export] Instance Cluster_Unique : Unique ClusterTable :=
  Build_Unique ClusterTable Cluster_Id (fun id (c : Cluster) => c <| Cluster_Id := id |>).
#[export] Instance Route_Unique : Unique RouteTable :=
  Build_Unique RouteTable Route_Id (fun id (r : Route) => r <| Route_Id := id |>).
#[export] Instance HeaderMatcher_Unique : Unique HeaderMatcherTable :=
  Build_Unique HeaderMatcherTable HeaderMatcher_Id (fun id (h : HeaderMatcher) => h <| HeaderMatcher_Id := id |>).
#[export] Instance VirtualHost_Unique : Unique VirtualHostTable :=
  Build_Unique VirtualHostTable VirtualHost_Id (fun id (vh : VirtualHost) => vh <| VirtualHost_Id := id |>).
#[export] Instance RouteConfiguration_Unique : Unique RouteConfigurationTable :=
  Build_Unique RouteConfigurationTable RouteConfiguration_Id (fun id (rc : RouteConfiguration) => rc <| RouteConfiguration_Id := id |>).
#[export] Instance Endpoint_Unique : Unique EndpointTable :=
  Build_Unique EndpointTable Endpoint_Id (fun id (e : Endpoint) => e <| Endpoint_Id := id |>).
#[export] Instance Listener_Unique : Unique ListenerTable :=
  Build_Unique ListenerTable Listener_Id (fun id (l : Listener) => l <| Listener_Id := id |>).
#[export] Instance HashPolicy_Unique : Unique HashPolicyTable :=
  Build_Unique HashPolicyTable HashPolicy_Id (fun id (h : HashPolicy) => h <| HashPolicy_Id := id |>).
#[export] Instance RetryPolicy_Unique : Unique RetryPolicyTable :=
  Build_Unique RetryPolicyTable RetryPolicy_Id (fun id (r : RetryPolicy) => r <| RetryPolicy_Id := id |>).
#[export] Instance HealthCheck_Unique : Unique HealthCheckTable :=
  Build_Unique HealthCheckTable HealthCheck_Id (fun id (hc : HealthCheck) => hc <| HealthCheck_Id := id |>).
#[export] Instance TlsConfig_Unique : Unique TlsConfigTable :=
  Build_Unique TlsConfigTable TlsConfig_Id (fun id (r : TlsConfig) => r <| TlsConfig_Id := id |>).
#[export] Instance WasmFilter_Unique : Unique WasmFilterTable :=
  Build_Unique WasmFilterTable WasmFilter_Id (fun id (w : WasmFilter) => w <| WasmFilter_Id := id |>).
#[export] Instance LuaFilter_Unique : Unique LuaFilterTable :=
  Build_Unique LuaFilterTable LuaFilter_Id (fun id (l : LuaFilter) => l <| LuaFilter_Id := id |>).
#[export] Instance StatefulSession_Unique : Unique StatefulSessionTable :=
  Build_Unique StatefulSessionTable StatefulSession_Id (fun id (s : StatefulSession) => s <| StatefulSession_Id := id |>).
#[export] Instance CircuitBreaker_Unique : Unique CircuitBreakerTable :=
  Build_Unique CircuitBreakerTable CircuitBreaker_Id (fun id (s : CircuitBreaker) => s <| CircuitBreaker_Id := id |>).
#[export] Instance Threshold_Unique : Unique ThresholdTable :=
  Build_Unique ThresholdTable Threshold_Id (fun id (s : Threshold) => s <| Threshold_Id := id |>).
#[export] Instance TcpKeepalive_Unique : Unique TcpKeepaliveTable :=
  Build_Unique TcpKeepaliveTable TcpKeepalive_Id (fun id (s : TcpKeepalive) => s <| TcpKeepalive_Id := id |>).

(** * [MarshalPrepare]: what a snapshot keeps of each entity *)

Definition MarshalPrepare (t : table) : entity t -> entity t :=
  match t return entity t -> entity t with
  | ListenerTable => fun (l : Listener) => l <| Listener_WasmFilters := [] |> <| Listener_ExtAuthzFilter := None |>
  | ClusterTable => fun (c : Cluster) =>
      c <| Cluster_NodeGroups := [] |> <| Cluster_Endpoints := [] |>
        <| Cluster_HealthChecks := [] |> <| Cluster_CircuitBreaker := None |>
        <| Cluster_TLS := None |>
  | MicroserviceVersionTable => fun (m : MicroserviceVersion) => m <| MicroserviceVersion_DeploymentVersionVal := None |>
  | TlsConfigTable => fun (c : TlsConfig) => c <| TlsConfig_NodeGroups := [] |>
  | EndpointTable => fun (e : Endpoint) => e <| Endpoint_HashPolicies := [] |> <| Endpoint_StatefulSession := None |>
  | RouteConfigurationTable => fun (rc : RouteConfiguration) => rc <| RouteConfiguration_VirtualHosts := [] |>
  | VirtualHostTable => fun (vh : VirtualHost) =>
      vh <| VirtualHost_Routes := [] |> <| VirtualHost_Domains := [] |> <| VirtualHost_RateLimit := None |>
  | RouteTable => fun (r : Route) =>
      r <| Route_HeaderMatchers := [] |> <| Route_HashPolicies := [] |>
        <| Route_RetryPolicy := None |> <| Route_StatefulSession := None |> <| Route_RateLimit := None |>
  | HealthCheckTable => fun (hc : HealthCheck) => hc <| HealthCheck_HttpHealthCheck := None |> <| HealthCheck_TlsOptions := None |>
  | StatefulSessionTable => fun (s : StatefulSession) => s <| StatefulSession_DeploymentVersionVal := None |>
  | CircuitBreakerTable => fun (cb : CircuitBreaker) => cb <| CircuitBreaker_Threshold := None |>
  | _ => fun e => e
  end.

(** * Index schema *)

(** A value of an index key. *)
Inductive value : Type := VInt (z : Z) | VStr (s : string) | VBool (b : bool).

#[export] Instance value_eq_dec : EqDecision value.
Proof. solve_decision. Defined.
#[export] Instance value_countable : Countable value.
Proof.
  refine (inj_countable'
    (fun v => match v with VInt z => inl z | VStr s => inr (inl s) | VBool b => inr (inr b) end)
    (fun x => match x with inl z => VInt z | inr (inl s) => VStr s | inr (inr b) => VBool b end) _).
  by intros [].
Defined.

(** The indexers of go-memdb the schema uses. *)
Inductive Indexer : Type :=
  | StringFieldIndex (Field : string)
  | IntFieldIndex (Field : string)
  | BoolFieldIndex (Field : string)
  | UUIDFieldIndex (Field : string)
  | CompoundIndex (Indexes : list Indexer) (AllowMissing : bool).

Record IndexSchema := mkIndexSchema {
  Index_Name : string;
  Index_Unique : bool;
  Index_AllowMissing : bool;
  Index_Indexer : Indexer
}.

Definition TableSchema := gmap string IndexSchema.

Definition index (name : string) (unique : bool) (indexer : Indexer) : string * IndexSchema :=
  (name, mkIndexSchema name unique false indexer).
Definition index_allow_missing (name : string) (unique : bool) (indexer : Indexer) : string * IndexSchema :=
  (name, mkIndexSchema name unique true indexer).

(** [lowerFirst], for an ASCII first letter. *)
Definition lowerFirst (s : string) : string :=
  match s with String c s' => String (ascii_lower c) s' | "" => "" end.

(** [fieldName] panics on every other indexer. *)
Definition fieldName (i : Indexer) : result string :=
  match i with
  | StringFieldIndex f | IntFieldIndex f => Ok f
  | _ => Panic "can not get field name"
  end.

Fixpoint relation_columns (indexers : list Indexer) (acc : TableSchema) : result TableSchema :=
  match indexers with
  | [] => Ok acc
  | i :: rest =>
      match fieldName i with
      | Ok f => relation_columns rest (<[lowerFirst f := mkIndexSchema (lowerFirst f) false false i]> acc)
      | Err e => Err e
      | Panic p => Panic p
      end
  end.

Definition buildRelationIndex (indexers : list Indexer) : result TableSchema :=
  relation_columns indexers {["id" := mkIndexSchema "id" true false (CompoundIndex indexers false)]}.

(** The map literal of a table; the panic of [buildRelationIndex] would be one
    of package initialisation. *)
Definition relation_schema (indexers : list Indexer) : TableSchema :=
  match buildRelationIndex indexers with Ok s => s | _ => ∅ end.

Definition NodeGroupTable_schema : TableSchema :=
  list_to_map [
    index "id" true (StringFieldIndex "Name")].
Definition DeploymentVersionTable_schema : TableSchema :=
  list_to_map [
    index "id" true (StringFieldIndex "Version");
    index "stage" false (StringFieldIndex "Stage")].
Definition ClusterNodeGroupTable_schema : TableSchema :=
  relation_schema [IntFieldIndex "ClustersId"; StringFieldIndex "NodegroupsName"].
Definition ListenerTable_schema : TableSchema :=
  list_to_map [
    index "id" true (IntFieldIndex "Id");
    index "nodeGroup" false (StringFieldIndex "NodeGroupId");
    index "nodeGroupAndName" true (CompoundIndex [StringFieldIndex "NodeGroupId"; StringFieldIndex "Name"] false)].
Definition ExtAuthzFilterTable_schema : TableSchema :=
  list_to_map [
    index "id" true (StringFieldIndex "Name");
    index "nodeGroup" true (StringFieldIndex "NodeGroup")].
Definition ClusterTable_schema : TableSchema :=
  list_to_map [
    index "id" true (IntFieldIndex "Id");
    index "name" true (StringFieldIndex "Name")].
Definition EndpointTable_schema : TableSchema :=
  list_to_map [
    index "id" true (IntFieldIndex "Id");
    index "dVersion" false (StringFieldIndex "DeploymentVersion");
    index "clusterId" false (IntFieldIndex "ClusterId");
    index "clusterIdAndDVersion" false (CompoundIndex [IntFieldIndex "ClusterId"; StringFieldIndex "DeploymentVersion"] false);
    index "addressAndPortAndDVersion" false (CompoundIndex [StringFieldIndex "Address"; IntFieldIndex "Port"; StringFieldIndex "DeploymentVersion"] true);
    index "statefulSessionId" true (IntFieldIndex "StatefulSessionId")].
Definition RouteConfigurationTable_schema : TableSchema :=
  list_to_map [
    index "id" true (IntFieldIndex "Id");
    index "nodeGroup" false (StringFieldIndex "NodeGroupId");
    index "nodeGroupAndName" true (CompoundIndex [StringFieldIndex "NodeGroupId"; StringFieldIndex "Name"] false)].
Definition VirtualHostTable_schema : TableSchema :=
  list_to_map [
    index "id" true (IntFieldIndex "Id");
    index "name" true (StringFieldIndex "Name");
    index "routeConfigId" false (IntFieldIndex "RouteConfigurationId");
    index "nameAndRouteConfigId" true (CompoundIndex [StringFieldIndex "Name"; IntFieldIndex "RouteConfigurationId"] false)].
Definition VirtualHostDomainTable_schema : TableSchema :=
  relation_schema [IntFieldIndex "VirtualHostId"; StringFieldIndex "Domain"].
Definition RouteTable_schema : TableSchema :=
  list_to_map [
    index "id" true (IntFieldIndex "Id");
    index "uuid" true (UUIDFieldIndex "Uuid");
    index "uuid_prefix" true (UUIDFieldIndex "Uuid");
    index "virtualHostId" false (IntFieldIndex "VirtualHostId");
    index "vHostIdAndRouteKey" true (CompoundIndex [IntFieldIndex "VirtualHostId"; StringFieldIndex "RouteKey"] false);
    index "dVersion" false (StringFieldIndex "DeploymentVersion");
    index_allow_missing "clusterName" false (StringFieldIndex "ClusterName");
    index "clusterNameAndDVersion" false (CompoundIndex [StringFieldIndex "ClusterName"; StringFieldIndex "DeploymentVersion"] true);
    index "autoGenAndDVersion" false (CompoundIndex [BoolFieldIndex "Autogenerated"; StringFieldIndex "DeploymentVersion"] false);
    index "deploymentVersionAndRouteKey" false (CompoundIndex [StringFieldIndex "RouteKey"; StringFieldIndex "DeploymentVersion"] false);
    index "vHostIdAndDeploymentVersion" false (CompoundIndex [IntFieldIndex "VirtualHostId"; StringFieldIndex "DeploymentVersion"] false);
    index "statefulSessionId" true (IntFieldIndex "StatefulSessionId");
    index_allow_missing "rateLimitId" false (StringFieldIndex "RateLimitId");
    index_allow_missing "luaFilterName" true (StringFieldIndex "LuaFilterName")].
Definition HeaderMatcherTable_schema : TableSchema :=
  list_to_map [
    index "id" true (CompoundIndex [IntFieldIndex "RouteId"; StringFieldIndex "Name"] false);
    index "routeId" false (IntFieldIndex "RouteId")].
Definition HashPolicyTable_schema : TableSchema :=
  list_to_map [
    index "id" true (IntFieldIndex "Id");
    index "endpointId" false (IntFieldIndex "EndpointId");
    index "routeId" false (IntFieldIndex "RouteId")].
Definition RetryPolicyTable_schema : TableSchema :=
  list_to_map [
    index "id" true (IntFieldIndex "Id");
    index "routeId" true (IntFieldIndex "RouteId")].
Definition HealthCheckTable_schema : TableSchema :=
  list_to_map [
    index "id" true (IntFieldIndex "Id");
    index "clusterId" false (IntFieldIndex "ClusterId")].
Definition CompositeSatelliteTable_schema : TableSchema :=
  list_to_map [
    index "id" true (StringFieldIndex "Namespace")].
Definition EnvoyConfigVersionTable_schema : TableSchema :=
  list_to_map [
    index "id" true (CompoundIndex [StringFieldIndex "NodeGroup"; StringFieldIndex "EntityType"] false)].
Definition TlsConfigTable_schema : TableSchema :=
  list_to_map [
    index "id" true (IntFieldIndex "Id");
    index "name" true (StringFieldIndex "Name")].
Definition TlsConfigsNodeGroupsTable_schema : TableSchema :=
  relation_schema [IntFieldIndex "TlsConfigId"; StringFieldIndex "NodeGroupName"].
Definition WasmFilterTable_schema : TableSchema :=
  list_to_map [
    index "id" true (IntFieldIndex "Id");
    index "name" true (StringFieldIndex "Name")].
Definition ListenersWasmFilterTable_schema : TableSchema :=
  relation_schema [IntFieldIndex "ListenerId"; IntFieldIndex "WasmFilterId"].
Definition LuaFilterTable_schema : TableSchema :=
  list_to_map [
    index "id" true (IntFieldIndex "Id");
    index "name" true (StringFieldIndex "Name")].
Definition StatefulSessionTable_schema : TableSchema :=
  list_to_map [
    index "id" true (IntFieldIndex "Id");
    index "cookieName" false (StringFieldIndex "CookieName");
    index "clusterNamespaceAndVersion" false (CompoundIndex [StringFieldIndex "ClusterName"; StringFieldIndex "Namespace"; StringFieldIndex "DeploymentVersion"] false)].
Definition RateLimitTable_schema : TableSchema :=
  list_to_map [
    index "name" false (StringFieldIndex "Name");
    index "id" true (CompoundIndex [StringFieldIndex "Name"; IntFieldIndex "Priority"] false)].
Definition MicroserviceVersionTable_schema : TableSchema :=
  relation_schema [StringFieldIndex "Name"; StringFieldIndex "Namespace"; StringFieldIndex "InitialDeploymentVersion"].
Definition CircuitBreakerTable_schema : TableSchema :=
  list_to_map [
    index "id" true (IntFieldIndex "Id")].
Definition ThresholdTable_schema : TableSchema :=
  list_to_map [
    index "id" true (IntFieldIndex "Id")].
Definition TcpKeepaliveTable_schema : TableSchema :=
  list_to_map [
    index "id" true (IntFieldIndex "Id")].

Definition schema (t : table) : TableSchema :=
  match t with
  | NodeGroupTable => NodeGroupTable_schema
  | DeploymentVersionTable => DeploymentVersionTable_schema
  | ClusterNodeGroupTable => ClusterNodeGroupTable_schema
  | ListenerTable => ListenerTable_schema
  | ExtAuthzFilterTable => ExtAuthzFilterTable_schema
  | ClusterTable => ClusterTable_schema
  | EndpointTable => EndpointTable_schema
  | RouteConfigurationTable => RouteConfigurationTable_schema
  | VirtualHostTable => VirtualHostTable_schema
  | VirtualHostDomainTable => VirtualHostDomainTable_schema
  | RouteTable => RouteTable_schema
  | HeaderMatcherTable => HeaderMatcherTable_schema
  | HashPolicyTable => HashPolicyTable_schema
  | RetryPolicyTable => RetryPolicyTable_schema
  | HealthCheckTable => HealthCheckTable_schema
  | CompositeSatelliteTable => CompositeSatelliteTable_schema
  | EnvoyConfigVersionTable => EnvoyConfigVersionTable_schema
  | TlsConfigTable => TlsConfigTable_schema
  | TlsConfigsNodeGroupsTable => TlsConfigsNodeGroupsTable_schema
  | WasmFilterTable => WasmFilterTable_schema
  | ListenersWasmFilterTable => ListenersWasmFilterTable_schema
  | LuaFilterTable => LuaFilterTable_schema
  | StatefulSessionTable => StatefulSessionTable_schema
  | RateLimitTable => RateLimitTable_schema
  | MicroserviceVersionTable => MicroserviceVersionTable_schema
  | CircuitBreakerTable => CircuitBreakerTable_schema
  | ThresholdTable => ThresholdTable_schema
  | TcpKeepaliveTable => TcpKeepaliveTable_schema
  end.

(** The reflective read go-memdb makes of the indexed fields. *)
Definition FieldByName (t : table) (name : string) : entity t -> option value :=
  match t return entity t -> option value with
  | NodeGroupTable => fun e : NodeGroup =>
      if String.eqb name "Name" then Some (VStr (NodeGroup_Name e)) else
      None
  | DeploymentVersionTable => fun e : DeploymentVersion =>
      if String.eqb name "Stage" then Some (VStr (DeploymentVersion_Stage e)) else
      if String.eqb name "Version" then Some (VStr (DeploymentVersion_Version e)) else
      None
  | ClusterNodeGroupTable => fun e : ClustersNodeGroup =>
      if String.eqb name "ClustersId" then Some (VInt (ClustersNodeGroup_ClustersId e)) else
      if String.eqb name "NodegroupsName" then Some (VStr (ClustersNodeGroup_NodegroupsName e)) else
      None
  | ListenerTable => fun e : Listener =>
      if String.eqb name "Id" then Some (VInt (Listener_Id e)) else
      if String.eqb name "Name" then Some (VStr (Listener_Name e)) else
      if String.eqb name "NodeGroupId" then Some (VStr (Listener_NodeGroupId e)) else
      None
  | ExtAuthzFilterTable => fun e : ExtAuthzFilter =>
      if String.eqb name "Name" then Some (VStr (ExtAuthzFilter_Name e)) else
      if String.eqb name "NodeGroup" then Some (VStr (ExtAuthzFilter_NodeGroup e)) else
      None
  | ClusterTable => fun e : Cluster =>
      if String.eqb name "Id" then Some (VInt (Cluster_Id e)) else
      if String.eqb name "Name" then Some (VStr (Cluster_Name e)) else
      None
  | EndpointTable => fun e : Endpoint =>
      if String.eqb name "Address" then Some (VStr (Endpoint_Address e)) else
      if String.eqb name "ClusterId" then Some (VInt (Endpoint_ClusterId e)) else
      if String.eqb name "DeploymentVersion" then Some (VStr (Endpoint_DeploymentVersion e)) else
      if String.eqb name "Id" then Some (VInt (Endpoint_Id e)) else
      if String.eqb name "Port" then Some (VInt (Endpoint_Port e)) else
      if String.eqb name "StatefulSessionId" then Some (VInt (Endpoint_StatefulSessionId e)) else
      None
  | RouteConfigurationTable => fun e : RouteConfiguration =>
      if String.eqb name "Id" then Some (VInt (RouteConfiguration_Id e)) else
      if String.eqb name "Name" then Some (VStr (RouteConfiguration_Name e)) else
      if String.eqb name "NodeGroupId" then Some (VStr (RouteConfiguration_NodeGroupId e)) else
      None
  | VirtualHostTable => fun e : VirtualHost =>
      if String.eqb name "Id" then Some (VInt (VirtualHost_Id e)) else
      if String.eqb name "Name" then Some (VStr (VirtualHost_Name e)) else
      if String.eqb name "RouteConfigurationId" then Some (VInt (VirtualHost_RouteConfigurationId e)) else
      None
  | VirtualHostDomainTable => fun e : VirtualHostDomain =>
      if String.eqb name "Domain" then Some (VStr (VirtualHostDomain_Domain e)) else
      if String.eqb name "VirtualHostId" then Some (VInt (VirtualHostDomain_VirtualHostId e)) else
      None
  | RouteTable => fun e : Route =>
      if String.eqb name "Autogenerated" then Some (VBool (Route_Autogenerated e)) else
      if String.eqb name "ClusterName" then Some (VStr (Route_ClusterName e)) else
      if String.eqb name "DeploymentVersion" then Some (VStr (Route_DeploymentVersion e)) else
      if String.eqb name "Id" then Some (VInt (Route_Id e)) else
      if String.eqb name "LuaFilterName" then Some (VStr (Route_LuaFilterName e)) else
      if String.eqb name "RateLimitId" then Some (VStr (Route_RateLimitId e)) else
      if String.eqb name "RouteKey" then Some (VStr (Route_RouteKey e)) else
      if String.eqb name "StatefulSessionId" then Some (VInt (Route_StatefulSessionId e)) else
      if String.eqb name "Uuid" then Some (VStr (Route_Uuid e)) else
      if String.eqb name "VirtualHostId" then Some (VInt (Route_VirtualHostId e)) else
      None
  | HeaderMatcherTable => fun e : HeaderMatcher =>
      if String.eqb name "Name" then Some (VStr (HeaderMatcher_Name e)) else
      if String.eqb name "RouteId" then Some (VInt (HeaderMatcher_RouteId e)) else
      None
  | HashPolicyTable => fun e : HashPolicy =>
      if String.eqb name "EndpointId" then Some (VInt (HashPolicy_EndpointId e)) else
      if String.eqb name "Id" then Some (VInt (HashPolicy_Id e)) else
      if String.eqb name "RouteId" then Some (VInt (HashPolicy_RouteId e)) else
      None
  | RetryPolicyTable => fun e : RetryPolicy =>
      if String.eqb name "Id" then Some (VInt (RetryPolicy_Id e)) else
      if String.eqb name "RouteId" then Some (VInt (RetryPolicy_RouteId e)) else
      None
  | HealthCheckTable => fun e : HealthCheck =>
      if String.eqb name "ClusterId" then Some (VInt (HealthCheck_ClusterId e)) else
      if String.eqb name "Id" then Some (VInt (HealthCheck_Id e)) else
      None
  | CompositeSatelliteTable => fun e : CompositeSatellite =>
      if String.eqb name "Namespace" then Some (VStr (CompositeSatellite_Namespace e)) else
      None
  | EnvoyConfigVersionTable => fun e : EnvoyConfigVersion =>
      if String.eqb name "EntityType" then Some (VStr (EnvoyConfigVersion_EntityType e)) else
      if String.eqb name "NodeGroup" then Some (VStr (EnvoyConfigVersion_NodeGroup e)) else
      None
  | TlsConfigTable => fun e : TlsConfig =>
      if String.eqb name "Id" then Some (VInt (TlsConfig_Id e)) else
      if String.eqb name "Name" then Some (VStr (TlsConfig_Name e)) else
      None
  | TlsConfigsNodeGroupsTable => fun e : TlsConfigsNodeGroups =>
      if String.eqb name "NodeGroupName" then Some (VStr (TlsConfigsNodeGroups_NodeGroupName e)) else
      if String.eqb name "TlsConfigId" then Some (VInt (TlsConfigsNodeGroups_TlsConfigId e)) else
      None
  | WasmFilterTable => fun e : WasmFilter =>
      if String.eqb name "Id" then Some (VInt (WasmFilter_Id e)) else
      if String.eqb name "Name" then Some (VStr (WasmFilter_Name e)) else
      None
  | ListenersWasmFilterTable => fun e : ListenersWasmFilter =>
      if String.eqb name "ListenerId" then Some (VInt (ListenersWasmFilter_ListenerId e)) else
      if String.eqb name "WasmFilterId" then Some (VInt (ListenersWasmFilter_WasmFilterId e)) else
      None
  | LuaFilterTable => fun e : LuaFilter =>
      if String.eqb name "Id" then Some (VInt (LuaFilter_Id e)) else
      if String.eqb name "Name" then Some (VStr (LuaFilter_Name e)) else
      None
  | StatefulSessionTable => fun e : StatefulSession =>
      if String.eqb name "ClusterName" then Some (VStr (StatefulSession_ClusterName e)) else
      if String.eqb name "CookieName" then Some (VStr (StatefulSession_CookieName e)) else
      if String.eqb name "DeploymentVersion" then Some (VStr (StatefulSession_DeploymentVersion e)) else
      if String.eqb name "Id" then Some (VInt (StatefulSession_Id e)) else
      if String.eqb name "Namespace" then Some (VStr (StatefulSession_Namespace e)) else
      None
  | RateLimitTable => fun e : RateLimit =>
      if String.eqb name "Name" then Some (VStr (RateLimit_Name e)) else
      if String.eqb name "Priority" then Some (VInt (RateLimit_Priority e)) else
      None
  | MicroserviceVersionTable => fun e : MicroserviceVersion =>
      if String.eqb name "InitialDeploymentVersion" then Some (VStr (MicroserviceVersion_InitialDeploymentVersion e)) else
      if String.eqb name "Name" then Some (VStr (MicroserviceVersion_Name e)) else
      if String.eqb name "Namespace" then Some (VStr (MicroserviceVersion_Namespace e)) else
      None
  | CircuitBreakerTable => fun e : CircuitBreaker =>
      if String.eqb name "Id" then Some (VInt (CircuitBreaker_Id e)) else
      None
  | ThresholdTable => fun e : Threshold =>
      if String.eqb name "Id" then Some (VInt (Threshold_Id e)) else
      None
  | TcpKeepaliveTable => fun e : TcpKeepalive =>
      if String.eqb name "Id" then Some (VInt (TcpKeepalive_Id e)) else
      None
  end.
