(* ===== verification/MemDb.v ===== *)
(** The in-memory database behind [ram/storage.go].

    go-memdb is not part of the repository: it is a parameter, the class
    [MemDb] of the transaction operations the control plane calls
    ([ram.Txn]), and [MemDbLaws] states what its documentation promises of
    them, in terms of the rows each table holds.  Every operation acts on a
    transaction state of type [Db]; committing keeps that state, aborting
    drops it. *)
From S2P Require Import Prelude GoLib Domain Tables.
Open Scope string_scope.

(** * A change, as [memdb.Change] reports it *)

Record Change := mkChange {
  Change_Table : table;
  Change_Before : option (entity Change_Table);
  Change_After : option (entity Change_Table)
}.

(** * Operations *)

Class MemDb : Type := {
  Db : Type;
  db_empty : Db;
  txn_insert : forall t : table, entity t -> prog Db unit;
  txn_delete : forall t : table, entity t -> prog Db unit;
  txn_delete_all : forall t : table, string -> list value -> prog Db Z;
  txn_first : forall t : table, string -> list value -> prog Db (option (entity t));
  txn_get : forall t : table, string -> list value -> prog Db (list (entity t));
  txn_track_changes : Db -> Db;
  txn_changes : Db -> list Change
}.

(** * Keys and queries, as documented by go-memdb

    A string index has no value for the empty string, a UUID index none for a
    string that is not a UUID; a compound index that allows missing values
    keeps the values before the first missing one. *)

Definition hex_digit (c : Ascii.ascii) : bool :=
  let n := Ascii.N_of_ascii c in
  ((48 <=? n) && (n <=? 57) || (97 <=? n) && (n <=? 102) || (65 <=? n) && (n <=? 70))%N.
Fixpoint str_forallb (f : Ascii.ascii -> bool) (s : string) : bool :=
  match s with "" => true | String c s' => f c && str_forallb f s' end.
Definition is_uuid (s : string) : bool :=
  match strings_Split s "-" with
  | [a; b; c; d; e] =>
      (String.length a =? 8)%nat && (String.length b =? 4)%nat && (String.length c =? 4)%nat &&
      (String.length d =? 4)%nat && (String.length e =? 12)%nat &&
      forallb (str_forallb hex_digit) [a; b; c; d; e]
  | _ => false
  end.

Definition value_key (i : Indexer) (v : option value) : option value :=
  match i, v with
  | StringFieldIndex _, Some (VStr s) => if nonempty s then Some (VStr s) else None
  | IntFieldIndex _, Some (VInt z) => Some (VInt z)
  | BoolFieldIndex _, Some (VBool b) => Some (VBool b)
  | UUIDFieldIndex _, Some (VStr s) => if is_uuid s then Some (VStr (strings_ToLower s)) else None
  | _, _ => None
  end.
Definition indexer_field (i : Indexer) : string :=
  match i with
  | StringFieldIndex f | IntFieldIndex f | BoolFieldIndex f | UUIDFieldIndex f => f
  | CompoundIndex _ _ => ""
  end.
Definition field_key (t : table) (x : entity t) (i : Indexer) : option value :=
  value_key i (FieldByName t (indexer_field i) x).

Fixpoint compound_key (t : table) (x : entity t) (l : list Indexer) (allow_missing : bool) : option (list value) :=
  match l with
  | [] => Some []
  | i :: l' =>
      match field_key t x i with
      | Some v => cons v <$> compound_key t x l' allow_missing
      | None => if allow_missing then Some [] else None
      end
  end.

Definition indexer_key (t : table) (x : entity t) (i : Indexer) : option (list value) :=
  match i with
  | CompoundIndex l allow_missing => compound_key t x l allow_missing
  | _ => (fun v => [v]) <$> field_key t x i
  end.

Definition index_key (t : table) (idx : string) (x : entity t) : option (list value) :=
  match schema t !! idx with
  | Some s => indexer_key t x (Index_Indexer s)
  | None => None
  end.

(** The primary key. *)
Definition id_key (t : table) (x : entity t) : list value := default [] (index_key t "id" x).

(** An object goes into a table when every index finds its value or allows it
    to be missing. *)
Definition indexable (t : table) (x : entity t) : bool :=
  forallb (fun '(_, s) => match indexer_key t x (Index_Indexer s) with
                          | Some _ => true
                          | None => Index_AllowMissing s
                          end) (map_to_list (schema t)).

Definition arg_ok (i : Indexer) (v : value) : bool :=
  match i, v with
  | StringFieldIndex _, VStr _ => true
  | IntFieldIndex _, VInt _ => true
  | BoolFieldIndex _, VBool _ => true
  | UUIDFieldIndex _, VStr s => is_uuid s
  | _, _ => false
  end.
Fixpoint args_ok (l : list Indexer) (args : list value) : bool :=
  match l, args with
  | [], [] => true
  | i :: l', v :: args' => arg_ok i v && args_ok l' args'
  | _, _ => false
  end.
Definition indexer_args_ok (i : Indexer) (args : list value) : bool :=
  match i with
  | CompoundIndex l _ => args_ok l args
  | _ => args_ok [i] args
  end.
Definition index_arity (i : Indexer) : nat :=
  match i with CompoundIndex l _ => length l | _ => 1 end.

(** A declared index with arguments that fit; no argument at all asks for
    every row. *)
Definition valid_query (t : table) (idx : string) (args : list value) : bool :=
  match schema t !! idx with
  | Some s => negb (strings_HasSuffix idx "_prefix") &&
              match args with [] => true | _ => indexer_args_ok (Index_Indexer s) args end
  | None => false
  end.

(** A declared index with a wrong number of arguments. *)
Definition malformed_query (t : table) (idx : string) (args : list value) : bool :=
  match schema t !! idx with
  | Some s => negb (strings_HasSuffix idx "_prefix") &&
              match args with [] => false | _ => negb (length args =? index_arity (Index_Indexer s))%nat end
  | None => false
  end.

Definition query_key (t : table) (idx : string) (args : list value) : list value :=
  match schema t !! idx with
  | Some (mkIndexSchema _ _ _ (UUIDFieldIndex _)) =>
      (fun v => match v with VStr s => VStr (strings_ToLower s) | v => v end) <$> args
  | _ => args
  end.
Definition query_match (t : table) (idx : string) (args : list value) (x : entity t) : bool :=
  match args with
  | [] => match index_key t idx x with Some _ => true | None => false end
  | _ => bool_decide (index_key t idx x = Some (query_key t idx args))
  end.

(** The scan [<index>_prefix] of a string index. *)
Definition prefix_match (t : table) (idx prefix : string) (x : entity t) : bool :=
  match index_key t idx x with
  | Some [VStr s] => strings_HasPrefix s prefix
  | _ => false
  end.
Definition valid_prefix_query (t : table) (idx : string) : bool :=
  match schema t !! idx with
  | Some (mkIndexSchema _ _ _ (StringFieldIndex _)) => true
  | _ => false
  end.

Definition unique_index (t : table) (idx : string) : bool :=
  match schema t !! idx with Some s => Index_Unique s | None => false end.

(** * Laws

    [rows db t] is the content of table [t] by primary key.  A secondary index
    declared unique keeps one row per key: [exact db t idx key] says that no
    insertion ever overwrote another row's entry under that key, so a lookup
    of that key misses no row.  A lookup never invents rows. *)

Class MemDbLaws `{M : MemDb} : Type := {
  rows : Db -> forall t : table, gmap (list value) (entity t);
  exact : Db -> forall t : table, string -> list value -> Prop;
  (** The rows when the tracking of changes began, if it did. *)
  base : Db -> option (forall t : table, gmap (list value) (entity t));

  rows_empty t : rows db_empty t = ∅;
  rows_wf db t k x : rows db t !! k = Some x -> id_key t x = k /\ indexable t x = true;
  rows_track db : rows (txn_track_changes db) = rows db;
  exact_track db t idx k : exact (txn_track_changes db) t idx k <-> exact db t idx k;

  insert_spec t x db :
    indexable t x = true ->
    exists db', txn_insert t x db = (Ok tt, db') /\
      rows db' t = <[id_key t x := x]> (rows db t) /\
      (forall t', t' <> t -> rows db' t' = rows db t') /\
      (forall t' idx k, exact db t' idx k ->
         (t' = t -> forall y, rows db t !! id_key t y = Some y -> id_key t y <> id_key t x ->
            ~ (index_key t idx y = Some k /\ index_key t idx x = Some k)) ->
         exact db' t' idx k);
  insert_error t x db :
    indexable t x = false -> exists e, txn_insert t x db = (Err e, db);

  get_spec t idx args db :
    valid_query t idx args = true ->
    exists l, txn_get t idx args db = (Ok l, db) /\
      NoDup (id_key t <$> l) /\
      (forall x, x ∈ l -> rows db t !! id_key t x = Some x /\ query_match t idx args x = true) /\
      ((args = [] /\ idx = "id") \/ exact db t idx (query_key t idx args) ->
         forall x, rows db t !! id_key t x = Some x -> query_match t idx args x = true -> x ∈ l);
  get_prefix_spec t idx p db :
    valid_prefix_query t idx = true ->
    exists l, txn_get t (idx ++ "_prefix") [VStr p] db = (Ok l, db) /\
      NoDup (id_key t <$> l) /\
      (forall x, x ∈ l -> rows db t !! id_key t x = Some x /\ prefix_match t idx p x = true);
  get_malformed t idx args db :
    malformed_query t idx args = true -> exists e, txn_get t idx args db = (Err e, db);
  first_spec t idx args db :
    valid_query t idx args = true ->
    exists l, txn_get t idx args db = (Ok l, db) /\ txn_first t idx args db = (Ok (head l), db);

  delete_spec t x y db :
    rows db t !! id_key t x = Some y ->
    exists db', txn_delete t x db = (Ok tt, db') /\
      rows db' t = delete (id_key t x) (rows db t) /\
      (forall t', t' <> t -> rows db' t' = rows db t') /\
      (forall t' idx k, exact db t' idx k -> exact db' t' idx k);
  delete_missing t x db :
    rows db t !! id_key t x = None -> txn_delete t x db = (Err ErrNotFound, db);
  delete_all_spec t idx args l db :
    valid_query t idx args = true ->
    txn_get t idx args db = (Ok l, db) ->
    exists db', txn_delete_all t idx args db = (Ok (Z.of_nat (length l)), db') /\
      rows db' t = foldr (fun x m => delete (id_key t x) m) (rows db t) l /\
      (forall t', t' <> t -> rows db' t' = rows db t') /\
      (forall t' idx k, exact db t' idx k -> exact db' t' idx k);
  delete_all_malformed t idx args db :
    malformed_query t idx args = true -> exists e, txn_delete_all t idx args db = (Err e, db);

  (** Queries only read, and a removal only removes rows of its own table, whatever the
      arguments. *)
  get_pure t idx args db : (txn_get t idx args db).2 = db;
  first_pure t idx args db : (txn_first t idx args db).2 = db;
  delete_all_frame t idx args db :
    (forall t', t' <> t -> rows (txn_delete_all t idx args db).2 t' = rows db t') /\
    (forall t', rows (txn_delete_all t idx args db).2 t' ⊆ rows db t') /\
    (forall t' idx' k, exact db t' idx' k -> exact (txn_delete_all t idx args db).2 t' idx' k);

  (** The changes are compacted: one for every row that was touched, between
      what it was and what it is; none where it was neither before nor after. *)
  base_track db : base (txn_track_changes db) = Some (rows db);
  base_insert t x db : base (txn_insert t x db).2 = base db;
  base_delete t x db : base (txn_delete t x db).2 = base db;
  base_delete_all t idx args db : base (txn_delete_all t idx args db).2 = base db;
  changes_spec db b :
    base db = Some b ->
    exists l : list (table * list value), NoDup l /\
      txn_changes db = map (fun tk => mkChange tk.1 (b tk.1 !! tk.2) (rows db tk.1 !! tk.2)) l /\
      (forall tk, tk ∈ l -> b tk.1 !! tk.2 <> None \/ rows db tk.1 !! tk.2 <> None) /\
      (forall t k, (t, k) ∉ l -> rows db t !! k = b t !! k);

  exact_id db t k : exact db t "id" k;
  exact_nonunique db t idx k : unique_index t idx = false -> exact db t idx k
}.
