(* ===== verification/MemDbModel.v ===== *)
(** A database that meets [MemDbLaws]: one finite map per table.  It is the
    concrete instance the witnesses run on; no theorem about the control plane
    depends on it. *)
From S2P Require Import Prelude GoLib Domain Tables MemDb.
Open Scope string_scope.

Definition MapDb : Type := forall t : table, gmap (list value) (entity t).

Definition stored (t : table) (kx : list value * entity t) : Prop :=
  id_key t kx.2 = kx.1 /\ indexable t kx.2 = true.
#[export] Instance stored_dec t kx : Decision (stored t kx).
Proof. unfold stored. apply _. Defined.

Definition map_rows (db : MapDb) (t : table) : gmap (list value) (entity t) :=
  filter (stored t) (db t).

Definition map_set (t : table) (m : gmap (list value) (entity t)) (db : MapDb) : MapDb :=
  fun t' => match decide (t = t') with
            | left e => match e in _ = t'' return gmap (list value) (entity t'') with eq_refl => m end
            | right _ => db t'
            end.

Definition map_select (db : MapDb) (t : table) (f : entity t -> bool) : list (entity t) :=
  List.filter f ((map_to_list (map_rows db t)).*2).

Definition strip_prefix_suffix (idx : string) : string :=
  str_take (String.length idx - 7) idx.

Definition map_get (t : table) (idx : string) (args : list value) : prog MapDb (list (entity t)) :=
  fun db =>
    if valid_query t idx args then (Ok (map_select db t (query_match t idx args)), db)
    else match args with
         | [VStr p] =>
             if strings_HasSuffix idx "_prefix" && valid_prefix_query t (strip_prefix_suffix idx)
             then (Ok (map_select db t (prefix_match t (strip_prefix_suffix idx) p)), db)
             else (Err (ErrMemDb "invalid index"), db)
         | _ => (Err (ErrMemDb "invalid index"), db)
         end.

Definition map_delete_rows (t : table) (l : list (entity t)) (db : MapDb) : MapDb :=
  map_set t (foldr (fun x m => delete (id_key t x) m) (db t) l) db.

(** * The maps *)

Lemma foldr_delete_subseteq {K A B} `{Countable K} (key : A -> K) (l : list A) (m : gmap K B) :
  foldr (fun x m => delete (key x) m) m l ⊆ m.
Proof. induction l as [|x l IH]; simpl; [done|]. etransitivity; [apply delete_subseteq|done]. Qed.


Lemma map_set_eq t m db : map_set t m db t = m.
Proof.
  unfold map_set. destruct (decide (t = t)) as [e|]; [|done].
  by rewrite (proof_irrel e eq_refl).
Qed.
Lemma map_set_ne t t' m db : t' <> t -> map_set t m db t' = db t'.
Proof. intros H. unfold map_set. destruct (decide (t = t')) as [e|]; [by destruct H|done]. Qed.

Lemma map_rows_Some db t k x :
  map_rows db t !! k = Some x <-> db t !! k = Some x /\ id_key t x = k /\ indexable t x = true.
Proof. unfold map_rows. rewrite map_lookup_filter_Some. done. Qed.

Lemma map_rows_values db t x :
  x ∈ (map_to_list (map_rows db t)).*2 <-> map_rows db t !! id_key t x = Some x.
Proof.
  rewrite list_elem_of_fmap. split.
  - intros ([k y] & -> & H). apply elem_of_map_to_list in H. simpl.
    pose proof H as H'. apply map_rows_Some in H' as (_ & -> & _). done.
  - intros H. exists (id_key t x, x). split; [done|]. by apply elem_of_map_to_list.
Qed.

Lemma map_rows_ids db t :
  id_key t <$> (map_to_list (map_rows db t)).*2 = (map_to_list (map_rows db t)).*1.
Proof.
  rewrite <- list_fmap_compose. apply list_fmap_ext. intros i [k x] H.
  apply list_elem_of_lookup_2, elem_of_map_to_list, map_rows_Some in H as (_ & H & _). done.
Qed.

Lemma NoDup_fmap_filter {A B} (f : A -> B) (p : A -> bool) l :
  NoDup (f <$> l) -> NoDup (f <$> List.filter p l).
Proof.
  induction l as [|x l IH]; simpl; [done|]. rewrite NoDup_cons. intros [Hx Hl].
  destruct (p x); simpl; [|auto]. rewrite NoDup_cons. split; [|auto].
  intros Hin. apply Hx. apply list_elem_of_fmap in Hin as (y & -> & Hy).
  apply list_elem_of_fmap. exists y. split; [done|].
  rewrite list_elem_of_In in *. by apply filter_In in Hy as [? _].
Qed.

Lemma map_select_spec db t f x :
  x ∈ map_select db t f <-> map_rows db t !! id_key t x = Some x /\ f x = true.
Proof.
  unfold map_select. rewrite list_elem_of_In, filter_In, <- list_elem_of_In, map_rows_values. done.
Qed.
Lemma map_select_NoDup db t f : NoDup (id_key t <$> map_select db t f).
Proof.
  apply NoDup_fmap_filter. rewrite map_rows_ids. apply NoDup_fst_map_to_list.
Qed.

Lemma map_rows_set db t m : map_rows (map_set t m db) t = filter (stored t) m.
Proof. unfold map_rows. by rewrite map_set_eq. Qed.
Lemma map_rows_set_ne db t t' m : t' <> t -> map_rows (map_set t m db) t' = map_rows db t'.
Proof. intros H. unfold map_rows. by rewrite map_set_ne. Qed.

Lemma filter_delete_rows t (l : list (entity t)) (m : gmap (list value) (entity t)) :
  filter (stored t) (foldr (fun x m => delete (id_key t x) m) m l)
  = foldr (fun x m => delete (id_key t x) m) (filter (stored t) m) l.
Proof. induction l as [|x l IH]; simpl; [done|]. by rewrite map_filter_delete, IH. Qed.

Lemma has_suffix_prefix idx : strings_HasSuffix (idx ++ "_prefix") "_prefix" = true.
Proof.
  unfold strings_HasSuffix. rewrite str_length_app. simpl String.length.
  rewrite Nat.add_sub, str_drop_app. apply andb_true_intro. split; [apply Nat.leb_le; lia|done].
Qed.
Lemma strip_prefix idx : strip_prefix_suffix (idx ++ "_prefix") = idx.
Proof.
  unfold strip_prefix_suffix. rewrite str_length_app. simpl String.length.
  by rewrite Nat.add_sub, str_take_app.
Qed.

Lemma map_get_valid t idx args db :
  valid_query t idx args = true ->
  map_get t idx args db = (Ok (map_select db t (query_match t idx args)), db).
Proof. intros H. unfold map_get. by rewrite H. Qed.

Lemma args_ok_length l args : args_ok l args = true -> length args = length l.
Proof.
  revert args. induction l as [|i l IH]; intros [|w a]; simpl; try done.
  intros [_ H']%andb_prop. f_equal. auto.
Qed.
Lemma indexer_args_ok_length i args :
  indexer_args_ok i args = true -> length args = index_arity i.
Proof. destruct i; intros H; by apply args_ok_length in H. Qed.

Lemma map_get_malformed t idx args db :
  malformed_query t idx args = true -> map_get t idx args db = (Err (ErrMemDb "invalid index"), db).
Proof.
  unfold malformed_query, map_get, valid_query.
  destruct (schema t !! idx) as [s|] eqn:E; [|done].
  intros [Hs Ha]%andb_prop. rewrite Hs. simpl.
  destruct args as [|v args]; [done|]. apply negb_true_iff, Nat.eqb_neq in Ha.
  assert (indexer_args_ok (Index_Indexer s) (v :: args) = false) as ->.
  { apply not_true_iff_false. intros H. by apply Ha, indexer_args_ok_length. }
  apply negb_true_iff in Hs. rewrite Hs. by destruct v, args.
Qed.

Lemma map_get_pure t idx args db : (map_get t idx args db).2 = db.
Proof.
  unfold map_get. destruct (valid_query t idx args); [done|].
  destruct args as [|[] []]; try done. by destruct (_ && _).
Qed.

(** * Tracking *)

(** The maps, those of the start of the tracking, and the rows touched since:
    every row that differs was touched. *)
Definition covered (base : option MapDb) (now : MapDb) (touched : list (table * list value)) : Prop :=
  forall b t k, base = Some b -> (t, k) ∉ touched -> map_rows now t !! k = map_rows b t !! k.

Record TrackedDb := mkTrackedDb {
  now_db : MapDb;
  base_db : option MapDb;
  touched : list (table * list value);
  touched_covers : covered base_db now_db touched
}.

Lemma covered_empty : covered None (fun _ => ∅) [].
Proof. done. Qed.
Lemma covered_start now : covered (Some now) now [].
Proof. intros b t k [= ->]. done. Qed.
Lemma covered_step base now now' l t keys :
  covered base now l ->
  (forall t', t' <> t -> map_rows now' t' = map_rows now t') ->
  (forall k, k ∉ keys -> map_rows now' t !! k = map_rows now t !! k) ->
  covered base now' ((pair t <$> keys) ++ l).
Proof.
  intros C Hother Hkeys b t' k Hb [Hk Ht]%not_elem_of_app.
  destruct (decide (t' = t)) as [->|Hne]; [|rewrite Hother by done; by apply C].
  rewrite Hkeys; [by apply C|]. intros Hin. apply Hk, list_elem_of_fmap. by exists k.
Qed.

Definition map_insert (t : table) (x : entity t) (db : MapDb) : MapDb := map_set t (<[id_key t x := x]> (db t)) db.

Lemma map_rows_insert t x db :
  indexable t x = true -> map_rows (map_insert t x db) t = <[id_key t x := x]> (map_rows db t).
Proof. intros Hx. unfold map_insert. rewrite map_rows_set, map_filter_insert_True; done. Qed.
Lemma map_rows_insert_other t x db k :
  k ∉ [id_key t x] -> map_rows (map_insert t x db) t !! k = map_rows db t !! k.
Proof.
  rewrite list_elem_of_singleton. intros Hk. unfold map_insert, map_rows. rewrite map_set_eq.
  apply option_eq. intros y. rewrite !map_lookup_filter_Some, lookup_insert_ne by done. done.
Qed.
Lemma map_rows_delete t l db :
  map_rows (map_delete_rows t l db) t = foldr (fun x m => delete (id_key t x) m) (map_rows db t) l.
Proof. unfold map_delete_rows. by rewrite map_rows_set, filter_delete_rows. Qed.
Lemma foldr_delete_other {A B} (key : A -> list value) (l : list A) (m : gmap (list value) B) k :
  k ∉ key <$> l -> foldr (fun x m => delete (key x) m) m l !! k = m !! k.
Proof.
  induction l as [|x l IH]; simpl; [done|]. rewrite not_elem_of_cons. intros [Hx Hl].
  rewrite lookup_delete_ne by done. auto.
Qed.

Lemma covered_insert t x db :
  covered (base_db db) (map_insert t x (now_db db)) ((pair t <$> [id_key t x]) ++ touched db).
Proof.
  apply (covered_step _ (now_db db)); [apply touched_covers|..].
  - intros t' Ht. by apply map_rows_set_ne.
  - apply map_rows_insert_other.
Qed.
Lemma covered_delete t l db :
  covered (base_db db) (map_delete_rows t l (now_db db)) ((pair t <$> (id_key t <$> l)) ++ touched db).
Proof.
  apply (covered_step _ (now_db db)); [apply touched_covers|..].
  - intros t' Ht. by apply map_rows_set_ne.
  - intros k Hk. rewrite map_rows_delete. by apply foldr_delete_other.
Qed.

Definition tracked_insert (t : table) (x : entity t) (db : TrackedDb) : TrackedDb :=
  mkTrackedDb _ _ _ (covered_insert t x db).
Definition tracked_delete (t : table) (l : list (entity t)) (db : TrackedDb) : TrackedDb :=
  mkTrackedDb _ _ _ (covered_delete t l db).
Definition read {A} (m : prog MapDb A) : prog TrackedDb A := fun db => ((m (now_db db)).1, db).
Definition map_changes (db : TrackedDb) : list Change :=
  match base_db db with
  | None => []
  | Some b =>
      map (fun tk => mkChange tk.1 (map_rows b tk.1 !! tk.2) (map_rows (now_db db) tk.1 !! tk.2))
        (filter (fun tk => is_Some (map_rows b tk.1 !! tk.2) \/ is_Some (map_rows (now_db db) tk.1 !! tk.2))
           (remove_dups (touched db)))
  end.

(** * The database *)

#[export] Instance MapMemDb : MemDb := {|
  Db := TrackedDb;
  db_empty := mkTrackedDb _ _ _ covered_empty;
  txn_insert := fun t x db =>
    if indexable t x then (Ok tt, tracked_insert t x db)
    else (Err (ErrMemDb "missing value for index"), db);
  txn_delete := fun t x db =>
    match map_rows (now_db db) t !! id_key t x with
    | Some _ => (Ok tt, tracked_delete t [x] db)
    | None => (Err ErrNotFound, db)
    end;
  txn_delete_all := fun t idx args db =>
    match map_get t idx args (now_db db) with
    | (Ok l, _) => (Ok (Z.of_nat (length l)), tracked_delete t l db)
    | (Err e, _) => (Err e, db)
    | (Panic p, _) => (Panic p, db)
    end;
  txn_first := fun t idx args => read (bind (map_get t idx args) (fun l => ret (head l)));
  txn_get := fun t idx args => read (map_get t idx args);
  txn_track_changes := fun db => mkTrackedDb _ _ _ (covered_start (now_db db));
  txn_changes := map_changes
|}.

(** * The laws *)

Lemma map_changes_spec (db : TrackedDb) (b : MapDb) :
  base_db db = Some b ->
  exists l : list (table * list value), NoDup l /\
    map_changes db = map (fun tk => mkChange tk.1 (map_rows b tk.1 !! tk.2) (map_rows (now_db db) tk.1 !! tk.2)) l /\
    (forall tk, tk ∈ l -> map_rows b tk.1 !! tk.2 <> None \/ map_rows (now_db db) tk.1 !! tk.2 <> None) /\
    (forall t k, (t, k) ∉ l -> map_rows (now_db db) t !! k = map_rows b t !! k).
Proof.
  intros Hb. unfold map_changes. rewrite Hb. eexists. split_and!; [|reflexivity|..].
  - apply NoDup_filter, NoDup_remove_dups.
  - intros tk [Htk _]%list_elem_of_filter. by rewrite <- !not_eq_None_Some in Htk.
  - intros t k Hk. destruct (decide ((t, k) ∈ touched db)) as [Ht|Ht]; [|by apply (touched_covers db b)].
    destruct (map_rows b t !! k) eqn:E1; [|destruct (map_rows (now_db db) t !! k) eqn:E2; [|done]];
      destruct Hk; apply list_elem_of_filter; (split; [|by apply elem_of_remove_dups]); simpl; rewrite ?E1, ?E2; eauto.
Qed.

#[export] Instance MapMemDbLaws : MemDbLaws.
Proof.
  refine {| rows := fun db => map_rows (now_db db); exact := fun _ _ _ _ => True;
            base := fun db => map_rows <$> base_db db |}; try done.
  - intros db t k x H. by apply map_rows_Some in H as (_ & ? & ?).
  - intros t x db Hx. eexists. split; [simpl; by rewrite Hx|].
    split_and!; [by apply map_rows_insert|intros; by apply map_rows_set_ne|done].
  - intros t x db Hx. eexists. simpl. by rewrite Hx.
  - intros t idx args db H. eexists. split; [simpl; unfold read; by rewrite map_get_valid|].
    split_and!; [apply map_select_NoDup|intros x Hx; by apply map_select_spec|].
    intros _ x Hx Hq. by apply map_select_spec.
  - intros t idx p db H. exists (map_select (now_db db) t (prefix_match t idx p)).
    split_and!; [|apply map_select_NoDup|intros x Hx; by apply map_select_spec].
    simpl. unfold read, map_get, valid_query. rewrite has_suffix_prefix, strip_prefix, H.
    by destruct (schema t !! (idx ++ "_prefix")).
  - intros t idx args db H. eexists. simpl. unfold read. by rewrite map_get_malformed.
  - intros t idx args db H. exists (map_select (now_db db) t (query_match t idx args)). simpl.
    unfold read, bind. by rewrite map_get_valid.
  - intros t x y db H. eexists. split; [simpl; by rewrite H|].
    split_and!; [apply map_rows_delete|intros; by apply map_rows_set_ne|done].
  - intros t x db H. simpl. by rewrite H.
  - intros t idx args l db H Hg. simpl in Hg. unfold read in Hg. rewrite map_get_valid in Hg by done. injection Hg as <-.
    eexists. split; [simpl; by rewrite map_get_valid|].
    split_and!; [apply map_rows_delete|intros; by apply map_rows_set_ne|done].
  - intros t idx args db H. eexists. simpl. by rewrite map_get_malformed.
  - intros t idx args db. simpl. split_and!; [| |done]; intros t'; [intros Ht|];
      destruct (map_get t idx args (now_db db)) as [[l|?|?] ?]; simpl; try done; [by apply map_rows_set_ne|].
    destruct (decide (t' = t)) as [->|Ht]; [|unfold map_delete_rows; by rewrite map_rows_set_ne].
    rewrite map_rows_delete. apply foldr_delete_subseteq.
  - intros t x db. simpl. by destruct (indexable t x).
  - intros t x db. simpl. by destruct (map_rows (now_db db) t !! id_key t x).
  - intros t idx args db. simpl. by destruct (map_get t idx args (now_db db)) as [[?|?|?] ?].
  - intros db b Hb. simpl in *. destruct (base_db db) as [b'|] eqn:E; [|done]. injection Hb as <-.
    by apply map_changes_spec.
Defined.
