(* ===== verification/Storage.v ===== *)
(** [ram/storage.go] and [data/]: the storage layer over the in-memory
    database, with the snapshot a node takes ([Backup]) and loads ([Restore]).
    Every operation is a computation on one transaction state. *)
From S2P Require Import Prelude GoLib Domain Tables MemDb.
Open Scope string_scope.

(** * Snapshots *)

Record Snapshot := mkSnapshot {
  Snapshot_Id : string;
  Snapshot_NodeGroups : list NodeGroup;
  Snapshot_DeploymentVersions : list DeploymentVersion;
  Snapshot_ClusterNodeGroups : list ClustersNodeGroup;
  Snapshot_Listeners : list Listener;
  Snapshot_ExtAuthzFilters : list ExtAuthzFilter;
  Snapshot_MicroserviceVersions : list MicroserviceVersion;
  Snapshot_Clusters : list Cluster;
  Snapshot_Endpoints : list Endpoint;
  Snapshot_RouteConfigurations : list RouteConfiguration;
  Snapshot_VirtualHosts : list VirtualHost;
  Snapshot_VirtualHostDomains : list VirtualHostDomain;
  Snapshot_Routes : list Route;
  Snapshot_HeaderMatchers : list HeaderMatcher;
  Snapshot_HashPolicies : list HashPolicy;
  Snapshot_RetryPolicies : list RetryPolicy;
  Snapshot_EnvoyConfigVersions : list EnvoyConfigVersion;
  Snapshot_HealthChecks : list HealthCheck;
  Snapshot_TlsConfigs : list TlsConfig;
  Snapshot_TlsConfigsNodeGroups : list TlsConfigsNodeGroups;
  Snapshot_WasmFilters : list WasmFilter;
  Snapshot_ListenerWasmFilters : list ListenersWasmFilter;
  Snapshot_LuaFilters : list LuaFilter;
  Snapshot_CompositeSatellites : list CompositeSatellite;
  Snapshot_StatefulSessionConfigs : list StatefulSession;
  Snapshot_RateLimits : list RateLimit;
  Snapshot_CircuitBreakers : list CircuitBreaker;
  Snapshot_Thresholds : list Threshold;
  Snapshot_TcpKeepalives : list TcpKeepalive
}.
#[export] Instance Snapshot_eta : Eta Snapshot :=
  fun x => mkSnapshot (Snapshot_Id x)
    (Snapshot_NodeGroups x)
    (Snapshot_DeploymentVersions x)
    (Snapshot_ClusterNodeGroups x)
    (Snapshot_Listeners x)
    (Snapshot_ExtAuthzFilters x)
    (Snapshot_MicroserviceVersions x)
    (Snapshot_Clusters x)
    (Snapshot_Endpoints x)
    (Snapshot_RouteConfigurations x)
    (Snapshot_VirtualHosts x)
    (Snapshot_VirtualHostDomains x)
    (Snapshot_Routes x)
    (Snapshot_HeaderMatchers x)
    (Snapshot_HashPolicies x)
    (Snapshot_RetryPolicies x)
    (Snapshot_EnvoyConfigVersions x)
    (Snapshot_HealthChecks x)
    (Snapshot_TlsConfigs x)
    (Snapshot_TlsConfigsNodeGroups x)
    (Snapshot_WasmFilters x)
    (Snapshot_ListenerWasmFilters x)
    (Snapshot_LuaFilters x)
    (Snapshot_CompositeSatellites x)
    (Snapshot_StatefulSessionConfigs x)
    (Snapshot_RateLimits x)
    (Snapshot_CircuitBreakers x)
    (Snapshot_Thresholds x)
    (Snapshot_TcpKeepalives x).
#[export] Instance Snapshot_zero : Zero Snapshot :=
  mkSnapshot zero
    zero zero zero zero zero zero zero zero zero zero zero zero
    zero zero zero zero zero zero zero zero zero zero zero zero
    zero zero zero zero.

(** The field of the snapshot a table goes to. *)
Definition snapshot_put (t : table) : list (entity t) -> Snapshot -> Snapshot :=
  match t return list (entity t) -> Snapshot -> Snapshot with
  | NodeGroupTable => fun (l : list NodeGroup) s => s <| Snapshot_NodeGroups := l |>
  | DeploymentVersionTable => fun (l : list DeploymentVersion) s => s <| Snapshot_DeploymentVersions := l |>
  | ClusterNodeGroupTable => fun (l : list ClustersNodeGroup) s => s <| Snapshot_ClusterNodeGroups := l |>
  | ListenerTable => fun (l : list Listener) s => s <| Snapshot_Listeners := l |>
  | ExtAuthzFilterTable => fun (l : list ExtAuthzFilter) s => s <| Snapshot_ExtAuthzFilters := l |>
  | MicroserviceVersionTable => fun (l : list MicroserviceVersion) s => s <| Snapshot_MicroserviceVersions := l |>
  | ClusterTable => fun (l : list Cluster) s => s <| Snapshot_Clusters := l |>
  | EndpointTable => fun (l : list Endpoint) s => s <| Snapshot_Endpoints := l |>
  | RouteConfigurationTable => fun (l : list RouteConfiguration) s => s <| Snapshot_RouteConfigurations := l |>
  | VirtualHostTable => fun (l : list VirtualHost) s => s <| Snapshot_VirtualHosts := l |>
  | VirtualHostDomainTable => fun (l : list VirtualHostDomain) s => s <| Snapshot_VirtualHostDomains := l |>
  | RouteTable => fun (l : list Route) s => s <| Snapshot_Routes := l |>
  | HeaderMatcherTable => fun (l : list HeaderMatcher) s => s <| Snapshot_HeaderMatchers := l |>
  | HashPolicyTable => fun (l : list HashPolicy) s => s <| Snapshot_HashPolicies := l |>
  | RetryPolicyTable => fun (l : list RetryPolicy) s => s <| Snapshot_RetryPolicies := l |>
  | EnvoyConfigVersionTable => fun (l : list EnvoyConfigVersion) s => s <| Snapshot_EnvoyConfigVersions := l |>
  | HealthCheckTable => fun (l : list HealthCheck) s => s <| Snapshot_HealthChecks := l |>
  | TlsConfigTable => fun (l : list TlsConfig) s => s <| Snapshot_TlsConfigs := l |>
  | TlsConfigsNodeGroupsTable => fun (l : list TlsConfigsNodeGroups) s => s <| Snapshot_TlsConfigsNodeGroups := l |>
  | WasmFilterTable => fun (l : list WasmFilter) s => s <| Snapshot_WasmFilters := l |>
  | ListenersWasmFilterTable => fun (l : list ListenersWasmFilter) s => s <| Snapshot_ListenerWasmFilters := l |>
  | LuaFilterTable => fun (l : list LuaFilter) s => s <| Snapshot_LuaFilters := l |>
  | CompositeSatelliteTable => fun (l : list CompositeSatellite) s => s <| Snapshot_CompositeSatellites := l |>
  | StatefulSessionTable => fun (l : list StatefulSession) s => s <| Snapshot_StatefulSessionConfigs := l |>
  | RateLimitTable => fun (l : list RateLimit) s => s <| Snapshot_RateLimits := l |>
  | CircuitBreakerTable => fun (l : list CircuitBreaker) s => s <| Snapshot_CircuitBreakers := l |>
  | ThresholdTable => fun (l : list Threshold) s => s <| Snapshot_Thresholds := l |>
  | TcpKeepaliveTable => fun (l : list TcpKeepalive) s => s <| Snapshot_TcpKeepalives := l |>
  end.
Definition snapshot_rows (t : table) (s : Snapshot) : list (entity t) :=
  match t return list (entity t) with
  | NodeGroupTable => Snapshot_NodeGroups s
  | DeploymentVersionTable => Snapshot_DeploymentVersions s
  | ClusterNodeGroupTable => Snapshot_ClusterNodeGroups s
  | ListenerTable => Snapshot_Listeners s
  | ExtAuthzFilterTable => Snapshot_ExtAuthzFilters s
  | MicroserviceVersionTable => Snapshot_MicroserviceVersions s
  | ClusterTable => Snapshot_Clusters s
  | EndpointTable => Snapshot_Endpoints s
  | RouteConfigurationTable => Snapshot_RouteConfigurations s
  | VirtualHostTable => Snapshot_VirtualHosts s
  | VirtualHostDomainTable => Snapshot_VirtualHostDomains s
  | RouteTable => Snapshot_Routes s
  | HeaderMatcherTable => Snapshot_HeaderMatchers s
  | HashPolicyTable => Snapshot_HashPolicies s
  | RetryPolicyTable => Snapshot_RetryPolicies s
  | EnvoyConfigVersionTable => Snapshot_EnvoyConfigVersions s
  | HealthCheckTable => Snapshot_HealthChecks s
  | TlsConfigTable => Snapshot_TlsConfigs s
  | TlsConfigsNodeGroupsTable => Snapshot_TlsConfigsNodeGroups s
  | WasmFilterTable => Snapshot_WasmFilters s
  | ListenersWasmFilterTable => Snapshot_ListenerWasmFilters s
  | LuaFilterTable => Snapshot_LuaFilters s
  | CompositeSatelliteTable => Snapshot_CompositeSatellites s
  | StatefulSessionTable => Snapshot_StatefulSessionConfigs s
  | RateLimitTable => Snapshot_RateLimits s
  | CircuitBreakerTable => Snapshot_CircuitBreakers s
  | ThresholdTable => Snapshot_Thresholds s
  | TcpKeepaliveTable => Snapshot_TcpKeepalives s
  end.

(** * Operations *)

Section storage.
Context `{M : MemDb}.

Definition FindAll (t : table) : prog Db (list (entity t)) :=
  wrap_err "get entities by index 'id' caused error" (txn_get t "id" []).

Definition FindFirstByIndex (t : table) (idx : string) (args : list value) : prog Db (option (entity t)) :=
  wrap_err "Error getting entity from table" (txn_first t idx args).

Definition FindById (t : table) (ids : list value) : prog Db (option (entity t)) :=
  FindFirstByIndex t "id" ids.

Definition FindByIndex (t : table) (idx : string) (args : list value) : prog Db (list (entity t)) :=
  wrap_err "Find By Index caused error" (txn_get t idx args).

(** [Save] of one entity and of a slice of them, both through [saveAll]. *)
Definition saveAll (t : table) (entities : list (entity t)) : prog Db unit :=
  for_each entities (fun e => wrap_err "Error insert entity" (txn_insert t e)).
Definition Save (t : table) (e : entity t) : prog Db unit := saveAll t [e].

(** A write transaction that commits when [m] returns and aborts when it
    fails. *)
Definition write_tx {A} (m : prog Db A) : prog Db A :=
  fun db => match m db with
            | (Ok a, db') => (Ok a, db')
            | (r, _) => (r, db)
            end.

Definition Clear : prog Db unit :=
  write_tx (for_each TableRelationOrder (fun t => txn_delete_all t "id" [] ;;; ret tt)).

Definition Backup (uuid : string) : prog Db Snapshot :=
  fold_each TableRelationOrder ((zero : Snapshot) <| Snapshot_Id := uuid |>)
    (fun s t =>
       entities <- FindAll t ;;
       ret (snapshot_put t (MarshalPrepare t <$> entities) s)).

(** A failure to clean a table is only logged. *)
Definition Restore (snapshot : Snapshot) : prog Db unit :=
  write_tx (for_each TableRelationOrder
    (fun t =>
       ignore_err (txn_delete_all t "id" [] ;;; ret tt) ;;;
       for_each (snapshot_rows t snapshot) (fun e => txn_insert t e))).
End storage.

(** * Properties *)

Lemma TableRelationOrder_NoDup : NoDup TableRelationOrder.
Proof. by apply (bool_decide_unpack _). Qed.
Lemma TableRelationOrder_all t : t ∈ TableRelationOrder.
Proof. destruct t; by apply (bool_decide_unpack _). Qed.

(** A function on the rows of a table that keeps every indexed field keeps
    their keys. *)
Definition transparent {t : table} (h : entity t -> entity t) : Prop := forall f x, FieldByName t f (h x) = FieldByName t f x.
Section transparent.
Context {t : table} {h : entity t -> entity t} (Hh : transparent h).
Lemma transparent_compound x l am : compound_key t (h x) l am = compound_key t x l am.
Proof using Hh.
  induction l as [|i l IH]; simpl; [done|]. unfold field_key. by rewrite Hh, IH.
Qed.
Lemma transparent_indexer x i : indexer_key t (h x) i = indexer_key t x i.
Proof using Hh. destruct i; simpl; unfold field_key; rewrite ?Hh; auto using transparent_compound. Qed.
Lemma transparent_id x : id_key t (h x) = id_key t x.
Proof using Hh. unfold id_key, index_key. destruct (schema t !! "id"); [|done]. by rewrite transparent_indexer. Qed.
Lemma transparent_indexable x : indexable t (h x) = indexable t x.
Proof using Hh. unfold indexable. apply forallb_ext. intros [n s]. by rewrite transparent_indexer. Qed.
End transparent.
(** The fields a snapshot drops are not indexed. *)
Lemma MarshalPrepare_transparent t : transparent (MarshalPrepare t).
Proof. intros f x. by destruct t. Qed.
Lemma MarshalPrepare_id t x : id_key t (MarshalPrepare t x) = id_key t x.
Proof. apply transparent_id, MarshalPrepare_transparent. Qed.
Lemma MarshalPrepare_indexable t x : indexable t (MarshalPrepare t x) = indexable t x.
Proof. apply transparent_indexable, MarshalPrepare_transparent. Qed.

Lemma snapshot_put_eq t l s : snapshot_rows t (snapshot_put t l s) = l.
Proof. by destruct t. Qed.
Lemma snapshot_put_ne t t' l s : t' <> t -> snapshot_rows t' (snapshot_put t l s) = snapshot_rows t' s.
Proof. destruct t, t'; done. Qed.
Create Rewrite HintDb storage.
#[export] Hint Rewrite snapshot_put_eq MarshalPrepare_id MarshalPrepare_indexable : storage.

Lemma valid_query_all t : valid_query t "id" [] = true.
Proof. by destruct t. Qed.
Lemma query_match_all t x : indexable t x = true -> query_match t "id" [] x = true.
Proof.
  intros H. simpl. unfold index_key. destruct (schema t !! "id") as [s|] eqn:E; [|by destruct t].
  unfold indexable in H. rewrite forallb_forall in H.
  assert (In ("id", s) (map_to_list (schema t))) as Hin
    by (apply list_elem_of_In, elem_of_map_to_list; done).
  specialize (H _ Hin). simpl in H. destruct (indexer_key t x (Index_Indexer s)); [done|].
  destruct t; vm_compute in E; injection E as <-; done.
Qed.

Section properties.
Context `{ML : MemDbLaws}.

Definition rows_of (t : table) (l : list (entity t)) : gmap (list value) (entity t) :=
  list_to_map ((fun x => (id_key t x, x)) <$> l).

Lemma FindAll_spec t db :
  exists l, FindAll t db = (Ok l, db) /\ NoDup (id_key t <$> l) /\
    forall x, x ∈ l <-> rows db t !! id_key t x = Some x.
Proof.
  destruct (get_spec t "id" [] db (valid_query_all t)) as (l & Hl & Hnd & Hsound & Hcomplete).
  exists l. split_and!; [unfold FindAll, wrap_err; by rewrite Hl|done|].
  intros x. split; [apply Hsound|].
  intros Hx. apply Hcomplete; [by left|done|]. apply query_match_all.
  by apply rows_wf in Hx as [_ ?].
Qed.

Lemma rows_of_lookup t (h : entity t -> entity t) l db :
  transparent h -> NoDup (id_key t <$> l) ->
  (forall x, x ∈ l <-> rows db t !! id_key t x = Some x) ->
  rows_of t (h <$> l) = h <$> rows db t.
Proof.
  intros Hh Hnd Hl. apply map_eq. intros k. rewrite lookup_fmap. unfold rows_of.
  rewrite <- list_fmap_compose.
  destruct (rows db t !! k) as [x|] eqn:E; simpl.
  - pose proof (rows_wf _ _ _ _ E) as [Hk _]. subst k.
    apply elem_of_list_to_map_1.
    + rewrite <- list_fmap_compose. erewrite list_fmap_ext; [exact Hnd|].
      intros i y _. by apply transparent_id.
    + apply list_elem_of_fmap. exists x. simpl. rewrite (transparent_id Hh). by rewrite Hl.
  - apply not_elem_of_list_to_map_1. rewrite <- list_fmap_compose.
    intros (x & Hx & Hin)%list_elem_of_fmap. simpl in Hx. rewrite (transparent_id Hh) in Hx.
    apply Hl in Hin. congruence.
Qed.

Lemma clean_table t db :
  exists n db', txn_delete_all t "id" [] db = (Ok n, db') /\ rows db' t = ∅ /\
    forall t', t' <> t -> rows db' t' = rows db t'.
Proof.
  destruct (get_spec t "id" [] db (valid_query_all t)) as (l & Hl & _ & Hsound & Hcomplete).
  assert (forall x, rows db t !! id_key t x = Some x -> x ∈ l) as Hin.
  { intros x Hx. apply Hcomplete; [by left|done|]. apply query_match_all.
    by apply rows_wf in Hx as [_ ?]. }
  destruct (delete_all_spec t "id" [] l db (valid_query_all t) Hl) as (db' & Hd & Hr & Hf & _).
  eexists _, db'. split_and!; [exact Hd| |exact Hf].
  rewrite Hr. apply map_eq. intros k. rewrite lookup_empty.
  destruct (foldr _ _ _ !! k) as [x|] eqn:E; [|done].
  assert (forall m : gmap (list value) (entity t),
            foldr (fun x m => delete (id_key t x) m) m l !! k = Some x ->
                    m !! k = Some x /\ k ∉ (id_key t <$> l)) as Hfold.
  { clear. induction l as [|y l IH]; intros m; simpl; [set_solver|].
    intros [Hne H]%lookup_delete_Some. apply IH in H as [? ?]. set_solver. }
  apply Hfold in E as [E Hk]. pose proof (rows_wf _ _ _ _ E) as [Hid _]. subst k.
  exfalso. apply Hk. apply list_elem_of_fmap. exists x. split; [done|]. by apply Hin.
Qed.

Lemma insert_all t l db :
  forallb (indexable t) l = true ->
  exists db', for_each l (fun e => txn_insert t e) db = (Ok tt, db') /\
    rows db' t = foldl (fun m x => <[id_key t x := x]> m) (rows db t) l /\
    forall t', t' <> t -> rows db' t' = rows db t'.
Proof.
  revert db. induction l as [|x l IH]; intros db; simpl; [by exists db|].
  intros [Hx Hl]%andb_prop. destruct (insert_spec t x db Hx) as (db1 & E1 & R1 & F1 & _).
  destruct (IH db1 Hl) as (db2 & E2 & R2 & F2). exists db2. unfold bind. rewrite E1.
  split_and!; [exact E2|by rewrite R2, R1|]. intros t' Ht. by rewrite F2, F1.
Qed.

Lemma foldl_rows_of t l :
  NoDup (id_key t <$> l) -> foldl (fun m x => <[id_key t x := x]> m) ∅ l = rows_of t l.
Proof.
  intros Hnd. unfold rows_of.
  assert (forall m : gmap (list value) (entity t), (forall x, x ∈ l -> m !! id_key t x = None) ->
    foldl (fun m x => <[id_key t x := x]> m) m l
    = list_to_map ((fun x => (id_key t x, x)) <$> l) ∪ m) as H.
  { induction l as [|x l IH]; intros m Hm; simpl; [by rewrite (left_id_L ∅ (∪))|].
    rewrite fmap_cons, NoDup_cons in Hnd. destruct Hnd as [Hx Hnd]. rewrite IH; [|done|].
    - rewrite <- insert_union_r, insert_union_l; [done|].
      apply not_elem_of_list_to_map_1. rewrite <- list_fmap_compose. by rewrite (list_fmap_ext _ (id_key t)).
    - intros y Hy. rewrite lookup_insert_ne; [set_solver|].
      intros Heq. apply Hx. rewrite Heq. set_solver. }
  rewrite H; [by rewrite (right_id_L ∅ (∪))|]. intros. apply lookup_empty.
Qed.

Lemma Backup_loop ts s0 db :
  NoDup ts ->
  exists s, fold_each ts s0 (fun s t =>
      entities <- FindAll t ;; ret (snapshot_put t (MarshalPrepare t <$> entities) s)) db = (Ok s, db) /\
    (forall t, t ∈ ts -> exists l, snapshot_rows t s = MarshalPrepare t <$> l /\
       NoDup (id_key t <$> l) /\ forall x, x ∈ l <-> rows db t !! id_key t x = Some x) /\
    (forall t, t ∉ ts -> snapshot_rows t s = snapshot_rows t s0).
Proof.
  revert s0. induction ts as [|t ts IH]; intros s0 Hnd; [by exists s0; set_solver|].
  rewrite NoDup_cons in Hnd. destruct Hnd as [Ht Hnd].
  destruct (FindAll_spec t db) as (l & Hl & Hid & Hin).
  destruct (IH (snapshot_put t (MarshalPrepare t <$> l) s0) Hnd) as (s & Hs & Hmem & Hout).
  exists s. split_and!.
  - simpl. unfold bind at 1. unfold bind at 1. rewrite Hl. exact Hs.
  - intros t'. rewrite elem_of_cons. intros [->|?]; [|by apply Hmem].
    exists l. rewrite Hout, snapshot_put_eq by done. done.
  - intros t'. rewrite not_elem_of_cons. intros [? ?]. rewrite Hout, snapshot_put_ne; done.
Qed.

Lemma Restore_loop s ts db :
  NoDup ts ->
  (forall t, t ∈ ts -> forallb (indexable t) (snapshot_rows t s) = true) ->
  exists db', for_each ts (fun t =>
       ignore_err (txn_delete_all t "id" [] ;;; ret tt) ;;;
       for_each (snapshot_rows t s) (fun e => txn_insert t e)) db = (Ok tt, db') /\
    (forall t, t ∈ ts -> rows db' t =
       foldl (fun m x => <[id_key t x := x]> m) ∅ (snapshot_rows t s)) /\
    (forall t, t ∉ ts -> rows db' t = rows db t).
Proof.
  revert db. induction ts as [|t ts IH]; intros db Hnd Hok; [by exists db; set_solver|].
  rewrite NoDup_cons in Hnd. destruct Hnd as [Ht Hnd].
  destruct (clean_table t db) as (n & db1 & E1 & R1 & F1).
  destruct (insert_all t (snapshot_rows t s) db1) as (db2 & E2 & R2 & F2); [apply Hok; set_solver|].
  destruct (IH db2 Hnd) as (db3 & E3 & R3 & F3); [intros; apply Hok; set_solver|].
  exists db3. split_and!.
  - simpl. unfold bind at 1. unfold bind at 1. unfold ignore_err, bind. rewrite E1. simpl.
    rewrite E2. exact E3.
  - intros t'. rewrite elem_of_cons. intros [->|?]; [|by apply R3].
    by rewrite F3, R2, R1.
  - intros t'. rewrite not_elem_of_cons. intros [? ?]. by rewrite F3, F2, F1.
Qed.

(** [s] holds the rows of [db], each as [h] makes it. *)
Definition snapshot_holds (h : forall t, entity t -> entity t) (s : Snapshot) (db : Db) : Prop :=
  forall t, exists l, snapshot_rows t s = h t <$> l /\ NoDup (id_key t <$> l) /\ forall x, x ∈ l <-> rows db t !! id_key t x = Some x.
Lemma Backup_holds uuid db : exists s, Backup uuid db = (Ok s, db) /\ snapshot_holds MarshalPrepare s db.
Proof.
  destruct (Backup_loop TableRelationOrder ((zero : Snapshot) <| Snapshot_Id := uuid |>) db TableRelationOrder_NoDup)
    as (s & Hs & Hmem & _).
  exists s. split; [exact Hs|]. intros t. apply Hmem, TableRelationOrder_all.
Qed.
Lemma Restore_holds h s db slave : (forall t, transparent (h t)) -> snapshot_holds h s db ->
  exists slave', Restore s slave = (Ok tt, slave') /\ forall t, rows slave' t = h t <$> rows db t.
Proof.
  intros Hh Hs. destruct (Restore_loop s TableRelationOrder slave TableRelationOrder_NoDup) as (db' & Hr & Hrows & _).
  { intros t _. destruct (Hs t) as (l & -> & _ & Hl).
    apply forallb_forall. intros x Hx. apply list_elem_of_In, list_elem_of_fmap in Hx as (y & -> & Hy).
    rewrite (transparent_indexable (Hh t)). apply Hl in Hy. by apply rows_wf in Hy as [_ ?]. }
  exists db'. split; [unfold Restore, write_tx; by rewrite Hr|]. intros t. destruct (Hs t) as (l & Hsl & Hnd & Hl).
  rewrite Hrows, Hsl by apply TableRelationOrder_all.
  rewrite foldl_rows_of; [by apply rows_of_lookup|].
  rewrite <- list_fmap_compose. erewrite list_fmap_ext; [exact Hnd|]. intros i y _. by apply transparent_id.
Qed.

(** C40: A node that restores the snapshot another node took ends with exactly
    that node's tables, each row as [MarshalPrepare] leaves it; both
    operations succeed, whatever the two databases held before, and taking
    the snapshot changes nothing. *)
Theorem backup_restore (uuid : string) (master slave : Db) :
  exists snapshot slave',
    Backup uuid master = (Ok snapshot, master) /\
    Restore snapshot slave = (Ok tt, slave') /\
    forall t, rows slave' t = MarshalPrepare t <$> rows master t.
Proof.
  destruct (Backup_holds uuid master) as (s & Hs & Hh).
  destruct (Restore_holds _ s master slave MarshalPrepare_transparent Hh) as (db' & Hr & Hrows).
  by exists s, db'.
Qed.
End properties.
