(* ===== verification/Msaddr.v ===== *)
(** [util/msaddr]: namespaces and microservice addresses, and
    [services/cluster/clusterkey]: the cluster key
    ["<family>||<host>||<port>"] and the parts read back from it. *)
From S2P Require Import Prelude GoLib Domain.
From Stdlib Require Import Ascii.
Import Prelude.
Open Scope string_scope.

(** The process environment ([os.Getenv]). *)
Class Environment : Type := { os_Getenv : string -> string }.

Record Namespace := mkNamespace { Namespace_Namespace : string }.

Definition LocalDevNamespacePostfix := ".nip.io".
Definition DefaultNamespace := "default".
Definition CloudNamespace := "CLOUD_NAMESPACE".
Definition LocalNamespace := "local".
Definition UnknownNamespace := "unknown".

Record MicroserviceAddress := mkMicroserviceAddress {
  MsAddr_Proto : string;
  MsAddr_MicroserviceName : string;
  MsAddr_Host : string;
  MsAddr_Port : Z;
  MsAddr_Namespace : Namespace
}.

Record MicroserviceKey := mkMicroserviceKey {
  MicroserviceKey_Name : string;
  MicroserviceKey_Namespace : string
}.
#[export] Instance MicroserviceKey_eq_dec : EqDecision MicroserviceKey.
Proof. solve_decision. Defined.
#[export] Instance MicroserviceKey_countable : Countable MicroserviceKey.
Proof.
  refine (inj_countable' (fun k => (MicroserviceKey_Name k, MicroserviceKey_Namespace k))
                         (fun p => mkMicroserviceKey p.1 p.2) _).
  by intros [].
Defined.

Section msaddr.
Context `{E : Environment}.

Definition gatewayNamespace : string :=
  let ns := os_Getenv CloudNamespace in
  if (0 <? String.length ns)%nat then ns else LocalNamespace.

Definition CurrentNamespaceAsString : string := gatewayNamespace.
Definition CurrentNamespace : Namespace := mkNamespace CurrentNamespaceAsString.

Definition IsCurrentNamespace (n : Namespace) : bool :=
  (String.length (strings_TrimSpace (Namespace_Namespace n)) =? 0)%nat
  || String.eqb (Namespace_Namespace n) DefaultNamespace
  || String.eqb (Namespace_Namespace n) UnknownNamespace
  || String.eqb (Namespace_Namespace n) gatewayNamespace.

Definition Namespace_Equals (n another : Namespace) : bool :=
  String.eqb (Namespace_Namespace n) (Namespace_Namespace another)
  || (IsCurrentNamespace n && IsCurrentNamespace another).

Definition IsLocalDevNamespace (n : Namespace) : bool :=
  nonempty (Namespace_Namespace n) && strings_HasSuffix (Namespace_Namespace n) LocalDevNamespacePostfix.

Definition GetNamespace (n : Namespace) : string :=
  if IsCurrentNamespace n then gatewayNamespace else Namespace_Namespace n.

Definition splitToProtoAndUrl (url : string) : string * string :=
  match strings_Index url "://" with
  | None => ("http", url)
  | Some idx => (strings_ToLower (str_take idx url), str_drop (idx + 3) url)
  end.

Definition getDefaultPort (proto : string) : string :=
  if String.eqb proto "https" then "443" else "80".

Definition splitUrl (url : string) : string * string * string :=
  let '(proto, hostPortString) := splitToProtoAndUrl url in
  match strings_Split hostPortString ":" with
  | [] => (proto, "", getDefaultPort proto)
  | [host] => (proto, host, getDefaultPort proto)
  | host :: port :: _ => (proto, host, port)
  end.

Definition getMicroserviceName (url : string) : string :=
  match strings_Split url "." with [] => "" | n :: _ => n end.

(** A port that is not a number panics. *)
Definition NewMicroserviceAddress (msUrl namespace : string) : result MicroserviceAddress :=
  let '(proto, host, portStr) := splitUrl msUrl in
  match strconv_Atoi portStr with
  | None => Panic "Failed to convert port to int"
  | Some port => Ok (mkMicroserviceAddress proto (getMicroserviceName host) host (int32 port)
                       (mkNamespace namespace))
  end.

Definition GetNamespacedMicroserviceHost (a : MicroserviceAddress) : string :=
  let ns := MsAddr_Namespace a in
  if IsCurrentNamespace ns then MsAddr_Host a
  else if IsLocalDevNamespace ns then Namespace_Namespace ns
  else MsAddr_Host a ++ "." ++ Namespace_Namespace ns.

(** * Cluster keys ([clusterkey/keygen.go]) *)

Definition getNamespacedClusterHost (clusterName : string) (ns : Namespace) : string :=
  if IsCurrentNamespace ns then clusterName else clusterName ++ "." ++ Namespace_Namespace ns.

Definition GenerateClusterKey (clusterName : string) (a : MicroserviceAddress) : string :=
  let clusterName := strings_TrimSpace clusterName in
  if (String.length clusterName =? 0)%nat
  then MsAddr_MicroserviceName a ++ "||"
       ++ getNamespacedClusterHost (MsAddr_Host a) (MsAddr_Namespace a) ++ "||" ++ strconv_Itoa (MsAddr_Port a)
  else clusterName ++ "||"
       ++ getNamespacedClusterHost clusterName (MsAddr_Namespace a) ++ "||" ++ strconv_Itoa (MsAddr_Port a).

Definition ExtractFamilyName (clusterKey : string) : string :=
  match strings_Index clusterKey "||" with
  | Some idx => str_take idx clusterKey
  | None => clusterKey
  end.

Definition extractNamespacedName (clusterKey : string) : string :=
  match strings_Split clusterKey "||" with
  | _ :: second :: _ => second
  | _ => clusterKey
  end.

Definition ExtractNamespace (clusterKey : string) : Namespace :=
  let namespacedName := extractNamespacedName clusterKey in
  match strings_Index namespacedName "." with
  | Some dotIdx => mkNamespace (str_drop (dotIdx + 1) namespacedName)
  | None => mkNamespace ""
  end.

Definition BuildKeyPrefix (clusterName : string) (ns : Namespace) : string :=
  clusterName ++ "||" ++ getNamespacedClusterHost clusterName ns ++ "||".

(** [domain/mskey.go] *)
Definition Cluster_GetMicroserviceKey (c : Cluster) : MicroserviceKey :=
  mkMicroserviceKey (ExtractFamilyName (Cluster_Name c)) (GetNamespace (ExtractNamespace (Cluster_Name c))).
Definition MicroserviceVersion_GetMicroserviceKey (m : MicroserviceVersion) : MicroserviceKey :=
  mkMicroserviceKey (MicroserviceVersion_Name m) (MicroserviceVersion_Namespace m).
Definition MicroserviceKey_GetNamespace (k : MicroserviceKey) : Namespace :=
  mkNamespace (MicroserviceKey_Namespace k).
End msaddr.

(** * Properties *)

(** A cluster name that a key can carry: not blank at its ends, without a bar. *)
Definition key_name (name : string) : bool :=
  nonempty name && String.eqb (strings_TrimSpace name) name && lacks "|"%char name.

Section properties.
Context `{E : Environment}.

Lemma key_name_spec name :
  key_name name = true ->
  strings_TrimSpace name = name /\ (String.length name =? 0)%nat = false /\ lacks "|"%char name = true.
Proof.
  unfold key_name, nonempty. rewrite !andb_true_iff, negb_true_iff, String.eqb_eq. intros [[Hn ->] Hl].
  split_and!; [done| |done]. by destruct name.
Qed.

Lemma GenerateClusterKey_shape name a :
  key_name name = true ->
  GenerateClusterKey name a
  = name ++ "||" ++ getNamespacedClusterHost name (MsAddr_Namespace a) ++ "||" ++ strconv_Itoa (MsAddr_Port a).
Proof.
  intros H. apply key_name_spec in H as (Ht & Hl & _). unfold GenerateClusterKey. by rewrite Ht, Hl.
Qed.

Lemma host_lacks name ns :
  lacks "|"%char name = true -> lacks "|"%char (Namespace_Namespace ns) = true ->
  lacks "|"%char (getNamespacedClusterHost name ns) = true.
Proof.
  intros Hn Hns. unfold getNamespacedClusterHost. destruct (IsCurrentNamespace ns); [done|].
  rewrite lacks_app, Hn. simpl. by rewrite Hns.
Qed.

(** What goes into a cluster key comes back: for a cluster name without
    bars and dots and a namespace without bars, the family name read from the
    generated key is the cluster name, and the namespace read from it is the
    namespace of the address, or empty when that is the current one; so the
    key denotes the same microservice. *)
Theorem cluster_key_roundtrip name (a : MicroserviceAddress) :
  key_name name = true -> lacks "."%char name = true ->
  lacks "|"%char (Namespace_Namespace (MsAddr_Namespace a)) = true ->
  let key := GenerateClusterKey name a in
  let ns := MsAddr_Namespace a in
  ExtractFamilyName key = name /\
  ExtractNamespace key = (if IsCurrentNamespace ns then mkNamespace "" else ns) /\
  GetNamespace (ExtractNamespace key) = GetNamespace ns.
Proof.
  intros Hk Hdot Hns. cbv zeta. pose proof (key_name_spec _ Hk) as (_ & _ & Hbar).
  rewrite GenerateClusterKey_shape by done. set (ns := MsAddr_Namespace a) in *.
  assert (ExtractNamespace (name ++ "||" ++ getNamespacedClusterHost name ns ++ "||" ++ strconv_Itoa (MsAddr_Port a))
          = if IsCurrentNamespace ns then mkNamespace "" else ns) as Hx.
  { unfold ExtractNamespace, extractNamespacedName.
    rewrite Split_lacks by done. rewrite Split_lacks by (by apply host_lacks).
    destruct (strings_Split (strconv_Itoa (MsAddr_Port a)) "||") as [|p l] eqn:Es;
      unfold getNamespacedClusterHost; destruct (IsCurrentNamespace ns);
      rewrite ?(Index_lacks_None "."%char "" name) by done; try done;
      rewrite (Index_lacks "."%char "" name) by done;
      rewrite Nat.add_1_r; f_equal; rewrite <- str_app_assoc;
      replace (S (String.length name)) with (String.length (name ++ "."))
        by (rewrite str_length_app; simpl; lia);
      rewrite str_drop_app; by destruct ns. }
  split_and!; [|exact Hx|].
  - unfold ExtractFamilyName. rewrite Index_lacks by done. apply str_take_app.
  - rewrite Hx. unfold GetNamespace. destruct (IsCurrentNamespace ns) eqn:Ec; [done|]. by rewrite Ec.
Qed.

(** The prefix under which the clusters of a family are searched selects
    exactly the keys of that family and namespace: a generated key has the
    prefix if and only if it was generated for the same cluster name and for
    the same namespace, all names of the current namespace counting as one. *)
Theorem BuildKeyPrefix_selects name name' ns (a : MicroserviceAddress) :
  key_name name = true -> key_name name' = true ->
  lacks "."%char name = true -> lacks "."%char name' = true ->
  lacks "|"%char (Namespace_Namespace ns) = true ->
  lacks "|"%char (Namespace_Namespace (MsAddr_Namespace a)) = true ->
  strings_HasPrefix (GenerateClusterKey name' a) (BuildKeyPrefix name ns) = true <->
  name' = name /\
    (IsCurrentNamespace ns = true /\ IsCurrentNamespace (MsAddr_Namespace a) = true \/
     IsCurrentNamespace ns = false /\ MsAddr_Namespace a = ns).
Proof.
  intros Hk Hk' Hd Hd' Hn Hn'. rewrite GenerateClusterKey_shape by done.
  pose proof (key_name_spec _ Hk) as (_ & _ & Hb). pose proof (key_name_spec _ Hk') as (_ & _ & Hb').
  set (ns' := MsAddr_Namespace a) in *. unfold strings_HasPrefix, BuildKeyPrefix. rewrite prefix_spec. split.
  - intros (t & Ht). rewrite !str_app_assoc in Ht.
    apply lacks_before in Ht as [-> Ht]; [|done|done]. split; [done|].
    apply (f_equal (str_drop 1)) in Ht. change (str_drop 1 (String _ ?x)) with x in Ht.
    apply lacks_before in Ht as [Ht _]; [|by apply host_lacks..].
    unfold getNamespacedClusterHost in Ht.
    destruct (IsCurrentNamespace ns') eqn:E1, (IsCurrentNamespace ns) eqn:E2.
    + by left.
    + apply (f_equal String.length) in Ht. rewrite str_length_app in Ht. simpl in Ht. lia.
    + apply (f_equal String.length) in Ht. rewrite str_length_app in Ht. simpl in Ht. lia.
    + right. split; [done|]. apply lacks_before in Ht as [_ Ht]; [|done|done].
      destruct ns', ns. simpl in Ht. by subst.
  - intros [-> H]. exists (strconv_Itoa (MsAddr_Port a)). rewrite !str_app_assoc.
    assert (getNamespacedClusterHost name ns' = getNamespacedClusterHost name ns) as ->; [|done].
    unfold getNamespacedClusterHost. destruct H as [[H1 H2]|[H1 H2]]; [by rewrite H1, H2|by rewrite H2].
Qed.
End properties.

Definition witness_env : Environment := {| os_Getenv := fun _ => "cloud" |}.
Definition witness_address : MicroserviceAddress :=
  mkMicroserviceAddress "http" "orders" "orders-v1" 8080 (mkNamespace "other").
Lemma cluster_key_roundtrip_witness :
  GenerateClusterKey (E := witness_env) "orders" witness_address = "orders||orders.other||8080" /\
  ExtractFamilyName (GenerateClusterKey (E := witness_env) "orders" witness_address) = "orders".
Proof.
  split; [reflexivity|].
  refine (proj1 (cluster_key_roundtrip (E := witness_env) "orders" witness_address _ _ _)); reflexivity.
Defined.
Lemma BuildKeyPrefix_selects_witness :
  strings_HasPrefix (GenerateClusterKey (E := witness_env) "orders" witness_address)
    (BuildKeyPrefix (E := witness_env) "orders" (mkNamespace "other")) = true.
Proof.
  apply (BuildKeyPrefix_selects (E := witness_env) "orders" "orders" (mkNamespace "other") witness_address);
    try reflexivity. split; [reflexivity|right; split; reflexivity].
Defined.
