(* ===== verification/Format.v ===== *)
(** The formats of the paths of a registration request
    ([services/route/business/format], [util/routes/formatter.go],
    [util/routes/validator.go], [services/route/routeUtils.go]): how the path of
    a route becomes the prefix or the regular expression Envoy matches.

    The regular expressions these packages compile are fixed; each is written
    out here as the function of Go's [regexp] package it is used with. *)
From S2P Require Import Prelude GoLib Domain Msaddr.
From Stdlib Require Import Ascii.
Open Scope string_scope.

(** * The regular expressions *)

Definition slash : ascii := "/".
Definition star : ascii := "*".
Definition backslash : ascii := Ascii.ascii_of_N 92.
Definition lbrace : ascii := "{".
Definition rbrace : ascii := "}".

(** [\{[^{}]*\}] after its opening brace: the length of the rest of the match. *)
Fixpoint variable_end (s : string) : option nat :=
  match s with
  | "" => None
  | String c s' => if Ascii.eqb c rbrace then Some 1%nat
                   else if Ascii.eqb c lbrace then None
                   else S <$> variable_end s'
  end.
(** [variableRegexp.ReplaceAllLiteralString(s, repl)]. *)
Fixpoint replace_variables (skip : nat) (s repl : string) : string :=
  match s with
  | "" => ""
  | String c s' =>
      match skip with
      | S k => replace_variables k s' repl
      | O => match (if Ascii.eqb c lbrace then variable_end s' else None) with
             | Some n => repl ++ replace_variables n s' repl
             | None => String c (replace_variables O s' repl)
             end
      end
  end.
(** [endSlashRegexp], [/+$], replaced by the empty string; also the loops that
    cut a trailing slash as long as there is one. *)
Fixpoint trim_end_slashes (s : string) : string :=
  match s with
  | "" => ""
  | String c s' => match trim_end_slashes s' with
                   | "" => if Ascii.eqb c slash then "" else String c ""
                   | r => String c r
                   end
  end.
(** [endSlashLineRegexp], [^/+$]. *)
Definition only_slashes (s : string) : bool := nonempty s && String.eqb (trim_end_slashes s) "".
(** [\s+]: white space of Go's [regexp], which has no vertical tab. *)
Definition is_regexp_space (c : ascii) : bool := bool_decide (N_of_ascii c ∈ [9; 10; 12; 13; 32]%N).
Fixpoint has_char (p : ascii -> bool) (s : string) : bool :=
  match s with "" => false | String c s' => p c || has_char p s' end.

(** * [formatter.go] *)

Definition VariableReplacement := "*".
Definition SourceRouteEnding := "/**".

Definition IsRouteAllowed (route : string) : bool := nonempty route.
Definition escapeRouteFrom (route : string) : string := replace_variables O route VariableReplacement.
Definition applyPostfix (routeFrom : string) : string :=
  if strings_HasSuffix routeFrom SourceRouteEnding then routeFrom else routeFrom ++ SourceRouteEnding.
Definition GetRoutePropertyKey (routeFrom : string) : string := applyPostfix (escapeRouteFrom routeFrom).
(** A path that begins with a brace is cut at -1: a panic. *)
Definition GetFromWithoutVariable (from : string) : result string :=
  match strings_Index from "{" with
  | None => Ok from
  | Some O => Panic "slice bounds out of range"
  | Some (S i) => Ok (str_take i from)
  end.
Definition HasVariable (str : string) : bool := strings_Contains str "{" && strings_Contains str "}".

(** * [validator.go] *)

Definition IsValidPath (path : string) : bool := nonempty path && negb (has_char is_regexp_space path).

(** * [routefromaddr.go] *)

Record RouteFromAddress := mkRouteFromAddress {
  RouteFromRaw : string;
  RouteFromFormatted : string;
  RouteFromPrefix : string;
  RouteFromRegex : string
}.

(** [backSlashRegexp.Split(s, 2)[0]]. *)
Definition before_star (s : string) : string :=
  match strings_Index s "*" with Some i => str_take i s | None => s end.
Definition replaceEndSlash (src : string) : string :=
  if (String.length src =? 1)%nat then src
  else if only_slashes src then "/"
  else trim_end_slashes src.

Definition NewRouteFromAddress (routeFromRaw : string) : RouteFromAddress :=
  let raw := strings_TrimSpace routeFromRaw in
  let formatted := GetRoutePropertyKey raw in
  if HasVariable raw then
    let regex := strings_ReplaceAll formatted "/" "\/" in
    let regex := strings_ReplaceAll regex "\/**" "" in
    let regex := strings_ReplaceAll regex "*" ".*" in
    let regex := strings_ReplaceAll regex "\" "" in
    let regex := strings_ReplaceAll regex ".*" "([^/]+)" in
    let regex := trim_end_slashes regex in
    mkRouteFromAddress raw formatted "" (regex ++ "(/.*)?")
  else mkRouteFromAddress raw formatted (replaceEndSlash (before_star formatted)) "".

Definition IsListedInForbiddenRoutes (r : RouteFromAddress) : bool := negb (IsRouteAllowed (RouteFromRaw r)).
Definition IsValidUrlPath (r : RouteFromAddress) : bool := IsValidPath (RouteFromFormatted r).

(** * [routetoaddr.go] *)

(** The prefix and the regular expression a matched path is rewritten to. *)
Definition rewrite_to (to : string) : string * string :=
  let routeToFormatted := GetRoutePropertyKey to in
  if HasVariable to then
    let regex := strings_ReplaceAll routeToFormatted "/" "\/" in
    let regex := strings_ReplaceAll regex "\/**" "" in
    ("", strings_ReplaceAll regex "*" ".*")
  else (replaceEndSlash (before_star routeToFormatted), "").
Definition NewRouteToAddress (from to : string) : string * string :=
  if nonempty to then rewrite_to to else ("", (rewrite_to from).2).

(** * [util/routes] *)

(** [strings.Trim(s, " ")]. *)
Fixpoint trim_left_blanks (s : string) : string :=
  match s with String " " s' => trim_left_blanks s' | _ => s end.
Definition trim_blanks (s : string) : string := str_rev (trim_left_blanks (str_rev (trim_left_blanks s))).

Module routes.
Definition is_bracket (c : ascii) : bool := Ascii.eqb c "[" || Ascii.eqb c "]".
Definition IsRouteAllowed (route : string) : bool := nonempty route && negb (has_char is_bracket route).
Definition escapeRouteFrom (route : string) : string :=
  strings_ReplaceAll (replace_variables O route "*") "." "&dot;".
Definition applyPostfix (routeFrom : string) : string :=
  if strings_HasSuffix routeFrom "/**" then routeFrom else routeFrom ++ "/**".
Definition getRoutePropertyKey (routeFrom : string) : string := applyPostfix (escapeRouteFrom routeFrom).
Definition isValidPath (path : string) : bool := nonempty path && negb (has_char is_regexp_space path).
Definition IsValidFromUrlPath (path : string) : bool := isValidPath (getRoutePropertyKey path).
Definition IsValidToUrlPath (path : string) : bool := isValidPath path.
Definition IsListedInForbiddenRoutes (route : string) : bool := negb (IsRouteAllowed (trim_blanks route)).
End routes.

(** * [routeUtils.go] *)

Definition IsRouteBelongsToNamespace (route : Route) (namespace : Namespace) : bool :=
  existsb (fun hm => String.eqb (HeaderMatcher_Name hm) "namespace"
                     && String.eqb (HeaderMatcher_ExactMatch hm) (Namespace_Namespace namespace))
    (Route_HeaderMatchers route).
Definition IsDefaultNamespaceRoute (route : Route) : bool :=
  negb (existsb (fun hm => String.eqb (HeaderMatcher_Name hm) "namespace") (Route_HeaderMatchers route)).

(** * The unit tests of the package *)

Example route_from_regex :
  RouteFromRegex <$> (NewRouteFromAddress <$>
    ["/api/v1/details"; "/api/v1/{variable}/details/"; "/api/v1/{variable}/path/{variable}";
     "/api/v1/{tenantId}/**"; "/api/v2/{microserviceName}/{dbClassifier}"])
  = [""; "/api/v1/([^/]+)/details(/.*)?"; "/api/v1/([^/]+)/path/([^/]+)(/.*)?";
     "/api/v1/([^/]+)(/.*)?"; "/api/v2/([^/]+)/([^/]+)(/.*)?"].
Proof. reflexivity. Qed.
Example route_from_prefix :
  RouteFromPrefix <$> (NewRouteFromAddress <$> ["/api/v1/details"; "/api/v2"; "/"; "//"; "/a/**"; "/a//"])
  = ["/api/v1/details"; "/api/v2"; "/"; "/"; "/a"; "/a"].
Proof. reflexivity. Qed.
Example route_to :
  NewRouteToAddress "/api/v1/details/{var}/some/{some}" "" = ("", "\/api\/v1\/details\/.*\/some\/.*") /\
  NewRouteToAddress "/api/v1/details/{var}/some/" "" = ("", "\/api\/v1\/details\/.*\/some\/").
Proof. split; reflexivity. Qed.
Example valid_path : IsValidPath "" = false /\ IsValidPath "/pathFrom /" = false /\ IsValidPath "/api" = true.
Proof. repeat split. Qed.

(** * Properties

    What the paths of a request become: templates of literal text and variables,
    and the prefix or regular expression [NewRouteFromAddress] makes of them. *)
From S2P Require Import Prelude GoLib Domain.
From Stdlib Require Import Ascii.
Open Scope string_scope.

(** * Strings mapped character by character *)

Fixpoint map_str (f : ascii -> string) (s : string) : string :=
  match s with "" => "" | String c s' => f c ++ map_str f s' end.

Lemma map_str_app f a b : map_str f (a ++ b) = map_str f a ++ map_str f b.
Proof. induction a as [|c a IH]; simpl; [done|]. by rewrite IH, str_app_assoc. Qed.
Lemma map_str_comp f g s : map_str g (map_str f s) = map_str (fun c => map_str g (f c)) s.
Proof. induction s as [|c s IH]; simpl; [done|]. by rewrite map_str_app, IH. Qed.
Lemma map_str_ext d f g s : lacks d s = true -> (forall c, Ascii.eqb c d = false -> f c = g c) -> map_str f s = map_str g s.
Proof.
  intros Hs Hfg. induction s as [|c s IH]; simpl in *; [done|].
  apply andb_prop in Hs as [Hc%negb_true_iff Hs]. by rewrite Hfg, IH.
Qed.
Lemma map_str_id f s : (forall c, f c = String c "") -> map_str f s = s.
Proof. intros Hf. induction s as [|c s IH]; simpl; [done|]. by rewrite Hf, IH. Qed.

Lemma prefix_nil s : String.prefix "" s = true.
Proof. by destruct s. Qed.

(** Replacing a character maps the string. *)
Definition subst_char (d : ascii) (new : string) (c : ascii) : string := if Ascii.eqb c d then new else String c "".
Lemma ReplaceAll_char d new s : strings_ReplaceAll s (String d "") new = map_str (subst_char d new) s.
Proof.
  unfold strings_ReplaceAll, subst_char. induction s as [|c s IH]; [done|].
  cbn [replace_all map_str String.prefix]. destruct (ascii_dec d c) as [->|Hne].
  - rewrite Ascii.eqb_refl, prefix_nil. simpl. by rewrite IH.
  - destruct (Ascii.eqb_spec c d) as [->|_]; [done|]. cbn [String.append]. by rewrite IH.
Qed.
Lemma subst_char_lacks d new s : lacks d s = true -> map_str (subst_char d new) s = s.
Proof.
  intros Hs. rewrite (map_str_ext d _ (fun c => String c "") s Hs); [by apply map_str_id|].
  intros c Hc. unfold subst_char. by rewrite Hc.
Qed.
Lemma Contains_char d s : strings_Contains s (String d "") = negb (lacks d s).
Proof.
  unfold strings_Contains. induction s as [|c s IH]; [done|].
  rewrite Index_unfold. cbn [String.prefix lacks]. destruct (ascii_dec d c) as [->|Hne].
  - by rewrite Ascii.eqb_refl, prefix_nil.
  - destruct (Ascii.eqb_spec c d) as [->|_]; [done|]. simpl. rewrite <- IH. by destruct (strings_Index s _).
Qed.

(** * No two stars in a row *)

Definition head_is (d : ascii) (s : string) : bool := match s with String c _ => Ascii.eqb c d | "" => false end.
Fixpoint no_double_star (s : string) : bool :=
  match s with "" => true | String c s' => negb (Ascii.eqb c star && head_is star s') && no_double_star s' end.

Lemma lacks_no_double_star s : lacks star s = true -> no_double_star s = true.
Proof.
  induction s as [|c s IH]; simpl; [done|]. intros [->%negb_true_iff Hs]%andb_prop. simpl. by apply IH.
Qed.
Lemma no_double_star_app a b :
  lacks star a = true -> no_double_star (a ++ b) = no_double_star b.
Proof. induction a as [|c a IH]; simpl; [done|]. intros [->%negb_true_iff Ha]%andb_prop. simpl. by apply IH. Qed.

(** Escaping slashes keeps the stars apart. *)
Lemma head_escaped s : head_is star (map_str (subst_char slash "\/") s) = head_is star s.
Proof.
  destruct s as [|c s]; [done|]. simpl. unfold subst_char. destruct (Ascii.eqb_spec c slash) as [->|]; done.
Qed.
Lemma no_double_star_escaped s : no_double_star s = true -> no_double_star (map_str (subst_char slash "\/") s) = true.
Proof.
  induction s as [|c s IH]; simpl; [done|]. intros [Hc Hs]%andb_prop. unfold subst_char at 1.
  destruct (Ascii.eqb_spec c slash) as [->|].
  - simpl. by apply IH.
  - cbn [String.append no_double_star]. rewrite head_escaped, Hc. by apply IH.
Qed.
(** Then [\/**] only stands where it is appended. *)
Lemma ReplaceAll_ending u :
  no_double_star u = true -> strings_ReplaceAll (u ++ "\/**") "\/**" "" = u.
Proof.
  unfold strings_ReplaceAll. induction u as [|c u IH]; [done|]. simpl no_double_star. intros [Hc Hu]%andb_prop.
  cbn [String.append replace_all].
  assert (String.prefix "\/**" (String c (u ++ "\/**")) = false) as ->; [|by rewrite IH].
  apply not_true_is_false. intros [t Ht]%prefix_spec. injection Ht as -> Ht.
  destruct u as [|c1 [|c2 [|c3 u]]]; simpl in Ht; [discriminate| | |].
  - injection Ht as -> Ht. discriminate.
  - injection Ht as -> -> Ht. discriminate.
  - injection Ht as -> -> -> _. discriminate.
Qed.

(** * Replacing [.*] *)

Definition dotted (c : ascii) : string := if Ascii.eqb c star then ".*" else String c "".
Lemma head_dotted s : head_is star (map_str dotted s) = false.
Proof. destruct s as [|c s]; [done|]. simpl. unfold dotted. destruct (Ascii.eqb_spec c star) as [->|Hc]; [done|]. simpl. by apply Ascii.eqb_neq. Qed.
Lemma prefix_dot c s : head_is star s = false -> String.prefix ".*" (String c s) = false.
Proof.
  intros Hs. apply not_true_is_false. intros [t Ht]%prefix_spec. injection Ht as -> ->. done.
Qed.
Lemma ReplaceAll_dotted s new : strings_ReplaceAll (map_str dotted s) ".*" new = map_str (subst_char star new) s.
Proof.
  unfold strings_ReplaceAll. induction s as [|c s IH]; [done|]. cbn [map_str]. unfold dotted at 1, subst_char at 1.
  destruct (Ascii.eqb c star).
  - pose proof (prefix_app ".*" (map_str dotted s)) as Hp. cbn [String.append] in *.
    cbn [replace_all]. rewrite Hp. cbn. by rewrite IH.
  - cbn [String.append replace_all]. rewrite prefix_dot by apply head_dotted. by rewrite IH.
Qed.

(** * Trailing slashes *)

Lemma trim_end_slashes_app s : trim_end_slashes (s ++ "/") = trim_end_slashes s.
Proof. induction s as [|c s IH]; [done|]. cbn [String.append trim_end_slashes]. by rewrite IH. Qed.
Lemma trim_end_slashes_idem s : trim_end_slashes (trim_end_slashes s) = trim_end_slashes s.
Proof.
  induction s as [|c s IH]; [done|]. cbn [trim_end_slashes]. destruct (trim_end_slashes s) as [|d s'] eqn:E.
  - destruct (Ascii.eqb c slash) eqn:Ec; [done|]. simpl. by rewrite Ec.
  - cbn [trim_end_slashes]. cbn [trim_end_slashes] in IH. by rewrite IH.
Qed.

(** * Templates *)

(** A path is literal text and variables in braces. *)
Inductive piece := Lit (s : string) | Var (name : string).
Definition is_var (p : piece) : bool := match p with Var _ => true | Lit _ => false end.
Definition has_var (t : list piece) : bool := existsb is_var t.

Fixpoint render (t : list piece) : string :=
  match t with
  | [] => ""
  | Lit s :: t' => s ++ render t'
  | Var n :: t' => "{" ++ n ++ "}" ++ render t'
  end.
(** Variables replaced by [new]. *)
Fixpoint filled (new : string) (t : list piece) : string :=
  match t with
  | [] => ""
  | Lit s :: t' => s ++ filled new t'
  | Var _ :: t' => new ++ filled new t'
  end.

(** Literal text is free of braces, stars and backslashes. *)
Definition plain (s : string) : bool :=
  nonempty s && lacks lbrace s && lacks rbrace s && lacks star s && lacks backslash s.
(** No two variables in a row. *)
Fixpoint template (t : list piece) : bool :=
  match t with
  | [] => true
  | Lit s :: t' => plain s && template t'
  | Var n :: t' => lacks lbrace n && lacks rbrace n && template t'
                   && match t' with Var _ :: _ => false | _ => true end
  end.

Ltac andb_all := repeat match goal with H : _ && _ = true |- _ => apply andb_prop in H as [? ?] end.

Lemma template_cons p t : template (p :: t) = true -> template t = true.
Proof. destruct p; simpl; intros; by andb_all. Qed.

(** Induction on templates. *)
Lemma template_ind (P : list piece -> Prop) :
  P [] ->
  (forall s t, plain s = true -> template t = true -> P t -> P (Lit s :: t)) ->
  (forall n t, lacks lbrace n = true -> lacks rbrace n = true -> template t = true ->
     (match t with Var _ :: _ => false | _ => true end) = true -> P t -> P (Var n :: t)) ->
  forall t, template t = true -> P t.
Proof.
  intros H0 HL HV. induction t as [|[s|n] t IH]; simpl; intros Ht; andb_all; auto.
Qed.

(** * Variables *)

Lemma variable_end_name n rest : lacks lbrace n = true -> lacks rbrace n = true ->
  variable_end (n ++ "}" ++ rest) = Some (S (String.length n)).
Proof.
  induction n as [|c n IH]; [done|]. cbn [lacks String.append variable_end]. intros Hl Hr. andb_all.
  repeat match goal with H : negb _ = true |- _ => apply negb_true_iff in H as -> end.
  change (n ++ String "}" rest) with (n ++ "}" ++ rest). by rewrite IH.
Qed.
Lemma replace_variables_skip a rest repl : replace_variables (String.length a) (a ++ rest) repl = replace_variables O rest repl.
Proof. induction a as [|c a IH]; [done|exact IH]. Qed.
Lemma replace_variables_lit s rest repl : lacks lbrace s = true ->
  replace_variables O (s ++ rest) repl = s ++ replace_variables O rest repl.
Proof.
  induction s as [|c s IH]; [done|]. simpl. intros [->%negb_true_iff Hs]%andb_prop. by rewrite IH.
Qed.

Lemma escape_template t tail : template t = true -> lacks lbrace tail = true ->
  escapeRouteFrom (render t ++ tail) = filled "*" t ++ tail.
Proof.
  intros Ht Htail. unfold escapeRouteFrom, VariableReplacement. revert t Ht. apply template_ind.
  - simpl. pose proof (replace_variables_lit tail "" "*" Htail) as E. by rewrite str_app_nil_r in E; rewrite E, str_app_nil_r.
  - intros s t' Hp _ IH. unfold plain in Hp. andb_all. simpl. rewrite !str_app_assoc, replace_variables_lit by done. by rewrite IH.
  - intros n t' Hl Hr _ _ IH. simpl. rewrite !str_app_assoc. cbn [String.append].
    change (n ++ String "}" ?x) with (n ++ "}" ++ x). rewrite variable_end_name by done.
    rewrite <- IH. f_equal. change ("}" ++ ?x) with (String "}" x).
    replace (n ++ String "}" (render t' ++ tail)) with ((n ++ "}") ++ render t' ++ tail) by by rewrite str_app_assoc.
    replace (S (String.length n)) with (String.length (n ++ "}")) by (rewrite str_length_app; simpl; lia).
    apply replace_variables_skip.
Qed.

(** In a template stars stand for variables. *)
Lemma fill_stars new t : template t = true -> map_str (subst_char star new) (filled "*" t) = filled new t.
Proof.
  revert t. apply template_ind; [done|..].
  - intros s t' Hp _ IH. unfold plain in Hp. andb_all. simpl. by rewrite map_str_app, subst_char_lacks, IH.
  - intros n t' _ _ _ _ IH. simpl. by rewrite IH.
Qed.
Lemma starred_no_double_star t : template t = true -> no_double_star (filled "*" t) = true.
Proof.
  revert t. apply template_ind; [done|..].
  - intros s t' Hp _ IH. unfold plain in Hp. andb_all. simpl. by rewrite no_double_star_app.
  - intros n t' _ _ Ht Hv IH. simpl. rewrite IH, andb_true_r.
    destruct t' as [|[s|m] t']; [done| |done]. simpl in Ht. unfold plain in Ht. andb_all. simpl.
    destruct s as [|c s]; [done|]. simpl in *. andb_all. by destruct (Ascii.eqb c star).
Qed.
Lemma starred_no_backslash t : template t = true -> lacks backslash (filled "*" t) = true.
Proof.
  revert t. apply template_ind; [done|..].
  - intros s t' Hp _ IH. unfold plain in Hp. andb_all. simpl. rewrite lacks_app. by apply andb_true_intro.
  - intros n t' _ _ _ _ IH. done.
Qed.
Lemma render_has_variable t : template t = true -> HasVariable (render t) = has_var t.
Proof.
  intros Ht. unfold HasVariable. rewrite !Contains_char. revert t Ht. apply template_ind; [done|..].
  - intros s t' Hp _ IH. unfold plain in Hp. andb_all. simpl. rewrite !lacks_app.
    change (lacks "{" s) with (lacks lbrace s). change (lacks "}" s) with (lacks rbrace s).
    repeat match goal with H : lacks _ s = true |- _ => rewrite H; clear H end. done.
  - intros n t' Hl Hr _ _ _. simpl. rewrite lacks_app. simpl. by rewrite andb_false_r.
Qed.

(** * The path of a request *)

Lemma formatted_template t tail : template t = true -> tail = "" \/ tail = "/**" ->
  GetRoutePropertyKey (render t ++ tail) = filled "*" t ++ "/**".
Proof.
  intros Ht Htail. unfold GetRoutePropertyKey, applyPostfix.
  rewrite escape_template by (done || by destruct Htail as [-> | ->]).
  destruct Htail as [-> | ->].
  - rewrite str_app_nil_r. destruct (strings_HasSuffix _ _) eqn:E; [|done].
    apply HasSuffix_spec in E as [u Hu]. pose proof (starred_no_double_star t Ht) as Hn. rewrite Hu in Hn.
    clear -Hn. induction u as [|c u IH]; [discriminate|]. simpl in Hn. apply andb_prop in Hn as [_ Hn]. auto.
  - destruct (strings_HasSuffix _ _) eqn:E; [done|]. by rewrite HasSuffix_app in E.
Qed.

Lemma escaped_template body : no_double_star body = true ->
  strings_ReplaceAll (strings_ReplaceAll (body ++ "/**") "/" "\/") "\/**" "" = map_str (subst_char slash "\/") body.
Proof.
  intros Hb. rewrite (ReplaceAll_char "/" "\/"), map_str_app.
  change (map_str (subst_char "/" "\/") "/**") with "\/**".
  by apply ReplaceAll_ending, no_double_star_escaped.
Qed.
Lemma unescaped body new : lacks backslash body = true ->
  strings_ReplaceAll (strings_ReplaceAll (map_str (subst_char slash "\/") body) "*" new) "\" ""
  = map_str (subst_char star (strings_ReplaceAll new "\" "")) body.
Proof.
  intros Hb. rewrite (ReplaceAll_char "*" new), !(ReplaceAll_char "\" ""), !map_str_comp.
  apply (map_str_ext backslash); [done|]. intros c Hc. unfold subst_char at 3 4.
  destruct (Ascii.eqb_spec c slash) as [->|]; [done|]. simpl. rewrite str_app_nil_r. unfold subst_char at 2.
  change "\"%char with backslash. change "*"%char with star.
  destruct (Ascii.eqb_spec c star) as [->|Hs]; unfold subst_char; [done|].
  simpl. by rewrite Hc.
Qed.

(** The prefix a path without variables is matched by. *)
Definition prefix_of (path : string) : string :=
  match trim_end_slashes path with "" => "/" | p => p end.

Lemma replaceEndSlash_prefix s : replaceEndSlash (s ++ "/") = prefix_of s.
Proof.
  unfold replaceEndSlash, prefix_of, only_slashes. rewrite trim_end_slashes_app, str_length_app. simpl.
  destruct s as [|c s]; [done|]. replace (String.length (String c s) + 1 =? 1)%nat with false by (simpl; by rewrite Nat.add_1_r).
  destruct (trim_end_slashes (String c s)); done.
Qed.
Lemma before_star_literal s : lacks star s = true -> before_star (s ++ "/**") = s ++ "/".
Proof.
  intros Hs. unfold before_star.
  replace (s ++ "/**") with ((s ++ "/") ++ "*" ++ "*") by by rewrite str_app_assoc.
  change ("*" ++ "*") with (String "*" "" ++ "*"). rewrite Index_lacks; [apply str_take_app|].
  rewrite lacks_app. change (lacks "*" s) with (lacks star s). by rewrite Hs.
Qed.
Lemma literal_template t new : has_var t = false -> filled new t = render t.
Proof. induction t as [|[s|n] t IH]; simpl; [done| |done]. intros Hv. by rewrite IH. Qed.
Lemma literal_lacks_star t : template t = true -> has_var t = false -> lacks star (render t) = true.
Proof.
  revert t. apply (template_ind (fun t => has_var t = false -> lacks star (render t) = true)); [done|..].
  - intros s t Hp _ IH Hv. unfold plain in Hp. andb_all. simpl. rewrite lacks_app. by apply andb_true_intro; auto.
  - done.
Qed.

(** The path of a request, a template of literal text and variables in
    braces, with or without a final [/**], becomes either a prefix, when it has
    no variables: the path without its trailing slashes; or else a regular
    expression: the path with a group for one path segment in place of every
    variable, without trailing slashes, and a last group for the rest of the
    path. *)
Theorem NewRouteFromAddress_template t tail :
  template t = true -> tail = "" \/ tail = "/**" ->
  strings_TrimSpace (render t ++ tail) = render t ++ tail ->
  NewRouteFromAddress (render t ++ tail) =
    (if has_var t
     then mkRouteFromAddress (render t ++ tail) (filled "*" t ++ "/**") ""
            (trim_end_slashes (filled "([^/]+)" t) ++ "(/.*)?")
     else mkRouteFromAddress (render t ++ tail) (filled "*" t ++ "/**") (prefix_of (render t)) "").
Proof.
  intros Ht Htail Htrim. unfold NewRouteFromAddress. rewrite Htrim, formatted_template by done.
  assert (HasVariable (render t ++ tail) = has_var t) as ->.
  { rewrite <- render_has_variable by done. unfold HasVariable. rewrite !Contains_char, !lacks_app.
    destruct Htail as [-> | ->]; by rewrite !andb_true_r. }
  destruct (has_var t) eqn:Hv.
  - rewrite escaped_template by by apply starred_no_double_star.
    rewrite unescaped by by apply starred_no_backslash.
    change (strings_ReplaceAll ".*" "\" "") with ".*".
    replace (map_str (subst_char star ".*") (filled "*" t)) with (map_str dotted (filled "*" t)) by reflexivity.
    by rewrite ReplaceAll_dotted, fill_stars.
  - rewrite literal_template, before_star_literal, replaceEndSlash_prefix by auto using literal_lacks_star. done.
Qed.

Lemma NewRouteFromAddress_template_witness :
  RouteFromRegex (NewRouteFromAddress "/api/{tenant}/orders/**") = "/api/([^/]+)/orders(/.*)?".
Proof.
  pose proof (NewRouteFromAddress_template [Lit "/api/"; Var "tenant"; Lit "/orders"] "/**") as E.
  simpl in E. rewrite E; [reflexivity..|by right|reflexivity].
Defined.

(** Two variables in a row are taken for a final [/**] and vanish from the
    regular expression: the path of the request is not what the route matches. *)
Theorem adjacent_variables_vanish :
  RouteFromRegex (NewRouteFromAddress "/api/{a}{b}/orders") = "/api/orders(/.*)?" /\
  RouteFromRegex (NewRouteFromAddress "/api/{a}-{b}/orders") = "/api/([^/]+)-([^/]+)/orders(/.*)?".
Proof. split; reflexivity. Qed.
