(* ===== verification/Events.v ===== *)
(** [event/events]: the events published on the bus, with the changes of a
    transaction grouped by table. *)
From S2P Require Import Prelude GoLib Domain Tables MemDb.
Open Scope string_scope.

(** * Events *)

Abbreviation ChangesByTable := (gmap table (list Change)).

Inductive bus_event : Type :=
  | ChangeEvent (NodeGroup : string) (Changes : ChangesByTable)
  | MultipleChangeEvent (Changes : ChangesByTable)
  | ReloadEvent (Changes : ChangesByTable)
  | PartialReloadEvent (EnvoyVersions : list EnvoyConfigVersion).

Definition TopicChanges := "changes".
Definition TopicBgRegistry := "bg-registry".
Definition TopicMultipleChanges := "multiple-change".
Definition TopicReload := "reload".
Definition TopicPartialReapply := "partial-reapply".

Definition add_change (changesByType : ChangesByTable) (change : Change) : ChangesByTable :=
  let typedChanges := default [] (changesByType !! Change_Table change) in
  <[Change_Table change := (typedChanges ++ [change])%list]> changesByType.
Definition changesToMap (changes : list Change) : ChangesByTable :=
  fold_left add_change changes ∅.

Definition NewChangeEventByNodeGroup (nodeGroup : string) (changes : list Change) : bus_event :=
  ChangeEvent nodeGroup (changesToMap changes).
Definition NewChangeEvent (changes : list Change) : bus_event := ChangeEvent "" (changesToMap changes).
Definition NewMultipleChangeEvent (changes : list Change) : bus_event :=
  MultipleChangeEvent (changesToMap changes).
Definition NewReloadEvent (changes : list Change) : bus_event := ReloadEvent (changesToMap changes).

Definition Created (c : Change) : bool :=
  match Change_Before c, Change_After c with None, Some _ => true | _, _ => false end.
Definition Updated (c : Change) : bool :=
  match Change_Before c, Change_After c with Some _, Some _ => true | _, _ => false end.
Definition Deleted (c : Change) : bool :=
  match Change_Before c, Change_After c with Some _, None => true | _, _ => false end.

(** * Properties *)

Definition changes_of (t : table) (changes : list Change) : list Change :=
  List.filter (fun c => bool_decide (Change_Table c = t)) changes.

Lemma fold_add_change changes (m : ChangesByTable) t :
  fold_left add_change changes m !! t
  = match changes_of t changes with
    | [] => m !! t
    | l => Some (default [] (m !! t) ++ l)%list
    end.
Proof.
  revert m. induction changes as [|c changes IH]; intros m; simpl; [done|].
  rewrite IH. unfold add_change. case_bool_decide as E; subst.
  - rewrite !lookup_insert_eq. simpl. destruct (changes_of _ changes); simpl; [done|].
    by rewrite <- app_assoc.
  - by rewrite !lookup_insert_ne by done.
Qed.

Lemma changesToMap_lookup changes t :
  changesToMap changes !! t
  = match changes_of t changes with [] => None | l => Some l end.
Proof.
  unfold changesToMap. rewrite fold_add_change, lookup_empty. by destruct (changes_of t changes).
Qed.

(** The event of a transaction carries, for every table, exactly the changes
    of that table in the order they were made, and no entry for a table
    without changes. *)
Theorem changesToMap_spec changes :
  (forall t, default [] (changesToMap changes !! t) = changes_of t changes) /\
  (forall t, changesToMap changes !! t <> Some []).
Proof.
  split; intros t; rewrite changesToMap_lookup; by destruct (changes_of t changes).
Qed.
