(* ===== verification/Runtime.v ===== *)
(** What the services run on: the committed database, the open transaction,
    the clock, generated ids, the bus, and the transaction discipline of
    [dao/impl.go].

    A repository is either [InTx], the one a transaction hands to its payload,
    or [Local], the one of [InMemDao] itself, whose every operation opens a
    transaction of its own and aborts it when it returns.

    Objects are values here: reading a row gives a copy.  go-memdb hands out
    the stored pointers, so an in-place change of an object that was read is
    also visible in the database before it is saved, and stays when the
    transaction aborts; the modelled services follow such a change by a save of
    the same object, or reload the changed (relation) fields before they use
    them.  No theorem speaks about what an aborted transaction leaves in the
    fields of shared objects. *)
From S2P Require Import Prelude GoLib Domain Tables MemDb Msaddr Events.
Open Scope string_scope.

(** * The environment

    The database, the process environment, and what differs from run to run:
    the [n]-th reading of the clock, of a Postgres sequence, of the random
    generator, the [n]-th iteration order of a map, the outcome of publishing
    and of the callbacks that run before a commit. *)

Class Runtime : Type := {
  runtime_memdb :: MemDb;
  runtime_env :: Environment;
  nextval : table -> nat -> result Z;
  time_Now : nat -> Z;
  uuid_New : nat -> string;
  map_order : forall A, nat -> list A -> list A;
  beforeCommitCallbacks : list (list Change -> nat -> result unit);
  bus_publish : string -> bus_event -> nat -> result unit
}.

Class RuntimeLaws `{R : Runtime} : Type := {
  runtime_laws :: MemDbLaws (M := runtime_memdb);
  map_order_perm A n (l : list A) : map_order A n l ≡ₚ l
}.

Inductive repo : Type := Local | InTx.

(** The routing mode of the control plane ([services/routingmode/entity.go]). *)
Inductive RoutingMode := SIMPLE | NAMESPACED | VERSIONED | MIXED.
#[export] Instance RoutingMode_eq_dec : EqDecision RoutingMode.
Proof. solve_decision. Defined.

Section runtime.
Context `{R : Runtime}.

Record World := mkWorld {
  w_db : Db;                              (* committed *)
  w_tx : option (Db * bool);              (* open transaction, writable? *)
  w_writer : bool;                        (* the writer lock is held *)
  w_tick : nat;
  w_events : list (string * bus_event);   (* published, newest first *)
  w_mode : RoutingMode                    (* of [routingmode.Service] *)
}.

Definition set_db (db : Db) (w : World) : World :=
  mkWorld db (w_tx w) (w_writer w) (w_tick w) (w_events w) (w_mode w).
Definition set_tx (tx : option (Db * bool)) (w : World) : World :=
  mkWorld (w_db w) tx (w_writer w) (w_tick w) (w_events w) (w_mode w).
Definition set_writer (b : bool) (w : World) : World :=
  mkWorld (w_db w) (w_tx w) b (w_tick w) (w_events w) (w_mode w).
Definition set_tick (n : nat) (w : World) : World :=
  mkWorld (w_db w) (w_tx w) (w_writer w) n (w_events w) (w_mode w).
Definition add_event (e : string * bus_event) (w : World) : World :=
  mkWorld (w_db w) (w_tx w) (w_writer w) (w_tick w) (e :: w_events w) (w_mode w).
Definition set_mode (m : RoutingMode) (w : World) : World :=
  mkWorld (w_db w) (w_tx w) (w_writer w) (w_tick w) (w_events w) m.

Definition tick : prog World nat := fun w => (Ok (w_tick w), set_tick (S (w_tick w)) w).
Definition Now : prog World Z := n <- tick ;; ret (time_Now n).
Definition NewUuid : prog World string := n <- tick ;; ret (uuid_New n).
(** [for k := range m]: the keys in an arbitrary order. *)
Definition range {A} (l : list A) : prog World (list A) := n <- tick ;; ret (map_order A n l).
Definition Publish (topic : string) (e : bus_event) : prog World unit :=
  n <- tick ;; _ <- modify (add_event (topic, e)) ;; lift (bus_publish topic e n).

(** * Transactions *)

(** [getTxCtx(write)] and the deferred [closeIfLocal] around [body]: a write
    in a read transaction panics, a second writer waits for itself. *)
Definition open_ctx (r : repo) (write : bool) {A} (body : prog World A) : prog World A :=
  fun w =>
    match r with
    | Local =>
        if write
        then if w_writer w then (Panic "deadlock: the writer lock is held", w)
             else let '(res, w') := body (set_writer true w) in (res, set_writer false w')
        else body w
    | InTx =>
        match w_tx w with
        | Some (_, writable) =>
            if write && negb writable
            then (Panic "Requested write transaction, but current transaction is read-only", w)
            else body w
        | None => (Panic "the transaction is closed", w)
        end
    end.

(** One operation on [txCtx.tx].  What a local transaction wrote is dropped. *)
Definition on_tx (r : repo) {A} (m : prog Db A) : prog World A :=
  fun w =>
    match r with
    | Local => ((m (w_db w)).1, w)
    | InTx =>
        match w_tx w with
        | Some (db, writable) => let '(res, db') := m db in (res, set_tx (Some (db', writable)) w)
        | None => (Panic "the transaction is closed", w)
        end
    end.

Definition in_ctx (r : repo) (write : bool) {A} (m : prog Db A) : prog World A :=
  open_ctx r write (on_tx r m).

Fixpoint executeBeforeCommitCallbacks (callbacks : list (list Change -> nat -> result unit))
    (changes : list Change) : prog World unit :=
  match callbacks with
  | [] => ret tt
  | callback :: rest =>
      n <- tick ;;
      wrap_err "Before commit callback caused error" (lift (callback changes n)) ;;;
      executeBeforeCommitCallbacks rest changes
  end.

(** [tx.Abort()] and the release of the writer lock. *)
Definition close_tx (w0 w : World) : World := set_writer (w_writer w0) (set_tx (w_tx w0) w).

Definition WithWTxVal {A} (payload : prog World A) : prog World (A * list Change) :=
  fun w =>
    if w_writer w then (Panic "deadlock: the writer lock is held", w)
    else
      let opened := set_writer true (set_tx (Some (txn_track_changes (w_db w), true)) w) in
      match wrap_err "Executing actions in write transaction caused error" payload opened with
      | (Ok val, w1) =>
          match w_tx w1 with
          | Some (db, _) =>
              let changes := txn_changes db in
              match wrap_err "Flushing changes to persistence storage caused error"
                      (executeBeforeCommitCallbacks beforeCommitCallbacks changes) w1 with
              | (Ok _, w2) => (Ok (val, changes), close_tx w (set_db db w2))
              | (Err e, w2) => (Err e, close_tx w w2)
              | (Panic p, w2) => (Panic p, close_tx w w2)
              end
          | None => (Panic "the transaction is closed", close_tx w w1)
          end
      | (Err e, w1) => (Err e, close_tx w w1)
      | (Panic p, w1) => (Panic p, close_tx w w1)
      end.

Definition WithWTx (payload : prog World unit) : prog World (list Change) :=
  p <- WithWTxVal payload ;; ret p.2.

Definition WithRTxVal {A} (payload : prog World A) : prog World A :=
  fun w =>
    let opened := set_tx (Some (w_db w, false)) w in
    match wrap_err "Executing actions in read transaction caused error" payload opened with
    | (r, w1) => (r, set_tx (w_tx w) w1)
    end.

Definition WithRTx (payload : prog World unit) : prog World unit := WithRTxVal payload.
End runtime.
Arguments World : clear implicits.
Arguments World {R}.

(** * What a computation may change *)

Section frames.
Context `{RL : RuntimeLaws}.

(** [tx_rel D]: the open transaction changes as [D] allows; the committed
    state, the lock and the events stay. *)
Definition tx_rel (D : Db -> Db -> Prop) (w w' : World) : Prop :=
  w_db w' = w_db w /\ w_writer w' = w_writer w /\ w_events w' = w_events w /\
  match w_tx w, w_tx w' with
  | Some (db, b), Some (db', b') => b' = b /\ D db db'
  | None, None => True
  | _, _ => False
  end.

(** [same_except P db db']: only tables of [P] differ, and lookups in the
    others are as complete as before. *)
Definition same_except (P : table -> bool) (db db' : Db) : Prop :=
  forall t, P t = false -> rows db' t = rows db t /\ forall idx k, exact db t idx k -> exact db' t idx k.

(** Rows are removed only, and lookups stay as complete as before. *)
Definition shrinks (db db' : Db) : Prop :=
  forall t, rows db' t ⊆ rows db t /\ forall idx k, exact db t idx k -> exact db' t idx k.

#[export] Instance tx_rel_preorder D `{!PreOrder D} : PreOrder (tx_rel D).
Proof.
  split.
  - intros w. split_and!; try done. destruct (w_tx w) as [[]|]; [|done]. split; [done|reflexivity].
  - intros a b c (D1 & W1 & E1 & T1) (D2 & W2 & E2 & T2). split_and!; try congruence.
    destruct (w_tx a) as [[]|], (w_tx b) as [[]|], (w_tx c) as [[]|]; try done.
    destruct T1 as [-> T1], T2 as [-> T2]. split; [done|]. by transitivity d0.
Qed.
#[export] Instance same_except_preorder P : PreOrder (same_except P).
Proof.
  split; [by intros db t _|]. intros a b c H1 H2 t Ht.
  destruct (H1 t Ht) as [R1 E1], (H2 t Ht) as [R2 E2].
  split; [congruence|auto].
Qed.
#[export] Instance shrinks_preorder : PreOrder shrinks.
Proof.
  split; [by intros db t|]. intros a b c H1 H2 t.
  destruct (H1 t) as [R1 E1], (H2 t) as [R2 E2]. split; [by etransitivity|auto].
Qed.

Lemma tx_rel_weaken (D E : Db -> Db -> Prop) w w' :
  (forall db db', D db db' -> E db db') -> tx_rel D w w' -> tx_rel E w w'.
Proof.
  intros H (A & W & B & T). split_and!; try done.
  destruct (w_tx w) as [[]|], (w_tx w') as [[]|]; try done. destruct T as [? T]. split; [done|auto].
Qed.
Lemma same_except_weaken (P Q : table -> bool) db db' :
  (forall t, Q t = false -> P t = false) -> same_except P db db' -> same_except Q db db'.
Proof. intros H S t Ht. apply S. auto. Qed.
Lemma frame_weaken {A} (P Q : table -> bool) (m : prog World A) :
  (forall t, Q t = false -> P t = false) -> frame (tx_rel (same_except P)) m -> frame (tx_rel (same_except Q)) m.
Proof. intros H F w. eapply tx_rel_weaken; [|apply F]. intros db db'. by apply same_except_weaken. Qed.

Section relation.
Context (D : Db -> Db -> Prop) `{!PreOrder D}.

Lemma frame_tick : frame (tx_rel D) tick.
Proof. intros w. simpl. split_and!; try done. simpl. destruct (w_tx w) as [[]|]; [|done]. split; [done|reflexivity]. Qed.
Lemma frame_Now : frame (tx_rel D) Now.
Proof. apply frame_bind; [apply _|apply frame_tick|intros; apply frame_ret, _]. Qed.
Lemma frame_NewUuid : frame (tx_rel D) NewUuid.
Proof. apply frame_bind; [apply _|apply frame_tick|intros; apply frame_ret, _]. Qed.
Lemma frame_range {A} (l : list A) : frame (tx_rel D) (range l).
Proof. apply frame_bind; [apply _|apply frame_tick|intros; apply frame_ret, _]. Qed.

Lemma frame_on_tx r {A} (m : prog Db A) : frame D m -> frame (tx_rel D) (on_tx r m).
Proof.
  intros F w. unfold on_tx. destruct r; [simpl; reflexivity|].
  destruct (w_tx w) as [[db b]|] eqn:E; [|simpl; reflexivity].
  specialize (F db). destruct (m db) as [res db'] eqn:Em. simpl in *.
  split_and!; try done. simpl. rewrite E. done.
Qed.
Lemma frame_open_ctx r write {A} (m : prog World A) : frame (tx_rel D) m -> frame (tx_rel D) (open_ctx r write m).
Proof.
  intros F w. unfold open_ctx. destruct r.
  - destruct write; [|apply F]. destruct (w_writer w) eqn:Ew; [simpl; reflexivity|].
    pose proof (F (set_writer true w)) as H. destruct (m (set_writer true w)) as [res w'].
    destruct H as (A1 & W & E & T). simpl in *. split_and!; try done; by rewrite Ew.
  - destruct (w_tx w) as [[db b]|] eqn:E; [|simpl; reflexivity].
    destruct (write && negb b); [simpl; reflexivity|]. apply F.
Qed.
Lemma frame_in_ctx r write {A} (m : prog Db A) : frame D m -> frame (tx_rel D) (in_ctx r write m).
Proof. intros H. by apply frame_open_ctx, frame_on_tx. Qed.

Lemma frame_txn_get t idx args : frame D (txn_get t idx args).
Proof. intros db. rewrite get_pure. reflexivity. Qed.
Lemma frame_txn_first t idx args : frame D (txn_first t idx args).
Proof. intros db. rewrite first_pure. reflexivity. Qed.
End relation.

Lemma frame_txn_insert (P : table -> bool) t x : P t = true -> frame (same_except P) (txn_insert t x).
Proof.
  intros Ht db. destruct (indexable t x) eqn:Hx.
  - destruct (insert_spec t x db Hx) as (db' & E & _ & F & X). rewrite E. simpl.
    intros t' Ht'. assert (t' <> t) by congruence. split; [by apply F|].
    intros idx k He. by apply X.
  - destruct (insert_error t x db Hx) as (e & E). rewrite E. simpl. reflexivity.
Qed.
Lemma frame_txn_delete (P : table -> bool) t x : P t = true -> frame (same_except P) (txn_delete t x).
Proof.
  intros Ht db. destruct (rows db t !! id_key t x) as [y|] eqn:Hx.
  - destruct (delete_spec t x y db Hx) as (db' & E & _ & F & X). rewrite E. simpl.
    intros t' Ht'. assert (t' <> t) by congruence. split; [by apply F|]. intros; by apply X.
  - rewrite (delete_missing t x db Hx). simpl. reflexivity.
Qed.
Lemma frame_txn_delete_all (P : table -> bool) t idx args :
  P t = true -> frame (same_except P) (txn_delete_all t idx args).
Proof.
  intros Ht db t' Ht'. destruct (delete_all_frame t idx args db) as (F & _ & X).
  assert (t' <> t) by congruence. split; [by apply F|]. intros; by apply X.
Qed.
Lemma shrinks_txn_delete t x : frame shrinks (txn_delete t x).
Proof.
  intros db. destruct (rows db t !! id_key t x) as [y|] eqn:Hx.
  - destruct (delete_spec t x y db Hx) as (db' & E & Hr & F & X). rewrite E. simpl.
    intros t'. split; [|intros; by apply X]. destruct (decide (t' = t)) as [->|Ht]; [|by rewrite F].
    rewrite Hr. apply delete_subseteq.
  - rewrite (delete_missing t x db Hx). simpl. reflexivity.
Qed.
Lemma shrinks_txn_delete_all t idx args : frame shrinks (txn_delete_all t idx args).
Proof. intros db t'. destruct (delete_all_frame t idx args db) as (_ & S & X). split; auto. Qed.

(** The changes are tracked from the same rows on. *)
Definition keeps_base (db db' : Db) : Prop := base db' = base db.
#[export] Instance keeps_base_preorder : PreOrder keeps_base.
Proof. split; [by intros db|]. intros a b c H1 H2. unfold keeps_base in *. congruence. Qed.
Lemma base_txn_insert t x : frame keeps_base (txn_insert t x).
Proof. intros db. apply base_insert. Qed.
Lemma base_txn_delete t x : frame keeps_base (txn_delete t x).
Proof. intros db. apply base_delete. Qed.
Lemma base_txn_delete_all t idx args : frame keeps_base (txn_delete_all t idx args).
Proof. intros db. apply base_delete_all. Qed.
End frames.
Abbreviation touches P := (tx_rel (same_except P)).
#[export] Hint Resolve frame_tick frame_Now frame_NewUuid frame_range frame_on_tx frame_open_ctx
  frame_in_ctx frame_txn_get frame_txn_first frame_txn_insert frame_txn_delete frame_txn_delete_all
  shrinks_txn_delete shrinks_txn_delete_all base_txn_insert base_txn_delete base_txn_delete_all : frame.
#[export] Hint Extern 1 (PreOrder _) => apply _ : frame.

Ltac head_of t := match t with ?f _ => head_of f | _ => t end.

(** Walks the code: one case per construct, the leaves by the database [frame],
    other calls unfolded. *)
Ltac solve_frame :=
  repeat (intros; cbv beta zeta;
    match goal with
    | |- frame _ (match ?x with _ => _ end) => destruct x
    | |- frame _ (bind _ _) => apply frame_bind; [apply _| |]
    | |- frame _ (open_ctx _ _ _) => apply frame_open_ctx; [apply _|]
    | |- frame _ (wrap_err _ _) => apply frame_wrap_err
    | |- frame _ (try_ok _) => apply frame_try_ok
    | |- frame _ (ignore_err _) => apply frame_ignore_err
    | |- frame _ (for_each _ _) => apply frame_for_each; [apply _|]
    | |- frame _ (fold_each _ _ _) => apply frame_fold_each; [apply _|]
    | |- frame _ (map_each _ _) => apply frame_map_each; [apply _|]
    | |- frame _ _ => solve [auto with frame]
    | |- frame _ ?m => let f := head_of m in unfold f
    end).

(** * Executing in the open transaction *)

Section in_tx.
Context `{R : Runtime}.

Definition in_tx (w : World) (db : Db) : Prop := w_tx w = Some (db, true).

Lemma set_tx_same w : set_tx (w_tx w) w = w.
Proof. by destruct w. Qed.
Lemma set_tx_in_tx w db : in_tx w db -> set_tx (Some (db, true)) w = w.
Proof. unfold in_tx. intros <-. apply set_tx_same. Qed.
Lemma in_tx_set db w : in_tx (set_tx (Some (db, true)) w) db.
Proof. done. Qed.
Lemma in_tx_tick n w db : in_tx w db -> in_tx (set_tick n w) db.
Proof. done. Qed.
Lemma set_tx_set_tx a b w : set_tx a (set_tx b w) = set_tx a w.
Proof. done. Qed.

Lemma on_tx_InTx {A} (m : prog Db A) w db :
  in_tx w db -> on_tx InTx m w = ((m db).1, set_tx (Some ((m db).2, true)) w).
Proof. unfold in_tx, on_tx. intros ->. by destruct (m db). Qed.
Lemma open_ctx_InTx {A} write (m : prog World A) w db :
  in_tx w db -> open_ctx InTx write m w = m w.
Proof. unfold in_tx, open_ctx. intros ->. by rewrite andb_false_r. Qed.
Lemma in_ctx_InTx {A} write (m : prog Db A) w db :
  in_tx w db -> in_ctx InTx write m w = ((m db).1, set_tx (Some ((m db).2, true)) w).
Proof. intros H. unfold in_ctx. by erewrite open_ctx_InTx, on_tx_InTx. Qed.
(** A read leaves the world as it is. *)
Lemma in_ctx_read {A} write (m : prog Db A) w db r :
  in_tx w db -> m db = (r, db) -> in_ctx InTx write m w = (r, w).
Proof. intros H E. erewrite in_ctx_InTx by done. rewrite E. simpl. by rewrite set_tx_in_tx. Qed.
Lemma in_ctx_write {A} write (m : prog Db A) w db r db' :
  in_tx w db -> m db = (r, db') -> in_ctx InTx write m w = (r, set_tx (Some (db', true)) w).
Proof. intros H E. erewrite in_ctx_InTx by done. by rewrite E. Qed.

(** A frame keeps the transaction open. *)
Lemma tx_rel_in_tx `{!MemDbLaws (M := runtime_memdb)} (D : Db -> Db -> Prop) w w' db :
  tx_rel D w w' -> in_tx w db -> exists db', in_tx w' db' /\ D db db'.
Proof.
  intros (_ & _ & _ & T) Hw. unfold in_tx in *. rewrite Hw in T.
  destruct (w_tx w') as [[db' b]|]; [|done]. destruct T as [-> T]. by exists db'.
Qed.
Lemma frame_in_tx `{!MemDbLaws (M := runtime_memdb)} {A} (D : Db -> Db -> Prop) (m : prog World A) w r w' db :
  frame (tx_rel D) m -> m w = (r, w') -> in_tx w db -> exists db', in_tx w' db' /\ D db db'.
Proof. intros F Em Hw. eapply tx_rel_in_tx; [|exact Hw]. by eapply frame_run. Qed.
End in_tx.

(** * Outcomes of a write transaction *)

Definition any_table : table -> bool := fun _ => true.

Section outcomes.
Context `{RL : RuntimeLaws}.

(** The world a transaction hands to its payload. *)
Definition opened (w : World) : World := set_writer true (set_tx (Some (txn_track_changes (w_db w), true)) w).

Lemma touches_callbacks cbs changes :
  frame (touches any_table) (executeBeforeCommitCallbacks cbs changes).
Proof. induction cbs; simpl; solve_frame. Qed.

Lemma WithWTxVal_Ok {A} (payload : prog World A) w v changes w' :
  WithWTxVal payload w = (Ok (v, changes), w') ->
  exists w1 b, payload (opened w) = (Ok v, w1) /\ w_tx w1 = Some (w_db w', b) /\ changes = txn_changes (w_db w').
Proof.
  unfold WithWTxVal. destruct (w_writer w); [done|]. fold (opened w).
  unfold wrap_err at 1. destruct (payload (opened w)) as [[u|e|p] w1]; [|done..].
  destruct (w_tx w1) as [[db b]|] eqn:Et; [|done].
  destruct (wrap_err _ _ w1) as [[[]|e|p] w2]; [|done..]. intros [= <- <- <-].
  by exists w1, b.
Qed.
Lemma WithWTx_Ok (payload : prog World unit) w changes w' :
  WithWTx payload w = (Ok changes, w') ->
  exists w1 b, payload (opened w) = (Ok tt, w1) /\ w_tx w1 = Some (w_db w', b).
Proof.
  intros ([[] c] & w1 & E & Hr)%bind_Ok. injection Hr as -> ->.
  apply WithWTxVal_Ok in E as (w1' & b & ? & ? & _). by exists w1', b.
Qed.
(** Both outcomes. *)
Lemma WithWTxVal_cases {A} (payload : prog World A) w r w' :
  frame (touches any_table) payload ->
  w_writer w = false ->
  WithWTxVal payload w = (r, w') ->
  w_tx w' = w_tx w /\ w_writer w' = false /\ w_events w' = w_events w /\
  match r with
  | Ok (v, changes) =>
      exists w1, payload (opened w) = (Ok v, w1) /\
        w_tx w1 = Some (w_db w', true) /\ changes = txn_changes (w_db w')
  | _ => w_db w' = w_db w
  end.
Proof.
  intros F Hw. unfold WithWTxVal. rewrite Hw. unfold wrap_err at 1.
  fold (opened w). pose proof (F (opened w)) as (D & W & E & T).
  destruct (payload (opened w)) as [[v|e|p] w1] eqn:Ep; simpl in D, W, E, T;
    try (intros [= <- <-]; simpl; rewrite ?Hw; by split_and!).
  destruct (w_tx w1) as [[db b]|] eqn:Etx; [|done]. destruct T as [-> _].
  unfold wrap_err. pose proof (touches_callbacks beforeCommitCallbacks (txn_changes db) w1) as (D2 & W2 & E2 & _).
  destruct (executeBeforeCommitCallbacks _ _ w1) as [[[]|e|p] w2]; simpl in *; intros [= <- <-]; simpl;
    rewrite ?Hw; split_and!; try congruence; try done.
  exists w1. by rewrite Etx.
Qed.
(** Without a result nothing is committed. *)
Lemma WithWTxVal_fail {A} (payload : prog World A) w r w' :
  frame (touches any_table) payload -> WithWTxVal payload w = (r, w') -> ~ is_Ok r -> w_db w' = w_db w.
Proof.
  intros F. unfold WithWTxVal. destruct (w_writer w); [by intros [= <- <-]|]. fold (opened w).
  unfold wrap_err at 1. destruct (F (opened w)) as (D & _).
  destruct (payload (opened w)) as [[u|e|p] w1]; simpl in D; [|by intros [= <- <-]..].
  destruct (w_tx w1) as [[db b]|] eqn:Et; [|by intros [= <- <-]].
  pose proof (touches_callbacks beforeCommitCallbacks (txn_changes db) w1) as (D2 & _). unfold wrap_err.
  destruct (executeBeforeCommitCallbacks _ _ w1) as [[[]|e|p] w2]; simpl in D2; intros [= <- <-] Hr; simpl; try congruence.
  destruct Hr. by eexists.
Qed.
Lemma WithWTx_fail (payload : prog World unit) w r w' :
  frame (touches any_table) payload -> WithWTx payload w = (r, w') -> ~ is_Ok r -> w_db w' = w_db w.
Proof.
  intros F. unfold WithWTx, bind. destruct (WithWTxVal payload w) as [[[u c]|e|p] w1] eqn:E; intros [= <- <-] Hr.
  - destruct Hr. by eexists.
  - eapply WithWTxVal_fail; [exact F|exact E|by intros [? ?]].
  - eapply WithWTxVal_fail; [exact F|exact E|by intros [? ?]].
Qed.
End outcomes.

(** * Properties *)

Section properties.
Context `{RL : RuntimeLaws}.

(** A write transaction is all or nothing: whatever repository operations
    its payload runs, either it returns the payload's value and the committed
    database is exactly what the payload left in the transaction, or it does
    not return a value (payload error or panic, or a refused commit) and the
    committed database is the one before.  In both cases the transaction is
    closed, the writer lock released and nothing published. *)
Theorem WithWTxVal_atomic {A} (payload : prog World A) w r w' :
  frame (touches any_table) payload ->
  w_writer w = false ->
  WithWTxVal payload w = (r, w') ->
  w_tx w' = w_tx w /\ w_writer w' = false /\ w_events w' = w_events w /\
  match r with
  | Ok (v, changes) =>
      exists w1, payload (opened w) = (Ok v, w1) /\
        w_tx w1 = Some (w_db w', true) /\ changes = txn_changes (w_db w')
  | _ => w_db w' = w_db w
  end.
Proof. exact (WithWTxVal_cases payload w r w'). Qed.

(** A read transaction changes nothing that is stored: whatever its payload
    does, the committed database, the lock and the published events stay. *)
Theorem WithRTxVal_reads {A} (payload : prog World A) w :
  frame (touches any_table) payload ->
  let w' := (WithRTxVal payload w).2 in
  w_db w' = w_db w /\ w_tx w' = w_tx w /\ w_writer w' = w_writer w /\ w_events w' = w_events w.
Proof.
  intros F. unfold WithRTxVal, wrap_err. set (read := set_tx _ w).
  pose proof (F read) as (D & W & E & _).
  by destruct (payload read) as [[v|e|p] w1]; simpl in *; split_and!.
Qed.
End properties.
