(* ===== verification/RuntimeModel.v ===== *)
(** A concrete runtime for the witnesses: the database of [MemDbModel], a clock
    and sequences that count, maps iterated in insertion order, callbacks and
    bus that never fail.  No theorem about the control plane depends on it. *)
From S2P Require Import Prelude GoLib Domain Tables MemDb Msaddr Events Runtime.
From S2P Require MemDbModel.
Open Scope string_scope.

Definition test_env : Environment :=
  {| os_Getenv := fun name => if String.eqb name "CLOUD_NAMESPACE" then "cloud" else "" |}.

Definition test_uuid (n : nat) : string :=
  let d := strconv_Itoa (Z.of_nat n) in
  "00000000-0000-4000-8000-" ++ str_take (12 - String.length d) "000000000000" ++ d.

Definition test_runtime : Runtime := {|
  runtime_memdb := MemDbModel.MapMemDb;
  runtime_env := test_env;
  nextval := fun _ n => Ok (Z.of_nat (S n));
  time_Now := Z.of_nat;
  uuid_New := test_uuid;
  map_order := fun A _ l => l;
  beforeCommitCallbacks := [];
  bus_publish := fun _ _ _ => Ok tt
|}.

Definition test_laws : RuntimeLaws (R := test_runtime).
Proof.
  refine (@Build_RuntimeLaws test_runtime MemDbModel.MapMemDbLaws _). done.
Defined.

Definition empty_world : World (R := test_runtime) :=
  mkWorld (R := test_runtime) (db_empty (MemDb := MemDbModel.MapMemDb)) None false 0 [] SIMPLE.
Definition empty_tx_world : World (R := test_runtime) :=
  mkWorld (R := test_runtime) (db_empty (MemDb := MemDbModel.MapMemDb))
    (Some (db_empty (MemDb := MemDbModel.MapMemDb), true)) true 0 [] SIMPLE.

Example test_uuid_valid : is_uuid (test_uuid 0) = true /\ is_uuid (test_uuid 123) = true.
Proof. split; reflexivity. Qed.
