(* ===== verification/RouteCreation.v ===== *)
(** [services/route/creator/routescreation.go]: the route made from an entry of a
    registration request, its validity, and what a matched path is rewritten to. *)
From S2P Require Import Prelude GoLib Domain Tables MemDb Msaddr Format Events Runtime.
From Stdlib Require Ascii.
Open Scope string_scope.

Definition ProhibitedRouteMarker := "false".
Definition DefaultTimeoutSpec : Z := -1.
Definition DefaultIdleTimeoutSpec : Z := -1.

Record RouteEntry := mkRouteEntry {
  from : string;
  to : string;
  namespace : string;
  timeout : Z;
  idleTimeout : Z;
  headerMatchers : list HeaderMatcher
}.

Definition IsProhibited (entry : RouteEntry) : bool := String.eqb (to entry) ProhibitedRouteMarker.

(** * Path variables *)

Record pathVariable := mkPathVariable { name : string; orderNumber : Z }.

(** [strings.Count(s, c)] for a character. *)
Fixpoint count_char (c : Ascii.ascii) (s : string) : nat :=
  match s with "" => O | String d s' => ((if Ascii.eqb d c then 1 else 0) + count_char c s')%nat end.
(** [strings.Replace(s, old, new, 1)]. *)
Definition strings_Replace1 (s old new : string) : string :=
  match strings_Index s old with
  | Some i => str_take i s ++ new ++ str_drop (i + String.length old) s
  | None => s
  end.
(** [s[i:j]]. *)
Definition str_slice (s : string) (i j : nat) : result string :=
  if (i <=? j)%nat && (j <=? String.length s)%nat then Ok (str_take (j - i) (str_drop i s))
  else Panic "slice bounds out of range".

(** [n] variables are left to be collected, the next one has the number [i]. *)
Fixpoint collect_path_variables (n : nat) (i : Z) (url : string) : result (list pathVariable) :=
  match n with
  | O => Ok []
  | S n' =>
      match strings_Index url "{", strings_Index url "}" with
      | Some l, Some r =>
          match str_slice url (l + 1) r with
          | Ok variableName =>
              let url := strings_Replace1 (strings_Replace1 url "{" "") "}" "" in
              match collect_path_variables n' (i + 1) url with
              | Ok rest => Ok (mkPathVariable variableName i :: rest)
              | r => r
              end
          | Err e => Err e
          | Panic p => Panic p
          end
      | _, _ => Panic "slice bounds out of range"
      end
  end.
Definition collectPathVariables (url : string) : result (list pathVariable) :=
  collect_path_variables (count_char lbrace url) 1 url.

(** The first variable of the name, or the last one: what the loop over the
    variables leaves in its variables, and the list without that element.  An
    empty list cannot be sliced. *)
Fixpoint take_variable (n : string) (variablesFrom : list pathVariable) : result (pathVariable * list pathVariable) :=
  match variablesFrom with
  | [] => Panic "slice bounds out of range"
  | [v] => Ok (v, [])
  | v :: rest => if String.eqb n (name v) then Ok (v, rest)
                 else match take_variable n rest with
                      | Ok (found, others) => Ok (found, v :: others)
                      | r => r
                      end
  end.
Fixpoint fillRegexRewriteWithVars (regexpRewrite : string) (variablesFrom variablesTo : list pathVariable) : result string :=
  match variablesTo with
  | [] => Ok regexpRewrite
  | varTo :: rest =>
      match take_variable (name varTo) variablesFrom with
      | Ok (varFrom, variablesFrom) =>
          let v := "\" ++ strconv_Itoa (orderNumber varFrom) in
          fillRegexRewriteWithVars (strings_Replace1 regexpRewrite ".*" v) variablesFrom rest
      | Err e => Err e
      | Panic p => Panic p
      end
  end.

(** * Routes *)

(** What a route matched by a regular expression is rewritten to. *)
Definition configure_regexp_rewrite (entry : RouteEntry) (regexpRewrite : string) : result string :=
  let regexpRewrite := strings_ReplaceAll regexpRewrite "\" "" in
  match collectPathVariables (from entry) with
  | Ok variablesFrom =>
      match (if String.eqb (to entry) "" then Ok variablesFrom else collectPathVariables (to entry)) with
      | Ok variablesTo =>
          match fillRegexRewriteWithVars regexpRewrite variablesFrom variablesTo with
          | Ok regexpRewrite =>
              Ok (trim_end_slashes regexpRewrite ++ "\" ++ strconv_Itoa (Z.of_nat (length variablesTo) + 1))
          | r => r
          end
      | Err e => Err e
      | Panic p => Panic p
      end
  | Err e => Err e
  | Panic p => Panic p
  end.

Definition ConfigureAllowedRoute (entry : RouteEntry) (route : Route) : result Route :=
  let routeFromAddress := NewRouteFromAddress (from entry) in
  let '(prefixRewrite, regexpRewrite) := NewRouteToAddress (from entry) (to entry) in
  let route :=
    if nonempty (Route_Prefix route) && negb (String.eqb (RouteFromPrefix routeFromAddress) prefixRewrite)
       && negb (String.eqb (RouteFromPrefix routeFromAddress) (prefixRewrite ++ "/"))
    then route <| Route_PrefixRewrite := prefixRewrite |>
    else route in
  if nonempty (Route_Regexp route)
  then match configure_regexp_rewrite entry regexpRewrite with
       | Ok r => Ok (route <| Route_RegexpRewrite := r |>)
       | Err e => Err e
       | Panic p => Panic p
       end
  else Ok route.

Definition ConfigureProhibitedRoute (route : Route) (isDenied : bool) : Route :=
  route <| Route_PrefixRewrite := "" |> <| Route_RegexpRewrite := "" |>
    <| Route_DirectResponseCode := 404%Z |> <| Route_Deny := isDenied |>.

Definition IsValidRoute (entry : RouteEntry) : result bool :=
  if routes.IsListedInForbiddenRoutes (from entry) then Ok false
  else if negb (IsProhibited entry) then
    let routeFrom := NewRouteFromAddress (from entry) in
    match GetFromWithoutVariable (if nonempty (to entry) then to entry else from entry) with
    | Ok raw => Ok (IsValidUrlPath routeFrom && IsValidUrlPath (NewRouteFromAddress raw))
    | Err e => Err e
    | Panic p => Panic p
    end
  else Ok (routes.IsValidFromUrlPath (from entry)).

Definition GetInt64Timeout (timeoutPointer : option Z) : Z := default DefaultTimeoutSpec timeoutPointer.
Definition GetNullIntTimeout (timeout : Z) : NullInt :=
  if (timeout =? DefaultTimeoutSpec)%Z then zero else NewNullInt timeout.

Section create.
Context `{R : Runtime}.

Definition CreateRoute (entry : RouteEntry) (virtualHostId : Z) (fromPrefix endpointAddr clusterName : string)
    (timeout idleTimeout : Z) (deploymentVersion initialDeploymentVersion : string)
    (headerMatchers : list HeaderMatcher) (requestHeadersToAdd : list Header) (requestHeadersToRemove : list string) :
    prog World Route :=
  let routeFromAddr := NewRouteFromAddress fromPrefix in
  let ns := mkNamespace (namespace entry) in
  uuid <- NewUuid ;;
  let route :=
    (zero : Route) <| Route_VirtualHostId := virtualHostId |> <| Route_Uuid := uuid |>
      <| Route_Prefix := RouteFromPrefix routeFromAddr |> <| Route_Regexp := RouteFromRegex routeFromAddr |>
      <| Route_HostRewrite := endpointAddr |> <| Route_ClusterName := clusterName |>
      <| Route_Timeout := GetNullIntTimeout timeout |> <| Route_IdleTimeout := GetNullIntTimeout idleTimeout |>
      <| Route_HeaderMatchers := headerMatchers |> <| Route_DeploymentVersion := deploymentVersion |>
      <| Route_InitialDeploymentVersion := initialDeploymentVersion |>
      <| Route_RequestHeadersToAdd := requestHeadersToAdd |>
      <| Route_RequestHeadersToRemove := requestHeadersToRemove |> <| Route_Version := 1%Z |> in
  ret (if IsCurrentNamespace ns then route
       else route <| Route_HeaderMatchers :=
              (headerMatchers ++
               [(zero : HeaderMatcher) <| HeaderMatcher_Name := "namespace" |> <| HeaderMatcher_Version := 1%Z |>
                  <| HeaderMatcher_ExactMatch := Namespace_Namespace ns |>])%list |>).
End create.

Example collect_ex :
  collectPathVariables "/a/{x}/{y}" = Ok [mkPathVariable "x" 1; mkPathVariable "y" 2] /\
  collectPathVariables "/a/}x{" = Panic "slice bounds out of range".
Proof. split; reflexivity. Qed.
Example rewrite_ex :
  Route_RegexpRewrite <$> (match ConfigureAllowedRoute (mkRouteEntry "/a/{x}/{y}" "/b/{y}-{x}/" "" 0 0 [])
                              ((zero : Route) <| Route_Regexp := "r" |>) with Ok r => Some r | _ => None end)
  = Some "/b/\2-\1\3".
Proof. reflexivity. Qed.

(** * Properties

    What a route with variables in its path is rewritten to: the variables of
    the target, by name, as the groups of the regular expression it matches. *)
From S2P Require Import Prelude GoLib Domain Msaddr Format Runtime.
From Stdlib Require Import DecimalString.
Open Scope string_scope.

(** * Replacing the first occurrence *)

Lemma Replace1_first u p v new :
  strings_Index (u ++ p ++ v) p = Some (String.length u) -> strings_Replace1 (u ++ p ++ v) p new = u ++ new ++ v.
Proof.
  intros Hi. unfold strings_Replace1. rewrite Hi, str_take_app, <- str_length_app. f_equal. f_equal.
  rewrite <- str_app_assoc. apply str_drop_app.
Qed.
Lemma Index_char c u v : lacks c u = true -> strings_Index (u ++ String c v) (String c "") = Some (String.length u).
Proof. apply (Index_lacks c ""). Qed.
Lemma Replace1_char c u v new :
  lacks c u = true -> strings_Replace1 (u ++ String c v) (String c "") new = u ++ new ++ v.
Proof. intros Hu. apply (Replace1_first u (String c "") v). by apply Index_char. Qed.
Lemma Index_dotstar u v : lacks star u = true -> strings_Index (u ++ ".*" ++ v) ".*" = Some (String.length u).
Proof.
  induction u as [|c u IH]; intros Hu.
  - rewrite Index_unfold. change ("" ++ ".*" ++ v) with (".*" ++ v). by rewrite prefix_app.
  - simpl in Hu. apply andb_prop in Hu as [_ Hu]. change (String c u ++ ?x) with (String c (u ++ x)).
    rewrite Index_unfold, prefix_dot; [by rewrite IH|].
    destruct u as [|d u]; [done|]. simpl in *. apply andb_prop in Hu as [Hd _]. by apply negb_true_iff in Hd.
Qed.
Lemma Itoa_lacks_star z : lacks star (strconv_Itoa z) = true.
Proof.
  assert (forall u, lacks star (NilEmpty.string_of_uint u) = true) as H by (induction u; simpl; auto).
  unfold strconv_Itoa, NilZero.string_of_int, NilZero.string_of_uint.
  destruct (Z.to_int z) as [u|u]; destruct u; simpl; try apply H; done.
Qed.

(** * The variables of a template *)

Fixpoint variables (t : list piece) : list string :=
  match t with [] => [] | Lit _ :: t' => variables t' | Var n :: t' => n :: variables t' end.
Fixpoint numbered (i : Z) (names : list string) : list pathVariable :=
  match names with [] => [] | n :: names' => mkPathVariable n i :: numbered (i + 1) names' end.

Lemma count_char_app c a b : count_char c (a ++ b) = (count_char c a + count_char c b)%nat.
Proof. induction a as [|d a IH]; simpl; [done|]. rewrite IH. lia. Qed.
Lemma count_char_lacks c s : lacks c s = true -> count_char c s = O.
Proof. induction s as [|d s IH]; simpl; [done|]. intros [->%negb_true_iff Hs]%andb_prop. by apply IH. Qed.
Lemma count_template t tail : template t = true -> lacks lbrace tail = true ->
  count_char lbrace (render t ++ tail) = length (variables t).
Proof.
  intros Ht Htail. revert t Ht. apply template_ind.
  - by apply count_char_lacks.
  - intros s t Hp _ IH. unfold plain in Hp. andb_all. simpl. by rewrite str_app_assoc, count_char_app, IH, count_char_lacks.
  - intros n t Hl _ _ _ IH. simpl. rewrite !str_app_assoc, count_char_app, count_char_lacks by done. simpl.
    by rewrite IH.
Qed.

Lemma collect_template t tail text i : template t = true -> lacks lbrace tail = true ->
  lacks lbrace text = true -> lacks rbrace text = true ->
  collect_path_variables (length (variables t)) i (text ++ render t ++ tail) = Ok (numbered i (variables t)).
Proof.
  intros Ht Htail. revert t Ht text i. apply (template_ind (fun t => forall text i, lacks lbrace text = true -> lacks rbrace text = true ->
    collect_path_variables (length (variables t)) i (text ++ render t ++ tail) = Ok (numbered i (variables t)))).
  - done.
  - intros s t Hp _ IH text i Hl Hr. unfold plain in Hp. andb_all. simpl.
    rewrite str_app_assoc, <- (str_app_assoc text). apply IH; rewrite lacks_app; by apply andb_true_intro.
  - intros n t Hnl Hnr _ _ IH text i Hl Hr.
    assert (text ++ render (Var n :: t) ++ tail = text ++ String lbrace (n ++ String rbrace (render t ++ tail))) as ->.
    { simpl. by rewrite str_app_assoc. }
    simpl length. cbn [collect_path_variables variables numbered].
    rewrite (Index_char lbrace) by done.
    assert (strings_Index (text ++ String lbrace (n ++ String rbrace (render t ++ tail))) "}"
            = Some (String.length text + 1 + String.length n)%nat) as ->.
    { replace (text ++ String lbrace (n ++ String rbrace (render t ++ tail)))
        with ((text ++ "{" ++ n) ++ String rbrace (render t ++ tail)) by by rewrite !str_app_assoc.
      rewrite (Index_char rbrace).
      - f_equal. rewrite !str_length_app. simpl. lia.
      - rewrite !lacks_app, Hr. simpl. done. }
    assert (str_slice (text ++ String lbrace (n ++ String rbrace (render t ++ tail))) (String.length text + 1)
              (String.length text + 1 + String.length n) = Ok n) as ->.
    { unfold str_slice. rewrite str_length_app. simpl. rewrite str_length_app.
      replace (_ && _) with true by (symmetry; apply andb_true_intro; split; apply Nat.leb_le; lia).
      replace (_ - _)%nat with (String.length n) by lia.
      replace (text ++ String lbrace (n ++ String rbrace (render t ++ tail)))
        with ((text ++ "{") ++ n ++ String rbrace (render t ++ tail)) by by rewrite !str_app_assoc.
      replace (String.length text + 1)%nat with (String.length (text ++ "{")) by by rewrite str_length_app.
      by rewrite str_drop_app, str_take_app. }
    rewrite (Replace1_char lbrace) by done. cbn [String.append].
    rewrite <- str_app_assoc, (Replace1_char rbrace) by (rewrite lacks_app, Hr; done). cbn [String.append].
    rewrite IH; [done| |]; rewrite lacks_app; by apply andb_true_intro.
Qed.
Lemma collectPathVariables_template t tail : template t = true -> lacks lbrace tail = true ->
  collectPathVariables (render t ++ tail) = Ok (numbered 1 (variables t)).
Proof.
  intros Ht Htail. unfold collectPathVariables. rewrite count_template by done. by apply (collect_template t tail "").
Qed.

(** * Filling in the groups *)

(** The number of the first variable of a name. *)
Definition number_of (n : string) (vs : list pathVariable) : Z :=
  match List.find (fun v => String.eqb n (name v)) vs with Some v => orderNumber v | None => 0 end.
(** Every variable of a template as a text that depends on its name. *)
Fixpoint filled_by (g : string -> string) (t : list piece) : string :=
  match t with
  | [] => ""
  | Lit s :: t' => s ++ filled_by g t'
  | Var n :: t' => g n ++ filled_by g t'
  end.
Definition group (vs : list pathVariable) (n : string) : string := "\" ++ strconv_Itoa (number_of n vs).

Lemma take_variable_found n vs : n ∈ (name <$> vs) ->
  exists v others, take_variable n vs = Ok (v, others) /\ orderNumber v = number_of n vs /\
    (forall m, m <> n -> number_of m others = number_of m vs) /\
    (forall m, m <> n -> m ∈ (name <$> vs) -> m ∈ (name <$> others)).
Proof.
  unfold number_of. induction vs as [|v vs IH]; [by intros ?%elem_of_nil|]. intros Hn.
  destruct (String.eqb_spec n (name v)) as [->|Hne].
  - assert (forall m, m <> name v -> List.find (fun x => String.eqb m (name x)) (v :: vs) = List.find (fun x => String.eqb m (name x)) vs) as Hf.
    { intros m Hm. simpl. by apply String.eqb_neq in Hm as ->. }
    exists v, vs. split_and!.
    + destruct vs; simpl; by rewrite ?String.eqb_refl.
    + simpl. by rewrite String.eqb_refl.
    + intros m Hm. by rewrite Hf.
    + intros m Hm [Hx|Hx]%elem_of_cons; [done|exact Hx].
  - apply elem_of_cons in Hn as [Hn|Hn]; [done|]. destruct (IH Hn) as (u & others & E & Hu & Ho & Hi).
    exists u, (v :: others). apply String.eqb_neq in Hne as Hne'. split_and!.
    + destruct vs as [|v' vs]; [by apply elem_of_nil in Hn|]. cbn [take_variable] in *. rewrite Hne'. by rewrite E.
    + simpl. by rewrite Hne'.
    + intros m Hm. simpl. destruct (String.eqb m (name v)); [done|by apply Ho].
    + intros m Hm [->|Hx]%elem_of_cons; [left|right; by apply Hi].
Qed.

Lemma filled_by_ext g g' t : (forall n, n ∈ variables t -> g n = g' n) -> filled_by g t = filled_by g' t.
Proof.
  induction t as [|[s|n] t IH]; simpl; intros Hg; [done|by rewrite IH|].
  rewrite Hg by left. rewrite IH; [done|]. intros m Hm. apply Hg. by right.
Qed.

(** Filling in never leaves a star behind. *)
Lemma fill_template t : template t = true -> forall u vs tos,
  lacks star u = true -> NoDup (variables t) -> (forall n, n ∈ variables t -> n ∈ (name <$> vs)) ->
  name <$> tos = variables t ->
  fillRegexRewriteWithVars (u ++ filled ".*" t) vs tos = Ok (u ++ filled_by (group vs) t).
Proof.
  revert t. apply (template_ind (fun t => forall u vs tos,
    lacks star u = true -> NoDup (variables t) -> (forall n, n ∈ variables t -> n ∈ (name <$> vs)) ->
    name <$> tos = variables t ->
    fillRegexRewriteWithVars (u ++ filled ".*" t) vs tos = Ok (u ++ filled_by (group vs) t))).
  - intros u vs [|to tos] _ _ _ Hto; [done|discriminate].
  - intros s t Hp _ IH u vs tos Hu Hnd Hin Hto. unfold plain in Hp. andb_all. cbn [filled filled_by].
    rewrite <- !str_app_assoc. apply IH; [|done..]. rewrite lacks_app. by apply andb_true_intro.
  - intros n t _ _ _ _ IH u vs [|to tos] Hu [Hn Hnd]%NoDup_cons Hin Hto; [discriminate|]. simpl in Hto. injection Hto as Hto Htos.
    cbn [fillRegexRewriteWithVars filled filled_by]. subst n.
    destruct (take_variable_found (name to) vs) as (v & others & -> & Hv & Ho & Hi); [apply Hin; left|].
    rewrite Replace1_first by by apply Index_dotstar. rewrite <- str_app_assoc. rewrite IH.
    + rewrite str_app_assoc. unfold group at 2. rewrite Hv. do 3 f_equal. apply filled_by_ext. intros m Hm.
      unfold group. rewrite Ho; [done|]. by intros ->.
    + rewrite !lacks_app, Hu. simpl. apply Itoa_lacks_star.
    + done.
    + intros m Hm. apply Hi; [by intros ->|]. apply Hin. by right.
    + done.
Qed.

Lemma numbered_names i ns : name <$> numbered i ns = ns.
Proof. revert i. induction ns as [|n ns IH]; intros i; [done|]. simpl. by rewrite IH. Qed.
Lemma numbered_length i ns : length (numbered i ns) = length ns.
Proof. revert i. induction ns as [|n ns IH]; intros i; [done|]. simpl. by rewrite IH. Qed.
Lemma no_variables t : has_var t = false -> variables t = [].
Proof. induction t as [|[s|n] t IH]; simpl; [done|exact IH|done]. Qed.

Lemma rewrite_to_template t tail : template t = true -> tail = "" \/ tail = "/**" -> has_var t = true ->
  strings_ReplaceAll (rewrite_to (render t ++ tail)).2 "\" "" = filled ".*" t.
Proof.
  intros Ht Htail Hv. unfold rewrite_to. rewrite formatted_template by done.
  assert (HasVariable (render t ++ tail) = true) as ->.
  { rewrite <- Hv, <- render_has_variable by done. unfold HasVariable. rewrite !Contains_char, !lacks_app.
    destruct Htail as [-> | ->]; by rewrite !andb_true_r. }
  simpl. rewrite escaped_template by by apply starred_no_double_star.
  rewrite unescaped by by apply starred_no_backslash. by apply (fill_stars ".*").
Qed.

(** What a matched path is rewritten to: for a path and a target that are
    templates, the variables of the target among those of the path, the rewrite
    of the route is the target with every variable replaced by the number of
    its group in the regular expression of the path, without trailing slashes,
    and after it the group that follows as many groups as the target has
    variables: that of the rest of the path exactly when the target uses all the
    variables of the path.  Without a target the path is its own target. *)
Theorem ConfigureAllowedRoute_regexp entry route tf tt tail tail' :
  template tf = true -> tail = "" \/ tail = "/**" -> from entry = render tf ++ tail ->
  template tt = true -> tail' = "" \/ tail' = "/**" ->
  (if String.eqb (to entry) "" then from entry else to entry) = render tt ++ tail' ->
  has_var tt = true ->
  NoDup (variables tf) -> NoDup (variables tt) -> (forall n, n ∈ variables tt -> n ∈ variables tf) ->
  Route_Prefix route = "" -> Route_Regexp route <> "" ->
  ConfigureAllowedRoute entry route =
    Ok (route <| Route_RegexpRewrite :=
          trim_end_slashes (filled_by (group (numbered 1 (variables tf))) tt)
          ++ "\" ++ strconv_Itoa (Z.of_nat (length (variables tt)) + 1) |>).
Proof.
  intros Hf Htl Ef Ht Htl' Et Hv Hnf Hnt Hin Hp Hr. unfold ConfigureAllowedRoute.
  destruct (NewRouteToAddress (from entry) (to entry)) as [prefixRewrite regexpRewrite] eqn:Ert. rewrite Hp. simpl.
  assert (nonempty (Route_Regexp route) = true) as -> by by destruct (Route_Regexp route).
  assert (strings_ReplaceAll regexpRewrite "\" "" = filled ".*" tt) as Hre.
  { rewrite <- (rewrite_to_template tt tail') by done. rewrite <- Et. unfold NewRouteToAddress, nonempty in Ert.
    destruct (String.eqb (to entry) ""); simpl in Ert; by injection Ert as <- <- || by rewrite Ert. }
  assert (lacks lbrace tail = true) as Hbt by (by destruct Htl as [-> | ->]).
  assert (lacks lbrace tail' = true) as Hbt' by (by destruct Htl' as [-> | ->]).
  unfold configure_regexp_rewrite. rewrite Hre, Ef, (collectPathVariables_template tf tail) by done.
  assert ((if String.eqb (to entry) "" then Ok (numbered 1 (variables tf)) else collectPathVariables (to entry))
          = Ok (numbered 1 (variables tt))) as ->.
  { destruct (String.eqb (to entry) "").
    - rewrite <- (collectPathVariables_template tf tail), <- Ef, Et by done. by apply collectPathVariables_template.
    - rewrite Et. by apply collectPathVariables_template. }
  rewrite (fill_template tt Ht "") by (rewrite ?numbered_names; done). by rewrite numbered_length.
Qed.

Definition example_entry : RouteEntry := mkRouteEntry "/api/{tenant}/orders/{id}" "/v2/{id}-of-{tenant}/" "" 0 0 [].
Lemma ConfigureAllowedRoute_regexp_witness :
  ConfigureAllowedRoute example_entry ((zero : Route) <| Route_Regexp := "r" |>)
  = Ok ((zero : Route) <| Route_Regexp := "r" |> <| Route_RegexpRewrite := "/v2/\2-of-\1\3" |>).
Proof.
  rewrite (ConfigureAllowedRoute_regexp example_entry _
    [Lit "/api/"; Var "tenant"; Lit "/orders/"; Var "id"] [Lit "/v2/"; Var "id"; Lit "-of-"; Var "tenant"; Lit "/"] "" "");
    try reflexivity; try (by left); try discriminate; try (by apply (bool_decide_unpack _)).
  intros n. cbn [variables]. rewrite !elem_of_cons. tauto.
Defined.

(** A target that leaves out a variable of the path is followed by the group
    of that variable, not by the group of the rest of the path; a target without
    variables, for a path with some, is lost. *)
Theorem rewrite_of_fewer_variables : forall route, Route_Prefix route = "" -> nonempty (Route_Regexp route) = true ->
  ConfigureAllowedRoute (mkRouteEntry "/a/{x}/{y}" "/b/{x}" "" 0 0 []) route = Ok (route <| Route_RegexpRewrite := "/b/\1\2" |>) /\
  ConfigureAllowedRoute (mkRouteEntry "/a/{x}" "/b" "" 0 0 []) route = Ok (route <| Route_RegexpRewrite := "\1" |>).
Proof.
  intros route Hp Hr. unfold ConfigureAllowedRoute.
  unfold nonempty in Hr. split; destruct (NewRouteToAddress _ _) as [p r] eqn:E; vm_compute in E; injection E as <- <-;
    unfold nonempty; rewrite Hp; cbn [String.eqb negb andb]; cbv zeta iota beta; rewrite Hr; reflexivity.
Qed.
Lemma rewrite_of_fewer_variables_witness :
  ConfigureAllowedRoute (mkRouteEntry "/a/{x}/{y}" "/b/{x}" "" 0 0 []) ((zero : Route) <| Route_Regexp := "r" |>)
  = Ok ((zero : Route) <| Route_Regexp := "r" |> <| Route_RegexpRewrite := "/b/\1\2" |>).
Proof. apply rewrite_of_fewer_variables; reflexivity. Defined.

Lemma take_variable_cons n w w' vs :
  take_variable n (w :: w' :: vs) =
    if String.eqb n (name w) then Ok (w, w' :: vs)
    else match take_variable n (w' :: vs) with Ok (found, others) => Ok (found, w :: others) | r => r end.
Proof. reflexivity. Qed.
Lemma take_variable_total n vs : vs <> [] ->
  exists v others, take_variable n vs = Ok (v, others) /\ length vs = S (length others).
Proof.
  induction vs as [|w vs IH]; [done|]. intros _. destruct vs as [|w' vs]; [by eexists _, _|].
  destruct IH as (v & others & E & Hl); [done|]. rewrite take_variable_cons, E.
  destruct (String.eqb n (name w)); [by eexists _, _|]. eexists _, _. split; [done|]. simpl in *. by rewrite Hl.
Qed.
(** A target with more variables than the path panics, whatever their names. *)
Theorem rewrite_of_more_variables_panics entry route variablesFrom variablesTo :
  nonempty (Route_Regexp route) = true -> nonempty (to entry) = true ->
  collectPathVariables (from entry) = Ok variablesFrom -> collectPathVariables (to entry) = Ok variablesTo ->
  (length variablesFrom < length variablesTo)%nat ->
  exists why, ConfigureAllowedRoute entry route = Panic why.
Proof.
  intros Hr Ht Ef Et Hl. unfold ConfigureAllowedRoute. destruct (NewRouteToAddress _ _) as [p r].
  assert (forall tos vs s, (length vs < length tos)%nat -> exists why, fillRegexRewriteWithVars s vs tos = Panic why) as Hfill.
  { clear. induction tos as [|to tos IH]; intros vs s Hl; simpl in *; [lia|].
    destruct vs as [|v vs]; [by eexists|]. destruct (take_variable_total (name to) (v :: vs)) as (u & others & E & Hn); [done|].
    rewrite E. apply IH. simpl in *. lia. }
  destruct (Hfill variablesTo variablesFrom (strings_ReplaceAll r "\" "") Hl) as [why Hw]. exists why.
  assert (forall route : Route, nonempty (Route_Regexp route) = true ->
    (if nonempty (Route_Regexp route) then match configure_regexp_rewrite entry r with
      Ok s => Ok (route <| Route_RegexpRewrite := s |>) | Err e => Err e | Panic p => Panic p end else Ok route) = Panic why) as Hgo.
  { intros x ->. unfold configure_regexp_rewrite. rewrite Ef. unfold nonempty in Ht. apply negb_true_iff in Ht. by rewrite Ht, Et, Hw. }
  destruct (_ && _ && _); by apply Hgo.
Qed.
Lemma rewrite_of_more_variables_panics_witness :
  exists why, ConfigureAllowedRoute (mkRouteEntry "/a/{x}" "/b/{x}/{y}" "" 0 0 []) ((zero : Route) <| Route_Regexp := "r" |>) = Panic why.
Proof.
  by apply (rewrite_of_more_variables_panics _ _ [mkPathVariable "x" 1] [mkPathVariable "x" 1; mkPathVariable "y" 2]);
    try reflexivity; simpl; lia.
Defined.
