(* ===== verification/Dto.v ===== *)
(** The requests of the REST API that the modelled services take
    ([restcontrollers/dto]), and their conversion to the domain model. *)
From S2P Require Import Prelude GoLib Domain.
Open Scope string_scope.

Module dto.
(** [domain.NullString], [domain.NullBool] of a JSON body: [None] is not valid. *)
Abbreviation NullString := (option string).

Record HeaderMatcher := mkHeaderMatcher {
  HeaderMatcher_Name : string;
  HeaderMatcher_ExactMatch : string;
  HeaderMatcher_SafeRegexMatch : string;
  HeaderMatcher_RangeMatch : Domain.RangeMatch;
  HeaderMatcher_PresentMatch : NullBool;
  HeaderMatcher_PrefixMatch : string;
  HeaderMatcher_SuffixMatch : string;
  HeaderMatcher_InvertMatch : bool
}.

Record RouteItem := mkRouteItem {
  RouteItem_Prefix : string;
  RouteItem_PrefixRewrite : string;
  RouteItem_Timeout : option Z;
  RouteItem_HeaderMatchers : list HeaderMatcher
}.
Record RouteRegistrationRequest := mkRouteRegistrationRequest {
  RouteRegistrationRequest_Cluster : string;
  RouteRegistrationRequest_Routes : list RouteItem;
  RouteRegistrationRequest_Endpoint : string;
  RouteRegistrationRequest_Allowed : option bool;
  RouteRegistrationRequest_Namespace : string;
  RouteRegistrationRequest_Version : string;
  RouteRegistrationRequest_Overridden : bool
}.

Record HeaderDefinition := mkHeaderDefinition {
  HeaderDefinition_Name : string;
  HeaderDefinition_Value : string
}.
Record Cookie := mkCookie { Cookie_Name : string; Cookie_Ttl : option Z; Cookie_Path : NullString }.
(** Without the read-only matcher of responses. *)
Record StatefulSession := mkStatefulSession {
  StatefulSession_Version : string;
  StatefulSession_Namespace : string;
  StatefulSession_Cluster : string;
  StatefulSession_Hostname : string;
  StatefulSession_Gateways : list string;
  StatefulSession_Port : option Z;
  StatefulSession_Enabled : option bool;
  StatefulSession_Cookie : option Cookie;
  StatefulSession_Overridden : bool
}.
#[global] Instance StatefulSession_eta : Eta StatefulSession := fun x =>
  mkStatefulSession (StatefulSession_Version x) (StatefulSession_Namespace x) (StatefulSession_Cluster x) (StatefulSession_Hostname x)
    (StatefulSession_Gateways x) (StatefulSession_Port x) (StatefulSession_Enabled x) (StatefulSession_Cookie x) (StatefulSession_Overridden x).
Record Threshold := mkThreshold { Threshold_MaxConnections : Z }.
Record CircuitBreaker := mkCircuitBreaker { CircuitBreaker_Threshold : Threshold }.
Record TcpKeepalive := mkTcpKeepalive { TcpKeepalive_Probes : Z; TcpKeepalive_Time : Z; TcpKeepalive_Interval : Z }.
Record RouteMatch := mkRouteMatch {
  RouteMatch_Prefix : string;
  RouteMatch_Regexp : string;
  RouteMatch_Path : string;
  RouteMatch_HeaderMatchers : list HeaderMatcher
}.
Record Rule := mkRule {
  Rule_Match : RouteMatch;
  Rule_PrefixRewrite : string;
  Rule_HostRewrite : string;
  Rule_AddHeaders : list HeaderDefinition;
  Rule_RemoveHeaders : list string;
  Rule_Allowed : option bool;
  Rule_Timeout : option Z;
  Rule_IdleTimeout : option Z;
  Rule_StatefulSession : option StatefulSession;
  Rule_RateLimit : string;
  Rule_Deny : option bool;
  Rule_LuaFilter : string
}.
Record RouteDestination := mkRouteDestination {
  RouteDestination_Cluster : string;
  RouteDestination_TlsSupported : bool;
  RouteDestination_Endpoint : string;
  RouteDestination_TlsEndpoint : string;
  RouteDestination_HttpVersion : option Z;
  RouteDestination_TlsConfigName : string;
  RouteDestination_CircuitBreaker : CircuitBreaker;
  RouteDestination_TcpKeepalive : option TcpKeepalive
}.
Record RouteV3 := mkRouteV3 { RouteV3_Destination : RouteDestination; RouteV3_Rules : list Rule }.
Record RouteConfig := mkRouteConfig { RouteConfig_Version : string; RouteConfig_Routes : list RouteV3 }.
Record VirtualService := mkVirtualService {
  VirtualService_Name : string;
  VirtualService_Hosts : option (list string);   (* [None] is nil *)
  VirtualService_RateLimit : string;
  VirtualService_AddHeaders : list HeaderDefinition;
  VirtualService_RemoveHeaders : list string;
  VirtualService_RouteConfiguration : RouteConfig;
  VirtualService_Overridden : bool
}.
Record RouteDeleteRequestV3 := mkRouteDeleteRequestV3 {
  RouteDeleteRequestV3_Gateways : list string;
  RouteDeleteRequestV3_VirtualService : string;
  RouteDeleteRequestV3_Routes : list string;     (* the prefixes of its items *)
  RouteDeleteRequestV3_Namespace : string;
  RouteDeleteRequestV3_Version : string;
  RouteDeleteRequestV3_Overridden : bool
}.
Record DomainDeleteRequestV3 := mkDomainDeleteRequestV3 {
  DomainDeleteRequestV3_VirtualService : string;
  DomainDeleteRequestV3_Gateway : string;
  DomainDeleteRequestV3_Domains : list string
}.
Record RoutingConfigRequestV3 := mkRoutingConfigRequestV3 {
  RoutingConfigRequestV3_Namespace : string;
  RoutingConfigRequestV3_Gateways : list string;
  RoutingConfigRequestV3_ListenerPort : Z;
  RoutingConfigRequestV3_TlsSupported : bool;
  RoutingConfigRequestV3_VirtualServices : list VirtualService;
  RoutingConfigRequestV3_Overridden : bool
}.
End dto.

Definition HeaderMatchersToDomain (headerMatchersDto : list dto.HeaderMatcher) : list HeaderMatcher :=
  (fun m =>
    (zero : HeaderMatcher) <| HeaderMatcher_RangeMatch := dto.HeaderMatcher_RangeMatch m |>
      <| HeaderMatcher_SafeRegexMatch := dto.HeaderMatcher_SafeRegexMatch m |>
      <| HeaderMatcher_ExactMatch := dto.HeaderMatcher_ExactMatch m |>
      <| HeaderMatcher_PrefixMatch := dto.HeaderMatcher_PrefixMatch m |>
      <| HeaderMatcher_PresentMatch := dto.HeaderMatcher_PresentMatch m |>
      <| HeaderMatcher_SuffixMatch := dto.HeaderMatcher_SuffixMatch m |>
      <| HeaderMatcher_InvertMatch := dto.HeaderMatcher_InvertMatch m |>
      <| HeaderMatcher_Name := dto.HeaderMatcher_Name m |>) <$> headerMatchersDto.

Definition IsEnabled (r : dto.StatefulSession) : bool := default true (dto.StatefulSession_Enabled r).
Definition IsDeleteRequest (r : dto.StatefulSession) : bool :=
  match dto.StatefulSession_Cookie r with None => IsEnabled r | Some _ => false end.
Definition ToRouteStatefulSession (r : dto.StatefulSession) (gateway : string) : option StatefulSession :=
  if IsDeleteRequest r then None
  else
    let statefulSession := (zero : StatefulSession) <| StatefulSession_Gateways := [gateway] |> in
    let statefulSession :=
      match dto.StatefulSession_Cookie r with
      | None => statefulSession
      | Some cookie =>
          let s := statefulSession <| StatefulSession_CookieName := dto.Cookie_Name cookie |> in
          let s := match dto.Cookie_Path cookie with Some p => s <| StatefulSession_CookiePath := p |> | None => s end in
          s <| StatefulSession_CookieTtl := dto.Cookie_Ttl cookie |>
      end in
    Some (statefulSession <| StatefulSession_Enabled := default true (dto.StatefulSession_Enabled r) |>).
