(* ===== verification/Dao.v ===== *)
(** [dao/]: the repository of the in-memory database.  Each operation takes the
    repository [d] it is called on ([Local] or [InTx], see [Runtime]); a
    [Save] returns the object as the call leaves it (with its generated id). *)
From S2P Require Import Prelude GoLib Domain Tables MemDb Msaddr Events Runtime.
From S2P Require Storage.
Open Scope string_scope.

Section dao.
Context `{R : Runtime}.

(** * Generic operations ([generic.go], [impl.go]) *)

(** [constancy/storage.go]: the id generator takes the next value of the
    table's sequence when the entity has no id. *)
Definition Generate (t : table) `{!Unique t} (e : entity t) : prog World (entity t) :=
  if (GetId e =? 0)%Z
  then n <- tick ;; id <- lift (nextval t n) ;; ret (SetId id e)
  else ret e.

Definition SaveUnique (d : repo) (t : table) `{!Unique t} (unique : entity t) : prog World (entity t) :=
  open_ctx d true
    (unique <- Generate t unique ;;
     on_tx d (Storage.Save t unique) ;;;
     ret unique).

Definition SaveEntity (d : repo) (t : table) (e : entity t) : prog World unit :=
  in_ctx d true (Storage.Save t e).

Definition Delete (d : repo) (t : table) (e : entity t) : prog World unit :=
  in_ctx d true (txn_delete t e).

Definition DeleteById (d : repo) (t : table) (id : list value) : prog World unit :=
  open_ctx d true (_ <- on_tx d (txn_delete_all t "id" id) ;; ret tt).

Definition DeleteAll (d : repo) (t : table) (idx : string) (args : list value) : prog World Z :=
  in_ctx d true (txn_delete_all t idx args).

Definition FindById (d : repo) (t : table) (id : list value) : prog World (option (entity t)) :=
  wrap_err "error in mem storage FindById" (in_ctx d false (Storage.FindById t id)).
Definition FindByIndex (d : repo) (t : table) (idxName : string) (values : list value) : prog World (list (entity t)) :=
  wrap_err "error in mem storage FindByIndex" (in_ctx d false (Storage.FindByIndex t idxName values)).
Definition FindFirstByIndex (d : repo) (t : table) (idxName : string) (values : list value) : prog World (option (entity t)) :=
  wrap_err "error in mem storage FindFirstByIndex" (in_ctx d false (Storage.FindFirstByIndex t idxName values)).
Definition FindAll (d : repo) (t : table) : prog World (list (entity t)) :=
  wrap_err "error in mem storage FindAll" (in_ctx d false (Storage.FindAll t)).

Definition SaveEnvoyConfigVersion (d : repo) (version : EnvoyConfigVersion) : prog World unit :=
  in_ctx d true (Storage.Save EnvoyConfigVersionTable version).
Definition FindEnvoyConfigVersion (d : repo) (nodeGroup entityType : string) : prog World (option EnvoyConfigVersion) :=
  in_ctx d false (Storage.FindById EnvoyConfigVersionTable [VStr nodeGroup; VStr entityType]).

(** * Circuit breakers, thresholds, TCP keepalives *)

Definition SaveCircuitBreaker (d : repo) (cb : CircuitBreaker) : prog World CircuitBreaker :=
  SaveUnique d CircuitBreakerTable cb.
Definition FindAllCircuitBreakers (d : repo) : prog World (list CircuitBreaker) := FindAll d CircuitBreakerTable.
Definition FindCircuitBreakerById (d : repo) (id : Z) : prog World (option CircuitBreaker) :=
  FindById d CircuitBreakerTable [VInt id].
Definition DeleteCircuitBreakerById (d : repo) (id : Z) : prog World unit := DeleteById d CircuitBreakerTable [VInt id].

Definition SaveThreshold (d : repo) (threshold : Threshold) : prog World Threshold :=
  SaveUnique d ThresholdTable threshold.
Definition FindThresholdById (d : repo) (id : Z) : prog World (option Threshold) := FindById d ThresholdTable [VInt id].
Definition FindAllThresholds (d : repo) : prog World (list Threshold) := FindAll d ThresholdTable.
Definition DeleteThresholdById (d : repo) (id : Z) : prog World unit := DeleteById d ThresholdTable [VInt id].

Definition SaveTcpKeepalive (d : repo) (e : TcpKeepalive) : prog World TcpKeepalive := SaveUnique d TcpKeepaliveTable e.
Definition FindAllTcpKeepalives (d : repo) : prog World (list TcpKeepalive) := FindAll d TcpKeepaliveTable.
Definition FindTcpKeepaliveById (d : repo) (id : Z) : prog World (option TcpKeepalive) :=
  FindById d TcpKeepaliveTable [VInt id].
Definition DeleteTcpKeepaliveById (d : repo) (id : Z) : prog World unit := DeleteById d TcpKeepaliveTable [VInt id].

(** * Node groups *)

Definition FindAllNodeGroups (d : repo) : prog World (list NodeGroup) := FindAll d NodeGroupTable.
Definition FindNodeGroupByName (d : repo) (name : string) : prog World (option NodeGroup) :=
  FindById d NodeGroupTable [VStr name].
Definition SaveNodeGroup (d : repo) (nodeGroup : NodeGroup) : prog World unit := SaveEntity d NodeGroupTable nodeGroup.
Definition FindNodeGroupsByCluster (d : repo) (cluster : Cluster) : prog World (list (option NodeGroup)) :=
  open_ctx d false
    (clusterNodeGroups <- wrap_err "Finding NodeGroup relations for Cluster caused error"
       (on_tx d (Storage.FindByIndex ClusterNodeGroupTable "clustersId" [VInt (Cluster_Id cluster)])) ;;
     map_each clusterNodeGroups (fun clusterNodeGroup : ClustersNodeGroup =>
       wrap_err "Finding NodeGroup by name caused error"
         (FindNodeGroupByName d (ClustersNodeGroup_NodegroupsName clusterNodeGroup)))).
Definition SaveClustersNodeGroup (d : repo) (relation : ClustersNodeGroup) : prog World unit :=
  SaveEntity d ClusterNodeGroupTable relation.
Definition FindClustersNodeGroup (d : repo) (relation : ClustersNodeGroup) : prog World (option ClustersNodeGroup) :=
  FindById d ClusterNodeGroupTable
    [VInt (ClustersNodeGroup_ClustersId relation); VStr (ClustersNodeGroup_NodegroupsName relation)].
Definition FindAllClusterWithNodeGroup (d : repo) : prog World (list ClustersNodeGroup) := FindAll d ClusterNodeGroupTable.
Definition DeleteClustersNodeGroupByClusterId (d : repo) (clusterId : Z) : prog World Z :=
  DeleteAll d ClusterNodeGroupTable "clustersId" [VInt clusterId].
Definition DeleteClustersNodeGroup (d : repo) (relation : ClustersNodeGroup) : prog World unit :=
  Delete d ClusterNodeGroupTable relation.
Definition DeleteNodeGroupByName (d : repo) (nodeGroupName : string) : prog World unit :=
  DeleteById d NodeGroupTable [VStr nodeGroupName].

(** * Clusters *)

Definition FindClusterById (d : repo) (id : Z) : prog World (option Cluster) := FindById d ClusterTable [VInt id].
Definition FindClusterByName (d : repo) (name : string) : prog World (option Cluster) :=
  FindFirstByIndex d ClusterTable "name" [VStr name].
Definition FindClustersByFamilyNameAndNamespace (d : repo) (familyName : string) (ns : Namespace) : prog World (list Cluster) :=
  open_ctx d false (FindByIndex d ClusterTable "name_prefix" [VStr (BuildKeyPrefix familyName ns)]).
Definition FindClusterByNodeGroup (d : repo) (group : NodeGroup) : prog World (list (option Cluster)) :=
  open_ctx d false
    (clusterNodeGroups <- wrap_err "Getting clustersNodeGroups caused error"
       (on_tx d (Storage.FindByIndex ClusterNodeGroupTable "nodegroupsName" [VStr (NodeGroup_Name group)])) ;;
     map_each clusterNodeGroups (fun c : ClustersNodeGroup => FindClusterById d (ClustersNodeGroup_ClustersId c))).
Definition FindAllClusters (d : repo) : prog World (list Cluster) := FindAll d ClusterTable.
Definition SaveCluster (d : repo) (cluster : Cluster) : prog World Cluster :=
  SaveUnique d ClusterTable
    match Cluster_HttpVersion cluster with
    | None => cluster <| Cluster_HttpVersion := Some 1%Z |>
    | Some _ => cluster
    end.
Definition DeleteClusterByName (d : repo) (name : string) : prog World unit :=
  open_ctx d true
    (_ <- wrap_err "Removing cluster with name caused error"
            (on_tx d (txn_delete_all ClusterTable "name" [VStr name])) ;; ret tt).
Definition DeleteCluster (d : repo) (cluster : Cluster) : prog World unit := Delete d ClusterTable cluster.

(** * Composite satellites *)

Definition SaveCompositeSatellite (d : repo) (satellite : CompositeSatellite) : prog World unit :=
  SaveEntity d CompositeSatelliteTable satellite.
Definition DeleteCompositeSatellite (d : repo) (namespace : string) : prog World unit :=
  Delete d CompositeSatelliteTable (mkCompositeSatellite namespace).
Definition FindAllCompositeSatellites (d : repo) : prog World (list CompositeSatellite) := FindAll d CompositeSatelliteTable.
Definition FindCompositeSatelliteByNamespace (d : repo) (namespace : string) : prog World (option CompositeSatellite) :=
  FindFirstByIndex d CompositeSatelliteTable "id" [VStr namespace].

(** * Deployment versions *)

Definition DeleteDeploymentVersion (d : repo) (dVersion : DeploymentVersion) : prog World unit :=
  DeleteById d DeploymentVersionTable [VStr (DeploymentVersion_Version dVersion)].
(** A failure ends the loop and is reported as success. *)
Definition DeleteDeploymentVersions (d : repo) (dVersions : list DeploymentVersion) : prog World unit :=
  open_ctx d true (ignore_err (for_each dVersions (DeleteDeploymentVersion d))).
Definition FindAllDeploymentVersions (d : repo) : prog World (list DeploymentVersion) := FindAll d DeploymentVersionTable.
Definition FindDeploymentVersionsByStage (d : repo) (stage : string) : prog World (list DeploymentVersion) :=
  FindByIndex d DeploymentVersionTable "stage" [VStr stage].
Definition FindDeploymentVersion (d : repo) (version : string) : prog World (option DeploymentVersion) :=
  FindById d DeploymentVersionTable [VStr version].
Definition SaveDeploymentVersion (d : repo) (dVersion : DeploymentVersion) : prog World unit :=
  SaveEntity d DeploymentVersionTable dVersion.

(** * Endpoints *)

Definition DeleteEndpoint (d : repo) (endpoint : Endpoint) : prog World unit := Delete d EndpointTable endpoint.
Definition FindEndpointById (d : repo) (endpointId : Z) : prog World (option Endpoint) :=
  FindById d EndpointTable [VInt endpointId].
Definition FindEndpointsByDeploymentVersion (d : repo) (version : string) : prog World (list Endpoint) :=
  FindByIndex d EndpointTable "dVersion" [VStr version].
Definition FindEndpointsByAddressAndPortAndDeploymentVersion (d : repo) (address : string) (port : Z) (version : string) :
    prog World (list Endpoint) :=
  FindByIndex d EndpointTable "addressAndPortAndDVersion" [VStr address; VInt port; VStr version].
Definition SaveEndpoint (d : repo) (endpoint : Endpoint) : prog World Endpoint := SaveUnique d EndpointTable endpoint.
Definition FindAllEndpoints (d : repo) : prog World (list Endpoint) := FindAll d EndpointTable.
Definition FindEndpointsByClusterId (d : repo) (clusterId : Z) : prog World (list Endpoint) :=
  FindByIndex d EndpointTable "clusterId" [VInt clusterId].
Definition FindEndpointsByClusterName (d : repo) (clusterName : string) : prog World (list Endpoint) :=
  open_ctx d false
    (cluster <- FindClusterByName d clusterName ;;
     match cluster with
     | Some c => FindEndpointsByClusterId d (Cluster_Id c)
     | None => ret []
     end).
Definition FindEndpointByStatefulSession (d : repo) (statefulSessionId : Z) : prog World (option Endpoint) :=
  FindFirstByIndex d EndpointTable "statefulSessionId" [VInt statefulSessionId].
Definition FindEndpointsByClusterIdAndDeploymentVersion (d : repo) (clusterId : Z) (dVersion : DeploymentVersion) :
    prog World (list Endpoint) :=
  FindByIndex d EndpointTable "clusterIdAndDVersion" [VInt clusterId; VStr (DeploymentVersion_Version dVersion)].
Definition FindEndpointsByDeploymentVersionsIn (d : repo) (dVersions : list DeploymentVersion) : prog World (list Endpoint) :=
  open_ctx d false
    (fold_each dVersions [] (fun endpoints dVersion =>
       found <- FindEndpointsByDeploymentVersion d (DeploymentVersion_Version dVersion) ;;
       ret (endpoints ++ found)%list)).
Definition FindClusterByEndpointIn (d : repo) (endpoints : list Endpoint) : prog World (list Cluster) :=
  open_ctx d false
    (fold_each endpoints [] (fun foundClusters e =>
       c <- FindClusterById d (Endpoint_ClusterId e) ;;
       ret match c with Some c => (foundClusters ++ [c])%list | None => foundClusters end)).

(** * External authorization filters *)

Definition SaveExtAuthzFilter (d : repo) (filter : ExtAuthzFilter) : prog World unit := SaveEntity d ExtAuthzFilterTable filter.
Definition FindExtAuthzFilterByNodeGroup (d : repo) (nodeGroup : string) : prog World (option ExtAuthzFilter) :=
  FindFirstByIndex d ExtAuthzFilterTable "nodeGroup" [VStr nodeGroup].
Definition FindAllExtAuthzFilters (d : repo) : prog World (list ExtAuthzFilter) := FindAll d ExtAuthzFilterTable.
Definition DeleteExtAuthzFilter (d : repo) (extAuthzFilterName : string) : prog World unit :=
  DeleteById d ExtAuthzFilterTable [VStr extAuthzFilterName].
Definition FindExtAuthzFilterByName (d : repo) (id : string) : prog World (option ExtAuthzFilter) :=
  FindById d ExtAuthzFilterTable [VStr id].

(** * Hash policies *)

Definition FindHashPolicyByRouteId (d : repo) (routeId : Z) : prog World (list HashPolicy) :=
  FindByIndex d HashPolicyTable "routeId" [VInt routeId].
Definition extractIdWithVersion (endpoints : list Endpoint) (versions : list string) : list Z :=
  Endpoint_Id <$> List.filter (fun e => existsb (String.eqb (Endpoint_DeploymentVersion e)) versions) endpoints.
Definition FindHashPolicyByClusterAndVersions (d : repo) (clusterName : string) (versions : list string) : prog World (list HashPolicy) :=
  open_ctx d false
    (endpoints <- FindEndpointsByClusterName d clusterName ;;
     fold_each (extractIdWithVersion endpoints versions) [] (fun hashPolicies endpointId =>
       found <- on_tx d (Storage.FindByIndex HashPolicyTable "endpointId" [VInt endpointId]) ;;
       ret (hashPolicies ++ found)%list)).
Definition SaveHashPolicy (d : repo) (hashPolicy : HashPolicy) : prog World HashPolicy := SaveUnique d HashPolicyTable hashPolicy.
Definition DeleteHashPolicyById (d : repo) (id : Z) : prog World unit := DeleteById d HashPolicyTable [VInt id].
Definition DeleteHashPolicyByRouteId (d : repo) (routeId : Z) : prog World Z :=
  DeleteAll d HashPolicyTable "routeId" [VInt routeId].
Definition DeleteHashPolicyByEndpointId (d : repo) (endpointId : Z) : prog World Z :=
  DeleteAll d HashPolicyTable "endpointId" [VInt endpointId].
Definition FindHashPolicyByEndpointId (d : repo) (endpointId : Z) : prog World (list HashPolicy) :=
  FindByIndex d HashPolicyTable "endpointId" [VInt endpointId].

(** * Health checks *)

Definition DeleteHealthCheckById (d : repo) (id : Z) : prog World unit := DeleteById d HealthCheckTable [VInt id].
Definition DeleteHealthChecksByClusterId (d : repo) (clusterId : Z) : prog World Z :=
  DeleteAll d HealthCheckTable "clusterId" [VInt clusterId].
Definition FindHealthChecksByClusterId (d : repo) (clusterId : Z) : prog World (list HealthCheck) :=
  FindByIndex d HealthCheckTable "clusterId" [VInt clusterId].
Definition SaveHealthCheck (d : repo) (healthCheck : HealthCheck) : prog World HealthCheck := SaveUnique d HealthCheckTable healthCheck.

(** * Listeners *)

Definition FindAllListeners (d : repo) : prog World (list Listener) := FindAll d ListenerTable.
Definition FindListenerByNodeGroupIdAndName (d : repo) (nodeGroupId name : string) : prog World (option Listener) :=
  FindFirstByIndex d ListenerTable "nodeGroupAndName" [VStr nodeGroupId; VStr name].
Definition FindListenersByNodeGroupId (d : repo) (nodeGroupId : string) : prog World (list Listener) :=
  FindByIndex d ListenerTable "nodeGroup" [VStr nodeGroupId].
Definition HasWasmFilterWithId (d : repo) (listenerId wasmFilterId : Z) : prog World bool :=
  result <- in_ctx d false (Storage.FindById ListenersWasmFilterTable [VInt listenerId; VInt wasmFilterId]) ;;
  ret match result with Some _ => true | None => false end.
Definition FindListenerIdsByWasmFilterId (d : repo) (wasmFilterId : Z) : prog World (list Z) :=
  found <- in_ctx d false (Storage.FindByIndex ListenersWasmFilterTable "wasmFilterId" [VInt wasmFilterId]) ;;
  ret (ListenersWasmFilter_ListenerId <$> (found : list ListenersWasmFilter)).
Definition SaveListener (d : repo) (listener : Listener) : prog World Listener := SaveUnique d ListenerTable listener.
Definition FindListenerById (d : repo) (id : Z) : prog World (option Listener) := FindById d ListenerTable [VInt id].
Definition DeleteListenerByNodeGroupName (d : repo) (nodeGroupId : string) : prog World unit :=
  _ <- DeleteAll d ListenerTable "nodeGroup" [VStr nodeGroupId] ;; ret tt.
Definition DeleteListenerById (d : repo) (id : Z) : prog World unit := DeleteById d ListenerTable [VInt id].
Definition SaveListenerWasmFilter (d : repo) (relation : ListenersWasmFilter) : prog World unit :=
  SaveEntity d ListenersWasmFilterTable relation.
Definition DeleteListenerWasmFilter (d : repo) (relation : ListenersWasmFilter) : prog World unit :=
  DeleteById d ListenersWasmFilterTable
    [VInt (ListenersWasmFilter_ListenerId relation); VInt (ListenersWasmFilter_WasmFilterId relation)].
Definition FindAllListenerWasmFilter (d : repo) : prog World (list ListenersWasmFilter) := FindAll d ListenersWasmFilterTable.

(** * Lua and WASM filters *)

Definition FindAllLuaFilters (d : repo) : prog World (list LuaFilter) := FindAll d LuaFilterTable.
Definition FindLuaFilterByName (d : repo) (filterName : string) : prog World (option LuaFilter) :=
  FindFirstByIndex d LuaFilterTable "name" [VStr filterName].
Definition SaveLuaFilter (d : repo) (luaFilter : LuaFilter) : prog World LuaFilter := SaveUnique d LuaFilterTable luaFilter.
(** A name that is not found is a nil dereference. *)
Definition DeleteLuaFilterByName (d : repo) (filterName : string) : prog World Z :=
  open_ctx d true
    (filterToDelete <- FindLuaFilterByName d filterName ;;
     match filterToDelete with
     | None => panic "nil pointer dereference"
     | Some f => _ <- on_tx d (txn_delete_all LuaFilterTable "id" [VInt (LuaFilter_Id f)]) ;; ret (LuaFilter_Id f)
     end).
Definition DeleteLuaFilterById (d : repo) (id : Z) : prog World unit := DeleteById d LuaFilterTable [VInt id].

Definition FindAllWasmFilters (d : repo) : prog World (list WasmFilter) := FindAll d WasmFilterTable.
Definition FindWasmFilterByName (d : repo) (filterName : string) : prog World (option WasmFilter) :=
  FindFirstByIndex d WasmFilterTable "name" [VStr filterName].
(** A relation to a filter that does not exist fails the type assertion. *)
Definition FindWasmFilterByListenerId (d : repo) (listenerId : Z) : prog World (list WasmFilter) :=
  open_ctx d false
    (found <- on_tx d (Storage.FindByIndex ListenersWasmFilterTable "listenerId" [VInt listenerId]) ;;
     map_each found (fun listenerToWasmFilter : ListenersWasmFilter =>
       wf <- on_tx d (Storage.FindById WasmFilterTable [VInt (ListenersWasmFilter_WasmFilterId listenerToWasmFilter)]) ;;
       match wf with
       | Some wf => ret (wf : WasmFilter)
       | None => panic "interface conversion: interface is nil"
       end)).
Definition SaveWasmFilter (d : repo) (wasmFilter : WasmFilter) : prog World WasmFilter := SaveUnique d WasmFilterTable wasmFilter.
Definition DeleteWasmFilterByName (d : repo) (filterName : string) : prog World Z :=
  open_ctx d true
    (filterToDelete <- FindWasmFilterByName d filterName ;;
     match filterToDelete with
     | None => panic "nil pointer dereference"
     | Some f => _ <- on_tx d (txn_delete_all WasmFilterTable "id" [VInt (WasmFilter_Id f)]) ;; ret (WasmFilter_Id f)
     end).
Definition DeleteWasmFilterById (d : repo) (id : Z) : prog World unit := DeleteById d WasmFilterTable [VInt id].

(** * Microservice versions *)

Definition FindAllMicroserviceVersions (d : repo) : prog World (list MicroserviceVersion) := FindAll d MicroserviceVersionTable.
Definition FindMicroserviceVersionByNameAndInitialVersion (d : repo) (name : string) (ns : Namespace) (initialVersion : string) :
    prog World (option MicroserviceVersion) :=
  FindById d MicroserviceVersionTable [VStr name; VStr (GetNamespace ns); VStr initialVersion].
Definition FindMicroserviceVersionsByVersion (d : repo) (version : option DeploymentVersion) : prog World (list MicroserviceVersion) :=
  match version with
  | Some v =>
      if String.eqb (DeploymentVersion_Version v) ""
      then fail (ErrMsg "dao: FindMicroserviceVersionsByVersion got invalid empty version argument")
      else msVersions <- FindAllMicroserviceVersions d ;;
           ret (List.filter (fun m => String.eqb (MicroserviceVersion_DeploymentVersion m) (DeploymentVersion_Version v)) msVersions)
  | None => fail (ErrMsg "dao: FindMicroserviceVersionsByVersion got invalid empty version argument")
  end.
Definition FindMicroserviceVersionsByNameAndNamespace (d : repo) (name : string) (ns : Namespace) : prog World (list MicroserviceVersion) :=
  msVersions <- FindAllMicroserviceVersions d ;;
  ret (List.filter (fun m => String.eqb (MicroserviceVersion_Name m) name
                             && String.eqb (MicroserviceVersion_Namespace m) (GetNamespace ns)) msVersions).
Definition SaveMicroserviceVersion (d : repo) (msVersion : MicroserviceVersion) : prog World unit :=
  SaveEntity d MicroserviceVersionTable msVersion.
Definition DeleteMicroserviceVersion (d : repo) (name : string) (ns : Namespace) (initialVersion : string) : prog World unit :=
  DeleteById d MicroserviceVersionTable [VStr name; VStr (GetNamespace ns); VStr initialVersion].

(** * Rate limits *)

Definition highest_priority (rateLimits : list RateLimit) : option RateLimit :=
  (fold_left (fun '(maxPriority, result) rateLimit =>
     if (maxPriority <? RateLimit_Priority rateLimit)%Z
     then (RateLimit_Priority rateLimit, Some rateLimit)
     else (maxPriority, result)) rateLimits ((Product - 1)%Z, None)).2.
Definition FindRateLimitByNameWithHighestPriority (d : repo) (name : string) : prog World (option RateLimit) :=
  rateLimits <- in_ctx d false (Storage.FindByIndex RateLimitTable "name" [VStr name]) ;;
  ret (highest_priority rateLimits).
Definition SaveRateLimit (d : repo) (rateLimit : RateLimit) : prog World unit := SaveEntity d RateLimitTable rateLimit.
Definition DeleteRateLimitByNameAndPriority (d : repo) (name : string) (priority : Z) : prog World unit :=
  DeleteById d RateLimitTable [VStr name; VInt priority].
Definition FindAllRateLimits (d : repo) : prog World (list RateLimit) := FindAll d RateLimitTable.

(** * Retry policies *)

Definition FindRetryPolicyByRouteId (d : repo) (routeId : Z) : prog World (option RetryPolicy) :=
  FindFirstByIndex d RetryPolicyTable "routeId" [VInt routeId].
Definition SaveRetryPolicy (d : repo) (retryPolicy : RetryPolicy) : prog World RetryPolicy := SaveUnique d RetryPolicyTable retryPolicy.
Definition DeleteRetryPolicyByRouteId (d : repo) (routeId : Z) : prog World unit :=
  _ <- DeleteAll d RetryPolicyTable "routeId" [VInt routeId] ;; ret tt.
Definition DeleteRetryPolicyById (d : repo) (routeId : Z) : prog World unit := DeleteById d RetryPolicyTable [VInt routeId].

(** * Routes *)

Definition SaveRoute (d : repo) (route : Route) : prog World Route :=
  open_ctx d true
    (route <- Generate RouteTable route ;;
     let route : Route := (route : Route) <| Route_Version := int32 (Route_Version route + 1) |> in
     on_tx d (Storage.Save RouteTable route) ;;;
     ret route).
Definition SaveHeaderMatcher (d : repo) (headerMatcher : HeaderMatcher) : prog World HeaderMatcher :=
  SaveUnique d HeaderMatcherTable headerMatcher.
Definition DeleteHeaderMatcher (d : repo) (headerMatcher : HeaderMatcher) : prog World unit :=
  Delete d HeaderMatcherTable headerMatcher.
Definition FindAllRoutes (d : repo) : prog World (list Route) := FindAll d RouteTable.
Definition FindRoutesByAutoGeneratedAndDeploymentVersion (d : repo) (autoGenerated : bool) (dVersion : string) : prog World (list Route) :=
  FindByIndex d RouteTable "autoGenAndDVersion" [VBool autoGenerated; VStr dVersion].
Definition FindRoutesByVirtualHostId (d : repo) (virtualHostId : Z) : prog World (list Route) :=
  FindByIndex d RouteTable "virtualHostId" [VInt virtualHostId].
Definition FindHeaderMatcherByRouteId (d : repo) (routeId : Z) : prog World (list HeaderMatcher) :=
  FindByIndex d HeaderMatcherTable "routeId" [VInt routeId].
Definition DeleteHeaderMatcherById (d : repo) (id : Z) : prog World unit := DeleteById d HeaderMatcherTable [VInt id].
Definition FindRoutesByVirtualHostIdAndRouteKey (d : repo) (vHostId : Z) (routeKey : string) : prog World (list Route) :=
  FindByIndex d RouteTable "vHostIdAndRouteKey" [VInt vHostId; VStr routeKey].
Definition FindRoutesByDeploymentVersionAndRouteKey (d : repo) (deploymentVersion routeKey : string) : prog World (list Route) :=
  FindByIndex d RouteTable "deploymentVersionAndRouteKey" [VStr routeKey; VStr deploymentVersion].
Definition FindRoutesByDeploymentVersion (d : repo) (dVersion : string) : prog World (list Route) :=
  FindByIndex d RouteTable "dVersion" [VStr dVersion].
Definition FindRoutesByDeploymentVersionIn (d : repo) (dVersions : list string) : prog World (list Route) :=
  open_ctx d false
    (fold_each dVersions [] (fun routes dVersion =>
       found <- FindRoutesByDeploymentVersion d dVersion ;; ret (routes ++ found)%list)).
(** A stage whose versions cannot be read is skipped. *)
Definition FindRoutesByDeploymentVersionStageIn (d : repo) (dVersionStage : list string) : prog World (list Route) :=
  open_ctx d false
    (versions <- fold_each dVersionStage [] (fun versions stage =>
       found <- try_ok (FindDeploymentVersionsByStage d stage) ;;
       ret match found with
           | Some l => (versions ++ (DeploymentVersion_Version <$> l))%list
           | None => versions
           end) ;;
     FindRoutesByDeploymentVersionIn d versions).
Definition FindRoutesByClusterName (d : repo) (clusterName : string) : prog World (list Route) :=
  FindByIndex d RouteTable "clusterName" [VStr clusterName].
Definition FindRoutesByClusterNamePrefix (d : repo) (clusterNamePrefix : string) : prog World (list Route) :=
  FindByIndex d RouteTable "clusterName_prefix" [VStr clusterNamePrefix].
Definition FindRoutesByClusterNameAndDeploymentVersion (d : repo) (clusterName dVersion : string) : prog World (list Route) :=
  FindByIndex d RouteTable "clusterNameAndDVersion" [VStr clusterName; VStr dVersion].
Definition FindRoutesByUUIDPrefix (d : repo) (prefixUuid : string) : prog World (list Route) :=
  FindByIndex d RouteTable "uuid_prefix" [VStr prefixUuid].
Definition FindRoutesByNamespaceHeaderIsNot (d : repo) (namespace : string) : prog World (list Route) :=
  allRoutes <- FindAllRoutes d ;;
  fold_each allRoutes [] (fun filteredRoutes r =>
    headers <- FindHeaderMatcherByRouteId d (Route_Id r) ;;
    ret (if existsb (fun hm => String.eqb (HeaderMatcher_Name hm) "namespace"
                               && negb (String.eqb (HeaderMatcher_ExactMatch hm) namespace)) headers
         then (filteredRoutes ++ [r])%list else filteredRoutes)).
Definition DeleteRoutesByAutoGeneratedAndDeploymentVersion (d : repo) (autoGenerated : bool) (dVersion : string) : prog World Z :=
  DeleteAll d RouteTable "autoGenAndDVersion" [VBool autoGenerated; VStr dVersion].
Definition DeleteRouteById (d : repo) (routeId : Z) : prog World unit := DeleteById d RouteTable [VInt routeId].
Definition DeleteRouteByUUID (d : repo) (uuid : string) : prog World unit :=
  _ <- DeleteAll d RouteTable "uuid" [VStr uuid] ;; ret tt.
Definition FindRouteByUuid (d : repo) (uuid : string) : prog World (option Route) :=
  FindFirstByIndex d RouteTable "uuid" [VStr uuid].
Definition FindRouteByStatefulSession (d : repo) (statefulSessionId : Z) : prog World (option Route) :=
  FindFirstByIndex d RouteTable "statefulSessionId" [VInt statefulSessionId].
Definition FindRoutesByRateLimit (d : repo) (rateLimitId : string) : prog World (list Route) :=
  FindByIndex d RouteTable "rateLimitId" [VStr rateLimitId].
Definition FindRouteById (d : repo) (routeId : Z) : prog World (option Route) := FindById d RouteTable [VInt routeId].
Definition FindRoutesByDeploymentVersions (d : repo) (dVersions : list DeploymentVersion) : prog World (list Route) :=
  open_ctx d false
    (fold_each dVersions [] (fun routes dVersion =>
       found <- FindRoutesByDeploymentVersion d (DeploymentVersion_Version dVersion) ;; ret (routes ++ found)%list)).
Definition FindRoutesByVirtualHostIdAndDeploymentVersion (d : repo) (virtualHostId : Z) (version : string) : prog World (list Route) :=
  FindByIndex d RouteTable "vHostIdAndDeploymentVersion" [VInt virtualHostId; VStr version].
Definition DeleteHeaderMatchersByRouteId (d : repo) (routeId : Z) : prog World Z :=
  DeleteAll d HeaderMatcherTable "routeId" [VInt routeId].
Definition FindRoutesByLuaFilter (d : repo) (luaFilterName : string) : prog World (list Route) :=
  FindByIndex d RouteTable "luaFilterName" [VStr luaFilterName].

(** * Virtual hosts *)

Definition SaveVirtualHost (d : repo) (virtualHost : VirtualHost) : prog World VirtualHost := SaveUnique d VirtualHostTable virtualHost.
Definition SaveVirtualHostDomain (d : repo) (virtualHostDomain : VirtualHostDomain) : prog World unit :=
  SaveEntity d VirtualHostDomainTable virtualHostDomain.
Definition FindFirstVirtualHostByNameAndRouteConfigurationId (d : repo) (name : string) (id : Z) : prog World (option VirtualHost) :=
  FindFirstByIndex d VirtualHostTable "nameAndRouteConfigId" [VStr name; VInt id].
Definition FindFirstVirtualHostByRouteConfigurationId (d : repo) (routeConfigId : Z) : prog World (option VirtualHost) :=
  FindFirstByIndex d VirtualHostTable "routeConfigId" [VInt routeConfigId].
Definition FindVirtualHostDomainByVirtualHostId (d : repo) (virtualHostId : Z) : prog World (list VirtualHostDomain) :=
  FindByIndex d VirtualHostDomainTable "virtualHostId" [VInt virtualHostId].
Definition FindVirtualHostDomainsByHost (d : repo) (virtualHostDomain : string) : prog World (list VirtualHostDomain) :=
  FindByIndex d VirtualHostDomainTable "domain" [VStr virtualHostDomain].
Definition FindVirtualHostById (d : repo) (virtualHostId : Z) : prog World (option VirtualHost) :=
  FindById d VirtualHostTable [VInt virtualHostId].
Definition FindAllVirtualHosts (d : repo) : prog World (list VirtualHost) := FindAll d VirtualHostTable.
Definition FindVirtualHostsByRouteConfigurationId (d : repo) (routeConfigId : Z) : prog World (list VirtualHost) :=
  FindByIndex d VirtualHostTable "routeConfigId" [VInt routeConfigId].
Definition FindAllVirtualHostsDomain (d : repo) : prog World (list VirtualHostDomain) := FindAll d VirtualHostDomainTable.
Definition DeleteVirtualHostsDomain (d : repo) (virtualHostDomain : VirtualHostDomain) : prog World unit :=
  Delete d VirtualHostDomainTable virtualHostDomain.
Definition DeleteVirtualHost (d : repo) (vHost : VirtualHost) : prog World unit := Delete d VirtualHostTable vHost.

(** * Route configurations *)

Definition FindRouteConfigById (d : repo) (routeConfigurationId : Z) : prog World (option RouteConfiguration) :=
  FindById d RouteConfigurationTable [VInt routeConfigurationId].
Definition SaveRouteConfig (d : repo) (routeConfig : RouteConfiguration) : prog World RouteConfiguration :=
  SaveUnique d RouteConfigurationTable routeConfig.
Definition FindAllRouteConfigs (d : repo) : prog World (list RouteConfiguration) := FindAll d RouteConfigurationTable.
Definition FindRouteConfigByNodeGroupIdAndName (d : repo) (nodeGroupId name : string) : prog World (option RouteConfiguration) :=
  FindFirstByIndex d RouteConfigurationTable "nodeGroupAndName" [VStr nodeGroupId; VStr name].
Definition FindRouteConfigsByNodeGroupId (d : repo) (nodeGroupId : string) : prog World (list RouteConfiguration) :=
  FindByIndex d RouteConfigurationTable "nodeGroup" [VStr nodeGroupId].
(** The loop over routes, with the configurations already found. *)
Definition collectRouteConfigs (d : repo) (routes : list Route) : prog World (list RouteConfiguration) :=
  fold_each routes [] (fun found r =>
    vhost <- FindVirtualHostById d (Route_VirtualHostId r) ;;
    match vhost with
    | None => fail (ErrMsg ("can not find VirtualHost by ID: VirtualHostId=" ++ strconv_Itoa (Route_VirtualHostId r)))
    | Some vhost =>
        rc <- FindRouteConfigById d (VirtualHost_RouteConfigurationId vhost) ;;
        match rc with
        | None => fail (ErrMsg ("can not find RouteConfig by ID: RouteConfigId="
                                  ++ strconv_Itoa (VirtualHost_RouteConfigurationId vhost)))
        | Some rc =>
            ret (if existsb (fun x => (RouteConfiguration_Id x =? RouteConfiguration_Id rc)%Z) found
                 then found else (found ++ [rc])%list)
        end
    end).
Definition FindRouteConfigsByRouteDeploymentVersion (d : repo) (deploymentVersion : string) : prog World (list RouteConfiguration) :=
  routes <- FindRoutesByDeploymentVersion d deploymentVersion ;; collectRouteConfigs d routes.
Definition FindRouteConfigsByEndpoint (d : repo) (endpoint : Endpoint) : prog World (list RouteConfiguration) :=
  cluster <- FindClusterById d (Endpoint_ClusterId endpoint) ;;
  match cluster with
  | None => ret []
  | Some c =>
      routes <- FindRoutesByClusterNameAndDeploymentVersion d (Cluster_Name c) (Endpoint_DeploymentVersion endpoint) ;;
      collectRouteConfigs d routes
  end.
Definition DeleteRouteConfigById (d : repo) (id : Z) : prog World unit := DeleteById d RouteConfigurationTable [VInt id].

(** * Stateful sessions *)

Definition FindAllStatefulSessionConfigs (d : repo) : prog World (list StatefulSession) := FindAll d StatefulSessionTable.
Definition FindStatefulSessionConfigById (d : repo) (id : Z) : prog World (option StatefulSession) :=
  FindById d StatefulSessionTable [VInt id].
Definition SaveStatefulSessionConfig (d : repo) (cookie : StatefulSession) : prog World StatefulSession :=
  SaveUnique d StatefulSessionTable
    (if IsCurrentNamespace (mkNamespace (StatefulSession_Namespace cookie))
     then cookie <| StatefulSession_Namespace := "default" |>
     else cookie).
Definition FindStatefulSessionConfigsByCookieName (d : repo) (cookieName : string) : prog World (list StatefulSession) :=
  FindByIndex d StatefulSessionTable "cookieName" [VStr cookieName].
Definition FindStatefulSessionConfigsByClusterAndVersion (d : repo) (clusterName : string) (ns : Namespace) (version : DeploymentVersion) :
    prog World (list StatefulSession) :=
  let resolvedNamespace := if IsCurrentNamespace ns then "default" else Namespace_Namespace ns in
  FindByIndex d StatefulSessionTable "clusterNamespaceAndVersion"
    [VStr clusterName; VStr resolvedNamespace; VStr (DeploymentVersion_Version version)].
Definition findStatefulSessionsByCondition (d : repo) (condition : StatefulSession -> bool) : prog World (list StatefulSession) :=
  open_ctx d false
    (allCookies <- wrap_err "error loading all StatefulSessionConfigs in memstorage wrapper" (FindAllStatefulSessionConfigs d) ;;
     ret (List.filter condition allCookies)).
Definition FindStatefulSessionConfigsByClusterName (d : repo) (clusterName : string) (ns : Namespace) : prog World (list StatefulSession) :=
  let clusterName := if strings_Contains clusterName "||" then ExtractFamilyName clusterName else clusterName in
  findStatefulSessionsByCondition d (fun cookie =>
    String.eqb clusterName (StatefulSession_ClusterName cookie)
    && Namespace_Equals ns (mkNamespace (StatefulSession_Namespace cookie))).
Definition FindStatefulSessionConfigsByCluster (d : repo) (cluster : Cluster) : prog World (list StatefulSession) :=
  FindStatefulSessionConfigsByClusterName d (ExtractFamilyName (Cluster_Name cluster)) (ExtractNamespace (Cluster_Name cluster)).
Definition DeleteStatefulSessionConfig (d : repo) (id : Z) : prog World unit := DeleteById d StatefulSessionTable [VInt id].

(** * TLS configurations *)

(** A nil node group is a nil dereference. *)
Definition group_name (g : option NodeGroup) : prog World string :=
  match g with Some g => ret (NodeGroup_Name g) | None => panic "nil pointer dereference" end.
Fixpoint contains (nodeGroups : list (option NodeGroup)) (nodeGroup : option NodeGroup) : prog World bool :=
  match nodeGroups with
  | [] => ret false
  | group :: rest =>
      a <- group_name group ;;
      b <- group_name nodeGroup ;;
      if String.eqb a b then ret true else contains rest nodeGroup
  end.
Definition FindTlsConfigById (d : repo) (id : Z) : prog World (option TlsConfig) := FindById d TlsConfigTable [VInt id].
Definition FindTlsConfigByName (d : repo) (name : string) : prog World (option TlsConfig) :=
  tlsConfig <- FindFirstByIndex d TlsConfigTable "name" [VStr name] ;;
  match tlsConfig with
  | None => ret None
  | Some tlsConfig =>
      tlsConfigsNodeGroups <- FindByIndex d TlsConfigsNodeGroupsTable "tlsConfigId" [VInt (TlsConfig_Id tlsConfig)] ;;
      nodeGroups <- map_each tlsConfigsNodeGroups (fun g : TlsConfigsNodeGroups =>
        FindNodeGroupByName d (TlsConfigsNodeGroups_NodeGroupName g)) ;;
      ret (Some ((tlsConfig : TlsConfig) <| TlsConfig_NodeGroups := nodeGroups |>))
  end.
Definition DeleteTlsConfigByIdAndNodeGroupName (d : repo) (relation : TlsConfigsNodeGroups) : prog World unit :=
  Delete d TlsConfigsNodeGroupsTable relation.
Definition SaveTlsConfig (d : repo) (tls : TlsConfig) : prog World TlsConfig :=
  open_ctx d true
    (tlsConfigFromDb <- FindTlsConfigByName d (TlsConfig_Name tls) ;;
     tls <- (if (TlsConfig_Id tls =? 0)%Z
             then match tlsConfigFromDb with
                  | None => Generate TlsConfigTable tls
                  | Some old => ret (tls <| TlsConfig_Id := TlsConfig_Id old |>)
                  end
             else ret tls) ;;
     let tls : TlsConfig := tls in
     on_tx d (Storage.Save TlsConfigTable tls) ;;;
     match tlsConfigFromDb with
     | None => ret tt
     | Some old =>
         for_each (TlsConfig_NodeGroups old) (fun group =>
           bound <- contains (TlsConfig_NodeGroups tls) group ;;
           if bound then ret tt
           else name <- group_name group ;;
                DeleteTlsConfigByIdAndNodeGroupName d (mkTlsConfigsNodeGroups (TlsConfig_Id old) name))
     end ;;;
     for_each (TlsConfig_NodeGroups tls) (fun group =>
       bound <- match tlsConfigFromDb with
                | None => ret false
                | Some old => contains (TlsConfig_NodeGroups old) group
                end ;;
       if bound : bool then ret tt
       else name <- group_name group ;;
            on_tx d (Storage.Save TlsConfigsNodeGroupsTable (mkTlsConfigsNodeGroups (TlsConfig_Id tls) name))) ;;;
     ret tls).
Definition FindAllTlsConfigsByNodeGroup (d : repo) (nodeGroup : string) : prog World (list (option TlsConfig)) :=
  open_ctx d false
    (tlsConfigNodeGroups <- wrap_err "can not get tlsConfig node groups"
       (on_tx d (Storage.FindByIndex TlsConfigsNodeGroupsTable "nodeGroupName" [VStr nodeGroup])) ;;
     map_each tlsConfigNodeGroups (fun g : TlsConfigsNodeGroups => FindTlsConfigById d (TlsConfigsNodeGroups_TlsConfigId g))).
Definition FindAllTlsConfigs (d : repo) : prog World (list TlsConfig) := FindAll d TlsConfigTable.
Definition DeleteTlsConfigById (d : repo) (id : Z) : prog World unit := DeleteById d TlsConfigTable [VInt id].

(** [InMemDao.Backup], [InMemDao.Restore] act on the committed database. *)
Definition Backup (uuid : string) : prog World Storage.Snapshot :=
  fun w => ((Storage.Backup uuid (w_db w)).1, w).
Definition Restore (snapshot : Storage.Snapshot) : prog World unit :=
  open_ctx Local true (fun w => let '(r, db') := Storage.Restore snapshot (w_db w) in (r, set_db db' w)).
End dao.
