(* ===== verification/DaoSpec.v ===== *)
(** What the repository of [Dao] promises: frames of its operations, and their
    effect on the rows of the open transaction. *)
From S2P Require Import Prelude GoLib Domain Tables MemDb Msaddr Events Runtime Dao.
From S2P Require Storage RuntimeModel.
Open Scope string_scope.

(** * Frames *)

Section reads_frame.
Context `{RL : RuntimeLaws} (D : Db -> Db -> Prop) `{!PreOrder D}.

Lemma frame_Storage_FindAll t : frame D (Storage.FindAll t).
Proof. unfold Storage.FindAll. auto with frame. Qed.
Lemma frame_Storage_FindFirstByIndex t idx args : frame D (Storage.FindFirstByIndex t idx args).
Proof. unfold Storage.FindFirstByIndex. auto with frame. Qed.
Lemma frame_Storage_FindByIndex t idx args : frame D (Storage.FindByIndex t idx args).
Proof. unfold Storage.FindByIndex. auto with frame. Qed.
Lemma frame_Storage_FindById t args : frame D (Storage.FindById t args).
Proof. unfold Storage.FindById. apply frame_Storage_FindFirstByIndex. Qed.
Hint Resolve frame_Storage_FindAll frame_Storage_FindFirstByIndex frame_Storage_FindByIndex
  frame_Storage_FindById : frame.

Lemma frame_Generate t `{!Unique t} e : frame (tx_rel D) (Generate t e).
Proof. unfold Generate. solve_frame. Qed.
Lemma frame_FindAll d t : frame (tx_rel D) (FindAll d t).
Proof. unfold FindAll. auto with frame. Qed.
Lemma frame_FindById d t args : frame (tx_rel D) (FindById d t args).
Proof. unfold FindById. auto with frame. Qed.
Lemma frame_FindByIndex d t idx args : frame (tx_rel D) (FindByIndex d t idx args).
Proof. unfold FindByIndex. auto with frame. Qed.
Lemma frame_FindFirstByIndex d t idx args : frame (tx_rel D) (FindFirstByIndex d t idx args).
Proof. unfold FindFirstByIndex. auto with frame. Qed.
End reads_frame.
#[export] Hint Resolve frame_Storage_FindAll frame_Storage_FindFirstByIndex frame_Storage_FindByIndex
  frame_Storage_FindById frame_Generate frame_FindAll frame_FindById frame_FindByIndex frame_FindFirstByIndex : frame.

Section writes_frame.
Context `{RL : RuntimeLaws} (P : table -> bool).

Lemma frame_Save t e : P t = true -> frame (same_except P) (Storage.Save t e).
Proof. intros H. unfold Storage.Save, Storage.saveAll. solve_frame. Qed.
Hint Resolve frame_Save : frame.

Lemma frame_SaveUnique d t `{!Unique t} e : P t = true -> frame (touches P) (SaveUnique d t e).
Proof. intros H. unfold SaveUnique. solve_frame. Qed.
Lemma frame_SaveEntity d t e : P t = true -> frame (touches P) (SaveEntity d t e).
Proof. intros H. unfold SaveEntity. auto with frame. Qed.
Lemma frame_Delete d t e : P t = true -> frame (touches P) (Delete d t e).
Proof. intros H. unfold Delete. auto with frame. Qed.
Lemma frame_DeleteById d t args : P t = true -> frame (touches P) (DeleteById d t args).
Proof. intros H. unfold DeleteById. solve_frame. Qed.
Lemma frame_DeleteAll d t idx args : P t = true -> frame (touches P) (DeleteAll d t idx args).
Proof. intros H. unfold DeleteAll. auto with frame. Qed.
Lemma frame_SaveRoute d r : P RouteTable = true -> frame (touches P) (SaveRoute d r).
Proof. intros H. unfold SaveRoute. solve_frame. Qed.
Lemma frame_SaveEnvoyConfigVersion d v :
  P EnvoyConfigVersionTable = true -> frame (touches P) (SaveEnvoyConfigVersion d v).
Proof. intros H. unfold SaveEnvoyConfigVersion. auto with frame. Qed.
End writes_frame.

Section deletes_frame.
Context `{RL : RuntimeLaws}.

Lemma shrinks_Delete d t e : frame (tx_rel shrinks) (Delete d t e).
Proof. unfold Delete. auto with frame. Qed.
Lemma shrinks_DeleteById d t args : frame (tx_rel shrinks) (DeleteById d t args).
Proof. unfold DeleteById. solve_frame. Qed.
Lemma shrinks_DeleteAll d t idx args : frame (tx_rel shrinks) (DeleteAll d t idx args).
Proof. unfold DeleteAll. auto with frame. Qed.
End deletes_frame.
#[export] Hint Resolve frame_Save frame_SaveUnique frame_SaveEntity frame_Delete frame_DeleteById frame_DeleteAll
  frame_SaveRoute frame_SaveEnvoyConfigVersion shrinks_Delete shrinks_DeleteById shrinks_DeleteAll : frame.

(** * Keys of queries by id *)

Lemma schema_id t : exists i, schema t !! "id" = Some (mkIndexSchema "id" true false i)
  /\ (forall f, i <> UUIDFieldIndex f).
Proof. destruct t; eexists; split; try (vm_compute; reflexivity); done. Qed.

Lemma query_key_id t args : query_key t "id" args = args.
Proof.
  unfold query_key. destruct (schema_id t) as (i & -> & Hi). destruct i; try done.
  by destruct (Hi Field).
Qed.
Lemma indexable_id t x : indexable t x = true -> index_key t "id" x = Some (id_key t x).
Proof.
  intros H. pose proof (Storage.query_match_all t x H) as Hq. simpl in Hq. unfold id_key.
  by destruct (index_key t "id" x).
Qed.

(** * Reads of one table *)

Section reads.
Context `{RL : RuntimeLaws}.

Lemma id_key_match t x args db :
  args <> [] -> rows db t !! id_key t x = Some x ->
  query_match t "id" args x = true <-> id_key t x = args.
Proof.
  intros Ha Hx. apply rows_wf in Hx as [_ Hx]. unfold query_match. destruct args; [done|].
  rewrite bool_decide_eq_true, query_key_id, (indexable_id t x Hx). split; [by intros [= ->]|by intros ->].
Qed.

(** A lookup by primary key finds the row with that key. *)
Lemma Storage_FindById_spec t args db :
  valid_query t "id" args = true -> args <> [] ->
  Storage.FindById t args db = (Ok (rows db t !! args), db).
Proof.
  intros Hv Ha. unfold Storage.FindById, Storage.FindFirstByIndex, wrap_err.
  destruct (first_spec t "id" args db Hv) as (l & Hl & ->).
  destruct (get_spec t "id" args db Hv) as (l' & Hl' & Hnd & Hs & Hc).
  rewrite Hl in Hl'. injection Hl' as <-. f_equal. f_equal.
  assert (exact db t "id" (query_key t "id" args)) as Hx by apply exact_id.
  destruct l as [|x l]; simpl.
  - destruct (rows db t !! args) as [y|] eqn:E; [|done].
    pose proof (rows_wf _ _ _ _ E) as [Hk _]. subst args.
    assert (y ∈ []) as Hy by (apply Hc; [by right|done|by apply id_key_match with db]).
    by apply elem_of_nil in Hy.
  - destruct (Hs x) as [Hr Hm]; [left|]. apply id_key_match with (db := db) in Hm; [|done..].
    subst args. done.
Qed.

(** A lookup by an index that is not unique finds exactly the rows with that
    key, each once. *)
Lemma Storage_FindByIndex_spec t idx args db :
  valid_query t idx args = true -> args <> [] -> unique_index t idx = false ->
  query_key t idx args = args ->
  exists l, Storage.FindByIndex t idx args db = (Ok l, db) /\ NoDup (id_key t <$> l) /\
    forall x, x ∈ l <-> rows db t !! id_key t x = Some x /\ index_key t idx x = Some args.
Proof.
  intros Hv Ha Hu Hq. destruct (get_spec t idx args db Hv) as (l & Hl & Hnd & Hs & Hc).
  exists l. unfold Storage.FindByIndex, wrap_err. rewrite Hl. split_and!; [done..|].
  assert (forall x, query_match t idx args x = true <-> index_key t idx x = Some args) as Hm.
  { intros x. unfold query_match. destruct args; [done|]. by rewrite bool_decide_eq_true, Hq. }
  intros x. split.
  - intros Hx. destruct (Hs x Hx). split; [done|]. by apply Hm.
  - intros [Hx Hk]. apply Hc; [right; by apply exact_nonunique|done|by apply Hm].
Qed.

Lemma FindAll_in_tx t w db :
  in_tx w db -> exists l, FindAll InTx t w = (Ok l, w) /\ NoDup (id_key t <$> l) /\
    forall x, x ∈ l <-> rows db t !! id_key t x = Some x.
Proof.
  intros Hw. destruct (Storage.FindAll_spec t db) as (l & Hl & ?). exists l.
  unfold FindAll, wrap_err. by rewrite (in_ctx_read _ _ _ _ _ Hw Hl).
Qed.
Lemma FindAll_local t w :
  exists l, FindAll Local t w = (Ok l, w) /\ NoDup (id_key t <$> l) /\
    forall x, x ∈ l <-> rows (w_db w) t !! id_key t x = Some x.
Proof.
  destruct (Storage.FindAll_spec t (w_db w)) as (l & Hl & ?). exists l.
  unfold FindAll, wrap_err, in_ctx. simpl. unfold on_tx. by rewrite Hl.
Qed.
Lemma FindById_in_tx t args w db :
  in_tx w db -> valid_query t "id" args = true -> args <> [] ->
  FindById InTx t args w = (Ok (rows db t !! args), w).
Proof.
  intros Hw Hv Ha. unfold FindById, wrap_err.
  by rewrite (in_ctx_read _ _ _ _ _ Hw (Storage_FindById_spec _ _ _ Hv Ha)).
Qed.
Lemma FindByIndex_in_tx t idx args w db :
  in_tx w db -> valid_query t idx args = true -> args <> [] -> unique_index t idx = false ->
  query_key t idx args = args ->
  exists l, FindByIndex InTx t idx args w = (Ok l, w) /\ NoDup (id_key t <$> l) /\
    forall x, x ∈ l <-> rows db t !! id_key t x = Some x /\ index_key t idx x = Some args.
Proof.
  intros Hw Hv Ha Hu Hq. destruct (Storage_FindByIndex_spec t idx args db Hv Ha Hu Hq) as (l & Hl & ?).
  exists l. unfold FindByIndex, wrap_err. by rewrite (in_ctx_read _ _ _ _ _ Hw Hl).
Qed.
End reads.

(** * Writes of one row *)

Section writes.
Context `{RL : RuntimeLaws}.

(** [with_rows t m db db']: [db'] is [db] with the content of table [t]
    replaced by [m]. *)
Definition with_rows (t : table) (m : gmap (list value) (entity t)) (db db' : Db) : Prop :=
  rows db' t = m /\ forall t', t' <> t -> rows db' t' = rows db t'.

Lemma Storage_Save_spec t e db :
  indexable t e = true ->
  exists db', Storage.Save t e db = (Ok tt, db') /\ with_rows t (<[id_key t e := e]> (rows db t)) db db'.
Proof.
  intros He. destruct (insert_spec t e db He) as (db' & E & Hr & Hf & _). exists db'.
  unfold Storage.Save, Storage.saveAll. simpl. unfold bind, wrap_err. rewrite E. done.
Qed.
Lemma Storage_Save_Ok t e db db' :
  Storage.Save t e db = (Ok tt, db') ->
  indexable t e = true /\ with_rows t (<[id_key t e := e]> (rows db t)) db db'.
Proof.
  intros H. destruct (indexable t e) eqn:He.
  - destruct (Storage_Save_spec t e db He) as (db1 & E & ?). rewrite E in H. by injection H as <-.
  - destruct (insert_error t e db He) as (x & E).
    unfold Storage.Save, Storage.saveAll in H. simpl in H. unfold bind, wrap_err in H. by rewrite E in H.
Qed.

Lemma SaveEntity_in_tx t e w db :
  in_tx w db -> indexable t e = true ->
  exists db', SaveEntity InTx t e w = (Ok tt, set_tx (Some (db', true)) w) /\
    with_rows t (<[id_key t e := e]> (rows db t)) db db'.
Proof.
  intros Hw He. destruct (Storage_Save_spec t e db He) as (db' & E & ?). exists db'.
  split; [|done]. by apply (in_ctx_write _ _ _ _ _ _ Hw).
Qed.

Lemma delete_by_id t args db :
  valid_query t "id" args = true -> args <> [] ->
  exists n db', txn_delete_all t "id" args db = (Ok n, db') /\
    with_rows t (delete args (rows db t)) db db'.
Proof.
  intros Hv Ha. destruct (get_spec t "id" args db Hv) as (l & Hl & Hnd & Hs & Hc).
  destruct (delete_all_spec t "id" args l db Hv Hl) as (db' & E & Hr & Hf & _).
  eexists _, db'. split; [exact E|]. split; [|exact Hf]. rewrite Hr.
  assert (forall x, x ∈ l -> id_key t x = args) as Hk.
  { intros x Hx. destruct (Hs x Hx) as [Hx1 Hx2]. by apply id_key_match with db. }
  destruct l as [|x l]; simpl.
  - symmetry. apply delete_id. destruct (rows db t !! args) as [y|] eqn:Ey; [|done].
    pose proof (rows_wf _ _ _ _ Ey) as [Hy _]. subst args.
    assert (y ∈ []) as Hin by (apply Hc; [right; apply exact_id|done|by apply id_key_match with db]).
    by apply elem_of_nil in Hin.
  - rewrite (Hk x) by left. destruct l as [|y l]; [done|].
    exfalso. rewrite fmap_cons, NoDup_cons in Hnd. destruct Hnd as [Hx _]. apply Hx.
    rewrite (Hk x) by left. rewrite fmap_cons, (Hk y) by (right; left). left.
Qed.

Lemma DeleteById_in_tx t args w db :
  in_tx w db -> valid_query t "id" args = true -> args <> [] ->
  exists db', DeleteById InTx t args w = (Ok tt, set_tx (Some (db', true)) w) /\
    with_rows t (delete args (rows db t)) db db'.
Proof.
  intros Hw Hv Ha. destruct (delete_by_id t args db Hv Ha) as (n & db' & E & ?). exists db'.
  split; [|done]. unfold DeleteById. erewrite open_ctx_InTx by done. unfold bind at 1.
  erewrite on_tx_InTx by done. by rewrite E.
Qed.
End writes.

(** * Properties *)

(** The outcomes of a save through a local transaction. *)
Ltac local_save w :=
  repeat (cbv beta delta [bind tick lift ret]; simpl; match goal with
    | |- context [(?a =? 0)%Z] => destruct (a =? 0)%Z
    | |- context [nextval ?t ?n] => destruct (nextval t n)
    | |- context [Storage.Save ?t ?e ?db] => destruct (Storage.Save t e db) as [[?|?|?] ?]
    end); simpl; try done; destruct w; simpl in *; subst; reflexivity.

Section properties.
Context `{RL : RuntimeLaws}.

(** Inside a transaction, what is saved is what is found: when saving an
    entity with a generated id succeeds, looking it up by its primary key
    returns the entity as it was saved (with the id it was given), and no
    other table has changed. *)
Theorem save_then_find t `{!Unique t} (e e' : entity t) w db w' :
  in_tx w db ->
  SaveUnique InTx t e w = (Ok e', w') ->
  valid_query t "id" (id_key t e') = true -> id_key t e' <> [] ->
  FindById InTx t (id_key t e') w' = (Ok (Some e'), w') /\
  exists db', in_tx w' db' /\ forall t', t' <> t -> rows db' t' = rows db t'.
Proof.
  intros Hw. unfold SaveUnique. erewrite open_ctx_InTx by done. unfold bind at 1.
  assert (exists n, (Generate t e w).2 = set_tick n w) as [n Hn].
  { unfold Generate, bind, tick, lift, ret. exists (if (GetId e =? 0)%Z then S (w_tick w) else w_tick w).
    destruct (GetId e =? 0)%Z; simpl; [by destruct (nextval _ _)|by destruct w]. }
  destruct (Generate t e w) as [[u|x|x] w1]; simpl in Hn; subst w1; try done.
  assert (in_tx (set_tick n w) db) as Hw1 by done. unfold bind at 1.
  rewrite (on_tx_InTx _ _ _ Hw1). destruct (Storage.Save t u db) as [[[]|x|x] db'] eqn:E; simpl; try done.
  intros [= -> <-] Hv Ha. apply Storage_Save_Ok in E as [_ [Hr Hf]].
  erewrite FindById_in_tx; [|apply in_tx_set|done|done]. rewrite Hr, lookup_insert_eq.
  split; [done|]. exists db'. by split.
Qed.

(** A write made through a repository that is not in a transaction is lost:
    saving and deleting report their outcome, but the transaction they open
    for themselves is aborted, so nothing of the database changes. *)
Theorem local_writes_are_lost w :
  w_writer w = false ->
  (forall t e, (SaveEntity Local t e w).2 = w) /\
  (forall t e, (Delete Local t e w).2 = w) /\
  (forall t args, (DeleteById Local t args w).2 = w) /\
  (forall t idx args, (DeleteAll Local t idx args w).2 = w) /\
  (forall t (H : Unique t) e, exists n, (SaveUnique Local t e w).2 = set_tick n w) /\
  (forall r, exists n, (SaveRoute Local r w).2 = set_tick n w).
Proof.
  intros Hw. assert (set_writer false w = w) as Hs by (destruct w; simpl in *; by subst).
  split_and!; intros; unfold SaveEntity, Delete, DeleteById, DeleteAll, SaveUnique, SaveRoute, in_ctx,
    open_ctx, on_tx, bind, Generate, tick, lift, ret; rewrite Hw; simpl.
  - done.
  - done.
  - by destruct (txn_delete_all _ _ _ _) as [[?|?|?] ?].
  - done.
  - exists (if (GetId e =? 0)%Z then S (w_tick w) else w_tick w). local_save w.
  - exists (if (Route_Id r =? 0)%Z then S (w_tick w) else w_tick w). local_save w.
Qed.

(** Deleting a header matcher by its id always fails: the primary key of
    the table has two fields, the route id and the name, and the id of the
    matcher is none of them. *)
Theorem DeleteHeaderMatcherById_fails id w db :
  in_tx w db -> exists e, DeleteHeaderMatcherById InTx id w = (Err e, w).
Proof.
  intros Hw. destruct (delete_all_malformed HeaderMatcherTable "id" [VInt id] db) as (e & E); [done|].
  exists e. unfold DeleteHeaderMatcherById, DeleteById. erewrite open_ctx_InTx by done.
  unfold bind. erewrite on_tx_InTx by done. rewrite E. simpl. by rewrite set_tx_in_tx.
Qed.

(** Two header matchers of one route with the same name cannot coexist:
    saving the second replaces the first, whatever their ids and values. *)
Theorem header_matchers_of_one_name (h1 h2 : HeaderMatcher) w db :
  in_tx w db ->
  HeaderMatcher_Id h1 <> 0%Z -> HeaderMatcher_Id h2 <> 0%Z ->
  HeaderMatcher_RouteId h1 = HeaderMatcher_RouteId h2 ->
  HeaderMatcher_Name h1 = HeaderMatcher_Name h2 -> HeaderMatcher_Name h1 <> "" ->
  exists w' l,
    (SaveHeaderMatcher InTx h1 ;;; SaveHeaderMatcher InTx h2) w = (Ok h2, w') /\
    FindHeaderMatcherByRouteId InTx (HeaderMatcher_RouteId h2) w' = (Ok l, w') /\
    h2 ∈ l /\ (h1 ∈ l -> h1 = h2).
Proof.
  intros Hw Hi1 Hi2 Hr Hn Hne.
  assert (forall h : HeaderMatcher, HeaderMatcher_Name h <> "" ->
    id_key HeaderMatcherTable h = [VInt (HeaderMatcher_RouteId h); VStr (HeaderMatcher_Name h)] /\
    indexable HeaderMatcherTable h = true) as Hkey.
  { intros [i n]. destruct n as [|c n]; [done|]. intros _. split; vm_compute; reflexivity. }
  assert (forall (h : HeaderMatcher) w db, in_tx w db -> HeaderMatcher_Id h <> 0%Z -> HeaderMatcher_Name h <> "" ->
    exists db', SaveHeaderMatcher InTx h w = (Ok h, set_tx (Some (db', true)) w) /\
      with_rows HeaderMatcherTable (<[id_key HeaderMatcherTable h := h]> (rows db HeaderMatcherTable)) db db') as Hsave.
  { clear -RL Hkey. intros h w db Hw Hi Hne. destruct (Hkey h Hne) as [_ Hix].
    destruct (Storage_Save_spec HeaderMatcherTable h db Hix) as (db' & E & ?). exists db'. split; [|done].
    unfold SaveHeaderMatcher, SaveUnique. erewrite open_ctx_InTx by done. unfold Generate. simpl.
    apply Z.eqb_neq in Hi. rewrite Hi. unfold bind, ret. erewrite on_tx_InTx by done. by rewrite E. }
  destruct (Hsave h1 w db Hw Hi1 Hne) as (db1 & E1 & R1 & _).
  destruct (Hsave h2 (set_tx (Some (db1, true)) w) db1) as (db2 & E2 & R2 & _); [done|done|congruence|].
  destruct (FindByIndex_in_tx HeaderMatcherTable "routeId" [VInt (HeaderMatcher_RouteId h2)]
    (set_tx (Some (db2, true)) w) db2) as (l & Hl & _ & Hin); [done..|].
  exists (set_tx (Some (db2, true)) w), l. split_and!; [unfold bind; by rewrite E1, E2|done| |].
  - apply Hin. rewrite R2, lookup_insert_eq. done.
  - intros [H _]%Hin. rewrite R2 in H.
    assert (id_key HeaderMatcherTable h1 = id_key HeaderMatcherTable h2) as Hk.
    { destruct (Hkey h1 Hne) as [-> _]. destruct (Hkey h2) as [-> _]; congruence. }
    rewrite Hk, lookup_insert_eq in H. by injection H.
Qed.
End properties.

(** The rate limit used for a name is one of the configured ones and none has
    a higher priority; there is none exactly when no configured one has a
    priority of at least [Product]. *)
Theorem highest_priority_spec (l : list RateLimit) :
  match highest_priority l with
  | Some r => r ∈ l /\ (Product <= RateLimit_Priority r)%Z /\
              forall r', r' ∈ l -> (RateLimit_Priority r' <= RateLimit_Priority r)%Z
  | None => forall r', r' ∈ l -> (RateLimit_Priority r' < Product)%Z
  end.
Proof.
  unfold highest_priority.
  assert (forall seen acc,
    match acc.2 with
    | Some r => acc.1 = RateLimit_Priority r /\ (Product <= acc.1)%Z /\ r ∈ seen
    | None => acc.1 = (Product - 1)%Z
    end ->
    (forall r', r' ∈ seen -> (RateLimit_Priority r' <= acc.1)%Z) ->
    let acc' := fold_left (fun '(maxPriority, result) rateLimit =>
       if (maxPriority <? RateLimit_Priority rateLimit)%Z
       then (RateLimit_Priority rateLimit, Some rateLimit)
       else (maxPriority, result)) l acc in
    match acc'.2 with
    | Some r => acc'.1 = RateLimit_Priority r /\ (Product <= acc'.1)%Z /\ r ∈ (seen ++ l)%list
    | None => acc'.1 = (Product - 1)%Z
    end /\ (forall r', r' ∈ (seen ++ l)%list -> (RateLimit_Priority r' <= acc'.1)%Z)) as H.
  { induction l as [|x l IH]; intros seen [m o] Ho Hseen; [by rewrite app_nil_r|].
    rewrite (cons_middle x seen l), app_assoc. apply IH; simpl in *; unfold Product in *.
    - destruct (Z.ltb_spec m (RateLimit_Priority x)); simpl.
      + split_and!; [done| |set_solver]. destruct o as [r|]; [|lia]. destruct Ho as (? & ? & ?). lia.
      + destruct o as [r|]; [|done]. destruct Ho as (? & ? & ?). split_and!; [done..|set_solver].
    - intros r' [Hr| ->%list_elem_of_singleton]%elem_of_app;
        destruct (Z.ltb_spec m (RateLimit_Priority x)); simpl; try specialize (Hseen _ Hr); lia. }
  destruct (H [] ((Product - 1)%Z, None)) as [H1 H2]; [done|by intros ? ?%elem_of_nil|].
  simpl in H1, H2. destruct (fold_left _ _ _) as [m [r|]]; simpl in *.
  - destruct H1 as (-> & ? & ?). done.
  - intros r' Hr. specialize (H2 r' Hr). subst m. unfold Product in *. lia.
Qed.

(** * Witnesses *)

Section witnesses.
Import RuntimeModel.
Local Existing Instance test_laws.

Definition saved_breaker : CircuitBreaker := mkCircuitBreaker 1 0 None.
Lemma save_then_find_witness :
  let w' := (SaveUnique InTx CircuitBreakerTable (mkCircuitBreaker 0 0 None) empty_tx_world).2 in
  SaveUnique InTx CircuitBreakerTable (mkCircuitBreaker 0 0 None) empty_tx_world = (Ok saved_breaker, w') /\
  FindById InTx CircuitBreakerTable [VInt 1] w' = (Ok (Some saved_breaker), w').
Proof.
  intros w'. split; [reflexivity|].
  refine (proj1 (save_then_find CircuitBreakerTable (mkCircuitBreaker 0 0 None) saved_breaker
           empty_tx_world _ w' _ _ _ _)); (reflexivity || discriminate).
Defined.

Lemma local_writes_are_lost_witness :
  SaveNodeGroup Local (mkNodeGroup "gw" "" false) empty_world = (Ok tt, empty_world) /\
  (SaveEntity Local NodeGroupTable (mkNodeGroup "gw" "" false) empty_world).2 = empty_world.
Proof. split; [reflexivity|]. apply (local_writes_are_lost empty_world); reflexivity. Defined.

Lemma DeleteHeaderMatcherById_fails_witness :
  exists e, DeleteHeaderMatcherById InTx 1 empty_tx_world = (Err e, empty_tx_world).
Proof. eapply (DeleteHeaderMatcherById_fails 1 empty_tx_world); reflexivity. Defined.

Definition test_matcher (id : Z) (v : string) : HeaderMatcher :=
  (zero : HeaderMatcher) <| HeaderMatcher_Id := id |> <| HeaderMatcher_Name := "x" |>
    <| HeaderMatcher_RouteId := 7%Z |> <| HeaderMatcher_ExactMatch := v |>.
Lemma header_matchers_of_one_name_witness :
  exists w' l, (SaveHeaderMatcher InTx (test_matcher 1 "a") ;;; SaveHeaderMatcher InTx (test_matcher 2 "b")) empty_tx_world
               = (Ok (test_matcher 2 "b"), w') /\
    FindHeaderMatcherByRouteId InTx 7 w' = (Ok l, w') /\ test_matcher 2 "b" ∈ l /\ (test_matcher 1 "a" ∈ l -> test_matcher 1 "a" = test_matcher 2 "b").
Proof.
  eapply (header_matchers_of_one_name (test_matcher 1 "a") (test_matcher 2 "b") empty_tx_world);
    (reflexivity || discriminate).
Defined.

Lemma WithWTxVal_atomic_witness :
  let payload := SaveUnique InTx CircuitBreakerTable (mkCircuitBreaker 0 0 None) in
  let w' := (WithWTxVal payload empty_world).2 in
  let changes := txn_changes (w_db w') in
  WithWTxVal payload empty_world = (Ok (saved_breaker, changes), w') /\ w_writer w' = false.
Proof.
  intros payload w' changes. split; [reflexivity|].
  refine (proj1 (proj2 (WithWTxVal_atomic payload empty_world (Ok (saved_breaker, changes)) w' _ _ _)));
    [by apply frame_SaveUnique|reflexivity|reflexivity].
Defined.

Lemma WithRTxVal_reads_witness :
  (WithRTxVal (FindAllRoutes InTx) empty_world).1 = Ok [] /\
  w_db (WithRTxVal (FindAllRoutes InTx) empty_world).2 = w_db empty_world.
Proof.
  split; [reflexivity|].
  refine (proj1 (WithRTxVal_reads (FindAllRoutes InTx) empty_world _)). exact (frame_FindAll (same_except any_table) InTx RouteTable).
Defined.
End witnesses.
