(* ===== verification/Entity.v ===== *)
(** [services/entity], with the version stamps of [services/envoy] and the
    prohibit routes of [services/route/business]: the operations on stored
    entities that the services share.

    A function that changes an object it is given returns it as it leaves it.
    The lock per route key that [PutRoute] holds is released before it returns
    and not modelled. *)
From S2P Require Import Prelude GoLib Domain Tables MemDb Msaddr Events RouteKey Runtime Dao.
Open Scope string_scope.

(** [NewService(defaultDeploymentVersion)] *)
Class EntityService : Type := { defaultVersion : string }.

(** A nil dereference. *)
Definition deref {W A} (p : option A) : prog W A :=
  match p with Some a => ret a | None => panic "nil pointer dereference" end.

Section entity.
Context `{R : Runtime} `{H : Sha256} `{E : EntityService}.

(** * Deployment versions ([deploymentversion.go]) *)

Definition getOrCreateDeploymentVersionInternal (dao : repo) (version stage : string) : prog World DeploymentVersion :=
  dv <- FindDeploymentVersion dao version ;;
  match dv with
  | Some dv => ret dv
  | None =>
      created <- Now ;;
      updated <- Now ;;
      let dv := mkDeploymentVersion version stage created updated in
      SaveDeploymentVersion dao dv ;;;
      ret dv
  end.
Definition getDefaultDeploymentVersion (dao : repo) : prog World DeploymentVersion :=
  getOrCreateDeploymentVersionInternal dao defaultVersion ActiveStage.
Definition GetActiveDeploymentVersion (dao : repo) : prog World DeploymentVersion :=
  res <- FindDeploymentVersionsByStage dao ActiveStage ;;
  match res with
  | [] => getDefaultDeploymentVersion dao
  | v :: _ => ret v
  end.
Definition GetOrCreateDeploymentVersion (dao : repo) (version : string) : prog World DeploymentVersion :=
  if String.eqb version "" then GetActiveDeploymentVersion dao
  else getOrCreateDeploymentVersionInternal dao version CandidateStage.
(** [Service.SaveDeploymentVersion], which stamps the version. *)
Definition StoreDeploymentVersion (dao : repo) (version : DeploymentVersion) : prog World DeploymentVersion :=
  dVersion <- FindDeploymentVersion dao (DeploymentVersion_Version version) ;;
  match dVersion with
  | Some dVersion => DeleteDeploymentVersion dao dVersion
  | None => ret tt
  end ;;;
  now <- Now ;;
  let version := version <| DeploymentVersion_UpdatedWhen := now |> in
  SaveDeploymentVersion dao version ;;;
  ret version.

(** * Version stamps of Envoy resources ([envoyconfig.go], [nodegroup.go]) *)

Definition GenerateAndSave (dao : repo) (nodeGroup : string) (entityType : table) : prog World unit :=
  now <- Now ;;
  SaveEnvoyConfigVersion dao (mkEnvoyConfigVersion nodeGroup (table_name entityType) now).
Definition UpdateAllResourceVersions (dao : repo) (nodeGroup : string) : prog World unit :=
  GenerateAndSave dao nodeGroup ListenerTable ;;;
  GenerateAndSave dao nodeGroup ClusterTable ;;;
  GenerateAndSave dao nodeGroup RouteConfigurationTable.
Definition generateEnvoyEntityVersion (dao : repo) (gateway entity : string) : prog World unit :=
  now <- Now ;;
  SaveEnvoyConfigVersion dao (NewEnvoyConfigVersion now gateway entity).
Definition GenerateEnvoyEntityVersions (dao : repo) (gateway : string) (entities : list string) : prog World unit :=
  for_each entities (generateEnvoyEntityVersion dao gateway).
Definition CreateOrUpdateNodeGroup (dao : repo) (nodeGroup : NodeGroup) : prog World NodeGroup :=
  existingNodeGroup <- FindNodeGroupByName dao (NodeGroup_Name nodeGroup) ;;
  match existingNodeGroup with
  | None => SaveNodeGroup dao nodeGroup ;;; ret nodeGroup
  | Some existing =>
      if String.eqb (NodeGroup_GatewayType nodeGroup) "" then ret nodeGroup
      else if negb (String.eqb (NodeGroup_GatewayType nodeGroup) (NodeGroup_GatewayType existing))
              || negb (Bool.eqb (NodeGroup_ForbidVirtualHosts nodeGroup) (NodeGroup_ForbidVirtualHosts existing))
      then SaveNodeGroup dao nodeGroup ;;; ret nodeGroup
      else ret existing
  end.

(** * Endpoints ([endpoint.go]) *)

Definition DeleteEndpointCascade (dao : repo) (endpoint : Endpoint) : prog World unit :=
  _ <- DeleteHashPolicyByEndpointId dao (Endpoint_Id endpoint) ;;
  (if (Endpoint_StatefulSessionId endpoint =? 0)%Z then ret tt
   else DeleteStatefulSessionConfig dao (Endpoint_StatefulSessionId endpoint)) ;;;
  DeleteEndpoint dao endpoint.
Definition DeleteEndpointsCascade (dao : repo) (endpointsToDelete : list Endpoint) : prog World unit :=
  for_each endpointsToDelete (DeleteEndpointCascade dao).
Fixpoint rebase_endpoint (endpoint : Endpoint) (existingEndpoints : list Endpoint) : Endpoint :=
  match existingEndpoints with
  | [] => endpoint
  | existing :: rest =>
      if String.eqb (Endpoint_DeploymentVersion endpoint) (Endpoint_InitialDeploymentVersion existing)
      then endpoint <| Endpoint_Id := Endpoint_Id existing |>
             <| Endpoint_DeploymentVersion := Endpoint_DeploymentVersion existing |>
             <| Endpoint_InitialDeploymentVersion := Endpoint_InitialDeploymentVersion existing |>
      else if String.eqb (Endpoint_DeploymentVersion endpoint) (Endpoint_DeploymentVersion existing)
      then endpoint <| Endpoint_Id := Endpoint_Id existing |>
             <| Endpoint_InitialDeploymentVersion := Endpoint_InitialDeploymentVersion existing |>
      else rebase_endpoint endpoint rest
  end.
Definition PutEndpoint (dao : repo) (endpoint : Endpoint) : prog World Endpoint :=
  endpoint <- (if (Endpoint_Id endpoint =? 0)%Z
               then existingEndpoints <- FindEndpointsByClusterId dao (Endpoint_ClusterId endpoint) ;;
                    ret (rebase_endpoint endpoint existingEndpoints)
               else ret endpoint) ;;
  SaveEndpoint dao endpoint.
(** The version all endpoints share; [None] when they differ. *)
Fixpoint common_version (deploymentVersion : string) (endpoints : list Endpoint) : option string :=
  match endpoints with
  | [] => Some deploymentVersion
  | e :: rest =>
      if String.eqb deploymentVersion "" then common_version (Endpoint_DeploymentVersion e) rest
      else if String.eqb deploymentVersion (Endpoint_DeploymentVersion e) then common_version deploymentVersion rest
      else None
  end.
Definition PutEndpoints (dao : repo) (clusterId : Z) (endpoints : list Endpoint) : prog World unit :=
  match common_version "" endpoints with
  | None => fail (ErrMsg "endpoints must have the same deployment version")
  | Some deploymentVersion =>
      existingEndpoints <- FindEndpointsByClusterIdAndDeploymentVersion dao clusterId
        ((zero : DeploymentVersion) <| DeploymentVersion_Version := deploymentVersion |>) ;;
      for_each existingEndpoints (DeleteEndpointCascade dao) ;;;
      for_each endpoints (fun e => _ <- SaveEndpoint dao e ;; ret tt)
  end.
Definition LoadEndpointRelations (dao : repo) (endpoint : Endpoint) : prog World Endpoint :=
  dv <- FindDeploymentVersion dao (Endpoint_DeploymentVersion endpoint) ;;
  hp <- FindHashPolicyByEndpointId dao (Endpoint_Id endpoint) ;;
  ret (endpoint <| Endpoint_DeploymentVersionVal := dv |> <| Endpoint_HashPolicies := hp |>).
(** [Service.FindEndpointsByClusterId] *)
Definition LoadEndpointsByClusterId (dao : repo) (clusterId : Z) : prog World (list Endpoint) :=
  endpoints <- FindEndpointsByClusterId dao clusterId ;;
  map_each endpoints (LoadEndpointRelations dao).

(** * Health checks, listeners, filters *)

Definition PutHealthCheck (dao : repo) (healthCheck : HealthCheck) : prog World HealthCheck :=
  _ <- FindHealthChecksByClusterId dao (HealthCheck_ClusterId healthCheck) ;;
  _ <- DeleteHealthChecksByClusterId dao (HealthCheck_ClusterId healthCheck) ;;
  SaveHealthCheck dao healthCheck.
Definition PutListener (dao : repo) (listener : Listener) : prog World Listener :=
  listener <- (if (Listener_Id listener =? 0)%Z
               then existing <- FindListenerByNodeGroupIdAndName dao (Listener_NodeGroupId listener) (Listener_Name listener) ;;
                    ret match existing with
                        | Some e => listener <| Listener_Id := Listener_Id e |>
                        | None => listener
                        end
               else ret listener) ;;
  SaveListener dao listener.
Definition PutLuaFilter (dao : repo) (filter : LuaFilter) : prog World LuaFilter :=
  filter <- (if (LuaFilter_Id filter =? 0)%Z
             then existing <- FindLuaFilterByName dao (LuaFilter_Name filter) ;;
                  ret match existing with
                      | Some e => filter <| LuaFilter_Id := LuaFilter_Id e |>
                      | None => filter
                      end
             else ret filter) ;;
  SaveLuaFilter dao filter.
Definition PutWasmFilter (dao : repo) (filter : WasmFilter) : prog World WasmFilter :=
  filter <- (if (WasmFilter_Id filter =? 0)%Z
             then existing <- FindWasmFilterByName dao (WasmFilter_Name filter) ;;
                  ret match existing with
                      | Some e => filter <| WasmFilter_Id := WasmFilter_Id e |>
                      | None => filter
                      end
             else ret filter) ;;
  SaveWasmFilter dao filter.
Definition PutListenerWasmFilterIfAbsent (dao : repo) (relation : ListenersWasmFilter) : prog World unit :=
  alreadyHasFilter <- HasWasmFilterWithId dao (ListenersWasmFilter_ListenerId relation) (ListenersWasmFilter_WasmFilterId relation) ;;
  if alreadyHasFilter : bool then ret tt else SaveListenerWasmFilter dao relation.

(** * Route configurations ([routeconfig.go]) *)

Definition PutRouteConfig (dao : repo) (routeConfig : RouteConfiguration) : prog World RouteConfiguration :=
  routeConfig <- (if (RouteConfiguration_Id routeConfig =? 0)%Z
                  then existing <- FindRouteConfigByNodeGroupIdAndName dao
                         (RouteConfiguration_NodeGroupId routeConfig) (RouteConfiguration_Name routeConfig) ;;
                       ret match existing with
                           | Some e => routeConfig <| RouteConfiguration_Id := RouteConfiguration_Id e |>
                           | None => routeConfig
                           end
                  else ret routeConfig) ;;
  SaveRouteConfig dao routeConfig.
Definition FindRouteConfigurationByVirtualHostId (dao : repo) (virtualHostId : Z) : prog World (option RouteConfiguration) :=
  vhost <- FindVirtualHostById dao virtualHostId ;;
  vhost <- deref vhost ;;
  FindRouteConfigById dao (VirtualHost_RouteConfigurationId vhost).
Definition FindRouteNodeGroup (dao : repo) (route : Route) : prog World NodeGroup :=
  routeConfig <- FindRouteConfigurationByVirtualHostId dao (Route_VirtualHostId route) ;;
  routeConfig <- deref routeConfig ;;
  ret (mkNodeGroup (RouteConfiguration_NodeGroupId routeConfig) "" false).
Definition FindListenersByRouteConfiguration (dao : repo) (routeConfig : option RouteConfiguration) : prog World (list Listener) :=
  match routeConfig with
  | None => ret []
  | Some rc =>
      listeners <- FindListenersByNodeGroupId dao (RouteConfiguration_NodeGroupId rc) ;;
      ret (List.filter (fun l => String.eqb (Listener_RouteConfigurationName l) (RouteConfiguration_Name rc)) listeners)
  end.
Definition FindListenersByVirtualHostId (dao : repo) (virtualHostId : Z) : prog World (list Listener) :=
  if (virtualHostId =? 0)%Z then ret []
  else routeConfig <- FindRouteConfigurationByVirtualHostId dao virtualHostId ;;
       FindListenersByRouteConfiguration dao routeConfig.

(** * Stateful sessions ([stateful_session.go]) *)

Definition GenerateCookieName (prefix : string) : prog World string :=
  id <- NewUuid ;; ret (prefix ++ "-" ++ id).
Definition PutStatefulSession (dao : repo) (newSession : StatefulSession) : prog World StatefulSession :=
  newSession <- (if StatefulSession_Enabled newSession
                 then if String.eqb (StatefulSession_CookieName newSession) ""
                      then name <- GenerateCookieName "sticky" ;;
                           ret (newSession <| StatefulSession_CookieName := name |>)
                      else let suffix := "-" ++ StatefulSession_InitialDeploymentVersion newSession in
                           ret (if strings_HasSuffix (StatefulSession_CookieName newSession) suffix then newSession
                                else newSession <| StatefulSession_CookieName :=
                                       StatefulSession_CookieName newSession ++ suffix |>)
                 else ret newSession) ;;
  SaveStatefulSessionConfig dao newSession.

(** * Routes ([route.go]) *)

Definition LoadRouteRelations (dao : repo) (route : Route) : prog World Route :=
  hm <- FindHeaderMatcherByRouteId dao (Route_Id route) ;;
  hp <- FindHashPolicyByRouteId dao (Route_Id route) ;;
  dv <- FindDeploymentVersion dao (Route_DeploymentVersion route) ;;
  ss <- FindStatefulSessionConfigById dao (Route_StatefulSessionId route) ;;
  rl <- FindRateLimitByNameWithHighestPriority dao (Route_RateLimitId route) ;;
  ret (route <| Route_HeaderMatchers := hm |> <| Route_HashPolicies := hp |>
         <| Route_DeploymentVersionVal := dv |> <| Route_StatefulSession := ss |> <| Route_RateLimit := rl |>).

(** The session of the route is not nil where this is called. *)
Definition saveRouteStatefulSession (dao : repo) (route : Route) : prog World Route :=
  session <- deref (Route_StatefulSession route) ;;
  session <- PutStatefulSession dao
    (session <| StatefulSession_DeploymentVersion := Route_DeploymentVersion route |>
       <| StatefulSession_InitialDeploymentVersion := Route_InitialDeploymentVersion route |>
       <| StatefulSession_ClusterName := ExtractFamilyName (Route_ClusterName route) |>
       <| StatefulSession_Namespace := Namespace_Namespace (ExtractNamespace (Route_ClusterName route)) |>) ;;
  ret (route <| Route_StatefulSession := Some session |>
         <| Route_StatefulSessionId := StatefulSession_Id session |>).

Definition mergeRouteStatefulSession (dao : repo) (existingRoute newRoute : Route) : prog World Route :=
  if (Route_StatefulSessionId existingRoute =? 0)%Z
  then match Route_StatefulSession newRoute with
       | None => ret newRoute
       | Some _ => saveRouteStatefulSession dao newRoute
       end
  else match Route_StatefulSession newRoute with
       | None => DeleteStatefulSessionConfig dao (Route_StatefulSessionId existingRoute) ;;; ret newRoute
       | Some session =>
           existing <- FindStatefulSessionConfigById dao (Route_StatefulSessionId existingRoute) ;;
           existing <- deref existing ;;
           let session := session <| StatefulSession_Id := StatefulSession_Id existing |> in
           let session := if String.eqb (StatefulSession_CookieName session) ""
                          then session <| StatefulSession_CookieName := StatefulSession_CookieName existing |>
                          else session in
           let newRoute := newRoute <| Route_StatefulSession := Some session |> in
           if StatefulSession_Equals false session existing then ret newRoute
           else saveRouteStatefulSession dao newRoute
       end.

(** Ids of the new matchers, by position in the existing ones. *)
Fixpoint rebase_matchers (routeId : Z) (existing new : list HeaderMatcher) : list HeaderMatcher :=
  match new with
  | [] => []
  | m :: new' =>
      let id := match existing with e :: _ => HeaderMatcher_Id e | [] => 0%Z end in
      (m <| HeaderMatcher_Id := id |> <| HeaderMatcher_RouteId := routeId |>)
      :: rebase_matchers routeId (tail existing) new'
  end.

Definition mergeAndStoreRoute (dao : repo) (existingRoute updateRequest : Route) : prog World Route :=
  let updateRequest :=
    updateRequest <| Route_Id := Route_Id existingRoute |>
      <| Route_DeploymentVersion := Route_DeploymentVersion existingRoute |>
      <| Route_InitialDeploymentVersion := Route_InitialDeploymentVersion existingRoute |> in
  updateRequest <- mergeRouteStatefulSession dao existingRoute updateRequest ;;
  DeleteRouteByUUID dao (Route_Uuid existingRoute) ;;;
  updateRequest <- SaveRoute dao updateRequest ;;
  existingHeaderMatchers <- FindHeaderMatcherByRouteId dao (Route_Id existingRoute) ;;
  let toSave := rebase_matchers (Route_Id updateRequest) existingHeaderMatchers (Route_HeaderMatchers updateRequest) in
  let toDelete := drop (length (Route_HeaderMatchers updateRequest)) existingHeaderMatchers in
  saved <- map_each toSave (SaveHeaderMatcher dao) ;;
  for_each toDelete (DeleteHeaderMatcher dao) ;;;
  _ <- DeleteHashPolicyByRouteId dao (Route_Id updateRequest) ;;
  policies <- map_each (Route_HashPolicies updateRequest) (fun p =>
    SaveHashPolicy dao (p <| HashPolicy_RouteId := Route_Id updateRequest |>)) ;;
  DeleteRetryPolicyByRouteId dao (Route_Id updateRequest) ;;;
  retry <- match Route_RetryPolicy updateRequest with
           | None => ret None
           | Some p => p <- SaveRetryPolicy dao (p <| RetryPolicy_RouteId := Route_Id updateRequest |>) ;; ret (Some p)
           end ;;
  ret (updateRequest <| Route_HeaderMatchers := saved |> <| Route_HashPolicies := policies |>
         <| Route_RetryPolicy := retry |>).

Definition storeNewRoute (dao : repo) (newRoute : Route) : prog World Route :=
  let newRoute := newRoute <| Route_Id := 0%Z |> in
  newRoute <- match Route_StatefulSession newRoute with
              | Some _ => saveRouteStatefulSession dao newRoute
              | None => ret newRoute
              end ;;
  newRoute <- SaveRoute dao newRoute ;;
  matchers <- map_each (Route_HeaderMatchers newRoute) (fun m =>
    SaveHeaderMatcher dao (m <| HeaderMatcher_Id := 0%Z |> <| HeaderMatcher_RouteId := Route_Id newRoute |>)) ;;
  retry <- match Route_RetryPolicy newRoute with
           | None => ret None
           | Some p => p <- SaveRetryPolicy dao (p <| RetryPolicy_Id := 0%Z |> <| RetryPolicy_RouteId := Route_Id newRoute |>) ;;
                       ret (Some p)
           end ;;
  policies <- map_each (Route_HashPolicies newRoute) (fun p =>
    SaveHashPolicy dao (p <| HashPolicy_Id := 0%Z |> <| HashPolicy_RouteId := Route_Id newRoute |>)) ;;
  ret (newRoute <| Route_HeaderMatchers := matchers |> <| Route_HashPolicies := policies |>
         <| Route_RetryPolicy := retry |>).

Definition LegacyRouteDisallowed : error :=
  ErrMsg "registering new routes for Legacy or Archived versions is prohibited".

Definition PutRoute (dao : repo) (virtualHostId : Z) (updateRequest : Route) : prog World Route :=
  let updateRequest := updateRequest <| Route_VirtualHostId := virtualHostId |> in
  let updateRequest := updateRequest <| Route_RouteKey := GenerateKey updateRequest |> in
  routes <- FindRoutesByVirtualHostIdAndRouteKey dao virtualHostId (Route_RouteKey updateRequest) ;;
  match routes with
  | existing :: _ => mergeAndStoreRoute dao existing updateRequest
  | [] =>
      dVersion <- FindDeploymentVersion dao (Route_DeploymentVersion updateRequest) ;;
      match dVersion with
      | None => fail (ErrMsg ("expected DeploymentVersion '" ++ Route_DeploymentVersion updateRequest
                               ++ "' not found for route with id '" ++ strconv_Itoa (Route_Id updateRequest) ++ "'"))
      | Some dVersion =>
          if String.eqb (DeploymentVersion_Stage dVersion) LegacyStage
             || String.eqb (DeploymentVersion_Stage dVersion) ArchivedStage
          then fail LegacyRouteDisallowed
          else storeNewRoute dao updateRequest
      end
  end.
Definition PutRoutes (dao : repo) (routes : list Route) : prog World unit :=
  for_each routes (fun r => _ <- PutRoute dao (Route_VirtualHostId r) r ;; ret tt).

Definition deleteRouteByUUIDInternal (dao : repo) (routeToDelete : Route) : prog World unit :=
  _ <- DeleteHashPolicyByRouteId dao (Route_Id routeToDelete) ;;
  DeleteRetryPolicyByRouteId dao (Route_Id routeToDelete) ;;;
  _ <- DeleteHeaderMatchersByRouteId dao (Route_Id routeToDelete) ;;
  (if (Route_StatefulSessionId routeToDelete =? 0)%Z then ret tt
   else DeleteStatefulSessionConfig dao (Route_StatefulSessionId routeToDelete)) ;;;
  Dao.DeleteRouteByUUID dao (Route_Uuid routeToDelete).
Definition DeleteRoutesByUUID (dao : repo) (routesToDelete : list Route) : prog World unit :=
  for_each routesToDelete (deleteRouteByUUIDInternal dao).
(** [Service.DeleteRoutesByAutoGeneratedAndDeploymentVersion] *)
Definition DeleteAutoGeneratedRoutes (dao : repo) (autoGenerated : bool) (dVersion : string) : prog World unit :=
  routesToDelete <- FindRoutesByAutoGeneratedAndDeploymentVersion dao autoGenerated dVersion ;;
  for_each routesToDelete (deleteRouteByUUIDInternal dao).
Definition DeleteRouteCascade (dao : repo) (route : Route) : prog World unit :=
  _ <- DeleteHeaderMatchersByRouteId dao (Route_Id route) ;;
  DeleteRetryPolicyByRouteId dao (Route_Id route) ;;;
  _ <- DeleteHashPolicyByRouteId dao (Route_Id route) ;;
  DeleteStatefulSessionConfig dao (Route_StatefulSessionId route) ;;;
  DeleteRouteById dao (Route_Id route).

(** * Clusters ([cluster.go], [circuitBreaker.go]) *)

Definition RebaseCluster (dao : repo) (cluster : Cluster) : prog World Cluster :=
  existing <- FindClusterByName dao (Cluster_Name cluster) ;;
  ret match existing with
      | None => cluster
      | Some e =>
          let cluster := cluster <| Cluster_Id := Cluster_Id e |>
                           <| Cluster_CircuitBreakerId := Cluster_CircuitBreakerId e |> in
          let cluster := if (Cluster_Version e =? Cluster_Version cluster)%Z
                         then cluster <| Cluster_LbPolicy := Cluster_LbPolicy e |>
                                <| Cluster_DiscoveryType := Cluster_DiscoveryType e |>
                                <| Cluster_DiscoveryTypeOld := Cluster_DiscoveryTypeOld e |>
                         else cluster in
          match Cluster_HttpVersion cluster with
          | None => cluster <| Cluster_HttpVersion := Cluster_HttpVersion e |>
          | Some _ => cluster
          end
      end.
Definition PutCluster (dao : repo) (cluster : Cluster) : prog World Cluster :=
  cluster <- (if (Cluster_Id cluster =? 0)%Z then RebaseCluster dao cluster else ret cluster) ;;
  SaveCluster dao cluster.

Definition updateExistingClusterTcpKeepalive (dao : repo) (existing : Cluster) (newKeepalive : option TcpKeepalive) :
    prog World (option TcpKeepalive) :=
  if (Cluster_TcpKeepaliveId existing =? 0)%Z
  then match newKeepalive with
       | Some k => k <- SaveTcpKeepalive dao k ;; ret (Some k)
       | None => ret None
       end
  else
    existingTcpKeepalive <- FindTcpKeepaliveById dao (Cluster_TcpKeepaliveId existing) ;;
    match existingTcpKeepalive with
    | None => fail (ErrMsg "cluster tcp keepalive for provided ID is missing")
    | Some e =>
        match newKeepalive with
        | None => DeleteTcpKeepaliveById dao (Cluster_TcpKeepaliveId existing) ;;; ret None
        | Some k =>
            e <- SaveTcpKeepalive dao (e <| TcpKeepalive_Probes := TcpKeepalive_Probes k |>
                   <| TcpKeepalive_Time := TcpKeepalive_Time k |>
                   <| TcpKeepalive_Interval := TcpKeepalive_Interval k |>) ;;
            ret (Some e)
        end
    end.
Definition set_keepalive (keepalive : option TcpKeepalive) (c : Cluster) : Cluster :=
  c <| Cluster_TcpKeepalive := keepalive |>
    <| Cluster_TcpKeepaliveId := match keepalive with Some k => TcpKeepalive_Id k | None => 0%Z end |>.
Definition UpdateExistingClusterWithTcpKeepalive (dao : repo) (existing : Cluster) (newKeepalive : option TcpKeepalive) :
    prog World Cluster :=
  res <- updateExistingClusterTcpKeepalive dao existing newKeepalive ;;
  SaveCluster dao (set_keepalive res existing).
Definition saveNewTcpKeepaliveForCluster (dao : repo) (cluster : Cluster) : prog World Cluster :=
  keepalive <- deref (Cluster_TcpKeepalive cluster) ;;
  keepalive <- SaveTcpKeepalive dao keepalive ;;
  ret (set_keepalive (Some keepalive) cluster).
Definition UpdateClusterTcpKeepalive (dao : repo) (cluster : Cluster) : prog World Cluster :=
  existing <- FindClusterByName dao (Cluster_Name cluster) ;;
  match existing with
  | None =>
      match Cluster_TcpKeepalive cluster with
      | None => ret cluster
      | Some _ => saveNewTcpKeepaliveForCluster dao cluster
      end
  | Some existing =>
      res <- updateExistingClusterTcpKeepalive dao existing (Cluster_TcpKeepalive cluster) ;;
      ret (set_keepalive res cluster)
  end.
Definition PutClustersNodeGroupIfAbsent (dao : repo) (relation : ClustersNodeGroup) : prog World unit :=
  found <- FindClustersNodeGroup dao relation ;;
  match found with
  | Some _ => ret tt
  | None => SaveClustersNodeGroup dao relation
  end.

Definition GetClusterWithRelations (dao : repo) (clusterName : string) : prog World (option Cluster) :=
  cluster <- FindClusterByName dao clusterName ;;
  match cluster with
  | None => ret None
  | Some cluster =>
      nodeGroups <- FindNodeGroupsByCluster dao cluster ;;
      endpoints <- LoadEndpointsByClusterId dao (Cluster_Id cluster) ;;
      endpoints <- map_each endpoints (fun e =>
        hp <- try_ok (FindHashPolicyByEndpointId dao (Endpoint_Id e)) ;;
        ret (e <| Endpoint_HashPolicies := default [] hp |>)) ;;
      healthChecks <- FindHealthChecksByClusterId dao (Cluster_Id cluster) ;;
      ret (Some (cluster <| Cluster_NodeGroups := nodeGroups |> <| Cluster_Endpoints := endpoints |>
                   <| Cluster_HealthChecks := healthChecks |>))
  end.
(** The clusters of the list are the objects [FindClusterByName] returns and
    loads the relations of, unless another cluster has the same name. *)
Definition GetClustersWithRelations (dao : repo) : prog World (list Cluster) :=
  clusters <- FindAllClusters dao ;;
  map_each clusters (fun c =>
    loaded <- GetClusterWithRelations dao (Cluster_Name c) ;;
    ret match loaded with
        | Some l => if (Cluster_Id l =? Cluster_Id c)%Z then l else c
        | None => c
        end).

Definition DeleteCircuitBreakerCascadeById (dao : repo) (id : Z) : prog World unit :=
  circuitBreaker <- FindCircuitBreakerById dao id ;;
  circuitBreaker <- deref circuitBreaker ;;
  (if (CircuitBreaker_ThresholdId circuitBreaker =? 0)%Z then ret tt
   else DeleteThresholdById dao (CircuitBreaker_ThresholdId circuitBreaker)) ;;;
  DeleteCircuitBreakerById dao id.

Definition DeleteOrphanedStatefulSessionByCluster (dao : repo) (cluster : Cluster) : prog World unit :=
  sessions <- FindStatefulSessionConfigsByCluster dao cluster ;;
  for_each sessions (fun session =>
    route <- FindRouteByStatefulSession dao (StatefulSession_Id session) ;;
    match route with
    | Some _ => ret tt
    | None =>
        endpoint <- FindEndpointByStatefulSession dao (StatefulSession_Id session) ;;
        match endpoint with
        | Some _ => ret tt
        | None =>
            clusters <- FindClustersByFamilyNameAndNamespace dao (StatefulSession_ClusterName session)
                          (mkNamespace (StatefulSession_Namespace session)) ;;
            if existsb (fun c => negb (Cluster_Id c =? Cluster_Id cluster)%Z) clusters then ret tt
            else DeleteStatefulSessionConfig dao (StatefulSession_Id session)
        end
    end).

Definition DeleteClusterCascade (dao : repo) (cluster : option Cluster) : prog World unit :=
  cluster <- deref cluster ;;
  endpoints <- FindEndpointsByClusterId dao (Cluster_Id cluster) ;;
  for_each endpoints (DeleteEndpointCascade dao) ;;;
  routes <- FindRoutesByClusterName dao (Cluster_Name cluster) ;;
  for_each routes (DeleteRouteCascade dao) ;;;
  _ <- DeleteHealthChecksByClusterId dao (Cluster_Id cluster) ;;
  _ <- DeleteClustersNodeGroupByClusterId dao (Cluster_Id cluster) ;;
  DeleteOrphanedStatefulSessionByCluster dao cluster ;;;
  (if (Cluster_CircuitBreakerId cluster =? 0)%Z then ret tt
   else DeleteCircuitBreakerCascadeById dao (Cluster_CircuitBreakerId cluster)) ;;;
  (if (Cluster_TcpKeepaliveId cluster =? 0)%Z then ret tt
   else DeleteTcpKeepaliveById dao (Cluster_TcpKeepaliveId cluster)) ;;;
  DeleteCluster dao cluster.
Definition DeleteClusterCascadeByName (dao : repo) (clusterName : string) : prog World unit :=
  cluster <- FindClusterByName dao clusterName ;; DeleteClusterCascade dao cluster.

(** * Virtual hosts ([virtualhost.go], [virtualservice.go]) *)

(** [util.MergeVirtualHostDomainsSlices] *)
Definition MergeVirtualHostDomainsSlices (sourceSlice sliceToMerge : list VirtualHostDomain) : list VirtualHostDomain :=
  fold_left (fun source elemToAdd =>
    if existsb (fun sourceElem => VirtualHostDomain_Equals false elemToAdd (Some sourceElem)) source
    then source else (source ++ [elemToAdd])%list) sliceToMerge sourceSlice.
Definition mergeVirtualHosts (dao : repo) (newVirtualHost existingVirtualHost : VirtualHost) : prog World VirtualHost :=
  existingDomains <- FindVirtualHostDomainByVirtualHostId dao (VirtualHost_Id existingVirtualHost) ;;
  let domains := (fun d : VirtualHostDomain => d <| VirtualHostDomain_VirtualHostId := VirtualHost_Id existingVirtualHost |>)
                   <$> VirtualHost_Domains newVirtualHost in
  ret (newVirtualHost <| VirtualHost_Domains := MergeVirtualHostDomainsSlices existingDomains domains |>).
Definition DeleteVirtualHostDomains (dao : repo) (domains : list VirtualHostDomain) : prog World unit :=
  for_each domains (DeleteVirtualHostsDomain dao).
Definition DeleteVirtualHostDomainsByVirtualHost (dao : repo) (virtualHost : VirtualHost) : prog World unit :=
  virtualHostDomains <- FindVirtualHostDomainByVirtualHostId dao (VirtualHost_Id virtualHost) ;;
  for_each virtualHostDomains (DeleteVirtualHostsDomain dao).
Definition validateVirtualHostDomain (dao : repo) (domainToSave : VirtualHostDomain) (virtualHostId : Z) : prog World unit :=
  existingDomains <- FindVirtualHostDomainsByHost dao (VirtualHostDomain_Domain domainToSave) ;;
  for_each existingDomains (fun existingDomain =>
    if String.eqb (VirtualHostDomain_Domain domainToSave) (VirtualHostDomain_Domain existingDomain)
       && negb (VirtualHostDomain_VirtualHostId domainToSave =? VirtualHostDomain_VirtualHostId existingDomain)%Z
    then
      routeConfig <- FindRouteConfigurationByVirtualHostId dao virtualHostId ;;
      anotherRouteConfig <- FindRouteConfigurationByVirtualHostId dao (VirtualHostDomain_VirtualHostId existingDomain) ;;
      routeConfig <- deref routeConfig ;;
      anotherRouteConfig <- deref anotherRouteConfig ;;
      if String.eqb (RouteConfiguration_NodeGroupId routeConfig) (RouteConfiguration_NodeGroupId anotherRouteConfig)
      then fail (ErrMsg ("entity: node group " ++ RouteConfiguration_NodeGroupId routeConfig
                          ++ " already contains another virtual service with domain " ++ VirtualHostDomain_Domain domainToSave))
      else ret tt
    else ret tt).
Definition SaveVirtualHostDomains (dao : repo) (domains : list VirtualHostDomain) (virtualHostId : Z) : prog World unit :=
  for_each domains (fun domainToSave =>
    let domainToSave := domainToSave <| VirtualHostDomain_VirtualHostId := virtualHostId |> in
    validateVirtualHostDomain dao domainToSave virtualHostId ;;;
    SaveVirtualHostDomain dao domainToSave).
Definition PutVirtualHost (dao : repo) (virtualHost : VirtualHost) : prog World VirtualHost :=
  found <- (if (VirtualHost_Id virtualHost =? 0)%Z
            then existing <- FindFirstVirtualHostByNameAndRouteConfigurationId dao
                   (VirtualHost_Name virtualHost) (VirtualHost_RouteConfigurationId virtualHost) ;;
                 ret (match existing with
                      | Some e => virtualHost <| VirtualHost_Id := VirtualHost_Id e |>
                      | None => virtualHost
                      end, existing)
            else existing <- FindVirtualHostById dao (VirtualHost_Id virtualHost) ;;
                 ret (virtualHost, existing)) ;;
  let '(virtualHost, existing) := found in
  virtualHost <- match existing with
                 | Some e => mergeVirtualHosts dao virtualHost e
                 | None => ret virtualHost
                 end ;;
  virtualHost <- SaveVirtualHost dao virtualHost ;;
  let virtualHost : VirtualHost := virtualHost in
  (match VirtualHost_Domains virtualHost with
   | [] => ret tt
   | domains => SaveVirtualHostDomains dao domains (VirtualHost_Id virtualHost)
   end) ;;;
  ret virtualHost.

Definition LoadVirtualHostRelations (dao : repo) (virtualHost : VirtualHost) : prog World VirtualHost :=
  domains <- FindVirtualHostDomainByVirtualHostId dao (VirtualHost_Id virtualHost) ;;
  routes <- FindRoutesByVirtualHostId dao (VirtualHost_Id virtualHost) ;;
  routes <- map_each routes (LoadRouteRelations dao) ;;
  rateLimit <- FindRateLimitByNameWithHighestPriority dao (VirtualHost_RateLimitId virtualHost) ;;
  ret (virtualHost <| VirtualHost_Domains := domains |> <| VirtualHost_Routes := routes |>
         <| VirtualHost_RateLimit := rateLimit |>).
Definition FindVirtualHostsByRouteConfig (dao : repo) (routeConfigId : Z) : prog World (list VirtualHost) :=
  virtualHosts <- FindVirtualHostsByRouteConfigurationId dao routeConfigId ;;
  map_each virtualHosts (LoadVirtualHostRelations dao).
Definition GetRouteConfigurationsWithRelations (dao : repo) : prog World (list RouteConfiguration) :=
  routeConfigs <- FindAllRouteConfigs dao ;;
  map_each routeConfigs (fun rc =>
    vhs <- FindVirtualHostsByRouteConfig dao (RouteConfiguration_Id rc) ;;
    ret (rc <| RouteConfiguration_VirtualHosts := vhs |>)).
(** The loop over the route configurations of the node group. *)
Fixpoint find_virtual_host (dao : repo) (virtualService : string) (routeConfigs : list RouteConfiguration) :
    prog World (option VirtualHost) :=
  match routeConfigs with
  | [] => ret None
  | rc :: rest =>
      virtualHosts <- FindVirtualHostsByRouteConfigurationId dao (RouteConfiguration_Id rc) ;;
      match List.find (fun vh => String.eqb (VirtualHost_Name vh) virtualService) virtualHosts with
      | Some vh => ret (Some vh)
      | None => find_virtual_host dao virtualService rest
      end
  end.
Definition FindVirtualHostByNameAndNodeGroup (dao : repo) (nodeGroup virtualService : string) : prog World VirtualHost :=
  ng <- FindNodeGroupByName dao nodeGroup ;;
  match ng with
  | None => fail (ErrMsg ("Nodegroup " ++ nodeGroup ++ " not found"))
  | Some _ =>
      routeConfigs <- FindRouteConfigsByNodeGroupId dao nodeGroup ;;
      found <- find_virtual_host dao virtualService routeConfigs ;;
      match found with
      | Some vh => ret vh
      | None => fail (ErrMsg ("virtualService " ++ virtualService ++ " for node group " ++ nodeGroup ++ " not found"))
      end
  end.
Definition LoadVirtualHostRelationByNameAndNodeGroup (dao : repo) (nodeGroup virtualService : string) : prog World VirtualHost :=
  virtualHost <- FindVirtualHostByNameAndNodeGroup dao nodeGroup virtualService ;;
  LoadVirtualHostRelations dao virtualHost.
Definition FindVirtualHostsByNodeGroup (dao : repo) (nodeGroup : string) : prog World (list VirtualHost) :=
  routeConfigs <- FindRouteConfigsByNodeGroupId dao nodeGroup ;;
  fold_each routeConfigs [] (fun result rc =>
    virtualHosts <- FindVirtualHostsByRouteConfig dao (RouteConfiguration_Id rc) ;;
    ret (result ++ virtualHosts)%list).

Definition DeleteVirtualServiceByNodeGroupAndName (dao : repo) (nodeGroup virtualServiceName : string) : prog World unit :=
  virtualHost <- LoadVirtualHostRelationByNameAndNodeGroup dao nodeGroup virtualServiceName ;;
  for_each (VirtualHost_Routes virtualHost) (DeleteRouteCascade dao) ;;;
  let clusters := elements (list_to_set (Route_ClusterName <$> VirtualHost_Routes virtualHost) : gset string) in
  DeleteVirtualHostDomainsByVirtualHost dao virtualHost ;;;
  DeleteVirtualHost dao virtualHost ;;;
  clusters <- range clusters ;;
  for_each clusters (fun clusterName =>
    routes <- FindRoutesByClusterName dao clusterName ;;
    match routes with
    | _ :: _ => ret tt
    | [] => DeleteClusterCascadeByName dao clusterName
    end).

(** * Prohibit routes ([route/business/autogenerated.go]) *)

(** The matcher for a foreign namespace is appended to [route], the object the
    caller passed, and not to the new route: the pair is the new route and
    [route] afterwards. *)
Definition GenerateProhibitRoute (route : Route) (namespace : Namespace) (deploymentVersion : string) :
    prog World (Route * Route) :=
  let newRoute :=
    route <| Route_Id := 0%Z |> <| Route_ClusterName := "" |> <| Route_HostRewrite := "" |>
      <| Route_HostAutoRewrite := NewNullBool false |> <| Route_PrefixRewrite := "" |>
      <| Route_RegexpRewrite := "" |> <| Route_PathRewrite := "" |>
      <| Route_DirectResponseCode := 404%Z |> <| Route_Autogenerated := true |>
      <| Route_DeploymentVersion := deploymentVersion |>
      <| Route_InitialDeploymentVersion := deploymentVersion |> in
  let route :=
    if IsCurrentNamespace namespace then route
    else route <| Route_HeaderMatchers :=
           (Route_HeaderMatchers route ++
            [(zero : HeaderMatcher) <| HeaderMatcher_Name := "namespace" |> <| HeaderMatcher_Version := 1%Z |>
               <| HeaderMatcher_ExactMatch := Namespace_Namespace namespace |>])%list |> in
  uuid <- NewUuid ;;
  ret (newRoute <| Route_Uuid := uuid |>, route).
Definition GenerateProhibitRoutes (routes : list Route) (namespace : Namespace) (deploymentVersion : string) :
    prog World (list Route) :=
  map_each routes (fun r => p <- GenerateProhibitRoute r namespace deploymentVersion ;; ret p.1).
Definition route_pattern (r : Route) : string :=
  if String.eqb (Route_Regexp r) "" then Route_Prefix r else Route_Regexp r.
Definition getDelta (activeRoutes candidateRoutes requestRoutes : list Route) : list Route :=
  let candidateKeys := ((route_pattern <$> candidateRoutes) ++ (route_pattern <$> requestRoutes))%list in
  let known key := existsb (String.eqb key) candidateKeys in
  List.filter (fun r => nonempty (Route_Prefix r) && negb (known (Route_Prefix r))
                        || nonempty (Route_Regexp r) && negb (known (Route_Regexp r))) activeRoutes.
(** A failing repository panics. *)
Definition or_panic {A} (m : prog World A) : prog World A :=
  fun w => match m w with (Err _, w') => (Panic "panic", w') | r => r end.
Definition findActiveAndCandidateRoutes (dao : repo) (clusterKey : string) (deploymentVersion : DeploymentVersion) :
    prog World (list Route * list Route) :=
  if String.eqb (DeploymentVersion_Stage deploymentVersion) "CANDIDATE"
  then
    activeVersion <- or_panic (GetActiveDeploymentVersion dao) ;;
    activeRoutes <- or_panic (FindRoutesByClusterNameAndDeploymentVersion dao clusterKey (DeploymentVersion_Version activeVersion)) ;;
    candidateRoutes <- or_panic (FindRoutesByClusterNameAndDeploymentVersion dao clusterKey (DeploymentVersion_Version deploymentVersion)) ;;
    ret (activeRoutes, candidateRoutes)
  else ret ([], []).
Definition GenerateRoutes (dao : repo) (clusterKey namespace deploymentVersion : string) (groupedRoutes : list Route) :
    prog World (list Route) :=
  ver <- or_panic (GetOrCreateDeploymentVersion dao deploymentVersion) ;;
  found <- findActiveAndCandidateRoutes dao clusterKey ver ;;
  match getDelta found.1 found.2 groupedRoutes with
  | [] => ret []
  | delta => GenerateProhibitRoutes delta (mkNamespace namespace) (DeploymentVersion_Version ver)
  end.
End entity.

(** * Properties

    What the operations of [Entity] change: frames. *)
From S2P Require Import Prelude GoLib Domain Tables MemDb Msaddr Events RouteKey Runtime Dao DaoSpec.
Open Scope string_scope.

(** All tables but the one of deployment versions. *)
Definition not_versions (t : table) : bool := negb (bool_decide (t = DeploymentVersionTable)).
#[export] Hint Extern 1 (not_versions _ = true) => reflexivity : frame.
#[export] Hint Extern 1 (any_table _ = true) => reflexivity : frame.
Lemma frame_any `{RL : RuntimeLaws} {A} (m : prog World A) : frame (touches not_versions) m -> frame (touches any_table) m.
Proof. by apply frame_weaken. Qed.
#[export] Hint Resolve frame_any | 9 : frame.

Lemma frame_deref {W A} (D : W -> W -> Prop) `{!PreOrder D} (p : option A) : frame D (deref (W := W) p).
Proof. destruct p; simpl; auto with frame. Qed.
Lemma frame_or_panic `{R : Runtime} {A} (D : World -> World -> Prop) (m : prog World A) : frame D m -> frame D (or_panic m).
Proof. intros H w. unfold or_panic. specialize (H w). by destruct (m w) as [[?|?|?] ?]. Qed.
#[export] Hint Resolve frame_deref frame_or_panic : frame.

Section frames.
Context `{RL : RuntimeLaws} `{H : Sha256} `{E : EntityService}.

Lemma frame_GenerateAndSave dao ng t : frame (touches not_versions) (GenerateAndSave dao ng t).
Proof. solve_frame. Qed.
Lemma frame_DeleteEndpointCascade dao e : frame (touches not_versions) (DeleteEndpointCascade dao e).
Proof. solve_frame. Qed.
Lemma frame_deleteRouteByUUIDInternal dao r : frame (touches not_versions) (deleteRouteByUUIDInternal dao r).
Proof. solve_frame. Qed.
Lemma frame_DeleteAutoGeneratedRoutes dao b v : frame (touches not_versions) (DeleteAutoGeneratedRoutes dao b v).
Proof. unfold DeleteAutoGeneratedRoutes. pose proof frame_deleteRouteByUUIDInternal. solve_frame. Qed.
Lemma frame_DeleteClusterCascade dao c : frame (touches not_versions) (DeleteClusterCascade dao c).
Proof. solve_frame. Qed.
Lemma frame_GetClustersWithRelations dao : frame (touches not_versions) (GetClustersWithRelations dao).
Proof. solve_frame. Qed.
Lemma frame_GenerateProhibitRoute r ns v : frame (touches not_versions) (GenerateProhibitRoute r ns v).
Proof. solve_frame. Qed.

Lemma shrinks_DeleteEndpointCascade dao e : frame (tx_rel shrinks) (DeleteEndpointCascade dao e).
Proof. solve_frame. Qed.
Lemma shrinks_deleteRouteByUUIDInternal dao r : frame (tx_rel shrinks) (deleteRouteByUUIDInternal dao r).
Proof. solve_frame. Qed.
Lemma shrinks_DeleteClusterCascade dao c : frame (tx_rel shrinks) (DeleteClusterCascade dao c).
Proof. solve_frame. Qed.
End frames.
#[export] Hint Resolve frame_GenerateAndSave frame_DeleteEndpointCascade frame_deleteRouteByUUIDInternal
  frame_DeleteAutoGeneratedRoutes frame_DeleteClusterCascade frame_GetClustersWithRelations frame_GenerateProhibitRoute
  shrinks_DeleteEndpointCascade shrinks_deleteRouteByUUIDInternal shrinks_DeleteClusterCascade : frame.

(** * Deployment versions in a transaction *)

Abbreviation version_rows db := (rows db DeploymentVersionTable).

(** The stage of a version, if the version is stored. *)
Definition stage_of `{RL : RuntimeLaws} (db : Db) (v : string) : option string :=
  DeploymentVersion_Stage <$> (version_rows db !! [VStr v] : option DeploymentVersion).

Lemma version_key (x : DeploymentVersion) :
  DeploymentVersion_Version x <> "" -> id_key DeploymentVersionTable x = [VStr (DeploymentVersion_Version x)].
Proof. by destruct x as [[|c v] s cr u]. Qed.
Lemma version_indexable (x : DeploymentVersion) :
  indexable DeploymentVersionTable x = true <->
  DeploymentVersion_Version x <> "" /\ DeploymentVersion_Stage x <> "".
Proof.
  assert (indexable DeploymentVersionTable x
    = nonempty (DeploymentVersion_Version x) && nonempty (DeploymentVersion_Stage x)) as ->.
  { destruct x as [[|c v] [|d s] cr u]; vm_compute; reflexivity. }
  unfold nonempty. by rewrite andb_true_iff, !negb_true_iff, !String.eqb_neq.
Qed.

Section versions.
Context `{RL : RuntimeLaws} `{H : Sha256} `{E : EntityService}.

Lemma version_row db k (x : DeploymentVersion) :
  version_rows db !! k = Some x ->
  k = [VStr (DeploymentVersion_Version x)] /\ DeploymentVersion_Version x <> "" /\ DeploymentVersion_Stage x <> "".
Proof.
  intros Hx. apply (rows_wf db DeploymentVersionTable) in Hx as [Hk Hi]. apply version_indexable in Hi as [Hv Hs].
  rewrite version_key in Hk by done. done.
Qed.

Lemma version_rows_Some db v (x : DeploymentVersion) :
  version_rows db !! [VStr v] = Some x -> DeploymentVersion_Version x = v.
Proof. intros Hx. apply version_row in Hx as (Hk & _). by injection Hk. Qed.

Lemma DeleteDeploymentVersions_in_tx vs w db :
  in_tx w db ->
  exists db', DeleteDeploymentVersions InTx vs w = (Ok tt, set_tx (Some (db', true)) w) /\
    with_rows DeploymentVersionTable
      (foldl (fun m v => delete [VStr (DeploymentVersion_Version v)] m) (version_rows db) vs) db db'.
Proof.
  intros Hw. unfold DeleteDeploymentVersions. rewrite (open_ctx_InTx _ _ _ _ Hw). unfold ignore_err.
  cut (exists db', for_each vs (DeleteDeploymentVersion InTx) w = (Ok tt, set_tx (Some (db', true)) w) /\
    with_rows DeploymentVersionTable
      (foldl (fun m v => delete [VStr (DeploymentVersion_Version v)] m) (version_rows db) vs) db db').
  { intros (db' & -> & ?). by exists db'. }
  revert w db Hw. induction vs as [|v vs IH]; intros w db Hw; simpl.
  - exists db. by rewrite set_tx_in_tx.
  - destruct (DeleteById_in_tx DeploymentVersionTable [VStr (DeploymentVersion_Version v)] w db)
      as (db1 & E1 & R1 & F1); [done..|].
    destruct (IH (set_tx (Some (db1, true)) w) db1) as (db2 & E2 & R2 & F2); [done|].
    exists db2. unfold bind, DeleteDeploymentVersion at 1. rewrite E1, E2. split; [done|].
    split; [by rewrite R2, R1|]. intros t Ht. by rewrite F2, F1.
Qed.

(** Storing a version replaces its row, with a new time of update. *)
Lemma StoreDeploymentVersion_in_tx (v : DeploymentVersion) w db :
  in_tx w db -> DeploymentVersion_Version v <> "" -> DeploymentVersion_Stage v <> "" ->
  exists db' w', let v' := v <| DeploymentVersion_UpdatedWhen := time_Now (w_tick w) |> in
    StoreDeploymentVersion InTx v w = (Ok v', w') /\ in_tx w' db' /\
    w_db w' = w_db w /\
    with_rows DeploymentVersionTable (<[[VStr (DeploymentVersion_Version v)] := v']> (version_rows db)) db db'.
Proof.
  intros Hw Hv Hs. set (k := [VStr (DeploymentVersion_Version v)]).
  set (v' := v <| DeploymentVersion_UpdatedWhen := time_Now (w_tick w) |>).
  unfold StoreDeploymentVersion.
  assert (forall w1 db1, in_tx w1 db1 -> w_tick w1 = w_tick w -> w_db w1 = w_db w ->
      with_rows DeploymentVersionTable (delete k (version_rows db)) db db1 \/ db1 = db ->
      exists db' w', (now <- Now ;;
        let version := v <| DeploymentVersion_UpdatedWhen := now |> in
        SaveDeploymentVersion InTx version ;;; ret version) w1 = (Ok v', w') /\ in_tx w' db' /\ w_db w' = w_db w /\
        with_rows DeploymentVersionTable (<[k := v']> (version_rows db)) db db') as Hsave.
  { intros w1 db1 Hw1 Ht Hd H1.
    destruct (SaveEntity_in_tx DeploymentVersionTable v' (set_tick (S (w_tick w1)) w1) db1) as (db' & E1 & R1 & F1);
      [done|by apply version_indexable|].
    exists db', (set_tx (Some (db', true)) (set_tick (S (w_tick w1)) w1)).
    unfold SaveDeploymentVersion, Now, tick, bind, ret. rewrite Ht in *. fold v'. rewrite E1.
    split_and!; [done..|by simpl|]. rewrite (version_key v') in R1 by done.
    change (DeploymentVersion_Version v') with (DeploymentVersion_Version v) in R1. fold k in R1.
    destruct H1 as [[R0 F0]| ->]; split; [|intros t Ht'; by rewrite F1, F0|done..].
    rewrite R1, R0. apply insert_delete_eq. }
  unfold FindDeploymentVersion. unfold bind at 1. rewrite (FindById_in_tx _ _ _ _ Hw) by done. fold k.
  destruct (version_rows db !! k) as [old|] eqn:Eo.
  - apply version_rows_Some in Eo.
    destruct (DeleteById_in_tx DeploymentVersionTable [VStr (DeploymentVersion_Version old)] w db)
      as (db1 & E1 & R1); [done..|].
    unfold bind at 1, DeleteDeploymentVersion. rewrite E1, Eo in *. apply (Hsave _ db1); [done..|by left].
  - apply (Hsave w db); auto.
Qed.
End versions.

(** * Lookups by deployment version *)

Definition str_key (s : string) : option (list value) := if nonempty s then Some [VStr s] else None.
Lemma str_key_Some s v : v <> "" -> str_key s = Some [VStr v] <-> s = v.
Proof.
  intros Hv. unfold str_key, nonempty. destruct (String.eqb_spec s "") as [->|Hs]; simpl.
  - split; [done|]. by intros <-.
  - split; [by intros [= ->]|by intros ->].
Qed.
Lemma string_index t idx u m f x s :
  schema t !! idx = Some (mkIndexSchema idx u m (StringFieldIndex f)) -> FieldByName t f x = Some (VStr s) ->
  index_key t idx x = str_key s.
Proof. intros Hi Hf. unfold index_key. rewrite Hi. simpl. unfold field_key. simpl. rewrite Hf. simpl. unfold str_key. by destruct (nonempty s). Qed.
Lemma int_string_index t idx u f g x n s :
  schema t !! idx = Some (mkIndexSchema idx u false (CompoundIndex [IntFieldIndex f; StringFieldIndex g] false)) ->
  FieldByName t f x = Some (VInt n) -> FieldByName t g x = Some (VStr s) ->
  index_key t idx x = cons (VInt n) <$> str_key s.
Proof.
  intros Hi Hf Hg. unfold index_key. rewrite Hi. simpl. unfold field_key. simpl. rewrite Hf, Hg. simpl.
  unfold str_key. by destruct (nonempty s).
Qed.
Lemma endpoint_dVersion (x : Endpoint) : index_key EndpointTable "dVersion" x = str_key (Endpoint_DeploymentVersion x).
Proof. eapply string_index; reflexivity. Qed.
Lemma route_dVersion (x : Route) : index_key RouteTable "dVersion" x = str_key (Route_DeploymentVersion x).
Proof. eapply string_index; reflexivity. Qed.
Lemma endpoint_clusterId_dVersion (x : Endpoint) :
  index_key EndpointTable "clusterIdAndDVersion" x
  = cons (VInt (Endpoint_ClusterId x)) <$> str_key (Endpoint_DeploymentVersion x).
Proof. eapply int_string_index; reflexivity. Qed.
Lemma route_uuid (x : Route) :
  index_key RouteTable "uuid" x
  = if is_uuid (Route_Uuid x) then Some [VStr (strings_ToLower (Route_Uuid x))] else None.
Proof.
  assert (schema RouteTable !! "uuid" = Some (mkIndexSchema "uuid" true false (UUIDFieldIndex "Uuid"))) as Hi by reflexivity.
  unfold index_key. rewrite Hi. simpl. unfold field_key. simpl. by destruct (is_uuid _).
Qed.
