(* ===== verification/RegCommon.v ===== *)
(** [services/route/registration/common.go]: which deployment version a
    registered endpoint or route gets, the routes grouped for the generation of
    prohibit routes, and the entities every registration request starts from.

    The TLS mode ([tlsmode.GetMode()]) is a process-wide setting: a parameter. *)
From S2P Require Import Prelude GoLib Domain Tables MemDb Msaddr Events Runtime Dao.
Open Scope string_scope.

(** [util.GetVersionNumber]: [None] is its error.  The argument is not empty. *)
Definition GetVersionNumber (deploymentVersion : string) : option Z :=
  (fun ver => ver mod 2 ^ 64)%Z <$> strconv_Atoi (str_drop 1 deploymentVersion).

Definition DefaultPort : Z := 8080.
Definition TlsPort : Z := 8443.
Definition DefaultProtocol := "http".
Definition TlsProtocol := "https".

Class TlsMode : Type := { tls_preferred : bool }.

Section resolve.
Context `{R : Runtime}.

(** The second half of [ResolveVersions], over the endpoints it found. *)
Definition resolve_among (requestVersion : string) (foundEndpoints : list Endpoint) : string * string :=
  match List.find (fun e => String.eqb requestVersion (Endpoint_InitialDeploymentVersion e)) foundEndpoints with
  | Some e => (Endpoint_InitialDeploymentVersion e, Endpoint_DeploymentVersion e)
  | None =>
      match List.find (fun e => String.eqb requestVersion (Endpoint_DeploymentVersion e)) foundEndpoints with
      | Some e => (Endpoint_InitialDeploymentVersion e, Endpoint_DeploymentVersion e)
      | None => (requestVersion, requestVersion)
      end
  end.

(** The version is newer than the active one. *)
Definition newer_than_active (requestVersion activeVersion : string) : bool :=
  nonempty requestVersion && nonempty activeVersion && negb (String.eqb requestVersion activeVersion)
  && (default 0 (GetVersionNumber activeVersion) <? default 0 (GetVersionNumber requestVersion))%Z.

(** The initial version and the current one. *)
Definition ResolveVersions (dao : repo) (clusterName requestVersion activeVersion : string) : prog World (string * string) :=
  let requestVersion := if String.eqb requestVersion "" then activeVersion else requestVersion in
  if newer_than_active requestVersion activeVersion then ret (requestVersion, requestVersion)
  else
    foundEndpoints <- FindEndpointsByClusterName dao clusterName ;;
    ret (resolve_among requestVersion foundEndpoints).
End resolve.

(** * Routes by namespace, cluster key and version *)

Abbreviation groupedRoutesMap := (gmap string (gmap string (gmap string (list Route)))).

Definition NewGroupedRoutesMap : groupedRoutesMap := ∅.
Definition PutGroupedRoute (namespace clusterKey deploymentVersion : string) (route : Route) (m : groupedRoutesMap) :
    groupedRoutesMap :=
  let namespace := if String.eqb namespace "" then DefaultNamespace else namespace in
  let deploymentVersion := if String.eqb deploymentVersion "" then "default" else deploymentVersion in
  let byCluster := default ∅ (m !! namespace) in
  let byVersion := default ∅ (byCluster !! clusterKey) in
  let routes := default [] (byVersion !! deploymentVersion) in
  <[namespace := <[clusterKey := <[deploymentVersion := (routes ++ [route])%list]> byVersion]> byCluster]> m.

Section groups.
Context `{R : Runtime}.

Definition ForEachGroup (m : groupedRoutesMap) (function : string -> string -> string -> list Route -> prog World unit) :
    prog World unit :=
  namespaces <- range (map_to_list m) ;;
  for_each namespaces (fun n =>
    clusters <- range (map_to_list n.2) ;;
    for_each clusters (fun c =>
      groups <- range (map_to_list c.2) ;;
      for_each groups (fun v => function n.1 c.1 v.1 v.2))).
End groups.

Record ProcessedRequest := mkProcessedRequest {
  Req_NodeGroups : list NodeGroup;
  Req_Listeners : list Listener;
  Req_Clusters : list Cluster;
  Req_ClusterNodeGroups : gmap string (list string);
  Req_RouteConfigurations : list RouteConfiguration;
  Req_GroupedRoutes : groupedRoutesMap;
  Req_DeploymentVersions : list string;
  Req_ClusterTlsConfig : gmap string string;
  Req_RouteRateLimit : gmap string string
}.

(** * [CommonEntityBuilder] *)

Section builder.
Context `{E : Environment} `{T : TlsMode}.
Variable NodeGroupName : string.

Definition CreateNodeGroup : NodeGroup := (zero : NodeGroup) <| NodeGroup_Name := NodeGroupName |>.
Definition getProto (tlsSupported : bool) : string :=
  if tlsSupported && tls_preferred then TlsProtocol else DefaultProtocol.
Definition createListenerV2 (loopback : bool) (proto : string) (port : Z) : Listener :=
  let ipVersion := os_Getenv "IP_STACK" in
  let ipVersion := if String.eqb ipVersion "" then "v4" else ipVersion in
  let binder := if String.eqb ipVersion "v4"
                then if loopback then "127.0.0.1" else "0.0.0.0"
                else if loopback then "::1" else "::" in
  let name := NodeGroupName ++ "-listener" in
  let name := if negb (port =? DefaultPort)%Z && negb (port =? TlsPort)%Z
              then name ++ "-" ++ strconv_Itoa port else name in
  (zero : Listener) <| Listener_Name := name |> <| Listener_BindHost := binder |>
    <| Listener_BindPort := strconv_Itoa port |>
    <| Listener_RouteConfigurationName := NodeGroupName ++ "-routes" |>
    <| Listener_Version := 1%Z |> <| Listener_NodeGroupId := NodeGroupName |>
    <| Listener_WithTls := String.eqb proto TlsProtocol |>.
Definition CreateListener : Listener := createListenerV2 false DefaultProtocol DefaultPort.
Definition CreateListenerWithCustomPort (port : Z) (tlsSupported : bool) : Listener :=
  let port := if (port =? 0)%Z then DefaultPort else port in
  createListenerV2 false (getProto tlsSupported) port.
Definition CreateRouteConfiguration : RouteConfiguration :=
  (zero : RouteConfiguration) <| RouteConfiguration_Name := NodeGroupName ++ "-routes" |>
    <| RouteConfiguration_NodeGroupId := NodeGroupName |> <| RouteConfiguration_Version := 1%Z |>.
Definition CreateVirtualHost : VirtualHost :=
  (zero : VirtualHost) <| VirtualHost_Name := NodeGroupName |> <| VirtualHost_Version := 1%Z |>.
Definition CreateVirtualHostDomain : VirtualHostDomain :=
  (zero : VirtualHostDomain) <| VirtualHostDomain_Domain := "*" |> <| VirtualHostDomain_Version := 1%Z |>.

(** The endpoint, and the cluster it was added to unless it was there. *)
Definition resolveEndpoint (cluster : Cluster) (msAddress : MicroserviceAddress) (deploymentVersion : string) :
    Endpoint * Cluster :=
  let endpointAddress := GetNamespacedMicroserviceHost msAddress in
  let endpointPort := MsAddr_Port msAddress in
  match List.find (fun e => String.eqb (Endpoint_Address e) endpointAddress && (Endpoint_Port e =? endpointPort)%Z
                            && String.eqb (Endpoint_DeploymentVersion e) deploymentVersion) (Cluster_Endpoints cluster) with
  | Some e => (e, cluster)
  | None =>
      let endpoint := (zero : Endpoint) <| Endpoint_Address := endpointAddress |> <| Endpoint_Port := endpointPort |>
        <| Endpoint_Protocol := MsAddr_Proto msAddress |> <| Endpoint_DeploymentVersion := deploymentVersion |>
        <| Endpoint_InitialDeploymentVersion := deploymentVersion |> in
      (endpoint, cluster <| Cluster_Endpoints := (Cluster_Endpoints cluster ++ [endpoint])%list |>)
  end.
End builder.
