(* ===== verification/LoadBalance.v ===== *)
(** [services/loadbalance]: the load balancing policy of clusters, computed from
    the hash policies of their endpoints. *)
From S2P Require Import Prelude GoLib Domain Tables MemDb Msaddr Events RouteKey Runtime Dao Entity RegCommon.
Open Scope string_scope.

(** [active.IsActiveActiveCluster] *)
Definition DefaultSuffix := "core-active-active".
Definition IsActiveActiveCluster (clusterName : string) : bool := strings_Contains clusterName DefaultSuffix.

Definition balanced_stage (stage : string) : bool := String.eqb stage ActiveStage || String.eqb stage CandidateStage.

Section loadbalance.
Context `{R : Runtime} `{H : Sha256} `{E : EntityService}.

(** The cluster is returned as it is saved. *)
Definition applyLoadBalanceForCluster (needBalancing : bool) (repository : repo) (cluster : Cluster) : prog World Cluster :=
  let cluster := cluster <| Cluster_LbPolicy := if needBalancing then LbPolicyRingHash else LbPolicyLeastRequest |> in
  cluster <- SaveCluster repository cluster ;;
  let cluster : Cluster := cluster in
  for_each (Cluster_NodeGroups cluster) (fun nodeGroup =>
    nodeGroup <- deref nodeGroup ;;
    UpdateAllResourceVersions repository (NodeGroup_Name nodeGroup)) ;;;
  ret cluster.

(** The loop over endpoints; each one's stage is read before its policies. *)
Fixpoint needs_balancing (endpoints : list Endpoint) : prog World bool :=
  match endpoints with
  | [] => ret false
  | e :: rest =>
      dv <- deref (Endpoint_DeploymentVersionVal e) ;;
      match Endpoint_HashPolicies e with
      | _ :: _ => if balanced_stage (DeploymentVersion_Stage dv) then ret true else needs_balancing rest
      | [] => needs_balancing rest
      end
  end.
Definition configureLoadBalanceForCluster (repository : repo) (cluster : Cluster) : prog World Cluster :=
  needBalancing <- needs_balancing (Cluster_Endpoints cluster) ;;
  applyLoadBalanceForCluster needBalancing repository cluster.

Definition ApplyLoadBalanceForAllClusters (dao : repo) : prog World unit :=
  clusters <- GetClustersWithRelations dao ;;
  for_each clusters (fun cluster =>
    if IsActiveActiveCluster (Cluster_Name cluster) then ret tt
    else _ <- configureLoadBalanceForCluster dao cluster ;; ret tt).

(** The same policy objects are saved for every endpoint of the version: the
    first save gives them an id, which the next ones keep. *)
Definition processClusterWithHashPolicies (dao : repo) (cluster : Cluster) (version : string) (policies : list HashPolicy) :
    prog World (list (option NodeGroup)) :=
  let needBalancing := match policies with [] => false | _ => true end in
  state <- fold_each (Cluster_Endpoints cluster) (needBalancing, policies) (fun '(needBalancing, policies) endpoint =>
    if negb (String.eqb version (Endpoint_DeploymentVersion endpoint))
    then
      match Endpoint_HashPolicies endpoint with
      | _ :: _ =>
          if needBalancing : bool then ret (needBalancing, policies)
          else dv <- deref (Endpoint_DeploymentVersionVal endpoint) ;;
               ret (balanced_stage (DeploymentVersion_Stage dv), policies)
      | [] => ret (needBalancing, policies)
      end
    else
      for_each (Endpoint_HashPolicies endpoint) (fun policy => DeleteHashPolicyById dao (HashPolicy_Id policy)) ;;;
      policies <- map_each policies (fun policy : HashPolicy =>
        SaveHashPolicy dao (policy <| HashPolicy_EndpointId := Endpoint_Id endpoint |>)) ;;
      ret (needBalancing, policies)) ;;
  cluster <- applyLoadBalanceForCluster state.1 dao cluster ;;
  ret (Cluster_NodeGroups cluster).

Definition applyLoadBalanceConfigInternal (dao : repo) (clusterName version : string) (policies : list HashPolicy) :
    prog World (list (option NodeGroup)) :=
  cluster <- GetClusterWithRelations dao clusterName ;;
  match cluster with
  | None => fail (ErrMsg ("Cluster with name " ++ clusterName ++ " is not present"))
  | Some cluster => processClusterWithHashPolicies dao cluster version policies
  end.

Definition publishChanges (nodeGroups : list (option NodeGroup)) (changes : list Change) : prog World unit :=
  for_each nodeGroups (fun n =>
    n <- deref n ;;
    Publish TopicChanges (NewChangeEventByNodeGroup (NodeGroup_Name n) changes)).

Definition ApplyLoadBalanceConfig (clusterName version : string) (policies : list HashPolicy) : prog World unit :=
  activeVersion <- GetActiveDeploymentVersion Local ;;
  versions <- ResolveVersions Local clusterName version (DeploymentVersion_Version activeVersion) ;;
  result <- WithWTxVal (applyLoadBalanceConfigInternal InTx clusterName versions.2 policies) ;;
  publishChanges result.1 result.2.

Definition ConfigureLoadBalanceForAllClusters : prog World unit :=
  result <- WithWTxVal (ApplyLoadBalanceForAllClusters InTx ;;; FindAllNodeGroups InTx) ;;
  publishChanges (Some <$> result.1) result.2.
End loadbalance.
