(* ===== verification/Requests.v ===== *)
(** [services/route/registration/v1.go], [v2.go], [v3.go]: a registration request
    of each version of the API becomes a [ProcessedRequest] of the domain model.

    The processors read the endpoints through the DAO itself, outside of a
    transaction.  The clusters of a request are collected in a map from their
    names; its iteration order is arbitrary.  A route is put both in its
    virtual host and in the grouped routes; the generator of prohibit routes
    only reads the prefix and the regular expression of the latter, which
    nothing changes in between. *)
From S2P Require Import Prelude GoLib Domain Tables MemDb Msaddr Events Runtime Dao RegCommon Format RouteCreation Dto.
Open Scope string_scope.

Section requests.
Context `{R : Runtime} `{T : TlsMode}.

Definition endpoint_addr (e : Endpoint) : string := Endpoint_Address e ++ ":" ++ strconv_Itoa (Endpoint_Port e).

(** The cluster of a name, made if it is not there yet. *)
Definition cluster_named (clusterName : string) (clusters : gmap string Cluster) : Cluster :=
  default (NewCluster clusterName false) (clusters !! clusterName).

(** What a request has been turned into so far. *)
Record Processing := mkProcessing {
  P_Clusters : gmap string Cluster;
  P_ClusterTlsConfig : gmap string string;
  P_Routes : list Route;
  P_Versions : gset string;
  P_GroupedRoutes : groupedRoutesMap
}.
Definition nothing_processed : Processing := mkProcessing ∅ ∅ [] ∅ NewGroupedRoutesMap.

(** The end of the processors of versions 1 and 2: one gateway, its listener,
    and one virtual host for any domain. *)
Definition processed_request (nodeGroupName : string) (p : Processing) (versions : prog World (list string)) : prog World ProcessedRequest :=
  clusters <- range (map_to_list (P_Clusters p)) ;;
  versions <- versions ;;
  let virtualHost := (CreateVirtualHost nodeGroupName) <| VirtualHost_Domains := [CreateVirtualHostDomain] |>
                       <| VirtualHost_Routes := P_Routes p |> in
  let routeConfiguration := (CreateRouteConfiguration nodeGroupName) <| RouteConfiguration_VirtualHosts := [virtualHost] |> in
  ret (mkProcessedRequest [CreateNodeGroup nodeGroupName] [CreateListener nodeGroupName] clusters.*2
         (list_to_map ((fun c => (Cluster_Name c, [nodeGroupName])) <$> clusters.*2))
         [routeConfiguration] (P_GroupedRoutes p) versions (P_ClusterTlsConfig p) ∅).

(** * Version 1 *)

Record RouteEntityRequest := mkRouteEntityRequest {
  microserviceUrl : string;
  isAllowed : bool;
  routes : list RouteEntry
}.

Definition process_entry_v1 (req : RouteEntityRequest) (activeVersion : string) (p : Processing) (routeEntry : RouteEntry) :
    prog World Processing :=
  msAddress <- lift (NewMicroserviceAddress (microserviceUrl req) (namespace routeEntry)) ;;
  let clusterName := GenerateClusterKey "" msAddress in
  versions <- ResolveVersions Local clusterName "" activeVersion ;;
  let '(initialDeploymentVersion, deploymentVersion) := versions in
  let '(endpoint, cluster) := resolveEndpoint (cluster_named clusterName (P_Clusters p)) msAddress activeVersion in
  let clusters := <[clusterName := cluster]> (P_Clusters p) in
  let tls := if String.eqb (MsAddr_Proto msAddress) "https" || (Endpoint_Port endpoint =? 443)%Z
             then <[Cluster_Name cluster := ExtractFamilyName clusterName ++ "-tls"]> (P_ClusterTlsConfig p)
             else P_ClusterTlsConfig p in
  isValidRoute <- lift (IsValidRoute routeEntry) ;;
  if negb isValidRoute then ret (mkProcessing clusters tls (P_Routes p) (P_Versions p) (P_GroupedRoutes p))
  else
    route <- CreateRoute routeEntry 0 (from routeEntry) (endpoint_addr endpoint) clusterName
               (timeout routeEntry) DefaultIdleTimeoutSpec deploymentVersion initialDeploymentVersion [] [] [] ;;
    route <- lift (if isAllowed req then ConfigureAllowedRoute routeEntry route
                   else Ok (ConfigureProhibitedRoute route false)) ;;
    ret (mkProcessing clusters tls (P_Routes p ++ [route])%list (P_Versions p) (P_GroupedRoutes p)).

Definition ProcessRequestV1 (nodeGroupName : string) (regRequest : RouteEntityRequest) (activeVersion : string) :
    prog World ProcessedRequest :=
  p <- fold_each (routes regRequest) nothing_processed (process_entry_v1 regRequest activeVersion) ;;
  processed_request nodeGroupName p (ret []).

(** * Version 2 *)

Definition process_item_v2 (req : dto.RouteRegistrationRequest) (endpointAddr clusterName deploymentVersion initialDeploymentVersion : string)
    (p : Processing) (routeItem : dto.RouteItem) : prog World Processing :=
  let routeEntry := mkRouteEntry (dto.RouteItem_Prefix routeItem) (dto.RouteItem_PrefixRewrite routeItem)
                      (dto.RouteRegistrationRequest_Namespace req) (GetInt64Timeout (dto.RouteItem_Timeout routeItem))
                      DefaultIdleTimeoutSpec (HeaderMatchersToDomain (dto.RouteItem_HeaderMatchers routeItem)) in
  isValidRoute <- lift (IsValidRoute routeEntry) ;;
  if negb isValidRoute then ret p
  else
    route <- CreateRoute routeEntry 0 (from routeEntry) endpointAddr clusterName (timeout routeEntry) (idleTimeout routeEntry)
               deploymentVersion initialDeploymentVersion (headerMatchers routeEntry) [] [] ;;
    route <- lift (if default true (dto.RouteRegistrationRequest_Allowed req) then ConfigureAllowedRoute routeEntry route
                   else Ok (ConfigureProhibitedRoute route false)) ;;
    ret (mkProcessing (P_Clusters p) (P_ClusterTlsConfig p) (P_Routes p ++ [route])%list (P_Versions p)
           (PutGroupedRoute (dto.RouteRegistrationRequest_Namespace req) clusterName deploymentVersion route (P_GroupedRoutes p))).

Definition process_request_v2 (activeVersion : string) (p : Processing) (req : dto.RouteRegistrationRequest) : prog World Processing :=
  msAddress <- lift (NewMicroserviceAddress (dto.RouteRegistrationRequest_Endpoint req) (dto.RouteRegistrationRequest_Namespace req)) ;;
  let clusterName := GenerateClusterKey (dto.RouteRegistrationRequest_Cluster req) msAddress in
  versions <- ResolveVersions Local clusterName (dto.RouteRegistrationRequest_Version req) activeVersion ;;
  let '(initialDeploymentVersion, deploymentVersion) := versions in
  let '(endpoint, cluster) := resolveEndpoint (cluster_named clusterName (P_Clusters p)) msAddress deploymentVersion in
  let tls := if String.eqb (MsAddr_Proto msAddress) "https" || (Endpoint_Port endpoint =? 443)%Z
             then <[Cluster_Name cluster := dto.RouteRegistrationRequest_Cluster req ++ "-tls"]> (P_ClusterTlsConfig p)
             else P_ClusterTlsConfig p in
  let p := mkProcessing (<[clusterName := cluster]> (P_Clusters p)) tls (P_Routes p)
             ({[deploymentVersion]} ∪ P_Versions p) (P_GroupedRoutes p) in
  fold_each (dto.RouteRegistrationRequest_Routes req) p
    (process_item_v2 req (endpoint_addr endpoint) clusterName deploymentVersion initialDeploymentVersion).

Definition ProcessRequestV2 (nodeGroupName : string) (regRequests : list dto.RouteRegistrationRequest) (activeVersion : string) :
    prog World ProcessedRequest :=
  p <- fold_each regRequests nothing_processed (process_request_v2 activeVersion) ;;
  processed_request nodeGroupName p (range (elements (P_Versions p))).

(** * Version 3 *)

Definition ConvertRequestHeadersToDomain (addHeaders : list dto.HeaderDefinition) : list Header :=
  (fun h => mkHeader (dto.HeaderDefinition_Name h) (dto.HeaderDefinition_Value h)) <$> addHeaders.
Definition CreateVirtualHostV3 (virtualService : dto.VirtualService) : VirtualHost :=
  (zero : VirtualHost) <| VirtualHost_Name := dto.VirtualService_Name virtualService |>
    <| VirtualHost_RequestHeadersToRemove := dto.VirtualService_RemoveHeaders virtualService |>
    <| VirtualHost_RateLimitId := dto.VirtualService_RateLimit virtualService |>
    <| VirtualHost_Version := 1%Z |>
    <| VirtualHost_RequestHeadersToAdd := ConvertRequestHeadersToDomain (dto.VirtualService_AddHeaders virtualService) |>.

Definition addDomainsToSet (domainsSet : gset string) (host namespace portSuffix : string) : gset string :=
  {[host ++ portSuffix; host ++ "." ++ namespace ++ portSuffix; host ++ "." ++ namespace ++ ".svc" ++ portSuffix;
    host ++ "." ++ namespace ++ ".svc.cluster.local" ++ portSuffix]} ∪ domainsSet.
(** The lookup of IP addresses is a stub. *)
Definition generateAndAddHostsToSet (hostsSet : gset string) (namespace host : string) (port : Z) : gset string :=
  let host := strings_TrimSpace host in
  if String.eqb host "" then hostsSet
  else
    let host := match strings_Index host "://" with Some idx => str_drop (idx + 3) host | None => host end in
    if strings_Contains host "*" then {[host]} ∪ hostsSet
    else match strings_Split host ":" with
         | [h; p] => if strings_Contains host "." then {[host]} ∪ hostsSet
                     else addDomainsToSet hostsSet h namespace (":" ++ p)
         | [h] => if strings_Contains host "." then {[host]} ∪ hostsSet
                  else if negb (port =? 0)%Z then addDomainsToSet hostsSet h namespace (":" ++ strconv_Itoa port)
                  else let hostsSet := addDomainsToSet hostsSet h namespace ":8080" in
                       if tls_preferred then addDomainsToSet hostsSet h namespace ":8443" else hostsSet
         | _ => {[host]} ∪ hostsSet
         end.
Definition domains_of_hosts (namespace : string) (port : Z) (hosts : list string) : gset string :=
  let namespace := if String.eqb namespace "" then CurrentNamespaceAsString else namespace in
  fold_left (fun s host => generateAndAddHostsToSet s namespace host port) hosts ∅.
Definition GenerateDomains (namespace : string) (port : Z) (hosts : list string) : prog World (list string) :=
  range (elements (domains_of_hosts namespace port hosts)).
Definition GenerateVirtualHostDomains (namespace : string) (port : Z) (domains : list string) : prog World (list VirtualHostDomain) :=
  actualDomains <- GenerateDomains namespace port domains ;;
  ret ((fun host => (zero : VirtualHostDomain) <| VirtualHostDomain_Domain := host |> <| VirtualHostDomain_Version := 1%Z |>)
         <$> actualDomains).
Definition CreateVirtualHostDomains (namespace : string) (port : Z) (hosts : list string) : prog World (list VirtualHostDomain) :=
  match hosts with
  | [] => ret [CreateVirtualHostDomain]
  | _ => GenerateVirtualHostDomains namespace port hosts
  end.

Definition isEndpointSupportedTls (destination : dto.RouteDestination) : bool :=
  strings_Contains (dto.RouteDestination_Endpoint destination) TlsProtocol || dto.RouteDestination_TlsSupported destination.
Definition getEndpoint (destination : dto.RouteDestination) (tlsSupported : bool) : string :=
  if tlsSupported && tls_preferred && nonempty (dto.RouteDestination_TlsEndpoint destination)
  then dto.RouteDestination_TlsEndpoint destination else dto.RouteDestination_Endpoint destination.
Definition resolveClusterNameAndMsAddress (destination : dto.RouteDestination) (namespace : string) (tlsSupported : bool) :
    result (string * MicroserviceAddress) :=
  let endpointTlsSupported := isEndpointSupportedTls destination || tlsSupported in
  match NewMicroserviceAddress (getEndpoint destination endpointTlsSupported) namespace with
  | Ok msAddress => Ok (GenerateClusterKey (dto.RouteDestination_Cluster destination) msAddress, msAddress)
  | Err e => Err e
  | Panic p => Panic p
  end.
Definition processClusterInternal (destination : dto.RouteDestination) (msAddress : MicroserviceAddress)
    (clusterName deploymentVersion : string) : Cluster :=
  let '(endpoint, cluster) :=
    resolveEndpoint (NewCluster2 clusterName (dto.RouteDestination_HttpVersion destination)) msAddress deploymentVersion in
  let cluster :=
    if nonempty (dto.RouteDestination_TlsConfigName destination)
    then cluster <| Cluster_TLS := Some ((zero : TlsConfig) <| TlsConfig_Name := dto.RouteDestination_TlsConfigName destination |>) |>
    else if String.eqb (Endpoint_Protocol endpoint) "https" || (Endpoint_Port endpoint =? 443)%Z
    then cluster <| Cluster_TLS := Some ((zero : TlsConfig) <| TlsConfig_Name := dto.RouteDestination_Cluster destination ++ "-tls" |>) |>
    else cluster in
  let maxConnections := dto.Threshold_MaxConnections (dto.CircuitBreaker_Threshold (dto.RouteDestination_CircuitBreaker destination)) in
  let cluster :=
    if (maxConnections =? 0)%Z then cluster
    else cluster <| Cluster_CircuitBreaker := Some ((zero : CircuitBreaker) <| CircuitBreaker_Threshold :=
           Some ((zero : Threshold) <| Threshold_MaxConnections := int32 maxConnections |>) |>) |> in
  match dto.RouteDestination_TcpKeepalive destination with
  | None => cluster
  | Some k => cluster <| Cluster_TcpKeepalive := Some ((zero : TcpKeepalive)
                <| TcpKeepalive_Probes := int32 (dto.TcpKeepalive_Probes k) |>
                <| TcpKeepalive_Time := int32 (dto.TcpKeepalive_Time k) |>
                <| TcpKeepalive_Interval := int32 (dto.TcpKeepalive_Interval k) |>) |>
  end.
Definition ProcessDestination (destination : dto.RouteDestination) (namespace deploymentVersion : string) (tlsSupported : bool) :
    result Cluster :=
  match resolveClusterNameAndMsAddress destination namespace tlsSupported with
  | Ok (clusterName, msAddress) => Ok (processClusterInternal destination msAddress clusterName deploymentVersion)
  | Err e => Err e
  | Panic p => Panic p
  end.

(** The request of one gateway so far, and the routes of the virtual host that
    is being built. *)
Record GatewayProcessing := mkGatewayProcessing {
  G_Clusters : list Cluster;
  G_ClusterNodeGroups : gmap string (list string);
  G_ClusterTlsConfig : gmap string string;
  G_RouteRateLimit : gmap string string;
  G_Versions : gset string;
  G_GroupedRoutes : groupedRoutesMap;
  G_Routes : list Route;
  G_VirtualHosts : list VirtualHost
}.
#[export] Instance GatewayProcessing_eta : Eta GatewayProcessing :=
  fun x => mkGatewayProcessing (G_Clusters x) (G_ClusterNodeGroups x) (G_ClusterTlsConfig x) (G_RouteRateLimit x)
             (G_Versions x) (G_GroupedRoutes x) (G_Routes x) (G_VirtualHosts x).

Definition process_rule (gw namespace clusterName endpointAddr deploymentVersion initialDeploymentVersion : string)
    (g : GatewayProcessing) (rule : dto.Rule) : prog World GatewayProcessing :=
  let m := dto.Rule_Match rule in
  let domainHeaderMatchers := HeaderMatchersToDomain (dto.RouteMatch_HeaderMatchers m) in
  let g := g <| G_RouteRateLimit := <[dto.RouteMatch_Prefix m ++ "||" ++ dto.RouteMatch_Path m := dto.Rule_RateLimit rule]>
                                      (G_RouteRateLimit g) |> in
  let routeEntry := mkRouteEntry (dto.RouteMatch_Prefix m) (dto.Rule_PrefixRewrite rule) namespace
                      (GetInt64Timeout (dto.Rule_Timeout rule)) (GetInt64Timeout (dto.Rule_IdleTimeout rule)) domainHeaderMatchers in
  isValidRoute <- lift (IsValidRoute routeEntry) ;;
  if negb isValidRoute then ret g
  else
    route <- CreateRoute routeEntry 0 (from routeEntry) endpointAddr clusterName (timeout routeEntry) (idleTimeout routeEntry)
               deploymentVersion initialDeploymentVersion domainHeaderMatchers
               (ConvertRequestHeadersToDomain (dto.Rule_AddHeaders rule)) (dto.Rule_RemoveHeaders rule) ;;
    let isDenied := default false (dto.Rule_Deny rule) in
    route <- (if default true (dto.Rule_Allowed rule) && negb isDenied
              then
                route <- lift (ConfigureAllowedRoute routeEntry route) ;;
                let route := match dto.Rule_StatefulSession rule with
                             | None => route
                             | Some s => route <| Route_StatefulSession := ToRouteStatefulSession s gw |>
                             end in
                ret (route <| Route_RateLimitId := dto.Rule_RateLimit rule |> <| Route_LuaFilterName := dto.Rule_LuaFilter rule |>)
              else ret (ConfigureProhibitedRoute route isDenied)) ;;
    let route := route <| Route_HostRewriteLiteral := strings_TrimSpace (dto.Rule_HostRewrite rule) |> in
    ret (g <| G_Routes := (G_Routes g ++ [route])%list |>
           <| G_GroupedRoutes := PutGroupedRoute namespace clusterName deploymentVersion route (G_GroupedRoutes g) |>).

Definition process_route_v3 (gw namespace version activeVersion : string) (tlsSupported : bool)
    (g : GatewayProcessing) (routeV3 : dto.RouteV3) : prog World GatewayProcessing :=
  resolved <- lift (resolveClusterNameAndMsAddress (dto.RouteV3_Destination routeV3) namespace tlsSupported) ;;
  let '(clusterName, msAddress) := resolved in
  versions <- ResolveVersions Local clusterName version activeVersion ;;
  let '(initialDeploymentVersion, deploymentVersion) := versions in
  let cluster := processClusterInternal (dto.RouteV3_Destination routeV3) msAddress clusterName deploymentVersion in
  let tls := match Cluster_TLS cluster with
             | Some tls => <[Cluster_Name cluster := TlsConfig_Name tls]> (G_ClusterTlsConfig g)
             | None => G_ClusterTlsConfig g
             end in
  let cluster := cluster <| Cluster_TLS := None |> in
  let g := g <| G_Versions := {[deploymentVersion]} ∪ G_Versions g |> <| G_ClusterTlsConfig := tls |>
             <| G_ClusterNodeGroups := <[Cluster_Name cluster := [gw]]> (G_ClusterNodeGroups g) |>
             <| G_Clusters := (G_Clusters g ++ [cluster])%list |> in
  match Cluster_Endpoints cluster with
  | [] => panic "index out of range"
  | endpoint :: _ =>
      fold_each (dto.RouteV3_Rules routeV3) g
        (process_rule gw namespace (Cluster_Name cluster) (endpoint_addr endpoint) deploymentVersion initialDeploymentVersion)
  end.

Definition process_virtual_service (gw namespace activeVersion : string) (tlsSupported : bool) (listenerPort : Z)
    (g : GatewayProcessing) (virtualService : dto.VirtualService) : prog World GatewayProcessing :=
  let config := dto.VirtualService_RouteConfiguration virtualService in
  g <- fold_each (dto.RouteConfig_Routes config) (g <| G_Routes := [] |>)
         (process_route_v3 gw namespace (dto.RouteConfig_Version config) activeVersion tlsSupported) ;;
  domains <- CreateVirtualHostDomains namespace listenerPort (default [] (dto.VirtualService_Hosts virtualService)) ;;
  let virtualHost := (CreateVirtualHostV3 virtualService) <| VirtualHost_Routes := G_Routes g |> <| VirtualHost_Domains := domains |> in
  ret (g <| G_VirtualHosts := (G_VirtualHosts g ++ [virtualHost])%list |>).

Definition processGateway (gw namespace activeVersion : string) (tlsSupported : bool) (listenerPort : Z)
    (virtualServices : list dto.VirtualService) : prog World ProcessedRequest :=
  g <- fold_each virtualServices (mkGatewayProcessing [] ∅ ∅ ∅ ∅ NewGroupedRoutesMap [] [])
         (process_virtual_service gw namespace activeVersion tlsSupported listenerPort) ;;
  versions <- range (elements (G_Versions g)) ;;
  let routeConfig := (CreateRouteConfiguration gw) <| RouteConfiguration_VirtualHosts := G_VirtualHosts g |> in
  ret (mkProcessedRequest [CreateNodeGroup gw] [CreateListenerWithCustomPort gw listenerPort tlsSupported] (G_Clusters g)
         (G_ClusterNodeGroups g) [routeConfig] (G_GroupedRoutes g) versions (G_ClusterTlsConfig g) (G_RouteRateLimit g)).

Definition ProcessRequestV3 (request : dto.RoutingConfigRequestV3) (activeVersion : string) : prog World (list ProcessedRequest) :=
  map_each (dto.RoutingConfigRequestV3_Gateways request) (fun gw =>
    processGateway gw (dto.RoutingConfigRequestV3_Namespace request) activeVersion
      (dto.RoutingConfigRequestV3_TlsSupported request) (dto.RoutingConfigRequestV3_ListenerPort request)
      (dto.RoutingConfigRequestV3_VirtualServices request)).
Definition ProcessVirtualServiceRequestV3 (vServiceRequest : dto.VirtualService) (gw activeVersion : string) : prog World ProcessedRequest :=
  processGateway gw "" activeVersion false DefaultPort [vServiceRequest].
End requests.

(** * Properties

    What a processed request of version 3 holds together: its routes, clusters,
    deployment versions and grouped routes agree. *)
From S2P Require Import Prelude GoLib Domain Tables MemDb Msaddr Events Runtime Dao RegCommon Format RouteCreation Dto.
From S2P Require RuntimeModel.
Open Scope string_scope.

(** * Grouped routes *)

Definition group_of (m : groupedRoutesMap) (namespace clusterKey deploymentVersion : string) : list Route :=
  let namespace := if String.eqb namespace "" then DefaultNamespace else namespace in
  let deploymentVersion := if String.eqb deploymentVersion "" then "default" else deploymentVersion in
  default [] (default ∅ (default ∅ (m !! namespace) !! clusterKey) !! deploymentVersion).

Lemma group_of_put_same ns c v r m : r ∈ group_of (PutGroupedRoute ns c v r m) ns c v.
Proof.
  unfold group_of, PutGroupedRoute. cbv zeta. rewrite lookup_insert_eq. simpl. rewrite lookup_insert_eq. simpl.
  rewrite lookup_insert_eq. simpl. apply elem_of_app. right. left.
Qed.
Lemma group_of_put ns c v r m ns' c' v' : group_of m ns' c' v' ⊆ group_of (PutGroupedRoute ns c v r m) ns' c' v'.
Proof.
  unfold group_of, PutGroupedRoute. cbv zeta. generalize (if String.eqb ns "" then DefaultNamespace else ns),
    (if String.eqb ns' "" then DefaultNamespace else ns'), (if String.eqb v "" then "default" else v), (if String.eqb v' "" then "default" else v').
  intros n n' x x'. destruct (decide (n = n')) as [->|Hn]; [rewrite lookup_insert_eq|by rewrite lookup_insert_ne]. simpl.
  destruct (decide (c = c')) as [->|Hc]; [rewrite lookup_insert_eq|by rewrite lookup_insert_ne]. simpl.
  destruct (decide (x = x')) as [->|Hx]; [rewrite lookup_insert_eq|by rewrite lookup_insert_ne]. simpl.
  intros y Hy. apply elem_of_app. by left.
Qed.

Section requests.
Context `{R : Runtime} `{T : TlsMode}.
Variables (gw ns : string).

(** * The invariant *)

Definition cluster_agrees (g : GatewayProcessing) (c : Cluster) : Prop :=
  Cluster_TLS c = None /\ G_ClusterNodeGroups g !! Cluster_Name c = Some [gw] /\
  exists e, Cluster_Endpoints c = [e] /\ Endpoint_DeploymentVersion e ∈ G_Versions g.
Definition route_agrees (g : GatewayProcessing) (r : Route) : Prop :=
  (exists c, c ∈ G_Clusters g /\ Cluster_Name c = Route_ClusterName r) /\ Route_DeploymentVersion r ∈ G_Versions g /\
  r ∈ group_of (G_GroupedRoutes g) ns (Route_ClusterName r) (Route_DeploymentVersion r).
Definition agrees (g : GatewayProcessing) : Prop :=
  (forall c, c ∈ G_Clusters g -> cluster_agrees g c) /\
  (forall r, r ∈ G_Routes g -> route_agrees g r) /\
  (forall vh r, vh ∈ G_VirtualHosts g -> r ∈ VirtualHost_Routes vh -> route_agrees g r).

(** Processing only adds. *)
Definition grows (g g' : GatewayProcessing) : Prop :=
  G_Clusters g ⊆ G_Clusters g' /\ G_Versions g ⊆ G_Versions g' /\
  (forall k, G_ClusterNodeGroups g !! k = Some [gw] -> G_ClusterNodeGroups g' !! k = Some [gw]) /\
  forall a b c, group_of (G_GroupedRoutes g) a b c ⊆ group_of (G_GroupedRoutes g') a b c.
Lemma cluster_agrees_grows g g' c : grows g g' -> cluster_agrees g c -> cluster_agrees g' c.
Proof. intros (_ & Hv & Hn & _) (? & ? & e & ? & ?). split_and!; [done|by apply Hn|]. exists e. split; [done|by apply Hv]. Qed.
Lemma route_agrees_grows g g' r : grows g g' -> route_agrees g r -> route_agrees g' r.
Proof. intros (Hc & Hv & _ & Hg) ((c & ? & ?) & ? & ?). split_and!; [exists c; split; [by apply Hc|done]|by apply Hv|by apply Hg]. Qed.

Lemma agrees_add_route g c d r :
  agrees g -> (exists x, x ∈ G_Clusters g /\ Cluster_Name x = c) -> d ∈ G_Versions g ->
  Route_ClusterName r = c -> Route_DeploymentVersion r = d ->
  agrees (g <| G_Routes := (G_Routes g ++ [r])%list |>
            <| G_GroupedRoutes := PutGroupedRoute ns c d r (G_GroupedRoutes g) |>).
Proof.
  intros (Hc & Hr & Hv) Hx Hd <- <-. set (g' := g <| G_Routes := _ |> <| G_GroupedRoutes := _ |>).
  assert (grows g g') as Hg by (split_and!; simpl; try done; intros; apply group_of_put).
  split_and!; simpl.
  - intros x Hin. by apply (cluster_agrees_grows g), Hc.
  - intros x [Hin| ->%list_elem_of_singleton]%elem_of_app; [by apply (route_agrees_grows g), Hr|].
    split_and!; [done|done|apply group_of_put_same].
  - intros vh x Hvh Hin. by apply (route_agrees_grows g), (Hv vh).
Qed.
Lemma agrees_rate_limit g m : agrees g -> agrees (g <| G_RouteRateLimit := m |>).
Proof. done. Qed.

(** * Routes *)

Lemma CreateRoute_versions entry vh p a c t1 t2 d i hs ha hr w r w' :
  CreateRoute entry vh p a c t1 t2 d i hs ha hr w = (Ok r, w') -> Route_ClusterName r = c /\ Route_DeploymentVersion r = d.
Proof.
  unfold CreateRoute. intros (u & w1 & _ & [-> ->]%ret_Ok)%bind_Ok. by destruct (IsCurrentNamespace _).
Qed.
Lemma ConfigureAllowedRoute_versions entry r r' :
  ConfigureAllowedRoute entry r = Ok r' -> Route_ClusterName r' = Route_ClusterName r /\ Route_DeploymentVersion r' = Route_DeploymentVersion r.
Proof.
  unfold ConfigureAllowedRoute. destruct (NewRouteToAddress _ _) as [p s]. cbv zeta.
  destruct (nonempty (Route_Prefix r) && _ && _); simpl;
    (destruct (nonempty (Route_Regexp r)); [destruct (configure_regexp_rewrite _ _); [|done..]|]); by intros [= <-].
Qed.
Lemma process_rule_agrees clusterName endpointAddr d i g rule w g' w' :
  agrees g -> (exists x, x ∈ G_Clusters g /\ Cluster_Name x = clusterName) -> d ∈ G_Versions g ->
  process_rule gw ns clusterName endpointAddr d i g rule w = (Ok g', w') ->
  agrees g' /\ G_Clusters g' = G_Clusters g /\ G_Versions g' = G_Versions g /\ G_VirtualHosts g' = G_VirtualHosts g.
Proof.
  intros Ha Hx Hd Hrun. unfold process_rule in Hrun. apply bind_Ok in Hrun as (valid & w1 & _ & Hrun).
  destruct (negb valid); [by apply ret_Ok in Hrun as [-> _]|].
  apply bind_Ok in Hrun as (r0 & w2 & E2 & Hrun). apply CreateRoute_versions in E2 as [Hc0 Hd0].
  apply bind_Ok in Hrun as (r & w3 & E3 & [-> _]%ret_Ok).
  assert (Route_ClusterName r = clusterName /\ Route_DeploymentVersion r = d) as [Hcr Hdr].
  { destruct (_ && _).
    - apply bind_Ok in E3 as (r1 & w4 & [E4 _]%lift_Ok & [-> _]%ret_Ok). apply ConfigureAllowedRoute_versions in E4 as [? ?].
      destruct (dto.Rule_StatefulSession rule); simpl; split; congruence.
    - by apply ret_Ok in E3 as [-> _]. }
  split_and!; [|done..]. by apply (agrees_add_route (g <| G_RouteRateLimit := _ |>)).
Qed.

Lemma resolveEndpoint_new name http a d :
  exists e, resolveEndpoint (NewCluster2 name http) a d = (e, (NewCluster2 name http) <| Cluster_Endpoints := [e] |>) /\
    Endpoint_DeploymentVersion e = d.
Proof. unfold resolveEndpoint. simpl. eexists. split; reflexivity. Qed.
Lemma processClusterInternal_shape dest a name d :
  Cluster_Name (processClusterInternal dest a name d) = name /\
  exists e, Cluster_Endpoints (processClusterInternal dest a name d) = [e] /\ Endpoint_DeploymentVersion e = d.
Proof.
  unfold processClusterInternal. destruct (resolveEndpoint_new name (dto.RouteDestination_HttpVersion dest) a d) as (e & -> & He).
  destruct (nonempty _); [|destruct (_ || _)]; (destruct (_ =? 0)%Z); (destruct (dto.RouteDestination_TcpKeepalive dest));
    simpl; (split; [done|by exists e]).
Qed.

Lemma process_route_v3_agrees version active tls g routeV3 w g' w' :
  agrees g -> process_route_v3 gw ns version active tls g routeV3 w = (Ok g', w') ->
  agrees g' /\ G_VirtualHosts g' = G_VirtualHosts g.
Proof.
  intros Ha Hrun. unfold process_route_v3 in Hrun.
  apply bind_Ok in Hrun as ([clusterName a] & w1 & _ & Hrun). apply bind_Ok in Hrun as ([i d] & w2 & _ & Hrun). cbv zeta in Hrun.
  destruct (processClusterInternal_shape (dto.RouteV3_Destination routeV3) a clusterName d) as (Hn & e & He & Hd).
  revert Hn He Hrun. generalize (processClusterInternal (dto.RouteV3_Destination routeV3) a clusterName d). intros c Hn He Hrun.
  change (Cluster_Endpoints (c <| Cluster_TLS := None |>)) with (Cluster_Endpoints c) in Hrun.
  change (Cluster_Name (c <| Cluster_TLS := None |>)) with (Cluster_Name c) in Hrun. rewrite He in Hrun.
  set (g1 := g <| G_Versions := _ |> <| G_ClusterTlsConfig := _ |> <| G_ClusterNodeGroups := _ |> <| G_Clusters := _ |>) in Hrun.
  assert (grows g g1) as Hg.
  { split_and!; simpl.
    - intros x Hx. apply elem_of_app. by left.
    - apply union_subseteq_r.
    - intros k Hk. destruct (decide (k = Cluster_Name c)) as [->|Hne]; [by rewrite lookup_insert_eq|by rewrite lookup_insert_ne].
    - done. }
  assert (agrees g1) as Ha1.
  { destruct Ha as (Hc & Hr & Hv). split_and!.
    - simpl. intros x [Hx| ->%list_elem_of_singleton]%elem_of_app; [by apply (cluster_agrees_grows g), Hc|].
      split_and!; [done|simpl; by rewrite lookup_insert_eq|]. exists e. split; [done|]. simpl. rewrite Hd.
      apply elem_of_union. left. by apply elem_of_singleton.
    - intros r Hin. by apply (route_agrees_grows g), Hr.
    - intros vh r Hvh Hin. by apply (route_agrees_grows g), (Hv vh). }
  assert ((exists x, x ∈ G_Clusters g1 /\ Cluster_Name x = Cluster_Name c)) as Hx.
  { eexists. split; [apply elem_of_app; right; left|done]. }
  assert (d ∈ G_Versions g1) as Hdv by (apply elem_of_union; left; by apply elem_of_singleton).
  destruct (fold_each_inv _ _ _ (fun g2 => agrees g2 /\ G_Clusters g2 = G_Clusters g1 /\ G_Versions g2 = G_Versions g1 /\
    G_VirtualHosts g2 = G_VirtualHosts g) _ _ _ Hrun) as (? & _ & _ & ?); [done| |done].
  intros rule g2 g3 v1 v2 _ (Ha2 & Hc2 & Hv2 & Hh2) Es.
  apply process_rule_agrees in Es as (? & ? & ? & ?); [|done|by rewrite Hc2|by rewrite Hv2]. split_and!; congruence || done.
Qed.

Lemma process_virtual_service_agrees active tls port g vs w g' w' :
  agrees g -> process_virtual_service gw ns active tls port g vs w = (Ok g', w') ->
  agrees g' /\ map VirtualHost_Name (G_VirtualHosts g') = (map VirtualHost_Name (G_VirtualHosts g) ++ [dto.VirtualService_Name vs])%list.
Proof.
  intros (Hc & Hr & Hv) Hrun. unfold process_virtual_service in Hrun.
  apply bind_Ok in Hrun as (g1 & w1 & E1 & Hrun). apply bind_Ok in Hrun as (ds & w2 & _ & [-> _]%ret_Ok).
  destruct (fold_each_inv _ _ _ (fun g2 => agrees g2 /\ G_VirtualHosts g2 = G_VirtualHosts g) _ _ _ E1) as (Ha & Hh).
  - split; [|done]. split_and!; [exact Hc|by intros r ?%elem_of_nil|exact Hv].
  - intros x g2 g3 v1 v2 _ (Ha2 & Hh2) [Ha3 Hh3]%process_route_v3_agrees; [|done]. by rewrite Hh3.
  - destruct Ha as (Hc1 & Hr1 & Hv1). split.
    + split_and!; simpl; [exact Hc1|exact Hr1|].
      intros vh r [Hvh| ->%list_elem_of_singleton]%elem_of_app Hin; [by apply (Hv1 vh)|by apply Hr1].
    + simpl. rewrite Hh, map_app. done.
Qed.

(** C24: A processed request of version 3 holds together: it is for its gateway
    only, has one virtual host per virtual service, in order; every route leads
    to a cluster of the request, is of a deployment version the request
    registers, and is in the group of its namespace, cluster and version that
    prohibit routes are generated from; every cluster belongs to the gateway,
    and has one endpoint, of a version the request registers. *)
Theorem processGateway_agrees active tls port vss w req w' `{!RuntimeLaws (R := R)} :
  processGateway gw ns active tls port vss w = (Ok req, w') ->
  Req_NodeGroups req = [CreateNodeGroup gw] /\
  exists rc, Req_RouteConfigurations req = [rc] /\ RouteConfiguration_NodeGroupId rc = gw /\
    map VirtualHost_Name (RouteConfiguration_VirtualHosts rc) = map dto.VirtualService_Name vss /\
    (forall vh r, vh ∈ RouteConfiguration_VirtualHosts rc -> r ∈ VirtualHost_Routes vh ->
       (exists c, c ∈ Req_Clusters req /\ Cluster_Name c = Route_ClusterName r) /\
       Route_DeploymentVersion r ∈ Req_DeploymentVersions req /\
       r ∈ group_of (Req_GroupedRoutes req) ns (Route_ClusterName r) (Route_DeploymentVersion r)) /\
    (forall c, c ∈ Req_Clusters req -> Req_ClusterNodeGroups req !! Cluster_Name c = Some [gw] /\
       exists e, Cluster_Endpoints c = [e] /\ Endpoint_DeploymentVersion e ∈ Req_DeploymentVersions req).
Proof.
  intros (g & w1 & E1 & Hrun)%bind_Ok. apply bind_Ok in Hrun as (versions & w2 & E2 & [-> _]%ret_Ok).
  assert (forall v, v ∈ versions <-> v ∈ G_Versions g) as Hver.
  { intros v. unfold range, tick, bind, ret in E2. injection E2 as <- _. rewrite map_order_perm. apply elem_of_elements. }
  assert (forall l g0 v g1 v', fold_each l g0 (process_virtual_service gw ns active tls port) v = (Ok g1, v') -> agrees g0 ->
    agrees g1 /\ map VirtualHost_Name (G_VirtualHosts g1) = (map VirtualHost_Name (G_VirtualHosts g0) ++ map dto.VirtualService_Name l)%list) as Hloop.
  { clear. induction l as [|vs l IH]; intros g0 v g1 v'; simpl; [intros [-> _]%ret_Ok Ha; by rewrite app_nil_r|].
    intros (g2 & v2 & E1 & E2)%bind_Ok Ha. apply process_virtual_service_agrees in E1 as [Ha2 Hh2]; [|done].
    destruct (IH _ _ _ _ E2 Ha2) as [Ha1 Hh1]. split; [done|]. rewrite Hh1, Hh2, <- app_assoc. done. }
  destruct (Hloop _ _ _ _ _ E1) as [(Hc & Hr & Hv) Hh].
  { split_and!; intros; exfalso; by eapply not_elem_of_nil. }
  split; [done|]. eexists. split_and!; [reflexivity|done|exact Hh| |]; simpl.
  - intros vh r Hvh Hin. destruct (Hv vh r Hvh Hin) as (? & ? & ?). split_and!; [done|by apply Hver|done].
  - intros c Hin. destruct (Hc c Hin) as (_ & ? & e & ? & ?). split; [done|]. exists e. split; [done|by apply Hver].
Qed.
End requests.

(** * Witness *)

Section witness.
Import RuntimeModel.
Local Existing Instance test_laws.
Local Existing Instance test_runtime.
#[local] Instance requests_tls : TlsMode := {| tls_preferred := false |}.

Definition catalog_destination (cluster endpoint : string) : dto.RouteDestination :=
  dto.mkRouteDestination cluster false endpoint "" None "" (dto.mkCircuitBreaker (dto.mkThreshold 0)) None.
Definition catalog_rule (prefix : string) : dto.Rule :=
  dto.mkRule (dto.mkRouteMatch prefix "" "" []) "" "" [] [] (Some true) None None None "" None "".
(** Two routes of two clusters, the second with two rules. *)
Definition catalog_service : dto.VirtualService :=
  dto.mkVirtualService "catalog" (Some ["*"]) "" [] []
    (dto.mkRouteConfig "v1"
       [dto.mkRouteV3 (catalog_destination "items" "http://items-v1:8080") [catalog_rule "/api/v1/items/{id}"];
        dto.mkRouteV3 (catalog_destination "prices" "http://prices-v1:8080") [catalog_rule "/api/v1/prices"; catalog_rule "/api/v1/offers"]])
    false.

Lemma processGateway_agrees_witness :
  exists req w', processGateway "gw" "" "v1" false 8080 [catalog_service] empty_tx_world = (Ok req, w') /\
    length (Req_Clusters req) = 2 /\ Req_NodeGroups req = [CreateNodeGroup "gw"] /\
    exists rc, Req_RouteConfigurations req = [rc] /\ map VirtualHost_Name (RouteConfiguration_VirtualHosts rc) = ["catalog"].
Proof.
  destruct (processGateway "gw" "" "v1" false 8080 [catalog_service] empty_tx_world) as [r w'] eqn:Er.
  assert (match r with Ok req => bool_decide (length (Req_Clusters req) = 2) | _ => false end = true) as Hr.
  { replace r with (processGateway "gw" "" "v1" false 8080 [catalog_service] empty_tx_world).1 by (rewrite Er; exact eq_refl).
    vm_compute. reflexivity. }
  destruct r as [req|err|]; [|discriminate..]. apply bool_decide_eq_true in Hr.
  destruct (processGateway_agrees _ _ _ _ _ _ _ _ _ Er) as (Hn & rc & Hrc & _ & Hv & _).
  exists req, w'. split; [exact eq_refl|]. split; [exact Hr|]. split; [exact Hn|]. exists rc. split; [exact Hrc|exact Hv].
Defined.
End witness.
