(* ===== verification/Registration.v ===== *)
(** [services/route/registration.go]: a processed request is validated and saved
    in one transaction; routes and domains are deleted.

    The loops of [RegisterRoutes] hand pointers into the request to the entity
    service, which fills in the ids; the model threads the returned entities.
    The generator of prohibit routes gets the grouped routes as they were in
    the request: it only reads their prefix and regular expression. *)
From S2P Require Import Prelude GoLib Domain Tables MemDb Msaddr Events RouteKey Runtime Dao Entity RegCommon Format.
Open Scope string_scope.

Definition PublicGateway := "public-gateway-service".
Definition PrivateGateway := "private-gateway-service".

Section registration.
Context `{R : Runtime} `{H : Sha256} `{E : EntityService}.

(** * Saving a cluster *)

(** The TLS configuration of a name is used, or made for a new cluster. *)
Definition apply_tls (dao : repo) (clusterToSave : Cluster) (tlsConfigName : string) : prog World Cluster :=
  if String.eqb tlsConfigName "" then ret clusterToSave
  else
    clusterToUpdate <- try_ok (FindClusterByName dao (Cluster_Name clusterToSave)) ;;
    tlsConfigToApply <- FindTlsConfigByName dao tlsConfigName ;;
    match tlsConfigToApply, mjoin clusterToUpdate with
    | Some tls, _ => ret (clusterToSave <| Cluster_TLSId := TlsConfig_Id tls |>)
    | None, None =>
        tls <- SaveTlsConfig dao ((zero : TlsConfig) <| TlsConfig_Name := tlsConfigName |> <| TlsConfig_Enabled := true |>) ;;
        ret (clusterToSave <| Cluster_TLSId := TlsConfig_Id tls |>)
    | None, Some existing => ret (clusterToSave <| Cluster_TLSId := Cluster_TLSId existing |>)
    end.

(** The limit of connections a cluster asks for, if it does. *)
Definition max_connections (c : Cluster) : Z :=
  match Cluster_CircuitBreaker c with
  | Some cb => match CircuitBreaker_Threshold cb with Some t => Threshold_MaxConnections t | None => 0 end
  | None => 0
  end.
Definition apply_circuit_breaker (dao : repo) (clusterToSave : Cluster) : prog World Cluster :=
  if negb (max_connections clusterToSave =? 0)%Z then
    circuitBreaker <- (if (Cluster_CircuitBreakerId clusterToSave =? 0)%Z then ret None
                       else FindCircuitBreakerById dao (Cluster_CircuitBreakerId clusterToSave)) ;;
    let circuitBreaker : CircuitBreaker := default zero circuitBreaker in
    threshold <- (if (CircuitBreaker_ThresholdId circuitBreaker =? 0)%Z then ret None
                  else FindThresholdById dao (CircuitBreaker_ThresholdId circuitBreaker)) ;;
    let threshold : Threshold := default zero threshold in
    threshold <- SaveThreshold dao (threshold <| Threshold_MaxConnections := max_connections clusterToSave |>) ;;
    circuitBreaker <- SaveCircuitBreaker dao (circuitBreaker <| CircuitBreaker_ThresholdId := Threshold_Id threshold |>) ;;
    ret (clusterToSave <| Cluster_CircuitBreakerId := CircuitBreaker_Id circuitBreaker |>)
  else if (Cluster_CircuitBreakerId clusterToSave =? 0)%Z then ret clusterToSave
  else
    DeleteCircuitBreakerCascadeById dao (Cluster_CircuitBreakerId clusterToSave) ;;;
    ret (clusterToSave <| Cluster_CircuitBreakerId := 0%Z |>).

Definition RegistrationService_SaveCluster (dao : repo) (clusterToSave : Cluster) (tlsConfigName : string) (clusterNodeGroups : list string) :
    prog World unit :=
  clusterToSave <- apply_tls dao clusterToSave tlsConfigName ;;
  clusterToSave <- RebaseCluster dao clusterToSave ;;
  clusterToSave <- UpdateClusterTcpKeepalive dao clusterToSave ;;
  clusterToSave <- apply_circuit_breaker dao clusterToSave ;;
  clusterToSave <- SaveCluster dao clusterToSave ;;
  for_each clusterNodeGroups (fun nodeGroup =>
    PutClustersNodeGroupIfAbsent dao (NewClusterNodeGroups (Cluster_Id clusterToSave) nodeGroup)) ;;;
  for_each (Cluster_Endpoints clusterToSave) (fun newEndpoint =>
    _ <- PutEndpoint dao (newEndpoint <| Endpoint_ClusterId := Cluster_Id clusterToSave |>) ;; ret tt).

(** * Registration *)

Definition register_virtual_host (dao : repo) (routeConfigurationId : Z) (newVirtualHost : VirtualHost) : prog World unit :=
  saved <- PutVirtualHost dao (newVirtualHost <| VirtualHost_RouteConfigurationId := routeConfigurationId |>) ;;
  for_each (VirtualHost_Routes newVirtualHost) (fun newRoute => _ <- PutRoute dao (VirtualHost_Id saved) newRoute ;; ret tt).

Definition generate_prohibit_routes (dao : repo) (namespace clusterKey deploymentVersion : string) (routes : list Route) :
    prog World unit :=
  generatedRoutes <- GenerateRoutes dao clusterKey namespace deploymentVersion routes ;;
  for_each generatedRoutes (fun route => _ <- PutRoute dao (Route_VirtualHostId route) route ;; ret tt).

Definition RegisterRoutes (dao : repo) (request : ProcessedRequest) : prog World unit :=
  for_each (Req_NodeGroups request) (fun newNodeGroup => _ <- CreateOrUpdateNodeGroup dao newNodeGroup ;; ret tt) ;;;
  for_each (Req_DeploymentVersions request) (fun version =>
    if String.eqb version "" then ret tt else _ <- GetOrCreateDeploymentVersion dao version ;; ret tt) ;;;
  for_each (Req_Clusters request) (fun newCluster =>
    RegistrationService_SaveCluster dao newCluster (default "" (Req_ClusterTlsConfig request !! Cluster_Name newCluster))
      (default [] (Req_ClusterNodeGroups request !! Cluster_Name newCluster))) ;;;
  for_each (Req_Listeners request) (fun newListener => _ <- PutListener dao newListener ;; ret tt) ;;;
  for_each (Req_RouteConfigurations request) (fun newRouteConfig =>
    saved <- PutRouteConfig dao newRouteConfig ;;
    for_each (RouteConfiguration_VirtualHosts newRouteConfig) (register_virtual_host dao (RouteConfiguration_Id saved))) ;;;
  ForEachGroup (Req_GroupedRoutes request) (generate_prohibit_routes dao).

(** * Validation *)

(** [virtualHostDomains] of the virtual hosts of the node groups. *)
Definition virtual_host_domains (repository : repo) (request : ProcessedRequest) : prog World (list VirtualHostDomain) :=
  fold_each (Req_NodeGroups request) [] (fun domains nodeGroup =>
    routeConfigurations <- FindRouteConfigsByNodeGroupId repository (NodeGroup_Name nodeGroup) ;;
    fold_each routeConfigurations domains (fun domains routeConfiguration =>
      virtualHosts <- FindVirtualHostsByRouteConfigurationId repository (RouteConfiguration_Id routeConfiguration) ;;
      fold_each virtualHosts domains (fun domains virtualHost =>
        virtualHostDomains <- FindVirtualHostDomainByVirtualHostId repository (VirtualHost_Id virtualHost) ;;
        ret (domains ++ virtualHostDomains)%list))).

Definition endpoint_key (e : Endpoint) : string := Endpoint_Address e ++ ":" ++ strconv_Itoa (Endpoint_Port e).
Definition request_endpoints (request : ProcessedRequest) : gset string :=
  list_to_set (endpoint_key <$> flat_map Cluster_Endpoints (Req_Clusters request)).
Definition request_virtual_hosts (request : ProcessedRequest) : list VirtualHost :=
  flat_map RouteConfiguration_VirtualHosts (Req_RouteConfigurations request).
Definition request_domains (request : ProcessedRequest) : gset string :=
  list_to_set (VirtualHostDomain_Domain <$> flat_map VirtualHost_Domains (request_virtual_hosts request)).
Definition loop_message (data endpoint : string) : string :=
  "Found loop in " ++ data ++ " data. Virtual host handle requests with Host: " ++ endpoint
  ++ " and has route with destination: " ++ endpoint ++ " at the same time".
(** The first endpoint, in some order, that is also a domain. *)
Definition find_loop (endpoints domains : gset string) : prog World (option string) :=
  keys <- range (elements endpoints) ;;
  ret (List.find (fun endpoint => bool_decide (endpoint ∈ domains)) keys).
Definition validateWithDomainProducer (existsDomainsProducer : prog World (list VirtualHostDomain)) (request : ProcessedRequest) :
    prog World (bool * string) :=
  let endpoints := request_endpoints request in
  let domains := request_domains request in
  loop <- find_loop endpoints domains ;;
  match loop with
  | Some endpoint => ret (false, loop_message "request" endpoint)
  | None =>
      existsDomains <- existsDomainsProducer ;;
      loop <- find_loop endpoints (list_to_set (VirtualHostDomain_Domain <$> existsDomains) ∪ domains) ;;
      match loop with
      | Some endpoint => ret (false, loop_message "configuration" endpoint)
      | None => ret (true, "")
      end
  end.

(** The complaint about a virtual host of a request for a declared gateway. *)
Definition virtual_host_conflict (gatewayDeclaration : NodeGroup) (nodeGroupName : string) (clusters : list Cluster)
    (virtualHost : VirtualHost) : option string :=
  let domains := VirtualHost_Domains virtualHost in
  if NodeGroup_ForbidVirtualHosts gatewayDeclaration
     && ((1 <? length domains)%nat || ((length domains =? 1)%nat && negb (HasGenericDomain virtualHost)))
  then Some ("invalid virtual service '" ++ VirtualHost_Name virtualHost ++ "' hosts: declaration of gateway " ++ nodeGroupName
             ++ " forbids virtual hosts registration")
  else if String.eqb (NodeGroup_GatewayType gatewayDeclaration) Ingress
       && existsb (fun route =>
            (Route_DirectResponseCode route =? 0)%Z
            && match List.find (fun cluster => String.eqb (Cluster_Name cluster) (Route_ClusterName route)) clusters with
               | None => false
               | Some cluster => existsb (fun endpoint => negb (String.eqb (Endpoint_Address endpoint) PublicGateway)
                                                          && negb (String.eqb (Endpoint_Address endpoint) PrivateGateway))
                                   (Cluster_Endpoints cluster)
               end) (VirtualHost_Routes virtualHost)
  then Some ("invalid route destination in virtualService " ++ VirtualHost_Name virtualHost ++ ": gateway " ++ nodeGroupName
             ++ " type is ingress, all routes should lead to public or private gateway")
  else None.
(** An undeclared gateway, or one that restricts nothing, ends the validation. *)
Fixpoint gateway_conflicts (repository : repo) (request : ProcessedRequest) (nodeGroups : list NodeGroup) : prog World (bool * string) :=
  match nodeGroups with
  | [] => ret (true, "")
  | nodeGroup :: rest =>
      gatewayDeclaration <- FindNodeGroupByName repository (NodeGroup_Name nodeGroup) ;;
      match gatewayDeclaration with
      | None => ret (true, "")
      | Some declaration =>
          if negb (NodeGroup_ForbidVirtualHosts declaration) && negb (String.eqb (NodeGroup_GatewayType declaration) Ingress)
          then ret (true, "")
          else
            match list_find is_Some (virtual_host_conflict declaration (NodeGroup_Name nodeGroup) (Req_Clusters request)
                    <$> request_virtual_hosts request) with
            | Some (_, Some msg) => ret (false, msg)
            | _ => gateway_conflicts repository request rest
            end
      end
  end.
Definition ValidateGatewayDeclarationConflicts (repository : repo) (request : ProcessedRequest) : prog World (bool * string) :=
  gateway_conflicts repository request (Req_NodeGroups request).
Definition Validate (repository : repo) (request : ProcessedRequest) : prog World (bool * string) :=
  res <- validateWithDomainProducer (virtual_host_domains repository request) request ;;
  if res.1 then ValidateGatewayDeclarationConflicts repository request else ret res.

(** * Deletion *)

Definition DeleteRoutesByCondition (rep : repo) (vHostId : Z) (condition : Route -> bool) : prog World (list Route) :=
  routes <- FindRoutesByVirtualHostId rep vHostId ;;
  routes <- map_each routes (fun route : Route =>
    routeMatchers <- FindHeaderMatcherByRouteId rep (Route_Id route) ;;
    ret (route <| Route_HeaderMatchers := routeMatchers |>)) ;;
  let routesToDelete := List.filter condition routes in
  DeleteRoutesByUUID rep routesToDelete ;;;
  ret routesToDelete.

(** Which routes a deletion by prefixes, namespace and version selects. *)
Definition delete_condition (version reqNamespace : string) (routeFroms : list RouteFromAddress) (route : Route) : bool :=
  String.eqb (Route_DeploymentVersion route) version
  && (match routeFroms with
      | [] => true
      | _ => existsb (fun routeFrom => if nonempty (Route_Prefix route)
                                       then String.eqb (Route_Prefix route) (RouteFromPrefix routeFrom)
                                       else String.eqb (Route_Regexp route) (RouteFromRegex routeFrom)) routeFroms
      end)
  && (let ns := mkNamespace reqNamespace in
      if nonempty reqNamespace && negb (IsCurrentNamespace ns) then IsRouteBelongsToNamespace route ns
      else IsDefaultNamespaceRoute route).
Definition DeleteRoutesByRawPrefixNamespaceVersion (rep : repo) (vHostId : Z) (reqNamespace reqVersion : string) (rawPrefixes : list string) :
    prog World (list Route) :=
  version <- (if String.eqb reqVersion "" then dVersion <- GetActiveDeploymentVersion rep ;; ret (DeploymentVersion_Version dVersion)
              else ret reqVersion) ;;
  DeleteRoutesByCondition rep vHostId (delete_condition version reqNamespace (NewRouteFromAddress <$> rawPrefixes)).
Definition DeleteRoutes (rep : repo) (nodeGroup reqNamespace reqVersion : string) (rawPrefixes : list string) : prog World (list Route) :=
  routeConfigs <- FindRouteConfigsByNodeGroupId rep nodeGroup ;;
  fold_each routeConfigs [] (fun deleted routeConfig =>
    vHosts <- FindVirtualHostsByRouteConfigurationId rep (RouteConfiguration_Id routeConfig) ;;
    fold_each vHosts deleted (fun deleted vHost =>
      deletedRoutes <- DeleteRoutesByRawPrefixNamespaceVersion rep (VirtualHost_Id vHost) reqNamespace reqVersion rawPrefixes ;;
      ret (deleted ++ deletedRoutes)%list)).

Definition DeleteDomains (rep : repo) (vHostId : Z) (domains : list string) : prog World (list VirtualHostDomain) :=
  vHostDomains <- FindVirtualHostDomainByVirtualHostId rep vHostId ;;
  let delDomainsBunch := flat_map (fun rawDomain => List.filter (fun d => String.eqb (VirtualHostDomain_Domain d) rawDomain) vHostDomains) domains in
  DeleteVirtualHostDomains rep delDomainsBunch ;;;
  ret delDomainsBunch.
End registration.
