(* ===== verification/Util.v ===== *)
(** The slices of [util/utils.go] and the routing mode of the control plane
    ([services/routingmode/service.go]). *)
From S2P Require Import Prelude GoLib Domain Tables MemDb Msaddr Events Runtime Dao Entity.
Open Scope string_scope.

(** * Slices *)

Definition SliceContainsElement (arr : list string) (elem : string) : bool := existsb (String.eqb elem) arr.
Definition SliceContains (slice sub : list string) : bool :=
  match sub with
  | [] => true
  | _ => negb (length slice <? length sub)%nat && forallb (SliceContainsElement slice) sub
  end.
(** [make] panics on a negative capacity. *)
Definition SubtractFromSlice (slice elements : list string) : result (list string) :=
  if (length slice <? length elements)%nat then Panic "makeslice: cap out of range"
  else Ok (List.filter (fun sliceElement => negb (SliceContainsElement elements sliceElement)) slice).
Definition MergeHeaderSlices (sourceSlice sliceToMerge : list Header) : list Header :=
  fold_left (fun source elemToAdd => if existsb (Header_Equals elemToAdd) source then source else (source ++ [elemToAdd])%list)
    sliceToMerge sourceSlice.
Definition MergeHeaderMatchersSlices (sourceSlice sliceToMerge : list HeaderMatcher) : list HeaderMatcher :=
  fold_left (fun source elemToAdd =>
    if existsb (fun sourceElem => HeaderMatcher_Equals false elemToAdd (Some sourceElem)) source
    then source else (source ++ [elemToAdd])%list) sliceToMerge sourceSlice.

Section util.
Context `{R : Runtime} `{E : EntityService}.

(** Through a map: without duplicates, in any order. *)
Definition MergeStringSlices (sourceSlice sliceToMerge : list string) : prog World (list string) :=
  range (elements (list_to_set (sourceSlice ++ sliceToMerge) : gset string)).

(** * The routing mode *)

Record Summary := mkSummary { Summary_RoutingMode : RoutingMode; Summary_RouteKeys : list string }.

Definition SetRoutingMode (mode : RoutingMode) : prog World unit := modify (set_mode mode).
Definition GetRoutingMode : prog World RoutingMode := gets w_mode.

Definition or_nil {A} (m : prog World (list A)) : prog World (list A) := o <- try_ok m ;; ret (default [] o).
Definition getNamespacedRouteKeys : prog World (list string) :=
  routes <- or_nil (WithRTxVal (FindRoutesByNamespaceHeaderIsNot InTx CurrentNamespaceAsString)) ;;
  ret (Route_RouteKey <$> routes).
Definition getVersionedRouteKeys : prog World (list string) :=
  dv <- or_nil (FindAllDeploymentVersions Local) ;;
  if (length dv =? 1)%nat then ret []
  else
    routes <- or_nil (WithRTxVal (FindRoutesByDeploymentVersionStageIn InTx [CandidateStage; LegacyStage])) ;;
    ret (Route_RouteKey <$> routes).
Definition UpdateRouteModeDetails : prog World Summary :=
  namespacedRoutes <- getNamespacedRouteKeys ;;
  versionedRoutes <- getVersionedRouteKeys ;;
  let summary :=
    match namespacedRoutes, versionedRoutes with
    | [], [] => mkSummary SIMPLE []
    | _ :: _, _ :: _ => mkSummary MIXED (namespacedRoutes ++ versionedRoutes)
    | [], _ :: _ => mkSummary VERSIONED versionedRoutes
    | _ :: _, [] => mkSummary NAMESPACED namespacedRoutes
    end in
  SetRoutingMode (Summary_RoutingMode summary) ;;;
  ret summary.

Definition of_other_version (version : string) : bool :=
  negb (String.eqb version "") && negb (strings_EqualFold version defaultVersion).
Definition UpdateRoutingMode (version : string) (ns : Namespace) : prog World bool :=
  routingMode <- GetRoutingMode ;;
  if bool_decide (routingMode = SIMPLE)
  then if of_other_version version then SetRoutingMode VERSIONED ;;; ret true
       else if negb (IsCurrentNamespace ns) then SetRoutingMode NAMESPACED ;;; ret true
       else ret false
  else ret false.
Definition IsForbiddenRoutingMode (version namespaceName : string) : prog World bool :=
  routingMode <- GetRoutingMode ;;
  ret match routingMode with
      | NAMESPACED => of_other_version version
      | VERSIONED => negb (IsCurrentNamespace (mkNamespace namespaceName))
      | SIMPLE | MIXED => false
      end.
End util.

(** * Slices as sets *)

Lemma SliceContainsElement_spec arr elem : SliceContainsElement arr elem = true <-> elem ∈ arr.
Proof.
  unfold SliceContainsElement. rewrite existsb_exists. setoid_rewrite String.eqb_eq. setoid_rewrite <- list_elem_of_In.
  split; [by intros (x & ? & ->)|]. intros ?. by exists elem.
Qed.
(** Without duplicates, the guard on the lengths is no restriction. *)
Lemma SliceContains_spec slice sub : NoDup sub -> SliceContains slice sub = true <-> forall x, x ∈ sub -> x ∈ slice.
Proof.
  intros Hnd. destruct sub as [|y sub]; [simpl; split; [intros _ x Hx; by apply elem_of_nil in Hx|done]|].
  unfold SliceContains. rewrite andb_true_iff, negb_true_iff, Nat.ltb_ge, forallb_forall.
  setoid_rewrite <- list_elem_of_In. setoid_rewrite SliceContainsElement_spec. split; [by intros [_ ?]|]. intros Hs.
  split; [|done]. by apply submseteq_length, NoDup_submseteq.
Qed.
Lemma SubtractFromSlice_Ok slice elements left :
  SubtractFromSlice slice elements = Ok left -> forall x, x ∈ left <-> x ∈ slice /\ x ∉ elements.
Proof.
  unfold SubtractFromSlice. destruct (_ <? _)%nat; [done|]. intros [= <-] x.
  rewrite list_elem_of_In, filter_In, <- list_elem_of_In, negb_true_iff, <- not_true_iff_false, SliceContainsElement_spec. done.
Qed.
