(* ===== verification/RouteServices.v ===== *)
(** The route services of the three versions of the API
    ([services/route/v1], [v2] and [v3]): transactions around the registration
    and the deletion of routes, and the events published after them.

    What the versions share word for word is defined once.  The answers made of
    responses ([GetClusters], [GetVirtualService] and the like) are left out. *)
From S2P Require Import Prelude GoLib Domain Tables MemDb Msaddr Events RouteKey Runtime Dao Entity RegCommon.
From S2P Require Import Format RouteCreation Dto Requests Registration Util.
Open Scope string_scope.

Definition BadRouteRegistrationRequest : error := ErrMsg "bad register route request".
Definition ErrNoClusterExist : error := ErrMsg "Cluster does not exist for passed clusterId".
Definition RouteUUIDMatchError (uuid : string) : error :=
  ErrMsg ("route does not exist or more than one route matches uuid: " ++ uuid).

Section services.
Context `{R : Runtime} `{H : Sha256} `{E : EntityService} `{T : TlsMode}.

Definition publish_changes (nodeGroup : string) (changes : list Change) : prog World unit :=
  Publish TopicChanges (NewChangeEventByNodeGroup nodeGroup changes).

(** [if valid, msg, err := route.Validate(..); !valid { .. }] *)
Definition must_be_valid (request : ProcessedRequest) : prog World unit :=
  v <- Validate InTx request ;;
  if negb (v.1 : bool) then fail (ErrWrap v.2 BadRouteRegistrationRequest) else ret tt.

(** The part of a registration that is one transaction. *)
Definition register_validated (nodeGroup : string) (request : ProcessedRequest) (update_mode : prog World unit) : prog World unit :=
  must_be_valid request ;;;
  RegisterRoutes InTx request ;;;
  update_mode ;;;
  UpdateAllResourceVersions InTx nodeGroup.

(** * Deletions shared by v2 and v3 *)

Definition getNodeGroupIdFromVirtualHostId (virtualHostId : Z) (storage : repo) : prog World string :=
  vhost <- FindVirtualHostById storage virtualHostId ;;
  vhost <- deref vhost ;;
  rConfig <- FindRouteConfigById storage (VirtualHost_RouteConfigurationId vhost) ;;
  rConfig <- deref rConfig ;;
  ret (RouteConfiguration_NodeGroupId rConfig).

Definition delete_route_by_uuid (routeUUID : string) : prog World Route :=
  routesToDelete <- FindRoutesByUUIDPrefix InTx routeUUID ;;
  match routesToDelete with
  | [routeToDelete] =>
      deleteRouteByUUIDInternal InTx routeToDelete ;;;
      nodeGroup <- getNodeGroupIdFromVirtualHostId (Route_VirtualHostId routeToDelete) InTx ;;
      UpdateAllResourceVersions InTx nodeGroup ;;;
      ret routeToDelete
  | _ => fail (RouteUUIDMatchError routeUUID)
  end.
Definition DeleteRouteByUUID (routeUUID : string) : prog World Route :=
  deleted <- WithWTxVal (delete_route_by_uuid routeUUID) ;;
  let '(deletedRoute, changes) := deleted in
  _ <- UpdateRouteModeDetails ;;
  nodeGroup <- try_ok (getNodeGroupIdFromVirtualHostId (Route_VirtualHostId deletedRoute) Local) ;;
  publish_changes (default "" nodeGroup) changes ;;;
  ret deletedRoute.

(** The node groups of the clusters of deleted endpoints. *)
Definition node_groups_of_endpoint (endpoint : Endpoint) (nodeGroups : gset string) : prog World (gset string) :=
  clusters <- or_nil (FindClusterByEndpointIn InTx [endpoint]) ;;
  groups <- fold_each clusters [] (fun groups cluster =>
    found <- or_nil (FindNodeGroupsByCluster InTx cluster) ;; ret (groups ++ found)%list) ;;
  fold_each groups nodeGroups (fun nodeGroups nodeGroup =>
    nodeGroup <- deref nodeGroup ;; ret ({[NodeGroup_Name nodeGroup]} ∪ nodeGroups)).
Definition endpoints_to_delete (endpointsToDelete : list Endpoint) (dVersion : DeploymentVersion) : prog World (list Endpoint) :=
  match endpointsToDelete with
  | [] => or_nil (FindEndpointsByDeploymentVersion InTx (DeploymentVersion_Version dVersion))
  | _ =>
      fold_each endpointsToDelete [] (fun foundEndpoints e =>
        endpoints <- or_nil (FindEndpointsByAddressAndPortAndDeploymentVersion InTx (Endpoint_Address e) (Endpoint_Port e)
                               (DeploymentVersion_Version dVersion)) ;;
        ret (foundEndpoints ++ endpoints)%list)
  end.
Definition delete_endpoints (endpointsToDelete : list Endpoint) (version : string) : prog World (list Endpoint * gset string) :=
  dVersion <- (if String.eqb version ""
               then v <- GetActiveDeploymentVersion InTx ;; ret (Some v)
               else FindDeploymentVersion InTx version) ;;
  match dVersion with
  | None => fail (ErrMsg ("version '" ++ version ++ "' is not exist"))
  | Some dVersion =>
      foundEndpoints <- endpoints_to_delete endpointsToDelete dVersion ;;
      match foundEndpoints with
      | [] => ret ([], ∅)
      | _ =>
          DeleteEndpointsCascade InTx foundEndpoints ;;;
          nodeGroups <- fold_each foundEndpoints ∅ (fun nodeGroups endpoint => node_groups_of_endpoint endpoint nodeGroups) ;;
          groups <- range (elements nodeGroups) ;;
          for_each groups (fun nodeGroupName => generateEnvoyEntityVersion InTx nodeGroupName (table_name ClusterTable)) ;;;
          ret (foundEndpoints, nodeGroups)
      end
  end.
Definition DeleteEndpoints (endpointsToDelete : list Endpoint) (version : string) : prog World (list Endpoint) :=
  deleted <- WithWTxVal (delete_endpoints endpointsToDelete version) ;;
  let '(deletedEndpoints, nodeGroups, changes) := deleted in
  match deletedEndpoints with
  | [] => ret []
  | _ =>
      groups <- range (elements nodeGroups) ;;
      for_each groups (fun nodeGroupName => publish_changes nodeGroupName changes) ;;;
      ret deletedEndpoints
  end.

(** What a deletion of routes or domains ends with. *)
Definition publish_deleted {A} (nodeGroup : string) (update_mode : prog World unit) (deleted : list A * list Change) : prog World (list A) :=
  match deleted with
  | ([], _) => ret []
  | (l, changes) => update_mode ;;; publish_changes nodeGroup changes ;;; ret l
  end.
Definition update_details : prog World unit := _ <- UpdateRouteModeDetails ;; ret tt.
End services.

(** * v1 *)

Module v1.
Section v1.
Context `{R : Runtime} `{H : Sha256} `{E : EntityService} `{T : TlsMode}.

(** The first route of the request gives the namespace. *)
Definition RegisterRoutes (nodeGroup : string) (routeRequest : RouteEntityRequest) : prog World unit :=
  changes <- WithWTx (
    activeVersion <- GetActiveDeploymentVersion InTx ;;
    processedRequest <- ProcessRequestV1 nodeGroup routeRequest (DeploymentVersion_Version activeVersion) ;;
    register_validated nodeGroup processedRequest
      (match Requests.routes routeRequest with
       | [] => panic "index out of range"
       | entry :: _ => _ <- UpdateRoutingMode "" (mkNamespace (RouteCreation.namespace entry)) ;; ret tt
       end)) ;;
  publish_changes nodeGroup changes.

(** The error of the transaction is not looked at. *)
Definition DeleteCluster (clusterId : Z) : prog World unit :=
  cluster <- FindClusterById Local clusterId ;;
  match cluster with
  | None => fail ErrNoClusterExist
  | Some cluster =>
      nodeGroups <- FindNodeGroupsByCluster Local cluster ;;
      changes <- or_nil (WithWTx (
        DeleteClusterCascade InTx (Some cluster) ;;;
        for_each nodeGroups (fun nodeGroup =>
          nodeGroup <- deref nodeGroup ;; UpdateAllResourceVersions InTx (NodeGroup_Name nodeGroup)))) ;;
      for_each nodeGroups (fun nodeGroup =>
        nodeGroup <- deref nodeGroup ;; publish_changes (NodeGroup_Name nodeGroup) changes)
  end.

Definition DeleteRoutes (nodeGroup fromPrefix namespace : string) : prog World (list Route) :=
  deleted <- WithWTxVal (
    dVersion <- GetActiveDeploymentVersion InTx ;;
    deletedRoutes <- wrap_err "removing routes caused error"
      (Registration.DeleteRoutes InTx nodeGroup namespace (DeploymentVersion_Version dVersion)
         (if String.eqb fromPrefix "" then [] else [fromPrefix])) ;;
    wrap_err "updating envoy resources versions caused error" (UpdateAllResourceVersions InTx nodeGroup) ;;;
    ret deletedRoutes) ;;
  publish_deleted nodeGroup update_details deleted.
End v1.
End v1.

(** * v2 *)

Module v2.
Section v2.
Context `{R : Runtime} `{H : Sha256} `{E : EntityService} `{T : TlsMode}.

Definition RegisterRoutes (requests : list dto.RouteRegistrationRequest) (nodeGroup : string) : prog World unit :=
  changes <- WithWTx (
    activeVersion <- GetActiveDeploymentVersion InTx ;;
    processedRequest <- ProcessRequestV2 nodeGroup requests (DeploymentVersion_Version activeVersion) ;;
    register_validated nodeGroup processedRequest
      (for_each requests (fun request =>
         _ <- UpdateRoutingMode (dto.RouteRegistrationRequest_Version request)
                (mkNamespace (dto.RouteRegistrationRequest_Namespace request)) ;; ret tt))) ;;
  publish_changes nodeGroup changes.

(** The error of the deletion is overwritten by that of the next call. *)
Definition DeleteRoutes (nodeGroup namespace version : string) (prefixes : list string) : prog World (list Route) :=
  deleted <- WithWTxVal (
    deletedRoutes <- or_nil (Registration.DeleteRoutes InTx nodeGroup namespace version prefixes) ;;
    UpdateAllResourceVersions InTx nodeGroup ;;;
    ret deletedRoutes) ;;
  publish_deleted nodeGroup update_details deleted.
(** [IsOverriddenByCR] of the resource. *)
Definition IsOverriddenByCR (requests : list dto.RouteRegistrationRequest) : bool :=
  match requests with
  | [] => false
  | r :: _ => forallb (fun request => Bool.eqb (dto.RouteRegistrationRequest_Overridden r) (dto.RouteRegistrationRequest_Overridden request)) requests
              && dto.RouteRegistrationRequest_Overridden r
  end.
End v2.
End v2.

(** * v3 *)

Module v3.
Section v3.
Context `{R : Runtime} `{H : Sha256} `{E : EntityService} `{T : TlsMode}.

(** The changes of every gateway so far. *)
Definition register_gateway (changesResultMap : gmap string (list Change)) (processedRequest : ProcessedRequest) :
    prog World (gmap string (list Change)) :=
  match Req_NodeGroups processedRequest with
  | [] => panic "index out of range"
  | ng :: _ =>
      let nodeGroupName := NodeGroup_Name ng in
      changes <- WithWTx (register_validated nodeGroupName processedRequest (ret tt)) ;;
      ret (<[nodeGroupName := (default [] (changesResultMap !! nodeGroupName) ++ changes)%list]> changesResultMap)
  end.
(** The versions the routing mode is updated with: a version that is given is
    replaced by the active one. *)
Definition mode_version (activeVersion : string) (vs : dto.VirtualService) : string :=
  let version := dto.RouteConfig_Version (dto.VirtualService_RouteConfiguration vs) in
  if negb (String.eqb version "") then activeVersion else version.
Definition RegisterRoutingConfig (regRequest : dto.RoutingConfigRequestV3) : prog World unit :=
  active <- WithWTxVal (GetActiveDeploymentVersion InTx) ;;
  let activeVersion := DeploymentVersion_Version active.1 in
  processedRequests <- ProcessRequestV3 regRequest activeVersion ;;
  changesResultMap <- fold_each processedRequests ∅ register_gateway ;;
  versions <- range (elements (list_to_set (mode_version activeVersion <$> dto.RoutingConfigRequestV3_VirtualServices regRequest) : gset string)) ;;
  for_each versions (fun version => _ <- UpdateRoutingMode version (mkNamespace (dto.RoutingConfigRequestV3_Namespace regRequest)) ;; ret tt) ;;;
  gateways <- range (map_to_list changesResultMap) ;;
  for_each gateways (fun '(gateway, changes) => publish_changes gateway changes).

Definition CreateVirtualService (nodeGroup : string) (virtualServiceReq : dto.VirtualService) : prog World unit :=
  active <- WithWTxVal (GetActiveDeploymentVersion InTx) ;;
  let activeVersion := DeploymentVersion_Version active.1 in
  processedRequest <- ProcessVirtualServiceRequestV3 virtualServiceReq nodeGroup activeVersion ;;
  changes <- WithWTx (
    v <- ValidateGatewayDeclarationConflicts InTx processedRequest ;;
    if negb (v.1 : bool) then fail (ErrMsg ("v3: create virtual service request validation failed: " ++ v.2))
    else RegisterRoutes InTx processedRequest ;;; UpdateAllResourceVersions InTx nodeGroup) ;;
  let version := dto.RouteConfig_Version (dto.VirtualService_RouteConfiguration virtualServiceReq) in
  _ <- UpdateRoutingMode (if String.eqb version "" then activeVersion else version) (mkNamespace "") ;;
  publish_changes nodeGroup changes.

Definition DeleteVirtualService (nodeGroup virtualService : string) : prog World unit :=
  changes <- WithWTx (DeleteVirtualServiceByNodeGroupAndName InTx nodeGroup virtualService ;;; UpdateAllResourceVersions InTx nodeGroup) ;;
  publish_changes nodeGroup changes.

(** The errors of the two deletions are overwritten by that of the next call. *)
Definition DeleteVirtualServiceRoutes (rawPrefixes : list string) (nodeGroup virtualService namespace version : string) : prog World (list Route) :=
  deleted <- WithWTxVal (
    virtualHost <- FindVirtualHostByNameAndNodeGroup InTx nodeGroup virtualService ;;
    deletedRoutes <- or_nil (DeleteRoutesByRawPrefixNamespaceVersion InTx (VirtualHost_Id virtualHost) namespace version rawPrefixes) ;;
    UpdateAllResourceVersions InTx nodeGroup ;;;
    ret deletedRoutes) ;;
  publish_deleted nodeGroup update_details deleted.
Definition DeleteVirtualServiceDomains (domains : list string) (nodeGroup virtualService : string) : prog World (list VirtualHostDomain) :=
  deleted <- WithWTxVal (
    virtualHost <- FindVirtualHostByNameAndNodeGroup InTx nodeGroup virtualService ;;
    deletedDomains <- or_nil (Registration.DeleteDomains InTx (VirtualHost_Id virtualHost) domains) ;;
    generateEnvoyEntityVersion InTx nodeGroup (table_name RouteConfigurationTable) ;;;
    ret deletedDomains) ;;
  publish_deleted nodeGroup (ret tt) deleted.
Definition DeleteRoutes (requests : list dto.RouteDeleteRequestV3) : prog World (list Route) :=
  fold_each requests [] (fun deletedRoutes req =>
    fold_each (dto.RouteDeleteRequestV3_Gateways req) deletedRoutes (fun deletedRoutes nodeGroup =>
      routes <- DeleteVirtualServiceRoutes (dto.RouteDeleteRequestV3_Routes req) nodeGroup (dto.RouteDeleteRequestV3_VirtualService req)
                  (dto.RouteDeleteRequestV3_Namespace req) (dto.RouteDeleteRequestV3_Version req) ;;
      ret (deletedRoutes ++ routes)%list)).
Definition DeleteDomains (requests : list dto.DomainDeleteRequestV3) : prog World (list VirtualHostDomain) :=
  fold_each requests [] (fun deletedDomains req =>
    domains <- DeleteVirtualServiceDomains (dto.DomainDeleteRequestV3_Domains req) (dto.DomainDeleteRequestV3_Gateway req)
                 (dto.DomainDeleteRequestV3_VirtualService req) ;;
    ret (deletedDomains ++ domains)%list).

(** ** Update of a virtual service

    The routes are the objects that the virtual host was loaded with: a rule
    sees what an earlier one has changed. *)

Definition updateRoute (dao : repo) (nodeGroup : string) (route : Route) (v3RouteRule : dto.Rule) : prog World Route :=
  let route := match dto.Rule_Timeout v3RouteRule with Some t => route <| Route_Timeout := NewNullInt t |> | None => route end in
  let route := match dto.Rule_IdleTimeout v3RouteRule with Some t => route <| Route_IdleTimeout := NewNullInt t |> | None => route end in
  let route := route <| Route_RequestHeadersToAdd :=
                 MergeHeaderSlices (Route_RequestHeadersToAdd route) (ConvertRequestHeadersToDomain (dto.Rule_AddHeaders v3RouteRule)) |> in
  headersToRemove <- MergeStringSlices (Route_RequestHeadersToRemove route) (dto.Rule_RemoveHeaders v3RouteRule) ;;
  let route := route <| Route_RequestHeadersToRemove := headersToRemove |>
                 <| Route_HeaderMatchers := MergeHeaderMatchersSlices (Route_HeaderMatchers route)
                      (HeaderMatchersToDomain (dto.RouteMatch_HeaderMatchers (dto.Rule_Match v3RouteRule))) |> in
  let route := match dto.Rule_StatefulSession v3RouteRule with
               | Some s => route <| Route_StatefulSession := ToRouteStatefulSession s nodeGroup |>
               | None => route
               end in
  PutRoute dao (Route_VirtualHostId route) route.

Definition route_to_find (v3RouteRule : dto.Rule) : result Route :=
  let m := dto.Rule_Match v3RouteRule in
  let routeEntry := mkRouteEntry (dto.RouteMatch_Prefix m) (dto.Rule_PrefixRewrite v3RouteRule) "" 0 0 [] in
  let routeFromAddr := NewRouteFromAddress (RouteCreation.from routeEntry) in
  ConfigureAllowedRoute routeEntry
    ((zero : Route) <| Route_Prefix := RouteFromPrefix routeFromAddr |> <| Route_Regexp := RouteFromRegex routeFromAddr |>).
Definition is_route_to_find (dVersion : string) (routeToFind route : Route) : bool :=
  String.eqb (Route_DeploymentVersion route) dVersion && String.eqb (Route_Prefix route) (Route_Prefix routeToFind)
  && String.eqb (Route_PrefixRewrite route) (Route_PrefixRewrite routeToFind) && String.eqb (Route_Regexp route) (Route_Regexp routeToFind)
  && String.eqb (Route_RegexpRewrite route) (Route_RegexpRewrite routeToFind).
Fixpoint update_first (dao : repo) (nodeGroup : string) (found : Route -> bool) (v3RouteRule : dto.Rule) (routes : list Route) : prog World (list Route) :=
  match routes with
  | [] => ret []
  | route :: rest =>
      if found route then route <- updateRoute dao nodeGroup route v3RouteRule ;; ret (route :: rest)
      else rest <- update_first dao nodeGroup found v3RouteRule rest ;; ret (route :: rest)
  end.
Definition processRoutes (dao : repo) (routes : list Route) (nodeGroup dVersion : string) (v3RouteRule : dto.Rule) : prog World (list Route) :=
  routeToFind <- lift (route_to_find v3RouteRule) ;;
  update_first dao nodeGroup (is_route_to_find dVersion routeToFind) v3RouteRule routes.

Definition merge_virtual_service (virtualHost : VirtualHost) (virtualService : dto.VirtualService) : prog World VirtualHost :=
  headersToRemove <- MergeStringSlices (VirtualHost_RequestHeadersToRemove virtualHost) (dto.VirtualService_RemoveHeaders virtualService) ;;
  ret (virtualHost <| VirtualHost_RequestHeadersToRemove := headersToRemove |>
         <| VirtualHost_RequestHeadersToAdd := MergeHeaderSlices (VirtualHost_RequestHeadersToAdd virtualHost)
              (ConvertRequestHeadersToDomain (dto.VirtualService_AddHeaders virtualService)) |>
         <| VirtualHost_Domains := MergeVirtualHostDomainsSlices (VirtualHost_Domains virtualHost)
              ((fun host => (zero : VirtualHostDomain) <| VirtualHostDomain_Domain := host |> <| VirtualHostDomain_Version := 1%Z |>
                              <| VirtualHostDomain_VirtualHostId := VirtualHost_Id virtualHost |>) <$> default [] (dto.VirtualService_Hosts virtualService)) |>).
Definition rules_of (virtualService : dto.VirtualService) : list dto.Rule :=
  flat_map dto.RouteV3_Rules (dto.RouteConfig_Routes (dto.VirtualService_RouteConfiguration virtualService)).

(** An error of a rule ends the transaction without an error. *)
Definition update_virtual_service (nodeGroup virtualServiceName : string) (virtualService : dto.VirtualService) : prog World unit :=
  virtualHost <- LoadVirtualHostRelationByNameAndNodeGroup InTx nodeGroup virtualServiceName ;;
  virtualHost <- merge_virtual_service virtualHost virtualService ;;
  gatewayDeclaration <- FindNodeGroupByName InTx nodeGroup ;;
  gatewayDeclaration <- deref gatewayDeclaration ;;
  let domains := VirtualHost_Domains virtualHost in
  if NodeGroup_ForbidVirtualHosts gatewayDeclaration
     && ((1 <? length domains)%nat || (length domains =? 1)%nat && negb (HasGenericDomain virtualHost))
  then fail (ErrMsg ("gateway '" ++ nodeGroup ++ "' declaration forbids to register virtual service hosts not starting with *"))
  else
    let version := dto.RouteConfig_Version (dto.VirtualService_RouteConfiguration virtualService) in
    deploymentVersion <- (if String.eqb version ""
                          then v <- GetActiveDeploymentVersion InTx ;; ret (DeploymentVersion_Version v) else ret version) ;;
    processed <- try_ok (fold_each (rules_of virtualService) (VirtualHost_Routes virtualHost) (fun routes rule =>
                   processRoutes InTx routes nodeGroup deploymentVersion rule)) ;;
    match processed with
    | None => ret tt
    | Some routes =>
        _ <- PutVirtualHost InTx (virtualHost <| VirtualHost_Routes := routes |>) ;;
        UpdateAllResourceVersions InTx nodeGroup
    end.
Definition UpdateVirtualService (nodeGroup virtualServiceName : string) (virtualService : dto.VirtualService) : prog World unit :=
  changes <- WithWTx (update_virtual_service nodeGroup virtualServiceName virtualService) ;;
  publish_changes nodeGroup changes.

(** ** Aliases of versions *)

Definition version_number (deploymentVersion : string) : result Z :=
  if String.eqb deploymentVersion "" then Panic "slice bounds out of range"
  else match GetVersionNumber deploymentVersion with Some n => Ok n | None => Err (ErrMsg "invalid syntax") end.
Definition add_alias (vAliases : gmap string string) (dVersion : DeploymentVersion) : prog World (gmap string string) :=
  let stage := strings_ToLower (DeploymentVersion_Stage dVersion) in
  match vAliases !! stage with
  | Some value =>
      savedNum <- lift (version_number value) ;;
      newNum <- lift (version_number (DeploymentVersion_Version dVersion)) ;;
      ret (if (savedNum <? newNum)%Z then <[stage := DeploymentVersion_Version dVersion]> vAliases else vAliases)
  | None => ret (<[stage := DeploymentVersion_Version dVersion]> vAliases)
  end.
Definition GetAllDeploymentVersionsAliases : prog World (gmap string string) :=
  dVersions <- FindAllDeploymentVersions Local ;;
  fold_each dVersions ∅ add_alias.
End v3.
End v3.
