(* ===== verification/StatefulSessions.v ===== *)
(** Stateful sessions of clusters and endpoints
    ([services/statefulsession/stateful_session.go]).

    A session that exists is the stored object: the model threads it, and saves
    it where the code does.  The list of all sessions for the API is left out. *)
From S2P Require Import Prelude GoLib Domain Tables MemDb Msaddr Events RouteKey Runtime Dao Entity Dto Util.
Open Scope string_scope.

Definition ErrNoCluster : error := ErrMsg "StatefulSession: no cluster found for specified cluster name and namespace".
Definition ErrVersionArchived : error :=
  ErrMsg "StatefulSession: cannot modify stateful session configuration for ARCHIVED deployment version".

Section sessions.
Context `{R : Runtime} `{H : Sha256} `{E : EntityService}.

Definition resolveDeploymentVersion (repo : repo) (versionFromRequest : string) : prog World DeploymentVersion :=
  if String.eqb versionFromRequest "" then GetActiveDeploymentVersion repo
  else
    deploymentVersion <- GetOrCreateDeploymentVersion repo versionFromRequest ;;
    if String.eqb (DeploymentVersion_Stage deploymentVersion) ArchivedStage then fail ErrVersionArchived
    else ret deploymentVersion.

Definition generateEnvoyEntityVersions (repo : repo) (gateways : list string) : prog World unit :=
  for_each gateways (fun gateway => generateEnvoyEntityVersion repo gateway (table_name RouteConfigurationTable)).

(** The cookie of the request, if it has one. *)
Definition set_cookie (newSpec : dto.StatefulSession) (statefulSession : StatefulSession) : StatefulSession :=
  match dto.StatefulSession_Cookie newSpec with
  | None => statefulSession
  | Some cookie =>
      statefulSession <| StatefulSession_CookieName := dto.Cookie_Name cookie |>
        <| StatefulSession_CookiePath := default "" (dto.Cookie_Path cookie) |>
        <| StatefulSession_CookieTtl := dto.Cookie_Ttl cookie |>
  end.
(** The session after the request, and the gateways to notify. *)
Definition applyStatefulSessionNewSpecInternal (repo : repo) (statefulSession : StatefulSession) (newSpec : dto.StatefulSession) :
    prog World (StatefulSession * list string) :=
  let gateways := StatefulSession_Gateways statefulSession in
  if IsDeleteRequest newSpec then
    if (StatefulSession_Id statefulSession =? 0)%Z then ret (statefulSession, [])
    else if SliceContains (dto.StatefulSession_Gateways newSpec) gateways then
      DeleteStatefulSessionConfig repo (StatefulSession_Id statefulSession) ;;;
      ret (statefulSession, gateways)
    else
      left <- lift (SubtractFromSlice gateways (dto.StatefulSession_Gateways newSpec)) ;;
      saved <- PutStatefulSession repo (statefulSession <| StatefulSession_Gateways := left |>) ;;
      ret (saved, dto.StatefulSession_Gateways newSpec)
  else
    merged <- MergeStringSlices gateways (dto.StatefulSession_Gateways newSpec) ;;
    saved <- PutStatefulSession repo
      (set_cookie newSpec (statefulSession <| StatefulSession_Gateways := merged |>)
         <| StatefulSession_Enabled := IsEnabled newSpec |>) ;;
    ret (saved, merged).
Definition applyStatefulSessionNewSpec (repo : repo) (statefulSession : StatefulSession) (newSpec : dto.StatefulSession) :
    prog World StatefulSession :=
  applied <- applyStatefulSessionNewSpecInternal repo statefulSession newSpec ;;
  generateEnvoyEntityVersions repo applied.2 ;;;
  ret applied.1.

(** The session of the version: its initial version counts more than the one
    it has now. *)
Fixpoint select_session (version : string) (selected : option StatefulSession) (sessions : list StatefulSession) : option StatefulSession :=
  match sessions with
  | [] => selected
  | existing :: rest =>
      if String.eqb (StatefulSession_InitialDeploymentVersion existing) version then Some existing
      else if String.eqb (StatefulSession_DeploymentVersion existing) version then select_session version (Some existing) rest
      else select_session version selected rest
  end.
Definition new_session (spec : dto.StatefulSession) : StatefulSession :=
  (zero : StatefulSession) <| StatefulSession_ClusterName := dto.StatefulSession_Cluster spec |>
    <| StatefulSession_Namespace := dto.StatefulSession_Namespace spec |>
    <| StatefulSession_InitialDeploymentVersion := dto.StatefulSession_Version spec |>
    <| StatefulSession_DeploymentVersion := dto.StatefulSession_Version spec |>.

Definition apply_for_cluster (spec : dto.StatefulSession) : prog World unit :=
  deploymentVersion <- resolveDeploymentVersion InTx (dto.StatefulSession_Version spec) ;;
  let spec := spec <| dto.StatefulSession_Version := DeploymentVersion_Version deploymentVersion |> in
  existingStatefulSessions <- FindStatefulSessionConfigsByClusterName InTx (dto.StatefulSession_Cluster spec)
                                (mkNamespace (dto.StatefulSession_Namespace spec)) ;;
  let statefulSession := default (new_session spec)
        (select_session (dto.StatefulSession_Version spec) None existingStatefulSessions) in
  _ <- applyStatefulSessionNewSpec InTx statefulSession spec ;; ret tt.

Definition applyEndpointStatefulSessionInternal (repo : repo) (endpoint : Endpoint) (spec : dto.StatefulSession) : prog World unit :=
  existingStatefulSession <- FindStatefulSessionConfigById repo (Endpoint_StatefulSessionId endpoint) ;;
  match existingStatefulSession with
  | None =>
      newSession <- applyStatefulSessionNewSpec repo (new_session spec) spec ;;
      _ <- SaveEndpoint repo (endpoint <| Endpoint_StatefulSessionId := StatefulSession_Id newSession |>) ;; ret tt
  | Some existing => _ <- applyStatefulSessionNewSpec repo existing spec ;; ret tt
  end.
Definition apply_for_endpoint (spec : dto.StatefulSession) : prog World unit :=
  deploymentVersion <- resolveDeploymentVersion InTx (dto.StatefulSession_Version spec) ;;
  let spec := spec <| dto.StatefulSession_Version := DeploymentVersion_Version deploymentVersion |> in
  port <- deref (dto.StatefulSession_Port spec) ;;
  let portFromRequest := int32 port in
  if negb (String.eqb (dto.StatefulSession_Hostname spec) "") then
    endpoints <- FindEndpointsByAddressAndPortAndDeploymentVersion InTx (dto.StatefulSession_Hostname spec) portFromRequest
                   (dto.StatefulSession_Version spec) ;;
    for_each endpoints (fun endpoint =>
      cluster <- FindClusterById InTx (Endpoint_ClusterId endpoint) ;;
      cluster <- deref cluster ;;
      applyEndpointStatefulSessionInternal InTx endpoint
        (spec <| dto.StatefulSession_Cluster := ExtractFamilyName (Cluster_Name cluster) |>
           <| dto.StatefulSession_Namespace := Namespace_Namespace (ExtractNamespace (Cluster_Name cluster)) |>))
  else
    clusters <- FindClustersByFamilyNameAndNamespace InTx (dto.StatefulSession_Cluster spec)
                  (mkNamespace (dto.StatefulSession_Namespace spec)) ;;
    match clusters with
    | [] => fail ErrNoCluster
    | _ =>
        for_each clusters (fun cluster =>
          endpoints <- FindEndpointsByClusterIdAndDeploymentVersion InTx (Cluster_Id cluster) deploymentVersion ;;
          for_each endpoints (fun endpoint =>
            if (Endpoint_Port endpoint =? portFromRequest)%Z then applyEndpointStatefulSessionInternal InTx endpoint spec
            else ret tt))
    end.

Definition sendChangeEvent (changes : list Change) : prog World unit :=
  match changes with
  | [] => ret tt
  | _ => Publish TopicMultipleChanges (NewMultipleChangeEvent changes)
  end.
(** A request without port and host name is for the cluster. *)
Definition ApplyStatefulSession (spec : dto.StatefulSession) : prog World unit :=
  changes <- WithWTx (match dto.StatefulSession_Port spec with
                      | None => if String.eqb (dto.StatefulSession_Hostname spec) "" then apply_for_cluster spec else apply_for_endpoint spec
                      | Some _ => apply_for_endpoint spec
                      end) ;;
  sendChangeEvent changes.
End sessions.

(** * Properties

    Stateful sessions: which session a request applies to, and what becomes of
    it in the open transaction. *)
From S2P Require Import Prelude GoLib Domain Tables MemDb Msaddr Events RouteKey Runtime Dao DaoSpec Entity Dto Util.
From S2P Require RuntimeModel.
Open Scope string_scope.

(** * Rows *)

Lemma session_indexable (s : StatefulSession) :
  indexable StatefulSessionTable s = true <->
  StatefulSession_CookieName s <> "" /\ StatefulSession_ClusterName s <> "" /\ StatefulSession_Namespace s <> ""
  /\ StatefulSession_DeploymentVersion s <> "".
Proof.
  assert (indexable StatefulSessionTable s
    = nonempty (StatefulSession_CookieName s) && nonempty (StatefulSession_ClusterName s) && nonempty (StatefulSession_Namespace s)
      && nonempty (StatefulSession_DeploymentVersion s)) as ->.
  { destruct s as [id [|c1 cookie] ttl path en [|c2 cluster] [|c3 ns] gw [|c4 dv] dvv idv]; vm_compute; reflexivity. }
  unfold nonempty. rewrite !andb_true_iff, !negb_true_iff, !String.eqb_neq. tauto.
Qed.
Lemma session_key (s : StatefulSession) : id_key StatefulSessionTable s = [VInt (StatefulSession_Id s)].
Proof. by destruct s. Qed.

Section sessions.
Context `{RL : RuntimeLaws} `{H : Sha256} `{E : EntityService}.

Abbreviation session_rows db := (rows db StatefulSessionTable : gmap (list value) StatefulSession).

Lemma SaveUnique_in_tx t `{!Unique t} (e : entity t) w db :
  in_tx w db -> GetId e <> 0%Z -> indexable t e = true ->
  exists db', SaveUnique InTx t e w = (Ok e, set_tx (Some (db', true)) w) /\ with_rows t (<[id_key t e := e]> (rows db t)) db db'.
Proof.
  intros Hw Hid Hx. destruct (Storage_Save_spec t e db Hx) as (db' & Es & Hdb). exists db'. split; [|done].
  unfold SaveUnique. rewrite (open_ctx_InTx _ _ _ _ Hw). unfold Generate.
  replace (GetId e =? 0)%Z with false by (symmetry; by apply Z.eqb_neq).
  unfold bind, ret. by rewrite (on_tx_InTx _ _ _ Hw), Es.
Qed.
Lemma SaveUnique_Ok t `{!Unique t} (e e' : entity t) w w' db :
  in_tx w db -> SaveUnique InTx t e w = (Ok e', w') ->
  indexable t e' = true /\ (e' = e \/ exists id, e' = SetId id e).
Proof.
  intros Hw. unfold SaveUnique. rewrite (open_ctx_InTx _ _ _ _ Hw). intros Hrun. run_ok Hrun. run_ok Hrun. run_ok Hrun.
  assert (exists n, w0 = set_tick n w /\ (a = e \/ exists id, a = SetId id e)) as (n & -> & Ha).
  { unfold Generate in E0. destruct (GetId e =? 0)%Z.
    - apply bind_Ok in E0 as (n & w2 & E2 & E3). injection E2 as <- <-. apply bind_Ok in E3 as (id & w3 & E3 & E4).
      unfold lift in E3. destruct (nextval t (w_tick w)); [|done..]. injection E3 as <- <-. injection E4 as <- <-. eauto.
    - injection E0 as <- <-. exists (w_tick w). split; [by destruct w|by left]. }
  rewrite (on_tx_InTx _ _ _ (in_tx_tick n w db Hw)) in E1. destruct (Storage.Save t a db) as [[[]| |] db'] eqn:Es; [|done..].
  split; [|done]. by apply Storage_Save_Ok in Es as [? _].
Qed.
(** The session with the cookie name that is saved. *)
Definition named_session (s : StatefulSession) : prog World StatefulSession :=
  if StatefulSession_Enabled s
  then if String.eqb (StatefulSession_CookieName s) ""
       then name <- GenerateCookieName "sticky" ;; ret (s <| StatefulSession_CookieName := name |>)
       else let suffix := "-" ++ StatefulSession_InitialDeploymentVersion s in
            ret (if strings_HasSuffix (StatefulSession_CookieName s) suffix then s
                 else s <| StatefulSession_CookieName := StatefulSession_CookieName s ++ suffix |>)
  else ret s.
Lemma named_session_Ok s w :
  StatefulSession_CookieName s <> "" \/ StatefulSession_Enabled s = true ->
  exists name n, named_session s w = (Ok (s <| StatefulSession_CookieName := name |>), set_tick n w) /\ name <> "".
Proof.
  assert (set_tick (w_tick w) w = w) as Ht by by destruct w.
  assert (s <| StatefulSession_CookieName := StatefulSession_CookieName s |> = s) as Hself by by destruct s.
  unfold named_session. intros Hk. destruct (StatefulSession_Enabled s).
  - destruct (String.eqb_spec (StatefulSession_CookieName s) "") as [Hc|Hc]; [by eexists _, _|].
    destruct (strings_HasSuffix _ _).
    + exists (StatefulSession_CookieName s), (w_tick w). by rewrite Ht, Hself.
    + eexists _, (w_tick w). rewrite Ht. split; [reflexivity|]. by destruct (StatefulSession_CookieName s).
  - destruct Hk as [Hk|]; [|done]. exists (StatefulSession_CookieName s), (w_tick w). by rewrite Ht, Hself.
Qed.

(** Saving a session that has an id. *)
Lemma PutStatefulSession_in_tx (s : StatefulSession) w db :
  in_tx w db -> StatefulSession_Id s <> 0%Z ->
  StatefulSession_ClusterName s <> "" -> StatefulSession_Namespace s <> "" -> StatefulSession_DeploymentVersion s <> "" ->
  StatefulSession_CookieName s <> "" \/ StatefulSession_Enabled s = true ->
  exists saved w' db', PutStatefulSession InTx s w = (Ok saved, w') /\ in_tx w' db' /\
    with_rows StatefulSessionTable (<[[VInt (StatefulSession_Id s)] := saved]> (session_rows db)) db db' /\
    StatefulSession_Gateways saved = StatefulSession_Gateways s.
Proof.
  intros Hw Hid Hc Hn Hv Hk.
  destruct (named_session_Ok s w Hk) as (name & n & Es & Hname).
  set (s' := s <| StatefulSession_CookieName := name |>) in *.
  set (saved := if IsCurrentNamespace (mkNamespace (StatefulSession_Namespace s')) then s' <| StatefulSession_Namespace := "default" |> else s').
  assert (StatefulSession_Id saved = StatefulSession_Id s /\ StatefulSession_Gateways saved = StatefulSession_Gateways s) as [Hi Hg].
  { unfold saved. by destruct (IsCurrentNamespace _). }
  assert (indexable StatefulSessionTable saved = true) as Hx.
  { apply session_indexable. unfold saved. destruct (IsCurrentNamespace _); split_and!; done. }
  destruct (SaveUnique_in_tx StatefulSessionTable saved (set_tick n w) db) as (db' & Esave & Hdb);
    [done|intros Hz; apply Hid; rewrite <- Hi; exact Hz|done|].
  exists saved, (set_tx (Some (db', true)) (set_tick n w)), db'. split_and!; [|done| |done].
  - unfold PutStatefulSession. fold (named_session s). unfold bind at 1. rewrite Es. exact Esave.
  - rewrite <- Hi, <- session_key. exact Hdb.
Qed.

(** A session without a cookie name is not saved. *)
Lemma SaveStatefulSessionConfig_Ok (s saved : StatefulSession) w w' db :
  in_tx w db -> SaveStatefulSessionConfig InTx s w = (Ok saved, w') -> StatefulSession_CookieName s <> "".
Proof.
  set (e := if IsCurrentNamespace (mkNamespace (StatefulSession_Namespace s)) then s <| StatefulSession_Namespace := "default" |> else s).
  assert (StatefulSession_CookieName e = StatefulSession_CookieName s) as <- by (unfold e; by destruct (IsCurrentNamespace _)).
  intros Hw Es. destruct (SaveUnique_Ok StatefulSessionTable e saved w w' db Hw Es) as [Hx Hs].
  apply (session_indexable saved) in Hx as [Hx _]. by destruct Hs as [->|[id ->]].
Qed.

(** * Properties *)

(** What a deletion request does to a stored session whose gateways have
    no duplicates, in the open transaction: a request that names all its
    gateways deletes the session; one that does not, but names more gateways
    than the session has, panics; any other one saves the session with the
    gateways that it does not name, of which there is at least one.  Nothing
    but the row of the session changes. *)
Theorem delete_request_outcomes (session : StatefulSession) (spec : dto.StatefulSession) w db :
  in_tx w db ->
  session_rows db !! [VInt (StatefulSession_Id session)] = Some session -> StatefulSession_Id session <> 0%Z ->
  NoDup (StatefulSession_Gateways session) -> IsDeleteRequest spec = true ->
  let named := dto.StatefulSession_Gateways spec in
  let '(r, w') := applyStatefulSessionNewSpecInternal InTx session spec w in
  if decide (StatefulSession_Gateways session ⊆ named) then
    r = Ok (session, StatefulSession_Gateways session) /\
    exists db', in_tx w' db' /\ with_rows StatefulSessionTable (delete [VInt (StatefulSession_Id session)] (session_rows db)) db db'
  else if (length (StatefulSession_Gateways session) <? length named)%nat then (exists why, r = Panic why) /\ w' = w
  else
    exists saved db', r = Ok (saved, named) /\ in_tx w' db' /\
      with_rows StatefulSessionTable (<[[VInt (StatefulSession_Id session)] := saved]> (session_rows db)) db db' /\
      StatefulSession_Gateways saved <> [] /\
      forall g, g ∈ StatefulSession_Gateways saved <-> g ∈ StatefulSession_Gateways session /\ g ∉ named.
Proof.
  intros Hw Hrow Hid Hnd Hdel. simpl.
  apply (rows_wf db StatefulSessionTable) in Hrow as Hwf. destruct Hwf as [_ (Hcookie & Hcluster & Hns & Hdv)%session_indexable].
  unfold applyStatefulSessionNewSpecInternal. rewrite Hdel.
  replace (StatefulSession_Id session =? 0)%Z with false by (symmetry; by apply Z.eqb_neq).
  destruct (decide (_ ⊆ _)) as [Hsub|Hsub].
  - replace (SliceContains _ _) with true by (symmetry; by apply SliceContains_spec).
    destruct (DeleteById_in_tx StatefulSessionTable [VInt (StatefulSession_Id session)] w db) as (db' & Ed & Hdb); [done..|].
    unfold bind, DeleteStatefulSessionConfig. rewrite Ed. simpl. split; [done|]. by exists db'.
  - replace (SliceContains _ _) with false.
    2: { symmetry. apply not_true_iff_false. by rewrite SliceContains_spec. }
    destruct (SubtractFromSlice (StatefulSession_Gateways session) (dto.StatefulSession_Gateways spec)) as [left|e|why] eqn:Es.
    + pose proof (SubtractFromSlice_Ok _ _ _ Es) as Hleft. unfold SubtractFromSlice in Es.
      destruct (_ <? _)%nat; [done|].
      destruct (PutStatefulSession_in_tx (session <| StatefulSession_Gateways := left |>) w db)
        as (saved & w' & db' & Ep & Hw' & Hdb & Hg); [try done; by left..|].
      unfold bind, lift. rewrite Ep. simpl. exists saved, db'. rewrite Hg. split_and!; try done.
      intros Hnil. apply Hsub. intros g Hin. destruct (decide (g ∈ dto.StatefulSession_Gateways spec)) as [|Hn]; [done|].
      assert (g ∈ left) as Hl by by apply Hleft. simpl in Hnil. subst left. by apply elem_of_nil in Hl.
    + unfold SubtractFromSlice in Es. by destruct (_ <? _)%nat.
    + unfold SubtractFromSlice in Es. destruct (_ <? _)%nat; [|done]. unfold bind, lift. split; [by eexists|done].
Qed.

(** The session a request for a cluster applies to: the first one of the
    cluster that was made for the version, or else the last one that the
    version has now. *)
Theorem select_session_spec version sessions :
  select_session version None sessions =
  match List.find (fun s => String.eqb (StatefulSession_InitialDeploymentVersion s) version) sessions with
  | Some s => Some s
  | None => last (List.filter (fun s => String.eqb (StatefulSession_DeploymentVersion s) version) sessions)
  end.
Proof.
  assert (forall o, select_session version o sessions =
    match List.find (fun s => String.eqb (StatefulSession_InitialDeploymentVersion s) version) sessions with
    | Some s => Some s
    | None => match last (List.filter (fun s => String.eqb (StatefulSession_DeploymentVersion s) version) sessions) with
              | Some s => Some s | None => o end
    end) as Ho; [|rewrite Ho; by repeat case_match].
  induction sessions as [|s l IH]; intros o; simpl; [done|].
  destruct (String.eqb _ _); [done|]. destruct (String.eqb (StatefulSession_DeploymentVersion s) version).
  - rewrite IH. destruct (List.find _ l); [done|]. rewrite last_cons. by destruct (last _).
  - apply IH.
Qed.

(** An endpoint that has no session cannot opt out of the session of its
    cluster: a request that only says [enabled: false] (which is how the
    documentation turns the session of the cluster off for an endpoint) never
    succeeds, because the session to save has no cookie name and the index of
    cookie names does not allow that; so the whole request is refused. *)
Theorem disabling_new_session_fails (endpoint : Endpoint) (spec : dto.StatefulSession) w db :
  in_tx w db ->
  session_rows db !! [VInt (Endpoint_StatefulSessionId endpoint)] = None ->
  dto.StatefulSession_Enabled spec = Some false -> dto.StatefulSession_Cookie spec = None ->
  forall w', applyEndpointStatefulSessionInternal InTx endpoint spec w <> (Ok tt, w').
Proof.
  intros Hw Hrow He Hc w' Hrun. unfold applyEndpointStatefulSessionInternal in Hrun.
  apply bind_Ok in Hrun as (found & w1 & E1 & Hrun). unfold FindStatefulSessionConfigById in E1.
  rewrite (FindById_in_tx StatefulSessionTable _ _ _ Hw) in E1 by done. injection E1 as <- <-.
  rewrite Hrow in Hrun. run_ok Hrun. unfold applyStatefulSessionNewSpec in E0. run_ok E0. clear E0.
  unfold applyStatefulSessionNewSpecInternal, IsDeleteRequest in E1. rewrite Hc in E1. unfold IsEnabled in E1. rewrite He in E1. simpl in E1.
  apply bind_Ok in E1 as (merged & w2 & Em & E1). apply bind_Ok in E1 as (saved & w3 & Es & _).
  unfold MergeStringSlices, range, bind, tick, ret in Em. injection Em as <- <-.
  unfold set_cookie in Es. rewrite Hc in Es. unfold PutStatefulSession in Es. simpl in Es.
  apply bind_Ok in Es as (named & w4 & En & Es). injection En as <- <-.
  by apply (SaveStatefulSessionConfig_Ok _ _ _ _ db) in Es.
Qed.
End sessions.

(** * Witnesses *)

Section witness.
Import RuntimeModel.
Local Existing Instance test_laws.
Local Existing Instance test_runtime.
#[local] Instance sessions_entity : EntityService := {| defaultVersion := "v1" |}.

Definition sticky : StatefulSession :=
  (zero : StatefulSession) <| StatefulSession_Id := 7%Z |> <| StatefulSession_CookieName := "sticky-v1" |>
    <| StatefulSession_Enabled := true |> <| StatefulSession_ClusterName := "orders" |> <| StatefulSession_Namespace := "default" |>
    <| StatefulSession_Gateways := ["public"; "private"] |> <| StatefulSession_DeploymentVersion := "v1" |>
    <| StatefulSession_InitialDeploymentVersion := "v1" |>.
Definition saved_sticky := SaveUnique InTx StatefulSessionTable sticky empty_tx_world.
Definition sticky_db : Db := match w_tx saved_sticky.2 with Some (db, _) => db | None => w_db saved_sticky.2 end.
Definition session_request (enabled : option bool) (gateways : list string) : dto.StatefulSession :=
  dto.mkStatefulSession "v1" "default" "orders" "" gateways None enabled None false.

Lemma sticky_stored : in_tx saved_sticky.2 sticky_db /\ rows sticky_db StatefulSessionTable !! [VInt 7] = Some sticky.
Proof.
  split; [|vm_compute; reflexivity].
  assert (match w_tx saved_sticky.2 with Some (_, b) => b | None => false end = true) as Hb by (vm_compute; reflexivity).
  unfold in_tx, sticky_db. by destruct (w_tx saved_sticky.2) as [[db []]|].
Qed.
(** Three gateways cannot be taken from two. *)
Lemma delete_request_outcomes_witness :
  exists why, applyStatefulSessionNewSpecInternal InTx sticky (session_request None ["public"; "a"; "b"]) saved_sticky.2
    = (Panic why, saved_sticky.2).
Proof.
  destruct sticky_stored as [Hw Hr].
  pose proof (delete_request_outcomes sticky (session_request None ["public"; "a"; "b"]) _ _ Hw Hr ltac:(discriminate)
    ltac:(apply (bool_decide_unpack _); vm_compute; exact I) eq_refl) as Hout.
  cbv zeta in Hout. destruct (applyStatefulSessionNewSpecInternal _ _ _ _) as [r w']. rewrite decide_False in Hout.
  - destruct Hout as [[why ->] ->]. by exists why.
  - intros Hsub. assert ("private" ∈ ["public"; "a"; "b"]) as Hin by (apply Hsub; right; left).
    apply (bool_decide_pack _) in Hin. vm_compute in Hin. exact Hin.
Defined.
(** Nor can the session of a cluster be turned off for an endpoint. *)
Lemma disabling_new_session_fails_witness :
  (applyEndpointStatefulSessionInternal InTx (zero : Endpoint) (session_request (Some false) ["public"]) saved_sticky.2).1 <> Ok tt.
Proof.
  assert (rows sticky_db StatefulSessionTable !! [VInt 0] = None) as Hn by (unfold sticky_db, saved_sticky; vm_compute; reflexivity).
  pose proof (disabling_new_session_fails (zero : Endpoint) (session_request (Some false) ["public"]) saved_sticky.2 sticky_db
    (proj1 sticky_stored) Hn eq_refl eq_refl) as Hfails.
  destruct (applyEndpointStatefulSessionInternal InTx (zero : Endpoint) (session_request (Some false) ["public"]) saved_sticky.2) as [r w'].
  intros Hok. apply (Hfails w'). exact (f_equal (fun r => (r, w')) Hok).
Defined.
End witness.
