(* ===== verification/Validation.v ===== *)
(** The validation of requests ([restcontrollers/dto/validation.go]).

    A check answers [Some] verdict where the code returns.  [url.Parse] is a
    parameter ([NetUrl]): the authority of an address it accepts.  Messages
    are those of the code, without the values it prints with [%v]. *)
From S2P Require Import Prelude GoLib Domain Tables MemDb Msaddr Events Runtime Dao RegCommon Format RouteCreation Dto Requests Registration Util.
From Stdlib Require Import Ascii.
Open Scope string_scope.

Definition EgressGateway := "egress-gateway".
Definition InternalGateway := "internal-gateway-service".
Definition oobGateways : list string := [PublicGateway; PrivateGateway; InternalGateway].

(** [domain.LoadBalanceSpec]: what its validation reads. *)
Record LoadBalanceSpec := mkLoadBalanceSpec {
  LoadBalanceSpec_Cluster : string;
  LoadBalanceSpec_Version : string;
  LoadBalanceSpec_Endpoint : string;
  LoadBalanceSpec_Policies : option (list HashPolicy)
}.

Definition verdict : Type := bool * string.
Definition reject (msg : string) : option verdict := Some (false, msg).
Definition reject_if (b : bool) (msg : string) : option verdict := if b then reject msg else None.
(** One check after the other. *)
Definition orelse (a b : option verdict) : option verdict := match a with Some v => Some v | None => b end.
Notation "a >>> b" := (orelse a b) (at level 60, right associativity) : verdict_scope.
#[local] Open Scope verdict_scope.
(** A loop over an indexed range that may return. *)
Fixpoint first_verdict {A} (f : nat -> A -> option verdict) (i : nat) (l : list A) : option verdict :=
  match l with [] => None | x :: l' => f i x >>> first_verdict f (S i) l' end.
Definition accept (v : option verdict) : verdict := default (true, "") v.
Definition index_string (i : nat) : string := strconv_Itoa (Z.of_nat i).

(** * Patterns *)

Definition is_digit (c : ascii) : bool := match digit_value c with Some _ => true | None => false end.
Fixpoint str_forallb (f : ascii -> bool) (s : string) : bool :=
  match s with "" => true | String c s' => f c && str_forallb f s' end.
(** [^v[[:digit:]]+$] *)
Definition isValidDeploymentVersion (deploymentVersion : string) : bool :=
  String.eqb deploymentVersion ""
  || strings_HasPrefix deploymentVersion "v" && nonempty (str_drop 1 deploymentVersion) && all_digits (str_drop 1 deploymentVersion).
(** [[[:alnum:].-]] *)
Definition host_char (c : ascii) : bool :=
  let n := N_of_ascii c in
  is_digit c || ((65 <=? n) && (n <=? 90))%N || ((97 <=? n) && (n <=? 122))%N || (n =? 46)%N || (n =? 45)%N.
Definition valid_host (host : string) : bool := nonempty host && str_forallb host_char host.

(** A decimal number up to 255, without leading zeros. *)
Definition is_octet (s : string) : bool :=
  nonempty s && all_digits s
  && match digits_value s 0 with Some n => (n <=? 255)%Z && String.eqb (strconv_Itoa n) s | None => false end.
(** [:?[0-9]*] *)
Definition is_port_suffix (s : string) : bool := all_digits (strings_TrimPrefix s ":").
(** [ipAddressRegexp] *)
Definition is_ip_address (address : string) : bool :=
  match strings_Split address "." with
  | [a; b; c; d] =>
      is_octet a && is_octet b && is_octet c
      && existsb (fun n => is_octet (str_take n d) && is_port_suffix (str_drop n d)) [1; 2; 3]%nat
  | _ => false
  end.

Section validation.
Context `{R : Runtime} `{T : TlsMode} `{U : NetUrl}.

Definition disableIpRouteReg : bool := strings_EqualFold (os_Getenv "DISABLE_IP_ROUTE_REGISTRATION") "true".

Definition isValidHttpVersion (version : option Z) : bool :=
  match version with None => true | Some v => (v =? 1)%Z || (v =? 2)%Z end.
(** [strconv.ParseUint(port, 10, 16)] *)
Definition is_uint16 (s : string) : bool :=
  nonempty s && all_digits s && match digits_value s 0 with Some n => (n <? 2 ^ 16)%Z | None => false end.
Definition isValidAddress (address : string) : bool :=
  let address := if strings_Contains address "://" then address else "https://" ++ address in
  match url_Parse address with
  | None => false
  | Some u => (String.eqb (URL_Port u) "" || is_uint16 (URL_Port u)) && valid_host (URL_Hostname u)
  end.
Definition isEgressGateway (gateways : list string) : bool := forallb (String.eqb EgressGateway) gateways.
Definition isIpRouteRegistrationEnabled (address : string) (isEgressGateway : bool) : bool :=
  negb disableIpRouteReg || isEgressGateway || negb (is_ip_address address).
Definition isIpRouteRegistrationEnabledByNodeGroup (address nodeGroup : string) : bool :=
  isIpRouteRegistrationEnabled address (String.eqb nodeGroup EgressGateway).
Definition isValidTlsAddress (destination : dto.RouteDestination) (isEgressGateway : bool) : bool :=
  let tls := dto.RouteDestination_TlsEndpoint destination in
  negb tls_preferred || String.eqb tls ""
  || isValidAddress tls && isIpRouteRegistrationEnabled tls isEgressGateway.
Definition isValidTlsAddressByNodeGroup (destination : dto.RouteDestination) (nodeGroup : string) : bool :=
  isValidTlsAddress destination (String.eqb nodeGroup EgressGateway).

(** No route of the root behind the gateways of the platform. *)
Definition isValidRoute (froms : list string) (nodeGroup : string) : bool :=
  negb (SliceContains oobGateways [nodeGroup] && existsb (String.eqb "/") froms).
Definition rules_of_service (virtualService : dto.VirtualService) : list dto.Rule :=
  flat_map dto.RouteV3_Rules (dto.RouteConfig_Routes (dto.VirtualService_RouteConfiguration virtualService)).
Definition isValidRouteMatch (virtualService : dto.VirtualService) (gateways : list string) : bool :=
  negb (existsb (SliceContainsElement oobGateways) gateways
        && existsb (fun rule => String.eqb (dto.RouteMatch_Prefix (dto.Rule_Match rule)) "/") (rules_of_service virtualService)).

(** * Versions 1 and 2 *)

Definition ValidateV1 (request : RouteEntityRequest) (nodeGroup : string) : verdict :=
  accept (reject_if (negb (isValidAddress (microserviceUrl request))
                     || negb (isIpRouteRegistrationEnabledByNodeGroup (microserviceUrl request) nodeGroup))
            "Invalid address at RouteEntityRequest"
          >>> reject_if (negb (isValidRoute (RouteCreation.from <$> routes request) nodeGroup)) "Route / is forbidden for registration").
Definition ValidateV2 (requests : list dto.RouteRegistrationRequest) (nodeGroup : string) : verdict :=
  accept (first_verdict (fun _ request =>
    let endpoint := dto.RouteRegistrationRequest_Endpoint request in
    reject_if (negb (isValidDeploymentVersion (dto.RouteRegistrationRequest_Version request) && isValidAddress endpoint))
      "Invalid deployment version or address"
    >>> reject_if (negb (isIpRouteRegistrationEnabledByNodeGroup endpoint nodeGroup)) "Registration of routes with ip address is forbidden"
    >>> reject_if (negb (isValidRoute (dto.RouteItem_Prefix <$> dto.RouteRegistrationRequest_Routes request) nodeGroup))
          "Route / is forbidden for registration") 0 requests).

(** * Version 3 *)

Definition isValidListenerPort (request : dto.RoutingConfigRequestV3) : bool :=
  let port := dto.RoutingConfigRequestV3_ListenerPort request in
  (port =? 0)%Z || (port =? 8080)%Z || negb (existsb (SliceContainsElement oobGateways) (dto.RoutingConfigRequestV3_Gateways request)).
(** The services of the hosts so far, or the conflict. *)
Definition validateVirtualServiceHostIsUnique (virtualServicesByHost : gmap string string) (serviceName host : string) :
    gmap string string + string :=
  match virtualServicesByHost !! host with
  | Some anotherServiceName =>
      if negb (String.eqb serviceName anotherServiceName)
      then inr ("Services " ++ serviceName ++ " and " ++ anotherServiceName ++ " contain the same host '" ++ host ++ "'")
      else inl virtualServicesByHost
  | None => inl (<[host := serviceName]> virtualServicesByHost)
  end.
Fixpoint unique_hosts (virtualServicesByHost : gmap string string) (serviceName : string) (hosts : list string) : gmap string string + string :=
  match hosts with
  | [] => inl virtualServicesByHost
  | host :: rest =>
      match validateVirtualServiceHostIsUnique virtualServicesByHost serviceName host with
      | inl m => unique_hosts m serviceName rest
      | inr msg => inr msg
      end
  end.

Definition validateStatefulSessionDisable (request : dto.StatefulSession) : option verdict :=
  match dto.StatefulSession_Enabled request, dto.StatefulSession_Cookie request with
  | Some false, Some _ => reject "StatefulSession request with `enabled: false` must not contain cookie field"
  | _, _ => None
  end.
Definition validateStatefulSessionDeletion (request : dto.StatefulSession) : option verdict :=
  match dto.StatefulSession_Cookie request, dto.StatefulSession_Enabled request with
  | None, Some true => reject "StatefulSession request with empty cookie cannot contain `enabled: true`"
  | _, _ => None
  end.
Definition validateCommonStatefulSessionRestrictions (request : dto.StatefulSession) : option verdict :=
  validateStatefulSessionDisable request >>> validateStatefulSessionDeletion request.
Definition check_route_session (request : dto.StatefulSession) : option verdict :=
  reject_if (match dto.StatefulSession_Gateways request with [] => false | _ => true end) "Route statefulSession must not contain gateways field"
  >>> reject_if (nonempty (dto.StatefulSession_Namespace request)) "Route statefulSession must not contain namespace field"
  >>> reject_if (nonempty (dto.StatefulSession_Hostname request)) "Route statefulSession must not contain hostname field"
  >>> reject_if (nonempty (dto.StatefulSession_Cluster request)) "Route statefulSession must not contain cluster field"
  >>> reject_if (match dto.StatefulSession_Port request with Some _ => true | None => false end) "Route statefulSession must not contain port field"
  >>> reject_if (nonempty (dto.StatefulSession_Version request)) "Route statefulSession must not contain version field"
  >>> validateCommonStatefulSessionRestrictions request.
Definition ValidateRouteStatefulSession (request : dto.StatefulSession) : verdict := accept (check_route_session request).
Definition ValidateStatefulSession (request : dto.StatefulSession) : verdict :=
  accept (reject_if (match dto.StatefulSession_Gateways request with [] => true | _ => false end)
            "StatefulSession configuration must contain non-empty gateways list"
          >>> reject_if (String.eqb (dto.StatefulSession_Cluster request) "") "StatefulSession configuration must contain non-empty cluster field"
          >>> match dto.StatefulSession_Port request with
              | None => reject_if (nonempty (dto.StatefulSession_Hostname request))
                          "StatefulSession configuration for endpoint hostname must contain non-empty port field"
              | Some _ => reject_if (negb (isValidDeploymentVersion (dto.StatefulSession_Version request)))
                            "StatefulSession configuration has invalid version field value"
              end
          >>> validateCommonStatefulSessionRestrictions request).

(** The checks of a rule, in any request. *)
Definition check_rule (where_ : string) (indexRule : nat) (rule : dto.Rule) : option verdict :=
  reject_if (String.eqb (dto.RouteMatch_Prefix (dto.Rule_Match rule)) "") ("Rule with index " ++ index_string indexRule ++ where_ ++ " has empty prefix field")
  >>> match dto.Rule_StatefulSession rule with None => None | Some session => check_route_session session end.
Definition check_route (name : string) (tlsEndpointSupported egress : bool) (routeIndex : nat) (route : dto.RouteV3) : option verdict :=
  let d := dto.RouteV3_Destination route in
  let service := " in virtual service with name " ++ name in
  let route_ := "Route with index " ++ index_string routeIndex ++ service in
  reject_if (negb tlsEndpointSupported && nonempty (dto.RouteDestination_TlsEndpoint d)) ("TlsEndpoint not supported in " ++ route_)
  >>> reject_if (String.eqb (dto.RouteDestination_Endpoint d) "") (route_ ++ " has empty endpoint field")
  >>> reject_if (negb (isValidAddress (dto.RouteDestination_Endpoint d))) (route_ ++ " has wrong endpoint field")
  >>> reject_if (negb (isIpRouteRegistrationEnabled (dto.RouteDestination_Endpoint d) egress)) (route_ ++ " has wrong endpoint field")
  >>> reject_if (negb (isValidTlsAddress d egress)) (route_ ++ " has wrong tls endpoint field")
  >>> reject_if (String.eqb (dto.RouteDestination_Cluster d) "") (route_ ++ " has empty cluster field")
  >>> reject_if (negb (isValidHttpVersion (dto.RouteDestination_HttpVersion d))) (route_ ++ " has invalid httpVersion field")
  >>> reject_if (match dto.RouteV3_Rules route with [] => true | _ => false end) (route_ ++ " has empty set of rules")
  >>> first_verdict (check_rule (" in route " ++ index_string routeIndex ++ service)) 0 (dto.RouteV3_Rules route).
Definition validateVirtualServiceInternal (virtualService : dto.VirtualService) (gateways : list string) (tlsEndpointSupported : bool) : option verdict :=
  let name := dto.VirtualService_Name virtualService in
  let routeConfig := dto.VirtualService_RouteConfiguration virtualService in
  reject_if (String.eqb name "") "Name of virtual service is empty"
  >>> first_verdict (fun _ gateway =>
        reject_if (SliceContainsElement oobGateways gateway && negb (String.eqb name gateway))
          ("Expected virtual service name: '" ++ gateway ++ "', but got: '" ++ name ++ "'")) 0 gateways
  >>> (if String.eqb (dto.VirtualService_RateLimit virtualService) "" then None
       else first_verdict (fun _ gateway =>
              reject_if (SliceContains oobGateways [gateway]) ("Must not set ratelimit on virtualService level for " ++ gateway ++ " gateway")) 0 gateways)
  >>> reject_if (negb (isValidDeploymentVersion (dto.RouteConfig_Version routeConfig))) "Deployment version of virtual service is invalid"
  >>> first_verdict (check_route name tlsEndpointSupported (isEgressGateway gateways)) 0 (dto.RouteConfig_Routes routeConfig).
Definition ValidateVirtualService (virtualService : dto.VirtualService) (gateways : list string) : verdict :=
  accept (validateVirtualServiceInternal virtualService gateways false).

Definition incorrect_service (vsIndex : nat) (msg : string) : verdict :=
  (false, "Incorrect virtual service with index " ++ index_string vsIndex ++ ". Msg: " ++ msg).
(** A nil list of hosts stands for all of them. *)
Definition hosts_to_check (virtualService : dto.VirtualService) : list string :=
  match dto.VirtualService_Hosts virtualService with None => ["*"] | Some hosts => hosts end.
(** A route of the root ends the validation with [true]. *)
Fixpoint validate_services (gateways : list string) (virtualServicesByHost : gmap string string) (vsIndex : nat)
    (virtualServices : list dto.VirtualService) : verdict :=
  match virtualServices with
  | [] => (true, "")
  | virtualService :: rest =>
      match validateVirtualServiceInternal virtualService gateways true with
      | Some (_, msg) => incorrect_service vsIndex msg
      | None =>
          match unique_hosts virtualServicesByHost (dto.VirtualService_Name virtualService) (hosts_to_check virtualService) with
          | inr msg => incorrect_service vsIndex msg
          | inl virtualServicesByHost =>
              if negb (isValidRouteMatch virtualService gateways) then (true, "Route / is forbidden for registration")
              else validate_services gateways virtualServicesByHost (S vsIndex) rest
          end
      end
  end.
Definition ValidateV3 (request : dto.RoutingConfigRequestV3) : verdict :=
  let gateways := dto.RoutingConfigRequestV3_Gateways request in
  match gateways, dto.RoutingConfigRequestV3_VirtualServices request with
  | [], _ => (false, "Field with gateways is empty")
  | _, [] => (false, "Field with virtualServices is empty")
  | _, services =>
      if negb (isValidListenerPort request)
      then (false, "Public, private and internal gateways do not allow custom listener ports")
      else validate_services gateways ∅ 0 services
  end.

(** An update may leave out an endpoint, a cluster and the rules. *)
Definition check_updated_route (name nodeGroup : string) (routeIndex : nat) (route : dto.RouteV3) : option verdict :=
  let d := dto.RouteV3_Destination route in
  let service := " in virtual service with name " ++ name in
  let route_ := "Route with index " ++ index_string routeIndex ++ service in
  reject_if (nonempty (dto.RouteDestination_Endpoint d) && negb (isValidAddress (dto.RouteDestination_Endpoint d))) (route_ ++ " has wrong endpoint field")
  >>> reject_if (negb (isIpRouteRegistrationEnabledByNodeGroup (dto.RouteDestination_Endpoint d) nodeGroup)) (route_ ++ " has wrong endpoint field")
  >>> reject_if (negb (isValidTlsAddressByNodeGroup d nodeGroup)) (route_ ++ " has wrong tls endpoint field")
  >>> reject_if (negb (isValidHttpVersion (dto.RouteDestination_HttpVersion d))) (route_ ++ " has invalid httpVersion field")
  >>> match dto.RouteV3_Rules route with
      | [] => Some (true, "")
      | rules => first_verdict (check_rule (" in route " ++ index_string routeIndex ++ service)) 0 rules
      end.
Definition ValidateVirtualServiceUpdate (virtualService : dto.VirtualService) (nodeGroup : string) : verdict :=
  accept (first_verdict (check_updated_route (dto.VirtualService_Name virtualService) nodeGroup) 0
            (dto.RouteConfig_Routes (dto.VirtualService_RouteConfiguration virtualService))).

Definition ValidateDomainDeleteRequestV3 (requests : list dto.DomainDeleteRequestV3) : verdict :=
  accept (first_verdict (fun requestIndex request =>
    let request_ := "Domain deletion request with index " ++ index_string requestIndex in
    let gateway := dto.DomainDeleteRequestV3_Gateway request in
    reject_if (String.eqb (dto.DomainDeleteRequestV3_VirtualService request) "") (request_ ++ " has empty virtualService field")
    >>> reject_if (String.eqb gateway "") (request_ ++ " has empty gateway field")
    >>> reject_if (match dto.DomainDeleteRequestV3_Domains request with [] => true | _ => false end) (request_ ++ " has empty domains field")
    >>> reject_if (SliceContainsElement oobGateways gateway && String.eqb (dto.DomainDeleteRequestV3_VirtualService request) gateway
                   && existsb (String.eqb "*") (dto.DomainDeleteRequestV3_Domains request))
          (request_ ++ " attempts to delete default domain * for forbidden gateway " ++ gateway)) 0 requests).

(** * Load balancing *)

Definition ValidateLoadBalance (request : LoadBalanceSpec) : prog World verdict :=
  let checked :=
    reject_if (String.eqb (LoadBalanceSpec_Endpoint request) "") "request must contain endpoint field"
    >>> reject_if (negb (isValidAddress (LoadBalanceSpec_Endpoint request))) "loadBalancer has wrong endpoint field"
    >>> reject_if (String.eqb (LoadBalanceSpec_Cluster request) "") "request must contain cluster field"
    >>> reject_if (match LoadBalanceSpec_Policies request with None => true | Some _ => false end) "request must contain Policies field" in
  match checked with
  | Some v => ret v
  | None =>
      let version := LoadBalanceSpec_Version request in
      if String.eqb version "" then ret (true, "")
      else
        existingVersion <- try_ok (FindDeploymentVersion Local version) ;;
        ret match existingVersion with
            | None => (false, "Failed to load version " ++ version ++ " during load balance configuration request validation")
            | Some None => (false, "version " ++ version ++ " does not exist")
            | Some (Some _) => (true, "")
            end
  end.
End validation.

(** * Properties

    What a request that passes the validation satisfies, and what slips
    through. *)
From S2P Require Import Prelude GoLib Domain Tables MemDb Msaddr Events Runtime Dao RegCommon Format RouteCreation Dto Requests Registration Util.
From S2P Require RuntimeModel.
Open Scope string_scope.
#[local] Open Scope verdict_scope.

(** * Sequences of checks *)

Lemma orelse_None a b : (a >>> b) = None <-> a = None /\ b = None.
Proof. destruct a; simpl; split; [done|by intros [? ?]|by intros ->|by intros [_ ->]]. Qed.
Lemma reject_if_None b msg : reject_if b msg = None <-> b = false.
Proof. by destruct b. Qed.
Lemma first_verdict_None {A} (f : nat -> A -> option verdict) i l :
  first_verdict f i l = None <-> forall n x, l !! n = Some x -> f (i + n)%nat x = None.
Proof.
  revert i. induction l as [|y l IH]; intros i; simpl; [by split|]. rewrite orelse_None, IH. split.
  - intros [Hy Hl] [|n] x Hx; simpl in Hx; [injection Hx as ->; by rewrite Nat.add_0_r|]. rewrite Nat.add_succ_r. by apply (Hl n).
  - intros Hl. split; [rewrite <- (Nat.add_0_r i); by apply (Hl O)|]. intros n x Hx. specialize (Hl (S n) x Hx). by rewrite Nat.add_succ_r in Hl.
Qed.
Lemma first_verdict_elem {A} (f : nat -> A -> option verdict) i l x :
  first_verdict f i l = None -> x ∈ l -> exists n, f n x = None.
Proof.
  rewrite first_verdict_None. intros Hf (n & Hn)%list_elem_of_lookup. by eexists; apply (Hf n).
Qed.
(** A sequence that only rejects accepts when no check answers. *)
Definition rejects (v : option verdict) : Prop := match v with Some (b, _) => b = false | None => True end.
Lemma rejects_reject_if b msg : rejects (reject_if b msg).
Proof. by destruct b. Qed.
Lemma rejects_orelse a b : rejects a -> rejects b -> rejects (a >>> b).
Proof. by destruct a as [[]|]. Qed.
Lemma rejects_first_verdict {A} (f : nat -> A -> option verdict) i l : (forall n x, rejects (f n x)) -> rejects (first_verdict f i l).
Proof. intros Hf. revert i. induction l; intros i; simpl; [done|]. by apply rejects_orelse. Qed.
Lemma accept_rejects v : rejects v -> (accept v).1 = true <-> v = None.
Proof. destruct v as [[b msg]|]; simpl; [by intros ->|done]. Qed.

Section validation.
Context `{R : Runtime} `{T : TlsMode} `{U : NetUrl}.

(** The validation of a version 2 registration accepts exactly the requests
    all of which have an empty or well-formed deployment version, a valid
    address, no IP address where those are disabled, and, behind a gateway of
    the platform, no route of the root. *)
Theorem ValidateV2_spec requests nodeGroup :
  (ValidateV2 requests nodeGroup).1 = true <->
  forall request, request ∈ requests ->
    let endpoint := dto.RouteRegistrationRequest_Endpoint request in
    isValidDeploymentVersion (dto.RouteRegistrationRequest_Version request) = true /\ isValidAddress endpoint = true /\
    (disableIpRouteReg = true -> is_ip_address endpoint = true -> nodeGroup = EgressGateway) /\
    (nodeGroup ∈ oobGateways -> forall item, item ∈ dto.RouteRegistrationRequest_Routes request -> dto.RouteItem_Prefix item <> "/").
Proof.
  unfold ValidateV2. rewrite accept_rejects.
  2: { apply rejects_first_verdict. intros n x. repeat apply rejects_orelse; apply rejects_reject_if. }
  rewrite first_verdict_None. setoid_rewrite orelse_None. setoid_rewrite orelse_None. setoid_rewrite reject_if_None.
  assert (forall request, (isValidRoute (dto.RouteItem_Prefix <$> dto.RouteRegistrationRequest_Routes request) nodeGroup = true <->
    (nodeGroup ∈ oobGateways -> forall item, item ∈ dto.RouteRegistrationRequest_Routes request -> dto.RouteItem_Prefix item <> "/"))) as Hroute.
  { intros request. unfold isValidRoute. rewrite negb_true_iff, andb_false_iff, <- !not_true_iff_false.
    rewrite SliceContains_spec by apply NoDup_singleton. rewrite existsb_exists. setoid_rewrite <- list_elem_of_In.
    setoid_rewrite list_elem_of_fmap. setoid_rewrite String.eqb_eq. split.
    - intros [Hn|Hn] Hg item Hi Hp; apply Hn; [by intros x ->%list_elem_of_singleton|]. exists "/". split; [by exists item|done].
    - intros Hi. destruct (decide (nodeGroup ∈ oobGateways)) as [Hg|Hg]; [right|left].
      + intros (p & (item & -> & Hin) & Hp). by apply (Hi Hg item Hin).
      + intros Hall. apply Hg, Hall. by left. }
  assert (forall e, isIpRouteRegistrationEnabledByNodeGroup e nodeGroup = true <->
    (disableIpRouteReg = true -> is_ip_address e = true -> nodeGroup = EgressGateway)) as Hip.
  { intros e. unfold isIpRouteRegistrationEnabledByNodeGroup, isIpRouteRegistrationEnabled.
    destruct disableIpRouteReg, (is_ip_address e), (String.eqb_spec nodeGroup EgressGateway); simpl; naive_solver. }
  split.
  - intros Hall request (n & Hn)%list_elem_of_lookup. destruct (Hall n request Hn) as (Hv & Hi & Hr).
    apply negb_false_iff, andb_true_iff in Hv as [Hv Ha]. apply negb_false_iff in Hi, Hr.
    pose proof (proj1 (Hip _) Hi) as Hi'. pose proof (proj1 (Hroute _) Hr) as Hr'. by split_and!.
  - intros Hall n request Hn. destruct (Hall request) as (Hv & Ha & Hi & Hr); [by apply list_elem_of_lookup; exists n|].
    pose proof (proj2 (Hip _) Hi) as Hi'. pose proof (proj2 (Hroute request) Hr) as Hr'. rewrite Hv, Ha, Hi', Hr'. done.
Qed.

Lemma unique_hosts_inl m name hosts m' :
  unique_hosts m name hosts = inl m' -> m ⊆ m' /\ forall host, host ∈ hosts -> m' !! host = Some name.
Proof.
  revert m. induction hosts as [|h hosts IH]; intros m; simpl.
  - intros [= <-]. split; [done|]. by intros host ?%elem_of_nil.
  - unfold validateVirtualServiceHostIsUnique. destruct (m !! h) as [other|] eqn:Eh.
    + destruct (String.eqb_spec name other) as [->|]; simpl; [|done]. intros [Hm Hh]%IH. split; [done|].
      intros host [->|Hin]%elem_of_cons; [|by apply Hh]. by eapply lookup_weaken.
    + intros [Hm Hh]%IH. split; [etransitivity; [by apply insert_subseteq|done]|].
      intros host [->|Hin]%elem_of_cons; [|by apply Hh]. eapply lookup_weaken; [apply lookup_insert_eq|done].
Qed.
(** A service routes the root behind a gateway of the platform. *)
Definition routes_root (gateways : list string) (vs : dto.VirtualService) : Prop :=
  (exists gateway, gateway ∈ gateways /\ gateway ∈ oobGateways) /\
  exists route rule, route ∈ dto.RouteConfig_Routes (dto.VirtualService_RouteConfiguration vs) /\ rule ∈ dto.RouteV3_Rules route /\
    dto.RouteMatch_Prefix (dto.Rule_Match rule) = "/".
Lemma isValidRouteMatch_root vs gateways : isValidRouteMatch vs gateways = false <-> routes_root gateways vs.
Proof.
  unfold isValidRouteMatch, routes_root. rewrite negb_false_iff, andb_true_iff, !existsb_exists. setoid_rewrite <- list_elem_of_In.
  setoid_rewrite SliceContainsElement_spec. setoid_rewrite String.eqb_eq. split; (intros [Hg Hr]; split; [done|]).
  - destruct Hr as (rule & Hin%list_elem_of_In & Hp). apply in_flat_map in Hin as (route & Hin & Hrule). exists route, rule.
    by rewrite !list_elem_of_In.
  - destruct Hr as (route & rule & Hin & Hrule & Hp). exists rule. split; [|done]. apply list_elem_of_In, in_flat_map. exists route.
    by rewrite <- !list_elem_of_In.
Qed.
(** How far the validation gets, and with which message. *)
Definition ends_with (gateways : list string) (msg : string) (seen unseen : list dto.VirtualService) : Prop :=
  (msg = "" /\ unseen = [] /\ forall vs, vs ∈ seen -> ~ routes_root gateways vs) \/
  (msg = "Route / is forbidden for registration" /\
   exists before vs, seen = (before ++ [vs])%list /\ routes_root gateways vs /\ forall vs', vs' ∈ before -> ~ routes_root gateways vs').
(** The hosts of the services that are looked at. *)
Lemma validate_services_unique gateways m i services msg :
  validate_services gateways m i services = (true, msg) ->
  exists seen unseen m', services = (seen ++ unseen)%list /\ ends_with gateways msg seen unseen /\ m ⊆ m' /\ forall vs, vs ∈ seen ->
    validateVirtualServiceInternal vs gateways true = None /\
    forall host, host ∈ hosts_to_check vs -> m' !! host = Some (dto.VirtualService_Name vs).
Proof.
  revert m i. induction services as [|vs services IH]; intros m i; simpl.
  - intros [= <-]. exists [], [], m. split; [done|]. split; [left; split_and!; [done..|by intros vs ?%elem_of_nil]|].
    split; [done|]. by intros vs ?%elem_of_nil.
  - destruct (validateVirtualServiceInternal vs gateways true) as [[b msg']|] eqn:Ev; [done|].
    destruct (unique_hosts m _ _) as [m1|msg'] eqn:Eu; [|done]. apply unique_hosts_inl in Eu as [Hm1 Hh].
    destruct (isValidRouteMatch vs gateways) eqn:Er; simpl.
    + intros (seen & unseen & m' & -> & Hend & Hm & Hall)%IH. exists (vs :: seen), unseen, m'.
      assert (~ routes_root gateways vs) as Hn by (rewrite <- isValidRouteMatch_root; by rewrite Er).
      split; [done|]. split; [|split; [by transitivity m1|]].
      * destruct Hend as [(-> & -> & Hno)|(-> & before & v & -> & Hv & Hb)]; [left|right].
        -- split_and!; [done..|]. by intros v [->|Hin]%elem_of_cons; [|apply Hno].
        -- split; [done|]. exists (vs :: before), v. split_and!; [done..|]. by intros v' [->|Hin]%elem_of_cons; [|apply Hb].
      * intros vs' [->|Hin]%elem_of_cons; [|by apply Hall]. split; [done|]. intros host Hhost. eapply lookup_weaken; [by apply Hh|done].
    + intros [= <-]. exists [vs], services, m1. split; [done|]. split; [right; split; [done|]|split; [done|]].
      * exists [], vs. split_and!; [done|by apply isValidRouteMatch_root|by intros v ?%elem_of_nil].
      * intros vs' ->%list_elem_of_singleton. by split.
Qed.

(** C26: What the validation of a version 3 request lets through.  When it answers
    [true] - the code looks at nothing else - there are gateways and services;
    a gateway of the platform has the default port; and of every service it
    looked at: the name is there and is that of the platform's gateways, the
    version is well formed, every route has an address, a cluster and at least
    one rule, every rule a prefix, and two services that have a host in common
    (a service without hosts has all of them) have the same name.  It looked at
    all services and none routes the root behind a gateway of the platform, or
    the last one it looked at does: then the message says that this is
    forbidden, the answer is [true] all the same, and the services after it are
    accepted unseen. *)
Theorem ValidateV3_accepts request msg :
  ValidateV3 request = (true, msg) ->
  let gateways := dto.RoutingConfigRequestV3_Gateways request in
  let port := dto.RoutingConfigRequestV3_ListenerPort request in
  gateways <> [] /\ dto.RoutingConfigRequestV3_VirtualServices request <> [] /\
  (port <> 0%Z -> port <> 8080%Z -> forall gateway, gateway ∈ gateways -> gateway ∉ oobGateways) /\
  exists seen unseen,
    dto.RoutingConfigRequestV3_VirtualServices request = (seen ++ unseen)%list /\ ends_with gateways msg seen unseen /\
    (forall vs, vs ∈ seen ->
       dto.VirtualService_Name vs <> "" /\
       (forall gateway, gateway ∈ gateways -> gateway ∈ oobGateways -> dto.VirtualService_Name vs = gateway) /\
       isValidDeploymentVersion (dto.RouteConfig_Version (dto.VirtualService_RouteConfiguration vs)) = true /\
       (forall route, route ∈ dto.RouteConfig_Routes (dto.VirtualService_RouteConfiguration vs) ->
          let d := dto.RouteV3_Destination route in
          isValidAddress (dto.RouteDestination_Endpoint d) = true /\ dto.RouteDestination_Cluster d <> "" /\
          dto.RouteV3_Rules route <> [] /\
          forall rule, rule ∈ dto.RouteV3_Rules route -> dto.RouteMatch_Prefix (dto.Rule_Match rule) <> "")) /\
    (forall vs1 vs2 host, vs1 ∈ seen -> vs2 ∈ seen -> host ∈ hosts_to_check vs1 -> host ∈ hosts_to_check vs2 ->
       dto.VirtualService_Name vs1 = dto.VirtualService_Name vs2).
Proof.
  intros Hv. simpl. unfold ValidateV3 in Hv.
  destruct (dto.RoutingConfigRequestV3_Gateways request) as [|g gs] eqn:Eg; [done|].
  destruct (dto.RoutingConfigRequestV3_VirtualServices request) as [|s ss] eqn:Es; [done|].
  destruct (isValidListenerPort request) eqn:Eport; [|done]. simpl negb in Hv. cbv iota in Hv.
  apply validate_services_unique in Hv as (seen & unseen & m & Eseen & Hend & _ & Hall).
  split; [done|]. split; [done|]. split.
  { unfold isValidListenerPort in Eport. rewrite Eg in Eport. apply orb_true_iff in Eport as [Eport|Eport].
    - apply orb_true_iff in Eport as [?%Z.eqb_eq|?%Z.eqb_eq]; intros; congruence.
    - intros _ _ gateway Hg Ho. apply negb_true_iff, not_true_iff_false in Eport. apply Eport, existsb_exists.
      exists gateway. split; [by apply list_elem_of_In|by apply SliceContainsElement_spec]. }
  exists seen, unseen. split; [done|]. split; [done|]. split.
  - intros vs Hin. destruct (Hall vs Hin) as (Hi & _). clear Hall.
    unfold validateVirtualServiceInternal in Hi. rewrite !orelse_None, !reject_if_None in Hi.
    destruct Hi as (Hname & Hnames & _ & Hversion & Hroutes). apply negb_false_iff in Hversion.
    split; [by apply String.eqb_neq|]. split; [|split; [done|]].
    + intros gateway Hg Ho. destruct (first_verdict_elem _ _ _ _ Hnames Hg) as [n Hn]. apply reject_if_None in Hn.
      rewrite (proj2 (SliceContainsElement_spec _ _) Ho) in Hn. by apply negb_false_iff, String.eqb_eq in Hn.
    + intros route Hroute. destruct (first_verdict_elem _ _ _ _ Hroutes Hroute) as [n Hn]. unfold check_route in Hn.
      rewrite !orelse_None, !reject_if_None in Hn. destruct Hn as (_ & _ & Ha & _ & _ & Hc & _ & Hrules & Hn).
      apply negb_false_iff in Ha. apply String.eqb_neq in Hc.
      split_and!; [done|done|by destruct (dto.RouteV3_Rules route)|]. intros rule Hrule.
      destruct (first_verdict_elem _ _ _ _ Hn Hrule) as [k Hk]. unfold check_rule in Hk. rewrite orelse_None, reject_if_None in Hk.
      destruct Hk as [Hp _]. by apply String.eqb_neq.
  - intros vs1 vs2 host H1 H2 Hh1 Hh2. destruct (Hall vs1 H1) as (_ & HA). destruct (Hall vs2 H2) as (_ & HB).
    pose proof (Some_functional _ _ _ (HA host Hh1) (HB host Hh2)). done.
Qed.

(** A version 3 request is not rejected for a route of the root: when a
    service that is valid otherwise routes it behind a gateway of the
    platform, which the other versions refuse, the validation answers [true],
    with the message that the route is forbidden, and does not look at the
    services after it, whatever they are. *)
Theorem root_route_ends_validation request vs rest m gateway rule :
  dto.RoutingConfigRequestV3_VirtualServices request = vs :: rest ->
  isValidListenerPort request = true ->
  validateVirtualServiceInternal vs (dto.RoutingConfigRequestV3_Gateways request) true = None ->
  unique_hosts ∅ (dto.VirtualService_Name vs) (hosts_to_check vs) = inl m ->
  gateway ∈ dto.RoutingConfigRequestV3_Gateways request -> gateway ∈ oobGateways ->
  rule ∈ rules_of_service vs -> dto.RouteMatch_Prefix (dto.Rule_Match rule) = "/" ->
  ValidateV3 request = (true, "Route / is forbidden for registration").
Proof.
  intros Hs Hp Hv Hu Hg Ho Hr Hroot. unfold ValidateV3. rewrite Hs, Hp.
  destruct (dto.RoutingConfigRequestV3_Gateways request) as [|g gs] eqn:Eg; [by apply elem_of_nil in Hg|]. simpl negb. cbv iota.
  simpl validate_services. rewrite Hv, Hu.
  assert (isValidRouteMatch vs (g :: gs) = false) as ->; [|done].
  unfold isValidRouteMatch. rewrite negb_false_iff, andb_true_iff, !existsb_exists. split.
  - exists gateway. split; [by apply list_elem_of_In|by apply SliceContainsElement_spec].
  - exists rule. split; [by apply list_elem_of_In|by rewrite Hroot].
Qed.
End validation.

(** * Witnesses *)

Section witness.
Import RuntimeModel.
Local Existing Instance test_runtime.
#[local] Instance validation_tls : TlsMode := {| tls_preferred := false |}.
(** [scheme://host:port], without a path. *)
#[local] Instance plain_url : NetUrl := {|
  url_Parse := fun address =>
    match strings_Split address "://" with
    | [scheme; authority] => Some (mkURL scheme authority)
    | _ => None
    end;
  net_LookupPort := fun _ => None;
  SelectUrl := "http" |}.

Definition to_items : dto.RouteDestination :=
  dto.mkRouteDestination "items" false "http://items-v1:8080" "" None "" (dto.mkCircuitBreaker (dto.mkThreshold 0)) None.
Definition path_rule (prefix : string) : dto.Rule :=
  dto.mkRule (dto.mkRouteMatch prefix "" "" []) "" "" [] [] (Some true) None None None "" None "".
Definition service_of (name prefix : string) (hosts : option (list string)) : dto.VirtualService :=
  dto.mkVirtualService name hosts "" [] [] (dto.mkRouteConfig "v1" [dto.mkRouteV3 to_items [path_rule prefix]]) false.
Definition routing_request (services : list dto.VirtualService) : dto.RoutingConfigRequestV3 :=
  dto.mkRoutingConfigRequestV3 "" [PublicGateway] 8080 false services false.

(** Two services with the same host have one name. *)
Lemma ValidateV3_accepts_witness :
  ValidateV3 (routing_request [service_of PublicGateway "/api" None; service_of PublicGateway "/v2" (Some ["*"])]) = (true, "") /\
  dto.VirtualService_Name (service_of PublicGateway "/api" None) = dto.VirtualService_Name (service_of PublicGateway "/v2" (Some ["*"])).
Proof.
  assert (ValidateV3 (routing_request [service_of PublicGateway "/api" None; service_of PublicGateway "/v2" (Some ["*"])]) = (true, "")) as Hv
    by (vm_compute; reflexivity).
  split; [exact Hv|]. destruct (ValidateV3_accepts _ _ Hv) as (_ & _ & _ & seen & unseen & E & [(_ & -> & _)|(Hm & _)] & _ & Hhosts);
    [|discriminate Hm].
  rewrite app_nil_r in E. simpl in E. subst seen. apply (Hhosts _ _ "*"); simpl; [left|right; left|left|left].
Defined.
(** A nameless service after the one with the root is not looked at. *)
Lemma root_route_ends_validation_witness :
  ValidateV3 (routing_request [service_of PublicGateway "/" None; service_of "" "/api" None])
  = (true, "Route / is forbidden for registration").
Proof.
  eapply (root_route_ends_validation _ (service_of PublicGateway "/" None) [service_of "" "/api" None] _ PublicGateway (path_rule "/"));
    [exact eq_refl|exact eq_refl|vm_compute; reflexivity|vm_compute; reflexivity|left|left|left|exact eq_refl].
Defined.
Example nameless_rejected : (ValidateV3 (routing_request [service_of PublicGateway "/x" None; service_of "" "/api" None])).1 = false.
Proof. vm_compute. reflexivity. Qed.
Example ip_addresses :
  (is_ip_address "10.0.0.1:8080", is_ip_address "10.0.0.256", is_ip_address "10.0.01.1", is_ip_address "10.0.0.1", is_ip_address "10.0.0.1:80a")
  = (true, true, false, true, false).
Proof. vm_compute. reflexivity. Qed.
End witness.
