(* ===== verification/Registry.v ===== *)
(** [services/bluegreen/registry.go]: which microservice runs in which
    deployment version. *)
From S2P Require Import Prelude GoLib Domain Tables MemDb Msaddr Events RouteKey Runtime Dao Entity.
Open Scope string_scope.

(** * Requests and answers ([restcontrollers/dto/bgregistry.go]) *)

Record Microservice := mkMicroservice {
  Microservice_Cluster : string;
  Microservice_Namespace : string;
  Microservice_Endpoints : list string
}.
Record VersionInRegistry := mkVersionInRegistry {
  VersionInRegistry_Version : string;
  VersionInRegistry_Stage : string;
  VersionInRegistry_Clusters : list Microservice
}.
Record ServicesVersionPayload := mkServicesVersionPayload {
  Payload_Namespace : string;
  Payload_Services : list string;
  Payload_Version : string;
  Payload_Exists : option bool;
  Payload_Overridden : bool
}.

(** [payload.Exists == nil || *payload.Exists] *)
Definition is_create (payload : ServicesVersionPayload) : bool :=
  match Payload_Exists payload with Some b => b | None => true end.

(** [util.SliceToMap]: the last element of a key stays. *)
Definition SliceToMap (microservices : list MicroserviceVersion) : gmap MicroserviceKey MicroserviceVersion :=
  fold_left (fun m e => <[MicroserviceVersion_GetMicroserviceKey e := e]> m) microservices ∅.

Definition buildEndpointAddr (endpoint : Endpoint) : string :=
  if String.eqb (Endpoint_Protocol endpoint) ""
  then Endpoint_Address endpoint ++ ":" ++ strconv_Itoa (Endpoint_Port endpoint)
  else Endpoint_Protocol endpoint ++ "://" ++ Endpoint_Address endpoint ++ ":" ++ strconv_Itoa (Endpoint_Port endpoint).

Section registry.
Context `{R : Runtime} `{H : Sha256} `{E : EntityService}.

(** * Reads *)

Definition GetMicroservicesByVersionAsMap (repo : repo) (version : DeploymentVersion) :
    prog World (gmap MicroserviceKey MicroserviceVersion) :=
  microservices <- FindMicroserviceVersionsByVersion repo (Some version) ;;
  ret (SliceToMap microservices).

Definition IsMicroservicePresentInVersion (repo : repo) (microserviceKey : MicroserviceKey) (version : DeploymentVersion) :
    prog World bool :=
  microserviceVersions <- FindMicroserviceVersionsByNameAndNamespace repo (MicroserviceKey_Name microserviceKey)
                            (MicroserviceKey_GetNamespace microserviceKey) ;;
  ret (existsb (fun m => String.eqb (MicroserviceVersion_DeploymentVersion m) (DeploymentVersion_Version version))
         microserviceVersions).

Definition getEndpointsForMicroserviceVersion (repo : repo) (msVersion : MicroserviceVersion) : prog World (list string) :=
  clusters <- FindClustersByFamilyNameAndNamespace repo (MicroserviceVersion_Name msVersion)
                (mkNamespace (MicroserviceVersion_Namespace msVersion)) ;;
  fold_each clusters [] (fun result cluster =>
    endpoints <- FindEndpointsByClusterIdAndDeploymentVersion repo (Cluster_Id cluster)
      ((zero : DeploymentVersion) <| DeploymentVersion_Version := MicroserviceVersion_DeploymentVersion msVersion |>) ;;
    ret (result ++ (buildEndpointAddr <$> endpoints))%list).
(** The loop over the clusters returns at the first endpoint of the version. *)
Fixpoint any_cluster_of_version (repo : repo) (deploymentVersion : DeploymentVersion) (clusters : list Cluster) : prog World bool :=
  match clusters with
  | [] => ret false
  | cluster :: rest =>
      endpoints <- FindEndpointsByClusterIdAndDeploymentVersion repo (Cluster_Id cluster) deploymentVersion ;;
      if existsb (fun e => String.eqb (Endpoint_DeploymentVersion e) (DeploymentVersion_Version deploymentVersion)) endpoints
      then ret true else any_cluster_of_version repo deploymentVersion rest
  end.
Definition hasEndpointsOfVersion (repo : repo) (serviceName : string) (namespace : Namespace) (deploymentVersion : DeploymentVersion) :
    prog World bool :=
  clusters <- FindClustersByFamilyNameAndNamespace repo serviceName namespace ;;
  any_cluster_of_version repo deploymentVersion clusters.

(** Without versions it answers for all of them; a nil version is a nil
    dereference. *)
Definition convertToDto (repo : repo) (microservices : list MicroserviceVersion) (versions : list (option DeploymentVersion)) :
    prog World (list VersionInRegistry) :=
  versions <- match versions with
              | [] => vs <- FindAllDeploymentVersions repo ;; ret (Some <$> vs)
              | _ => ret versions
              end ;;
  map_each versions (fun version =>
    version <- deref version ;;
    clusters <- map_each
      (List.filter (fun ms => String.eqb (MicroserviceVersion_DeploymentVersion ms) (DeploymentVersion_Version version)) microservices)
      (fun ms =>
         endpoints <- getEndpointsForMicroserviceVersion repo ms ;;
         ret (mkMicroservice (MicroserviceVersion_Name ms) (MicroserviceVersion_Namespace ms) endpoints)) ;;
    ret (mkVersionInRegistry (DeploymentVersion_Version version) (DeploymentVersion_Stage version) clusters)).

Definition GetMicroserviceCurrentVersion (repo : repo) (serviceName : string) (namespace : Namespace) (initialVersion : string) :
    prog World (list VersionInRegistry) :=
  msVersion <- FindMicroserviceVersionByNameAndInitialVersion repo serviceName namespace initialVersion ;;
  match msVersion with
  | None => ret []
  | Some msVersion =>
      dVersion <- FindDeploymentVersion repo (MicroserviceVersion_DeploymentVersion msVersion) ;;
      convertToDto repo [msVersion] [dVersion]
  end.
Definition GetVersionsForMicroservice (repo : repo) (serviceName : string) (namespace : Namespace) :
    prog World (list VersionInRegistry) :=
  msVersions <- FindMicroserviceVersionsByNameAndNamespace repo serviceName namespace ;;
  convertToDto repo msVersions [].
Definition GetMicroservicesForVersion (repo : repo) (version : DeploymentVersion) : prog World (list VersionInRegistry) :=
  msVersions <- FindMicroserviceVersionsByVersion repo (Some version) ;;
  version <- (if String.eqb (DeploymentVersion_Stage version) ""
              then FindDeploymentVersion repo (DeploymentVersion_Version version)
              else ret (Some version)) ;;
  convertToDto repo msVersions [version].
Definition GetAll (repo : repo) : prog World (list VersionInRegistry) :=
  msVersions <- FindAllMicroserviceVersions repo ;;
  convertToDto repo msVersions [].

(** * Writes *)

Definition DeleteVersions (repo : repo) (versions : list DeploymentVersion) : prog World unit :=
  for_each versions (fun version =>
    msVersions <- FindMicroserviceVersionsByVersion repo (Some version) ;;
    for_each msVersions (fun msVersion =>
      DeleteMicroserviceVersion repo (MicroserviceVersion_Name msVersion)
        (mkNamespace (MicroserviceVersion_Namespace msVersion)) (MicroserviceVersion_InitialDeploymentVersion msVersion))).

Definition checkIfVersionIsBeingCreated (repo : repo) (payload : ServicesVersionPayload) : prog World bool :=
  if String.eqb (Payload_Version payload) "" then ret false
  else if is_create payload
  then version <- FindDeploymentVersion repo (Payload_Version payload) ;;
       ret match version with Some _ => false | None => true end
  else ret false.

Definition applyServiceFromPayload (repo : repo) (isCreate : bool) (serviceName : string) (namespace : Namespace)
    (version : DeploymentVersion) : prog World unit :=
  if isCreate
  then SaveMicroserviceVersion repo
         ((zero : MicroserviceVersion) <| MicroserviceVersion_Name := serviceName |>
            <| MicroserviceVersion_Namespace := GetNamespace namespace |>
            <| MicroserviceVersion_DeploymentVersion := DeploymentVersion_Version version |>
            <| MicroserviceVersion_InitialDeploymentVersion := DeploymentVersion_Version version |>)
  else DeleteMicroserviceVersion repo serviceName namespace (DeploymentVersion_Version version).

Definition deleteDeploymentVersionIfNecessary (repo : repo) (version : DeploymentVersion) : prog World bool :=
  existingMicroservices <- FindMicroserviceVersionsByVersion repo (Some version) ;;
  match existingMicroservices with
  | _ :: _ => ret false
  | [] =>
      existingEndpoints <- FindEndpointsByDeploymentVersion repo (DeploymentVersion_Version version) ;;
      match existingEndpoints with
      | _ :: _ => ret false
      | [] => DeleteDeploymentVersion repo version ;;; ret true
      end
  end.

Definition processMicroserviceVersionsPayload (repo : repo) (payload : ServicesVersionPayload) : prog World bool :=
  version <- GetOrCreateDeploymentVersion repo (Payload_Version payload) ;;
  let namespace := mkNamespace (Payload_Namespace payload) in
  let isCreateRequest := is_create payload in
  for_each (Payload_Services payload) (fun serviceName =>
    applyServiceFromPayload repo isCreateRequest serviceName namespace version) ;;;
  if negb isCreateRequest && String.eqb (DeploymentVersion_Stage version) CandidateStage
  then deleteDeploymentVersionIfNecessary repo version
  else ret false.

(** The first creation, or deletion, of a deployment version. *)
Definition version_change (isCreated : bool) (changes : list Change) : option Change :=
  List.find (fun change => bool_decide (Change_Table change = DeploymentVersionTable)
                           && (if isCreated then Created change else Deleted change)) changes.
Definition notifyBgVersionsWatchers (isCreated : bool) (changes : list Change) : prog World unit :=
  match version_change isCreated changes with
  | None => ret tt
  | Some versionChange =>
      published <- try_ok (Publish TopicBgRegistry
                             (ChangeEvent "" {[ DeploymentVersionTable := [versionChange] ]})) ;;
      match published with
      | Some _ => ret tt
      | None => fail (ErrMsg "BG registry have been updated, but watchers notification failed with error: ")
      end
  end.

Definition Apply (res : ServicesVersionPayload) : prog World unit :=
  result <- WithWTxVal
    (isCreated <- checkIfVersionIsBeingCreated InTx res ;;
     isDeleted <- processMicroserviceVersionsPayload InTx res ;;
     ret (isCreated, isDeleted)) ;;
  let '((isCreated, isDeleted), changes) := result in
  (if (isCreated : bool) || (isDeleted : bool) then notifyBgVersionsWatchers isCreated changes else ret tt) ;;;
  Publish TopicChanges (NewChangeEvent changes).
End registry.
