(* ===== verification/BlueGreen.v ===== *)
(** [services/bluegreen/bluegreen.go] and [pipeline.go]: promote, rollback and
    the deletion of a candidate version.

    [Promote] and [Rollback] read node groups and versions through the
    repository outside their transaction ([Local]): the committed database.
    The pointers into the state of the versions are indices (see
    [VersionState]). *)
From S2P Require Import Prelude GoLib Domain Tables MemDb Msaddr Events RouteKey VersionState Runtime.
From S2P Require Import Dao Entity RegCommon LoadBalance Registry.
Open Scope string_scope.

Inductive blueGreenOperation : Type := promote | rollback.
#[export] Instance blueGreenOperation_eq_dec : EqDecision blueGreenOperation.
Proof. solve_decision. Defined.

Definition BlueGreenConflictError := "CORE-MESH-CP-0001".
Definition NotFoundEntityError := "CORE-MESH-CP-0003".
Definition ErrNoEndpoint := "could not find endpoint with the specified host".
Definition ErrLegacyVersionEmpty := "legacy version is empty".
Definition ErrCurrentActiveVersionEmpty := "there is no current active version".

Record blueGreenPipelineChange := mkChangeSet {
  operation : blueGreenOperation;
  versionFrom : DeploymentVersion;
  versionTo : DeploymentVersion;
  endpointsToMove : list Endpoint;
  microservicesToMove : list MicroserviceVersion;
  nonBgClusters : gset string
}.
#[export] Instance blueGreenPipelineChange_eta : Eta blueGreenPipelineChange :=
  fun x => mkChangeSet (operation x) (versionFrom x) (versionTo x) (endpointsToMove x) (microservicesToMove x) (nonBgClusters x).

(** [operation == promote || initialVersion != versionFrom.Version] *)
Definition movable (c : blueGreenPipelineChange) (initialVersion : string) : bool :=
  bool_decide (operation c = promote) || negb (String.eqb initialVersion (DeploymentVersion_Version (versionFrom c))).

(** Routes grouped under a key, in order. *)
Definition group_by {K} `{Countable K} (key : Route -> K) (routes : list Route) : gmap K (list Route) :=
  fold_left (fun m r => <[key r := (default [] (m !! key r) ++ [r])%list]> m) routes ∅.

Section bluegreen.
Context `{R : Runtime} `{H : Sha256} `{E : EntityService}.

(** * The pipeline change ([pipeline.go]) *)

(** The microservices of the active version that are still to be checked are
    threaded with the change. *)
Definition addEndpointChangeIfNeeded (repo : repo)
    (state : blueGreenPipelineChange * gmap MicroserviceKey MicroserviceVersion) (endpointInActive : Endpoint) :
    prog World (blueGreenPipelineChange * gmap MicroserviceKey MicroserviceVersion) :=
  let '(change, microservicesInActive) := state in
  endpointsInCandidate <- FindEndpointsByClusterIdAndDeploymentVersion repo
                            (Endpoint_ClusterId endpointInActive) (versionTo change) ;;
  match endpointsInCandidate with
  | _ :: _ => ret state
  | [] =>
      cluster <- FindClusterById repo (Endpoint_ClusterId endpointInActive) ;;
      cluster <- deref cluster ;;
      let msKey := Cluster_GetMicroserviceKey cluster in
      microservicePresentInCandidate <- IsMicroservicePresentInVersion repo msKey (versionTo change) ;;
      if microservicePresentInCandidate : bool then ret state
      else
        let change := if movable change (Endpoint_InitialDeploymentVersion endpointInActive)
                      then change <| endpointsToMove := (endpointsToMove change ++ [endpointInActive])%list |>
                             <| nonBgClusters := {[ Cluster_Name cluster ]} ∪ nonBgClusters change |>
                      else change in
        ret match microservicesInActive !! msKey with
            | Some microserviceVersion =>
                if movable change (MicroserviceVersion_InitialDeploymentVersion microserviceVersion)
                then (change <| microservicesToMove := (microservicesToMove change ++ [microserviceVersion])%list |>,
                      delete msKey microservicesInActive)
                else (change, microservicesInActive)
            | None => (change, microservicesInActive)
            end
  end.

Definition addMicroserviceChangeIfNeeded (repo : repo) (change : blueGreenPipelineChange)
    (microserviceVersion : MicroserviceVersion) : prog World blueGreenPipelineChange :=
  if movable change (MicroserviceVersion_InitialDeploymentVersion microserviceVersion)
  then
    isMicroservicePresentInCandidate <- IsMicroservicePresentInVersion repo
      (MicroserviceVersion_GetMicroserviceKey microserviceVersion) (versionTo change) ;;
    ret (if isMicroservicePresentInCandidate : bool then change
         else change <| microservicesToMove := (microservicesToMove change ++ [microserviceVersion])%list |>)
  else ret change.

Definition calculateBlueGreenPipelineChange (repo : repo) (op : blueGreenOperation) (vFrom vTo : DeploymentVersion) :
    prog World blueGreenPipelineChange :=
  microservicesInActive <- GetMicroservicesByVersionAsMap repo vFrom ;;
  endpointsInActive <- FindEndpointsByDeploymentVersion repo (DeploymentVersion_Version vFrom) ;;
  let change := mkChangeSet op vFrom vTo [] [] ∅ in
  state <- fold_each endpointsInActive (change, microservicesInActive) (addEndpointChangeIfNeeded repo) ;;
  left <- range (map_to_list state.2) ;;
  fold_each left state.1 (fun change m => addMicroserviceChangeIfNeeded repo change m.2).

Definition moveStatefulSession (repo : repo) (c : blueGreenPipelineChange) (session : option StatefulSession) : prog World unit :=
  session <- deref session ;;
  _ <- SaveStatefulSessionConfig repo
         (session <| StatefulSession_DeploymentVersion := DeploymentVersion_Version (versionTo c) |>) ;;
  ret tt.

Definition moveEndpointsToNewActiveVersion (repo : repo) (c : blueGreenPipelineChange) : prog World unit :=
  for_each (endpointsToMove c) (fun activeEndpoint =>
    (if (Endpoint_StatefulSessionId activeEndpoint =? 0)%Z then ret tt
     else sessionToMove <- FindStatefulSessionConfigById repo (Endpoint_StatefulSessionId activeEndpoint) ;;
          moveStatefulSession repo c sessionToMove) ;;;
    _ <- SaveEndpoint repo (activeEndpoint <| Endpoint_DeploymentVersion := DeploymentVersion_Version (versionTo c) |>) ;;
    ret tt).

Definition moveMicroserviceVersionsToNewActiveVersion (repo : repo) (c : blueGreenPipelineChange) : prog World unit :=
  for_each (microservicesToMove c) (fun msVersion =>
    SaveMicroserviceVersion repo
      (msVersion <| MicroserviceVersion_DeploymentVersion := DeploymentVersion_Version (versionTo c) |>)).

Definition isPerClusterStatefulSession (repo : repo) (session : StatefulSession) : prog World bool :=
  route <- FindRouteByStatefulSession repo (StatefulSession_Id session) ;;
  match route with
  | Some _ => ret false
  | None =>
      endpoint <- FindEndpointByStatefulSession repo (StatefulSession_Id session) ;;
      ret match endpoint with Some _ => false | None => true end
  end.
(** The loop over the sessions of the target version stops at the first
    per-cluster one. *)
Fixpoint any_per_cluster (repo : repo) (sessions : list StatefulSession) : prog World bool :=
  match sessions with
  | [] => ret false
  | s :: rest =>
      isPerCluster <- isPerClusterStatefulSession repo s ;;
      if isPerCluster : bool then ret true else any_per_cluster repo rest
  end.
Definition moveStatefulSessionConfigsForCluster (repo : repo) (c : blueGreenPipelineChange) (cluster : Cluster) : prog World unit :=
  let clusterFamilyName := ExtractFamilyName (Cluster_Name cluster) in
  let namespace := ExtractNamespace (Cluster_Name cluster) in
  originalSessions <- FindStatefulSessionConfigsByClusterAndVersion repo clusterFamilyName namespace (versionFrom c) ;;
  perClusterSessions <- fold_each originalSessions [] (fun perClusterSessions s =>
    isPerCluster <- isPerClusterStatefulSession repo s ;;
    ret (if (isPerCluster : bool)
            && (bool_decide (operation c = promote)
                || negb (String.eqb (StatefulSession_DeploymentVersion s) (StatefulSession_InitialDeploymentVersion s)))
         then (perClusterSessions ++ [s])%list else perClusterSessions)) ;;
  match perClusterSessions with
  | [] => ret tt
  | _ =>
      targetVersionSessions <- FindStatefulSessionConfigsByClusterAndVersion repo clusterFamilyName namespace (versionTo c) ;;
      found <- any_per_cluster repo targetVersionSessions ;;
      if found : bool then ret tt
      else for_each perClusterSessions (fun s => moveStatefulSession repo c (Some s))
  end.
Definition moveStatefulSessionPerClusterConfigs (repo : repo) (c : blueGreenPipelineChange) : prog World unit :=
  names <- range (elements (nonBgClusters c)) ;;
  for_each names (fun clusterName =>
    cluster <- FindClusterByName repo clusterName ;;
    match cluster with
    | Some cluster => moveStatefulSessionConfigsForCluster repo c cluster
    | None => ret tt
    end).

Definition processRoutesGroupedByMatcher (dao : repo) (c : blueGreenPipelineChange) (routesByRouteMatcher : list Route) :
    prog World unit :=
  match routesByRouteMatcher with
  | [route] =>
      if String.eqb (Route_DeploymentVersion route) (DeploymentVersion_Version (versionFrom c))
      then
        if bool_decide (Route_ClusterName route ∈ nonBgClusters c)
        then
          if movable c (Route_InitialDeploymentVersion route)
          then
            (if (Route_StatefulSessionId route =? 0)%Z then ret tt
             else routeStatefulSession <- FindStatefulSessionConfigById dao (Route_StatefulSessionId route) ;;
                  moveStatefulSession dao c routeStatefulSession) ;;;
            _ <- SaveRoute dao (route <| Route_DeploymentVersion := DeploymentVersion_Version (versionTo c) |>) ;;
            ret tt
          else ret tt
        else ret tt
      else
        generated <- GenerateProhibitRoute route (mkNamespace "") (DeploymentVersion_Version (versionFrom c)) ;;
        let notFoundRoute : Route := generated.1 in
        _ <- SaveRoute dao (notFoundRoute <| Route_RouteKey := GenerateNoVersionKey notFoundRoute |>) ;;
        ret tt
  | [] => panic "index out of range [0] with length 0"
  | _ => ret tt
  end.
Definition processRoutes (dao : repo) (c : blueGreenPipelineChange) : prog World unit :=
  routes <- FindRoutesByDeploymentVersions dao [versionFrom c; versionTo c] ;;
  groupedRoutesByVirtualHost <- range (map_to_list (group_by Route_VirtualHostId routes)) ;;
  for_each groupedRoutesByVirtualHost (fun groupedRoutes =>
    groupedRoutesByRouteMatcher <- range (map_to_list (group_by GenerateNoVersionKey groupedRoutes.2)) ;;
    for_each groupedRoutesByRouteMatcher (fun g => processRoutesGroupedByMatcher dao c g.2)).

Definition apply (repo : repo) (c : blueGreenPipelineChange) : prog World unit :=
  moveEndpointsToNewActiveVersion repo c ;;;
  moveMicroserviceVersionsToNewActiveVersion repo c ;;;
  moveStatefulSessionPerClusterConfigs repo c ;;;
  processRoutes repo c.

Definition processEndpointsAndRoutes (repo : repo) (vFrom vTo : DeploymentVersion) (op : blueGreenOperation) : prog World unit :=
  change <- calculateBlueGreenPipelineChange repo op vFrom vTo ;;
  apply repo change.

(** * Deleting versions ([bluegreen.go]) *)

Definition generateAndSaveEnvoyConfig (dao : repo) (nodeGroupName : string) : prog World unit :=
  GenerateAndSave dao nodeGroupName ListenerTable ;;;
  GenerateAndSave dao nodeGroupName ClusterTable ;;;
  GenerateAndSave dao nodeGroupName RouteConfigurationTable.

Definition deleteRoutes (storage : repo) (dVersions : list DeploymentVersion) : prog World unit :=
  routes <- FindRoutesByDeploymentVersions storage dVersions ;;
  DeleteRoutesByUUID storage routes.

(** A cluster left without endpoints is deleted. *)
Definition deleteClusterIfEmpty (storage : repo) (clusterId : Z) : prog World unit :=
  clusterEndpoints <- FindEndpointsByClusterId storage clusterId ;;
  match clusterEndpoints with
  | _ :: _ => ret tt
  | [] => cluster <- FindClusterById storage clusterId ;; DeleteClusterCascade storage cluster
  end.

Definition deleteCandidates (storage : repo) (dVersions : list DeploymentVersion) : prog World unit :=
  endpoints <- FindEndpointsByDeploymentVersionsIn storage dVersions ;;
  for_each endpoints (DeleteEndpointCascade storage) ;;;
  deleteRoutes storage dVersions ;;;
  clusterIds <- range (elements (list_to_set (Endpoint_ClusterId <$> endpoints) : gset Z)) ;;
  for_each clusterIds (deleteClusterIfEmpty storage) ;;;
  statefulSessions <- FindAllStatefulSessionConfigs storage ;;
  for_each statefulSessions (fun session =>
    if existsb (fun v => String.eqb (DeploymentVersion_Version v) (StatefulSession_DeploymentVersion session)) dVersions
    then DeleteStatefulSessionConfig storage (StatefulSession_Id session)
    else ret tt) ;;;
  DeleteVersions storage dVersions.

Definition processCandidates (dao : repo) (dVersions : list DeploymentVersion) : prog World unit :=
  nodeGroups <- FindAllNodeGroups dao ;;
  deleteCandidates dao dVersions ;;;
  ApplyLoadBalanceForAllClusters dao ;;;
  for_each nodeGroups (fun nodeGroup => generateAndSaveEnvoyConfig dao (NodeGroup_Name nodeGroup)).

Definition DeleteCandidate (dVersion : DeploymentVersion) : prog World unit :=
  changes <- WithWTx (processCandidates InTx [dVersion] ;;; Dao.DeleteDeploymentVersion InTx dVersion) ;;
  Publish TopicReload (NewReloadEvent changes).

(** * Promote and rollback *)

(** What is deleted by a promote of [promoteVersion] once the stages of the
    active and the legacy version have changed: the other candidates, and
    archived versions over the size of the history. *)
Definition versions_to_delete (versionState : VersionsState) (historySize : Z) : list DeploymentVersion :=
  (GetCandidates versionState ++
   match GetOldestArchivedVersion versionState with
   | Some _ => if (historySize <? GetHistorySize versionState)%Z
               then GetArchivedVersionsToDelete (GetHistorySize versionState - historySize) versionState
               else []
   | None => []
   end)%list.

(** The payload of the transaction of [Promote]. *)
Definition promote_payload (dao : repo) (originPromoteVersion : DeploymentVersion) (historySize : Z) : prog World unit :=
  nodeGroups <- FindAllNodeGroups Local ;;
  deploymentVersions <- FindAllDeploymentVersions Local ;;
  let versionState := SetVersionToPromote originPromoteVersion (NewVersionState deploymentVersions) in
  match GetActive versionState with
  | None => fail (ErrCp BlueGreenConflictError ErrCurrentActiveVersionEmpty)
  | Some currentActiveVersion =>
      let optionalLegacy := GetLegacy versionState in
      let versionState := SetStage currentActiveVersion LegacyStage versionState in
      let versionState := match optionalLegacy with
                          | Some p => SetStage p ArchivedStage versionState
                          | None => versionState
                          end in
      let promoteVersion := originPromoteVersion <| DeploymentVersion_Stage := ActiveStage |> in
      let versionsToDelete := versions_to_delete versionState historySize in
      DeleteAutoGeneratedRoutes dao true (DeploymentVersion_Version promoteVersion) ;;;
      deleteCandidates dao versionsToDelete ;;;
      DeleteDeploymentVersions dao versionsToDelete ;;;
      ignore_err (processEndpointsAndRoutes dao (Deref currentActiveVersion versionState) promoteVersion promote) ;;;
      ApplyLoadBalanceForAllClusters dao ;;;
      for_each nodeGroups (fun nodeGroup => generateAndSaveEnvoyConfig dao (NodeGroup_Name nodeGroup)) ;;;
      _ <- StoreDeploymentVersion dao (Deref currentActiveVersion versionState) ;;
      _ <- StoreDeploymentVersion dao promoteVersion ;;
      match optionalLegacy with
      | Some p => _ <- StoreDeploymentVersion dao (Deref p versionState) ;; ret tt
      | None => ret tt
      end
  end.
Definition Promote (originPromoteVersion : DeploymentVersion) (historySize : Z) : prog World (list DeploymentVersion) :=
  changes <- WithWTx (promote_payload InTx originPromoteVersion historySize) ;;
  ignore_err (Publish TopicReload (NewReloadEvent changes)) ;;;
  FindAllDeploymentVersions Local.

Definition rollback_payload (dao : repo) : prog World unit :=
  nodeGroups <- FindAllNodeGroups Local ;;
  deploymentVersions <- FindAllDeploymentVersions Local ;;
  let versionState := NewVersionState deploymentVersions in
  let futureCandidateVersion := GetActive versionState in
  match GetLegacy versionState with
  | None => fail (ErrCp BlueGreenConflictError ErrLegacyVersionEmpty)
  | Some futureActiveVersion =>
      let versionsToDelete := GetCandidates versionState in
      processCandidates dao versionsToDelete ;;;
      DeleteDeploymentVersions dao versionsToDelete ;;;
      let versionState := SetStage futureActiveVersion ActiveStage versionState in
      futureCandidateVersion <- deref futureCandidateVersion ;;
      let versionState := SetStage futureCandidateVersion CandidateStage versionState in
      let activeVersion := Deref futureActiveVersion versionState in
      let candidateVersion := Deref futureCandidateVersion versionState in
      DeleteAutoGeneratedRoutes dao true (DeploymentVersion_Version activeVersion) ;;;
      processEndpointsAndRoutes dao candidateVersion activeVersion rollback ;;;
      ApplyLoadBalanceForAllClusters dao ;;;
      _ <- StoreDeploymentVersion dao activeVersion ;;
      _ <- StoreDeploymentVersion dao candidateVersion ;;
      for_each nodeGroups (fun nodeGroup => generateAndSaveEnvoyConfig dao (NodeGroup_Name nodeGroup))
  end.
Definition Rollback : prog World (list DeploymentVersion) :=
  changes <- WithWTx (rollback_payload InTx) ;;
  ignore_err (Publish TopicReload (NewReloadEvent changes)) ;;;
  FindAllDeploymentVersions Local.

(** * Version of a microservice *)

Definition parseMicroserviceHost (host : string) : string * string :=
  match strings_LastIndex host "-" with
  | Some idx => (str_take idx host, str_drop (idx + 1) host)
  | None => (host, "")
  end.
Definition getMicroserviceVersionLegacy (microserviceHost : string) : prog World string :=
  endpoints <- try_ok (FindAllEndpoints Local) ;;
  match endpoints with
  | None => fail (ErrMsg "failed to fetch endpoints data from control-plane storage")
  | Some endpoints =>
      match List.find (fun e => String.eqb (Endpoint_Address e) microserviceHost) endpoints with
      | None => fail (ErrCp NotFoundEntityError ErrNoEndpoint)
      | Some endpoint =>
          dVersion <- try_ok (FindDeploymentVersion Local (Endpoint_DeploymentVersion endpoint)) ;;
          match dVersion with
          | None => fail (ErrMsg "failed to fetch b/g version data from control-plane storage")
          | Some dVersion =>
              dVersion <- deref dVersion ;;
              ret (if String.eqb (DeploymentVersion_Stage dVersion) ActiveStage then ""
                   else Endpoint_DeploymentVersion endpoint)
          end
      end
  end.
Definition GetMicroserviceVersion (microserviceHost : string) : prog World string :=
  let '(serviceName, initialVersion) := parseMicroserviceHost microserviceHost in
  if String.eqb initialVersion "" then getMicroserviceVersionLegacy microserviceHost
  else
    versions <- try_ok (GetMicroserviceCurrentVersion Local serviceName CurrentNamespace initialVersion) ;;
    match versions with
    | Some [currentVersion] =>
        ret (if String.eqb (VersionInRegistry_Stage currentVersion) ActiveStage then ""
             else VersionInRegistry_Version currentVersion)
    | _ => getMicroserviceVersionLegacy microserviceHost
    end.
End bluegreen.
