(* ===== verification/BlueGreenSpec.v ===== *)
(** What promote, rollback and the deletion of versions do to the stored
    deployment versions and to what belongs to a deleted version. *)
From S2P Require Import Prelude GoLib Domain Tables MemDb Msaddr Events RouteKey VersionState Runtime.
From S2P Require Import Dao DaoSpec Entity RegCommon LoadBalance Registry BlueGreen.
From S2P Require RuntimeModel.
Open Scope string_scope.

(** * Frames *)

Section frames.
Context `{RL : RuntimeLaws} `{H : Sha256} `{E : EntityService}.

Lemma frame_needs_balancing (D : World -> World -> Prop) `{!PreOrder D} l : frame D (needs_balancing l).
Proof. induction l as [|e l IH]; simpl; solve_frame. Qed.
Hint Resolve frame_needs_balancing : frame.
Lemma frame_ApplyLoadBalance dao : frame (touches not_versions) (ApplyLoadBalanceForAllClusters dao).
Proof. solve_frame. Qed.
Lemma frame_generateAndSaveEnvoyConfig dao ng : frame (touches not_versions) (generateAndSaveEnvoyConfig dao ng).
Proof. solve_frame. Qed.
Lemma frame_deleteCandidates dao vs : frame (touches not_versions) (deleteCandidates dao vs).
Proof. solve_frame. Qed.
Hint Resolve frame_ApplyLoadBalance frame_generateAndSaveEnvoyConfig frame_deleteCandidates : frame.
Lemma frame_processCandidates dao vs : frame (touches not_versions) (processCandidates dao vs).
Proof. solve_frame. Qed.

Lemma frame_any_per_cluster repo l : frame (touches not_versions) (any_per_cluster repo l).
Proof. induction l as [|s l IH]; simpl; solve_frame. Qed.
Hint Resolve frame_any_per_cluster : frame.
Lemma frame_calculateBlueGreenPipelineChange repo op a b :
  frame (touches not_versions) (calculateBlueGreenPipelineChange repo op a b).
Proof. solve_frame. Qed.
Lemma frame_moveStatefulSessionPerClusterConfigs repo c :
  frame (touches not_versions) (moveStatefulSessionPerClusterConfigs repo c).
Proof. solve_frame. Qed.
Lemma frame_processRoutes repo c : frame (touches not_versions) (processRoutes repo c).
Proof. solve_frame. Qed.
Hint Resolve frame_calculateBlueGreenPipelineChange frame_moveStatefulSessionPerClusterConfigs frame_processRoutes : frame.
Lemma frame_processEndpointsAndRoutes repo a b op :
  frame (touches not_versions) (processEndpointsAndRoutes repo a b op).
Proof. solve_frame. Qed.

Lemma shrinks_deleteCandidates dao vs : frame (tx_rel shrinks) (deleteCandidates dao vs).
Proof. solve_frame. Qed.
End frames.
#[export] Hint Resolve frame_needs_balancing frame_ApplyLoadBalance frame_generateAndSaveEnvoyConfig frame_deleteCandidates
  frame_processCandidates frame_processEndpointsAndRoutes shrinks_deleteCandidates : frame.

(** * The state of the versions *)

(** Exactly, and at most, one stored version of a stage. *)
Definition only_version `{RL : RuntimeLaws} (db : Db) (stage v : string) : Prop :=
  forall u, stage_of db u = Some stage <-> u = v.
Definition at_most_one `{RL : RuntimeLaws} (db : Db) (stage : string) : Prop :=
  forall u v, stage_of db u = Some stage -> stage_of db v = Some stage -> u = v.

(** The stages are distinct. *)
Ltac by_stage := unfold ActiveStage, LegacyStage, CandidateStage, ArchivedStage in *; congruence.

Lemma has_stage_spec stage v : has_stage stage v = true <-> DeploymentVersion_Stage v = stage.
Proof. unfold has_stage. apply String.eqb_eq. Qed.

Lemma GetCandidates_spec st (v : DeploymentVersion) :
  v ∈ GetCandidates st <->
  v ∈ versions st /\ DeploymentVersion_Stage v = CandidateStage /\ versionToPromote st <> DeploymentVersion_Version v.
Proof.
  unfold GetCandidates.
  rewrite list_elem_of_In, filter_In, <- list_elem_of_In, andb_true_iff, has_stage_spec, negb_true_iff, String.eqb_neq.
  done.
Qed.
Lemma archived_to_delete_sub k l v : v ∈ archived_to_delete k l -> v ∈ l /\ DeploymentVersion_Stage v = ArchivedStage.
Proof.
  revert k. induction l as [|x l IH]; intros k; simpl; [by intros ?%elem_of_nil|].
  destruct (has_stage ArchivedStage x) eqn:Ex.
  - intros [->|Hv]%elem_of_cons; [split; [left|by apply has_stage_spec]|].
    destruct (k - 1 =? 0)%Z; [by apply elem_of_nil in Hv|]. destruct (IH _ Hv). split; [by right|done].
  - intros Hv. destruct (IH _ Hv). split; [by right|done].
Qed.
Lemma versions_to_delete_sub st h v :
  v ∈ versions_to_delete st h ->
  v ∈ versions st /\ (DeploymentVersion_Stage v = CandidateStage /\ versionToPromote st <> DeploymentVersion_Version v \/
                      DeploymentVersion_Stage v = ArchivedStage).
Proof.
  unfold versions_to_delete. intros [Hc|Ha]%elem_of_app.
  - apply GetCandidates_spec in Hc as (? & ? & ?). auto.
  - destruct (GetOldestArchivedVersion st); [|by apply elem_of_nil in Ha].
    destruct (h <? GetHistorySize st)%Z; [|by apply elem_of_nil in Ha].
    apply archived_to_delete_sub in Ha as [? ?]. auto.
Qed.

Lemma elem_of_SetStage p stage st v :
  v ∈ versions (SetStage p stage st) ->
  (exists u, versions st !! p = Some u /\ v = u <| DeploymentVersion_Stage := stage |>) \/
  (exists k, k <> p /\ versions st !! k = Some v).
Proof.
  simpl. intros [k Hk]%list_elem_of_lookup. destruct (decide (k = p)) as [->|Hne].
  - rewrite list_lookup_alter_eq in Hk. destruct (versions st !! p) as [u|]; [|done].
    injection Hk as <-. left. by exists u.
  - rewrite list_lookup_alter_ne in Hk by done. right. by exists k.
Qed.
Lemma SetStage_other p stage st k v :
  k <> p -> versions st !! k = Some v -> versions (SetStage p stage st) !! k = Some v.
Proof. intros Hne Hk. simpl. by rewrite list_lookup_alter_ne. Qed.
Lemma SetStage_same p stage st v :
  versions st !! p = Some v ->
  versions (SetStage p stage st) !! p = Some (v <| DeploymentVersion_Stage := stage |>).
Proof. intros Hp. simpl. by rewrite list_lookup_alter_eq, Hp. Qed.
Lemma Deref_Some p st v : versions st !! p = Some v -> Deref p st = v.
Proof. intros Hp. unfold Deref. by apply nth_lookup_Some. Qed.

Lemma foldl_delete_lookup {K A B} `{Countable K} (key : A -> K) (l : list A) (m : gmap K B) k :
  foldl (fun m v => delete (key v) m) m l !! k = if decide (k ∈ (key <$> l)) then None else m !! k.
Proof.
  revert m. induction l as [|x l IH]; intros m.
  - simpl foldl. destruct (decide _) as [Hk|]; [by apply elem_of_nil in Hk|done].
  - change (foldl ?f m (x :: l)) with (foldl f (f m x) l). rewrite IH, fmap_cons.
    destruct (decide (k ∈ key <$> l)) as [Hk|Hk], (decide (k ∈ key x :: (key <$> l))) as [Hk'|Hk']; try done.
    + destruct Hk'. by right.
    + apply elem_of_cons in Hk' as [->|Hk']; [by rewrite lookup_delete_eq|done].
    + apply not_elem_of_cons in Hk' as [Hne _]. by rewrite lookup_delete_ne.
Qed.

Section stored.
Context `{RL : RuntimeLaws}.
Variables (db : Db) (dvs : list DeploymentVersion).
Hypothesis dvs_unique : NoDup (id_key DeploymentVersionTable <$> dvs).
Hypothesis dvs_stored : forall x : DeploymentVersion, x ∈ dvs <-> version_rows db !! id_key DeploymentVersionTable x = Some x.

Lemma stored_version (x : DeploymentVersion) :
  x ∈ dvs <-> version_rows db !! [VStr (DeploymentVersion_Version x)] = Some x.
Proof.
  rewrite dvs_stored. split; intros Hx.
  - pose proof (version_row _ _ _ Hx) as (Hk & _). by rewrite Hk in Hx.
  - pose proof (version_row _ _ _ Hx) as (_ & Hv & _). by rewrite version_key.
Qed.
Lemma stored_stage (x : DeploymentVersion) :
  x ∈ dvs -> stage_of db (DeploymentVersion_Version x) = Some (DeploymentVersion_Stage x).
Proof. intros Hx%stored_version. unfold stage_of. by rewrite Hx. Qed.
Lemma stage_of_stored v s :
  stage_of db v = Some s -> exists x : DeploymentVersion, x ∈ dvs /\ DeploymentVersion_Version x = v /\ DeploymentVersion_Stage x = s.
Proof.
  unfold stage_of. destruct (version_rows db !! [VStr v]) as [x|] eqn:Ex; [|done]. intros [= <-].
  pose proof (version_rows_Some _ _ _ Ex) as Hv. exists x. split_and!; [|done..].
  apply stored_version. by rewrite Hv.
Qed.

Lemma stored_name (x y : DeploymentVersion) :
  x ∈ dvs -> y ∈ dvs -> DeploymentVersion_Version x = DeploymentVersion_Version y -> x = y.
Proof. intros Hx%stored_version Hy%stored_version Hn. rewrite Hn in Hx. rewrite Hx in Hy. by injection Hy. Qed.

Let st := NewVersionState dvs.
Lemma in_state v : v ∈ versions st <-> v ∈ dvs.
Proof. unfold st. by rewrite NewVersionState_perm. Qed.
Lemma state_names i j x y :
  versions st !! i = Some x -> versions st !! j = Some y ->
  DeploymentVersion_Version x = DeploymentVersion_Version y -> i = j.
Proof.
  intros Hx Hy Hn.
  assert (x = y) as ->.
  { apply stored_name; [apply in_state; by eapply list_elem_of_lookup_2..|done]. }
  assert (NoDup (id_key DeploymentVersionTable <$> versions st)) as Hnd by (unfold st; by rewrite NewVersionState_perm).
  apply (NoDup_lookup _ i j (id_key DeploymentVersionTable y) Hnd); rewrite list_lookup_fmap.
  - etransitivity; [apply (f_equal (fmap (M := option) _) Hx)|done].
  - etransitivity; [apply (f_equal (fmap (M := option) _) Hy)|done].
Qed.
Lemma first_of_stage_stored stage i :
  first_of_stage stage (versions st) = Some i ->
  exists x, versions st !! i = Some x /\ x ∈ dvs /\ DeploymentVersion_Stage x = stage.
Proof.
  intros Hi. apply first_of_stage_Some in Hi as (x & Hx & Hs). exists x. split_and!; [done| |by apply has_stage_spec].
  apply in_state. by eapply list_elem_of_lookup_2.
Qed.
Lemma first_of_stage_missing stage u :
  first_of_stage stage (versions st) = None -> stage_of db u <> Some stage.
Proof.
  intros Hn Hs. apply stage_of_stored in Hs as (x & Hx & _ & Hs). rewrite first_of_stage_None in Hn.
  assert (has_stage stage x = true) as Ht by by apply has_stage_spec. rewrite Hn in Ht; [done|]. by apply in_state.
Qed.
End stored.

(** * Promote *)

(** The stage of version [v] before and after [p] is promoted. *)
Definition promoted (p v : string) (before after : option string) : Prop :=
  if String.eqb v p then after = Some ActiveStage
  else match before with
       | None => after = None
       | Some s =>
           if String.eqb s ActiveStage then after = Some LegacyStage
           else if String.eqb s LegacyStage then after = Some ArchivedStage
           else if String.eqb s CandidateStage then after = None
           else if String.eqb s ArchivedStage then after = before \/ after = None
           else after = before
       end.

Lemma promoted_summary p a (f g : string -> option string) :
  (forall u, f u = Some ActiveStage <-> u = a) -> f p = Some CandidateStage ->
  (forall v, promoted p v (f v) (g v)) ->
  (forall v, g v = Some ActiveStage <-> v = p) /\ (forall v, g v = Some LegacyStage <-> v = a) /\
  (forall v, g v <> Some CandidateStage).
Proof.
  intros Ha Hp Hg.
  assert (forall v, v = p /\ g v = Some ActiveStage \/ v <> p /\ v = a /\ g v = Some LegacyStage \/
    v <> p /\ v <> a /\ g v <> Some ActiveStage /\ g v <> Some LegacyStage /\ g v <> Some CandidateStage) as Hv.
  { intros v. specialize (Hg v). specialize (Ha v). unfold promoted in Hg.
    destruct (String.eqb_spec v p) as [->|Hne]; [by left|right].
    destruct (f v) as [s|].
    - destruct (String.eqb_spec s ActiveStage) as [->|Hsa]; [left; split_and!; try done; by apply Ha|right].
      assert (v <> a) by (intros ->; destruct Hsa; destruct Ha as [_ Ha]; specialize (Ha eq_refl); by injection Ha).
      split_and!; try done;
        destruct (String.eqb_spec s LegacyStage); [rewrite Hg; by_stage| |rewrite Hg; by_stage| |rewrite Hg; by_stage|];
        destruct (String.eqb_spec s CandidateStage); try (rewrite Hg; by_stage);
        destruct (String.eqb_spec s ArchivedStage); try destruct Hg as [Hg|Hg]; rewrite Hg; by_stage.
    - right. split_and!; try (rewrite Hg); try done. intros ->. destruct Ha as [_ Ha]. by specialize (Ha eq_refl). }
  assert (p <> a) by (intros ->; destruct (Ha a) as [_ Hx]; rewrite Hp in Hx; specialize (Hx eq_refl); by_stage).
  split_and!; intros v; destruct (Hv v) as [(-> & ->)|[(Hne & -> & ->)|(? & ? & ? & ? & ?)]]; try split; try done; try by_stage.
Qed.

Section steps.
Context `{RL : RuntimeLaws}.

(** A step that does not write deployment versions. *)
Lemma step_versions {A} (m : prog World A) w r w' db :
  frame (touches not_versions) m -> m w = (r, w') -> in_tx w db ->
  exists db', in_tx w' db' /\ version_rows db' = version_rows db /\ w_db w' = w_db w.
Proof.
  intros F Em Hw. destruct (frame_in_tx _ _ _ _ _ _ F Em Hw) as (db' & Hw' & Hd).
  exists db'. split_and!; [done|by apply (Hd DeploymentVersionTable)|].
  by destruct (frame_run _ _ _ _ _ F Em).
Qed.
Lemma step_ignore_err (m : prog World unit) w w' db :
  frame (touches not_versions) m -> ignore_err m w = (Ok tt, w') -> in_tx w db ->
  exists db', in_tx w' db' /\ version_rows db' = version_rows db /\ w_db w' = w_db w.
Proof. intros F. apply step_versions. auto with frame. Qed.

Lemma stage_of_rows db db' v : version_rows db = version_rows db' -> stage_of db v = stage_of db' v.
Proof. unfold stage_of. by intros ->. Qed.
Lemma stage_of_insert db db' (x : DeploymentVersion) v :
  version_rows db' = <[[VStr (DeploymentVersion_Version x)] := x]> (version_rows db) ->
  stage_of db' v = if String.eqb v (DeploymentVersion_Version x) then Some (DeploymentVersion_Stage x) else stage_of db v.
Proof.
  intros Hr. unfold stage_of. rewrite Hr. destruct (String.eqb_spec v (DeploymentVersion_Version x)) as [->|Hne].
  - by rewrite lookup_insert_eq.
  - rewrite lookup_insert_ne; [done|]. intros [= ?]. by subst.
Qed.
Lemma stage_of_delete db db' (l : list DeploymentVersion) v :
  version_rows db' = foldl (fun m v => delete [VStr (DeploymentVersion_Version v)] m) (version_rows db) l ->
  stage_of db' v = if existsb (fun x => String.eqb v (DeploymentVersion_Version x)) l then None else stage_of db v.
Proof.
  intros Hr. unfold stage_of. rewrite Hr.
  etransitivity; [apply (f_equal (fmap (M := option) _)), (foldl_delete_lookup (fun v : DeploymentVersion => [VStr (DeploymentVersion_Version v)]))|].
  destruct (existsb _ l) eqn:Ee; destruct (decide _) as [Hk|Hk]; try done.
  - destruct Hk. apply existsb_exists in Ee as (x & Hx & ->%String.eqb_eq).
    apply list_elem_of_fmap. exists x. split; [done|by apply list_elem_of_In].
  - apply list_elem_of_fmap in Hk as (x & [= ->] & Hx). apply not_true_iff_false in Ee as [].
    apply existsb_exists. exists x. split; [by apply list_elem_of_In|apply String.eqb_refl].
Qed.

Context `{H : Sha256} `{E : EntityService}.
Lemma step_store (v : DeploymentVersion) r w w' db :
  StoreDeploymentVersion InTx v w = (Ok r, w') -> in_tx w db ->
  DeploymentVersion_Version v <> "" -> DeploymentVersion_Stage v <> "" ->
  exists db', in_tx w' db' /\ w_db w' = w_db w /\
    forall u, stage_of db' u = if String.eqb u (DeploymentVersion_Version v) then Some (DeploymentVersion_Stage v) else stage_of db u.
Proof.
  intros Em Hw Hv Hs. destruct (StoreDeploymentVersion_in_tx v w db Hw Hv Hs) as (db' & w1 & E1 & Hw1 & Hd & R1 & _).
  rewrite E1 in Em. injection Em as _ <-. exists db'. split_and!; [done..|].
  intros u. exact (stage_of_insert db db' _ u R1).
Qed.
End steps.

Section promote.
Context `{RL : RuntimeLaws} `{H : Sha256} `{E : EntityService}.

Lemma FindAllDeploymentVersions_local w :
  exists l, FindAllDeploymentVersions Local w = (Ok l, w) /\ NoDup (id_key DeploymentVersionTable <$> l) /\
    forall x : DeploymentVersion, x ∈ l <-> version_rows (w_db w) !! id_key DeploymentVersionTable x = Some x.
Proof. apply (FindAll_local DeploymentVersionTable). Qed.

(** What the state of the versions is after the stages of the active and the
    legacy version have changed. *)
Definition promote_state (pv : DeploymentVersion) (dvs : list DeploymentVersion) (active : nat) (legacy : option nat) : VersionsState :=
  let st := SetStage active LegacyStage (SetVersionToPromote pv (NewVersionState dvs)) in
  match legacy with Some j => SetStage j ArchivedStage st | None => st end.

Section plan.
Variables (db : Db) (dvs : list DeploymentVersion) (pv : DeploymentVersion) (a : string) (i : nat) (legacy : option nat).
Hypothesis dvs_unique : NoDup (id_key DeploymentVersionTable <$> dvs).
Hypothesis dvs_stored : forall x : DeploymentVersion, x ∈ dvs <-> version_rows db !! id_key DeploymentVersionTable x = Some x.
Hypothesis active : only_version db ActiveStage a.
Hypothesis candidate : stage_of db (DeploymentVersion_Version pv) = Some CandidateStage.
Hypothesis active_at : first_of_stage ActiveStage (versions (NewVersionState dvs)) = Some i.
Hypothesis legacy_at : first_of_stage LegacyStage (versions (NewVersionState dvs)) = legacy.
Let st := promote_state pv dvs i legacy.

Lemma plan_active :
  exists av, versions (NewVersionState dvs) !! i = Some av /\ av ∈ dvs /\ DeploymentVersion_Version av = a /\
    DeploymentVersion_Stage av = ActiveStage /\ Deref i st = av <| DeploymentVersion_Stage := LegacyStage |>.
Proof.
  destruct (first_of_stage_stored dvs _ _ active_at) as (av & Hi & Hin & Hs). exists av.
  assert (DeploymentVersion_Version av = a) as Hav.
  { apply active. rewrite (stored_stage db dvs dvs_stored _ Hin). by rewrite Hs. }
  split_and!; [done..|]. apply Deref_Some. unfold st, promote_state. destruct legacy as [j|] eqn:El.
  - destruct (first_of_stage_stored dvs _ _ legacy_at) as (lv & Hj & _ & Hl).
    apply SetStage_other; [intros ->; by_stage|by apply SetStage_same].
  - by apply SetStage_same.
Qed.
Lemma plan_legacy j :
  legacy = Some j ->
  exists lv, lv ∈ dvs /\ DeploymentVersion_Stage lv = LegacyStage /\
    Deref j st = lv <| DeploymentVersion_Stage := ArchivedStage |>.
Proof.
  intros Hl. destruct (first_of_stage_stored dvs LegacyStage j) as (lv & Hj & Hin & Hs); [by_stage|]. exists lv.
  destruct (first_of_stage_stored dvs _ _ active_at) as (av & Hi & _ & Ha).
  split_and!; [done..|]. apply Deref_Some. unfold st, promote_state. rewrite Hl.
  apply SetStage_same. apply SetStage_other; [intros ->; by_stage|done].
Qed.

(** An element of the changed state, and whether it can be deleted. *)
Lemma plan_member x :
  x ∈ versions st ->
  (exists v, v ∈ dvs /\ DeploymentVersion_Version x = DeploymentVersion_Version v /\
    (DeploymentVersion_Stage v = ActiveStage /\ DeploymentVersion_Stage x = LegacyStage \/
     DeploymentVersion_Stage v = LegacyStage /\ DeploymentVersion_Stage x = ArchivedStage \/
     DeploymentVersion_Stage v <> ActiveStage /\ x = v)).
Proof.
  destruct plan_active as (av & Hi & Hav & Hva & Hsa & _).
  assert (forall y, y ∈ versions (SetStage i LegacyStage (SetVersionToPromote pv (NewVersionState dvs))) ->
    y = av <| DeploymentVersion_Stage := LegacyStage |> \/ y ∈ dvs /\ DeploymentVersion_Stage y <> ActiveStage) as H1.
  { intros y [(u & Hu & ->)|(k & Hk & Hy)]%elem_of_SetStage; simpl in *; [left; by_stage|].
    assert (y ∈ dvs) as Hyd by (apply in_state; by eapply list_elem_of_lookup_2). right. split; [done|].
    intros Hs. destruct Hk. eapply (state_names db dvs dvs_unique dvs_stored); [exact Hy|exact Hi|].
    rewrite Hva. apply active. rewrite (stored_stage db dvs dvs_stored _ Hyd). by rewrite Hs. }
  assert (forall y, y = av <| DeploymentVersion_Stage := LegacyStage |> \/ y ∈ dvs /\ DeploymentVersion_Stage y <> ActiveStage ->
    exists v, v ∈ dvs /\ DeploymentVersion_Version y = DeploymentVersion_Version v /\
      (DeploymentVersion_Stage v = ActiveStage /\ DeploymentVersion_Stage y = LegacyStage \/
       DeploymentVersion_Stage v = LegacyStage /\ DeploymentVersion_Stage y = ArchivedStage \/
       DeploymentVersion_Stage v <> ActiveStage /\ y = v)) as H2.
  { intros y [->|[Hy Hs]]; [exists av|exists y]; split_and!; auto. }
  unfold st, promote_state. destruct legacy as [j|] eqn:El; [|auto].
  intros [(u & Hu & ->)|(k & Hk & Hy)]%elem_of_SetStage; [|apply H2, H1; by eapply list_elem_of_lookup_2].
  destruct (first_of_stage_stored dvs _ _ legacy_at) as (lv & Hj & Hlv & Hsl).
  rewrite (SetStage_other i _ _ j lv) in Hu by (try done; intros ->; by_stage). injection Hu as <-.
  exists lv. split_and!; auto.
Qed.

Lemma plan_deleted h d :
  d ∈ versions_to_delete st h ->
  let u := DeploymentVersion_Version d in
  u <> DeploymentVersion_Version pv /\ u <> a /\
  exists s, stage_of db u = Some s /\ (s = CandidateStage \/ s = ArchivedStage \/ s = LegacyStage).
Proof.
  intros Hd. apply versions_to_delete_sub in Hd as [Hd Hs].
  assert (versionToPromote st = DeploymentVersion_Version pv) as Hp.
  { unfold st, promote_state. by destruct legacy. }
  destruct (plan_member _ Hd) as (v & Hv & Hn & Hc). rewrite Hp in Hs. cbv zeta. rewrite Hn in *.
  rewrite (stored_stage db dvs dvs_stored _ Hv).
  assert (forall s, DeploymentVersion_Stage v = s -> s <> ActiveStage -> DeploymentVersion_Version v <> a) as Hna.
  { intros s <- Hne Ha. apply active in Ha. rewrite (stored_stage db dvs dvs_stored _ Hv) in Ha. by_stage. }
  assert (forall s, DeploymentVersion_Stage v = s -> s <> CandidateStage -> DeploymentVersion_Version v <> DeploymentVersion_Version pv) as Hnp.
  { intros s <- Hne Ha. rewrite <- Ha, (stored_stage db dvs dvs_stored _ Hv) in candidate. by_stage. }
  destruct Hc as [[Hc Hx]|[[Hc Hx]|[Hc ->]]], Hs as [[Hs Hne]|Hs]; try by_stage;
    (split_and!; [first [by_stage | eapply Hnp; [eassumption|by_stage]]|eapply Hna; [eassumption|by_stage]|eauto]).
Qed.
Lemma plan_candidates h u :
  stage_of db u = Some CandidateStage -> u <> DeploymentVersion_Version pv ->
  exists d, d ∈ versions_to_delete st h /\ DeploymentVersion_Version d = u.
Proof.
  intros Hs Hne. destruct (stage_of_stored db dvs dvs_stored _ _ Hs) as (x & Hx & Hv & Hsx). exists x. split; [|done].
  unfold versions_to_delete. apply elem_of_app. left. apply GetCandidates_spec.
  assert (versionToPromote st = DeploymentVersion_Version pv) as ->.
  { unfold st, promote_state. by destruct legacy. }
  split_and!; [|done|by_stage]. apply (in_state dvs) in Hx as [k Hk]%list_elem_of_lookup.
  apply (list_elem_of_lookup_2 _ k). destruct (first_of_stage_stored dvs _ _ active_at) as (av & Hi & _ & Ha).
  assert (versions (SetStage i LegacyStage (SetVersionToPromote pv (NewVersionState dvs))) !! k = Some x) as H1.
  { apply SetStage_other; [intros ->; by_stage|done]. }
  unfold st, promote_state. destruct legacy as [j|] eqn:El; [|done].
  destruct (first_of_stage_stored dvs _ _ legacy_at) as (lv & Hj & _ & Hl).
  apply SetStage_other; [intros ->; by_stage|done].
Qed.

(** The stages once the planned versions are deleted and the changed ones stored. *)
Lemma plan_result h (after : string -> option string) :
  (forall v, stage_of db v = Some LegacyStage -> after v = Some ArchivedStage) ->
  (forall v, stage_of db v <> Some LegacyStage ->
     after v = if String.eqb v (DeploymentVersion_Version pv) then Some ActiveStage
               else if String.eqb v a then Some LegacyStage
               else if existsb (fun d => String.eqb v (DeploymentVersion_Version d)) (versions_to_delete st h) then None
               else stage_of db v) ->
  forall v, promoted (DeploymentVersion_Version pv) v (stage_of db v) (after v).
Proof.
  intros Hleg Hoth v. unfold promoted.
  destruct (String.eqb_spec v (DeploymentVersion_Version pv)) as [->|Hp].
  { rewrite Hoth, String.eqb_refl; [done|]. rewrite candidate. by_stage. }
  destruct (String.eqb_spec v a) as [->|Hva].
  { assert (stage_of db a = Some ActiveStage) as Hs by by apply active.
    rewrite Hoth by (rewrite Hs; by_stage). rewrite Hs, !String.eqb_refl. apply String.eqb_neq in Hp. by rewrite Hp. }
  destruct (stage_of db v) as [s|] eqn:Hs.
  - destruct (String.eqb_spec s ActiveStage) as [->|_]; [by apply active in Hs|].
    destruct (String.eqb_spec s LegacyStage) as [->|Hsl]; [by apply Hleg|].
    rewrite Hoth by by_stage. apply String.eqb_neq in Hp as Hp'. rewrite Hp'. apply String.eqb_neq in Hva as ->.
    destruct (existsb _ _) eqn:Ex.
    + apply existsb_exists in Ex as (d & Hd%list_elem_of_In & ->%String.eqb_eq).
      destruct (plan_deleted h d Hd) as (_ & _ & s' & Hs' & Hc). rewrite Hs' in Hs. injection Hs as <-.
      destruct Hc as [-> | [-> | ->]]; unfold CandidateStage, ArchivedStage, LegacyStage in *; simpl; auto; by_stage.
    + destruct (String.eqb_spec s CandidateStage) as [->|_]; [|destruct (String.eqb s ArchivedStage); auto].
      destruct (plan_candidates h v Hs Hp) as (d & Hd & <-).
      apply not_true_iff_false in Ex as []. apply existsb_exists. exists d.
      split; [by apply list_elem_of_In|apply String.eqb_refl].
  - rewrite Hoth by congruence. apply String.eqb_neq in Hp as ->. apply String.eqb_neq in Hva as ->.
    rewrite Hs. by destruct (existsb _ _).
Qed.
End plan.

(** The versions after the payload of a promote. *)
Lemma promote_payload_versions pv h w w' db a :
  in_tx w db -> version_rows db = version_rows (w_db w) ->
  only_version (w_db w) ActiveStage a -> at_most_one (w_db w) LegacyStage ->
  stage_of (w_db w) (DeploymentVersion_Version pv) = Some CandidateStage ->
  promote_payload InTx pv h w = (Ok tt, w') ->
  exists db', in_tx w' db' /\
    forall v, promoted (DeploymentVersion_Version pv) v (stage_of (w_db w) v) (stage_of db' v).
Proof.
  intros Hw Hdb Ha Hl Hp Hrun. set (p := DeploymentVersion_Version pv) in *. unfold promote_payload in Hrun.
  destruct (FindAll_local NodeGroupTable w) as (ngs & Engs & _).
  unfold bind at 1, FindAllNodeGroups in Hrun. rewrite Engs in Hrun.
  destruct (FindAllDeploymentVersions_local w) as (dvs & Edvs & Hu & Hst).
  unfold bind at 1 in Hrun. rewrite Edvs in Hrun. cbv zeta in Hrun.
  destruct (GetActive _) as [i|] eqn:Hi; [|done]. unfold GetActive in Hi. simpl in Hi.
  remember (GetLegacy _) as legacy eqn:Hj. unfold GetLegacy in Hj. simpl in Hj. symmetry in Hj.
  change (match legacy with
          | Some q => SetStage q ArchivedStage (SetStage i LegacyStage (SetVersionToPromote pv (NewVersionState dvs)))
          | None => SetStage i LegacyStage (SetVersionToPromote pv (NewVersionState dvs))
          end) with (promote_state pv dvs i legacy) in Hrun.
  set (st := promote_state pv dvs i legacy) in *. set (del := versions_to_delete st h) in *.
  destruct (plan_active (w_db w) dvs pv a i legacy Hst Ha Hi Hj) as (av & _ & Hav & Hva & Hsa & Da).
  fold st in Da. rewrite Da in Hrun.
  apply bind_Ok in Hrun as ([] & w1 & E1 & Hrun).
  apply (step_versions _ _ _ _ db) in E1 as (db1 & Hw1 & R1 & _); [|auto with frame|done].
  apply bind_Ok in Hrun as ([] & w2 & E2 & Hrun).
  apply (step_versions _ _ _ _ db1) in E2 as (db2 & Hw2 & R2 & _); [|auto with frame|done].
  apply bind_Ok in Hrun as ([] & w3 & E3 & Hrun).
  destruct (DeleteDeploymentVersions_in_tx del w2 db2 Hw2) as (db3 & E3' & R3 & _).
  rewrite E3' in E3. injection E3 as <-.
  apply bind_Ok in Hrun as ([] & w4 & E4 & Hrun).
  apply (step_ignore_err _ _ _ db3) in E4 as (db4 & Hw4 & R4 & _); [|auto with frame|done].
  apply bind_Ok in Hrun as ([] & w5 & E5 & Hrun).
  apply (step_versions _ _ _ _ db4) in E5 as (db5 & Hw5 & R5 & _); [|auto with frame|done].
  apply bind_Ok in Hrun as ([] & w6 & E6 & Hrun).
  apply (step_versions _ _ _ _ db5) in E6 as (db6 & Hw6 & R6 & _); [|solve_frame|done].
  assert (forall v, stage_of db6 v = if existsb (fun x => String.eqb v (DeploymentVersion_Version x)) del
                                     then None else stage_of (w_db w) v) as H6.
  { intros v. rewrite (stage_of_rows db6 db3) by congruence. rewrite (stage_of_delete db2 db3 del) by exact R3.
    by rewrite (stage_of_rows db2 (w_db w)) by congruence. }
  apply bind_Ok in Hrun as (? & w7 & E7 & Hrun).
  apply (step_store _ _ _ _ db6) in E7 as (db7 & Hw7 & _ & H7); [|done| |done];
    [|simpl; by destruct (version_row _ _ _ (proj1 (stored_version _ _ Hst av) Hav)) as (_ & ? & _)].
  apply bind_Ok in Hrun as (? & w8 & E8 & Hrun).
  apply (step_store _ _ _ _ db7) in E8 as (db8 & Hw8 & _ & H8); [|done| |done]; [|simpl]; cycle 1.
  { intros Hn. fold p in Hn. rewrite Hn in Hp. apply (stage_of_stored _ _ Hst) in Hp as (y & Hy & Hv & _).
    apply (stored_version _ _ Hst) in Hy. by apply version_row in Hy as (_ & ? & _). }
  simpl in H7, H8. rewrite Hva in H7. fold p in H8.
  assert (forall v, stage_of db8 v = if String.eqb v p then Some ActiveStage else if String.eqb v a then Some LegacyStage
    else if existsb (fun d => String.eqb v (DeploymentVersion_Version d)) del then None else stage_of (w_db w) v) as H8'.
  { intros v. by rewrite H8, H7, H6. }
  destruct legacy as [j|] eqn:Ej.
  - apply bind_Ok in Hrun as (? & w9 & E9 & [_ ->]%ret_Ok).
    destruct (plan_legacy dvs pv i (Some j) Hi Hj j eq_refl) as (lv & Hlv & Hsl & Dl).
    fold st in Dl. rewrite Dl in E9. pose proof (stored_stage _ _ Hst _ Hlv) as Hls. rewrite Hsl in Hls.
    apply (step_store _ _ _ _ db8) in E9 as (db9 & Hw9 & _ & H9); [|done| |done];
      [|simpl; by destruct (version_row _ _ _ (proj1 (stored_version _ _ Hst lv) Hlv)) as (_ & ? & _)].
    exists db9. split; [done|]. simpl in H9.
    apply (plan_result (w_db w) dvs pv a i (Some j) Hu Hst Ha Hp Hi Hj h).
    + intros v Hv. rewrite (Hl v _ Hv Hls), H9. by rewrite String.eqb_refl.
    + intros v Hv. rewrite H9. destruct (String.eqb_spec v (DeploymentVersion_Version lv)) as [->|_]; [done|]. apply H8'.
  - apply ret_Ok in Hrun as [_ ->]. exists db8. split; [done|].
    apply (plan_result (w_db w) dvs pv a i None Hu Hst Ha Hp Hi Hj h).
    + intros v Hv. by apply (first_of_stage_missing _ _ Hst _ _ Hj) in Hv.
    + intros v _. apply H8'.
Qed.

Lemma Publish_db topic e w r w' : Publish topic e w = (r, w') -> w_db w' = w_db w.
Proof. unfold Publish, bind, tick, modify, lift. intros [= _ <-]. done. Qed.

(** A blue-green operation: a transaction, an event whose failure is logged, and
    the versions that are stored then. *)
Lemma blue_green_Ok (payload : prog World unit) (event : list Change -> bus_event) w vs w' :
  (changes <- WithWTx payload ;;
   ignore_err (Publish TopicReload (event changes)) ;;;
   FindAllDeploymentVersions Local) w = (Ok vs, w') ->
  (exists w1 b, payload (opened w) = (Ok tt, w1) /\ w_tx w1 = Some (w_db w', b)) /\
  forall x : DeploymentVersion, x ∈ vs <-> version_rows (w_db w') !! id_key DeploymentVersionTable x = Some x.
Proof.
  intros (changes & w1 & E1 & ([] & w2 & E2 & E3)%bind_Ok)%bind_Ok.
  destruct (FindAllDeploymentVersions_local w2) as (l & E3' & _ & Hl).
  rewrite E3' in E3. injection E3 as <- <-.
  assert (w_db w2 = w_db w1) as Hd.
  { apply ignore_err_Ok in E2. destruct (Publish _ _ w1) as [r w3] eqn:Ep. simpl in E2. subst w3. by eapply Publish_db. }
  split; [|exact Hl]. rewrite Hd. by eapply WithWTx_Ok.
Qed.

(** C1: A promote that succeeds moves the stages as a promote should: the
    promoted candidate becomes the only ACTIVE version, the version that was
    ACTIVE the only LEGACY one, the LEGACY one is ARCHIVED, the other candidates
    are gone, an archived version stays as it is or is pruned, every other
    version stays as it is, and nothing else appears.  The versions it answers
    with are those then stored. *)
Theorem Promote_stages pv h w vs w' a :
  only_version (w_db w) ActiveStage a -> at_most_one (w_db w) LegacyStage ->
  stage_of (w_db w) (DeploymentVersion_Version pv) = Some CandidateStage ->
  Promote pv h w = (Ok vs, w') ->
  (forall v, promoted (DeploymentVersion_Version pv) v (stage_of (w_db w) v) (stage_of (w_db w') v)) /\
  only_version (w_db w') ActiveStage (DeploymentVersion_Version pv) /\
  only_version (w_db w') LegacyStage a /\
  (forall v, stage_of (w_db w') v <> Some CandidateStage) /\
  (forall x : DeploymentVersion, x ∈ vs <-> version_rows (w_db w') !! id_key DeploymentVersionTable x = Some x).
Proof.
  intros Ha Hl Hp Hrun. apply blue_green_Ok in Hrun as [(w1 & b & E1 & Htx) Hvs].
  destruct (promote_payload_versions pv h (opened w) w1 (txn_track_changes (w_db w)) a) as (db' & Hw1 & Hst);
    [done|simpl; by rewrite rows_track|done..|].
  unfold in_tx in Hw1. rewrite Hw1 in Htx. injection Htx as Hdb _. rewrite Hdb in Hst. simpl in Hst.
  destruct (promoted_summary _ a _ _ Ha Hp Hst) as (? & ? & ?). by split_and!.
Qed.

(** * Rollback *)

(** The stage of a version before and after a rollback. *)
Definition rolled_back (before : option string) : option string :=
  match before with
  | None => None
  | Some s =>
      if String.eqb s ActiveStage then Some CandidateStage
      else if String.eqb s LegacyStage then Some ActiveStage
      else if String.eqb s CandidateStage then None
      else Some s
  end.

(** The candidates a rollback deletes. *)
Lemma rollback_candidates db dvs v :
  (forall x : DeploymentVersion, x ∈ dvs <-> version_rows db !! id_key DeploymentVersionTable x = Some x) ->
  existsb (fun d => String.eqb v (DeploymentVersion_Version d)) (GetCandidates (NewVersionState dvs)) = true <->
  stage_of db v = Some CandidateStage.
Proof.
  intros Hst. rewrite existsb_exists. split.
  - intros (d & Hd%list_elem_of_In & ->%String.eqb_eq). apply GetCandidates_spec in Hd as (Hd & Hs & _).
    apply (in_state dvs) in Hd. rewrite (stored_stage _ _ Hst _ Hd). by rewrite Hs.
  - intros Hs. apply (stage_of_stored _ _ Hst) in Hs as (x & Hx & <- & Hs). exists x.
    rewrite String.eqb_refl, <- list_elem_of_In. split; [|done]. apply GetCandidates_spec.
    split_and!; [by apply in_state|done|]. simpl. intros Hn.
    apply (stored_version _ _ Hst), version_row in Hx as (_ & Hne & _). by destruct Hne.
Qed.

Lemma rollback_payload_versions w w' db a l :
  in_tx w db -> version_rows db = version_rows (w_db w) ->
  only_version (w_db w) ActiveStage a -> only_version (w_db w) LegacyStage l ->
  rollback_payload InTx w = (Ok tt, w') ->
  exists db', in_tx w' db' /\ forall v, stage_of db' v = rolled_back (stage_of (w_db w) v).
Proof.
  intros Hw Hdb Ha Hl Hrun. unfold rollback_payload in Hrun.
  destruct (FindAll_local NodeGroupTable w) as (ngs & Engs & _).
  unfold bind at 1, FindAllNodeGroups in Hrun. rewrite Engs in Hrun.
  destruct (FindAllDeploymentVersions_local w) as (dvs & Edvs & Hu & Hst).
  unfold bind at 1 in Hrun. rewrite Edvs in Hrun. cbv zeta in Hrun.
  destruct (GetLegacy _) as [j|] eqn:Hj; [|done]. apply (first_of_stage_stored dvs) in Hj as (lv & Hj & Hlv & Hsl).
  remember (GetActive _) as active eqn:Hi. symmetry in Hi.
  set (del := GetCandidates _) in *.
  apply bind_Ok in Hrun as ([] & w1 & E1 & Hrun).
  apply (step_versions _ _ _ _ db) in E1 as (db1 & Hw1 & R1 & _); [|auto with frame|done].
  apply bind_Ok in Hrun as ([] & w2 & E2 & Hrun).
  destruct (DeleteDeploymentVersions_in_tx del w1 db1 Hw1) as (db2 & E2' & R2 & _).
  rewrite E2' in E2. injection E2 as <-.
  destruct active as [i|]; [|done]. apply (first_of_stage_stored dvs) in Hi as (av & Hi & Hav & Hsa).
  unfold bind at 1 in Hrun. simpl deref in Hrun. unfold ret at 1 in Hrun.
  assert (i <> j) as Hij by (intros ->; by_stage).
  set (st := SetStage i _ _) in Hrun.
  assert (Deref j st = lv <| DeploymentVersion_Stage := ActiveStage |>) as Dj.
  { apply Deref_Some, SetStage_other; [done|]. by apply SetStage_same. }
  assert (Deref i st = av <| DeploymentVersion_Stage := CandidateStage |>) as Di.
  { apply Deref_Some, SetStage_same. by apply SetStage_other. }
  rewrite Dj, Di in Hrun. clear Dj Di st.
  apply bind_Ok in Hrun as ([] & w3 & E3 & Hrun).
  apply (step_versions _ _ _ _ db2) in E3 as (db3 & Hw3 & R3 & _); [|auto with frame|done].
  apply bind_Ok in Hrun as ([] & w4 & E4 & Hrun).
  apply (step_versions _ _ _ _ db3) in E4 as (db4 & Hw4 & R4 & _); [|auto with frame|done].
  apply bind_Ok in Hrun as ([] & w5 & E5 & Hrun).
  apply (step_versions _ _ _ _ db4) in E5 as (db5 & Hw5 & R5 & _); [|auto with frame|done].
  pose proof (stored_version _ _ Hst) as Hrow.
  apply bind_Ok in Hrun as (? & w6 & E6 & Hrun).
  apply (step_store _ _ _ _ db5) in E6 as (db6 & Hw6 & _ & H6); [|done| |done];
    [|by apply Hrow, version_row in Hlv as (_ & ? & _)].
  apply bind_Ok in Hrun as (? & w7 & E7 & Hrun).
  apply (step_store _ _ _ _ db6) in E7 as (db7 & Hw7 & _ & H7); [|done| |done];
    [|by apply Hrow, version_row in Hav as (_ & ? & _)].
  apply (step_versions _ _ _ _ db7) in Hrun as (db8 & Hw8 & R8 & _); [|solve_frame|done].
  exists db8. split; [done|]. intros v. rewrite (stage_of_rows db8 db7) by done. rewrite H7, H6. simpl.
  rewrite (stage_of_rows db5 db2), (stage_of_delete db1 db2 del), (stage_of_rows db1 (w_db w)) by congruence.
  pose proof (stored_stage _ _ Hst _ Hav) as Fa. pose proof (stored_stage _ _ Hst _ Hlv) as Fl. rewrite Hsa in Fa. rewrite Hsl in Fl.
  destruct (String.eqb_spec v (DeploymentVersion_Version av)) as [->|Hna]; [by rewrite Fa|].
  destruct (String.eqb_spec v (DeploymentVersion_Version lv)) as [->|Hnl]; [by rewrite Fl|].
  pose proof (rollback_candidates _ _ v Hst) as Hc. fold del in Hc.
  destruct (existsb _ del); [by rewrite (proj1 Hc eq_refl)|].
  destruct (stage_of (w_db w) v) as [s|] eqn:Hs; [|done]. unfold rolled_back.
  destruct (String.eqb_spec s ActiveStage) as [->|_]; [apply Ha in Hs; apply Ha in Fa; congruence|].
  destruct (String.eqb_spec s LegacyStage) as [->|_]; [apply Hl in Hs; apply Hl in Fl; congruence|].
  destruct (String.eqb_spec s CandidateStage) as [->|_]; [|done]. destruct Hc as [_ Hc]. by specialize (Hc eq_refl).
Qed.

(** C3: A rollback that succeeds moves the stages back: the LEGACY version becomes
    ACTIVE, the ACTIVE one a CANDIDATE, the candidates there were are gone, and
    every other version stays as it is.  The versions it answers with are those
    then stored. *)
Theorem Rollback_stages w vs w' a l :
  only_version (w_db w) ActiveStage a -> only_version (w_db w) LegacyStage l ->
  Rollback w = (Ok vs, w') ->
  (forall v, stage_of (w_db w') v = rolled_back (stage_of (w_db w) v)) /\
  (forall x : DeploymentVersion, x ∈ vs <-> version_rows (w_db w') !! id_key DeploymentVersionTable x = Some x).
Proof.
  intros Ha Hl Hrun. apply blue_green_Ok in Hrun as [(w1 & b & E1 & Htx) Hvs].
  destruct (rollback_payload_versions (opened w) w1 (txn_track_changes (w_db w)) a l) as (db' & Hw1 & Hst);
    [done|simpl; by rewrite rows_track|done..|].
  unfold in_tx in Hw1. rewrite Hw1 in Htx. injection Htx as Hdb _. by rewrite Hdb in Hst.
Qed.


(** The only version of a stage, from the list of the stored versions. *)
Lemma only_version_listed w dvs stage x :
  (FindAllDeploymentVersions Local w).1 = Ok dvs -> List.filter (has_stage stage) dvs = [x] ->
  only_version (w_db w) stage (DeploymentVersion_Version x).
Proof.
  intros Ew Hf. destruct (FindAllDeploymentVersions_local w) as (l & El & _ & Hst).
  rewrite El in Ew. injection Ew as ->.
  assert (forall y, y ∈ dvs /\ DeploymentVersion_Stage y = stage <-> y = x) as Hx.
  { intros y. rewrite <- has_stage_spec, (list_elem_of_In dvs), <- filter_In, Hf. simpl. split; [by intros [?|[]]|by left]. }
  intros u. split.
  - intros Hu. apply (stage_of_stored _ _ Hst) in Hu as (y & Hy & <- & Hs). by rewrite (proj1 (Hx y) (conj Hy Hs)).
  - intros ->. destruct (proj2 (Hx x) eq_refl) as [Hin Hs]. rewrite (stored_stage _ _ Hst _ Hin). by rewrite Hs.
Qed.
Lemma only_version_at_most_one db stage v : only_version db stage v -> at_most_one db stage.
Proof. intros Hv u u' Hu%Hv Hu'%Hv. congruence. Qed.
End promote.

(** * Witnesses *)

Section witnesses.
Import RuntimeModel.
Local Existing Instance test_laws.
#[local] Instance test_sha : Sha256 := {| sha256_Sum256 := fun s => s |}.
#[local] Instance test_service : EntityService := {| defaultVersion := "v1" |}.

Definition test_versions : list DeploymentVersion :=
  [mkDeploymentVersion "v1" ArchivedStage 0 0; mkDeploymentVersion "v2" LegacyStage 0 0;
   mkDeploymentVersion "v3" ActiveStage 0 0; mkDeploymentVersion "v4" CandidateStage 0 0;
   mkDeploymentVersion "v5" CandidateStage 0 0].
(** The test world after a transaction. *)
Definition after_tx (m : prog World unit) : World := (WithWTx m empty_world).2.
Definition blue_green_world : World :=
  after_tx (for_each test_versions (SaveDeploymentVersion InTx) ;;;
            SaveNodeGroup InTx (mkNodeGroup "gw" "" false)).

Definition v4 : DeploymentVersion := mkDeploymentVersion "v4" CandidateStage 0 0.
Lemma test_active : only_version (w_db blue_green_world) ActiveStage "v3".
Proof.
  apply (only_version_listed _ (rev test_versions) _ (mkDeploymentVersion "v3" ActiveStage 0 0)); vm_compute; reflexivity.
Qed.
Lemma test_legacy : only_version (w_db blue_green_world) LegacyStage "v2".
Proof.
  apply (only_version_listed _ (rev test_versions) _ (mkDeploymentVersion "v2" LegacyStage 0 0)); vm_compute; reflexivity.
Qed.

Lemma test_candidate : stage_of (w_db blue_green_world) "v4" = Some CandidateStage.
Proof.
  assert (match stage_of (w_db blue_green_world) "v4" with Some s => String.eqb s CandidateStage | None => false end = true)
    as Hs by (vm_compute; reflexivity).
  destruct (stage_of _ _); [|done]. by apply String.eqb_eq in Hs as ->.
Qed.

Lemma Promote_stages_witness :
  (exists vs, (Promote v4 1 blue_green_world).1 = Ok vs) /\
  only_version (w_db (Promote v4 1 blue_green_world).2) ActiveStage "v4" /\
  only_version (w_db (Promote v4 1 blue_green_world).2) LegacyStage "v3".
Proof.
  assert (exists vs, (Promote v4 1 blue_green_world).1 = Ok vs) as [vs Hvs] by (eexists; vm_compute; reflexivity).
  split; [by exists vs|].
  destruct (Promote_stages v4 1 blue_green_world vs (Promote v4 1 blue_green_world).2 "v3") as (_ & Ha & Hl & _).
  - exact test_active.
  - exact (only_version_at_most_one _ _ _ test_legacy).
  - exact test_candidate.
  - apply run_pair, Hvs.
  - exact (conj Ha Hl).
Defined.

Lemma Rollback_stages_witness :
  (exists vs, (Rollback blue_green_world).1 = Ok vs) /\
  stage_of (w_db (Rollback blue_green_world).2) "v2" = Some ActiveStage /\
  stage_of (w_db (Rollback blue_green_world).2) "v3" = Some CandidateStage /\
  stage_of (w_db (Rollback blue_green_world).2) "v4" = None.
Proof.
  assert (exists vs, (Rollback blue_green_world).1 = Ok vs) as [vs Hvs] by (eexists; vm_compute; reflexivity).
  split; [by exists vs|].
  destruct (Rollback_stages blue_green_world vs (Rollback blue_green_world).2 "v3" "v2" test_active test_legacy) as (Hst & _);
    [apply run_pair, Hvs|].
  assert (forall v s, stage_of (w_db blue_green_world) v = Some s ->
    stage_of (w_db (Rollback blue_green_world).2) v = rolled_back (Some s)) as Hv by (intros v s <-; apply Hst).
  split_and!; (etransitivity; [apply Hv|]).
  - apply test_legacy. reflexivity.
  - reflexivity.
  - apply test_active. reflexivity.
  - reflexivity.
  - exact test_candidate.
  - reflexivity.
Defined.

End witnesses.
