(* ===== verification/CandidateSpec.v ===== *)
(** What is left of a deployment version once [deleteCandidates] has removed it. *)
From S2P Require Import Prelude GoLib Domain Tables MemDb Msaddr Events RouteKey VersionState Runtime.
From S2P Require Import Dao DaoSpec Entity RegCommon LoadBalance Registry BlueGreen BlueGreenSpec.
From S2P Require RuntimeModel Storage.
Open Scope string_scope.

Section loops.
Context `{RL : RuntimeLaws}.

(** A loop over rows that removes those with [P] one by one removes them all. *)
Lemma for_each_removes {A} t (key : A -> list value) (P : A -> Prop) (l : list A) (f : A -> prog World unit) w w' db :
  in_tx w db -> for_each l f w = (Ok tt, w') ->
  (forall a, frame (tx_rel shrinks) (f a)) ->
  (forall a w1 w2 db1, a ∈ l -> P a -> in_tx w1 db1 -> shrinks db db1 -> f a w1 = (Ok tt, w2) ->
     exists db2, in_tx w2 db2 /\ rows db2 t !! key a = None) ->
  exists db', in_tx w' db' /\ shrinks db db' /\ forall a, a ∈ l -> P a -> rows db' t !! key a = None.
Proof.
  intros Hw Hrun F Hf.
  destruct (for_each_Ok l f (fun w => exists db1, in_tx w db1 /\ shrinks db db1)
    (fun a w => P a -> exists db1, in_tx w db1 /\ rows db1 t !! key a = None) w w' Hrun) as ((db' & Hw' & Hs) & _ & Hq).
  - exists db. split; [done|reflexivity].
  - intros a w1 w2 Ha (db1 & Hw1 & Hs1) E.
    destruct (frame_in_tx _ _ _ _ _ _ (F a) E Hw1) as (db2 & Hw2 & Hs2).
    split_and!; [exists db2; split; [done|by transitivity db1]|intros HP; by apply (Hf a w1 w2 db1)|].
    intros b Hq HP. destruct (Hq HP) as (db1' & Hw1' & Hb). unfold in_tx in *. rewrite Hw1 in Hw1'. injection Hw1' as <-.
    exists db2. split; [done|]. destruct (Hs2 t) as [Hsub _]. eapply lookup_weaken_None; [exact Hb|exact Hsub].
  - exists db'. split_and!; [done..|]. intros a Ha HP. destruct (Hq a Ha HP) as (db1 & Hw1 & Hn).
    unfold in_tx in *. rewrite Hw' in Hw1. by injection Hw1 as <-.
Qed.

(** A loop that collects what a lookup finds per element. *)
Lemma fold_found {A B} (f : A -> prog World (list B)) (Q : A -> B -> Prop) w (l : list A) acc :
  (forall a, exists r, f a w = (Ok r, w) /\ forall x, x ∈ r <-> Q a x) ->
  exists r, fold_each l acc (fun acc a => found <- f a ;; ret (acc ++ found)%list) w = (Ok r, w) /\
    forall x, x ∈ r <-> x ∈ acc \/ exists a, a ∈ l /\ Q a x.
Proof.
  intros Hf. revert acc. induction l as [|a l IH]; intros acc; simpl.
  - exists acc. split; [done|]. intros x. split; [by left|]. intros [?|(a & Ha & _)]; [done|by apply elem_of_nil in Ha].
  - destruct (Hf a) as (r & Er & Hr). destruct (IH (acc ++ r)%list) as (r' & Er' & Hr').
    exists r'. unfold bind, ret in *. rewrite Er, Er'. split; [done|]. intros x. rewrite Hr', elem_of_app, Hr. split.
    + intros [[?|?]|(b & ? & ?)]; [by left|right; exists a; split; [left|done]|right; exists b; split; [by right|done]].
    + intros [?|(b & [->|?]%elem_of_cons & ?)]; [left; by left|left; by right|right; by exists b].
Qed.

Lemma find_by_version t (version : entity t -> string) v w db :
  in_tx w db -> valid_query t "dVersion" [VStr v] = true -> unique_index t "dVersion" = false ->
  query_key t "dVersion" [VStr v] = [VStr v] -> (forall x, index_key t "dVersion" x = str_key (version x)) ->
  exists l, FindByIndex InTx t "dVersion" [VStr v] w = (Ok l, w) /\
    forall x, x ∈ l <-> rows db t !! id_key t x = Some x /\ version x = v /\ v <> "".
Proof.
  intros Hw Hv Hu Hq Hk. destruct (FindByIndex_in_tx t "dVersion" [VStr v] w db) as (l & El & _ & Hl); [done..|].
  exists l. split; [done|]. intros x. rewrite Hl, Hk. split; intros [Hx Hi]; (split; [done|]).
  - unfold str_key, nonempty in Hi. destruct (String.eqb_spec (version x) ""); [done|]. by injection Hi as <-.
  - destruct Hi as [<- Hne]. by apply str_key_Some.
Qed.
Lemma FindEndpointsByDeploymentVersion_in_tx v w db :
  in_tx w db ->
  exists l, FindEndpointsByDeploymentVersion InTx v w = (Ok l, w) /\
    forall x : Endpoint, x ∈ l <-> rows db EndpointTable !! id_key EndpointTable x = Some x /\ Endpoint_DeploymentVersion x = v /\ v <> "".
Proof. intros Hw. apply (find_by_version EndpointTable Endpoint_DeploymentVersion v w db Hw); try reflexivity. apply endpoint_dVersion. Qed.
Lemma FindRoutesByDeploymentVersion_in_tx v w db :
  in_tx w db ->
  exists l, FindRoutesByDeploymentVersion InTx v w = (Ok l, w) /\
    forall x : Route, x ∈ l <-> rows db RouteTable !! id_key RouteTable x = Some x /\ Route_DeploymentVersion x = v /\ v <> "".
Proof. intros Hw. apply (find_by_version RouteTable Route_DeploymentVersion v w db Hw); try reflexivity. apply route_dVersion. Qed.

Lemma Delete_in_tx_Ok t (x : entity t) w w' db :
  in_tx w db -> Delete InTx t x w = (Ok tt, w') ->
  exists db', in_tx w' db' /\ rows db' t = delete (id_key t x) (rows db t).
Proof.
  intros Hw. unfold Delete. rewrite (in_ctx_InTx _ _ _ _ Hw).
  destruct (rows db t !! id_key t x) as [y|] eqn:Ex.
  - destruct (delete_spec t x y db Ex) as (db' & E & Hr & _). rewrite E. intros [= <-]. by exists db'.
  - rewrite (delete_missing t x db Ex). done.
Qed.
End loops.

(** * Rows *)

Section rows.
Context `{RL : RuntimeLaws}.

Lemma row_indexed t x k db idx s :
  rows db t !! k = Some x -> schema t !! idx = Some s -> Index_AllowMissing s = false -> index_key t idx x <> None.
Proof.
  intros Hx Hs Hm. apply rows_wf in Hx as [_ Hx]. unfold indexable in Hx. rewrite forallb_forall in Hx.
  assert (In (idx, s) (map_to_list (schema t))) as Hin by by apply list_elem_of_In, elem_of_map_to_list.
  specialize (Hx _ Hin). unfold index_key. rewrite Hs. cbv beta iota in Hx.
  destruct (indexer_key t x (Index_Indexer s)); [done|]. by rewrite Hm in Hx.
Qed.
Lemma row_version t (version : entity t -> string) x k db u i :
  (forall x, index_key t "dVersion" x = str_key (version x)) ->
  schema t !! "dVersion" = Some (mkIndexSchema "dVersion" u false i) ->
  rows db t !! k = Some x -> version x <> "".
Proof.
  intros Hk Hs Hx Hv. eapply row_indexed; [exact Hx|exact Hs|done|]. by rewrite Hk, Hv.
Qed.
Lemma shrinks_row t k x db db' : shrinks db db' -> rows db' t !! k = Some x -> rows db t !! k = Some x.
Proof. intros Hs Hx. eapply lookup_weaken; [exact Hx|apply Hs]. Qed.
Lemma row_key t k x db : rows db t !! k = Some x -> rows db t !! id_key t x = Some x.
Proof. intros Hx. by destruct (rows_wf _ _ _ _ Hx) as [-> _]. Qed.

(** Rows found before and gone after are gone for good. *)
Lemma gone_rows t (l : list (entity t)) (P : entity t -> Prop) db db1 db' :
  (forall x, rows db t !! id_key t x = Some x -> P x -> x ∈ l) ->
  (forall x, x ∈ l -> P x -> rows db1 t !! id_key t x = None) ->
  shrinks db db1 -> shrinks db1 db' ->
  forall k x, rows db' t !! k = Some x -> ~ P x.
Proof.
  intros Hl Hg S1 S2 k x Hx HP. pose proof (row_key _ _ _ _ Hx) as Hk.
  apply (shrinks_row _ _ _ _ _ S2) in Hk. pose proof (shrinks_row _ _ _ _ _ S1 Hk) as Hk0.
  specialize (Hg x (Hl x Hk0 HP) HP). by rewrite Hg in Hk.
Qed.
End rows.

(** * Single removals *)

Lemma foldr_delete_None {K A B} `{Countable K} (key : A -> K) (l : list A) (m : gmap K B) k :
  m !! k = None \/ k ∈ key <$> l -> foldr (fun x m => delete (key x) m) m l !! k = None.
Proof.
  induction l as [|x l IH]; simpl; intros Hk.
  - destruct Hk as [Hk|Hk]; [done|]. by apply elem_of_nil in Hk.
  - rewrite lookup_delete_None. destruct (decide (key x = k)) as [Hx|Hx]; [by left|right]. apply IH.
    destruct Hk as [Hk|[Hk|Hk]%elem_of_cons]; [by left|by subst|by right].
Qed.

Section removals.
Context `{RL : RuntimeLaws} `{H : Sha256} `{E : EntityService}.

Lemma DeleteEndpointCascade_gone (e : Endpoint) w w' db :
  in_tx w db -> DeleteEndpointCascade InTx e w = (Ok tt, w') ->
  exists db', in_tx w' db' /\ rows db' EndpointTable !! id_key EndpointTable e = None.
Proof.
  intros Hw (n & w1 & E1 & ([] & w2 & E2 & E3)%bind_Ok)%bind_Ok.
  apply (frame_in_tx shrinks) with (db := db) in E1 as (db1 & Hw1 & _); [|solve_frame|done].
  apply (frame_in_tx shrinks) with (db := db1) in E2 as (db2 & Hw2 & _); [|solve_frame|done].
  destruct (Delete_in_tx_Ok _ _ _ _ _ Hw2 E3) as (db3 & Hw3 & Hr). exists db3. split; [done|].
  rewrite Hr. apply lookup_delete_eq.
Qed.

Lemma DeleteRouteByUUID_gone (r : Route) w w' db :
  in_tx w db -> is_uuid (Route_Uuid r) = true ->
  exact db RouteTable "uuid" [VStr (strings_ToLower (Route_Uuid r))] ->
  (rows db RouteTable !! id_key RouteTable r = Some r \/ rows db RouteTable !! id_key RouteTable r = None) ->
  DeleteRouteByUUID InTx (Route_Uuid r) w = (Ok tt, w') ->
  exists db', in_tx w' db' /\ rows db' RouteTable !! id_key RouteTable r = None.
Proof.
  intros Hw Hu Hx Hr (n & w1 & E1 & [_ ->]%ret_Ok)%bind_Ok.
  unfold DeleteAll in E1. rewrite (in_ctx_InTx _ _ _ _ Hw) in E1.
  assert (schema RouteTable !! "uuid" = Some (mkIndexSchema "uuid" true false (UUIDFieldIndex "Uuid"))) as Hi by reflexivity.
  assert (valid_query RouteTable "uuid" [VStr (Route_Uuid r)] = true) as Hv.
  { unfold valid_query. rewrite Hi. simpl. by rewrite Hu. }
  assert (query_key RouteTable "uuid" [VStr (Route_Uuid r)] = [VStr (strings_ToLower (Route_Uuid r))]) as Hk.
  { unfold query_key. by rewrite Hi. }
  destruct (get_spec RouteTable "uuid" [VStr (Route_Uuid r)] db Hv) as (l & Hl & _ & _ & Hc).
  destruct (delete_all_spec RouteTable "uuid" [VStr (Route_Uuid r)] l db Hv Hl) as (db' & E' & Hr' & _).
  rewrite E' in E1. injection E1 as _ <-. exists db'. split; [done|]. rewrite Hr'. apply foldr_delete_None.
  destruct Hr as [Hr|Hr]; [right|by left]. apply (list_elem_of_fmap_2 (id_key RouteTable) l r). apply Hc; [|done|].
  - right. by rewrite Hk.
  - unfold query_match. rewrite bool_decide_eq_true, Hk. etransitivity; [apply route_uuid|]. by rewrite Hu.
Qed.

Lemma deleteRouteByUUIDInternal_gone (r : Route) w w' db :
  in_tx w db -> is_uuid (Route_Uuid r) = true ->
  exact db RouteTable "uuid" [VStr (strings_ToLower (Route_Uuid r))] ->
  (rows db RouteTable !! id_key RouteTable r = Some r \/ rows db RouteTable !! id_key RouteTable r = None) ->
  deleteRouteByUUIDInternal InTx r w = (Ok tt, w') ->
  exists db', in_tx w' db' /\ rows db' RouteTable !! id_key RouteTable r = None.
Proof.
  intros Hw Hu Hx Hr Hrun. unfold deleteRouteByUUIDInternal in Hrun.
  assert (exists w4 db4, in_tx w4 db4 /\ shrinks db db4 /\ DeleteRouteByUUID InTx (Route_Uuid r) w4 = (Ok tt, w'))
    as (w4 & db4 & Hw4 & Hs & E5).
  { apply bind_Ok in Hrun as (? & w1 & E1 & Hrun). apply bind_Ok in Hrun as (? & w2 & E2 & Hrun).
    apply bind_Ok in Hrun as (? & w3 & E3 & Hrun). apply bind_Ok in Hrun as (? & w4 & E4 & Hrun).
    apply (frame_in_tx shrinks) with (db := db) in E1 as (db1 & Hw1 & S1); [|solve_frame|done].
    apply (frame_in_tx shrinks) with (db := db1) in E2 as (db2 & Hw2 & S2); [|solve_frame|done].
    apply (frame_in_tx shrinks) with (db := db2) in E3 as (db3 & Hw3 & S3); [|solve_frame|done].
    apply (frame_in_tx shrinks) with (db := db3) in E4 as (db4 & Hw4 & S4); [|solve_frame|done].
    exists w4, db4. split_and!; [done| |done]. transitivity db1; [done|]. transitivity db2; [done|]. by transitivity db3. }
  eapply DeleteRouteByUUID_gone; [exact Hw4|done|by apply Hs| |exact E5].
  destruct Hr as [Hr|Hr]; [|right; eapply lookup_weaken_None; [exact Hr|apply Hs]].
  destruct (rows db4 RouteTable !! id_key RouteTable r) as [r'|] eqn:E4; [left|by right].
  pose proof (shrinks_row RouteTable _ _ _ _ Hs E4) as Hr'. by pose proof (Some_functional _ _ _ Hr' Hr) as ->.
Qed.
End removals.

(** * Deleting the candidates *)

Section delete_candidates.
Context `{RL : RuntimeLaws} `{H : Sha256} `{E : EntityService}.

(** The [uuid] index misses no route: no two routes have shared a uuid. *)
Definition uuids_exact (db : Db) : Prop := forall k, exact db RouteTable "uuid" k.
(** Stored microservice versions carry a resolved namespace, as the registry
    saves them. *)
Definition namespaces_resolved (db : Db) : Prop :=
  forall k (m : MicroserviceVersion), rows db MicroserviceVersionTable !! k = Some m ->
    GetNamespace (mkNamespace (MicroserviceVersion_Namespace m)) = MicroserviceVersion_Namespace m.

(** What belongs to a deployment version in the tables that name one. *)
Definition nothing_of_version (db : Db) (v : string) : Prop :=
  (forall k (e : Endpoint), rows db EndpointTable !! k = Some e -> Endpoint_DeploymentVersion e <> v) /\
  (forall k (r : Route), rows db RouteTable !! k = Some r -> Route_DeploymentVersion r <> v) /\
  (forall k (s : StatefulSession), rows db StatefulSessionTable !! k = Some s -> StatefulSession_DeploymentVersion s <> v) /\
  (forall k (m : MicroserviceVersion), rows db MicroserviceVersionTable !! k = Some m -> MicroserviceVersion_DeploymentVersion m <> v).

Definition of_versions (vs : list DeploymentVersion) (v : string) : Prop :=
  v ∈ DeploymentVersion_Version <$> vs.

Lemma endpoints_step vs w w' db :
  in_tx w db ->
  (endpoints <- FindEndpointsByDeploymentVersionsIn InTx vs ;;
   for_each endpoints (DeleteEndpointCascade InTx)) w = (Ok tt, w') ->
  exists db', in_tx w' db' /\ shrinks db db' /\
    forall k (e : Endpoint), rows db' EndpointTable !! k = Some e -> ~ of_versions vs (Endpoint_DeploymentVersion e).
Proof.
  intros Hw (l & w1 & E1 & E2)%bind_Ok. unfold FindEndpointsByDeploymentVersionsIn in E1.
  rewrite (open_ctx_InTx _ _ _ _ Hw) in E1.
  destruct (fold_found (fun v => FindEndpointsByDeploymentVersion InTx (DeploymentVersion_Version v))
    (fun v (x : Endpoint) => rows db EndpointTable !! id_key EndpointTable x = Some x /\
       Endpoint_DeploymentVersion x = DeploymentVersion_Version v /\ DeploymentVersion_Version v <> "") w vs [])
    as (l' & El & Hl); [intros v; by apply FindEndpointsByDeploymentVersion_in_tx|].
  rewrite El in E1. injection E1 as <- <-.
  destruct (for_each_removes EndpointTable (id_key EndpointTable) (fun _ => True) l' (DeleteEndpointCascade InTx) w w' db)
    as (db1 & Hw1 & S1 & G1); [done|done|auto with frame| |].
  { intros e w1 w2 db1 _ _ Hw1 _ Ee. by apply (DeleteEndpointCascade_gone e w1 w2 db1). }
  exists db1. split_and!; [done..|].
  apply (gone_rows EndpointTable l' (fun e : Endpoint => of_versions vs (Endpoint_DeploymentVersion e)) db db1 db1);
    [|auto|done|reflexivity].
  intros x Hx (v & Hv & Hin)%list_elem_of_fmap. apply Hl. right. exists v. split_and!; [done..|].
  rewrite <- Hv. eapply (row_version EndpointTable Endpoint_DeploymentVersion); [apply endpoint_dVersion|reflexivity|exact Hx].
Qed.

Lemma routes_step vs w w' db :
  in_tx w db -> uuids_exact db ->
  deleteRoutes InTx vs w = (Ok tt, w') ->
  exists db', in_tx w' db' /\ shrinks db db' /\
    forall k (r : Route), rows db' RouteTable !! k = Some r -> ~ of_versions vs (Route_DeploymentVersion r).
Proof.
  intros Hw Hx (l & w1 & E1 & E2)%bind_Ok. unfold FindRoutesByDeploymentVersions in E1.
  rewrite (open_ctx_InTx _ _ _ _ Hw) in E1.
  destruct (fold_found (fun v => FindRoutesByDeploymentVersion InTx (DeploymentVersion_Version v))
    (fun v (x : Route) => rows db RouteTable !! id_key RouteTable x = Some x /\
       Route_DeploymentVersion x = DeploymentVersion_Version v /\ DeploymentVersion_Version v <> "") w vs [])
    as (l' & El & Hl); [intros v; by apply FindRoutesByDeploymentVersion_in_tx|].
  rewrite El in E1. injection E1 as <- <-.
  destruct (for_each_removes RouteTable (id_key RouteTable) (fun _ => True) l' (deleteRouteByUUIDInternal InTx) w w' db)
    as (db1 & Hw1 & S1 & G1); [done|done|auto with frame| |].
  { intros r w1 w2 db1 Hr _ Hw1 Hs Er.
    assert (rows db RouteTable !! id_key RouteTable r = Some r) as Hrow.
    { apply Hl in Hr as [Hr|(v & _ & Hr & _)]; [by apply elem_of_nil in Hr|exact Hr]. }
    apply (deleteRouteByUUIDInternal_gone r w1 w2 db1); [done| |by apply Hs| |done].
    - destruct (is_uuid (Route_Uuid r)) eqn:Hu; [done|]. exfalso.
      apply (row_indexed RouteTable r _ db "uuid" _ Hrow eq_refl eq_refl). etransitivity; [apply route_uuid|]. by rewrite Hu.
    - destruct (rows db1 RouteTable !! id_key RouteTable r) as [r'|] eqn:Er'; [left|by right].
      pose proof (shrinks_row RouteTable _ _ _ _ Hs Er') as Hr'.
      by pose proof (Some_functional _ _ _ Hr' Hrow) as ->. }
  exists db1. split_and!; [done..|].
  apply (gone_rows RouteTable l' (fun r : Route => of_versions vs (Route_DeploymentVersion r)) db db1 db1);
    [|auto|done|reflexivity].
  intros x Hx' (v & Hv & Hin)%list_elem_of_fmap. apply Hl. right. exists v. split_and!; [done..|].
  rewrite <- Hv. eapply (row_version RouteTable Route_DeploymentVersion); [apply route_dVersion|reflexivity|exact Hx'].
Qed.

Lemma sessions_step vs w w' db :
  in_tx w db ->
  (sessions <- FindAllStatefulSessionConfigs InTx ;;
   for_each sessions (fun session : StatefulSession =>
     if existsb (fun v => String.eqb (DeploymentVersion_Version v) (StatefulSession_DeploymentVersion session)) vs
     then DeleteStatefulSessionConfig InTx (StatefulSession_Id session) else ret tt)) w = (Ok tt, w') ->
  exists db', in_tx w' db' /\ shrinks db db' /\
    forall k (s : StatefulSession), rows db' StatefulSessionTable !! k = Some s ->
      ~ of_versions vs (StatefulSession_DeploymentVersion s).
Proof.
  intros Hw (l & w1 & E1 & E2)%bind_Ok.
  destruct (FindAll_in_tx StatefulSessionTable w db Hw) as (l' & El & _ & Hl).
  unfold FindAllStatefulSessionConfigs in E1. rewrite El in E1. injection E1 as <- <-.
  destruct (for_each_removes StatefulSessionTable (id_key StatefulSessionTable)
    (fun s : StatefulSession => of_versions vs (StatefulSession_DeploymentVersion s)) l' _ w w' db Hw E2)
    as (db1 & Hw1 & S1 & G1).
  - intros s. destruct (existsb _ _); [unfold DeleteStatefulSessionConfig; auto with frame|apply frame_ret, _].
  - intros s w1 w2 db1 _ (v & Hv & Hin)%list_elem_of_fmap Hw1 _.
    assert (existsb (fun v => String.eqb (DeploymentVersion_Version v) (StatefulSession_DeploymentVersion s)) vs = true) as ->.
    { apply existsb_exists. exists v. split; [by apply list_elem_of_In|]. by rewrite Hv, String.eqb_refl. }
    destruct (DeleteById_in_tx StatefulSessionTable [VInt (StatefulSession_Id s)] w1 db1) as (db2 & E' & Hr & _); [done..|].
    unfold DeleteStatefulSessionConfig. rewrite E'. intros [= <-]. exists db2. split; [done|]. rewrite Hr.
    apply lookup_delete_None. by left.
  - exists db1. split_and!; [done..|].
    apply (gone_rows StatefulSessionTable l' (fun s : StatefulSession => of_versions vs (StatefulSession_DeploymentVersion s)) db db1 db1);
      [|auto|done|reflexivity]. intros x Hx _. by apply Hl.
Qed.

Lemma microservice_key (m : MicroserviceVersion) k db :
  rows db MicroserviceVersionTable !! k = Some m ->
  k = [VStr (MicroserviceVersion_Name m); VStr (MicroserviceVersion_Namespace m); VStr (MicroserviceVersion_InitialDeploymentVersion m)].
Proof.
  intros Hm. apply (rows_wf db MicroserviceVersionTable) in Hm as [<- Hi].
  pose proof (indexable_id MicroserviceVersionTable m Hi) as Hk. revert Hk. unfold id_key.
  assert (schema MicroserviceVersionTable !! "id" = Some (mkIndexSchema "id" true false (CompoundIndex
    [StringFieldIndex "Name"; StringFieldIndex "Namespace"; StringFieldIndex "InitialDeploymentVersion"] false))) as Hs by reflexivity.
  unfold index_key. rewrite Hs. simpl. unfold field_key. simpl.
  destruct (nonempty (MicroserviceVersion_Name m)), (nonempty (MicroserviceVersion_Namespace m)),
    (nonempty (MicroserviceVersion_InitialDeploymentVersion m)); simpl; try done.
Qed.

(** The microservice versions of one deployment version are removed. *)
Lemma delete_version_step (v : DeploymentVersion) w w' db :
  in_tx w db -> namespaces_resolved db ->
  (msVersions <- FindMicroserviceVersionsByVersion InTx (Some v) ;;
   for_each msVersions (fun msVersion : MicroserviceVersion =>
     DeleteMicroserviceVersion InTx (MicroserviceVersion_Name msVersion)
       (mkNamespace (MicroserviceVersion_Namespace msVersion)) (MicroserviceVersion_InitialDeploymentVersion msVersion))) w = (Ok tt, w') ->
  exists db', in_tx w' db' /\ shrinks db db' /\
    forall k (m : MicroserviceVersion), rows db' MicroserviceVersionTable !! k = Some m ->
      MicroserviceVersion_DeploymentVersion m <> DeploymentVersion_Version v.
Proof.
  intros Hw Hns (l & w1 & E1 & E2)%bind_Ok. unfold FindMicroserviceVersionsByVersion in E1.
  destruct (String.eqb (DeploymentVersion_Version v) ""); [done|].
  destruct (FindAll_in_tx MicroserviceVersionTable w db Hw) as (l' & El & _ & Hl).
  apply bind_Ok in E1 as (l1 & w2 & E0 & [-> ->]%ret_Ok).
  unfold FindAllMicroserviceVersions in E0. rewrite El in E0. injection E0 as <- <-.
  destruct (for_each_removes MicroserviceVersionTable (id_key MicroserviceVersionTable) (fun _ => True) _ _ w w' db Hw E2)
    as (db1 & Hw1 & S1 & G1).
  - intros m. unfold DeleteMicroserviceVersion. auto with frame.
  - intros m w1 w2 db1 [Hm _]%list_elem_of_In%filter_In _ Hw1 _ Em.
    apply list_elem_of_In, Hl in Hm. pose proof (Hns _ _ Hm) as Hn. apply microservice_key in Hm. rewrite Hm, <- Hn.
    destruct (DeleteById_in_tx MicroserviceVersionTable [VStr (MicroserviceVersion_Name m);
      VStr (GetNamespace (mkNamespace (MicroserviceVersion_Namespace m))); VStr (MicroserviceVersion_InitialDeploymentVersion m)] w1 db1)
      as (db2 & E' & Hr & _); [done..|].
    unfold DeleteMicroserviceVersion in Em. rewrite E' in Em. injection Em as <-. exists db2. split; [done|].
    rewrite Hr. apply lookup_delete_None. by left.
  - exists db1. split_and!; [done..|].
    refine (gone_rows MicroserviceVersionTable _ (fun m : MicroserviceVersion =>
      MicroserviceVersion_DeploymentVersion m = DeploymentVersion_Version v) db db1 db1 _ (fun x Hx _ => G1 x Hx I) S1 _);
      [|reflexivity].
    intros x Hx Hv. apply list_elem_of_In, filter_In. split; [by apply list_elem_of_In, Hl|]. by apply String.eqb_eq.
Qed.

Lemma namespaces_shrink db db' : shrinks db db' -> namespaces_resolved db -> namespaces_resolved db'.
Proof. intros Hs Hn k m Hm. eapply Hn. by apply (shrinks_row MicroserviceVersionTable _ _ _ _ Hs). Qed.

Lemma DeleteVersions_step vs w w' db :
  in_tx w db -> namespaces_resolved db -> DeleteVersions InTx vs w = (Ok tt, w') ->
  exists db', in_tx w' db' /\ shrinks db db' /\
    forall v, v ∈ vs -> forall k (m : MicroserviceVersion), rows db' MicroserviceVersionTable !! k = Some m ->
      MicroserviceVersion_DeploymentVersion m <> DeploymentVersion_Version v.
Proof.
  intros Hw Hns Hrun.
  destruct (for_each_Ok vs _ (fun w => exists db1, in_tx w db1 /\ shrinks db db1)
    (fun v w => exists db1, in_tx w db1 /\ forall k (m : MicroserviceVersion), rows db1 MicroserviceVersionTable !! k = Some m ->
      MicroserviceVersion_DeploymentVersion m <> DeploymentVersion_Version v) w w' Hrun) as ((db' & Hw' & Hs) & _ & Hq).
  - exists db. split; [done|reflexivity].
  - intros v w1 w2 _ (db1 & Hw1 & Hs1) Ev.
    destruct (delete_version_step v w1 w2 db1 Hw1 (namespaces_shrink _ _ Hs1 Hns) Ev) as (db2 & Hw2 & Hs2 & Hv).
    split_and!; [exists db2; split; [done|by transitivity db1]|by exists db2|].
    intros b (db1' & Hw1' & Hb). unfold in_tx in *. rewrite Hw1 in Hw1'. injection Hw1' as <-.
    exists db2. split; [done|]. intros k m Hm. eapply Hb. by apply (shrinks_row MicroserviceVersionTable _ _ _ _ Hs2).
  - exists db'. split_and!; [done..|]. intros v Hv k m Hm. destruct (Hq v Hv) as (db1 & Hw1 & Hn).
    unfold in_tx in *. rewrite Hw' in Hw1. injection Hw1 as <-. by eapply Hn.
Qed.

(** C5: Deleting versions leaves nothing of them: when it succeeds, no endpoint,
    route, stateful session or microservice version of a deleted version is
    stored any more, and nothing was added or changed in any table.  It assumes
    that no two routes have shared a uuid and that stored microservice versions
    carry resolved namespaces. *)
Theorem deleteCandidates_complete vs w w' db :
  in_tx w db -> uuids_exact db -> namespaces_resolved db ->
  deleteCandidates InTx vs w = (Ok tt, w') ->
  exists db', in_tx w' db' /\ shrinks db db' /\ forall v, v ∈ vs -> nothing_of_version db' (DeploymentVersion_Version v).
Proof.
  intros Hw Hx Hns Hrun. unfold deleteCandidates in Hrun.
  apply bind_Ok in Hrun as (es & w1 & E1 & Hrun). apply bind_Ok in Hrun as ([] & w2 & E2 & Hrun).
  destruct (endpoints_step vs w w2 db Hw) as (db2 & Hw2 & S2 & G2); [unfold bind; by rewrite E1|].
  apply bind_Ok in Hrun as ([] & w3 & E3 & Hrun).
  destruct (routes_step vs w2 w3 db2 Hw2) as (db3 & Hw3 & S3 & G3); [intros k; by apply S2|done|].
  apply bind_Ok in Hrun as (ids & w4 & E4 & Hrun). apply bind_Ok in Hrun as ([] & w5 & E5 & Hrun).
  apply (frame_in_tx shrinks) with (db := db3) in E4 as (db4 & Hw4 & S4); [|solve_frame|done].
  apply (frame_in_tx shrinks) with (db := db4) in E5 as (db5 & Hw5 & S5); [|solve_frame|done].
  apply bind_Ok in Hrun as (ss & w6 & E6 & Hrun). apply bind_Ok in Hrun as ([] & w7 & E7 & Hrun).
  destruct (sessions_step vs w5 w7 db5 Hw5) as (db7 & Hw7 & S7 & G7); [unfold bind; by rewrite E6|].
  assert (shrinks db3 db7) as S37 by (transitivity db4; [done|]; by transitivity db5).
  assert (shrinks db db7) as S07 by (transitivity db2; [done|]; by transitivity db3).
  destruct (DeleteVersions_step vs w7 w' db7 Hw7 (namespaces_shrink _ _ S07 Hns) Hrun) as (db' & Hw' & S8 & G8).
  exists db'. split_and!; [done|by transitivity db7|].
  intros v Hv. assert (of_versions vs (DeploymentVersion_Version v)) as Hof by by apply list_elem_of_fmap_2.
  split_and!; intros k x Hk; [| | |by eapply G8].
  - intros Hd. apply (shrinks_row EndpointTable _ _ _ _ S8), (shrinks_row EndpointTable _ _ _ _ S37),
      (shrinks_row EndpointTable _ _ _ _ S3), G2 in Hk. by rewrite Hd in Hk.
  - intros Hd. apply (shrinks_row RouteTable _ _ _ _ S8), (shrinks_row RouteTable _ _ _ _ S37), G3 in Hk. by rewrite Hd in Hk.
  - intros Hd. apply (shrinks_row StatefulSessionTable _ _ _ _ S8), G7 in Hk. by rewrite Hd in Hk.
Qed.
End delete_candidates.

(** * Witness *)

Section witness.
Import RuntimeModel.
Local Existing Instance test_laws.
Local Existing Instance test_sha.
Local Existing Instance test_service.

Definition candidate_endpoint : Endpoint :=
  (zero : Endpoint) <| Endpoint_ClusterId := 1%Z |> <| Endpoint_Address := "orders-v4" |> <| Endpoint_Port := 8080%Z |>
    <| Endpoint_DeploymentVersion := "v4" |> <| Endpoint_InitialDeploymentVersion := "v4" |>.
Definition candidate_microservice : MicroserviceVersion :=
  (zero : MicroserviceVersion) <| MicroserviceVersion_Name := "orders" |> <| MicroserviceVersion_Namespace := "cloud" |>
    <| MicroserviceVersion_DeploymentVersion := "v4" |> <| MicroserviceVersion_InitialDeploymentVersion := "v4" |>.
(** An open transaction that stores a cluster with one endpoint of [v4], and the
    microservice of that version. *)
Definition candidate_world : World :=
  ((_ <- SaveCluster InTx ((zero : Cluster) <| Cluster_Name := "orders||orders||8080" |>) ;;
    _ <- SaveEndpoint InTx candidate_endpoint ;;
    SaveMicroserviceVersion InTx candidate_microservice) empty_tx_world).2.
Definition candidate_db : Db := match w_tx candidate_world with Some (db, _) => db | None => w_db candidate_world end.

Lemma candidate_tx : in_tx candidate_world candidate_db.
Proof. reflexivity. Qed.
Lemma candidate_namespaces : namespaces_resolved candidate_db.
Proof.
  intros k m Hm. apply (row_key MicroserviceVersionTable) in Hm.
  destruct (FindAll_in_tx MicroserviceVersionTable _ _ candidate_tx) as (l & El & _ & Hl).
  apply Hl in Hm. assert ((FindAll InTx MicroserviceVersionTable candidate_world).1 = Ok [candidate_microservice]) as E1
    by (vm_compute; reflexivity).
  rewrite El in E1. injection E1 as ->. apply list_elem_of_singleton in Hm as ->. reflexivity.
Qed.

Lemma deleteCandidates_complete_witness :
  (FindAllEndpoints InTx candidate_world).1 = Ok [candidate_endpoint <| Endpoint_Id := 2%Z |>] /\
  exists db', in_tx (deleteCandidates InTx [v4] candidate_world).2 db' /\ nothing_of_version db' "v4".
Proof.
  split; [vm_compute; reflexivity|].
  destruct (deleteCandidates_complete [v4] candidate_world (deleteCandidates InTx [v4] candidate_world).2 candidate_db)
    as (db' & Hw & _ & Hn).
  - exact candidate_tx.
  - intros k. exact I.
  - exact candidate_namespaces.
  - apply run_pair. vm_compute. reflexivity.
  - exists db'. split; [exact Hw|]. apply (Hn v4). left.
Defined.
End witness.
