(* ===== verification/PipelineSpec.v ===== *)
(** What a promote or rollback moves to the new active version: the change that
    [calculateBlueGreenPipelineChange] computes, against the stored rows. *)
From S2P Require Import Prelude GoLib Domain Tables MemDb Msaddr Events RouteKey VersionState Runtime.
From S2P Require Import Dao DaoSpec Entity RegCommon LoadBalance Registry BlueGreen BlueGreenSpec CandidateSpec.
From S2P Require RuntimeModel Storage.
Open Scope string_scope.

Section pipeline.
Context `{RL : RuntimeLaws} `{H : Sha256} `{E : EntityService}.

(** * The question a change answers *)

(** The cluster has an endpoint of the version. *)
Definition served (db : Db) (clusterId : Z) (v : string) : Prop :=
  exists k (x : Endpoint), rows db EndpointTable !! k = Some x /\
    Endpoint_ClusterId x = clusterId /\ Endpoint_DeploymentVersion x = v.
(** The registry has the microservice in the version. *)
Definition registered (db : Db) (key : MicroserviceKey) (v : string) : Prop :=
  exists k (m : MicroserviceVersion), rows db MicroserviceVersionTable !! k = Some m /\
    MicroserviceVersion_Name m = MicroserviceKey_Name key /\
    MicroserviceVersion_Namespace m = GetNamespace (MicroserviceKey_GetNamespace key) /\
    MicroserviceVersion_DeploymentVersion m = v.
(** What [initial] was first registered with may move: always in a promote, in a
    rollback only if it is older than the version rolled back. *)
Definition may_move (op : blueGreenOperation) (vFrom : DeploymentVersion) (initial : string) : Prop :=
  op = promote \/ initial <> DeploymentVersion_Version vFrom.
(** No other microservice version of its deployment version has its name and namespace. *)
Definition alone_in_version (db : Db) (m : MicroserviceVersion) : Prop :=
  forall k (m' : MicroserviceVersion), rows db MicroserviceVersionTable !! k = Some m' ->
    MicroserviceVersion_DeploymentVersion m' = MicroserviceVersion_DeploymentVersion m ->
    MicroserviceVersion_GetMicroserviceKey m' = MicroserviceVersion_GetMicroserviceKey m -> m' = m.
(** An endpoint that the new active version has no replacement for. *)
Definition must_move (db : Db) (op : blueGreenOperation) (vFrom vTo : DeploymentVersion) (e : Endpoint) (cluster : Cluster) : Prop :=
  rows db ClusterTable !! [VInt (Endpoint_ClusterId e)] = Some cluster /\
  ~ served db (Endpoint_ClusterId e) (DeploymentVersion_Version vTo) /\
  ~ registered db (Cluster_GetMicroserviceKey cluster) (DeploymentVersion_Version vTo) /\
  may_move op vFrom (Endpoint_InitialDeploymentVersion e).

Lemma movable_spec c initial : movable c initial = true <-> may_move (operation c) (versionFrom c) initial.
Proof.
  unfold movable, may_move. rewrite orb_true_iff, bool_decide_eq_true, negb_true_iff, String.eqb_neq. done.
Qed.

(** * The reads *)

Lemma find_served cid (v : DeploymentVersion) w db :
  in_tx w db -> DeploymentVersion_Version v <> "" ->
  exists l, FindEndpointsByClusterIdAndDeploymentVersion InTx cid v w = (Ok l, w) /\
    (l <> [] <-> served db cid (DeploymentVersion_Version v)).
Proof.
  intros Hw Hv.
  destruct (FindByIndex_in_tx EndpointTable "clusterIdAndDVersion" [VInt cid; VStr (DeploymentVersion_Version v)] w db)
    as (l & El & _ & Hl); [done..|].
  exists l. split; [exact El|].
  assert (forall x : Endpoint, x ∈ l <-> rows db EndpointTable !! id_key EndpointTable x = Some x /\
    Endpoint_ClusterId x = cid /\ Endpoint_DeploymentVersion x = DeploymentVersion_Version v) as Hx.
  { intros x. rewrite Hl. rewrite (endpoint_clusterId_dVersion x). unfold str_key, nonempty.
    destruct (String.eqb_spec (Endpoint_DeploymentVersion x) "") as [He|He]; simpl;
      (split; intros [Hr Hk]; (split; [done|])); [done|destruct Hk; congruence|by injection Hk as -> ->|].
    by destruct Hk as [-> ->]. }
  split.
  - destruct l as [|x l]; [done|]. intros _. destruct (proj1 (Hx x)) as (Hr & ? & ?); [left|]. by eexists _, x.
  - intros (k & x & Hr & ? & ?) ->. assert (x ∈ []) as Hin by (apply Hx; split_and!; [by eapply (row_key EndpointTable)|done..]).
    by apply elem_of_nil in Hin.
Qed.

Lemma is_registered key (v : DeploymentVersion) w db :
  in_tx w db ->
  exists b, IsMicroservicePresentInVersion InTx key v w = (Ok b, w) /\
    (b = true <-> registered db key (DeploymentVersion_Version v)).
Proof.
  intros Hw. destruct (FindAll_in_tx MicroserviceVersionTable w db Hw) as (l & El & _ & Hl).
  eexists. unfold IsMicroservicePresentInVersion, FindMicroserviceVersionsByNameAndNamespace, bind.
  unfold FindAllMicroserviceVersions. rewrite El. split; [reflexivity|].
  rewrite existsb_exists. split.
  - intros (m & [Hm Hf]%filter_In & Hv%String.eqb_eq). apply andb_prop in Hf as [Hn%String.eqb_eq Hns%String.eqb_eq].
    apply list_elem_of_In, Hl in Hm. by eexists _, m.
  - intros (k & m & Hm & Hn & Hns & Hv). exists m. rewrite Hv, String.eqb_refl, filter_In. split_and!; [|by rewrite Hn, Hns, !String.eqb_refl|done].
    apply list_elem_of_In, Hl. by eapply (row_key MicroserviceVersionTable).
Qed.

(** * One endpoint *)

Definition same_question (c c' : blueGreenPipelineChange) : Prop :=
  operation c' = operation c /\ versionFrom c' = versionFrom c /\ versionTo c' = versionTo c.
(** [c'] extends [c] by the endpoints of [l] that must move. *)
Definition extends (db : Db) (l : list Endpoint) (c c' : blueGreenPipelineChange) : Prop :=
  same_question c c' /\
  (forall x, x ∈ endpointsToMove c' <-> x ∈ endpointsToMove c \/ x ∈ l /\ exists cl, must_move db (operation c) (versionFrom c) (versionTo c) x cl) /\
  (forall n, n ∈ nonBgClusters c' <-> n ∈ nonBgClusters c \/
     exists x cl, x ∈ l /\ must_move db (operation c) (versionFrom c) (versionTo c) x cl /\ n = Cluster_Name cl).
(** The microservices added come from [ms], are not registered in the new
    version and may move. *)
Definition adds_only (db : Db) (ms : MicroserviceVersion -> Prop) (c c' : blueGreenPipelineChange) : Prop :=
  forall m, m ∈ microservicesToMove c' -> m ∈ microservicesToMove c \/
    ms m /\ ~ registered db (MicroserviceVersion_GetMicroserviceKey m) (DeploymentVersion_Version (versionTo c)) /\
    may_move (operation c) (versionFrom c) (MicroserviceVersion_InitialDeploymentVersion m).

Lemma extends_nil db c : extends db [] c c.
Proof.
  split_and!; try done; intros x; (split; [by left|]); intros [?|Hx]; try done.
  - destruct Hx as [Hx _]. by apply elem_of_nil in Hx.
  - destruct Hx as (e & cl & Hx & _). by apply elem_of_nil in Hx.
Qed.
Lemma extends_skip db e c : (forall cl, ~ must_move db (operation c) (versionFrom c) (versionTo c) e cl) -> extends db [e] c c.
Proof.
  intros Hn. split_and!; try done; intros x; (split; [by left|]); intros [?|Hx]; try done.
  - destruct Hx as [->%list_elem_of_singleton (cl & Hm)]. by apply Hn in Hm.
  - destruct Hx as (e' & cl & ->%list_elem_of_singleton & Hm & _). by apply Hn in Hm.
Qed.
Lemma extends_app db l1 l2 c c1 c2 : extends db l1 c c1 -> extends db l2 c1 c2 -> extends db (l1 ++ l2) c c2.
Proof.
  intros ((Q1 & Q2 & Q3) & E1 & N1) ((R1 & R2 & R3) & E2 & N2). rewrite Q1, Q2, Q3 in E2, N2.
  split_and!; try (unfold same_question; split_and!; congruence).
  - intros x. rewrite E2, E1, elem_of_app. naive_solver.
  - intros n. rewrite N2, N1. setoid_rewrite elem_of_app. naive_solver.
Qed.

(** Microservices of the active version, by their key. *)
Definition by_key (m : gmap MicroserviceKey MicroserviceVersion) : Prop :=
  forall k x, m !! k = Some x -> MicroserviceVersion_GetMicroserviceKey x = k.

(** A microservice no longer to be checked has been added. *)
Definition loses_none (c' : blueGreenPipelineChange) (ms ms' : gmap MicroserviceKey MicroserviceVersion) : Prop :=
  forall k m, ms !! k = Some m -> ms' !! k = Some m \/ m ∈ microservicesToMove c'.

Lemma addEndpoint_step c ms (e : Endpoint) w db c' ms' w' :
  in_tx w db -> DeploymentVersion_Version (versionTo c) <> "" -> by_key ms ->
  addEndpointChangeIfNeeded InTx (c, ms) e w = (Ok (c', ms'), w') ->
  w' = w /\ extends db [e] c c' /\ ms' ⊆ ms /\ adds_only db (fun m => exists k, ms !! k = Some m) c c' /\ loses_none c' ms ms' /\
  microservicesToMove c ⊆ microservicesToMove c'.
Proof.
  intros Hw Hv Hms Hrun. unfold addEndpointChangeIfNeeded in Hrun.
  destruct (find_served (Endpoint_ClusterId e) (versionTo c) w db Hw Hv) as (l & El & Hl).
  unfold bind at 1 in Hrun. rewrite El in Hrun. destruct l as [|x l].
  2:{ apply ret_Ok in Hrun as [[= -> ->] ->]. split_and!; [done| |done|by intros m ?; left|by intros k m ?; left|done].
      apply extends_skip. intros cl (_ & Hs & _). destruct Hs. by apply Hl. }
  assert (~ served db (Endpoint_ClusterId e) (DeploymentVersion_Version (versionTo c))) as Hns by (intros Hs%Hl; done).
  unfold bind at 1, FindClusterById in Hrun. rewrite (FindById_in_tx _ _ _ _ Hw) in Hrun by done.
  destruct (rows db ClusterTable !! [VInt (Endpoint_ClusterId e)]) as [cl|] eqn:Ecl; [|done].
  unfold bind at 1 in Hrun. simpl deref in Hrun. unfold ret at 1 in Hrun. cbv zeta in Hrun.
  destruct (is_registered (Cluster_GetMicroserviceKey cl) (versionTo c) w db Hw) as (b & Eb & Hb).
  unfold bind at 1 in Hrun. rewrite Eb in Hrun. destruct b.
  { apply ret_Ok in Hrun as [[= -> ->] ->]. split_and!; [done| |done|by intros m ?; left|by intros k m ?; left|done].
    apply extends_skip. intros cl' (Hcl & _ & Hr & _). pose proof (Some_functional _ _ _ Ecl Hcl) as <-. destruct Hr. by apply Hb. }
  assert (~ registered db (Cluster_GetMicroserviceKey cl) (DeploymentVersion_Version (versionTo c))) as Hnr by (intros Hr%Hb; done).
  set (c1 := if movable c (Endpoint_InitialDeploymentVersion e) then _ else c) in Hrun.
  assert (extends db [e] c c1 /\ microservicesToMove c1 = microservicesToMove c) as [Hx Hm1].
  { unfold c1. destruct (movable c _) eqn:Em; (split; [|done]).
    - apply movable_spec in Em.
      assert (must_move db (operation c) (versionFrom c) (versionTo c) e cl) as Hmm by done.
      split_and!; [done|intros x; simpl|intros n; simpl].
      + rewrite elem_of_app, list_elem_of_singleton. split; [intros [?| ->]|intros [?|[-> _]]]; eauto.
      + rewrite elem_of_union, elem_of_singleton. setoid_rewrite list_elem_of_singleton. split.
        * intros [->|?]; [right; by exists e, cl|by left].
        * intros [?|(x & cl' & -> & (Hcl & _) & ->)]; [by right|left]. by pose proof (Some_functional _ _ _ Ecl Hcl) as <-.
    - apply extends_skip. intros cl' (_ & _ & _ & Hmv). apply movable_spec in Hmv. congruence. }
  assert (same_question c c1) as (Q1 & Q2 & Q3) by apply Hx.
  apply ret_Ok in Hrun as [Hres ->]. destruct (ms !! Cluster_GetMicroserviceKey cl) as [mv|] eqn:Emv.
  - destruct (movable c1 _) eqn:Em; injection Hres as -> ->.
    + split_and!; [done|done|apply delete_subseteq| | |].
      2:{ intros k m Hk. simpl. destruct (decide (k = Cluster_GetMicroserviceKey cl)) as [->|Hne].
          - right. pose proof (Some_functional _ _ _ Emv Hk) as <-. apply elem_of_app. right. left.
          - left. by rewrite lookup_delete_ne. }
      2:{ intros m Hm. simpl. rewrite Hm1. apply elem_of_app. by left. }
      intros m. simpl. rewrite Hm1, elem_of_app, list_elem_of_singleton.
      intros [?| ->]; [by left|right]. split; [by eexists|]. rewrite (Hms _ _ Emv). split; [done|].
      apply movable_spec in Em. by rewrite Q1, Q2 in Em.
    + split_and!; [done|done|done| |by intros k m ?; left|by rewrite Hm1]. intros m. rewrite Hm1. by left.
  - injection Hres as -> ->. split_and!; [done|done|done| |by intros k m ?; left|by rewrite Hm1]. intros m. rewrite Hm1. by left.
Qed.

Lemma addEndpoints_loop l c ms w db c' ms' w' :
  in_tx w db -> DeploymentVersion_Version (versionTo c) <> "" -> by_key ms ->
  fold_each l (c, ms) (addEndpointChangeIfNeeded InTx) w = (Ok (c', ms'), w') ->
  w' = w /\ extends db l c c' /\ ms' ⊆ ms /\ adds_only db (fun m => exists k, ms !! k = Some m) c c' /\ loses_none c' ms ms' /\
  microservicesToMove c ⊆ microservicesToMove c'.
Proof.
  intros Hw. revert c ms. induction l as [|e l IH]; intros c ms Hv Hms; cbn [fold_each].
  - intros [[= -> ->] ->]%ret_Ok. split_and!; [done|apply extends_nil|done|by left|by left|done].
  - intros ([c1 ms1] & w1 & E1 & E2)%bind_Ok.
    destruct (addEndpoint_step _ _ _ _ _ _ _ _ Hw Hv Hms E1) as (-> & Hx1 & Hs1 & Ha1 & Hl1 & Hi1).
    assert (same_question c c1) as (Q1 & Q2 & Q3) by apply Hx1.
    destruct (IH c1 ms1) as (-> & Hx2 & Hs2 & Ha2 & Hl2 & Hi2); [by rewrite Q3| |done|].
    { intros k x Hk. apply Hms. by apply (lookup_weaken _ _ _ _ Hk). }
    split_and!; [done|by apply (extends_app db [e] l c c1)|by transitivity ms1| | |by transitivity (microservicesToMove c1)].
    2:{ intros k m Hk. destruct (Hl1 k m Hk) as [Hk1|Hk1]; [by apply Hl2|right; by apply Hi2]. }
    intros m Hm. apply Ha2 in Hm as [Hm|((k & Hk) & Hr & Hmv)]; [by apply Ha1|right].
    rewrite Q1, Q2, Q3 in *. split_and!; [exists k; by apply (lookup_weaken _ _ _ _ Hk)|done..].
Qed.

Lemma SliceToMap_lookup l k m :
  SliceToMap l !! k = Some m -> m ∈ l /\ MicroserviceVersion_GetMicroserviceKey m = k.
Proof.
  unfold SliceToMap.
  assert (forall acc : gmap MicroserviceKey MicroserviceVersion, (forall k m, acc !! k = Some m -> m ∈ l /\ MicroserviceVersion_GetMicroserviceKey m = k) ->
    forall l', (forall x, x ∈ l' -> x ∈ l) -> forall k m,
      fold_left (fun m e => <[MicroserviceVersion_GetMicroserviceKey e := e]> m) l' acc !! k = Some m ->
      m ∈ l /\ MicroserviceVersion_GetMicroserviceKey m = k) as Hf.
  { intros acc Hacc l'. revert acc Hacc. induction l' as [|x l' IH]; intros acc Hacc Hl; simpl; [done|].
    apply IH; [|intros; apply Hl; by right]. intros k' m'. rewrite lookup_insert_Some.
    intros [[<- <-]|[_ Hk]]; [split; [apply Hl; left|done]|by apply Hacc]. }
  apply (Hf ∅); [by intros ? ? ?|done].
Qed.

Lemma SliceToMap_complete l m :
  m ∈ l -> (forall m', m' ∈ l -> MicroserviceVersion_GetMicroserviceKey m' = MicroserviceVersion_GetMicroserviceKey m -> m' = m) ->
  SliceToMap l !! MicroserviceVersion_GetMicroserviceKey m = Some m.
Proof.
  intros Hm Hu. unfold SliceToMap.
  assert (forall l' (acc : gmap MicroserviceKey MicroserviceVersion), (forall x, x ∈ l' -> x ∈ l) ->
    m ∈ l' \/ acc !! MicroserviceVersion_GetMicroserviceKey m = Some m ->
    fold_left (fun m e => <[MicroserviceVersion_GetMicroserviceKey e := e]> m) l' acc !! MicroserviceVersion_GetMicroserviceKey m = Some m) as Hf.
  { induction l' as [|x l' IH]; intros acc Hl Hor; simpl; [by destruct Hor as [?%elem_of_nil|]|].
    apply IH; [intros; apply Hl; by right|]. destruct (decide (MicroserviceVersion_GetMicroserviceKey x = MicroserviceVersion_GetMicroserviceKey m)) as [Hk|Hk].
    - right. rewrite (Hu x (Hl x (list_elem_of_here _ _)) Hk). apply lookup_insert_eq.
    - rewrite lookup_insert_ne by done. destruct Hor as [[->|?]%elem_of_cons|?]; [done|by left|by right]. }
  apply (Hf l ∅); [done|by left].
Qed.

Lemma grow_ne c m : c <| microservicesToMove := (microservicesToMove c ++ [m])%list |> <> c.
Proof.
  intros Hc. apply (f_equal (length ∘ microservicesToMove)) in Hc. simpl in Hc. rewrite length_app in Hc. simpl in Hc. lia.
Qed.

Lemma addMicroservices_loop (l : list (MicroserviceKey * MicroserviceVersion)) c w db c' w' :
  in_tx w db ->
  fold_each l c (fun change m => addMicroserviceChangeIfNeeded InTx change m.2) w = (Ok c', w') ->
  w' = w /\ same_question c c' /\ endpointsToMove c' = endpointsToMove c /\ nonBgClusters c' = nonBgClusters c /\
  adds_only db (fun m => exists k, (k, m) ∈ l) c c' /\
  (forall k m, (k, m) ∈ l -> ~ registered db (MicroserviceVersion_GetMicroserviceKey m) (DeploymentVersion_Version (versionTo c)) ->
    may_move (operation c) (versionFrom c) (MicroserviceVersion_InitialDeploymentVersion m) -> m ∈ microservicesToMove c') /\
  microservicesToMove c ⊆ microservicesToMove c'.
Proof.
  intros Hw. revert c. induction l as [|[k m] l IH]; intros c; simpl.
  - intros [-> ->]%ret_Ok. split_and!; try done; [by left|]. by intros k m Hm%elem_of_nil.
  - intros (c1 & w1 & E1 & E2)%bind_Ok. unfold addMicroserviceChangeIfNeeded in E1.
    assert (w1 = w /\ (c1 = c \/ c1 = c <| microservicesToMove := (microservicesToMove c ++ [m])%list |> /\
      ~ registered db (MicroserviceVersion_GetMicroserviceKey m) (DeploymentVersion_Version (versionTo c)) /\
      may_move (operation c) (versionFrom c) (MicroserviceVersion_InitialDeploymentVersion m)) /\
      (c1 = c -> registered db (MicroserviceVersion_GetMicroserviceKey m) (DeploymentVersion_Version (versionTo c)) \/
        ~ may_move (operation c) (versionFrom c) (MicroserviceVersion_InitialDeploymentVersion m))) as (-> & Hc1 & Hskip).
    { destruct (movable c _) eqn:Em.
      2:{ apply ret_Ok in E1 as [-> ->]. split_and!; [done|by left|]. intros _. right. rewrite <- movable_spec. congruence. }
      destruct (is_registered (MicroserviceVersion_GetMicroserviceKey m) (versionTo c) w db Hw) as (b & Eb & Hb).
      unfold bind in E1. rewrite Eb in E1. apply ret_Ok in E1 as [-> ->]. split; [done|].
      destruct b; [split; [by left|intros _; left; by apply Hb]|].
      split; [right; split_and!; [done|by intros Hr%Hb|by apply movable_spec]|by intros Hc%grow_ne]. }
    destruct (IH c1 E2) as (-> & (Q1 & Q2 & Q3) & He & Hn & Ha & Hall & Hi). split; [done|].
    assert (forall x, x ∈ microservicesToMove c1 -> x ∈ microservicesToMove c \/ x = m /\ c1 <> c) as Hx.
    { destruct Hc1 as [->|(-> & _)]; [by left|]. simpl. intros x [?| ->%list_elem_of_singleton]%elem_of_app; [by left|right].
      split; [done|apply grow_ne]. }
    assert (same_question c c1 /\ endpointsToMove c1 = endpointsToMove c /\ nonBgClusters c1 = nonBgClusters c) as ((R1 & R2 & R3) & R4 & R5).
    { by destruct Hc1 as [->|(-> & _)]. }
    assert (microservicesToMove c ⊆ microservicesToMove c1) as Hi1.
    { destruct Hc1 as [->|(-> & _)]; [done|]. intros x Hxc. apply elem_of_app. by left. }
    split_and!; try congruence; [unfold same_question; split_and!; congruence| | |by transitivity (microservicesToMove c1)].
    2:{ intros k' m' [[= -> ->]|Hin]%elem_of_cons Hr Hmv.
        - apply Hi. destruct Hc1 as [->|(-> & _)]; [by destruct Hskip|]. apply elem_of_app. right. left.
        - rewrite <- R1, <- R2 in Hmv. rewrite <- R3 in Hr. by apply (Hall k'). }
    intros x Hxm. apply Ha in Hxm as [Hxm|((k' & Hk) & Hr & Hmv)].
    + apply Hx in Hxm as [?|[-> Hne]]; [by left|right]. destruct Hc1 as [->|(_ & ? & ?)]; [done|].
      split_and!; [exists k; left|done..].
    + right. rewrite R1, R2, R3 in *. split_and!; [exists k'; by right|done..].
Qed.

(** C6: What a promote or a rollback moves to the new active version: exactly the
    endpoints of the old active version whose cluster has no endpoint in the
    new one and whose microservice is not registered there, in a rollback only
    those not first registered in the version rolled back; the clusters
    considered not blue-green are exactly the clusters of these endpoints; and
    every microservice version moved belongs to the old active version, is not
    registered in the new one and may move, and each such one is moved if it is
    the only one of its name in the old active version.  Computing it writes
    nothing. *)
Theorem calculateBlueGreenPipelineChange_spec op vFrom vTo w db c w' :
  in_tx w db -> DeploymentVersion_Version vTo <> "" ->
  calculateBlueGreenPipelineChange InTx op vFrom vTo w = (Ok c, w') ->
  in_tx w' db /\
  (forall e : Endpoint, e ∈ endpointsToMove c <->
     rows db EndpointTable !! id_key EndpointTable e = Some e /\
     Endpoint_DeploymentVersion e = DeploymentVersion_Version vFrom /\ exists cl, must_move db op vFrom vTo e cl) /\
  (forall n, n ∈ nonBgClusters c <-> exists e cl, e ∈ endpointsToMove c /\ must_move db op vFrom vTo e cl /\ n = Cluster_Name cl) /\
  (forall m : MicroserviceVersion, m ∈ microservicesToMove c ->
     rows db MicroserviceVersionTable !! id_key MicroserviceVersionTable m = Some m /\
     MicroserviceVersion_DeploymentVersion m = DeploymentVersion_Version vFrom /\
     ~ registered db (MicroserviceVersion_GetMicroserviceKey m) (DeploymentVersion_Version vTo) /\
     may_move op vFrom (MicroserviceVersion_InitialDeploymentVersion m)) /\
  (forall k (m : MicroserviceVersion), rows db MicroserviceVersionTable !! k = Some m ->
     MicroserviceVersion_DeploymentVersion m = DeploymentVersion_Version vFrom ->
     ~ registered db (MicroserviceVersion_GetMicroserviceKey m) (DeploymentVersion_Version vTo) ->
     may_move op vFrom (MicroserviceVersion_InitialDeploymentVersion m) ->
     alone_in_version db m -> m ∈ microservicesToMove c).
Proof.
  intros Hw Hv Hrun. unfold calculateBlueGreenPipelineChange, GetMicroservicesByVersionAsMap, FindMicroserviceVersionsByVersion in Hrun.
  apply bind_Ok in Hrun as (ms & w1 & E1 & Hrun). apply bind_Ok in E1 as (msl & w0 & E0 & [-> ->]%ret_Ok).
  destruct (String.eqb_spec (DeploymentVersion_Version vFrom) "") as [|Hf]; [done|].
  destruct (FindAll_in_tx MicroserviceVersionTable w db Hw) as (all & Eall & _ & Hall).
  apply bind_Ok in E0 as (all' & w2 & E0 & [-> ->]%ret_Ok). unfold FindAllMicroserviceVersions in E0.
  rewrite Eall in E0. injection E0 as <- <-.
  destruct (FindEndpointsByDeploymentVersion_in_tx (DeploymentVersion_Version vFrom) w db Hw) as (es & Ees & Hes).
  unfold bind at 1 in Hrun. rewrite Ees in Hrun. cbv zeta in Hrun.
  apply bind_Ok in Hrun as ([c1 ms1] & w1 & E1 & Hrun).
  assert (by_key (SliceToMap (List.filter (fun m : MicroserviceVersion => String.eqb (MicroserviceVersion_DeploymentVersion m)
    (DeploymentVersion_Version vFrom)) all))) as Hbk by (intros k x Hk; by apply SliceToMap_lookup in Hk as [_ ?]).
  destruct (addEndpoints_loop es (mkChangeSet op vFrom vTo [] [] ∅) _ w db c1 ms1 w1 Hw Hv Hbk E1)
    as (-> & ((Q1 & Q2 & Q3) & He & Hn) & Hsub & Ha & Hlose & Hinc). simpl in Q1, Q2, Q3, He, Hn, Ha.
  apply bind_Ok in Hrun as (rest & w1 & E2 & E3). unfold range, tick, bind, ret in E2. injection E2 as <- <-. simpl in E3.
  destruct (addMicroservices_loop _ _ _ db _ _ (in_tx_tick (S (w_tick w)) _ _ Hw) E3) as (-> & (R1 & R2 & R3) & He2 & Hn2 & Ha2 & Hall2 & Hinc2).
  assert (forall e : Endpoint, e ∈ endpointsToMove c <-> rows db EndpointTable !! id_key EndpointTable e = Some e /\
    Endpoint_DeploymentVersion e = DeploymentVersion_Version vFrom /\ exists cl, must_move db op vFrom vTo e cl) as Hend.
  { intros e. rewrite He2, He, Hes. split; [intros [Hx|((? & ? & _) & ?)]; [by apply elem_of_nil in Hx|done]|].
    intros (? & ? & ?). right. done. }
  split_and!; [done|exact Hend|intros n; rewrite Hn2, Hn; split| |].
  - intros [Hx|(e & cl & Hl & Hm & ->)]; [by apply elem_of_empty in Hx|]. exists e, cl. split_and!; [|done..].
    apply Hend. apply Hes in Hl as (? & ? & _). split_and!; [done..|by exists cl].
  - intros (e & cl & Hl & Hm & ->). right. exists e, cl. split_and!; [|done..]. apply Hend in Hl as (? & ? & _). by apply Hes.
  - assert (forall m k, SliceToMap (List.filter (fun m : MicroserviceVersion => String.eqb (MicroserviceVersion_DeploymentVersion m)
        (DeploymentVersion_Version vFrom)) all) !! k = Some m ->
      rows db MicroserviceVersionTable !! id_key MicroserviceVersionTable m = Some m /\
      MicroserviceVersion_DeploymentVersion m = DeploymentVersion_Version vFrom) as Hsm.
    { intros m k Hk. apply SliceToMap_lookup in Hk as [Hm _]. apply list_elem_of_In, filter_In in Hm as [Hm Hd%String.eqb_eq].
      split; [|done]. by apply Hall, list_elem_of_In. }
    intros m Hm. apply Ha2 in Hm as [Hm|((k & Hk) & Hr & Hmv)].
    + apply Ha in Hm as [Hm|((k & Hk) & ? & ?)]; [by apply elem_of_nil in Hm|].
      destruct (Hsm _ _ Hk). by split_and!.
    + rewrite Q1, Q2, Q3 in *. rewrite map_order_perm in Hk. apply elem_of_map_to_list in Hk.
      destruct (Hsm m k) as [? ?]; [by apply (lookup_weaken _ _ _ _ Hk)|]. by split_and!.
  - intros k m Hk Hd Hr Hmv Halone.
    assert (SliceToMap (List.filter (fun m : MicroserviceVersion => String.eqb (MicroserviceVersion_DeploymentVersion m)
      (DeploymentVersion_Version vFrom)) all) !! MicroserviceVersion_GetMicroserviceKey m = Some m) as Hm.
    { apply SliceToMap_complete.
      - apply list_elem_of_In, filter_In. rewrite Hd, String.eqb_refl. split; [|done]. apply list_elem_of_In, Hall.
        by apply (row_key MicroserviceVersionTable) in Hk.
      - intros m' [Hm' Hd'%String.eqb_eq]%list_elem_of_In%filter_In Hkey. apply list_elem_of_In, Hall in Hm'.
        apply (Halone _ _ Hm'); [by rewrite Hd'|done]. }
    destruct (Hlose _ _ Hm) as [Hl|Hl]; [|by apply Hinc2].
    apply (Hall2 (MicroserviceVersion_GetMicroserviceKey m)); rewrite ?Q1, ?Q2, ?Q3; [|done..].
    rewrite map_order_perm. by apply elem_of_map_to_list.
Qed.
End pipeline.

(** * Witness *)

Section witness.
Import RuntimeModel.
Local Existing Instance test_laws.
Local Existing Instance test_sha.
Local Existing Instance test_service.

Definition active_v1 : DeploymentVersion :=  (zero : DeploymentVersion) <| DeploymentVersion_Version := "v1" |> <| DeploymentVersion_Stage := ActiveStage |>.
(** A promote of [v1] over the version [v4] of the world [candidate_world]
    moves the endpoint and the microservice of [v4]. *)
Lemma calculateBlueGreenPipelineChange_spec_witness :
  exists c w', calculateBlueGreenPipelineChange InTx promote v4 active_v1 candidate_world = (Ok c, w') /\
    map Endpoint_Address (endpointsToMove c) = ["orders-v4"] /\
    map MicroserviceVersion_Name (microservicesToMove c) = ["orders"] /\
    (forall e, e ∈ endpointsToMove c -> exists cl, must_move candidate_db promote v4 active_v1 e cl).
Proof.
  destruct (calculateBlueGreenPipelineChange InTx promote v4 active_v1 candidate_world) as [r w'] eqn:E.
  assert (match r with Ok c => bool_decide (map Endpoint_Address (endpointsToMove c) = ["orders-v4"] /\
    map MicroserviceVersion_Name (microservicesToMove c) = ["orders"]) | _ => false end = true) as Hr.
  { replace r with (calculateBlueGreenPipelineChange InTx promote v4 active_v1 candidate_world).1 by by rewrite E.
    vm_compute. reflexivity. }
  destruct r as [c|err|]; [|discriminate..]. apply bool_decide_eq_true in Hr as [H1 H2].
  exists c, w'. split_and!; [done..|]. intros e He.
  destruct (calculateBlueGreenPipelineChange_spec promote v4 active_v1 candidate_world candidate_db c w') as (_ & Hs & _).
  - exact candidate_tx.
  - discriminate.
  - exact E.
  - by destruct (proj1 (Hs e) He) as (_ & _ & ?).
Defined.
End witness.
