(* ===== verification/RegistrationSpec.v ===== *)
(** Validation of a registration request against the stored virtual hosts, and
    deletion of routes. *)
From S2P Require Import Prelude GoLib Domain Tables MemDb Msaddr Events RouteKey VersionState Runtime.
From S2P Require Import Dao DaoSpec Entity RegCommon Format LoadBalance Registry BlueGreen BlueGreenSpec CandidateSpec Registration.
From S2P Require Import Dto Requests.
From S2P Require RuntimeModel Storage.
Open Scope string_scope.

Section registration.
Context `{RL : RuntimeLaws} `{H : Sha256} `{E : EntityService}.

(** * Reads by an index *)

Lemma fold_collect {A B} (f : list B -> A -> prog World (list B)) (Q : A -> B -> Prop) w (l : list A) acc :
  (forall acc a, exists r, f acc a w = (Ok r, w) /\ forall x, x ∈ r <-> x ∈ acc \/ Q a x) ->
  exists r, fold_each l acc f w = (Ok r, w) /\ forall x, x ∈ r <-> x ∈ acc \/ exists a, a ∈ l /\ Q a x.
Proof.
  intros Hf. revert acc. induction l as [|a l IH]; intros acc; simpl.
  - exists acc. split; [done|]. intros x. split; [by left|]. intros [?|(a & Ha & _)]; [done|by apply elem_of_nil in Ha].
  - destruct (Hf acc a) as (r & Er & Hr). destruct (IH r) as (r' & Er' & Hr').
    exists r'. unfold bind. rewrite Er. split; [done|]. intros x. rewrite Hr', Hr. split.
    + intros [[?|?]|(b & ? & ?)]; [by left|right; exists a; split; [left|done]|right; exists b; split; [by right|done]].
    + intros [?|(b & [->|?]%elem_of_cons & ?)]; [left; by left|left; by right|right; by exists b].
Qed.

Lemma int_index t idx u f x n :
  schema t !! idx = Some (mkIndexSchema idx u false (IntFieldIndex f)) -> FieldByName t f x = Some (VInt n) ->
  index_key t idx x = Some [VInt n].
Proof. intros Hi Hf. unfold index_key. rewrite Hi. simpl. unfold field_key. simpl. by rewrite Hf. Qed.

(** Rows with a number in a field. *)
Lemma find_by_int t idx f (field : entity t -> Z) n w db :
  in_tx w db -> schema t !! idx = Some (mkIndexSchema idx false false (IntFieldIndex f)) ->
  (forall x, FieldByName t f x = Some (VInt (field x))) -> valid_query t idx [VInt n] = true -> query_key t idx [VInt n] = [VInt n] ->
  unique_index t idx = false ->
  exists l, FindByIndex InTx t idx [VInt n] w = (Ok l, w) /\ NoDup (id_key t <$> l) /\
    forall x, x ∈ l <-> rows db t !! id_key t x = Some x /\ field x = n.
Proof.
  intros Hw Hi Hf Hv Hq Hu. destruct (FindByIndex_in_tx t idx [VInt n] w db) as (l & El & Hn & Hl); [done..|].
  exists l. split_and!; [done..|]. intros x. rewrite Hl, (int_index _ _ _ _ _ _ Hi (Hf x)).
  split; intros [Hx Hk]; (split; [done|]); [by injection Hk|by subst].
Qed.
Lemma FindVirtualHosts_in_tx id w db : in_tx w db ->
  exists l, FindVirtualHostsByRouteConfigurationId InTx id w = (Ok l, w) /\ NoDup (id_key VirtualHostTable <$> l) /\
    forall x : VirtualHost, x ∈ l <-> rows db VirtualHostTable !! id_key VirtualHostTable x = Some x /\ VirtualHost_RouteConfigurationId x = id.
Proof. intros Hw. eapply (find_by_int VirtualHostTable); reflexivity || done. Qed.
Lemma FindDomains_in_tx id w db : in_tx w db ->
  exists l, FindVirtualHostDomainByVirtualHostId InTx id w = (Ok l, w) /\ NoDup (id_key VirtualHostDomainTable <$> l) /\
    forall x : VirtualHostDomain, x ∈ l <-> rows db VirtualHostDomainTable !! id_key VirtualHostDomainTable x = Some x /\ VirtualHostDomain_VirtualHostId x = id.
Proof. intros Hw. eapply (find_by_int VirtualHostDomainTable); reflexivity || done. Qed.
Lemma FindRoutes_in_tx id w db : in_tx w db ->
  exists l, FindRoutesByVirtualHostId InTx id w = (Ok l, w) /\ NoDup (id_key RouteTable <$> l) /\
    forall x : Route, x ∈ l <-> rows db RouteTable !! id_key RouteTable x = Some x /\ Route_VirtualHostId x = id.
Proof. intros Hw. eapply (find_by_int RouteTable); reflexivity || done. Qed.
Lemma FindMatchers_in_tx id w db : in_tx w db ->
  exists l, FindHeaderMatcherByRouteId InTx id w = (Ok l, w) /\ NoDup (id_key HeaderMatcherTable <$> l) /\
    forall x : HeaderMatcher, x ∈ l <-> rows db HeaderMatcherTable !! id_key HeaderMatcherTable x = Some x /\ HeaderMatcher_RouteId x = id.
Proof. intros Hw. eapply (find_by_int HeaderMatcherTable); reflexivity || done. Qed.
Lemma FindRouteConfigs_in_tx name w db : in_tx w db ->
  exists l, FindRouteConfigsByNodeGroupId InTx name w = (Ok l, w) /\
    forall x : RouteConfiguration, x ∈ l <-> rows db RouteConfigurationTable !! id_key RouteConfigurationTable x = Some x /\
      RouteConfiguration_NodeGroupId x = name /\ name <> "".
Proof.
  intros Hw. destruct (FindByIndex_in_tx RouteConfigurationTable "nodeGroup" [VStr name] w db) as (l & El & _ & Hl); [done..|].
  exists l. split; [done|]. intros x. rewrite Hl.
  assert (index_key RouteConfigurationTable "nodeGroup" x = str_key (RouteConfiguration_NodeGroupId x)) as -> by (eapply string_index; reflexivity).
  split; intros [Hx Hi]; (split; [done|]).
  - unfold str_key, nonempty in Hi. destruct (String.eqb_spec (RouteConfiguration_NodeGroupId x) ""); [done|]. by injection Hi as <-.
  - destruct Hi as [<- Hne]. by apply str_key_Some.
Qed.

(** * Loops of routes *)

(** A virtual host of the gateway handles requests for the host. *)
Definition handled (db : Db) (gateway host : string) : Prop :=
  exists kc (rc : RouteConfiguration) kv (vh : VirtualHost) kd (d : VirtualHostDomain),
    rows db RouteConfigurationTable !! kc = Some rc /\ RouteConfiguration_NodeGroupId rc = gateway /\ gateway <> "" /\
    rows db VirtualHostTable !! kv = Some vh /\ VirtualHost_RouteConfigurationId vh = RouteConfiguration_Id rc /\
    rows db VirtualHostDomainTable !! kd = Some d /\ VirtualHostDomain_VirtualHostId d = VirtualHost_Id vh /\
    VirtualHostDomain_Domain d = host.

(** The rows one level below: the domains of a virtual host, the virtual hosts of
    a route configuration, the route configurations of a gateway. *)
Definition host_row (db : Db) (vh : VirtualHost) (d : VirtualHostDomain) : Prop :=
  rows db VirtualHostDomainTable !! id_key VirtualHostDomainTable d = Some d /\ VirtualHostDomain_VirtualHostId d = VirtualHost_Id vh.
Definition virtual_host_row (db : Db) (rc : RouteConfiguration) (vh : VirtualHost) : Prop :=
  rows db VirtualHostTable !! id_key VirtualHostTable vh = Some vh /\ VirtualHost_RouteConfigurationId vh = RouteConfiguration_Id rc.
Definition config_row (db : Db) (ng : NodeGroup) (rc : RouteConfiguration) : Prop :=
  rows db RouteConfigurationTable !! id_key RouteConfigurationTable rc = Some rc /\
  RouteConfiguration_NodeGroupId rc = NodeGroup_Name ng /\ NodeGroup_Name ng <> "".

Lemma domains_of_hosts_in_tx vhs acc w db : in_tx w db ->
  exists l, fold_each vhs acc (fun domains virtualHost =>
    virtualHostDomains <- FindVirtualHostDomainByVirtualHostId InTx (VirtualHost_Id virtualHost) ;;
    ret (domains ++ virtualHostDomains)%list) w = (Ok l, w) /\
    forall d, d ∈ l <-> d ∈ acc \/ exists vh, vh ∈ vhs /\ host_row db vh d.
Proof.
  intros Hw. apply (fold_collect _ (host_row db)). intros acc' vh.
  destruct (FindDomains_in_tx (VirtualHost_Id vh) w db Hw) as (ds & Eds & _ & Hds).
  unfold bind. rewrite Eds. eexists. split; [reflexivity|]. intros x. by rewrite elem_of_app, Hds.
Qed.
Lemma domains_of_configs_in_tx rcs acc w db : in_tx w db ->
  exists l, fold_each rcs acc (fun domains routeConfiguration =>
    virtualHosts <- FindVirtualHostsByRouteConfigurationId InTx (RouteConfiguration_Id routeConfiguration) ;;
    fold_each virtualHosts domains (fun domains virtualHost =>
      virtualHostDomains <- FindVirtualHostDomainByVirtualHostId InTx (VirtualHost_Id virtualHost) ;;
      ret (domains ++ virtualHostDomains)%list)) w = (Ok l, w) /\
    forall d, d ∈ l <-> d ∈ acc \/ exists rc, rc ∈ rcs /\ exists vh, virtual_host_row db rc vh /\ host_row db vh d.
Proof.
  intros Hw. apply (fold_collect _ (fun rc d => exists vh, virtual_host_row db rc vh /\ host_row db vh d)). intros acc' rc.
  destruct (FindVirtualHosts_in_tx (RouteConfiguration_Id rc) w db Hw) as (vhs & Evh & _ & Hvh).
  unfold bind at 1. rewrite Evh. destruct (domains_of_hosts_in_tx vhs acc' w db Hw) as (l & El & Hl).
  exists l. split; [exact El|]. intros x. rewrite Hl. setoid_rewrite Hvh. done.
Qed.
Lemma virtual_host_domains_in_tx request w db : in_tx w db ->
  exists l, virtual_host_domains InTx request w = (Ok l, w) /\
    forall host, host ∈ (VirtualHostDomain_Domain <$> l) <->
      exists ng, ng ∈ Req_NodeGroups request /\ handled db (NodeGroup_Name ng) host.
Proof.
  intros Hw.
  assert (exists l, virtual_host_domains InTx request w = (Ok l, w) /\
    forall d, d ∈ l <-> d ∈ [] \/ exists ng, ng ∈ Req_NodeGroups request /\
      exists rc, config_row db ng rc /\ exists vh, virtual_host_row db rc vh /\ host_row db vh d) as (l & El & Hl).
  { apply (fold_collect _ (fun ng d => exists rc, config_row db ng rc /\ exists vh, virtual_host_row db rc vh /\ host_row db vh d)).
    intros acc ng. destruct (FindRouteConfigs_in_tx (NodeGroup_Name ng) w db Hw) as (rcs & Erc & Hrc).
    unfold bind at 1. rewrite Erc. destruct (domains_of_configs_in_tx rcs acc w db Hw) as (l & El & Hl).
    exists l. split; [exact El|]. intros x. rewrite Hl. setoid_rewrite Hrc. done. }
  exists l. split; [done|]. intros host. rewrite list_elem_of_fmap. setoid_rewrite Hl. unfold handled. split.
  - intros (d & -> & [Hd|(ng & Hng & rc & (Hrc & Hn & Hne) & vh & (Hvh & Hid) & Hd & Hvid)]); [by apply elem_of_nil in Hd|].
    exists ng. split; [done|]. by exists (id_key RouteConfigurationTable rc), rc, (id_key VirtualHostTable vh), vh,
      (id_key VirtualHostDomainTable d), d.
  - intros (ng & Hng & kc & rc & kv & vh & kd & d & Hrc & Hn & Hne & Hvh & Hid & Hd & Hvid & Hh).
    exists d. split; [done|]. right. exists ng. split; [done|]. exists rc.
    split; [split_and!; [by eapply (row_key RouteConfigurationTable)|done..]|]. exists vh.
    split; split; [by eapply (row_key VirtualHostTable)|done|by eapply (row_key VirtualHostDomainTable)|done].
Qed.

Lemma find_loop_spec endpoints domains w db : in_tx w db ->
  exists r w', find_loop endpoints domains w = (Ok r, w') /\ in_tx w' db /\
    match r with
    | Some e => e ∈ endpoints /\ e ∈ domains
    | None => forall e, e ∈ endpoints -> e ∉ domains
    end.
Proof.
  intros Hw. unfold find_loop, range, tick, bind, ret. eexists _, _. split; [reflexivity|]. split; [by apply in_tx_tick|].
  destruct (List.find _ _) as [e|] eqn:Ef.
  - apply find_some in Ef as [Hin Hd%bool_decide_eq_true]. split; [|done].
    apply list_elem_of_In in Hin. rewrite map_order_perm in Hin. by apply elem_of_elements.
  - intros e He Hd. pose proof (find_none _ _ Ef e) as Hn. apply bool_decide_eq_false in Hn; [done|].
    apply list_elem_of_In. rewrite map_order_perm. by apply elem_of_elements.
Qed.

(** A request passes the check for loops exactly when no endpoint of its
    clusters is a host that a virtual host of the request handles, or a stored
    virtual host of one of its gateways: then a request to the host would be
    routed to itself.  The check never fails and changes nothing. *)
Theorem validate_no_loop request w db :
  in_tx w db ->
  exists res w', validateWithDomainProducer (virtual_host_domains InTx request) request w = (Ok res, w') /\ in_tx w' db /\
    (res.1 = true <-> forall e, e ∈ request_endpoints request ->
       e ∉ request_domains request /\ forall ng, ng ∈ Req_NodeGroups request -> ~ handled db (NodeGroup_Name ng) e).
Proof.
  intros Hw. unfold validateWithDomainProducer.
  destruct (find_loop_spec (request_endpoints request) (request_domains request) w db Hw) as (r & w1 & E1 & Hw1 & Hr).
  unfold bind at 1. rewrite E1. destruct r as [e|].
  { eexists _, _. split_and!; [reflexivity|done|]. simpl. split; [done|]. intros Hn. destruct Hr as [He Hd]. by destruct (Hn e He). }
  destruct (virtual_host_domains_in_tx request w1 db Hw1) as (l & El & Hl). unfold bind at 1. rewrite El.
  destruct (find_loop_spec (request_endpoints request) (list_to_set (VirtualHostDomain_Domain <$> l) ∪ request_domains request) w1 db Hw1)
    as (r2 & w2 & E2 & Hw2 & Hr2).
  unfold bind at 1. rewrite E2. destruct r2 as [e|]; (eexists _, _; split_and!; [reflexivity|done|]); simpl.
  - split; [done|]. intros Hn. destruct Hr2 as [He Hd]. destruct (Hn e He) as [Hd1 Hd2]. exfalso.
    apply elem_of_union in Hd as [Hd%elem_of_list_to_set|?]; [|done]. apply Hl in Hd as (ng & Hng & Hh). by eapply Hd2.
  - split; [|done]. intros _ e He. split; [by apply Hr|]. intros ng Hng Hh. apply (Hr2 e He).
    apply elem_of_union. left. apply elem_of_list_to_set, Hl. by exists ng.
Qed.

(** * Gateways that restrict their virtual hosts *)

(** What a declared gateway does not allow. *)
Definition conflicts (declaration : NodeGroup) (clusters : list Cluster) (vh : VirtualHost) : Prop :=
  NodeGroup_ForbidVirtualHosts declaration = true /\
    ((1 < length (VirtualHost_Domains vh))%nat \/ (length (VirtualHost_Domains vh) = 1)%nat /\ HasGenericDomain vh = false) \/
  NodeGroup_GatewayType declaration = Ingress /\
    exists route cluster endpoint, route ∈ VirtualHost_Routes vh /\ Route_DirectResponseCode route = 0%Z /\
      List.find (fun cluster => String.eqb (Cluster_Name cluster) (Route_ClusterName route)) clusters = Some cluster /\
      endpoint ∈ Cluster_Endpoints cluster /\ Endpoint_Address endpoint <> PublicGateway /\ Endpoint_Address endpoint <> PrivateGateway.

Lemma virtual_host_conflict_spec declaration name clusters vh :
  is_Some (virtual_host_conflict declaration name clusters vh) <-> conflicts declaration clusters vh.
Proof.
  unfold virtual_host_conflict, conflicts.
  destruct (NodeGroup_ForbidVirtualHosts declaration && _) eqn:Ef.
  - apply andb_prop in Ef as [Hf Hd]. split; [intros _|by eexists]. left. split; [done|].
    apply orb_prop in Hd as [Hd%Nat.ltb_lt|[Hd%Nat.eqb_eq Hg%negb_true_iff]%andb_prop]; auto.
  - assert (~ (NodeGroup_ForbidVirtualHosts declaration = true /\
      ((1 < length (VirtualHost_Domains vh))%nat \/ (length (VirtualHost_Domains vh) = 1)%nat /\ HasGenericDomain vh = false))) as Hn.
    { intros [Hf Hd]. rewrite Hf in Ef. simpl in Ef. apply orb_false_elim in Ef as [E1%Nat.ltb_ge E2].
      destruct Hd as [?|[Hl Hg]]; [lia|]. by rewrite Hl, Hg in E2. }
    destruct (String.eqb_spec (NodeGroup_GatewayType declaration) Ingress) as [Hi|Hi]; simpl.
    2:{ split; [by intros [? ?]|intros [?|[? _]]; done]. }
    destruct (existsb _ _) eqn:Ex.
    + split; [intros _|by eexists]. right. split; [done|]. apply existsb_exists in Ex as (route & Hr & Hx).
      apply andb_prop in Hx as [Hc%Z.eqb_eq Hx]. destruct (List.find _ _) as [cluster|] eqn:Efd; [|done].
      apply existsb_exists in Hx as (endpoint & He & Ha). apply andb_prop in Ha as [Ha1 Ha2].
      apply negb_true_iff, String.eqb_neq in Ha1, Ha2. exists route, cluster, endpoint.
      split_and!; [by apply list_elem_of_In|done..|by apply list_elem_of_In|done|done].
    + split; [by intros [? ?]|]. intros [?|[_ (route & cluster & endpoint & Hr & Hc & Hf & He & Ha1 & Ha2)]]; [done|].
      exfalso. apply not_true_iff_false in Ex. apply Ex. apply existsb_exists. exists route.
      split; [by apply list_elem_of_In|]. rewrite Hc, Hf. simpl. apply existsb_exists. exists endpoint.
      split; [by apply list_elem_of_In|]. apply String.eqb_neq in Ha1 as ->. by apply String.eqb_neq in Ha2 as ->.
Qed.

(** For a request for one gateway, as every request processor makes it, the
    validation rejects exactly the requests with a virtual host that the stored
    declaration of the gateway does not allow: other than one generic domain
    where it forbids virtual hosts, or, for an ingress gateway, a route to
    something else than the public or private gateway.  A gateway without a
    declaration allows everything. *)
Theorem ValidateGatewayDeclarationConflicts_spec request ng w db :
  in_tx w db -> Req_NodeGroups request = [ng] ->
  exists res, ValidateGatewayDeclarationConflicts InTx request w = (Ok res, w) /\
    (res.1 = false <-> exists declaration : NodeGroup, rows db NodeGroupTable !! [VStr (NodeGroup_Name ng)] = Some declaration /\
       exists vh, vh ∈ request_virtual_hosts request /\ conflicts declaration (Req_Clusters request) vh).
Proof.
  intros Hw Hng. unfold ValidateGatewayDeclarationConflicts. rewrite Hng. simpl. unfold FindNodeGroupByName.
  unfold bind at 1. rewrite (FindById_in_tx NodeGroupTable [VStr (NodeGroup_Name ng)] w db Hw) by done.
  destruct (rows db NodeGroupTable !! _) as [declaration|] eqn:Er.
  2:{ eexists. split; [reflexivity|]. split; [done|]. intros (d & Hd & _). pose proof (eq_trans (eq_sym Er) Hd). done. }
  destruct (negb _ && negb _) eqn:Eopen.
  { eexists. split; [reflexivity|]. split; [done|]. intros (d & Hsd & vh & _ & Hc). exfalso.
    pose proof (Some_functional _ _ _ Er Hsd) as <-. apply andb_prop in Eopen as [Ho1%negb_true_iff Ho2%negb_true_iff%String.eqb_neq].
    destruct Hc as [[Hf _]|[Hi _]]; [congruence|done]. }
  destruct (list_find _ _) as [[i o]|] eqn:Ef.
  - apply list_find_Some in Ef as (Hl & [msg ->] & _). eexists. split; [reflexivity|]. split; [intros _|done].
    exists declaration. split; [done|]. apply list_lookup_fmap_Some in Hl as (vh & Hvh & Hl). exists vh.
    split; [by eapply list_elem_of_lookup_2|]. eapply virtual_host_conflict_spec. by rewrite <- Hvh.
  - eexists. split; [reflexivity|]. split; [done|]. intros (d & Hsd & vh & Hvh & Hc). exfalso. pose proof (Some_functional _ _ _ Er Hsd) as <-.
    apply list_find_None in Ef. rewrite Forall_forall in Ef.
    eapply (Ef (virtual_host_conflict declaration (NodeGroup_Name ng) (Req_Clusters request) vh)).
    + by apply list_elem_of_fmap_2.
    + by apply virtual_host_conflict_spec.
Qed.

(** With several gateways, one that is not declared, or that restricts
    nothing, hides the conflicts of those after it. *)
Theorem undeclared_gateway_hides_conflicts request ng rest w db :
  in_tx w db -> Req_NodeGroups request = ng :: rest -> rows db NodeGroupTable !! [VStr (NodeGroup_Name ng)] = None ->
  ValidateGatewayDeclarationConflicts InTx request w = (Ok (true, ""), w).
Proof.
  intros Hw Hng Hr. unfold ValidateGatewayDeclarationConflicts. rewrite Hng. simpl. unfold FindNodeGroupByName, bind.
  rewrite (FindById_in_tx NodeGroupTable [VStr (NodeGroup_Name ng)] w db Hw) by done. by rewrite Hr.
Qed.

(** * Deleting routes *)

Definition route_uuid_key (r : Route) : string := strings_ToLower (Route_Uuid r).

Lemma stored_uuid (r : Route) k db : rows db RouteTable !! k = Some r -> is_uuid (Route_Uuid r) = true.
Proof.
  intros Hr. destruct (is_uuid (Route_Uuid r)) eqn:Hu; [done|]. exfalso.
  apply (row_indexed RouteTable r _ db "uuid" _ Hr eq_refl eq_refl). etransitivity; [apply route_uuid|]. by rewrite Hu.
Qed.

Lemma foldr_delete_lookup {K V} `{Countable K} (l : list K) (m : gmap K V) k x :
  foldr delete m l !! k = Some x <-> m !! k = Some x /\ k ∉ l.
Proof.
  induction l as [|a l IH]; simpl; [split; [intros; split; [done|apply not_elem_of_nil]|by intros []]|].
  rewrite lookup_delete_Some, IH, not_elem_of_cons. naive_solver.
Qed.

(** Exactly the rows with the uuid are deleted. *)
Lemma DeleteRouteByUUID_rows uuid w w' db :
  in_tx w db -> is_uuid uuid = true -> exact db RouteTable "uuid" [VStr (strings_ToLower uuid)] ->
  DeleteRouteByUUID InTx uuid w = (Ok tt, w') ->
  exists db', in_tx w' db' /\ forall k (r : Route), rows db' RouteTable !! k = Some r <->
    rows db RouteTable !! k = Some r /\ route_uuid_key r <> strings_ToLower uuid.
Proof.
  intros Hw Hu Hx (n & w1 & E1 & [_ ->]%ret_Ok)%bind_Ok.
  unfold DeleteAll in E1. rewrite (in_ctx_InTx _ _ _ _ Hw) in E1.
  assert (schema RouteTable !! "uuid" = Some (mkIndexSchema "uuid" true false (UUIDFieldIndex "Uuid"))) as Hi by reflexivity.
  assert (valid_query RouteTable "uuid" [VStr uuid] = true) as Hv by (unfold valid_query; rewrite Hi; simpl; by rewrite Hu).
  assert (query_key RouteTable "uuid" [VStr uuid] = [VStr (strings_ToLower uuid)]) as Hk by (unfold query_key; by rewrite Hi).
  assert (forall (r : Route) k, rows db RouteTable !! k = Some r ->
    query_match RouteTable "uuid" [VStr uuid] r = true <-> route_uuid_key r = strings_ToLower uuid) as Hm.
  { intros r k Hr. unfold query_match. rewrite bool_decide_eq_true, Hk, (route_uuid r), (stored_uuid r k db Hr).
    unfold route_uuid_key. split; [by intros [= ->]|by intros ->]. }
  destruct (get_spec RouteTable "uuid" [VStr uuid] db Hv) as (l & Hl & _ & Hs & Hc).
  destruct (delete_all_spec RouteTable "uuid" [VStr uuid] l db Hv Hl) as (db' & E' & Hr' & _).
  rewrite E' in E1. injection E1 as _ <-. exists db'. split; [done|]. intros k r. rewrite Hr'.
  change (foldr (fun x m => delete (id_key RouteTable x) m) (rows db RouteTable) l !! k = Some r <-> rows db RouteTable !! k = Some r /\ route_uuid_key r <> strings_ToLower uuid).
  rewrite <- (foldr_fmap delete (rows db RouteTable) l (id_key RouteTable)), foldr_delete_lookup.
  split; intros [Hr Hn]; (split; [done|]).
  - intros He. apply Hn. destruct (rows_wf db RouteTable _ _ Hr) as [<- _]. apply list_elem_of_fmap_2.
    apply Hc; [right; by rewrite Hk|by eapply (row_key RouteTable)|]. by eapply Hm.
  - intros (x & -> & Hin)%list_elem_of_fmap. apply Hs in Hin as [Hx1 Hx2].
    pose proof (Some_functional _ _ _ Hx1 Hr) as ->. apply Hn. by eapply Hm.
Qed.

(** What belongs to the route goes first, without touching the routes. *)
Definition not_routes (t : table) : bool := negb (bool_decide (t = RouteTable)).
Lemma deleteRouteByUUIDInternal_rows (r : Route) w w' db :
  in_tx w db -> is_uuid (Route_Uuid r) = true -> uuids_exact db ->
  deleteRouteByUUIDInternal InTx r w = (Ok tt, w') ->
  exists db', in_tx w' db' /\ shrinks db db' /\ forall k (x : Route), rows db' RouteTable !! k = Some x <->
    rows db RouteTable !! k = Some x /\ route_uuid_key x <> route_uuid_key r.
Proof.
  intros Hw Hu Hx Hrun.
  destruct (frame_in_tx shrinks _ _ _ _ _ (shrinks_deleteRouteByUUIDInternal InTx r) Hrun Hw) as (db' & Hw' & Hs).
  exists db'. split_and!; [done..|].
  unfold deleteRouteByUUIDInternal in Hrun.
  apply bind_Ok in Hrun as (? & w1 & E1 & Hrun). apply bind_Ok in Hrun as (? & w2 & E2 & Hrun).
  apply bind_Ok in Hrun as (? & w3 & E3 & Hrun). apply bind_Ok in Hrun as (? & w4 & E4 & Hrun).
  apply (frame_in_tx (same_except not_routes)) with (db := db) in E1 as (db1 & Hw1 & S1); [|solve_frame|done].
  apply (frame_in_tx (same_except not_routes)) with (db := db1) in E2 as (db2 & Hw2 & S2); [|solve_frame|done].
  apply (frame_in_tx (same_except not_routes)) with (db := db2) in E3 as (db3 & Hw3 & S3); [|solve_frame|done].
  apply (frame_in_tx (same_except not_routes)) with (db := db3) in E4 as (db4 & Hw4 & S4); [|solve_frame|done].
  assert (same_except not_routes db db4) as S by (transitivity db1; [done|]; transitivity db2; [done|]; by transitivity db3).
  destruct (S RouteTable eq_refl) as [Hrows Hex].
  destruct (DeleteRouteByUUID_rows (Route_Uuid r) w4 w' db4) as (db5 & Hw5 & Hr5); [done|done|by apply Hex|done|].
  unfold in_tx in *. rewrite Hw' in Hw5. injection Hw5 as <-. intros k y. by rewrite Hr5, Hrows.
Qed.

Lemma DeleteRoutesByUUID_rows ds w w' db :
  in_tx w db -> uuids_exact db -> (forall r, r ∈ ds -> is_uuid (Route_Uuid r) = true) ->
  DeleteRoutesByUUID InTx ds w = (Ok tt, w') ->
  exists db', in_tx w' db' /\ shrinks db db' /\ forall k (x : Route), rows db' RouteTable !! k = Some x <->
    rows db RouteTable !! k = Some x /\ forall r, r ∈ ds -> route_uuid_key x <> route_uuid_key r.
Proof.
  unfold DeleteRoutesByUUID. revert w db. induction ds as [|r ds IH]; intros w db Hw Hx Hu; simpl.
  - intros [_ ->]%ret_Ok. exists db. split_and!; [done|reflexivity|]. intros k x. split; [|by intros []].
    intros Hk. split; [done|]. by intros ? ?%elem_of_nil.
  - intros ([] & w1 & E1 & E2)%bind_Ok.
    destruct (deleteRouteByUUIDInternal_rows r w w1 db Hw) as (db1 & Hw1 & S1 & R1); [apply Hu; left|done|done|].
    destruct (IH w1 db1 Hw1) as (db2 & Hw2 & S2 & R2); [intros k; by apply S1|intros; apply Hu; by right|done|].
    exists db2. split_and!; [done|by transitivity db1|]. intros k x. rewrite R2, R1. setoid_rewrite elem_of_cons. naive_solver.
Qed.

Lemma map_each_found {A B} (f : A -> prog World B) (Q : A -> B -> Prop) w l :
  (forall a, exists b, f a w = (Ok b, w) /\ Q a b) -> exists bs, map_each l f w = (Ok bs, w) /\ Forall2 Q l bs.
Proof.
  intros Hf. induction l as [|a l (bs & Eb & Hb)]; simpl; [by exists []|].
  destruct (Hf a) as (b & Ea & Ha). exists (b :: bs). unfold bind, ret in *. rewrite Ea, Eb. split; [done|by constructor].
Qed.

(** A stored header matcher of a route on its namespace. *)
Definition namespace_matcher (db : Db) (r : Route) (m : HeaderMatcher) : Prop :=
  (exists k, rows db HeaderMatcherTable !! k = Some m) /\ HeaderMatcher_RouteId m = Route_Id r /\ HeaderMatcher_Name m = "namespace".
(** The path of a request denotes the route. *)
Definition denotes (path : string) (r : Route) : Prop :=
  if nonempty (Route_Prefix r) then Route_Prefix r = RouteFromPrefix (NewRouteFromAddress path)
  else Route_Regexp r = RouteFromRegex (NewRouteFromAddress path).
(** The routes a deletion asks for. *)
Definition selected (db : Db) (vHostId : Z) (ns version : string) (paths : list string) (r : Route) : Prop :=
  Route_VirtualHostId r = vHostId /\ Route_DeploymentVersion r = version /\
  (paths = [] \/ exists path, path ∈ paths /\ denotes path r) /\
  (if nonempty ns && negb (IsCurrentNamespace (mkNamespace ns))
   then exists m, namespace_matcher db r m /\ HeaderMatcher_ExactMatch m = ns
   else ~ exists m, namespace_matcher db r m).

Lemma match_existsb {A} (f : A -> bool) (l : list A) : l <> [] -> match l with [] => true | _ => existsb f l end = existsb f l.
Proof. by destruct l. Qed.
Lemma Forall2_elem_r {A B} (Q : A -> B -> Prop) l l' b : Forall2 Q l l' -> b ∈ l' -> exists a, a ∈ l /\ Q a b.
Proof.
  intros HQ. induction HQ as [|a b' l l' Hab _ IH]; [by intros ?%elem_of_nil|].
  intros [->|Hb]%elem_of_cons; [exists a; split; [left|done]|]. destruct (IH Hb) as (a' & ? & ?). exists a'. split; [by right|done].
Qed.
Lemma Forall2_elem_l {A B} (Q : A -> B -> Prop) l l' a : Forall2 Q l l' -> a ∈ l -> exists b, b ∈ l' /\ Q a b.
Proof.
  intros HQ. induction HQ as [|a' b l l' Hab _ IH]; [by intros ?%elem_of_nil|].
  intros [->|Ha]%elem_of_cons; [exists b; split; [left|done]|]. destruct (IH Ha) as (b' & ? & ?). exists b'. split; [by right|done].
Qed.

Section condition.
Variables (db : Db) (r : Route) (ms : list HeaderMatcher).
Hypothesis Hms : forall m : HeaderMatcher,
  m ∈ ms <-> rows db HeaderMatcherTable !! id_key HeaderMatcherTable m = Some m /\ HeaderMatcher_RouteId m = Route_Id r.
Notation loaded := (r <| Route_HeaderMatchers := ms |>).

Lemma loaded_namespace_matchers P :
  (exists m, m ∈ ms /\ HeaderMatcher_Name m = "namespace" /\ P m) <-> exists m, namespace_matcher db r m /\ P m.
Proof.
  unfold namespace_matcher. split; intros (m & Hm).
  - destruct Hm as ([Hrow Hid]%Hms & Hn & HP). exists m. split; [|done]. split_and!; [by eexists|done..].
  - destruct Hm as (((k & Hrow) & Hid & Hn) & HP). exists m. split; [|done]. apply Hms. split; [by eapply (row_key HeaderMatcherTable)|done].
Qed.
Lemma path_condition paths :
  match NewRouteFromAddress <$> paths with
  | [] => true
  | _ => existsb (fun routeFrom => if nonempty (Route_Prefix loaded)
           then String.eqb (Route_Prefix loaded) (RouteFromPrefix routeFrom)
           else String.eqb (Route_Regexp loaded) (RouteFromRegex routeFrom)) (NewRouteFromAddress <$> paths)
  end = true <-> paths = [] \/ exists path, path ∈ paths /\ denotes path r.
Proof using Type.
  destruct paths as [|p paths]; [split; [by left|done]|].
  change (NewRouteFromAddress <$> p :: paths) with (map NewRouteFromAddress (p :: paths)).
  rewrite match_existsb, existsb_exists by done. unfold denotes. simpl Route_Prefix. simpl Route_Regexp. split.
  - intros (x & (q & <- & Hq)%in_map_iff & Hx). right. exists q. split; [by apply list_elem_of_In|].
    destruct (nonempty _); by apply String.eqb_eq.
  - intros [?|(q & Hq & Hx)]; [done|]. exists (NewRouteFromAddress q). split; [by apply in_map, list_elem_of_In|].
    destruct (nonempty _); by apply String.eqb_eq.
Qed.
Lemma namespace_condition ns :
  (if nonempty ns && negb (IsCurrentNamespace (mkNamespace ns))
   then IsRouteBelongsToNamespace loaded (mkNamespace ns) else IsDefaultNamespaceRoute loaded) = true <->
  (if nonempty ns && negb (IsCurrentNamespace (mkNamespace ns))
   then exists m, namespace_matcher db r m /\ HeaderMatcher_ExactMatch m = ns
   else ~ exists m, namespace_matcher db r m).
Proof.
  destruct (_ && _).
  - rewrite <- loaded_namespace_matchers. unfold IsRouteBelongsToNamespace. rewrite existsb_exists. simpl.
    setoid_rewrite list_elem_of_In. setoid_rewrite andb_true_iff. by setoid_rewrite String.eqb_eq.
  - unfold IsDefaultNamespaceRoute. rewrite negb_true_iff, <- not_true_iff_false, existsb_exists. simpl.
    assert ((exists m, namespace_matcher db r m) <-> exists m, namespace_matcher db r m /\ True) as -> by naive_solver.
    rewrite <- loaded_namespace_matchers. setoid_rewrite list_elem_of_In. setoid_rewrite String.eqb_eq. naive_solver.
Qed.
Lemma delete_condition_spec vHostId ns version paths :
  Route_VirtualHostId r = vHostId ->
  delete_condition version ns (NewRouteFromAddress <$> paths) loaded = true <-> selected db vHostId ns version paths r.
Proof.
  intros Hv. unfold delete_condition, selected. rewrite !andb_true_iff, String.eqb_eq, path_condition.
  cbv zeta. rewrite namespace_condition. tauto.
Qed.
End condition.

(** The uuids of the stored routes, listed. *)
Lemma uuids_distinct_listed w db :
  in_tx w db ->
  match (FindAllRoutes InTx w).1 with Ok l => bool_decide (NoDup (route_uuid_key <$> l)) | _ => false end = true ->
  forall k k' (r r' : Route), rows db RouteTable !! k = Some r -> rows db RouteTable !! k' = Some r' ->
    route_uuid_key r = route_uuid_key r' -> r = r'.
Proof.
  intros Hw. destruct (FindAll_in_tx RouteTable w db Hw) as (l & El & _ & Hl). unfold FindAllRoutes. rewrite El. simpl.
  intros Hn%bool_decide_eq_true k k' r r' Hr Hr' He. apply (row_key RouteTable), Hl, list_elem_of_lookup in Hr as [i Hi].
  apply (row_key RouteTable), Hl, list_elem_of_lookup in Hr' as [j Hj].
  assert (i = j) as ->.
  { apply (NoDup_lookup _ _ _ (route_uuid_key r) Hn); apply list_lookup_fmap_Some; [by exists r|by exists r']. }
  rewrite Hi in Hj. by injection Hj.
Qed.

(** Deleting the routes of a virtual host by paths, namespace and version
    deletes exactly the routes asked for: of that version, with the prefix or
    regular expression one of the paths stands for (any, if no path is given),
    and with a header matcher for the namespace, or with none for the current
    one; every other route stays as it is.  What it answers with are the deleted
    routes.  It assumes that the routes differ in their uuids. *)
Theorem DeleteRoutesByRawPrefixNamespaceVersion_spec vHostId ns version paths w ds w' db :
  in_tx w db -> uuids_exact db ->
  (forall k k' (r r' : Route), rows db RouteTable !! k = Some r -> rows db RouteTable !! k' = Some r' ->
     route_uuid_key r = route_uuid_key r' -> r = r') ->
  version <> "" ->
  DeleteRoutesByRawPrefixNamespaceVersion InTx vHostId ns version paths w = (Ok ds, w') ->
  exists db', in_tx w' db' /\
    (forall k (r : Route), rows db' RouteTable !! k = Some r <->
       rows db RouteTable !! k = Some r /\ ~ selected db vHostId ns version paths r) /\
    (forall id, id ∈ (Route_Id <$> ds) <->
       exists k (r : Route), rows db RouteTable !! k = Some r /\ selected db vHostId ns version paths r /\ Route_Id r = id).
Proof.
  intros Hw Hx Hd Hv Hrun. unfold DeleteRoutesByRawPrefixNamespaceVersion in Hrun.
  apply String.eqb_neq in Hv. rewrite Hv in Hrun. apply bind_Ok in Hrun as (v & w0 & [-> ->]%ret_Ok & Hrun).
  unfold DeleteRoutesByCondition in Hrun. destruct (FindRoutes_in_tx vHostId w db Hw) as (l & El & _ & Hl).
  unfold bind at 1 in Hrun. rewrite El in Hrun.
  destruct (map_each_found (fun route : Route => routeMatchers <- FindHeaderMatcherByRouteId InTx (Route_Id route) ;;
      ret (route <| Route_HeaderMatchers := routeMatchers |>))
    (fun r r' => exists ms, r' = r <| Route_HeaderMatchers := ms |> /\ forall m : HeaderMatcher, m ∈ ms <->
      rows db HeaderMatcherTable !! id_key HeaderMatcherTable m = Some m /\ HeaderMatcher_RouteId m = Route_Id r) w l) as (l' & El' & Hl').
  { intros r. destruct (FindMatchers_in_tx (Route_Id r) w db Hw) as (ms & Em & _ & Hms). unfold bind. rewrite Em.
    eexists. split; [reflexivity|]. by exists ms. }
  unfold bind at 1 in Hrun. rewrite El' in Hrun. cbv zeta in Hrun.
  apply bind_Ok in Hrun as ([] & w1 & E1 & [-> ->]%ret_Ok).
  assert (forall r' : Route, r' ∈ List.filter (delete_condition version ns (NewRouteFromAddress <$> paths)) l' ->
    exists r ms, r' = r <| Route_HeaderMatchers := ms |> /\ rows db RouteTable !! id_key RouteTable r = Some r /\
      selected db vHostId ns version paths r) as Hsel.
  { intros r' [Hin Hc]%list_elem_of_In%filter_In. apply list_elem_of_In in Hin.
    destruct (Forall2_elem_r _ _ _ _ Hl' Hin) as (r & Hr & ms & -> & Hms). apply Hl in Hr as [Hr Hvr].
    exists r, ms. split_and!; [done..|]. by apply (delete_condition_spec db r ms Hms vHostId ns version paths). }
  assert (forall k (r : Route), rows db RouteTable !! k = Some r -> selected db vHostId ns version paths r ->
    exists r', r' ∈ List.filter (delete_condition version ns (NewRouteFromAddress <$> paths)) l' /\
      route_uuid_key r' = route_uuid_key r /\ Route_Id r' = Route_Id r) as Hall.
  { intros k r Hr Hs. assert (r ∈ l) as Hin by (apply Hl; split; [by eapply (row_key RouteTable)|apply Hs]).
    destruct (Forall2_elem_l _ _ _ _ Hl' Hin) as (r' & Hr' & ms & -> & Hms).
    exists (r <| Route_HeaderMatchers := ms |>). split; [|done]. apply list_elem_of_In, filter_In. split; [by apply list_elem_of_In|].
    apply (delete_condition_spec db r ms Hms vHostId ns version paths); [apply Hs|done]. }
  set (ds := List.filter _ l') in *.
  destruct (DeleteRoutesByUUID_rows ds w w1 db Hw Hx) as (db' & Hw' & _ & Hrows); [|done|].
  { intros r' (r & ms & -> & Hr & _)%Hsel. by apply (stored_uuid r _ _ Hr). }
  exists db'. split_and!; [done| |].
  - intros k x. rewrite Hrows. split; intros [Hk Hn]; (split; [done|]).
    + intros Hs. destruct (Hall k x Hk Hs) as (r' & Hr' & He & _). by apply (Hn r').
    + intros r' (r & ms & -> & Hr & Hs)%Hsel He. apply Hn. by rewrite (Hd _ _ _ _ Hk Hr He).
  - intros id. rewrite list_elem_of_fmap. split.
    + intros (r' & -> & (r & ms & -> & Hr & Hs)%Hsel). by exists (id_key RouteTable r), r.
    + intros (k & r & Hr & Hs & <-). destruct (Hall k r Hr Hs) as (r' & Hr' & _ & He). by exists r'.
Qed.
End registration.

(** * Witnesses *)

Section witness.
Import RuntimeModel.
Local Existing Instance test_laws.
Local Existing Instance test_sha.
Local Existing Instance test_service.
Local Existing Instance test_runtime.
#[local] Instance test_tls : TlsMode := {| tls_preferred := false |}.

Definition orders_request : dto.RouteRegistrationRequest :=
  dto.mkRouteRegistrationRequest "orders"
    [dto.mkRouteItem "/api/v1/orders" "/orders" None []; dto.mkRouteItem "/api/v1/orders/{id}/items" "" None []]
    "http://orders-v1:8080" None "" "v1" false.
Definition no_request : ProcessedRequest := mkProcessedRequest [] [] [] ∅ [] ∅ [] ∅ ∅.
Definition processed (w : World) (gateway : string) (req : dto.RouteRegistrationRequest) : ProcessedRequest :=
  match (ProcessRequestV2 gateway [req] "v1" w).1 with Ok r => r | _ => no_request end.

(** An open transaction in which the request has been registered. *)
Definition registered_world : World :=
  (RegisterRoutes InTx (processed empty_tx_world "gw" orders_request) (ProcessRequestV2 "gw" [orders_request] "v1" empty_tx_world).2).2.
Definition tx_db (w : World) : Db := match w_tx w with Some (db, _) => db | None => w_db w end.

Definition writable (w : World) : bool := match w_tx w with Some (_, b) => b | None => false end.
Lemma writable_in_tx w : writable w = true -> in_tx w (tx_db w).
Proof. unfold in_tx, tx_db, writable. destruct (w_tx w) as [[db b]|]; [by intros ->|done]. Qed.
Lemma registered_tx : in_tx registered_world (tx_db registered_world).
Proof. apply writable_in_tx. vm_compute. reflexivity. Qed.
Example registered_routes :
  (match (FindAllRoutes InTx registered_world).1 with
   | Ok l => map (fun r => (Route_Prefix r, Route_PrefixRewrite r, Route_Regexp r, Route_RegexpRewrite r)) l
   | _ => []
   end)
  = [("", "", "/api/v1/orders/([^/]+)/items(/.*)?", "/api/v1/orders/\1/items\2"); ("/api/v1/orders", "/orders", "", "")].
Proof. vm_compute. reflexivity. Qed.

(** A second service behind the same gateway makes no loop. *)
Lemma validate_no_loop_witness :
  exists res w', validateWithDomainProducer (virtual_host_domains InTx (processed empty_tx_world "gw" orders_request))
    (processed empty_tx_world "gw" orders_request) registered_world = (Ok res, w') /\ in_tx w' (tx_db registered_world).
Proof.
  destruct (validate_no_loop (processed empty_tx_world "gw" orders_request) registered_world _ registered_tx)
    as (res & w' & Er & Hw' & _). exists res, w'. split; [exact Er|exact Hw'].
Defined.

Definition ingress : NodeGroup := (zero : NodeGroup) <| NodeGroup_Name := "ingress-gw" |> <| NodeGroup_GatewayType := Ingress |>.
Definition ingress_world : World := (SaveNodeGroup InTx ingress empty_tx_world).2.
(** An ingress gateway does not lead to the orders service. *)
Lemma ValidateGatewayDeclarationConflicts_spec_witness :
  exists res, ValidateGatewayDeclarationConflicts InTx (processed empty_tx_world "ingress-gw" orders_request) ingress_world
    = (Ok res, ingress_world) /\ res.1 = false.
Proof.
  destruct (ValidateGatewayDeclarationConflicts_spec (processed empty_tx_world "ingress-gw" orders_request)
    (CreateNodeGroup "ingress-gw") ingress_world (tx_db ingress_world)) as (res & Er & _);
    [apply writable_in_tx; vm_compute; reflexivity|vm_compute; reflexivity|].
  exists res. split; [exact Er|].
  apply (f_equal (fun p => match p.1 with Ok r => r.1 | _ => true end)) in Er. simpl in Er. rewrite <- Er. vm_compute. reflexivity.
Defined.
Lemma undeclared_gateway_hides_conflicts_witness :
  ValidateGatewayDeclarationConflicts InTx
    (mkProcessedRequest [CreateNodeGroup "gw"; CreateNodeGroup "ingress-gw"] [] (Req_Clusters (processed empty_tx_world "gw" orders_request)) ∅
       (Req_RouteConfigurations (processed empty_tx_world "gw" orders_request)) ∅ [] ∅ ∅) ingress_world = (Ok (true, ""), ingress_world).
Proof.
  eapply (undeclared_gateway_hides_conflicts _ (CreateNodeGroup "gw") [CreateNodeGroup "ingress-gw"] _ (tx_db ingress_world)).
  - apply writable_in_tx. vm_compute. reflexivity.
  - reflexivity.
  - vm_compute. reflexivity.
Defined.

Lemma DeleteRoutesByRawPrefixNamespaceVersion_spec_witness :
  exists ds w', DeleteRoutesByRawPrefixNamespaceVersion InTx 11 "" "v1" ["/api/v1/orders/"] registered_world = (Ok ds, w') /\
    map Route_Prefix ds = ["/api/v1/orders"] /\
    forall id, id ∈ (Route_Id <$> ds) <-> exists k (r : Route),
      rows (tx_db registered_world) RouteTable !! k = Some r /\
      selected (tx_db registered_world) 11 "" "v1" ["/api/v1/orders/"] r /\ Route_Id r = id.
Proof.
  destruct (DeleteRoutesByRawPrefixNamespaceVersion InTx 11 "" "v1" ["/api/v1/orders/"] registered_world) as [r w'] eqn:Er.
  assert (match r with Ok ds => bool_decide (map Route_Prefix ds = ["/api/v1/orders"]) | _ => false end = true) as Hr.
  { replace r with (DeleteRoutesByRawPrefixNamespaceVersion InTx 11 "" "v1" ["/api/v1/orders/"] registered_world).1 by (rewrite Er; exact eq_refl).
    vm_compute. reflexivity. }
  destruct r as [ds|err|]; [|discriminate..]. apply bool_decide_eq_true in Hr.
  destruct (DeleteRoutesByRawPrefixNamespaceVersion_spec 11 "" "v1" ["/api/v1/orders/"] registered_world ds w' (tx_db registered_world))
    as (db' & _ & _ & Hd).
  - exact registered_tx.
  - intros k. exact I.
  - apply (uuids_distinct_listed registered_world _ registered_tx). vm_compute. reflexivity.
  - discriminate.
  - exact Er.
  - exists ds, w'. split; [exact eq_refl|]. split; [exact Hr|exact Hd].
Defined.
End witness.
