(* ===== verification/Clustering.v ===== *)
(** Election of the master node: the election table and its SQL statements,
    the service over them, the life cycle of a node and the loops of its
    elector ([clustering]), and the cluster as a state machine.

    Bun decides which id a written row has: it is a parameter.  A statement
    fails when the list of faults of the database says so.  A transaction is
    one step of the cluster.  Times are in microseconds. *)
From S2P Require Import Prelude GoLib.
Open Scope string_scope.

Definition second : Z := 1000000.

Inductive Role := Initial | Slave | Master | Phantom.
#[export] Instance Role_eq_dec : EqDecision Role.
Proof. solve_decision. Defined.
Definition Role_String (r : Role) : string :=
  match r with Slave => "Slave" | Master => "Master" | Phantom => "Phantom" | Initial => "0" end.

Record NodeInfo := mkNodeInfo { IP : string; SWIMPort : Z; BusPort : Z; HttpPort : Z }.
#[export] Instance NodeInfo_eq_dec : EqDecision NodeInfo.
Proof. solve_decision. Defined.
#[export] Instance NodeInfo_zero : Zero NodeInfo := mkNodeInfo "" 0 0 0.

(** [net.JoinHostPort] *)
Definition makeAddress (addr : string) (port : Z) : string :=
  if strings_Contains addr ":" then "[" ++ addr ++ "]:" ++ strconv_Itoa port else addr ++ ":" ++ strconv_Itoa port.
Definition SWIMAddress (n : NodeInfo) : string := makeAddress (IP n) (SWIMPort n).
Definition BusAddress (n : NodeInfo) : string := makeAddress (IP n) (BusPort n).
Definition GetHttpAddress (n : NodeInfo) : string := makeAddress (IP n) (HttpPort n).

Record MasterMetadata := mkMasterMetadata {
  Id : Z;
  Name : string;
  NodeInfoOf : NodeInfo;
  SyncClock : Z;
  NamespaceOf : string
}.
#[export] Instance MasterMetadata_eta : Eta MasterMetadata := fun r =>
  mkMasterMetadata (Id r) (Name r) (NodeInfoOf r) (SyncClock r) (NamespaceOf r).
#[export] Instance MasterMetadata_eq_dec : EqDecision MasterMetadata.
Proof. solve_decision. Defined.
#[export] Instance MasterMetadata_zero : Zero MasterMetadata := mkMasterMetadata 0 "" zero 0 "".

Definition MasterMetadata_Equals (i record : option MasterMetadata) : bool :=
  match i, record with
  | Some i, Some record =>
      (Id i =? Id record)%Z && String.eqb (Name i) (Name record) && bool_decide (NodeInfoOf i = NodeInfoOf record)
  | _, _ => false
  end.
Definition EqualsByNameAndNodeInfo (i record : option MasterMetadata) : bool :=
  match i, record with
  | Some i, Some record => String.eqb (Name i) (Name record) && bool_decide (NodeInfoOf i = NodeInfoOf record)
  | _, _ => false
  end.

(** * The election table *)

Record ElectionDb := mkElectionDb {
  db_rows : list MasterMetadata;
  db_now : Z;
  db_faults : list (option error)
}.
#[export] Instance ElectionDb_eta : Eta ElectionDb := fun r => mkElectionDb (db_rows r) (db_now r) (db_faults r).

(** A call to the database that may fail. *)
Definition statement {A} (m : prog ElectionDb A) : prog ElectionDb A := fun w =>
  match db_faults w with
  | Some e :: faults => (Err e, w <| db_faults := faults |>)
  | None :: faults => m (w <| db_faults := faults |>)
  | [] => m w
  end.
Definition catch {W A} (m : prog W A) : prog W (result A) := fun w =>
  match m w with
  | (Panic p, w') => (Panic p, w')
  | (r, w') => (Ok r, w')
  end.

Section sql.
(** The id of an inserted row, from the rows of the table and the record; that
    of an updated row, from the row and the record. *)
Variable new_id : list MasterMetadata -> MasterMetadata -> Z.
Variable updated_id : MasterMetadata -> MasterMetadata -> Z.

Definition insert_row (record : MasterMetadata) (clock : Z) (w : ElectionDb) : ElectionDb :=
  w <| db_rows := (db_rows w ++ [record <| Id := new_id (db_rows w) record |> <| SyncClock := clock |>])%list |>.
Definition InsertRecordOutdated (record : MasterMetadata) : prog ElectionDb unit :=
  statement (fun w => (Ok tt, insert_row record (db_now w - 3600 * second) w)).
Definition InsertRecord (record : MasterMetadata) : prog ElectionDb unit :=
  statement (fun w => (Ok tt, insert_row record (db_now w + 60 * second) w)).
Definition DeleteAllRecords : prog ElectionDb Z :=
  statement (fun w => (Ok (Z.of_nat (length (db_rows w))), w <| db_rows := [] |>)).
Definition DeleteNotInternalRecords : prog ElectionDb Z :=
  statement (fun w =>
    let '(kept, deleted) := partition (fun r => String.eqb (Name r) "internal") (db_rows w) in
    (Ok (Z.of_nat (length deleted)), w <| db_rows := kept |>)).

(** The rows [UPDATE] selects, and what it makes of one. *)
Definition may_take (now : Z) (record row : MasterMetadata) : bool :=
  (SyncClock row <? now)%Z || negb (String.eqb (NamespaceOf row) (NamespaceOf record)).
Definition taken (now : Z) (record row : MasterMetadata) : MasterMetadata :=
  record <| Id := updated_id row record |> <| SyncClock := (now + 60 * second)%Z |>.
Definition UpdateMasterRecord (record : MasterMetadata) : prog ElectionDb Z :=
  statement (fun w =>
    (Ok (Z.of_nat (length (List.filter (may_take (db_now w) record) (db_rows w)))),
     w <| db_rows := map (fun row => if may_take (db_now w) record row then taken (db_now w) record row else row) (db_rows w) |>)).

(** [%.0f] of the seconds of a duration in nanoseconds. *)
Definition whole_seconds (d : Z) : Z :=
  let q := (d / 1000000000)%Z in let r := (2 * (d mod 1000000000))%Z in
  if (r <? 1000000000)%Z then q else if (1000000000 <? r)%Z then (q + 1)%Z else if Z.even q then q else (q + 1)%Z.
Definition ShiftSyncClock_sql (d : Z) : prog ElectionDb unit :=
  statement (fun w => (Ok tt, w <| db_rows := map (fun row => row <| SyncClock := (db_now w + whole_seconds d * second)%Z |>) (db_rows w) |>)).
Definition ResetSyncClock_sql (recordName : string) : prog ElectionDb unit :=
  statement (fun w => (Ok tt, w <| db_rows := map (fun row => if String.eqb (Name row) recordName then row <| SyncClock := db_now w |> else row)
                                                  (db_rows w) |>)).
(** [ORDER BY id ASC LIMIT 1] *)
Definition first_by_id (rows : list MasterMetadata) : option MasterMetadata :=
  foldr (fun r best => match best with
                       | Some b => if (Id r <=? Id b)%Z then Some r else Some b
                       | None => Some r
                       end) None rows.
Definition GetMaster_sql : prog ElectionDb MasterMetadata :=
  statement (fun w => match first_by_id (db_rows w) with
                      | Some r => (Ok r, w)
                      | None => (Err (ErrMsg "sql: no rows in result set"), w)
                      end).
Definition Count : prog ElectionDb Z := statement (fun w => (Ok (Z.of_nat (length (db_rows w))), w)).

(** The body assigns [A], a variable of its caller, before it returns its
    error: the variable keeps the value when the transaction is rolled back. *)
Definition WithTx {A} (captured : A) (f : prog ElectionDb (A * option error)) : prog ElectionDb (A * option error) := fun w =>
  match statement (ret tt) w with
  | (Ok _, w1) =>
      match statement (ret tt) w1 with
      | (Ok _, w2) =>
          match f w2 with
          | (Ok (a, Some e), w3) => (Ok (a, Some e), w3 <| db_rows := db_rows w |>)
          | (Ok (a, None), w3) =>
              match statement (ret tt) w3 with
              | (Ok _, w4) => (Ok (a, None), w4)
              | (Err e, w4) => (Ok (a, Some e), w4 <| db_rows := db_rows w |>)
              | (Panic p, w4) => (Panic p, w4)
              end
          | (Err e, w3) => (Err e, w3)
          | (Panic p, w3) => (Panic p, w3)
          end
      | (Err e, w2) => (Ok (captured, Some e), w2)
      | (Panic p, w2) => (Panic p, w2)
      end
  | (Err e, w1) => (Ok (captured, Some e), w1)
  | (Panic p, w1) => (Panic p, w1)
  end.

(** * The service over the table *)

Definition error_of {A} (r : result A) : option error := match r with Err e => Some e | _ => None end.
Definition as_error {A} (m : prog ElectionDb (A * option error)) : prog ElectionDb A :=
  r <- m ;; match r with (_, Some e) => fail e | (a, None) => ret a end.

Definition internal_record : MasterMetadata := mkMasterMetadata 0 "internal" (mkNodeInfo "0.0.0.0" 0 0 0) 0 "".
Definition tryAddInternalRecord : prog ElectionDb unit :=
  as_error (WithTx tt (
    count <- catch Count ;;
    let count := match count with Ok n => n | _ => 0%Z end in
    if (count =? 1)%Z then ret (tt, None)
    else
      deleted <- (if (1 <? count)%Z then r <- catch DeleteAllRecords ;; ret (error_of r) else ret None) ;;
      match deleted with
      | Some nerror => ret (tt, Some nerror)
      | None => r <- catch (InsertRecordOutdated internal_record) ;; ret (tt, error_of r)
      end)).
Definition CreateWithExistDb : prog ElectionDb unit :=
  statement (ret tt) ;;; statement (ret tt) ;;; tryAddInternalRecord.
Definition DeleteSeveralRecordsFromDb : prog ElectionDb unit :=
  as_error (WithTx tt (r <- catch DeleteNotInternalRecords ;; ret (tt, error_of r))) ;;;
  tryAddInternalRecord.

Definition updateAsMaster (electionRecord : MasterMetadata) : prog ElectionDb (bool * option error) :=
  r <- catch (UpdateMasterRecord electionRecord) ;;
  match r with
  | Ok rowsAffected =>
      if (rowsAffected =? 0)%Z then ret (false, None)
      else if (rowsAffected =? 1)%Z then ret (true, None)
      else ret (true, Some (ErrMsg "affected several rows"))
  | _ => ret (false, error_of r)
  end.
Definition restoreElectionTable (electionRecord : MasterMetadata) (erase : bool) : prog ElectionDb (bool * option error) :=
  deleted <- (if erase then r <- catch DeleteAllRecords ;; ret (error_of r) else ret None) ;;
  match deleted with
  | Some e => ret (false, Some e)
  | None =>
      r <- catch (InsertRecord electionRecord) ;;
      match error_of r with Some e => ret (false, Some e) | None => ret (true, None) end
  end.
Definition GetMaster : prog ElectionDb MasterMetadata :=
  as_error (WithTx zero (r <- catch GetMaster_sql ;; match r with Ok record => ret (record, None) | _ => ret (zero, error_of r) end)).

(** Whether the record was written, and the record with its id. *)
Definition TryWriteAsMaster (electionRecord : MasterMetadata) : prog ElectionDb (bool * MasterMetadata) :=
  r <- WithTx false (
    n <- catch Count ;;
    match n with
    | Ok totalRowsCount =>
        if (totalRowsCount =? 1)%Z then updateAsMaster electionRecord
        else restoreElectionTable electionRecord (negb (totalRowsCount =? 0)%Z)
    | _ => ret (false, error_of n)
    end) ;;
  let writtenAsMaster := r.1 in
  if writtenAsMaster then
    written <- catch GetMaster ;;
    match written with
    | Ok writtenMaster => ret (true, electionRecord <| Id := Id writtenMaster |>)
    | _ => panic "nil pointer dereference"
    end
  else ret (false, electionRecord).

Definition ShiftSyncClock (d : Z) : prog ElectionDb unit :=
  as_error (WithTx tt (r <- catch (ShiftSyncClock_sql d) ;; ret (tt, error_of r))).
Definition ResetSyncClock (master : string) : prog ElectionDb unit :=
  as_error (WithTx tt (r <- catch (ResetSyncClock_sql master) ;; ret (tt, error_of r))).

(** * The state of a node *)

Record NodeState := mkNodeState {
  role : Role;
  masterInfo : NodeInfo;
  masterReady : bool;
  masterHasLoadedData : bool
}.
#[export] Instance NodeState_eta : Eta NodeState := fun r =>
  mkNodeState (role r) (masterInfo r) (masterReady r) (masterHasLoadedData r).
Definition initial_node_state : NodeState := mkNodeState Initial zero false false.
Definition ChangeNodeState (record : NodeInfo) (state : Role) (s : NodeState) : NodeState :=
  s <| role := state |> <| masterInfo := record |> <| masterReady := false |>.
Definition SetMasterReady (s : NodeState) : NodeState := s <| masterReady := true |> <| masterHasLoadedData := true |>.
Definition IsSlave (s : NodeState) : bool := bool_decide (role s = Slave).
Definition IsMaster (s : NodeState) : bool := bool_decide (role s = Master).
Definition IsPhantom (s : NodeState) : bool := bool_decide (role s = Phantom).

Inductive fatalError :=
  | initMasterError (e : error)
  | initCallbacksError (e : error)
  | otherError (e : error).
Definition isInitMasterError (e : fatalError) : bool := match e with initMasterError _ => true | _ => false end.
Definition isInitError (e : fatalError) : bool := match e with otherError _ => false | _ => true end.
Definition hasInitMasterErrorInNodeInArray (errs : list fatalError) : bool := existsb isInitMasterError errs.
Definition hasInitErrorInNodeInArray (errs : list fatalError) : bool := existsb isInitError errs.
Definition AppendFatal (err : fatalError) (fatalErrors : list fatalError) : list fatalError :=
  if isInitMasterError err && hasInitMasterErrorInNodeInArray fatalErrors then fatalErrors else (fatalErrors ++ [err])%list.
Definition GetFatalErrorsExceptInitErrors (fatalErrors : list fatalError) : list fatalError :=
  List.filter (fun err => negb (isInitError err)) fatalErrors.
Definition NewInitMasterError (e : error) : fatalError := initMasterError (ErrWrap "can't initialize master" e).
Definition NewCallbacksError (e : error) : fatalError := initCallbacksError (ErrWrap "can't execute callback in node" e).

(** * The life cycle of a node

    [currentMaster] is a pointer: to the elector's own record, which
    [TryWriteAsMaster] changes later, or to a record that was read. *)

Inductive pointer := ToOwnRecord | ToRead (m : MasterMetadata).

Record Node := mkNode {
  thisNode : MasterMetadata;
  own_record : MasterMetadata;          (* [Elector.record] *)
  currentMaster : option pointer;
  state : NodeState;                    (* [CurrentNodeState] *)
  fatal : list fatalError               (* [fatalErrors] *)
}.
#[export] Instance Node_eta : Eta Node := fun r =>
  mkNode (thisNode r) (own_record r) (currentMaster r) (state r) (fatal r).

Definition NewNode (nodeName namespace : string) (nodeInfo : NodeInfo) : Node :=
  let thisNode := mkMasterMetadata 0 nodeName nodeInfo 0 namespace in
  mkNode thisNode thisNode (Some (ToRead zero)) initial_node_state [].
Definition deref (n : Node) (p : option pointer) : option MasterMetadata :=
  match p with
  | None => None
  | Some ToOwnRecord => Some (own_record n)
  | Some (ToRead m) => Some m
  end.
Definition HasInitErrorInNode (n : Node) : bool := hasInitErrorInNodeInArray (fatal n).

(** What the initializer of a master and the callbacks answer. *)
Record Environment := mkEnvironment {
  InitMaster : option error;
  callbacks : list (NodeInfo -> Role -> option error)
}.
Inductive call := CalledInitMaster | CalledBack (callback : nat) (nodeInfo : NodeInfo) (role : Role).

Fixpoint run_callbacks (k : nat) (l : list (NodeInfo -> Role -> option error)) (nodeInfo : NodeInfo) (role : Role) :
    option error * list call :=
  match l with
  | [] => (None, [])
  | callback :: l' =>
      match callback nodeInfo role with
      | Some e => (Some e, [CalledBack k nodeInfo role])
      | None => let '(r, calls) := run_callbacks (S k) l' nodeInfo role in (r, CalledBack k nodeInfo role :: calls)
      end
  end.

Definition handleNodeRoleChange (env : Environment) (record : option MasterMetadata) (newRole : Role) (n : Node) : Node * list call :=
  let nodeInfo := match record with Some r => NodeInfoOf r | None => zero end in
  let n := n <| state := ChangeNodeState nodeInfo newRole (state n) |> in
  match (if bool_decide (newRole = Master) then InitMaster env else None) with
  | Some e => (n <| fatal := AppendFatal (NewInitMasterError e) (fatal n) |>, [CalledInitMaster])
  | None =>
      let '(err, calls) := run_callbacks O (callbacks env) nodeInfo newRole in
      let calls := if bool_decide (newRole = Master) then CalledInitMaster :: calls else calls in
      match err with
      | Some e => (n <| fatal := AppendFatal (NewCallbacksError e) (fatal n) |>, calls)
      | None =>
          let n := n <| fatal := [] |> in
          ((if bool_decide (newRole = Master) then n <| state := SetMasterReady (state n) |> else n), calls)
      end
  end.

Definition defineNodeRole (env : Environment) (newMaster : option pointer) (n : Node) : Node * list call :=
  let record := deref n newMaster in
  match record with
  | None =>
      if IsPhantom (state n) then (n, [])
      else let '(n, calls) := handleNodeRoleChange env record Phantom n in (n <| currentMaster := newMaster |>, calls)
  | Some _ =>
      let '(n, calls) :=
        if negb (MasterMetadata_Equals (deref n (currentMaster n)) record)
        then handleNodeRoleChange env record (if EqualsByNameAndNodeInfo (Some (thisNode n)) record then Master else Slave) n
        else if HasInitErrorInNode n then handleNodeRoleChange env record (role (state n)) n
        else (n, []) in
      (n <| currentMaster := newMaster |>, calls)
  end.

(** * The loops of the elector *)

Inductive phase :=
  | Electing        (* at the head of [startElectionLoop] *)
  | Waiting         (* at [<-e.ticker] *)
  | Prolonging.     (* in [startMasterProlongation] *)
#[export] Instance phase_eq_dec : EqDecision phase.
Proof. solve_decision. Defined.

(** One pass of [startElectionLoop], up to where it waits. *)
Definition election_round (env : Environment) (n : Node) : prog ElectionDb (phase * Node) :=
  r <- TryWriteAsMaster (own_record n) ;;
  let '(written, record) := r in
  let n := n <| own_record := record |> in
  if written : bool then
    let n := (defineNodeRole env (Some ToOwnRecord) n).1 in
    ret (if HasInitErrorInNode n then Electing else Prolonging, n)
  else
    master <- catch GetMaster ;;
    let masterRecord := match master with Ok m => Some (ToRead m) | _ => None end in
    ret (Waiting, (defineNodeRole env masterRecord n).1).

Definition SyncClockTimeShiftDefault : Z := 30 * 1000000000.
(** One pass of [startMasterProlongation]. *)
Definition prolong_round (n : Node) : prog ElectionDb phase :=
  master <- catch GetMaster ;;
  match master with
  | Ok masterRecord =>
      match deref n (currentMaster n) with
      | None => panic "nil pointer dereference"
      | Some current =>
          if negb (String.eqb (Name masterRecord) (Name current)) || negb (bool_decide (NodeInfoOf masterRecord = NodeInfoOf current))
          then ret Electing
          else r <- catch (ShiftSyncClock SyncClockTimeShiftDefault) ;;
               ret (match r with Ok _ => Prolonging | _ => Electing end)
      end
  | _ => ret Electing
  end.
(** [ForceElection], when another member has left; its error is logged. *)
Definition ForceElection (masterNodeName : string) : prog ElectionDb unit := ignore_err (ResetSyncClock masterNodeName).

(** * The callbacks *)

(** [ApplyOnMasterChange]: the master it knows, and whether its targets run. *)
Definition ApplyOnMasterChange (currentMasterNode : option NodeInfo) (newMaster : NodeInfo) : option NodeInfo * bool :=
  match currentMasterNode with
  | None => (Some newMaster, false)
  | Some current =>
      if String.eqb (BusAddress current) (BusAddress newMaster) && String.eqb (GetHttpAddress current) (GetHttpAddress newMaster)
      then (Some current, false)
      else (Some newMaster, true)
  end.

Inductive EventType := EventMemberJoin | EventMemberLeave | EventMemberFailed | EventMemberUpdate | EventMemberReap.
Definition isMemberDroppingOutEvent (e : EventType) : bool :=
  match e with EventMemberLeave | EventMemberFailed => true | _ => false end.
(** The names [HandleMemberDroppingOut] passes to each callback. *)
Definition HandleMemberDroppingOut (e : EventType) (members : list string) (callbacks : nat) : list (nat * string) :=
  if isMemberDroppingOutEvent e then flat_map (fun c => map (pair c) members) (seq 0 callbacks) else [].
(** The address [JoinMembersNetwork] joins. *)
Definition JoinMembersNetwork (members : nat) (record : NodeInfo) (r : Role) : option string :=
  if bool_decide (r = Slave) && (members <=? 1)%nat then Some (SWIMAddress record) else None.

(** * The cluster *)

Record Cluster := mkCluster { database : ElectionDb; nodes : gmap string (phase * Node) }.
#[export] Instance Cluster_eta : Eta Cluster := fun r => mkCluster (database r) (nodes r).

(** [initClustering] of a new node. *)
Definition start_node : prog ElectionDb unit := CreateWithExistDb ;;; DeleteSeveralRecordsFromDb.

Inductive action :=
  | Tick (d : Z)                                              (* time passes *)
  | Start (name namespace : string) (info : NodeInfo)
  | Stop (name : string)
  | Wake (name : string)                                      (* the ticker *)
  | Elect (name : string) (env : Environment)
  | Prolong (name : string)
  | Dropped (name member : string).                           (* a node saw a member leave *)

Inductive step : Cluster -> action -> Cluster -> Prop :=
  | step_tick c d : (0 <= d)%Z -> step c (Tick d) (c <| database := (database c) <| db_now := (db_now (database c) + d)%Z |> |>)
  | step_start c name ns info db : nodes c !! name = None -> start_node (database c) = (Ok tt, db) ->
      step c (Start name ns info) (mkCluster db (<[name := (Electing, NewNode name ns info)]> (nodes c)))
  | step_stop c name : step c (Stop name) (c <| nodes := delete name (nodes c) |>)
  | step_wake c name n : nodes c !! name = Some (Waiting, n) ->
      step c (Wake name) (c <| nodes := <[name := (Electing, n)]> (nodes c) |>)
  | step_elect c name env n p n' db : nodes c !! name = Some (Electing, n) -> election_round env n (database c) = (Ok (p, n'), db) ->
      step c (Elect name env) (mkCluster db (<[name := (p, n')]> (nodes c)))
  | step_prolong c name n p db : nodes c !! name = Some (Prolonging, n) -> prolong_round n (database c) = (Ok p, db) ->
      step c (Prolong name) (mkCluster db (<[name := (p, n)]> (nodes c)))
  | step_dropped c name member p n db : nodes c !! name = Some (p, n) -> ForceElection member (database c) = (Ok tt, db) ->
      step c (Dropped name member) (mkCluster db (nodes c)).

Inductive steps : Cluster -> list action -> Cluster -> Prop :=
  | steps_nil c : steps c [] c
  | steps_cons c a c1 l c2 : step c a c1 -> steps c1 l c2 -> steps c (a :: l) c2.
End sql.
