(* ===== verification/ClusteringSpec.v ===== *)
(** The election keeps one live lease, its nodes agree with what they read, and
    a node is elected once the lease is over. *)
From S2P Require Import Prelude GoLib Clustering.
Open Scope string_scope.

Section sql.
Context (new_id : list MasterMetadata -> MasterMetadata -> Z) (updated_id : MasterMetadata -> MasterMetadata -> Z).
Notation TryWriteAsMaster := (TryWriteAsMaster new_id updated_id).
Notation election_round := (election_round new_id updated_id).
Notation step := (step new_id updated_id).
Notation steps := (steps new_id updated_id).

#[local] Arguments MasterMetadata_Equals : simpl never.
#[local] Arguments EqualsByNameAndNodeInfo : simpl never.

(** * Transactions that do not fail *)

Lemma GetMaster_run rows now :
  GetMaster (mkElectionDb rows now []) =
  (match first_by_id rows with Some r => Ok r | None => Err (ErrMsg "sql: no rows in result set") end, mkElectionDb rows now []).
Proof. unfold GetMaster, as_error, WithTx, catch, GetMaster_sql, statement, bind, ret, error_of, fail; simpl. by destruct (first_by_id rows). Qed.
Lemma ShiftSyncClock_run d rows now :
  ShiftSyncClock d (mkElectionDb rows now []) =
  (Ok tt, mkElectionDb (map (fun row => row <| SyncClock := (now + whole_seconds d * second)%Z |>) rows) now []).
Proof. reflexivity. Qed.
Lemma ResetSyncClock_run m rows now :
  ResetSyncClock m (mkElectionDb rows now []) =
  (Ok tt, mkElectionDb (map (fun row => if String.eqb (Name row) m then row <| SyncClock := now |> else row) rows) now []).
Proof. reflexivity. Qed.

(** Whether the table lets [record] be written. *)
Definition open_to (record : MasterMetadata) (w : ElectionDb) : bool :=
  match db_rows w with [row] => may_take (db_now w) record row | _ => true end.

(** A node writes itself as master exactly when the table does not hold one
    record, or the record that it holds is past its clock or of another
    namespace; the table then holds the node's record alone, for sixty seconds,
    and is left alone otherwise. *)
Theorem TryWriteAsMaster_spec record w : db_faults w = [] ->
  exists id, TryWriteAsMaster record w =
    if open_to record w
    then (Ok (true, record <| Id := id |>),
          w <| db_rows := [record <| Id := id |> <| SyncClock := (db_now w + 60 * second)%Z |>] |>)
    else (Ok (false, record), w).
Proof.
  destruct w as [rows now faults]. simpl. intros ->. unfold open_to. simpl.
  destruct rows as [|r1 [|r2 rows]].
  - by exists (new_id [] record).
  - exists (updated_id r1 record).
    unfold Clustering.TryWriteAsMaster, WithTx, catch, Count, updateAsMaster, UpdateMasterRecord, statement, bind, ret; simpl.
    destruct (may_take now record r1); simpl; [|done].
    unfold GetMaster, as_error, WithTx, catch, GetMaster_sql, statement, bind, ret; simpl. done.
  - exists (new_id [] record). set (l := r1 :: r2 :: rows).
    assert ((Z.of_nat (length l) =? 1)%Z = false /\ (Z.of_nat (length l) =? 0)%Z = false) as [E1 E0].
    { split; apply Z.eqb_neq; subst l; simpl length; lia. }
    clearbody l. unfold Clustering.TryWriteAsMaster, WithTx, catch, Count, statement, bind, ret. simpl. rewrite E1, E0. done.
Qed.

(** When the commit fails, the node is told that it is the master although
    the record of another one is still in the table. *)
Theorem TryWriteAsMaster_not_committed record row now e :
  may_take now record row = true ->
  TryWriteAsMaster record (mkElectionDb [row] now [None; None; None; None; Some e])
  = (Ok (true, record <| Id := Id row |>), mkElectionDb [row] now []).
Proof.
  intros Ht. unfold Clustering.TryWriteAsMaster, WithTx, catch, Count, updateAsMaster, UpdateMasterRecord, statement, bind, ret; simpl.
  rewrite Ht. simpl. unfold GetMaster, as_error, WithTx, catch, GetMaster_sql, statement, bind, ret; simpl. done.
Qed.

(** A node that starts removes the record of the master, however live, and
    leaves one that any node may take at once. *)
Theorem start_deposes_master row now record :
  Name row <> "internal" ->
  exists w, start_node new_id (mkElectionDb [row] now []) = (Ok tt, w) /\ open_to record w = true /\ db_faults w = [] /\
    forall r, r ∈ db_rows w -> Name r = "internal".
Proof.
  intros Hn. apply String.eqb_neq in Hn.
  unfold start_node, CreateWithExistDb, DeleteSeveralRecordsFromDb, tryAddInternalRecord, DeleteNotInternalRecords, as_error, WithTx, catch,
    Count, InsertRecordOutdated, statement, bind, ret; simpl. rewrite Hn. simpl.
  eexists. split; [reflexivity|]. simpl. split_and!; [|done|].
  - unfold open_to, may_take. simpl. apply orb_true_iff. left. unfold second. lia.
  - by intros r ->%list_elem_of_singleton.
Qed.

(** * What a node knows *)

Definition same_node (a b : MasterMetadata) : Prop := Name a = Name b /\ NodeInfoOf a = NodeInfoOf b /\ NamespaceOf a = NamespaceOf b.

(** The role a node has for the master it knows. *)
Definition role_agrees (n : Node) (r : Role) (master : option pointer) : Prop :=
  match r with
  | Initial => exists m, master = Some (ToRead m) /\ MasterMetadata_Equals (Some zero) (Some m) = true
  | Phantom => master = None
  | Master => EqualsByNameAndNodeInfo (Some (thisNode n)) (deref n master) = true
  | Slave => exists m, deref n master = Some m /\ EqualsByNameAndNodeInfo (Some (thisNode n)) (Some m) = false
  end.
Definition node_ok (n : Node) : Prop :=
  Name (thisNode n) <> "" /\ same_node (own_record n) (thisNode n) /\
  (masterReady (state n) = true <-> role (state n) = Master /\ HasInitErrorInNode n = false) /\
  role_agrees n (role (state n)) (currentMaster n).

Lemma AppendFatal_init e l : isInitError e = true -> hasInitErrorInNodeInArray (AppendFatal e l) = true.
Proof.
  intros He. unfold AppendFatal. destruct (isInitMasterError e && hasInitMasterErrorInNodeInArray l) eqn:E.
  - apply andb_true_iff in E as [_ E]. unfold hasInitMasterErrorInNodeInArray, hasInitErrorInNodeInArray in *.
    rewrite existsb_exists in *. destruct E as (x & Hx & Hm). exists x. split; [done|]. by destruct x.
  - unfold hasInitErrorInNodeInArray. rewrite existsb_app. simpl. rewrite He. by rewrite orb_true_r.
Qed.

(** What a change of role leaves. *)
Lemma handleNodeRoleChange_shape env record newRole n n' calls :
  handleNodeRoleChange env record newRole n = (n', calls) ->
  thisNode n' = thisNode n /\ own_record n' = own_record n /\ currentMaster n' = currentMaster n /\ role (state n') = newRole /\
  (masterReady (state n') = true <-> newRole = Master /\ HasInitErrorInNode n' = false).
Proof.
  unfold handleNodeRoleChange. destruct (if bool_decide (newRole = Master) then InitMaster env else None) as [e|] eqn:Ei.
  - intros [= <- _]. simpl. split_and!; [done..|]. split; [done|].
    intros [_ H]. unfold HasInitErrorInNode in H. simpl in H. by rewrite AppendFatal_init in H.
  - destruct (run_callbacks _ _ _ _) as [[e|] cs]; intros [= <- _].
    + simpl. split_and!; [done..|]. split; [done|].
      intros [_ H]. unfold HasInitErrorInNode in H. simpl in H. by rewrite AppendFatal_init in H.
    + case_bool_decide as Hm; simpl; (split_and!; [done..|]); [done|]. split; [done|by intros [? _]].
Qed.

Lemma EqualsByNameAndNodeInfo_true a b :
  EqualsByNameAndNodeInfo (Some a) (Some b) = true <-> Name a = Name b /\ NodeInfoOf a = NodeInfoOf b.
Proof. unfold EqualsByNameAndNodeInfo. by rewrite andb_true_iff, String.eqb_eq, bool_decide_eq_true. Qed.
Lemma MasterMetadata_Equals_true a b :
  MasterMetadata_Equals (Some a) (Some b) = true <-> Id a = Id b /\ Name a = Name b /\ NodeInfoOf a = NodeInfoOf b.
Proof. unfold MasterMetadata_Equals. rewrite !andb_true_iff, Z.eqb_eq, String.eqb_eq, bool_decide_eq_true. tauto. Qed.

Lemma EqualsByNameAndNodeInfo_equal n a b : MasterMetadata_Equals (Some a) (Some b) = true ->
  EqualsByNameAndNodeInfo (Some n) (Some b) = EqualsByNameAndNodeInfo (Some n) (Some a).
Proof. intros (_ & E1 & E2)%MasterMetadata_Equals_true. unfold EqualsByNameAndNodeInfo. by rewrite E1, E2. Qed.

Lemma role_agrees_fresh n master m : deref n master = Some m ->
  role_agrees n (if EqualsByNameAndNodeInfo (Some (thisNode n)) (Some m) then Master else Slave) master.
Proof. intros Em. destruct (EqualsByNameAndNodeInfo _ _) eqn:E; unfold role_agrees; [rewrite Em; exact E|]. exists m. split; [exact Em|exact E]. Qed.
Lemma role_agrees_equal n r old master m :
  Name (own_record n) <> "" -> role_agrees n r old -> deref n master = Some m ->
  MasterMetadata_Equals (deref n old) (Some m) = true -> role_agrees n r master.
Proof.
  intros Hown Hr Em Heq. destruct (deref n old) as [m0|] eqn:E0; [|done].
  pose proof (EqualsByNameAndNodeInfo_equal (thisNode n) _ _ Heq) as Hsame. destruct r; simpl in Hr.
  - destruct Hr as (m1 & -> & Hz). injection E0 as ->. apply MasterMetadata_Equals_true in Hz as (? & Hz & ?), Heq as (? & ? & ?).
    destruct master as [[|m2]|]; simpl in Em; [|injection Em as ->|done].
    + injection Em as <-. exfalso. apply Hown. simpl in Hz. congruence.
    + exists m. split; [done|]. apply MasterMetadata_Equals_true. split_and!; congruence.
  - destruct Hr as (m1 & Hd & Hf). rewrite E0 in Hd. injection Hd as <-. exists m. split; [done|]. by rewrite Hsame.
  - rewrite E0 in Hr. simpl role_agrees. by rewrite Em, Hsame.
  - subst old. done.
Qed.

Lemma node_ok_handled env record r n n1 calls master :
  node_ok n -> handleNodeRoleChange env record r n = (n1, calls) -> role_agrees n r master ->
  node_ok (n1 <| currentMaster := master |>) /\ thisNode n1 = thisNode n /\ own_record n1 = own_record n.
Proof.
  intros (Hname & Hown & _ & _) (Ht & Ho & _ & Hr & Hy)%handleNodeRoleChange_shape Ha. split_and!; [|done..].
  unfold node_ok, HasInitErrorInNode. simpl. rewrite Ht, Ho, Hr. split_and!; [done..|].
  unfold role_agrees, deref in *. destruct r, master as [[]|]; simpl in *; by rewrite ?Ht, ?Ho.
Qed.

Lemma defineNodeRole_ok env newMaster n n' calls :
  node_ok n -> defineNodeRole env newMaster n = (n', calls) ->
  node_ok n' /\ thisNode n' = thisNode n /\ own_record n' = own_record n /\ currentMaster n' = newMaster.
Proof.
  intros Hok. pose proof Hok as (Hname & Hown & Hready & Hrole). unfold defineNodeRole. destruct (deref n newMaster) as [m|] eqn:Em.
  - assert (Name (own_record n) <> "") as Hne by (destruct Hown as [-> _]; done).
    destruct (MasterMetadata_Equals (deref n (currentMaster n)) (Some m)) eqn:Eq; simpl negb; cbv iota.
    + pose proof (role_agrees_equal _ _ _ _ _ Hne Hrole Em Eq) as Ha.
      destruct (HasInitErrorInNode n).
      * destruct (handleNodeRoleChange _ _ _ _) as [n1 cs] eqn:E. intros [= <- _].
        destruct (node_ok_handled _ _ _ _ _ _ newMaster Hok E Ha) as (? & ? & ?). by split_and!.
      * intros [= <- _]. split; [exact (conj Hname (conj Hown (conj (proj1 (proj2 (proj2 Hok))) Ha)))|done].
    + destruct (handleNodeRoleChange _ _ _ _) as [n1 cs] eqn:E. intros [= <- _].
      destruct (node_ok_handled _ _ _ _ _ _ newMaster Hok E (role_agrees_fresh _ _ _ Em)) as (? & ? & ?). by split_and!.
  - assert (newMaster = None) as -> by by destruct newMaster as [[]|]. unfold IsPhantom. case_bool_decide as Hp.
    + intros [= <- _]. rewrite Hp in Hrole. split; [exact Hok|done].
    + destruct (handleNodeRoleChange _ _ _ _) as [n1 cs] eqn:E. intros [= <- _].
      destruct (node_ok_handled _ _ _ _ _ _ None Hok E) as (? & ? & ?); [done|by split_and!].
Qed.

Lemma TryWriteAsMaster_same record w b record' w' :
  TryWriteAsMaster record w = (Ok (b, record'), w') -> same_node record' record.
Proof.
  unfold Clustering.TryWriteAsMaster. intros ([wr e] & w1 & _ & H)%bind_Ok. simpl in H. destruct wr.
  - apply bind_Ok in H as (r & w2 & _ & H). destruct r as [m| |]; [|done..]. by apply ret_Ok in H as [[= -> ->] _].
  - by apply ret_Ok in H as [[= -> ->] _].
Qed.
Lemma node_ok_own n record : node_ok n -> same_node record (own_record n) -> node_ok (n <| own_record := record |>).
Proof.
  intros (Hname & (Hn & Hi & Hs) & Hready & Hrole) (Hn' & Hi' & Hs').
  refine (conj Hname (conj _ (conj Hready _))); [by split_and!; simpl; congruence|].
  unfold role_agrees in *. simpl. destruct (role (state n)); [exact Hrole| | |exact Hrole].
  - destruct Hrole as (m & Hm & Hf). destruct (currentMaster n) as [[|m']|] eqn:Ec; simpl in *; [|by exists m|done].
    injection Hm as <-. exists record. split; [done|]. unfold EqualsByNameAndNodeInfo in *. by rewrite Hn', Hi'.
  - destruct (currentMaster n) as [[|m']|]; simpl in *; [|done..]. unfold EqualsByNameAndNodeInfo in *. by rewrite Hn', Hi'.
Qed.

Definition phase_ok (p : phase) (n : Node) : Prop :=
  p = Prolonging -> role (state n) = Master /\ masterReady (state n) = true /\ currentMaster n = Some ToOwnRecord.

Lemma own_master_role n : node_ok n -> currentMaster n = Some ToOwnRecord -> role (state n) = Master.
Proof.
  intros (_ & (Hn & Hi & _) & _ & Hrole) Hc. unfold role_agrees in Hrole. rewrite Hc in Hrole. destruct (role (state n)); [|
    |done|done].
  - by destruct Hrole as (? & ? & _).
  - destruct Hrole as (m & [= <-] & Hf). exfalso. apply not_true_iff_false in Hf. apply Hf. by apply EqualsByNameAndNodeInfo_true.
Qed.

Lemma election_round_ok env n w p n' w' :
  node_ok n -> election_round env n w = (Ok (p, n'), w') -> node_ok n' /\ thisNode n' = thisNode n /\ phase_ok p n'.
Proof.
  intros Hok ([b record] & w1 & E1%TryWriteAsMaster_same & H)%bind_Ok. apply (node_ok_own n record Hok) in E1 as Hok1.
  set (n1 := n <| own_record := record |>) in *. destruct b.
  - apply ret_Ok in H as [[= -> ->] _]. destruct (defineNodeRole env (Some ToOwnRecord) n1) as [n2 cs] eqn:E.
    apply defineNodeRole_ok in E as (Hok2 & Ht & _ & Hc); [|done]. simpl.
    split_and!; [done|by rewrite Ht|]. intros Hp. pose proof (own_master_role n2 Hok2 Hc) as Hr. split_and!; [done| |done].
    destruct Hok2 as (_ & _ & Hready & _). apply Hready. split; [done|]. by destruct (HasInitErrorInNode n2).
  - apply bind_Ok in H as (m & w2 & _ & [[= -> ->] _]%ret_Ok).
    destruct (defineNodeRole _ _ n1) as [n2 cs] eqn:E. apply defineNodeRole_ok in E as (Hok2 & Ht & _ & _); [|done].
    simpl. by split_and!.
Qed.

Definition nodes_ok (m : gmap string (phase * Node)) : Prop :=
  map_Forall (fun name pn => node_ok pn.2 /\ Name (thisNode pn.2) = name /\ phase_ok pn.1 pn.2) m.

Lemma NewNode_ok name ns info : name <> "" -> node_ok (NewNode name ns info).
Proof. intros Hn. split_and!; [done..| |by exists zero]. split; [done|by intros [? _]]. Qed.
Lemma step_ok c a c' : step c a c' -> (forall name ns info, a = Start name ns info -> name <> "") -> nodes_ok (nodes c) -> nodes_ok (nodes c').
Proof.
  intros Hs Hname Hc. destruct Hs as [|c name ns info db Hn E|c name|c name n E|c name env n p n' db Hn E|c name n p db Hn E|]; simpl.
  - done.
  - apply map_Forall_insert_2; [|done]. split_and!; [by apply NewNode_ok, (Hname name ns info)|done|done].
  - by apply map_Forall_delete.
  - apply map_Forall_insert_2; [|done]. by destruct (Hc _ _ E) as (? & ? & _).
  - destruct (Hc _ _ Hn) as (Hok & Ht & _). apply map_Forall_insert_2; [|done].
    destruct (election_round_ok _ _ _ _ _ _ Hok E) as (? & Ht' & ?). split_and!; [done|simpl in *; congruence|done].
  - destruct (Hc _ _ Hn) as (Hok & Ht & Hp). apply map_Forall_insert_2; [|done]. split_and!; [done..|].
    intros _. by apply Hp.
  - done.
Qed.
Lemma steps_ok c l c' : steps c l c' -> (forall name ns info, Start name ns info ∈ l -> name <> "") -> nodes_ok (nodes c) -> nodes_ok (nodes c').
Proof.
  induction 1 as [|c a c1 l c2 Hs _ IH]; [done|]. intros Hn Hc. apply IH.
  - intros name ns info Hin. apply (Hn name ns info). by right.
  - apply (step_ok _ _ _ Hs); [|done]. intros name ns info ->. apply (Hn name ns info). left.
Qed.

(** C8: In every cluster that nodes form, whatever the database refuses and
    whatever fails in the nodes: a node is master, slave or phantom exactly for
    the master it knows, it is a ready master exactly when it is master and has
    no error of its initialization, and it prolongs only as a ready master that
    knows itself. *)
Theorem roles_agree c l c' name p n :
  steps c l c' -> nodes c = ∅ -> (forall name ns info, Start name ns info ∈ l -> name <> "") ->
  nodes c' !! name = Some (p, n) -> Name (thisNode n) = name /\ node_ok n /\ phase_ok p n.
Proof.
  intros Hs He Hn Hl. apply steps_ok in Hs; [|done|by rewrite He; apply map_Forall_empty].
  by destruct (Hs _ _ Hl) as (? & ? & ?).
Qed.

(** * The lease *)

Definition lease (holder : MasterMetadata) (until : Z) (w : ElectionDb) : Prop :=
  db_faults w = [] /\ exists row, db_rows w = [row] /\ same_node row holder /\ (until <= SyncClock row)%Z.

(** What does not disturb a lease: no node starts, and no member that has left
    is named as its holder. *)
Definition undisturbed (holder : MasterMetadata) (a : action) : Prop :=
  match a with
  | Start _ _ _ => False
  | Dropped _ member => member <> Name holder
  | _ => True
  end.
Definition one_namespace (namespace : string) (m : gmap string (phase * Node)) : Prop :=
  map_Forall (fun _ pn => NamespaceOf (thisNode pn.2) = namespace) m.

Lemma leased_not_open holder until w record :
  lease holder until w -> (db_now w <= until)%Z -> NamespaceOf record = NamespaceOf holder -> open_to record w = false.
Proof.
  intros (_ & row & Hr & (_ & _ & Hs) & Hu) Hn Hns. unfold open_to, may_take. rewrite Hr, Hns, Hs, String.eqb_refl.
  apply orb_false_iff. split; [apply Z.ltb_ge; lia|done].
Qed.

(** * Time only passes by ticks *)

Definition same_now (w w' : ElectionDb) : Prop := db_now w' = db_now w.
#[local] Instance same_now_preorder : PreOrder same_now.
Proof. split; [done|]. intros a b c. unfold same_now. congruence. Qed.
Lemma now_statement {A} (m : prog ElectionDb A) : frame same_now m -> frame same_now (statement m).
Proof. intros Hm w. unfold statement. destruct (db_faults w) as [|[e|] l]; [apply Hm|done|]. pose proof (Hm (w <| db_faults := l |>)) as H. exact H. Qed.
Lemma now_catch {A} (m : prog ElectionDb A) : frame same_now m -> frame same_now (catch m).
Proof. intros Hm w. unfold catch. specialize (Hm w). by destruct (m w) as [[?|?|?] ?]. Qed.
Lemma now_WithTx {A} (a : A) f : frame same_now f -> frame same_now (WithTx a f).
Proof.
  intros Hf w. assert (frame same_now (statement (ret tt))) as Hs by (apply now_statement; intros ?; done).
  unfold WithTx. pose proof (Hs w) as H1. destruct (statement (ret tt) w) as [[?|?|?] w1]; [|done..].
  pose proof (Hs w1) as H2. destruct (statement (ret tt) w1) as [[?|?|?] w2]; [|etransitivity; [exact H1|exact H2]..].
  pose proof (Hf w2) as H3. destruct (f w2) as [[[b [e|]]|?|?] w3]; unfold same_now in *; simpl in *; try congruence.
  pose proof (Hs w3) as H4. destruct (statement (ret tt) w3) as [[?|?|?] w4]; unfold same_now in *; simpl in *; congruence.
Qed.
Lemma now_direct {A} (f : ElectionDb -> result A) g : (forall w, db_now (g w) = db_now w) -> frame same_now (fun w => (f w, g w)).
Proof. intros Hg w. apply Hg. Qed.
Create HintDb now discriminated.
Ltac keeps_now :=
  repeat first
    [ solve [auto 1 with now nocore] | apply now_WithTx | apply now_catch | apply now_statement | apply frame_bind; [apply _|..|intros ?] | apply frame_ret; apply _ | apply frame_fail; apply _
    | apply frame_panic; apply _ | apply frame_ignore_err | progress case_match | by intros [] | done ].
Lemma now_GetMaster : frame same_now GetMaster.
Proof. unfold GetMaster, as_error, GetMaster_sql. keeps_now. intros w. by destruct (first_by_id _). Qed.
#[local] Hint Resolve now_GetMaster : now.
Lemma now_TryWriteAsMaster record : frame same_now (TryWriteAsMaster record).
Proof.
  unfold Clustering.TryWriteAsMaster, updateAsMaster, restoreElectionTable, Count, UpdateMasterRecord, DeleteAllRecords, InsertRecord.
  keeps_now.
Qed.
#[local] Hint Resolve now_TryWriteAsMaster : now.
Lemma now_election_round env n : frame same_now (election_round env n).
Proof. unfold Clustering.election_round. keeps_now. Qed.
Lemma now_prolong_round n : frame same_now (prolong_round n).
Proof.
  unfold prolong_round, ShiftSyncClock, as_error, ShiftSyncClock_sql. keeps_now.
Qed.
Lemma now_start_node : frame same_now (start_node new_id).
Proof.
  unfold start_node, CreateWithExistDb, DeleteSeveralRecordsFromDb, tryAddInternalRecord, as_error, Count, DeleteAllRecords, InsertRecordOutdated,
    DeleteNotInternalRecords. keeps_now. all: intros w; by destruct (partition _ _).
Qed.
Lemma now_ForceElection m : frame same_now (ForceElection m).
Proof. unfold ForceElection, ResetSyncClock, as_error, ResetSyncClock_sql. keeps_now. Qed.
Lemma step_now c a c' : step c a c' -> (db_now (database c) <= db_now (database c'))%Z.
Proof.
  intros Hs. destruct Hs as [c d Hd|c name ns info db _ E| | |c name env n p n' db _ E|c name n p db _ E|c name m p n db _ E]; simpl; try lia.
  - apply (frame_run _ _ _ _ _ now_start_node) in E. unfold same_now in E. lia.
  - apply (frame_run _ _ _ _ _ (now_election_round env n)) in E. unfold same_now in E. lia.
  - apply (frame_run _ _ _ _ _ (now_prolong_round n)) in E. unfold same_now in E. lia.
  - apply (frame_run _ _ _ _ _ (now_ForceElection m)) in E. unfold same_now in E. lia.
Qed.
Lemma steps_now c l c' : steps c l c' -> (db_now (database c) <= db_now (database c'))%Z.
Proof. induction 1 as [|c a c1 l c2 Hs%step_now]; lia. Qed.

(** * Rounds under a lease *)

(** A node that is not let in reads who is the master. *)
Lemma election_round_not_let_in env n w row :
  db_faults w = [] -> db_rows w = [row] -> open_to (own_record n) w = false -> node_ok n ->
  exists n', election_round env n w = (Ok (Waiting, n'), w) /\ node_ok n' /\ thisNode n' = thisNode n /\ currentMaster n' = Some (ToRead row).
Proof.
  intros Hf Hr Ho Hok. destruct (TryWriteAsMaster_spec (own_record n) w Hf) as (id & E). rewrite Ho in E.
  unfold Clustering.election_round, bind at 1. rewrite E. destruct w as [rows now faults]. simpl in *. subst.
  unfold bind, catch. rewrite GetMaster_run. simpl. eexists. split; [reflexivity|].
  destruct (defineNodeRole env (Some (ToRead row)) _) as [n2 cs] eqn:E2.
  apply defineNodeRole_ok in E2 as (? & ? & _ & ?); [done|by apply node_ok_own].
Qed.
Lemma reads_other n row : node_ok n -> currentMaster n = Some (ToRead row) -> Name row <> "" -> Name row <> Name (thisNode n) -> role (state n) = Slave.
Proof.
  intros (_ & _ & _ & Hrole) Hc Hn Hne. unfold role_agrees in Hrole. rewrite Hc in Hrole. destruct (role (state n)); [|done| |done]; exfalso.
  - destruct Hrole as (m & [= <-] & (_ & Hz & _)%MasterMetadata_Equals_true). by apply Hn.
  - simpl in Hrole. apply EqualsByNameAndNodeInfo_true in Hrole as [Hx _]. congruence.
Qed.

Definition prolongation : Z := 30 * second.

Lemma step_leased c a c' holder until :
  step c a c' -> nodes_ok (nodes c) -> one_namespace (NamespaceOf holder) (nodes c) -> Name holder <> "" ->
  lease holder until (database c) -> undisturbed holder a ->
  (db_now (database c') <= until)%Z -> (until <= db_now (database c) + prolongation)%Z ->
  one_namespace (NamespaceOf holder) (nodes c') /\ lease holder until (database c') /\
  forall name p n, nodes c' !! name = Some (p, n) -> name <> Name holder -> role (state n) = Master -> exists p0, nodes c !! name = Some (p0, n).
Proof.
  intros Hs Hok Hns Hh Hl Hu Hnow Huntil. pose proof (step_now _ _ _ Hs) as Hmono. pose proof Hl as (Hf & row & Hrow & Hsame & Hlive).
  destruct Hs as [c d Hd|c name ns info db _ E|c name|c name n Hn|c name env n p n' db Hn E|c name n p db Hn E|c name m p n db Hn E]; simpl in *.
  - split_and!; [done| |by eauto]. split; [done|]. by exists row.
  - done.
  - split_and!; [by apply map_Forall_delete|done|]. intros name' p n [_ Hin]%lookup_delete_Some _ _. by exists p.
  - split_and!; [apply map_Forall_insert_2; [exact (Hns _ _ Hn)|done]|done|].
    intros name' p n1 [[<- [= <- <-]]|[_ Hin]]%lookup_insert_Some _ _; [by exists Waiting|by exists p].
  - destruct (Hok _ _ Hn) as (Hokn & Hnm & _). pose proof (Hns _ _ Hn) as Hnsn. simpl in *.
    assert (open_to (own_record n) (database c) = false) as Ho.
    { apply (leased_not_open holder until); [done|lia|]. destruct Hokn as (_ & (_ & _ & Hx) & _). congruence. }
    destruct (election_round_not_let_in env n _ row Hf Hrow Ho Hokn) as (n2 & E2 & Hok2 & Ht2 & Hc2).
    rewrite E in E2. injection E2 as -> -> ->. split_and!; [apply map_Forall_insert_2; [simpl; congruence|done]|done|].
    intros name' p1 n1 [[<- [= <- <-]]|[_ Hin]]%lookup_insert_Some Hne Hm; [|by exists p1]. exfalso.
    destruct Hsame as (Hx & _). rewrite (reads_other n2 row) in Hm; [done..|congruence|congruence].
  - destruct (Hok _ _ Hn) as (Hokn & Hnm & Hph). destruct (Hph eq_refl) as (_ & _ & Hc). pose proof (Hns _ _ Hn) as Hnsn. simpl in *.
    split_and!; [by apply map_Forall_insert_2| |].
    + destruct c as [[rows now faults] nodes]. simpl in *. subst rows faults. unfold prolong_round, bind, catch in E. rewrite GetMaster_run in E.
      simpl in E. rewrite Hc in E. simpl in E.
      destruct (negb _ || negb _); [by injection E as _ <-|]. rewrite ShiftSyncClock_run in E. injection E as _ <-.
      split; [done|]. eexists. split; [reflexivity|]. split; [done|]. simpl. unfold prolongation in Huntil. 
      change (whole_seconds SyncClockTimeShiftDefault) with 30%Z. lia.
    + intros name' p1 n1 [[<- [= <- <-]]|[_ Hin]]%lookup_insert_Some _ _; [by exists Prolonging|by exists p1].
  - split_and!; [done| |by eauto]. destruct c as [[rows now faults] nodes]. simpl in *. subst rows faults.
    unfold ForceElection, ignore_err in E. rewrite ResetSyncClock_run in E. injection E as <-. simpl.
    assert (String.eqb (Name row) m = false) as -> by (apply String.eqb_neq; destruct Hsame as (-> & _); congruence).
    split; [done|]. by exists row.
Qed.

(** C7: While a node holds the lease, in one namespace, with a database that
    answers, no node starting and no member seen to leave under its name: for
    thirty seconds the record stays its own, and no other node becomes master,
    in whatever order the nodes elect, prolong, wake, stop and time passes; a
    node that is master beside it was already so at the beginning. *)
Theorem lease_excludes c l c' holder :
  steps c l c' -> nodes_ok (nodes c) -> one_namespace (NamespaceOf holder) (nodes c) -> Name holder <> "" ->
  lease holder (db_now (database c) + prolongation)%Z (database c) -> Forall (undisturbed holder) l ->
  (db_now (database c') <= db_now (database c) + prolongation)%Z ->
  lease holder (db_now (database c) + prolongation)%Z (database c') /\
  forall name p n, nodes c' !! name = Some (p, n) -> name <> Name holder -> role (state n) = Master -> exists p0, nodes c !! name = Some (p0, n).
Proof.
  intros Hs. assert (forall until, nodes_ok (nodes c) -> one_namespace (NamespaceOf holder) (nodes c) -> Name holder <> "" ->
    lease holder until (database c) -> Forall (undisturbed holder) l -> (db_now (database c') <= until)%Z ->
    (until <= db_now (database c) + prolongation)%Z -> lease holder until (database c') /\
    forall name p n, nodes c' !! name = Some (p, n) -> name <> Name holder -> role (state n) = Master -> exists p0, nodes c !! name = Some (p0, n)) as H.
  { induction Hs as [c|c a c1 l c2 Hs Hl IH]; intros lim Hok Hns Hh Hle Hu Hnow Hun; [split; [done|eauto]|].
    apply Forall_cons in Hu as [Ha Hu]. pose proof (steps_now _ _ _ Hl). pose proof (step_now _ _ _ Hs).
    destruct (step_leased _ _ _ _ _ Hs Hok Hns Hh Hle Ha) as (Hns1 & Hle1 & Hm1); [lia|done|].
    assert (nodes_ok (nodes c1)) as Hok1 by (apply (step_ok _ _ _ Hs); [|done]; intros ? ? ? ->; done).
    destruct (IH lim) as (Hle2 & Hm2); try done; [lia|].
    split; [done|]. intros name p n Hin Hne Hm. destruct (Hm2 _ _ _ Hin Hne Hm) as (p1 & Hin1). by apply (Hm1 name p1). }
  intros. apply H; done || lia.
Qed.

(** * Progress *)

Definition succeeds (env : Environment) : Prop :=
  InitMaster env = None /\ Forall (fun callback => forall nodeInfo role, callback nodeInfo role = None) (callbacks env).
Lemma run_callbacks_succeed l : Forall (fun callback => forall nodeInfo role, callback nodeInfo role = None) l ->
  forall k i r, (run_callbacks k l i r).1 = None.
Proof.
  induction 1 as [|f l Hf _ IH]; intros k i r; simpl; [done|]. rewrite Hf. specialize (IH (S k) i r).
  by destruct (run_callbacks (S k) l i r).
Qed.
Lemma handleNodeRoleChange_heals env record r n : succeeds env -> HasInitErrorInNode (handleNodeRoleChange env record r n).1 = false.
Proof.
  intros [Hi Hc]. unfold handleNodeRoleChange. rewrite Hi. destruct (bool_decide (r = Master)).
  all: destruct (run_callbacks _ _ _ _) as [o cs] eqn:E; apply (f_equal fst) in E; rewrite run_callbacks_succeed in E by done; by simpl in E; subst o.
Qed.
Lemma defineNodeRole_heals env p n : succeeds env -> deref n (Some p) <> None -> HasInitErrorInNode (defineNodeRole env (Some p) n).1 = false.
Proof.
  intros He Hd. unfold defineNodeRole. destruct (deref n (Some p)) as [m|]; [|done].
  destruct (negb _); [|destruct (HasInitErrorInNode n) eqn:Ei; [|exact Ei]].
  all: match goal with |- context [handleNodeRoleChange ?e ?rec ?r ?n] =>
         pose proof (handleNodeRoleChange_heals e rec r n He) as H; by destruct (handleNodeRoleChange e rec r n) end.
Qed.

Lemma election_round_wins env n w :
  db_faults w = [] -> open_to (own_record n) w = true -> node_ok n -> succeeds env ->
  exists n' w', election_round env n w = (Ok (Prolonging, n'), w') /\ role (state n') = Master /\ masterReady (state n') = true /\
    lease (own_record n) (db_now w + 60 * second)%Z w' /\ db_now w' = db_now w.
Proof.
  intros Hf Ho Hok He. destruct (TryWriteAsMaster_spec (own_record n) w Hf) as (id & E). rewrite Ho in E.
  destruct (election_round env n w) as [r w'] eqn:Er. pose proof Er as Er2. unfold Clustering.election_round, bind in Er2. rewrite E in Er2.
  simpl in Er2. rewrite defineNodeRole_heals in Er2 by done. injection Er2 as <- <-.
  apply election_round_ok in Er as (_ & _ & Hp); [|done]. destruct (Hp eq_refl) as (? & ? & _).
  eexists _, _. split; [reflexivity|]. split_and!; [done..| |done]. split; [done|]. eexists. split; [reflexivity|]. split; [done|]. simpl. lia.
Qed.

Definition latest (rows : list MasterMetadata) : Z := foldr (fun r m => Z.max (SyncClock r) m) 0%Z rows.
Lemma latest_spec rows r : r ∈ rows -> (SyncClock r <= latest rows)%Z.
Proof. induction rows as [|x rows IH]; [by intros ?%elem_of_nil|]. intros [->|H%IH]%elem_of_cons; simpl; lia. Qed.
Lemma open_late record w now : (latest (db_rows w) < now)%Z -> open_to record (w <| db_now := now |>) = true.
Proof.
  intros Hn. unfold open_to. simpl. pose proof (latest_spec (db_rows w)) as Hl. destruct (db_rows w) as [|row [|row' rows]]; [done| |done].
  specialize (Hl row ltac:(left)). unfold may_take. apply orb_true_iff. left. apply Z.ltb_lt. simpl in *. lia.
Qed.

(** The steps of one node: nothing is asked of the others. *)
Definition alone (name : string) (env : Environment) (a : action) : Prop :=
  match a with Tick _ => True | Wake n => n = name | Elect n e => n = name /\ e = env | _ => False end.

(** C9: Whatever the table holds, a node that waits or elects gets to prolong
    as a ready master by time passing and its own next round, if its
    initialization and its callbacks then succeed and the database answers. *)
Theorem election_progress c name p n env :
  nodes c !! name = Some (p, n) -> p <> Prolonging -> node_ok n -> db_faults (database c) = [] -> succeeds env ->
  exists l c' n', steps c l c' /\ Forall (alone name env) l /\ nodes c' !! name = Some (Prolonging, n') /\
    role (state n') = Master /\ masterReady (state n') = true /\ lease (own_record n) (db_now (database c') + 60 * second)%Z (database c').
Proof.
  intros Hn Hp Hok Hf He. set (d := (Z.max 0 (latest (db_rows (database c)) - db_now (database c)) + 1)%Z).
  set (c1 := c <| database := (database c) <| db_now := (db_now (database c) + d)%Z |> |>).
  assert (step c (Tick d) c1) as S1 by (apply step_tick; lia).
  assert (open_to (own_record n) (database c1) = true) as Ho by (apply open_late; lia).
  destruct (election_round_wins env n (database c1) Hf Ho Hok He) as (n' & w' & E & Hr & Hy & Hle & Hnow).
  destruct p; [| |done].
  - exists [Tick d; Elect name env]. eexists _, n'. split.
    { eapply steps_cons; [exact S1|]. eapply steps_cons; [by apply (step_elect _ _ c1 name env n)|apply steps_nil]. }
    split_and!; [by repeat constructor|apply lookup_insert_eq|done..|]. simpl. by rewrite Hnow.
  - exists [Tick d; Wake name; Elect name env]. eexists _, n'. split.
    { eapply steps_cons; [exact S1|]. eapply steps_cons; [by apply (step_wake _ _ c1 name n)|].
      eapply steps_cons; [eapply (step_elect _ _ _ name env n); [apply lookup_insert_eq|exact E]|apply steps_nil]. }
    split_and!; [by repeat constructor|apply lookup_insert_eq|done..|]. simpl. by rewrite Hnow.
Qed.
End sql.

(** * Witnesses *)

Section witness.
(** Ids as a serial column gives them. *)
Definition serial_id (rows : list MasterMetadata) (record : MasterMetadata) : Z :=
  if (Id record =? 0)%Z then (Z.of_nat (length rows) + 1)%Z else Id record.
Definition kept_id (row record : MasterMetadata) : Z := Id row.
Definition quiet : Environment := mkEnvironment None [fun _ _ => None].
Definition info_of (k : Z) : NodeInfo := mkNodeInfo "10.0.0.1" 5431 5432 k.

Definition record_of (name : string) (k clock : Z) : MasterMetadata := mkMasterMetadata 1 name (info_of k) clock "cloud".
Lemma TryWriteAsMaster_spec_witness :
  exists id, TryWriteAsMaster serial_id kept_id (record_of "b" 2 0) (mkElectionDb [record_of "a" 1 100] 101 []) =
    (Ok (true, (record_of "b" 2 0) <| Id := id |>), mkElectionDb [(record_of "b" 2 0) <| Id := id |> <| SyncClock := (101 + 60 * second)%Z |>] 101 []).
Proof. exact (TryWriteAsMaster_spec serial_id kept_id (record_of "b" 2 0) (mkElectionDb [record_of "a" 1 100] 101 []) eq_refl). Defined.
Lemma TryWriteAsMaster_not_committed_witness :
  TryWriteAsMaster serial_id kept_id (record_of "b" 2 0) (mkElectionDb [record_of "a" 1 100] 101 [None; None; None; None; Some (ErrMsg "connection reset")])
  = (Ok (true, record_of "b" 2 0), mkElectionDb [record_of "a" 1 100] 101 []).
Proof. exact (TryWriteAsMaster_not_committed serial_id kept_id (record_of "b" 2 0) (record_of "a" 1 100) 101 (ErrMsg "connection reset") eq_refl). Defined.
Lemma start_deposes_master_witness :
  exists w, start_node serial_id (mkElectionDb [record_of "a" 1 1000] 10 []) = (Ok tt, w) /\ open_to (record_of "b" 2 0) w = true.
Proof.
  destruct (start_deposes_master serial_id (record_of "a" 1 1000) 10 (record_of "b" 2 0)) as (w & E & Ho & _); [discriminate|].
  by exists w.
Defined.

Definition nobody : Cluster := mkCluster (mkElectionDb [] 1000 []) ∅.
Definition node_of (name : string) (k : Z) : Node := NewNode name "cloud" (info_of k).
Definition started_db : ElectionDb := (start_node serial_id (start_node serial_id (database nobody)).2).2.
Definition elected_run : result (phase * Node) * ElectionDb := election_round serial_id kept_id quiet (node_of "a" 1) started_db.
Definition elected_node : Node := match elected_run.1 with Ok (_, n) => n | _ => node_of "a" 1 end.
(** [a] and [b] have started, [a] has been elected. *)
Definition two_nodes : Cluster :=
  mkCluster elected_run.2 (<["a" := (Prolonging, elected_node)]> (<["b" := (Electing, node_of "b" 2)]> (<["a" := (Electing, node_of "a" 1)]> ∅))).

Lemma two_nodes_formed :
  Clustering.steps serial_id kept_id nobody [Start "a" "cloud" (info_of 1); Start "b" "cloud" (info_of 2); Elect "a" quiet] two_nodes.
Proof.
  eapply steps_cons; [apply (step_start _ _ nobody "a" "cloud" (info_of 1) (start_node serial_id (database nobody)).2); reflexivity|].
  eapply steps_cons; [apply (step_start _ _ _ "b" "cloud" (info_of 2) started_db); reflexivity|].
  eapply steps_cons; [|apply steps_nil].
  apply (step_elect _ _ (mkCluster started_db _) "a" quiet (node_of "a" 1) Prolonging elected_node elected_run.2); reflexivity.
Qed.
Lemma roles_agree_witness :
  exists n, nodes two_nodes !! "a" = Some (Prolonging, n) /\ node_ok n /\ role (state n) = Master.
Proof.
  destruct (nodes two_nodes !! "a") as [[p n]|] eqn:E; [|vm_compute in E; discriminate E].
  destruct (roles_agree serial_id kept_id nobody _ two_nodes "a" p n two_nodes_formed) as (_ & Hok & Hp); [reflexivity| |exact E|].
  - intros name ns info Hin. repeat (apply elem_of_cons in Hin as [[= -> _ _]|Hin]; [discriminate|]).
    repeat (apply elem_of_cons in Hin as [?|Hin]; [discriminate|]). by apply elem_of_nil in Hin.
  - assert (p = Prolonging) as -> by (vm_compute in E; congruence). exists n. split; [exact eq_refl|]. split; [exact Hok|]. by destruct Hp.
Defined.

Definition holder : MasterMetadata := thisNode (node_of "a" 1).
Lemma two_nodes_ok : nodes_ok (nodes two_nodes).
Proof.
  apply (steps_ok serial_id kept_id _ _ _ two_nodes_formed); [|apply map_Forall_empty].
  intros name ns info Hin. repeat (apply elem_of_cons in Hin as [[= -> _ _]|Hin]; [discriminate|]).
  repeat (apply elem_of_cons in Hin as [?|Hin]; [discriminate|]). by apply elem_of_nil in Hin.
Qed.
(** [b] elects and [a] prolongs after ten seconds: [b] is no master. *)
Lemma lease_excludes_witness :
  exists c', Clustering.steps serial_id kept_id two_nodes [Elect "b" quiet; Tick (10 * second); Prolong "a"] c' /\
    forall p n, nodes c' !! "b" = Some (p, n) -> role (state n) = Master -> exists p0, nodes two_nodes !! "b" = Some (p0, n).
Proof.
  eexists. match goal with |- ?A /\ _ => assert A as Hs end.
  { eapply steps_cons; [apply (step_elect _ _ two_nodes "b" quiet (node_of "b" 2)); vm_compute; reflexivity|].
    eapply steps_cons; [apply step_tick; vm_compute; discriminate|].
    eapply steps_cons; [eapply (step_prolong _ _ _ "a"); vm_compute; reflexivity|apply steps_nil]. }
  split; [exact Hs|].
  destruct (lease_excludes serial_id kept_id _ _ _ holder Hs) as (_ & Hm).
  - exact two_nodes_ok.
  - unfold one_namespace, two_nodes, nodes. repeat (apply map_Forall_insert_2; [reflexivity|]). apply map_Forall_empty.
  - discriminate.
  - split; [reflexivity|]. eexists. split; [vm_compute; reflexivity|]. split; [vm_compute; repeat split|vm_compute; discriminate].
  - repeat constructor.
  - vm_compute. discriminate.
  - intros p n Hin. apply (Hm "b" p n Hin). discriminate.
Defined.
Lemma election_progress_witness :
  exists l c' n', Clustering.steps serial_id kept_id two_nodes l c' /\ nodes c' !! "b" = Some (Prolonging, n') /\ role (state n') = Master.
Proof.
  destruct (election_progress serial_id kept_id two_nodes "b" Electing (node_of "b" 2) quiet) as (l & c' & n' & Hs & _ & Hn & Hr & _).
  - vm_compute. reflexivity.
  - discriminate.
  - by apply NewNode_ok.
  - reflexivity.
  - split; [reflexivity|by repeat constructor].
  - exists l, c', n'. split; [exact Hs|]. split; [exact Hn|exact Hr].
Defined.
End witness.
