(* ===== verification/Gateways.v ===== *)
(** [services/gateway/gateway.go]: the declaration of a gateway, its kind and
    whether virtual hosts are allowed on it, and its deletion.

    What forbids a declaration or a deletion is looked at inside the
    transaction; the errors that say so are told from the others by the cause
    of the error the transaction ends with. *)
From S2P Require Import Prelude GoLib Domain Tables MemDb Events RegCommon Runtime Dao Entity Format RouteCreation Dto Requests Registration.
Open Scope string_scope.

(** [dto.GatewayDeclaration] *)
Record GatewayDeclaration := mkGatewayDeclaration {
  GatewayDeclaration_Name : string;
  GatewayDeclaration_GatewayType : string;
  GatewayDeclaration_AllowVirtualHosts : option bool;
  GatewayDeclaration_Exists : option bool;
  GatewayDeclaration_Overridden : bool
}.
Definition GatewayDeclaration_IsDeleteRequest (r : GatewayDeclaration) : bool :=
  match GatewayDeclaration_Exists r with Some exists_ => negb exists_ | None => false end.

Definition ErrMultipleVirtualHosts : error := ErrMsg "gateway: this gateway already has more than one virtual service".
Definition ErrInvalidVirtualHost : error := ErrMsg "gateway: this gateway virtual service does not have host starting with '*'".
Definition ErrInvalidEndpoint : error := ErrMsg "gateway: ingress gateway can only have endpoints leading to public or private gateway".
Definition ErrHasTlsConfig : error := ErrMsg "gateway: cannot delete gateway declaration since it is connected to some tls config".
Definition ErrHasVirtualHost : error := ErrMsg "gateway: cannot delete gateway declaration since it is connected to some virtual host".
Definition ErrHasCluster : error := ErrMsg "gateway: cannot delete gateway declaration since it is connected to some cluster".
Definition inputErrors : list error :=
  [ErrMultipleVirtualHosts; ErrInvalidVirtualHost; ErrInvalidEndpoint; ErrHasTlsConfig; ErrHasVirtualHost; ErrHasCluster].
Definition IsInputError (err : error) : bool := bool_decide (err ∈ inputErrors).

Definition convertToDto (nodeGroup : NodeGroup) : GatewayDeclaration :=
  mkGatewayDeclaration (NodeGroup_Name nodeGroup) (NodeGroup_GatewayType nodeGroup)
    (Some (negb (NodeGroup_ForbidVirtualHosts nodeGroup))) None false.

Section gateway.
Context `{R : Runtime}.

(** * Deletion *)

(** The route configurations to delete with the gateway. *)
Definition validateCanDeleteNodeGroup (repo : repo) (req : GatewayDeclaration) : prog World (list RouteConfiguration) :=
  let name := GatewayDeclaration_Name req in
  tlsConfigs <- FindAllTlsConfigsByNodeGroup repo name ;;
  match tlsConfigs with
  | _ :: _ => fail ErrHasTlsConfig
  | [] =>
      clusters <- FindClusterByNodeGroup repo ((zero : NodeGroup) <| NodeGroup_Name := name |>) ;;
      match clusters with
      | _ :: _ => fail ErrHasCluster
      | [] =>
          routeConfigs <- FindRouteConfigsByNodeGroupId repo name ;;
          for_each routeConfigs (fun routeConfig =>
            vHosts <- FindVirtualHostsByRouteConfig repo (RouteConfiguration_Id routeConfig) ;;
            match vHosts with _ :: _ => fail ErrHasVirtualHost | [] => ret tt end) ;;;
          ret routeConfigs
      end
  end.
Definition deleteGatewayDeclaration (repo : repo) (req : GatewayDeclaration) (existingNodegroup : option NodeGroup) : prog World unit :=
  match existingNodegroup with
  | None => ret tt
  | Some _ =>
      routeConfigsToDrop <- validateCanDeleteNodeGroup repo req ;;
      for_each routeConfigsToDrop (fun routeConfig => DeleteRouteConfigById repo (RouteConfiguration_Id routeConfig)) ;;;
      DeleteListenerByNodeGroupName repo (GatewayDeclaration_Name req) ;;;
      DeleteNodeGroupByName repo (GatewayDeclaration_Name req) ;;;
      GenerateEnvoyEntityVersions repo (GatewayDeclaration_Name req) [table_name ListenerTable]
  end.

(** * Declaration *)

Definition isAllowedCluster (repo : repo) (clusterName : string) : prog World unit :=
  endpoints <- FindEndpointsByClusterName repo clusterName ;;
  if forallb (fun e => String.eqb (Endpoint_Address e) PublicGateway || String.eqb (Endpoint_Address e) PrivateGateway) endpoints
  then ret tt else fail ErrInvalidEndpoint.
Definition forbids_virtual_hosts (req : GatewayDeclaration) : bool :=
  match GatewayDeclaration_AllowVirtualHosts req with Some allow => negb allow | None => false end.
Definition validateCanApplyGatewayDeclaration (repo : repo) (req : GatewayDeclaration) : prog World unit :=
  let virtualHostsForbidden := forbids_virtual_hosts req in
  let ingress := String.eqb (GatewayDeclaration_GatewayType req) Ingress in
  if negb virtualHostsForbidden && negb ingress then ret tt
  else
    virtualHosts <- FindVirtualHostsByNodeGroup repo (GatewayDeclaration_Name req) ;;
    (if virtualHostsForbidden
     then match virtualHosts with
          | [] => ret tt
          | [vh] => if HasGenericDomain vh then ret tt else fail ErrInvalidVirtualHost
          | _ => fail ErrMultipleVirtualHosts
          end
     else ret tt) ;;;
    if ingress
    then for_each virtualHosts (fun virtualHost =>
           for_each (VirtualHost_Routes virtualHost) (fun route =>
             if negb (Route_DirectResponseCode route =? 0)%Z then ret tt
             else isAllowedCluster repo (Route_ClusterName route)))
    else ret tt.
Definition generateEnvoyEntityVersions (repo : repo) (gateway : string) : prog World unit :=
  GenerateEnvoyEntityVersions repo gateway [table_name RouteConfigurationTable; table_name ListenerTable].
Definition declared (req : GatewayDeclaration) : NodeGroup :=
  mkNodeGroup (GatewayDeclaration_Name req) (GatewayDeclaration_GatewayType req) (forbids_virtual_hosts req).
Definition same_declaration (existing nodeGroup : NodeGroup) : bool :=
  String.eqb (NodeGroup_GatewayType existing) (NodeGroup_GatewayType nodeGroup)
  && Bool.eqb (NodeGroup_ForbidVirtualHosts existing) (NodeGroup_ForbidVirtualHosts nodeGroup).
Definition applyGatewayDeclaration (repo : repo) (req : GatewayDeclaration) (existingNodegroup : option NodeGroup) : prog World unit :=
  let nodeGroup := declared req in
  if match existingNodegroup with Some existing => same_declaration existing nodeGroup | None => false end
  then ret tt
  else
    validateCanApplyGatewayDeclaration repo req ;;;
    SaveNodeGroup repo nodeGroup ;;;
    generateEnvoyEntityVersions repo (GatewayDeclaration_Name req).

(** * The service *)

Definition apply_payload (res : GatewayDeclaration) : prog World unit :=
  existingNodegroup <- FindNodeGroupByName InTx (GatewayDeclaration_Name res) ;;
  if GatewayDeclaration_IsDeleteRequest res
  then deleteGatewayDeclaration InTx res existingNodegroup
  else applyGatewayDeclaration InTx res existingNodegroup.
Definition Apply (res : GatewayDeclaration) : prog World unit :=
  changes <- unwrap_known IsInputError (WithWTx (apply_payload res)) ;;
  match changes with
  | [] => ret tt
  | _ => Publish TopicChanges (NewChangeEventByNodeGroup (GatewayDeclaration_Name res) changes)
  end.
Definition GetAll : prog World (list GatewayDeclaration) :=
  nodeGroups <- FindAllNodeGroups Local ;; ret (convertToDto <$> nodeGroups).
End gateway.
