(* ===== verification/RateLimits.v ===== *)
(** [services/ratelimit]: rate limits are saved and deleted by name and
    priority; a limit of nothing deletes. *)
From S2P Require Import Prelude GoLib Domain Tables MemDb Msaddr Events Runtime Dao Entity.
Open Scope string_scope.

(** [dto.RateLimit] and its conversions. *)
Record RateLimitDto := mkRateLimitDto {
  RateLimitDto_Name : string;
  RateLimitDto_LimitRequestPerSecond : Z;
  RateLimitDto_Priority : string;
  RateLimitDto_Overridden : bool
}.
Definition ConfigPriority_String (p : Z) : string :=
  if (p =? Product)%Z then "PRODUCT"
  else if (p =? Project)%Z then "PROJECT"
  else "CustomPriority{" ++ strconv_Itoa p ++ "}".
(** The limit becomes an unsigned value of 32 bits. *)
Definition ConvertRateLimitToDomain (rateLimit : RateLimitDto) : result RateLimit :=
  result_bind (PriorityFromString (RateLimitDto_Priority rateLimit)) (fun priority =>
  Ok (mkRateLimit (RateLimitDto_Name rateLimit) (RateLimitDto_LimitRequestPerSecond rateLimit mod 2 ^ 32)%Z priority)).
Definition ConvertRateLimitToDTO (rateLimit : RateLimit) : RateLimitDto :=
  mkRateLimitDto (RateLimit_Name rateLimit) (RateLimit_LimitRequestsPerSecond rateLimit)
    (ConfigPriority_String (RateLimit_Priority rateLimit)) false.
(** [rateLimitResource.Validate] *)
Definition ValidateRequest (rateLimit : RateLimitDto) : option string :=
  if String.eqb (RateLimitDto_Name rateLimit) "" then Some "spec.name is mandatory" else None.

Section service.
Context `{R : Runtime}.

Definition GetRateLimits : prog World (list RateLimitDto) :=
  rateLimits <- FindAllRateLimits Local ;; ret (ConvertRateLimitToDTO <$> rateLimits).

(** New versions for the route configurations of these virtual hosts. *)
Definition stamp_virtual_hosts (repo : repo) (vHostsToUpdate : gset Z) : prog World unit :=
  ids <- range (elements vHostsToUpdate) ;;
  for_each ids (fun vHostId =>
    routeConfig <- FindRouteConfigurationByVirtualHostId repo vHostId ;;
    routeConfig <- deref routeConfig ;;
    now <- Now ;;
    SaveEnvoyConfigVersion repo
      (NewEnvoyConfigVersion now (RouteConfiguration_NodeGroupId routeConfig) (table_name RouteConfigurationTable))).
Definition updateEnvoyConfigVersions (repo : repo) (rateLimitName : string) : prog World unit :=
  routes <- FindRoutesByRateLimit repo rateLimitName ;;
  allVHosts <- FindAllVirtualHosts repo ;;
  stamp_virtual_hosts repo (list_to_set ((Route_VirtualHostId <$> routes)
    ++ (VirtualHost_Id <$> List.filter (fun v => String.eqb (VirtualHost_RateLimitId v) rateLimitName) allVHosts))).

(** One change is the rate limit itself: no route configuration uses it. *)
Definition applyRateLimit (applyFunc : prog World unit) : prog World unit :=
  changes <- WithWTx applyFunc ;;
  match changes with
  | [] | [_] => ret tt
  | _ => Publish TopicMultipleChanges (NewMultipleChangeEvent changes)
  end.
Definition saveRateLimit (rateLimit : RateLimit) : prog World unit :=
  applyRateLimit (SaveRateLimit InTx rateLimit ;;; updateEnvoyConfigVersions InTx (RateLimit_Name rateLimit)).
Definition deleteRateLimit (rateLimit : RateLimit) : prog World unit :=
  applyRateLimit (DeleteRateLimitByNameAndPriority InTx (RateLimit_Name rateLimit) (RateLimit_Priority rateLimit) ;;;
                  updateEnvoyConfigVersions InTx (RateLimit_Name rateLimit)).
(** [LimitRequestsPerSecond <= 0] of an unsigned value. *)
Definition ApplyRateLimit (rateLimit : RateLimitDto) : prog World unit :=
  rateLimitToSave <- lift (ConvertRateLimitToDomain rateLimit) ;;
  if (RateLimit_LimitRequestsPerSecond rateLimitToSave <=? 0)%Z then deleteRateLimit rateLimitToSave
  else saveRateLimit rateLimitToSave.
Definition DeleteRateLimit (rateLimit : RateLimitDto) : prog World unit :=
  rateLimitToDelete <- lift (ConvertRateLimitToDomain rateLimit) ;; deleteRateLimit rateLimitToDelete.
End service.
