(* ===== verification/ClusterService.v ===== *)
(** [services/cluster/service.go]: clusters declared as resources, outside of
    the registration of routes. *)
From S2P Require Import Prelude GoLib Domain Tables MemDb Msaddr Events RegCommon Runtime Dao Entity Dto.
Open Scope string_scope.

(** [dto.ClusterConfigRequestV3] *)
Record ClusterConfigRequestV3 := mkClusterConfigRequestV3 {
  ClusterConfig_Gateways : list string;
  ClusterConfig_Name : string;
  ClusterConfig_Endpoints : list string;
  ClusterConfig_TLS : string;
  ClusterConfig_CircuitBreaker : dto.CircuitBreaker;
  ClusterConfig_TcpKeepalive : option dto.TcpKeepalive;
  ClusterConfig_Overridden : bool;
  ClusterConfig_MaxRequestsPerConnection : Z;
  ClusterConfig_ConnectionIdleTimeout : option Z
}.
(** [clusterResource.GetDefinition]: what is missing in a request. *)
Definition validate_cluster_resource (r : ClusterConfigRequestV3) : option string :=
  if String.eqb (ClusterConfig_Name r) "" then Some "spec.name is mandatory"
  else match ClusterConfig_Endpoints r, ClusterConfig_Gateways r with
       | [], _ => Some "spec.endpoints is mandatory"
       | _, [] => Some "spec.gateways is mandatory"
       | _, _ => None
       end.

Section service.
Context `{R : Runtime} `{E : EntityService} `{U : NetUrl}.

(** [RawEndpoint.HostPort]: the port of the scheme stands in for one that is
    missing or 0. *)
Definition HostPort (endpoint : string) : result (string * Z) :=
  let stringEndpoint := if strings_Contains endpoint "://" then endpoint else SelectUrl ++ "://" ++ endpoint in
  match url_Parse stringEndpoint with
  | None => Err (ErrMsg "url: parse error")
  | Some u =>
      let parsed :=
        if String.eqb (URL_Port u) "" then Some 0%Z
        else match digits_value (URL_Port u) 0 with
             | Some p => if (p <? 2 ^ 16)%Z then Some p else None
             | None => None
             end in
      match parsed with
      | None => Err (ErrMsg "strconv.ParseUint: value out of range")
      | Some 0%Z =>
          match net_LookupPort (URL_Scheme u) with
          | Some port => Ok (URL_Hostname u, port)
          | None => Err (ErrMsg "net: unknown port")
          end
      | Some port => Ok (URL_Hostname u, port)
      end
  end.

(** The circuit breaker of a request: an id without its row is a nil
    dereference here. *)
Definition put_circuit_breaker (dao : repo) (maxConnections : Z) (clusterToAdd : Cluster) : prog World Cluster :=
  if negb (maxConnections =? 0)%Z then
    circuitBreaker <- (if (Cluster_CircuitBreakerId clusterToAdd =? 0)%Z then ret (zero : CircuitBreaker)
                       else found <- FindCircuitBreakerById dao (Cluster_CircuitBreakerId clusterToAdd) ;; deref found) ;;
    threshold <- (if (CircuitBreaker_ThresholdId circuitBreaker =? 0)%Z then ret (zero : Threshold)
                  else found <- FindThresholdById dao (CircuitBreaker_ThresholdId circuitBreaker) ;; deref found) ;;
    threshold <- SaveThreshold dao (threshold <| Threshold_MaxConnections := int32 maxConnections |>) ;;
    circuitBreaker <- SaveCircuitBreaker dao (circuitBreaker <| CircuitBreaker_ThresholdId := Threshold_Id threshold |>) ;;
    ret (clusterToAdd <| Cluster_CircuitBreakerId := CircuitBreaker_Id circuitBreaker |>)
  else if (Cluster_CircuitBreakerId clusterToAdd =? 0)%Z then ret clusterToAdd
  else
    DeleteCircuitBreakerCascadeById dao (Cluster_CircuitBreakerId clusterToAdd) ;;;
    ret (clusterToAdd <| Cluster_CircuitBreakerId := 0%Z |>).

(** The cluster before the repository is asked about its name. *)
Definition requested_cluster (cluster : ClusterConfigRequestV3) (tlsConfig : option TlsConfig) : Cluster :=
  let c := NewCluster (ClusterConfig_Name cluster) false in
  match tlsConfig with Some t => c <| Cluster_TLSId := TlsConfig_Id t |> | None => c end.
Definition with_keepalive (cluster : ClusterConfigRequestV3) (c : Cluster) : Cluster :=
  match ClusterConfig_TcpKeepalive cluster with
  | Some k => c <| Cluster_TcpKeepalive := Some ((zero : TcpKeepalive)
                <| TcpKeepalive_Probes := int32 (dto.TcpKeepalive_Probes k) |>
                <| TcpKeepalive_Time := int32 (dto.TcpKeepalive_Time k) |>
                <| TcpKeepalive_Interval := int32 (dto.TcpKeepalive_Interval k) |>) |>
  | None => c
  end.
Definition with_limits (cluster : ClusterConfigRequestV3) (c : Cluster) : Cluster :=
  let c := if negb (ClusterConfig_MaxRequestsPerConnection cluster =? 0)%Z
           then c <| Cluster_MaxRequestsPerConnection := int32 (ClusterConfig_MaxRequestsPerConnection cluster) |> else c in
  match ClusterConfig_ConnectionIdleTimeout cluster with
  | Some t => c <| Cluster_ConnectionIdleTimeout := NewNullInt t |>
  | None => c
  end.
(** The versions of the endpoints are resolved among what is committed, outside
    of the transaction. *)
Definition endpoint_to_add (dao : repo) (clusterName : string) (clusterId : Z) (e : string) : prog World Endpoint :=
  hp <- lift (HostPort e) ;;
  version <- GetActiveDeploymentVersion dao ;;
  versions <- ResolveVersions Local clusterName "" (DeploymentVersion_Version version) ;;
  ret ((zero : Endpoint) <| Endpoint_Address := hp.1 |> <| Endpoint_Port := int32 hp.2 |>
         <| Endpoint_DeploymentVersion := versions.2 |> <| Endpoint_InitialDeploymentVersion := versions.1 |>
         <| Endpoint_ClusterId := clusterId |>).
Definition AddClusterDaoProvided (dao : repo) (nodeGroupId : string) (cluster : ClusterConfigRequestV3) : prog World unit :=
  tlsConfig <- FindTlsConfigByName dao (ClusterConfig_TLS cluster) ;;
  clusterToAdd <- RebaseCluster dao (requested_cluster cluster tlsConfig) ;;
  clusterToAdd <- UpdateClusterTcpKeepalive dao (with_keepalive cluster clusterToAdd) ;;
  clusterToAdd <- put_circuit_breaker dao
                    (dto.Threshold_MaxConnections (dto.CircuitBreaker_Threshold (ClusterConfig_CircuitBreaker cluster))) clusterToAdd ;;
  clusterToAdd <- SaveCluster dao (with_limits cluster clusterToAdd) ;;
  PutClustersNodeGroupIfAbsent dao (NewClusterNodeGroups (Cluster_Id clusterToAdd) nodeGroupId) ;;;
  endpointsToAdd <- map_each (ClusterConfig_Endpoints cluster)
                      (endpoint_to_add dao (ClusterConfig_Name cluster) (Cluster_Id clusterToAdd)) ;;
  PutEndpoints dao (Cluster_Id clusterToAdd) endpointsToAdd ;;;
  now <- Now ;;
  SaveEnvoyConfigVersion dao (NewEnvoyConfigVersion now nodeGroupId (table_name ClusterTable)).
(** The error of the transaction is overwritten by that of the announcement. *)
Definition AddCluster (nodeGroupId : string) (cluster : ClusterConfigRequestV3) : prog World unit :=
  changes <- try_ok (WithWTx (AddClusterDaoProvided InTx nodeGroupId cluster)) ;;
  Publish TopicChanges (NewChangeEventByNodeGroup nodeGroupId (default [] changes)).
(** The handler of the resource. *)
Definition handle_cluster_resource (cluster : ClusterConfigRequestV3) : prog World unit :=
  for_each (ClusterConfig_Gateways cluster) (fun nodeGroupId => AddCluster nodeGroupId cluster).
End service.
