(* ===== verification/HttpFilters.v ===== *)
(** [services/httpFilter] and [services/httpFilter/extAuthz]: WASM and Lua
    filters of gateways, and the external authorisation of a gateway. *)
From S2P Require Import Prelude GoLib Domain Tables MemDb Msaddr Events RegCommon Runtime Dao Entity.
From S2P Require Import Format RouteCreation Dto Requests Registration RateLimits ClusterService.
Open Scope string_scope.

(** * Requests *)

Record WasmFilterDto := mkWasmFilterDto {
  WasmFilterDto_Name : string;
  WasmFilterDto_URL : string;
  WasmFilterDto_SHA256 : string;
  WasmFilterDto_TlsConfigName : string;
  WasmFilterDto_Timeout : Z;
  WasmFilterDto_Params : list (gmap string any)
}.
Record LuaFilterDto := mkLuaFilterDto { LuaFilterDto_Name : string; LuaFilterDto_LuaScript : string }.
Record ExtAuthz := mkExtAuthz {
  ExtAuthz_Name : string;
  ExtAuthz_Destination : dto.RouteDestination;
  ExtAuthz_ContextExtensions : gmap string string;
  ExtAuthz_Timeout : option Z
}.
Record HttpFiltersConfigRequestV3 := mkHttpFiltersConfigRequestV3 {
  HttpFilters_Gateways : list string;
  HttpFilters_WasmFilters : list WasmFilterDto;
  HttpFilters_ExtAuthzFilter : option ExtAuthz;
  HttpFilters_LuaFilters : list LuaFilterDto;
  HttpFilters_Overridden : bool
}.
Record HttpFiltersDropConfigRequestV3 := mkHttpFiltersDropConfigRequestV3 {
  HttpFiltersDrop_Gateways : list string;
  HttpFiltersDrop_WasmFilters : list (gmap string any);
  HttpFiltersDrop_ExtAuthzFilter : option ExtAuthz;
  HttpFiltersDrop_LuaFilters : list (gmap string any);
  HttpFiltersDrop_Overridden : bool
}.
(** [f["name"].(string)] of each filter. *)
Definition asSliceByName (filters : list (gmap string any)) : result (list string) :=
  map_result (fun f : gmap string any => match f !! "name" with
                | Some (any_str s) => Ok s
                | _ => Panic "interface conversion"
                end) filters.

Section filters.
Context `{R : Runtime} `{E : EntityService} `{U : NetUrl} `{T : TlsMode}.

(** A key of the map, the first that the iteration comes to. *)
Definition firstKey (m : gmap string any) : prog World (string * any) :=
  entries <- range (map_to_list m) ;; ret (default ("", any_nil) (head entries)).
Definition ConvertFilterToDomain (filter : WasmFilterDto) : prog World WasmFilter :=
  convertedParams <- fold_each (WasmFilterDto_Params filter) (∅ : gmap string any) (fun params kv =>
    first <- firstKey kv ;; ret (<[first.1 := first.2]> params)) ;;
  ret (mkWasmFilter 0 (WasmFilterDto_Name filter) (WasmFilterDto_URL filter) (WasmFilterDto_SHA256 filter)
         (WasmFilterDto_TlsConfigName filter) (WasmFilterDto_Timeout filter) convertedParams).
Definition ConvertWasmDomainToFilter (filter : WasmFilter) : prog World WasmFilterDto :=
  params <- range (map_to_list (WasmFilter_Params filter)) ;;
  ret (mkWasmFilterDto (WasmFilter_Name filter) (WasmFilter_URL filter) (WasmFilter_SHA256 filter)
         (WasmFilter_TlsConfigName filter) (WasmFilter_Timeout filter)
         ((fun kv => {[kv.1 := kv.2]}) <$> params)).
Definition ConvertLuaFilterToDomain (filter : LuaFilterDto) : LuaFilter :=
  mkLuaFilter 0 (LuaFilterDto_Name filter) (LuaFilterDto_LuaScript filter).

Definition publish_filters (nodeGroupId : string) (changes : list Change) : prog World unit :=
  Publish TopicChanges (NewChangeEventByNodeGroup nodeGroupId changes).
Definition publish_if_changed (nodeGroupId : string) (changes : list Change) : prog World unit :=
  match changes with [] => ret tt | _ => publish_filters nodeGroupId changes end.
Definition updateRelatedVersions (nodeGroupId : string) (dao : repo) : prog World unit :=
  now <- Now ;; SaveEnvoyConfigVersion dao (NewEnvoyConfigVersion now nodeGroupId (table_name ListenerTable)).
Definition updateLuaRelatedVersions (repo : repo) (routes : list Route) : prog World unit :=
  stamp_virtual_hosts repo (list_to_set (Route_VirtualHostId <$> routes)).

(** * WASM filters *)

Definition wasm_url (address : string) : result URL :=
  match url_Parse address with Some u => Ok u | None => Err (ErrMsg "url: parse error") end.
(** The cluster a filter is loaded from, made when it is missing, with a TLS
    configuration of its own over https. *)
Definition add_wasm_cluster (dao : repo) (nodeGroupId : string) (f : WasmFilterDto) (clusterName : string) : prog World unit :=
  clusterUrl <- lift (wasm_url (WasmFilterDto_URL f)) ;;
  tls <- (if String.eqb (URL_Scheme clusterUrl) "https"
          then
            let tlsConfigName := clusterName ++ "-tls" in
            _ <- SaveTlsConfig dao ((zero : TlsConfig) <| TlsConfig_Name := tlsConfigName |> <| TlsConfig_Enabled := true |>) ;;
            ret tlsConfigName
          else ret (WasmFilterDto_TlsConfigName f)) ;;
  AddClusterDaoProvided dao nodeGroupId
    (mkClusterConfigRequestV3 [nodeGroupId] clusterName [URL_Scheme clusterUrl ++ "://" ++ URL_Host clusterUrl] tls
       (dto.mkCircuitBreaker (dto.mkThreshold 0)) None false 0 None).
Definition prepare_wasm_filter (dao : repo) (nodeGroupId : string) (f : WasmFilterDto) : prog World WasmFilter :=
  wasmFilter <- ConvertFilterToDomain f ;;
  u <- lift (wasm_url (WasmFilter_URL wasmFilter)) ;;
  let clusterName := URL_Host u ++ "-cluster" in
  foundCluster <- FindClusterByName dao clusterName ;;
  match foundCluster with
  | Some _ => ret tt
  | None => add_wasm_cluster dao nodeGroupId f clusterName
  end ;;;
  ret wasmFilter.
Definition add_wasm_filters (dao : repo) (nodeGroupId : string) (filters : list WasmFilterDto) : prog World unit :=
  filtersToAdd <- map_each filters (prepare_wasm_filter dao nodeGroupId) ;;
  listeners <- FindListenersByNodeGroupId dao nodeGroupId ;;
  match listeners with
  | [] => fail (ErrMsg ("can not find listener with nodeGroupId=" ++ nodeGroupId))
  | _ =>
      for_each listeners (fun listener =>
        for_each filtersToAdd (fun filterToAdd =>
          saved <- PutWasmFilter dao filterToAdd ;;
          PutListenerWasmFilterIfAbsent dao (mkListenersWasmFilter (Listener_Id listener) (WasmFilter_Id saved)))) ;;;
      updateRelatedVersions nodeGroupId dao
  end.
Definition AddWasmFilter (nodeGroupId : string) (filters : list WasmFilterDto) : prog World unit :=
  changes <- WithWTx (add_wasm_filters InTx nodeGroupId filters) ;;
  publish_filters nodeGroupId changes.

(** A filter goes when no listener has any filter; an unknown name ends the
    transaction, and what was deleted before it stays deleted. *)
Definition delete_wasm_filter (dao : repo) (nodeGroupId name : string) (foundFilter : WasmFilter) : prog World unit :=
  foundListeners <- FindListenersByNodeGroupId dao nodeGroupId ;;
  for_each foundListeners (fun fl =>
    DeleteListenerWasmFilter dao (mkListenersWasmFilter (Listener_Id fl) (WasmFilter_Id foundFilter))) ;;;
  wasmFilterRelations <- FindAllListenerWasmFilter dao ;;
  match wasmFilterRelations with
  | [] => _ <- DeleteWasmFilterByName dao name ;; ret tt
  | _ => ret tt
  end.
Fixpoint delete_wasm_filters (dao : repo) (nodeGroupId : string) (filters : list string) : prog World unit :=
  match filters with
  | [] => updateRelatedVersions nodeGroupId dao
  | f :: rest =>
      foundFilter <- FindWasmFilterByName dao f ;;
      match foundFilter with
      | None => ret tt
      | Some foundFilter => delete_wasm_filter dao nodeGroupId f foundFilter ;;; delete_wasm_filters dao nodeGroupId rest
      end
  end.
Definition DeleteWasmFilter (nodeGroupId : string) (filters : list string) : prog World unit :=
  changes <- WithWTx (delete_wasm_filters InTx nodeGroupId filters) ;;
  publish_if_changed nodeGroupId changes.

(** * Lua filters *)

Definition add_lua_filters (dao : repo) (filters : list LuaFilterDto) : prog World unit :=
  for_each filters (fun f =>
    luaFilter <- PutLuaFilter dao (ConvertLuaFilterToDomain f) ;;
    routes <- try_ok (FindRoutesByLuaFilter dao (LuaFilter_Name luaFilter)) ;;
    match routes with
    | Some (_ :: _ as routes) => updateLuaRelatedVersions dao routes
    | _ => ret tt
    end).
Definition AddLuaFilter (nodeGroupId : string) (filters : list LuaFilterDto) : prog World unit :=
  changes <- WithWTx (add_lua_filters InTx filters) ;;
  publish_filters nodeGroupId changes.

(** [routesFound] is what was collected before. *)
Fixpoint delete_lua_filters (dao : repo) (filters : list string) (routesFound : list Route) : prog World unit :=
  match filters with
  | [] => match routesFound with [] => ret tt | _ => updateLuaRelatedVersions dao routesFound end
  | f :: rest =>
      foundFilter <- FindLuaFilterByName dao f ;;
      match foundFilter with
      | None => ret tt
      | Some foundFilter =>
          foundRoutes <- FindRoutesByLuaFilter dao (LuaFilter_Name foundFilter) ;;
          saved <- map_each foundRoutes (fun route =>
            SaveRoute dao (route <| Route_LuaFilterName := "" |> <| Route_LuaFilter := None |>)) ;;
          _ <- DeleteLuaFilterByName dao f ;;
          delete_lua_filters dao rest (routesFound ++ saved)
      end
  end.
Definition DeleteLuaFilter (nodeGroupId : string) (filters : list string) : prog World unit :=
  changes <- WithWTx (delete_lua_filters InTx filters []) ;;
  publish_if_changed nodeGroupId changes.

(** * External authorisation ([extAuthz/service.go]) *)

Definition ErrNameTaken : error := ErrMsg "extAuthz: extAuthz filter with such name is used by another gateway".
Definition is_name_taken (e : error) : bool := bool_decide (e = ErrNameTaken).
Definition IsOobGateway (gateway : string) : bool :=
  String.eqb gateway "internal-gateway-service" || String.eqb gateway PrivateGateway || String.eqb gateway PublicGateway.

(** [None] is a valid request. *)
Definition validateGatewaysAndFilterName (extAuthz : ExtAuthz) (gateways : list string) : option string :=
  match gateways with
  | [] => Some "field 'gateways' must not be empty"
  | [gateway] =>
      if String.eqb (strings_TrimSpace gateway) "" then Some "gateway name must not be empty string"
      else if IsOobGateway gateway then Some ("it is forbidden to configure extAuthz filter for " ++ gateway)
      else if String.eqb (ExtAuthz_Name extAuthz) "" then Some "field 'name' in 'extAuthz' filter spec must not be empty"
      else None
  | _ => Some "field 'gateways' must contain only one gateway in case 'extAuthz' is not null, since different gateways cannot have 'extAuthz' filters with the same names"
  end.
Definition ExtAuthz_ValidateApply (extAuthz : ExtAuthz) (gateways : list string) : option string :=
  match validateGatewaysAndFilterName extAuthz gateways with
  | Some msg => Some msg
  | None =>
      let destination := ExtAuthz_Destination extAuthz in
      if String.eqb (dto.RouteDestination_Cluster destination) "" then
        Some "field 'destination.cluster' in 'extAuthz' filter spec must not be empty"
      else if String.eqb (dto.RouteDestination_Endpoint destination) "" && String.eqb (dto.RouteDestination_TlsEndpoint destination) "" then
        Some "at least one of the fields 'destination.endpoint' and 'destination.tlsEndpoint' in 'extAuthz' filter spec must not be empty"
      else None
  end.
Definition ExtAuthz_ValidateDelete := validateGatewaysAndFilterName.

Definition newExtAuthzFilter (gateway clusterKey : string) (request : ExtAuthz) : ExtAuthzFilter :=
  mkExtAuthzFilter (ExtAuthz_Name request) clusterKey (default 0%Z (ExtAuthz_Timeout request))
    (ExtAuthz_ContextExtensions request) gateway.
Definition applyForGateway (repo : repo) (extAuthz : ExtAuthz) (gateway : string) : prog World unit :=
  existingFilter <- FindExtAuthzFilterByName repo (ExtAuthz_Name extAuthz) ;;
  if match existingFilter with Some f => negb (String.eqb (ExtAuthzFilter_NodeGroup f) gateway) | None => false end
  then fail ErrNameTaken
  else
    activeVersion <- GetActiveDeploymentVersion repo ;;
    _ <- CreateOrUpdateNodeGroup repo ((zero : NodeGroup) <| NodeGroup_Name := gateway |>) ;;
    cluster <- lift (ProcessDestination (ExtAuthz_Destination extAuthz) "" (DeploymentVersion_Version activeVersion) false) ;;
    let tlsConfigName := match Cluster_TLS cluster with Some t => TlsConfig_Name t | None => "" end in
    RegistrationService_SaveCluster repo cluster tlsConfigName [gateway] ;;;
    SaveExtAuthzFilter repo (newExtAuthzFilter gateway (Cluster_Name cluster) extAuthz) ;;;
    GenerateEnvoyEntityVersions repo gateway [table_name RouteConfigurationTable; table_name ListenerTable; table_name ClusterTable].
Definition deleteForGateway (repo : repo) (extAuthz : ExtAuthz) (gateway : string) : prog World unit :=
  existingFilter <- FindExtAuthzFilterByName repo (ExtAuthz_Name extAuthz) ;;
  match existingFilter with
  | None => ret tt
  | Some f =>
      if negb (String.eqb (ExtAuthzFilter_NodeGroup f) gateway) then fail ErrNameTaken
      else
        DeleteExtAuthzFilter repo (ExtAuthz_Name extAuthz) ;;;
        GenerateEnvoyEntityVersions repo gateway [table_name RouteConfigurationTable; table_name ListenerTable]
  end.
Definition publish_gateways (gateways : list string) (changes : list Change) : prog World unit :=
  match changes with [] => ret tt | _ => for_each gateways (fun gateway => publish_filters gateway changes) end.
Definition ExtAuthz_Apply (extAuthz : ExtAuthz) (gateways : list string) : prog World unit :=
  changes <- unwrap_known is_name_taken (WithWTx (for_each gateways (applyForGateway InTx extAuthz))) ;;
  publish_gateways gateways changes.
Definition ExtAuthz_Delete (extAuthz : ExtAuthz) (gateways : list string) : prog World unit :=
  changes <- unwrap_known is_name_taken (WithWTx (for_each gateways (deleteForGateway InTx extAuthz))) ;;
  publish_gateways gateways changes.

(** The payload returns a struct, and the caller asserts a pointer. *)
Definition get_payload (repo : repo) (gateway : string) : prog World (option ExtAuthz) :=
  extAuthz <- FindExtAuthzFilterByNodeGroup repo gateway ;;
  match extAuthz with
  | None => ret None
  | Some extAuthz =>
      activeVersion <- GetActiveDeploymentVersion repo ;;
      endpoints <- FindEndpointsByClusterName repo (ExtAuthzFilter_ClusterName extAuthz) ;;
      let endpointAddr :=
        match List.find (fun e => String.eqb (Endpoint_DeploymentVersion e) (DeploymentVersion_Version activeVersion)) endpoints with
        | Some e => Endpoint_Protocol e ++ "://" ++ Endpoint_Address e ++ ":" ++ strconv_Itoa (Endpoint_Port e)
        | None => ""
        end in
      ret (Some (mkExtAuthz (ExtAuthzFilter_Name extAuthz)
        (dto.mkRouteDestination (ExtractFamilyName (ExtAuthzFilter_ClusterName extAuthz)) false endpointAddr "" None ""
           (dto.mkCircuitBreaker (dto.mkThreshold 0)) None)
        (ExtAuthzFilter_ContextExtensions extAuthz)
        (if (ExtAuthzFilter_Timeout extAuthz =? 0)%Z then None else Some (ExtAuthzFilter_Timeout extAuthz))))
  end.
Definition ExtAuthz_Get (gateway : string) : prog World (option ExtAuthz) :=
  extAuthz <- WithRTxVal (get_payload InTx gateway) ;;
  match extAuthz with
  | Some _ => panic "interface conversion: interface is dto.ExtAuthz, not *dto.ExtAuthz"
  | None => ret None
  end.

(** * The service *)

Definition GetGatewayFilters (nodeGroup : string) : prog World HttpFiltersConfigRequestV3 :=
  listeners <- FindListenersByNodeGroupId Local nodeGroup ;;
  wasmFilterDtos <- map_each listeners (fun listener =>
    wasmFilters <- FindWasmFilterByListenerId Local (Listener_Id listener) ;;
    map_each wasmFilters ConvertWasmDomainToFilter) ;;
  extAuthzFilter <- ExtAuthz_Get nodeGroup ;;
  ret (mkHttpFiltersConfigRequestV3 [nodeGroup] (concat wasmFilterDtos) extAuthzFilter [] false).
Definition when_any {A} (l : list A) (m : prog World unit) : prog World unit := match l with [] => ret tt | _ => m end.
Definition HttpFilters_Apply (req : HttpFiltersConfigRequestV3) : prog World unit :=
  when_any (HttpFilters_WasmFilters req)
    (for_each (HttpFilters_Gateways req) (fun nodeGroupId => AddWasmFilter nodeGroupId (HttpFilters_WasmFilters req))) ;;;
  when_any (HttpFilters_LuaFilters req)
    (for_each (HttpFilters_Gateways req) (fun nodeGroupId => AddLuaFilter nodeGroupId (HttpFilters_LuaFilters req))) ;;;
  match HttpFilters_ExtAuthzFilter req with
  | Some extAuthz => ExtAuthz_Apply extAuthz (HttpFilters_Gateways req)
  | None => ret tt
  end.
Definition HttpFilters_Delete (req : HttpFiltersDropConfigRequestV3) : prog World unit :=
  when_any (HttpFiltersDrop_WasmFilters req)
    (for_each (HttpFiltersDrop_Gateways req) (fun nodeGroupId =>
       names <- lift (asSliceByName (HttpFiltersDrop_WasmFilters req)) ;; DeleteWasmFilter nodeGroupId names)) ;;;
  when_any (HttpFiltersDrop_LuaFilters req)
    (for_each (HttpFiltersDrop_Gateways req) (fun nodeGroupId =>
       names <- lift (asSliceByName (HttpFiltersDrop_LuaFilters req)) ;; DeleteLuaFilter nodeGroupId names)) ;;;
  match HttpFiltersDrop_ExtAuthzFilter req with
  | Some extAuthz => ExtAuthz_Delete extAuthz (HttpFiltersDrop_Gateways req)
  | None => ret tt
  end.
Definition HttpFilters_ValidateApply (req : HttpFiltersConfigRequestV3) : option string :=
  match HttpFilters_Gateways req, HttpFilters_ExtAuthzFilter req with
  | [], _ => Some "spec.gateways is mandatory"
  | gateways, Some extAuthz => ExtAuthz_ValidateApply extAuthz gateways
  | _, None => None
  end.
Definition HttpFilters_ValidateDelete (req : HttpFiltersDropConfigRequestV3) : option string :=
  match HttpFiltersDrop_Gateways req, HttpFiltersDrop_ExtAuthzFilter req with
  | [], _ => Some "spec.gateways is mandatory"
  | gateways, Some extAuthz => ExtAuthz_ValidateDelete extAuthz gateways
  | _, None => None
  end.
End filters.
