(* ===== verification/Cleanup.v ===== *)
(** The nightly removal of the routes and clusters of local development
    ([services/cleanup]): the service, and the worker that runs it on the
    master only.

    The worker's clock is a wall clock: nanoseconds since some midnight, in a
    time zone whose days all have 24 hours. *)
From S2P Require Import Prelude GoLib Domain Tables MemDb Msaddr Events RouteKey Runtime Dao Entity.
From S2P Require Clustering.
Open Scope string_scope.

Definition localDevNamespacePostfix := ".nip.io".
Definition namespaceHeader := "namespace".
Definition cleanupHourTime : Z := 2.

Definition isLocalDevCluster (cluster : Cluster) : bool :=
  match strings_Split (Cluster_Name cluster) "||" with
  | _ :: namespace :: _ :: _ => strings_Contains namespace localDevNamespacePostfix
  | _ => false
  end.
Definition hasLocalDevHeaderMatcher (matchers : list HeaderMatcher) : bool :=
  existsb (fun matcher => strings_Contains (HeaderMatcher_ExactMatch matcher) localDevNamespacePostfix
                          && String.eqb (HeaderMatcher_Name matcher) namespaceHeader) matchers.

Section cleanup.
Context `{R : Runtime} `{H : Sha256} `{E : EntityService}.

Definition cleanup_route (repo : repo) (route : Route) : prog World unit :=
  matchers <- wrap_err "error at filling localDev route" (FindHeaderMatcherByRouteId repo (Route_Id route)) ;;
  if hasLocalDevHeaderMatcher matchers
  then wrap_err "error at deleting localDev route" (DeleteRouteCascade repo (route <| Route_HeaderMatchers := matchers |>))
  else ret tt.
Definition cleanupLocalDevRoutes (repo : repo) : prog World unit :=
  routes <- wrap_err "error at getting all routes while localDev routes cleanup" (FindAllRoutes repo) ;;
  for_each routes (cleanup_route repo).
Definition cleanupLocalDevClusters (repo : repo) (clusters : list Cluster) : prog World unit :=
  for_each clusters (fun cluster =>
    if isLocalDevCluster cluster
    then wrap_err "error at deleting localDev cluster" (DeleteClusterCascade repo (Some cluster))
    else ret tt).
Definition updateEnvoyVersions (repo : repo) (nodeGroups : list NodeGroup) : prog World unit :=
  for_each nodeGroups (fun nodeGroup =>
    wrap_err "failed to publish changes for node group" (UpdateAllResourceVersions repo (NodeGroup_Name nodeGroup))).
Definition updateEnvoyConfig (nodeGroups : list NodeGroup) (dbChanges : list Change) : prog World unit :=
  for_each nodeGroups (fun nodeGroup =>
    wrap_err "failed to publish changes after localDev cleanup"
      (Publish TopicChanges (NewChangeEventByNodeGroup (NodeGroup_Name nodeGroup) dbChanges))).
(** The clusters are read outside of the transaction. *)
Definition cleanup_payload : prog World (list NodeGroup) :=
  wrap_err "cannot perform cleanup localDev routes" (cleanupLocalDevRoutes InTx) ;;;
  clusters <- wrap_err "error at finding all clusters while performing localDev route cleanup" (FindAllClusters Local) ;;
  wrap_err "cannot cleanup localDev clusters" (cleanupLocalDevClusters InTx clusters) ;;;
  nodeGroups <- wrap_err "error at getting node groups while localDev routes cleanup for updating envoy" (FindAllNodeGroups InTx) ;;
  wrap_err "cannot update envoy with removed localDev routes" (updateEnvoyVersions InTx nodeGroups) ;;;
  ret nodeGroups.
Definition CleanupRoutes : prog World unit :=
  committed <- WithWTxVal cleanup_payload ;;
  wrap_err "cannot perform envoy config update at localDev cleanup" (updateEnvoyConfig committed.1 committed.2).

(** * The worker *)

Definition ChangeCleanupNecessary (state : Clustering.Role) : bool :=
  match state with Clustering.Master => true | _ => false end.
(** An error is logged. *)
Definition performCleanupIfNeeds (mustPerformCleanup : bool) : prog World unit :=
  if mustPerformCleanup then ignore_err CleanupRoutes else ret tt.
End cleanup.

Definition hour : Z := 3600 * 1000000000.
Definition day : Z := 24 * hour.
(** The next two o'clock in the morning: [time.Date] of the day, or of the day
    after it. *)
Definition computeCleanupStartupTime (now : Z) : Z :=
  let cleanupDay := (now / day)%Z in
  let cleanupDay := if (cleanupHourTime <=? (now mod day) / hour)%Z then (cleanupDay + 1)%Z else cleanupDay in
  (cleanupDay * day + cleanupHourTime * hour)%Z.

(** * Properties

    The cleanup of local development removes exactly what it is meant to, and
    is due at the next two o'clock. *)
From S2P Require Import Prelude GoLib Domain Tables MemDb Msaddr Events RouteKey Runtime Dao DaoSpec Entity CandidateSpec.
From S2P Require RuntimeModel.
Open Scope string_scope.

(** * Deletion by a non-unique index *)

Lemma foldr_delete_Some {K A B} `{Countable K} (key : A -> K) (l : list A) (m : gmap K B) k x :
  foldr (fun x m => delete (key x) m) m l !! k = Some x <-> m !! k = Some x /\ k ∉ key <$> l.
Proof.
  induction l as [|y l IH]; simpl; [rewrite elem_of_nil; tauto|].
  rewrite lookup_delete_Some, IH, not_elem_of_cons. split; intros; destruct_and!; auto.
Qed.

Section delete_all.
Context `{RL : RuntimeLaws}.

Lemma DeleteAll_others t idx args w db :
  in_tx w db -> valid_query t idx args = true ->
  exists n db', DeleteAll InTx t idx args w = (Ok n, set_tx (Some (db', true)) w) /\ forall t', t' <> t -> rows db' t' = rows db t'.
Proof.
  intros Hw Hv. destruct (get_spec t idx args db Hv) as (l & Hl & _).
  destruct (delete_all_spec t idx args l db Hv Hl) as (db' & E & _ & Hf & _). eexists _, db'. split; [|exact Hf].
  unfold DeleteAll. rewrite (in_ctx_InTx _ _ _ _ Hw), E. reflexivity.
Qed.
Lemma DeleteAll_in_tx t idx args w db :
  in_tx w db -> valid_query t idx args = true -> args <> [] -> unique_index t idx = false -> query_key t idx args = args ->
  exists n db', DeleteAll InTx t idx args w = (Ok n, set_tx (Some (db', true)) w) /\
    (forall k x, rows db' t !! k = Some x <-> rows db t !! k = Some x /\ index_key t idx x <> Some args) /\
    forall t', t' <> t -> rows db' t' = rows db t'.
Proof.
  intros Hw Hv Ha Hu Hq. destruct (get_spec t idx args db Hv) as (l & Hl & _ & Hs & Hc).
  destruct (delete_all_spec t idx args l db Hv Hl) as (db' & E & Hr & Hf & _). eexists _, db'. split_and!; [|..|exact Hf].
  - unfold DeleteAll. rewrite (in_ctx_InTx _ _ _ _ Hw), E. reflexivity.
  - assert (forall x, query_match t idx args x = true <-> index_key t idx x = Some args) as Hm.
    { intros x. unfold query_match. destruct args; [done|]. by rewrite bool_decide_eq_true, Hq. }
    intros k x. rewrite Hr, foldr_delete_Some. split; intros [Hx Hk]; (split; [done|]).
    + intros Hi. apply Hk. pose proof (row_key _ _ _ _ Hx) as Hx'. destruct (rows_wf _ _ _ _ Hx) as [<- _].
      apply list_elem_of_fmap_2, Hc; [right; rewrite Hq; by apply exact_nonunique|done|by apply Hm].
    + intros (y & -> & Hy)%list_elem_of_fmap. destruct (Hs y Hy) as [Hy1 Hy2]. rewrite Hy1 in Hx. injection Hx as ->.
      by apply Hk, Hm.
Qed.
End delete_all.

(** * Routes *)

Section routes.
Context `{RL : RuntimeLaws} `{H : Sha256} `{E : EntityService}.

Abbreviation matcher_rows db := (rows db HeaderMatcherTable : gmap (list value) HeaderMatcher).
Abbreviation route_rows db := (rows db RouteTable : gmap (list value) Route).

(** A header matcher of the route with this id names a local namespace. *)
Definition local_dev (db : Db) (routeId : Z) : Prop :=
  exists k m, matcher_rows db !! k = Some m /\ HeaderMatcher_RouteId m = routeId /\
    HeaderMatcher_Name m = "namespace" /\ strings_Contains (HeaderMatcher_ExactMatch m) ".nip.io" = true.

Lemma matcher_routeId (m : HeaderMatcher) : index_key HeaderMatcherTable "routeId" m = Some [VInt (HeaderMatcher_RouteId m)].
Proof. by destruct m. Qed.
Lemma route_key (r : Route) : id_key RouteTable r = [VInt (Route_Id r)].
Proof. by destruct r. Qed.

Lemma FindHeaderMatcherByRouteId_in_tx id w db :
  in_tx w db ->
  exists l, FindHeaderMatcherByRouteId InTx id w = (Ok l, w) /\ (hasLocalDevHeaderMatcher l = true <-> local_dev db id).
Proof.
  intros Hw. destruct (FindByIndex_in_tx HeaderMatcherTable "routeId" [VInt id] w db Hw) as (l & El & _ & Hl); [done..|].
  exists l. split; [exact El|]. unfold local_dev, hasLocalDevHeaderMatcher. rewrite existsb_exists. split.
  - intros (m & Hm & Hd). apply list_elem_of_In, Hl in Hm as [Hrow Hi].
    pose proof (eq_trans (eq_sym (matcher_routeId m)) Hi) as Hid. injection Hid as Hid.
    apply andb_true_iff in Hd as [Hd Hn]. apply String.eqb_eq in Hn.
    eexists _, m. split; [exact Hrow|]. by split_and!.
  - intros (k & m & Hrow & Hid & Hn & Hd). exists m. unfold localDevNamespacePostfix, namespaceHeader. rewrite Hd, Hn. split; [|done].
    apply list_elem_of_In, Hl. split; [exact (row_key HeaderMatcherTable _ _ _ Hrow)|]. rewrite <- Hid. apply matcher_routeId.
Qed.

(** What the cascade removes from the tables of routes and matchers. *)
Lemma DeleteRouteCascade_in_tx (r : Route) w db :
  in_tx w db ->
  exists w' db', DeleteRouteCascade InTx r w = (Ok tt, w') /\ in_tx w' db' /\
    (forall k x, route_rows db' !! k = Some x <-> route_rows db !! k = Some x /\ k <> [VInt (Route_Id r)]) /\
    (forall k m, matcher_rows db' !! k = Some m <-> matcher_rows db !! k = Some m /\ HeaderMatcher_RouteId m <> Route_Id r).
Proof.
  intros Hw. unfold DeleteRouteCascade, DeleteHeaderMatchersByRouteId, DeleteRetryPolicyByRouteId, DeleteHashPolicyByRouteId,
    DeleteStatefulSessionConfig, DeleteRouteById.
  destruct (DeleteAll_in_tx HeaderMatcherTable "routeId" [VInt (Route_Id r)] w db Hw) as (n1 & db1 & E1 & R1 & F1); [done..|].
  destruct (DeleteAll_others RetryPolicyTable "routeId" [VInt (Route_Id r)] _ db1 (in_tx_set db1 w)) as (n2 & db2 & E2 & F2); [done..|].
  destruct (DeleteAll_others HashPolicyTable "routeId" [VInt (Route_Id r)] _ db2 (in_tx_set db2 w)) as (n3 & db3 & E3 & F3); [done..|].
  destruct (DeleteById_in_tx StatefulSessionTable [VInt (Route_StatefulSessionId r)] _ db3 (in_tx_set db3 w)) as (db4 & E4 & _ & F4); [done..|].
  destruct (DeleteById_in_tx RouteTable [VInt (Route_Id r)] _ db4 (in_tx_set db4 w)) as (db5 & E5 & R5 & F5); [done..|].
  rewrite !set_tx_set_tx in *. exists (set_tx (Some (db5, true)) w), db5. split_and!; [|done|..].
  - unfold bind. rewrite E1, E2. unfold ret. rewrite E3, E4. exact E5.
  - intros k x. rewrite R5, lookup_delete_Some, F4, F3, F2, F1 by done. split; intros [? ?]; by split.
  - intros k m. rewrite F5, F4, F3, F2, R1 by done. rewrite matcher_routeId. split; intros [? Hn]; (split; [done|]); congruence.
Qed.

Lemma cleanup_routes_loop (l : list Route) w db :
  in_tx w db -> NoDup (Route_Id <$> l) ->
  exists w' db', for_each l (cleanup_route InTx) w = (Ok tt, w') /\ in_tx w' db' /\
    (forall k x, route_rows db' !! k = Some x <->
       route_rows db !! k = Some x /\ ~ exists r, r ∈ l /\ k = [VInt (Route_Id r)] /\ local_dev db (Route_Id r)) /\
    (forall k m, matcher_rows db' !! k = Some m <->
       matcher_rows db !! k = Some m /\ ~ exists r, r ∈ l /\ HeaderMatcher_RouteId m = Route_Id r /\ local_dev db (Route_Id r)).
Proof.
  revert w db. induction l as [|r l IH]; intros w db Hw Hnd.
  - exists w, db. split_and!; [done..| |]; intros; split; [|tauto| |tauto]; intros Hx; (split; [done|]); by intros (r & ?%elem_of_nil & _).
  - rewrite fmap_cons, NoDup_cons in Hnd. destruct Hnd as [Hr Hnd].
    destruct (FindHeaderMatcherByRouteId_in_tx (Route_Id r) w db Hw) as (ms & Em & Hms).
    assert (cleanup_route InTx r w = (if hasLocalDevHeaderMatcher ms
      then wrap_err "error at deleting localDev route" (DeleteRouteCascade InTx (r <| Route_HeaderMatchers := ms |>)) else ret tt) w) as Estep.
    { unfold cleanup_route, bind, wrap_err at 1. by rewrite Em. }
    simpl. unfold bind. rewrite Estep.
    destruct (hasLocalDevHeaderMatcher ms) eqn:Ed.
    + destruct (DeleteRouteCascade_in_tx (r <| Route_HeaderMatchers := ms |>) w db Hw) as (w1 & db1 & E1 & Hw1 & R1 & M1).
      change (Route_Id (r <| Route_HeaderMatchers := ms |>)) with (Route_Id r) in *.
      destruct (IH w1 db1 Hw1 Hnd) as (w' & db' & El & Hw' & R' & M').
      assert (forall id, id <> Route_Id r -> local_dev db1 id <-> local_dev db id) as Hdev.
      { intros id Hid. unfold local_dev. setoid_rewrite M1. split.
        - intros (k & m & [? ?] & ? & ? & ?). by exists k, m.
        - intros (k & m & ? & ? & ? & ?). exists k, m. split_and!; try done. congruence. }
      assert (forall s, s ∈ l -> Route_Id s <> Route_Id r) as Hne.
      { intros s Hs He. apply Hr. rewrite <- He. by apply list_elem_of_fmap_2. }
      exists w', db'. unfold wrap_err. rewrite E1. split_and!; [exact El|done|..].
      * intros k x. rewrite R', R1. setoid_rewrite elem_of_cons. split.
        -- intros [[Hx Hk] Hn]. split; [done|]. intros (s & [->|Hs] & Hs1 & Hs2); [done|]. apply Hn. exists s.
           split_and!; [done..|]. apply Hdev; [by apply Hne|done].
        -- intros [Hx Hn]. split_and!; [done| |].
           ++ intros Hk. apply Hn. exists r. split_and!; [by left|done|by apply Hms].
           ++ intros (s & Hs & Hs1 & Hs2). apply Hn. exists s. split_and!; [by right|done|]. apply Hdev; [by apply Hne|done].
      * intros k m. rewrite M', M1. setoid_rewrite elem_of_cons. split.
        -- intros [[Hx Hk] Hn]. split; [done|]. intros (s & [->|Hs] & Hs1 & Hs2); [done|]. apply Hn. exists s.
           split_and!; [done..|]. apply Hdev; [by apply Hne|done].
        -- intros [Hx Hn]. split_and!; [done| |].
           ++ intros Hk. apply Hn. exists r. split_and!; [by left|done|by apply Hms].
           ++ intros (s & Hs & Hs1 & Hs2). apply Hn. exists s. split_and!; [by right|done|]. apply Hdev; [by apply Hne|done].
    + destruct (IH w db Hw Hnd) as (w' & db' & El & Hw' & R' & M'). exists w', db'.
      assert (~ local_dev db (Route_Id r)) as Hnot by (by rewrite <- Hms).
      unfold ret. split_and!; [exact El|done|..]; intros k x; rewrite ?R', ?M'; setoid_rewrite elem_of_cons;
        split; intros [Hx Hn]; (split; [done|]); intros (s & Hs & Hs1 & Hs2); apply Hn.
      1,3: destruct Hs as [->|Hs]; [done|]; by exists s.
      all: exists s; split_and!; [by right|done..].
Qed.

(** The cleanup of routes always succeeds in an open transaction, and
    removes exactly the routes of local development: a route is left if and
    only if it was stored and none of its header matchers names a namespace of
    local development; the matchers of the other routes are not touched. *)
Theorem cleanupLocalDevRoutes_spec w db :
  in_tx w db ->
  exists w' db', cleanupLocalDevRoutes InTx w = (Ok tt, w') /\ in_tx w' db' /\
    (forall k r, route_rows db' !! k = Some r <-> route_rows db !! k = Some r /\ ~ local_dev db (Route_Id r)) /\
    (forall k m, matcher_rows db !! k = Some m -> ~ local_dev db (HeaderMatcher_RouteId m) -> matcher_rows db' !! k = Some m).
Proof.
  intros Hw. destruct (FindAll_in_tx RouteTable w db Hw) as (l & El & Hnd & Hl).
  assert (NoDup (Route_Id <$> (l : list Route))) as Hnd'.
  { apply (NoDup_fmap_1 (fun i => [VInt i])). rewrite <- list_fmap_compose. erewrite list_fmap_ext; [exact Hnd|].
    intros i r _. symmetry. apply route_key. }
  destruct (cleanup_routes_loop l w db Hw Hnd') as (w' & db' & E' & Hw' & R' & M').
  exists w', db'. split_and!; [|done|..].
  - unfold cleanupLocalDevRoutes, wrap_err, bind, FindAllRoutes. rewrite El. exact E'.
  - intros k r. rewrite R'. split; intros [Hr Hn]; (split; [done|]).
    + intros Hd. apply Hn. exists r. destruct (rows_wf _ RouteTable _ _ Hr) as [<- _].
      split_and!; [apply Hl; exact (row_key RouteTable _ _ _ Hr)|apply route_key|done].
    + intros (s & Hs & Hk & Hd). apply Hn. destruct (rows_wf _ RouteTable _ _ Hr) as [Hid _].
      pose proof (eq_trans (eq_sym (route_key r)) (eq_trans Hid Hk)) as Heq. injection Heq as Heq. by rewrite Heq.
  - intros k m Hm Hn. apply M'. split; [done|]. intros (r & _ & Hr & Hd). apply Hn. by rewrite Hr.
Qed.
End routes.

(** * The next start *)

(** The worker waits for the next two o'clock: the time it computes is
    two hours after some midnight, lies after now, at most a day after it, and
    no other two o'clock lies between; so its ticker is never given a duration
    that is not positive. *)
Theorem computeCleanupStartupTime_next now :
  let start := computeCleanupStartupTime now in
  (start mod day = cleanupHourTime * hour)%Z /\ (now < start <= now + day)%Z /\
  forall t, (t mod day = cleanupHourTime * hour -> now < t -> start <= t)%Z.
Proof.
  unfold computeCleanupStartupTime, cleanupHourTime. set (d := (now / day)%Z). set (s := (now mod day)%Z).
  assert (0 < hour)%Z as Hh by done. assert (day = 24 * hour)%Z as Hd by done.
  assert (now = day * d + s /\ 0 <= s < day)%Z as [Hnow Hs] by (unfold d, s; split; [apply Z.div_mod; lia|apply Z.mod_pos_bound; lia]).
  assert ((2 <=? s / hour) = (2 * hour <=? s))%Z as ->.
  { apply eq_true_iff_eq. rewrite !Z.leb_le. split; intros Hle; [pose proof (Z.mul_div_le s hour Hh); nia|by apply Z.div_le_lower_bound; lia]. }
  assert (forall q, (q * day + 2 * hour) mod day = 2 * hour)%Z as Hmod.
  { intros q. rewrite Z.add_comm, Z.mod_add by lia. apply Z.mod_small. lia. }
  split; [apply Hmod|]. clearbody d s. clear Hmod. destruct (Z.leb_spec (2 * hour) s) as [Hle|Hle].
  - split; [nia|]. intros t Ht Hlt. pose proof (Z.div_mod t day ltac:(lia)) as Hq. rewrite Ht in Hq. set (q := (t / day)%Z) in *. clearbody q.
    assert (d < q)%Z by nia. nia.
  - split; [nia|]. intros t Ht Hlt. pose proof (Z.div_mod t day ltac:(lia)) as Hq. rewrite Ht in Hq. set (q := (t / day)%Z) in *. clearbody q.
    assert (d <= q)%Z by nia. nia.
Qed.

(** * The whole cleanup *)

Section committed.
Context `{RL : RuntimeLaws} `{H : Sha256} `{E : EntityService}.

Abbreviation cluster_rows db := (rows db ClusterTable : gmap (list value) Cluster).
Abbreviation route_rows db := (rows db RouteTable : gmap (list value) Route).

Lemma shrinks_DeleteRouteCascade dao r : frame (tx_rel shrinks) (DeleteRouteCascade dao r).
Proof. solve_frame. Qed.
Hint Resolve shrinks_DeleteRouteCascade : frame.

(** The cluster is of a namespace of local development: its name reads
    [family||namespace||port]. *)
Definition local_dev_cluster (c : Cluster) : Prop :=
  exists family namespace port rest,
    strings_Split (Cluster_Name c) "||" = family :: namespace :: port :: rest /\ strings_Contains namespace ".nip.io" = true.
Lemma isLocalDevCluster_spec c : isLocalDevCluster c = true <-> local_dev_cluster c.
Proof.
  unfold isLocalDevCluster, local_dev_cluster, localDevNamespacePostfix.
  destruct (strings_Split (Cluster_Name c) "||") as [|f [|n [|p l]]]; (split; [|intros (?&?&?&?&[=]&?)]); try done.
  - intros Hn. by exists f, n, p, l.
  - by subst.
Qed.
Lemma local_dev_cluster_named c : local_dev_cluster c -> Cluster_Name c <> "".
Proof. intros (f & n & p & l & Hs & _) He. rewrite He in Hs. by vm_compute in Hs. Qed.

(** A call that leaves the clusters and the routes as they are. *)
Definition neither_end (t : table) : bool := negb (bool_decide (t = ClusterTable)) && negb (bool_decide (t = RouteTable)).
Definition same_ends (db db' : Db) : Prop :=
  rows db' ClusterTable = rows db ClusterTable /\ rows db' RouteTable = rows db RouteTable.
Lemma pass_neither_end {A} (m : prog World A) w w' db0 db r :
  m w = (r, w') -> frame (touches neither_end) m -> in_tx w db -> same_ends db0 db ->
  exists db', in_tx w' db' /\ same_ends db0 db'.
Proof.
  intros Hm F Hw [C R']. destruct (frame_in_tx _ _ _ _ _ _ F Hm Hw) as (db' & Hw' & S). exists db'.
  split; [done|]. split; [rewrite <- C; by apply (S ClusterTable)|rewrite <- R'; by apply (S RouteTable)].
Qed.
Ltac pass_others Hrun :=
  apply bind_Ok in Hrun as (? & ? & ?Hcall & Hrun);
  match goal with
  | Hw : in_tx ?w ?before, Hs : same_ends ?start ?before, Hcall : _ ?w = (Ok _, _) |- _ =>
      apply (pass_neither_end _ _ _ start before) in Hcall as (? & ? & ?); [|solve_frame|exact Hw|exact Hs]; clear Hw Hs
  end.

Lemma FindRoutesByClusterName_in_tx name w db :
  in_tx w db -> name <> "" ->
  exists l, FindRoutesByClusterName InTx name w = (Ok l, w) /\
    forall r : Route, r ∈ l <-> rows db RouteTable !! id_key RouteTable r = Some r /\ Route_ClusterName r = name.
Proof.
  intros Hw Hne. destruct (FindByIndex_in_tx RouteTable "clusterName" [VStr name] w db Hw) as (l & El & _ & Hl); [done..|].
  exists l. split; [exact El|]. intros r. rewrite Hl.
  assert (index_key RouteTable "clusterName" r = str_key (Route_ClusterName r)) as -> by (eapply string_index; reflexivity).
  split; intros [Hr Hi]; (split; [done|]).
  - unfold str_key, nonempty in Hi. destruct (String.eqb_spec (Route_ClusterName r) ""); [done|]. by injection Hi.
  - subst name. by apply str_key_Some.
Qed.
Lemma delete_routes (l : list Route) w w' db :
  in_tx w db -> for_each l (DeleteRouteCascade InTx) w = (Ok tt, w') ->
  exists db', in_tx w' db' /\ rows db' ClusterTable = rows db ClusterTable /\
    forall k x, route_rows db' !! k = Some x <-> route_rows db !! k = Some x /\ k ∉ id_key RouteTable <$> l.
Proof.
  revert w db. induction l as [|r l IH]; intros w db Hw Hrun.
  - apply ret_Ok in Hrun as [_ ->]. exists db. split_and!; [done..|]. intros k x. rewrite elem_of_nil. tauto.
  - apply bind_Ok in Hrun as ([] & w1 & E1 & Hrun). simpl in E1, Hrun.
    destruct (DeleteRouteCascade_in_tx r w db Hw) as (w1' & db1 & E1' & Hw1 & R1 & _). rewrite E1 in E1'. injection E1' as <-.
    assert (frame (touches (fun t => negb (bool_decide (t = ClusterTable)))) (DeleteRouteCascade InTx r)) as F by solve_frame.
    pose proof (frame_in_tx _ _ _ _ _ _ F E1 Hw) as (db1' & Hw1' & S1). assert (db1' = db1) as -> by (unfold in_tx in *; congruence).
    destruct (IH w1 db1 Hw1 Hrun) as (db' & Hw' & Hc & R'). exists db'. split_and!; [done|by rewrite Hc; apply (S1 ClusterTable)|].
    intros k x. rewrite R', R1, fmap_cons, not_elem_of_cons, route_key. tauto.
Qed.

(** What the cascade removes from the tables of clusters and routes: the
    cluster, and the routes that lead to a cluster of its name. *)
Lemma DeleteClusterCascade_in_tx (c : Cluster) w w' db :
  in_tx w db -> Cluster_Name c <> "" -> DeleteClusterCascade InTx (Some c) w = (Ok tt, w') ->
  exists db', in_tx w' db' /\ rows db' ClusterTable = delete (id_key ClusterTable c) (rows db ClusterTable) /\
    forall k r, route_rows db' !! k = Some r <-> route_rows db !! k = Some r /\ Route_ClusterName r <> Cluster_Name c.
Proof.
  intros Hw Hne Hrun. unfold DeleteClusterCascade, deref in Hrun.
  apply bind_Ok in Hrun as (c' & w0 & [-> ->]%ret_Ok & Hrun). assert (same_ends db db) as Hs by done.
  do 2 pass_others Hrun.
  apply bind_Ok in Hrun as (l & w1 & El & Hrun).
  match goal with Ha : in_tx _ ?x, Hb : same_ends db ?x |- _ => rename Ha into Hw1, Hb into S1, x into db1 end.
  destruct (FindRoutesByClusterName_in_tx (Cluster_Name c) _ db1 Hw1 Hne) as (l' & El' & Hl).
  rewrite El in El'. injection El' as <- ->.
  apply bind_Ok in Hrun as ([] & w2 & E2 & Hrun).
  destruct (delete_routes l _ _ _ Hw1 E2) as (db2 & Hw2 & C2 & R2). assert (same_ends db2 db2) as Hs2 by done. clear El E2.
  do 5 pass_others Hrun.
  match goal with Ha : in_tx _ ?x, Hb : same_ends db2 ?x |- _ => rename Ha into Hw3, Hb into S3, x into db3 end.
  destruct (Delete_in_tx_Ok ClusterTable c _ _ _ Hw3 Hrun) as (db' & Hw' & Hr).
  assert (frame (touches (fun t => bool_decide (t = ClusterTable))) (DeleteCluster InTx c)) as F by solve_frame.
  pose proof (frame_in_tx _ _ _ _ _ _ F Hrun Hw3) as (db'' & Hw'' & S). assert (db'' = db') as -> by (unfold in_tx in *; congruence).
  destruct S1 as [C1 R1], S3 as [C3 R3]. exists db'. split_and!; [done|by rewrite Hr, C3, C2, C1|].
  intros k r. destruct (S RouteTable eq_refl) as [-> _]. rewrite R3, R2, R1. split; intros [Hk Hn]; (split; [done|]).
  - intros He. apply Hn. destruct (rows_wf _ RouteTable _ _ Hk) as [<- _]. apply list_elem_of_fmap_2, Hl.
    split; [rewrite R1; exact (row_key RouteTable _ _ _ Hk)|done].
  - intros (r' & -> & [Hx He]%Hl)%list_elem_of_fmap. rewrite R1 in Hx. by pose proof (Some_functional _ _ _ Hk Hx) as ->.
Qed.

Lemma cleanup_clusters_loop (l : list Cluster) w w' db :
  in_tx w db -> cleanupLocalDevClusters InTx l w = (Ok tt, w') ->
  exists db', in_tx w' db' /\
    (forall k c, cluster_rows db' !! k = Some c <->
       cluster_rows db !! k = Some c /\ ~ exists d, d ∈ l /\ local_dev_cluster d /\ k = id_key ClusterTable d) /\
    (forall k r, route_rows db' !! k = Some r <->
       route_rows db !! k = Some r /\ ~ exists d, d ∈ l /\ local_dev_cluster d /\ Route_ClusterName r = Cluster_Name d).
Proof.
  revert w db. induction l as [|c l IH]; intros w db Hw Hrun.
  - apply ret_Ok in Hrun as [_ ->]. exists db. split_and!; [done|..]; intros; setoid_rewrite elem_of_nil; naive_solver.
  - apply bind_Ok in Hrun as ([] & w1 & E1 & Hrun). simpl in E1. destruct (isLocalDevCluster c) eqn:Hc.
    + apply isLocalDevCluster_spec in Hc. apply wrap_err_Ok in E1.
      destruct (DeleteClusterCascade_in_tx c w w1 db Hw (local_dev_cluster_named c Hc) E1) as (db1 & Hw1 & C1 & R1).
      destruct (IH w1 db1 Hw1 Hrun) as (db' & Hw' & C' & R'). exists db'. setoid_rewrite elem_of_cons. split_and!; [done|..].
      * intros k d. rewrite C', C1, lookup_delete_Some. naive_solver.
      * intros k r. rewrite R', R1. naive_solver.
    + apply ret_Ok in E1 as [_ ->]. assert (~ local_dev_cluster c) as Hn by (rewrite <- isLocalDevCluster_spec; congruence).
      destruct (IH w db Hw Hrun) as (db' & Hw' & C' & R'). exists db'. setoid_rewrite elem_of_cons. split_and!; [done|..].
      * intros k d. rewrite C'. naive_solver.
      * intros k r. rewrite R'. naive_solver.
Qed.

Definition only_stamps (t : table) : bool := bool_decide (t = EnvoyConfigVersionTable).
Lemma frame_updateEnvoyVersions l : frame (touches only_stamps) (updateEnvoyVersions InTx l).
Proof. solve_frame. Qed.
Lemma frame_cleanup_payload : frame (touches any_table) cleanup_payload.
Proof. solve_frame. Qed.
Definition no_groups (t : table) : bool := negb (bool_decide (t = NodeGroupTable)).
Lemma frame_cleanup_payload_groups : frame (touches no_groups) cleanup_payload.
Proof. solve_frame. Qed.
Definition no_clusters (t : table) : bool := negb (bool_decide (t = ClusterTable)).
Lemma frame_cleanupLocalDevRoutes : frame (touches no_clusters) (cleanupLocalDevRoutes InTx).
Proof. solve_frame. Qed.

Lemma updateEnvoyConfig_events groups changes w w' :
  updateEnvoyConfig groups changes w = (Ok tt, w') ->
  w_db w' = w_db w /\
  w_events w' = (rev (map (fun ng => (TopicChanges, NewChangeEventByNodeGroup (NodeGroup_Name ng) changes)) groups) ++ w_events w)%list.
Proof.
  revert w. induction groups as [|ng groups IH]; intros w; [by intros [_ ->]%ret_Ok|].
  unfold updateEnvoyConfig. simpl. intros ([] & w1 & E1 & E2)%bind_Ok. apply IH in E2 as [-> ->].
  apply wrap_err_Ok in E1. unfold Publish, bind, tick, modify, lift in E1.
  destruct (bus_publish _ _ _) as [[]|?|?]; [|done..]. injection E1 as <-. split; [done|]. by rewrite <- app_assoc.
Qed.

(** What the payload leaves in the tables of the open transaction; the
    clusters it judges are those that are committed. *)
Lemma cleanup_payload_rows w w' groups db db' :
  in_tx w db -> cleanup_payload w = (Ok groups, w') -> in_tx w' db' ->
  (forall k c, cluster_rows db' !! k = Some c <-> cluster_rows db !! k = Some c /\
     ~ exists d, (exists k', cluster_rows (w_db w) !! k' = Some d) /\ local_dev_cluster d /\ k = id_key ClusterTable d) /\
  (forall k r, route_rows db' !! k = Some r <-> route_rows db !! k = Some r /\ ~ local_dev db (Route_Id r) /\
     ~ exists d, (exists k', cluster_rows (w_db w) !! k' = Some d) /\ local_dev_cluster d /\ Route_ClusterName r = Cluster_Name d) /\
  rows db' NodeGroupTable = rows db NodeGroupTable /\
  (forall ng : NodeGroup, ng ∈ groups <-> exists k, rows db' NodeGroupTable !! k = Some ng) /\ NoDup groups.
Proof.
  intros Hw0 Ep Hw'. pose proof (frame_in_tx _ _ _ _ _ _ frame_cleanup_payload_groups Ep Hw0) as (db'' & Hw'' & S).
  assert (db'' = db') as -> by (unfold in_tx in *; congruence). destruct (S NodeGroupTable eq_refl) as [Sg _]. clear S Hw''.
  unfold cleanup_payload in Ep. apply bind_Ok in Ep as ([] & w1 & E1 & Ep). apply wrap_err_Ok in E1.
  destruct (cleanupLocalDevRoutes_spec w db Hw0) as (w1' & db1 & E1' & Hw1 & R1 & _). rewrite E1 in E1'. injection E1' as <-.
  pose proof (frame_run _ _ _ _ _ frame_cleanupLocalDevRoutes E1) as (Hcommitted & _).
  pose proof (frame_in_tx _ _ _ _ _ _ frame_cleanupLocalDevRoutes E1 Hw0) as (db1' & Hw1' & S1).
  assert (db1' = db1) as -> by (unfold in_tx in *; congruence). destruct (S1 ClusterTable eq_refl) as [C1 _]. clear S1 Hw1'.
  apply bind_Ok in Ep as (clusters & w2 & E2 & Ep). apply wrap_err_Ok in E2.
  destruct (FindAll_local ClusterTable w1) as (l & El & _ & Hcl). unfold FindAllClusters in E2. rewrite El in E2. injection E2 as <- <-.
  apply bind_Ok in Ep as ([] & w3 & E3 & Ep). apply wrap_err_Ok in E3.
  destruct (cleanup_clusters_loop l w1 w3 db1 Hw1 E3) as (db3 & Hw3 & C3 & R3).
  apply bind_Ok in Ep as (groups' & w4 & E4 & Ep). apply wrap_err_Ok in E4.
  destruct (FindAll_in_tx NodeGroupTable w3 db3 Hw3) as (gl & Eg & Hnd & Hg). unfold FindAllNodeGroups in E4. rewrite Eg in E4. injection E4 as <- <-.
  apply bind_Ok in Ep as ([] & w6 & E6 & Ep). apply wrap_err_Ok in E6. apply ret_Ok in Ep as [-> ->].
  pose proof (frame_in_tx _ _ _ _ _ _ (frame_updateEnvoyVersions gl) E6 Hw3) as (db6 & Hw6 & S6).
  assert (db6 = db') as -> by (unfold in_tx in *; congruence).
  assert (forall d : Cluster, d ∈ l <-> exists k, cluster_rows (w_db w) !! k = Some d) as Hcl'.
  { intros d. rewrite Hcl, Hcommitted. split; [by eexists|]. intros [k Hk]. exact (row_key ClusterTable _ _ _ Hk). }
  destruct (S6 ClusterTable eq_refl) as [-> _], (S6 RouteTable eq_refl) as [-> _]. split_and!; [..|done| |].
  - intros k c. rewrite C3, C1. by setoid_rewrite Hcl'.
  - intros k r. rewrite R3, R1. setoid_rewrite Hcl'. tauto.
  - intros ng. destruct (S6 NodeGroupTable eq_refl) as [-> _]. rewrite Hg. split; [by eexists|]. intros [k Hk]. exact (row_key NodeGroupTable _ _ _ Hk).
  - exact (NoDup_fmap_1 _ _ Hnd).
Qed.

(** A route leads to a stored cluster of local development. *)
Definition leads_to_local_dev (db : Db) (r : Route) : Prop :=
  exists k c, cluster_rows db !! k = Some c /\ local_dev_cluster c /\ Route_ClusterName r = Cluster_Name c.

(** C31: What the nightly cleanup commits when it succeeds is exact. The
    clusters that are left are the stored ones but for those of local
    development ([family||namespace||port] with a namespace that contains
    [.nip.io]). The routes that are left are the stored ones but for those with
    a [namespace] header matcher for such a namespace and those that lead to a
    removed cluster. No node group is changed, and every one of them is sent
    one event, with the changes of the commit, in the order they were read. *)
Theorem CleanupRoutes_committed w w' :
  w_writer w = false -> CleanupRoutes w = (Ok tt, w') ->
  (forall k c, cluster_rows (w_db w') !! k = Some c <-> cluster_rows (w_db w) !! k = Some c /\ ~ local_dev_cluster c) /\
  (forall k r, route_rows (w_db w') !! k = Some r <->
     route_rows (w_db w) !! k = Some r /\ ~ local_dev (w_db w) (Route_Id r) /\ ~ leads_to_local_dev (w_db w) r) /\
  rows (w_db w') NodeGroupTable = rows (w_db w) NodeGroupTable /\
  exists groups : list NodeGroup,
    (forall ng, ng ∈ groups <-> exists k, rows (w_db w') NodeGroupTable !! k = Some ng) /\ NoDup groups /\
    w_events w' = (rev (map (fun ng => (TopicChanges, NewChangeEventByNodeGroup (NodeGroup_Name ng) (txn_changes (w_db w')))) groups)
                   ++ w_events w)%list.
Proof.
  intros Hl (committed & wc & Ec & Ev)%bind_Ok. apply wrap_err_Ok, updateEnvoyConfig_events in Ev as [Hdb Hev].
  destruct committed as [groups changes]. simpl in Hev.
  apply WithWTxVal_cases in Ec as (_ & _ & He & w5 & Ep & Ht5 & ->); [|apply frame_cleanup_payload|done].
  rewrite He in Hev. rewrite <- Hdb in Hev, Ht5. clear Hdb He wc.
  set (db0 := txn_track_changes (w_db w)). assert (in_tx (opened w) db0) as Hw0 by done.
  assert (rows db0 = rows (w_db w)) as Hrows by apply rows_track.
  destruct (cleanup_payload_rows _ _ _ _ _ Hw0 Ep Ht5) as (Hc & Hr & Hg & Hgs & Hnd).
  change (w_db (opened w)) with (w_db w) in *.
  split_and!; [| |by rewrite Hg, Hrows|exists groups; by split_and!].
  - intros k c. rewrite Hc, Hrows. split; intros [Hk Hn]; (split; [done|]).
    + intros Hd. apply Hn. exists c. destruct (rows_wf _ ClusterTable _ _ Hk) as [<- _]. split_and!; [by eexists|done..].
    + intros (d & [kd Hd] & Hdev & ->). apply Hn. pose proof (row_key ClusterTable _ _ _ Hd) as Hd'.
      by rewrite (Some_functional _ _ _ Hk Hd').
  - intros k r. rewrite Hr, Hrows. unfold local_dev, leads_to_local_dev. rewrite Hrows. split.
    + intros (Hk & Hn1 & Hn2). split_and!; [done..|]. intros (kc & c & ? & ? & ?). apply Hn2. exists c. split_and!; [by eexists|done..].
    + intros (Hk & Hn1 & Hn2). split_and!; [done..|]. intros (c & [kc ?] & ? & ?). apply Hn2. by exists kc, c.
Qed.
End committed.

(** * Witnesses *)

Section witness.
Import RuntimeModel.
Local Existing Instance test_laws.
Local Existing Instance test_runtime.
#[local] Instance cleanup_sha : Sha256 := {| sha256_Sum256 := fun s => s |}.
#[local] Instance cleanup_entity : EntityService := {| defaultVersion := "v1" |}.

(** A route and a cluster of a developer and those of a service, behind one gateway. *)
Definition dev_rows (r : repo) : prog World unit :=
  _ <- SaveRoute r ((zero : Route) <| Route_Id := 5%Z |> <| Route_VirtualHostId := 1%Z |> <| Route_RouteKey := "key" |> <| Route_ClusterName := "items||dev.nip.io||8080" |>
              <| Route_Uuid := test_uuid 1 |> <| Route_DeploymentVersion := "v1" |> <| Route_InitialDeploymentVersion := "v1" |>) ;;
  SaveEntity r HeaderMatcherTable ((zero : HeaderMatcher) <| HeaderMatcher_RouteId := 5%Z |> <| HeaderMatcher_Name := "namespace" |>
              <| HeaderMatcher_ExactMatch := "dev.nip.io" |>) ;;;
  _ <- SaveRoute r ((zero : Route) <| Route_Id := 6%Z |> <| Route_VirtualHostId := 1%Z |> <| Route_RouteKey := "key2" |> <| Route_ClusterName := "orders||prod||8080" |>
              <| Route_Uuid := test_uuid 2 |> <| Route_DeploymentVersion := "v1" |> <| Route_InitialDeploymentVersion := "v1" |>) ;;
  _ <- SaveCluster r ((zero : Cluster) <| Cluster_Name := "items||dev.nip.io||8080" |>) ;;
  _ <- SaveCluster r ((zero : Cluster) <| Cluster_Name := "orders||prod||8080" |>) ;;
  SaveNodeGroup r ((zero : NodeGroup) <| NodeGroup_Name := "gw" |>).
Definition dev_run := WithWTxVal (dev_rows InTx) empty_world.
Definition dev_world : World := dev_run.2.
Definition dev_tx_world : World := (dev_rows InTx empty_tx_world).2.
Example dev_saved : match dev_run.1 with Ok _ => true | _ => false end = true.
Proof. vm_compute. reflexivity. Qed.

(** The developer's cluster and route go, the others stay. *)
Lemma CleanupRoutes_committed_witness :
  exists w', CleanupRoutes dev_world = (Ok tt, w') /\ length (w_events w') = 1 /\
    rows (w_db w') RouteTable !! [VInt 5] = None /\ is_Some (rows (w_db w') RouteTable !! [VInt 6]) /\
    forall k (c : Cluster), rows (w_db w') ClusterTable !! k = Some c -> ~ local_dev_cluster c.
Proof.
  assert ((CleanupRoutes dev_world).1 = Ok tt) as Hr by (vm_compute; reflexivity).
  assert (length (w_events (CleanupRoutes dev_world).2) = 1) as He by (vm_compute; reflexivity).
  assert (match rows (w_db dev_world) RouteTable !! [VInt 6] with Some r => String.eqb (Route_ClusterName r) "orders||prod||8080" && (Route_Id r =? 6)%Z | None => false end = true) as H6 by (vm_compute; reflexivity).
  assert (forallb (fun '(_, c) => negb (String.eqb (Cluster_Name c) "orders||prod||8080") || negb (isLocalDevCluster c))
    (map_to_list (rows (w_db dev_world) ClusterTable)) = true) as Hc6 by (vm_compute; reflexivity).
  assert (forallb (fun '(_, m) => negb (HeaderMatcher_RouteId m =? 6)%Z) (map_to_list (rows (w_db dev_world) HeaderMatcherTable)) = true)
    as Hm6 by (vm_compute; reflexivity).
  assert (match rows (w_db (CleanupRoutes dev_world).2) RouteTable !! [VInt 5] with None => true | Some _ => false end = true) as H5
    by (vm_compute; reflexivity).
  destruct (CleanupRoutes dev_world) as [r w'] eqn:Er. simpl in Hr, He, H5. subst r.
  destruct (CleanupRoutes_committed dev_world w' eq_refl Er) as (Hc & HR & _).
  exists w'. split; [exact eq_refl|]. split; [exact He|].
  split; [match type of H5 with match ?x with _ => _ end = _ => destruct x eqn:E5 end; [discriminate H5|exact E5]|]. split; [|intros k c Hk; exact (proj2 (proj1 (Hc k c) Hk))].
  destruct (rows (w_db dev_world) RouteTable !! [VInt 6]) as [r6|] eqn:E6; [|discriminate H6].
  apply andb_true_iff in H6 as [Hn6 Hi6]. apply String.eqb_eq in Hn6. apply Z.eqb_eq in Hi6.
  exists r6. apply HR. split; [exact E6|]. rewrite forallb_forall in Hc6, Hm6. split.
  - intros (k & m & Hk & Hid & _). rewrite Hi6 in Hid.
    specialize (Hm6 (k, m) (proj1 (list_elem_of_In _ _) (proj2 (elem_of_map_to_list _ _ _) Hk))). cbv beta iota in Hm6.
    rewrite Hid in Hm6. discriminate Hm6.
  - intros (k & c & Hk & Hd & Hn). rewrite Hn6 in Hn. apply isLocalDevCluster_spec in Hd.
    specialize (Hc6 (k, c) (proj1 (list_elem_of_In _ _) (proj2 (elem_of_map_to_list _ _ _) Hk))). cbv beta iota in Hc6.
    rewrite <- Hn, Hd, String.eqb_refl in Hc6. discriminate Hc6.
Defined.
Lemma cleanupLocalDevRoutes_spec_witness :
  exists w' db', cleanupLocalDevRoutes InTx dev_tx_world = (Ok tt, w') /\ in_tx w' db' /\ rows db' RouteTable !! [VInt 5] = None.
Proof.
  assert (match w_tx dev_tx_world with
          | Some (db, true) =>
              match rows db HeaderMatcherTable !! [VInt 5; VStr "namespace"] with
              | Some m => (HeaderMatcher_RouteId m =? 5)%Z && String.eqb (HeaderMatcher_Name m) "namespace"
                          && strings_Contains (HeaderMatcher_ExactMatch m) ".nip.io"
              | None => false end
          | _ => false end = true) as Hm by (vm_compute; reflexivity).
  destruct (w_tx dev_tx_world) as [[db []]|] eqn:Hw; [|discriminate Hm..].
  destruct (cleanupLocalDevRoutes_spec dev_tx_world db Hw) as (w' & db' & Er & Hw' & R & _).
  exists w', db'. split; [exact Er|]. split; [exact Hw'|].
  destruct (rows db' RouteTable !! [VInt 5]) as [x|] eqn:Ex; [|exact eq_refl]. exfalso.
  apply R in Ex as [Hx Hn]. apply Hn. destruct (rows_wf _ RouteTable _ _ Hx) as [Hid _].
  pose proof (eq_trans (eq_sym (route_key x)) Hid) as Heq. injection Heq as ->.
  destruct (rows db HeaderMatcherTable !! [VInt 5; VStr "namespace"]) as [m|] eqn:Em; [|discriminate Hm].
  apply andb_true_iff in Hm as [Hm Hc]. apply andb_true_iff in Hm as [Hi Hname].
  exists [VInt 5; VStr "namespace"], m. split; [exact Em|]. split; [by apply Z.eqb_eq|]. split; [by apply String.eqb_eq|exact Hc].
Defined.
End witness.
