(* ===== verification/GatewaysSpec.v ===== *)
(** A gateway is deleted only when nothing depends on it, with its listeners and
    route configurations; all other rows stay, filters that name it among them. *)
From S2P Require Import Prelude GoLib Domain Tables MemDb Events RegCommon Runtime RuntimeModel Dao DaoSpec Entity.
From S2P Require Import Format RouteCreation Dto Requests Registration CandidateSpec Cleanup Gateways.
Open Scope string_scope.

Section spec.
Context `{RL : RuntimeLaws}.

(** * What is read *)

Lemma read_validateCanDeleteNodeGroup req : frame (tx_rel eq) (validateCanDeleteNodeGroup InTx req).
Proof. solve_frame. Qed.

Lemma map_each_nil {A B} (l : list A) (f : A -> prog World B) w w' : map_each l f w = (Ok [], w') -> l = [].
Proof.
  destruct l as [|x l]; [done|]. cbn. intros (y & w1 & _ & (ys & w2 & _ & [? _]%ret_Ok)%bind_Ok)%bind_Ok. done.
Qed.
Lemma FindByIndex_found t idx v w db l w' :
  in_tx w db -> FindByIndex InTx t idx [v] w = (Ok l, w') ->
  valid_query t idx [v] = true -> unique_index t idx = false -> query_key t idx [v] = [v] ->
  w' = w /\ forall x, x ∈ l <-> rows db t !! id_key t x = Some x /\ index_key t idx x = Some [v].
Proof.
  intros Hw Ef Hv Hu Hq. destruct (FindByIndex_in_tx t idx [v] w db Hw Hv) as (l' & El & _ & Hl); [done..|].
  rewrite El in Ef. by injection Ef as <- <-.
Qed.
(** A lookup through a table of relations that finds nothing: no relation. *)
Lemma related_nil {A} t idx v (f : entity t -> prog World A) p w db w' :
  in_tx w db ->
  open_ctx InTx false (found <- wrap_err p (on_tx InTx (Storage.FindByIndex t idx [v])) ;; map_each found f) w = (Ok [], w') ->
  valid_query t idx [v] = true -> unique_index t idx = false -> query_key t idx [v] = [v] ->
  w' = w /\ forall k x, rows db t !! k = Some x -> index_key t idx x <> Some [v].
Proof.
  intros Hw E Hv Hu Hq. rewrite (open_ctx_InTx _ _ _ _ Hw) in E. apply bind_Ok in E as (l & w1 & E1 & E2).
  apply wrap_err_Ok in E1. destruct (Storage_FindByIndex_spec t idx [v] db Hv) as (l' & El & _ & Hl); [done..|].
  rewrite (on_tx_InTx _ _ _ Hw), El in E1. injection E1 as <- <-. assert (l' = []) as -> by by eapply map_each_nil.
  apply ret_Ok in E2 as [_ ->]. split; [by apply set_tx_in_tx|]. intros k x Hx Hi.
  assert (x ∈ []) as []%elem_of_nil. apply Hl. split; [exact (row_key t _ _ _ Hx)|done].
Qed.

(** * What a gateway is used by *)

Definition route_configs_of (db : Db) (name : string) (rc : RouteConfiguration) : Prop :=
  (exists k, (rows db RouteConfigurationTable : gmap _ RouteConfiguration) !! k = Some rc) /\ RouteConfiguration_NodeGroupId rc = name.
(** No TLS configuration, cluster or virtual host belongs to the gateway. *)
Definition unused (db : Db) (name : string) : Prop :=
  (forall k r, (rows db TlsConfigsNodeGroupsTable : gmap _ TlsConfigsNodeGroups) !! k = Some r -> TlsConfigsNodeGroups_NodeGroupName r <> name) /\
  (forall k r, (rows db ClusterNodeGroupTable : gmap _ ClustersNodeGroup) !! k = Some r -> ClustersNodeGroup_NodegroupsName r <> name) /\
  (forall rc k vh, route_configs_of db name rc -> (rows db VirtualHostTable : gmap _ VirtualHost) !! k = Some vh ->
     VirtualHost_RouteConfigurationId vh <> RouteConfiguration_Id rc).
(** What the deletion of the gateway leaves of each table: it goes itself, with
    the listeners and the route configurations that name it; a version of its
    listeners is written under its name; every other row stays. *)
Definition gateway_removed (db db' : Db) (name : string) : Prop :=
  rows db' NodeGroupTable = delete [VStr name] (rows db NodeGroupTable) /\
  (forall k l, (rows db' ListenerTable : gmap _ Listener) !! k = Some l <->
     (rows db ListenerTable : gmap _ Listener) !! k = Some l /\ Listener_NodeGroupId l <> name) /\
  (forall k rc, (rows db' RouteConfigurationTable : gmap _ RouteConfiguration) !! k = Some rc <->
     (rows db RouteConfigurationTable : gmap _ RouteConfiguration) !! k = Some rc /\ RouteConfiguration_NodeGroupId rc <> name) /\
  (exists now, rows db' EnvoyConfigVersionTable =
     <[[VStr name; VStr "listeners"] := NewEnvoyConfigVersion now name "listeners"]> (rows db EnvoyConfigVersionTable)) /\
  (forall t, t ∉ [NodeGroupTable; ListenerTable; RouteConfigurationTable; EnvoyConfigVersionTable] -> rows db' t = rows db t).

Lemma string_field_index t idx s (x : entity t) f :
  schema t !! idx = Some s -> Index_Indexer s = StringFieldIndex f ->
  forall v name, FieldByName t f x = Some (VStr v) -> name <> "" ->
  index_key t idx x = Some [VStr name] <-> v = name.
Proof.
  intros Es Ei v name Ef Hn. unfold index_key. rewrite Es, Ei. cbn. unfold field_key. cbn. rewrite Ef. cbn.
  destruct (String.eqb_spec v "") as [->|Hv].
  - cbn. split; [done|by intros <-].
  - destruct v; [done|]. cbn. split; [by intros [= ->]|by intros ->].
Qed.
Lemma listener_nodeGroup (l : Listener) name : name <> "" ->
  index_key ListenerTable "nodeGroup" l = Some [VStr name] <-> Listener_NodeGroupId l = name.
Proof. intros Hn. eapply string_field_index; [reflexivity..|by destruct l|done]. Qed.
Lemma route_config_nodeGroup (rc : RouteConfiguration) name : name <> "" ->
  index_key RouteConfigurationTable "nodeGroup" rc = Some [VStr name] <-> RouteConfiguration_NodeGroupId rc = name.
Proof. intros Hn. eapply string_field_index; [reflexivity..|by destruct rc|done]. Qed.
Lemma binding_nodeGroup (r : ClustersNodeGroup) name : name <> "" ->
  index_key ClusterNodeGroupTable "nodegroupsName" r = Some [VStr name] <-> ClustersNodeGroup_NodegroupsName r = name.
Proof. intros Hn. eapply string_field_index; [reflexivity..|by destruct r|done]. Qed.
Lemma tls_nodeGroup (r : TlsConfigsNodeGroups) name : name <> "" ->
  index_key TlsConfigsNodeGroupsTable "nodeGroupName" r = Some [VStr name] <-> TlsConfigsNodeGroups_NodeGroupName r = name.
Proof. intros Hn. eapply string_field_index; [reflexivity..|by destruct r|done]. Qed.
Lemma vhost_routeConfig (vh : VirtualHost) :
  index_key VirtualHostTable "routeConfigId" vh = Some [VInt (VirtualHost_RouteConfigurationId vh)].
Proof. by destruct vh. Qed.
Lemma route_config_key (rc : RouteConfiguration) : id_key RouteConfigurationTable rc = [VInt (RouteConfiguration_Id rc)].
Proof. by destruct rc. Qed.
(** A gateway that is stored has a name. *)
Lemma node_group_named db name ng : (rows db NodeGroupTable : gmap _ NodeGroup) !! [VStr name] = Some ng -> name <> "".
Proof.
  intros E ->. destruct (rows_wf db NodeGroupTable [VStr ""] ng E) as [Hk _]. destruct ng as [n ? ?]. destruct n; vm_compute in Hk; congruence.
Qed.

Lemma validate_spec req w db rcs w' :
  in_tx w db -> GatewayDeclaration_Name req <> "" ->
  validateCanDeleteNodeGroup InTx req w = (Ok rcs, w') ->
  in_tx w' db /\ unused db (GatewayDeclaration_Name req) /\
  forall rc, rc ∈ rcs <-> route_configs_of db (GatewayDeclaration_Name req) rc.
Proof.
  intros Hw Hn E. set (name := GatewayDeclaration_Name req) in *.
  destruct (frame_in_tx eq _ _ _ _ _ (read_validateCanDeleteNodeGroup req) E Hw) as (db' & Hw' & <-). split; [done|].
  apply bind_Ok in E as (tls & w1 & E1 & E). destruct tls; [|done].
  apply related_nil with (db := db) in E1 as [-> Htls]; [|done..].
  apply bind_Ok in E as (cs & w1 & E1 & E). destruct cs; [|done].
  apply related_nil with (db := db) in E1 as [-> Hcs]; [|done..].
  apply bind_Ok in E as (rcs' & w1 & E1 & E). apply (FindByIndex_found RouteConfigurationTable) with (db := db) in E1 as [-> Hrcs]; [|done..].
  apply bind_Ok in E as ([] & w1 & E1 & [-> _]%ret_Ok).
  assert (forall rc, rc ∈ rcs' <-> route_configs_of db name rc) as Hof.
  { intros rc. split.
    - intros [H1 H2]%Hrcs. split; [by eexists|by apply (route_config_nodeGroup rc name Hn)].
    - intros [[k Hk] H2]. apply Hrcs. split; [exact (row_key RouteConfigurationTable _ _ _ Hk)|].
      by apply (route_config_nodeGroup rc name Hn). }
  split; [|exact Hof]. split_and!.
  - intros k r Hr Hname. by apply (Htls k r Hr), tls_nodeGroup.
  - intros k r Hr Hname. by apply (Hcs k r Hr), binding_nodeGroup.
  - intros rc k vh Hrc Hvh Hid.
    destruct (for_each_Ok rcs' _ (fun w => in_tx w db) (fun (rc : RouteConfiguration) _ => forall k (vh : VirtualHost),
      (rows db VirtualHostTable : gmap _ VirtualHost) !! k = Some vh -> VirtualHost_RouteConfigurationId vh <> RouteConfiguration_Id rc) w w1 E1 Hw)
      as (_ & _ & Hall).
    + intros rc' u u' _ Hu X. assert (frame (tx_rel eq) (FindVirtualHostsByRouteConfig InTx (RouteConfiguration_Id rc'))) as F by solve_frame.
      apply bind_Ok in X as (vhs & u1 & X1 & X2). destruct (frame_in_tx eq _ _ _ _ _ F X1 Hu) as (db' & Hu1 & <-).
      destruct vhs; [|done]. apply ret_Ok in X2 as [_ ->]. split_and!; [done| |done].
      intros k' vh' Hvh' Hid'. apply bind_Ok in X1 as (l & u2 & X1 & X3). apply map_each_nil in X3 as ->.
      apply (FindByIndex_found VirtualHostTable) with (db := db) in X1 as [_ Hl]; [|done..].
      assert (vh' ∈ []) as []%elem_of_nil. apply Hl. split; [exact (row_key VirtualHostTable _ _ _ Hvh')|].
      rewrite vhost_routeConfig. by rewrite Hid'.
    + by apply (Hall rc (proj2 (Hof rc) Hrc) k vh).
Qed.

(** * Deletion *)

Lemma delete_route_configs (l : list RouteConfiguration) w db :
  in_tx w db ->
  exists w' db', for_each l (fun rc => DeleteRouteConfigById InTx (RouteConfiguration_Id rc)) w = (Ok tt, w') /\ in_tx w' db' /\
    (forall k x, rows db' RouteConfigurationTable !! k = Some x <->
       rows db RouteConfigurationTable !! k = Some x /\ k ∉ (fun rc => [VInt (RouteConfiguration_Id rc)]) <$> l) /\
    forall t, t <> RouteConfigurationTable -> rows db' t = rows db t.
Proof.
  revert w db. induction l as [|rc l IH]; intros w db Hw.
  - exists w, db. split_and!; [done..| |done]. intros k x. split; [|by intros []]. intros Hx. split; [done|apply not_elem_of_nil].
  - destruct (DeleteById_in_tx RouteConfigurationTable [VInt (RouteConfiguration_Id rc)] w db Hw) as (db1 & E1 & R1 & F1); [done..|].
    destruct (IH _ db1 (in_tx_set db1 w)) as (w' & db' & E' & Hw' & R' & F').
    exists w', db'. split_and!; [|done| |].
    + cbn [for_each]. rewrite (bind_run _ _ _ _ _ E1). exact E'.
    + intros k x. rewrite R', R1, lookup_delete_Some, fmap_cons, not_elem_of_cons. split; intros; destruct_and!; auto.
    + intros t Ht. by rewrite F', F1.
Qed.
Lemma envoy_version_touches gateway e :
  frame (touches (fun t => bool_decide (t = EnvoyConfigVersionTable))) (GenerateEnvoyEntityVersions InTx gateway [e]).
Proof. solve_frame. Qed.

Lemma listeners_version name w w' db :
  in_tx w db -> name <> "" -> GenerateEnvoyEntityVersions InTx name [table_name ListenerTable] w = (Ok tt, w') ->
  exists db' now, in_tx w' db' /\
    rows db' EnvoyConfigVersionTable =
      <[[VStr name; VStr "listeners"] := NewEnvoyConfigVersion now name "listeners"]> (rows db EnvoyConfigVersionTable).
Proof.
  intros Hw Hn E. apply bind_Ok in E as ([] & w1 & E & [_ ->]%ret_Ok). apply bind_Ok in E as (now & w2 & E1 & E).
  assert (frame (tx_rel eq) Now) as F by solve_frame. destruct (frame_in_tx eq _ _ _ _ _ F E1 Hw) as (db' & Hw2 & <-).
  unfold SaveEnvoyConfigVersion in E. rewrite (in_ctx_InTx _ _ _ _ Hw2) in E.
  destruct (Storage.Save _ _ db) as [r db'] eqn:Es. injection E as -> <-.
  apply Storage_Save_Ok in Es as [_ [Hr _]]. exists db', now. split; [apply in_tx_set|]. cbn [snd]. rewrite Hr. f_equal.
  destruct name; [done|reflexivity].
Qed.
Lemma deleted_spec req w db w' :
  in_tx w db -> GatewayDeclaration_Name req <> "" ->
  forall ng, deleteGatewayDeclaration InTx req (Some ng) w = (Ok tt, w') ->
  exists db', in_tx w' db' /\ unused db (GatewayDeclaration_Name req) /\ gateway_removed db db' (GatewayDeclaration_Name req).
Proof.
  intros Hw Hn ng E. set (name := GatewayDeclaration_Name req) in *.
  apply bind_Ok in E as (rcs & w1 & E1 & E). apply (validate_spec req w db rcs w1 Hw Hn) in E1 as (Hw1 & Hun & Hrcs).
  destruct (delete_route_configs rcs w1 db Hw1) as (w2 & db2 & E2 & Hw2 & R2 & F2). rewrite (bind_run _ _ _ _ _ E2) in E.
  destruct (DeleteAll_in_tx ListenerTable "nodeGroup" [VStr name] w2 db2 Hw2) as (n3 & db3 & E3 & R3 & F3); [done..|].
  unfold DeleteListenerByNodeGroupName in E. rewrite bind_run with (a := tt) (w' := set_tx (Some (db3, true)) w2) in E;
    [|by rewrite (bind_run _ _ _ _ _ E3)].
  destruct (DeleteById_in_tx NodeGroupTable [VStr name] _ db3 (in_tx_set db3 w2)) as (db4 & E4 & R4 & F4); [done..|].
  rewrite (bind_run _ _ _ _ _ E4) in E. rewrite set_tx_set_tx in E.
  destruct (frame_in_tx _ _ _ _ _ _ (envoy_version_touches _ _) E (in_tx_set db4 w2)) as (db' & Hw' & S).
  destruct (listeners_version _ _ _ _ (in_tx_set db4 w2) Hn E) as (db'' & now & Hw'' & Hv).
  assert (db'' = db') as -> by (unfold in_tx in *; congruence).
  assert (forall t, t <> EnvoyConfigVersionTable -> rows db' t = rows db4 t) as F5
    by (intros t Ht; apply S; by rewrite bool_decide_eq_false).
  exists db'. split; [done|]. split; [done|]. split_and!.
  - by rewrite F5, R4, F3, F2.
  - intros k l. rewrite F5, F4, R3, F2 by done. split; intros [Hl Hne]; (split; [done|]); intros He; by apply Hne, listener_nodeGroup.
  - intros k rc. rewrite F5, F4, F3, R2 by done. split; intros [Hk Hne]; (split; [done|]).
    + intros He. apply Hne. destruct (rows_wf db RouteConfigurationTable k rc Hk) as [Hkey _]. rewrite route_config_key in Hkey. subst k.
      apply (list_elem_of_fmap_2 (fun rc : RouteConfiguration => [VInt (RouteConfiguration_Id rc)])), Hrcs. split; [by eexists|done].
    + intros (rc' & -> & [[k' Hk'] He]%Hrcs)%list_elem_of_fmap. apply Hne.
      destruct (rows_wf db RouteConfigurationTable k' rc' Hk') as [Hkey _]. rewrite route_config_key in Hkey. subst k'.
      by pose proof (Some_functional _ _ _ Hk Hk') as ->.
  - exists now. by rewrite Hv, F4, F3, F2.
  - intros t Ht. rewrite !not_elem_of_cons in Ht. destruct Ht as (H1 & H2 & H3 & H4 & _). by rewrite F5, F4, F3, F2.
Qed.
Lemma unused_rows db db' name : rows db' = rows db -> unused db' name -> unused db name.
Proof. intros Hr (H1 & H2 & H3). unfold unused, route_configs_of in *. rewrite Hr in H1, H2, H3. done. Qed.
Lemma unwrap_known_Ok {A} known (m : prog World A) w a w' : unwrap_known known m w = (Ok a, w') -> m w = (Ok a, w').
Proof. unfold unwrap_known. destruct (m w) as [[x|[]|?] ?]; done. Qed.
Lemma published_db topic e w w' : Publish topic e w = (Ok tt, w') -> w_db w' = w_db w.
Proof. unfold Publish, bind, tick, modify, lift. destruct (bus_publish _ _ _) as [[]|?|?]; [|done..]. by intros [= <-]. Qed.

(** C34: The deletion of a gateway that answers without an error either found no
    such gateway and changed no row; or the gateway was used by nothing - no TLS
    configuration, no cluster and no virtual host of its route configurations -
    and what it commits is exact: the gateway is gone, with the listeners and the
    route configurations of its name, a version for its listeners is written,
    and every other row is as it was.  So what names the gateway elsewhere stays:
    filters of external authorisation, and its versions. *)
Theorem gateway_deletion res w w' :
  w_writer w = false -> GatewayDeclaration_IsDeleteRequest res = true -> Apply res w = (Ok tt, w') ->
  (rows (w_db w) NodeGroupTable !! [VStr (GatewayDeclaration_Name res)] = None /\ rows (w_db w') = rows (w_db w)) \/
  (is_Some (rows (w_db w) NodeGroupTable !! [VStr (GatewayDeclaration_Name res)]) /\
   unused (w_db w) (GatewayDeclaration_Name res) /\ gateway_removed (w_db w) (w_db w') (GatewayDeclaration_Name res)).
Proof.
  intros Hwr Hdel (changes & w1 & E & Ep)%bind_Ok. apply unwrap_known_Ok in E.
  assert (w_db w' = w_db w1) as -> by (destruct changes; [by apply ret_Ok in Ep as [_ ->]|by eapply published_db]). clear Ep.
  apply WithWTx_Ok in E as (w2 & b & E & Ht). set (db0 := txn_track_changes (w_db w)).
  assert (in_tx (opened w) db0) as Hw0 by done. assert (rows db0 = rows (w_db w)) as Hr0 by apply rows_track.
  apply bind_Ok in E as (ng & w3 & E1 & E). rewrite Hdel in E.
  set (name := GatewayDeclaration_Name res) in *. unfold FindNodeGroupByName in E1.
  rewrite (FindById_in_tx NodeGroupTable [VStr name] _ db0 Hw0) in E1 by done. injection E1 as Eng <-. rewrite Hr0 in Eng.
  destruct ng as [ng|].
  - right. split; [by exists ng|]. assert (name <> "") as Hn by by eapply node_group_named.
    destruct (deleted_spec res _ db0 w2 Hw0 Hn ng E) as (db' & Hw2 & Hu & Hm). unfold in_tx in Hw2.
    rewrite Hw2 in Ht. injection Ht as <- <-. split; [by eapply unused_rows|]. unfold gateway_removed in *. by rewrite Hr0 in Hm.
  - left. split; [done|]. apply ret_Ok in E as [_ ->]. cbn in Ht. by injection Ht as <- _.
Qed.
End spec.

(** * Witness *)

Section witness.
Import RuntimeModel.
Local Existing Instance test_laws.
Local Existing Instance test_runtime.

(** A gateway with a listener, a route configuration and a filter of external
    authorisation, used by nothing. *)
Definition idle_rows (r : repo) : prog World unit :=
  SaveNodeGroup r ((zero : NodeGroup) <| NodeGroup_Name := "gw" |>) ;;;
  _ <- SaveListener r ((zero : Listener) <| Listener_Id := 1%Z |> <| Listener_NodeGroupId := "gw" |> <| Listener_Name := "gw-listener" |>) ;;
  _ <- SaveRouteConfig r ((zero : RouteConfiguration) <| RouteConfiguration_Id := 2%Z |> <| RouteConfiguration_NodeGroupId := "gw" |>
              <| RouteConfiguration_Name := "gw-routes" |>) ;;
  SaveEntity r ExtAuthzFilterTable ((zero : ExtAuthzFilter) <| ExtAuthzFilter_Name := "authz" |> <| ExtAuthzFilter_NodeGroup := "gw" |>).
Definition idle_run := WithWTxVal (idle_rows InTx) empty_world.
Definition idle_world : World := idle_run.2.
Example idle_saved : match idle_run.1 with Ok _ => true | _ => false end = true.
Proof. vm_compute. reflexivity. Qed.
Definition drop_gw : GatewayDeclaration := mkGatewayDeclaration "gw" "" None (Some false) false.

Lemma found_none {A} (o : option A) : match o with Some _ => true | None => false end = true -> o = None -> False.
Proof. by destruct o. Qed.

Lemma authz_elsewhere : ExtAuthzFilterTable ∉ [NodeGroupTable; ListenerTable; RouteConfigurationTable; EnvoyConfigVersionTable].
Proof. rewrite !not_elem_of_cons. split_and!; [discriminate..|apply not_elem_of_nil]. Qed.
Lemma gateway_deletion_witness :
  exists w', Apply drop_gw idle_world = (Ok tt, w') /\ gateway_removed (w_db idle_world) (w_db w') "gw" /\
    is_Some (rows (w_db w') ExtAuthzFilterTable !! [VStr "authz"]).
Proof.
  assert ((Apply drop_gw idle_world).1 = Ok tt) as Hr by (vm_compute; reflexivity).
  destruct (Apply drop_gw idle_world) as [r w'] eqn:Er. simpl in Hr. subst r.
  exists w'. split; [exact eq_refl|].
  destruct (gateway_deletion drop_gw idle_world w' eq_refl eq_refl Er) as [[Hn _]|(_ & _ & Hu)].
  - exfalso. refine (found_none _ _ Hn). vm_compute. reflexivity.
  - split; [exact Hu|]. destruct Hu as (_ & _ & _ & _ & Hf). pose proof (Hf ExtAuthzFilterTable authz_elsewhere) as He.
    destruct (rows (w_db idle_world) ExtAuthzFilterTable !! [VStr "authz"]) as [f|] eqn:Ef.
    + refine (eq_ind_r (fun m => is_Some (m !! [VStr "authz"])) _ He). exists f. exact Ef.
    + exfalso. refine (found_none _ _ Ef). vm_compute. reflexivity.
Defined.
End witness.
