(* ===== verification/Persistence.v ===== *)
(** The persistent storage behind the in-memory database ([constancy]), what a
    commit writes to it ([constancy/flusher.go]), and how the in-memory
    database is loaded from it ([ram/loader.go]).

    Postgres and the ORM bun are parameters: the value an entity's columns
    hold, the constraints of the schema, what fails, and in which order
    [SELECT] returns rows.  A statement acts on the rows of each table by
    primary key, as its SQL says; an aborted transaction leaves no trace. *)
From S2P Require Import Prelude GoLib Domain Tables MemDb Msaddr Events.
From S2P Require Storage Clustering.
Open Scope string_scope.

(** * Rows of the storage *)

Definition Pg : Type := forall t : table, gmap (list value) (entity t).

(** The primary key of the tags of [domain/domain.go]. *)
Definition pk (t : table) : entity t -> list value :=
  match t return entity t -> list value with
  | NodeGroupTable => fun e : NodeGroup => [VStr (NodeGroup_Name e)]
  | DeploymentVersionTable => fun e : DeploymentVersion => [VStr (DeploymentVersion_Version e)]
  | ClusterNodeGroupTable => fun e : ClustersNodeGroup =>
      [VInt (ClustersNodeGroup_ClustersId e); VStr (ClustersNodeGroup_NodegroupsName e)]
  | ListenerTable => fun e : Listener => [VInt (Listener_Id e)]
  | ExtAuthzFilterTable => fun e : ExtAuthzFilter => [VStr (ExtAuthzFilter_Name e)]
  | MicroserviceVersionTable => fun e : MicroserviceVersion =>
      [VStr (MicroserviceVersion_Name e); VStr (MicroserviceVersion_Namespace e); VStr (MicroserviceVersion_InitialDeploymentVersion e)]
  | ClusterTable => fun e : Cluster => [VInt (Cluster_Id e)]
  | EndpointTable => fun e : Endpoint => [VInt (Endpoint_Id e)]
  | RouteConfigurationTable => fun e : RouteConfiguration => [VInt (RouteConfiguration_Id e)]
  | VirtualHostTable => fun e : VirtualHost => [VInt (VirtualHost_Id e)]
  | VirtualHostDomainTable => fun e : VirtualHostDomain =>
      [VStr (VirtualHostDomain_Domain e); VInt (VirtualHostDomain_VirtualHostId e)]
  | RouteTable => fun e : Route => [VInt (Route_Id e)]
  | HeaderMatcherTable => fun e : HeaderMatcher => [VInt (HeaderMatcher_Id e)]
  | HashPolicyTable => fun e : HashPolicy => [VInt (HashPolicy_Id e)]
  | RetryPolicyTable => fun e : RetryPolicy => [VInt (RetryPolicy_Id e)]
  | EnvoyConfigVersionTable => fun e : EnvoyConfigVersion =>
      [VStr (EnvoyConfigVersion_NodeGroup e); VStr (EnvoyConfigVersion_EntityType e)]
  | HealthCheckTable => fun e : HealthCheck => [VInt (HealthCheck_Id e)]
  | TlsConfigTable => fun e : TlsConfig => [VInt (TlsConfig_Id e)]
  | TlsConfigsNodeGroupsTable => fun e : TlsConfigsNodeGroups =>
      [VInt (TlsConfigsNodeGroups_TlsConfigId e); VStr (TlsConfigsNodeGroups_NodeGroupName e)]
  | WasmFilterTable => fun e : WasmFilter => [VInt (WasmFilter_Id e)]
  | ListenersWasmFilterTable => fun e : ListenersWasmFilter =>
      [VInt (ListenersWasmFilter_ListenerId e); VInt (ListenersWasmFilter_WasmFilterId e)]
  | LuaFilterTable => fun e : LuaFilter => [VInt (LuaFilter_Id e)]
  | CompositeSatelliteTable => fun e : CompositeSatellite => [VStr (CompositeSatellite_Namespace e)]
  | StatefulSessionTable => fun e : StatefulSession => [VInt (StatefulSession_Id e)]
  | RateLimitTable => fun e : RateLimit => [VStr (RateLimit_Name e); VInt (RateLimit_Priority e)]
  | CircuitBreakerTable => fun e : CircuitBreaker => [VInt (CircuitBreaker_Id e)]
  | TcpKeepaliveTable => fun e : TcpKeepalive => [VInt (TcpKeepalive_Id e)]
  | ThresholdTable => fun e : Threshold => [VInt (Threshold_Id e)]
  end.

(** * Postgres, bun and the configuration of the pod *)

Class Postgres : Type := {
  (** What is read back of an entity that was written. *)
  columns : forall t, entity t -> entity t;
  (** The constraints of the schema, checked after each statement. *)
  pg_refuses : Pg -> option error;
  (** The [n]-th contact with the server. *)
  pg_fault : nat -> option error;
  (** The order of the rows of a [SELECT]. *)
  select_order : forall A, nat -> list A -> list A;
  pod_ip : string;
  pod_name : string
}.

Class PostgresLaws `{P : Postgres} : Prop := {
  columns_field t f x : FieldByName t f (columns t x) = FieldByName t f x;
  columns_pk t x : pk t (columns t x) = pk t x;
  columns_relation (x : TlsConfigsNodeGroups) :
    TlsConfigsNodeGroups_TlsConfigId (columns TlsConfigsNodeGroupsTable x) = TlsConfigsNodeGroups_TlsConfigId x;
  select_order_perm A n (l : list A) : select_order A n l ≡ₚ l
}.

(** * The mode of disaster recovery ([dr/dr.go]) *)

Inductive Mode := Active | Standby.
#[export] Instance Mode_eq_dec : EqDecision Mode.
Proof. solve_decision. Defined.
Definition GetMode `{Environment} : Mode :=
  let executionMode := os_Getenv "EXECUTION_MODE" in
  if strings_EqualFold executionMode "standby" || strings_EqualFold executionMode "disabled" then Standby else Active.

Definition MasterNodeError := "CORE-MESH-CP-2004".
Definition DbOperationError := "CORE-MESH-CP-8001".

(** [errorcodes.GetCpErrCodeErrorOrNil] *)
Fixpoint GetCpErrCodeErrorOrNil (e : error) : option error :=
  match e with
  | ErrCp code msg => Some (ErrCp code msg)
  | ErrWrap _ e' => GetCpErrCodeErrorOrNil e'
  | _ => None
  end.

(** An element of a [[]interface{}]. *)
Record Row := mkRow { Row_table : table; Row_entity : entity Row_table }.

Section persistence.
Context `{P : Postgres} `{Env : Environment}.

Record PgWorld := mkPgWorld {
  pg : Pg;
  pg_election : list Clustering.MasterMetadata;
  pg_namespaces : list string;
  pg_tick : nat
}.
Definition set_pg (d : Pg) (w : PgWorld) : PgWorld := mkPgWorld d (pg_election w) (pg_namespaces w) (pg_tick w).
Definition set_namespaces (l : list string) (w : PgWorld) : PgWorld := mkPgWorld (pg w) (pg_election w) l (pg_tick w).
Definition next_tick (w : PgWorld) : PgWorld := mkPgWorld (pg w) (pg_election w) (pg_namespaces w) (S (pg_tick w)).

Definition contact : prog PgWorld unit := fun w =>
  (match pg_fault (pg_tick w) with Some e => Err e | None => Ok tt end, next_tick w).

(** [ROLLBACK]: the rows of [w0]. *)
Definition rollback (w0 w : PgWorld) : PgWorld := mkPgWorld (pg w0) (pg_election w0) (pg_namespaces w0) (pg_tick w).

(** [GetConn] and the deferred [Close], whose error is dropped. *)
Definition usingDb {A} (f : prog PgWorld A) : prog PgWorld A := contact ;;; f.

Definition in_transaction {A} (f : prog PgWorld A) : prog PgWorld A := fun w0 =>
  match bind f (fun a => bind contact (fun _ => ret a)) w0 with
  | (Ok a, w) => (Ok a, w)
  | (r, w) => (r, rollback w0 w)
  end.
Definition WithTx {A} (f : prog PgWorld A) : prog PgWorld A := usingDb (contact ;;; in_transaction f).
Definition WithTxBatch {A} (f : prog PgWorld A) : prog PgWorld A := usingDb (contact ;;; in_transaction f).

(** * Statements *)

Definition exec (statement : Pg -> result Pg) : prog PgWorld unit := fun w =>
  match contact w with
  | (Ok _, w) =>
      match statement (pg w) with
      | Ok d => match pg_refuses d with Some e => (Err e, w) | None => (Ok tt, set_pg d w) end
      | Err e => (Err e, w)
      | Panic p => (Panic p, w)
      end
  | r => r
  end.

Definition pg_set (t : table) (m : gmap (list value) (entity t)) (d : Pg) : Pg :=
  fun t' => match decide (t = t') with
            | left e => match e in _ = t'' return gmap (list value) (entity t'') with eq_refl => m end
            | right _ => d t'
            end.

Definition insert_statement (t : table) (x : entity t) (d : Pg) : result Pg :=
  match d t !! pk t x with
  | Some _ => Err (ErrMsg "duplicate key value violates unique constraint")
  | None => Ok (pg_set t (<[pk t x := columns t x]> (d t)) d)
  end.
(** No row with the key is no error. *)
Definition update_statement (t : table) (x : entity t) (d : Pg) : result Pg :=
  match d t !! pk t x with
  | Some _ => Ok (pg_set t (<[pk t x := columns t x]> (d t)) d)
  | None => Ok d
  end.
(** The one foreign key with [ON DELETE CASCADE]: of [tls_configs_node_groups]
    to [tls_configs] (migration 100). *)
Definition refers_to_tls_config (key : list value) (kx : list value * entity TlsConfigsNodeGroupsTable) : Prop :=
  [VInt (TlsConfigsNodeGroups_TlsConfigId kx.2)] = key.
#[export] Instance refers_to_tls_config_dec key kx : Decision (refers_to_tls_config key kx).
Proof. unfold refers_to_tls_config. apply _. Defined.
Definition cascade (t : table) (key : list value) (d : Pg) : Pg :=
  match t with
  | TlsConfigTable => pg_set TlsConfigsNodeGroupsTable
                        (filter (fun kx => ~ refers_to_tls_config key kx) (d TlsConfigsNodeGroupsTable)) d
  | _ => d
  end.
Definition delete_statement (t : table) (x : entity t) (d : Pg) : result Pg :=
  match d t !! pk t x with
  | Some _ => Ok (cascade t (pk t x) (pg_set t (delete (pk t x) (d t)) d))
  | None => Ok d
  end.

(** * Batches ([batch.go]) *)

Definition Insert (entities : list Row) : prog PgWorld unit :=
  for_each entities (fun e => exec (insert_statement (Row_table e) (Row_entity e))).
Definition Update (entities : list Row) : prog PgWorld unit :=
  for_each entities (fun e => exec (update_statement (Row_table e) (Row_entity e))).
Definition Delete (entities : list Row) : prog PgWorld unit :=
  for_each entities (fun e => exec (delete_statement (Row_table e) (Row_entity e))).

(** * Reading ([storage.go], [read_operations.go]) *)

Definition order_tick {A} (l : list A) : prog PgWorld (list A) := fun w =>
  (Ok (select_order A (pg_tick w) l), next_tick w).
Definition select (t : table) (where_ : entity t -> bool) : prog PgWorld (list (entity t)) := fun w =>
  match contact w with
  | (Ok _, w) => order_tick (List.filter where_ ((map_to_list (pg w t)).*2)) w
  | (Err e, w) => (Err e, w)
  | (Panic p, w) => (Panic p, w)
  end.
Definition select_all (t : table) : prog PgWorld (list (entity t)) := WithTx (select t (fun _ => true)).

(** [Relation("NodeGroups")] of the clusters. *)
Definition joined_node_groups (d : Pg) (c : Cluster) : list NodeGroup :=
  omap (fun r : ClustersNodeGroup =>
          if (ClustersNodeGroup_ClustersId r =? Cluster_Id c)%Z
          then d NodeGroupTable !! [VStr (ClustersNodeGroup_NodegroupsName r)]
          else None)
       ((map_to_list (d ClusterNodeGroupTable)).*2).
Definition with_node_groups (d : Pg) (c : Cluster) : Cluster :=
  c <| Cluster_NodeGroups := Some <$> joined_node_groups d c |>.
Definition FindAllClusters : prog PgWorld (list Cluster) :=
  WithTx (w <- gets pg ;; l <- select ClusterTable (fun _ => true) ;; ret (with_node_groups w <$> l)).
Definition FindAllRouteConfigs : prog PgWorld (list RouteConfiguration) := select_all RouteConfigurationTable.
Definition FindAllNodeGroups : prog PgWorld (list NodeGroup) := select_all NodeGroupTable.
Definition FindAllListeners : prog PgWorld (list Listener) := select_all ListenerTable.
Definition FindAllDeploymentVersions : prog PgWorld (list DeploymentVersion) := select_all DeploymentVersionTable.
Definition FindAllEndpoints : prog PgWorld (list Endpoint) := select_all EndpointTable.
Definition FindAllVirtualHosts : prog PgWorld (list VirtualHost) := select_all VirtualHostTable.
Definition FindAllVirtualHostDomains : prog PgWorld (list VirtualHostDomain) := select_all VirtualHostDomainTable.
Definition FindAllNamespaces : prog PgWorld (list string) := WithTx (contact ;;; gets pg_namespaces).
Definition FindAllRoutes : prog PgWorld (list Route) := select_all RouteTable.
Definition FindAllHeaderMatchers : prog PgWorld (list HeaderMatcher) := select_all HeaderMatcherTable.
Definition FindAllHashPolicies : prog PgWorld (list HashPolicy) := select_all HashPolicyTable.
Definition FindAllRetryPolicies : prog PgWorld (list RetryPolicy) := select_all RetryPolicyTable.
Definition FindAllClustersNodeGroups : prog PgWorld (list ClustersNodeGroup) := select_all ClusterNodeGroupTable.
Definition FindAllListenerWasmFilters : prog PgWorld (list ListenersWasmFilter) := select_all ListenersWasmFilterTable.
Definition FindAllEnvoyConfigVersions : prog PgWorld (list EnvoyConfigVersion) := select_all EnvoyConfigVersionTable.
Definition FindAllVirtualHostsDomains : prog PgWorld (list VirtualHostDomain) := select_all VirtualHostDomainTable.
Definition FindAllHealthChecks : prog PgWorld (list HealthCheck) := select_all HealthCheckTable.
Definition FindAllTlsConfigs : prog PgWorld (list TlsConfig) := select_all TlsConfigTable.
Definition FindAllTlsConfigsNodeGroups : prog PgWorld (list TlsConfigsNodeGroups) := select_all TlsConfigsNodeGroupsTable.
Definition FindWasmFilters : prog PgWorld (list WasmFilter) := select_all WasmFilterTable.
Definition FindAllCompositeSatellites : prog PgWorld (list CompositeSatellite) := select_all CompositeSatelliteTable.
Definition FindAllStatefulSessionConfigs : prog PgWorld (list StatefulSession) := select_all StatefulSessionTable.
Definition FindAllElectionRecords : prog PgWorld (list Clustering.MasterMetadata) := WithTx (contact ;;; gets pg_election).
Definition FindAllRateLimits : prog PgWorld (list RateLimit) := select_all RateLimitTable.
Definition FindAllMicroserviceVersions : prog PgWorld (list MicroserviceVersion) := select_all MicroserviceVersionTable.
Definition FindAllExtAuthzFilters : prog PgWorld (list ExtAuthzFilter) := select_all ExtAuthzFilterTable.
Definition FindAllCircuitBreakers : prog PgWorld (list CircuitBreaker) := select_all CircuitBreakerTable.
Definition FindAllThresholds : prog PgWorld (list Threshold) := select_all ThresholdTable.
Definition FindAllTcpKeepalives : prog PgWorld (list TcpKeepalive) := select_all TcpKeepaliveTable.
Definition FindLuaFilters : prog PgWorld (list LuaFilter) := select_all LuaFilterTable.

(** [Scan] into one struct: the first row, an error when there is none. *)
Definition findByCondition (t : table) (where_ : entity t -> bool) : prog PgWorld (entity t) :=
  WithTx (l <- select t where_ ;;
          match l with
          | x :: _ => ret x
          | [] => fail (ErrMsg "sql: no rows in result set")
          end).
Definition FindClusterByName (key : string) : prog PgWorld Cluster :=
  findByCondition ClusterTable (fun x : Cluster => String.eqb (Cluster_Name x) key).
Definition FindClustersNodeGroupByIdAndNodeGroup (clusterId : Z) (nodeGroup : string) : prog PgWorld ClustersNodeGroup :=
  findByCondition ClusterNodeGroupTable (fun x : ClustersNodeGroup =>
    String.eqb (ClustersNodeGroup_NodegroupsName x) nodeGroup && (ClustersNodeGroup_ClustersId x =? clusterId)%Z).
Definition FindTlsConfigByIdAndNodeGroupName (tlsConfigId : Z) (nodeGroupName : string) : prog PgWorld TlsConfigsNodeGroups :=
  findByCondition TlsConfigsNodeGroupsTable (fun x : TlsConfigsNodeGroups =>
    (TlsConfigsNodeGroups_TlsConfigId x =? tlsConfigId)%Z && String.eqb (TlsConfigsNodeGroups_NodeGroupName x) nodeGroupName).
Definition FindCompositeSatelliteByNamespace (namespace : string) : prog PgWorld CompositeSatellite :=
  findByCondition CompositeSatelliteTable (fun x : CompositeSatellite => String.eqb (CompositeSatellite_Namespace x) namespace).
Definition FindDeploymentVersionByName (version : string) : prog PgWorld DeploymentVersion :=
  findByCondition DeploymentVersionTable (fun x : DeploymentVersion => String.eqb (DeploymentVersion_Version x) version).
Definition FindEndpointById (id : Z) : prog PgWorld Endpoint :=
  findByCondition EndpointTable (fun x : Endpoint => (Endpoint_Id x =? id)%Z).
Definition FindHashPolicyById (id : Z) : prog PgWorld HashPolicy :=
  findByCondition HashPolicyTable (fun x : HashPolicy => (HashPolicy_Id x =? id)%Z).
Definition FindHeaderMatcherById (id : Z) : prog PgWorld HeaderMatcher :=
  findByCondition HeaderMatcherTable (fun x : HeaderMatcher => (HeaderMatcher_Id x =? id)%Z).
Definition FindHealthCheckById (id : Z) : prog PgWorld HealthCheck :=
  findByCondition HealthCheckTable (fun x : HealthCheck => (HealthCheck_Id x =? id)%Z).
Definition FindListenerById (id : Z) : prog PgWorld Listener :=
  findByCondition ListenerTable (fun x : Listener => (Listener_Id x =? id)%Z).
Definition FindRetryPolicyById (id : Z) : prog PgWorld RetryPolicy :=
  findByCondition RetryPolicyTable (fun x : RetryPolicy => (RetryPolicy_Id x =? id)%Z).
Definition FindRouteConfigById (id : Z) : prog PgWorld RouteConfiguration :=
  findByCondition RouteConfigurationTable (fun x : RouteConfiguration => (RouteConfiguration_Id x =? id)%Z).
Definition FindRouteById (id : Z) : prog PgWorld Route :=
  findByCondition RouteTable (fun x : Route => (Route_Id x =? id)%Z).
Definition FindTlsConfigById (id : Z) : prog PgWorld TlsConfig :=
  findByCondition TlsConfigTable (fun x : TlsConfig => (TlsConfig_Id x =? id)%Z).
Definition FindVirtualHostById (id : Z) : prog PgWorld VirtualHost :=
  findByCondition VirtualHostTable (fun x : VirtualHost => (VirtualHost_Id x =? id)%Z).
Definition FindWasmFilterById (id : Z) : prog PgWorld WasmFilter :=
  findByCondition WasmFilterTable (fun x : WasmFilter => (WasmFilter_Id x =? id)%Z).
Definition FindLuaFilterById (id : Z) : prog PgWorld LuaFilter :=
  findByCondition LuaFilterTable (fun x : LuaFilter => (LuaFilter_Id x =? id)%Z).
Definition FindStatefulSessionById (id : Z) : prog PgWorld StatefulSession :=
  findByCondition StatefulSessionTable (fun x : StatefulSession => (StatefulSession_Id x =? id)%Z).
Definition FindRateLimitByNameAndPriority (name : string) (priority : Z) : prog PgWorld RateLimit :=
  findByCondition RateLimitTable (fun x : RateLimit => String.eqb (RateLimit_Name x) name && (RateLimit_Priority x =? priority)%Z).
Definition FindNodeGroupByName (name : string) : prog PgWorld NodeGroup :=
  findByCondition NodeGroupTable (fun x : NodeGroup => String.eqb (NodeGroup_Name x) name).
Definition FindExtAuthzFilterByName (name : string) : prog PgWorld ExtAuthzFilter :=
  findByCondition ExtAuthzFilterTable (fun x : ExtAuthzFilter => String.eqb (ExtAuthzFilter_Name x) name).
Definition FindCircuitBreakerById (id : Z) : prog PgWorld CircuitBreaker :=
  findByCondition CircuitBreakerTable (fun x : CircuitBreaker => (CircuitBreaker_Id x =? id)%Z).
Definition FindThresholdById (id : Z) : prog PgWorld Threshold :=
  findByCondition ThresholdTable (fun x : Threshold => (Threshold_Id x =? id)%Z).
Definition FindTcpKeepaliveById (id : Z) : prog PgWorld TcpKeepalive :=
  findByCondition TcpKeepaliveTable (fun x : TcpKeepalive => (TcpKeepalive_Id x =? id)%Z).

(** * The state of the pod ([pod_state_manager.go]) *)

Definition IsCurrentPodDefinedAsMaster : prog PgWorld bool :=
  electionRecords <- FindAllElectionRecords ;;
  match electionRecords with
  | [masterRecord] =>
      ret (String.eqb (Clustering.Name masterRecord) pod_name &&
           String.eqb (Clustering.IP (Clustering.NodeInfoOf masterRecord)) pod_ip)
  | _ => fail (ErrMsg "count of records in Election table is not equal to 1")
  end.
Definition CheckCurrentPodState : prog PgWorld unit :=
  isCurrentPodDefinedAsMaster <- IsCurrentPodDefinedAsMaster ;;
  if isCurrentPodDefinedAsMaster then ret tt
  else fail (ErrCp MasterNodeError "Master node was switched at the moment. Please, Try again later").

(** * The flusher ([flusher.go]) *)

(** The stack, its top first: [Push] appends to a slice, [Pop] takes its last
    element, and gives nil when there is none. *)
Definition stuck : Type := list (list Row).
Definition newStack : stuck := [].
Definition Push (elem : list Row) (s : stuck) : stuck := elem :: s.

Record packs := mkPacks { insertsPack : list Row; updatesPack : list Row; deletesPack : list Row }.
Definition after (c : Change) : list Row :=
  match Change_After c with Some x => [mkRow (Change_Table c) x] | None => [] end.
Definition before (c : Change) : list Row :=
  match Change_Before c with Some x => [mkRow (Change_Table c) x] | None => [] end.
Definition pack (p : packs) (c : Change) : packs :=
  if Created c then mkPacks (insertsPack p ++ after c) (updatesPack p) (deletesPack p)
  else if Updated c then mkPacks (insertsPack p) (updatesPack p ++ after c) (deletesPack p)
  else if Deleted c then mkPacks (insertsPack p) (updatesPack p) (deletesPack p ++ before c)
  else p.
Definition make_packs (typedChanges : list Change) : packs := fold_left pack typedChanges (mkPacks [] [] []).

Definition flush_table (changesByType : ChangesByTable) (deleteStuck : stuck) (t : table) : prog PgWorld stuck :=
  match changesByType !! t with
  | Some typedChanges =>
      let p := make_packs typedChanges in
      Insert (insertsPack p) ;;;
      Update (updatesPack p) ;;;
      ret (Push (deletesPack p) deleteStuck)
  | None => ret deleteStuck
  end.
(** The loop that pops. *)
Fixpoint pop_deletes (deleteStuck : stuck) : prog PgWorld unit :=
  match deleteStuck with
  | [] => ret tt
  | pack :: deleteStuck' => Delete pack ;;; pop_deletes deleteStuck'
  end.
(** [changesByType] is grouped as an event's changes are. *)
Definition flush_batch (changes : list Change) : prog PgWorld unit :=
  deleteStuck <- fold_each TableRelationOrder newStack (flush_table (changesToMap changes)) ;;
  pop_deletes deleteStuck ;;;
  CheckCurrentPodState.
Definition Flush (changes : list Change) : prog PgWorld unit := fun w =>
  if decide (GetMode = Standby) then (Ok tt, w)
  else match WithTxBatch (flush_batch changes) w with
       | (Err e, w) =>
           (Err (match GetCpErrCodeErrorOrNil e with
                 | Some rootCauseErr => rootCauseErr
                 | None => ErrCp DbOperationError "Error during flush transaction"
                 end), w)
       | r => r
       end.

(** * Namespaces ([storage.go]) *)

Definition replaceNamespaceInDomain (domain namespace : string) : string * bool :=
  match strings_Split domain ":" with
  | host :: ((_ :: _) as rest) =>
      match strings_Split host "." with
      | a :: _ :: labels => (strings_Join (strings_Join (a :: namespace :: labels) "." :: rest) ":", true)
      | _ => (domain, false)
      end
  | _ => (domain, false)
  end.

(** [UPDATE virtual_host_domains SET domain = new WHERE domain = old], which
    fails when a row would get the key of another. *)
Definition rename_domain (old new : string) (x : VirtualHostDomain) : VirtualHostDomain :=
  if String.eqb (VirtualHostDomain_Domain x) old then x <| VirtualHostDomain_Domain := new |> else x.
Definition update_domain_statement (old new : string) (d : Pg) : result Pg :=
  let rows : list VirtualHostDomain := rename_domain old new <$> (map_to_list (d VirtualHostDomainTable)).*2 in
  if decide (NoDup (pk VirtualHostDomainTable <$> rows))
  then Ok (pg_set VirtualHostDomainTable (list_to_map ((fun x : entity VirtualHostDomainTable => (pk VirtualHostDomainTable x, x)) <$> rows)) d)
  else Err (ErrMsg "duplicate key value violates unique constraint").
Definition UpdateVirtualHostDomainByOldDomain (domain : VirtualHostDomain) (oldDomain : string) : prog PgWorld unit :=
  WithTx (exec (update_domain_statement oldDomain (VirtualHostDomain_Domain domain))).
(** The errors of the updates are dropped. *)
Definition replaceNamespaceInDomains (newNamespace : string) : prog PgWorld unit :=
  virtualHostDomains <- FindAllVirtualHostDomains ;;
  for_each virtualHostDomains (fun domain =>
    let oldDomain := VirtualHostDomain_Domain domain in
    let '(newDomain, isReplaced) := replaceNamespaceInDomain oldDomain newNamespace in
    if isReplaced
    then ignore_err (UpdateVirtualHostDomainByOldDomain (domain <| VirtualHostDomain_Domain := newDomain |>) oldDomain)
    else ret tt).

Definition SaveNamespace (namespace : string) : prog PgWorld unit :=
  WithTx (contact ;;; modify (fun w => set_namespaces (pg_namespaces w ++ [namespace])%list w)).
Definition UpdateNamespaceByOldNamespace (namespace oldNamespace : string) : prog PgWorld unit :=
  WithTx (contact ;;; modify (fun w =>
    set_namespaces ((fun n => if String.eqb n oldNamespace then namespace else n) <$> pg_namespaces w) w)).
(** The lock row is only held: getting the connection, beginning and inserting
    may fail.  A failed read of the namespaces is taken for an empty table when
    it says that there are no rows. *)
Definition ActualizeNamespacesInDbAndEnv (namespaceFromEnv : string) : prog PgWorld unit :=
  wrap_err "error during getting lock connection" contact ;;;
  wrap_err "error during beginning lock transaction" contact ;;;
  wrap_err "failed to execute lock request" contact ;;;
  namespacesFromDb <- (fun w => match FindAllNamespaces w with
                                | (Err (ErrMsg "sql: no rows in result set"), w) => (Ok [], w)
                                | r => r
                                end) ;;
  match namespacesFromDb with
  | [] =>
      replaceNamespaceInDomains namespaceFromEnv ;;;
      ignore_err (SaveNamespace namespaceFromEnv)
  | [namespaceFromDb] =>
      if String.eqb namespaceFromDb namespaceFromEnv then ret tt
      else replaceNamespaceInDomains namespaceFromEnv ;;;
           ignore_err (UpdateNamespaceByOldNamespace namespaceFromEnv namespaceFromDb)
  | _ => panic "In database more than one namespace"
  end.

(** * Loading the in-memory database ([ram/loader.go]) *)

Definition tableEntityMap (t : table) : prog PgWorld (list (entity t)) :=
  match t return prog PgWorld (list (entity t)) with
  | NodeGroupTable => FindAllNodeGroups
  | DeploymentVersionTable => FindAllDeploymentVersions
  | ClusterTable => FindAllClusters
  | ClusterNodeGroupTable => FindAllClustersNodeGroups
  | EndpointTable => FindAllEndpoints
  | ListenerTable => FindAllListeners
  | RouteConfigurationTable => FindAllRouteConfigs
  | VirtualHostTable => FindAllVirtualHosts
  | VirtualHostDomainTable => FindAllVirtualHostsDomains
  | RouteTable => FindAllRoutes
  | HeaderMatcherTable => FindAllHeaderMatchers
  | HashPolicyTable => FindAllHashPolicies
  | RetryPolicyTable => FindAllRetryPolicies
  | EnvoyConfigVersionTable => FindAllEnvoyConfigVersions
  | HealthCheckTable => FindAllHealthChecks
  | TlsConfigTable => FindAllTlsConfigs
  | TlsConfigsNodeGroupsTable => FindAllTlsConfigsNodeGroups
  | WasmFilterTable => FindWasmFilters
  | ListenersWasmFilterTable => FindAllListenerWasmFilters
  | CompositeSatelliteTable => FindAllCompositeSatellites
  | StatefulSessionTable => FindAllStatefulSessionConfigs
  | RateLimitTable => FindAllRateLimits
  | MicroserviceVersionTable => FindAllMicroserviceVersions
  | ExtAuthzFilterTable => FindAllExtAuthzFilters
  | CircuitBreakerTable => FindAllCircuitBreakers
  | ThresholdTable => FindAllThresholds
  | TcpKeepaliveTable => FindAllTcpKeepalives
  | LuaFilterTable => FindLuaFilters
  end.

Context `{M : MemDb}.

(** Both databases. *)
Definition on_pg {A} (m : prog PgWorld A) : prog (Db * PgWorld) A := fun w =>
  let '(r, s) := m w.2 in (r, (w.1, s)).
Definition on_db {A} (m : prog Db A) : prog (Db * PgWorld) A := fun w =>
  let '(r, db) := m w.1 in (r, (db, w.2)).
(** [WriteTx], the deferred [Abort] and [Commit] at the end. *)
Definition ram_write_tx (m : prog (Db * PgWorld) unit) : prog (Db * PgWorld) unit := fun w =>
  match m w with
  | (Ok _, w') => (Ok tt, w')
  | (r, w') => (r, (w.1, w'.2))
  end.

Definition loadEntity (t : table) : prog (Db * PgWorld) unit :=
  entities <- on_pg (tableEntityMap t) ;;
  on_db (for_each entities (fun e => txn_insert t e)).
Definition Load : prog (Db * PgWorld) unit :=
  ram_write_tx (for_each TableRelationOrder loadEntity).
Definition ClearAndLoad : prog (Db * PgWorld) unit :=
  ram_write_tx (
    for_each TableRelationOrder (fun t => on_db (_ <- txn_delete_all t "id" [] ;; ret tt)) ;;;
    for_each TableRelationOrder loadEntity).
End persistence.
