(* ===== verification/PersistenceSpec.v ===== *)
(** The effect of a flush on the rows of the storage: statement by statement,
    table by table, and of the whole batch. *)
From S2P Require Import Prelude GoLib Domain Tables MemDb Msaddr Events Runtime DaoSpec Persistence.
From S2P Require Storage Clustering.
Open Scope string_scope.

(** * The abstraction

    [persisted R d]: the storage [d] holds, under its primary key, exactly what
    is written of each row of [R]. *)

Definition pk_injective (t : table) (m : gmap (list value) (entity t)) : Prop :=
  forall k1 k2 x y, m !! k1 = Some x -> m !! k2 = Some y -> pk t x = pk t y -> k1 = k2.
Definition persisted_at `{Postgres} (t : table) (R d : Pg) : Prop :=
  pk_injective t (R t) /\
  forall key z, d t !! key = Some z <-> exists k x, R t !! k = Some x /\ pk t x = key /\ z = columns t x.
Definition persisted `{Postgres} (R d : Pg) : Prop := forall t, persisted_at t R d.

(** Rows are kept under the key of the in-memory database. *)
Definition keyed (R : Pg) : Prop :=
  forall t k x, R t !! k = Some x -> id_key t x = k /\ indexable t x = true.

(** The primary keys of the rows that stay are, as a set, the same. *)
Definition keeps_pks (t : table) (b n : gmap (list value) (entity t)) : Prop :=
  forall key, (exists k x y, b !! k = Some x /\ n !! k = Some y /\ pk t x = key) <->
              (exists k x y, b !! k = Some x /\ n !! k = Some y /\ pk t y = key).

(** What a change of the database must respect: header matchers, whose primary
    key is not the key of the in-memory database, keep their ids, and a TLS
    configuration is removed with its relations. *)
Record faithful (b n : Pg) : Prop := {
  matcher_ids_unique : pk_injective HeaderMatcherTable (n HeaderMatcherTable);
  matcher_ids_kept : keeps_pks HeaderMatcherTable (b HeaderMatcherTable) (n HeaderMatcherTable);
  tls_relations k (y : TlsConfigsNodeGroups) : n TlsConfigsNodeGroupsTable !! k = Some y ->
    is_Some (n TlsConfigTable !! [VInt (TlsConfigsNodeGroups_TlsConfigId y)])
}.
(** What of this concerns a table: nothing but for two of them. *)
Definition faithful_at (t : table) (b n : Pg) : Prop :=
  match t with
  | HeaderMatcherTable => pk_injective HeaderMatcherTable (n HeaderMatcherTable) /\
                          keeps_pks HeaderMatcherTable (b HeaderMatcherTable) (n HeaderMatcherTable)
  | TlsConfigsNodeGroupsTable => forall k (y : TlsConfigsNodeGroups), n TlsConfigsNodeGroupsTable !! k = Some y ->
                                   is_Some (n TlsConfigTable !! [VInt (TlsConfigsNodeGroups_TlsConfigId y)])
  | _ => True
  end.
Lemma faithful_tables b n : faithful b n -> forall t, faithful_at t b n.
Proof. intros [] t. by destruct t. Qed.

(** * Keys *)

(** But for header matchers, the primary key gives the other. *)
Definition id_of_pk (t : table) (key : list value) : list value :=
  match t, key with
  | VirtualHostDomainTable, [domain; id] => [id; domain]
  | _, _ => key
  end.
Ltac id_schema H :=
  match type of H with context [schema ?t !! "id"] =>
    let e := eval vm_compute in (schema t !! "id") in change (schema t !! "id") with e in H end.
Lemma id_key_pk t x : t <> HeaderMatcherTable -> indexable t x = true -> id_key t x = id_of_pk t (pk t x).
Proof.
  intros Ht Hx. apply indexable_id in Hx. unfold index_key in Hx.
  destruct t; first [by destruct Ht | clear Ht]; id_schema Hx; simpl in Hx;
   unfold field_key in Hx; simpl in Hx; repeat (destruct (nonempty _) in Hx; simpl in Hx; try discriminate Hx); apply (inj Some) in Hx; symmetry; exact Hx.
Qed.
Lemma id_of_pk_other t key : t <> VirtualHostDomainTable -> id_of_pk t key = key.
Proof. intros Ht. destruct t; first [by destruct Ht|reflexivity]. Qed.
(** Hence they distinguish the same rows. *)
Lemma pk_of_id t x y : t <> HeaderMatcherTable -> indexable t x = true -> indexable t y = true ->
  id_key t x = id_key t y <-> pk t x = pk t y.
Proof.
  intros Ht Hx Hy. rewrite !id_key_pk by done. split; [|by intros ->].
  destruct (decide (t = VirtualHostDomainTable)) as [->|Hd]; [|by rewrite !id_of_pk_other].
  intros E. injection E as E1 E2. unfold pk. by rewrite E1, E2.
Qed.

(** * Statements *)

Lemma pg_set_eq t m d : pg_set t m d t = m.
Proof.
  unfold pg_set. destruct (decide (t = t)) as [e|]; [|done].
  by rewrite (proof_irrel e eq_refl).
Qed.
Lemma pg_set_ne t t' m d : t' <> t -> pg_set t m d t' = d t'.
Proof. intros H. unfold pg_set. destruct (decide (t = t')) as [e|]; [by destruct H|done]. Qed.

(** The rows a deletion of [key] from [t1] removes from [t2] with it. *)
Definition cascades (t1 : table) (key : list value) (t2 : table) : entity t2 -> Prop :=
  match t1, t2 return entity t2 -> Prop with
  | TlsConfigTable, TlsConfigsNodeGroupsTable =>
      fun z : TlsConfigsNodeGroups => [VInt (TlsConfigsNodeGroups_TlsConfigId z)] = key
  | _, _ => fun _ => False
  end.
Lemma cascade_lookup t key d t' k z :
  cascade t key d t' !! k = Some z <-> d t' !! k = Some z /\ ~ cascades t key t' z.
Proof.
  destruct (decide (t = TlsConfigTable)) as [->|Ht].
  - unfold cascade. destruct (decide (t' = TlsConfigsNodeGroupsTable)) as [->|Ht'].
    + rewrite pg_set_eq. rewrite map_lookup_filter_Some. done.
    + rewrite pg_set_ne by done. split; [|by intros [? _]]. intros H. split; [done|]. destruct t'; try (by intros []); by destruct Ht'.
  - replace (cascade t key d) with d by (by destruct t). split; [|by intros [? _]]. intros H. split; [done|].
    destruct t; try (by intros []); by destruct Ht.
Qed.

Lemma Row_pk t x t' y : mkRow t x = mkRow t' y -> t = t' /\ pk t x = pk t' y.
Proof.
  intros H. split; [exact (f_equal Row_table H)|].
  exact (f_equal (fun r => pk (Row_table r) (Row_entity r)) H).
Qed.

Section statements.
Context `{PL : PostgresLaws}.

Lemma contact_Ok w w' : contact w = (Ok tt, w') -> w' = next_tick w.
Proof. unfold contact. by destruct (pg_fault _); intros [= <-]. Qed.
Lemma contact_world w : (contact w).2 = next_tick w.
Proof. done. Qed.

Lemma exec_Ok statement w w' :
  exec statement w = (Ok tt, w') -> statement (pg w) = Ok (pg w') /\ pg_election w' = pg_election w.
Proof.
  unfold exec. destruct (contact w) as [[[]|e|p] w1] eqn:E; [|done..]. apply contact_Ok in E as ->.
  change (pg (next_tick w)) with (pg w). destruct (statement (pg w)) as [d|e|p]; [|done..].
  destruct (pg_refuses d); [done|]. by intros [= <-].
Qed.

(** What [INSERT] and [UPDATE] write. *)
Definition written (t : table) (l : list (entity t)) : gmap (list value) (entity t) :=
  list_to_map ((fun x => (pk t x, columns t x)) <$> l).
Lemma written_cons t x l : written t (x :: l) = <[pk t x := columns t x]> (written t l).
Proof. done. Qed.
Lemma written_Some t l key z :
  written t l !! key = Some z -> exists x, x ∈ l /\ pk t x = key /\ z = columns t x.
Proof.
  intros H%elem_of_list_to_map_2. apply list_elem_of_fmap in H as (x & [= -> ->] & Hx). by exists x.
Qed.
Lemma written_None t l key : written t l !! key = None <-> key ∉ pk t <$> l.
Proof.
  unfold written. rewrite <- not_elem_of_list_to_map, <- list_fmap_compose. done.
Qed.
Lemma written_elem t l x : NoDup (pk t <$> l) -> x ∈ l -> written t l !! pk t x = Some (columns t x).
Proof.
  intros Hl Hx. apply elem_of_list_to_map_1; [by rewrite <- list_fmap_compose|].
  apply list_elem_of_fmap. by exists x.
Qed.

Lemma Insert_Ok t l w w' :
  Insert (mkRow t <$> l) w = (Ok tt, w') ->
  pg_election w' = pg_election w /\
  (forall t', t' <> t -> pg w' t' = pg w t') /\
  NoDup (pk t <$> l) /\ (forall x, x ∈ l -> pg w t !! pk t x = None) /\
  pg w' t = written t l ∪ pg w t.
Proof.
  unfold Insert. revert w. induction l as [|x l IH]; intros w; simpl.
  - intros [_ ->]%ret_Ok. split_and!; [done..|apply NoDup_nil_2|by intros x ?%elem_of_nil|symmetry; apply (left_id_L ∅ (∪))].
  - intros ([] & w1 & [E1 V1]%exec_Ok & E2)%bind_Ok. unfold insert_statement in E1.
    destruct (pg w t !! pk t x) eqn:Ex; [done|]. injection E1 as E1. symmetry in E1.
    destruct (IH w1 E2) as (V2 & F & Hnd & Hnew & Hr). rewrite E1, pg_set_eq in Hr, Hnew.
    split_and!; [congruence| | | |].
    + intros t' Ht. by rewrite F, E1, pg_set_ne.
    + rewrite NoDup_cons. split; [|done]. intros (y & Hy & Hin)%list_elem_of_fmap.
      specialize (Hnew y Hin). by rewrite <- Hy, lookup_insert_eq in Hnew.
    + intros y [->|Hy]%elem_of_cons; [done|]. specialize (Hnew y Hy). by apply lookup_insert_None in Hnew as [? _].
    + rewrite Hr, written_cons, <- insert_union_l, insert_union_r; [done|].
      apply written_None. intros (y & Hy & Hin)%list_elem_of_fmap.
      specialize (Hnew y Hin). by rewrite <- Hy, lookup_insert_eq in Hnew.
Qed.

Lemma Update_Ok t l w w' :
  Update (mkRow t <$> l) w = (Ok tt, w') ->
  pg_election w' = pg_election w /\
  (forall t', t' <> t -> pg w' t' = pg w t') /\
  (NoDup (pk t <$> l) -> forall key, pg w' t !! key = match pg w t !! key with
                               | Some z => Some (default z (written t l !! key))
                               | None => None
                               end).
Proof.
  unfold Update. revert w. induction l as [|x l IH]; intros w; simpl.
  - intros [_ ->]%ret_Ok. split_and!; [done..|]. intros _ key. unfold written. simpl. rewrite lookup_empty.
    by destruct (pg w t !! key).
  - intros ([] & w1 & [E1 V1]%exec_Ok & E2)%bind_Ok.
    destruct (IH w1 E2) as (V2 & F & Hr).
    assert (pg w1 = pg w \/ pg w1 = pg_set t (<[pk t x := columns t x]> (pg w t)) (pg w)) as Hw.
    { unfold update_statement in E1. destruct (pg w t !! pk t x); injection E1 as <-; auto. }
    assert (forall t', t' <> t -> pg w1 t' = pg w t') as F1.
    { intros t' Ht. destruct Hw as [->| ->]; [done|by rewrite pg_set_ne]. }
    split_and!; [congruence|intros t' Ht; by rewrite F, F1|].
    rewrite NoDup_cons. intros [Hx Hnd] key. rewrite (Hr Hnd), written_cons. unfold update_statement in E1.
    destruct (decide (key = pk t x)) as [->|Hne].
    + rewrite lookup_insert_eq. simpl. rewrite (proj2 (written_None t l _) Hx).
      destruct (pg w t !! pk t x) eqn:Ep; injection E1 as E1; rewrite <- E1.
      * by rewrite pg_set_eq, lookup_insert_eq.
      * by rewrite Ep.
    + rewrite lookup_insert_ne by done.
      destruct (pg w t !! pk t x) eqn:Ep; injection E1 as E1; rewrite <- E1; [|done].
      by rewrite pg_set_eq, lookup_insert_ne by done.
Qed.

Lemma Delete_Ok rows w w' :
  Delete rows w = (Ok tt, w') ->
  pg_election w' = pg_election w /\
  (forall t key z, pg w' t !! key = Some z ->
     pg w t !! key = Some z /\ forall x, mkRow t x ∈ rows -> pk t x <> key) /\
  (forall t key z, pg w t !! key = Some z -> (forall x, mkRow t x ∈ rows -> pk t x <> key) ->
     (forall t' x, mkRow t' x ∈ rows -> ~ cascades t' (pk t' x) t z) -> pg w' t !! key = Some z).
Proof.
  unfold Delete. revert w. induction rows as [|[t x] rows IH]; intros w; simpl.
  - intros [_ ->]%ret_Ok. split_and!; [done| |done]. intros t key z H. split; [done|]. by intros x ?%elem_of_nil.
  - intros ([] & w1 & [E1 V1]%exec_Ok & E2)%bind_Ok. destruct (IH w1 E2) as (V2 & Hs & Hc).
    simpl in E1. unfold delete_statement in E1.
    assert (forall t' key z, pg w1 t' !! key = Some z -> pg w t' !! key = Some z /\ forall y, mkRow t' y = mkRow t x -> pk t' y <> key) as Hs1.
    { intros t' key z H. destruct (pg w t !! pk t x) eqn:Ep; injection E1 as E1; rewrite <- E1 in H.
      - apply cascade_lookup in H as [H _]. destruct (decide (t' = t)) as [->|Ht].
        + rewrite pg_set_eq in H. apply lookup_delete_Some in H as [Hk H]. split; [done|].
          intros y [_ Hy]%Row_pk. congruence.
        + rewrite pg_set_ne in H by done. split; [done|]. by intros y [? _]%Row_pk.
      - split; [done|]. intros y [-> Hy]%Row_pk <-. congruence. }
    split_and!; [congruence| |].
    + intros t' key z H. apply Hs in H as [H Hn]. apply Hs1 in H as [H Hn1]. split; [done|].
      intros y [Hy|Hy]%elem_of_cons; auto.
    + intros t' key z H Hn Hca. apply Hc; [|intros y Hy; apply Hn; by right|intros t'' y Hy; apply Hca; by right].
      destruct (pg w t !! pk t x) eqn:Ep; injection E1 as E1; rewrite <- E1; [|done].
      apply cascade_lookup. split; [|apply Hca; by left].
      destruct (decide (t' = t)) as [->|Ht]; [|by rewrite pg_set_ne].
      rewrite pg_set_eq. apply lookup_delete_Some. split; [|done]. apply Hn. by left.
Qed.
Lemma pop_deletes_Ok s w : pop_deletes s w = Delete (concat s) w.
Proof.
  unfold Delete. revert w. induction s as [|p s IH]; intros w; simpl; [done|].
  unfold Delete, bind. generalize w. clear w. induction p as [|r p IHp]; intros w; simpl; [apply IH|].
  unfold bind. destruct (exec _ w) as [[[]|e|q] w1]; [apply IHp|done|done].
Qed.
End statements.

(** * Computations that only read *)

Definition same_storage (w w' : PgWorld) : Prop :=
  pg w' = pg w /\ pg_election w' = pg_election w /\ pg_namespaces w' = pg_namespaces w.
#[export] Instance same_storage_preorder : PreOrder same_storage.
Proof. split; [by intros w|]. intros a b c (? & ? & ?) (? & ? & ?). unfold same_storage. by split_and!; etransitivity. Qed.

Section reading.
Context `{P : Postgres} `{Env : Environment}.

Lemma frame_contact : frame same_storage contact.
Proof. by intros w. Qed.
Lemma frame_in_transaction {A} (f : prog PgWorld A) : frame same_storage f -> frame same_storage (in_transaction f).
Proof.
  intros F w. unfold in_transaction, bind. pose proof (F w) as Hf. destruct (f w) as [[a|e|p] w1]; simpl in Hf; [|by split_and!..].
  pose proof (frame_contact w1) as Hc. destruct (contact w1) as [[[]|e|p] w2]; simpl in *; [by etransitivity|by split_and!..].
Qed.
Lemma frame_WithTx {A} (f : prog PgWorld A) : frame same_storage f -> frame same_storage (WithTx f).
Proof. intros F. repeat (apply frame_bind; [apply _|apply frame_contact|intros]). by apply frame_in_transaction. Qed.
Lemma frame_select t c : frame same_storage (select t c).
Proof.
  intros w. unfold select. pose proof (frame_contact w) as Hc. by destruct (contact w) as [[[]|e|p] w1].
Qed.
Lemma frame_select_all t : frame same_storage (select_all t).
Proof. apply frame_WithTx, frame_select. Qed.
Lemma frame_FindAllElectionRecords : frame same_storage FindAllElectionRecords.
Proof. apply frame_WithTx, frame_bind; [apply _|apply frame_contact|]. intros. apply frame_gets, _. Qed.
Lemma frame_CheckCurrentPodState : frame same_storage CheckCurrentPodState.
Proof.
  apply frame_bind; [apply _| |].
  - apply frame_bind; [apply _|apply frame_FindAllElectionRecords|].
    intros [|r [|]]; first [apply frame_ret, _|apply frame_fail, _].
  - intros []; first [apply frame_ret, _|apply frame_fail, _].
Qed.

(** The pod that may write. *)
Definition recorded_master (election : list Clustering.MasterMetadata) : Prop :=
  exists record, election = [record] /\ Clustering.Name record = pod_name /\
                 Clustering.IP (Clustering.NodeInfoOf record) = pod_ip.

Lemma in_transaction_Ok {A} (f : prog PgWorld A) w a w' :
  in_transaction f w = (Ok a, w') -> exists w1, f w = (Ok a, w1) /\ w' = next_tick w1.
Proof.
  unfold in_transaction, bind. destruct (f w) as [[x|e|p] w1]; [|done..].
  destruct (contact w1) as [[[]|e|p] w2] eqn:E; [|done..]. intros [= -> ->]. exists w1. split; [done|].
  by apply contact_Ok in E.
Qed.
Lemma in_transaction_fail {A} (f : prog PgWorld A) w r w' :
  in_transaction f w = (r, w') -> ~ is_Ok r -> same_storage w w'.
Proof.
  unfold in_transaction. destruct (bind _ _ w) as [[a|e|p] w1]; intros [= <- <-] H; [|by split_and!..].
  destruct H. by eexists.
Qed.
Lemma WithTx_Ok {A} (f : prog PgWorld A) w a w' :
  WithTx f w = (Ok a, w') -> exists w1, f (next_tick (next_tick w)) = (Ok a, w1) /\ w' = next_tick w1.
Proof.
  intros ([] & w1 & E1 & ([] & w2 & E2 & H)%bind_Ok)%bind_Ok.
  apply contact_Ok in E1 as ->. apply contact_Ok in E2 as ->.
  by apply in_transaction_Ok.
Qed.
Lemma WithTx_fail {A} (f : prog PgWorld A) w r w' : WithTx f w = (r, w') -> ~ is_Ok r -> same_storage w w'.
Proof.
  unfold WithTx, usingDb, bind. pose proof (frame_contact w) as F1. destruct (contact w) as [[[]|e|p] w1]; simpl in F1; [|by intros [= <- <-]..].
  pose proof (frame_contact w1) as F2. destruct (contact w1) as [[[]|e|p] w2]; simpl in F2; [|by intros [= <- <-] _; etransitivity..].
  intros H Hr. apply in_transaction_fail in H; [|done]. by etransitivity; [|etransitivity].
Qed.

Lemma CheckCurrentPodState_Ok w w' :
  CheckCurrentPodState w = (Ok tt, w') -> recorded_master (pg_election w).
Proof.
  intros (b & w1 & E & H)%bind_Ok. destruct b; [|done]. apply bind_Ok in E as (l & w2 & E & H').
  apply WithTx_Ok in E as (w3 & ([] & w4 & E4 & [-> ->]%gets_Ok)%bind_Ok & ->).
  pose proof (frame_run _ _ _ _ _ frame_contact E4) as (_ & He & _). simpl in He. rewrite He in H'.
  destruct (pg_election w) as [|r [|]]; [done| |done]. apply ret_Ok in H' as [H' _].
  symmetry in H'. apply andb_prop in H' as [H1%String.eqb_eq H2%String.eqb_eq]. by exists r.
Qed.
End reading.

(** * The flusher *)

Lemma NoDup_omap_inj {A B} (f : A -> option B) l :
  (forall x y z, x ∈ l -> y ∈ l -> f x = Some z -> f y = Some z -> x = y) -> NoDup l -> NoDup (omap f l).
Proof.
  induction l as [|x l IH]; intros Hf; simpl; [intros _; apply NoDup_nil_2|]. intros [Hx Hl]%NoDup_cons.
  assert (NoDup (omap f l)) as H by (apply IH; [intros x1 x2 z H1 H2; apply Hf; by right|done]).
  destruct (f x) as [z|] eqn:E; [|exact H]. apply NoDup_cons. split; [|done].
  intros (y & Hy & Hz)%list_elem_of_omap. apply Hx. rewrite (Hf x y z); [done|left|by right|done|done].
Qed.

Section flush.
Context `{PL : PostgresLaws} `{Env : Environment}.
Variables b n : Pg.
Variable l : list (table * list value).

Definition change_at (tk : table * list value) : Change := mkChange tk.1 (b tk.1 !! tk.2) (n tk.1 !! tk.2).
Definition key_of (t : table) (tk : table * list value) : option (list value) :=
  if decide (tk.1 = t) then Some tk.2 else None.
Definition keys_of (t : table) : list (list value) := omap (key_of t) l.
Lemma elem_keys_of t k : k ∈ keys_of t <-> (t, k) ∈ l.
Proof.
  unfold keys_of. rewrite list_elem_of_omap. unfold key_of. split.
  - intros ([t' k'] & Hin & H). simpl in H. destruct (decide (t' = t)) as [->|]; [|done]. by injection H as ->.
  - intros H. exists (t, k). split; [done|]. simpl. by rewrite decide_True.
Qed.
Lemma NoDup_keys_of t : NoDup l -> NoDup (keys_of t).
Proof.
  unfold keys_of. intros H. apply NoDup_omap_inj; [|done]. intros [t1 k1] [t2 k2] k _ _ H1 H2. unfold key_of in *. simpl in *.
  destruct (decide (t1 = t)), (decide (t2 = t)); congruence.
Qed.
Lemma changes_of_at t :
  changes_of t (map change_at l) = map (fun k => change_at (t, k)) (keys_of t).
Proof.
  unfold keys_of, key_of. clear. induction l as [|[t' k] l' IH]; simpl; [done|]. rewrite IH. simpl.
  case_bool_decide as E; [subst; by rewrite decide_True|by rewrite decide_False].
Qed.

Definition created_at (t : table) (k : list value) : option (entity t) :=
  match b t !! k, n t !! k with None, Some y => Some y | _, _ => None end.
Definition updated_at (t : table) (k : list value) : option (entity t) :=
  match b t !! k, n t !! k with Some _, Some y => Some y | _, _ => None end.
Definition deleted_at (t : table) (k : list value) : option (entity t) :=
  match b t !! k, n t !! k with Some x, None => Some x | _, _ => None end.
Definition created (t : table) : list (entity t) := omap (created_at t) (keys_of t).
Definition updated (t : table) : list (entity t) := omap (updated_at t) (keys_of t).
Definition deleted (t : table) : list (entity t) := omap (deleted_at t) (keys_of t).

Lemma make_packs_at t ks :
  make_packs (map (fun k => change_at (t, k)) ks)
  = mkPacks (mkRow t <$> omap (created_at t) ks) (mkRow t <$> omap (updated_at t) ks) (mkRow t <$> omap (deleted_at t) ks).
Proof.
  unfold make_packs.
  assert (forall p, fold_left pack (map (fun k => change_at (t, k)) ks) p
    = mkPacks (insertsPack p ++ (mkRow t <$> omap (created_at t) ks)) (updatesPack p ++ (mkRow t <$> omap (updated_at t) ks))
              (deletesPack p ++ (mkRow t <$> omap (deleted_at t) ks)))%list as H.
  { clear. induction ks as [|k ks IH]; intros [i u d]; simpl; [by rewrite !app_nil_r|]. rewrite IH.
    unfold pack, Created, Updated, Deleted, after, before, created_at, updated_at, deleted_at, change_at. simpl.
    destruct (b t !! k), (n t !! k); simpl; by rewrite <- ?app_assoc. }
  by rewrite H.
Qed.

(** What the inserts and updates make of a table. *)
Definition upserted (t : table) (m m' : gmap (list value) (entity t)) : Prop :=
  NoDup (pk t <$> created t) /\ (forall x, x ∈ created t -> m !! pk t x = None) /\
  forall key, m' !! key = match (written t (created t) ∪ m) !! key with
                          | Some z => Some (default z (written t (updated t) !! key))
                          | None => None
                          end.

Lemma flush_table_Ok t s w s' w' :
  flush_table (changesToMap (map change_at l)) s t w = (Ok s', w') ->
  pg_election w' = pg_election w /\
  (forall t', t' <> t -> pg w' t' = pg w t') /\ (NoDup (pk t <$> updated t) -> upserted t (pg w t) (pg w' t)) /\
  forall r, r ∈ concat s' <-> r ∈ mkRow t <$> deleted t \/ r ∈ concat s.
Proof.
  unfold flush_table. rewrite changesToMap_lookup, changes_of_at. intros H.
  destruct (map _ (keys_of t)) as [|c cs] eqn:Ek.
  - apply ret_Ok in H as [-> ->]. apply map_eq_nil in Ek. unfold upserted, created, updated, deleted. rewrite Ek. simpl.
    split_and!; [done..| |set_solver]. intros _. split_and!; [apply NoDup_nil_2|by intros x ?%elem_of_nil|].
    intros key. unfold written. simpl. rewrite lookup_empty, (left_id_L ∅ (∪)). by destruct (pg w t !! key).
  - rewrite <- Ek, make_packs_at in H. cbv zeta in H. cbn [insertsPack updatesPack deletesPack] in H.
    run_ok H. destruct a. run_ok H. destruct a. run_ok H.
    apply Insert_Ok in E as (V1 & F1 & Hn & Hf & R1). apply Update_Ok in E0 as (V2 & F2 & R2).
    split_and!; [congruence| | |].
    + intros t' Ht. by rewrite F2, F1.
    + intros Hnd. split_and!; [done..|]. intros key. rewrite (R2 Hnd), R1. done.
    + intros r. unfold Push. simpl. rewrite elem_of_app. done.
Qed.

Lemma flush_tables_Ok ts s w s' w' :
  fold_each ts s (flush_table (changesToMap (map change_at l))) w = (Ok s', w') ->
  NoDup ts ->
  pg_election w' = pg_election w /\
  (forall t, t ∉ ts -> pg w' t = pg w t) /\ (forall t, t ∈ ts -> NoDup (pk t <$> updated t) -> upserted t (pg w t) (pg w' t)) /\
  forall r, r ∈ concat s' <-> (exists t, t ∈ ts /\ r ∈ mkRow t <$> deleted t) \/ r ∈ concat s.
Proof.
  revert s w. induction ts as [|t ts IH]; intros s w H Hts; simpl in H.
  - apply ret_Ok in H as [-> ->]. set_solver.
  - apply NoDup_cons in Hts as [Ht Hts]. run_ok H.
    apply flush_table_Ok in E as (V1 & F1 & U1 & D1).
    apply IH in H as (V2 & F2 & U2 & D2); [|done]. split_and!; [congruence| | |].
    + intros t' [? ?]%not_elem_of_cons. by rewrite F2, F1.
    + intros t' [->|Hin]%elem_of_cons; [by rewrite F2|]. rewrite <- F1; [by apply U2|]. by intros ->.
    + intros r. rewrite D2, D1. set_solver.
Qed.
End flush.

(** Keys of the in-memory database distinguish primary keys, and so do the rows
    an update writes. *)
Lemma keyed_injective (n : Pg) t : keyed n -> t <> HeaderMatcherTable -> pk_injective t (n t).
Proof. intros Hn Ht k1 k2 x y [<- Hx]%Hn [<- Hy]%Hn. by apply pk_of_id. Qed.
Lemma updated_injective b n l t : NoDup l -> pk_injective t (n t) -> NoDup (pk t <$> updated b n l t).
Proof.
  intros Hl Hinj. unfold updated. rewrite list_fmap_omap. apply NoDup_omap_inj; [|by apply NoDup_keys_of].
  intros k1 k2 key _ _ H1 H2. unfold updated_at in *.
  destruct (b t !! k1), (n t !! k1) eqn:E1, (b t !! k2), (n t !! k2) eqn:E2; simpl in *; try done.
  apply (Hinj k1 k2 _ _ E1 E2). congruence.
Qed.

(** * The storage follows the in-memory database *)

Section refinement.
Context `{PL : PostgresLaws} `{Env : Environment}.
Context {b n : Pg} {l : list (table * list value)} {w0 : PgWorld}.
Hypothesis Hb : keyed b.
Hypothesis Hn : keyed n.
Hypothesis Hl : NoDup l.
Hypothesis Hsame : forall t k, (t, k) ∉ l -> n t !! k = b t !! k.

Section table.
Variable t : table.
Hypothesis Hf : faithful_at t b n.
Hypothesis Hpg : persisted_at t b (pg w0).

Lemma n_injective : pk_injective t (n t).
Proof. destruct (decide (t = HeaderMatcherTable)) as [E|Ht]; [revert Hf; rewrite E; by intros [? _]|by apply keyed_injective]. Qed.
Lemma b_injective : pk_injective t (b t).
Proof. apply Hpg. Qed.
Lemma kept : keeps_pks t (b t) (n t).
Proof.
  destruct (decide (t = HeaderMatcherTable)) as [E|Ht]; [revert Hf; rewrite E; by intros [_ ?]|].
  assert (forall k x y, b t !! k = Some x -> n t !! k = Some y -> pk t x = pk t y) as H.
  { intros k x y [Hk Hx]%Hb [Hk' Hy]%Hn. apply pk_of_id; congruence. }
  intros key. split; intros (k & x & y & Hx & Hy & <-); exists k, x, y; split_and!; try done; [symmetry|]; by apply (H k).
Qed.
Lemma stored key : is_Some (pg w0 t !! key) <-> exists k x, b t !! k = Some x /\ pk t x = key.
Proof.
  destruct Hpg as [_ H]. split.
  - intros (z & (k & x & Hx & Hk & _)%H). by exists k, x.
  - intros (k & x & Hx & Hk). exists (columns t x). apply H. by exists k, x.
Qed.

Lemma elem_created y : y ∈ created b n l t <-> exists k, (t, k) ∈ l /\ b t !! k = None /\ n t !! k = Some y.
Proof.
  unfold created. rewrite list_elem_of_omap. unfold created_at. split.
  - intros (k & Hk%elem_keys_of & H). exists k. destruct (b t !! k), (n t !! k); naive_solver.
  - intros (k & Hk & H1 & H2). exists k. rewrite elem_keys_of, H1, H2. done.
Qed.
Lemma elem_updated y : y ∈ updated b n l t <-> exists k x, (t, k) ∈ l /\ b t !! k = Some x /\ n t !! k = Some y.
Proof.
  unfold updated. rewrite list_elem_of_omap. unfold updated_at. split.
  - intros (k & Hk%elem_keys_of & H). exists k. destruct (b t !! k), (n t !! k); naive_solver.
  - intros (k & x & Hk & H1 & H2). exists k. rewrite elem_keys_of, H1, H2. done.
Qed.
Lemma elem_deleted x : x ∈ deleted b n l t <-> exists k, (t, k) ∈ l /\ b t !! k = Some x /\ n t !! k = None.
Proof.
  unfold deleted. rewrite list_elem_of_omap. unfold deleted_at. split.
  - intros (k & Hk%elem_keys_of & H). exists k. destruct (b t !! k), (n t !! k); naive_solver.
  - intros (k & Hk & H1 & H2). exists k. rewrite elem_keys_of, H1, H2. done.
Qed.
(** A removed row is always reported. *)
Lemma deleted_reported k x : b t !! k = Some x -> n t !! k = None -> x ∈ deleted b n l t.
Proof.
  intros H1 H2. apply elem_deleted. exists k. split; [|done].
  destruct (decide ((t, k) ∈ l)) as [|H]; [done|]. apply Hsame in H. congruence.
Qed.

Lemma updated_NoDup : NoDup (pk t <$> updated b n l t).
Proof. apply updated_injective; [done|apply n_injective]. Qed.
Lemma written_updated y k x :
  (t, k) ∈ l -> b t !! k = Some x -> n t !! k = Some y -> written t (updated b n l t) !! pk t y = Some (columns t y).
Proof.
  intros Hk H1 H2. apply written_elem; [apply updated_NoDup|]. apply elem_updated. by exists k, x.
Qed.

(** No row of the new state is deleted by its primary key. *)
Lemma deleted_pk m k x y :
  upserted b n l t (pg w0 t) m -> x ∈ deleted b n l t -> n t !! k = Some y -> pk t x <> pk t y.
Proof.
  intros (_ & Hnew & _) (k' & Hk' & Hbx & Hnx)%elem_deleted Hy Heq.
  destruct (b t !! k) as [x'|] eqn:Hbk.
  - destruct (proj2 (kept (pk t y))) as (k2 & x2 & y2 & H1 & H2 & H3); [by exists k, x', y|].
    assert (k2 = k') as -> by (apply (b_injective k2 k' _ _ H1 Hbx); congruence). congruence.
  - assert (y ∈ created b n l t) as Hc.
    { apply elem_created. exists k. split; [|done]. destruct (decide ((t, k) ∈ l)) as [|H]; [done|].
      apply Hsame in H. congruence. }
    apply Hnew in Hc. assert (is_Some (pg w0 t !! pk t y)) as [z Hz] by (apply stored; by exists k', x).
    congruence.
Qed.

(** Inserts and updates write every row of the new state. *)
Lemma upserted_complete m k y :
  upserted b n l t (pg w0 t) m -> n t !! k = Some y -> m !! pk t y = Some (columns t y).
Proof.
  intros (Hnd & Hnew & Hm) Hy. rewrite Hm.
  destruct (written t (updated b n l t) !! pk t y) as [z|] eqn:Eu.
  - (* a row that is updated to this key: this one *)
    apply written_Some in Eu as (y' & (k' & x' & Hk' & Hbx & Hny)%elem_updated & Hpk & ->).
    assert (k' = k) as -> by (by apply (n_injective k' k y' y)).
    assert (y' = y) as -> by congruence.
    destruct (proj2 (kept (pk t y))) as (k2 & x2 & y2 & H1 & H2 & H3); [by exists k, x', y|].
    assert (is_Some ((written t (created b n l t) ∪ pg w0 t) !! pk t y)) as [z ->]; [|done].
    apply lookup_union_is_Some. right. apply stored. by exists k2, x2.
  - destruct (b t !! k) as [x|] eqn:Hbk.
    + (* unchanged *)
      destruct (decide ((t, k) ∈ l)) as [Hk|Hk]; [by rewrite (written_updated y k x) in Eu|].
      apply Hsame in Hk. assert (x = y) as -> by congruence.
      rewrite lookup_union_r; [|].
      * assert (pg w0 t !! pk t y = Some (columns t y)) as -> by (apply Hpg; by exists k, y). done.
      * apply written_None. intros (c & Hpk & Hc)%list_elem_of_fmap. apply Hnew in Hc.
        assert (is_Some (pg w0 t !! pk t y)) as [z Hz] by (apply stored; by exists k, y). congruence.
    + (* created *)
      rewrite (lookup_union_Some_l _ _ _ (columns t y)); [done|]. apply written_elem; [done|].
      apply elem_created. exists k. split; [|done]. destruct (decide ((t, k) ∈ l)) as [|H]; [done|].
      apply Hsame in H. congruence.
Qed.

(** And what is neither new nor deleted was there before. *)
Lemma upserted_sound m key z :
  upserted b n l t (pg w0 t) m -> m !! key = Some z ->
  (forall x, x ∈ deleted b n l t -> pk t x <> key) ->
  exists k y, n t !! k = Some y /\ pk t y = key /\ z = columns t y.
Proof.
  intros (Hnd & Hnew & Hm) Hz Hd. rewrite Hm in Hz.
  destruct ((written t (created b n l t) ∪ pg w0 t) !! key) as [z0|] eqn:E0; [|done]. injection Hz as <-.
  destruct (written t (updated b n l t) !! key) as [z1|] eqn:E1; simpl.
  - apply written_Some in E1 as (y & (k & x & _ & _ & Hny)%elem_updated & Hpk & ->). by exists k, y.
  - apply lookup_union_Some_raw in E0 as [E0|[_ E0]].
    + apply written_Some in E0 as (y & (k & _ & _ & Hny)%elem_created & Hpk & ->). by exists k, y.
    + apply Hpg in E0 as (k & x & Hbx & Hpk & ->). destruct (n t !! k) as [y|] eqn:Hny.
      * destruct (decide ((t, k) ∈ l)) as [Hk|Hk].
        -- destruct (proj1 (kept key)) as (k2 & x2 & y2 & H1 & H2 & H3); [by exists k, x, y|].
           destruct (decide ((t, k2) ∈ l)) as [Hk2|Hk2].
           ++ pose proof (written_updated y2 k2 x2 Hk2 H1 H2) as Hw. congruence.
           ++ pose proof (Hsame _ _ Hk2). assert (k2 = k) as -> by (apply (b_injective k2 k y2 x); congruence).
              done.
        -- apply Hsame in Hk. exists k, x. split_and!; congruence.
      * destruct (Hd x); [by apply (deleted_reported k)|done].
Qed.

End table.

(** A table that agrees with the storage before, agrees after; the relations of
    TLS configurations, when the configurations do, too. *)
Lemma flush_batch_persisted t w' :
  flush_batch (map (change_at b n) l) w0 = (Ok tt, w') ->
  faithful_at t b n -> persisted_at t b (pg w0) ->
  (t = TlsConfigsNodeGroupsTable -> persisted_at TlsConfigTable b (pg w0)) ->
  persisted_at t n (pg w') /\ recorded_master (pg_election w0).
Proof.
  unfold flush_batch. intros H Hf Hpg Htls. run_ok H. run_ok H. destruct a0.
  apply flush_tables_Ok in E as (V1 & _ & U & D); [|apply Storage.TableRelationOrder_NoDup].
  rewrite pop_deletes_Ok in E0. apply Delete_Ok in E0 as (V2 & Hs & Hc).
  pose proof (frame_run _ _ _ _ _ frame_CheckCurrentPodState H) as (Hp & _). rewrite Hp.
  apply CheckCurrentPodState_Ok in H. rewrite V2, V1 in H. split; [|done].
  assert (forall u x, mkRow u x ∈ concat a <-> x ∈ deleted b n l u) as Hdel.
  { clear - D. intros t x. rewrite D. simpl. split.
    - intros [(t' & _ & (x' & Hx & Hin)%list_elem_of_fmap)|[]%elem_of_nil].
      assert (t = t') as <- by (by apply Row_pk in Hx as [? _]).
      assert (x = x') as -> by (apply (f_equal (fun r => match decide (Row_table r = t) with
         | left e => Some (eq_rect _ entity (Row_entity r) _ e) | _ => None end)) in Hx; simpl in Hx;
         destruct (decide (t = t)) as [e|]; [rewrite (proof_irrel e eq_refl) in Hx; by injection Hx|done]).
      done.
    - intros Hx. left. exists t. split; [apply Storage.TableRelationOrder_all|]. apply list_elem_of_fmap. by exists x. }
  pose proof (U t (Storage.TableRelationOrder_all t) (updated_NoDup t Hf)) as Ut.
  split; [by apply n_injective|]. intros key z. split.
  - intros [Hz Hd]%Hs. apply (upserted_sound t Hf Hpg _ key z Ut Hz). intros x Hx. by apply Hd, Hdel.
  - intros (k & y & Hy & <- & ->). apply Hc.
    + by apply (upserted_complete t Hf Hpg _ k).
    + intros x Hx%Hdel. by apply (deleted_pk t Hf Hpg _ k x y Ut).
    + intros t' x Hx%Hdel Hca. destruct t'; try done. destruct t; try done.
      unfold cascades in Hca. rewrite columns_relation in Hca.
      destruct (Hf k y Hy) as [c Hc'].
      apply (deleted_pk TlsConfigTable I (Htls eq_refl) _ _ x c (U _ (Storage.TableRelationOrder_all _) (updated_NoDup TlsConfigTable I)) Hx Hc').
      pose proof (Hn _ _ _ Hc') as [Hid Hix]. rewrite id_key_pk in Hid by done.
      rewrite id_of_pk_other in Hid by done. rewrite Hid, <- Hca. done.
Qed.
End refinement.

(** * A server that neither fails nor refuses *)

Section reliable.
Context `{PL : PostgresLaws} `{Env : Environment}.
Hypothesis no_fault : forall k, pg_fault k = None.
Hypothesis no_refusal : forall d, pg_refuses d = None.

Lemma contact_total w : contact w = (Ok tt, next_tick w).
Proof. unfold contact. by rewrite no_fault. Qed.
Lemma exec_total statement w d :
  statement (pg w) = Ok d -> exec statement w = (Ok tt, set_pg d (next_tick w)).
Proof.
  intros H. unfold exec. rewrite contact_total. change (pg (next_tick w)) with (pg w). by rewrite H, no_refusal.
Qed.
Lemma WithTx_total {A} (f : prog PgWorld A) w a w1 :
  f (next_tick (next_tick w)) = (Ok a, w1) -> WithTx f w = (Ok a, next_tick w1).
Proof.
  intros H. unfold WithTx, usingDb, bind. rewrite !contact_total. unfold in_transaction, bind. by rewrite H, contact_total.
Qed.

Lemma Insert_total t l w :
  NoDup (pk t <$> l) -> (forall x, x ∈ l -> pg w t !! pk t x = None) -> exists w', Insert (mkRow t <$> l) w = (Ok tt, w').
Proof.
  unfold Insert. revert w. induction l as [|x l IH]; intros w; simpl; [by exists w|].
  intros [Hx Hl]%NoDup_cons Hnew. unfold bind. erewrite exec_total; [|unfold insert_statement; by rewrite Hnew by left].
  apply IH; [done|]. intros y Hy. cbn [pg set_pg]. rewrite pg_set_eq, lookup_insert_ne; [apply Hnew; by right|].
  intros Heq. apply Hx, list_elem_of_fmap. by exists y.
Qed.
Lemma Update_total rows w : exists w', Update rows w = (Ok tt, w').
Proof.
  unfold Update. revert w. induction rows as [|x l IH]; intros w; simpl; [by exists w|]. unfold bind.
  destruct (pg w (Row_table x) !! pk _ (Row_entity x)) eqn:E;
    (erewrite exec_total; [|unfold update_statement; by rewrite E]); apply IH.
Qed.
Lemma Delete_total rows w : exists w', Delete rows w = (Ok tt, w').
Proof.
  unfold Delete. revert w. induction rows as [|x l IH]; intros w; simpl; [by exists w|]. unfold bind.
  destruct (pg w (Row_table x) !! pk _ (Row_entity x)) eqn:E;
    (erewrite exec_total; [|unfold delete_statement; by rewrite E]); apply IH.
Qed.

Lemma flush_tables_total b n l ts s w :
  NoDup ts -> (forall t, NoDup (pk t <$> updated b n l t)) ->
  (forall t, t ∈ ts -> NoDup (pk t <$> created b n l t) /\ forall x, x ∈ created b n l t -> pg w t !! pk t x = None) ->
  exists s' w', fold_each ts s (flush_table (changesToMap (map (change_at b n) l))) w = (Ok s', w').
Proof.
  revert s w. induction ts as [|t ts IH]; intros s w; simpl; [intros; by exists s, w|].
  intros [Ht Hts]%NoDup_cons Hu Hc.
  assert (exists s1 w1, flush_table (changesToMap (map (change_at b n) l)) s t w = (Ok s1, w1)) as (s1 & w1 & E).
  { unfold flush_table. rewrite changesToMap_lookup, changes_of_at.
    destruct (map _ (keys_of l t)) as [|c cs] eqn:Ek; [by exists s, w|]. rewrite <- Ek, make_packs_at. cbv zeta.
    cbn [insertsPack updatesPack deletesPack]. destruct (Hc t) as [H1 H2]; [by left|].
    destruct (Insert_total t _ w H1 H2) as [w1 E1]. destruct (Update_total (mkRow t <$> updated b n l t) w1) as [w2 E2].
    unfold created, updated in *. unfold bind. rewrite E1, E2. by eexists _, _. }
  unfold bind. rewrite E. apply IH; [done..|]. intros t' Ht'. apply flush_table_Ok in E as (_ & F & _).
  rewrite F; [apply Hc; by right|]. by intros ->.
Qed.

Lemma CheckCurrentPodState_total w : recorded_master (pg_election w) -> exists w', CheckCurrentPodState w = (Ok tt, w').
Proof.
  intros (r & Hr & Hn & Hi).
  assert (FindAllElectionRecords w = (Ok [r], next_tick (next_tick (next_tick (next_tick w))))) as E.
  { unfold FindAllElectionRecords. erewrite WithTx_total; [done|]. unfold bind. rewrite contact_total. unfold gets. simpl. by rewrite Hr. }
  unfold CheckCurrentPodState, IsCurrentPodDefinedAsMaster, bind. rewrite E. simpl. rewrite Hn, Hi, !String.eqb_refl. by eexists.
Qed.

(** The ids of new header matchers are new. *)
Definition fresh_matchers (b n : Pg) : Prop := forall k y k' x,
  b HeaderMatcherTable !! k = None -> n HeaderMatcherTable !! k = Some y ->
  b HeaderMatcherTable !! k' = Some x -> pk HeaderMatcherTable x <> pk HeaderMatcherTable y.

Lemma flush_batch_total b n l w :
  keyed b -> keyed n -> faithful b n -> fresh_matchers b n -> NoDup l ->
  persisted b (pg w) -> recorded_master (pg_election w) ->
  exists w', flush_batch (map (change_at b n) l) w = (Ok tt, w').
Proof.
  intros Hb Hn Hf Hm Hl Hpg Hr. pose proof (fun t => updated_NoDup (l := l) Hn Hl t (faithful_tables b n Hf t)) as Hu.
  destruct (flush_tables_total b n l TableRelationOrder newStack w Storage.TableRelationOrder_NoDup Hu) as (s & w1 & E1).
  { intros t _. split.
    - unfold created. rewrite list_fmap_omap. apply NoDup_omap_inj; [|by apply NoDup_keys_of].
      intros k1 k2 key _ _ H1 H2. unfold created_at in *.
      destruct (b t !! k1), (n t !! k1) eqn:E1, (b t !! k2), (n t !! k2) eqn:E2; simpl in *; try done.
      apply (n_injective Hn t (faithful_tables b n Hf t) k1 k2 _ _ E1 E2). congruence.
    - intros y (k & Hk & Hbk & Hy)%elem_created. destruct (pg w t !! pk t y) as [z|] eqn:Ez; [|done].
      destruct (proj1 (stored t (Hpg t) (pk t y))) as (k' & x & Hx & Hpk); [by exists z|]. exfalso.
      destruct (decide (t = HeaderMatcherTable)) as [->|Ht]; [by apply (Hm k y k' x)|].
      pose proof (Hb _ _ _ Hx) as [Hkx Hix]. pose proof (Hn _ _ _ Hy) as [Hky Hiy].
      apply pk_of_id in Hpk; [|done..]. congruence. }
  pose proof (flush_tables_Ok _ _ _ _ _ _ _ _ E1 Storage.TableRelationOrder_NoDup) as (V1 & _).
  destruct (Delete_total (concat s) w1) as [w2 E2]. pose proof (Delete_Ok _ _ _ E2) as (V2 & _).
  destruct (CheckCurrentPodState_total w2) as [w3 E3]; [by rewrite V2, V1|].
  exists w3. unfold flush_batch, bind. by rewrite E1, pop_deletes_Ok, E2.
Qed.
End reliable.

(** * An update that meets no row *)

Section misses.
Context `{PL : PostgresLaws} `{Env : Environment}.
Context {b n : Pg} {l : list (table * list value)} {w0 : PgWorld}.

(** A new primary key under an old key of the database: the row is not
    written. *)
Lemma flush_batch_misses w' t k x y :
  flush_batch (map (change_at b n) l) w0 = (Ok tt, w') ->
  NoDup l -> persisted_at t b (pg w0) -> NoDup (pk t <$> updated b n l t) ->
  pk_injective t (n t) ->
  b t !! k = Some x -> n t !! k = Some y ->
  (forall k' x', b t !! k' = Some x' -> pk t x' <> pk t y) ->
  pg w' t !! pk t y = None.
Proof.
  unfold flush_batch. intros H Hl Hpg Hu Hinj Hbx Hny Hnew. run_ok H. run_ok H. destruct a0.
  apply flush_tables_Ok in E as (_ & _ & U & _); [|apply Storage.TableRelationOrder_NoDup].
  rewrite pop_deletes_Ok in E0. apply Delete_Ok in E0 as (_ & Hs & _).
  pose proof (frame_run _ _ _ _ _ frame_CheckCurrentPodState H) as (Hp & _). rewrite Hp.
  destruct (pg w1 t !! pk t y) as [z|] eqn:Ez; [|done]. apply Hs in Ez as [Ez _].
  destruct (U t (Storage.TableRelationOrder_all t) Hu) as (_ & _ & Hm). rewrite Hm in Ez.
  destruct (_ !! pk t y) as [z0|] eqn:E0; [|done]. apply lookup_union_Some_raw in E0 as [E0|[_ E0]].
  - apply written_Some in E0 as (y' & (k' & _ & Hbk & Hyk)%elem_created & Hpk & _).
    assert (k' = k) as -> by (by apply (Hinj k' k y' y)). congruence.
  - apply Hpg in E0 as (k' & x' & Hx' & Hpk & _). by destruct (Hnew k' x').
Qed.
End misses.
