(* ===== verification/RouteServicesSpec.v ===== *)
(** The route services: a request is committed as a whole and announced once,
    or nothing of it is; where a request is several transactions, it is not. *)
From S2P Require Import Prelude GoLib Domain Tables MemDb Msaddr Events RouteKey Runtime Dao DaoSpec Entity RegCommon.
From S2P Require Import Format RouteCreation Dto Requests Registration Util RouteServices.
From S2P Require Persistence PersistenceSpec.
Open Scope string_scope.

(** * What the payloads may change *)

Section frames.
Context `{RL : RuntimeLaws} `{H : Sha256} `{E : EntityService} `{T : TlsMode}.
Section preorder.
Context (D : Db -> Db -> Prop) `{!PreOrder D}.
Lemma frame_contains l ng : frame (tx_rel D) (contains l ng).
Proof. induction l; simpl; solve_frame. Qed.
Lemma frame_UpdateRoutingMode version ns : frame (tx_rel D) (UpdateRoutingMode version ns).
Proof.
  intros w. pose proof (reflexivity w : tx_rel D w w) as Hw.
  unfold UpdateRoutingMode, GetRoutingMode, SetRoutingMode, gets, modify, bind, ret.
  repeat case_match; simplify_eq; exact Hw.
Qed.
Lemma frame_gateway_conflicts r request l : frame (tx_rel D) (gateway_conflicts r request l).
Proof. induction l; simpl; solve_frame. Qed.
Lemma frame_find_virtual_host r name l : frame (tx_rel D) (find_virtual_host r name l).
Proof. induction l; simpl; solve_frame. Qed.
End preorder.
Hint Resolve frame_contains frame_UpdateRoutingMode frame_gateway_conflicts frame_find_virtual_host : frame.

Lemma frame_GenerateRoutes k ns v l : frame (touches any_table) (GenerateRoutes InTx k ns v l).
Proof.
  unfold GenerateRoutes, findActiveAndCandidateRoutes.
  repeat first [apply frame_or_panic | progress solve_frame].
Qed.
Hint Resolve frame_GenerateRoutes : frame.
Lemma frame_RegisterRoutes request : frame (touches any_table) (Registration.RegisterRoutes InTx request).
Proof. solve_frame. Qed.
Hint Resolve frame_RegisterRoutes : frame.
Lemma frame_update_first ng found rule l : frame (touches any_table) (v3.update_first InTx ng found rule l).
Proof. induction l; simpl; solve_frame. Qed.
Hint Resolve frame_update_first : frame.
Lemma frame_register_validated ng r u : frame (touches any_table) u -> frame (touches any_table) (register_validated ng r u).
Proof. intros; solve_frame. Qed.
Lemma frame_ProcessRequestV1 ng r v : frame (touches any_table) (ProcessRequestV1 ng r v).
Proof. solve_frame. Qed.
Lemma frame_ProcessRequestV2 ng r v : frame (touches any_table) (ProcessRequestV2 ng r v).
Proof. solve_frame. Qed.
Lemma frame_DeleteVirtualService ng name : frame (touches any_table) (DeleteVirtualServiceByNodeGroupAndName InTx ng name).
Proof. solve_frame. Qed.
Lemma frame_update_virtual_service ng name vs : frame (touches any_table) (v3.update_virtual_service ng name vs).
Proof. solve_frame. Qed.
End frames.
#[export] Hint Resolve frame_contains frame_UpdateRoutingMode frame_gateway_conflicts frame_find_virtual_host frame_GenerateRoutes
  frame_RegisterRoutes frame_update_first frame_register_validated frame_ProcessRequestV1 frame_ProcessRequestV2
  frame_DeleteVirtualService frame_update_virtual_service : frame.

(** * One transaction, one event *)

Section announced.
Context `{RL : RuntimeLaws} `{H : Sha256} `{E : EntityService} `{T : TlsMode}.


Lemma WithWTx_cases (payload : prog World unit) w r w' :
  frame (touches any_table) payload -> w_writer w = false -> WithWTx payload w = (r, w') ->
  w_tx w' = w_tx w /\ w_writer w' = false /\ w_events w' = w_events w /\
  match r with Ok changes => changes = txn_changes (w_db w') | _ => w_db w' = w_db w end.
Proof.
  intros F Hw. unfold WithWTx, bind. destruct (WithWTxVal payload w) as [r0 w0] eqn:E0.
  pose proof (WithWTxVal_cases payload w r0 w0 F Hw E0) as (? & ? & ? & C).
  destruct r0 as [[[] changes]|e|p]; [destruct C as (w1 & _ & _ & ->)|..]; intros [= <- <-]; auto.
Qed.


End announced.

(** * Several gateways, several transactions *)

Section gateways.
Context `{RL : RuntimeLaws} `{H : Sha256} `{E : EntityService} `{T : TlsMode}.

Lemma fold_each_app {W A S} (l k : list A) (s s' : S) (f : S -> A -> prog W S) w w' :
  fold_each l s f w = (Ok s', w') -> fold_each (l ++ k) s f w = fold_each k s' f w'.
Proof.
  revert s w. induction l as [|x l IH]; intros s w; simpl; [by intros [= -> ->]|].
  intros (s1 & w1 & E1 & E2)%bind_Ok. unfold bind at 1. rewrite E1. by apply IH.
Qed.
Lemma fold_each_cons_Err {W A S} (x : A) l (s : S) (f : S -> A -> prog W S) w e w' :
  f s x w = (Err e, w') -> fold_each (x :: l) s f w = (Err e, w').
Proof. simpl. unfold bind. by intros ->. Qed.

Lemma register_gateway_quiet m p w r w' :
  w_writer w = false -> v3.register_gateway m p w = (r, w') ->
  w_writer w' = false /\ w_events w' = w_events w /\ (~ is_Ok r -> w_db w' = w_db w).
Proof.
  intros Hw. unfold v3.register_gateway. destruct (Req_NodeGroups p) as [|ng ngs]; [by intros [= <- <-]|].
  unfold bind. destruct (WithWTx _ w) as [r0 w0] eqn:E0.
  apply WithWTx_cases in E0 as (_ & Hl & He & C); [|auto with frame|done].
  destruct r0 as [changes|e|why]; intros [= <- <-]; split_and!; try done. intros Hn. destruct Hn. by eexists.
Qed.
Lemma register_gateways_quiet l m w r w' :
  w_writer w = false -> fold_each l m v3.register_gateway w = (r, w') ->
  w_writer w' = false /\ w_events w' = w_events w.
Proof.
  revert m w. induction l as [|p l IH]; intros m w Hw; simpl; [by intros [= <- <-]|].
  unfold bind. destruct (v3.register_gateway m p w) as [r0 w0] eqn:E0.
  apply register_gateway_quiet in E0 as (Hl & He & _); [|done].
  destruct r0 as [m'|e|why]; [|by intros [= <- <-]..]. intros Hf. apply IH in Hf as [? ?]; [|done]. split; congruence.
Qed.
Lemma frame_ProcessRequestV3 request v : frame (touches any_table) (ProcessRequestV3 request v).
Proof. solve_frame. Qed.

(** A routing configuration for several gateways is one transaction per
    gateway, and its events come after the last of them: when the transaction
    of a gateway fails, the request is answered with the error, yet what was
    registered for the gateways before it stays committed, and no event is
    published, for any of them. *)
Theorem gateway_failure_keeps_earlier request active w w0 earlier p later w1 changes w2 e w3 :
  w_writer w = false ->
  WithWTxVal (GetActiveDeploymentVersion InTx) w = (Ok active, w0) ->
  ProcessRequestV3 request (DeploymentVersion_Version active.1) w0 = (Ok (earlier ++ p :: later)%list, w1) ->
  fold_each earlier ∅ v3.register_gateway w1 = (Ok changes, w2) ->
  v3.register_gateway changes p w2 = (Err e, w3) ->
  exists w', v3.RegisterRoutingConfig request w = (Err e, w') /\ w_db w' = w_db w2 /\ w_events w' = w_events w.
Proof.
  intros Hw E0 E1 E2 E3. exists w3.
  apply WithWTxVal_cases in E0 as E0'; [|solve_frame|done]. destruct E0' as (_ & Hl0 & He0 & _).
  pose proof (frame_run _ _ _ _ _ (frame_ProcessRequestV3 _ _) E1) as (_ & Hl1 & He1 & _).
  apply register_gateways_quiet in E2 as E2'; [|congruence]. destruct E2' as (Hl2 & He2).
  apply register_gateway_quiet in E3 as E3'; [|done]. destruct E3' as (_ & He3 & Hd3).
  split_and!; [|by apply Hd3; intros [? ?]|congruence].
  unfold v3.RegisterRoutingConfig, bind at 1. rewrite E0. unfold bind at 1. rewrite E1.
  unfold bind at 1. erewrite fold_each_app by exact E2. by rewrite (fold_each_cons_Err _ _ _ _ _ _ _ E3).
Qed.
End gateways.

(** * Witnesses *)

Section witness.
Import RuntimeModel.
Local Existing Instance test_laws.
Local Existing Instance test_runtime.
#[local] Instance services_sha : Sha256 := {| sha256_Sum256 := fun s => s |}.
#[local] Instance services_entity : EntityService := {| defaultVersion := "v1" |}.
#[local] Instance services_tls : TlsMode := {| tls_preferred := false |}.

Definition edge : NodeGroup := (zero : NodeGroup) <| NodeGroup_Name := "edge" |> <| NodeGroup_GatewayType := Ingress |>.
Definition edge_world : World := (WithWTxVal (SaveNodeGroup InTx edge) empty_world).2.
Definition shop : dto.VirtualService :=
  dto.mkVirtualService "shop" (Some ["*"]) "" [] []
    (dto.mkRouteConfig "v1"
       [dto.mkRouteV3 (dto.mkRouteDestination "items" false "http://items-v1:8080" "" None "" (dto.mkCircuitBreaker (dto.mkThreshold 0)) None)
          [dto.mkRule (dto.mkRouteMatch "/api/v1/items" "" "" []) "" "" [] [] (Some true) None None None "" None "";
           dto.mkRule (dto.mkRouteMatch "/api/v1/prices" "" "" []) "" "" [] [] (Some true) None None None "" None ""]]) false.
Definition two_gateways : dto.RoutingConfigRequestV3 := dto.mkRoutingConfigRequestV3 "" ["gw"; "edge"] 8080 false [shop] false.

Definition succeeds {A} (p : result A * World) : bool := match p.1 with Ok _ => true | _ => false end.
Definition refused {A} (p : result A * World) : bool := match p.1 with Err _ => true | _ => false end.
Definition value {A} (d : A) (p : result A * World) : A := match p.1 with Ok a => a | _ => d end.
Lemma succeeds_value {A} (d : A) p : succeeds p = true -> p = (Ok (value d p), p.2).
Proof. by destruct p as [[]]. Qed.
Lemma refused_error {A} (p : result A * World) : refused p = true -> exists e, p = (Err e, p.2).
Proof. destruct p as [[a|e|why] w]; [done| |done]. by exists e. Qed.
Lemma split_second {A} (d : A) l : (1 <? length l)%nat = true -> l = (take 1 l ++ nth 1 l d :: drop 2 l)%list.
Proof. by destruct l as [|x [|y l]]. Qed.

Definition no_version : DeploymentVersion := mkDeploymentVersion "" "" 0 0.
Definition found_active := WithWTxVal (GetActiveDeploymentVersion InTx) edge_world.
Definition requests := ProcessRequestV3 two_gateways (DeploymentVersion_Version (value (no_version, []) found_active).1) found_active.2.
Definition none_processed : ProcessedRequest := mkProcessedRequest [] [] [] ∅ [] ∅ [] ∅ ∅.
Definition for_first := fold_each (take 1 (value [] requests)) ∅ v3.register_gateway requests.2.
Definition for_second := v3.register_gateway (value ∅ for_first) (nth 1 (value [] requests) none_processed) for_first.2.

(** The edge gateway may not lead to the services: the routes of the first
    gateway stay. *)
Lemma gateway_failure_keeps_earlier_witness :
  exists e w', v3.RegisterRoutingConfig two_gateways edge_world = (Err e, w') /\
    length (match Storage.FindAll RouteTable (w_db w') with (Ok l, _) => l | _ => [] end) = 2 /\ w_events w' = [].
Proof.
  assert (refused for_second = true) as Hr by (vm_compute; reflexivity).
  apply refused_error in Hr as (e & He).
  assert (succeeds found_active = true) as H1 by (vm_compute; reflexivity).
  assert (succeeds requests = true) as H2 by (vm_compute; reflexivity).
  assert (succeeds for_first = true) as H3 by (vm_compute; reflexivity).
  apply (succeeds_value (no_version, [])) in H1. apply (succeeds_value []) in H2. apply (succeeds_value ∅) in H3.
  assert ((1 <? length (value [] requests))%nat = true) as H4 by (vm_compute; reflexivity).
  rewrite (split_second none_processed _ H4) in H2.
  destruct (gateway_failure_keeps_earlier two_gateways _ edge_world _ _ _ _ _ _ _ _ _ eq_refl H1 H2 H3 He) as (w' & Er & Hd & He').
  exists e, w'. split; [exact Er|]. split; [|exact He'].
  rewrite Hd. vm_compute. reflexivity.
Defined.

End witness.
