(* ===== verification/ServicesSpec.v ===== *)
(** Rate limits, the external authorisation of gateways and clusters declared
    as resources: what their services leave in the database. *)
From S2P Require Import Prelude GoLib Domain Tables MemDb Events RegCommon Runtime RuntimeModel Dao DaoSpec Entity.
From S2P Require Import Format RouteCreation Dto Requests Registration RouteServices RouteServicesSpec RateLimits ClusterService HttpFilters.
Open Scope string_scope.

Section ratelimits.
Context `{RL : RuntimeLaws}.

Definition only_versions (t : table) : bool := bool_decide (t = EnvoyConfigVersionTable).
Lemma frame_updateEnvoyConfigVersions name : frame (touches only_versions) (updateEnvoyConfigVersions InTx name).
Proof. solve_frame. Qed.
Lemma only_versions_rows db db' t : same_except only_versions db db' -> t <> EnvoyConfigVersionTable -> rows db' t = rows db t.
Proof. intros S Ht. apply S. by apply bool_decide_eq_false. Qed.
Lemma rate_limit_key (r : RateLimit) : RateLimit_Name r <> "" -> id_key RateLimitTable r = [VStr (RateLimit_Name r); VInt (RateLimit_Priority r)].
Proof. destruct r as [[] ? ?]; [done|reflexivity]. Qed.
Lemma applyRateLimit_Ok payload w w' :
  applyRateLimit payload w = (Ok tt, w') ->
  exists w1 b, payload (opened w) = (Ok tt, w1) /\ w_tx w1 = Some (w_db w', b).
Proof.
  intros (changes & w1 & E & Ep)%bind_Ok. apply WithWTx_Ok in E as (w2 & b & E & Ht).
  exists w2, b. split; [done|]. assert (w_db w' = w_db w1) as -> by (destruct changes as [|? []]; [by apply ret_Ok in Ep as [_ ->]..|
    revert Ep; unfold Publish, bind, tick, modify, lift; destruct (bus_publish _ _ _) as [[]|?|?]; [by intros [= <-]|done..]]).
  done.
Qed.

(** The versions that are stamped after the write are in a table of their own. *)
Lemma applied_write (write : prog World unit) (name : string) (m : gmap (list Tables.value) (entity RateLimitTable)) (w : World) w' :
  applyRateLimit (write ;;; updateEnvoyConfigVersions InTx name) w = (Ok tt, w') ->
  (exists db1 : Db, write (opened w) = (Ok tt, set_tx (Some (db1, true)) (opened w)) /\
     with_rows RateLimitTable m (txn_track_changes (w_db w)) db1) ->
  rows (w_db w') RateLimitTable = m.
Proof.
  intros (w1 & b & E & Ht)%applyRateLimit_Ok (db1 & E1 & [Hm _]). rewrite (bind_run _ _ _ _ _ E1) in E.
  destruct (frame_in_tx _ _ _ _ _ _ (frame_updateEnvoyConfigVersions _) E (in_tx_set db1 _)) as (db2 & Hw2 & S).
  unfold in_tx in Hw2. rewrite Hw2 in Ht. injection Ht as <- <-. by rewrite (only_versions_rows _ _ _ S).
Qed.

(** A rate limit that is applied without an error is stored under its name
    and priority with its limit taken modulo [2 ^ 32], and is deleted when that
    is 0: a negative limit is not a request to delete, it is stored as a limit
    of thousands of millions of requests.  No other rate limit changes. *)
Theorem applied_rate_limit d p w w' :
  ValidateRequest d = None -> PriorityFromString (RateLimitDto_Priority d) = Ok p ->
  ApplyRateLimit d w = (Ok tt, w') ->
  let limit := (RateLimitDto_LimitRequestPerSecond d mod 2 ^ 32)%Z in
  let key := [VStr (RateLimitDto_Name d); VInt p] in
  (0 <= limit < 2 ^ 32)%Z /\
  rows (w_db w') RateLimitTable !! key = (if decide (limit = 0) then None else Some (mkRateLimit (RateLimitDto_Name d) limit p))%Z /\
  forall k, k <> key -> rows (w_db w') RateLimitTable !! k = rows (w_db w) RateLimitTable !! k.
Proof.
  intros Hv Hp E limit key. assert (0 <= limit < 2 ^ 32)%Z as Hl by (apply Z.mod_pos_bound; lia). split; [done|].
  assert (RateLimitDto_Name d <> "") as Hn by (unfold ValidateRequest in Hv; by destruct (String.eqb_spec (RateLimitDto_Name d) "")).
  unfold ApplyRateLimit, ConvertRateLimitToDomain in E. rewrite Hp in E. cbn in E.
  set (rl := mkRateLimit (RateLimitDto_Name d) limit p). 
  set (db0 := txn_track_changes (w_db w)). assert (in_tx (opened w) db0) as Hw0 by done.
  assert (rows db0 = rows (w_db w)) as Hr0 by apply rows_track. rewrite <- Hr0.
  assert (rows (w_db w') RateLimitTable =
    if decide (limit = 0)%Z then delete key (rows db0 RateLimitTable) else <[key := rl]> (rows db0 RateLimitTable)) as ->.
  { unfold bind, lift in E. cbn in E. fold limit in E. fold rl in E.
    assert ((limit <=? 0)%Z = bool_decide (limit = 0)%Z) as Hb by (destruct (Z.leb_spec limit 0); symmetry; [apply bool_decide_eq_true|apply bool_decide_eq_false]; lia).
    rewrite Hb in E. destruct (bool_decide_reflect (limit = 0)%Z) as [H0|H0].
    - rewrite decide_True by done. refine (applied_write _ _ _ _ _ E _). by apply (DeleteById_in_tx RateLimitTable key _ db0 Hw0).
    - rewrite decide_False by done. refine (applied_write _ _ _ _ _ E _). change key with [VStr (RateLimit_Name rl); VInt (RateLimit_Priority rl)]. rewrite <- (rate_limit_key rl Hn).
      apply (SaveEntity_in_tx RateLimitTable rl _ db0 Hw0). cbn. unfold indexable. cbn.
      destruct (RateLimitDto_Name d); [done|reflexivity]. }
  destruct (decide (limit = 0)%Z); split.
  - apply lookup_delete_eq.
  - intros k Hk. by apply lookup_delete_ne.
  - apply lookup_insert_eq.
  - intros k Hk. by apply lookup_insert_ne.
Qed.
End ratelimits.

(** * External authorisation *)

Section ext_authz.
Context `{RL : RuntimeLaws} `{ES : EntityService} `{NU : NetUrl} `{TM : TlsMode}.

Lemma publish_gateways_db gateways changes w : w_db (publish_gateways gateways changes w).2 = w_db w.
Proof.
  unfold publish_gateways. destruct changes as [|c changes]; [done|]. generalize (c :: changes) as l. intros l. clear c changes.
  revert w. induction gateways as [|g gateways IH]; intros w; [done|]. cbn [for_each]. unfold bind at 1.
  destruct (publish_filters g l w) as [r w1] eqn:Ep. assert (w_db w1 = w_db w) as <-.
  { revert Ep. unfold publish_filters, Publish, bind, tick, modify, lift. destruct (bus_publish _ _ _) as [[]|?|?]; by intros [= _ <-]. }
  destruct r as [[]|?|?]; [apply IH|done..].
Qed.

(** The filters that are stored stay, each with its gateway. *)
Definition owners_kept (db db' : Db) : Prop :=
  forall k (f : ExtAuthzFilter), rows db ExtAuthzFilterTable !! k = Some f ->
  exists f' : ExtAuthzFilter, rows db' ExtAuthzFilterTable !! k = Some f' /\ ExtAuthzFilter_NodeGroup f' = ExtAuthzFilter_NodeGroup f.
Definition owned (db : Db) (name gateway : string) : Prop :=
  exists f : ExtAuthzFilter, rows db ExtAuthzFilterTable !! [VStr name] = Some f /\ ExtAuthzFilter_NodeGroup f = gateway.
#[export] Instance owners_kept_refl : Reflexive owners_kept.
Proof. intros db k f Hf. by exists f. Qed.
#[export] Instance owners_kept_trans : Transitive owners_kept.
Proof. intros d1 d2 d3 H1 H2 k f Hf. destruct (H1 k f Hf) as (f1 & Hf1 & <-). by apply H2. Qed.
Lemma owned_kept db db' name gateway : owners_kept db db' -> owned db name gateway -> owned db' name gateway.
Proof. intros H (f & Hf & <-). by apply (H _ f). Qed.

Definition other_tables (t : table) : bool := negb (bool_decide (t = ExtAuthzFilterTable)).
Lemma other_tables_rows db db' : same_except other_tables db db' -> rows db' ExtAuthzFilterTable = rows db ExtAuthzFilterTable.
Proof. intros S. by apply S. Qed.
Lemma filter_key (f : ExtAuthzFilter) : indexable ExtAuthzFilterTable f = true -> id_key ExtAuthzFilterTable f = [VStr (ExtAuthzFilter_Name f)].
Proof. destruct f as [n ? ? ? ?]. destruct n; [by vm_compute|vm_compute; reflexivity]. Qed.

Lemma frame_activeVersion : frame (touches other_tables) (GetActiveDeploymentVersion InTx).
Proof. solve_frame. Qed.
Lemma frame_CreateOrUpdateNodeGroup ng : frame (touches other_tables) (CreateOrUpdateNodeGroup InTx ng).
Proof. solve_frame. Qed.
Lemma frame_SaveCluster cluster tls gateways : frame (touches other_tables) (RegistrationService_SaveCluster InTx cluster tls gateways).
Proof. solve_frame. Qed.
Lemma frame_versions gateway es : frame (touches other_tables) (GenerateEnvoyEntityVersions InTx gateway es).
Proof. solve_frame. Qed.
Lemma frame_applyForGateway extAuthz gateway : frame (touches any_table) (applyForGateway InTx extAuthz gateway).
Proof. solve_frame. Qed.

(** A step that leaves the filters alone. *)
Lemma other_step {A} (m : prog World A) w a w' db :
  frame (touches other_tables) m -> in_tx w db -> m w = (Ok a, w') ->
  exists db', in_tx w' db' /\ rows db' ExtAuthzFilterTable = rows db ExtAuthzFilterTable.
Proof.
  intros F Hw E. destruct (frame_in_tx _ _ _ _ _ _ F E Hw) as (db' & Hw' & S). exists db'. split; [done|by apply other_tables_rows].
Qed.
Lemma save_filter_step (f : ExtAuthzFilter) w w' db :
  in_tx w db -> SaveExtAuthzFilter InTx f w = (Ok tt, w') ->
  exists db', in_tx w' db' /\ rows db' ExtAuthzFilterTable = <[[VStr (ExtAuthzFilter_Name f)] := f]> (rows db ExtAuthzFilterTable).
Proof.
  intros Hw Ef. unfold SaveExtAuthzFilter, SaveEntity, in_ctx in Ef. rewrite (open_ctx_InTx _ _ _ _ Hw), (on_tx_InTx _ _ _ Hw) in Ef.
  destruct (Storage.Save ExtAuthzFilterTable f db) as [r db'] eqn:Es. injection Ef as -> <-.
  apply Storage_Save_Ok in Es as [Hi [Hr _]]. exists db'. split; [apply in_tx_set|]. by rewrite Hr, (filter_key f Hi).
Qed.

(** One gateway: its filter is stored, and it was nobody's else. *)
Lemma applyForGateway_owner extAuthz gateway w w' db :
  in_tx w db -> ExtAuthz_Name extAuthz <> "" -> applyForGateway InTx extAuthz gateway w = (Ok tt, w') ->
  exists db', in_tx w' db' /\ owners_kept db db' /\ owned db' (ExtAuthz_Name extAuthz) gateway.
Proof.
  intros Hw Hn Er. set (name := ExtAuthz_Name extAuthz) in *.
  apply bind_Ok in Er as (existing & w1 & E1 & Er). unfold FindExtAuthzFilterByName in E1. fold name in E1.
  rewrite (FindById_in_tx ExtAuthzFilterTable [VStr name] _ db Hw) in E1 by done. injection E1 as Ex <-.
  destruct (match existing with Some f => negb (String.eqb (ExtAuthzFilter_NodeGroup f) gateway) | None => false end) eqn:Hown; [done|].
  apply bind_Ok in Er as (active & w1 & E1 & Er). destruct (other_step _ _ _ _ _ frame_activeVersion Hw E1) as (db1 & Hw1 & R1).
  apply bind_Ok in Er as (ng & w2 & E2 & Er). destruct (other_step _ _ _ _ _ (frame_CreateOrUpdateNodeGroup _) Hw1 E2) as (db2 & Hw2 & R2).
  apply bind_Ok in Er as (cluster & w3 & E3 & Er).
  destruct (ProcessDestination _ _ _ _) as [c|?|?]; [|done..]. injection E3 as <- <-.
  apply bind_Ok in Er as ([] & w4 & E4 & Er). destruct (other_step _ _ _ _ _ (frame_SaveCluster _ _ _) Hw2 E4) as (db4 & Hw4 & R4).
  apply bind_Ok in Er as ([] & w5 & E5 & Er). destruct (save_filter_step _ _ _ _ Hw4 E5) as (db5 & Hw5 & R5).
  destruct (other_step _ _ _ _ _ (frame_versions _ _) Hw5 Er) as (db6 & Hw6 & R6).
  exists db6. split; [done|]. set (f' := newExtAuthzFilter gateway (Cluster_Name c) extAuthz) in *.
  assert (rows db6 ExtAuthzFilterTable = <[[VStr name] := f']> (rows db ExtAuthzFilterTable)) as Rt by (rewrite R6, R5, R4, R2, R1; done).
  split.
  - intros k f Hf. rewrite Rt. destruct (decide (k = [VStr name])) as [->|Hk].
    + exists f'. split; [apply lookup_insert_eq|]. pose proof (eq_trans (eq_sym Ex) Hf) as ->.
      apply negb_false_iff, String.eqb_eq in Hown. by rewrite Hown.
    + exists f. by rewrite lookup_insert_ne.
  - exists f'. rewrite Rt. split; [apply lookup_insert_eq|done].
Qed.

(** A filter of external authorisation never changes its gateway and never
    disappears when one is applied, whatever the outcome: a request with the
    name of a filter of another gateway fails as a whole.  When the request
    succeeds, each of its gateways has the filter - so that they are one
    gateway. *)
Theorem ext_authz_owner extAuthz gateways w r w' :
  w_writer w = false -> ExtAuthz_Name extAuthz <> "" ->
  ExtAuthz_Apply extAuthz gateways w = (r, w') ->
  owners_kept (w_db w) (w_db w') /\
  (r = Ok tt -> forall gateway, gateway ∈ gateways -> owned (w_db w') (ExtAuthz_Name extAuthz) gateway).
Proof.
  intros Hwr Hn. unfold ExtAuthz_Apply, bind, unwrap_known.
  set (payload := for_each gateways (applyForGateway InTx extAuthz)).
  assert (frame (touches any_table) payload) as F by (apply frame_for_each; [apply _|]; intros; apply frame_applyForGateway).
  destruct (WithWTx payload w) as [r0 w0] eqn:E0.
  assert (~ is_Ok r0 -> owners_kept (w_db w) (w_db w0)) as Hfail
    by (intros Hr; rewrite (WithWTx_fail payload w r0 w0 F E0 Hr); reflexivity).
  destruct r0 as [changes|e|p].
  2: { destruct e; intros [= <- <-]; (split; [|done]); apply Hfail; by intros [? ?]. }
  2: { intros [= <- <-]. split; [apply Hfail; by intros [? ?]|done]. }
  pose proof (publish_gateways_db gateways changes w0) as Hp. destruct (publish_gateways gateways changes w0) as [rp wp].
  intros [= -> ->]. simpl in Hp. rewrite Hp. clear Hfail.
  apply WithWTx_Ok in E0 as (w1 & b & Er & Ht). set (db0 := txn_track_changes (w_db w)).
  destruct (for_each_Ok gateways _ (fun w1 => exists db1, in_tx w1 db1 /\ owners_kept db0 db1)
    (fun g w1 => exists db1, in_tx w1 db1 /\ owned db1 (ExtAuthz_Name extAuthz) g) _ _ Er) as ((db1 & Hw1 & Hk) & _ & Hall).
  - exists db0. split; [done|reflexivity].
  - intros g u u' _ (d & Hu & Hk) Eg. destruct (applyForGateway_owner _ _ _ _ _ Hu Hn Eg) as (d' & Hu' & Hk' & Ho).
    split_and!; [exists d'; split; [done|by transitivity d]|by exists d'|].
    intros b' (d1 & Hd1 & Hb). exists d'. split; [done|]. unfold in_tx in *. assert (d1 = d) as -> by congruence. by eapply owned_kept.
  - unfold in_tx in Hw1. rewrite Hw1 in Ht. injection Ht as -> <-. split.
    + intros k f Hf. apply (Hk k f). unfold db0. by rewrite rows_track.
    + intros _ g Hg. destruct (Hall g Hg) as (d & Hd & Ho). unfold in_tx in *. assert (d = w_db w0) as -> by congruence. done.
Qed.
End ext_authz.

(** * Clusters as resources *)

Section clusters.
Context `{RL : RuntimeLaws} `{ES : EntityService} `{NU : NetUrl}.

Lemma frame_AddClusterDaoProvided nodeGroupId cluster : frame (touches any_table) (AddClusterDaoProvided InTx nodeGroupId cluster).
Proof. solve_frame. Qed.

(** A cluster that cannot be added is reported as added: when the
    transaction fails, the database stays as it was, an event without changes
    is published, and the answer is that of the bus. *)
Theorem AddCluster_swallows nodeGroupId cluster w err :
  w_writer w = false ->
  (WithWTx (AddClusterDaoProvided InTx nodeGroupId cluster) w).1 = Err err ->
  let '(r, w') := AddCluster nodeGroupId cluster w in
  w_db w' = w_db w /\
  w_events w' = (TopicChanges, NewChangeEventByNodeGroup nodeGroupId []) :: w_events w /\
  exists n, r = bus_publish TopicChanges (NewChangeEventByNodeGroup nodeGroupId []) n.
Proof.
  intros Hw He. unfold AddCluster, bind, try_ok. destruct (WithWTx _ w) as [r0 w0] eqn:E0. simpl in He. subst r0.
  apply WithWTx_cases in E0 as (_ & _ & Hev & Hdb); [|apply frame_AddClusterDaoProvided|done].
  unfold Publish, tick, modify, lift, bind. simpl. rewrite Hdb, Hev. split_and!; [done..|]. by eexists.
Qed.
End clusters.

(** The filters of a gateway are read without its external authorisation: when
    there is one, the read panics. *)
Lemma GetGatewayFilters_no_ext_authz `{R : Runtime} `{ES : EntityService} `{NU : NetUrl} gateway w req w' :
  GetGatewayFilters gateway w = (Ok req, w') -> HttpFilters_ExtAuthzFilter req = None.
Proof.
  intros (ls & w1 & _ & (dtos & w2 & _ & (e & w3 & (e' & w4 & _ & Eg)%bind_Ok & [-> _]%ret_Ok)%bind_Ok)%bind_Ok)%bind_Ok.
  destruct e'; [done|]. by apply ret_Ok in Eg as [-> _].
Qed.

(** * Witnesses *)

Section witness.
Import RuntimeModel.
Local Existing Instance test_laws.
Local Existing Instance test_runtime.
#[local] Instance services_entity : EntityService := {| defaultVersion := "v1" |}.
(** No address can be parsed. *)
#[local] Instance services_url : NetUrl := {| url_Parse := fun _ => None; net_LookupPort := fun _ => None; SelectUrl := "http" |}.

Definition negative_limit : RateLimitDto := mkRateLimitDto "orders" (-1)%Z "PRODUCT" false.
Lemma applied_rate_limit_witness :
  exists w', ApplyRateLimit negative_limit empty_world = (Ok tt, w') /\
    rows (w_db w') RateLimitTable !! [VStr "orders"; VInt Product] = Some (mkRateLimit "orders" 4294967295 Product).
Proof.
  assert ((ApplyRateLimit negative_limit empty_world).1 = Ok tt) as Hr by (vm_compute; reflexivity).
  destruct (ApplyRateLimit negative_limit empty_world) as [r w'] eqn:Er. simpl in Hr. subst r.
  exists w'. split; [exact eq_refl|]. exact (proj1 (proj2 (applied_rate_limit negative_limit Product empty_world w' eq_refl eq_refl Er))).
Defined.

Definition bad_cluster : ClusterConfigRequestV3 :=
  mkClusterConfigRequestV3 ["gw"] "orders" ["::"] "" (dto.mkCircuitBreaker (dto.mkThreshold 0)) None false 0 None.
Lemma AddCluster_swallows_witness :
  exists w', AddCluster "gw" bad_cluster empty_world = (Ok tt, w') /\ w_db w' = w_db empty_world.
Proof.
  assert (match (WithWTx (AddClusterDaoProvided InTx "gw" bad_cluster) empty_world).1 with Err _ => true | _ => false end = true) as He
    by (vm_compute; reflexivity).
  destruct (WithWTx (AddClusterDaoProvided InTx "gw" bad_cluster) empty_world).1 as [?|e|?] eqn:Ee; [discriminate He| |discriminate He].
  pose proof (AddCluster_swallows "gw" bad_cluster empty_world e eq_refl Ee) as H. clear He Ee.
  destruct (AddCluster "gw" bad_cluster empty_world) as [r w']. destruct H as (Hdb & _ & n & ->).
  exists w'. split; [exact eq_refl|exact Hdb].
Defined.

(** A filter of one gateway, and a request of another with its name. *)
#[local] Instance services_tls : TlsMode := {| tls_preferred := false |}.
Definition auth_rows (r : repo) : prog World unit :=
  _ <- SaveEntity r DeploymentVersionTable ((zero : DeploymentVersion) <| DeploymentVersion_Version := "v1" |> <| DeploymentVersion_Stage := ActiveStage |>) ;;
  SaveExtAuthzFilter r (mkExtAuthzFilter "auth" "" 0 ∅ "gw1").
Definition auth_world : World := (WithWTxVal (auth_rows InTx) empty_world).2.
Definition auth_request : ExtAuthz :=
  mkExtAuthz "auth" (dto.mkRouteDestination "auth" false "http://auth:8080" "" None "" (dto.mkCircuitBreaker (dto.mkThreshold 0)) None) ∅ None.
Example auth_saved : rows (w_db auth_world) ExtAuthzFilterTable !! [VStr "auth"] = Some (mkExtAuthzFilter "auth" "" 0 ∅ "gw1").
Proof. vm_compute. reflexivity. Qed.
Example auth_taken : (ExtAuthz_Apply auth_request ["gw2"] auth_world).1 = Err ErrNameTaken.
Proof. vm_compute. reflexivity. Qed.

Lemma ext_authz_owner_witness :
  exists w', ExtAuthz_Apply auth_request ["gw1"] auth_world = (Ok tt, w') /\ owners_kept (w_db auth_world) (w_db w') /\
    owned (w_db w') "auth" "gw1".
Proof.
  assert ((ExtAuthz_Apply auth_request ["gw1"] auth_world).1 = Ok tt) as Hr by (vm_compute; reflexivity).
  destruct (ExtAuthz_Apply auth_request ["gw1"] auth_world) as [r w'] eqn:Er. simpl in Hr. subst r.
  assert (ExtAuthz_Name auth_request <> "") as Hn by discriminate.
  destruct (ext_authz_owner auth_request ["gw1"] auth_world (Ok tt) w' eq_refl Hn Er) as [Hk Ho].
  exists w'. split; [exact eq_refl|]. split; [exact Hk|]. apply (Ho eq_refl "gw1"). by left.
Defined.
End witness.
