(* ===== verification/CommitSpec.v ===== *)
(** The persistent storage and the committed state: a commit of the active
    master writes what it commits, only the master writes, and what a commit
    loses. *)
From S2P Require Import Prelude GoLib Domain Tables MemDb Msaddr Events Runtime DaoSpec Persistence PersistenceSpec.
From S2P Require Storage Clustering RuntimeModel MemDbModel Dao.
Open Scope string_scope.

(** * Saves keep the base of the changes *)

Lemma base_Save `{RL : RuntimeLaws} t e : frame keeps_base (Storage.Save t e).
Proof.
  apply frame_for_each; [apply _|]. intros x. apply frame_wrap_err. intros db. apply base_insert.
Qed.
#[export] Hint Resolve base_Save : frame.

(** * Commits *)

Section outcomes.
Context `{PL : PostgresLaws} `{Env : Environment}.

Lemma Flush_cases changes s r s' :
  Flush changes s = (r, s') ->
  (GetMode = Standby /\ r = Ok tt /\ s' = s) \/
  (GetMode = Active /\ r = Ok tt /\
     exists w1, flush_batch changes (next_tick (next_tick s)) = (Ok tt, w1) /\ s' = next_tick w1) \/
  (~ is_Ok r /\ same_storage s s').
Proof.
  unfold Flush. destruct (decide (GetMode = Standby)) as [Hm|Hm]; [intros [= <- <-]; by left|]. intros H. right.
  assert (GetMode = Active) as Ha by (by destruct GetMode).
  change (WithTxBatch (flush_batch changes)) with (WithTx (flush_batch changes)) in H.
  destruct (WithTx (flush_batch changes) s) as [[[]|e|p] s1] eqn:E; injection H as <- <-.
  - left. apply WithTx_Ok in E. done.
  - right. split; [by intros [? ?]|]. eapply WithTx_fail; [exact E|by intros [? ?]].
  - right. split; [by intros [? ?]|]. eapply WithTx_fail; [exact E|by intros [? ?]].
Qed.
Lemma flush_batch_master changes w w' :
  flush_batch changes w = (Ok tt, w') -> recorded_master (pg_election w').
Proof.
  unfold flush_batch. intros H. run_ok H. run_ok H. destruct a0.
  pose proof (frame_run _ _ _ _ _ frame_CheckCurrentPodState H) as (_ & -> & _).
  by apply CheckCurrentPodState_Ok in H.
Qed.

(** C11: The rows of a commit are written by the master only.  A flush on an
    active instance succeeds only where the election table names this pod, by
    name and address, as the one master; a flush that does not succeed leaves
    the storage as it was; and on standby a flush does nothing and reports
    success.  (This is about [Flush], the write of a commit: the namespaces that
    [ActualizeNamespacesInDbAndEnv] records at the start are written without
    that check.) *)
Theorem flush_only_master changes (s s' : PgWorld) r :
  Flush changes s = (r, s') ->
  (GetMode = Standby /\ r = Ok tt /\ s' = s) \/
  (GetMode = Active /\ ((r = Ok tt /\ recorded_master (pg_election s')) \/ (~ is_Ok r /\ same_storage s s'))).
Proof.
  intros H. destruct (Flush_cases _ _ _ _ H) as [Hs|[(Ha & -> & s1 & Eb & ->)|[Hr Hsame]]]; [by left| |].
  - right. split; [done|]. left. split; [done|]. by apply flush_batch_master in Eb.
  - destruct (decide (GetMode = Active)) as [Ha|Hs]; [right; split; [done|by right]|].
    left. assert (GetMode = Standby) as Hm by (by destruct GetMode). unfold Flush in H. rewrite decide_True in H by done.
    injection H as <- <-. done.
Qed.
End outcomes.

Section commits.
Context `{RL : RuntimeLaws} `{PL : PostgresLaws}.

(** The storage after a write transaction: what the callback before the commit
    leaves there, when the payload gets that far. *)
Definition store_after {A} (payload : prog World A) (w : World) (s : PgWorld) : PgWorld :=
  match payload (opened w) with
  | (Ok _, w1) => match w_tx w1 with Some (db, _) => (Flush (txn_changes db) s).2 | None => s end
  | _ => s
  end.

(** C2: The persistent storage refines the in-memory database, table by table.
    On the active instance, with the flusher as the callback before commits: a
    table whose rows in the storage are exactly the committed ones before a
    write transaction, is so after it, whatever the outcome of the transaction
    and of the storage.  Of all tables but two this holds without a condition
    ([faithful_at] is [True] there).  That of the header matchers needs that
    the matchers committed have different ids, and those that stay the same set
    of ids - which saving a route with a matcher again can violate, and the
    matcher is lost ([renumbered_matcher_lost]).  That of the relations of TLS
    configurations needs that they are removed with their configuration. *)
Theorem commit_persists {A} (payload : prog World A) (w : World) (s : PgWorld) r w' t :
  beforeCommitCallbacks = [fun changes _ => (Flush changes s).1] ->
  GetMode = Active ->
  frame (touches any_table) payload -> frame (tx_rel keeps_base) payload ->
  w_writer w = false ->
  persisted_at t (rows (w_db w)) (pg s) ->
  (t = TlsConfigsNodeGroupsTable -> persisted_at TlsConfigTable (rows (w_db w)) (pg s)) ->
  WithWTxVal payload w = (r, w') ->
  (is_Ok r -> faithful_at t (rows (w_db w)) (rows (w_db w'))) ->
  persisted_at t (rows (w_db w')) (pg (store_after payload w s)).
Proof.
  intros Hcb Ha F B Hw Hp Htls H Hf. pose proof (B (opened w)) as (_ & _ & _ & T).
  unfold WithWTxVal in H. rewrite Hw in H. unfold wrap_err at 1 in H. fold (opened w) in H. unfold store_after.
  destruct (F (opened w)) as (D & _).
  destruct (payload (opened w)) as [[v|e|p] w1] eqn:Ep; simpl in T, D;
    try (injection H as <- <-; simpl; by rewrite D).
  destruct (w_tx w1) as [[db bo]|] eqn:Et; [|done]. destruct T as [-> T]. unfold keeps_base in T. rewrite base_track in T.
  rewrite Hcb in H. cbn [executeBeforeCommitCallbacks] in H.
  unfold wrap_err, bind, tick, lift, ret in H. cbn [set_tick] in H.
  destruct (Flush (txn_changes db) s) as [[[]|e|p] s'] eqn:Ef; cbn [fst] in H; injection H as <- <-; simpl.
  - destruct (Flush_cases _ _ _ _ Ef) as [(Hs & _)|[(_ & _ & s1 & Eb & ->)|(Hr & _)]]; [congruence| |by destruct Hr; eexists].
    destruct (changes_spec db _ T) as (l & Hl & Hc & _ & Hsame). rewrite Hc in Eb.
    eapply (flush_batch_persisted (b := rows (w_db w)) (n := rows db) (w0 := next_tick (next_tick s))) in Eb as [? _]; try done.
    + intros u k x Hx. by apply rows_wf in Hx.
    + intros u k x Hx. by apply rows_wf in Hx.
    + apply Hf. by eexists.
  - destruct (Flush_cases _ _ _ _ Ef) as [(Hs & Hr & _)|[(_ & Hr & _)|(_ & Hsame & _)]]; [done..|]. by rewrite Hsame, D.
  - destruct (Flush_cases _ _ _ _ Ef) as [(Hs & Hr & _)|[(_ & Hr & _)|(_ & Hsame & _)]]; [done..|]. by rewrite Hsame, D.
Qed.


(** C22: A commit is not refused without a reason: on the active master, with a
    storage that agrees, with a server that neither fails nor refuses, a
    payload that succeeds is committed, if it keeps header matchers and TLS
    configurations faithful and gives new header matchers new ids. *)
Theorem commit_accepted {A} (payload : prog World A) (w : World) (s : PgWorld) v w1 db :
  beforeCommitCallbacks = [fun changes _ => (Flush changes s).1] ->
  GetMode = Active ->
  (forall k, pg_fault k = None) -> (forall d, pg_refuses d = None) ->
  recorded_master (pg_election s) ->
  frame (tx_rel keeps_base) payload ->
  w_writer w = false ->
  persisted (rows (w_db w)) (pg s) ->
  payload (opened w) = (Ok v, w1) -> in_tx w1 db ->
  faithful (rows (w_db w)) (rows db) -> fresh_matchers (rows (w_db w)) (rows db) ->
  exists w', WithWTxVal payload w = (Ok (v, txn_changes db), w') /\ w_db w' = db.
Proof.
  intros Hcb Ha Hnf Hnr Hm B Hw Hp Ep Htx Hf Hfresh. pose proof (B (opened w)) as (_ & _ & _ & T).
  rewrite Ep in T. unfold in_tx in Htx. simpl in T. rewrite Htx in T. destruct T as [_ T].
  unfold keeps_base in T. rewrite base_track in T.
  destruct (changes_spec db _ T) as (l & Hl & Hc & _ & Hsame).
  assert (exists s', Flush (txn_changes db) s = (Ok tt, s')) as [s' Ef].
  { destruct (flush_batch_total Hnf Hnr (rows (w_db w)) (rows db) l (next_tick (next_tick s))) as [s1 E]; try done.
    - intros t k x Hx. by apply rows_wf in Hx.
    - intros t k x Hx. by apply rows_wf in Hx.
    - change (map (change_at (rows (w_db w)) (rows db)) l) with
        (map (fun tk => mkChange tk.1 (rows (w_db w) tk.1 !! tk.2) (rows db tk.1 !! tk.2)) l) in E.
      rewrite <- Hc in E. unfold Flush. rewrite decide_False by congruence.
      change (WithTxBatch (flush_batch (txn_changes db))) with (WithTx (flush_batch (txn_changes db))).
      rewrite (WithTx_total Hnf _ _ _ _ E). by eexists. }
  unfold WithWTxVal. rewrite Hw. unfold wrap_err at 1. fold (opened w). rewrite Ep, Htx, Hcb.
  cbn [executeBeforeCommitCallbacks]. unfold wrap_err, bind, tick, lift, ret. rewrite Ef. simpl.
  by eexists.
Qed.

(** A header matcher that gets another id is lost: when a transaction
    replaces a matcher by one with the same route and name but a new id (as the
    second of two matchers of one name does when its route is registered
    again), the commit succeeds, the update meets no row, and the storage does
    not have the matcher that is committed. *)
Theorem renumbered_matcher_lost {A} (payload : prog World A) (w : World) (s : PgWorld) v changes w' k x y :
  beforeCommitCallbacks = [fun changes _ => (Flush changes s).1] ->
  GetMode = Active ->
  frame (tx_rel keeps_base) payload ->
  w_writer w = false ->
  persisted (rows (w_db w)) (pg s) ->
  WithWTxVal payload w = (Ok (v, changes), w') ->
  rows (w_db w) HeaderMatcherTable !! k = Some x -> rows (w_db w') HeaderMatcherTable !! k = Some y ->
  pk_injective HeaderMatcherTable (rows (w_db w') HeaderMatcherTable) ->
  (forall k' x', rows (w_db w) HeaderMatcherTable !! k' = Some x' -> pk HeaderMatcherTable x' <> pk HeaderMatcherTable y) ->
  pg (store_after payload w s) HeaderMatcherTable !! pk HeaderMatcherTable y = None.
Proof.
  intros Hcb Ha B Hw Hp H Hx Hy Hinj Hnew. pose proof (B (opened w)) as (_ & _ & _ & T).
  unfold WithWTxVal in H. rewrite Hw in H. unfold wrap_err at 1 in H. fold (opened w) in H. unfold store_after.
  destruct (payload (opened w)) as [[u|e|p] w1] eqn:Ep; simpl in T; [|done..].
  destruct (w_tx w1) as [[db bo]|] eqn:Et; [|done]. destruct T as [-> T]. unfold keeps_base in T. rewrite base_track in T.
  rewrite Hcb in H. cbn [executeBeforeCommitCallbacks] in H.
  unfold wrap_err, bind, tick, lift, ret in H. cbn [set_tick] in H.
  destruct (Flush (txn_changes db) s) as [[[]|e|p] s'] eqn:Ef; cbn [fst] in H; [|done..]. injection H as <- <- <-. simpl in *.
  destruct (Flush_cases _ _ _ _ Ef) as [(Hs & _)|[(_ & _ & s1 & Eb & ->)|(Hr & _)]]; [congruence| |by destruct Hr; eexists].
  destruct (changes_spec db _ T) as (l & Hl & Hc & _ & Hsame). rewrite Hc in Eb.
  apply (flush_batch_misses (b := rows (w_db w)) (n := rows db) (w0 := next_tick (next_tick s)) s1 HeaderMatcherTable k x y Eb); try done.
  by apply updated_injective.
Qed.
End commits.

(** * Witnesses *)

(** Maps compared as lists, which evaluate faster. *)
Lemma map_is_singleton {A} (m : gmap (list value) A) k x : map_to_list m = [(k, x)] -> m = {[k := x]}.
Proof. intros H. apply map_to_list_inj. by rewrite H, map_to_list_singleton. Qed.
Lemma map_is_empty {A} (m : gmap (list value) A) : map_to_list m = [] -> m = ∅.
Proof. apply map_to_list_empty_iff. Qed.
Lemma model_rows (db : Db (MemDb := MemDbModel.MapMemDb)) t :
  rows (MemDbLaws := MemDbModel.MapMemDbLaws) db t = MemDbModel.map_rows (MemDbModel.now_db db) t.
Proof. reflexivity. Qed.

(** A server that keeps what it is given. *)
Definition test_postgres : Postgres := {|
  columns := fun t x => x;
  pg_refuses := fun _ => None;
  pg_fault := fun _ => None;
  select_order := fun A _ l => l;
  pod_ip := "10.0.0.1";
  pod_name := "control-plane-1"
|}.
Definition test_postgres_laws : PostgresLaws (P := test_postgres).
Proof. by split. Qed.
Definition test_election : list Clustering.MasterMetadata :=
  [Clustering.mkMasterMetadata 1 "control-plane-1" (Clustering.mkNodeInfo "10.0.0.1" 7000 5431 8080) 0 "cloud"].
Definition empty_store : PgWorld := mkPgWorld (fun _ => ∅) test_election [] 0.
Definition flushing_runtime (s : PgWorld) : Runtime := {|
  runtime_memdb := MemDbModel.MapMemDb;
  runtime_env := RuntimeModel.test_env;
  nextval := fun _ n => Ok (Z.of_nat (S n));
  time_Now := Z.of_nat;
  uuid_New := RuntimeModel.test_uuid;
  map_order := fun A _ l => l;
  beforeCommitCallbacks := [fun changes _ => (Flush (P := test_postgres) (Env := RuntimeModel.test_env) changes s).1];
  bus_publish := fun _ _ _ => Ok tt
|}.
Definition flushing_laws (s : PgWorld) : RuntimeLaws (R := flushing_runtime s).
Proof. refine (@Build_RuntimeLaws (flushing_runtime s) MemDbModel.MapMemDbLaws _). done. Defined.
Definition flushing_world : World (R := flushing_runtime empty_store) :=
  mkWorld (R := flushing_runtime empty_store) (db_empty (MemDb := MemDbModel.MapMemDb)) None false 0 [] SIMPLE.
Definition saved_matcher : HeaderMatcher :=
  (zero : HeaderMatcher) <| HeaderMatcher_Name := "x-version" |> <| HeaderMatcher_RouteId := 7%Z |> <| HeaderMatcher_ExactMatch := "v1" |>.
Definition saving : prog (World (R := flushing_runtime empty_store)) unit :=
  Dao.SaveNodeGroup (R := flushing_runtime empty_store) InTx ((zero : NodeGroup) <| NodeGroup_Name := "gw" |>) ;;;
  _ <- Dao.SaveHeaderMatcher (R := flushing_runtime empty_store) InTx saved_matcher ;; ret tt.
#[local] Existing Instance flushing_laws.
#[local] Existing Instance test_postgres_laws.
#[local] Existing Instance flushing_runtime | 100.
#[local] Existing Instance test_postgres.
Lemma saving_touches : frame (touches any_table) saving.
Proof. unfold saving. solve_frame. Qed.
Lemma saving_base : frame (tx_rel (keeps_base (RL := flushing_laws empty_store))) saving.
Proof. unfold saving. solve_frame. Qed.



Definition tx_db `{R : Runtime} (w : World) : Db := match w_tx w with Some (db, _) => db | None => db_empty end.
Definition tx_writable `{R : Runtime} (w : World) : bool := match w_tx w with Some (_, b) => b | None => false end.
Lemma tx_db_in_tx `{R : Runtime} (w : World) : tx_writable w = true -> in_tx w (tx_db w).
Proof. unfold tx_writable, tx_db, in_tx. destruct (w_tx w) as [[db b]|]; [|done]. by intros ->. Qed.

Definition saved : World (R := flushing_runtime empty_store) := (saving (opened flushing_world)).2.
Definition flushed_commit : result (unit * list Change) * World := WithWTxVal saving flushing_world.

Lemma empty_rows t : rows (w_db flushing_world) t = ∅.
Proof. by destruct t. Qed.
Lemma empty_persisted : persisted (rows (w_db flushing_world)) (pg empty_store).
Proof.
  intros t. unfold persisted_at. rewrite empty_rows. split; [by intros ? ? ? ? ?%lookup_empty_Some|].
  intros key z. simpl. rewrite lookup_empty. split; [done|]. by intros (? & ? & ?%lookup_empty_Some & _).
Qed.
(** The only row that [faithful] looks at. *)
Lemma one_matcher_faithful (n : Pg) k m :
  n HeaderMatcherTable = {[k := m]} -> n TlsConfigsNodeGroupsTable = ∅ ->
  faithful (rows (w_db flushing_world)) n.
Proof.
  intros H1 H2. split.
  - rewrite H1. intros k1 k2 x y [<- _]%lookup_singleton_Some [<- _]%lookup_singleton_Some. done.
  - intros key. rewrite empty_rows. split; intros (? & ? & ? & ?%lookup_empty_Some & _); done.
  - intros k' y. rewrite H2. by intros ?%lookup_empty_Some.
Qed.

Lemma committed_rows :
  rows (w_db (WithWTxVal saving flushing_world).2) HeaderMatcherTable
    = {[ [VInt 7; VStr "x-version"] := saved_matcher <| HeaderMatcher_Id := 1%Z |> ]} /\
  rows (w_db (WithWTxVal saving flushing_world).2) TlsConfigsNodeGroupsTable = ∅.
Proof.
  split; (etransitivity; [apply model_rows|]);
    [apply map_is_singleton|apply map_is_empty]; vm_compute; reflexivity.
Qed.
Lemma saved_rows :
  rows (tx_db saved) HeaderMatcherTable
    = {[ [VInt 7; VStr "x-version"] := saved_matcher <| HeaderMatcher_Id := 1%Z |> ]} /\
  rows (tx_db saved) TlsConfigsNodeGroupsTable = ∅.
Proof.
  split; (etransitivity; [apply model_rows|]);
    [apply map_is_singleton|apply map_is_empty]; vm_compute; reflexivity.
Qed.

Lemma commit_persists_witness :
  persisted (rows (w_db (WithWTxVal saving flushing_world).2)) (pg (store_after saving flushing_world empty_store)).
Proof.
  intros t. apply (commit_persists (RL := flushing_laws empty_store) (PL := test_postgres_laws)
           saving flushing_world empty_store (WithWTxVal saving flushing_world).1).
  - reflexivity.
  - reflexivity.
  - exact saving_touches.
  - exact saving_base.
  - reflexivity.
  - apply empty_persisted.
  - intros _. apply empty_persisted.
  - apply surjective_pairing.
  - intros _. apply faithful_tables.
    apply (one_matcher_faithful _ [VInt 7; VStr "x-version"] (saved_matcher <| HeaderMatcher_Id := 1%Z |>)); apply committed_rows.
Defined.

Lemma commit_accepted_witness :
  exists w', WithWTxVal saving flushing_world = (Ok (tt, txn_changes (tx_db saved)), w') /\ w_db w' = tx_db saved.
Proof.
  apply (commit_accepted (RL := flushing_laws empty_store) (PL := test_postgres_laws)
           saving flushing_world empty_store tt saved (tx_db saved)).
  - reflexivity.
  - reflexivity.
  - reflexivity.
  - reflexivity.
  - by eexists.
  - exact saving_base.
  - reflexivity.
  - exact empty_persisted.
  - apply run_pair. vm_compute. reflexivity.
  - apply tx_db_in_tx. vm_compute. reflexivity.
  - apply (one_matcher_faithful _ [VInt 7; VStr "x-version"] (saved_matcher <| HeaderMatcher_Id := 1%Z |>)); apply saved_rows.
  - intros k y k' x _ _. rewrite empty_rows. by intros ?%lookup_empty_Some.
Defined.

Definition new_node_group : Change :=
  mkChange NodeGroupTable None (Some ((zero : NodeGroup) <| NodeGroup_Name := "gw" |>)).
Lemma flush_only_master_witness :
  let run := Flush (P := test_postgres) (Env := RuntimeModel.test_env) [new_node_group] empty_store in
  run.1 = Ok tt /\ recorded_master (P := test_postgres) (pg_election run.2).
Proof.
  cbv zeta. set (run := Flush _ _).
  assert (run.1 = Ok tt) as Hr by (vm_compute; reflexivity).
  destruct (flush_only_master (P := test_postgres) (Env := RuntimeModel.test_env) [new_node_group] empty_store run.2 run.1 (surjective_pairing _))
    as [(Hs & _)|(_ & [H|(H & _)])].
  - discriminate Hs.
  - exact H.
  - exfalso. apply H. rewrite Hr. by eexists.
Defined.

(** A storage and a database with one header matcher, whose route is saved
    again with a matcher of the same name. *)
Definition old_matcher : HeaderMatcher := saved_matcher <| HeaderMatcher_Id := 1%Z |>.
Definition matcher_store : PgWorld :=
  mkPgWorld (pg_set HeaderMatcherTable {[ [VInt 1] := old_matcher ]} (fun _ => ∅)) test_election [] 0.
Definition matcher_db : Db (MemDb := MemDbModel.MapMemDb) :=
  (txn_insert (MemDb := MemDbModel.MapMemDb) HeaderMatcherTable old_matcher (db_empty (MemDb := MemDbModel.MapMemDb))).2.
Definition matcher_world : World (R := flushing_runtime matcher_store) :=
  mkWorld (R := flushing_runtime matcher_store) matcher_db None false 5 [] SIMPLE.
Definition saving_again : prog (World (R := flushing_runtime matcher_store)) unit :=
  _ <- Dao.SaveHeaderMatcher (R := flushing_runtime matcher_store) InTx saved_matcher ;; ret tt.
Definition new_matcher : HeaderMatcher := saved_matcher <| HeaderMatcher_Id := 6%Z |>.
Definition again_key : list value := [VInt 7; VStr "x-version"].

Lemma saving_again_base : frame (tx_rel (keeps_base (RL := flushing_laws matcher_store))) saving_again.
Proof. unfold saving_again. solve_frame. Qed.
Lemma matcher_rows t : rows (MemDbLaws := MemDbModel.MapMemDbLaws) matcher_db t = pg_set HeaderMatcherTable {[ again_key := old_matcher ]} (fun _ => ∅) t.
Proof.
  destruct (insert_spec (MemDbLaws := MemDbModel.MapMemDbLaws) HeaderMatcherTable old_matcher (db_empty (MemDb := MemDbModel.MapMemDb)) eq_refl)
    as (db' & E & R1 & F & _).
  unfold matcher_db. rewrite E. simpl snd. destruct (decide (t = HeaderMatcherTable)) as [->|Ht].
  - rewrite R1, pg_set_eq, rows_empty. reflexivity.
  - rewrite F, pg_set_ne by done. apply rows_empty.
Qed.
Lemma matcher_persisted : persisted (H := test_postgres) (rows (MemDbLaws := MemDbModel.MapMemDbLaws) matcher_db) (pg matcher_store).
Proof.
  intros t. unfold persisted_at. rewrite matcher_rows. cbn [pg matcher_store]. destruct (decide (t = HeaderMatcherTable)) as [->|Ht].
  - rewrite !pg_set_eq. split.
    + by intros k1 k2 x y [<- _]%lookup_singleton_Some [<- _]%lookup_singleton_Some.
    + intros key z. rewrite lookup_singleton_Some. split.
      * intros [<- <-]. exists again_key, old_matcher. split; [apply lookup_singleton_eq|done].
      * intros (k & x & [<- <-]%lookup_singleton_Some & <- & ->). done.
  - rewrite !pg_set_ne by done. split; [by intros ? ? ? ? ?%lookup_empty_Some|].
    intros key z. rewrite lookup_empty. split; [done|]. by intros (? & ? & ?%lookup_empty_Some & _).
Qed.
Lemma again_rows :
  (WithWTxVal saving_again matcher_world).1 = Ok (tt, txn_changes (w_db (WithWTxVal saving_again matcher_world).2)) /\
  rows (w_db (WithWTxVal saving_again matcher_world).2) HeaderMatcherTable = {[ again_key := new_matcher ]}.
Proof.
  split; [|etransitivity; [apply model_rows|]; apply map_is_singleton; vm_compute; reflexivity].
  set (run := WithWTxVal _ _). assert (match run.1 with Ok _ => true | _ => false end = true) as H by (vm_compute; reflexivity).
  destruct run as [[[[] changes]|e|p] w'] eqn:E; [|done..].
  pose proof E as E'. apply (WithWTxVal_Ok (R := flushing_runtime matcher_store)) in E' as (_ & _ & _ & _ & ->). done.
Qed.

Lemma renumbered_matcher_lost_witness :
  pg (store_after saving_again matcher_world matcher_store) HeaderMatcherTable !! [VInt 6] = None.
Proof.
  destruct again_rows as [E Hr].
  apply (renumbered_matcher_lost (RL := flushing_laws matcher_store) (PL := test_postgres_laws)
           saving_again matcher_world matcher_store tt (txn_changes (w_db (WithWTxVal saving_again matcher_world).2))
           (WithWTxVal saving_again matcher_world).2 again_key old_matcher new_matcher).
  - reflexivity.
  - reflexivity.
  - exact saving_again_base.
  - reflexivity.
  - exact matcher_persisted.
  - by apply run_pair.
  - change (w_db matcher_world) with matcher_db. rewrite matcher_rows, pg_set_eq. apply lookup_singleton_eq.
  - rewrite Hr. apply lookup_singleton_eq.
  - rewrite Hr. by intros k1 k2 x y [<- _]%lookup_singleton_Some [<- _]%lookup_singleton_Some.
  - intros k x. change (w_db matcher_world) with matcher_db. rewrite matcher_rows, pg_set_eq.
    by intros [<- <-]%lookup_singleton_Some.
Defined.
