(* ===== verification/RecoverySpec.v ===== *)
(** [ram/loader.go]: what is loaded from a storage that agrees with some
    in-memory database is that database again. *)
From S2P Require Import Prelude GoLib Domain Tables MemDb Msaddr Events Runtime DaoSpec Persistence PersistenceSpec CommitSpec.
From S2P Require Import Storage.
From S2P Require Clustering RuntimeModel MemDbModel.
Open Scope string_scope.

(** * Loading *)

(** What a row read from the storage is loaded as. *)
Definition reloaded (d : Pg) (t : table) : entity t -> entity t :=
  match t return entity t -> entity t with
  | ClusterTable => with_node_groups d
  | _ => fun x => x
  end.

Lemma same_fields t x y :
  (forall f, FieldByName t f x = FieldByName t f y) -> id_key t x = id_key t y /\ indexable t x = indexable t y.
Proof.
  intros H. assert (forall i, indexer_key t x i = indexer_key t y i) as Hi.
  { assert (forall l am, compound_key t x l am = compound_key t y l am) as Hc.
    { intros l am. induction l as [|i l IH]; simpl; [done|]. unfold field_key. by rewrite H, IH. }
    intros []; simpl; unfold field_key; by rewrite ?H, ?Hc. }
  split; [unfold id_key, index_key; destruct (schema t !! "id"); [by rewrite Hi|done]|].
  unfold indexable. apply forallb_ext. intros [? s]. by rewrite Hi.
Qed.
Lemma reloaded_field d t f x : FieldByName t f (reloaded d t x) = FieldByName t f x.
Proof. by destruct t. Qed.

Section loading.
Context `{ML : MemDbLaws} `{PL : PostgresLaws}.

Lemma reloaded_keys d t x :
  id_key t (reloaded d t (columns t x)) = id_key t x /\ indexable t (reloaded d t (columns t x)) = indexable t x.
Proof. apply same_fields. intros f. by rewrite reloaded_field, columns_field. Qed.

(** The outcome of a read: [l] in some order, or a failure of the server. *)
Definition reads {A} (m : prog PgWorld (list A)) (l : Pg -> list A) : Prop :=
  frame same_storage m /\ forall w r w', m w = (r, w') ->
    (forall x, r = Ok x -> x ≡ₚ l (pg w)) /\ ((forall k, pg_fault k = None) -> is_Ok r).

Lemma WithTx_cases {A} (f : prog PgWorld A) w r w' :
  WithTx f w = (r, w') ->
  (exists a, r = Ok a /\ (f (next_tick (next_tick w))).1 = Ok a) \/
  (~ is_Ok r /\ ((forall k, pg_fault k = None) -> ~ is_Ok (f (next_tick (next_tick w))).1)).
Proof.
  intros H. destruct r as [a|e|p].
  - left. exists a. split; [done|]. apply WithTx_Ok in H as (w1 & -> & _). done.
  - right. split; [by intros [? ?]|]. intros Hnf [a Ha].
    destruct (f (next_tick (next_tick w))) as [r1 w1] eqn:E. simpl in Ha. subst.
    by rewrite (WithTx_total Hnf _ _ _ _ E) in H.
  - right. split; [by intros [? ?]|]. intros Hnf [a Ha].
    destruct (f (next_tick (next_tick w))) as [r1 w1] eqn:E. simpl in Ha. subst.
    by rewrite (WithTx_total Hnf _ _ _ _ E) in H.
Qed.
Lemma select_cases t w r w' :
  select t (fun _ => true) w = (r, w') ->
  (forall x, r = Ok x -> x ≡ₚ (map_to_list (pg w t)).*2) /\ ((forall k, pg_fault k = None) -> is_Ok r).
Proof.
  unfold select, contact, order_tick. destruct (pg_fault (pg_tick w)) eqn:Ef; intros [= <- <-].
  - split; [done|]. intros Hnf. by rewrite Hnf in Ef.
  - split; [|by eexists]. intros x [= <-]. rewrite select_order_perm. cbn [pg next_tick].
    induction (map_to_list (pg w t)).*2 as [|y l IH]; simpl; [done|]. by rewrite IH.
Qed.
Lemma reads_select_all t : reads (select_all t) (fun d => (map_to_list (d t)).*2).
Proof.
  split; [apply frame_select_all|]. intros w r w' H. apply WithTx_cases in H.
  destruct (select t (fun _ => true) (next_tick (next_tick w))) as [r1 w1] eqn:E. simpl in H.
  apply select_cases in E as [H1 H2]. destruct H as [(a & -> & Ha)|[Hr Hf]].
  - split; [intros x [= <-]; by apply H1|by eexists].
  - split; [intros x ->; destruct Hr; by eexists|]. intros Hnf. destruct (Hf Hnf). by apply H2.
Qed.
Lemma reads_FindAllClusters :
  reads FindAllClusters (fun d => reloaded d ClusterTable <$> (map_to_list (d ClusterTable)).*2).
Proof.
  assert (forall w, (FindAllClusters w).1 = match (select_all ClusterTable w).1 with Ok l => Ok (with_node_groups (pg w) <$> l) | Err e => Err e | Panic p => Panic p end) as H.
  { intros w. unfold FindAllClusters, select_all, WithTx, usingDb, bind.
    destruct (contact w) as [[[]|e|p] w1] eqn:E1; [|done..]. apply contact_Ok in E1 as ->.
    destruct (contact (next_tick w)) as [[[]|e|p] w2] eqn:E2; [|done..]. apply contact_Ok in E2 as ->.
    unfold in_transaction, bind, gets, ret. 
    destruct (select ClusterTable _ _) as [[l|e|p] w3]; [|done..].
    by destruct (contact w3) as [[[]|e|p] w4]. }
  assert (frame same_storage FindAllClusters) as F.
  { apply frame_WithTx. apply frame_bind; [apply _|apply frame_gets, _|]. intros d.
    apply frame_bind; [apply _|apply frame_select|]. intros. apply frame_ret, _. }
  split; [done|]. intros w r w' E. specialize (H w). rewrite E in H. simpl in H.
  destruct (select_all ClusterTable w) as [r1 w1] eqn:E1. apply (reads_select_all ClusterTable) in E1 as [H1 H2].
  simpl in H. split.
  - intros x ->. destruct r1 as [l|e|p]; [|done..]. injection H as ->. 
    change (with_node_groups (pg w)) with (reloaded (pg w) ClusterTable). by rewrite (H1 l).
  - intros Hnf. destruct (H2 Hnf) as [l ->]. subst. by eexists.
Qed.
Lemma reads_tableEntityMap t : reads (tableEntityMap t) (fun d => reloaded d t <$> (map_to_list (d t)).*2).
Proof.
  destruct (decide (t = ClusterTable)) as [->|Ht]; [apply reads_FindAllClusters|].
  assert (reads (select_all t) (fun d => reloaded d t <$> (map_to_list (d t)).*2)) as H.
  { destruct (reads_select_all t) as [F H]. split; [done|]. intros w r w' E. apply H in E as [H1 H2]. split; [|done].
    intros x Hx. rewrite (H1 x Hx). assert (forall l, reloaded (pg w) t <$> l = l) as ->; [|done].
    intros l. rewrite <- (list_fmap_id l) at 2. apply list_fmap_ext. intros i y _. destruct t; done. }
  destruct t; try exact H; done.
Qed.

(** A table loaded into an empty one. *)
Definition loaded_rows (d : Pg) (t : table) : gmap (list value) (entity t) :=
  list_to_map ((fun x => (id_key t x, x)) <$> (reloaded d t <$> (map_to_list (d t)).*2)).

Definition loadable (d : Pg) : Prop := forall t,
  NoDup (id_key t <$> (reloaded d t <$> (map_to_list (d t)).*2)) /\
  forall x, x ∈ (map_to_list (d t)).*2 -> indexable t (reloaded d t x) = true.

Lemma loadEntity_cases t db s r db' s' :
  loadable (pg s) -> rows db t = ∅ ->
  loadEntity t (db, s) = (r, (db', s')) ->
  same_storage s s' /\
  (is_Ok r -> rows db' t = loaded_rows (pg s) t /\ forall t', t' <> t -> rows db' t' = rows db t') /\
  ((forall k, pg_fault k = None) -> is_Ok r).
Proof.
  intros Hl Hempty. destruct (Hl t) as [Hnd Hix]. destruct (reads_tableEntityMap t) as [F Hr].
  unfold loadEntity, on_pg, on_db, bind. simpl. specialize (F s).
  destruct (tableEntityMap t s) as [[l|e|p] s1] eqn:E; simpl in *; apply Hr in E as [H1 H2].
  - specialize (H1 l eq_refl). destruct (insert_all t l db) as (db1 & E1 & R1 & F1).
    { apply forallb_forall. intros x Hx%list_elem_of_In. rewrite H1 in Hx.
      apply list_elem_of_fmap in Hx as (y & -> & Hy). by apply Hix. }
    rewrite E1. intros [= <- <- <-]. split_and!; [done| |by eexists]. intros _. split; [|done].
    rewrite R1, Hempty, foldl_rows_of by (by rewrite H1). unfold rows_of, loaded_rows.
    apply list_to_map_proper; [|by rewrite H1]. rewrite <- list_fmap_compose.
    rewrite (list_fmap_ext _ (id_key t)) by done. by rewrite H1.
  - intros [= <- <- <-]. split_and!; [done|by intros [? ?]|]. intros Hnf. by destruct (H2 Hnf).
  - intros [= <- <- <-]. split_and!; [done|by intros [? ?]|]. intros Hnf. by destruct (H2 Hnf).
Qed.

Lemma load_cases ts db s r db' s' :
  loadable (pg s) -> NoDup ts -> (forall t, t ∈ ts -> rows db t = ∅) ->
  for_each ts loadEntity (db, s) = (r, (db', s')) ->
  same_storage s s' /\
  (is_Ok r -> (forall t, t ∈ ts -> rows db' t = loaded_rows (pg s) t) /\ (forall t, t ∉ ts -> rows db' t = rows db t)) /\
  ((forall k, pg_fault k = None) -> is_Ok r).
Proof.
  revert db s. induction ts as [|t ts IH]; intros db s Hl Hts Hempty H; simpl in H.
  - injection H as <- <- <-. split_and!; [done| |by eexists]. intros _. split; [by intros t ?%elem_of_nil|done].
  - apply NoDup_cons in Hts as [Ht Hts]. unfold bind in H.
    destruct (loadEntity t (db, s)) as [r1 [db1 s1]] eqn:E1.
    apply loadEntity_cases in E1 as (S1 & R1 & T1); [|done|apply Hempty; by left].
    destruct r1 as [[]|e|p].
    + destruct R1 as [R1 F1]; [by eexists|]. apply IH in H as (S2 & R2 & T2); [|by rewrite (proj1 S1)|done|].
      * rewrite (proj1 S1) in R2. split_and!; [by etransitivity| |done]. intros Hr. destruct (R2 Hr) as [R3 F3]. split.
        -- intros t' [->|Ht']%elem_of_cons; [by rewrite F3|by apply R3].
        -- intros t' [? ?]%not_elem_of_cons. by rewrite F3, F1.
      * intros t' Ht'. rewrite F1; [apply Hempty; by right|]. by intros ->.
    + injection H as <- <- <-. split_and!; [done|by intros [? ?]|]. intros Hnf. by destruct (T1 Hnf).
    + injection H as <- <- <-. split_and!; [done|by intros [? ?]|]. intros Hnf. by destruct (T1 Hnf).
Qed.

Lemma clear_total ts db s :
  exists db', for_each ts (fun t => on_db (_ <- txn_delete_all t "id" [] ;; ret tt)) (db, s) = (Ok tt, (db', s)) /\
    forall t, t ∈ ts \/ rows db t = ∅ -> rows db' t = ∅.
Proof.
  revert db. induction ts as [|t ts IH]; intros db; simpl; [exists db; split; [done|]; intros t [?%elem_of_nil|?]; done|].
  destruct (clean_table t db) as (k & db1 & E1 & R1 & F1). destruct (IH db1) as (db2 & E2 & R2). exists db2.
  unfold bind, on_db. simpl. rewrite E1. simpl. split; [exact E2|].
  intros t' Ht'. apply R2. destruct (decide (t' = t)) as [->|Hne]; [by right|].
  destruct Ht' as [[->|Ht']%elem_of_cons|Ht']; [done|by left|right]. by rewrite F1.
Qed.

(** A storage that holds the rows of a database can be loaded, and gives them
    back. *)
Lemma persisted_elem R d t z : persisted R d -> z ∈ (map_to_list (d t)).*2 <-> exists k x, R t !! k = Some x /\ z = columns t x.
Proof.
  intros H. rewrite list_elem_of_fmap. split.
  - intros ([key z'] & -> & Hin%elem_of_map_to_list%H). destruct Hin as (k & x & Hx & _ & ->). by exists k, x.
  - intros (k & x & Hx & ->). exists (pk t x, columns t x). split; [done|].
    apply elem_of_map_to_list, H. by exists k, x.
Qed.
Lemma persisted_loadable R d : keyed R -> persisted R d -> loadable d.
Proof.
  intros HR H t. split.
  - rewrite <- list_fmap_compose. apply (NoDup_fmap_2_strong); [|].
    + intros z1 z2 (k1 & x1 & H1 & ->)%(persisted_elem R d t _ H) (k2 & x2 & H2 & ->)%(persisted_elem R d t _ H) Heq.
      simpl in Heq. rewrite !(proj1 (reloaded_keys d t _)) in Heq.
      pose proof (HR _ _ _ H1) as [<- _]. pose proof (HR _ _ _ H2) as [<- _]. congruence.
    + apply (NoDup_fmap_1 (pk t)). rewrite <- list_fmap_compose.
      rewrite (list_fmap_ext _ fst); [apply NoDup_fst_map_to_list|].
      intros i [key z] Hz%list_elem_of_lookup_2%elem_of_map_to_list%H.
      destruct Hz as (k & x & _ & <- & ->). simpl. by rewrite columns_pk.
  - intros z (k & x & Hx & ->)%(persisted_elem R d t _ H). rewrite (proj2 (reloaded_keys d t _)).
    by apply HR in Hx as [_ ?].
Qed.
Lemma persisted_loaded R d t : keyed R -> persisted R d ->
  loaded_rows d t = (fun x => reloaded d t (columns t x)) <$> R t.
Proof.
  intros HR H. pose proof (persisted_loadable R d HR H t) as [Hnd _].
  apply map_eq. intros k. rewrite lookup_fmap. unfold loaded_rows.
  destruct (R t !! k) as [x|] eqn:Hx; simpl.
  - apply elem_of_list_to_map_1.
    + rewrite <- (list_fmap_compose (fun y => (id_key t y, y)) fst). rewrite (list_fmap_ext _ (id_key t)) by done. done.
    + apply list_elem_of_fmap. exists (reloaded d t (columns t x)). rewrite (proj1 (reloaded_keys d t _)).
      pose proof (HR _ _ _ Hx) as [-> _]. split; [done|]. apply list_elem_of_fmap. exists (columns t x). split; [done|].
      apply (persisted_elem R d t _ H). by exists k, x.
  - apply not_elem_of_list_to_map_1. rewrite <- (list_fmap_compose (fun y => (id_key t y, y)) fst).
    intros (y & -> & (z & -> & (k' & x & Hx' & ->)%(persisted_elem R d t _ H))%list_elem_of_fmap)%list_elem_of_fmap.
    simpl in Hx. rewrite (proj1 (reloaded_keys d t _)) in Hx. pose proof (HR _ _ _ Hx') as [Hk _]. congruence.
Qed.

(** C14: Recovery: loading a storage that holds the rows of some database makes
    the in-memory database hold exactly those rows again, each as it is read
    back (a cluster with its node groups), whatever it held before; it changes
    nothing in the storage; when a read fails the in-memory database stays as
    it was, and without faults of the server it succeeds. *)
Theorem reload_recovers (R : Pg) (db : Db) (s : PgWorld) r db' s' :
  keyed R -> persisted R (pg s) ->
  ClearAndLoad (db, s) = (r, (db', s')) ->
  same_storage s s' /\
  (is_Ok r -> forall t, rows db' t = (fun x => reloaded (pg s) t (columns t x)) <$> R t) /\
  (~ is_Ok r -> db' = db) /\
  ((forall k, pg_fault k = None) -> is_Ok r).
Proof.
  intros HR H. unfold ClearAndLoad, ram_write_tx. unfold bind at 1.
  destruct (clear_total TableRelationOrder db s) as (db1 & -> & Hc).
  destruct (for_each TableRelationOrder loadEntity (db1, s)) as [r2 [db2 s2]] eqn:E.
  apply load_cases in E as (S2 & R2 & T2); [|by apply (persisted_loadable R)|apply Storage.TableRelationOrder_NoDup|].
  2: { intros t Ht. apply Hc. by left. }
  destruct r2 as [[]|e|p]; intros [= <- <- <-]; simpl; (split_and!; [done|..]).
  - intros Hr t. destruct (R2 Hr) as [R3 _]. rewrite R3 by apply Storage.TableRelationOrder_all. by apply persisted_loaded.
  - intros []. by eexists.
  - by eexists.
  - by intros [? ?].
  - done.
  - done.
  - by intros [? ?].
  - done.
  - done.
Qed.
End loading.

(** * Witness *)

Definition stored_group : NodeGroup := (zero : NodeGroup) <| NodeGroup_Name := "gw" |>.
Definition stored_rows : Pg := pg_set NodeGroupTable {[ [VStr "gw"] := stored_group ]} (fun _ => ∅).
Definition full_store : PgWorld := mkPgWorld stored_rows test_election [] 0.
Lemma stored_rows_lookup t k x :
  stored_rows t !! k = Some x -> k = pk t x /\ k = id_key t x /\ indexable t x = true.
Proof.
  unfold stored_rows. destruct (decide (t = NodeGroupTable)) as [->|Ht].
  - rewrite pg_set_eq. intros [<- <-]%lookup_singleton_Some. by split_and!; vm_compute.
  - rewrite pg_set_ne by done. by intros ?%lookup_empty_Some.
Qed.
Lemma stored_keyed : keyed stored_rows.
Proof. intros t k x H. by destruct (stored_rows_lookup t k x H) as (_ & -> & ?). Qed.
Lemma stored_persisted : persisted (H := test_postgres) stored_rows stored_rows.
Proof.
  intros t. split.
  - intros k1 k2 x y (-> & _)%stored_rows_lookup (-> & _)%stored_rows_lookup. done.
  - intros key z. simpl. split.
    + intros H. exists key, z. split; [done|]. by apply stored_rows_lookup in H as [-> _].
    + intros (k & x & H & <- & ->). by destruct (stored_rows_lookup t k x H) as [<- _].
Qed.
Lemma reload_recovers_witness :
  let run := ClearAndLoad (P := test_postgres) (M := MemDbModel.MapMemDb)
               (db_empty (MemDb := MemDbModel.MapMemDb), full_store) in
  same_storage full_store run.2.2 /\
  (is_Ok run.1 -> forall t, rows (MemDbLaws := MemDbModel.MapMemDbLaws) run.2.1 t
     = (fun x => reloaded stored_rows t (columns (Postgres := test_postgres) t x)) <$> stored_rows t) /\
  (~ is_Ok run.1 -> run.2.1 = db_empty (MemDb := MemDbModel.MapMemDb)) /\
  ((forall k, pg_fault (Postgres := test_postgres) k = None) -> is_Ok run.1).
Proof.
  cbv zeta. apply (reload_recovers (ML := MemDbModel.MapMemDbLaws) (PL := test_postgres_laws) stored_rows
    (db_empty (MemDb := MemDbModel.MapMemDb)) full_store);
    [exact stored_keyed|exact stored_persisted|].
  destruct (ClearAndLoad (P := test_postgres) _) as [r [db' s']]. reflexivity.
Defined.
