(* ===== verification/DisasterRecovery.v ===== *)
(** Disaster recovery ([services/dr]): a standby instance follows the storage by
    the notifications of its triggers.

    An event is what the JSON of a notification decodes to: strings and whole
    numbers by field.  The watchers of versions, which are told in the
    background, and the listener of the database are left out; [log.Panicf] is
    a panic. *)
From S2P Require Import Prelude GoLib Domain Tables MemDb Msaddr Events Runtime Dao Persistence.
Open Scope string_scope.

Inductive event_value : Type := EvString (s : string) | EvNumber (n : Z).
Definition event : Type := gmap string event_value.

(** [event[field].(string)] and [event[field].(float64)]: a field of another
    type or none panics. *)
Definition event_string (e : event) (field : string) : result string :=
  match e !! field with Some (EvString s) => Ok s | _ => Panic "interface conversion" end.
Definition event_number (e : event) (field : string) : result Z :=
  match e !! field with Some (EvNumber n) => Ok n | _ => Panic "interface conversion" end.

(** The map [mappers]: every table has an entry. *)
Definition table_of_name (name : string) : option table :=
  List.find (fun t => String.eqb (table_name t) name) TableRelationOrder.

Section dr.
Context `{R : Runtime} `{P : Postgres}.

Definition delete_by_id (delete : Z -> prog World unit) (e : event) : prog World unit :=
  id <- lift (event_number e "id") ;; delete (int32 id).
Definition delete_by_name (delete : string -> prog World unit) (field : string) (e : event) : prog World unit :=
  name <- lift (event_string e field) ;; delete name.

Definition delete_endpoint (repo : repo) (e : event) : prog World unit :=
  id <- lift (event_number e "id") ;;
  endpoint <- Dao.FindEndpointById repo (int32 id) ;;
  match endpoint with
  | None => ret tt
  | Some endpoint => DeleteEndpoint repo endpoint
  end.
Definition delete_virtual_host_domain (repo : repo) (e : event) : prog World unit :=
  id <- lift (event_number e "virtualhostid") ;;
  domains <- Dao.FindVirtualHostDomainByVirtualHostId repo (int32 id) ;;
  domain <- lift (event_string e "domain") ;;
  match List.find (fun d => String.eqb (VirtualHostDomain_Domain d) domain) domains with
  | Some existingDomain => DeleteVirtualHostsDomain repo existingDomain
  | None => ret tt
  end.
(** Deleting a nil virtual host dereferences it. *)
Definition delete_virtual_host (repo : repo) (e : event) : prog World unit :=
  id <- lift (event_number e "id") ;;
  vHost <- Dao.FindVirtualHostById repo (int32 id) ;;
  match vHost with
  | Some vHost => DeleteVirtualHost repo vHost
  | None => panic "reflect: call of reflect.Value.FieldByName on zero Value"
  end.

Definition deleteFunc (t : table) (e : event) (repo : repo) : prog World unit :=
  match t with
  | ClusterTable => delete_by_name (DeleteClusterByName repo) "name" e
  | ClusterNodeGroupTable =>
      id <- lift (event_number e "clusters_id") ;;
      name <- lift (event_string e "nodegroups_name") ;;
      DeleteClustersNodeGroup repo (mkClustersNodeGroup (int32 id) name)
  | CompositeSatelliteTable => delete_by_name (DeleteCompositeSatellite repo) "namespace" e
  | DeploymentVersionTable =>
      delete_by_name (fun v => DeleteDeploymentVersion repo ((zero : DeploymentVersion) <| DeploymentVersion_Version := v |>)) "version" e
  | EndpointTable => delete_endpoint repo e
  | EnvoyConfigVersionTable => ret tt
  | HashPolicyTable => delete_by_id (DeleteHashPolicyById repo) e
  | HeaderMatcherTable => delete_by_id (DeleteHeaderMatcherById repo) e
  | HealthCheckTable => delete_by_id (DeleteHealthCheckById repo) e
  | ListenerTable => delete_by_id (DeleteListenerById repo) e
  | ListenersWasmFilterTable =>
      listenerId <- lift (event_number e "listener_id") ;;
      filterId <- lift (event_number e "wasm_filter_id") ;;
      DeleteListenerWasmFilter repo (mkListenersWasmFilter (int32 listenerId) (int32 filterId))
  | LuaFilterTable => delete_by_id (DeleteLuaFilterById repo) e
  | NodeGroupTable => delete_by_name (DeleteNodeGroupByName repo) "name" e
  | RetryPolicyTable => delete_by_id (DeleteRetryPolicyById repo) e
  | RouteConfigurationTable => delete_by_id (DeleteRouteConfigById repo) e
  | RouteTable => delete_by_id (DeleteRouteById repo) e
  | TlsConfigTable => delete_by_id (DeleteTlsConfigById repo) e
  | VirtualHostDomainTable => delete_virtual_host_domain repo e
  | VirtualHostTable => delete_virtual_host repo e
  | WasmFilterTable => delete_by_id (DeleteWasmFilterById repo) e
  | StatefulSessionTable => delete_by_id (DeleteStatefulSessionConfig repo) e
  | RateLimitTable =>
      name <- lift (event_string e "name") ;;
      priority <- lift (event_number e "priority") ;;
      DeleteRateLimitByNameAndPriority repo name (int32 priority)
  | TlsConfigsNodeGroupsTable =>
      id <- lift (event_number e "tls_config_id") ;;
      name <- lift (event_string e "node_group_name") ;;
      DeleteTlsConfigByIdAndNodeGroupName repo (mkTlsConfigsNodeGroups (int32 id) name)
  | MicroserviceVersionTable =>
      name <- lift (event_string e "name") ;;
      namespace <- lift (event_string e "namespace") ;;
      initialVersion <- lift (event_string e "initial_version") ;;
      DeleteMicroserviceVersion repo name (mkNamespace namespace) initialVersion
  | ExtAuthzFilterTable => delete_by_name (DeleteExtAuthzFilter repo) "name" e
  | CircuitBreakerTable => delete_by_id (DeleteCircuitBreakerById repo) e
  | ThresholdTable => delete_by_id (DeleteThresholdById repo) e
  | TcpKeepaliveTable => delete_by_id (DeleteTcpKeepaliveById repo) e
  end.

Definition load_by_id {A} (find : Z -> prog PgWorld A) (e : event) : prog PgWorld A :=
  id <- lift (event_number e "id") ;; find (int32 id).
Definition load_by_name {A} (find : string -> prog PgWorld A) (field : string) (e : event) : prog PgWorld A :=
  name <- lift (event_string e field) ;; find name.

Definition loadFromDBFunc (t : table) (e : event) : prog PgWorld (entity t) :=
  match t return prog PgWorld (entity t) with
  | ClusterTable => load_by_name Persistence.FindClusterByName "name" e
  | ClusterNodeGroupTable =>
      id <- lift (event_number e "clusters_id") ;;
      name <- lift (event_string e "nodegroups_name") ;;
      FindClustersNodeGroupByIdAndNodeGroup (int32 id) name
  | CompositeSatelliteTable => load_by_name Persistence.FindCompositeSatelliteByNamespace "namespace" e
  | DeploymentVersionTable => load_by_name FindDeploymentVersionByName "version" e
  | EndpointTable => load_by_id Persistence.FindEndpointById e
  | EnvoyConfigVersionTable =>
      nodeGroup <- lift (event_string e "node_group") ;;
      entityType <- lift (event_string e "entity_type") ;;
      version <- lift (event_number e "version") ;;
      ret (mkEnvoyConfigVersion nodeGroup entityType version)
  | HashPolicyTable => load_by_id FindHashPolicyById e
  | HeaderMatcherTable => load_by_id FindHeaderMatcherById e
  | HealthCheckTable => load_by_id FindHealthCheckById e
  | ListenerTable => load_by_id Persistence.FindListenerById e
  | ListenersWasmFilterTable =>
      listenerId <- lift (event_number e "listener_id") ;;
      filterId <- lift (event_number e "wasm_filter_id") ;;
      ret (mkListenersWasmFilter (int32 listenerId) (int32 filterId))
  | LuaFilterTable => load_by_id FindLuaFilterById e
  | NodeGroupTable => load_by_name Persistence.FindNodeGroupByName "name" e
  | RetryPolicyTable => load_by_id FindRetryPolicyById e
  | RouteConfigurationTable => load_by_id Persistence.FindRouteConfigById e
  | RouteTable => load_by_id Persistence.FindRouteById e
  | TlsConfigTable => load_by_id Persistence.FindTlsConfigById e
  | VirtualHostDomainTable =>
      domain <- lift (event_string e "domain") ;;
      id <- lift (event_number e "virtualhostid") ;;
      ret (mkVirtualHostDomain domain 1 (int32 id))
  | VirtualHostTable => load_by_id Persistence.FindVirtualHostById e
  | WasmFilterTable => load_by_id FindWasmFilterById e
  | StatefulSessionTable => load_by_id FindStatefulSessionById e
  | RateLimitTable =>
      name <- lift (event_string e "name") ;;
      limit <- lift (event_number e "limit_per_second") ;;
      priority <- lift (event_number e "priority") ;;
      ret (mkRateLimit name limit (int32 priority))
  | TlsConfigsNodeGroupsTable =>
      id <- lift (event_number e "tls_config_id") ;;
      name <- lift (event_string e "node_group_name") ;;
      FindTlsConfigByIdAndNodeGroupName (int32 id) name
  | MicroserviceVersionTable =>
      name <- lift (event_string e "name") ;;
      namespace <- lift (event_string e "namespace") ;;
      deploymentVersion <- lift (event_string e "deployment_version") ;;
      initialVersion <- lift (event_string e "initial_version") ;;
      ret (mkMicroserviceVersion name namespace deploymentVersion initialVersion None)
  | ExtAuthzFilterTable => load_by_name Persistence.FindExtAuthzFilterByName "name" e
  | CircuitBreakerTable => load_by_id Persistence.FindCircuitBreakerById e
  | ThresholdTable => load_by_id Persistence.FindThresholdById e
  | TcpKeepaliveTable => load_by_id Persistence.FindTcpKeepaliveById e
  end.

(** * Processing an event ([dr.go]) *)

(** Both sides of the standby. *)
Definition on_storage {A} (m : prog PgWorld A) : prog (World * PgWorld) A := fun w =>
  let '(r, s) := m w.2 in (r, (w.1, s)).
Definition on_memory {A} (m : prog World A) : prog (World * PgWorld) A := fun w =>
  let '(r, w1) := m w.1 in (r, (w1, w.2)).
(** [if err != nil { log.Panicf }] *)
Definition or_panic {W A} (why : string) (m : prog W A) : prog W A := fun w =>
  match m w with
  | (Err _, w') => (Panic why, w')
  | r => r
  end.

Definition publishEvent (version : EnvoyConfigVersion) : prog World unit :=
  or_panic "Could not publish event" (Publish TopicPartialReapply (PartialReloadEvent [version])).
Definition publish_version (t : table) : entity t -> prog World unit :=
  match t return entity t -> prog World unit with
  | EnvoyConfigVersionTable => publishEvent
  | _ => fun _ => ret tt
  end.

Definition process_delete (t : table) (e : event) : prog (World * PgWorld) unit :=
  _ <- on_memory (or_panic "Could not delete entity from inMemory storage" (WithWTx (deleteFunc t e InTx))) ;;
  ret tt.
Definition process_upsert (t : table) (e : event) : prog (World * PgWorld) unit :=
  x <- on_storage (or_panic "Could not load entity from constant storage" (loadFromDBFunc t e)) ;;
  _ <- on_memory (or_panic "Could not save entity to inMemory storage" (WithWTx (SaveEntity InTx t x))) ;;
  on_memory (publish_version t x).
Definition processChange (e : event) : prog (World * PgWorld) unit :=
  match e !! "entity" with
  | Some (EvString name) =>
      match table_of_name name with
      | Some t =>
          operation <- lift (event_string e "operation") ;;
          if String.eqb operation "DELETE" then process_delete t e else process_upsert t e
      | None => ret tt
      end
  | _ => ret tt
  end.
End dr.

(** * The notifications of the triggers

    The body of the JSON each trigger of [constancy/migration] sends for a row,
    where it is well formed; there is no trigger for Lua filters. *)

Definition row_fields (t : table) : entity t -> option (list (string * event_value)) :=
  match t return entity t -> option (list (string * event_value)) with
  | ClusterTable => fun x : Cluster => Some [("name", EvString (Cluster_Name x))]
  | ClusterNodeGroupTable => fun x : ClustersNodeGroup =>
      Some [("clusters_id", EvNumber (ClustersNodeGroup_ClustersId x)); ("nodegroups_name", EvString (ClustersNodeGroup_NodegroupsName x))]
  | CompositeSatelliteTable => fun x : CompositeSatellite => Some [("namespace", EvString (CompositeSatellite_Namespace x))]
  | DeploymentVersionTable => fun x : DeploymentVersion => Some [("version", EvString (DeploymentVersion_Version x))]
  | EndpointTable => fun x : Endpoint => Some [("id", EvNumber (Endpoint_Id x))]
  | EnvoyConfigVersionTable => fun x : EnvoyConfigVersion =>
      Some [("node_group", EvString (EnvoyConfigVersion_NodeGroup x)); ("entity_type", EvString (EnvoyConfigVersion_EntityType x));
            ("version", EvNumber (EnvoyConfigVersion_Version x))]
  | HashPolicyTable => fun x : HashPolicy => Some [("id", EvNumber (HashPolicy_Id x))]
  | HeaderMatcherTable => fun x : HeaderMatcher => Some [("id", EvNumber (HeaderMatcher_Id x))]
  | HealthCheckTable => fun x : HealthCheck => Some [("id", EvNumber (HealthCheck_Id x))]
  | ListenerTable => fun x : Listener => Some [("id", EvNumber (Listener_Id x))]
  | ListenersWasmFilterTable => fun x : ListenersWasmFilter =>
      Some [("listener_id", EvNumber (ListenersWasmFilter_ListenerId x)); ("wasm_filter_id", EvNumber (ListenersWasmFilter_WasmFilterId x))]
  | NodeGroupTable => fun x : NodeGroup => Some [("name", EvString (NodeGroup_Name x))]
  | RetryPolicyTable => fun x : RetryPolicy => Some [("id", EvNumber (RetryPolicy_Id x))]
  | RouteConfigurationTable => fun x : RouteConfiguration => Some [("id", EvNumber (RouteConfiguration_Id x))]
  | RouteTable => fun x : Route => Some [("id", EvNumber (Route_Id x))]
  | TlsConfigTable => fun x : TlsConfig => Some [("id", EvNumber (TlsConfig_Id x))]
  | VirtualHostDomainTable => fun x : VirtualHostDomain =>
      Some [("virtualhostid", EvNumber (VirtualHostDomain_VirtualHostId x)); ("domain", EvString (VirtualHostDomain_Domain x))]
  | VirtualHostTable => fun x : VirtualHost => Some [("id", EvNumber (VirtualHost_Id x))]
  | WasmFilterTable => fun x : WasmFilter => Some [("id", EvNumber (WasmFilter_Id x))]
  | StatefulSessionTable => fun x : StatefulSession => Some [("id", EvNumber (StatefulSession_Id x))]
  | TlsConfigsNodeGroupsTable => fun x : TlsConfigsNodeGroups =>
      Some [("tls_config_id", EvNumber (TlsConfigsNodeGroups_TlsConfigId x)); ("node_group_name", EvString (TlsConfigsNodeGroups_NodeGroupName x))]
  | CircuitBreakerTable => fun x : CircuitBreaker => Some [("id", EvNumber (CircuitBreaker_Id x))]
  | ThresholdTable => fun x : Threshold => Some [("id", EvNumber (Threshold_Id x))]
  | TcpKeepaliveTable => fun x : TcpKeepalive => Some [("id", EvNumber (TcpKeepalive_Id x))]
  | RateLimitTable | MicroserviceVersionTable | ExtAuthzFilterTable | LuaFilterTable => fun _ => None
  end.
Definition notification (operation : string) (t : table) (x : entity t) : option event :=
  (fun fields => list_to_map (("operation", EvString operation) :: ("entity", EvString (table_name t)) :: fields)) <$> row_fields t x.

(** * Properties

    A standby instance follows the storage: what a notification makes of its
    in-memory database, and the notifications that stop it. *)
From S2P Require Import Prelude GoLib Domain Tables MemDb Msaddr Events Runtime Dao DaoSpec.
From S2P Require Import Persistence PersistenceSpec CommitSpec.
From S2P Require Clustering RuntimeModel MemDbModel.
Open Scope string_scope.

(** Rows of the storage are kept under their primary key, and clusters have
    different names. *)
Record stored_keys (d : Pg) : Prop := {
  stored_pk t k z : d t !! k = Some z -> pk t z = k;
  stored_cluster_names k1 k2 (c1 c2 : Cluster) :
    d ClusterTable !! k1 = Some c1 -> d ClusterTable !! k2 = Some c2 -> Cluster_Name c1 = Cluster_Name c2 -> k1 = k2
}.

(** The numbers of a row fit [int32], but the version of a resource. *)
Definition int32_row (t : table) (x : entity t) : Prop :=
  forall fields field n, row_fields t x = Some fields -> (field, EvNumber n) ∈ fields -> field = "version" \/ int32 n = n.

(** What is kept of a row: the domains of virtual hosts are made anew. *)
Definition received (t : table) : entity t -> entity t :=
  match t return entity t -> entity t with
  | VirtualHostDomainTable => fun x : VirtualHostDomain => x <| VirtualHostDomain_Version := 1%Z |>
  | _ => fun x => x
  end.


(** * Loading one row *)

Section load.
Context `{PL : PostgresLaws}.
Hypothesis no_fault : forall k, pg_fault k = None.



Lemma notification_fields op t x e :
  notification op t x = Some e -> exists fields, row_fields t x = Some fields /\
    e = list_to_map (("operation", EvString op) :: ("entity", EvString (table_name t)) :: fields).
Proof. unfold notification. destruct (row_fields t x) as [fields|]; [|done]. intros [= <-]. by exists fields. Qed.

(** The tables that are loaded by id, and by name. *)
Definition id_field (t : table) : option (entity t -> Z) :=
  match t return option (entity t -> Z) with
  | EndpointTable => Some Endpoint_Id | HashPolicyTable => Some HashPolicy_Id
  | HeaderMatcherTable => Some HeaderMatcher_Id | HealthCheckTable => Some HealthCheck_Id
  | ListenerTable => Some Listener_Id | RetryPolicyTable => Some RetryPolicy_Id
  | RouteConfigurationTable => Some RouteConfiguration_Id | RouteTable => Some Route_Id
  | TlsConfigTable => Some TlsConfig_Id | VirtualHostTable => Some VirtualHost_Id
  | WasmFilterTable => Some WasmFilter_Id | StatefulSessionTable => Some StatefulSession_Id
  | CircuitBreakerTable => Some CircuitBreaker_Id | ThresholdTable => Some Threshold_Id
  | TcpKeepaliveTable => Some TcpKeepalive_Id
  | _ => None
  end.
Lemma id_field_spec t id_of :
  id_field t = Some id_of ->
  loadFromDBFunc t = load_by_id (fun id => findByCondition t (fun y => (id_of y =? id)%Z)) /\
  (forall y, pk t y = [VInt (id_of y)]) /\ (forall y, row_fields t y = Some [("id", EvNumber (id_of y))]) /\
  forall y, received t y = y.
Proof. destruct t; try discriminate; intros H; injection H as <-; split_and!; reflexivity. Qed.


End load.

(** * Processing *)

Lemma table_of_table_name t : table_of_name (table_name t) = Some t.
Proof. by destruct t. Qed.
Lemma notification_head op t x e :
  notification op t x = Some e ->
  e !! "entity" = Some (EvString (table_name t)) /\ event_string e "operation" = Ok op.
Proof.
  intros (fields & _ & ->)%notification_fields. unfold event_string, event. rewrite !list_to_map_cons.
  rewrite lookup_insert_ne, !lookup_insert_eq by done. done.
Qed.


Section standby.
Context `{RL : RuntimeLaws} `{PL : PostgresLaws}.
Context {s0 : PgWorld}.
Hypothesis callbacks : beforeCommitCallbacks = [fun changes _ => (Flush changes s0).1].
Hypothesis standby : GetMode = Standby.



(** Two notifications stop a standby instance, although triggers send them
    in normal operation: the removal of a header matcher, which the repository
    cannot delete by its id, and the writing of a row that is gone when it is
    looked up (the code takes the row for deleted by a later event, but the
    lookup reports an error).  Each panics, whatever else the two databases
    hold; the committed state stays. *)
Theorem standby_stops (w : World) (s : PgWorld) :
  w_writer w = false ->
  (forall (m : HeaderMatcher) e, notification "DELETE" HeaderMatcherTable m = Some e ->
     exists why w', processChange e (w, s) = (Panic why, (w', s)) /\ w_db w' = w_db w) /\
  (forall t id_of (x : entity t) e, id_field t = Some id_of -> notification "UPSERT" t x = Some e -> int32_row t x ->
     (forall k, pg_fault k = None) -> stored_keys (pg s) -> pg s t !! pk t x = None ->
     exists why s', processChange e (w, s) = (Panic why, (w, s'))).
Proof.
  intros Hw. split.
  - intros m e He. destruct (notification_head _ _ _ _ He) as [Hent Hop].
    destruct (DeleteHeaderMatcherById_fails (int32 (HeaderMatcher_Id m)) (opened w) (txn_track_changes (w_db w))) as (err & Hd); [done|].
    assert (deleteFunc HeaderMatcherTable e InTx (opened w) = (Err err, opened w)) as Hdel.
    { apply notification_fields in He as (fields & Hf & ->). injection Hf as <-. exact Hd. }
    assert (WithWTx (deleteFunc HeaderMatcherTable e InTx) w
            = (Err (ErrWrap "Executing actions in write transaction caused error" err), close_tx w (opened w))) as Htx.
    { unfold WithWTx, WithWTxVal, bind, wrap_err. rewrite Hw. fold (opened w). by rewrite Hdel. }
    eexists _, _. split.
    + unfold processChange. rewrite Hent, table_of_table_name. unfold bind at 1, lift. rewrite Hop. change (String.eqb "DELETE" "DELETE") with true. cbv iota.
      unfold process_delete, bind, on_memory, or_panic. cbn [fst snd]. rewrite Htx. reflexivity.
    + done.
  - intros t id_of x e Hid He Hi Hnf Hs Hnone. destruct (notification_head _ _ _ _ He) as [Hent Hop].
    destruct (id_field_spec t id_of Hid) as (Hload & Hpk & Hrow & _).
    apply notification_fields in He as (fields & Hf & ->). rewrite Hrow in Hf. injection Hf as <-.
    assert (int32 (id_of x) = id_of x) as Hint by (destruct (Hi _ "id" (id_of x) (Hrow x)) as [|]; [left|discriminate|done]).
    assert (exists err s', loadFromDBFunc t (list_to_map [("operation", EvString "UPSERT"); ("entity", EvString (table_name t)); ("id", EvNumber (id_of x))]) s = (Err err, s')) as (err & s' & E).
    { rewrite Hload. unfold load_by_id, bind at 1, lift.
      replace (event_number _ "id") with (Ok (id_of x)) by reflexivity. rewrite Hint.
      set (c := fun y => (id_of y =? id_of x)%Z).
      assert (List.filter c (map_to_list (pg s t)).*2 = []) as Hnil.
      { apply elem_of_nil_inv. intros y Hy. rewrite list_elem_of_In, filter_In, <- list_elem_of_In, list_elem_of_fmap in Hy.
        destruct Hy as [([k z] & -> & Hz%elem_of_map_to_list) Hc%Z.eqb_eq]. simpl in Hc.
        pose proof (stored_pk _ Hs _ _ _ Hz) as Hk. rewrite Hpk in Hk. rewrite Hpk in Hnone. congruence. }
      unfold findByCondition, WithTx, usingDb, bind. rewrite !(contact_total Hnf). unfold in_transaction, bind, select.
      rewrite (contact_total Hnf). unfold order_tick. cbn [pg next_tick]. rewrite Hnil.
      pose proof (select_order_perm _ (pg_tick (next_tick (next_tick (next_tick s)))) ([] : list (entity t))) as Hp.
      symmetry in Hp. apply Permutation_nil in Hp. cbn [pg_tick next_tick] in *. rewrite Hp. by eexists _, _. }
    eexists _, s'. unfold processChange. rewrite Hent, table_of_table_name. unfold bind at 1, lift. rewrite Hop. change (String.eqb "UPSERT" "DELETE") with false. cbv iota.
    unfold process_upsert, bind, on_storage, or_panic. cbn [fst snd]. rewrite E. reflexivity.
Qed.
End standby.

(** * Witnesses *)

Definition standby_env : Environment := {| os_Getenv := fun name => if String.eqb name "EXECUTION_MODE" then "standby" else "" |}.
Definition standby_runtime : Runtime := {|
  runtime_memdb := MemDbModel.MapMemDb;
  runtime_env := standby_env;
  nextval := fun _ n => Ok (Z.of_nat (S n));
  time_Now := Z.of_nat;
  uuid_New := RuntimeModel.test_uuid;
  map_order := fun A _ l => l;
  beforeCommitCallbacks := [fun changes _ => (Flush (P := test_postgres) (Env := standby_env) changes empty_store).1];
  bus_publish := fun _ _ _ => Ok tt
|}.
Definition standby_laws : RuntimeLaws (R := standby_runtime).
Proof. refine (@Build_RuntimeLaws standby_runtime MemDbModel.MapMemDbLaws _). done. Defined.
Definition standby_world : World (R := standby_runtime) :=
  mkWorld (R := standby_runtime) (db_empty (MemDb := MemDbModel.MapMemDb)) None false 0 [] SIMPLE.
Definition stored_cluster : Cluster := (zero : Cluster) <| Cluster_Id := 3%Z |> <| Cluster_Name := "orders||orders||8080" |>.
Definition cluster_store : PgWorld :=
  mkPgWorld (pg_set ClusterTable {[ [VInt 3] := stored_cluster ]} (fun _ => ∅)) test_election [] 0.


Lemma standby_stops_witness :
  exists why w', processChange (R := standby_runtime) (P := test_postgres)
    (list_to_map [("operation", EvString "DELETE"); ("entity", EvString "header_matchers"); ("id", EvNumber 1)])
    (standby_world, cluster_store) = (Panic why, (w', cluster_store)) /\ w_db w' = w_db standby_world.
Proof.
  apply (proj1 (standby_stops (RL := standby_laws) (PL := test_postgres_laws) standby_world cluster_store eq_refl)
           ((zero : HeaderMatcher) <| HeaderMatcher_Id := 1%Z |>)).
  reflexivity.
Defined.
