(* ===== verification/EnvoyApi.v ===== *)
(** The data of Envoy's API (go-control-plane, protobuf) that the builders of
    the control plane fill in, and what they take from the process: its
    configuration, the marshalling of messages, durations.

    The messages belong to a package that is not part of the repository; a
    record holds the fields the control plane sets, an optional message or
    oneof is an [option].  Marshalling to [Any] is a parameter, and so is the value
    of an enumeration for the name an entity has; a constant of an enumeration
    is kept by its name. *)
From S2P Require Import Prelude GoLib Domain.
Open Scope string_scope.

(** * The process: environment, configuration, marshalling *)

(** [os.LookupEnv], and [configloader]: the value of a property, if it has one;
    the default path of certificates of the library [utils]; and
    [strconv.ParseFloat(s, 64) * 100.0] as the 64 bits of its result. *)
Class Configuration : Type := {
  os_LookupEnv : string -> option string;
  configloader_Get : string -> option string;
  DefaultTlsPath : string;
  percent_of_fraction : string -> option Z
}.
Definition GetOrDefaultString `{Configuration} (name default_value : string) : string :=
  match configloader_Get name with Some v => v | None => default_value end.
Definition env_or `{Configuration} (name default_value : string) : string :=
  match os_LookupEnv name with Some v => v | None => default_value end.

(** * Durations and integers *)

Definition int64 (z : Z) : Z := ((z + 2 ^ 63) mod 2 ^ 64 - 2 ^ 63)%Z.
Definition uint32 (z : Z) : Z := (z mod 2 ^ 32)%Z.
Definition nanos_per_second : Z := 1000000000.
Definition nanos_per_milli : Z := 1000000.

Record Duration := mkDuration { Duration_Seconds : Z; Duration_Nanos : Z }.
(** [durationpb.New] of a [time.Duration] in nanoseconds. *)
Definition durationpb_New (d : Z) : Duration :=
  mkDuration (Z.quot d nanos_per_second) (Z.rem d nanos_per_second).
(** [time.Duration(n) * unit], which wraps around. *)
Definition times_unit (n unit : Z) : Z := int64 (n * unit).
Definition NanosToDuration (nanos : Z) : Duration :=
  let secs := Z.quot nanos nanos_per_second in
  mkDuration secs (int32 (nanos - secs * nanos_per_second)).
Definition MillisToDuration (millis : Z) : Duration := NanosToDuration (int64 (millis * nanos_per_milli)).

(** * Routes *)

Record HeaderValueOption := mkHeaderValueOption { HeaderValue_Key : string; HeaderValue_Value : string }.

Inductive PathSpecifier : Type :=
  | RouteMatch_Prefix (prefix : string)
  | RouteMatch_Path (path : string)
  | RouteMatch_SafeRegex (regex : string).
Inductive HeaderMatchSpecifier : Type :=
  | HeaderMatcher_SuffixMatch_ (s : string)
  | HeaderMatcher_SafeRegexMatch_ (regex : string)
  | HeaderMatcher_RangeMatch_ (start stop : Z)
  | HeaderMatcher_PresentMatch_ (b : bool)
  | HeaderMatcher_PrefixMatch_ (s : string)
  | HeaderMatcher_StringMatch_Exact (s : string).
Record EnvoyHeaderMatcher := mkEnvoyHeaderMatcher {
  EnvoyHeaderMatcher_Name : string;
  EnvoyHeaderMatcher_InvertMatch : bool;
  EnvoyHeaderMatcher_Specifier : HeaderMatchSpecifier
}.
Record EnvoyRouteMatch := mkEnvoyRouteMatch {
  EnvoyRouteMatch_PathSpecifier : PathSpecifier;
  EnvoyRouteMatch_Headers : list EnvoyHeaderMatcher
}.

Inductive PolicySpecifier : Type :=
  | HashPolicy_Header (HeaderName : string)
  | HashPolicy_Cookie (Name : string) (Ttl : option Duration) (Path : string)
  | HashPolicy_QueryParameter (Name : string)
  | HashPolicy_ConnectionProperties (SourceIp : bool).
Record EnvoyHashPolicy := mkEnvoyHashPolicy {
  EnvoyHashPolicy_Terminal : bool;
  EnvoyHashPolicy_Specifier : PolicySpecifier
}.
Record EnvoyRetryPolicy := mkEnvoyRetryPolicy {
  EnvoyRetryPolicy_RetryOn : string;
  EnvoyRetryPolicy_NumRetries : Z;
  EnvoyRetryPolicy_PerTryTimeout : Duration;
  EnvoyRetryPolicy_HostSelectionRetryMaxAttempts : Z;
  EnvoyRetryPolicy_RetriableStatusCodes : list Z;
  EnvoyRetryPolicy_RetryBackOff : option (Duration * Duration)
}.
Inductive HostRewriteSpecifier : Type :=
  | RouteAction_HostRewriteLiteral (host : string)
  | RouteAction_AutoHostRewrite (b : bool).
(** A rate limit of a route is a list of generic keys and values. *)
Record EnvoyRateLimit := mkEnvoyRateLimit { EnvoyRateLimit_Actions : list (string * string) }.

Record EnvoyRouteAction := mkEnvoyRouteAction {
  EnvoyRouteAction_Cluster : string;
  EnvoyRouteAction_HashPolicy : list EnvoyHashPolicy;
  EnvoyRouteAction_RetryPolicy : option EnvoyRetryPolicy;
  EnvoyRouteAction_PrefixRewrite : string;
  EnvoyRouteAction_RegexRewrite : option (string * string);
  EnvoyRouteAction_HostRewrite : option HostRewriteSpecifier;
  EnvoyRouteAction_Timeout : option Duration;
  EnvoyRouteAction_IdleTimeout : option Duration;
  EnvoyRouteAction_RateLimits : list EnvoyRateLimit
}.
Inductive EnvoyAction : Type :=
  | Route_DirectResponse (Status : Z) (Body : option string)
  | Route_Route (action : EnvoyRouteAction).

Record EnvoyRoute (Any : Type) := mkEnvoyRoute {
  EnvoyRoute_Match : EnvoyRouteMatch;
  EnvoyRoute_Action : EnvoyAction;
  EnvoyRoute_RequestHeadersToAdd : list HeaderValueOption;
  EnvoyRoute_RequestHeadersToRemove : list string;
  EnvoyRoute_ResponseHeadersToRemove : list string;
  EnvoyRoute_TypedPerFilterConfig : gmap string Any
}.
Arguments mkEnvoyRoute {Any}.
Arguments EnvoyRoute_Match {Any}.
Arguments EnvoyRoute_Action {Any}.
Arguments EnvoyRoute_RequestHeadersToAdd {Any}.
Arguments EnvoyRoute_RequestHeadersToRemove {Any}.
Arguments EnvoyRoute_ResponseHeadersToRemove {Any}.
Arguments EnvoyRoute_TypedPerFilterConfig {Any}.

Record EnvoyVirtualHost (Any : Type) := mkEnvoyVirtualHost {
  EnvoyVirtualHost_Name : string;
  EnvoyVirtualHost_Domains : list string;
  EnvoyVirtualHost_Routes : list (EnvoyRoute Any);
  EnvoyVirtualHost_RequestHeadersToAdd : list HeaderValueOption;
  EnvoyVirtualHost_RequestHeadersToRemove : list string;
  EnvoyVirtualHost_ResponseHeadersToAdd : list HeaderValueOption;
  EnvoyVirtualHost_ResponseHeadersToRemove : list string;
  EnvoyVirtualHost_TypedPerFilterConfig : gmap string Any
}.
Arguments mkEnvoyVirtualHost {Any}.
Arguments EnvoyVirtualHost_Name {Any}.
Arguments EnvoyVirtualHost_Domains {Any}.
Arguments EnvoyVirtualHost_Routes {Any}.
Arguments EnvoyVirtualHost_RequestHeadersToRemove {Any}.
Arguments EnvoyVirtualHost_TypedPerFilterConfig {Any}.

Record EnvoyRouteConfiguration (Any : Type) := mkEnvoyRouteConfiguration {
  EnvoyRouteConfiguration_Name : string;
  EnvoyRouteConfiguration_VirtualHosts : list (EnvoyVirtualHost Any)
}.
Arguments mkEnvoyRouteConfiguration {Any}.
Arguments EnvoyRouteConfiguration_Name {Any}.
Arguments EnvoyRouteConfiguration_VirtualHosts {Any}.

(** * Clusters *)

Record EnvoySocketAddress := mkEnvoySocketAddress {
  EnvoySocketAddress_Protocol : string;
  EnvoySocketAddress_Address : string;
  EnvoySocketAddress_PortValue : Z;
  EnvoySocketAddress_Ipv4Compat : bool
}.
Record LbEndpoint := mkLbEndpoint {
  LbEndpoint_Address : EnvoySocketAddress;
  LbEndpoint_Version : option string;      (* the metadata of envoy.lb *)
  LbEndpoint_Hostname : option string;
  LbEndpoint_HealthCheckHostname : option string
}.
Record EnvoyThresholds := mkEnvoyThresholds {
  EnvoyThresholds_Priority : string;
  EnvoyThresholds_MaxConnections : Z;
  EnvoyThresholds_MaxRequests : Z;
  EnvoyThresholds_MaxPendingRequests : Z;
  EnvoyThresholds_MaxRetries : Z
}.
Record LbSubsetConfig := mkLbSubsetConfig {
  LbSubsetConfig_FallbackPolicy : string;
  LbSubsetConfig_DefaultSubset : gmap string string;
  LbSubsetConfig_SubsetSelectors : list (list string)
}.
Record EnvoyHttpHealthCheck := mkEnvoyHttpHealthCheck {
  EnvoyHttpHealthCheck_Host : string;
  EnvoyHttpHealthCheck_Path : string;
  EnvoyHttpHealthCheck_RequestHeadersToAdd : list HeaderValueOption;
  EnvoyHttpHealthCheck_RequestHeadersToRemove : list string;
  EnvoyHttpHealthCheck_ExpectedStatuses : list (Z * Z);
  EnvoyHttpHealthCheck_CodecClientType : Z
}.
Record EnvoyHealthCheck := mkEnvoyHealthCheck {
  EnvoyHealthCheck_Timeout : Duration;
  EnvoyHealthCheck_Interval : Duration;
  EnvoyHealthCheck_InitialJitter : Duration;
  EnvoyHealthCheck_IntervalJitter : Duration;
  EnvoyHealthCheck_IntervalJitterPercent : Z;
  EnvoyHealthCheck_UnhealthyThreshold : Z;
  EnvoyHealthCheck_HealthyThreshold : Z;
  EnvoyHealthCheck_ReuseConnection : bool;
  EnvoyHealthCheck_NoTrafficInterval : Duration;
  EnvoyHealthCheck_UnhealthyInterval : Duration;
  EnvoyHealthCheck_UnhealthyEdgeInterval : Duration;
  EnvoyHealthCheck_HealthyEdgeInterval : Duration;
  EnvoyHealthCheck_EventLogPath : string;
  EnvoyHealthCheck_AlwaysLogHealthCheckFailures : bool;
  EnvoyHealthCheck_HttpHealthCheck : option EnvoyHttpHealthCheck;
  EnvoyHealthCheck_AlpnProtocols : option (list string)
}.
Record EnvoyCommonLbConfig := mkEnvoyCommonLbConfig {
  EnvoyCommonLbConfig_HealthyPanicThreshold : Z;
  EnvoyCommonLbConfig_IgnoreNewHostsUntilFirstHc : bool;
  EnvoyCommonLbConfig_CloseConnectionsOnHostSetChange : bool;
  EnvoyCommonLbConfig_UseHostnameForHashing : option bool
}.
Record EnvoyTcpKeepalive := mkEnvoyTcpKeepalive {
  EnvoyTcpKeepalive_Probes : Z;
  EnvoyTcpKeepalive_Time : Z;
  EnvoyTcpKeepalive_Interval : Z
}.
(** A named extension with its marshalled configuration. *)
Record EnvoyExtension (Any : Type) := mkEnvoyExtension {
  EnvoyExtension_Name : string;
  EnvoyExtension_TypedConfig : Any
}.
Arguments mkEnvoyExtension {Any}.
Arguments EnvoyExtension_Name {Any}.
Arguments EnvoyExtension_TypedConfig {Any}.

Record EnvoyCluster (Any : Type) := mkEnvoyCluster {
  EnvoyCluster_Name : string;
  EnvoyCluster_DnsLookupFamily : string;
  EnvoyCluster_ConnectTimeout : Duration;
  EnvoyCluster_LbPolicy : Z;
  EnvoyCluster_DiscoveryType : Z;
  EnvoyCluster_LoadAssignment : string * list LbEndpoint;
  EnvoyCluster_CircuitBreakers : list EnvoyThresholds;
  EnvoyCluster_LbSubsetConfig : option LbSubsetConfig;
  EnvoyCluster_OutlierConsecutive5xx : option Z;
  EnvoyCluster_TypedExtensionProtocolOptions : gmap string Any;
  EnvoyCluster_HealthChecks : list EnvoyHealthCheck;
  EnvoyCluster_TcpKeepalive : option EnvoyTcpKeepalive;
  EnvoyCluster_CommonLbConfig : option EnvoyCommonLbConfig;
  EnvoyCluster_DnsResolvers : list EnvoySocketAddress;
  EnvoyCluster_TransportSocket : option (EnvoyExtension Any);
  EnvoyCluster_MaxRequestsPerConnection : option Z
}.
Arguments mkEnvoyCluster {Any}.
Arguments EnvoyCluster_Name {Any}.
Arguments EnvoyCluster_LoadAssignment {Any}.
Arguments EnvoyCluster_LbSubsetConfig {Any}.
Arguments EnvoyCluster_TransportSocket {Any}.
Arguments EnvoyCluster_CircuitBreakers {Any}.

Inductive DataSource : Type :=
  | DataSource_Filename (filename : string)
  | DataSource_InlineString (s : string).
Record TlsCertificate := mkTlsCertificate {
  TlsCertificate_CertificateChain : DataSource;
  TlsCertificate_PrivateKey : DataSource
}.
Inductive TrustChainVerification : Type := VERIFY_TRUST_CHAIN | ACCEPT_UNTRUSTED.
Record CommonTlsContext := mkCommonTlsContext {
  CommonTlsContext_AlpnProtocols : list string;
  CommonTlsContext_TlsCertificates : list TlsCertificate;
  CommonTlsContext_TrustedCa : DataSource;
  CommonTlsContext_TrustChainVerification : TrustChainVerification;
  CommonTlsContext_MatchTypedSubjectAltNames : list string;
  CommonTlsContext_TlsParams : option (string * list string)   (* maximum version, curves *)
}.

(** * Listeners *)

Record HttpConnectionManager (Any : Type) := mkHttpConnectionManager {
  Hcm_HttpFilters : list (EnvoyExtension Any);
  Hcm_DefaultHostForHttp_10 : string;
  Hcm_RequestIdExtension : Any;
  Hcm_AccessLog : list (EnvoyExtension Any);
  Hcm_StatPrefix : string;
  Hcm_RouteConfigName : string;
  Hcm_RdsClusterName : string;                 (* of the GRPC service the routes come from *)
  Hcm_MaxRequestHeadersKb : option Z;
  Hcm_Tracing : option (Z * EnvoyExtension Any);
  Hcm_MergeSlashes : bool;
  Hcm_AcceptHttp_10 : bool;
  Hcm_PreserveExternalRequestId : bool;
  Hcm_PassServerHeader : bool;                 (* PASS_THROUGH *)
  Hcm_UpgradeTypes : list string
}.
Arguments mkHttpConnectionManager {Any}.
Arguments Hcm_HttpFilters {Any}.
Arguments Hcm_DefaultHostForHttp_10 {Any}.
Arguments Hcm_RequestIdExtension {Any}.
Arguments Hcm_AccessLog {Any}.
Arguments Hcm_StatPrefix {Any}.
Arguments Hcm_RouteConfigName {Any}.
Arguments Hcm_MaxRequestHeadersKb {Any}.
Arguments Hcm_RdsClusterName {Any}.
Arguments Hcm_Tracing {Any}.
Arguments Hcm_MergeSlashes {Any}.
Arguments Hcm_AcceptHttp_10 {Any}.
Arguments Hcm_PreserveExternalRequestId {Any}.
Arguments Hcm_PassServerHeader {Any}.
Arguments Hcm_UpgradeTypes {Any}.
#[export] Instance HttpConnectionManager_eta Any : Eta (HttpConnectionManager Any) := fun x =>
  mkHttpConnectionManager (Hcm_HttpFilters x) (Hcm_DefaultHostForHttp_10 x) (Hcm_RequestIdExtension x) (Hcm_AccessLog x) (Hcm_StatPrefix x)
    (Hcm_RouteConfigName x) (Hcm_RdsClusterName x) (Hcm_MaxRequestHeadersKb x) (Hcm_Tracing x) (Hcm_MergeSlashes x) (Hcm_AcceptHttp_10 x)
    (Hcm_PreserveExternalRequestId x) (Hcm_PassServerHeader x) (Hcm_UpgradeTypes x).

Record EnvoyListener (Any : Type) := mkEnvoyListener {
  EnvoyListener_Name : string;
  EnvoyListener_Address : EnvoySocketAddress;
  EnvoyListener_Filters : list (EnvoyExtension Any);          (* of the only filter chain *)
  EnvoyListener_ListenerFilters : list (EnvoyExtension Any);
  EnvoyListener_TransportSocket : option (EnvoyExtension Any);
  EnvoyListener_PerConnectionBufferLimitBytes : option Z
}.
Arguments mkEnvoyListener {Any}.
Arguments EnvoyListener_Name {Any}.
Arguments EnvoyListener_Address {Any}.
Arguments EnvoyListener_Filters {Any}.
Arguments EnvoyListener_ListenerFilters {Any}.
Arguments EnvoyListener_TransportSocket {Any}.
Arguments EnvoyListener_PerConnectionBufferLimitBytes {Any}.
#[export] Instance EnvoyListener_eta Any : Eta (EnvoyListener Any) := fun x =>
  mkEnvoyListener (EnvoyListener_Name x) (EnvoyListener_Address x) (EnvoyListener_Filters x) (EnvoyListener_ListenerFilters x)
    (EnvoyListener_TransportSocket x) (EnvoyListener_PerConnectionBufferLimitBytes x).

Record EnvoyRuntime := mkEnvoyRuntime {
  EnvoyRuntime_Name : string;
  EnvoyRuntime_Layer : gmap string string
}.

(** * Messages that are marshalled *)

Inductive PerRouteSession (Any : Type) : Type :=
  | StatefulSessionPerRoute_StatefulSession (SessionState : EnvoyExtension Any)
  | StatefulSessionPerRoute_Disabled (b : bool).
Arguments StatefulSessionPerRoute_StatefulSession {Any}.
Arguments StatefulSessionPerRoute_Disabled {Any}.

Record FractionalPercent := mkFractionalPercent { FractionalPercent_Numerator : Z; FractionalPercent_RuntimeKey : string }.
Record TokenBucket := mkTokenBucket {
  TokenBucket_MaxTokens : Z;
  TokenBucket_TokensPerFill : Z;
  TokenBucket_FillInterval : Duration
}.
Record LocalRateLimit := mkLocalRateLimit {
  LocalRateLimit_StatPrefix : string;
  LocalRateLimit_FilterEnabled : option FractionalPercent;
  LocalRateLimit_FilterEnforced : option FractionalPercent;
  LocalRateLimit_Descriptors : list (string * string * TokenBucket);
  LocalRateLimit_TokenBucket : option TokenBucket
}.
Record CorsPolicy := mkCorsPolicy {
  CorsPolicy_MaxAge : string;
  CorsPolicy_AllowOriginStringMatch : list string;
  CorsPolicy_AllowCredentials : bool;
  CorsPolicy_AllowHeaders : string;
  CorsPolicy_AllowMethods : string;
  CorsPolicy_FilterEnabled : FractionalPercent;
  CorsPolicy_ShadowEnabled : FractionalPercent
}.
Inductive ExplicitHttpConfig : Type := Http1ProtocolOptions (AllowChunkedLength : bool) | Http2ProtocolOptions.
Record WasmPlugin (Any : Type) := mkWasmPlugin {
  WasmPlugin_Name : string;
  WasmPlugin_RootId : string;
  WasmPlugin_VmId : string;
  WasmPlugin_Runtime : string;
  WasmPlugin_Uri : string;
  WasmPlugin_Cluster : string;
  WasmPlugin_TimeoutSeconds : Z;
  WasmPlugin_Sha256 : string;
  WasmPlugin_NumRetries : Z;
  WasmPlugin_AllowPrecompiled : bool;
  WasmPlugin_Configuration : Any;
  WasmPlugin_FailOpen : bool
}.
Arguments mkWasmPlugin {Any}.

Inductive message (Any : Type) : Type :=
  | MsgStatefulSession
  | MsgStatefulSessionPerRoute (override : PerRouteSession Any)
  | MsgCookieBasedSessionState (Name Path : string) (Ttl : option Duration)
  | MsgLuaPerRoute (SourceCode : string)
  | MsgLua (InlineCode StatPrefix : string)
  | MsgExtAuthzPerRoute (ContextExtensions : gmap string string)
  | MsgExtAuthz (ClusterName : string) (Timeout : Duration) (ClearRouteCache : bool) (StatusOnError : string)
  | MsgLocalRateLimit (m : LocalRateLimit)
  | MsgCors
  | MsgCorsPolicy (m : CorsPolicy)
  | MsgHttpProtocolOptions (config : ExplicitHttpConfig) (IdleTimeout : option Duration)
  | MsgUpstreamTlsContext (Sni : string) (Common : CommonTlsContext)
  | MsgDownstreamTlsContext (Common : CommonTlsContext) (RequireClientCertificate : bool)
  | MsgFileAccessLog (Path Format : string)
  | MsgUuidRequestIdConfig (PackTraceReason UseRequestIdForTraceSampling : bool)
  | MsgZipkinConfig (CollectorCluster CollectorEndpoint CollectorEndpointVersion : string)
  | MsgRouter
  | MsgStringValue (s : string)
  | MsgWasm (m : WasmPlugin Any)
  | MsgHeaderToMetadata (Header MetadataNamespace Key : string) (Remove : bool)
  | MsgHttpConnectionManager (m : HttpConnectionManager Any)
  | MsgTlsInspector
  | MsgGzip
  | MsgCompressor (library : EnvoyExtension Any)
  | MsgGrpcStats (EmitFilterState StatsForAllMethods EnableUpstreamStats : bool).
Arguments MsgStatefulSession {Any}.
Arguments MsgStatefulSessionPerRoute {Any}.
Arguments MsgCookieBasedSessionState {Any}.
Arguments MsgLuaPerRoute {Any}.
Arguments MsgLua {Any}.
Arguments MsgExtAuthzPerRoute {Any}.
Arguments MsgExtAuthz {Any}.
Arguments MsgLocalRateLimit {Any}.
Arguments MsgCors {Any}.
Arguments MsgCorsPolicy {Any}.
Arguments MsgHttpProtocolOptions {Any}.
Arguments MsgUpstreamTlsContext {Any}.
Arguments MsgDownstreamTlsContext {Any}.
Arguments MsgFileAccessLog {Any}.
Arguments MsgUuidRequestIdConfig {Any}.
Arguments MsgZipkinConfig {Any}.
Arguments MsgRouter {Any}.
Arguments MsgStringValue {Any}.
Arguments MsgWasm {Any}.
Arguments MsgHeaderToMetadata {Any}.
Arguments MsgHttpConnectionManager {Any}.
Arguments MsgTlsInspector {Any}.
Arguments MsgGzip {Any}.
Arguments MsgCompressor {Any}.
Arguments MsgGrpcStats {Any}.

(** [ptypes.MarshalAny], [anypb.New]; the generated maps from names to values
    ([Cluster_LbPolicy_value] and the like, 0 for a name that is not one);
    [json.Marshal] of the parameters of a WASM filter. *)
Class Protobuf : Type := {
  Any : Type;
  MarshalAny : message Any -> result Any;
  Cluster_LbPolicy_value : string -> Z;
  Cluster_DiscoveryType_value : string -> Z;
  CodecClientType_value : string -> Z;
  json_params : gmap string any -> result string
}.
