(* ===== verification/EnvoyProps.v ===== *)
(** What the builders of Envoy's configuration share: the properties of
    [envoy/cache/builder/common], the modes of [tlsmode] and [bg], the lookup
    family of [services/dns]. *)
From S2P Require Import Prelude GoLib Domain Msaddr RegCommon EnvoyApi.
Open Scope string_scope.

(** * TLS mode ([tlsmode/mode.go]) *)

Section modes.
Context `{C : Configuration}.

(** [SetUpTlsProperties] *)
Definition SetUpTlsProperties : TlsMode :=
  {| tls_preferred := strings_EqualFold "true" (GetOrDefaultString "internal.tls.enabled" "false") |}.
Definition GatewayCertificatesFilePath : string :=
  GetOrDefaultString "gateway.certificate.file.path" DefaultTlsPath.

Inductive Proto := Websocket | Http.
Definition SelectByMode `{TlsMode} {A} (nonTlsValue tlsValue : A) : A := if tls_preferred then tlsValue else nonTlsValue.
Definition ResolvePort `{TlsMode} (customPort : option Z) : string :=
  match customPort with
  | None => SelectByMode ":8080" ":8443"
  | Some port => ":" ++ strconv_Itoa port
  end.
Definition BuildUrl `{TlsMode} (proto : Proto) (hostname : string) (customPort : option Z) : string :=
  match proto with
  | Websocket => SelectByMode "ws://" "wss://"
  | Http => SelectByMode "http://" "https://"
  end ++ hostname ++ ResolvePort customPort.
Definition UrlFromProperty `{TlsMode} (proto : Proto) (propertyName defaultHostname : string) : result string :=
  let propertyVal := GetOrDefaultString propertyName "" in
  if String.eqb propertyVal "" then Ok (BuildUrl proto defaultHostname None)
  else
    let propertyVal :=
      match strings_Index propertyVal "://" with Some i => str_drop (i + 3) propertyVal | None => propertyVal end in
    match strings_Split propertyVal ":" with
    | [host] => Ok (BuildUrl proto host None)
    | host :: port :: _ =>
        match strconv_Atoi port with
        | Some port => Ok (BuildUrl proto host (Some port))
        | None => Panic "Could not parse custom port from property"
        end
    | [] => Ok ""
    end.

(** [bg.GetMode]: whether the mode is BlueGreen1. *)
Definition BlueGreen1 `{Environment} : bool := String.eqb (strings_TrimSpace (os_Getenv "PEER_NAMESPACE")) "".

(** [dns.getFromEnv], by the name of the family; the code reads it once, when the
    package is initialised, and so does this: the environment does not change. *)
Definition DnsLookupFamily `{Environment} : result string :=
  let envVal := os_Getenv "DNS_LOOKUP_FAMILY" in
  if String.eqb (strings_TrimSpace envVal) "" then Ok "AUTO"
  else if existsb (String.eqb envVal) ["V4_ONLY"; "V6_ONLY"; "V4_PREFERRED"; "ALL"] then Ok envVal
  else if String.eqb envVal "V6_PREFERRED" then Ok "AUTO"
  else Panic "Unsupported DNS_LOOKUP_FAMILY environment variable value".

(** [common.resolveIPVersion] *)
Definition ipV4Compat `{Environment} : bool := String.eqb (os_Getenv "IP_STACK") "v6".

(** * Properties ([builder/common/props.go]) *)

Record TracingProperties := mkTracingProperties {
  Tracing_Enabled : bool;
  Tracing_ZipkinCollectorCluster : string;
  Tracing_ZipkinCollectorEndpoint : string;
  Tracing_SamplerProbabilisticValue : Z
}.
Record EnvoyProxyProperties := mkEnvoyProxyProperties {
  Props_RoutesTimeout : Z;
  Props_CompressionEnabled : bool;
  Props_MimeTypesList : list string;
  Props_Tracing : TracingProperties;
  Props_Re2Maxsize : string;
  Props_Re2WarnSize : string;
  Props_PerConnectionBufferLimitMegabytes : Z
}.
Definition readInt64PropOrDefault (name : string) (defaultVal : Z) : Z :=
  let prop := GetOrDefaultString name "" in
  if String.eqb prop "" then defaultVal
  else match strconv_Atoi prop with Some v => v | None => defaultVal end.
Definition getStringPropFromEnvOrFromYaml (envName localName : string) : option string :=
  let value := if String.eqb envName "" then "" else GetOrDefaultString envName "" in
  let value := if String.eqb value "" && nonempty localName then GetOrDefaultString localName "" else value in
  if String.eqb value "" then None else Some value.
Definition GetTimeout (p : EnvoyProxyProperties) : Z := times_unit (Props_RoutesTimeout p) nanos_per_milli.
(** The value is in megabytes; the field it goes to is in bytes. *)
Definition GetUInt32PerConnectionBufferLimitMBytes (p : EnvoyProxyProperties) : Z :=
  uint32 (Props_PerConnectionBufferLimitMegabytes p).
Definition NewEnvoyProxyProperties : EnvoyProxyProperties := {|
  Props_RoutesTimeout := readInt64PropOrDefault "envoy.proxy.routes.timeout" 120000;
  Props_CompressionEnabled := strings_EqualFold "true" (GetOrDefaultString "envoy.proxy.compression.enabled" "");
  Props_MimeTypesList := strings_Split (GetOrDefaultString "envoy.proxy.compression.mime-types" "") ",";
  Props_Tracing := {|
    Tracing_Enabled :=
      match getStringPropFromEnvOrFromYaml "tracing.enabled" "envoy.proxy.tracing.enabled" with
      | Some raw => strings_EqualFold "true" raw
      | None => false
      end;
    Tracing_ZipkinCollectorCluster :=
      default "" (getStringPropFromEnvOrFromYaml "zipkin.collector.cluster" "envoy.proxy.tracing.zipkin.collector_cluster");
    Tracing_ZipkinCollectorEndpoint :=
      default "" (getStringPropFromEnvOrFromYaml "zipkin.collector.endpoint" "envoy.proxy.tracing.zipkin.collector_endpoint");
    Tracing_SamplerProbabilisticValue :=
      match getStringPropFromEnvOrFromYaml "tracing.sampler.probabilistic" "envoy.proxy.tracing.overall_sampling" with
      | Some s => default 0%Z (percent_of_fraction s)
      | None => 0%Z
      end |};
  Props_Re2Maxsize := GetOrDefaultString "envoy.proxy.googlere2.maxsize" "200";
  Props_Re2WarnSize := GetOrDefaultString "envoy.proxy.googlere2.warnsize" "150";
  Props_PerConnectionBufferLimitMegabytes :=
    readInt64PropOrDefault "envoy.proxy.connection.per.connection.buffer.limit.megabytes" 10
|}.

(** * Parts of messages ([builder/common/common.go]) *)

Context `{Pb : Protobuf}.

Definition IsReservedGatewayName (name : string) : bool :=
  existsb (String.eqb name) ["public-gateway-service"; "private-gateway-service"; "internal-gateway-service"].
Definition BuildSocketAddr `{Environment} (address : string) (port : Z) : EnvoySocketAddress :=
  mkEnvoySocketAddress "TCP" address port ipV4Compat.
Definition BuildCookieBasedSessionFilterForListener : result Any := MarshalAny MsgStatefulSession.
Definition BuildStatefulSessionPerRoute (statefulSession : StatefulSession) : result Any :=
  if StatefulSession_Enabled statefulSession
  then
    match MarshalAny (MsgCookieBasedSessionState (StatefulSession_CookieName statefulSession)
                        (StatefulSession_CookiePath statefulSession)
                        (MillisToDuration <$> StatefulSession_CookieTtl statefulSession)) with
    | Ok filter =>
        MarshalAny (MsgStatefulSessionPerRoute (StatefulSessionPerRoute_StatefulSession
                      (mkEnvoyExtension "envoy.http.stateful_session.cookie" filter)))
    | Err e => Err e
    | Panic p => Panic p
    end
  else MarshalAny (MsgStatefulSessionPerRoute (StatefulSessionPerRoute_Disabled true)).
Definition BuildLuaFilterPerRoute (luaFilter : LuaFilter) : result Any :=
  MarshalAny (MsgLuaPerRoute (LuaFilter_LuaScript luaFilter)).
End modes.
