(* ===== verification/EnvoyRoutes.v ===== *)
(** [envoy/cache/builder/routeconfig]: from the routes of a virtual host to the
    routes of Envoy.  The preparers resolve stateful sessions, merge the
    versions of one route, add the twin with or without a closing slash, and
    sort; the route builder translates each route.

    The preparers and builders read through [d], the repository they are made
    with. *)
From S2P Require Import Prelude GoLib Domain RouteSort RouteKey Tables MemDb Msaddr Events Runtime Dao Entity.
From S2P Require Import Util EnvoyApi EnvoyProps.
Open Scope string_scope.

#[export] Instance NullBool_eq_dec : EqDecision NullBool.
Proof. solve_decision. Defined.
#[export] Instance RouteAction_eq_dec : EqDecision RouteAction.
Proof. solve_decision. Defined.

(** [cluster.ReplaceDotsByUnderscore] *)
Definition ReplaceDotsByUnderscore (name : string) : string := strings_ReplaceAll name "." "_".

(** * Route groups ([routegroup.go]): the routes of one key in all versions *)

Section groups.
Context `{R : Runtime}.

Definition RouteGroup := list Route.
(** The stage of the version of a route; a version that is not loaded is a nil
    dereference. *)
Definition route_stage (route : Route) : prog World string :=
  dv <- deref (Route_DeploymentVersionVal route) ;; ret (DeploymentVersion_Stage dv).
Definition IsMultiVersioned (rg : RouteGroup) : bool := (1 <? length rg)%nat.
Fixpoint GetActiveVersionRoute (rg : RouteGroup) : prog World (option Route) :=
  match rg with
  | [] => ret None
  | route :: rest =>
      stage <- route_stage route ;;
      if String.eqb stage "ACTIVE" then ret (Some route) else GetActiveVersionRoute rest
  end.
Fixpoint GetNoActiveVersionRoutes (rg : RouteGroup) : prog World (list Route) :=
  match rg with
  | [] => ret []
  | route :: rest =>
      stage <- route_stage route ;;
      others <- GetNoActiveVersionRoutes rest ;;
      ret (if String.eqb stage "ACTIVE" then others else route :: others)
  end.
Definition HasActiveVersion (rg : RouteGroup) : prog World bool :=
  active <- GetActiveVersionRoute rg ;; ret match active with Some _ => true | None => false end.

(** * Transformation ([routetransformer.go]) *)

Definition x_version (version : string) : HeaderMatcher :=
  (zero : HeaderMatcher) <| HeaderMatcher_Name := "x-version" |> <| HeaderMatcher_ExactMatch := version |>.
(** The clone that a request reaches with the version in [x-version]. *)
Definition versioned (route : Route) : prog World Route :=
  dv <- deref (Route_DeploymentVersionVal route) ;;
  ret (route <| Route_HeaderMatchers := (Route_HeaderMatchers route ++ [x_version (DeploymentVersion_Version dv)])%list |>).

Inductive TransformationRule := SimpleRouteTransformationRule | GenericVersionedRouteTransformRule | NoActiveRouteTransformer.

Definition IsApplicable (rule : TransformationRule) (routeGroup : RouteGroup) : prog World bool :=
  match rule with
  | SimpleRouteTransformationRule =>
      if IsMultiVersioned routeGroup then ret false else HasActiveVersion routeGroup
  | GenericVersionedRouteTransformRule =>
      if IsMultiVersioned routeGroup then HasActiveVersion routeGroup else ret false
  | NoActiveRouteTransformer => active <- HasActiveVersion routeGroup ;; ret (negb active)
  end.
(** Whether a route of another version does something else than the active one. *)
Definition differs_from (activeVersionRoute route : Route) : bool :=
  if (Route_DirectResponseCode route =? 0)%Z
  then negb (bool_decide (Route_RouteAction route = Route_RouteAction activeVersionRoute))
  else negb (Route_DirectResponseCode route =? Route_DirectResponseCode activeVersionRoute)%Z.
Definition apply_generic (routeGroup : RouteGroup) : prog World (list Route) :=
  active <- GetActiveVersionRoute routeGroup ;;
  activeVersionRoute <- deref active ;;
  others <- GetNoActiveVersionRoutes routeGroup ;;
  fold_each others [activeVersionRoute] (fun result route =>
    if differs_from activeVersionRoute route
    then newRoute <- versioned route ;; ret (result ++ [newRoute])%list
    else ret result).
Definition Apply (rule : TransformationRule) (routeGroup : RouteGroup) : prog World (list Route) :=
  match rule with
  | SimpleRouteTransformationRule => ret routeGroup
  | GenericVersionedRouteTransformRule => apply_generic routeGroup
  | NoActiveRouteTransformer =>
      others <- GetNoActiveVersionRoutes routeGroup ;; map_each others versioned
  end.
Definition DefaultRouteTransformer : list TransformationRule :=
  [SimpleRouteTransformationRule; GenericVersionedRouteTransformRule; NoActiveRouteTransformer].
Definition transform_group (rules : list TransformationRule) (routeGroup : RouteGroup) (result : list Route) :
    prog World (list Route) :=
  fold_each rules result (fun result rule =>
    applicable <- IsApplicable rule routeGroup ;;
    if applicable : bool
    then routes <- Apply rule routeGroup ;; ret (result ++ routes)%list
    else ret result).
Definition Transform (rules : list TransformationRule) (routeGroups : list RouteGroup) : prog World (list Route) :=
  fold_each routeGroups [] (fun result routeGroup => transform_group rules routeGroup result).
End groups.

(** * Preparers ([routepreparer.go]) *)

Section preparers.
Context `{R : Runtime} `{H : Sha256} `{E : EntityService}.

(** Which session applies to a route: that of an endpoint first, the last one
    of the cluster otherwise. *)
Fixpoint pick_session (d : repo) (nodeGroup : string) (perClusterConfig : option StatefulSession)
    (sessions : list StatefulSession) : prog World (option StatefulSession) :=
  match sessions with
  | [] => ret perClusterConfig
  | session :: rest =>
      if negb (SliceContains (StatefulSession_Gateways session) [nodeGroup])
      then pick_session d nodeGroup perClusterConfig rest
      else
        anotherRoute <- or_panic (FindRouteByStatefulSession d (StatefulSession_Id session)) ;;
        match anotherRoute with
        | Some _ => pick_session d nodeGroup perClusterConfig rest
        | None =>
            endpoint <- or_panic (FindEndpointByStatefulSession d (StatefulSession_Id session)) ;;
            match endpoint with
            | None => pick_session d nodeGroup (Some session) rest
            | Some _ => ret (Some session)
            end
        end
  end.
Definition resolveStatefulSessionConfig (d : repo) (route : Route) : prog World (option StatefulSession) :=
  nodeGroup <- or_panic (FindRouteNodeGroup d route) ;;
  dv <- deref (Route_DeploymentVersionVal route) ;;
  sessions <- or_panic (FindStatefulSessionConfigsByClusterAndVersion d
                (ExtractFamilyName (Route_ClusterName route)) (ExtractNamespace (Route_ClusterName route)) dv) ;;
  pick_session d (NodeGroup_Name nodeGroup) None sessions.
Definition RouteStatefulSessionPreparer_Prepare (d : repo) (routes : list Route) : prog World (list Route) :=
  map_each routes (fun route =>
    match Route_StatefulSession route with
    | Some _ => ret route
    | None =>
        effective <- resolveStatefulSessionConfig d route ;;
        ret match effective with
            | Some _ => route <| Route_StatefulSession := effective |>
            | None => route
            end
    end).

(** The policies of the endpoints of the cluster, then those of the route,
    without repetitions.  A failure to read the former is overwritten by the
    outcome of reading the latter. *)
Definition collectAllVersionsHashPolicy (d : repo) (clusterName : string) (activeAndCandidateVersions : list string)
    (routeId : Z) : prog World (list HashPolicy) :=
  hashPolicies <- or_nil (FindHashPolicyByClusterAndVersions d clusterName activeAndCandidateVersions) ;;
  routeHashPolicies <- or_panic (FindHashPolicyByRouteId d routeId) ;;
  ret (fold_left (fun allHashPolicies hashPolicy =>
         if existsb (fun contained => HashPolicy_Equals (HashPolicy_Id hashPolicy =? HashPolicy_Id contained)%Z hashPolicy contained) allHashPolicies
         then allHashPolicies else (allHashPolicies ++ [hashPolicy])%list)
       (hashPolicies ++ routeHashPolicies)%list []).

(** The policies of a cluster are those of its first route, for all of them. *)
Definition route_policies (d : repo) (versions : list string) (route : Route) (found : gmap string (list HashPolicy)) :
    prog World (Route * gmap string (list HashPolicy)) :=
  if String.eqb (Route_ClusterName route) "" then ret (route, found)
  else
    policies <- match found !! Route_ClusterName route with
                | Some policies => ret policies
                | None => collectAllVersionsHashPolicy d (Route_ClusterName route) versions (Route_Id route)
                end ;;
    ret (route <| Route_HashPolicies := policies |>, <[Route_ClusterName route := policies]> found).
(** The groups in the order their keys were met. *)
Fixpoint add_to_group (key : string) (route : Route) (groups : list (string * RouteGroup)) : list (string * RouteGroup) :=
  match groups with
  | [] => [(key, [route])]
  | (key', group) :: rest =>
      if String.eqb key' key then (key', (group ++ [route])%list) :: rest
      else (key', group) :: add_to_group key route rest
  end.
Definition activeAndCandidate (allVersions : list DeploymentVersion) : list string :=
  DeploymentVersion_Version <$>
    List.filter (fun ver => String.eqb (DeploymentVersion_Stage ver) "ACTIVE"
                            || String.eqb (DeploymentVersion_Stage ver) "CANDIDATE") allVersions.
Definition RouteMultiVersionPreparer_Prepare (d : repo) (routes : list Route) : prog World (list Route) :=
  routes <- RouteStatefulSessionPreparer_Prepare d routes ;;
  allVersions <- or_panic (FindAllDeploymentVersions d) ;;
  grouped <- fold_each routes ((∅ : gmap string (list HashPolicy)), []) (fun '(found, groups) route =>
               p <- route_policies d (activeAndCandidate allVersions) route found ;;
               ret (p.2, add_to_group (GenerateKey p.1) p.1 groups)) ;;
  routeGroups <- range (snd <$> grouped.2) ;;
  Transform DefaultRouteTransformer routeGroups.

Definition drop_last (s : string) : string := str_take (String.length s - 1) s.
(** Prefix and rewrite both with a closing slash, or both without one. *)
Definition checkSlash (r : Route) : Route :=
  if String.eqb (Route_PrefixRewrite r) "" then r
  else if strings_HasSuffix (Route_Prefix r) "/" && negb (strings_HasSuffix (Route_PrefixRewrite r) "/")
  then r <| Route_PrefixRewrite := Route_PrefixRewrite r ++ "/" |>
  else if negb (strings_HasSuffix (Route_Prefix r) "/") && strings_HasSuffix (Route_PrefixRewrite r) "/"
          && negb (String.eqb (Route_PrefixRewrite r) "/")
  then r <| Route_PrefixRewrite := drop_last (Route_PrefixRewrite r) |>
  else r.
Definition createRoutePair (r : Route) : Route :=
  if strings_HasSuffix (Route_Prefix r) "/"
  then r <| Route_Prefix := drop_last (Route_Prefix r) |>
         <| Route_PrefixRewrite := if String.eqb (Route_PrefixRewrite r) "" then "" else drop_last (Route_PrefixRewrite r) |>
  else r <| Route_Prefix := Route_Prefix r ++ "/" |>
         <| Route_PrefixRewrite :=
              if String.eqb (Route_PrefixRewrite r) "" || String.eqb (Route_PrefixRewrite r) "/"
              then Route_PrefixRewrite r else Route_PrefixRewrite r ++ "/" |>.
(** The normalized clone serves for the twin only: the route itself is handed
    on as it was. *)
Definition route_pairs (result : list Route) : list Route :=
  flat_map (fun route =>
    if String.eqb (Route_Prefix route) "" && nonempty (Route_Regexp route) then []
    else let route := checkSlash route in
         if String.eqb (Route_Prefix route) "/" then [] else [createRoutePair route]) result.
Definition ExtraSlashRoutePreparer_Prepare (d : repo) (routes : list Route) : prog World (list Route) :=
  result <- RouteMultiVersionPreparer_Prepare d routes ;;
  ret (result ++ route_pairs result)%list.
Definition SortRoutePreparer_Prepare (d : repo) (routes : list Route) : prog World (list Route) :=
  allRoutes <- ExtraSlashRoutePreparer_Prepare d routes ;; ret (OrderRoutesForEnvoy allRoutes).
(** [cache.DefaultRoutePreparer] *)
Definition DefaultRoutePreparer (d : repo) : list Route -> prog World (list Route) := SortRoutePreparer_Prepare d.
End preparers.

(** * The route builder ([routeconfig.go]) *)

Definition buildHeaderOptions (headers : list Header) : list HeaderValueOption :=
  (fun header => mkHeaderValueOption (Header_Name header) (Header_Value header)) <$> headers.

Definition header_specifier (m : HeaderMatcher) : HeaderMatchSpecifier :=
  if nonempty (HeaderMatcher_SuffixMatch m) then HeaderMatcher_SuffixMatch_ (HeaderMatcher_SuffixMatch m)
  else if nonempty (HeaderMatcher_SafeRegexMatch m) then HeaderMatcher_SafeRegexMatch_ (HeaderMatcher_SafeRegexMatch m)
  else if NullInt_Valid (RangeMatch_Start (HeaderMatcher_RangeMatch m)) || NullInt_Valid (RangeMatch_End (HeaderMatcher_RangeMatch m))
  then HeaderMatcher_RangeMatch_ (NullInt_Int64 (RangeMatch_Start (HeaderMatcher_RangeMatch m)))
         (NullInt_Int64 (RangeMatch_End (HeaderMatcher_RangeMatch m)))
  else if NullBool_Valid (HeaderMatcher_PresentMatch m)
  then HeaderMatcher_PresentMatch_ (NullBool_Bool (HeaderMatcher_PresentMatch m))
  else if nonempty (HeaderMatcher_PrefixMatch m) then HeaderMatcher_PrefixMatch_ (HeaderMatcher_PrefixMatch m)
  else if nonempty (HeaderMatcher_ExactMatch m) then HeaderMatcher_StringMatch_Exact (HeaderMatcher_ExactMatch m)
  else HeaderMatcher_PresentMatch_ true.
Definition buildHeaderMatchers (headerMatchers : list HeaderMatcher) : list EnvoyHeaderMatcher :=
  (fun m => mkEnvoyHeaderMatcher (HeaderMatcher_Name m) (HeaderMatcher_InvertMatch m) (header_specifier m)) <$> headerMatchers.

Definition buildRouteHashPolicy (hashPolicy : HashPolicy) : result EnvoyHashPolicy :=
  let policy s := Ok (mkEnvoyHashPolicy (NullBool_Bool (HashPolicy_Terminal hashPolicy)) s) in
  if nonempty (HashPolicy_HeaderName hashPolicy) then policy (HashPolicy_Header (HashPolicy_HeaderName hashPolicy))
  else if nonempty (HashPolicy_CookieName hashPolicy)
  then policy (HashPolicy_Cookie (HashPolicy_CookieName hashPolicy)
         (if NullInt_Valid (HashPolicy_CookieTTL hashPolicy)
          then Some (mkDuration (NullInt_Int64 (HashPolicy_CookieTTL hashPolicy)) 0) else None)
         (HashPolicy_CookiePath hashPolicy))
  else if nonempty (HashPolicy_QueryParamName hashPolicy)
  then policy (HashPolicy_QueryParameter (HashPolicy_QueryParamName hashPolicy))
  else if NullBool_Valid (HashPolicy_QueryParamSourceIP hashPolicy)
  then policy (HashPolicy_ConnectionProperties (NullBool_Bool (HashPolicy_QueryParamSourceIP hashPolicy)))
  else Err (ErrMsg "routeconfig: can't create route action hash policy without header, cookie, queryParameter or connectionProperties settings").
Definition sortHashPolicies (hashPolicy : list HashPolicy) : list HashPolicy :=
  SliceStable (fun a _ => NullBool_Bool (HashPolicy_Terminal a)) hashPolicy.
Definition buildRouteRetryPolicy (p : RetryPolicy) : EnvoyRetryPolicy := {|
  EnvoyRetryPolicy_RetryOn := RetryPolicy_RetryOn p;
  EnvoyRetryPolicy_NumRetries := RetryPolicy_NumRetries p;
  EnvoyRetryPolicy_PerTryTimeout := MillisToDuration (RetryPolicy_PerTryTimeout p);
  EnvoyRetryPolicy_HostSelectionRetryMaxAttempts := RetryPolicy_HostSelectionRetryMaxAttempts p;
  EnvoyRetryPolicy_RetriableStatusCodes := RetryPolicy_RetriableStatusCodes p;
  EnvoyRetryPolicy_RetryBackOff :=
    (fun b => (MillisToDuration (RetryBackOff_BaseInterval b), MillisToDuration (RetryBackOff_MaxInterval b)))
      <$> RetryPolicy_RetryBackOff p
|}.
Definition buildRateLimitAction (rateLimitName : string) : list EnvoyRateLimit :=
  [mkEnvoyRateLimit [("rate_limit_name", rateLimitName)]].

(** How a kind of gateway builds routes. *)
Record RouteBuilder := mkRouteBuilder {
  RouteBuilder_props : EnvoyProxyProperties;
  RouteBuilder_facade : bool;
  RouteBuilder_hostRewrite : bool;
  RouteBuilder_responseHeadersToRemove : list string
}.
Definition NewRouteBuilder (props : EnvoyProxyProperties) : RouteBuilder := mkRouteBuilder props false false [].
Definition NewMeshRouteBuilder (props : EnvoyProxyProperties) : RouteBuilder := mkRouteBuilder props true false [].
Definition NewEgressRouteBuilder (props : EnvoyProxyProperties) : RouteBuilder := mkRouteBuilder props true true [].

(** The later assignment wins. *)
Definition path_specifier (route : Route) : option PathSpecifier :=
  if nonempty (Route_Regexp route) then Some (RouteMatch_SafeRegex (Route_Regexp route))
  else if nonempty (Route_Path route) then Some (RouteMatch_Path (Route_Path route))
  else if nonempty (Route_Prefix route) then Some (RouteMatch_Prefix (Route_Prefix route))
  else None.
Definition host_rewrite (b : RouteBuilder) (route : Route) : option HostRewriteSpecifier :=
  if nonempty (Route_HostRewriteLiteral route) then Some (RouteAction_HostRewriteLiteral (Route_HostRewriteLiteral route))
  else if negb (RouteBuilder_facade b) || RouteBuilder_hostRewrite b
  then if nonempty (Route_HostRewrite route) then Some (RouteAction_HostRewriteLiteral (Route_HostRewrite route))
       else if NullBool_Valid (Route_HostAutoRewrite route)
       then Some (RouteAction_AutoHostRewrite (NullBool_Bool (Route_HostAutoRewrite route)))
       else None
  else None.
(** A timeout that is set and not negative. *)
Definition given_timeout (t : NullInt) : option Duration :=
  if NullInt_Valid t && (0 <=? NullInt_Int64 t)%Z
  then Some (durationpb_New (times_unit (NullInt_Int64 t) nanos_per_milli)) else None.
Definition route_timeout (b : RouteBuilder) (route : Route) : Duration :=
  match given_timeout (Route_Timeout route) with
  | Some t => t
  | None => durationpb_New (GetTimeout (RouteBuilder_props b))
  end.

Section route_builder.
Context `{Pb : Protobuf}.

(** The map of the session is replaced by the one of the Lua filter. *)
Definition route_filter_config (route : Route) : result (gmap string Any) :=
  result_bind
    match Route_StatefulSession route with
    | Some s => result_bind (BuildStatefulSessionPerRoute s) (fun c => Ok {["envoy.filters.http.stateful_session" := c]})
    | None => Ok ∅
    end
    (fun config =>
       match Route_LuaFilter route with
       | Some f => result_bind (BuildLuaFilterPerRoute f) (fun c => Ok {["envoy.filters.http.lua" := c]})
       | None => Ok config
       end).
Definition route_action (b : RouteBuilder) (route : Route) : result EnvoyRouteAction :=
  result_bind (map_result buildRouteHashPolicy (sortHashPolicies (Route_HashPolicies route))) (fun hashPolicies =>
  Ok {|
    EnvoyRouteAction_Cluster := ReplaceDotsByUnderscore (Route_ClusterName route);
    EnvoyRouteAction_HashPolicy := hashPolicies;
    EnvoyRouteAction_RetryPolicy := buildRouteRetryPolicy <$> Route_RetryPolicy route;
    EnvoyRouteAction_PrefixRewrite := Route_PrefixRewrite route;
    EnvoyRouteAction_RegexRewrite :=
      if nonempty (Route_RegexpRewrite route) then Some (Route_Regexp route, Route_RegexpRewrite route) else None;
    EnvoyRouteAction_HostRewrite := host_rewrite b route;
    EnvoyRouteAction_Timeout := Some (route_timeout b route);
    EnvoyRouteAction_IdleTimeout := given_timeout (Route_IdleTimeout route);
    EnvoyRouteAction_RateLimits :=
      match Route_RateLimit route with Some _ => buildRateLimitAction (Route_RateLimitId route) | None => [] end
  |}).
(** A route without a path is dropped. *)
Definition BuildRoute (b : RouteBuilder) (route : Route) : result (option (EnvoyRoute Any) * option RateLimit) :=
  match path_specifier route with
  | None => Ok (None, None)
  | Some path =>
      let envoy_route action config :=
        mkEnvoyRoute (mkEnvoyRouteMatch path (buildHeaderMatchers (Route_HeaderMatchers route))) action
          (buildHeaderOptions (Route_RequestHeadersToAdd route)) (Route_RequestHeadersToRemove route)
          (RouteBuilder_responseHeadersToRemove b) config in
      if negb (Route_DirectResponseCode route =? 0)%Z
      then Ok (Some (envoy_route (Route_DirectResponse (Route_DirectResponseCode route) None) ∅), Route_RateLimit route)
      else
        result_bind (route_action b route) (fun action =>
        result_bind (route_filter_config route) (fun config =>
        Ok (Some (envoy_route (Route_Route action) config), Route_RateLimit route)))
  end.
End route_builder.

Section build_routes.
Context `{R : Runtime} `{H : Sha256} `{E : EntityService} `{Pb : Protobuf}.

Definition load_route_relations (d : repo) (route : Route) : prog World Route :=
  ver <- FindDeploymentVersion d (Route_DeploymentVersion route) ;;
  headerMatchers <- FindHeaderMatcherByRouteId d (Route_Id route) ;;
  hashPolicies <- FindHashPolicyByRouteId d (Route_Id route) ;;
  retryPolicy <- FindRetryPolicyByRouteId d (Route_Id route) ;;
  session <- (if (Route_StatefulSessionId route =? 0)%Z then ret (Route_StatefulSession route)
              else FindStatefulSessionConfigById d (Route_StatefulSessionId route)) ;;
  rateLimit <- (if String.eqb (Route_RateLimitId route) "" then ret (Route_RateLimit route)
                else FindRateLimitByNameWithHighestPriority d (Route_RateLimitId route)) ;;
  luaFilter <- (if String.eqb (Route_LuaFilterName route) "" then ret (Route_LuaFilter route)
                else FindLuaFilterByName d (Route_LuaFilterName route)) ;;
  ret (route <| Route_DeploymentVersionVal := ver |> <| Route_HeaderMatchers := headerMatchers |>
         <| Route_HashPolicies := hashPolicies |> <| Route_RetryPolicy := retryPolicy |>
         <| Route_StatefulSession := session |> <| Route_RateLimit := rateLimit |> <| Route_LuaFilter := luaFilter |>).
Definition loadRouteRelations (d : repo) (routes : list Route) : prog World (list Route) :=
  map_each routes (load_route_relations d).
(** One prepared route: the envoy routes and the rate limits so far. *)
Definition build_prepared (b : RouteBuilder) (acc : list (EnvoyRoute Any) * gmap string RateLimit) (route : Route) :
    prog World (list (EnvoyRoute Any) * gmap string RateLimit) :=
  stage <- route_stage route ;;
  if String.eqb stage "ARCHIVED" then ret acc
  else
    built <- lift (BuildRoute b route) ;;
    ret match built with
        | (None, _) => acc
        | (Some envoyRoute, None) => ((acc.1 ++ [envoyRoute])%list, acc.2)
        | (Some envoyRoute, Some rateLimit) =>
            ((acc.1 ++ [envoyRoute])%list,
             match acc.2 !! RateLimit_Name rateLimit with
             | Some _ => acc.2
             | None => <[RateLimit_Name rateLimit := rateLimit]> acc.2
             end)
        end.
Definition BuildRoutes (d : repo) (b : RouteBuilder) (routes : list Route) :
    prog World (list (EnvoyRoute Any) * gmap string RateLimit) :=
  routes <- loadRouteRelations d routes ;;
  preparedRoutes <- DefaultRoutePreparer d routes ;;
  fold_each preparedRoutes ([], ∅) (build_prepared b).
End build_routes.
