(* ===== verification/EnvoyVirtualHosts.v ===== *)
(** The builders of virtual hosts ([envoy/cache/builder/routeconfig]: mesh,
    gateway, ingress, egress): domains, routes, the filters of a virtual host,
    and the headers it adds and removes. *)
From S2P Require Import Prelude GoLib Domain RouteKey Tables MemDb Msaddr Events RegCommon Runtime Dao Entity Util.
From S2P Require Import EnvoyApi EnvoyProps EnvoyRoutes.
Open Scope string_scope.

(** [strings.Replace(s, old, new, 1)] *)
Definition replace_first (s old new : string) : string :=
  match strings_Index s old with
  | Some i => str_take i s ++ new ++ str_drop (i + String.length old) s
  | None => s
  end.

(** [VersionAliasesProvider]: the aliases of the versions as JSON. *)
Class VersionAliasesProvider `{R : Runtime} : Type := { GetVersionAliases : prog World string }.

(** * Filters of a virtual host ([virtualhost.go]) *)

Definition convert_origin (trimmedString : string) : string :=
  strings_ReplaceAll (strings_ReplaceAll (strings_ReplaceAll trimmedString "." "\.") "*" "(?:.*)")
    ":(?:.*)" "(?:(?::\d*))*".
Definition convertOrigins (origins : string) : list string :=
  flat_map (fun origin => let trimmed := strings_TrimSpace origin in
                          if String.eqb trimmed "" then [] else [convert_origin trimmed])
    (strings_Split origins ",").

Definition math_MaxUint32 : Z := 2 ^ 32 - 1.
Definition per_second (tokens : Z) : TokenBucket := mkTokenBucket tokens tokens (MillisToDuration 1000).

Section filters.
Context `{R : Runtime} `{E : EntityService} `{Pb : Protobuf}.

Definition buildRateLimitFilter (vHostName : string) (vHostRateLimit : option RateLimit)
    (routeRateLimits : gmap string RateLimit) : prog World Any :=
  let rateLimitName := match vHostRateLimit with None => vHostName ++ "-ratelimit" | Some r => RateLimit_Name r end in
  limits <- range (map_to_list routeRateLimits).*2 ;;
  lift (MarshalAny (MsgLocalRateLimit {|
    LocalRateLimit_StatPrefix := rateLimitName ++ "-stat";
    LocalRateLimit_FilterEnabled := Some (mkFractionalPercent 100 (rateLimitName ++ "_enabled"));
    LocalRateLimit_FilterEnforced := Some (mkFractionalPercent 100 (rateLimitName ++ "_enforced"));
    LocalRateLimit_Descriptors :=
      (fun l => ("rate_limit_name", RateLimit_Name l, per_second (RateLimit_LimitRequestsPerSecond l))) <$> limits;
    LocalRateLimit_TokenBucket :=
      Some (per_second match vHostRateLimit with
                       | Some r => RateLimit_LimitRequestsPerSecond r
                       | None => math_MaxUint32
                       end)
  |})).
Definition buildTypedPerFilterConfig (virtualHost : VirtualHost) (routeRateLimits : gmap string RateLimit)
    (buildExtAuthz : prog World (option Any)) (corsPolicy : option Any) : prog World (gmap string Any) :=
  extAuthz <- buildExtAuthz ;;
  let filterConfigs : gmap string Any :=
    match extAuthz with Some c => {["envoy.filters.http.ext_authz" := c]} | None => ∅ end in
  filterConfigs <- (if bool_decide (VirtualHost_RateLimit virtualHost = None) && bool_decide (routeRateLimits = ∅)
                    then ret filterConfigs
                    else filter <- buildRateLimitFilter (VirtualHost_Name virtualHost) (VirtualHost_RateLimit virtualHost)
                                     routeRateLimits ;;
                         ret (<["envoy.filters.http.local_ratelimit" := filter]> filterConfigs)) ;;
  ret match corsPolicy with
      | Some c => <["envoy.filters.http.cors" := c]> filterConfigs
      | None => filterConfigs
      end.
(** A failure to find the listeners is dropped. *)
Definition buildCustomExtAuthzPerRoute (d : repo) (routeConfig : RouteConfiguration) : prog World (option Any) :=
  listeners <- or_nil (FindListenersByRouteConfiguration d (Some routeConfig)) ;;
  contextExtensions <- fold_each listeners (∅ : gmap string string) (fun contextExtensions listener =>
    extAuthzFilter <- FindExtAuthzFilterByNodeGroup d (Listener_NodeGroupId listener) ;;
    ret match extAuthzFilter with
        | Some f => ExtAuthzFilter_ContextExtensions f ∪ contextExtensions
        | None => contextExtensions
        end) ;;
  if bool_decide (contextExtensions = ∅) then ret None
  else any <- lift (MarshalAny (MsgExtAuthzPerRoute contextExtensions)) ;; ret (Some any).

Definition load_rate_limit (d : repo) (virtualHost : VirtualHost) : prog World VirtualHost :=
  if String.eqb (VirtualHost_RateLimitId virtualHost) "" then ret virtualHost
  else rateLimit <- FindRateLimitByNameWithHighestPriority d (VirtualHost_RateLimitId virtualHost) ;;
       ret (virtualHost <| VirtualHost_RateLimit := rateLimit |>).
End filters.

Definition allow_origin : HeaderValueOption :=
  mkHeaderValueOption "Access-Control-Allow-Origin"
    "%DYNAMIC_METADATA(envoy.filters.http.ext_authz:access.control.allow.origin)%".

(** * Gateways: public, private and internal, ingress, egress *)

Inductive VirtualHostBuilderExt := gatewayVhBuilderExt (compositeSatellite : bool) | ingressVirtualHostBuilderExt | egressVirtualHostBuilderExt.

Record GatewayVirtualHostBuilder := mkGatewayVirtualHostBuilder {
  Gw_routeBuilder : RouteBuilder;
  Gw_origins : string;
  Gw_allowedHeaders : string;
  Gw_maxAge : string;
  Gw_builderExt : VirtualHostBuilderExt;
  Gw_namespace : string;
  Gw_responseHeadersToRemove : list string
}.
Definition commonHeadersToRemove : list string :=
  ["X-Forwarded-For"; "X-Forwarded-Proto"; "X-Forwarded-Host"; "X-Forwarded-Port"; "Via"; "X-Real-IP"].

Section new_builders.
Context `{C : Configuration}.

Definition new_gateway_builder (routeBuilder : RouteBuilder) (ext : VirtualHostBuilderExt) (namespace : string)
    (responseHeadersToRemove : list string) : GatewayVirtualHostBuilder := {|
  Gw_routeBuilder := routeBuilder;
  Gw_origins := env_or "GATEWAYS_ALLOWED_ORIGIN" "*";
  Gw_allowedHeaders := env_or "GATEWAYS_ALLOWED_HEADERS" "*";
  Gw_maxAge := env_or "GATEWAYS_ACCESS_CONTROL_MAX_AGE" "-1";
  Gw_builderExt := ext;
  Gw_namespace := namespace;
  Gw_responseHeadersToRemove := responseHeadersToRemove
|}.
Definition NewGatewayVirtualHostBuilder (routeBuilder : RouteBuilder) : GatewayVirtualHostBuilder :=
  let compositePlatform :=
    match os_LookupEnv "COMPOSITE_PLATFORM" with
    | Some v => strings_EqualFold (strings_TrimSpace v) "true"
    | None => false
    end in
  new_gateway_builder routeBuilder (gatewayVhBuilderExt compositePlatform)
    (GetOrDefaultString "microservice.namespace" "") ["server"].
Definition NewIngressVirtualHostBuilder (routeBuilder : RouteBuilder) : GatewayVirtualHostBuilder :=
  new_gateway_builder routeBuilder ingressVirtualHostBuilderExt "" ["server"].
Definition NewEgressVirtualHostBuilder (routeBuilder : RouteBuilder) : GatewayVirtualHostBuilder :=
  new_gateway_builder routeBuilder egressVirtualHostBuilderExt (GetOrDefaultString "microservice.namespace" "")
    ("server" :: match os_LookupEnv "EGRESS_RESPONSE_HEADERS_TO_REMOVE" with
                 | Some value => strings_Split value ", "
                 | None => commonHeadersToRemove
                 end).

Definition EnrichHeadersToRemove (ext : VirtualHostBuilderExt) (headersToRemove : list string) : list string :=
  match ext with
  | gatewayVhBuilderExt true | ingressVirtualHostBuilderExt => headersToRemove
  | gatewayVhBuilderExt false => (headersToRemove ++ ["X-Token-Signature"])%list
  | egressVirtualHostBuilderExt =>
      "X-Token-Signature" :: (match os_LookupEnv "EGRESS_REQUEST_HEADERS_TO_REMOVE" with
                              | Some value => strings_Split value ", "
                              | None => commonHeadersToRemove
                              end ++ headersToRemove)%list
  end.
End new_builders.

Section virtual_hosts.
Context `{R : Runtime} `{H : Sha256} `{E : EntityService} `{Pb : Protobuf} `{C : Configuration}
  `{A : !VersionAliasesProvider (R := R)} `{T : TlsMode}.

Definition role_name (name : string) : string :=
  if strings_HasPrefix name "public-gateway-service" then "public-gateway-service"
  else if strings_HasPrefix name "private-gateway-service" then "private-gateway-service"
  else name.
Definition BuildExtAuthzPerRoute (d : repo) (b : GatewayVirtualHostBuilder) (routeConfig : RouteConfiguration)
    (virtualHost : VirtualHost) : prog World (option Any) :=
  match Gw_builderExt b with
  | gatewayVhBuilderExt _ =>
      let contextExtensions : gmap string string :=
        {["role" := role_name (VirtualHost_Name virtualHost)]}
        ∪ {["cors.allowed_origins" := Gw_origins b]} ∪ {["cors.allowed_headers" := Gw_allowedHeaders b]}
        ∪ {["cors.max_age" := Gw_maxAge b]} in
      contextExtensions <- (if BlueGreen1
                            then aliases <- GetVersionAliases ;; ret (<["aliases" := aliases]> contextExtensions)
                            else ret contextExtensions) ;;
      any <- lift (MarshalAny (MsgExtAuthzPerRoute contextExtensions)) ;; ret (Some any)
  | _ => buildCustomExtAuthzPerRoute d routeConfig
  end.
Definition buildCorsPolicy (virtualHost : VirtualHost) (b : GatewayVirtualHostBuilder) : result Any :=
  MarshalAny (MsgCorsPolicy {|
    CorsPolicy_MaxAge := Gw_maxAge b;
    CorsPolicy_AllowOriginStringMatch := convertOrigins (Gw_origins b);
    CorsPolicy_AllowCredentials := true;
    CorsPolicy_AllowHeaders := Gw_allowedHeaders b;
    CorsPolicy_AllowMethods := "OPTIONS, HEAD, GET, PUT, POST, DELETE, PATCH";
    CorsPolicy_FilterEnabled := mkFractionalPercent 100 ("cors." ++ VirtualHost_Name virtualHost ++ ".enabled");
    CorsPolicy_ShadowEnabled := mkFractionalPercent 0 ("cors." ++ VirtualHost_Name virtualHost ++ ".shadow_enabled")
  |}).
Definition namespace_route (b : GatewayVirtualHostBuilder) : EnvoyRoute Any :=
  mkEnvoyRoute (mkEnvoyRouteMatch (RouteMatch_Prefix "/api/v3/control-plane/namespace") [])
    (Route_DirectResponse 200 (Some (Gw_namespace b))) [] [] [] ∅.
Definition gateway_virtual_host (d : repo) (b : GatewayVirtualHostBuilder) (routeConfig : RouteConfiguration)
    (virtualHost : VirtualHost) : prog World (EnvoyVirtualHost Any) :=
  domains <- FindVirtualHostDomainByVirtualHostId d (VirtualHost_Id virtualHost) ;;
  virtualHost <- load_rate_limit d virtualHost ;;
  let virtualHost : VirtualHost := virtualHost in
  routes <- FindRoutesByVirtualHostId d (VirtualHost_Id virtualHost) ;;
  built <- BuildRoutes d (Gw_routeBuilder b) routes ;;
  let envoyRoutes :=
    if String.eqb (RouteConfiguration_NodeGroupId routeConfig) "private-gateway-service"
    then (built.1 ++ [namespace_route b])%list else built.1 in
  corsPolicy <- lift (buildCorsPolicy virtualHost b) ;;
  typedPerFilterConfig <- buildTypedPerFilterConfig virtualHost built.2
                            (BuildExtAuthzPerRoute d b routeConfig virtualHost) (Some corsPolicy) ;;
  ret {|
    EnvoyVirtualHost_Name := VirtualHost_Name virtualHost;
    EnvoyVirtualHost_Domains := VirtualHostDomain_Domain <$> (domains : list VirtualHostDomain);
    EnvoyVirtualHost_Routes := envoyRoutes;
    EnvoyVirtualHost_RequestHeadersToAdd := buildHeaderOptions (VirtualHost_RequestHeadersToAdd virtualHost);
    EnvoyVirtualHost_RequestHeadersToRemove :=
      EnrichHeadersToRemove (Gw_builderExt b) (VirtualHost_RequestHeadersToRemove virtualHost);
    EnvoyVirtualHost_ResponseHeadersToAdd :=
      [mkHeaderValueOption "X-Content-Type-Options" "nosniff"; allow_origin; mkHeaderValueOption "X-XSS-Protection" "0"];
    EnvoyVirtualHost_ResponseHeadersToRemove := Gw_responseHeadersToRemove b;
    EnvoyVirtualHost_TypedPerFilterConfig := typedPerFilterConfig
  |}.

(** * Mesh *)

(** The loop that adds the TLS domains ranges over the domains it started
    with. *)
Definition getDomains (d : repo) (virtualHostId : Z) : prog World (list string) :=
  domains <- FindVirtualHostDomainByVirtualHostId d virtualHostId ;;
  let names := VirtualHostDomain_Domain <$> (domains : list VirtualHostDomain) in
  let domainMap : gset string := list_to_set names in
  let domainMap :=
    if tls_preferred
    then domainMap ∪ list_to_set ((fun key => replace_first key ":8080" ":8443")
                                    <$> List.filter (fun key => strings_Contains key ":8080") names)
    else domainMap in
  range (elements domainMap).
Definition mesh_virtual_host (d : repo) (b : RouteBuilder) (routeConfig : RouteConfiguration) (virtualHost : VirtualHost) :
    prog World (EnvoyVirtualHost Any) :=
  domainStrings <- getDomains d (VirtualHost_Id virtualHost) ;;
  routes <- FindRoutesByVirtualHostId d (VirtualHost_Id virtualHost) ;;
  built <- BuildRoutes d b routes ;;
  virtualHost <- load_rate_limit d virtualHost ;;
  let virtualHost : VirtualHost := virtualHost in
  typedPerFilterConfig <- buildTypedPerFilterConfig virtualHost built.2 (buildCustomExtAuthzPerRoute d routeConfig) None ;;
  ret {|
    EnvoyVirtualHost_Name := VirtualHost_Name virtualHost;
    EnvoyVirtualHost_Domains := domainStrings;
    EnvoyVirtualHost_Routes := built.1;
    EnvoyVirtualHost_RequestHeadersToAdd := buildHeaderOptions (VirtualHost_RequestHeadersToAdd virtualHost);
    EnvoyVirtualHost_RequestHeadersToRemove := VirtualHost_RequestHeadersToRemove virtualHost;
    EnvoyVirtualHost_ResponseHeadersToAdd := [allow_origin];
    EnvoyVirtualHost_ResponseHeadersToRemove := ["server"];
    EnvoyVirtualHost_TypedPerFilterConfig := typedPerFilterConfig
  |}.

Inductive VirtualHostBuilder := MeshBuilder (b : RouteBuilder) | GatewayBuilder (b : GatewayVirtualHostBuilder).
Definition BuildVirtualHosts (d : repo) (builder : VirtualHostBuilder) (routeConfig : RouteConfiguration) :
    prog World (list (EnvoyVirtualHost Any)) :=
  map_each (RouteConfiguration_VirtualHosts routeConfig) (fun virtualHost =>
    match builder with
    | MeshBuilder b => mesh_virtual_host d b routeConfig virtualHost
    | GatewayBuilder b => gateway_virtual_host d b routeConfig virtualHost
    end).
End virtual_hosts.
