(* ===== verification/Tls.v ===== *)
(** TLS configurations: the validation of certificates ([util/tls]), and the
    service that saves and finds the configurations ([services/tls]).  PEM,
    X.509 and key pairs are Go's packages: parameters. *)
From S2P Require Import Prelude GoLib Domain Tables MemDb Msaddr Events Runtime Dao Entity Util.
Open Scope string_scope.

(** [pem.Decode]: the type and the bytes of the first block, and the rest;
    whether the bytes are a certificate, a private key of a kind; whether a
    certificate and a key are a pair. *)
Class Certificates : Type := {
  pem_Decode : string -> option (string * string * string);
  x509_ParseCertificate : string -> bool;
  x509_ParsePKCS1PrivateKey : string -> bool;
  x509_ParsePKCS8PrivateKey : string -> bool;
  x509_ParseECPrivateKey : string -> bool;
  tls_X509KeyPair : string -> string -> bool
}.

(** * Validation ([util/tls/validator.go]) *)

Definition nl : string := String (Ascii.ascii_of_nat 10) "".
Definition cr : string := String (Ascii.ascii_of_nat 13) "".
Definition certStart := "-----BEGIN CERTIFICATE-----" ++ nl.
Definition certEnd := nl ++ "-----END CERTIFICATE-----".

(** The separator [-\n-] is put back: its first dash ends a part, its last one
    starts the next. *)
Fixpoint restore_dashes (first : bool) (parts : list string) : list string :=
  match parts with
  | [] => []
  | [last] => [if first then last else "-" ++ last]
  | part :: rest => ((if first then part else "-" ++ part) ++ "-") :: restore_dashes false rest
  end.
Definition splitPemCerts (pemCerts : string) : list string :=
  restore_dashes true (strings_Split (strings_ReplaceAll pemCerts (cr ++ nl) nl) ("-" ++ nl ++ "-")).

Section validator.
Context `{Certificates}.

(** A part that is a certificate, or what is wrong with it. *)
Definition check_cert (pemCert : string) : option string :=
  if negb (strings_HasPrefix pemCert certStart) || negb (strings_HasSuffix pemCert certEnd) then Some "wrong cert format"
  else match pem_Decode pemCert with
       | None => Some "failed to decode PEM format for cert"
       | Some (_, bytes, _) => if x509_ParseCertificate bytes then None else Some "failed to parse certificate"
       end.
(** The valid certificates and, when some are not, an error: the pair. *)
Definition TryToDecodePemAndParseX509Certificates (pemCerts : string) : string * option error :=
  if String.eqb pemCerts "" then ("", None)
  else
    let parts := splitPemCerts pemCerts in
    match omap check_cert parts with
    | [] => (pemCerts, None)
    | errs => (String.concat "" ((fun c => c ++ nl) <$> List.filter (fun c => bool_decide (check_cert c = None)) parts),
               Some (ErrMsg (strings_Join errs nl)))
    end.
Definition TryToDecodePemAndParseX509PrivateKey (pemPrivateKey : string) : option error :=
  if String.eqb pemPrivateKey "" then None
  else if negb (strings_HasPrefix pemPrivateKey "-----BEGIN") || negb (strings_HasSuffix pemPrivateKey "KEY-----")
  then Some (ErrMsg "wrong private key format")
  else
    match pem_Decode pemPrivateKey with
    | Some (type, bytes, rest) =>
        if nonempty rest then Some (ErrMsg "failed to decode PEM format for private key")
        else
          let parsed :=
            if strings_EqualFold type "RSA PRIVATE KEY" then x509_ParsePKCS1PrivateKey bytes
            else if strings_EqualFold type "PRIVATE KEY" then x509_ParsePKCS8PrivateKey bytes
            else if strings_EqualFold type "EC PRIVATE KEY" then x509_ParseECPrivateKey bytes
            else true in
          if parsed then None else Some (ErrMsg "failed to parse private key")
    | None => Some (ErrMsg "failed to decode PEM format for private key")
    end.
Definition TryToValidateX509PrivateKeyClientCertPair (pemPrivateKey pemCerts : string) : string * option error :=
  if String.eqb pemPrivateKey "" || String.eqb pemCerts "" then ("", None)
  else
    let '(validCerts, err) := TryToDecodePemAndParseX509Certificates pemCerts in
    match TryToDecodePemAndParseX509PrivateKey pemPrivateKey with
    | Some e => ("", Some e)
    | None =>
        let parts := splitPemCerts validCerts in
        let matching := List.filter (fun c => tls_X509KeyPair c pemPrivateKey) parts in
        if bool_decide (err = None) && (length matching =? length parts)%nat then (pemCerts, None)
        else (String.concat "" ((fun c => c ++ nl) <$> matching),
              Some (ErrMsg "private key does not match with provided client certificate"))
    end.
Definition GetTlsWithCertificatesValidation (pemTrustedCA pemCerts pemPrivateKey : string) : result unit :=
  match (TryToDecodePemAndParseX509Certificates pemTrustedCA).2 with
  | Some e => Err e
  | None =>
      match (TryToValidateX509PrivateKeyClientCertPair pemPrivateKey pemCerts).2 with
      | Some e => Err e
      | None => Ok tt
      end
  end.
End validator.

(** * The service ([services/tls/service.go]) *)

Record Tls := mkTls {
  Tls_Enabled : bool;
  Tls_Insecure : bool;
  Tls_TrustedCA : string;
  Tls_ClientCert : string;
  Tls_PrivateKey : string;
  Tls_SNI : string
}.
Record TlsConfigDto := mkTlsConfigDto {
  TlsConfigDto_Name : string;
  TlsConfigDto_TrustedForGateways : list string;
  TlsConfigDto_Tls : option Tls;
  TlsConfigDto_Overridden : bool
}.
Definition convertToNodeGroups (nodeGroups : list string) : list (option NodeGroup) :=
  (fun ng => Some (mkNodeGroup ng "" false)) <$> nodeGroups.
Definition ConvertTLSToDomain (config : TlsConfigDto) (tls : Tls) : TlsConfig :=
  mkTlsConfig 0 (convertToNodeGroups (TlsConfigDto_TrustedForGateways config)) (TlsConfigDto_Name config)
    (Tls_Enabled tls) (Tls_Insecure tls) (Tls_TrustedCA tls) (Tls_ClientCert tls) (Tls_PrivateKey tls) (Tls_SNI tls).
(** [tlsDefResource.Validate]: [None] is valid. *)
Definition validate_resource (config : TlsConfigDto) : option string :=
  if String.eqb (TlsConfigDto_Name config) "" then Some "spec.name is mandatory"
  else match TlsConfigDto_TrustedForGateways config with
       | [] | ["egress-gateway"] => None
       | _ => Some "global TLS supported only for egress-gateway"
       end.

Section service.
Context `{R : Runtime} `{E : EntityService} `{K : Certificates}.

Definition updateEnvoyConfigVersionByNodeGroups (dao : repo) (nodeGroupsToUpdate : list string) : prog World unit :=
  for_each nodeGroupsToUpdate (fun nodeGroupId => GenerateAndSave dao nodeGroupId ClusterTable).
Definition publish_node_groups (nodeGroups : list string) (changes : list Change) : prog World unit :=
  for_each nodeGroups (fun nodeGroup => Publish TopicChanges (NewChangeEventByNodeGroup nodeGroup changes)).

Definition delete_tls_payload (name : string) : prog World (list string) :=
  existing <- FindTlsConfigByName InTx name ;;
  match existing with
  | None => ret []
  | Some existing =>
      nodeGroupsToUpdate <- map_each (TlsConfig_NodeGroups existing) (fun nodeGroup =>
        nodeGroup <- deref nodeGroup ;;
        DeleteTlsConfigByIdAndNodeGroupName InTx (mkTlsConfigsNodeGroups (TlsConfig_Id existing) (NodeGroup_Name nodeGroup)) ;;;
        ret (NodeGroup_Name nodeGroup)) ;;
      DeleteTlsConfigById InTx (TlsConfig_Id existing) ;;;
      updateEnvoyConfigVersionByNodeGroups InTx nodeGroupsToUpdate ;;;
      ret nodeGroupsToUpdate
  end.
Definition deleteTlsConfig (tls : TlsConfigDto) : prog World unit :=
  committed <- WithWTxVal (delete_tls_payload (TlsConfigDto_Name tls)) ;;
  publish_node_groups committed.1 committed.2.

Definition createNodeGroupsIfNotExists (dao : repo) (gateways : list string) : prog World unit :=
  for_each gateways (fun nodeGroupId =>
    nodeGroup <- FindNodeGroupByName dao nodeGroupId ;;
    match nodeGroup with
    | None => SaveNodeGroup dao (mkNodeGroup nodeGroupId "" false)
    | Some _ => ret tt
    end).
Definition createOrSaveTlsConfig (dao : repo) (config : TlsConfigDto) (tls : Tls) : prog World TlsConfig :=
  foundTlsConfig <- FindTlsConfigByName dao (TlsConfigDto_Name config) ;;
  let tlsConfigToSave := ConvertTLSToDomain config tls in
  SaveTlsConfig dao match foundTlsConfig with
                    | Some found => tlsConfigToSave <| TlsConfig_Id := TlsConfig_Id found |>
                    | None => tlsConfigToSave
                    end.
Definition getAllNodeGroupsForTlsConfig (dao : repo) (tlsConfig : TlsConfig) : prog World (list string) :=
  clusters <- FindAllClusters dao ;;
  fold_each clusters [] (fun nodeGroups cluster =>
    if (Cluster_TLSId cluster =? TlsConfig_Id tlsConfig)%Z
    then ngs <- FindNodeGroupsByCluster dao cluster ;;
         names <- map_each ngs (fun ng => ng <- deref ng ;; ret (NodeGroup_Name ng)) ;;
         ret (nodeGroups ++ names)%list
    else ret nodeGroups).

(** The payload of the transaction and what it leaves in [nodeGroupsToUpdate],
    the variable it captures: the names are added before the last step. *)
Definition save_tls_steps (config : TlsConfigDto) (tls : Tls) : prog World (list string) :=
  createNodeGroupsIfNotExists InTx (TlsConfigDto_TrustedForGateways config) ;;;
  savedTlsConfig <- createOrSaveTlsConfig InTx config tls ;;
  more <- getAllNodeGroupsForTlsConfig InTx savedTlsConfig ;;
  ret (TlsConfigDto_TrustedForGateways config ++ more)%list.
Definition save_tls_payload (config : TlsConfigDto) (tls : Tls) : prog World unit :=
  nodeGroupsToUpdate <- save_tls_steps config tls ;;
  updateEnvoyConfigVersionByNodeGroups InTx nodeGroupsToUpdate.
Definition captured_node_groups (config : TlsConfigDto) (tls : Tls) (w : World) : list string :=
  if w_writer w then TlsConfigDto_TrustedForGateways config
  else match save_tls_steps config tls (set_writer true (set_tx (Some (txn_track_changes (w_db w), true)) w)) with
       | (Ok nodeGroups, _) => nodeGroups
       | _ => TlsConfigDto_TrustedForGateways config
       end.
Definition invalid_tls (tls : Tls) : option error :=
  if Tls_Enabled tls && negb (Tls_Insecure tls)
  then if String.eqb (Tls_TrustedCA tls) ""
       then Some (ErrMsg "TlsDef must be insecure or must contain non-empty trustedCA")
       else if xorb (nonempty (Tls_ClientCert tls)) (nonempty (Tls_PrivateKey tls))
       then Some (ErrMsg "TlsDef for mTLS must contain both non-empty clientCert and privateKey")
       else None
  else None.
Definition trimmed_tls (tls : Tls) : Tls :=
  mkTls (Tls_Enabled tls) (Tls_Insecure tls) (strings_TrimSpace (Tls_TrustedCA tls))
    (strings_TrimSpace (Tls_ClientCert tls)) (strings_TrimSpace (Tls_PrivateKey tls)) (Tls_SNI tls).
(** The error of the transaction is not looked at before the changes are
    announced, and every announcement overwrites it. *)
Definition save_and_publish (config : TlsConfigDto) (tls : Tls) : prog World unit :=
  nodeGroupsToUpdate <- gets (captured_node_groups config tls) ;;
  fun w =>
    match WithWTx (save_tls_payload config tls) w with
    | (Panic p, w') => (Panic p, w')
    | (Ok changes, w') => publish_node_groups nodeGroupsToUpdate changes w'
    | (Err e, w') =>
        match nodeGroupsToUpdate with
        | [] => (Err e, w')
        | _ => publish_node_groups nodeGroupsToUpdate [] w'
        end
    end.
Definition SaveTlsConfig_ (config : TlsConfigDto) : prog World unit :=
  match TlsConfigDto_Tls config with
  | None => deleteTlsConfig config
  | Some tls =>
      match invalid_tls tls with
      | Some e => fail e
      | None =>
          let tls := trimmed_tls tls in
          lift (GetTlsWithCertificatesValidation (Tls_TrustedCA tls) (Tls_ClientCert tls) (Tls_PrivateKey tls)) ;;;
          save_and_publish config tls
      end
  end.

(** [GetGlobalTlsConfigs]: the configurations of the gateways of a cluster, each
    once (a map from the stored objects, which differ by id). *)
Definition add_config (found : list TlsConfig) (tc : TlsConfig) : list TlsConfig :=
  if existsb (fun x => TlsConfig_Id x =? TlsConfig_Id tc)%Z found then found else (found ++ [tc])%list.
Definition GetGlobalTlsConfigs (d : repo) (cluster : Cluster) (affectedNodeGroups : list string) : prog World (list TlsConfig) :=
  nodeGroups <- FindNodeGroupsByCluster d cluster ;;
  tlsConfigs <- fold_each nodeGroups [] (fun tlsConfigs nodeGroup =>
    nodeGroup <- deref nodeGroup ;;
    if negb (length affectedNodeGroups =? 0)%nat && negb (SliceContains affectedNodeGroups [NodeGroup_Name nodeGroup])
    then ret tlsConfigs
    else
      byNodeGroup <- FindAllTlsConfigsByNodeGroup d (NodeGroup_Name nodeGroup) ;;
      fold_each byNodeGroup tlsConfigs (fun tlsConfigs tc => tc <- deref tc ;; ret (add_config tlsConfigs tc))) ;;
  range tlsConfigs.
End service.
