(* ===== verification/EnvoyClusters.v ===== *)
(** [envoy/cache/builder/cluster]: from a cluster of the control plane to one of
    Envoy, with its endpoints, subsets, health checks and TLS. *)
From S2P Require Import Prelude GoLib Domain Tables MemDb Msaddr Events RegCommon Runtime Dao Entity Util Tls EnvoyApi.
From S2P Require Import EnvoyProps EnvoyRoutes.
Open Scope string_scope.

Definition ExtAuthClusterName := "ext-authz".
(** The builder of egress gateways adds TLS parameters. *)
Inductive ClusterBuilder := DefaultClusterBuilder | EgressClusterBuilder.

(** * TLS *)

Definition join_nl (a b : string) : string := strings_Join [a; b] nl.
Definition add_ca_and_cert (aggregated cluster_tls : TlsConfig) : TlsConfig :=
  let aggregated :=
    if String.eqb (TlsConfig_TrustedCA cluster_tls) "" then aggregated
    else aggregated <| TlsConfig_TrustedCA := join_nl (TlsConfig_TrustedCA aggregated) (TlsConfig_TrustedCA cluster_tls) |> in
  if String.eqb (TlsConfig_ClientCert cluster_tls) "" then aggregated
  else aggregated <| TlsConfig_ClientCert := join_nl (TlsConfig_ClientCert aggregated) (TlsConfig_ClientCert cluster_tls) |>
                  <| TlsConfig_PrivateKey := join_nl (TlsConfig_PrivateKey aggregated) (TlsConfig_PrivateKey cluster_tls) |>.
Definition mergeTlsWithClusterPriority (aggregated cluster_tls : TlsConfig) : TlsConfig :=
  let aggregated := aggregated <| TlsConfig_Enabled := TlsConfig_Enabled cluster_tls |>
                               <| TlsConfig_Insecure := TlsConfig_Insecure cluster_tls |> in
  if TlsConfig_Enabled aggregated && negb (TlsConfig_Insecure aggregated) then add_ca_and_cert aggregated cluster_tls else aggregated.
Definition mergeTlsWithGatewayPriority (aggregated cluster_tls : TlsConfig) : TlsConfig :=
  if TlsConfig_Insecure aggregated then aggregated else add_ca_and_cert aggregated cluster_tls.
Definition isDefaultTlsConfig (clusterName : string) (tls : TlsConfig) : bool :=
  let currentClusterName :=
    match strings_Index clusterName "||" with
    | Some (S i) => str_take (S i) clusterName
    | _ => clusterName
    end in
  String.eqb (TlsConfig_Name tls) (currentClusterName ++ "-tls").

Section tls.
Context `{K : Certificates} `{C : Configuration} `{T : TlsMode}.

(** What is not valid of a configuration of the cluster is left out. *)
Definition validated_tls (tls : TlsConfig) : TlsConfig :=
  let tls :=
    match TryToDecodePemAndParseX509Certificates (TlsConfig_TrustedCA tls) with
    | (validated, Some _) => tls <| TlsConfig_TrustedCA := validated |>
    | (_, None) => tls
    end in
  match TryToValidateX509PrivateKeyClientCertPair (TlsConfig_PrivateKey tls) (TlsConfig_ClientCert tls) with
  | (validated, Some _) =>
      if String.eqb validated "" then tls <| TlsConfig_PrivateKey := "" |> <| TlsConfig_ClientCert := "" |>
      else tls <| TlsConfig_ClientCert := validated |>
  | (_, None) => tls
  end.
(** The loop over the enabled configurations of the gateways: an insecure one
    ends it. *)
Fixpoint aggregate (aggregated : TlsConfig) (enabledTlsConfigs : list TlsConfig) : TlsConfig :=
  match enabledTlsConfigs with
  | [] => aggregated
  | tlsConfig :: rest =>
      let aggregated := aggregated <| TlsConfig_SNI := TlsConfig_SNI tlsConfig |> in
      if TlsConfig_Insecure tlsConfig
      then aggregated <| TlsConfig_Insecure := true |> <| TlsConfig_TrustedCA := "" |>
                      <| TlsConfig_ClientCert := "" |> <| TlsConfig_PrivateKey := "" |>
      else
        let ca := (TryToDecodePemAndParseX509Certificates (TlsConfig_TrustedCA tlsConfig)).1 in
        let aggregated :=
          if String.eqb ca "" then aggregated
          else aggregated <| TlsConfig_TrustedCA := join_nl (TlsConfig_TrustedCA aggregated) ca |> in
        let cert := (TryToValidateX509PrivateKeyClientCertPair (TlsConfig_PrivateKey tlsConfig) (TlsConfig_ClientCert tlsConfig)).1 in
        let aggregated :=
          if nonempty (TlsConfig_PrivateKey tlsConfig) && nonempty cert
          then aggregated <| TlsConfig_ClientCert := join_nl (TlsConfig_ClientCert aggregated) cert |>
                 <| TlsConfig_PrivateKey := join_nl (TlsConfig_PrivateKey aggregated) (TlsConfig_PrivateKey tlsConfig) |>
          else aggregated in
        aggregate aggregated rest
  end.
Definition propagateSni : bool :=
  match os_LookupEnv "SNI_PROPAGATION_ENABLED" with
  | Some v => strings_EqualFold (strings_TrimSpace v) "true"
  | None => false
  end.

Definition buildTrustChainVerification (insecure : bool) : TrustChainVerification :=
  if insecure then ACCEPT_UNTRUSTED else VERIFY_TRUST_CHAIN.
Definition buildTrustedCA (customCA : string) : DataSource :=
  let customCA := strings_TrimSpace customCA in
  if String.eqb customCA ""
  then DataSource_Filename (if tls_preferred then GatewayCertificatesFilePath ++ "/ca.crt"
                            else "/etc/ssl/certs/ca-certificates.crt")
  else DataSource_InlineString customCA.
Definition buildMatchTypedSubjectAltNames (cluster : Cluster) (tls : TlsConfig) : list string :=
  if tls_preferred && isDefaultTlsConfig (Cluster_Name cluster) tls
  then Endpoint_Address <$> Cluster_Endpoints cluster else [].
Definition gateway_certificate : TlsCertificate :=
  mkTlsCertificate (DataSource_Filename (GatewayCertificatesFilePath ++ "/tls.crt"))
    (DataSource_Filename (GatewayCertificatesFilePath ++ "/tls.key")).
Definition buildUpstreamTlsContext (cluster : Cluster) (tls : TlsConfig) : CommonTlsContext := {|
  CommonTlsContext_AlpnProtocols := [];
  CommonTlsContext_TlsCertificates :=
    ((if String.eqb (TlsConfig_ClientCert tls) "" then []
      else [mkTlsCertificate (DataSource_InlineString (TlsConfig_ClientCert tls)) (DataSource_InlineString (TlsConfig_PrivateKey tls))])
     ++ (if tls_preferred then [gateway_certificate] else []))%list;
  CommonTlsContext_TrustedCa := buildTrustedCA (TlsConfig_TrustedCA tls);
  CommonTlsContext_TrustChainVerification := buildTrustChainVerification (TlsConfig_Insecure tls);
  CommonTlsContext_MatchTypedSubjectAltNames := buildMatchTypedSubjectAltNames cluster tls;
  CommonTlsContext_TlsParams := None
|}.
Definition enrichUpstreamTlsContext (kind : ClusterBuilder) (c : CommonTlsContext) : CommonTlsContext :=
  match kind with
  | DefaultClusterBuilder => c
  | EgressClusterBuilder =>
      mkCommonTlsContext (CommonTlsContext_AlpnProtocols c) (CommonTlsContext_TlsCertificates c)
        (CommonTlsContext_TrustedCa c) (CommonTlsContext_TrustChainVerification c)
        (CommonTlsContext_MatchTypedSubjectAltNames c)
        (Some ("TLSv1_3", match os_LookupEnv "ECDH_CURVES" with Some value => strings_Split value "," | None => [] end))
  end.
End tls.

(** * Endpoints, health checks, resolvers *)

Section parts.
Context `{Env : Environment} `{Pb : Protobuf}.

(** An address without dots gets the namespace of the control plane. *)
Definition endpoint_address (address : string) : string :=
  if strings_Contains address LocalDevNamespacePostfix then address
  else
    match strings_Split address "." with
    | [_] => if String.eqb CurrentNamespaceAsString LocalNamespace then address
             else address ++ "." ++ CurrentNamespaceAsString ++ ".svc.cluster.local"
    | _ => address
    end.
Definition lb_endpoint (clusterName : string) (e : Endpoint) : LbEndpoint :=
  let hostname := if String.eqb (Endpoint_Hostname e) "" then None else Some (Endpoint_Hostname e) in
  mkLbEndpoint (BuildSocketAddr (endpoint_address (Endpoint_Address e)) (uint32 (Endpoint_Port e)))
    (if String.eqb clusterName ExtAuthClusterName then None else Some (Endpoint_DeploymentVersion e))
    hostname hostname.
(** A version that is not loaded is a nil dereference. *)
Fixpoint createLbEndpoints (clusterName : string) (endpoints : list Endpoint) : result (list LbEndpoint) :=
  match endpoints with
  | [] => Ok []
  | e :: rest =>
      match Endpoint_DeploymentVersionVal e with
      | None => Panic "nil pointer dereference"
      | Some dv =>
          result_bind (createLbEndpoints clusterName rest) (fun others =>
            Ok (if String.eqb (DeploymentVersion_Stage dv) "ARCHIVED" then others else lb_endpoint clusterName e :: others))
      end
  end.
Definition buildRanges (rangeMatches : list RangeMatch) : list (Z * Z) :=
  (fun r => (if NullInt_Valid (RangeMatch_Start r) then NullInt_Int64 (RangeMatch_Start r) else 0%Z,
             if NullInt_Valid (RangeMatch_End r) then NullInt_Int64 (RangeMatch_End r) else 0%Z)) <$> rangeMatches.
Definition build_http_health_check (h : HttpHealthCheck) : EnvoyHttpHealthCheck := {|
  EnvoyHttpHealthCheck_Host := HttpHealthCheck_Host h;
  EnvoyHttpHealthCheck_Path := HttpHealthCheck_Path h;
  EnvoyHttpHealthCheck_RequestHeadersToAdd := buildHeaderOptions (HttpHealthCheck_RequestHeadersToAdd h);
  EnvoyHttpHealthCheck_RequestHeadersToRemove := HttpHealthCheck_RequestHeadersToRemove h;
  EnvoyHttpHealthCheck_ExpectedStatuses := buildRanges (HttpHealthCheck_ExpectedStatuses h);
  EnvoyHttpHealthCheck_CodecClientType := CodecClientType_value (HttpHealthCheck_CodecClientType h)
|}.
Definition build_health_check (h : HealthCheck) : EnvoyHealthCheck := {|
  EnvoyHealthCheck_Timeout := MillisToDuration (HealthCheck_Timeout h);
  EnvoyHealthCheck_Interval := MillisToDuration (HealthCheck_Interval h);
  EnvoyHealthCheck_InitialJitter := MillisToDuration (HealthCheck_InitialJitter h);
  EnvoyHealthCheck_IntervalJitter := MillisToDuration (HealthCheck_IntervalJitter h);
  EnvoyHealthCheck_IntervalJitterPercent := HealthCheck_IntervalJitterPercent h;
  EnvoyHealthCheck_UnhealthyThreshold := HealthCheck_UnhealthyThreshold h;
  EnvoyHealthCheck_HealthyThreshold := HealthCheck_HealthyThreshold h;
  EnvoyHealthCheck_ReuseConnection := HealthCheck_ReuseConnection h;
  EnvoyHealthCheck_NoTrafficInterval := MillisToDuration (HealthCheck_NoTrafficInterval h);
  EnvoyHealthCheck_UnhealthyInterval := MillisToDuration (HealthCheck_UnhealthyInterval h);
  EnvoyHealthCheck_UnhealthyEdgeInterval := MillisToDuration (HealthCheck_UnhealthyEdgeInterval h);
  EnvoyHealthCheck_HealthyEdgeInterval := MillisToDuration (HealthCheck_HealthyEdgeInterval h);
  EnvoyHealthCheck_EventLogPath := HealthCheck_EventLogPath h;
  EnvoyHealthCheck_AlwaysLogHealthCheckFailures := HealthCheck_AlwaysLogHealthCheckFailures h;
  EnvoyHealthCheck_HttpHealthCheck := build_http_health_check <$> HealthCheck_HttpHealthCheck h;
  EnvoyHealthCheck_AlpnProtocols := TlsOptions_AlpnProtocols <$> HealthCheck_TlsOptions h
|}.
Definition buildHealthChecks (healthChecks : list HealthCheck) : list EnvoyHealthCheck := build_health_check <$> healthChecks.
Definition buildCommonLbConfig (c : CommonLbConfig) : EnvoyCommonLbConfig :=
  mkEnvoyCommonLbConfig (CommonLbConfig_HealthyPanicThreshold c) (CommonLbConfig_IgnoreNewHostsUntilFirstHc c)
    (CommonLbConfig_CloseConnectionsOnHostSetChange c)
    (ConsistentHashingLbConfig_UseHostnameForHashing <$> CommonLbConfig_ConsistentHashingLbConfig c).
Definition buildDnsResolvers (dnsResolvers : list DnsResolver) : list EnvoySocketAddress :=
  omap (fun r =>
    (fun a => mkEnvoySocketAddress (if String.eqb (SocketAddress_Protocol a) "UDP" then "UDP" else "TCP")
                (SocketAddress_Address a) (SocketAddress_Port a) (SocketAddress_IPv4_compat a))
      <$> DnsResolver_SocketAddress r) dnsResolvers.
Definition thresholds (maxConnections : Z) : list EnvoyThresholds :=
  (fun priority => mkEnvoyThresholds priority (uint32 maxConnections) 1048576 1048576 1048576) <$> ["DEFAULT"; "HIGH"].
End parts.

(** * The builder *)

Section cluster_builder.
Context `{R : Runtime} `{E : EntityService} `{K : Certificates} `{C : Configuration} `{Pb : Protobuf} `{T : TlsMode}.

Definition load_endpoint_version (d : repo) (e : Endpoint) : prog World Endpoint :=
  v <- FindDeploymentVersion d (Endpoint_DeploymentVersion e) ;; ret (e <| Endpoint_DeploymentVersionVal := v |>).
Definition load_circuit_breaker (d : repo) (id : Z) : prog World (option CircuitBreaker) :=
  circuitBreaker <- FindCircuitBreakerById d id ;;
  match circuitBreaker with
  | None => ret None
  | Some cb =>
      threshold <- FindThresholdById d (CircuitBreaker_ThresholdId cb) ;;
      ret (Some ((cb : CircuitBreaker) <| CircuitBreaker_Threshold := threshold |>))
  end.
Definition loadClusterRelations (d : repo) (cluster : Cluster) : prog World Cluster :=
  clusterEndpoints <- FindEndpointsByClusterId d (Cluster_Id cluster) ;;
  endpoints <- map_each clusterEndpoints (load_endpoint_version d) ;;
  healthChecks <- FindHealthChecksByClusterId d (Cluster_Id cluster) ;;
  keepalive <- (if (Cluster_TcpKeepaliveId cluster =? 0)%Z then ret (Cluster_TcpKeepalive cluster)
                else FindTcpKeepaliveById d (Cluster_TcpKeepaliveId cluster)) ;;
  tlsConfig <- FindTlsConfigById d (Cluster_TLSId cluster) ;;
  circuitBreaker <- load_circuit_breaker d (Cluster_CircuitBreakerId cluster) ;;
  ret (cluster <| Cluster_Endpoints := endpoints |> <| Cluster_HealthChecks := healthChecks |>
         <| Cluster_TcpKeepalive := keepalive |> <| Cluster_TLS := tlsConfig |> <| Cluster_CircuitBreaker := circuitBreaker |>).

Definition has_tls_endpoint (cluster : Cluster) : bool :=
  match Cluster_Endpoints cluster with
  | e :: _ => (Endpoint_Port e =? 443)%Z || String.eqb (Endpoint_Protocol e) "https"
  | [] => false
  end.
Definition merge_cluster_tls (clusterName : string) (aggregated : TlsConfig) (cluster_tls : option TlsConfig) : TlsConfig :=
  match cluster_tls with
  | None => aggregated
  | Some tls =>
      let aggregated := if String.eqb (TlsConfig_SNI tls) "" then aggregated
                        else aggregated <| TlsConfig_SNI := TlsConfig_SNI tls |> in
      if String.eqb (TlsConfig_Name tls) (ExtractFamilyName clusterName ++ "-tls")
      then mergeTlsWithGatewayPriority aggregated tls
      else mergeTlsWithClusterPriority aggregated tls
  end.
Definition aggregateGlobalTlsConfig (d : repo) (nodeGroup : string) (cluster : Cluster) : prog World (option TlsConfig) :=
  let cluster_tls := validated_tls <$> Cluster_TLS cluster in
  if negb (has_tls_endpoint cluster) then ret cluster_tls
  else
    tlsConfigs <- GetGlobalTlsConfigs d cluster [nodeGroup] ;;
    match List.filter TlsConfig_Enabled tlsConfigs with
    | [] => ret cluster_tls
    | enabledTlsConfigs =>
        let aggregated :=
          aggregate (mkTlsConfig 0 [] ("aggregatedTlsConfig-" ++ Cluster_Name cluster) true false "" "" "" "") enabledTlsConfigs in
        let aggregated :=
          match Cluster_Endpoints cluster with
          | e :: _ => if propagateSni && String.eqb (TlsConfig_SNI aggregated) ""
                      then aggregated <| TlsConfig_SNI := Endpoint_Address e |> else aggregated
          | [] => aggregated
          end in
        ret (Some (merge_cluster_tls (Cluster_Name cluster) aggregated cluster_tls))
    end.
Definition max_connections (cluster : Cluster) : Z :=
  match Cluster_CircuitBreaker cluster with
  | Some cb => match CircuitBreaker_Threshold cb with
               | Some t => if (Threshold_MaxConnections t =? 0)%Z then 1048576%Z else Threshold_MaxConnections t
               | None => 1048576%Z
               end
  | None => 1048576%Z
  end.
(** The version requests go to that do not ask for one. *)
Definition default_version (activeVersion : string) (cluster : Cluster) : string :=
  match Cluster_Endpoints cluster with [e] => Endpoint_DeploymentVersion e | _ => activeVersion end.
Definition subset_config (version : string) : LbSubsetConfig :=
  mkLbSubsetConfig "DEFAULT_SUBSET" {["version" := version]} [["version"]].
Definition protocol_options (cluster : Cluster) : result Any :=
  match Cluster_HttpVersion cluster with
  | None => Panic "nil pointer dereference"
  | Some v =>
      let idle := Cluster_ConnectionIdleTimeout cluster in
      MarshalAny (MsgHttpProtocolOptions (if (v =? 2)%Z then Http2ProtocolOptions else Http1ProtocolOptions true)
        (if NullInt_Valid idle && (0 <? NullInt_Int64 idle)%Z
         then Some (durationpb_New (times_unit (NullInt_Int64 idle) nanos_per_second)) else None))
  end.
Definition buildTransportSocket (kind : ClusterBuilder) (cluster : Cluster) (aggregatedTlsConfig : option TlsConfig) :
    result (option (EnvoyExtension Any)) :=
  match aggregatedTlsConfig with
  | Some tls =>
      if TlsConfig_Enabled tls
      then result_bind (MarshalAny (MsgUpstreamTlsContext (TlsConfig_SNI tls)
                          (enrichUpstreamTlsContext kind (buildUpstreamTlsContext cluster tls))))
             (fun any => Ok (Some (mkEnvoyExtension "envoy.transport_sockets.tls" any)))
      else Ok None
  | None => Ok None
  end.
Definition build_tcp_keepalive (k : TcpKeepalive) : EnvoyTcpKeepalive :=
  mkEnvoyTcpKeepalive (uint32 (TcpKeepalive_Probes k)) (uint32 (TcpKeepalive_Time k)) (uint32 (TcpKeepalive_Interval k)).
Definition build_loaded_cluster (kind : ClusterBuilder) (timeout : Z) (activeVersion : string) (cluster : Cluster)
    (tls : option TlsConfig) : result (EnvoyCluster Any) :=
  let name := ReplaceDotsByUnderscore (Cluster_Name cluster) in
  result_bind DnsLookupFamily (fun family =>
  result_bind (createLbEndpoints (Cluster_Name cluster) (Cluster_Endpoints cluster)) (fun endpoints =>
  result_bind (protocol_options cluster) (fun options =>
  result_bind (buildTransportSocket kind cluster tls) (fun socket =>
  Ok {|
    EnvoyCluster_Name := name;
    EnvoyCluster_DnsLookupFamily := family;
    EnvoyCluster_ConnectTimeout := durationpb_New timeout;
    EnvoyCluster_LbPolicy := Cluster_LbPolicy_value (Cluster_LbPolicy cluster);
    EnvoyCluster_DiscoveryType := Cluster_DiscoveryType_value (Cluster_DiscoveryType cluster);
    EnvoyCluster_LoadAssignment := (name, endpoints);
    EnvoyCluster_CircuitBreakers := thresholds (max_connections cluster);
    EnvoyCluster_LbSubsetConfig :=
      if String.eqb name ExtAuthClusterName then None else Some (subset_config (default_version activeVersion cluster));
    EnvoyCluster_OutlierConsecutive5xx := if String.eqb name ExtAuthClusterName then Some 1%Z else None;
    EnvoyCluster_TypedExtensionProtocolOptions :=
      {["envoy.extensions.upstreams.http.v3.HttpProtocolOptions" := options]};
    EnvoyCluster_HealthChecks := buildHealthChecks (Cluster_HealthChecks cluster);
    EnvoyCluster_TcpKeepalive := build_tcp_keepalive <$> Cluster_TcpKeepalive cluster;
    EnvoyCluster_CommonLbConfig := buildCommonLbConfig <$> Cluster_CommonLbConfig cluster;
    EnvoyCluster_DnsResolvers := buildDnsResolvers (Cluster_DnsResolvers cluster);
    EnvoyCluster_TransportSocket := socket;
    EnvoyCluster_MaxRequestsPerConnection :=
      if (Cluster_MaxRequestsPerConnection cluster =? 0)%Z then None
      else Some (uint32 (Cluster_MaxRequestsPerConnection cluster))
  |})))).
(** Without an active version the first element of an empty slice is read. *)
Definition BuildCluster (d : repo) (kind : ClusterBuilder) (props : EnvoyProxyProperties) (nodeGroup : string) (cluster : Cluster) :
    prog World (EnvoyCluster Any) :=
  activeVersions <- FindDeploymentVersionsByStage d "ACTIVE" ;;
  match activeVersions with
  | [] => panic "index out of range [0] with length 0"
  | active :: _ =>
      cluster <- loadClusterRelations d cluster ;;
      aggregatedTlsConfig <- aggregateGlobalTlsConfig d nodeGroup cluster ;;
      lift (build_loaded_cluster kind (GetTimeout props) (DeploymentVersion_Version active) cluster aggregatedTlsConfig)
  end.
End cluster_builder.
