(* ===== verification/EnvoyListeners.v ===== *)
(** [envoy/cache/builder/listener]: the HTTP connection manager of a listener
    and its chain of filters, with and without TLS, for gateways and facades. *)
From S2P Require Import Prelude GoLib Domain Tables MemDb Msaddr Events RegCommon Runtime Dao Entity Tls EnvoyApi.
From S2P Require Import EnvoyProps EnvoyRoutes.
Open Scope string_scope.

Definition accessLogPath := "/dev/stdout".
Definition dq : string := String (Ascii.ascii_of_nat 34) "".
Definition accessLogFormat : string :=
  "[%START_TIME(%FT%T.%3f)%] [INFO] [request_id=%REQ(X-REQUEST-ID)%] [tenant_id=%REQ(Tenant)%] [thread=-] [class=-] envoyLog " ++ nl ++
  "Forward Request: " ++ dq ++ "%REQ(:METHOD)% %REQ(X-ENVOY-ORIGINAL-PATH?:PATH)% %PROTOCOL%" ++ dq ++ " " ++ nl ++
  "Forward To: " ++ dq ++ "%UPSTREAM_HOST% %UPSTREAM_CLUSTER%" ++ dq ++ " " ++ nl ++
  "Forward For: " ++ dq ++ "%DOWNSTREAM_REMOTE_ADDRESS_WITHOUT_PORT%" ++ dq ++ nl ++
  "Forward Address: " ++ dq ++ "%DOWNSTREAM_REMOTE_ADDRESS%" ++ dq ++ nl ++
  "Response: " ++ dq ++ "%RESPONSE_CODE% %RESPONSE_FLAGS% %BYTES_RECEIVED% %BYTES_SENT% %DURATION%ms" ++ dq ++ nl ++
  "X-FORWARDED-FOR: " ++ dq ++ "%REQ(X-FORWARDED-FOR)%" ++ dq ++ " X-FORWARDED-PROTO: " ++ dq ++ "%REQ(X-FORWARDED-PROTO)%" ++ dq ++ nl ++
  "Access-Control-Allow-Headers: %RESP(Access-Control-Allow-Headers)% ORIGIN: %REQ(Origin)%" ++ nl ++
  "Access-Control-Allow-Origin: %RESP(Access-Control-Allow-Origin)%" ++ nl.
Definition listenerTlsPort : Z := 8443.

(** The two kinds of listener builders ([facade.go], [gateway.go]). *)
Inductive ListenerBuilder := FacadeListenerBuilder | GatewayListenerBuilder.
Definition defaultHost (b : ListenerBuilder) : string :=
  match b with FacadeListenerBuilder => "facade" | GatewayListenerBuilder => "gateway" end.
Definition statPrefix (b : ListenerBuilder) : string :=
  match b with FacadeListenerBuilder => "facade_http" | GatewayListenerBuilder => "ingress_http" end.

Section listeners.
Context `{Env : Environment} `{C : Configuration} `{Pb : Protobuf} `{U : NetUrl}.

(** [strconv.ParseUint(value, 10, 32)] *)
Definition parse_uint32 (value : string) : option Z :=
  if String.eqb value "" then None
  else match digits_value value 0 with
       | Some v => if (v <? 2 ^ 32)%Z then Some v else None
       | None => None
       end.
Definition resolveMaxRequestHeadersKb : Z :=
  let value := GetOrDefaultString "max.request.headers.kb" "" in
  match parse_uint32 value with
  | Some parsed => if (parsed =? 0)%Z || (8192 <? parsed)%Z then 0%Z else parsed
  | None => 0%Z
  end.

(** A filter is a name and the message it is configured with. *)
Definition filter_of (name : string) (m : message Any) : result (EnvoyExtension Any) :=
  result_bind (MarshalAny m) (fun any => Ok (mkEnvoyExtension name any)).

Definition addEnvoyRouterFilter := filter_of "envoy.filters.http.router" MsgRouter.
Definition addCorsFilter := filter_of "envoy.filters.http.cors" MsgCors.
Definition addHeaderToMetadataFilter :=
  filter_of "envoy.filters.http.header_to_metadata" (MsgHeaderToMetadata "x-version" "envoy.lb" "version" false).
Definition addStatefulSessionFilter : result (EnvoyExtension Any) :=
  result_bind BuildCookieBasedSessionFilterForListener (fun config =>
    Ok (mkEnvoyExtension "envoy.filters.http.stateful_session" config)).
Definition addDisabledRateLimit (stat_prefix : string) :=
  filter_of "envoy.filters.http.local_ratelimit" (MsgLocalRateLimit (mkLocalRateLimit (stat_prefix ++ "ratelimit") None None [] None)).
Definition addDisabledLuaFilter (stat_prefix : string) :=
  filter_of "envoy.filters.http.lua" (MsgLua "" (stat_prefix ++ "lua")).
Definition addExtAuthzFilter (f : ExtAuthzFilter) :=
  filter_of "envoy.filters.http.ext_authz"
    (MsgExtAuthz (ExtAuthzFilter_ClusterName f)
       (durationpb_New (times_unit (ExtAuthzFilter_Timeout f) nanos_per_milli)) true "NetworkAuthenticationRequired").
Definition WasmFilter_Cluster (f : WasmFilter) : result string :=
  match URL_Host <$> url_Parse (WasmFilter_URL f) with
  | Some host => Ok (host ++ "-cluster")
  | None => Err (ErrMsg "url: parse error")
  end.
Definition addWASMFilter (f : WasmFilter) : result (EnvoyExtension Any) :=
  result_bind (WasmFilter_Cluster f) (fun cluster =>
  result_bind (json_params (WasmFilter_Params f)) (fun paramsJson =>
  result_bind (MarshalAny (MsgStringValue paramsJson)) (fun configuration =>
  filter_of "envoy.filters.http.wasm" (MsgWasm {|
    WasmPlugin_Name := WasmFilter_Name f;
    WasmPlugin_RootId := WasmFilter_Name f ++ "_root_id";
    WasmPlugin_VmId := WasmFilter_Name f ++ "_vm_id";
    WasmPlugin_Runtime := "envoy.wasm.runtime.v8";
    WasmPlugin_Uri := WasmFilter_URL f;
    WasmPlugin_Cluster := ReplaceDotsByUnderscore cluster;
    WasmPlugin_TimeoutSeconds := WasmFilter_Timeout f;
    WasmPlugin_Sha256 := WasmFilter_SHA256 f;
    WasmPlugin_NumRetries := 300;
    WasmPlugin_AllowPrecompiled := true;
    WasmPlugin_Configuration := configuration;
    WasmPlugin_FailOpen := true
  |})))).

(** What a gateway adds ([gateway.go]). *)
Definition addGrpcStatsFilter := filter_of "envoy.filters.http.grpc_stats" (MsgGrpcStats false true true).
Definition namespace_script (namespaceMapping : string) : string :=
  namespaceMapping ++ nl ++
  "function envoy_on_request(request_handle)" ++ nl ++
  "  tenant_id = request_handle:headers():get(" ++ dq ++ "Tenant" ++ dq ++ ")" ++ nl ++
  "  if tenantsNS[tenant_id] ~= nil then" ++ nl ++
  "    request_handle:headers():add(" ++ dq ++ "namespace" ++ dq ++ ", tenantsNS[tenant_id])" ++ nl ++
  "  end" ++ nl ++
  "end".
Definition addNamespaceHeaderFilter (namespaceMapping : string) : list (result (EnvoyExtension Any)) :=
  if String.eqb namespaceMapping "" then []
  else [filter_of "envoy.filters.http.lua" (MsgLua (namespace_script namespaceMapping) "")].
Definition addCompression (props : EnvoyProxyProperties) : list (result (EnvoyExtension Any)) :=
  if Props_CompressionEnabled props
  then [result_bind (MarshalAny MsgGzip) (fun gzipConfig =>
          filter_of "envoy.filters.http.compressor"
            (MsgCompressor (mkEnvoyExtension "envoy.compression.gzip.compressor" gzipConfig)))]
  else [].
Definition enrichConnManager (b : ListenerBuilder) (props : EnvoyProxyProperties) (namespaceMapping : string) :
    list (result (EnvoyExtension Any)) :=
  match b with
  | FacadeListenerBuilder => []
  | GatewayListenerBuilder =>
      ([addCorsFilter; addGrpcStatsFilter] ++ addNamespaceHeaderFilter namespaceMapping ++ addCompression props)%list
  end.

(** The chain of filters, in order; the router comes last.  Tracing is set up
    between its two parts. *)
Definition first_filters (listener : Listener) : list (result (EnvoyExtension Any)) :=
  (match Listener_ExtAuthzFilter listener with Some f => [addExtAuthzFilter f] | None => [] end
   ++ [addHeaderToMetadataFilter])%list.
Definition later_filters (b : ListenerBuilder) (props : EnvoyProxyProperties) (listener : Listener) (namespaceMapping : string) :
    list (result (EnvoyExtension Any)) :=
  ((addWASMFilter <$> Listener_WasmFilters listener)
   ++ [addDisabledLuaFilter (statPrefix b); addStatefulSessionFilter; addDisabledRateLimit (statPrefix b)]
   ++ enrichConnManager b props namespaceMapping
   ++ [addEnvoyRouterFilter])%list.
Definition addTracing (t : TracingProperties) : result (option (Z * EnvoyExtension Any)) :=
  if Tracing_Enabled t
  then result_bind (MarshalAny (MsgZipkinConfig (Tracing_ZipkinCollectorCluster t) (Tracing_ZipkinCollectorEndpoint t) "HTTP_JSON"))
         (fun zipkin => Ok (Some (Tracing_SamplerProbabilisticValue t, mkEnvoyExtension "envoy.tracers.zipkin" zipkin)))
  else Ok None.
Definition buildBaseHttpConnectionManager (listenerRouteConfigName defaultHost statPrefix : string) : result (HttpConnectionManager Any) :=
  result_bind (MarshalAny (MsgFileAccessLog accessLogPath accessLogFormat)) (fun alsConfigPbst =>
  result_bind (MarshalAny (MsgUuidRequestIdConfig false false)) (fun requestIDExtensionConfig =>
  Ok {|
    Hcm_HttpFilters := [];
    Hcm_DefaultHostForHttp_10 := defaultHost;
    Hcm_RequestIdExtension := requestIDExtensionConfig;
    Hcm_AccessLog := [mkEnvoyExtension "envoy.access_loggers.file" alsConfigPbst];
    Hcm_StatPrefix := statPrefix;
    Hcm_RouteConfigName := listenerRouteConfigName;
    Hcm_RdsClusterName := "xds_cluster";
    Hcm_MaxRequestHeadersKb := if (0 <? resolveMaxRequestHeadersKb)%Z then Some resolveMaxRequestHeadersKb else None;
    Hcm_Tracing := None;
    Hcm_MergeSlashes := true;
    Hcm_AcceptHttp_10 := true;
    Hcm_PreserveExternalRequestId := true;
    Hcm_PassServerHeader := true;
    Hcm_UpgradeTypes := ["websocket"]
  |})).
Definition buildHttpConnectionManager (b : ListenerBuilder) (props : EnvoyProxyProperties) (listener : Listener)
    (namespaceMapping : string) : result (HttpConnectionManager Any) :=
  result_bind (buildBaseHttpConnectionManager (Listener_RouteConfigurationName listener) (defaultHost b) (statPrefix b)) (fun connManager =>
  result_bind (map_result (fun f => f) (first_filters listener)) (fun first =>
  result_bind (addTracing (Props_Tracing props)) (fun tracing =>
  result_bind (map_result (fun f => f) (later_filters b props listener namespaceMapping)) (fun later =>
  Ok (connManager <| Hcm_HttpFilters := (first ++ later)%list |> <| Hcm_Tracing := tracing |>))))).

Definition buildServerCommonTlsContext : CommonTlsContext := {|
  CommonTlsContext_AlpnProtocols := ["h2"; "http/1.1"];
  CommonTlsContext_TlsCertificates :=
    [mkTlsCertificate (DataSource_Filename (GatewayCertificatesFilePath ++ "/tls.crt"))
       (DataSource_Filename (GatewayCertificatesFilePath ++ "/tls.key"))];
  CommonTlsContext_TrustedCa := DataSource_Filename (GatewayCertificatesFilePath ++ "/ca.crt");
  CommonTlsContext_TrustChainVerification := VERIFY_TRUST_CHAIN;
  CommonTlsContext_MatchTypedSubjectAltNames := [];
  CommonTlsContext_TlsParams := None
|}.
(** The buffer limit of a gateway, in bytes. *)
Definition enrichListener (b : ListenerBuilder) (props : EnvoyProxyProperties) : option Z :=
  match b with
  | FacadeListenerBuilder => None
  | GatewayListenerBuilder => Some (GetUInt32PerConnectionBufferLimitMBytes props)
  end.
Definition enrichListenerWithTlsFilters (listener : EnvoyListener Any) : result (EnvoyListener Any) :=
  result_bind (filter_of "envoy.filters.listener.tls_inspector" MsgTlsInspector) (fun inspector =>
  result_bind (filter_of "envoy.transport_sockets.tls" (MsgDownstreamTlsContext buildServerCommonTlsContext false)) (fun socket =>
  Ok (listener <| EnvoyListener_ListenerFilters := [inspector] |> <| EnvoyListener_TransportSocket := Some socket |>))).
Definition newListener (b : ListenerBuilder) (props : EnvoyProxyProperties) (manager : HttpConnectionManager Any)
    (listener : Listener) (withTls : bool) : result (EnvoyListener Any) :=
  match strconv_Atoi (Listener_BindPort listener) with
  | None => Err (ErrMsg "strconv.Atoi: parsing of the port")
  | Some port =>
      result_bind (filter_of "envoy.filters.network.http_connection_manager" (MsgHttpConnectionManager manager)) (fun hcm =>
      let new name port :=
        mkEnvoyListener name (BuildSocketAddr (Listener_BindHost listener) (uint32 port)) [hcm] [] None (enrichListener b props) in
      if withTls
      then enrichListenerWithTlsFilters (new (Listener_Name listener ++ "-tls") (if (port =? DefaultPort)%Z then listenerTlsPort else port))
      else Ok (new (Listener_Name listener) port))
  end.
Definition BuildListener (b : ListenerBuilder) (props : EnvoyProxyProperties) (listener : Listener) (namespaceMapping : string)
    (withTls : bool) : result (EnvoyListener Any) :=
  result_bind (buildHttpConnectionManager b props listener namespaceMapping) (fun connManager =>
  newListener b props connManager listener withTls).
End listeners.
