(* ===== verification/EnvoyBuilder.v ===== *)
(** [envoy/cache/builder/builder.go]: which builder serves which gateway.

    [EnvoyConfigBuilder] is the interface the actions and the update manager
    work with; [EnvoyConfigBuilderImpl] implements it over the builders of
    listeners, clusters and virtual hosts.  Its state is the two maps from
    gateways to builders; a failed registration leaves them as they are. *)
From S2P Require Import Prelude GoLib Domain RouteKey Tables MemDb Msaddr Events RegCommon Runtime Dao Entity Util.
From S2P Require Import GoLib RouteServices Tls EnvoyApi EnvoyProps EnvoyRoutes EnvoyVirtualHosts EnvoyClusters.
From S2P Require Import EnvoyListeners.
Open Scope string_scope.

(** * The interface *)

Class EnvoyConfigBuilder `{R : Runtime} `{Pb : Protobuf} : Type := {
  BuilderState : Type;
  BuildListener : Listener -> string -> bool -> prog (World * BuilderState) (EnvoyListener Any);
  BuildCluster : string -> Cluster -> prog (World * BuilderState) (EnvoyCluster Any);
  BuildRouteConfig : RouteConfiguration -> prog (World * BuilderState) (EnvoyRouteConfiguration Any);
  BuildRuntime : string -> prog (World * BuilderState) EnvoyRuntime;
  RegisterGateway : NodeGroup -> prog (World * BuilderState) unit
}.

(** A part of the world. *)
Definition on_fst {W S A} (m : prog W A) : prog (W * S) A :=
  fun ws => let '(r, w) := m ws.1 in (r, (w, ws.2)).

(** * Aliases ([route/v3/service.go]) *)

(** [json.Marshal] of a map: its keys in ascending order. *)
Definition json_map (m : gmap string string) : string :=
  json_object ((fun kv => (kv.1, Some (json_string kv.2)))
    <$> SliceStable (fun a b => String.ltb a.1 b.1) (map_to_list m)).
#[export] Instance v3_aliases `{R : Runtime} : VersionAliasesProvider := {|
  GetVersionAliases :=
    rawAliases <- try_ok v3.GetAllDeploymentVersionsAliases ;;
    ret match rawAliases with Some m => json_map m | None => "" end
|}.

(** * The implementation *)

Record Builders := mkBuilders {
  listenerBuilders : gmap string ListenerBuilder;
  virtualHostBuilders : gmap string VirtualHostBuilder
}.

Section impl.
Context `{R : Runtime} `{H : Sha256} `{E : EntityService} `{K : Certificates} `{C : Configuration} `{Pb : Protobuf}
  `{U : NetUrl} `{A : !VersionAliasesProvider (R := R)} `{T : TlsMode}.

(** [cache.DefaultEnvoyConfigurationBuilder] *)
Definition envoyProxyProps : EnvoyProxyProperties := NewEnvoyProxyProperties.
Definition meshVirtualHostBuilder : VirtualHostBuilder := MeshBuilder (NewMeshRouteBuilder envoyProxyProps).
Definition gatewayVirtualHostBuilder : VirtualHostBuilder :=
  GatewayBuilder (NewGatewayVirtualHostBuilder (NewRouteBuilder envoyProxyProps)).
Definition ingressVirtualHostBuilder : VirtualHostBuilder :=
  GatewayBuilder (NewIngressVirtualHostBuilder (NewRouteBuilder envoyProxyProps)).
Definition egressVirtualHostBuilder : VirtualHostBuilder :=
  GatewayBuilder (NewEgressVirtualHostBuilder (NewEgressRouteBuilder envoyProxyProps)).

Definition NewEnvoyConfigBuilder : Builders := {|
  listenerBuilders := list_to_map
    ((fun name => (name, GatewayListenerBuilder))
       <$> ["public-gateway-service"; "private-gateway-service"; "internal-gateway-service"]);
  virtualHostBuilders := <["egress-gateway" := egressVirtualHostBuilder]> (list_to_map
    ((fun name => (name, gatewayVirtualHostBuilder))
       <$> ["public-gateway-service"; "private-gateway-service"; "internal-gateway-service"]))
|}.
Definition register (name : string) (l : ListenerBuilder) (v : VirtualHostBuilder) (b : Builders) : Builders :=
  mkBuilders (<[name := l]> (listenerBuilders b)) (<[name := v]> (virtualHostBuilders b)).
Definition register_gateway (gateway : NodeGroup) (b : Builders) : result Builders :=
  let name := NodeGroup_Name gateway in
  let gatewayType := NodeGroup_GatewayType gateway in
  if String.eqb gatewayType "" || IsReservedGatewayName name then Ok b
  else if String.eqb gatewayType Ingress then Ok (register name GatewayListenerBuilder ingressVirtualHostBuilder b)
  else if String.eqb gatewayType Egress then Ok (register name FacadeListenerBuilder egressVirtualHostBuilder b)
  else if String.eqb gatewayType Mesh then Ok (register name FacadeListenerBuilder meshVirtualHostBuilder b)
  else Err (ErrMsg "builder: unknown gateway type passed to register in EnvoyConfigBuilder").

Definition listener_builder (b : Builders) (nodeGroup : string) : ListenerBuilder :=
  default FacadeListenerBuilder (listenerBuilders b !! nodeGroup).
Definition virtual_host_builder (b : Builders) (nodeGroup : string) : VirtualHostBuilder :=
  default meshVirtualHostBuilder (virtualHostBuilders b !! nodeGroup).

(** The listener with its filters, read in one transaction. *)
Definition load_listener_filters (listener : Listener) : prog World Listener :=
  WithRTxVal
    (wasmFilters <- FindWasmFilterByListenerId InTx (Listener_Id listener) ;;
     extAuthzFilter <- FindExtAuthzFilterByNodeGroup InTx (Listener_NodeGroupId listener) ;;
     ret (listener <| Listener_WasmFilters := wasmFilters |> <| Listener_ExtAuthzFilter := extAuthzFilter |>)).
Definition build_listener (b : Builders) (listener : Listener) (namespaceMapping : string) (withTls : bool) :
    prog World (EnvoyListener Any) :=
  listener <- load_listener_filters listener ;;
  let listener : Listener := listener in
  lift (EnvoyListeners.BuildListener (listener_builder b (Listener_NodeGroupId listener)) envoyProxyProps listener
          namespaceMapping withTls).
Definition getGatewayType (d : repo) (nodeGroup : string) : prog World GatewayType :=
  if String.eqb nodeGroup "egress-gateway" then ret Egress
  else
    existingNodegroup <- FindNodeGroupByName d nodeGroup ;;
    ret match existingNodegroup with Some g => NodeGroup_GatewayType g | None => "" end.
Definition build_cluster (nodeGroup : string) (clusterEntity : Cluster) : prog World (EnvoyCluster Any) :=
  gatewayType <- getGatewayType Local nodeGroup ;;
  EnvoyClusters.BuildCluster Local (if String.eqb gatewayType Egress then EgressClusterBuilder else DefaultClusterBuilder)
    envoyProxyProps nodeGroup clusterEntity.
Definition build_route_config (b : Builders) (routeConfig : RouteConfiguration) : prog World (EnvoyRouteConfiguration Any) :=
  virtualHostsFromDao <- FindVirtualHostsByRouteConfigurationId Local (RouteConfiguration_Id routeConfig) ;;
  virtualHosts <- BuildVirtualHosts Local (virtual_host_builder b (RouteConfiguration_NodeGroupId routeConfig))
                    (routeConfig <| RouteConfiguration_VirtualHosts := virtualHostsFromDao |>) ;;
  ret (mkEnvoyRouteConfiguration (RouteConfiguration_Name routeConfig) virtualHosts).
Definition build_runtime (runtimeName : string) : EnvoyRuntime :=
  mkEnvoyRuntime runtimeName
    (<["re2.max_program_size.error_level" := Props_Re2Maxsize envoyProxyProps]>
       {["re2.max_program_size.warn_level" := Props_Re2WarnSize envoyProxyProps]}).

(** What reads the maps runs on the world next to them. *)
Definition with_builders {X} (m : Builders -> prog World X) : prog (World * Builders) X :=
  fun ws => on_fst (m ws.2) ws.
Definition EnvoyConfigBuilderImpl : EnvoyConfigBuilder (R := R) := {|
  BuilderState := Builders;
  BuildListener := fun listener namespaceMapping withTls => with_builders (fun b => build_listener b listener namespaceMapping withTls);
  BuildCluster := fun nodeGroup cluster => on_fst (build_cluster nodeGroup cluster);
  BuildRouteConfig := fun routeConfig => with_builders (fun b => build_route_config b routeConfig);
  BuildRuntime := fun runtimeName => ret (build_runtime runtimeName);
  RegisterGateway := fun gateway ws =>
    match register_gateway gateway ws.2 with
    | Ok b => (Ok tt, (ws.1, b))
    | Err e => (Err e, ws)
    | Panic p => (Panic p, ws)
    end
|}.
End impl.
