(* ===== verification/EnvoyActions.v ===== *)
(** [envoy/cache/action]: the updates of the snapshot of a gateway, the factory
    that makes them from entities, and the map that keeps one update per
    entity.

    A snapshot is an object of the snapshot cache (go-control-plane), and an
    action changes it in place; the cache is a map from gateways to snapshots,
    and an action works on the entry of its gateway.  What clients are told is
    what [SetSnapshot] is called with, newest first. *)
From S2P Require Import Prelude GoLib Domain RouteKey Tables MemDb Msaddr Events RegCommon Runtime Dao Entity Util.
From S2P Require Import EnvoyApi EnvoyRoutes EnvoyBuilder.
Open Scope string_scope.

(** * Snapshots *)

(** The resource types of the cache ([resource.ClusterType] and the like). *)
Inductive resource_type := EndpointType | ClusterType | RouteType | ListenerType | RuntimeType | SecretType.
#[export] Instance resource_type_eq_dec : EqDecision resource_type.
Proof. solve_decision. Defined.

Section snapshots.
Context `{R : Runtime} `{Pb : Protobuf} `{B : !EnvoyConfigBuilder (R := R)}.

Inductive envoy_resource : Type :=
  | ResListener (l : EnvoyListener Any)
  | ResCluster (c : EnvoyCluster Any)
  | ResRouteConfig (c : EnvoyRouteConfiguration Any)
  | ResRuntime (r : EnvoyRuntime).
Record Resources := mkResources { Resources_Version : string; Resources_Items : gmap string envoy_resource }.
Definition Snapshot : Type := resource_type -> Resources.

(** The outcome of the [n]-th [SetSnapshot]: it stores the snapshot and then
    answers the open requests, which may fail. *)
Class SnapshotCache : Type := { answer_watches : nat -> result unit }.

Record EnvoyWorld := mkEnvoyWorld {
  ew_world : World;
  ew_builders : BuilderState;
  ew_cache : gmap string Snapshot;
  ew_sets : list (string * Snapshot);
  ew_ids : gmap string Z;            (* [runtimeIdByNameGen] *)
  ew_lastId : Z
}.
Definition on_dao {A} (m : prog World A) : prog EnvoyWorld A := fun w =>
  let '(r, w') := m (ew_world w) in
  (r, mkEnvoyWorld w' (ew_builders w) (ew_cache w) (ew_sets w) (ew_ids w) (ew_lastId w)).
Definition on_builder {A} (m : prog (World * BuilderState) A) : prog EnvoyWorld A := fun w =>
  let '(r, (w', b)) := m (ew_world w, ew_builders w) in
  (r, mkEnvoyWorld w' b (ew_cache w) (ew_sets w) (ew_ids w) (ew_lastId w)).
Definition set_cache (c : gmap string Snapshot) (w : EnvoyWorld) : EnvoyWorld :=
  mkEnvoyWorld (ew_world w) (ew_builders w) c (ew_sets w) (ew_ids w) (ew_lastId w).
Definition add_set (nodeGroup : string) (s : Snapshot) (w : EnvoyWorld) : EnvoyWorld :=
  mkEnvoyWorld (ew_world w) (ew_builders w) (ew_cache w) ((nodeGroup, s) :: ew_sets w) (ew_ids w) (ew_lastId w).

(** [domain/runtimeIdGen.go]: ids of node groups, by name. *)
Definition GetIdByName (name : string) : prog EnvoyWorld Z := fun w =>
  match ew_ids w !! name with
  | Some id => (Ok id, w)
  | None =>
      let id := int32 (ew_lastId w + 1) in
      (Ok id, mkEnvoyWorld (ew_world w) (ew_builders w) (ew_cache w) (ew_sets w) (<[name := id]> (ew_ids w)) id)
  end.

Definition VersionToString (version : Z) : string := strconv_Itoa version.
Definition GenerateResourceVersion : prog EnvoyWorld string :=
  now <- on_dao Now ;; ret (VersionToString now).

(** * Actions ([action.go]) *)

Inductive SnapshotUpdateAction : Type :=
  | CompositeUpdateAction (actions : list SnapshotUpdateAction)
  | ListenerUpdateAction (version : string) (listener : Listener) (namespaceMapping : string)
  | ListenerDeleteAction (version : string) (listener : Listener)
  | ClusterUpdateAction (nodeGroup version : string) (cluster : option Cluster)    (* nil when the binding of a gateway leads nowhere *)
  | ClusterDeleteAction (version : string) (cluster : Cluster)
  | RouteConfigUpdateAction (version : string) (routeConfig : RouteConfiguration)
  | RouteConfigDeleteAction (version : string) (routeConfig : RouteConfiguration)
  | DeleteAllByTypeAction (version : string) (envoyType : resource_type)
  | RuntimeUpdateAction (nodeGroup : string).

(** The snapshot an action works on is in the cache. *)
Definition get_snapshot (nodeGroup : string) : prog EnvoyWorld Snapshot := fun w =>
  match ew_cache w !! nodeGroup with
  | Some s => (Ok s, w)
  | None => (Panic "nil pointer dereference", w)
  end.
Definition set_resources (t : resource_type) (r : Resources) (s : Snapshot) : Snapshot :=
  fun t' => if decide (t' = t) then r else s t'.
Definition put_resources (nodeGroup : string) (t : resource_type) (version : string) (items : gmap string envoy_resource) :
    prog EnvoyWorld unit :=
  s <- get_snapshot nodeGroup ;;
  modify (fun w => set_cache (<[nodeGroup := set_resources t (mkResources version items) s]> (ew_cache w)) w).
Definition update_items (nodeGroup : string) (t : resource_type) (f : gmap string envoy_resource -> gmap string envoy_resource) :
    prog EnvoyWorld unit :=
  s <- get_snapshot nodeGroup ;;
  version <- GenerateResourceVersion ;;
  put_resources nodeGroup t version (f (Resources_Items (s t))).
Definition GenericUpdateAction_Perform (nodeGroup resourceName : string) (t : resource_type) (resource : envoy_resource) :
    prog EnvoyWorld unit := update_items nodeGroup t (<[resourceName := resource]>).
Definition GenericDeleteAction_Perform (nodeGroup resourceName : string) (t : resource_type) : prog EnvoyWorld unit :=
  update_items nodeGroup t (delete resourceName).

Context `{T : TlsMode}.

Definition oobGateways : list string := ["public-gateway-service"; "private-gateway-service"; "internal-gateway-service"].
Definition listener_withTls (listener : Listener) : bool :=
  existsb (String.eqb (Listener_NodeGroupId listener)) oobGateways || String.eqb (Listener_BindPort listener) "8080".
Definition perform_listener_update (nodeGroup : string) (listener : Listener) (namespaceMapping : string) : prog EnvoyWorld unit :=
  let withTls := listener_withTls listener in
  (if tls_preferred && withTls
   then
     envoyListener <- on_builder (BuildListener listener namespaceMapping true) ;;
     GenericUpdateAction_Perform nodeGroup (Listener_Name listener ++ "-tls") ListenerType (ResListener envoyListener)
   else ret tt) ;;;
  envoyListener <- on_builder (BuildListener listener namespaceMapping (if withTls then false else Listener_WithTls listener)) ;;
  GenericUpdateAction_Perform nodeGroup (Listener_Name listener) ListenerType (ResListener envoyListener).
Definition perform_listener_delete (nodeGroup : string) (listener : Listener) : prog EnvoyWorld unit :=
  (if tls_preferred then GenericDeleteAction_Perform nodeGroup (Listener_Name listener ++ "-tls") ListenerType else ret tt) ;;;
  GenericDeleteAction_Perform nodeGroup (Listener_Name listener) ListenerType.
Definition perform_cluster_update (nodeGroup builderGroup : string) (cluster : Cluster) : prog EnvoyWorld unit :=
  envoyCluster <- on_builder (BuildCluster builderGroup cluster) ;;
  GenericUpdateAction_Perform nodeGroup (ReplaceDotsByUnderscore (Cluster_Name cluster)) ClusterType (ResCluster envoyCluster).
(** The resource is looked for by the name of the cluster as it is. *)
Definition perform_cluster_delete (nodeGroup : string) (cluster : Cluster) : prog EnvoyWorld unit :=
  GenericDeleteAction_Perform nodeGroup (Cluster_Name cluster) ClusterType.
Definition perform_route_config_update (nodeGroup : string) (routeConfig : RouteConfiguration) : prog EnvoyWorld unit :=
  envoyRouteConfig <- on_builder (BuildRouteConfig routeConfig) ;;
  GenericUpdateAction_Perform nodeGroup (RouteConfiguration_Name routeConfig) RouteType (ResRouteConfig envoyRouteConfig).
Definition perform_runtime_update (nodeGroup : string) : prog EnvoyWorld unit :=
  let runtimeName := "rtds_layer0" in
  envoyRuntime <- on_builder (BuildRuntime runtimeName) ;;
  GenericUpdateAction_Perform nodeGroup runtimeName RuntimeType (ResRuntime envoyRuntime).

Definition ErrSomeActionsFailed : error := ErrMsg "cache: some snapshot updates have failed".
(** A failed part is logged; the parts after it are performed all the same. *)
Fixpoint Perform (nodeGroup : string) (action : SnapshotUpdateAction) : prog EnvoyWorld unit :=
  match action with
  | CompositeUpdateAction actions =>
      failed <- (fix perform_all (l : list SnapshotUpdateAction) (failed : bool) : prog EnvoyWorld bool :=
                   match l with
                   | [] => ret failed
                   | a :: rest =>
                       done <- try_ok (Perform nodeGroup a) ;;
                       perform_all rest match done with Some _ => failed | None => true end
                   end) actions false ;;
      if failed : bool then fail ErrSomeActionsFailed else ret tt
  | ListenerUpdateAction _ listener namespaceMapping => perform_listener_update nodeGroup listener namespaceMapping
  | ListenerDeleteAction _ listener => perform_listener_delete nodeGroup listener
  | ClusterUpdateAction builderGroup _ cluster => cluster <- deref cluster ;; perform_cluster_update nodeGroup builderGroup cluster
  | ClusterDeleteAction _ cluster => perform_cluster_delete nodeGroup cluster
  | RouteConfigUpdateAction _ routeConfig => perform_route_config_update nodeGroup routeConfig
  | RouteConfigDeleteAction _ routeConfig =>
      GenericDeleteAction_Perform nodeGroup (RouteConfiguration_Name routeConfig) RouteType
  | DeleteAllByTypeAction version envoyType => put_resources nodeGroup envoyType version ∅
  | RuntimeUpdateAction _ => perform_runtime_update nodeGroup
  end.

(** * Updates of entities ([factory.go]) *)

Inductive EnvoyEntity := EntityCluster | EntityListener | EntityRouteConfig | EntityRuntime.
#[export] Instance EnvoyEntity_eq_dec : EqDecision EnvoyEntity.
Proof. solve_decision. Defined.
#[export] Instance EnvoyEntity_countable : Countable EnvoyEntity.
Proof.
  apply (inj_countable'
    (fun e => match e with EntityCluster => 0 | EntityListener => 1 | EntityRouteConfig => 2 | EntityRuntime => 3 end)
    (fun n => match n with 0 => EntityCluster | 1 => EntityListener | 2 => EntityRouteConfig | _ => EntityRuntime end)).
  by intros [].
Defined.

Definition ToTypeURL (e : EnvoyEntity) : result resource_type :=
  match e with
  | EntityCluster => Ok ClusterType
  | EntityListener => Ok ListenerType
  | EntityRouteConfig => Ok RouteType
  | EntityRuntime => Panic "Cannot resolve envoy entity typeURL by EnvoyEntity"
  end.
Definition EnvoyEntityByTable (tableName : string) : result EnvoyEntity :=
  if String.eqb tableName (table_name ClusterTable) then Ok EntityCluster
  else if String.eqb tableName (table_name RouteConfigurationTable) then Ok EntityRouteConfig
  else if String.eqb tableName (table_name ListenerTable) then Ok EntityListener
  else if String.eqb tableName (table_name NodeGroupTable) then Ok EntityRuntime
  else Panic "Cannot resolve envoy entity type by table name".

Record GranularEntityUpdate := mkGranularEntityUpdate {
  Granular_Action : SnapshotUpdateAction;
  Granular_IsDelete : bool;
  Granular_EntityId : Z
}.

(** What a factory function is given as [interface{}]: a pointer to an entity,
    which may be nil, or a struct. *)
Inductive factory_arg : Type :=
  | ArgCluster (c : option Cluster)
  | ArgClusterStruct (c : Cluster)
  | ArgListener (l : option Listener)
  | ArgRouteConfig (c : option RouteConfiguration)
  | ArgNodeGroup (g : NodeGroup).
(** [if err != nil { log.Panicf }] *)
Definition or_panicf {A} (m : prog EnvoyWorld A) : prog EnvoyWorld A := fun w =>
  match m w with
  | (Err _, w') => (Panic "Panicf", w')
  | r => r
  end.
Definition conversion {A} : prog EnvoyWorld A := panic "interface conversion".
Definition as_cluster (e : factory_arg) : prog EnvoyWorld Cluster :=
  match e with ArgCluster c => deref c | _ => conversion end.
Definition as_listener (e : factory_arg) : prog EnvoyWorld Listener :=
  match e with ArgListener l => deref l | _ => conversion end.
Definition as_route_config (e : factory_arg) : prog EnvoyWorld RouteConfiguration :=
  match e with ArgRouteConfig c => deref c | _ => conversion end.

Definition ClusterUpdate (nodeGroup version : string) (entity : factory_arg) : prog EnvoyWorld GranularEntityUpdate :=
  cluster <- as_cluster entity ;; ret (mkGranularEntityUpdate (ClusterUpdateAction nodeGroup version (Some cluster)) false (Cluster_Id cluster)).
Definition ClusterDelete (nodeGroup version : string) (entity : factory_arg) : prog EnvoyWorld GranularEntityUpdate :=
  cluster <- as_cluster entity ;; ret (mkGranularEntityUpdate (ClusterDeleteAction version cluster) true (Cluster_Id cluster)).
Definition ListenerUpdate (nodeGroup version : string) (entity : factory_arg) : prog EnvoyWorld GranularEntityUpdate :=
  listener <- as_listener entity ;; ret (mkGranularEntityUpdate (ListenerUpdateAction version listener "") false (Listener_Id listener)).
Definition ListenerDelete (nodeGroup version : string) (entity : factory_arg) : prog EnvoyWorld GranularEntityUpdate :=
  listener <- as_listener entity ;; ret (mkGranularEntityUpdate (ListenerDeleteAction version listener) true (Listener_Id listener)).
Definition RouteConfigUpdate (nodeGroup version : string) (entity : factory_arg) : prog EnvoyWorld GranularEntityUpdate :=
  routeConfig <- as_route_config entity ;;
  ret (mkGranularEntityUpdate (RouteConfigUpdateAction version routeConfig) false (RouteConfiguration_Id routeConfig)).
Definition RouteConfigDelete (nodeGroup version : string) (entity : factory_arg) : prog EnvoyWorld GranularEntityUpdate :=
  routeConfig <- as_route_config entity ;;
  ret (mkGranularEntityUpdate (RouteConfigDeleteAction version routeConfig) true (RouteConfiguration_Id routeConfig)).
Definition RuntimeUpdate (nodeGroup version : string) (entity : factory_arg) : prog EnvoyWorld GranularEntityUpdate :=
  match entity with
  | ArgNodeGroup g => id <- GetIdByName (NodeGroup_Name g) ;; ret (mkGranularEntityUpdate (RuntimeUpdateAction nodeGroup) false id)
  | _ => conversion
  end.

(** * The map of updates *)

Definition ActionsMap : Type := gmap EnvoyEntity (gmap Z GranularEntityUpdate).
Definition put_update (updates : gmap Z GranularEntityUpdate) (u : GranularEntityUpdate) : gmap Z GranularEntityUpdate :=
  match updates !! Granular_EntityId u with
  | Some existing =>
      if negb (Granular_IsDelete existing) && Granular_IsDelete u then <[Granular_EntityId u := u]> updates else updates
  | None => <[Granular_EntityId u := u]> updates
  end.
Definition ActionsMap_Put (actions : ActionsMap) (entityType : EnvoyEntity) (u : GranularEntityUpdate) : ActionsMap :=
  <[entityType := put_update (default ∅ (actions !! entityType)) u]> actions.
Definition CompositeAction (actions : ActionsMap) : prog EnvoyWorld SnapshotUpdateAction :=
  byType <- on_dao (range (map_to_list actions).*2) ;;
  lists <- map_each byType (fun updates => on_dao (range (map_to_list updates).*2)) ;;
  ret (CompositeUpdateAction (Granular_Action <$> concat lists)).
End snapshots.
