(* ===== verification/EnvoyEvents.v ===== *)
(** [envoy/cache/event]: from the changes of a transaction to the updates of
    the snapshots.

    A change event belongs to one gateway and becomes one map of updates.  The
    casts and the lookups of the entities above the changed one are shared with
    the events for several gateways ([EnvoyProcessor]). *)
From S2P Require Import Prelude GoLib Domain RouteKey Tables MemDb Msaddr Events RegCommon Runtime Dao Entity Util Tls.
From S2P Require Import EnvoyApi EnvoyRoutes EnvoyBuilder EnvoyActions.
Open Scope string_scope.

(** * Casts *)

(** The cast of [change.Before] to a pointer type: of a value of another type,
    and of nil, it panics. *)
Definition entity_as (t : table) {u : table} (e : entity u) : option (entity t) :=
  match decide (u = t) with
  | left E => Some (eq_rect u entity e t E)
  | right _ => None
  end.
Definition cast {W} (t : table) {u : table} (e : option (entity u)) : prog W (entity t) :=
  match e ≫= entity_as t with Some x => ret x | None => panic "interface conversion" end.
(** The entity a change is about. *)
Definition changed {W} (t : table) (c : Change) : prog W (entity t) :=
  cast t (if Deleted c then Change_Before c else Change_After c).

Section parser.
Context `{R : Runtime} `{H : Sha256} `{E : EntityService} `{K : Certificates} `{Pb : Protobuf}
  `{B : !EnvoyConfigBuilder (R := R)}.
Implicit Types actions : ActionsMap.

(** A read of the repository whose error panics. *)
Definition read {A} (m : prog World A) : prog EnvoyWorld A := or_panicf (on_dao m).

(** * Entities above the changed one *)

Definition findVirtualHostsToUpdateByLuaFilter (luaFilter : LuaFilter) : prog World (gset Z) :=
  routes <- FindRoutesByLuaFilter Local (LuaFilter_Name luaFilter) ;;
  ret (list_to_set (Route_VirtualHostId <$> routes)).
Definition findVirtualHostsToUpdateByRateLimit (rateLimit : RateLimit) : prog World (gset Z) :=
  allVHosts <- FindAllVirtualHosts Local ;;
  let vHosts := List.filter (fun v => String.eqb (VirtualHost_RateLimitId v) (RateLimit_Name rateLimit)) allVHosts in
  routes <- FindRoutesByRateLimit Local (RateLimit_Name rateLimit) ;;
  ret (list_to_set ((VirtualHost_Id <$> vHosts) ++ (Route_VirtualHostId <$> routes))).

Definition findRoutesByClusterIfExist (clusterName : string) (namespace : Namespace) : prog EnvoyWorld (list Route) :=
  read (FindRoutesByClusterNamePrefix Local (BuildKeyPrefix clusterName namespace)).
Definition findRoutesByEndpointIfExist (endpoint : Endpoint) : prog EnvoyWorld (list Route) :=
  cluster <- read (FindClusterById Local (Endpoint_ClusterId endpoint)) ;;
  match cluster with
  | Some cluster =>
      read (FindRoutesByClusterNameAndDeploymentVersion Local (Cluster_Name cluster) (Endpoint_DeploymentVersion endpoint))
  | None => ret []
  end.
(** A session belongs to a route, to an endpoint or to a cluster. *)
Definition routes_of_session (statefulSes : StatefulSession) : prog EnvoyWorld (list Route) :=
  route <- read (FindRouteByStatefulSession Local (StatefulSession_Id statefulSes)) ;;
  match route with
  | Some route => ret [route]
  | None =>
      endpoint <- read (FindEndpointByStatefulSession Local (StatefulSession_Id statefulSes)) ;;
      match endpoint with
      | Some endpoint => findRoutesByEndpointIfExist endpoint
      | None =>
          findRoutesByClusterIfExist (StatefulSession_ClusterName statefulSes) (mkNamespace (StatefulSession_Namespace statefulSes))
      end
  end.

(** * The updates of one gateway *)

(** [processChanges] *)
Definition processChanges {S} (t : table) (changes : list Change) (s : S) (updateFunc : S -> entity t -> prog EnvoyWorld S) :
    prog EnvoyWorld S := fold_each changes s (fun s change => e <- changed t change ;; updateFunc s e).

Section change_event.
Context (entityVersions : gmap string string).
Definition version_of (t : table) : string := default "" (entityVersions !! table_name t).

Definition put_cluster (nodeGroup : string) (actions : ActionsMap) (cluster : option Cluster) : prog EnvoyWorld ActionsMap :=
  granularUpdate <- ClusterUpdate nodeGroup (version_of ClusterTable) (ArgCluster cluster) ;;
  ret (ActionsMap_Put actions EntityCluster granularUpdate).
Definition put_listener (nodeGroup : string) (actions : ActionsMap) (listener : Listener) : prog EnvoyWorld ActionsMap :=
  granularUpdate <- ListenerUpdate nodeGroup (version_of ListenerTable) (ArgListener (Some listener)) ;;
  ret (ActionsMap_Put actions EntityListener granularUpdate).
Definition updateRouteConfig (nodeGroup : string) (actions : ActionsMap) (routeConfig : RouteConfiguration) :
    prog EnvoyWorld ActionsMap :=
  granularUpdate <- RouteConfigUpdate nodeGroup (version_of RouteConfigurationTable) (ArgRouteConfig (Some routeConfig)) ;;
  ret (ActionsMap_Put actions EntityRouteConfig granularUpdate).

(** Entities above the changed one. *)
Definition updateVirtualHost (nodeGroup : string) (actions : ActionsMap) (virtualHost : VirtualHost) : prog EnvoyWorld ActionsMap :=
  routeConfig <- read (FindRouteConfigById Local (VirtualHost_RouteConfigurationId virtualHost)) ;;
  match routeConfig with Some c => updateRouteConfig nodeGroup actions c | None => ret actions end.
Definition updateRoute (nodeGroup : string) (actions : ActionsMap) (route : Route) : prog EnvoyWorld ActionsMap :=
  virtualHost <- read (FindVirtualHostById Local (Route_VirtualHostId route)) ;;
  match virtualHost with Some v => updateVirtualHost nodeGroup actions v | None => ret actions end.
Definition update_route_by_id (nodeGroup : string) (actions : ActionsMap) (routeId : Z) : prog EnvoyWorld ActionsMap :=
  route <- read (FindRouteById Local routeId) ;;
  match route with Some r => updateRoute nodeGroup actions r | None => ret actions end.
Definition update_cluster_by_id (nodeGroup : string) (actions : ActionsMap) (clusterId : Z) : prog EnvoyWorld ActionsMap :=
  cluster <- read (FindClusterById Local clusterId) ;;
  match cluster with Some _ => put_cluster nodeGroup actions cluster | None => ret actions end.
Definition updateEndpoint (nodeGroup : string) (actions : ActionsMap) (endpoint : Endpoint) : prog EnvoyWorld ActionsMap :=
  update_cluster_by_id nodeGroup actions (Endpoint_ClusterId endpoint).
(** The clusters of the storage that satisfy [p]. *)
Definition update_clusters (nodeGroup : string) (actions : ActionsMap) (p : Cluster -> bool) (clusters : list Cluster) :
    prog EnvoyWorld ActionsMap :=
  fold_each clusters actions (fun actions cluster =>
    if p cluster then put_cluster nodeGroup actions (Some cluster) else ret actions).

Definition updateListenersAndRouteConfigs (actions : ActionsMap) (nodeGroup : string) : prog EnvoyWorld ActionsMap :=
  routeConfigs <- read (FindRouteConfigsByNodeGroupId Local nodeGroup) ;;
  actions <- fold_each routeConfigs actions (updateRouteConfig nodeGroup) ;;
  listeners <- read (FindListenersByNodeGroupId Local nodeGroup) ;;
  fold_each listeners actions (put_listener nodeGroup).
Definition updateRuntimeConfigs (actions : ActionsMap) (ng : NodeGroup) : prog EnvoyWorld ActionsMap :=
  id <- GetIdByName (NodeGroup_Name ng) ;;
  ret (ActionsMap_Put actions EntityRuntime (mkGranularEntityUpdate (RuntimeUpdateAction (NodeGroup_Name ng)) false id)).

(** A gateway that is new or whose type is another one than before. *)
Definition gateway_type_changed (change : Change) (nodeGroup : NodeGroup) : prog EnvoyWorld bool :=
  match Change_Before change with
  | None => ret true
  | Some _ =>
      before <- cast NodeGroupTable (Change_Before change) ;;
      let before : NodeGroup := before in
      ret (negb (String.eqb (NodeGroup_GatewayType before) (NodeGroup_GatewayType nodeGroup)))
  end.
Definition processNodeGroupChanges (actions : ActionsMap) (changes : list Change) : prog EnvoyWorld ActionsMap :=
  fold_each changes actions (fun actions change =>
    if Deleted change then ret actions
    else
      nodeGroup <- cast NodeGroupTable (Change_After change) ;;
      let nodeGroup : NodeGroup := nodeGroup in
      or_panicf (on_builder (RegisterGateway nodeGroup)) ;;;
      actions <- match Change_Before change with
                 | None => updateRuntimeConfigs actions nodeGroup
                 | Some _ => ret actions
                 end ;;
      typeChanged <- gateway_type_changed change nodeGroup ;;
      if typeChanged : bool then updateListenersAndRouteConfigs actions (NodeGroup_Name nodeGroup) else ret actions).
(** ** Deployment versions *)
Definition processDeploymentVersionChangesForClusters (nodeGroup : string) (actions : ActionsMap) (dv : DeploymentVersion) :
    prog EnvoyWorld ActionsMap :=
  endpoints <- read (FindEndpointsByDeploymentVersion Local (DeploymentVersion_Version dv)) ;;
  match endpoints with
  | [] => ret actions
  | _ =>
      clusters <- read (FindClusterByEndpointIn Local endpoints) ;;
      update_clusters nodeGroup actions (fun _ => true) clusters
  end.
Definition processDeploymentVersionChangesForRouteConfigs (nodeGroup : string) (actions : ActionsMap) (dv : DeploymentVersion) :
    prog EnvoyWorld ActionsMap :=
  routeConfigs <- read (FindRouteConfigsByRouteDeploymentVersion Local (DeploymentVersion_Version dv)) ;;
  fold_each routeConfigs actions (updateRouteConfig nodeGroup).
Definition processDeploymentVersionChanges (nodeGroup : string) (actions : ActionsMap) (changes : list Change) :
    prog EnvoyWorld ActionsMap :=
  fold_each changes actions (fun actions change =>
    if Deleted change then ret actions
    else
      dv <- cast DeploymentVersionTable (Change_After change) ;;
      actions <- processDeploymentVersionChangesForClusters nodeGroup actions dv ;;
      processDeploymentVersionChangesForRouteConfigs nodeGroup actions dv).

(** ** Clusters and what they consist of *)
Definition processClusterNodeGroupDelete (nodeGroup : string) (actions : ActionsMap) (change : Change) :
    prog EnvoyWorld ActionsMap :=
  clusterNodeGroup <- cast ClusterNodeGroupTable (Change_Before change) ;;
  let clusterNodeGroup : ClustersNodeGroup := clusterNodeGroup in
  if String.eqb (ClustersNodeGroup_NodegroupsName clusterNodeGroup) nodeGroup
  then
    cluster <- read (FindClusterById Local (ClustersNodeGroup_ClustersId clusterNodeGroup)) ;;
    match cluster with
    | Some _ =>
        granularUpdate <- ClusterDelete nodeGroup (version_of ClusterTable) (ArgCluster cluster) ;;
        ret (ActionsMap_Put actions EntityCluster granularUpdate)
    | None => ret actions
    end
  else ret actions.
Definition processClusterNodeGroupUpdate (actions : ActionsMap) (change : Change) : prog EnvoyWorld ActionsMap :=
  clusterNodeGroup <- cast ClusterNodeGroupTable (Change_After change) ;;
  let clusterNodeGroup : ClustersNodeGroup := clusterNodeGroup in
  cluster <- read (FindClusterById Local (ClustersNodeGroup_ClustersId clusterNodeGroup)) ;;
  put_cluster (ClustersNodeGroup_NodegroupsName clusterNodeGroup) actions cluster.
Definition processClusterNodeGroupChanges (nodeGroup : string) (actions : ActionsMap) (changes : list Change) :
    prog EnvoyWorld ActionsMap :=
  fold_each changes actions (fun actions change =>
    if Deleted change then processClusterNodeGroupDelete nodeGroup actions change
    else processClusterNodeGroupUpdate actions change).
Definition processClusterChanges (nodeGroup : string) (actions : ActionsMap) (changes : list Change) : prog EnvoyWorld ActionsMap :=
  fold_each changes actions (fun actions change =>
    cluster <- changed ClusterTable change ;;
    granularUpdate <- (if Deleted change then ClusterDelete else ClusterUpdate)
                        nodeGroup (version_of ClusterTable) (ArgCluster (Some (cluster : Cluster))) ;;
    ret (ActionsMap_Put actions EntityCluster granularUpdate)).
Definition processEndpointChanges (nodeGroup : string) (actions : ActionsMap) (changes : list Change) : prog EnvoyWorld ActionsMap :=
  processChanges EndpointTable changes actions (updateEndpoint nodeGroup).
Definition updateHealthCheck (nodeGroup : string) (actions : ActionsMap) (healthCheck : HealthCheck) : prog EnvoyWorld ActionsMap :=
  if (HealthCheck_ClusterId healthCheck =? 0)%Z then ret actions
  else update_cluster_by_id nodeGroup actions (HealthCheck_ClusterId healthCheck).
Definition processHealthCheckChanges (nodeGroup : string) (actions : ActionsMap) (changes : list Change) : prog EnvoyWorld ActionsMap :=
  processChanges HealthCheckTable changes actions (updateHealthCheck nodeGroup).
Definition updateCircuitBreaker (nodeGroup : string) (actions : ActionsMap) (circuitBreaker : CircuitBreaker) :
    prog EnvoyWorld ActionsMap :=
  clusters <- read (FindAllClusters Local) ;;
  update_clusters nodeGroup actions
    (fun cluster => Cluster_CircuitBreakerId cluster =? CircuitBreaker_Id circuitBreaker)%Z clusters.
Definition processCircuitBreakerChanges (nodeGroup : string) (actions : ActionsMap) (changes : list Change) : prog EnvoyWorld ActionsMap :=
  processChanges CircuitBreakerTable changes actions (updateCircuitBreaker nodeGroup).
Definition updateThreshold (nodeGroup : string) (actions : ActionsMap) (threshold : Threshold) : prog EnvoyWorld ActionsMap :=
  circuitBreakers <- read (FindAllCircuitBreakers Local) ;;
  clusters <- read (FindAllClusters Local) ;;
  fold_each circuitBreakers actions (fun actions circuitBreaker =>
    if (CircuitBreaker_ThresholdId circuitBreaker =? Threshold_Id threshold)%Z
    then update_clusters nodeGroup actions
           (fun cluster => Cluster_CircuitBreakerId cluster =? CircuitBreaker_Id circuitBreaker)%Z clusters
    else ret actions).
Definition processThresholdChanges (nodeGroup : string) (actions : ActionsMap) (changes : list Change) : prog EnvoyWorld ActionsMap :=
  processChanges ThresholdTable changes actions (updateThreshold nodeGroup).
Definition updateTcpKeepalive (nodeGroup : string) (actions : ActionsMap) (tcpKeepalive : TcpKeepalive) : prog EnvoyWorld ActionsMap :=
  clusters <- read (FindAllClusters Local) ;;
  update_clusters nodeGroup actions
    (fun cluster => Cluster_TcpKeepaliveId cluster =? TcpKeepalive_Id tcpKeepalive)%Z clusters.
Definition processTcpKeepaliveChanges (nodeGroup : string) (actions : ActionsMap) (changes : list Change) : prog EnvoyWorld ActionsMap :=
  processChanges TcpKeepaliveTable changes actions (updateTcpKeepalive nodeGroup).
Definition hasGlobalTLSConfig (cluster : Cluster) (nodeGroup : string) : prog World bool :=
  tlsConfigs <- GetGlobalTlsConfigs Local cluster [nodeGroup] ;;
  ret (existsb TlsConfig_Enabled tlsConfigs).
Definition updateTlsConfig (nodeGroup : string) (actions : ActionsMap) (tlsConfig : TlsConfig) : prog EnvoyWorld ActionsMap :=
  clusters <- read (FindAllClusters Local) ;;
  fold_each clusters actions (fun actions cluster =>
    hasGlobal <- read (hasGlobalTLSConfig cluster nodeGroup) ;;
    if (Cluster_TLSId cluster =? TlsConfig_Id tlsConfig)%Z || hasGlobal
       || match Cluster_TLS cluster with
          | Some tls => negb (Bool.eqb (TlsConfig_Enabled tls) (TlsConfig_Enabled tlsConfig))
          | None => false
          end
    then put_cluster nodeGroup actions (Some cluster)
    else ret actions).
Definition processTlsConfigChanges (nodeGroup : string) (actions : ActionsMap) (changes : list Change) : prog EnvoyWorld ActionsMap :=
  processChanges TlsConfigTable changes actions (updateTlsConfig nodeGroup).
(** ** Listeners *)
Definition processListenerChanges (nodeGroup : string) (actions : ActionsMap) (changes : list Change) : prog EnvoyWorld ActionsMap :=
  fold_each changes actions (fun actions change =>
    listener <- changed ListenerTable change ;;
    granularUpdate <- (if Deleted change then ListenerDelete else ListenerUpdate)
                        nodeGroup (version_of ListenerTable) (ArgListener (Some (listener : Listener))) ;;
    ret (ActionsMap_Put actions EntityListener granularUpdate)).
Definition processWasmFilterChanges (nodeGroup : string) (actions : ActionsMap) : prog EnvoyWorld ActionsMap :=
  listeners <- read (FindListenersByNodeGroupId Local nodeGroup) ;;
  fold_each listeners actions (put_listener nodeGroup).
Definition processExtAuthzFilterChanges (actions : ActionsMap) (changes : list Change) : prog EnvoyWorld ActionsMap :=
  processChanges ExtAuthzFilterTable changes actions
    (fun actions (entity : ExtAuthzFilter) => updateListenersAndRouteConfigs actions (ExtAuthzFilter_NodeGroup entity)).

(** ** Route configurations and what they consist of *)
Definition processRouteConfigurationChanges (nodeGroup : string) (actions : ActionsMap) (changes : list Change) :
    prog EnvoyWorld ActionsMap :=
  fold_each changes actions (fun actions change =>
    routeConfig <- changed RouteConfigurationTable change ;;
    granularUpdate <- (if Deleted change then RouteConfigDelete else RouteConfigUpdate)
                        nodeGroup (version_of RouteConfigurationTable) (ArgRouteConfig (Some (routeConfig : RouteConfiguration))) ;;
    ret (ActionsMap_Put actions EntityRouteConfig granularUpdate)).
Definition processVirtualHostChanges (nodeGroup : string) (actions : ActionsMap) (changes : list Change) : prog EnvoyWorld ActionsMap :=
  processChanges VirtualHostTable changes actions (updateVirtualHost nodeGroup).
Definition processVirtualHostDomainChanges (nodeGroup : string) (actions : ActionsMap) (changes : list Change) :
    prog EnvoyWorld ActionsMap :=
  processChanges VirtualHostDomainTable changes actions (fun actions (virtualHostDomain : VirtualHostDomain) =>
    virtualHost <- read (FindVirtualHostById Local (VirtualHostDomain_VirtualHostId virtualHostDomain)) ;;
    match virtualHost with Some v => updateVirtualHost nodeGroup actions v | None => ret actions end).
Definition processRouteChanges (nodeGroup : string) (actions : ActionsMap) (changes : list Change) : prog EnvoyWorld ActionsMap :=
  processChanges RouteTable changes actions (updateRoute nodeGroup).
Definition updateHeaderMatcher (nodeGroup : string) (actions : ActionsMap) (headerMatcher : HeaderMatcher) : prog EnvoyWorld ActionsMap :=
  update_route_by_id nodeGroup actions (HeaderMatcher_RouteId headerMatcher).
Definition processHeaderMatcherChanges (nodeGroup : string) (actions : ActionsMap) (changes : list Change) : prog EnvoyWorld ActionsMap :=
  processChanges HeaderMatcherTable changes actions (updateHeaderMatcher nodeGroup).
Definition updateRouteHashPolicy (nodeGroup : string) (actions : ActionsMap) (hashPolicy : HashPolicy) : prog EnvoyWorld ActionsMap :=
  update_route_by_id nodeGroup actions (HashPolicy_RouteId hashPolicy).
Definition updateEndpointHashPolicy (nodeGroup : string) (actions : ActionsMap) (hashPolicy : HashPolicy) : prog EnvoyWorld ActionsMap :=
  endpoint <- read (FindEndpointById Local (HashPolicy_EndpointId hashPolicy)) ;;
  match endpoint with
  | Some endpoint =>
      actions <- updateEndpoint nodeGroup actions endpoint ;;
      routeConfigs <- read (FindRouteConfigsByEndpoint Local endpoint) ;;
      fold_each routeConfigs actions (updateRouteConfig nodeGroup)
  | None => ret actions
  end.
Definition updateHashPolicy (nodeGroup : string) (actions : ActionsMap) (hashPolicy : HashPolicy) : prog EnvoyWorld ActionsMap :=
  actions <- (if (HashPolicy_RouteId hashPolicy =? 0)%Z then ret actions
              else updateRouteHashPolicy nodeGroup actions hashPolicy) ;;
  if (HashPolicy_EndpointId hashPolicy =? 0)%Z then ret actions
  else updateEndpointHashPolicy nodeGroup actions hashPolicy.
Definition processHashPolicyChanges (nodeGroup : string) (actions : ActionsMap) (changes : list Change) : prog EnvoyWorld ActionsMap :=
  processChanges HashPolicyTable changes actions (updateHashPolicy nodeGroup).
Definition updateRetryPolicy (nodeGroup : string) (actions : ActionsMap) (retryPolicy : RetryPolicy) : prog EnvoyWorld ActionsMap :=
  if (RetryPolicy_RouteId retryPolicy =? 0)%Z then ret actions
  else update_route_by_id nodeGroup actions (RetryPolicy_RouteId retryPolicy).
Definition processRetryPolicyChanges (nodeGroup : string) (actions : ActionsMap) (changes : list Change) : prog EnvoyWorld ActionsMap :=
  processChanges RetryPolicyTable changes actions (updateRetryPolicy nodeGroup).

(** ** Lua filters and rate limits: the virtual hosts that use them *)
Definition update_virtual_hosts (nodeGroup : string) (actions : ActionsMap) (vHostsToUpdate : gset Z) : prog EnvoyWorld ActionsMap :=
  ids <- on_dao (range (elements vHostsToUpdate)) ;;
  fold_each ids actions (fun actions vHostId =>
    vHost <- read (FindVirtualHostById Local vHostId) ;;
    vHost <- deref vHost ;;
    updateVirtualHost nodeGroup actions vHost).
Definition updateLuaFilter (nodeGroup : string) (actions : ActionsMap) (luaFilter : LuaFilter) : prog EnvoyWorld ActionsMap :=
  vHostsToUpdate <- read (findVirtualHostsToUpdateByLuaFilter luaFilter) ;;
  update_virtual_hosts nodeGroup actions vHostsToUpdate.
Definition processLuaFilterChanges (nodeGroup : string) (actions : ActionsMap) (changes : list Change) : prog EnvoyWorld ActionsMap :=
  processChanges LuaFilterTable changes actions (updateLuaFilter nodeGroup).
Definition updateRateLimit (nodeGroup : string) (actions : ActionsMap) (rateLimit : RateLimit) : prog EnvoyWorld ActionsMap :=
  vHostsToUpdate <- read (findVirtualHostsToUpdateByRateLimit rateLimit) ;;
  update_virtual_hosts nodeGroup actions vHostsToUpdate.
Definition processRateLimitChanges (nodeGroup : string) (actions : ActionsMap) (changes : list Change) : prog EnvoyWorld ActionsMap :=
  processChanges RateLimitTable changes actions (updateRateLimit nodeGroup).

(** ** Stateful sessions: the routes they belong to *)
Definition updateVirtualHostIfConnectedToNodeGroup (nodeGroup : string) (actions : ActionsMap) (virtualHostId : Z) :
    prog EnvoyWorld ActionsMap :=
  virtualHost <- read (FindVirtualHostById Local virtualHostId) ;;
  virtualHost <- deref virtualHost ;;
  routeConfig <- read (FindRouteConfigById Local (VirtualHost_RouteConfigurationId virtualHost)) ;;
  match routeConfig with
  | Some c => if String.eqb (RouteConfiguration_NodeGroupId c) nodeGroup then updateRouteConfig nodeGroup actions c else ret actions
  | None => ret actions
  end.
Definition processStatefulSessionChanges (nodeGroup : string) (actions : ActionsMap) (changes : list Change) : prog EnvoyWorld ActionsMap :=
  processChanges StatefulSessionTable changes actions (fun actions statefulSes =>
    routes <- routes_of_session statefulSes ;;
    fold_each routes actions (fun actions route =>
      updateVirtualHostIfConnectedToNodeGroup nodeGroup actions (Route_VirtualHostId route))).

(** ** Every table *)
Definition processChange (nodeGroup : string) (actions : ActionsMap) (t : table) (changes : list Change) : prog EnvoyWorld ActionsMap :=
  match t with
  | EnvoyConfigVersionTable => ret actions
  | NodeGroupTable => processNodeGroupChanges actions changes
  | DeploymentVersionTable => processDeploymentVersionChanges nodeGroup actions changes
  | ClusterNodeGroupTable => processClusterNodeGroupChanges nodeGroup actions changes
  | ListenerTable => processListenerChanges nodeGroup actions changes
  | ClusterTable => processClusterChanges nodeGroup actions changes
  | EndpointTable => processEndpointChanges nodeGroup actions changes
  | RouteConfigurationTable => processRouteConfigurationChanges nodeGroup actions changes
  | VirtualHostTable => processVirtualHostChanges nodeGroup actions changes
  | VirtualHostDomainTable => processVirtualHostDomainChanges nodeGroup actions changes
  | RouteTable => processRouteChanges nodeGroup actions changes
  | HeaderMatcherTable => processHeaderMatcherChanges nodeGroup actions changes
  | HashPolicyTable => processHashPolicyChanges nodeGroup actions changes
  | RetryPolicyTable => processRetryPolicyChanges nodeGroup actions changes
  | HealthCheckTable => processHealthCheckChanges nodeGroup actions changes
  | TlsConfigTable => processTlsConfigChanges nodeGroup actions changes
  | TlsConfigsNodeGroupsTable | WasmFilterTable => ret actions
  | ListenersWasmFilterTable => processWasmFilterChanges nodeGroup actions
  | LuaFilterTable => processLuaFilterChanges nodeGroup actions changes
  | StatefulSessionTable => processStatefulSessionChanges nodeGroup actions changes
  | RateLimitTable => processRateLimitChanges nodeGroup actions changes
  | ExtAuthzFilterTable => processExtAuthzFilterChanges actions changes
  | CircuitBreakerTable => processCircuitBreakerChanges nodeGroup actions changes
  | ThresholdTable => processThresholdChanges nodeGroup actions changes
  | TcpKeepaliveTable => processTcpKeepaliveChanges nodeGroup actions changes
  | MicroserviceVersionTable | CompositeSatelliteTable => ret actions
  end.
End change_event.

(** No version is handed on: every update of the event has the version "". *)
Definition ParseChangeEvent (nodeGroup : string) (changes : ChangesByTable) : prog EnvoyWorld ActionsMap :=
  tables <- on_dao (range (map_to_list changes)) ;;
  fold_each tables ∅ (fun actions tableChanges => processChange ∅ nodeGroup actions tableChanges.1 tableChanges.2).
End parser.
