(* ===== verification/EnvoyProcessor.v ===== *)
(** [envoy/cache/event/processor.go] and the [compositeUpdateBuilder]: from the
    changes of a multiple change event, and from the versions of a partial
    reload, to one action per gateway.

    Only the resource types for which the event brings a version are updated:
    an entity of a gateway without a version for its type is left out. *)
From S2P Require Import Prelude GoLib Domain RouteKey Tables MemDb Msaddr Events RegCommon Runtime Dao Entity Util Tls.
From S2P Require Import EnvoyApi EnvoyRoutes EnvoyBuilder EnvoyActions EnvoyEvents.
Open Scope string_scope.

Section processor.
Context `{R : Runtime} `{H : Sha256} `{E : EntityService} `{K : Certificates} `{Pb : Protobuf}
  `{B : !EnvoyConfigBuilder (R := R)}.

(** * The builder *)

(** [nodeGroupEntityVersions] *)
Definition NodeGroupEntityVersions : Type := gmap string (gmap EnvoyEntity string).
Definition put_version (versionsMap : NodeGroupEntityVersions) (v : EnvoyConfigVersion) : result NodeGroupEntityVersions :=
  match EnvoyEntityByTable (EnvoyConfigVersion_EntityType v) with
  | Ok entityType =>
      let byType := default ∅ (versionsMap !! EnvoyConfigVersion_NodeGroup v) in
      Ok (<[EnvoyConfigVersion_NodeGroup v := <[entityType := VersionToString (EnvoyConfigVersion_Version v)]> byType]> versionsMap)
  | Err e => Err e
  | Panic p => Panic p
  end.
Definition getVersion (versionsMap : NodeGroupEntityVersions) (nodeGroup : string) (envoyEntity : EnvoyEntity) : string :=
  match versionsMap !! nodeGroup with
  | Some entityVersions => default "" (entityVersions !! envoyEntity)
  | None => ""
  end.
Definition extractVersionsFromMultipleChangeEvent (changes : ChangesByTable) : prog EnvoyWorld NodeGroupEntityVersions :=
  match default [] (changes !! EnvoyConfigVersionTable) with
  | [] => panic "MultipleChangeEvent changes must contain at least one EnvoyConfigVersion entry"
  | envoyConfigVersionChanges =>
      fold_each envoyConfigVersionChanges ∅ (fun versionsMap change =>
        envoyConfigVersion <- cast EnvoyConfigVersionTable (Change_After change) ;;
        lift (put_version versionsMap envoyConfigVersion))
  end.

Record compositeUpdateBuilder := mkCompositeUpdateBuilder {
  cub_actions : gmap string ActionsMap;
  cub_before : gmap string (list SnapshotUpdateAction)
}.
Implicit Types b : compositeUpdateBuilder.
Definition ActionsByNodeGroup_Put (actionsByNode : gmap string ActionsMap) (nodeGroup : string) (envoyEntityType : EnvoyEntity)
    (granularUpdate : GranularEntityUpdate) : gmap string ActionsMap :=
  <[nodeGroup := ActionsMap_Put (default ∅ (actionsByNode !! nodeGroup)) envoyEntityType granularUpdate]> actionsByNode.
(** The action appended to an existing slice is not stored. *)
Definition addBeforeAction (b : compositeUpdateBuilder) (nodeGroup : string) (beforeAction : SnapshotUpdateAction) :
    compositeUpdateBuilder :=
  match cub_before b !! nodeGroup with
  | Some _ => b
  | None => mkCompositeUpdateBuilder (cub_actions b) (<[nodeGroup := [beforeAction]]> (cub_before b))
  end.

Section composite.
Context (entityVersions : NodeGroupEntityVersions).

Definition updateActionFactory (e : EnvoyEntity) : string -> string -> factory_arg -> prog EnvoyWorld GranularEntityUpdate :=
  match e with
  | EntityCluster => ClusterUpdate
  | EntityRouteConfig => RouteConfigUpdate
  | EntityListener => ListenerUpdate
  | EntityRuntime => RuntimeUpdate
  end.
(** There is no function for the runtime. *)
Definition deleteActionFactory (e : EnvoyEntity) : string -> string -> factory_arg -> prog EnvoyWorld GranularEntityUpdate :=
  match e with
  | EntityCluster => ClusterDelete
  | EntityRouteConfig => RouteConfigDelete
  | EntityListener => ListenerDelete
  | EntityRuntime => fun _ _ _ => panic "nil pointer dereference"
  end.
Definition add_action (factory : EnvoyEntity -> string -> string -> factory_arg -> prog EnvoyWorld GranularEntityUpdate)
    b (nodeGroup : string) (envoyEntityType : EnvoyEntity) (entity : factory_arg) : prog EnvoyWorld compositeUpdateBuilder :=
  let version := getVersion entityVersions nodeGroup envoyEntityType in
  if String.eqb version "" then ret b
  else
    granularUpdate <- factory envoyEntityType nodeGroup version entity ;;
    ret (mkCompositeUpdateBuilder (ActionsByNodeGroup_Put (cub_actions b) nodeGroup envoyEntityType granularUpdate) (cub_before b)).
Definition addUpdateAction := add_action updateActionFactory.
Definition addDeleteAction := add_action deleteActionFactory.

Definition add_cluster (nodeGroup : string) b (cluster : option Cluster) : prog EnvoyWorld compositeUpdateBuilder :=
  addUpdateAction b nodeGroup EntityCluster (ArgCluster cluster).
Definition add_listener (nodeGroup : string) b (listener : Listener) : prog EnvoyWorld compositeUpdateBuilder :=
  addUpdateAction b nodeGroup EntityListener (ArgListener (Some listener)).
Definition add_route_config (nodeGroup : string) b (routeConfig : RouteConfiguration) : prog EnvoyWorld compositeUpdateBuilder :=
  addUpdateAction b nodeGroup EntityRouteConfig (ArgRouteConfig (Some routeConfig)).

(** ** Entities above the changed one *)
Definition updateClusterInternal b (cluster : option Cluster) : prog EnvoyWorld compositeUpdateBuilder :=
  match cluster with
  | None => ret b
  | Some c =>
      nodeGroups <- read (FindNodeGroupsByCluster Local c) ;;
      fold_each nodeGroups b (fun b nodeGroup => nodeGroup <- deref nodeGroup ;; add_cluster (NodeGroup_Name nodeGroup) b cluster)
  end.
Definition updateCluster b (clusterId : Z) : prog EnvoyWorld compositeUpdateBuilder :=
  cluster <- read (FindClusterById Local clusterId) ;; updateClusterInternal b cluster.
Definition updateRouteConfig b (routeConfigId : Z) : prog EnvoyWorld compositeUpdateBuilder :=
  routeConfig <- read (FindRouteConfigById Local routeConfigId) ;;
  match routeConfig with Some c => add_route_config (RouteConfiguration_NodeGroupId c) b c | None => ret b end.
Definition updateVirtualHost b (virtualHostId : Z) : prog EnvoyWorld compositeUpdateBuilder :=
  vHost <- read (FindVirtualHostById Local virtualHostId) ;;
  match vHost with Some v => updateRouteConfig b (VirtualHost_RouteConfigurationId v) | None => ret b end.
Definition updateRoute b (routeId : Z) : prog EnvoyWorld compositeUpdateBuilder :=
  route <- read (FindRouteById Local routeId) ;;
  match route with Some r => updateVirtualHost b (Route_VirtualHostId r) | None => ret b end.
Definition updateEndpoint b (endpointId : Z) : prog EnvoyWorld compositeUpdateBuilder :=
  endpoint <- read (FindEndpointById Local endpointId) ;;
  match endpoint with Some e => updateCluster b (Endpoint_ClusterId e) | None => ret b end.
Definition updateListenersAndRouteConfigs b (nodeGroup : string) : prog EnvoyWorld compositeUpdateBuilder :=
  routeConfigs <- read (FindRouteConfigsByNodeGroupId Local nodeGroup) ;;
  b <- fold_each routeConfigs b (add_route_config nodeGroup) ;;
  listeners <- read (FindListenersByNodeGroupId Local nodeGroup) ;;
  fold_each listeners b (add_listener nodeGroup).

(** ** Changes of a table *)
Definition processNodeGroupChanges b (changes : list Change) : prog EnvoyWorld compositeUpdateBuilder :=
  fold_each changes b (fun b change =>
    if Deleted change then ret b
    else
      nodeGroup <- cast NodeGroupTable (Change_After change) ;;
      let nodeGroup : NodeGroup := nodeGroup in
      or_panicf (on_builder (RegisterGateway nodeGroup)) ;;;
      b <- match Change_Before change with
           | None => addUpdateAction b (NodeGroup_Name nodeGroup) EntityRuntime (ArgNodeGroup nodeGroup)
           | Some _ => ret b
           end ;;
      typeChanged <- gateway_type_changed change nodeGroup ;;
      if typeChanged : bool then updateListenersAndRouteConfigs b (NodeGroup_Name nodeGroup) else ret b).
Definition update_version b (dv : DeploymentVersion) : prog EnvoyWorld compositeUpdateBuilder :=
  endpoints <- read (FindEndpointsByDeploymentVersion Local (DeploymentVersion_Version dv)) ;;
  b <- match endpoints with
       | [] => ret b
       | _ =>
           clusters <- read (FindClusterByEndpointIn Local endpoints) ;;
           fold_each clusters b (fun b cluster => updateClusterInternal b (Some cluster))
       end ;;
  routeConfigs <- read (FindRouteConfigsByRouteDeploymentVersion Local (DeploymentVersion_Version dv)) ;;
  fold_each routeConfigs b (fun b c => add_route_config (RouteConfiguration_NodeGroupId c) b c).
(** A deleted version ends the loop. *)
Fixpoint processDeploymentVersionChanges b (changes : list Change) : prog EnvoyWorld compositeUpdateBuilder :=
  match changes with
  | [] => ret b
  | change :: rest =>
      if Deleted change then ret b
      else
        dv <- cast DeploymentVersionTable (Change_After change) ;;
        b <- update_version b dv ;;
        processDeploymentVersionChanges b rest
  end.
(** The deletion hands on a struct where the factory expects a pointer. *)
Definition processClusterNodeGroupChanges b (changes : list Change) : prog EnvoyWorld compositeUpdateBuilder :=
  fold_each changes b (fun b change =>
    if Deleted change
    then
      clusterNodeGroup <- cast ClusterNodeGroupTable (Change_Before change) ;;
      let clusterNodeGroup : ClustersNodeGroup := clusterNodeGroup in
      let cluster := (zero : Cluster) <| Cluster_Id := ClustersNodeGroup_ClustersId clusterNodeGroup |> in
      addDeleteAction b (ClustersNodeGroup_NodegroupsName clusterNodeGroup) EntityCluster (ArgClusterStruct cluster)
    else
      clusterNodeGroup <- cast ClusterNodeGroupTable (Change_After change) ;;
      let clusterNodeGroup : ClustersNodeGroup := clusterNodeGroup in
      cluster <- read (FindClusterById Local (ClustersNodeGroup_ClustersId clusterNodeGroup)) ;;
      add_cluster (ClustersNodeGroup_NodegroupsName clusterNodeGroup) b cluster).
(** A deleted cluster is left to the changes of its bindings to gateways. *)
Definition processClusterChanges b (changes : list Change) : prog EnvoyWorld compositeUpdateBuilder :=
  fold_each changes b (fun b change =>
    if Deleted change then ret b
    else
      cluster <- cast ClusterTable (Change_After change) ;;
      updateClusterInternal b (Some cluster)).
Definition processEndpointChanges b (changes : list Change) : prog EnvoyWorld compositeUpdateBuilder :=
  processChanges EndpointTable changes b (fun b (endpoint : Endpoint) => updateCluster b (Endpoint_ClusterId endpoint)).
Definition processHealthCheckChanges b (changes : list Change) : prog EnvoyWorld compositeUpdateBuilder :=
  processChanges HealthCheckTable changes b (fun b (healthCheck : HealthCheck) => updateCluster b (HealthCheck_ClusterId healthCheck)).
Definition processTcpKeepaliveChanges b (changes : list Change) : prog EnvoyWorld compositeUpdateBuilder :=
  processChanges TcpKeepaliveTable changes b (fun b (tcpKeepalive : TcpKeepalive) =>
    clusters <- read (FindAllClusters Local) ;;
    fold_each clusters b (fun b cluster =>
      if (Cluster_TcpKeepaliveId cluster =? TcpKeepalive_Id tcpKeepalive)%Z then updateClusterInternal b (Some cluster) else ret b)).

Definition processListenerChanges b (changes : list Change) : prog EnvoyWorld compositeUpdateBuilder :=
  fold_each changes b (fun b change =>
    listener <- changed ListenerTable change ;;
    let listener : Listener := listener in
    (if Deleted change then addDeleteAction else addUpdateAction)
      b (Listener_NodeGroupId listener) EntityListener (ArgListener (Some listener))).
Definition update_listener b (listenerId : Z) : prog EnvoyWorld compositeUpdateBuilder :=
  listener <- read (FindListenerById Local listenerId) ;;
  listener <- deref listener ;;
  add_listener (Listener_NodeGroupId listener) b listener.
Definition processWasmFilterChanges b (changes : list Change) : prog EnvoyWorld compositeUpdateBuilder :=
  processChanges WasmFilterTable changes b (fun b (wasmFilter : WasmFilter) =>
    listenerIds <- read (FindListenerIdsByWasmFilterId Local (WasmFilter_Id wasmFilter)) ;;
    fold_each listenerIds b update_listener).
Definition processListenersWasmFilterChanges b (changes : list Change) : prog EnvoyWorld compositeUpdateBuilder :=
  processChanges ListenersWasmFilterTable changes b (fun b (listenersWasmFilter : ListenersWasmFilter) =>
    update_listener b (ListenersWasmFilter_ListenerId listenersWasmFilter)).
Definition processExtAuthzFilterChanges b (changes : list Change) : prog EnvoyWorld compositeUpdateBuilder :=
  processChanges ExtAuthzFilterTable changes b (fun b (entity : ExtAuthzFilter) =>
    updateListenersAndRouteConfigs b (ExtAuthzFilter_NodeGroup entity)).

Definition processRouteConfigurationChanges b (changes : list Change) : prog EnvoyWorld compositeUpdateBuilder :=
  fold_each changes b (fun b change =>
    routeConfig <- changed RouteConfigurationTable change ;;
    let routeConfig : RouteConfiguration := routeConfig in
    (if Deleted change then addDeleteAction else addUpdateAction)
      b (RouteConfiguration_NodeGroupId routeConfig) EntityRouteConfig (ArgRouteConfig (Some routeConfig))).
Definition processVirtualHostChanges b (changes : list Change) : prog EnvoyWorld compositeUpdateBuilder :=
  processChanges VirtualHostTable changes b (fun b (virtualHost : VirtualHost) =>
    updateRouteConfig b (VirtualHost_RouteConfigurationId virtualHost)).
Definition processVirtualHostDomainChanges b (changes : list Change) : prog EnvoyWorld compositeUpdateBuilder :=
  processChanges VirtualHostDomainTable changes b (fun b (virtualHostDomain : VirtualHostDomain) =>
    updateVirtualHost b (VirtualHostDomain_VirtualHostId virtualHostDomain)).
Definition processRouteChanges b (changes : list Change) : prog EnvoyWorld compositeUpdateBuilder :=
  processChanges RouteTable changes b (fun b (route : Route) => updateVirtualHost b (Route_VirtualHostId route)).
Definition processHeaderMatcherChanges b (changes : list Change) : prog EnvoyWorld compositeUpdateBuilder :=
  processChanges HeaderMatcherTable changes b (fun b (headerMatcher : HeaderMatcher) =>
    updateRoute b (HeaderMatcher_RouteId headerMatcher)).
Definition processHashPolicyChanges b (changes : list Change) : prog EnvoyWorld compositeUpdateBuilder :=
  processChanges HashPolicyTable changes b (fun b (hashPolicy : HashPolicy) =>
    if negb (HashPolicy_RouteId hashPolicy =? 0)%Z then updateRoute b (HashPolicy_RouteId hashPolicy)
    else if negb (HashPolicy_EndpointId hashPolicy =? 0)%Z then updateEndpoint b (HashPolicy_EndpointId hashPolicy)
    else ret b).
Definition processRetryPolicyChanges b (changes : list Change) : prog EnvoyWorld compositeUpdateBuilder :=
  processChanges RetryPolicyTable changes b (fun b (retryPolicy : RetryPolicy) => updateRoute b (RetryPolicy_RouteId retryPolicy)).
Definition update_virtual_hosts b (vHostsToUpdate : gset Z) : prog EnvoyWorld compositeUpdateBuilder :=
  ids <- on_dao (range (elements vHostsToUpdate)) ;; fold_each ids b updateVirtualHost.
Definition processLuaFilterChanges b (changes : list Change) : prog EnvoyWorld compositeUpdateBuilder :=
  processChanges LuaFilterTable changes b (fun b luaFilter =>
    vHostsToUpdate <- read (findVirtualHostsToUpdateByLuaFilter luaFilter) ;; update_virtual_hosts b vHostsToUpdate).
Definition processRateLimitChanges b (changes : list Change) : prog EnvoyWorld compositeUpdateBuilder :=
  processChanges RateLimitTable changes b (fun b rateLimit =>
    vHostsToUpdate <- read (findVirtualHostsToUpdateByRateLimit rateLimit) ;; update_virtual_hosts b vHostsToUpdate).
Definition processStatefulSessionCookieChanges b (changes : list Change) : prog EnvoyWorld compositeUpdateBuilder :=
  processChanges StatefulSessionTable changes b (fun b statefulSes =>
    routes <- routes_of_session statefulSes ;;
    fold_each routes b (fun b route => updateVirtualHost b (Route_VirtualHostId route))).

(** ** Every table *)
Definition withChanges b (t : table) (changes : list Change) : prog EnvoyWorld compositeUpdateBuilder :=
  match t with
  | EnvoyConfigVersionTable => ret b
  | NodeGroupTable => processNodeGroupChanges b changes
  | DeploymentVersionTable => processDeploymentVersionChanges b changes
  | ClusterNodeGroupTable => processClusterNodeGroupChanges b changes
  | ListenerTable => processListenerChanges b changes
  | ClusterTable => processClusterChanges b changes
  | EndpointTable => processEndpointChanges b changes
  | RouteConfigurationTable => processRouteConfigurationChanges b changes
  | VirtualHostTable => processVirtualHostChanges b changes
  | VirtualHostDomainTable => processVirtualHostDomainChanges b changes
  | RouteTable => processRouteChanges b changes
  | HeaderMatcherTable => processHeaderMatcherChanges b changes
  | HashPolicyTable => processHashPolicyChanges b changes
  | RetryPolicyTable => processRetryPolicyChanges b changes
  | HealthCheckTable => processHealthCheckChanges b changes
  | WasmFilterTable => processWasmFilterChanges b changes
  | ListenersWasmFilterTable => processListenersWasmFilterChanges b changes
  | LuaFilterTable => processLuaFilterChanges b changes
  | StatefulSessionTable => processStatefulSessionCookieChanges b changes
  | RateLimitTable => processRateLimitChanges b changes
  | ExtAuthzFilterTable => processExtAuthzFilterChanges b changes
  | TcpKeepaliveTable => processTcpKeepaliveChanges b changes
  | MicroserviceVersionTable | TlsConfigTable | TlsConfigsNodeGroupsTable | CompositeSatelliteTable
  | CircuitBreakerTable | ThresholdTable => ret b
  end.

(** ** Partial reload *)

(** [continue] on a failed read: the entities of the type stay away. *)
Definition read_or_skip {A} (m : prog World (list A)) : prog EnvoyWorld (list A) :=
  l <- try_ok (on_dao m) ;; ret (default [] l).
Definition reload_type b (nodeGroup : string) (envoyType : EnvoyEntity) (version : string) : prog EnvoyWorld compositeUpdateBuilder :=
  typeURL <- lift (ToTypeURL envoyType) ;;
  let b := addBeforeAction b nodeGroup (DeleteAllByTypeAction version typeURL) in
  match envoyType with
  | EntityCluster =>
      clusters <- read_or_skip (FindClusterByNodeGroup Local ((zero : NodeGroup) <| NodeGroup_Name := nodeGroup |>)) ;;
      fold_each clusters b (add_cluster nodeGroup)
  | EntityListener =>
      listeners <- read_or_skip (FindListenersByNodeGroupId Local nodeGroup) ;;
      fold_each listeners b (add_listener nodeGroup)
  | EntityRouteConfig =>
      routeConfigs <- read_or_skip (FindRouteConfigsByNodeGroupId Local nodeGroup) ;;
      fold_each routeConfigs b (add_route_config nodeGroup)
  | EntityRuntime => ret b
  end.
Definition withReloadForVersions b : prog EnvoyWorld compositeUpdateBuilder :=
  nodeGroups <- on_dao (range (map_to_list entityVersions)) ;;
  fold_each nodeGroups b (fun b ng =>
    types <- on_dao (range (map_to_list ng.2)) ;;
    fold_each types b (fun b tv => reload_type b ng.1 tv.1 tv.2)).
End composite.

(** ** The actions of the gateways *)
Definition compose_actions (updateActions : list SnapshotUpdateAction) : result SnapshotUpdateAction :=
  match updateActions with
  | [] => Panic "index out of range"
  | [action] => Ok action
  | _ => Ok (CompositeUpdateAction updateActions)
  end.
Definition build b : prog EnvoyWorld (gmap string SnapshotUpdateAction) :=
  let merged := filter (fun kv => negb (length kv.2 =? 0)%nat) (cub_before b) in
  granular <- on_dao (range (map_to_list (cub_actions b))) ;;
  merged <- fold_each granular merged (fun merged ng =>
    composite <- CompositeAction ng.2 ;;
    ret (<[ng.1 := (default [] (merged !! ng.1) ++ [composite])%list]> merged)) ;;
  fold_each (map_to_list merged) ∅ (fun actions ng =>
    action <- lift (compose_actions ng.2) ;; ret (<[ng.1 := action]> actions)).

Definition new_builder : compositeUpdateBuilder := mkCompositeUpdateBuilder ∅ ∅.
Definition ParsePartialReloadEvent (envoyVersions : list EnvoyConfigVersion) : prog EnvoyWorld (gmap string SnapshotUpdateAction) :=
  versionsByNodeGroup <- fold_each envoyVersions ∅ (fun m v => lift (put_version m v)) ;;
  b <- withReloadForVersions versionsByNodeGroup new_builder ;;
  build b.
Definition ParseMultipleChangeEvent (changes : ChangesByTable) : prog EnvoyWorld (gmap string SnapshotUpdateAction) :=
  versionsByNodeGroup <- extractVersionsFromMultipleChangeEvent changes ;;
  tables <- on_dao (range (map_to_list changes)) ;;
  b <- fold_each tables new_builder (fun b tc => withChanges versionsByNodeGroup b tc.1 tc.2) ;;
  build b.
End processor.
