(* ===== verification/EnvoyManager.v ===== *)
(** [envoy/cache/manager.go]: the update manager, which performs the actions of
    events on the snapshots of the gateways and fills them at start-up.

    The updates of one gateway exclude each other ([nodeGroupLocks]); an update
    is one step here. *)
From S2P Require Import Prelude GoLib Domain RouteKey Tables MemDb Msaddr Events RegCommon Runtime Dao Entity Util Tls.
From S2P Require Import EnvoyApi EnvoyProps EnvoyRoutes EnvoyBuilder EnvoyActions EnvoyEvents EnvoyProcessor.
Open Scope string_scope.

Section manager.
Context `{R : Runtime} `{H : Sha256} `{E : EntityService} `{K : Certificates} `{Pb : Protobuf}
  `{B : !EnvoyConfigBuilder (R := R)} `{SC : SnapshotCache} `{T : TlsMode}.

(** * One snapshot *)

Definition generateEmptySnapshot (version : string) : Snapshot := fun _ => mkResources version ∅.
(** The cache keeps the snapshot, tells the open streams and may fail at that. *)
Definition SetSnapshot (nodeGroup : string) (snapshot : Snapshot) : prog EnvoyWorld unit :=
  n <- gets (fun w => length (ew_sets w)) ;;
  modify (fun w => add_set nodeGroup snapshot (set_cache (<[nodeGroup := snapshot]> (ew_cache w)) w)) ;;;
  lift (answer_watches n).
Definition ensure_snapshot (nodeGroup : string) : prog EnvoyWorld unit :=
  cache <- gets ew_cache ;;
  match cache !! nodeGroup with
  | Some _ => ret tt
  | None => ignore_err (SetSnapshot nodeGroup (generateEmptySnapshot "0"))
  end.
Definition UpdateSnapshot (nodeGroup : string) (action : SnapshotUpdateAction) : prog EnvoyWorld unit :=
  ensure_snapshot nodeGroup ;;;
  Perform nodeGroup action ;;;
  newSnapshot <- get_snapshot nodeGroup ;;
  SetSnapshot nodeGroup newSnapshot.

(** * Events *)

Definition HandleChangeEvent (nodeGroup : string) (changes : ChangesByTable) : prog EnvoyWorld unit :=
  actions <- ParseChangeEvent nodeGroup changes ;;
  composite <- CompositeAction actions ;;
  ignore_err (UpdateSnapshot nodeGroup composite).
Definition performUpdateActions (actionsByNodeGroup : gmap string SnapshotUpdateAction) : prog EnvoyWorld unit :=
  byNodeGroup <- on_dao (range (map_to_list actionsByNodeGroup)) ;;
  for_each byNodeGroup (fun na => ignore_err (UpdateSnapshot na.1 na.2)).
Definition HandleMultipleChangeEvent (changes : ChangesByTable) : prog EnvoyWorld unit :=
  actionsByNodeGroup <- ParseMultipleChangeEvent changes ;; performUpdateActions actionsByNodeGroup.
Definition HandlePartialReloadEvent (envoyVersions : list EnvoyConfigVersion) : prog EnvoyWorld unit :=
  actionsByNodeGroup <- ParsePartialReloadEvent envoyVersions ;; performUpdateActions actionsByNodeGroup.
Definition UpdateListener (nodeGroup : string) (version : Z) (value : Listener) (namespaceMapping : string) : prog EnvoyWorld unit :=
  UpdateSnapshot nodeGroup (ListenerUpdateAction (VersionToString version) value namespaceMapping).

(** * The whole configuration *)

(** The version of a resource type of a gateway; a first one is saved, and
    [None] is a save that failed. *)
Definition load_version (nodeGroup : NodeGroup) (t : table) : prog EnvoyWorld (option string) :=
  configVersion <- read (FindEnvoyConfigVersion Local (NodeGroup_Name nodeGroup) (table_name t)) ;;
  match configVersion with
  | Some v => ret (Some (VersionToString (EnvoyConfigVersion_Version v)))
  | None =>
      now <- on_dao Now ;;
      let v := NewEnvoyConfigVersion now (NodeGroup_Name nodeGroup) (table_name t) in
      saved <- try_ok (on_dao (WithWTx (SaveEnvoyConfigVersion InTx v))) ;;
      ret match saved with Some _ => Some (VersionToString (EnvoyConfigVersion_Version v)) | None => None end
  end.
Definition load_actions {A} (nodeGroup : NodeGroup) (t : table) (found : list A) (update : string -> A -> prog EnvoyWorld SnapshotUpdateAction) :
    prog EnvoyWorld (list SnapshotUpdateAction) :=
  match found with
  | [] => ret []
  | _ =>
      version <- load_version nodeGroup t ;;
      match version with Some v => map_each found (update v) | None => ret [] end
  end.
Definition loadListenersForNodeGroup (nodeGroup : NodeGroup) : prog EnvoyWorld (list SnapshotUpdateAction) :=
  listeners <- read (FindListenersByNodeGroupId Local (NodeGroup_Name nodeGroup)) ;;
  load_actions nodeGroup ListenerTable listeners (fun version listener => ret (ListenerUpdateAction version listener "")).
Definition loadClustersForNodeGroup (nodeGroup : NodeGroup) : prog EnvoyWorld (list SnapshotUpdateAction) :=
  clusters <- read (FindClusterByNodeGroup Local nodeGroup) ;;
  load_actions nodeGroup ClusterTable clusters (fun version cluster =>
    ret (ClusterUpdateAction (NodeGroup_Name nodeGroup) version cluster)).
Definition loadRouteConfigsForNodeGroup (nodeGroup : NodeGroup) : prog EnvoyWorld (list SnapshotUpdateAction) :=
  routeConfigs <- read (FindRouteConfigsByNodeGroupId Local (NodeGroup_Name nodeGroup)) ;;
  load_actions nodeGroup RouteConfigurationTable routeConfigs
    (fun version routeConfig => ret (RouteConfigUpdateAction version routeConfig)).
Definition loadRuntimesForNodeGroup (nodeGroup : NodeGroup) : list SnapshotUpdateAction :=
  [RuntimeUpdateAction (NodeGroup_Name nodeGroup)].

Definition load_node_group (nodeGroup : NodeGroup) : prog EnvoyWorld (list SnapshotUpdateAction) :=
  or_panicf (on_builder (RegisterGateway nodeGroup)) ;;;
  listenerActions <- loadListenersForNodeGroup nodeGroup ;;
  clusterActions <- loadClustersForNodeGroup nodeGroup ;;
  routeCfgActions <- loadRouteConfigsForNodeGroup nodeGroup ;;
  ret (listenerActions ++ clusterActions ++ routeCfgActions ++ loadRuntimesForNodeGroup nodeGroup)%list.
Definition InitConfig : prog EnvoyWorld unit :=
  nodeGroups <- read (FindAllNodeGroups Local) ;;
  actionsByNodeGroup <- fold_each nodeGroups (∅ : gmap string (list SnapshotUpdateAction)) (fun m nodeGroup =>
    actions <- load_node_group nodeGroup ;; ret (<[NodeGroup_Name nodeGroup := actions]> m)) ;;
  byNodeGroup <- on_dao (range (map_to_list actionsByNodeGroup)) ;;
  for_each byNodeGroup (fun na => or_panicf (UpdateSnapshot na.1 (CompositeUpdateAction na.2))).
(** [recover]: whatever went wrong, the result is [false]. *)
Definition initConfigWithRecovery : prog EnvoyWorld bool := fun w =>
  match InitConfig w with
  | (Ok _, w') => (Ok true, w')
  | (_, w') => (Ok false, w')
  end.
Definition HandleReloadEvent : prog EnvoyWorld unit := initConfigWithRecovery ;;; ret tt.

Definition maxAttempts : nat := 40.
Fixpoint init_attempts (attemptsLeft : nat) : prog EnvoyWorld unit :=
  match attemptsLeft with
  | O => panic "Envoy configuration initialization has failed"
  | S n =>
      initialized <- initConfigWithRecovery ;;
      if initialized : bool then ret tt
      else on_dao tick ;;; init_attempts n
  end.
Definition InitConfigWithRetry : prog EnvoyWorld unit := init_attempts maxAttempts.
End manager.
