(* ===== verification/EnvoyRoutesSpec.v ===== *)
(** Which version serves a request: the routes of one key in all their versions,
    as the transformer and the order for Envoy leave them. *)
From S2P Require Import Prelude GoLib Domain RouteSort RouteKey Tables MemDb Msaddr Events Runtime.
From S2P Require Import RuntimeModel Dao Entity Util EnvoyApi EnvoyProps EnvoyRoutes.
Open Scope string_scope.

(** * What a request meets *)

(** Envoy takes the first route whose header matchers accept the request; the
    routes of a key differ in the [x-version] matcher only. *)
Definition accepts (version : option string) (r : Route) : bool :=
  forallb (fun m => if strings_EqualFold "x-version" (HeaderMatcher_Name m)
                    then match version with Some v => String.eqb (HeaderMatcher_ExactMatch m) v | None => false end
                    else true) (Route_HeaderMatchers r).
Definition envoy_selects (version : option string) (routes : list Route) : option Route :=
  List.find (accepts version) (OrderRoutesForEnvoy routes).
(** What a route does with a request. *)
Definition behaviour (r : Route) : Z + RouteAction :=
  if (Route_DirectResponseCode r =? 0)%Z then inr (Route_RouteAction r) else inl (Route_DirectResponseCode r).

Definition version_of_route (r : Route) : option string := DeploymentVersion_Version <$> Route_DeploymentVersionVal r.
Definition is_active (r : Route) : bool :=
  match Route_DeploymentVersionVal r with Some dv => String.eqb (DeploymentVersion_Stage dv) "ACTIVE" | None => false end.

(** Routes of one key: versions are loaded and distinct, one is active, and no
    route has matchers on the version or the anchor of its own. *)
Record route_group (active : Route) (g : list Route) : Prop := {
  rg_loaded : forall r, r ∈ g -> Route_DeploymentVersionVal r <> None;
  rg_versions : NoDup (version_of_route <$> g);
  rg_active : List.filter is_active g = [active];
  rg_plain : forall r, r ∈ g -> has_header "x-version" r = false /\ has_header "x-anchor" r = false
}.

Lemma elem_of_List_filter {A} (f : A -> bool) l x : x ∈ List.filter f l <-> x ∈ l /\ f x = true.
Proof. by rewrite !list_elem_of_In, filter_In. Qed.
Lemma is_active_stage r dv :
  Route_DeploymentVersionVal r = Some dv -> is_active r = String.eqb (DeploymentVersion_Stage dv) "ACTIVE".
Proof. intros E. unfold is_active. by rewrite E. Qed.

Section transform.
Context `{R : Runtime}.

(** * The transformer on a group *)

Lemma route_stage_run r dv (w : World) :
  Route_DeploymentVersionVal r = Some dv -> route_stage r w = (Ok (DeploymentVersion_Stage dv), w).
Proof. intros E. unfold route_stage, bind, deref. by rewrite E. Qed.

Lemma GetActiveVersionRoute_run g (w : World) :
  (forall r, r ∈ g -> Route_DeploymentVersionVal r <> None) ->
  GetActiveVersionRoute g w = (Ok (head (List.filter is_active g)), w).
Proof.
  induction g as [|r g IH]; intros L; [done|]. cbn [GetActiveVersionRoute List.filter].
  assert (Lr := L r ltac:(left)). destruct (Route_DeploymentVersionVal r) as [dv|] eqn:E; [|done].
  unfold bind. rewrite (route_stage_run r dv w E), (is_active_stage r dv E).
  destruct (String.eqb _ "ACTIVE"); [done|]. apply IH. intros x Hx. apply L. by right.
Qed.
Lemma GetNoActiveVersionRoutes_run g (w : World) :
  (forall r, r ∈ g -> Route_DeploymentVersionVal r <> None) ->
  GetNoActiveVersionRoutes g w = (Ok (List.filter (fun r => negb (is_active r)) g), w).
Proof.
  induction g as [|r g IH]; intros L; [done|]. cbn [GetNoActiveVersionRoutes List.filter].
  assert (Lr := L r ltac:(left)). destruct (Route_DeploymentVersionVal r) as [dv|] eqn:E; [|done].
  unfold bind at 1. rewrite (route_stage_run r dv w E). unfold bind. rewrite IH by (intros x Hx; apply L; by right).
  rewrite (is_active_stage r dv E). by destruct (String.eqb _ "ACTIVE").
Qed.

(** The copy of a route with the matcher of its version. *)
Definition versioned_copy (r : Route) : Route :=
  match version_of_route r with
  | Some v => r <| Route_HeaderMatchers := (Route_HeaderMatchers r ++ [x_version v])%list |>
  | None => r
  end.
Lemma versioned_run r (w : World) :
  Route_DeploymentVersionVal r <> None -> versioned r w = (Ok (versioned_copy r), w).
Proof.
  intros L. unfold versioned, versioned_copy, version_of_route, bind, deref.
  by destruct (Route_DeploymentVersionVal r).
Qed.
Lemma apply_generic_loop a others acc (w : World) :
  (forall r, r ∈ others -> Route_DeploymentVersionVal r <> None) ->
  fold_each others acc (fun result route =>
    if differs_from a route
    then newRoute <- versioned route ;; ret (result ++ [newRoute])%list
    else ret result) w
  = (Ok (acc ++ (versioned_copy <$> List.filter (differs_from a) others))%list, w).
Proof.
  revert acc. induction others as [|r others IH]; intros acc L.
  - cbn. by rewrite app_nil_r.
  - assert (Lr := L r ltac:(left)). assert (Ls : forall x, x ∈ others -> Route_DeploymentVersionVal x <> None)
      by (intros x Hx; apply L; by right).
    cbn [fold_each List.filter]. destruct (differs_from a r).
    + rewrite (bind_run _ _ w (acc ++ [versioned_copy r])%list w), IH by (try done; by rewrite (bind_run _ _ w _ w (versioned_run r w Lr))).
      cbn. by rewrite <- app_assoc.
    + rewrite (bind_run _ _ w acc w) by done. by apply IH.
Qed.

(** The active route and a copy of every route that differs from it. *)
Definition group_routes (active : Route) (g : list Route) : list Route :=
  active :: (versioned_copy <$> List.filter (differs_from active) (List.filter (fun r => negb (is_active r)) g)).

Lemma HasActiveVersion_run active g (w : World) :
  route_group active g -> HasActiveVersion g w = (Ok true, w).
Proof.
  intros G. unfold HasActiveVersion. erewrite bind_run by (apply GetActiveVersionRoute_run, G).
  by rewrite (rg_active _ _ G).
Qed.
Lemma apply_generic_run active g (w : World) :
  route_group active g -> apply_generic g w = (Ok (group_routes active g), w).
Proof.
  intros G. assert (L := rg_loaded _ _ G). unfold apply_generic.
  erewrite bind_run by (by apply GetActiveVersionRoute_run). rewrite (rg_active _ _ G). cbn [head deref].
  rewrite (bind_run _ _ w active w) by done.
  erewrite bind_run by (by apply GetNoActiveVersionRoutes_run).
  apply apply_generic_loop. intros r [Hr _]%elem_of_List_filter. by apply L.
Qed.
Lemma transform_group_run active g (w : World) :
  route_group active g -> transform_group DefaultRouteTransformer g [] w = (Ok (group_routes active g), w).
Proof.
  intros G. assert (HasA := HasActiveVersion_run active g w G).
  unfold transform_group, DefaultRouteTransformer, fold_each, IsApplicable.
  destruct (IsMultiVersioned g) eqn:M.
  - erewrite bind_run by (erewrite bind_run by done; done).
    erewrite bind_run by (erewrite bind_run by exact HasA; cbn [Apply];
      erewrite bind_run by (by apply apply_generic_run); done).
    by erewrite bind_run by (erewrite bind_run by (erewrite bind_run by exact HasA; done); done).
  - assert (g = [active]) as ->.
    { destruct g as [|r [|? ?]]; [by discriminate (rg_active _ _ G)| |done].
      assert (A := rg_active _ _ G). cbn in A. by destruct (is_active r); simplify_eq. }
    assert (is_active active = true) as Act.
    { assert (A := rg_active _ _ G). cbn in A. by destruct (is_active active). }
    erewrite bind_run by (erewrite bind_run by exact HasA; done).
    erewrite bind_run by (erewrite bind_run by done; done).
    erewrite bind_run by (erewrite bind_run by (erewrite bind_run by exact HasA; done); done).
    unfold group_routes. cbn [List.filter]. by rewrite Act.
Qed.
End transform.

(** * What Envoy selects *)

Lemma find_sorted (less : Route -> Route -> bool) f l :
  match List.find f (SliceStable less l) with
  | Some x => x ∈ l /\ f x = true
  | None => forall x, x ∈ l -> f x = false
  end.
Proof.
  assert (P := SliceStable_perm less l). destruct (List.find f _) eqn:F.
  - apply List.find_some in F as [Hin Hf]. split; [|done]. rewrite <- P. by apply list_elem_of_In.
  - intros x Hx. rewrite <- P in Hx. apply list_elem_of_In in Hx. exact (List.find_none _ _ F x Hx).
Qed.
Lemma find_app {A} (f : A -> bool) l k :
  List.find f (l ++ k)%list = match List.find f l with Some x => Some x | None => List.find f k end.
Proof. induction l as [|x l IH]; [done|]. simpl. by destruct (f x). Qed.
Lemma filter_none {A} (f : A -> bool) l : (forall x, x ∈ l -> f x = false) -> List.filter f l = [].
Proof.
  induction l as [|x l IH]; intros N; [done|]. simpl. rewrite (N x) by left. apply IH. intros y Hy. apply N. by right.
Qed.
Lemma filter_all {A} (f : A -> bool) l : (forall x, x ∈ l -> f x = true) -> List.filter f l = l.
Proof.
  induction l as [|x l IH]; intros N; [done|]. simpl. rewrite (N x) by left. f_equal. apply IH. intros y Hy. apply N. by right.
Qed.
Lemma NoDup_fmap_eq {A B} (f : A -> B) l x y : NoDup (f <$> l) -> x ∈ l -> y ∈ l -> f x = f y -> x = y.
Proof.
  induction l as [|z l IH]; intros N Hx Hy E; [by apply not_elem_of_nil in Hx|].
  cbn in N. apply NoDup_cons in N as [Nz N].
  assert (forall u, u ∈ l -> f u <> f z) as D by (intros u Hu Eu; apply Nz; rewrite <- Eu; by apply list_elem_of_fmap_2).
  apply elem_of_cons in Hx as [->|Hx]; apply elem_of_cons in Hy as [->|Hy]; [done| | |by apply IH].
  - by destruct (D y Hy).
  - by destruct (D x Hx).
Qed.

Lemma copy_matchers r v :
  version_of_route r = Some v -> Route_HeaderMatchers (versioned_copy r) = (Route_HeaderMatchers r ++ [x_version v])%list.
Proof. intros E. unfold versioned_copy. by rewrite E. Qed.
Lemma has_header_copy r v n :
  version_of_route r = Some v ->
  has_header n (versioned_copy r) = has_header n r || strings_EqualFold n "x-version".
Proof.
  intros E. unfold has_header. rewrite (copy_matchers r v E), existsb_app.
  change (existsb _ [x_version v]) with (strings_EqualFold n "x-version" || false). by rewrite orb_false_r.
Qed.
Lemma accepts_plain version r : has_header "x-version" r = false -> accepts version r = true.
Proof.
  unfold has_header, accepts. induction (Route_HeaderMatchers r) as [|m ms IH]; [done|].
  simpl. intros [Hm Hms]%orb_false_iff. rewrite Hm. by apply IH.
Qed.
Lemma accepts_copy version r v :
  version_of_route r = Some v -> has_header "x-version" r = false ->
  accepts version (versioned_copy r) = bool_decide (version = Some v).
Proof.
  intros E Hp%(accepts_plain version). unfold accepts in *. rewrite (copy_matchers r v E), forallb_app, Hp.
  change (forallb _ [x_version v]) with (match version with Some u => String.eqb v u | None => false end && true).
  destruct version as [u|]; [|done]. rewrite andb_true_r. cbn [andb].
  destruct (String.eqb_spec v u); case_bool_decide; congruence.
Qed.
Lemma behaviour_copy r : behaviour (versioned_copy r) = behaviour r.
Proof. unfold versioned_copy. by destruct (version_of_route r). Qed.
Lemma behaviour_same active r :
  differs_from active r = false ->
  (Route_DirectResponseCode r = 0%Z -> Route_DirectResponseCode active <> 0%Z ->
   Route_RouteAction r <> Route_RouteAction active) ->
  behaviour r = behaviour active.
Proof.
  unfold differs_from, behaviour. intros D N. destruct (Z.eqb_spec (Route_DirectResponseCode r) 0) as [E|E].
  - apply negb_false_iff, bool_decide_eq_true in D.
    destruct (Z.eqb_spec (Route_DirectResponseCode active) 0) as [|Ea]; [congruence|]. by destruct (N E Ea).
  - apply negb_false_iff, Z.eqb_eq in D. rewrite <- D. by destruct (Z.eqb_spec (Route_DirectResponseCode r) 0).
Qed.

Lemma is_active_in active g r : route_group active g -> r ∈ g -> is_active r = true -> r = active.
Proof.
  intros G Hr A. assert (r ∈ List.filter is_active g) as Hf by by apply elem_of_List_filter.
  rewrite (rg_active _ _ G) in Hf. by apply list_elem_of_singleton in Hf.
Qed.
Lemma active_in active g : route_group active g -> active ∈ g /\ is_active active = true.
Proof. intros G. apply elem_of_List_filter. rewrite (rg_active _ _ G). by left. Qed.
Lemma group_copies active g x :
  route_group active g ->
  x ∈ versioned_copy <$> List.filter (differs_from active) (List.filter (fun r => negb (is_active r)) g) <->
  exists r, x = versioned_copy r /\ r ∈ g /\ is_active r = false /\ differs_from active r = true.
Proof.
  intros G. rewrite list_elem_of_fmap. split.
  - intros (r & -> & [[Hr A%negb_true_iff]%elem_of_List_filter D]%elem_of_List_filter). by exists r.
  - intros (r & -> & Hr & A & D). exists r. split; [done|]. rewrite !elem_of_List_filter, negb_true_iff. done.
Qed.
Lemma loaded_version active g r : route_group active g -> r ∈ g -> exists v, version_of_route r = Some v.
Proof.
  intros G Hr. assert (L := rg_loaded _ _ G r Hr). unfold version_of_route.
  destruct (Route_DeploymentVersionVal r) as [dv|]; [|done]. by exists (DeploymentVersion_Version dv).
Qed.

(** A copy whose matcher accepts the request comes first, the active route
    otherwise. *)
Lemma envoy_selects_group version active g :
  route_group active g ->
  match envoy_selects version (group_routes active g) with
  | Some x => x = active /\ (forall r, r ∈ g -> version_of_route r = version -> is_active r || negb (differs_from active r) = true)
              \/ exists r, x = versioned_copy r /\ r ∈ g /\ version_of_route r = version /\ differs_from active r = true
  | None => False
  end.
Proof.
  intros G. destruct (active_in _ _ G) as [Ha Aa]. destruct (rg_plain _ _ G active Ha) as [Pv Pa].
  set (copies := versioned_copy <$> List.filter (differs_from active) (List.filter (fun r => negb (is_active r)) g)).
  assert (forall x, x ∈ copies -> has_header "x-version" x = true /\ has_header "x-anchor" x = false) as C.
  { intros x (r & -> & Hr & _)%(group_copies _ _ _ G). destruct (loaded_version _ _ _ G Hr) as [v Ev].
    rewrite !(has_header_copy _ v) by done. destruct (rg_plain _ _ G r Hr) as [-> ->]. done. }
  unfold envoy_selects, OrderRoutesForEnvoy, group_routes. fold copies. cbn [List.filter]. rewrite Pv, Pa. cbn [negb].
  rewrite (filter_none (has_header "x-anchor")) by (intros x Hx; by apply C).
  rewrite (filter_all (has_header "x-version")) by (intros x Hx; by apply C).
  rewrite (filter_none (fun r => negb (has_header "x-version" r)) copies) by (intros x Hx; by rewrite (proj1 (C x Hx))).
  change (SliceStable routeMatcherLess []) with (@nil Route). rewrite app_nil_l, find_app.
  assert (F := find_sorted routeMatcherLess (accepts version) copies).
  destruct (List.find _ (SliceStable _ copies)) as [x|].
  - right. destruct F as [(r & -> & Hr & _ & D)%(group_copies _ _ _ G) Ax]. exists r. repeat split; [done| |done].
    destruct (loaded_version _ _ _ G Hr) as [v Ev]. destruct (rg_plain _ _ G r Hr) as [Pr _].
    rewrite (accepts_copy version r v Ev Pr) in Ax. apply bool_decide_eq_true in Ax. congruence.
  - cbn. rewrite accepts_plain by done. left. split; [done|]. intros r Hr Ev.
    apply orb_true_iff. destruct (is_active r) eqn:Ar; [by left|right]. apply negb_true_iff, not_true_iff_false. intros D.
    assert (versioned_copy r ∈ copies) as Hc by (apply (group_copies _ _ _ G); by exists r).
    apply F in Hc. destruct (loaded_version _ _ _ G Hr) as [v Ev']. destruct (rg_plain _ _ G r Hr) as [Pr _].
    rewrite (accepts_copy version r v Ev' Pr) in Hc. apply bool_decide_eq_false in Hc. congruence.
Qed.

(** * Blue-green routing *)

(** What makes a route of another version differ from the active one: its
    direct response, when it has one, and else what is done with the request
    (cluster, rewrites of path and host).  Timeouts, added and removed headers,
    rate limits and sessions do not count. *)
Definition told_apart (active r : Route) : bool :=
  if (Route_DirectResponseCode r =? 0)%Z
  then bool_decide (Route_RouteAction r <> Route_RouteAction active)
  else negb (Route_DirectResponseCode r =? Route_DirectResponseCode active)%Z.
Lemma differs_from_told_apart active r : differs_from active r = told_apart active r.
Proof.
  unfold differs_from, told_apart. destruct (_ =? 0)%Z.
  - case_bool_decide; case_bool_decide; naive_solver.
  - by rewrite Z.eqb_sym.
Qed.

(** C4: The routes of one key in all their versions, as the transformer leaves
    them and in the order for Envoy.  A request that names in [x-version] a
    version whose route is told apart from the active one is answered by the
    route of that version, with all its settings and the matcher of the version
    added; any other request is answered by the route of the active version, as
    it is.  So a version whose route has another cluster, rewrite or direct
    response is reached by its name; one that has only other timeouts, headers,
    rate limits or sessions, or that allows again what the active one forbids
    with the same action, is not. *)
Theorem version_routing `{R : Runtime} (active : Route) (g : list Route) (w : World) :
  route_group active g ->
  exists routes,
    transform_group DefaultRouteTransformer g [] w = (Ok routes, w) /\
    forall version,
      envoy_selects version routes =
        Some (match List.find (fun r => bool_decide (version_of_route r = version)) g with
              | Some r => if told_apart active r then versioned_copy r else active
              | None => active
              end).
Proof.
  intros G. exists (group_routes active g). split; [by apply transform_group_run|]. intros version.
  assert (S := envoy_selects_group version active g G).
  destruct (envoy_selects version _) as [x|]; [|done]. f_equal.
  destruct (List.find _ g) as [r|] eqn:F.
  - apply List.find_some in F as [Hr%list_elem_of_In Er%bool_decide_eq_true]. rewrite <- differs_from_told_apart.
    destruct S as [[-> S]|(r' & -> & Hr' & Er' & D)].
    + specialize (S r Hr Er). apply orb_true_iff in S as [A|D%negb_true_iff]; [|by rewrite D].
      rewrite (is_active_in _ _ r G Hr A), differs_from_told_apart. unfold told_apart.
      destruct (_ =? 0)%Z; [by rewrite bool_decide_eq_false_2 by auto|by rewrite Z.eqb_refl].
    + assert (r' = r) as -> by (apply (NoDup_fmap_eq version_of_route g); [apply G|done..|congruence]). by rewrite D.
  - destruct S as [[-> _]|(r' & -> & Hr' & Er' & _)]; [done|].
    apply list_elem_of_In in Hr'. assert (X := List.find_none _ _ F r' Hr'). by apply bool_decide_eq_false in X.
Qed.

(** A route of another version that the comparison does not tell from the
    active one is left out, whatever the active one does. *)
Lemma not_copied_answers_active active g r :
  route_group active g -> r ∈ g -> differs_from active r = false ->
  behaviour <$> envoy_selects (version_of_route r) (group_routes active g) = Some (behaviour active).
Proof.
  intros G Hr D. assert (S := envoy_selects_group (version_of_route r) active g G).
  destruct (envoy_selects _ _) as [x|]; [|done]. cbn. destruct S as [[-> _]|(r' & -> & Hr' & E & D')]; [done|].
  assert (r' = r) as -> by (apply (NoDup_fmap_eq version_of_route g); [apply G|done..]). congruence.
Qed.

(** What is forbidden stays so for every version: when the active version forbids a
    path (a direct response) and another version allows it with the same
    cluster, rewrites and host, the comparison looks at these fields only; the
    request for that version is answered with the direct response of the active
    one. *)
Theorem forbidden_active_hides_version `{R : Runtime} (active r : Route) (g : list Route) (w : World) :
  route_group active g -> r ∈ g ->
  Route_DirectResponseCode r = 0%Z -> Route_DirectResponseCode active <> 0%Z ->
  Route_RouteAction r = Route_RouteAction active ->
  exists routes,
    transform_group DefaultRouteTransformer g [] w = (Ok routes, w) /\
    behaviour r = inr (Route_RouteAction r) /\
    behaviour <$> envoy_selects (version_of_route r) routes = Some (inl (Route_DirectResponseCode active)).
Proof.
  intros G Hr D0 Da E. exists (group_routes active g). split; [by apply transform_group_run|]. split.
  { unfold behaviour. by rewrite D0. }
  rewrite not_copied_answers_active; [|done..|].
  - f_equal. unfold behaviour. by destruct (Z.eqb_spec (Route_DirectResponseCode active) 0).
  - unfold differs_from. rewrite D0. cbn. by rewrite bool_decide_eq_true_2.
Qed.

(** * Witnesses *)

Definition wit_version (version stage : string) : DeploymentVersion :=
  (zero : DeploymentVersion) <| DeploymentVersion_Version := version |> <| DeploymentVersion_Stage := stage |>.
Definition wit_route (version stage rewrite : string) (code : Z) : Route :=
  (zero : Route) <| Route_Prefix := "/api" |> <| Route_ClusterName := "orders||orders||8080" |>
    <| Route_PrefixRewrite := rewrite |> <| Route_DirectResponseCode := code |>
    <| Route_DeploymentVersionVal := Some (wit_version version stage) |>.
Definition wit_active : Route := wit_route "v2" "ACTIVE" "/new" 0.
Definition wit_group : list Route := [wit_route "v1" "LEGACY" "/new" 0; wit_active; wit_route "v3" "CANDIDATE" "/newer" 0; wit_route "v4" "CANDIDATE" "" 404].

Lemma version_routing_witness :
  exists routes,
    transform_group DefaultRouteTransformer wit_group [] empty_world = (Ok routes, empty_world) /\
    envoy_selects (Some "v3") routes = Some (versioned_copy (wit_route "v3" "CANDIDATE" "/newer" 0)) /\
    envoy_selects (Some "v4") routes = Some (versioned_copy (wit_route "v4" "CANDIDATE" "" 404)) /\
    envoy_selects (Some "v1") routes = Some wit_active /\
    envoy_selects None routes = Some wit_active.
Proof.
  destruct (version_routing (R := test_runtime) wit_active wit_group empty_world) as (routes & T & S).
  - split.
    + intros r Hr. repeat (apply elem_of_cons in Hr as [->|Hr]; [done|]). by apply not_elem_of_nil in Hr.
    + apply (bool_decide_unpack _). by vm_compute.
    + reflexivity.
    + intros r Hr. repeat (apply elem_of_cons in Hr as [->|Hr]; [done|]). by apply not_elem_of_nil in Hr.
  - exists routes. split; [exact T|]. rewrite !S.
    split; [vm_compute; reflexivity|]. split; [vm_compute; reflexivity|]. split; vm_compute; reflexivity.
Defined.
Definition wit_forbidden : Route := wit_route "v1" "ACTIVE" "" 404.
Definition wit_allowed : Route := wit_route "v2" "CANDIDATE" "" 0.
Lemma forbidden_active_hides_version_witness :
  exists routes,
    transform_group DefaultRouteTransformer [wit_forbidden; wit_allowed] [] empty_world = (Ok routes, empty_world) /\
    behaviour <$> envoy_selects (Some "v2") routes = Some (inl 404%Z).
Proof.
  destruct (forbidden_active_hides_version (R := test_runtime) wit_forbidden wit_allowed [wit_forbidden; wit_allowed] empty_world)
    as (routes & T & _ & S); [| | |done|done|by exists routes].
  - split.
    + intros r Hr. repeat (apply elem_of_cons in Hr as [->|Hr]; [done|]). by apply not_elem_of_nil in Hr.
    + apply (bool_decide_unpack _). by vm_compute.
    + reflexivity.
    + intros r Hr. repeat (apply elem_of_cons in Hr as [->|Hr]; [done|]). by apply not_elem_of_nil in Hr.
  - right. left.
  - reflexivity.
Defined.
