(* ===== verification/EnvoyModel.v ===== *)
(** Concrete parameters of the builders of Envoy's configuration for the
    witnesses: nothing is configured, marshalling keeps the kind of a message,
    certificates and hosts are not looked at, streams are always answered.  No
    theorem about the control plane depends on it. *)
From S2P Require Import Prelude GoLib Domain RouteKey Tables MemDb Msaddr Events RegCommon Runtime RuntimeModel Dao.
From S2P Require Import Entity Tls EnvoyApi EnvoyProps EnvoyRoutes EnvoyVirtualHosts EnvoyListeners EnvoyBuilder.
From S2P Require Import EnvoyActions EnvoyEvents EnvoyProcessor EnvoyManager.
Open Scope string_scope.

#[export] Instance test_configuration : Configuration := {|
  os_LookupEnv := fun _ => None;
  configloader_Get := fun _ => None;
  DefaultTlsPath := "/etc/tls";
  percent_of_fraction := fun _ => None
|}.
(** A message by the names of the filters in it. *)
#[export] Instance test_protobuf : Protobuf := {|
  Any := string;
  MarshalAny := fun m =>
    Ok match m with
       | MsgRouter => "router"
       | MsgHttpConnectionManager manager => strings_Join (EnvoyExtension_Name <$> Hcm_HttpFilters manager) " "
       | _ => "message"
       end;
  Cluster_LbPolicy_value := fun _ => 0%Z;
  Cluster_DiscoveryType_value := fun _ => 0%Z;
  CodecClientType_value := fun _ => 0%Z;
  json_params := fun _ => Ok "{}"
|}.
#[export] Instance test_certificates : Certificates := {|
  pem_Decode := fun _ => None;
  x509_ParseCertificate := fun _ => false;
  x509_ParsePKCS1PrivateKey := fun _ => false;
  x509_ParsePKCS8PrivateKey := fun _ => false;
  x509_ParseECPrivateKey := fun _ => false;
  tls_X509KeyPair := fun _ _ => false
|}.
#[export] Instance test_url : NetUrl := {|
  url_Parse := fun _ => Some (mkURL "http" "host");
  net_LookupPort := fun _ => Some 80%Z;
  SelectUrl := "http"
|}.
#[export] Instance test_sha256 : Sha256 := {| sha256_Sum256 := fun s => s |}.
#[export] Instance test_entity_service : EntityService := {| defaultVersion := "v1" |}.
#[export] Instance test_tls_mode : TlsMode := {| tls_preferred := false |}.
#[export] Instance test_snapshot_cache : SnapshotCache := {| answer_watches := fun _ => Ok tt |}.

#[export] Instance test_builder : EnvoyConfigBuilder (R := test_runtime) :=
  EnvoyConfigBuilderImpl (R := test_runtime) (A := v3_aliases (R := test_runtime)).

(** A program that has just started, over a storage. *)
Definition started (w : World (R := test_runtime)) : EnvoyWorld (R := test_runtime) :=
  mkEnvoyWorld (R := test_runtime) w NewEnvoyConfigBuilder ∅ [] ∅ 0.

(** A storage with an active version, a gateway of each kind and a cluster of
    an external host bound to one of them. *)
Definition in_storage (m : prog World unit) : World (R := test_runtime) := (WithWTx m empty_world).2.
Definition egress_cluster : Cluster :=
  (zero : Cluster) <| Cluster_Id := 1%Z |> <| Cluster_Name := "maps.example.com||maps.example.com||443" |>
    <| Cluster_HttpVersion := Some 1%Z |>.
Definition egress_world : World (R := test_runtime) :=
  in_storage (SaveDeploymentVersion InTx (mkDeploymentVersion "v1" ActiveStage 0 0) ;;;
              SaveNodeGroup InTx (mkNodeGroup "egress-gateway" "" false) ;;;
              _ <- SaveCluster InTx egress_cluster ;;
              SaveClustersNodeGroup InTx (mkClustersNodeGroup 1 "egress-gateway")).
