(* ===== verification/ListenerSpec.v ===== *)
(** The shape of the listeners and the bounds of the durations the builders
    write into Envoy's configuration. *)
From S2P Require Import Prelude GoLib Domain Msaddr RegCommon EnvoyApi EnvoyProps EnvoyListeners Runtime RuntimeModel EnvoyModel.
Open Scope string_scope.

(** * Durations *)

(** What a message of a duration means, in nanoseconds. *)
Definition duration_nanos (d : Duration) : Z := (Duration_Seconds d * nanos_per_second + Duration_Nanos d)%Z.
(** What Envoy accepts: less than a second beside the seconds, on the same side
    of zero. *)
Definition normalised (d : Duration) : Prop :=
  (Z.abs (Duration_Nanos d) < nanos_per_second)%Z /\ (0 <= Duration_Seconds d * Duration_Nanos d)%Z.
Definition in_int64 (n : Z) : Prop := (- 2 ^ 63 <= n < 2 ^ 63)%Z.

Lemma int64_range n : in_int64 (int64 n).
Proof. unfold in_int64, int64. pose proof (Z.mod_pos_bound (n + 2 ^ 63) (2 ^ 64) ltac:(lia)). lia. Qed.
Lemma int64_id n : in_int64 n -> int64 n = n.
Proof. unfold in_int64, int64. intros Hn. rewrite Z.mod_small; lia. Qed.
(** The quotient towards zero and its remainder are on the side of the dividend. *)
Lemma quot_rem_bounds n :
  n = (nanos_per_second * Z.quot n nanos_per_second + Z.rem n nanos_per_second)%Z /\
  (Z.abs (Z.rem n nanos_per_second) < nanos_per_second)%Z /\
  (0 <= Z.quot n nanos_per_second * Z.rem n nanos_per_second)%Z.
Proof.
  unfold nanos_per_second. split_and!; [by apply Z.quot_rem|pose proof (Z.rem_bound_abs n 1000000000); lia|].
  destruct (Z.le_ge_cases 0 n).
  - apply Z.mul_nonneg_nonneg; [apply Z.quot_pos; lia|apply Z.rem_nonneg; lia].
  - apply Z.mul_nonpos_nonpos; [|apply Z.rem_nonpos; lia].
    apply Z.opp_nonneg_nonpos. rewrite <- Z.quot_opp_l by done. apply Z.quot_pos; lia.
Qed.
(** Narrowing the nanoseconds to 32 bits never loses anything. *)
Lemma NanosToDuration_quot_rem n :
  NanosToDuration n = mkDuration (Z.quot n nanos_per_second) (Z.rem n nanos_per_second).
Proof.
  unfold NanosToDuration. destruct (quot_rem_bounds n) as (Eq & Hr & _). f_equal.
  replace (n - _)%Z with (Z.rem n nanos_per_second) by lia. apply int32_id. unfold nanos_per_second in *. lia.
Qed.

(** The duration of any number of milliseconds is one Envoy accepts, the
    narrowing of its nanoseconds loses nothing, and it is the duration asked for
    exactly when the nanoseconds fit 64 bits: beyond about 292 years the product
    wraps around, so that a large timeout may become a small or a negative one. *)
Theorem MillisToDuration_bounds millis :
  normalised (MillisToDuration millis) /\ in_int64 (duration_nanos (MillisToDuration millis)) /\
  MillisToDuration millis = durationpb_New (times_unit millis nanos_per_milli) /\
  (duration_nanos (MillisToDuration millis) = (millis * nanos_per_milli)%Z <-> in_int64 (millis * nanos_per_milli)).
Proof.
  unfold MillisToDuration, times_unit, durationpb_New. rewrite NanosToDuration_quot_rem.
  set (n := int64 (millis * nanos_per_milli)). destruct (quot_rem_bounds n) as (Eq & Hr & Hs).
  assert (duration_nanos (mkDuration (Z.quot n nanos_per_second) (Z.rem n nanos_per_second)) = n) as En
    by (unfold duration_nanos; cbn [Duration_Seconds Duration_Nanos]; lia).
  rewrite En. split_and!; [by split|apply int64_range|done|].
  split; [intros <-; apply int64_range|intros Hi; by apply int64_id].
Qed.

(** * The filters of a listener *)

Section listeners.
Context `{Env : Environment} `{C : Configuration} `{Pb : Protobuf} `{U : NetUrl}.

Lemma result_bind_Ok {A B'} (r : result A) (k : A -> result B') b :
  result_bind r k = Ok b -> exists a, r = Ok a /\ k a = Ok b.
Proof. destruct r; [by eexists|done..]. Qed.
Lemma map_result_app {A B'} (f : A -> result B') l1 l2 ys :
  map_result f (l1 ++ l2) = Ok ys -> exists y1 y2, map_result f l1 = Ok y1 /\ map_result f l2 = Ok y2 /\ ys = (y1 ++ y2)%list.
Proof.
  revert ys. induction l1 as [|x l1 IH]; intros ys; cbn; [by exists [], ys|].
  destruct (f x) as [b| |]; [|done..]. destruct (map_result f (l1 ++ l2)) as [zs| |] eqn:Ez; [|done..].
  destruct (IH zs eq_refl) as (y1 & y2 & -> & -> & ->). intros [= <-]. by exists (b :: y1), y2.
Qed.

Lemma built_Forall (P : EnvoyExtension Any -> Prop) fs ys :
  Forall (fun f => forall y, f = Ok y -> P y) fs -> map_result (fun f => f) fs = Ok ys -> Forall P ys.
Proof.
  intros Hf. revert ys. induction Hf as [|f fs Hf _ IH]; intros ys; cbn; [by intros [= <-]|].
  destruct f as [y| |]; [|done..]. destruct (map_result _ fs) as [zs| |]; [|done..]. intros [= <-]. constructor; auto.
Qed.
Lemma map_result_one (f : result (EnvoyExtension Any)) ys : map_result (fun f => f) [f] = Ok ys -> exists y, f = Ok y /\ ys = [y].
Proof. cbn. destruct f as [y| |]; [|done..]. intros [= <-]. by exists y. Qed.

Definition router_name : string := "envoy.filters.http.router".
Definition ext_authz_name : string := "envoy.filters.http.ext_authz".
(** A filter that neither ends the chain nor authorises. *)
Definition ordinary (f : EnvoyExtension Any) : Prop :=
  EnvoyExtension_Name f <> router_name /\ EnvoyExtension_Name f <> ext_authz_name.

Lemma filter_of_name name m y : filter_of name m = Ok y -> EnvoyExtension_Name y = name.
Proof. by intros (any & _ & [= <-])%result_bind_Ok. Qed.
Lemma ordinary_filter name m :
  name <> router_name -> name <> ext_authz_name -> forall y, filter_of name m = Ok y -> ordinary y.
Proof. intros N1 N2 y Ey. apply filter_of_name in Ey. unfold ordinary. by rewrite Ey. Qed.
Lemma ordinary_wasm f y : addWASMFilter f = Ok y -> ordinary y.
Proof.
  unfold addWASMFilter. intros (? & _ & (? & _ & (? & _ & X)%result_bind_Ok)%result_bind_Ok)%result_bind_Ok.
  by eapply ordinary_filter; [| |exact X].
Qed.
Lemma ordinary_compressor gzipConfig y :
  filter_of "envoy.filters.http.compressor" (MsgCompressor (mkEnvoyExtension "envoy.compression.gzip.compressor" gzipConfig)) = Ok y ->
  ordinary y.
Proof. by apply ordinary_filter. Qed.
Ltac ordinary := repeat apply Forall_cons_2; try apply Forall_nil_2; try by apply ordinary_filter.
Lemma ordinary_enrich b props mapping :
  Forall (fun f => forall y, f = Ok y -> ordinary y) (enrichConnManager b props mapping).
Proof.
  destruct b; [apply Forall_nil_2|]. cbn [enrichConnManager]. apply Forall_app; split; [ordinary|]. apply Forall_app; split.
  - unfold addNamespaceHeaderFilter. destruct (String.eqb mapping ""); ordinary.
  - unfold addCompression. destruct (Props_CompressionEnabled props); ordinary.
    intros y (any & _ & X)%result_bind_Ok. by eapply ordinary_compressor.
Qed.

(** The chain of a listener that authorises through [authz], if any. *)
Definition good_chain (authz : option ExtAuthzFilter) (filters : list (EnvoyExtension Any)) : Prop :=
  exists first middle router, filters = (first ++ middle ++ [router])%list /\
    EnvoyExtension_Name router = router_name /\ Forall ordinary middle /\
    match authz with
    | None => first = []
    | Some f => exists any, first = [mkEnvoyExtension ext_authz_name any] /\
        MarshalAny (MsgExtAuthz (ExtAuthzFilter_ClusterName f)
          (durationpb_New (times_unit (ExtAuthzFilter_Timeout f) nanos_per_milli)) true "NetworkAuthenticationRequired") = Ok any
    end.
Lemma first_filters_spec l ys :
  map_result (fun f => f) (first_filters l) = Ok ys ->
  exists first h, ys = (first ++ [h])%list /\ ordinary h /\
    match Listener_ExtAuthzFilter l with
    | None => first = []
    | Some f => exists any, first = [mkEnvoyExtension ext_authz_name any] /\
        MarshalAny (MsgExtAuthz (ExtAuthzFilter_ClusterName f)
          (durationpb_New (times_unit (ExtAuthzFilter_Timeout f) nanos_per_milli)) true "NetworkAuthenticationRequired") = Ok any
    end.
Proof.
  intros (first & hs & E1 & (h & Eh & ->)%map_result_one & ->)%map_result_app. exists first, h. split; [done|].
  split; [revert Eh; by apply ordinary_filter|]. destruct (Listener_ExtAuthzFilter l) as [f|].
  - apply map_result_one in E1 as (y & (any & Ea & [= <-])%result_bind_Ok & ->). by exists any.
  - by injection E1 as <-.
Qed.
Lemma later_filters_spec b props l mapping ys :
  map_result (fun f => f) (later_filters b props l mapping) = Ok ys ->
  exists middle router, ys = (middle ++ [router])%list /\ Forall ordinary middle /\ EnvoyExtension_Name router = router_name.
Proof.
  unfold later_filters. rewrite !app_assoc. intros (middle & rs & E1 & (r & Er & ->)%map_result_one & ->)%map_result_app.
  exists middle, r. split; [done|]. split; [|revert Er; apply filter_of_name].
  revert E1. apply built_Forall. rewrite !Forall_app. split_and!.
  - apply Forall_fmap, Forall_true. intros f y. apply ordinary_wasm.
  - ordinary.
  - apply ordinary_enrich.
Qed.
Lemma buildHttpConnectionManager_chain b props l mapping m :
  buildHttpConnectionManager b props l mapping = Ok m ->
  good_chain (Listener_ExtAuthzFilter l) (Hcm_HttpFilters m) /\ Hcm_RouteConfigName m = Listener_RouteConfigurationName l /\
  Hcm_MaxRequestHeadersKb m = (if (0 <? resolveMaxRequestHeadersKb)%Z then Some resolveMaxRequestHeadersKb else None).
Proof.
  intros (base & (a & _ & (q & _ & [= <-])%result_bind_Ok)%result_bind_Ok & (ys & E1 & (t & _ & (zs & E2 & [= <-])%result_bind_Ok)%result_bind_Ok)%result_bind_Ok)%result_bind_Ok.
  cbn. split; [|done]. apply first_filters_spec in E1 as (first & h & -> & Hh & Hf).
  apply later_filters_spec in E2 as (middle & r & -> & Hm & Hr).
  exists first, (h :: middle), r. split; [by rewrite <- app_assoc|]. split; [done|]. split; [by constructor|done].
Qed.
Lemma resolveMaxRequestHeadersKb_at_most : (resolveMaxRequestHeadersKb <= 8192)%Z.
Proof.
  unfold resolveMaxRequestHeadersKb. destruct (parse_uint32 _) as [v|]; [|lia].
  destruct (Z.eqb_spec v 0), (Z.ltb_spec 8192 v); cbn; lia.
Qed.

(** C27: A listener that is built has a chain of filters that ends in the router,
    which occurs nowhere else in it, and starts with the authorisation through
    the external service exactly when one is configured, so that no other filter
    sees a request before; it routes by its own route configuration; its limit
    of headers is one Envoy accepts; and its port is a 16-bit or wider value of
    32 bits, the port 8080 becoming 8443 on the TLS side only. *)
Theorem BuildListener_shape b props l mapping tls el :
  BuildListener b props l mapping tls = Ok el ->
  exists manager any port,
    MarshalAny (MsgHttpConnectionManager manager) = Ok any /\
    EnvoyListener_Filters el = [mkEnvoyExtension "envoy.filters.network.http_connection_manager" any] /\
    good_chain (Listener_ExtAuthzFilter l) (Hcm_HttpFilters manager) /\
    Hcm_RouteConfigName manager = Listener_RouteConfigurationName l /\
    (forall kb, Hcm_MaxRequestHeadersKb manager = Some kb -> (0 < kb <= 8192)%Z) /\
    strconv_Atoi (Listener_BindPort l) = Some port /\
    EnvoySocketAddress_PortValue (EnvoyListener_Address el) = (if tls && (port =? 8080)%Z then 8443 else port mod 2 ^ 32)%Z /\
    (EnvoyListener_TransportSocket el = None <-> tls = false).
Proof.
  unfold BuildListener, newListener. intros (m & Em & X)%result_bind_Ok.
  apply buildHttpConnectionManager_chain in Em as (Hc & Hr & Hk).
  destruct (strconv_Atoi _) as [port|] eqn:Ep; [|done].
  apply result_bind_Ok in X as (hcm & (any & Ea & [= <-])%result_bind_Ok & X). exists m, any, port.
  split; [done|]. rewrite Hk.
  assert (forall kb, (if (0 <? resolveMaxRequestHeadersKb)%Z then Some resolveMaxRequestHeadersKb else None) = Some kb ->
            (0 < kb <= 8192)%Z) as Hkb.
  { intros kb. pose proof resolveMaxRequestHeadersKb_at_most. destruct (Z.ltb_spec 0 resolveMaxRequestHeadersKb); [|done].
    by intros [= <-]. }
  destruct tls.
  - apply result_bind_Ok in X as (i & _ & (s & _ & [= <-])%result_bind_Ok). cbn. split_and!; try done.
    unfold DefaultPort, listenerTlsPort, uint32. by destruct (Z.eqb_spec port 8080).
  - injection X as <-. by split_and!.
Qed.
End listeners.

(** * Witnesses *)

Definition wit_authz : ExtAuthzFilter :=
  (zero : ExtAuthzFilter) <| ExtAuthzFilter_Name := "authz" |> <| ExtAuthzFilter_ClusterName := "idp" |> <| ExtAuthzFilter_Timeout := 500%Z |>.
Definition wit_authz_listener : Listener :=
  (zero : Listener) <| Listener_Name := "public-gateway-service-listener" |> <| Listener_BindHost := "0.0.0.0" |>
    <| Listener_BindPort := "8080" |> <| Listener_RouteConfigurationName := "public-routes" |>
    <| Listener_ExtAuthzFilter := Some wit_authz |>.
Definition wit_built : result (EnvoyListener Any) :=
  BuildListener (Env := runtime_env (Runtime := test_runtime)) GatewayListenerBuilder NewEnvoyProxyProperties wit_authz_listener "" true.
Lemma BuildListener_shape_witness :
  exists el, wit_built = Ok el /\ EnvoySocketAddress_PortValue (EnvoyListener_Address el) = 8443%Z /\
    exists any, EnvoyListener_Filters el = [mkEnvoyExtension "envoy.filters.network.http_connection_manager" any].
Proof.
  assert (exists el, wit_built = Ok el) as [el Eel] by (vm_compute; eexists; reflexivity).
  exists el. split; [exact Eel|].
  destruct (BuildListener_shape (Env := runtime_env (Runtime := test_runtime)) GatewayListenerBuilder NewEnvoyProxyProperties wit_authz_listener "" true el Eel)
    as (m & any & port & _ & Ef & _ & _ & _ & Ep & Epv & _).
  assert (port = 8080%Z) as -> by (vm_compute in Ep; injection Ep as <-; reflexivity).
  split; [exact Epv|]. exists any. exact Ef.
Defined.
