(* ===== verification/SnapshotSpec.v ===== *)
(** The snapshots of the gateways: what an action changes, that every resource
    type holds resources of its kind, and what the map of updates keeps. *)
From S2P Require Import Prelude GoLib Domain RouteKey Tables MemDb Msaddr Events RegCommon Runtime RuntimeModel Dao.
From S2P Require Import Entity Util Tls EnvoyApi EnvoyProps EnvoyRoutes EnvoyBuilder EnvoyActions EnvoyEvents.
From S2P Require Import EnvoyProcessor EnvoyManager EnvoyModel.
Open Scope string_scope.

(** * Actions by induction *)

Section action_ind.
Variable P : SnapshotUpdateAction -> Prop.
Hypothesis Hcomposite : forall l, Forall P l -> P (CompositeUpdateAction l).
Hypothesis Hleaf : forall a, (forall l, a <> CompositeUpdateAction l) -> P a.

Fixpoint action_induction (a : SnapshotUpdateAction) : P a :=
  match a with
  | CompositeUpdateAction l =>
      Hcomposite l ((fix all (l : list SnapshotUpdateAction) : Forall P l :=
                       match l with
                       | [] => Forall_nil_2 P
                       | x :: l' => Forall_cons_2 P x l' (action_induction x) (all l')
                       end) l)
  | a => Hleaf a ltac:(discriminate)
  end.
End action_ind.

Section spec.
Context `{R : Runtime} `{H : Sha256} `{E : EntityService} `{K : Certificates} `{Pb : Protobuf}
  `{B : !EnvoyConfigBuilder (R := R)} `{SC : SnapshotCache} `{T : TlsMode}.

(** * What leaves the snapshots alone *)

Definition same_snapshots (w w' : EnvoyWorld) : Prop := ew_cache w' = ew_cache w /\ ew_sets w' = ew_sets w.
#[export] Instance same_snapshots_preorder : PreOrder same_snapshots.
Proof. split; [by intros ?|]. intros ??? [??] [??]. split; congruence. Qed.

(** The relations between worlds below contain it. *)
Class Snapshots (Q : EnvoyWorld -> EnvoyWorld -> Prop) : Prop := snapshots_same : forall w w', same_snapshots w w' -> Q w w'.
#[export] Instance same_snapshots_same : Snapshots same_snapshots.
Proof. by intros ?. Qed.

Section frames.
Context (Q : EnvoyWorld -> EnvoyWorld -> Prop) `{!PreOrder Q} `{!Snapshots Q}.

Lemma frame_on_dao {A} (m : prog World A) : frame Q (on_dao m).
Proof. intros w. unfold on_dao. destruct (m _) as [r w1]. by apply snapshots_same. Qed.
Lemma frame_on_builder {A} (m : prog (World * BuilderState) A) : frame Q (on_builder m).
Proof. intros w. unfold on_builder. destruct (m _) as [r [w1 b]]. by apply snapshots_same. Qed.
Lemma frame_GetIdByName name : frame Q (GetIdByName name).
Proof. intros w. unfold GetIdByName. destruct (_ !! name); by apply snapshots_same. Qed.
Lemma frame_or_panicf {A} (m : prog EnvoyWorld A) : frame Q m -> frame Q (or_panicf m).
Proof. intros F w. unfold or_panicf. specialize (F w). by destruct (m w) as [[?|?|?] ?]. Qed.
Lemma frame_get_snapshot ng : frame Q (get_snapshot ng).
Proof. intros w. unfold get_snapshot. destruct (_ !! ng); by apply snapshots_same. Qed.
Lemma frame_GenerateResourceVersion : frame Q GenerateResourceVersion.
Proof. unfold GenerateResourceVersion. apply frame_bind; [done|apply frame_on_dao|]. intros a. by apply frame_ret. Qed.
Lemma frame_read {A} (m : prog World A) : frame Q (read m).
Proof. apply frame_or_panicf, frame_on_dao. Qed.
Lemma frame_cast t {u : table} (x : option (entity u)) : frame Q (cast t x).
Proof. unfold cast. destruct (x ≫= _); [by apply frame_ret|by apply frame_panic]. Qed.
Lemma frame_deref_envoy {A} (x : option A) : frame Q (deref x).
Proof. destruct x; [by apply frame_ret|by apply frame_panic]. Qed.
End frames.
Hint Resolve frame_on_dao frame_on_builder frame_GetIdByName frame_or_panicf frame_get_snapshot
  frame_GenerateResourceVersion frame_read frame_cast frame_deref_envoy : frame.
Hint Extern 1 (Snapshots _) => apply _ : frame.

(** A choice between two functions that are applied afterwards. *)
Ltac frame_events := repeat (progress (solve_frame; intros; try match goal with |- frame _ ?m => match m with context [if ?b then _ else _] => destruct b end end)).

Lemma frame_processDeploymentVersionChanges versions b changes :
  frame same_snapshots (EnvoyProcessor.processDeploymentVersionChanges versions b changes).
Proof. revert b. induction changes as [|c changes IH]; intros b; frame_events. Qed.
Hint Resolve frame_processDeploymentVersionChanges : frame.

(** Reading an event leaves the snapshots alone. *)
Lemma frame_ParseChangeEvent ng changes : frame same_snapshots (ParseChangeEvent ng changes).
Proof. frame_events. Qed.
Lemma frame_CompositeAction actions : frame same_snapshots (CompositeAction actions).
Proof. frame_events. Qed.
Lemma frame_ParseMultipleChangeEvent changes : frame same_snapshots (ParseMultipleChangeEvent changes).
Proof. frame_events. Qed.
Lemma frame_ParsePartialReloadEvent versions : frame same_snapshots (ParsePartialReloadEvent versions).
Proof. frame_events. Qed.

(** * Kinds of resources *)

Definition kind_of (t : resource_type) (r : envoy_resource) : Prop :=
  match t, r with
  | ListenerType, ResListener _ | ClusterType, ResCluster _ | RouteType, ResRouteConfig _ | RuntimeType, ResRuntime _ => True
  | _, _ => False
  end.
Definition typed_items (t : resource_type) (items : gmap string envoy_resource) : Prop := map_Forall (fun _ r => kind_of t r) items.
Definition typed_snapshot (s : Snapshot) : Prop := forall t, typed_items t (Resources_Items (s t)).
Definition typed_cache (c : gmap string Snapshot) : Prop := map_Forall (fun _ s => typed_snapshot s) c.

(** What an action on the snapshot of a gateway may change. *)
Record performs (ng : string) (w w' : EnvoyWorld) : Prop := {
  performs_sets : ew_sets w' = ew_sets w;
  performs_other : forall other, other <> ng -> ew_cache w' !! other = ew_cache w !! other;
  performs_typed : typed_cache (ew_cache w) -> typed_cache (ew_cache w')
}.
#[export] Instance performs_preorder ng : PreOrder (performs ng).
Proof.
  split; [by split|]. intros x y z [s1 o1 t1] [s2 o2 t2]. split; [congruence| |tauto].
  intros other N. by rewrite o2, o1.
Qed.
#[export] Instance performs_same ng : Snapshots (performs ng).
Proof. intros w w' [Ec Es]. split; [done|by rewrite Ec|by rewrite Ec]. Qed.

Lemma typed_set_resources t r s :
  typed_snapshot s -> typed_items t (Resources_Items r) -> typed_snapshot (set_resources t r s).
Proof. intros Hs Hr u. unfold set_resources. case_decide; [by subst|apply Hs]. Qed.
Lemma frame_update_items ng t f :
  (forall items, typed_items t items -> typed_items t (f items)) -> frame (performs ng) (update_items ng t f).
Proof.
  intros Hf w. unfold update_items, bind, get_snapshot at 1.
  destruct (ew_cache w !! ng) as [s|] eqn:Es; [|done].
  assert (F := frame_GenerateResourceVersion same_snapshots w). destruct (GenerateResourceVersion w) as [[v|e|p] w1]; cbn in F;
    [|by apply snapshots_same..].
  destruct F as [Ec Est]. unfold put_resources, bind, get_snapshot. rewrite Ec, Es. cbn.
  split; cbn; [done| |].
  - intros other N. by rewrite lookup_insert_ne, Ec.
  - intros Hc. rewrite Ec. apply map_Forall_insert_2; [|done].
    assert (Hs := Hc ng s Es). apply typed_set_resources; [done|]. apply Hf, Hs.
Qed.
Lemma frame_put_empty ng t version : frame (performs ng) (put_resources ng t version ∅).
Proof.
  intros w. unfold put_resources, bind, get_snapshot. destruct (ew_cache w !! ng) as [s|] eqn:Es; [|done].
  cbn. split; cbn; [done|by intros other N; rewrite lookup_insert_ne|].
  intros Hc. apply map_Forall_insert_2; [|done]. assert (Hs := Hc ng s Es). apply typed_set_resources; [done|].
  by apply map_Forall_empty.
Qed.
Lemma frame_GenericUpdate ng name t r : kind_of t r -> frame (performs ng) (GenericUpdateAction_Perform ng name t r).
Proof. intros Hr. apply frame_update_items. intros items Hi. by apply map_Forall_insert_2. Qed.
Lemma frame_GenericDelete ng name t : frame (performs ng) (GenericDeleteAction_Perform ng name t).
Proof. apply frame_update_items. intros items Hi. by apply map_Forall_delete. Qed.
Hint Resolve frame_GenericUpdate frame_GenericDelete frame_put_empty : frame.
Hint Extern 1 (kind_of _ _) => exact I : frame.

Lemma frame_Perform ng a : frame (performs ng) (Perform ng a).
Proof.
  induction a as [l IH|a Hl] using action_induction.
  - cbn [Perform]. apply frame_bind; [apply _| |].
    + generalize false. induction IH as [|a l Ha _ IHl]; intros failed; cbn; [apply frame_ret, _|].
      apply frame_bind; [apply _|by apply frame_try_ok|]. intros o. apply IHl.
    + intros failed. destruct failed; auto with frame.
  - destruct a as [l|?|?|?|?|?|?|?|?]; [by destruct (Hl l)|..]; cbn [Perform]; solve_frame.
Qed.

(** * The update manager *)

Definition snapshots_typed (w : EnvoyWorld) : Prop :=
  typed_cache (ew_cache w) /\ Forall (fun ns => typed_snapshot ns.2) (ew_sets w).
Definition manages (w w' : EnvoyWorld) : Prop := snapshots_typed w -> snapshots_typed w'.
#[export] Instance manages_preorder : PreOrder manages.
Proof. split; unfold manages; [by intros ?|intros ???; tauto]. Qed.
#[export] Instance manages_same : Snapshots manages.
Proof. intros w w' [Ec Es]. unfold manages, snapshots_typed. by rewrite Ec, Es. Qed.

Lemma frame_SetSnapshot ng s : typed_snapshot s -> frame manages (SetSnapshot ng s).
Proof.
  intros Hs w [Hc Ha]. unfold SetSnapshot, bind. cbn. split; cbn; [by apply map_Forall_insert_2|by constructor].
Qed.
Lemma manages_Perform ng a : frame manages (Perform ng a).
Proof. intros w [Hc Ha]. destruct (frame_Perform ng a w) as [Es _ Ht]. split; [by apply Ht|by rewrite Es]. Qed.
Lemma frame_ensure_snapshot ng : frame manages (ensure_snapshot ng).
Proof.
  unfold ensure_snapshot. apply frame_bind; [apply _|by apply frame_gets, _|]. intros c.
  destruct (c !! ng); [apply frame_ret, _|]. apply frame_ignore_err, frame_SetSnapshot. intros t. apply map_Forall_empty.
Qed.
Lemma frame_UpdateSnapshot ng a : frame manages (UpdateSnapshot ng a).
Proof.
  unfold UpdateSnapshot. apply frame_bind; [apply _|apply frame_ensure_snapshot|intros _].
  apply frame_bind; [apply _|apply manages_Perform|intros _]. intros w Hw.
  unfold bind, get_snapshot. destruct (ew_cache w !! ng) as [s|] eqn:Es; [|done].
  apply frame_SetSnapshot; [|done]. destruct Hw as [Hc _]. exact (Hc ng s Es).
Qed.
Hint Resolve frame_UpdateSnapshot : frame.

Lemma frame_same_manages {A} (m : prog EnvoyWorld A) : frame same_snapshots m -> frame manages m.
Proof. intros F w. apply snapshots_same, F. Qed.
Lemma manages_HandleChangeEvent ng changes : frame manages (HandleChangeEvent ng changes).
Proof.
  unfold HandleChangeEvent. apply frame_bind; [apply _|apply frame_same_manages, frame_ParseChangeEvent|intros actions].
  apply frame_bind; [apply _|apply frame_same_manages, frame_CompositeAction|intros a]. solve_frame.
Qed.
Lemma manages_HandleMultipleChangeEvent changes : frame manages (HandleMultipleChangeEvent changes).
Proof.
  unfold HandleMultipleChangeEvent.
  apply frame_bind; [apply _|apply frame_same_manages, frame_ParseMultipleChangeEvent|intros actions]. solve_frame.
Qed.
Lemma manages_HandlePartialReloadEvent versions : frame manages (HandlePartialReloadEvent versions).
Proof.
  unfold HandlePartialReloadEvent.
  apply frame_bind; [apply _|apply frame_same_manages, frame_ParsePartialReloadEvent|intros actions]. solve_frame.
Qed.
Lemma manages_InitConfig : frame manages InitConfig.
Proof. solve_frame. Qed.
Lemma manages_initConfigWithRecovery : frame manages initConfigWithRecovery.
Proof.
  intros w. unfold initConfigWithRecovery. assert (F := manages_InitConfig w). by destruct (InitConfig w) as [[?|?|?] w'].
Qed.
Hint Resolve manages_initConfigWithRecovery : frame.
Lemma manages_InitConfigWithRetry : frame manages InitConfigWithRetry.
Proof. unfold InitConfigWithRetry. induction maxAttempts as [|n IH]; solve_frame; apply IH. Qed.

(** The steps of the running program: a call of the update manager, and
    whatever else happens to the storage and the builders. *)
Inductive manager_step : EnvoyWorld -> EnvoyWorld -> Prop :=
  | step_change ng changes w : manager_step w (HandleChangeEvent ng changes w).2
  | step_multiple changes w : manager_step w (HandleMultipleChangeEvent changes w).2
  | step_partial versions w : manager_step w (HandlePartialReloadEvent versions w).2
  | step_reload w : manager_step w (HandleReloadEvent w).2
  | step_listener ng version value mapping w : manager_step w (UpdateListener ng version value mapping w).2
  | step_init w : manager_step w (InitConfigWithRetry w).2
  | step_elsewhere w w' : same_snapshots w w' -> manager_step w w'.

Lemma manager_step_typed w w' : manager_step w w' -> manages w w'.
Proof.
  intros [ng changes v|changes v|versions v|v|ng version value mapping v|v|v v' S].
  - apply manages_HandleChangeEvent.
  - apply manages_HandleMultipleChangeEvent.
  - apply manages_HandlePartialReloadEvent.
  - unfold HandleReloadEvent. apply frame_bind; [apply _|apply manages_initConfigWithRecovery|intros _; apply frame_ret, _].
  - apply frame_UpdateSnapshot.
  - apply manages_InitConfigWithRetry.
  - by apply snapshots_same.
Qed.

(** C20: However the program runs, events, reloads, start-up and failures
    included, every snapshot that a gateway can be served, in the cache or
    announced to it, holds listeners as listeners, clusters as clusters, route
    configurations as routes and the runtime as runtime, and nothing as
    endpoints or secrets. *)
Theorem snapshots_stay_typed w w' :
  rtc manager_step w w' -> ew_cache w = ∅ -> ew_sets w = [] ->
  forall ng s t name r,
    ew_cache w' !! ng = Some s \/ (ng, s) ∈ ew_sets w' ->
    Resources_Items (s t) !! name = Some r -> kind_of t r.
Proof.
  intros S Ec Es.
  assert (manages w w') as M.
  { clear Ec Es. induction S as [|u v x Huv _ IH]; [done|]. etransitivity; [by apply manager_step_typed|done]. }
  assert (snapshots_typed w) as Hw by (split; [rewrite Ec; apply map_Forall_empty|rewrite Es; by apply Forall_nil]).
  destruct (M Hw) as [Hc Hs].
  intros ng s t name r [Hin|Hin] Hr.
  - exact (Hc ng s Hin t name r Hr).
  - rewrite Forall_forall in Hs. exact (Hs _ Hin t name r Hr).
Qed.

(** * The effect of an action *)

Definition items (w : EnvoyWorld) (ng : string) (t : resource_type) : gmap string envoy_resource :=
  match (ew_cache w !! ng : option Snapshot) with Some s => Resources_Items (s t) | None => ∅ end.

Lemma put_resources_effect ng t v i w w' :
  put_resources ng t v i w = (Ok tt, w') ->
  items w' ng t = i /\ (forall u, u <> t -> items w' ng u = items w ng u).
Proof.
  unfold put_resources, items, bind, get_snapshot. destruct (ew_cache w !! ng) as [s|] eqn:Es; [|done].
  intros [= <-]. cbn. rewrite lookup_insert_eq. unfold set_resources. split; [by rewrite decide_True|].
  intros u N. by rewrite decide_False.
Qed.
Lemma same_snapshots_items w w' ng t : same_snapshots w w' -> items w' ng t = items w ng t.
Proof. intros [Ec _]. unfold items. by rewrite Ec. Qed.
Lemma get_snapshot_items ng w s w' : get_snapshot ng w = (Ok s, w') -> w' = w /\ forall t, items w ng t = Resources_Items (s t).
Proof. unfold get_snapshot, items. destruct (ew_cache w !! ng); [|done]. by intros [= -> ->]. Qed.
Lemma update_items_effect ng t f w w' :
  update_items ng t f w = (Ok tt, w') ->
  items w' ng t = f (items w ng t) /\ (forall u, u <> t -> items w' ng u = items w ng u).
Proof.
  intros (s & w0 & [-> Es]%get_snapshot_items & (v & w1 & G & P)%bind_Ok)%bind_Ok.
  assert (S := frame_run same_snapshots _ _ _ _ (frame_GenerateResourceVersion same_snapshots) G).
  apply put_resources_effect in P as [E1 E2]. split; [by rewrite E1, Es|].
  intros u N. rewrite E2 by done. by apply same_snapshots_items.
Qed.

Lemma perform_cluster_update_effect ng builderGroup cluster w w' :
  perform_cluster_update ng builderGroup cluster w = (Ok tt, w') ->
  exists c, items w' ng ClusterType = <[ReplaceDotsByUnderscore (Cluster_Name cluster) := ResCluster c]> (items w ng ClusterType).
Proof.
  intros (c & w1 & Bd & U)%bind_Ok. exists c. apply update_items_effect in U as [-> _].
  assert (F := frame_run same_snapshots _ _ _ _ (frame_on_builder same_snapshots _) Bd). destruct F as [Ec _].
  unfold items. by rewrite Ec.
Qed.

(** A cluster is published under its name with the dots replaced by
    underscores, and removed under its name as it is: once its update and its
    deletion have both succeeded, the snapshot is rid of the cluster exactly
    when its name has no dot.  (The keys of clusters hold host names.) *)
Theorem deleted_cluster_gone_iff ng builderGroup v v' cluster w w1 w2 :
  Perform ng (ClusterUpdateAction builderGroup v (Some cluster)) w = (Ok tt, w1) ->
  Perform ng (ClusterDeleteAction v' cluster) w1 = (Ok tt, w2) ->
  (items w2 ng ClusterType !! ReplaceDotsByUnderscore (Cluster_Name cluster) = None <->
   ReplaceDotsByUnderscore (Cluster_Name cluster) = Cluster_Name cluster).
Proof.
  intros U D. cbn [Perform] in U. apply bind_Ok in U as (c & w0 & [-> ->]%ret_Ok & U).
  apply perform_cluster_update_effect in U as [c U]. apply update_items_effect in D as [D _]. rewrite D, U.
  destruct (decide (ReplaceDotsByUnderscore (Cluster_Name cluster) = Cluster_Name cluster)) as [Eq|N].
  - rewrite Eq, lookup_delete_eq. done.
  - rewrite lookup_delete_ne, lookup_insert_eq by congruence. split; [done|by intros ?].
Qed.

(** * The map of updates *)

(** What should stand for an entity: its first deletion, and without one its
    first update. *)
Definition pending (k : EnvoyEntity) (id : Z) (us : list (EnvoyEntity * GranularEntityUpdate)) : option GranularEntityUpdate :=
  let mine := snd <$> List.filter (fun u => bool_decide (u.1 = k) && (Granular_EntityId u.2 =? id)%Z) us in
  match List.find Granular_IsDelete mine with Some d => Some d | None => head mine end.

Lemma ActionsMap_Put_lookup actions k u k' id :
  (ActionsMap_Put actions k u !! k' ≫= (.!! id))
  = if bool_decide (k = k') && (Granular_EntityId u =? id)%Z
    then match actions !! k' ≫= (.!! id) with
         | Some old => Some (if negb (Granular_IsDelete old) && Granular_IsDelete u then u else old)
         | None => Some u
         end
    else actions !! k' ≫= (.!! id).
Proof.
  unfold ActionsMap_Put, ActionsMap in *. case_bool_decide as Ek; [subst k'|by rewrite lookup_insert_ne].
  rewrite lookup_insert_eq. cbn. unfold put_update.
  assert (forall i, default ∅ (actions !! k) !! i = actions !! k ≫= (.!! i)) as L.
  { intros i. destruct (actions !! k); [done|]. cbn. by rewrite lookup_empty. }
  rewrite L. destruct (Z.eqb_spec (Granular_EntityId u) id) as [<-|N]; cbn [andb].
  - destruct (actions !! k ≫= _) as [old|] eqn:Eo; [|by rewrite lookup_insert_eq].
    destruct (negb _ && _); [by rewrite lookup_insert_eq|]. by rewrite L.
  - assert (L' := L id). destruct (actions !! k ≫= (.!! Granular_EntityId u)) as [old|];
      [destruct (negb _ && _)|]; rewrite ?lookup_insert_ne by done; exact L'.
Qed.
Lemma pending_snoc k id us k' u :
  pending k id (us ++ [(k', u)])%list
  = if bool_decide (k' = k) && (Granular_EntityId u =? id)%Z
    then match pending k id us with
         | Some old => Some (if negb (Granular_IsDelete old) && Granular_IsDelete u then u else old)
         | None => Some u
         end
    else pending k id us.
Proof.
  unfold pending. rewrite List.filter_app, fmap_app. cbn [List.filter fst snd].
  set (mine := snd <$> List.filter _ us : list GranularEntityUpdate).
  destruct (bool_decide (k' = k) && _); [|by rewrite app_nil_r]. cbn [fmap list_fmap snd].
  assert (F : List.find Granular_IsDelete (mine ++ [u])%list
              = match List.find Granular_IsDelete mine with Some d => Some d | None => if Granular_IsDelete u then Some u else None end).
  { induction mine as [|x mine IH]; cbn; [done|]. by destruct (Granular_IsDelete x). }
  rewrite F. destruct (List.find Granular_IsDelete mine) as [d|] eqn:Fd.
  - apply List.find_some in Fd as [_ ->]. done.
  - destruct mine as [|x mine]; cbn; [by destruct (Granular_IsDelete u)|].
    cbn in Fd. destruct (Granular_IsDelete x) eqn:Ex; [done|]. cbn. by destruct (Granular_IsDelete u).
Qed.

(** C28: The map of updates holds, for every entity of every kind, the first
    deletion put for it, and the first update when there was none: whatever the
    order in which the changes of the tables are read, an entity that is
    deleted is deleted, and no entity is built twice. *)
Theorem ActionsMap_Put_pending (us : list (EnvoyEntity * GranularEntityUpdate)) (k : EnvoyEntity) (id : Z) :
  (fold_left (fun actions u => ActionsMap_Put actions u.1 u.2) us (∅ : ActionsMap) !! k ≫= (.!! id)) = pending k id us.
Proof.
  induction us as [|[k' u] us IH] using rev_ind; [done|].
  rewrite fold_left_app. cbn [fold_left fst snd]. by rewrite ActionsMap_Put_lookup, pending_snoc, IH.
Qed.
End spec.

(** * Witnesses *)

Definition wit_listener : Listener :=
  (zero : Listener) <| Listener_Id := 1%Z |> <| Listener_Name := "orders-listener" |> <| Listener_NodeGroupId := "orders-gateway" |>
    <| Listener_BindHost := "0.0.0.0" |> <| Listener_BindPort := "8080" |> <| Listener_RouteConfigurationName := "orders-routes" |>.
Definition wit_started : EnvoyWorld (R := test_runtime) :=
  (UpdateListener "orders-gateway" 1 wit_listener "" (started empty_world)).2.

Definition items_of (w : EnvoyWorld (R := test_runtime)) (ng : string) (t : resource_type) (name : string) :
    option envoy_resource := s ← ew_cache w !! ng; Resources_Items (s t) !! name.
Lemma snapshots_stay_typed_witness :
  exists s r, ew_cache wit_started !! "orders-gateway" = Some s /\
    Resources_Items (s ListenerType) !! "orders-listener" = Some r /\ kind_of ListenerType r.
Proof.
  assert (exists s r, ew_cache wit_started !! "orders-gateway" = Some s /\
            Resources_Items (s ListenerType) !! "orders-listener" = Some r) as (s & r & Es & Er).
  { vm_compute. do 2 eexists. split; reflexivity. }
  exists s, r. split; [exact Es|]. split; [exact Er|].
  apply (snapshots_stay_typed (R := test_runtime) (started empty_world) wit_started
           (rtc_once _ _ (step_listener (R := test_runtime) "orders-gateway" 1 wit_listener "" (started empty_world)))
           eq_refl eq_refl "orders-gateway" s ListenerType "orders-listener" r (or_introl Es) Er).
Defined.

Definition wit_before : EnvoyWorld (R := test_runtime) := (ensure_snapshot "egress-gateway" (started egress_world)).2.
Definition wit_update : prog (EnvoyWorld (R := test_runtime)) unit :=
  Perform "egress-gateway" (ClusterUpdateAction "egress-gateway" "1" (Some egress_cluster)).
Definition wit_delete : prog (EnvoyWorld (R := test_runtime)) unit :=
  Perform "egress-gateway" (ClusterDeleteAction "2" egress_cluster).
Lemma deleted_cluster_gone_iff_witness :
  items (wit_delete (wit_update wit_before).2).2 "egress-gateway" ClusterType
    !! "maps_example_com||maps_example_com||443" <> None.
Proof.
  assert ((wit_update wit_before).1 = Ok tt) as U by (vm_compute; reflexivity).
  assert ((wit_delete (wit_update wit_before).2).1 = Ok tt) as D by (vm_compute; reflexivity).
  destruct (deleted_cluster_gone_iff (R := test_runtime) "egress-gateway" "egress-gateway" "1" "2" egress_cluster
              wit_before (wit_update wit_before).2 (wit_delete (wit_update wit_before).2).2
              (run_pair wit_update wit_before (Ok tt) U) (run_pair wit_delete _ (Ok tt) D)) as [Gone _].
  intros N. discriminate (Gone N).
Defined.
