(* ===== verification/ManagerSpec.v ===== *)
(** What the update manager publishes: the names in an announced snapshot, the
    attempts at start-up, and where the events for several gateways fall
    short. *)
From S2P Require Import Prelude GoLib Domain RouteKey Tables MemDb Msaddr Events RegCommon Runtime RuntimeModel Dao.
From S2P Require Import Entity Util Tls EnvoyApi EnvoyProps EnvoyRoutes EnvoyBuilder EnvoyActions EnvoyEvents.
From S2P Require Import EnvoyProcessor EnvoyManager EnvoyModel SnapshotSpec.
Open Scope string_scope.

Section spec.
Context `{R : Runtime} `{H : Sha256} `{E : EntityService} `{K : Certificates} `{Pb : Protobuf}
  `{B : !EnvoyConfigBuilder (R := R)} `{SC : SnapshotCache} `{T : TlsMode}.

(** * The catalogue of a gateway *)

(** The names published of every resource type, and what an action means for
    them. *)
Definition Catalogue : Type := resource_type -> gset string.
Definition change_names (t : resource_type) (f : gset string -> gset string) (c : Catalogue) : Catalogue :=
  fun u => if decide (u = t) then f (c u) else c u.
Definition listener_names (withTls : bool) (l : Listener) : gset string :=
  if withTls then {[Listener_Name l ++ "-tls"; Listener_Name l]} else {[Listener_Name l]}.
Fixpoint catalogue_after (a : SnapshotUpdateAction) (c : Catalogue) : Catalogue :=
  match a with
  | CompositeUpdateAction l => (fix all (l : list SnapshotUpdateAction) (c : Catalogue) : Catalogue :=
                                  match l with [] => c | x :: l' => all l' (catalogue_after x c) end) l c
  | ListenerUpdateAction _ l _ =>
      change_names ListenerType (union (listener_names (tls_preferred && (bool_decide (Listener_NodeGroupId l ∈ oobGateways)
        || bool_decide (Listener_BindPort l = "8080"))) l)) c
  | ListenerDeleteAction _ l => change_names ListenerType (fun names => names ∖ listener_names tls_preferred l) c
  | ClusterUpdateAction _ _ (Some x) => change_names ClusterType (union {[ReplaceDotsByUnderscore (Cluster_Name x)]}) c
  | ClusterUpdateAction _ _ None => c
  | ClusterDeleteAction _ x => change_names ClusterType (fun names => names ∖ {[Cluster_Name x]}) c
  | RouteConfigUpdateAction _ x => change_names RouteType (union {[RouteConfiguration_Name x]}) c
  | RouteConfigDeleteAction _ x => change_names RouteType (fun names => names ∖ {[RouteConfiguration_Name x]}) c
  | DeleteAllByTypeAction _ t => change_names t (fun _ => ∅) c
  | RuntimeUpdateAction _ => change_names RuntimeType (union {["rtds_layer0"]}) c
  end.

Definition catalogue (w : EnvoyWorld) (ng : string) : Catalogue := fun t => dom (items w ng t).
(** [m] changes the names of [ng] the way [f] says. *)
Definition renames {A} (ng : string) (m : prog EnvoyWorld A) (f : Catalogue -> Catalogue) : Prop :=
  forall w a w', m w = (Ok a, w') -> forall t, catalogue w' ng t = f (catalogue w ng) t.
#[export] Instance change_names_proper t f : Proper (pointwise_relation _ eq ==> pointwise_relation _ eq) (change_names t f).
Proof. intros c c' Ec u. unfold change_names. by rewrite Ec. Qed.
#[export] Instance catalogue_after_proper a : Proper (pointwise_relation _ eq ==> pointwise_relation _ eq) (catalogue_after a).
Proof.
  induction a as [l IH|a Hl] using action_induction.
  - cbn. induction IH as [|a l Ha _ IHl]; intros c c' Ec; [done|]. by apply IHl, Ha.
  - intros c c' Ec u. destruct a as [l|v l m|v l|g v [x|]|v x|v x|v x|v x|g]; [by destruct (Hl l)|..]; cbn [catalogue_after];
      try (unfold change_names; by rewrite Ec); exact (Ec u).
Qed.

Lemma renames_update_items ng t f g :
  (forall items : gmap string envoy_resource, dom (f items) = g (dom items)) ->
  renames ng (update_items ng t f) (change_names t g).
Proof.
  intros Hf w [] w' [E1 E2]%update_items_effect u. unfold catalogue, change_names. case_decide as D.
  - subst u. by rewrite E1.
  - by rewrite E2.
Qed.
Lemma renames_GenericUpdate ng name t r : renames ng (GenericUpdateAction_Perform ng name t r) (change_names t (union {[name]})).
Proof. apply renames_update_items. intros i. apply dom_insert_L. Qed.
Lemma renames_GenericDelete ng name t : renames ng (GenericDeleteAction_Perform ng name t) (change_names t (fun i => i ∖ {[name]})).
Proof. apply renames_update_items. intros i. apply dom_delete_L. Qed.
Lemma renames_put_empty ng t v : renames ng (put_resources ng t v ∅) (change_names t (fun _ => ∅)).
Proof.
  intros w [] w' [E1 E2]%put_resources_effect u. unfold catalogue, change_names. case_decide as D.
  - subst u. by rewrite E1, dom_empty_L.
  - by rewrite E2.
Qed.
Lemma same_snapshots_catalogue w w' ng t : same_snapshots w w' -> catalogue w' ng t = catalogue w ng t.
Proof. intros S. unfold catalogue. by rewrite (same_snapshots_items _ _ ng t S). Qed.
(** A step that leaves the snapshots alone, then one that renames. *)
Lemma renames_after {A C} ng (m : prog EnvoyWorld A) (k : A -> prog EnvoyWorld C) f :
  frame same_snapshots m -> Proper (pointwise_relation _ eq ==> pointwise_relation _ eq) f ->
  (forall a, renames ng (k a) f) -> renames ng (bind m k) f.
Proof.
  intros F Hp Hk w c w' (a & w1 & E1 & E2)%bind_Ok t.
  rewrite (Hk a _ _ _ E2 t). apply Hp. intros u. apply same_snapshots_catalogue. by eapply frame_run.
Qed.
Lemma renames_seq {A C} ng (m : prog EnvoyWorld A) (k : A -> prog EnvoyWorld C) f g :
  Proper (pointwise_relation _ eq ==> pointwise_relation _ eq) g ->
  renames ng m f -> (forall a, renames ng (k a) g) -> renames ng (bind m k) (fun c => g (f c)).
Proof.
  intros Hp Hm Hk w c w' (a & w1 & E1 & E2)%bind_Ok t.
  rewrite (Hk a _ _ _ E2 t). apply Hp. intros u. apply (Hm _ _ _ E1).
Qed.
Lemma renames_ext {A} ng (m : prog EnvoyWorld A) f g :
  (forall c t, f c t = g c t) -> renames ng m f -> renames ng m g.
Proof. intros Efg Hm w a w' Em t. by rewrite <- Efg, (Hm _ _ _ Em). Qed.
Lemma renames_ret {A} ng (a : A) : renames ng (ret a) (fun c => c).
Proof. by intros w b w' [-> ->]%ret_Ok t. Qed.

Lemma renames_listener_update ng l mapping :
  renames ng (perform_listener_update ng l mapping)
    (change_names ListenerType (union (listener_names (tls_preferred && listener_withTls l) l))).
Proof.
  unfold perform_listener_update. set (withTls := tls_preferred && listener_withTls l).
  apply (renames_ext _ _ (fun c => change_names ListenerType (union {[Listener_Name l]})
    ((if withTls then change_names ListenerType (union {[Listener_Name l ++ "-tls"]}) else id) c))).
  { intros c t. unfold change_names, listener_names. destruct withTls, (decide (t = ListenerType)); cbn; set_solver. }
  apply renames_seq; [apply _| |].
  - destruct withTls; [|apply renames_ret].
    apply renames_after; [apply frame_on_builder, _|apply _|intros b; apply renames_GenericUpdate].
  - intros _. apply renames_after; [apply frame_on_builder, _|apply _|intros b; apply renames_GenericUpdate].
Qed.
Lemma renames_listener_delete ng l :
  renames ng (perform_listener_delete ng l) (change_names ListenerType (fun names => names ∖ listener_names tls_preferred l)).
Proof.
  unfold perform_listener_delete.
  apply (renames_ext _ _ (fun c => change_names ListenerType (fun names => names ∖ {[Listener_Name l]})
    ((if tls_preferred then change_names ListenerType (fun names => names ∖ {[Listener_Name l ++ "-tls"]}) else id) c))).
  { intros c t. unfold change_names, listener_names. destruct tls_preferred, (decide (t = ListenerType)); cbn; set_solver. }
  apply renames_seq; [apply _| |].
  - destruct tls_preferred; [apply renames_GenericDelete|apply renames_ret].
  - intros _. apply renames_GenericDelete.
Qed.
Lemma listener_withTls_spec l :
  listener_withTls l = bool_decide (Listener_NodeGroupId l ∈ oobGateways) || bool_decide (Listener_BindPort l = "8080").
Proof.
  unfold listener_withTls. f_equal; [|by destruct (String.eqb_spec (Listener_BindPort l) "8080"); case_bool_decide].
  apply eq_true_iff_eq. rewrite existsb_exists, bool_decide_eq_true, list_elem_of_In. split.
  - by intros (x & Hx & ->%String.eqb_eq).
  - intros Hx. exists (Listener_NodeGroupId l). by rewrite String.eqb_refl.
Qed.

Lemma renames_cluster_update ng g x :
  renames ng (perform_cluster_update ng g x) (change_names ClusterType (union {[ReplaceDotsByUnderscore (Cluster_Name x)]})).
Proof. apply renames_after; [apply frame_on_builder, _|apply _|intros b; apply renames_GenericUpdate]. Qed.
Lemma renames_Perform ng a : renames ng (Perform ng a) (catalogue_after a).
Proof.
  induction a as [l IH|a Hl] using action_induction.
  - cbn [Perform catalogue_after]. intros w [] w' (failed & w1 & L & F)%bind_Ok t.
    destruct failed; [done|]. apply ret_Ok in F as [_ ->]. revert w w1 L t.
    generalize (eq_refl false). generalize false at 1 3 as started.
    induction IH as [|a l Ha _ IHl]; intros b Eb w w' L t.
    + by apply ret_Ok in L as [_ ->].
    + apply bind_Ok in L as (o & w1 & Oa & L). subst b. destruct o as [[]|].
      * rewrite (IHl false eq_refl _ _ L t). apply try_ok_Some in Oa.
        apply (catalogue_after_proper (CompositeUpdateAction l)). intros u. exact (Ha _ _ _ Oa u).
      * exfalso. clear -L. revert w1 L. induction l as [|x l IHl]; intros w1 L; [by apply ret_Ok in L as [? _]|].
        apply bind_Ok in L as (o & w2 & _ & L). by destruct o; eapply IHl.
  - destruct a as [l|v l m|v l|g v [x|]|v x|v x|v x|v x|g]; [by destruct (Hl l)|..]; cbn [Perform catalogue_after].
    + rewrite <- listener_withTls_spec. apply renames_listener_update.
    + apply renames_listener_delete.
    + change (deref (Some x)) with (ret (W := EnvoyWorld) x). intros w [] w' U t. eapply (renames_cluster_update ng g x); exact U.
    + by intros w u w' U.
    + apply renames_GenericDelete.
    + apply renames_after; [apply frame_on_builder, _|apply _|intros b; apply renames_GenericUpdate].
    + apply renames_GenericDelete.
    + apply renames_put_empty.
    + apply renames_after; [apply frame_on_builder, _|apply _|intros b; apply renames_GenericUpdate].
Qed.

(** * What is announced *)

Lemma ensure_snapshot_spec ng w w' :
  ensure_snapshot ng w = (Ok tt, w') ->
  (forall t, catalogue w' ng t = catalogue w ng t) /\ (forall other, other <> ng -> ew_cache w' !! other = ew_cache w !! other).
Proof.
  unfold ensure_snapshot. intros (c & w0 & [-> ->]%gets_Ok & X)%bind_Ok.
  destruct (ew_cache w !! ng) as [s|] eqn:Es.
  - by apply ret_Ok in X as [_ ->].
  - apply ignore_err_Ok in X. unfold SetSnapshot, bind in X. cbn in X. subst w'. split.
    + intros t. unfold catalogue, items. cbn. rewrite lookup_insert_eq, Es. cbn. by rewrite !dom_empty_L.
    + intros other N. cbn. by rewrite lookup_insert_ne.
Qed.

Lemma UpdateSnapshot_publishes_names ng a w w' :
  UpdateSnapshot ng a w = (Ok tt, w') ->
  exists s, head (ew_sets w') = Some (ng, s) /\ ew_cache w' !! ng = Some s /\
    (forall t, dom (Resources_Items (s t)) = catalogue_after a (catalogue w ng) t) /\
    (forall other, other <> ng -> ew_cache w' !! other = ew_cache w !! other).
Proof.
  intros ([] & w1 & En & ([] & w2 & P & (s & w3 & G & S)%bind_Ok)%bind_Ok)%bind_Ok.
  apply ensure_snapshot_spec in En as [En Eo]. assert (Rn := renames_Perform ng a _ _ _ P).
  assert (F := frame_run (performs ng) _ _ _ _ (frame_Perform ng a) P).
  assert (Ei := get_snapshot_items _ _ _ _ G). destruct Ei as [-> Ei].
  unfold SetSnapshot, bind in S. cbn in S. injection S as _ <-. exists s. cbn. split; [done|]. split; [by rewrite lookup_insert_eq|].
  split.
  - intros t. rewrite <- Ei. change (dom (items w2 ng t)) with (catalogue w2 ng t). rewrite Rn.
    by apply catalogue_after_proper.
  - intros other N. rewrite lookup_insert_ne by done. by rewrite (performs_other _ _ _ F), Eo.
Qed.

(** C19: A successful update of a gateway announces one snapshot to it, and its
    names are those the action makes of the names before: every entity updated
    is published (a listener on the TLS port too, when TLS is on), every entity
    deleted is not, and a composite action is its parts one after another, all
    of which have succeeded.  No other gateway is touched. *)
Theorem UpdateSnapshot_publishes ng a w w' :
  UpdateSnapshot ng a w = (Ok tt, w') ->
  exists s, head (ew_sets w') = Some (ng, s) /\ ew_cache w' !! ng = Some s /\
    (forall t, dom (Resources_Items (s t)) = catalogue_after a (catalogue w ng) t) /\
    (forall other, other <> ng -> ew_cache w' !! other = ew_cache w !! other).
Proof. apply UpdateSnapshot_publishes_names. Qed.

(** C37: Snapshots are changed in place.  When the first of two updates fails and
    the second succeeds, the whole fails and nothing is announced, but the
    second stays in the cache, and the next successful update of the gateway,
    whatever it is about, announces it too. *)
Theorem failed_update_announced_later ng s0 a1 a2 a e w w1 w2 w3 :
  ew_cache w !! ng = Some s0 ->
  Perform ng a1 w = (Err e, w1) -> Perform ng a2 w1 = (Ok tt, w2) ->
  UpdateSnapshot ng (CompositeUpdateAction [a1; a2]) w = (Err ErrSomeActionsFailed, w2) /\
  ew_sets w2 = ew_sets w /\
  (UpdateSnapshot ng a w2 = (Ok tt, w3) ->
   exists s, head (ew_sets w3) = Some (ng, s) /\
     forall t, dom (Resources_Items (s t)) = catalogue_after a (catalogue_after a2 (catalogue w1 ng)) t).
Proof.
  intros Es P1 P2. assert (ensure_snapshot ng w = (Ok tt, w)) as En.
  { unfold ensure_snapshot. rewrite (bind_run _ _ w (ew_cache w) w) by done. by rewrite Es. }
  split; [|split].
  - unfold UpdateSnapshot. rewrite (bind_run _ _ w tt w En). unfold bind at 1. cbn [Perform].
    unfold bind, try_ok. rewrite P1, P2. done.
  - assert (F1 := frame_Perform ng a1 w). assert (F2 := frame_Perform ng a2 w1). rewrite P1 in F1. rewrite P2 in F2.
    cbn in F1, F2. by rewrite (performs_sets _ _ _ F2), (performs_sets _ _ _ F1).
  - intros (s & Hd & _ & Hn & _)%UpdateSnapshot_publishes_names. exists s. split; [done|].
    intros t. rewrite Hn. apply catalogue_after_proper. intros u. exact (renames_Perform ng a2 _ _ _ P2 u).
Qed.

(** * Start-up *)

(** [k] attempts one after another, all in vain, with a pause after each. *)
Inductive failed_attempts : nat -> EnvoyWorld -> EnvoyWorld -> Prop :=
  | no_attempt w : failed_attempts 0 w w
  | one_more k w w1 w2 :
      (forall w', InitConfig w <> (Ok tt, w')) -> w1 = (InitConfig w).2 ->
      failed_attempts k (on_dao tick w1).2 w2 -> failed_attempts (S k) w w2.

Lemma init_attempts_now n w w' : InitConfig w = (Ok tt, w') -> init_attempts (S n) w = (Ok tt, w').
Proof. intros Ei. cbn [init_attempts]. unfold bind at 1, initConfigWithRecovery. by rewrite Ei. Qed.
Lemma init_attempts_later n w r w1 :
  InitConfig w = (r, w1) -> (forall w', InitConfig w <> (Ok tt, w')) ->
  init_attempts (S n) w = init_attempts n (on_dao tick w1).2.
Proof.
  intros Ei F. cbn [init_attempts]. rewrite (bind_run _ _ w false w1).
  - reflexivity.
  - unfold initConfigWithRecovery. rewrite Ei. destruct r as [[]|?|?]; [by destruct (F w1)|done..].
Qed.
Lemma init_attempts_spec n w :
  (exists k w1 w', (k < n)%nat /\ failed_attempts k w w1 /\ InitConfig w1 = (Ok tt, w') /\ init_attempts n w = (Ok tt, w')) \/
  (exists w1, failed_attempts n w w1 /\
     init_attempts n w = (Panic "Envoy configuration initialization has failed", w1)).
Proof.
  revert w. induction n as [|n IH]; intros w.
  - right. exists w. split; [constructor|reflexivity].
  - destruct (InitConfig w) as [r w1] eqn:Er.
    assert (r = Ok tt \/ forall w', InitConfig w <> (Ok tt, w')) as [->|F]
      by (destruct r as [[]|?|?]; [by left|right; intros w'; by rewrite Er..]).
    + left. exists 0%nat, w, w1. split_and!; [lia|constructor|done|by apply init_attempts_now].
    + rewrite (init_attempts_later _ _ _ _ Er F).
      destruct (IH (on_dao tick w1).2) as [(k & w2 & w' & Hk & A & I & X)|(w2 & A & X)].
      * left. exists (S k), w2, w'. split_and!; [lia| |done|done]. econstructor; [exact F|by rewrite Er|exact A].
      * right. exists w2. split; [|exact X]. econstructor; [exact F|by rewrite Er|exact A].
Qed.

(** C21: Start-up ends after at most 40 attempts: with the first attempt that
    succeeds, each before it having failed or panicked, and its snapshots stay;
    or, after 40 failures, in a panic.  It never returns without a
    configuration. *)
Theorem InitConfigWithRetry_ends w :
  (exists k w1 w', (k < 40)%nat /\ failed_attempts k w w1 /\
     InitConfig w1 = (Ok tt, w') /\ InitConfigWithRetry w = (Ok tt, w')) \/
  (exists w1, failed_attempts 40 w w1 /\
     InitConfigWithRetry w = (Panic "Envoy configuration initialization has failed", w1)).
Proof. apply (init_attempts_spec maxAttempts). Qed.

(** * Events for several gateways *)

Definition one_cleanup (b : compositeUpdateBuilder) : Prop :=
  map_Forall (fun _ l => exists v t, l = [DeleteAllByTypeAction v t]) (cub_before b).
Lemma addBeforeAction_one b ng v t : one_cleanup b -> one_cleanup (addBeforeAction b ng (DeleteAllByTypeAction v t)).
Proof.
  intros Hb. unfold addBeforeAction. destruct (cub_before b !! ng); [done|]. unfold one_cleanup. cbn.
  apply map_Forall_insert_2; [by exists v, t|done].
Qed.
(** Adding updates does not change the actions that go first. *)
Lemma addUpdateAction_before versions b ng e x w b' w' :
  addUpdateAction versions b ng e x w = (Ok b', w') -> cub_before b' = cub_before b.
Proof.
  unfold addUpdateAction, add_action. destruct (String.eqb _ ""); [by intros [-> _]%ret_Ok|].
  by intros (u & w1 & _ & [-> _]%ret_Ok)%bind_Ok.
Qed.
Lemma reload_type_one versions b ng e v w b' w' :
  reload_type versions b ng e v w = (Ok b', w') -> one_cleanup b -> one_cleanup b'.
Proof.
  unfold reload_type. intros (t & w1 & _ & X)%bind_Ok Hb. apply (addBeforeAction_one b ng v t) in Hb.
  set (b1 := addBeforeAction b ng _) in *.
  assert (forall A (l : list A) (f : _ -> A -> prog EnvoyWorld _) u v1, (forall s (y : A) u s' u', f s y u = (Ok s', u') -> cub_before s' = cub_before s) ->
            fold_each l b1 f u = (Ok b', v1) -> one_cleanup b') as L.
  { intros A l f u v1 Hf X'. eapply (fold_each_inv l b1 f one_cleanup); [exact X'|exact Hb|].
    intros y s s' u1 u2 _ Hs Ef. unfold one_cleanup. by rewrite (Hf _ _ _ _ _ Ef). }
  destruct e.
  - apply bind_Ok in X as (l & w2 & _ & X). refine (L _ l _ w2 w' _ X). intros *. apply addUpdateAction_before.
  - apply bind_Ok in X as (l & w2 & _ & X). refine (L _ l _ w2 w' _ X). intros *. apply addUpdateAction_before.
  - apply bind_Ok in X as (l & w2 & _ & X). refine (L _ l _ w2 w' _ X). intros *. apply addUpdateAction_before.
  - by apply ret_Ok in X as [-> _].
Qed.

(** A partial reload clears at most one resource type of a gateway, whatever
    number of types it is about: the second and later cleanups are appended to a
    copy of the slice.  What was deleted from the storage meanwhile stays in the
    snapshots of the other types. *)
Theorem partial_reload_one_cleanup versions w b' w' :
  withReloadForVersions versions new_builder w = (Ok b', w') ->
  forall ng l, cub_before b' !! ng = Some l -> exists v t, l = [DeleteAllByTypeAction v t].
Proof.
  unfold withReloadForVersions. intros (ngs & w1 & _ & X)%bind_Ok.
  assert (one_cleanup b') as Hb; [|exact Hb].
  refine (fold_each_inv ngs new_builder _ one_cleanup w1 b' w' X _ _); [apply map_Forall_empty|].
  intros ng s s' u u' _ Hs (types & w2 & _ & Y)%bind_Ok.
  refine (fold_each_inv types s _ one_cleanup w2 s' u' Y Hs _).
  intros tv s1 s2 u1 u2 _ Hs1 Z. by eapply reload_type_one.
Qed.

(** ** Deleted bindings of clusters *)

(** Each element of a loop that succeeds was processed by a pass that did. *)
Lemma fold_each_pass {W A S} (l : list A) (s : S) (f : S -> A -> prog W S) w s' w' a :
  fold_each l s f w = (Ok s', w') -> a ∈ l -> exists s1 s2 w1 w2, f s1 a w1 = (Ok s2, w2).
Proof.
  revert s w. induction l as [|x l IH]; intros s w; [by intros _ ?%elem_of_nil|].
  intros (s1 & w1 & E1 & E2)%bind_Ok [->|Ha]%elem_of_cons; [by do 4 eexists|]. exact (IH _ _ E2 Ha).
Qed.
(** The change of a binding of a cluster to [ng] that was deleted. *)
Definition deleted_binding (ng : string) (c : Change) : Prop :=
  exists id, c = mkChange ClusterNodeGroupTable (Some (mkClustersNodeGroup id ng : entity ClusterNodeGroupTable)) None.
Lemma deleted_binding_pass versions b ng changes c w b' w' :
  getVersion versions ng EntityCluster <> "" -> c ∈ changes -> deleted_binding ng c ->
  processClusterNodeGroupChanges versions b changes w <> (Ok b', w').
Proof.
  intros Hv Hc [id ->] X. destruct (fold_each_pass _ _ _ _ _ _ _ X Hc) as (b1 & b2 & w1 & w2 & Y). clear X.
  cbn in Y. apply bind_Ok in Y as (binding & w3 & Ec & Y). injection Ec as <- <-. cbn in Y.
  unfold addDeleteAction, add_action in Y. destruct (String.eqb_spec (getVersion versions ng EntityCluster) ""); [done|].
  by apply bind_Ok in Y as (u & w4 & Z & _).
Qed.

Context `{RL : !RuntimeLaws (R := R)}.

(** An event for several gateways that carries a version of the clusters of
    a gateway and a deleted binding of a cluster to it is never handled: the
    deletion is handed to the factory as a struct where it asserts a pointer.
    No snapshot changes, and no gateway is told of anything in the event. *)
Theorem deleted_binding_stops_event changes cs c ng versions w w1 :
  changes !! ClusterNodeGroupTable = Some cs -> c ∈ cs -> deleted_binding ng c ->
  extractVersionsFromMultipleChangeEvent changes w = (Ok versions, w1) ->
  getVersion versions ng EntityCluster <> "" ->
  (forall w', HandleMultipleChangeEvent changes w <> (Ok tt, w')) /\
  same_snapshots w (HandleMultipleChangeEvent changes w).2.
Proof.
  intros Ecs Hc Hb Ev Hv. assert (forall m w', ParseMultipleChangeEvent changes w <> (Ok m, w')) as N.
  { intros m w'. unfold ParseMultipleChangeEvent. rewrite (bind_run _ _ _ _ _ Ev).
    intros (tables & w2 & Er & (b & w3 & X & _)%bind_Ok)%bind_Ok.
    assert ((ClusterNodeGroupTable, cs) ∈ tables) as Ht.
    { unfold range, tick, bind, ret in Er. cbn in Er. injection Er as <- _. rewrite map_order_perm. by apply elem_of_map_to_list. }
    destruct (fold_each_pass _ _ _ _ _ _ _ X Ht) as (b1 & b2 & u1 & u2 & Y). cbn in Y.
    by eapply (deleted_binding_pass versions b1 ng cs c). }
  assert (F := frame_ParseMultipleChangeEvent changes w). unfold HandleMultipleChangeEvent, bind.
  destruct (ParseMultipleChangeEvent changes w) as [[m|e|p] w2]; [by destruct (N m w2)|..]; by split.
Qed.
End spec.

(** * Witnesses *)

Notation test_world := (EnvoyWorld (R := test_runtime)).
Definition wit_publish : prog test_world unit :=
  UpdateSnapshot "egress-gateway" (ClusterUpdateAction "egress-gateway" "1" (Some egress_cluster)).
Lemma UpdateSnapshot_publishes_witness :
  exists s, ew_cache (wit_publish (started egress_world)).2 !! "egress-gateway" = Some s /\
    dom (Resources_Items (s ClusterType)) = {["maps_example_com||maps_example_com||443"]}.
Proof.
  assert ((wit_publish (started egress_world)).1 = Ok tt) as U by (vm_compute; reflexivity).
  destruct (UpdateSnapshot_publishes (R := test_runtime) "egress-gateway"
              (ClusterUpdateAction "egress-gateway" "1" (Some egress_cluster))
              (started egress_world) (wit_publish (started egress_world)).2
              (run_pair wit_publish _ (Ok tt) U)) as (s & _ & Es & Hn & _).
  exists s. split; [exact Es|]. rewrite (Hn ClusterType). apply (bool_decide_unpack _). vm_compute. exact I.
Defined.

(** A port that is not a number, then a listener that goes away. *)
Definition wit_bad_listener : Listener := wit_listener <| Listener_BindPort := "http" |>.
Definition wit_a1 : SnapshotUpdateAction := ListenerUpdateAction "2" wit_bad_listener "".
Definition wit_a2 : SnapshotUpdateAction := ListenerDeleteAction "2" wit_listener.
Definition wit_both : prog test_world unit := UpdateSnapshot "orders-gateway" (CompositeUpdateAction [wit_a1; wit_a2]).
Definition wit_p1 : prog test_world unit := Perform "orders-gateway" wit_a1.
Definition wit_p2 : prog test_world unit := Perform "orders-gateway" wit_a2.
Lemma failed_update_announced_later_witness :
  items wit_started "orders-gateway" ListenerType !! "orders-listener" <> None /\
  (wit_both wit_started).1 = Err ErrSomeActionsFailed /\ ew_sets (wit_both wit_started).2 = ew_sets wit_started /\
  items (wit_both wit_started).2 "orders-gateway" ListenerType !! "orders-listener" = None.
Proof.
  assert (exists s, ew_cache wit_started !! "orders-gateway" = Some s) as [s0 Es] by (vm_compute; eexists; reflexivity).
  assert (exists e, (wit_p1 wit_started).1 = Err e) as [e P1] by (vm_compute; eexists; reflexivity).
  assert ((wit_p2 (wit_p1 wit_started).2).1 = Ok tt) as P2 by (vm_compute; reflexivity).
  apply (run_pair wit_p1) in P1. unfold wit_p1 at 1 in P1.
  apply (run_pair wit_p2) in P2. unfold wit_p2 at 1 in P2.
  destruct (failed_update_announced_later (R := test_runtime) "orders-gateway" s0 wit_a1 wit_a2 (RuntimeUpdateAction "orders-gateway") e
              wit_started (wit_p1 wit_started).2 (wit_p2 (wit_p1 wit_started).2).2 wit_started Es
              P1 P2) as (Eb & Hs & _).
  change (UpdateSnapshot _ _ wit_started) with (wit_both wit_started) in Eb.
  split; [vm_compute; discriminate|]. rewrite Eb. split; [reflexivity|]. split; [exact Hs|]. vm_compute. reflexivity.
Defined.

Definition wit_versions : NodeGroupEntityVersions :=
  {["egress-gateway" := {[EntityCluster := "2"; EntityListener := "2"]}]}.
Definition wit_reload : prog test_world compositeUpdateBuilder := withReloadForVersions wit_versions new_builder.
Definition reloaded : option compositeUpdateBuilder :=
  match (wit_reload (started egress_world)).1 with Ok b => Some b | _ => None end.
Lemma partial_reload_one_cleanup_witness :
  exists b l, reloaded = Some b /\ cub_before b !! "egress-gateway" = Some l /\
    exists v t, l = [DeleteAllByTypeAction v t].
Proof.
  assert (exists b l, (wit_reload (started egress_world)).1 = Ok b /\ cub_before b !! "egress-gateway" = Some l)
    as (b & l & Eb & El) by (vm_compute; do 2 eexists; split; reflexivity).
  exists b, l. split; [unfold reloaded; by rewrite Eb|]. split; [exact El|].
  exact (partial_reload_one_cleanup (R := test_runtime) wit_versions (started egress_world) b
           (wit_reload (started egress_world)).2 (run_pair wit_reload _ (Ok b) Eb) "egress-gateway" l El).
Defined.

Definition wit_version_change : Change :=
  mkChange EnvoyConfigVersionTable None (Some (mkEnvoyConfigVersion "egress-gateway" "clusters" 2 : entity EnvoyConfigVersionTable)).
Definition wit_binding_change : Change :=
  mkChange ClusterNodeGroupTable (Some (mkClustersNodeGroup 1 "egress-gateway" : entity ClusterNodeGroupTable)) None.
Definition wit_changes : ChangesByTable :=
  {[EnvoyConfigVersionTable := [wit_version_change]; ClusterNodeGroupTable := [wit_binding_change]]}.
Definition wit_extract : prog test_world NodeGroupEntityVersions := extractVersionsFromMultipleChangeEvent wit_changes.
Lemma deleted_binding_stops_event_witness :
  (HandleMultipleChangeEvent wit_changes (started egress_world)).1 <> Ok tt.
Proof.
  assert (exists vs, (wit_extract (started egress_world)).1 = Ok vs /\ getVersion vs "egress-gateway" EntityCluster <> "")
    as (vs & Ev & Hv) by (vm_compute; eexists; split; [reflexivity|discriminate]).
  destruct (deleted_binding_stops_event (R := test_runtime) (RL := test_laws) wit_changes [wit_binding_change] wit_binding_change "egress-gateway" vs
              (started egress_world) (wit_extract (started egress_world)).2
              eq_refl (list_elem_of_here _ _) (ex_intro _ 1%Z eq_refl) (run_pair wit_extract _ (Ok vs) Ev) Hv) as [N _].
  intros X. apply (N (HandleMultipleChangeEvent wit_changes (started egress_world)).2).
  exact (run_pair (HandleMultipleChangeEvent wit_changes) (started egress_world) (Ok tt) X).
Defined.
