(* ===== verification/Bootstrap.v ===== *)
(** [configuration/]: the clusters, listeners, virtual hosts and routes the
    control plane gives its own gateways when it starts as the master.

    The changes of each transaction are collected per node group, in the state
    of the configuration, and published at the end. *)
From S2P Require Import Prelude GoLib Domain Tables MemDb Msaddr Events RouteKey RegCommon Runtime Dao Entity.
From S2P Require Import Format RouteCreation Dto Requests Registration EnvoyApi EnvoyClusters.
Open Scope string_scope.

Definition configServerRouteKeyPrefix := "".
Definition InternalGateway := "internal-gateway-service".
Definition internalGatewayListenerName := "internal-gateway-service-listener".
Definition publicGatewayListenerName := "public-gateway-service-listener".
Definition privateGatewayListenerName := "private-gateway-service-listener".
Definition internalGatewayRouteConfigName := "internal-gateway-service-routes".
Definition publicGatewayRouteConfigName := "public-gateway-service-routes".
Definition privateGatewayRouteConfigName := "private-gateway-service-routes".

Section names.
Context `{TM : TlsMode}.
Definition controlPlaneClusterName : string :=
  if tls_preferred then "control-plane||control-plane||8443" else "control-plane||control-plane||8080".
Definition configServerClusterName : string :=
  if tls_preferred then "config-server||config-server||8443" else "config-server||config-server||8080".

(** * Routes ([configuration/routes.go]); each takes its uuid *)

Definition newGatewayHealthRoute (virtualHostId : Z) (routeKey fromPrefix clusterName current initial : string)
    (directResponse : Z) (uuid : string) : Route :=
  (zero : Route) <| Route_Uuid := uuid |> <| Route_VirtualHostId := virtualHostId |> <| Route_RouteKey := routeKey |>
    <| Route_Prefix := fromPrefix |> <| Route_ClusterName := clusterName |> <| Route_DirectResponseCode := directResponse |>
    <| Route_DeploymentVersion := current |> <| Route_InitialDeploymentVersion := initial |> <| Route_Version := 1%Z |>.
Definition newCommonRoute (virtualHostId : Z) (routeKey fromPrefix toPrefix clusterName current initial uuid : string) : Route :=
  (zero : Route) <| Route_Uuid := uuid |> <| Route_VirtualHostId := virtualHostId |> <| Route_RouteKey := routeKey |>
    <| Route_Prefix := fromPrefix |> <| Route_ClusterName := clusterName |> <| Route_PrefixRewrite := toPrefix |>
    <| Route_DeploymentVersion := current |> <| Route_InitialDeploymentVersion := initial |> <| Route_Version := 1%Z |>.
Definition newRegexRoute (virtualHostId : Z) (routeKey fromRegex toRegex clusterName current initial uuid : string) : Route :=
  (zero : Route) <| Route_Uuid := uuid |> <| Route_VirtualHostId := virtualHostId |> <| Route_RouteKey := routeKey |>
    <| Route_Regexp := fromRegex |> <| Route_ClusterName := clusterName |> <| Route_RegexpRewrite := toRegex |>
    <| Route_Version := 1%Z |> <| Route_DeploymentVersion := current |> <| Route_InitialDeploymentVersion := initial |>.

Definition internalGatewayRoutes (virtualHostId : Z) (current initial : string) : list (string -> Route) :=
  [
     newCommonRoute virtualHostId "route-cp"
       "/api/v1/routes" "/api/v1/routes/internal-gateway-service" controlPlaneClusterName current initial;
     newCommonRoute virtualHostId "||/api/v2/control-plane/routing/details"
       "/api/v2/control-plane/routing/details" "/api/v2/control-plane/routing/details" controlPlaneClusterName current initial;
     newCommonRoute virtualHostId "||/api/v3/control-plane/routing/details"
       "/api/v3/control-plane/routing/details" "/api/v3/routing/details" controlPlaneClusterName current initial;
     newCommonRoute virtualHostId "||/api/v3/control-plane/active-active||v1"
       "/api/v3/control-plane/active-active" "/api/v3/active-active" controlPlaneClusterName current initial;
     newCommonRoute virtualHostId "||/api/v3/control-plane/composite-platform/namespaces||v1"
       "/api/v3/control-plane/composite-platform/namespaces" "/api/v3/composite-platform/namespaces" controlPlaneClusterName current initial;
     newCommonRoute virtualHostId "||/api/v3/control-plane/versions/microservices||v1"
       "/api/v3/control-plane/versions/microservices" "/api/v3/versions/microservices" controlPlaneClusterName current initial;
     newCommonRoute virtualHostId "||/api/v3/control-plane/versions/registry||v1"
       "/api/v3/control-plane/versions/registry" "/api/v3/versions/registry" controlPlaneClusterName current initial;
     newCommonRoute virtualHostId "||/api/v3/control-plane/rate-limits||v1"
       "/api/v3/control-plane/rate-limits" "/api/v3/rate-limits" controlPlaneClusterName current initial;
     newCommonRoute virtualHostId "||/api/v3/control-plane/http-filters||v1"
       "/api/v3/control-plane/http-filters" "/api/v3/http-filters" controlPlaneClusterName current initial;
     newCommonRoute virtualHostId "||/api/v3/control-plane/gateways/specs||v1"
       "/api/v3/control-plane/gateways/specs" "/api/v3/gateways/specs" controlPlaneClusterName current initial;
     newCommonRoute virtualHostId (configServerRouteKeyPrefix ++ "||" ++ "/api/v1/config-server")
       "/api/v1/config-server" "/" configServerClusterName current initial;
     newGatewayHealthRoute virtualHostId "internal-gateway-health" "/health" controlPlaneClusterName current initial 200].
Definition publicGatewayRoutes (virtualHostId : Z) (current initial : string) : list (string -> Route) :=
  [
     newCommonRoute virtualHostId "route-cp"
       "/api/v1/routes" "/api/v1/routes/public-gateway-service" controlPlaneClusterName current initial;
     newCommonRoute virtualHostId ""
       "/api/v3/control-plane/ui" "/api/v3/ui" controlPlaneClusterName current initial;
     newGatewayHealthRoute virtualHostId "public-gateway-health" "/health" controlPlaneClusterName current initial 200].
Definition privateGatewayRoutes (virtualHostId : Z) (current initial : string) : list (string -> Route) :=
  [
     newCommonRoute virtualHostId "route-cp"
       "/api/v1/routes" "/api/v1/routes/private-gateway-service" controlPlaneClusterName current initial;
     newCommonRoute virtualHostId "||/api/v1/routes/clusters||v1"
       "/api/v1/control-plane/routes/clusters" "/api/v1/routes/clusters" controlPlaneClusterName current initial;
     newCommonRoute virtualHostId "||/api/v1/routes/route-configs||v1"
       "/api/v1/control-plane/routes/route-configs" "/api/v1/routes/route-configs" controlPlaneClusterName current initial;
     newCommonRoute virtualHostId "||/api/v2/control-plane/routes||v1"
       "/api/v2/control-plane/routes" "/api/v2/control-plane/routes" controlPlaneClusterName current initial;
     newCommonRoute virtualHostId "||/api/v2/control-plane/routing/details||v1"
       "/api/v2/control-plane/routing/details" "/api/v2/control-plane/routing/details" controlPlaneClusterName current initial;
     newCommonRoute virtualHostId "||/api/v2/control-plane/versions||v1"
       "/api/v2/control-plane/versions" "/api/v2/control-plane/versions" controlPlaneClusterName current initial;
     newCommonRoute virtualHostId "||/api/v2/control-plane/promote"
       "/api/v2/control-plane/promote" "/api/v2/control-plane/promote" controlPlaneClusterName current initial;
     newCommonRoute virtualHostId "||/api/v2/control-plane/rollback"
       "/api/v2/control-plane/rollback" "/api/v2/control-plane/rollback" controlPlaneClusterName current initial;
     newCommonRoute virtualHostId "||/api/v2/control-plane/endpoints"
       "/api/v2/control-plane/endpoints" "/api/v2/control-plane/endpoints" controlPlaneClusterName current initial;
     newCommonRoute virtualHostId "||/api/v2/control-plane/load-balance"
       "/api/v2/control-plane/load-balance" "/api/v2/control-plane/load-balance" controlPlaneClusterName current initial;
     newCommonRoute virtualHostId "||/api/v2/control-plane/versions/watch||v1"
       "/api/v2/control-plane/versions/watch" "/api/v2/control-plane/versions/watch" controlPlaneClusterName current initial;
     newCommonRoute virtualHostId "||/api/v3/control-plane/routing/details||v1"
       "/api/v3/control-plane/routing/details" "/api/v3/routing/details" controlPlaneClusterName current initial;
     newCommonRoute virtualHostId "||/api/v3/control-plane/versions||v1"
       "/api/v3/control-plane/versions" "/api/v3/versions" controlPlaneClusterName current initial;
     newCommonRoute virtualHostId "||/api/v3/control-plane/versions/microservices||v1"
       "/api/v3/control-plane/versions/microservices" "/api/v3/versions/microservices" controlPlaneClusterName current initial;
     newCommonRoute virtualHostId "||/api/v3/control-plane/promote"
       "/api/v3/control-plane/promote" "/api/v3/promote" controlPlaneClusterName current initial;
     newCommonRoute virtualHostId "||/api/v3/control-plane/rollback"
       "/api/v3/control-plane/rollback" "/api/v3/rollback" controlPlaneClusterName current initial;
     newCommonRoute virtualHostId "||/api/v3/control-plane/endpoints"
       "/api/v3/control-plane/endpoints" "/api/v3/endpoints" controlPlaneClusterName current initial;
     newCommonRoute virtualHostId "||/api/v3/control-plane/load-balance"
       "/api/v3/control-plane/load-balance" "/api/v3/load-balance" controlPlaneClusterName current initial;
     newCommonRoute virtualHostId "||/api/v3/control-plane/rate-limits"
       "/api/v3/control-plane/rate-limits" "/api/v3/rate-limits" controlPlaneClusterName current initial;
     newCommonRoute virtualHostId "||/api/v3/control-plane/http-filters"
       "/api/v3/control-plane/http-filters" "/api/v3/http-filters" controlPlaneClusterName current initial;
     newCommonRoute virtualHostId "||/api/v3/control-plane/gateways/specs"
       "/api/v3/control-plane/gateways/specs" "/api/v3/gateways/specs" controlPlaneClusterName current initial;
     newCommonRoute virtualHostId "||/api/v3/control-plane/versions/watch||v1"
       "/api/v3/control-plane/versions/watch" "/api/v3/versions/watch" controlPlaneClusterName current initial;
     newCommonRoute virtualHostId "||/api/v3/control-plane/routes||v1"
       "/api/v3/control-plane/routes" "/api/v3/routes" controlPlaneClusterName current initial;
     newCommonRoute virtualHostId "||/api/v3/control-plane/domains||v1"
       "/api/v3/control-plane/domains" "/api/v3/domains" controlPlaneClusterName current initial;
     newCommonRoute virtualHostId "||/api/v3/control-plane/config||v1"
       "/api/v3/control-plane/config" "/api/v3/config" controlPlaneClusterName current initial;
     newCommonRoute virtualHostId ""
       "/api/v3/control-plane/apply-config" "/api/v3/apply-config" controlPlaneClusterName current initial;
     newRegexRoute virtualHostId "||/api/v3/control-plane/([^/]+)/([^/]+)(/.*)?||v1"
       "/api/v3/control-plane/([^/]+)/([^/]+)(/.*)?" "/api/v3/\1/\2\3" controlPlaneClusterName current initial;
     newCommonRoute virtualHostId "||/api/v3/control-plane/active-active||v1"
       "/api/v3/control-plane/active-active" "/api/v3/active-active" controlPlaneClusterName current initial;
     newCommonRoute virtualHostId (configServerRouteKeyPrefix ++ "||" ++ "/api/v1/config-server")
       "/api/v1/config-server" "/" configServerClusterName current initial;
     newGatewayHealthRoute virtualHostId "private-gateway-health" "/health" controlPlaneClusterName current initial 200].
End names.

(** * The configuration *)

Record defaultServiceConfiguration := mkDefaultServiceConfiguration {
  service_clusterName : string;
  service_tlsConfigName : string;
  service_httpVersion : Z;
  service_nodeGroups : list NodeGroup;
  service_address : string;
  service_port : Z
}.
Record defaultGatewayConfiguration := mkDefaultGatewayConfiguration {
  gateway_gatewayName : string;
  gateway_routeConfigName : string;
  gateway_routeListenerName : string;
  gateway_bindHost : string;
  gateway_bindPort : string;
  gateway_domain : string;
  gateway_routes : Z -> string -> string -> list (string -> Route);
  gateway_secured : bool
}.
(** The changes so far, per node group. *)
Record CommonConfiguration := mkCommonConfiguration {
  config_changes : gmap string (list Change);
  config_envoyChangesMap : gmap string (list Change)
}.
Definition add_changes (nodeGroup : string) (changes : list Change) (m : gmap string (list Change)) : gmap string (list Change) :=
  <[nodeGroup := (default [] (m !! nodeGroup) ++ changes)%list]> m.

Section configuration.
Context `{R : Runtime} `{H : Sha256} `{E : EntityService} `{TM : TlsMode} `{C : Configuration}.

(** ** Services *)

Definition service_tls_config (storage : repo) (service : defaultServiceConfiguration) : prog World (option TlsConfig) :=
  if String.eqb (service_tlsConfigName service) "" then ret None
  else
    found <- FindTlsConfigByName storage (service_tlsConfigName service) ;;
    match found with
    | Some tls => ret (Some tls)
    | None =>
        let propagate := match os_LookupEnv "SNI_PROPAGATION_ENABLED" with
                         | Some v => strings_EqualFold (strings_TrimSpace v) "true"
                         | None => false
                         end in
        let tls := (zero : TlsConfig) <| TlsConfig_Name := service_tlsConfigName service |> <| TlsConfig_Enabled := true |> in
        let tls := if propagate then tls <| TlsConfig_SNI := service_address service |> else tls in
        saved <- SaveTlsConfig storage tls ;; ret (Some saved)
    end.
(** A failure of the lookup or of the save panics. *)
Definition or_panic {A} (m : prog World A) : prog World A :=
  r <- try_ok m ;; match r with Some a => ret a | None => panic "Can't save tls config using DAO" end.
Definition createAndSaveCluster (storage : repo) (service : defaultServiceConfiguration) : prog World Z :=
  let cluster := NewCluster2 (service_clusterName service) (Some (service_httpVersion service)) in
  tls <- or_panic (service_tls_config storage service) ;;
  let cluster := match tls with
                 | Some t => cluster <| Cluster_TLSId := TlsConfig_Id t |> <| Cluster_TLS := Some t |>
                 | None => cluster
                 end in
  saved <- PutCluster storage cluster ;; ret (Cluster_Id saved).
Definition connectClusterWithNodeGroup (storage : repo) (clusterId : Z) (nodeGroup : string) : prog World unit :=
  PutClustersNodeGroupIfAbsent storage (mkClustersNodeGroup clusterId nodeGroup).
(** A failure is logged only. *)
Definition createAndSaveEndpoint (storage : repo) (service : defaultServiceConfiguration) (deploymentVersion : DeploymentVersion)
    (clusterId : Z) : prog World unit :=
  let version := DeploymentVersion_Version deploymentVersion in
  _ <- try_ok (PutEndpoint storage ((zero : Endpoint) <| Endpoint_Address := service_address service |>
    <| Endpoint_Port := service_port service |> <| Endpoint_DeploymentVersion := version |>
    <| Endpoint_InitialDeploymentVersion := version |> <| Endpoint_ClusterId := clusterId |>)) ;;
  ret tt.
Definition saveDefaultServiceConfigForNodeGroup (storage : repo) (service : defaultServiceConfiguration) (nodeGroup : string) :
    prog World unit :=
  actualVersion <- GetActiveDeploymentVersion storage ;;
  clusterId <- createAndSaveCluster storage service ;;
  connectClusterWithNodeGroup storage clusterId nodeGroup ;;;
  createAndSaveEndpoint storage service actualVersion clusterId.

(** ** Gateways *)

Definition createAndSaveRouteConfiguration (storage : repo) (gateway : defaultGatewayConfiguration) : prog World Z :=
  saved <- PutRouteConfig storage ((zero : RouteConfiguration) <| RouteConfiguration_Name := gateway_routeConfigName gateway |>
    <| RouteConfiguration_NodeGroupId := gateway_gatewayName gateway |> <| RouteConfiguration_Version := 1%Z |>) ;;
  ret (RouteConfiguration_Id saved).
Definition createAndSaveVirtualHost (storage : repo) (gateway : defaultGatewayConfiguration) (routeConfigId : Z) : prog World Z :=
  saved <- PutVirtualHost storage ((zero : VirtualHost) <| VirtualHost_Name := gateway_gatewayName gateway |>
    <| VirtualHost_RouteConfigurationId := routeConfigId |> <| VirtualHost_Version := 1%Z |>
    <| VirtualHost_Domains := [mkVirtualHostDomain (gateway_domain gateway) 1 0] |>) ;;
  ret (VirtualHost_Id saved).
Definition createExtAuthzFilterForListener (storage : repo) (gateway : defaultGatewayConfiguration) : prog World unit :=
  SaveExtAuthzFilter storage (mkExtAuthzFilter (gateway_gatewayName gateway ++ "-" ++ ExtAuthClusterName) "local-cluster" 15000 ∅
    (gateway_gatewayName gateway)).
Definition createAndSaveListener (storage : repo) (gateway : defaultGatewayConfiguration) : prog World unit :=
  _ <- PutListener storage ((zero : Listener) <| Listener_Name := gateway_routeListenerName gateway |>
    <| Listener_BindHost := gateway_bindHost gateway |> <| Listener_BindPort := gateway_bindPort gateway |>
    <| Listener_NodeGroupId := gateway_gatewayName gateway |> <| Listener_RouteConfigurationName := gateway_routeConfigName gateway |>
    <| Listener_Version := 1%Z |>) ;;
  if gateway_secured gateway then createExtAuthzFilterForListener storage gateway else ret tt.
Definition createAndSaveGatewayRoutes (storage : repo) (routes : list (string -> Route)) : prog World unit :=
  routes <- map_each routes (fun r => uuid <- NewUuid ;; ret (r uuid)) ;;
  PutRoutes storage routes.
Definition IsIstio : bool :=
  match os_LookupEnv "SERVICE_MESH_TYPE" with Some t => strings_EqualFold t "istio" | None => false end.
(** With Istio the gateways get no routes. *)
Definition WrapRouteCreator (creator : prog World unit) : prog World unit := if IsIstio then ret tt else creator.
Definition saveDefaultGatewayConfig (storage : repo) (gateway : defaultGatewayConfiguration) : prog World unit :=
  actualVersion <- GetActiveDeploymentVersion storage ;;
  routeConfigId <- createAndSaveRouteConfiguration storage gateway ;;
  createAndSaveListener storage gateway ;;;
  virtualHostId <- createAndSaveVirtualHost storage gateway routeConfigId ;;
  WrapRouteCreator (createAndSaveGatewayRoutes storage
    (gateway_routes gateway virtualHostId (DeploymentVersion_Version actualVersion) defaultVersion)).

(** ** All of it *)

Definition IsGatewayInternal (name : string) : bool := String.eqb name InternalGateway.
Definition IsGatewayPrivate (name : string) : bool := String.eqb name PrivateGateway.
Definition getServiceNodeGroups (nodeGroups : list NodeGroup) : list NodeGroup :=
  List.filter (fun ng => IsGatewayInternal (NodeGroup_Name ng) || IsGatewayPrivate (NodeGroup_Name ng)) nodeGroups.
(** [os.Getenv] with a default. *)
Definition env_default (name default_ : string) : string :=
  match os_LookupEnv name with Some v => if String.eqb v "" then default_ else v | None => default_ end.
Definition default_services (secured : bool) (baseNodeGroups : list NodeGroup) : list defaultServiceConfiguration :=
  ([mkDefaultServiceConfiguration controlPlaneClusterName "" 1 baseNodeGroups "control-plane" 8080;
    mkDefaultServiceConfiguration configServerClusterName "" 1 (getServiceNodeGroups baseNodeGroups) "config-server" 8080]
   ++ if secured
      then [mkDefaultServiceConfiguration ExtAuthClusterName "" 2 baseNodeGroups
              (env_default "GATEWAY_AUTH_HOST" "gateway-auth-extension") 10050]
      else [])%list.
Definition default_gateways (secured : bool) : list defaultGatewayConfiguration :=
  let binder := if String.eqb (env_default "IP_STACK" "v4") "v4" then "0.0.0.0" else "::" in
  [mkDefaultGatewayConfiguration InternalGateway internalGatewayRouteConfigName internalGatewayListenerName binder "8080" "*"
     internalGatewayRoutes secured;
   mkDefaultGatewayConfiguration PrivateGateway privateGatewayRouteConfigName privateGatewayListenerName binder "8080" "*"
     privateGatewayRoutes secured;
   mkDefaultGatewayConfiguration PublicGateway publicGatewayRouteConfigName publicGatewayListenerName binder "8080" "*"
     publicGatewayRoutes secured].
Definition generateAndSaveEnvoyConfigVersion (storage : repo) (nodeGroup entityType : string) : prog World unit :=
  now <- Now ;; SaveEnvoyConfigVersion storage (NewEnvoyConfigVersion now nodeGroup entityType).
Definition generateAndSaveEnvoyConfigVersionInTransaction (config : CommonConfiguration) (nodeGroup entityType : string) :
    prog World CommonConfiguration :=
  envoyChanges <- WithWTx (generateAndSaveEnvoyConfigVersion InTx nodeGroup entityType) ;;
  ret (mkCommonConfiguration (config_changes config) (add_changes nodeGroup envoyChanges (config_envoyChangesMap config))).
(** The changes of [m] are those of the node group. *)
Definition in_transaction (config : CommonConfiguration) (nodeGroup : string) (m : prog World unit) : prog World CommonConfiguration :=
  changes <- WithWTx m ;;
  ret (mkCommonConfiguration (add_changes nodeGroup changes (config_changes config)) (config_envoyChangesMap config)).
Definition saveEnvoyConfigVersionsForGateway (config : CommonConfiguration) (nodeGroup : string) : prog World CommonConfiguration :=
  fold_each [table_name ListenerTable; table_name RouteConfigurationTable] config (fun config tableName =>
    generateAndSaveEnvoyConfigVersionInTransaction config nodeGroup tableName).
Definition save_services (config : CommonConfiguration) (services : list defaultServiceConfiguration) : prog World CommonConfiguration :=
  fold_each services config (fun config service =>
    fold_each (service_nodeGroups service) config (fun config nodeGroup =>
      config <- in_transaction config (NodeGroup_Name nodeGroup)
                  (saveDefaultServiceConfigForNodeGroup InTx service (NodeGroup_Name nodeGroup)) ;;
      generateAndSaveEnvoyConfigVersionInTransaction config (NodeGroup_Name nodeGroup) (table_name ClusterTable))).
Definition save_gateways (config : CommonConfiguration) (gateways : list defaultGatewayConfiguration) : prog World CommonConfiguration :=
  fold_each gateways config (fun config gateway =>
    config <- in_transaction config (gateway_gatewayName gateway) (saveDefaultGatewayConfig InTx gateway) ;;
    saveEnvoyConfigVersionsForGateway config (gateway_gatewayName gateway)).
Definition CreateCommonConfiguration (secured : bool) (config : CommonConfiguration) : prog World CommonConfiguration :=
  baseNodeGroups <- FindAllNodeGroups Local ;;
  config <- save_services config (default_services secured baseNodeGroups) ;;
  save_gateways config (default_gateways secured).
Definition PublishChanges (config : CommonConfiguration) : prog World unit :=
  entries <- range (map_to_list (config_changes config)) ;;
  for_each entries (fun e : string * list Change =>
    Publish TopicChanges (NewChangeEventByNodeGroup e.1
      (e.2 ++ default [] (config_envoyChangesMap config !! e.1))%list)).
End configuration.

(** * Properties

    The configuration a new master starts with: everything that it changed is
    published. *)
From S2P Require Import Prelude GoLib Domain Tables MemDb Events RouteKey RegCommon Runtime RuntimeModel Dao DaoSpec Entity.
From S2P Require Import RouteServices RouteServicesSpec Registration EnvoyApi.
Open Scope string_scope.

Section spec.
Context `{RL : RuntimeLaws} `{HS : Sha256} `{ES : EntityService} `{TM : TlsMode} `{C : Configuration}.

(** The versions that were stamped belong to node groups that have changes. *)
Definition collected (config : CommonConfiguration) : Prop :=
  dom (config_envoyChangesMap config) ⊆ dom (config_changes config).
Definition grows (config config' : CommonConfiguration) : Prop :=
  dom (config_changes config) ⊆ dom (config_changes config').
Lemma add_changes_dom ng changes m : dom (add_changes ng changes m) = {[ng]} ∪ dom m.
Proof. apply dom_insert_L. Qed.
Lemma stamp_collected config ng t w config' w' :
  collected config -> ng ∈ dom (config_changes config) ->
  generateAndSaveEnvoyConfigVersionInTransaction config ng t w = (Ok config', w') ->
  collected config' /\ config_changes config' = config_changes config.
Proof.
  intros Hc Hn (changes & w1 & _ & [-> _]%ret_Ok)%bind_Ok. split; [|done]. unfold collected in *. cbn. rewrite add_changes_dom. set_solver.
Qed.
Lemma transaction_collected config ng m w config' w' :
  collected config -> in_transaction config ng m w = (Ok config', w') ->
  collected config' /\ grows config config' /\ ng ∈ dom (config_changes config').
Proof.
  intros Hc (changes & w1 & _ & [-> _]%ret_Ok)%bind_Ok. unfold collected, grows in *. cbn. rewrite add_changes_dom. set_solver.
Qed.
Lemma fold_collected {A} (l : list A) (f : CommonConfiguration -> A -> prog World CommonConfiguration) config w config' w' :
  (forall a c w c' w', collected c -> f c a w = (Ok c', w') -> collected c' /\ grows c c') ->
  collected config -> fold_each l config f w = (Ok config', w') -> collected config' /\ grows config config'.
Proof.
  intros Hf Hc. revert config w Hc. induction l as [|a l IH]; intros config w Hc; cbn [fold_each].
  - intros [-> _]%ret_Ok. split; [done|]. unfold grows. set_solver.
  - intros (c1 & w1 & E1 & E2)%bind_Ok. destruct (Hf _ _ _ _ _ Hc E1) as [Hc1 Hg1]. destruct (IH _ _ Hc1 E2) as [Hc2 Hg2].
    split; [done|]. unfold grows in *. set_solver.
Qed.
Lemma services_collected services config w config' w' :
  collected config -> save_services config services w = (Ok config', w') -> collected config' /\ grows config config'.
Proof.
  intros Hc. apply fold_collected; [|done]. intros service c u c' u' Hc1. apply fold_collected; [|done].
  intros ng c2 v c3 v' Hc2 (c4 & v1 & E1 & E2)%bind_Ok. destruct (transaction_collected _ _ _ _ _ _ Hc2 E1) as (Hc4 & Hg & Hn).
  destruct (stamp_collected _ _ _ _ _ _ Hc4 Hn E2) as [Hc5 Hd]. split; [done|]. unfold grows in *. by rewrite Hd.
Qed.
Lemma versions_collected config ng w config' w' :
  collected config -> ng ∈ dom (config_changes config) -> saveEnvoyConfigVersionsForGateway config ng w = (Ok config', w') ->
  collected config' /\ config_changes config' = config_changes config.
Proof.
  intros Hc Hn. unfold saveEnvoyConfigVersionsForGateway. cbn [fold_each].
  intros (c1 & w1 & E1 & (c2 & w2 & E2 & [-> _]%ret_Ok)%bind_Ok)%bind_Ok.
  destruct (stamp_collected _ _ _ _ _ _ Hc Hn E1) as [Hc1 Hd1]. rewrite <- Hd1 in Hn.
  destruct (stamp_collected _ _ _ _ _ _ Hc1 Hn E2) as [Hc2 Hd2]. split; [done|]. by rewrite Hd2.
Qed.
Lemma gateways_collected gateways config w config' w' :
  collected config -> save_gateways config gateways w = (Ok config', w') ->
  collected config' /\ grows config config' /\ forall g, g ∈ gateways -> gateway_gatewayName g ∈ dom (config_changes config').
Proof.
  unfold save_gateways. revert config w. induction gateways as [|g gateways IH]; intros config w Hc; cbn [fold_each].
  - intros [-> _]%ret_Ok. split_and!; [done|unfold grows; set_solver|by intros g ?%elem_of_nil].
  - intros (c1 & w1 & (c2 & w2 & E1 & E2)%bind_Ok & E3)%bind_Ok.
    destruct (transaction_collected _ _ _ _ _ _ Hc E1) as (Hc2 & Hg2 & Hn2).
    destruct (versions_collected _ _ _ _ _ Hc2 Hn2 E2) as [Hc1 Hd]. destruct (IH _ _ Hc1 E3) as (Hc' & Hg' & Hall).
    unfold grows in *. rewrite Hd in Hg'. split_and!; [done|set_solver|]. intros g' [->|Hin]%elem_of_cons; [set_solver|auto].
Qed.

(** The event of a node group: its changes, and then its new versions. *)
Definition bootstrap_event (config : CommonConfiguration) (e : string * list Change) : string * bus_event :=
  (TopicChanges, NewChangeEventByNodeGroup e.1 (e.2 ++ default [] (config_envoyChangesMap config !! e.1))%list).
Lemma publish_events config (l : list (string * list Change)) w w' :
  for_each l (fun e => Publish TopicChanges (NewChangeEventByNodeGroup e.1 (e.2 ++ default [] (config_envoyChangesMap config !! e.1))%list)) w = (Ok tt, w') ->
  w_events w' = (rev (map (bootstrap_event config) l) ++ w_events w)%list.
Proof.
  revert w. induction l as [|e l IH]; intros w; cbn [for_each]; [by intros [_ ->]%ret_Ok|].
  intros ([] & w1 & E1 & E2)%bind_Ok. rewrite (IH _ E2). cbn. rewrite <- app_assoc. f_equal. cbn.
  unfold Publish, bind, tick, modify, lift in E1. destruct (bus_publish _ _ _) as [[]|?|?]; [|done..]. by injection E1 as <-.
Qed.

(** What a new master configured is announced in full: when the common
    configuration was created and published, every node group that was touched
    - and each of the three gateways of the platform was - got exactly one
    event, with all the changes made for it and then all the versions stamped
    for it, and no version was stamped for a node group without an event. *)
Theorem bootstrap_published secured w config w1 w2 :
  CreateCommonConfiguration secured (mkCommonConfiguration ∅ ∅) w = (Ok config, w1) ->
  PublishChanges config w1 = (Ok tt, w2) ->
  exists l, NoDup (l.*1) /\
    (forall ng changes, (ng, changes) ∈ l <-> config_changes config !! ng = Some changes) /\
    w_events w2 = (rev (map (bootstrap_event config) l) ++ w_events w1)%list /\
    (forall ng, ng ∈ dom (config_envoyChangesMap config) -> ng ∈ l.*1) /\
    (forall ng, ng ∈ [InternalGateway; PrivateGateway; PublicGateway] -> ng ∈ l.*1).
Proof.
  intros (base & w3 & _ & (c1 & w4 & E1 & E2)%bind_Ok)%bind_Ok (l & w5 & E3 & E4)%bind_Ok.
  assert (collected (mkCommonConfiguration ∅ ∅)) as H0 by (unfold collected; cbn; set_solver).
  destruct (services_collected _ _ _ _ _ H0 E1) as [H1 _]. destruct (gateways_collected _ _ _ _ _ H1 E2) as (Hc & _ & Hg).
  assert (l ≡ₚ map_to_list (config_changes config)) as Hl.
  { unfold range, tick, bind, ret in E3. cbn in E3. injection E3 as <- _. apply map_order_perm. }
  assert (w_events w5 = w_events w1) as Hev by (unfold range, tick, bind, ret in E3; cbn in E3; by injection E3 as _ <-).
  assert (forall ng, ng ∈ dom (config_changes config) -> ng ∈ l.*1) as Hin.
  { intros ng [changes Hx]%elem_of_dom. rewrite Hl. apply list_elem_of_fmap. exists (ng, changes). split; [done|]. by apply elem_of_map_to_list. }
  exists l. split_and!.
  - rewrite Hl. apply NoDup_fst_map_to_list.
  - intros ng changes. rewrite Hl. apply elem_of_map_to_list.
  - rewrite (publish_events _ _ _ _ E4). by rewrite Hev.
  - intros ng Hng. apply Hin. by apply Hc.
  - intros ng Hng. apply Hin. unfold default_gateways in Hg. 
    rewrite !elem_of_cons in Hng. destruct Hng as [->|[->|[->|[]%elem_of_nil]]]; eapply (Hg (mkDefaultGatewayConfiguration _ _ _ _ _ _ _ _));
      rewrite !elem_of_cons; [by left|right; by left|right; right; by left].
Qed.
End spec.

(** * Witness *)

Section witness.
Import RuntimeModel.
Local Existing Instance test_laws.
Local Existing Instance test_runtime.
#[local] Instance bootstrap_sha : Sha256 := {| sha256_Sum256 := fun s => s |}.
#[local] Instance bootstrap_entity : EntityService := {| defaultVersion := "v1" |}.
#[local] Instance bootstrap_tls : TlsMode := {| tls_preferred := false |}.
#[local] Instance bootstrap_configuration : Configuration :=
  {| os_LookupEnv := fun name => if String.eqb name "SERVICE_MESH_TYPE" then Some "Istio" else None;
     configloader_Get := fun _ => None; DefaultTlsPath := ""; percent_of_fraction := fun _ => None |}.

(** A cloud without a gateway so far; with Istio, the gateways get no routes. *)
Definition bootstrap_run : prog World CommonConfiguration := CreateCommonConfiguration true (mkCommonConfiguration ∅ ∅).
Definition bootstrapped : World := (bootstrap_run empty_world).2.
Definition bootstrap_config : CommonConfiguration :=
  match (bootstrap_run empty_world).1 with Ok c => c | _ => mkCommonConfiguration ∅ ∅ end.

Lemma bootstrap_published_witness :
  exists w2, PublishChanges bootstrap_config bootstrapped = (Ok tt, w2) /\
    exists changes, config_changes bootstrap_config !! PublicGateway = Some changes /\
      bootstrap_event bootstrap_config (PublicGateway, changes) ∈ w_events w2.
Proof.
  assert (match (bootstrap_run empty_world).1 with Ok _ => true | _ => false end = true) as H1 by (vm_compute; reflexivity).
  assert ((PublishChanges bootstrap_config bootstrapped).1 = Ok tt) as H2 by (vm_compute; reflexivity).
  assert (bootstrap_run empty_world = (Ok bootstrap_config, bootstrapped)) as E1.
  { unfold bootstrap_config, bootstrapped. revert H1. clear. destruct (bootstrap_run empty_world) as [[c|?|?] w]; [reflexivity|discriminate..]. }
  destruct (PublishChanges bootstrap_config bootstrapped) as [r w2] eqn:E2. simpl in H2. subst r.
  exists w2. split; [exact eq_refl|].
  destruct (bootstrap_published true empty_world bootstrap_config bootstrapped w2 E1 E2) as (l & _ & Hl & -> & _ & Hg).
  assert (PublicGateway ∈ l.*1) as Hin by (apply Hg; right; right; left).
  apply list_elem_of_fmap in Hin as ([ng changes] & Hng & Hin). simpl in Hng. subst ng.
  exists changes. split; [exact (proj1 (Hl _ _) Hin)|].
  apply elem_of_app. left. apply list_elem_of_In, in_rev. rewrite rev_involutive.
  apply in_map. by apply list_elem_of_In.
Defined.
End witness.
