(* ===== verification/Composite.v ===== *)
(** [composite/]: the namespaces of a composite platform.  The baseline keeps
    the satellites; a satellite registers itself in its baseline and sends what
    it does not know to the gateways there.

    The calls of other services are parameters: the answer of the baseline to
    the n-th registration, and that of the tenant manager. *)
From S2P Require Import Prelude GoLib Domain Tables MemDb Msaddr Events RouteKey RegCommon Runtime Dao Entity.
From S2P Require Import Format RouteCreation Dto Requests Registration.
Open Scope string_scope.

Inductive ServiceMode := BaselineMode | SatelliteMode.
#[export] Instance ServiceMode_eq_dec : EqDecision ServiceMode.
Proof. solve_decision. Defined.
Record Structure := mkStructure { Structure_Baseline : string; Structure_Satellites : list string }.
(** [NewService]; [sync_default_tenant] is what the request to the tenant
    manager ends with, [post_to_baseline] the status code of an answer. *)
Class CompositeService : Type := {
  composite_mode : ServiceMode;
  coreBaseNamespace : string;
  sync_default_tenant : nat -> result unit;
  post_to_baseline : nat -> option Z
}.

Definition ValidationRequestError := "CORE-MESH-CP-4001".
Definition ErrSatelliteMode : error := ErrMsg "composite: service initialized in Satellite mode".

Section composite.
Context `{R : Runtime} `{H : Sha256} `{E : EntityService} `{TM : TlsMode} `{CS : CompositeService}.

(** * Satellites ([composite.go]) *)

Definition syncDefaultTenant : prog World unit := n <- tick ;; lift (sync_default_tenant n).
Definition add_satellite (dao : repo) (namespace : string) : prog World unit :=
  existingSatellite <- FindCompositeSatelliteByNamespace dao namespace ;;
  match existingSatellite with
  | Some _ => ret tt
  | None => SaveCompositeSatellite dao (mkCompositeSatellite namespace)
  end.
Definition AddCompositeNamespace (namespace : string) : prog World unit :=
  if negb (bool_decide (composite_mode = BaselineMode)) then fail ErrSatelliteMode
  else
    let namespace := strings_TrimSpace namespace in
    if String.eqb namespace "" then fail (ErrCp ValidationRequestError "composite: attempt to add empty composite satellite namespace to the composite structure")
    else _ <- WithWTx (add_satellite InTx namespace) ;; syncDefaultTenant.
Definition remove_satellite (dao : repo) (namespace : string) : prog World unit :=
  existingSatellite <- FindCompositeSatelliteByNamespace dao namespace ;;
  match existingSatellite with
  | None => ret tt
  | Some _ => DeleteCompositeSatellite dao namespace
  end.
Definition RemoveCompositeNamespace (namespace : string) : prog World unit :=
  if negb (bool_decide (composite_mode = BaselineMode)) then fail ErrSatelliteMode
  else
    let namespace := strings_TrimSpace namespace in
    if String.eqb namespace "" then fail (ErrMsg "composite: attempt to delete empty composite satellite namespace from the composite structure")
    else _ <- WithWTx (remove_satellite InTx namespace) ;; ret tt.
Definition GetCompositeStructure : prog World Structure :=
  if negb (bool_decide (composite_mode = BaselineMode)) then fail ErrSatelliteMode
  else
    satellites <- WithRTxVal (FindAllCompositeSatellites InTx) ;;
    ret (mkStructure CurrentNamespaceAsString (CompositeSatellite_Namespace <$> satellites)).

(** * Registration in the baseline *)

(** [fuel] attempts at most; each waits half a second, which the clock shows. *)
Fixpoint register_attempts (fuel : nat) (deadline : Z) : prog World unit :=
  match fuel with
  | O => fail (ErrMsg "out of fuel")
  | S fuel =>
      now <- Now ;;
      if (deadline <=? now)%Z then fail (ErrMsg "failed to register this namespace in composite: timeout exceeded")
      else
        n <- tick ;;
        if match post_to_baseline n with Some code => (code =? 200)%Z || (code =? 201)%Z | None => false end
        then ret tt
        else register_attempts fuel deadline
  end.
Definition registerInBaselineWithRetry (fuel : nat) (timeout : Z) : prog World unit :=
  now <- Now ;; register_attempts fuel (now + timeout).

(** * Fallback routes ([routes.go]) *)

Definition getFallbackAddress (gateway : string) : result MicroserviceAddress :=
  if tls_preferred then NewMicroserviceAddress ("https://" ++ gateway ++ ":8443") coreBaseNamespace
  else NewMicroserviceAddress (gateway ++ ":8080") coreBaseNamespace.
Definition fallback_cluster (clusterName : string) (msAddress : MicroserviceAddress) (version : string) : Cluster :=
  (NewCluster clusterName false) <| Cluster_Endpoints := [(zero : Endpoint)
    <| Endpoint_Address := GetNamespacedMicroserviceHost msAddress |> <| Endpoint_Port := MsAddr_Port msAddress |>
    <| Endpoint_Protocol := MsAddr_Proto msAddress |>
    <| Endpoint_DeploymentVersion := version |> <| Endpoint_InitialDeploymentVersion := version |>] |>.
Definition fallback_route (uuid clusterName : string) (msAddress : MicroserviceAddress) (version : string) : Route :=
  (zero : Route) <| Route_Uuid := uuid |> <| Route_Prefix := "/" |> <| Route_ClusterName := clusterName |>
    <| Route_HostRewrite := GetNamespacedMicroserviceHost msAddress ++ ":" ++ strconv_Itoa (MsAddr_Port msAddress) |>
    <| Route_Version := 1%Z |> <| Route_DeploymentVersion := version |> <| Route_InitialDeploymentVersion := version |>
    <| Route_Fallback := NewNullBool true |>
    <| Route_RequestHeadersToAdd := [mkHeader "X-Token-Signature" "%DYNAMIC_METADATA(envoy.filters.http.ext_authz:x.token.signature)%"] |>.
Definition addFallbackRouteToGateway (version : string) (request : ProcessedRequest) (gateway : string) : prog World ProcessedRequest :=
  msAddress <- lift (getFallbackAddress gateway) ;;
  let clusterName := GenerateClusterKey gateway msAddress in
  uuid <- NewUuid ;;
  let domainRoute := fallback_route uuid clusterName msAddress version in
  let virtualHost := (zero : VirtualHost) <| VirtualHost_Name := gateway |> <| VirtualHost_Routes := [domainRoute] |>
    <| VirtualHost_Domains := [mkVirtualHostDomain "*" 1 0] |> <| VirtualHost_Version := 1%Z |> in
  let routeConfiguration := (zero : RouteConfiguration) <| RouteConfiguration_Name := gateway ++ "-routes" |>
    <| RouteConfiguration_NodeGroupId := gateway |> <| RouteConfiguration_Version := 1%Z |>
    <| RouteConfiguration_VirtualHosts := [virtualHost] |> in
  let clusterTlsConfig := if tls_preferred then <[clusterName := gateway ++ "-tls"]> (Req_ClusterTlsConfig request)
                          else Req_ClusterTlsConfig request in
  ret (mkProcessedRequest
    (Req_NodeGroups request ++ [CreateNodeGroup gateway])%list
    (Req_Listeners request ++ [CreateListener gateway])%list
    (Req_Clusters request ++ [fallback_cluster clusterName msAddress version])%list
    (<[clusterName := [gateway]]> (Req_ClusterNodeGroups request))
    (Req_RouteConfigurations request ++ [routeConfiguration])%list
    (PutGroupedRoute "" clusterName version domainRoute (Req_GroupedRoutes request))
    (Req_DeploymentVersions request)
    clusterTlsConfig (Req_RouteRateLimit request)).
Definition fallback_gateways : list string := [PublicGateway; PrivateGateway; "internal-gateway-service"].
Definition fallback_payload (dao : repo) : prog World unit :=
  deploymentVersion <- GetActiveDeploymentVersion dao ;;
  let version := DeploymentVersion_Version deploymentVersion in
  request <- fold_each fallback_gateways (mkProcessedRequest [] [] [] ∅ [] NewGroupedRoutesMap [version] ∅ ∅)
               (addFallbackRouteToGateway version) ;;
  RegisterRoutes dao request ;;;
  for_each fallback_gateways (UpdateAllResourceVersions dao).
Definition createFallbackRoutesToBaseline : prog World unit :=
  changes <- WithWTx (fallback_payload InTx) ;;
  Publish TopicMultipleChanges (NewMultipleChangeEvent changes).
Definition InitSatellite (fuel : nat) (timeout : Z) : prog World unit :=
  registerInBaselineWithRetry fuel timeout ;;; createFallbackRoutesToBaseline.
End composite.

(** * Properties

    The satellites of a composite platform are a set: what the operations do to
    it, and what outlives a failure. *)
From S2P Require Import Prelude GoLib Domain Tables MemDb Msaddr Events RouteKey RegCommon Runtime RuntimeModel Dao DaoSpec Entity.
From S2P Require Import RouteServices RouteServicesSpec CandidateSpec.
Open Scope string_scope.

Section spec.
Context `{RL : RuntimeLaws} `{CS : CompositeService}.

(** The abstract state. *)
Definition satellites (db : Db) : gset string :=
  set_map (fun k : list Tables.value => match k with [VStr s] => s | _ => "" end) (dom (rows db CompositeSatelliteTable)).
Lemma satellite_key (s : CompositeSatellite) : indexable CompositeSatelliteTable s = true ->
  id_key CompositeSatelliteTable s = [VStr (CompositeSatellite_Namespace s)].
Proof. destruct s as [n]. destruct n; [by vm_compute|reflexivity]. Qed.
Lemma elem_of_satellites db ns : ns ∈ satellites db <-> exists s, rows db CompositeSatelliteTable !! [VStr ns] = Some s.
Proof.
  unfold satellites. rewrite elem_of_map. split.
  - intros (k & -> & [s Hs]%elem_of_dom). exists s. destruct (rows_wf db CompositeSatelliteTable k s Hs) as [<- Hi].
    rewrite (satellite_key s Hi) in *. done.
  - intros [s Hs]. exists [VStr ns]. split; [done|]. apply elem_of_dom. by exists s.
Qed.

Lemma find_satellite ns w db : in_tx w db ->
  FindCompositeSatelliteByNamespace InTx ns w = (Ok (rows db CompositeSatelliteTable !! [VStr ns]), w).
Proof.
  intros Hw. unfold FindCompositeSatelliteByNamespace, FindFirstByIndex, wrap_err.
  by rewrite (in_ctx_read _ _ _ _ _ Hw (Storage_FindById_spec CompositeSatelliteTable [VStr ns] db eq_refl ltac:(done))).
Qed.

(** The operations, and what they do to the set. *)
Inductive composite_op := OpAdd (ns : string) | OpRemove (ns : string).
Definition op_namespace (o : composite_op) : string := match o with OpAdd ns | OpRemove ns => strings_TrimSpace ns end.
Definition run_op (o : composite_op) : prog World unit :=
  match o with OpAdd ns => AddCompositeNamespace ns | OpRemove ns => RemoveCompositeNamespace ns end.
Definition op_payload (o : composite_op) : prog World unit :=
  match o with OpAdd _ => add_satellite InTx (op_namespace o) | OpRemove _ => remove_satellite InTx (op_namespace o) end.
Definition op_effect (o : composite_op) (s : gset string) : gset string :=
  match o with OpAdd _ => {[op_namespace o]} ∪ s | OpRemove _ => s ∖ {[op_namespace o]} end.

Lemma frame_op_payload o : frame (touches any_table) (op_payload o).
Proof. destruct o; solve_frame. Qed.
Lemma op_payload_effect o w w' db :
  in_tx w db -> op_payload o w = (Ok tt, w') -> exists db', in_tx w' db' /\ satellites db' = op_effect o (satellites db).
Proof.
  intros Hw E. destruct o as [ns|ns]; cbn [op_payload op_effect] in *; set (n := op_namespace _) in *; clearbody n;
    apply bind_Ok in E as (found & w1 & E1 & E); rewrite (find_satellite n w db Hw) in E1; injection E1 as Hf <-.
  - destruct found as [s|].
    + apply ret_Ok in E as [_ ->]. exists db. split; [done|]. symmetry. apply subseteq_union_1_L, singleton_subseteq_l, elem_of_satellites. by exists s.
    + unfold SaveCompositeSatellite, SaveEntity, in_ctx in E. rewrite (open_ctx_InTx _ _ _ _ Hw), (on_tx_InTx _ _ _ Hw) in E.
      destruct (Storage.Save CompositeSatelliteTable (mkCompositeSatellite n) db) as [r db'] eqn:Es. injection E as -> <-.
      apply Storage_Save_Ok in Es as [Hi [Hr _]]. exists db'. split; [apply in_tx_set|].
      rewrite (satellite_key _ Hi) in Hr. apply set_eq. intros x. rewrite elem_of_union, elem_of_singleton, !elem_of_satellites, Hr. cbn.
      destruct (decide (x = n)) as [->|Hx].
      * rewrite lookup_insert_eq. split; [by left|by eexists].
      * rewrite lookup_insert_ne by congruence. split; [by right|intros [?|?]; done].
  - destruct found as [s|].
    + destruct (Delete_in_tx_Ok CompositeSatelliteTable _ _ _ _ Hw E) as (db' & Hw' & Hr). exists db'. split; [done|].
      assert (indexable CompositeSatelliteTable (mkCompositeSatellite n) = true) as Hi.
      { destruct (rows_wf db CompositeSatelliteTable [VStr n] s Hf) as [Hk Hi]. rewrite (satellite_key s Hi) in Hk. injection Hk as <-. by destruct s. }
      rewrite (satellite_key _ Hi) in Hr. apply set_eq. intros x. rewrite elem_of_difference, elem_of_singleton, !elem_of_satellites, Hr. cbn.
      destruct (decide (x = n)) as [->|Hx].
      * rewrite lookup_delete_eq. split; [by intros [? ?]|by intros [_ []]].
      * rewrite lookup_delete_ne by congruence. split; [done|by intros [? _]].
    + apply ret_Ok in E as [_ ->]. exists db. split; [done|]. symmetry. apply difference_disjoint_L.
      intros x Hx ->%elem_of_singleton. apply elem_of_satellites in Hx as [s Hs]. pose proof (eq_trans (eq_sym Hf) Hs). done.
Qed.

Lemma committed_effect o w w' changes : WithWTx (op_payload o) w = (Ok changes, w') ->
  satellites (w_db w') = op_effect o (satellites (w_db w)).
Proof.
  intros (w1 & b & E & Ht)%WithWTx_Ok. set (db0 := txn_track_changes (w_db w)).
  destruct (op_payload_effect o (opened w) w1 db0 eq_refl E) as (db' & Hw1 & Hs). unfold in_tx in Hw1.
  assert (db' = w_db w') as <- by congruence. rewrite Hs. unfold satellites, db0. by rewrite rows_track.
Qed.

(** C36: The satellites of a composite platform behave as a set: an operation
    adds its namespace, without the spaces around it, or removes it, or leaves
    the set as it is; a success means that it took effect, in the baseline and
    for a namespace that is not blank.  Adding is not undone when the tenant
    manager refuses to synchronise: the answer is its error then, and the
    namespace stays. *)
Theorem composite_refines o w r w' :
  run_op o w = (r, w') ->
  let abs := satellites (w_db w) in
  let abs' := satellites (w_db w') in
  (abs' = abs \/ abs' = op_effect o abs) /\
  (r = Ok tt -> composite_mode = BaselineMode /\ op_namespace o <> "" /\ abs' = op_effect o abs) /\
  (forall changes wt n ns err, o = OpAdd ns -> composite_mode = BaselineMode -> op_namespace o <> "" ->
     WithWTx (op_payload o) w = (Ok changes, wt) -> w_tick wt = n -> sync_default_tenant n = Err err ->
     r = Err err /\ abs' = op_effect o abs).
Proof.
  intros Hr. cbv zeta. destruct (decide (composite_mode = BaselineMode)) as [Hm|Hm].
  2: { assert (w' = w /\ r = Err ErrSatelliteMode) as [-> ->].
       { destruct o; cbn in Hr; unfold AddCompositeNamespace, RemoveCompositeNamespace in Hr; rewrite bool_decide_eq_false_2 in Hr by done;
           by injection Hr as <- <-. }
       split_and!; [by left|done|]. intros ????? _ ?. done. }
  destruct (String.eqb_spec (op_namespace o) "") as [Hn|Hn].
  { assert (w' = w /\ ~ is_Ok r) as [-> Hf].
    { destruct o; cbn in Hr, Hn; unfold AddCompositeNamespace, RemoveCompositeNamespace in Hr; rewrite bool_decide_eq_true_2 in Hr by done;
        rewrite Hn in Hr; injection Hr as <- <-; split; try done; by intros [? ?]. }
    split_and!; [by left| |].
    - intros ->. destruct Hf. by eexists.
    - intros ????? _ _ ?. done. }
  assert (run_op o w = (_ <- WithWTx (op_payload o) ;; match o with OpAdd _ => syncDefaultTenant | OpRemove _ => ret tt end) w) as Hrun.
  { apply String.eqb_neq in Hn. destruct o; cbn in Hn |- *; unfold AddCompositeNamespace, RemoveCompositeNamespace;
      rewrite bool_decide_eq_true_2 by done; by rewrite Hn. }
  rewrite Hrun in Hr. unfold bind in Hr. destruct (WithWTx (op_payload o) w) as [r0 w0] eqn:E0. clear Hrun.
  destruct r0 as [changes|e|p].
  - pose proof (committed_effect o w w0 changes E0) as Hs.
    assert (w_db w' = w_db w0 /\ (forall ns, o = OpAdd ns -> r = sync_default_tenant (w_tick w0))) as [-> Hsync].
    { destruct o as [ns|ns]; [|injection Hr as <- <-; split; [done|by intros ?]].
      unfold syncDefaultTenant, bind, tick, lift in Hr. cbn in Hr. injection Hr as <- <-. done. }
    split_and!; [by right|done|]. intros ch wt n ns err Ho _ _ [= <- <-] <- Herr. split; [|done]. by rewrite (Hsync ns Ho).
  - injection Hr as <- <-. assert (w_db w0 = w_db w) as -> by (eapply WithWTx_fail; [apply frame_op_payload|exact E0|by intros [? ?]]).
    split_and!; [by left|done|]. intros ?????????. done.
  - injection Hr as <- <-. assert (w_db w0 = w_db w) as -> by (eapply WithWTx_fail; [apply frame_op_payload|exact E0|by intros [? ?]]).
    split_and!; [by left|done|]. intros ?????????. done.
Qed.

(** The registration in the baseline ends: where the clock shows at least [d]
    from one attempt to the next, so many attempts as fit in the time left, and
    one more, are enough. *)
Lemma register_attempts_end fuel deadline d w :
  (0 < d)%Z -> (forall n, time_Now n + d <= time_Now (S (S n)))%Z ->
  (deadline - time_Now (w_tick w) <= d * Z.of_nat fuel)%Z ->
  (register_attempts (S fuel) deadline w).1 <> Err (ErrMsg "out of fuel").
Proof.
  intros Hd Hclock. revert w. induction fuel as [|fuel IH]; intros w Hf; cbn [register_attempts];
    unfold Now, tick, bind, ret; cbn [w_tick set_tick]; (destruct (Z.leb_spec deadline (time_Now (w_tick w))) as [_|Hlt]; [done|]); [lia|].
  specialize (Hclock (w_tick w)). specialize (IH (set_tick (S (S (w_tick w))) w)). cbn [w_tick set_tick] in IH.
  assert ((register_attempts (S fuel) deadline (set_tick (S (S (w_tick w))) w)).1 <> Err (ErrMsg "out of fuel")) as Hn by (apply IH; lia).
  cbn [register_attempts] in Hn. unfold Now, tick, bind, ret in Hn. cbn [w_tick set_tick] in Hn.
  destruct (match post_to_baseline _ with Some _ => _ | None => _ end); [done|exact Hn].
Qed.
End spec.

(** * Witness *)

Section witness.
Import RuntimeModel.
Local Existing Instance test_laws.
Local Existing Instance test_runtime.
(** The tenant manager is not there. *)
#[local] Instance lonely_baseline : CompositeService :=
  {| composite_mode := BaselineMode; coreBaseNamespace := "cloud"; sync_default_tenant := fun _ => Err (ErrMsg "no tenant manager");
     post_to_baseline := fun _ => None |}.

Lemma composite_refines_witness :
  exists w', AddCompositeNamespace " sat " empty_world = (Err (ErrMsg "no tenant manager"), w') /\
    satellites (w_db w') = {["sat"]} ∪ satellites (w_db empty_world).
Proof.
  assert ((AddCompositeNamespace " sat " empty_world).1 = Err (ErrMsg "no tenant manager")) as Hr by (vm_compute; reflexivity).
  destruct (AddCompositeNamespace " sat " empty_world) as [r w'] eqn:Er. simpl in Hr. subst r.
  exists w'. split; [exact eq_refl|].
  destruct (WithWTx (op_payload (OpAdd " sat ")) empty_world) as [r0 w0] eqn:E0.
  assert (match r0 with Ok _ => true | _ => false end = true) as Hc by (change r0 with (r0, w0).1; rewrite <- E0; vm_compute; reflexivity).
  destruct r0 as [changes|?|?]; [|discriminate Hc..].
  destruct (composite_refines (OpAdd " sat ") empty_world (Err (ErrMsg "no tenant manager")) w' Er) as (_ & _ & H).
  exact (proj2 (H changes w0 (w_tick w0) " sat " (ErrMsg "no tenant manager") eq_refl eq_refl ltac:(discriminate) E0 eq_refl eq_refl)).
Defined.
End witness.
