(* ===== verification/DebugValidate.v ===== *)
(** [services/debug/validate.go]: the report on what is wrong with the stored
    configuration.

    Problems and details are built as the code builds them; where it collects
    them in a map, their order is arbitrary.  The composite service is asked
    for its mode only: the loop over the endpoints that follows has no effect,
    for its [continue] continues that loop. *)
From S2P Require Import Prelude GoLib Domain Tables MemDb Msaddr Events RouteKey RegCommon Runtime Dao.
From S2P Require Import Entity Registration EnvoyClusters.
Open Scope string_scope.

Inductive ProblemType := VHostsConflict | ClusterDuplicate | Bgd1Cluster | OrphanedCluster | PrefixSlash | Loop.
Inductive Severity := Critical | Major | Warning.
Definition Severity_String (s : Severity) : string :=
  match s with Critical => "critical" | Major => "major" | Warning => "warning" end.
Definition ProblemType_String (p : ProblemType) : string :=
  match p with
  | VHostsConflict => "vHostsConflict" | ClusterDuplicate => "clusterDuplicate" | Bgd1Cluster => "bgd1Cluster"
  | OrphanedCluster => "orphanedCluster" | PrefixSlash => "prefixSlashInBorderGW" | Loop => "loop"
  end.
Definition getMessage (p : ProblemType) : string :=
  match p with
  | VHostsConflict => "there are two virtual services with conflicting hosts in gateway"
  | ClusterDuplicate => "there are duplicated clusters with the same target addresses"
  | Bgd1Cluster => "there are legacy blue-green clusters with several bg versions"
  | OrphanedCluster => "there are orphaned clusters that are not referenced by any route"
  | PrefixSlash => "custom route with prefix '/' in public, private or internal gateway"
  | Loop => "there are loop route redirects back to itself (endpoint=host)"
  end.
Record VirtualServiceDetail := mkVirtualServiceDetail { VSD_Name : string; VSD_Hosts : list string }.
Record ClusterDetail := mkClusterDetail { CD_Name : string; CD_Endpoints : list string }.
Record Detail := mkDetail {
  Detail_Gateway : string;
  Detail_VirtualServices : list VirtualServiceDetail;
  Detail_Clusters : list ClusterDetail
}.
Record Problem := mkProblem {
  Problem_ProblemType : string;
  Problem_Severity : string;
  Problem_Message : string;
  Problem_Details : list Detail
}.
Record StatusConfig := mkStatusConfig { StatusConfig_Status : string; StatusConfig_Problems : list Problem }.
Definition problem_of (p : ProblemType) (s : Severity) (details : list Detail) : option Problem :=
  match details with [] => None | _ => Some (mkProblem (ProblemType_String p) (Severity_String s) (getMessage p) details) end.
(** One detail that lists the clusters, if there are any. *)
Definition clusters_detail (clusters : list ClusterDetail) : list Detail :=
  match clusters with [] => [] | _ => [mkDetail "" [] clusters] end.

Definition virtualServicesDomainsToStringArray (domains : list VirtualHostDomain) : list string := VirtualHostDomain_Domain <$> domains.
(** Whether there is a star, whether there are several. *)
Definition validateDomains (domains : list VirtualHostDomain) : bool * bool :=
  (existsb (fun d => String.eqb (VirtualHostDomain_Domain d) "*") domains, (1 <? length domains)%nat).
Definition endpoint_string (e : Endpoint) : string := Endpoint_Address e ++ ":" ++ strconv_Itoa (Endpoint_Port e).
Definition endpointsToStringArray (endpoints : list Endpoint) : list string := endpoint_string <$> endpoints.
Definition isClusterOrphaned (clusterName : string) (routes : list Route) : bool :=
  negb (existsb (fun r => String.eqb clusterName (Route_ClusterName r)) routes).

Section validate.
Context `{R : Runtime}.
Variable dao : repo.

(** * Conflicting hosts *)

Definition domain_detail (virtualHost : VirtualHost) (domains : list VirtualHostDomain) : VirtualServiceDetail :=
  mkVirtualServiceDetail (VirtualHost_Name virtualHost) (virtualServicesDomainsToStringArray domains).
(** The virtual services with a star, and those of them with more domains. *)
Definition starred (virtualHosts : list VirtualHost) : prog World (list VirtualServiceDetail * list VirtualServiceDetail) :=
  fold_each virtualHosts ([], []) (fun acc virtualHost =>
    domains <- FindVirtualHostDomainByVirtualHostId dao (VirtualHost_Id virtualHost) ;;
    let '(isThereStar, moreThanOneDomain) := validateDomains domains in
    ret (if isThereStar
         then if moreThanOneDomain then (acc.1, acc.2 ++ [domain_detail virtualHost domains])
              else (acc.1 ++ [domain_detail virtualHost domains], acc.2)
         else acc))%list.
Definition conflict_of_gateway (nodeGroup : NodeGroup) : prog World (list Detail) :=
  routeConfigs <- FindRouteConfigsByNodeGroupId dao (NodeGroup_Name nodeGroup) ;;
  virtualHosts <- map_each routeConfigs (fun rc => FindVirtualHostsByRouteConfigurationId dao (RouteConfiguration_Id rc)) ;;
  let virtualHosts := concat virtualHosts in
  stars <- starred virtualHosts ;;
  ret (if ((1 <? length virtualHosts)%nat && (0 <? length stars.1)%nat) || (0 <? length stars.2)%nat
       then [mkDetail (NodeGroup_Name nodeGroup) (stars.1 ++ stars.2) []] else [])%list.
Definition validateVirtualHostsConflict : prog World (option Problem) :=
  nodeGroups <- FindAllNodeGroups dao ;;
  details <- map_each nodeGroups conflict_of_gateway ;;
  ret (problem_of VHostsConflict Critical (concat details)).

(** * Clusters *)

(** [getEndpoints]: with the endpoints that were looked up before. *)
Definition getEndpoints (clustersEndpoints : gmap string (list Endpoint)) (clusterName : string) :
    prog World (list Endpoint * gmap string (list Endpoint)) :=
  match clustersEndpoints !! clusterName with
  | Some endpoints => ret (endpoints, clustersEndpoints)
  | None =>
      endpoints <- FindEndpointsByClusterName dao clusterName ;;
      ret (endpoints, <[clusterName := endpoints]> clustersEndpoints)
  end.
Definition duplicate_detail (cluster clusterNext : Cluster) (endpoints endpointsNext : list Endpoint) : Detail :=
  mkDetail "" [] [mkClusterDetail (Cluster_Name cluster) (endpointsToStringArray endpoints);
                  mkClusterDetail (Cluster_Name clusterNext) (endpointsToStringArray endpointsNext)].
(** A pair of clusters: one detail per pair of endpoints with one address. *)
Definition duplicates_of_pair (acc : list Detail * gmap string (list Endpoint)) (cluster clusterNext : Cluster) :
    prog World (list Detail * gmap string (list Endpoint)) :=
  found <- getEndpoints acc.2 (Cluster_Name cluster) ;;
  let endpoints := found.1 in
  fold_each endpoints (acc.1, found.2) (fun acc endpoint =>
    foundNext <- getEndpoints acc.2 (Cluster_Name clusterNext) ;;
    let endpointsNext := foundNext.1 in
    ret ((acc.1 ++ map (fun _ => duplicate_detail cluster clusterNext endpoints endpointsNext)
            (List.filter (fun e => String.eqb (Endpoint_Address endpoint) (Endpoint_Address e)
                                   && (Endpoint_Port endpoint =? Endpoint_Port e)%Z) endpointsNext))%list, foundNext.2)).
Fixpoint duplicates (acc : list Detail * gmap string (list Endpoint)) (clusters : list Cluster) :
    prog World (list Detail * gmap string (list Endpoint)) :=
  match clusters with
  | [] => ret acc
  | cluster :: rest =>
      acc <- fold_each rest acc (fun acc clusterNext => duplicates_of_pair acc cluster clusterNext) ;;
      duplicates acc rest
  end.
Definition validateClustersDuplicate : prog World (option Problem) :=
  clusters <- FindAllClusters dao ;;
  found <- duplicates ([], ∅) clusters ;;
  ret (problem_of ClusterDuplicate Major found.1).

Definition validateBGD1Cluster : prog World (option Problem) :=
  clusters <- FindAllClusters dao ;;
  badClusters <- fold_each clusters [] (fun bad (cluster : Cluster) =>
    endpoints <- FindEndpointsByClusterName dao (Cluster_Name cluster) ;;
    ret (if (1 <? length endpoints)%nat
         then bad ++ [mkClusterDetail (Cluster_Name cluster) (endpointsToStringArray endpoints)] else bad)%list) ;;
  ret (problem_of Bgd1Cluster Major (clusters_detail badClusters)).

Definition validateOrphanedClusters : prog World (option Problem) :=
  clusters <- FindAllClusters dao ;;
  routes <- FindAllRoutes dao ;;
  orphanedClusters <- fold_each clusters [] (fun orphaned (cluster : Cluster) =>
    if String.eqb (Cluster_Name cluster) "ext-authz" || negb (isClusterOrphaned (Cluster_Name cluster) routes) then ret orphaned
    else
      endpoints <- FindEndpointsByClusterName dao (Cluster_Name cluster) ;;
      ret (orphaned ++ [mkClusterDetail (Cluster_Name cluster) (endpointsToStringArray endpoints)])%list) ;;
  ret (problem_of OrphanedCluster Warning (clusters_detail orphanedClusters)).

(** * Routes *)

Definition slash_gateways : list string := ["private-gateway-service"; "public-gateway-service"; "internal-gateway-service"].
Definition slash_clusters (virtualHosts : list VirtualHost) (gateway : string) : prog World (gmap string ClusterDetail) :=
  fold_each (List.filter (fun vh => String.eqb (VirtualHost_Name vh) gateway) virtualHosts) (∅ : gmap string ClusterDetail)
    (fun bad virtualHost =>
      routes <- FindRoutesByVirtualHostId dao (VirtualHost_Id virtualHost) ;;
      fold_each (List.filter (fun r => String.eqb (Route_Prefix r) "/") routes) bad (fun bad route =>
        endpoints <- FindEndpointsByClusterName dao (Route_ClusterName route) ;;
        ret (match bad !! Route_ClusterName route with
             | Some _ => bad
             | None => <[Route_ClusterName route := mkClusterDetail (Route_ClusterName route) (endpointsToStringArray endpoints)]> bad
             end))).
Definition validateSlashPrefix : prog World (option Problem) :=
  virtualHosts <- FindAllVirtualHosts dao ;;
  details <- map_each slash_gateways (fun gateway =>
    bad <- slash_clusters virtualHosts gateway ;;
    entries <- range (map_to_list bad) ;;
    ret (match entries with [] => [] | _ => [mkDetail gateway [] (entries.*2)] end)) ;;
  ret (problem_of PrefixSlash Critical (concat details)).

(** A domain of the virtual host and a route with an endpoint of that address:
    one detail per virtual host and cluster. *)
Definition loop_of_route (routeConfig : RouteConfiguration) (virtualHost : VirtualHost) (domains : list VirtualHostDomain)
    (domain_ : VirtualHostDomain) (found : gmap string Detail) (route : Route) : prog World (gmap string Detail) :=
  endpoints <- FindEndpointsByClusterName dao (Route_ClusterName route) ;;
  let key := VirtualHost_Name virtualHost ++ "+" ++ Route_ClusterName route in
  ret (if existsb (fun e => String.eqb (endpoint_string e) (VirtualHostDomain_Domain domain_)) endpoints
       then match found !! key with
            | Some _ => found
            | None => <[key := mkDetail (RouteConfiguration_NodeGroupId routeConfig) [domain_detail virtualHost domains]
                                 [mkClusterDetail (Route_ClusterName route) (endpointsToStringArray endpoints)]]> found
            end
       else found).
Definition loops_of_virtual_host (routeConfig : RouteConfiguration) (found : gmap string Detail) (virtualHost : VirtualHost) :
    prog World (gmap string Detail) :=
  domains <- FindVirtualHostDomainByVirtualHostId dao (VirtualHost_Id virtualHost) ;;
  fold_each domains found (fun found domain_ =>
    routes <- FindRoutesByVirtualHostId dao (VirtualHost_Id virtualHost) ;;
    fold_each routes found (loop_of_route routeConfig virtualHost domains domain_)).
Definition validateLoopDetection : prog World (option Problem) :=
  routeConfigs <- FindAllRouteConfigs dao ;;
  found <- fold_each routeConfigs (∅ : gmap string Detail) (fun found routeConfig =>
    virtualHosts <- FindVirtualHostsByRouteConfigurationId dao (RouteConfiguration_Id routeConfig) ;;
    fold_each virtualHosts found (loops_of_virtual_host routeConfig)) ;;
  entries <- range (map_to_list found) ;;
  ret (problem_of Loop Critical (entries.*2)).

(** * The report *)

Definition ValidateConfig : prog World StatusConfig :=
  problemVirtualHostsConflict <- validateVirtualHostsConflict ;;
  problemClustersEndpoints <- validateClustersDuplicate ;;
  problemClustersBGD1 <- validateBGD1Cluster ;;
  problemOrphanedCluster <- validateOrphanedClusters ;;
  problemSlashPrefix <- validateSlashPrefix ;;
  problemLoop <- validateLoopDetection ;;
  let problems := omap id [problemVirtualHostsConflict; problemClustersEndpoints; problemClustersBGD1; problemOrphanedCluster;
                           problemSlashPrefix; problemLoop] in
  ret (match problems with [] => mkStatusConfig "ok" [] | _ => mkStatusConfig "problem" problems end).
End validate.

(** * Properties

    What the report on the configuration says about orphaned clusters is
    exact. *)
From S2P Require Import Prelude GoLib Domain Tables MemDb Events RouteKey RegCommon Runtime RuntimeModel Dao DaoSpec CandidateSpec.
Open Scope string_scope.

Section spec.
Context `{RL : RuntimeLaws}.

(** * Reads outside of a transaction always answer *)

Lemma FindFirstByIndex_local t idx args w : valid_query t idx args = true -> exists x, FindFirstByIndex Local t idx args w = (Ok x, w).
Proof.
  intros Hv. destruct (first_spec t idx args (w_db w) Hv) as (l & _ & E). exists (head l).
  unfold FindFirstByIndex, wrap_err, in_ctx, open_ctx, on_tx, Storage.FindFirstByIndex, wrap_err. by rewrite E.
Qed.
Lemma FindByIndex_local t idx args w : valid_query t idx args = true -> exists l, FindByIndex Local t idx args w = (Ok l, w).
Proof.
  intros Hv. destruct (get_spec t idx args (w_db w) Hv) as (l & E & _). exists l.
  unfold FindByIndex, wrap_err, in_ctx, open_ctx, on_tx, Storage.FindByIndex, wrap_err. by rewrite E.
Qed.
Lemma FindEndpointsByClusterName_local name w : exists l, FindEndpointsByClusterName Local name w = (Ok l, w).
Proof.
  destruct (FindFirstByIndex_local ClusterTable "name" [VStr name] w eq_refl) as (c & E).
  unfold FindEndpointsByClusterName, FindClusterByName. cbn [open_ctx]. unfold bind. rewrite E. destruct c as [c|]; [|by eexists].
  by apply (FindByIndex_local EndpointTable).
Qed.
(** * Orphaned clusters *)

Definition reported (p : option Problem) (name : string) : Prop :=
  exists problem d c, p = Some problem /\ d ∈ Problem_Details problem /\ c ∈ Detail_Clusters d /\ CD_Name c = name.
Definition orphaned (db : Db) (name : string) : Prop :=
  (exists k (c : Cluster), rows db ClusterTable !! k = Some c /\ Cluster_Name c = name) /\
  forall k (r : Route), rows db RouteTable !! k = Some r -> Route_ClusterName r <> name.

Lemma isClusterOrphaned_spec name routes : isClusterOrphaned name routes = true <-> forall r, r ∈ routes -> Route_ClusterName r <> name.
Proof.
  unfold isClusterOrphaned. rewrite negb_true_iff, <- not_true_iff_false, existsb_exists. split.
  - intros H r Hr Hn. apply H. exists r. by rewrite <- list_elem_of_In, Hn, String.eqb_refl.
  - intros H (r & Hr%list_elem_of_In & Hn%String.eqb_eq). by apply (H r).
Qed.
(** The names that the loop over the clusters collects. *)
Lemma orphaned_loop routes w (clusters : list Cluster) acc :
  exists out, fold_each clusters acc (fun orphaned (cluster : Cluster) =>
    if String.eqb (Cluster_Name cluster) "ext-authz" || negb (isClusterOrphaned (Cluster_Name cluster) routes) then ret orphaned
    else
      endpoints <- FindEndpointsByClusterName Local (Cluster_Name cluster) ;;
      ret (orphaned ++ [mkClusterDetail (Cluster_Name cluster) (endpointsToStringArray endpoints)])%list) w = (Ok out, w) /\
    CD_Name <$> out = ((CD_Name <$> acc) ++ List.filter (fun n => negb (String.eqb n "ext-authz") && isClusterOrphaned n routes) (Cluster_Name <$> clusters))%list.
Proof.
  revert acc. induction clusters as [|c clusters IH]; intros acc; cbn [fold_each fmap list_fmap List.filter].
  - exists acc. by rewrite app_nil_r.
  - unfold bind at 1. destruct (String.eqb (Cluster_Name c) "ext-authz"); cbn [negb orb andb]; [apply IH|].
    destruct (isClusterOrphaned (Cluster_Name c) routes); cbn [negb]; [|apply IH].
    destruct (FindEndpointsByClusterName_local (Cluster_Name c) w) as (es & E). unfold bind at 1. rewrite E. cbn.
    destruct (IH (acc ++ [mkClusterDetail (Cluster_Name c) (endpointsToStringArray es)])%list) as (out & -> & Ho).
    exists out. split; [done|]. by rewrite Ho, fmap_app, <- app_assoc.
Qed.

(** The report on orphaned clusters, taken outside of a transaction, always
    answers, changes nothing, and names exactly the stored clusters that no
    stored route leads to - but never the cluster of the authorisation. *)
Theorem orphaned_clusters_exact w :
  exists p, validateOrphanedClusters Local w = (Ok p, w) /\
    forall name, reported p name <-> name <> "ext-authz" /\ orphaned (w_db w) name.
Proof.
  destruct (FindAll_local ClusterTable w) as (clusters & Ec & _ & Hc). destruct (FindAll_local RouteTable w) as (routes & Er & _ & Hr).
  destruct (orphaned_loop routes w clusters []) as (out & Eo & Ho).
  eexists. split.
  { unfold validateOrphanedClusters, FindAllClusters, FindAllRoutes. unfold bind at 1. rewrite Ec. unfold bind at 1. rewrite Er.
    unfold bind at 1. cbn beta iota. rewrite Eo. reflexivity. }
  intros name. transitivity (name ∈ CD_Name <$> out).
  - unfold reported, problem_of, clusters_detail. split.
    + intros (problem & d & c & Hp & Hd & Hcl & <-). destruct out as [|c0 out]; [done|]. injection Hp as <-. cbn in Hd.
      apply list_elem_of_singleton in Hd as ->. by apply list_elem_of_fmap_2.
    + intros (c & -> & Hcl)%list_elem_of_fmap. destruct out as [|c0 out]; [by apply elem_of_nil in Hcl|].
      eexists _, _, c. split; [reflexivity|]. cbn. split; [by left|done].
  - rewrite Ho. cbn. rewrite list_elem_of_In, filter_In, <- list_elem_of_In, andb_true_iff, negb_true_iff, String.eqb_neq, isClusterOrphaned_spec, list_elem_of_fmap.
    unfold orphaned. split.
    + intros ((c & -> & Hin%Hc) & Hne & Hall). split; [done|]. split; [by exists (id_key ClusterTable c), c|].
      intros k r Hk. apply Hall, Hr. exact (row_key RouteTable _ _ _ Hk).
    + intros (Hne & (k & c & Hk & <-) & Hall). split_and!; [|done|].
      * exists c. split; [done|]. apply Hc. exact (row_key ClusterTable _ _ _ Hk).
      * intros r Hin%Hr. by eapply Hall.
Qed.
End spec.
