(* ===== verification/ActiveDCs.v ===== *)
(** [services/active/active.go]: the active-active configuration of several
    data centers.  Each border gateway balances anchored requests over aliases
    of the data centers, which lead back to the gateway itself and from there
    to the gateway of the other data center.

    The code ranges over maps in [buildVirtualHosts] and [buildClusters]; the
    order is arbitrary here too. *)
From S2P Require Import Prelude GoLib Domain Tables MemDb Msaddr Events RouteKey RegCommon Runtime Dao Entity RouteServices.
Open Scope string_scope.

(** * Requests ([dto.ActiveDCsV3]) *)

Record ActiveDCsHealthCheckV3 := mkActiveDCsHealthCheckV3 {
  AAHealthCheck_Timeout : Z;
  AAHealthCheck_Interval : Z;
  AAHealthCheck_NoTrafficInterval : option Z;
  AAHealthCheck_UnhealthyThreshold : option Z;
  AAHealthCheck_UnhealthyInterval : option Z;
  AAHealthCheck_HealthyThreshold : option Z
}.
Record ActiveDCsRetryPolicyV3 := mkActiveDCsRetryPolicyV3 {
  AARetryPolicy_RetryOn : string;
  AARetryPolicy_NumRetries : Z;
  AARetryPolicy_PerTryTimeout : option Z;
  AARetryPolicy_RetryBackOff : option RetryBackOff;
  AARetryPolicy_RetriableStatusCodes : list Z
}.
(** The threshold of [CommonLbConfig] is a float64. *)
Record ActiveDCsV3 := mkActiveDCsV3 {
  ActiveDCs_Protocol : string;
  ActiveDCs_HttpPort : option Z;
  ActiveDCs_HttpsPort : option Z;
  ActiveDCs_PublicGwHosts : list string;
  ActiveDCs_PrivateGwHosts : list string;
  ActiveDCs_HealthCheck : option ActiveDCsHealthCheckV3;
  ActiveDCs_RetryPolicy : option ActiveDCsRetryPolicyV3;
  ActiveDCs_CommonLbConfig : option Z
}.

(** * Names *)

Definition DefaultSuffix := "core-active-active".
Definition PublicGwName := "public-gateway-service".
Definition PrivateGwName := "private-gateway-service".
Definition BalanceTrackHeaderName := "x-balanced-by-anchor".
Definition AnchorHeaderName := "x-anchor".
Definition DefaultGwHealthPath := "/health".
Definition DefaultDeploymentVersion := "v1".
Definition ProtocolHttp := "http".
Definition ProtocolHttps := "https".
Definition LbPolicyMaglev := "MAGLEV".

Definition GetDcAlias (i : nat) : string := "dc-" ++ strconv_Itoa (Z.of_nat i + 1) ++ ".local".
Definition GetActiveActiveClusterName (gw : string) : string := gw ++ "||" ++ DefaultSuffix.
Definition GetClusterNameForExternalGw (gw dcName : string) : string := gw ++ "||" ++ DefaultSuffix ++ "||" ++ dcName.
Definition GetRouteConfigName (gw : string) : string := gw ++ "-routes".
Definition GetExternalVirtualHostName (gw alias : string) : string := gw ++ "||" ++ DefaultSuffix ++ "||" ++ alias.
Definition IsActiveActiveCluster (clusterName : string) : bool := strings_Contains clusterName DefaultSuffix.

(** * Aliases of the data centers *)

Record AliasesConfig := mkAliasesConfig {
  Aliases_GW : string;
  Aliases_AliasesOrder : list string;
  Aliases_AliasToHostMap : gmap string string;
  Aliases_HostToAliasMap : gmap string string;
  Aliases_Protocol : string;
  Aliases_HttpPort : Z;
  Aliases_HttpsPort : Z
}.
Definition NormalizeHostSlice (hosts : list string) : list string :=
  List.filter (fun h => negb (String.eqb h "")) (strings_TrimSpace <$> hosts).
(** The loop of [generateMappings], from index [i]. *)
Fixpoint mappings_from (i : nat) (hosts : list string) (m : gmap string string * gmap string string) :
    gmap string string * gmap string string :=
  match hosts with
  | [] => m
  | host :: rest => mappings_from (S i) rest (<[GetDcAlias i := host]> m.1, <[host := GetDcAlias i]> m.2)
  end.
Definition generateMappings (hosts : list string) : result (gmap string string * gmap string string) :=
  let m := mappings_from 0 hosts (∅, ∅) in
  if (size m.1 =? size m.2)%nat then Ok m
  else Err (ErrMsg "invalid 'hosts'. Each host must be unique").
Definition generateAliasesConfig (gw : string) (hosts : list string) (protocol : string) (httpPort httpsPort : Z) :
    result AliasesConfig :=
  match hosts with
  | [] => Err (ErrMsg ("hosts for '" ++ gw ++ "' cannot be empty"))
  | _ =>
      let protocol := strings_TrimSpace protocol in
      if String.eqb protocol "" then Err (ErrMsg "'protocol' cannot be empty")
      else result_bind (generateMappings hosts) (fun maps =>
        Ok (mkAliasesConfig gw ((fun host => default "" (maps.2 !! host)) <$> hosts) maps.1 maps.2 protocol httpPort httpsPort))
  end.

Section service.
Context `{R : Runtime} `{H : Sha256} `{E : EntityService}.
(** The hosts of this data center's gateways. *)
Variables localPublicGwHost localPrivateGwHost : string.

(** The hosts that are asked for, and the local one; [None] is a gateway that
    is not supported. *)
Definition gateway_hosts (config : ActiveDCsV3) (gw : string) : option (list string * string) :=
  if String.eqb gw PublicGwName then Some (ActiveDCs_PublicGwHosts config, localPublicGwHost)
  else if String.eqb gw PrivateGwName then Some (ActiveDCs_PrivateGwHosts config, localPrivateGwHost)
  else None.
Definition unsupported_gateway {A} (gw : string) : result A := Err (ErrMsg ("Unsupported gateway name: " ++ gw)).
(** The port for https, when it is given, is that for http. *)
Definition getAliasesConfig (config : ActiveDCsV3) (gw : string) : result AliasesConfig :=
  match gateway_hosts config gw with
  | None => unsupported_gateway gw
  | Some (hosts, localHost) =>
      let hosts := NormalizeHostSlice hosts in
      if negb (existsb (String.eqb localHost) hosts)
      then Err (ErrMsg ("hosts for '" ++ gw ++ "' does not contain local gw host: '" ++ localHost ++ "'"))
      else
        let httpPort := default 80%Z (ActiveDCs_HttpPort config) in
        let httpPort := default httpPort (ActiveDCs_HttpsPort config) in
        generateAliasesConfig gw hosts (ActiveDCs_Protocol config) httpPort 443
  end.

(** * What is built for a gateway *)

Definition buildHealthCheckFromDto (c : ActiveDCsHealthCheckV3) : HealthCheck :=
  let interval := AAHealthCheck_Interval c in
  (zero : HealthCheck)
    <| HealthCheck_Timeout := AAHealthCheck_Timeout c |>
    <| HealthCheck_Interval := interval |>
    <| HealthCheck_HealthyThreshold := default 10%Z (AAHealthCheck_HealthyThreshold c) |>
    <| HealthCheck_ReuseConnection := true |>
    <| HealthCheck_NoTrafficInterval := default 1000%Z (AAHealthCheck_NoTrafficInterval c) |>
    <| HealthCheck_UnhealthyInterval := default interval (AAHealthCheck_UnhealthyInterval c) |>
    <| HealthCheck_UnhealthyThreshold := default 10%Z (AAHealthCheck_UnhealthyThreshold c) |>
    <| HealthCheck_UnhealthyEdgeInterval := default interval (AAHealthCheck_UnhealthyInterval c) |>
    <| HealthCheck_HealthyEdgeInterval := interval |>
    <| HealthCheck_HttpHealthCheck := Some ((zero : HttpHealthCheck)
         <| HttpHealthCheck_Path := DefaultGwHealthPath |>
         <| HttpHealthCheck_ExpectedStatuses := [mkRangeMatch (NewNullInt 200) (NewNullInt 202)] |>) |>.
Definition active_cluster (name lbPolicy : string) : Cluster :=
  (zero : Cluster)
    <| Cluster_Name := name |> <| Cluster_LbPolicy := lbPolicy |>
    <| Cluster_DiscoveryType := DISCOVERY_TYPE_STRICT_DNS |> <| Cluster_DiscoveryTypeOld := DISCOVERY_TYPE_STRICT_DNS |>
    <| Cluster_HttpVersion := Some 1%Z |> <| Cluster_Version := 1%Z |>.
(** 50, as a float64. *)
Definition defaultPanicThreshold : Z := 4632233691727265792.
(** The endpoints are on the loopback interface: the gateway routes on. *)
Definition alias_endpoint (id : nat) (gwAlias : string) : Endpoint :=
  (zero : Endpoint)
    <| Endpoint_Address := gwAlias |> <| Endpoint_Port := 8080%Z |>
    <| Endpoint_DeploymentVersion := DefaultDeploymentVersion |> <| Endpoint_InitialDeploymentVersion := DefaultDeploymentVersion |>
    <| Endpoint_Hostname := gwAlias |> <| Endpoint_OrderId := Z.of_nat id |>.
Definition buildBalancingClusterToAliasEndpoints (config : ActiveDCsV3) (aliases : AliasesConfig) : Cluster :=
  (active_cluster (GetActiveActiveClusterName (Aliases_GW aliases)) LbPolicyMaglev)
    <| Cluster_CommonLbConfig := Some (mkCommonLbConfig 0 (default defaultPanicThreshold (ActiveDCs_CommonLbConfig config)) None true false
         (Some (mkConsistentHashingLbConfig true))) |>
    <| Cluster_HealthChecks := [buildHealthCheckFromDto
         (default (mkActiveDCsHealthCheckV3 1000 1000 None None None None) (ActiveDCs_HealthCheck config))] |>
    <| Cluster_DnsResolvers := [mkDnsResolver (Some (mkSocketAddress "127.0.0.1" 1053 "UDP" true))] |>
    <| Cluster_Endpoints := imap alias_endpoint (Aliases_AliasesOrder aliases) |>.
Definition buildClusterForExternalDC (aliases : AliasesConfig) (dcName host : string) : result Cluster :=
  let port :=
    if String.eqb (Aliases_Protocol aliases) ProtocolHttp then Some (Aliases_HttpPort aliases)
    else if String.eqb (Aliases_Protocol aliases) ProtocolHttps then Some (Aliases_HttpsPort aliases)
    else None in
  match port with
  | None => Err (ErrMsg ("invalid protocol: '" ++ Aliases_Protocol aliases ++ "'"))
  | Some port =>
      Ok ((active_cluster (GetClusterNameForExternalGw (Aliases_GW aliases) dcName) LbPolicyLeastRequest)
            <| Cluster_Endpoints := [(zero : Endpoint)
                 <| Endpoint_Address := host |> <| Endpoint_Port := port |>
                 <| Endpoint_DeploymentVersion := DefaultDeploymentVersion |>
                 <| Endpoint_InitialDeploymentVersion := DefaultDeploymentVersion |>
                 <| Endpoint_Hostname := host |>] |>)
  end.
Definition localGwHost (gw : string) : option string :=
  if String.eqb gw PublicGwName then Some localPublicGwHost
  else if String.eqb gw PrivateGwName then Some localPrivateGwHost
  else None.
Definition buildClusters (config : ActiveDCsV3) (aliases : AliasesConfig) : prog World (list Cluster) :=
  let balancingCluster := buildBalancingClusterToAliasEndpoints config aliases in
  match localGwHost (Aliases_GW aliases) with
  | None => fail (ErrMsg ("invalid gateway name: " ++ Aliases_GW aliases))
  | Some local =>
      entries <- range (map_to_list (Aliases_HostToAliasMap aliases)) ;;
      external <- map_each (List.filter (fun e : string * string => negb (String.eqb e.1 local)) entries)
                    (fun e => lift (buildClusterForExternalDC aliases e.2 e.1)) ;;
      ret (balancingCluster :: external)
  end.

Definition active_route (uuid clusterName : string) : Route :=
  (zero : Route)
    <| Route_Uuid := uuid |> <| Route_Prefix := "/" |> <| Route_HostAutoRewrite := NewNullBool true |> <| Route_Version := 1%Z |>
    <| Route_DeploymentVersion := DefaultDeploymentVersion |> <| Route_InitialDeploymentVersion := DefaultDeploymentVersion |>
    <| Route_ClusterName := clusterName |>.
Definition active_matcher (name : string) (invert : bool) : HeaderMatcher :=
  (zero : HeaderMatcher) <| HeaderMatcher_Name := name |> <| HeaderMatcher_Version := 1%Z |>
    <| HeaderMatcher_PresentMatch := NewNullBool true |> <| HeaderMatcher_InvertMatch := invert |>.
(** The status codes of a request are not used. *)
Definition active_retry_policy (config : option ActiveDCsRetryPolicyV3) : RetryPolicy :=
  let policy := mkRetryPolicy 0 "gateway-error,reset,connect-failure" 30 2000 0 [200%Z] (Some (mkRetryBackOff 2000 2000)) 0 in
  match config with
  | None => policy
  | Some c =>
      policy <| RetryPolicy_RetryOn := AARetryPolicy_RetryOn c |> <| RetryPolicy_NumRetries := AARetryPolicy_NumRetries c |>
        <| RetryPolicy_PerTryTimeout := default 2000%Z (AARetryPolicy_PerTryTimeout c) |>
        <| RetryPolicy_RetryBackOff := Some (default (mkRetryBackOff 2000 2000) (AARetryPolicy_RetryBackOff c)) |>
  end.
Definition buildBalancingRoute (config : ActiveDCsV3) (aliases : AliasesConfig) : prog World Route :=
  uuid <- NewUuid ;;
  ret ((active_route uuid (GetActiveActiveClusterName (Aliases_GW aliases)))
    <| Route_HeaderMatchers := [active_matcher AnchorHeaderName false; active_matcher BalanceTrackHeaderName true] |>
    <| Route_RequestHeadersToAdd := [mkHeader BalanceTrackHeaderName "-"] |>
    <| Route_HashPolicies := [(zero : HashPolicy) <| HashPolicy_HeaderName := AnchorHeaderName |>] |>
    <| Route_RetryPolicy := Some (active_retry_policy (ActiveDCs_RetryPolicy config)) |>).
Definition buildRouteToExternalDcGw (aliases : AliasesConfig) (externalDcName : string) : prog World Route :=
  uuid <- NewUuid ;;
  ret (active_route uuid (GetClusterNameForExternalGw (Aliases_GW aliases) externalDcName)).
Definition active_virtual_host (name domain_ : string) (route : Route) : VirtualHost :=
  (zero : VirtualHost) <| VirtualHost_Name := name |> <| VirtualHost_Version := 1%Z |>
    <| VirtualHost_Domains := [mkVirtualHostDomain domain_ 1 0] |> <| VirtualHost_Routes := [route] |>.
Definition buildVirtualHosts (config : ActiveDCsV3) (aliases : AliasesConfig) : prog World (list VirtualHost) :=
  let gw := Aliases_GW aliases in
  match localGwHost gw with
  | None => fail (ErrMsg ("Unsupported gateway name: " ++ gw))
  | Some local =>
      balancingRoute <- buildBalancingRoute config aliases ;;
      entries <- range (map_to_list (Aliases_AliasToHostMap aliases)) ;;
      external <- map_each (List.filter (fun e : string * string => negb (String.eqb e.2 local)) entries) (fun e =>
        route <- buildRouteToExternalDcGw aliases e.1 ;;
        ret (active_virtual_host (GetExternalVirtualHostName gw e.1) e.1 route)) ;;
      ret (active_virtual_host gw "*" balancingRoute :: external)
  end.
(** A route configuration with its node group's clusters, which hang on the
    objects of the code. *)
Record ActiveRouteConfig := mkActiveRouteConfig {
  Active_RouteConfig : RouteConfiguration;
  Active_NodeGroup : NodeGroup;
  Active_Clusters : list Cluster
}.
Definition buildRouteConfig (config : ActiveDCsV3) (gw : string) : prog World ActiveRouteConfig :=
  aliases <- lift (getAliasesConfig config gw) ;;
  clusters <- buildClusters config aliases ;;
  virtualHosts <- buildVirtualHosts config aliases ;;
  ret (mkActiveRouteConfig
    ((zero : RouteConfiguration) <| RouteConfiguration_Name := GetRouteConfigName gw |> <| RouteConfiguration_Version := 1%Z |>
       <| RouteConfiguration_NodeGroupId := gw |> <| RouteConfiguration_VirtualHosts := virtualHosts |>)
    ((zero : NodeGroup) <| NodeGroup_Name := Aliases_GW aliases |>) clusters).

(** * Applying *)

Definition save_active_cluster (dao : repo) (nodeGroup : string) (clusterToSave : Cluster) : prog World unit :=
  saved <- PutCluster dao clusterToSave ;;
  PutClustersNodeGroupIfAbsent dao (NewClusterNodeGroups (Cluster_Id saved) nodeGroup) ;;;
  PutEndpoints dao (Cluster_Id saved)
    ((fun e => e <| Endpoint_ClusterId := Cluster_Id saved |>) <$> Cluster_Endpoints clusterToSave) ;;;
  for_each (Cluster_HealthChecks clusterToSave) (fun h =>
    _ <- PutHealthCheck dao (h <| HealthCheck_ClusterId := Cluster_Id saved |>) ;; ret tt).
Definition save_active_virtual_host (dao : repo) (routeConfigId : Z) (newVirtualHost : VirtualHost) : prog World unit :=
  saved <- PutVirtualHost dao (newVirtualHost <| VirtualHost_RouteConfigurationId := routeConfigId |>) ;;
  for_each (VirtualHost_Routes newVirtualHost) (fun newRoute => _ <- PutRoute dao (VirtualHost_Id saved) newRoute ;; ret tt).
Definition persistActiveDCsConfig (dao : repo) (c : ActiveRouteConfig) : prog World unit :=
  let nodeGroup := Active_NodeGroup c in
  _ <- CreateOrUpdateNodeGroup dao nodeGroup ;;
  for_each (Active_Clusters c) (save_active_cluster dao (NodeGroup_Name nodeGroup)) ;;;
  saved <- PutRouteConfig dao (Active_RouteConfig c) ;;
  for_each (RouteConfiguration_VirtualHosts (Active_RouteConfig c)) (save_active_virtual_host dao (RouteConfiguration_Id saved)) ;;;
  UpdateAllResourceVersions dao (NodeGroup_Name nodeGroup).
Definition applyActiveRouteConfigs (configs : list ActiveRouteConfig) : prog World unit :=
  for_each configs (fun c =>
    changes <- WithWTx (persistActiveDCsConfig InTx c) ;;
    publish_changes (NodeGroup_Name (Active_NodeGroup c)) changes).
Definition ApplyActiveDCsConfig (config : ActiveDCsV3) : prog World unit :=
  routeConfigPublic <- buildRouteConfig config PublicGwName ;;
  routeConfigPrivate <- buildRouteConfig config PrivateGwName ;;
  applyActiveRouteConfigs [routeConfigPublic; routeConfigPrivate].

(** * Deleting *)

(** What hangs on the stored object of a route configuration: the node group
    and clusters it was saved with by this process; nothing when it was loaded
    from the persistent storage. *)
Variable attached : RouteConfiguration -> option (NodeGroup * list Cluster).

Definition clusterSliceToMap (clusters : list Cluster) : gmap string Cluster :=
  foldl (fun m c => <[Cluster_Name c := c]> m) ∅ clusters.
(** A cluster that is still stored, outside of the transaction. *)
Definition delete_stored_cluster (dao : repo) (cluster : Cluster) : prog World unit :=
  found <- try_ok (FindClusterById Local (Cluster_Id cluster)) ;;
  match found with
  | Some (Some c) => DeleteClusterCascade dao (Some c)
  | _ => ret tt
  end.
(** The clusters of the other data centers are looked up by the host names of
    the endpoints, which are the aliases. *)
Definition delete_active_clusters (dao : repo) (gw : string) (clusters : list Cluster) : prog World unit :=
  let clustersMap := clusterSliceToMap clusters in
  match clustersMap !! GetActiveActiveClusterName gw with
  | None => ret tt
  | Some aaCluster =>
      for_each (Cluster_Endpoints aaCluster) (fun endpoint =>
        match clustersMap !! GetClusterNameForExternalGw gw (Endpoint_Hostname endpoint) with
        | None => ret tt
        | Some cluster => delete_stored_cluster dao cluster
        end) ;;;
      delete_stored_cluster dao aaCluster
  end.
(** The stored object is the one whose relations were loaded before; without a
    domain the code's index is out of range. *)
Definition delete_active_virtual_host (dao : repo) (gw : string) (virtualHost : VirtualHost) : prog World unit :=
  found <- try_ok (FindVirtualHostById Local (VirtualHost_Id virtualHost)) ;;
  match found with
  | Some (Some _) =>
      match VirtualHost_Domains virtualHost with
      | [] => panic "index out of range"
      | first :: _ =>
          if String.eqb (VirtualHost_Name virtualHost) (GetExternalVirtualHostName gw (VirtualHostDomain_Domain first)) then
            DeleteVirtualHostDomainsByVirtualHost dao virtualHost ;;;
            DeleteVirtualHost dao virtualHost
          else if String.eqb (VirtualHost_Name virtualHost) gw then
            match List.find (fun r => String.eqb (Route_ClusterName r) (GetActiveActiveClusterName gw)) (VirtualHost_Routes virtualHost) with
            | Some route => if String.eqb (Route_Uuid route) "" then ret tt else Dao.DeleteRouteByUUID dao (Route_Uuid route)
            | None => ret tt
            end
          else ret tt
      end
  | _ => ret tt
  end.
Definition deleteActiveDCsConfig (dao : repo) (routeConfig : RouteConfiguration) : prog World unit :=
  match attached routeConfig with
  | None => ret tt
  | Some (nodeGroup, clusters) =>
      delete_active_clusters dao (NodeGroup_Name nodeGroup) clusters ;;;
      for_each (RouteConfiguration_VirtualHosts routeConfig) (delete_active_virtual_host dao (NodeGroup_Name nodeGroup)) ;;;
      UpdateAllResourceVersions dao (NodeGroup_Name nodeGroup)
  end.
(** Without a node group nothing is changed, and the event that would
    dereference it is not published. *)
Definition DeleteActiveDCs (routeConfigs : list RouteConfiguration) : prog World unit :=
  for_each routeConfigs (fun routeConfig =>
    changes <- WithWTx (deleteActiveDCsConfig InTx routeConfig) ;;
    match changes with
    | [] => ret tt
    | _ => nodeGroup <- deref (attached routeConfig) ;; publish_changes (NodeGroup_Name nodeGroup.1) changes
    end).
Definition DeleteActiveDCsConfig : prog World unit :=
  routeConfigs <- GetRouteConfigurationsWithRelations Local ;;
  DeleteActiveDCs (List.filter (fun rc =>
    String.eqb (RouteConfiguration_Name rc) (GetRouteConfigName PublicGwName)
    || String.eqb (RouteConfiguration_Name rc) (GetRouteConfigName PrivateGwName)) routeConfigs).
End service.

Example GetDcAlias_ex : GetDcAlias 0 = "dc-1.local".
Proof. reflexivity. Qed.

(** * Properties

    The active-active configuration: the aliases of the data centers are
    one-to-one, and what is built for a gateway leads every balanced request to
    the data center its alias stands for. *)
From S2P Require Import Prelude GoLib Domain Tables MemDb Events RouteKey RegCommon Runtime RuntimeModel Dao DaoSpec Entity RouteServices.
From S2P Require Import RegistrationSpec.
Open Scope string_scope.

(** * Aliases *)

Lemma str_app_cancel_r (a b c : string) : a ++ c = b ++ c -> a = b.
Proof.
  intros H. assert (String.length a = String.length b) as Hl.
  { apply (f_equal String.length) in H. rewrite !str_length_app in H. lia. }
  revert b H Hl. induction a as [|x a IH]; intros [|y b] H Hl; try done.
  injection H as -> H. injection Hl as Hl. by rewrite (IH b H Hl).
Qed.
Lemma GetDcAlias_inj i j : GetDcAlias i = GetDcAlias j -> i = j.
Proof.
  unfold GetDcAlias. rewrite <- !str_app_assoc. intros H%str_app_cancel_r. cbn in H. injection H as H.
  apply Itoa_inj in H. lia.
Qed.

(** The maps after the hosts from index [i]. *)
Lemma mappings_from_aliases i hosts m :
  (forall j, (mappings_from i hosts m).1 !! GetDcAlias (i + j) = match hosts !! j with Some h => Some h | None => m.1 !! GetDcAlias (i + j) end) /\
  (forall a, (forall j, a <> GetDcAlias (i + j)) -> (mappings_from i hosts m).1 !! a = m.1 !! a).
Proof.
  revert i m. induction hosts as [|h hosts IH]; intros i m; [done|]. cbn [mappings_from].
  destruct (IH (S i) (<[GetDcAlias i:=h]> m.1, <[h:=GetDcAlias i]> m.2)) as [IH1 IH2]. cbn [fst] in IH1, IH2. split.
  - intros [|j].
    + rewrite Nat.add_0_r, IH2; [by rewrite lookup_insert_eq|]. intros j Hj%GetDcAlias_inj. lia.
    + replace (i + S j) with (S i + j) by lia. rewrite IH1. cbn. destruct (hosts !! j); [done|].
      rewrite lookup_insert_ne; [done|]. intros Hj%GetDcAlias_inj. lia.
  - intros a Ha. rewrite IH2; [|intros j; replace (S i + j) with (i + S j) by lia; apply Ha].
    rewrite lookup_insert_ne; [done|]. intros <-. apply (Ha 0). by rewrite Nat.add_0_r.
Qed.
Lemma mappings_from_dom i hosts m :
  dom (mappings_from i hosts m).1 = dom m.1 ∪ list_to_set (GetDcAlias <$> seq i (length hosts)) /\
  dom (mappings_from i hosts m).2 = dom m.2 ∪ list_to_set hosts.
Proof.
  revert i m. induction hosts as [|h hosts IH]; intros i m; cbn [mappings_from length seq fmap list_fmap list_to_set].
  - cbn. set_solver.
  - destruct (IH (S i) (<[GetDcAlias i:=h]> m.1, <[h:=GetDcAlias i]> m.2)) as [-> ->]. cbn [fst snd list_to_set].
    rewrite !dom_insert_L. split; set_solver.
Qed.
Lemma size_list_to_set_NoDup (l : list string) : size (list_to_set l : gset string) = length l <-> NoDup l.
Proof.
  split; [|apply size_list_to_set]. induction l as [|x l IH]; [constructor|]. cbn. intros Hs. 
  assert (size (list_to_set l : gset string) <= length l)%nat as Hle.
  { clear. induction l as [|y l IH]; cbn; [done|]. rewrite size_union_alt, size_singleton.
    assert (size ((list_to_set l : gset string) ∖ {[y]}) <= size (list_to_set l : gset string))%nat by (apply subseteq_size; set_solver). lia. }
  destruct (decide (x ∈ l)) as [Hx|Hx].
  - replace ({[x]} ∪ list_to_set l : gset string) with (list_to_set l : gset string) in Hs by set_solver. lia.
  - rewrite size_union, size_singleton in Hs by set_solver. constructor; [done|]. apply IH. lia.
Qed.

(** The aliases are accepted exactly when the hosts are distinct, and then the
    two maps are one-to-one and inverse. *)
Lemma generateMappings_spec hosts m :
  generateMappings hosts = Ok m <-> NoDup hosts /\ m = mappings_from 0 hosts (∅, ∅).
Proof.
  unfold generateMappings. set (m0 := mappings_from 0 hosts (∅, ∅)).
  assert (size m0.1 = length hosts) as ->.
  { rewrite <- size_dom. unfold m0. rewrite (proj1 (mappings_from_dom _ _ _)). cbn. rewrite dom_empty_L, (left_id_L ∅ (∪)).
    rewrite size_list_to_set; [by rewrite length_fmap, length_seq|]. apply NoDup_fmap_2_strong; [|apply NoDup_seq]. intros ???? ?. by apply GetDcAlias_inj. }
  rewrite <- (size_dom (D := gset string) m0.2). unfold m0 at 1. rewrite (proj2 (mappings_from_dom _ _ _)). cbn [snd]. rewrite dom_empty_L, (left_id_L ∅ (∪)).
  rewrite <- size_list_to_set_NoDup. destruct (Nat.eqb_spec (length hosts) (size (list_to_set hosts : gset string))) as [Heq|Hne].
  - split; [intros [= <-]; by split|by intros [_ ->]].
  - split; [done|]. intros [? _]. lia.
Qed.
Lemma mappings_from_hosts i hosts m : NoDup hosts ->
  (forall j h, hosts !! j = Some h -> (mappings_from i hosts m).2 !! h = Some (GetDcAlias (i + j))) /\
  (forall h, h ∉ hosts -> (mappings_from i hosts m).2 !! h = m.2 !! h).
Proof.
  revert i m. induction hosts as [|h hosts IH]; intros i m Hnd; [done|]. apply NoDup_cons in Hnd as [Hh Hnd]. cbn [mappings_from].
  destruct (IH (S i) (<[GetDcAlias i:=h]> m.1, <[h:=GetDcAlias i]> m.2) Hnd) as [IH1 IH2]. cbn [snd] in IH1, IH2. split.
  - intros [|j] h' Hj.
    + injection Hj as <-. by rewrite Nat.add_0_r, IH2, lookup_insert_eq.
    + cbn in Hj. replace (i + S j) with (S i + j) by lia. by apply IH1.
  - intros h' [Hne Hin]%not_elem_of_cons. by rewrite IH2, lookup_insert_ne.
Qed.

(** [a] is the alias of the data center with host [h]. *)
Definition alias_of (hosts : list string) (a h : string) : Prop := exists i, hosts !! i = Some h /\ a = GetDcAlias i.
Lemma mappings_alias_of hosts m : generateMappings hosts = Ok m ->
  NoDup hosts /\ (forall a h, m.1 !! a = Some h <-> alias_of hosts a h) /\ (forall h a, m.2 !! h = Some a <-> alias_of hosts a h).
Proof.
  intros [Hnd ->]%generateMappings_spec. split; [done|].
  destruct (mappings_from_aliases 0 hosts (∅, ∅)) as [A1 A2]. destruct (mappings_from_hosts 0 hosts (∅, ∅) Hnd) as [B1 B2].
  cbn [Nat.add fst snd] in *. split; intros x y; (split; [|intros (i & Hi & ->)]).
  - intros Hx. destruct (decide (Exists (fun i => x = GetDcAlias i) (seq 0 (length hosts)))) as [[i [Hi ->]]%Exists_exists|Hn].
    + rewrite A1 in Hx. exists i. destruct (hosts !! i) eqn:Eh; [by injection Hx as ->|]. by rewrite lookup_empty in Hx.
    + rewrite A2 in Hx; [by rewrite lookup_empty in Hx|]. intros j ->. rewrite A1 in Hx.
      destruct (hosts !! j) eqn:Ej; [|by rewrite lookup_empty in Hx]. apply Hn, Exists_exists. exists j. split; [|done].
      apply elem_of_seq. apply lookup_lt_Some in Ej. lia.
  - by rewrite A1, Hi.
  - intros Hx. destruct (decide (x ∈ hosts)) as [[i Hi]%list_elem_of_lookup_1|Hn].
    + rewrite (B1 i x Hi) in Hx. injection Hx as <-. by exists i.
    + by rewrite (B2 x Hn), lookup_empty in Hx.
  - by apply B1.
Qed.
Lemma alias_of_inj hosts a h h' : alias_of hosts a h -> alias_of hosts a h' -> h = h'.
Proof. intros (i & Hi & ->) (j & Hj & <-%GetDcAlias_inj). congruence. Qed.

Section active.
Context `{RL : RuntimeLaws} `{HS : Sha256} `{ES : EntityService}.
Variables localPublicGwHost localPrivateGwHost : string.

Notation gateway_hosts := (gateway_hosts localPublicGwHost localPrivateGwHost).
Notation getAliasesConfig := (getAliasesConfig localPublicGwHost localPrivateGwHost).
Notation buildRouteConfig := (buildRouteConfig localPublicGwHost localPrivateGwHost).

Lemma getAliasesConfig_spec config gw a : getAliasesConfig config gw = Ok a ->
  exists raw local, gateway_hosts config gw = Some (raw, local) /\
    let hosts := NormalizeHostSlice raw in
    local ∈ hosts /\ NoDup hosts /\ Aliases_GW a = gw /\
    Aliases_AliasesOrder a = GetDcAlias <$> seq 0 (length hosts) /\
    (forall al h, Aliases_AliasToHostMap a !! al = Some h <-> alias_of hosts al h) /\
    (forall h al, Aliases_HostToAliasMap a !! h = Some al <-> alias_of hosts al h) /\
    Aliases_HttpsPort a = 443%Z /\ Aliases_HttpPort a = default (default 80%Z (ActiveDCs_HttpPort config)) (ActiveDCs_HttpsPort config).
Proof.
  unfold getAliasesConfig. destruct (gateway_hosts config gw) as [[raw local]|]; [|done]. set (hosts := NormalizeHostSlice raw).
  destruct (existsb (String.eqb local) hosts) eqn:El; [|done]. apply existsb_exists in El as (h0 & Hin & <-%String.eqb_eq).
  cbn [negb]. unfold generateAliasesConfig. intros Ha. destruct hosts as [|h1 hs] eqn:Eh; [done|]. rewrite <- Eh in *.
  destruct (String.eqb _ ""); [done|]. destruct (generateMappings hosts) as [m| |] eqn:Em; [|done..]. injection Ha as <-.
  exists raw, local. split; [done|]. cbn. fold hosts. apply mappings_alias_of in Em as (Hnd & M1 & M2).
  split_and!; try done; [by apply list_elem_of_In|].
  apply list_eq. intros i. rewrite !list_lookup_fmap. destruct (hosts !! i) as [h|] eqn:Ei; cbn.
  - rewrite lookup_seq_lt by by eapply lookup_lt_Some. cbn. assert (m.2 !! h = Some (GetDcAlias i)) as -> by (apply M2; by exists i). done.
  - apply lookup_ge_None in Ei. by rewrite lookup_seq_ge by lia.
Qed.

Lemma map_each_Ok {A B} (f : A -> prog World B) l w ys w' :
  map_each l f w = (Ok ys, w') -> Forall2 (fun x y => exists w1 w2, f x w1 = (Ok y, w2)) l ys.
Proof.
  revert w ys w'. induction l as [|x l IH]; intros w ys w'; cbn.
  - intros [-> _]%ret_Ok. constructor.
  - intros (y & w1 & Ey & (ys' & w2 & Es & [-> _]%ret_Ok)%bind_Ok)%bind_Ok. constructor; [by exists w, w1|exact (IH _ _ _ Es)].
Qed.
Lemma range_Ok {A} (l l' : list A) w w' : range l w = (Ok l', w') -> l' ≡ₚ l.
Proof. unfold range, tick, bind, ret. cbn. intros [= <- _]. apply map_order_perm. Qed.
(** The entries of a map that the loops look at: those of the other data centers. *)
Lemma other_entries (m : gmap string string) entries (P : string * string -> bool) w w' e :
  range (map_to_list m) w = (Ok entries, w') -> e ∈ List.filter P entries <-> m !! e.1 = Some e.2 /\ P e = true.
Proof.
  intros H%range_Ok. rewrite list_elem_of_In, filter_In, <- list_elem_of_In, H. destruct e as [k x]. by rewrite elem_of_map_to_list.
Qed.
Lemma local_of config gw raw local : gateway_hosts config gw = Some (raw, local) ->
  localGwHost localPublicGwHost localPrivateGwHost gw = Some local.
Proof.
  unfold ActiveDCs.gateway_hosts, localGwHost. destruct (String.eqb gw PublicGwName); [by intros [= _ <-]|].
  destruct (String.eqb gw PrivateGwName); [by intros [= _ <-]|done].
Qed.

(** The cluster and the virtual host of another data center. *)
Definition external_cluster (gw : string) (a : string) (h : string) (c : Cluster) : Prop :=
  Cluster_Name c = GetClusterNameForExternalGw gw a /\ Endpoint_Address <$> Cluster_Endpoints c = [h].
Definition external_virtual_host (gw a : string) (vh : VirtualHost) : Prop :=
  VirtualHostDomain_Domain <$> VirtualHost_Domains vh = [a] /\
  Route_ClusterName <$> VirtualHost_Routes vh = [GetClusterNameForExternalGw gw a].

Lemma buildClusters_spec config al cs w w' local :
  localGwHost localPublicGwHost localPrivateGwHost (Aliases_GW al) = Some local ->
  buildClusters localPublicGwHost localPrivateGwHost config al w = (Ok cs, w') ->
  exists ext, cs = buildBalancingClusterToAliasEndpoints config al :: ext /\
    (forall a h, Aliases_HostToAliasMap al !! h = Some a -> h <> local -> exists c, c ∈ ext /\ external_cluster (Aliases_GW al) a h c) /\
    (forall c, c ∈ ext -> exists a h, Aliases_HostToAliasMap al !! h = Some a /\ h <> local /\ external_cluster (Aliases_GW al) a h c).
Proof.
  intros Hl. unfold buildClusters. rewrite Hl. intros (entries & w1 & E1 & (ext & w2 & E2 & [-> _]%ret_Ok)%bind_Ok)%bind_Ok.
  exists ext. split; [done|]. apply map_each_Ok in E2.
  assert (forall e c, (exists w1 w2 : World, lift (buildClusterForExternalDC al e.2 e.1) w1 = (Ok c, w2)) -> external_cluster (Aliases_GW al) e.2 e.1 c) as Hc.
  { intros e c (u & u' & X). unfold lift, buildClusterForExternalDC in X. destruct (if String.eqb _ ProtocolHttp then _ else _); [|done].
    injection X as <- _. done. }
  split.
  - intros a h Ha Hh. destruct (Forall2_elem_l _ _ _ (h, a) E2) as (c & Hin & Hx).
    + rewrite (other_entries _ _ _ _ _ _ E1). split; [done|]. cbn. by apply negb_true_iff, String.eqb_neq.
    + exists c. split; [done|]. by apply (Hc (h, a)).
  - intros c Hin. destruct (Forall2_elem_r _ _ _ c E2 Hin) as ([h a] & He & Hx). apply (other_entries _ _ _ _ _ _ E1) in He as [Ha Hn].
    exists a, h. split; [done|]. split; [by apply String.eqb_neq, negb_true_iff|]. by apply (Hc (h, a)).
Qed.

Lemma buildVirtualHosts_spec config al vhs w w' local :
  localGwHost localPublicGwHost localPrivateGwHost (Aliases_GW al) = Some local ->
  buildVirtualHosts localPublicGwHost localPrivateGwHost config al w = (Ok vhs, w') ->
  exists default_ ext, vhs = default_ :: ext /\
    VirtualHostDomain_Domain <$> VirtualHost_Domains default_ = ["*"] /\
    Route_ClusterName <$> VirtualHost_Routes default_ = [GetActiveActiveClusterName (Aliases_GW al)] /\
    (forall a h, Aliases_AliasToHostMap al !! a = Some h -> h <> local -> exists vh, vh ∈ ext /\ external_virtual_host (Aliases_GW al) a vh) /\
    (forall vh, vh ∈ ext -> exists a h, Aliases_AliasToHostMap al !! a = Some h /\ h <> local /\ external_virtual_host (Aliases_GW al) a vh).
Proof.
  intros Hl. unfold buildVirtualHosts. rewrite Hl.
  intros (br & w1 & E0 & (entries & w2 & E1 & (ext & w3 & E2 & [-> _]%ret_Ok)%bind_Ok)%bind_Ok)%bind_Ok.
  eexists _, ext. split; [reflexivity|]. split; [reflexivity|]. split.
  { apply bind_Ok in E0 as (u & w4 & _ & [-> _]%ret_Ok). reflexivity. }
  apply map_each_Ok in E2.
  assert (forall (e : string * string) vh, (exists w1 w2 : World, (route <- buildRouteToExternalDcGw al e.1 ;;
    ret (active_virtual_host (GetExternalVirtualHostName (Aliases_GW al) e.1) e.1 route)) w1 = (Ok vh, w2)) ->
    external_virtual_host (Aliases_GW al) e.1 vh) as Hv.
  { intros e vh (u & u' & (r & u1 & X & [-> _]%ret_Ok)%bind_Ok). apply bind_Ok in X as (id & u2 & _ & [-> _]%ret_Ok). done. }
  split.
  - intros a h Ha Hh. destruct (Forall2_elem_l _ _ _ (a, h) E2) as (vh & Hin & Hx).
    + rewrite (other_entries _ _ _ _ _ _ E1). split; [done|]. cbn. by apply negb_true_iff, String.eqb_neq.
    + exists vh. split; [done|]. by apply (Hv (a, h)).
  - intros vh Hin. destruct (Forall2_elem_r _ _ _ vh E2 Hin) as ([a h] & He & Hx). apply (other_entries _ _ _ _ _ _ E1) in He as [Ha Hn].
    exists a, h. split; [done|]. split; [by apply String.eqb_neq, negb_true_iff|]. by apply (Hv (a, h)).
Qed.

(** What is built for a gateway leads each balanced request to its data
    center: the balancing cluster has one endpoint per data center, under its
    alias; the alias of every other data center is the domain of a virtual host
    whose only route leads to a cluster that is built and whose only endpoint
    is the gateway of that data center; there is no virtual host for the alias
    of this data center, whose requests the default virtual host takes. *)
Theorem active_active_closed config gw c w w' :
  buildRouteConfig config gw w = (Ok c, w') ->
  exists raw local balancing clusters default_ vhs,
    gateway_hosts config gw = Some (raw, local) /\
    let hosts := NormalizeHostSlice raw in
    NoDup hosts /\ local ∈ hosts /\
    Active_Clusters c = balancing :: clusters /\
    RouteConfiguration_VirtualHosts (Active_RouteConfig c) = default_ :: vhs /\
    Endpoint_Address <$> Cluster_Endpoints balancing = GetDcAlias <$> seq 0 (length hosts) /\
    VirtualHostDomain_Domain <$> VirtualHost_Domains default_ = ["*"] /\
    Route_ClusterName <$> VirtualHost_Routes default_ = [Cluster_Name balancing] /\
    (forall i h, hosts !! i = Some h -> h <> local ->
       exists vh cluster, vh ∈ vhs /\ cluster ∈ clusters /\
         VirtualHostDomain_Domain <$> VirtualHost_Domains vh = [GetDcAlias i] /\
         Route_ClusterName <$> VirtualHost_Routes vh = [Cluster_Name cluster] /\
         Endpoint_Address <$> Cluster_Endpoints cluster = [h]) /\
    (forall i, hosts !! i = Some local ->
       forall vh, vh ∈ vhs -> GetDcAlias i ∉ (VirtualHostDomain_Domain <$> VirtualHost_Domains vh)).
Proof.
  intros (al & w1 & Ea & (cs & w2 & Ec & (vhs & w3 & Ev & [-> _]%ret_Ok)%bind_Ok)%bind_Ok)%bind_Ok.
  unfold lift in Ea. injection Ea as Ea _. apply getAliasesConfig_spec in Ea as (raw & local & Hg & Hin & Hnd & <- & Ho & Ma & Mh & _).
  pose proof (local_of _ _ _ _ Hg) as Hl.
  apply (buildClusters_spec _ _ _ _ _ _ Hl) in Ec as (ext & -> & C1 & C2).
  apply (buildVirtualHosts_spec _ _ _ _ _ _ Hl) in Ev as (d & vext & -> & D1 & D2 & V1 & V2).
  exists raw, local. do 4 eexists. split; [exact Hg|]. cbv zeta. split_and!; [done..| | | | |].
  - rewrite <- Ho. cbn. apply list_eq. intros i. rewrite list_lookup_fmap, list_lookup_imap. by destruct (_ !! i).
  - done.
  - done.
  - intros i h Hi Hh. assert (alias_of (NormalizeHostSlice raw) (GetDcAlias i) h) as Hal by by exists i.
    destruct (V1 (GetDcAlias i) h) as (vh & Hvh & Hd & Hr); [by apply Ma|done|].
    destruct (C1 (GetDcAlias i) h) as (cl & Hcl & Hn & He); [by apply Mh|done|].
    exists vh, cl. by rewrite Hn.
  - intros i Hi vh Hvh Hd. destruct (V2 vh Hvh) as (a & h & Hah & Hne & Hdom & _). rewrite Hdom in Hd. apply list_elem_of_singleton in Hd as <-.
    apply Hne, (alias_of_inj (NormalizeHostSlice raw) (GetDcAlias i)); [by apply Ma|by exists i].
Qed.

(** The port for https that is given becomes the port for http, and https is
    always on 443. *)
Lemma https_port_misplaced config gw a p : ActiveDCs_HttpsPort config = Some p -> getAliasesConfig config gw = Ok a ->
  Aliases_HttpPort a = p /\ Aliases_HttpsPort a = 443%Z.
Proof. intros Hp (raw & local & _ & _ & _ & _ & _ & _ & _ & -> & ->)%getAliasesConfig_spec. by rewrite Hp. Qed.

Lemma transaction_of_nothing (w : World) r w' : WithWTx (ret tt) w = (r, w') -> rows (w_db w') = rows (w_db w).
Proof.
  assert (frame (touches any_table) (ret (W := World) tt)) as F by solve_frame. destruct r as [changes|e|p]; intros Hw.
  - apply WithWTx_Ok in Hw as (w1 & b & [_ ->]%ret_Ok & Ht). injection Ht as <- _. apply rows_track.
  - rewrite (WithWTx_fail _ _ _ _ F Hw); [done|by intros [? ?]].
  - rewrite (WithWTx_fail _ _ _ _ F Hw); [done|by intros [? ?]].
Qed.
Lemma delete_nothing routeConfigs w : rows (w_db (DeleteActiveDCs (fun _ => None) routeConfigs w).2) = rows (w_db w).
Proof.
  unfold DeleteActiveDCs. revert w. induction routeConfigs as [|rc l IH]; intros w; [done|]. cbn [for_each]. unfold bind at 1 2.
  cbn [deleteActiveDCsConfig]. destruct (WithWTx (ret tt) w) as [r0 w0] eqn:E0. apply transaction_of_nothing in E0. rewrite <- E0.
  destruct r0 as [[|c changes]|e|p]; [|done..]. apply IH.
Qed.

(** The configuration of several data centers outlives a restart of the control
    plane for good: when no stored route configuration has its node group
    attached any more - they were loaded from the persistent storage - a request
    to delete the configuration changes no row. *)
Theorem deletion_after_restart w :
  rows (w_db (DeleteActiveDCsConfig (fun _ => None) w).2) = rows (w_db w).
Proof.
  unfold DeleteActiveDCsConfig, bind at 1. destruct (GetRouteConfigurationsWithRelations Local w) as [r0 w0] eqn:E0.
  assert (frame (tx_rel eq) (GetRouteConfigurationsWithRelations Local)) as F by solve_frame.
  pose proof (F w) as (Hdb & _). rewrite E0 in Hdb. simpl in Hdb. rewrite <- Hdb. clear F E0 Hdb.
  destruct r0 as [l|e|p]; [|done..].
  apply delete_nothing.
Qed.
End active.

(** * Witness *)

Section witness.
Import RuntimeModel.
Local Existing Instance test_laws.
Local Existing Instance test_runtime.

Definition two_centers : ActiveDCsV3 :=
  mkActiveDCsV3 "https" None (Some 8443%Z) ["gw.one"; " gw.two "] ["p.one"; "p.two"] None None None.
Lemma active_active_closed_witness :
  exists c w', buildRouteConfig "gw.one" "p.one" two_centers PublicGwName empty_world = (Ok c, w') /\
    exists vh cluster, cluster ∈ Active_Clusters c /\ vh ∈ RouteConfiguration_VirtualHosts (Active_RouteConfig c) /\
      Route_ClusterName <$> VirtualHost_Routes vh = [Cluster_Name cluster] /\
      Endpoint_Address <$> Cluster_Endpoints cluster = ["gw.two"].
Proof.
  assert (match (buildRouteConfig "gw.one" "p.one" two_centers PublicGwName empty_world).1 with Ok _ => true | _ => false end = true) as Hr
    by (vm_compute; reflexivity).
  destruct (buildRouteConfig "gw.one" "p.one" two_centers PublicGwName empty_world) as [[c|?|?] w'] eqn:Er; [|discriminate Hr..].
  exists c, w'. split; [exact eq_refl|].
  destruct (active_active_closed "gw.one" "p.one" two_centers PublicGwName c empty_world w' Er)
    as (raw & local & b & cs & d & vhs & Hg & _ & _ & Hc & Hv & _ & _ & _ & Hall & _).
  vm_compute in Hg. injection Hg as <- <-.
  destruct (Hall 1 "gw.two") as (vh & cl & Hvh & Hcl & _ & Hroute & Hend); [vm_compute; reflexivity|discriminate|].
  exists vh, cl. rewrite Hc, Hv. split; [by right|]. split; [by right|]. split; [exact Hroute|exact Hend].
Defined.
(** The same request: https goes to 443, not to the port that is given. *)
Example https_is_443 : match getAliasesConfig "gw.one" "p.one" two_centers PublicGwName with
  Ok a => (Aliases_HttpPort a, Aliases_HttpsPort a) | _ => (0, 0)%Z end = (8443, 443)%Z.
Proof. vm_compute. reflexivity. Qed.
End witness.
