(* ===== verification/EventBus.v ===== *)
(** [event/bus]: subscriptions by topic, the events that travel between
    instances, the messages kept for a client that could not be served, and the
    bus that joins the internal and the external one.

    What encoding/gob makes of an entity is [gob]: a pointer to a zero number
    arrives as nil.  Topics are objects that two goroutines may hold, so they
    have addresses.  The expiry of deferred messages (ttlcache) and the network
    are steps of [Replication]. *)
From S2P Require Import Clustering Prelude GoLib Domain Tables MemDb Storage Events.
Open Scope string_scope.

(** * Subscriptions ([bus.go]) *)

Section cache.
Context {S : Type} `{!EqDecision S}.
(** [topicSubs] finds the object of a topic by its name; an object that was
    deleted there may still be held. *)
Record SubscribersCache := mkSubscribersCache {
  cache_topicSubs : gmap string nat;
  cache_topics : list (list S);
  cache_size : Z
}.
Definition NewSubscribersCache : SubscribersCache := mkSubscribersCache ∅ [] 0.
Definition getTopic (c : SubscribersCache) (name : string) : option nat := cache_topicSubs c !! name.
Definition getOrCreateTopic (c : SubscribersCache) (name : string) : nat * SubscribersCache :=
  match cache_topicSubs c !! name with
  | Some p => (p, c)
  | None =>
      let p := length (cache_topics c) in
      (p, mkSubscribersCache (<[name := p]> (cache_topicSubs c)) (cache_topics c ++ [[]])%list (cache_size c))
  end.
Definition topic_subs (c : SubscribersCache) (p : nat) : list S := default [] (cache_topics c !! p).
(** What [Add] does under the lock of the topic. *)
Definition add_locked (p : nat) (sub : S) (c : SubscribersCache) : SubscribersCache :=
  mkSubscribersCache (cache_topicSubs c) (alter (fun subs => subs ++ [sub])%list p (cache_topics c)) (int32 (cache_size c + 1)).
Definition Add (topic : string) (sub : S) (c : SubscribersCache) : SubscribersCache :=
  let '(p, c) := getOrCreateTopic c topic in add_locked p sub c.
Definition removeSub (sub : S) (subs : list S) : list S := List.filter (fun s => bool_decide (s <> sub)) subs.
(** What [Remove] does under the lock of the topic. *)
Definition remove_locked (topic : string) (p : nat) (sub : S) (c : SubscribersCache) : SubscribersCache :=
  let subs := removeSub sub (topic_subs c p) in
  mkSubscribersCache (match subs with [] => delete topic (cache_topicSubs c) | _ => cache_topicSubs c end)
    (<[p := subs]> (cache_topics c)) (int32 (cache_size c - 1)).
Definition Remove (topic : string) (sub : S) (c : SubscribersCache) : SubscribersCache :=
  match getTopic c topic with Some p => remove_locked topic p sub c | None => c end.
(** The subscriptions [ForEachSubInTopic] goes over. *)
Definition subs_in_topic (c : SubscribersCache) (topic : string) : list S :=
  match getTopic c topic with Some p => topic_subs c p | None => [] end.
(** [ForEachSubInTopic], until the function says no. *)
Fixpoint each_sub {W} (subs : list S) (f : S -> prog W bool) : prog W unit :=
  match subs with
  | [] => ret tt
  | sub :: rest => go_on <- f sub ;; if go_on : bool then each_sub rest f else ret tt
  end.
Definition ForEachSubInTopic {W} (c : SubscribersCache) (topic : string) (f : S -> prog W bool) : prog W unit :=
  each_sub (subs_in_topic c topic) f.
(** [ForEach], topics in the order [order] leaves them. *)
Definition ForEach {W} (order : list (string * nat) -> list (string * nat)) (c : SubscribersCache)
    (f : string -> list S -> prog W unit) : prog W unit :=
  for_each (order (map_to_list (cache_topicSubs c))) (fun e => f e.1 (topic_subs c e.2)).
End cache.
Arguments SubscribersCache S : clear implicits.

(** * Events between instances ([grpcconv.go], [grpcconv_copy.go]) *)

(** What a handler of the bus is given. *)
Inductive bus_data := DSnapshot (s : Snapshot) | DEvent (e : bus_event).

Definition gob_pointer (p : option Z) : option Z := match p with Some z => if (z =? 0)%Z then None else Some z | None => None end.
Definition gob_lb_config (l : CommonLbConfig) : CommonLbConfig :=
  l <| CommonLbConfig_UpdateMergeWindow := gob_pointer (CommonLbConfig_UpdateMergeWindow l) |>.
Definition gob_cluster (c : Cluster) : Cluster :=
  c <| Cluster_HttpVersion := gob_pointer (Cluster_HttpVersion c) |>
    <| Cluster_CommonLbConfig := option_map gob_lb_config (Cluster_CommonLbConfig c) |>.
Definition gob_session (s : StatefulSession) : StatefulSession :=
  s <| StatefulSession_CookieTtl := gob_pointer (StatefulSession_CookieTtl s) |>.
Definition gob (t : table) : entity t -> entity t :=
  match t return entity t -> entity t with
  | ClusterTable => gob_cluster
  | StatefulSessionTable => gob_session
  | _ => fun e => e
  end.
Definition gob_snapshot (s : Snapshot) : Snapshot :=
  fold_left (fun s t => snapshot_put t (gob t <$> snapshot_rows t s) s) TableRelationOrder s.
(** The types of changes that are registered with gob. *)
Definition gob_registered (t : table) : bool := negb (bool_decide (t = CompositeSatelliteTable)).

(** The types of [bus.proto], with what their bytes decode to. *)
Inductive Event :=
  | Event_RAW_DATA (s : Snapshot)
  | Event_CHANGE (NodeGroup : string) (Changes : ChangesByTable)
  | Event_MULTIPLE_CHANGE
  | Event_RELOAD (Changes : ChangesByTable)
  | Event_UNRECOGNIZED (eventType : Z).
Definition ErrUnsupportedEvent : error := ErrMsg "bus: unsupported event type".

(** A copy of a change, prepared and encoded. *)
Definition wire_change (c : Change) : Change :=
  mkChange (Change_Table c) ((fun e => gob _ (MarshalPrepare _ e)) <$> Change_Before c)
    ((fun e => gob _ (MarshalPrepare _ e)) <$> Change_After c).
Definition encodable (changes : ChangesByTable) : bool :=
  forallb (fun e : table * list Change => forallb (fun c => gob_registered (Change_Table c)) e.2) (map_to_list changes).
Definition wire_changes (changes : ChangesByTable) : result ChangesByTable :=
  if encodable changes then Ok (map wire_change <$> changes)
  else Err (ErrMsg "gob: type not registered for interface").
Definition buildProtobufEventFromSnapshot (snapshot : Snapshot) : result Event := Ok (Event_RAW_DATA (gob_snapshot snapshot)).
Definition buildProtobufEvent (any : bus_data) : result Event :=
  match any with
  | DSnapshot s => buildProtobufEventFromSnapshot s
  | DEvent (ChangeEvent nodeGroup changes) => result_bind (wire_changes changes) (fun ch => Ok (Event_CHANGE nodeGroup ch))
  | DEvent (ReloadEvent changes) => result_bind (wire_changes changes) (fun ch => Ok (Event_RELOAD ch))
  | DEvent (MultipleChangeEvent _) | DEvent (PartialReloadEvent _) => Err ErrUnsupportedEvent
  end.
Definition readProtobufEvent (event : Event) : result bus_data :=
  match event with
  | Event_RAW_DATA s => Ok (DSnapshot s)
  | Event_CHANGE nodeGroup changes => Ok (DEvent (ChangeEvent nodeGroup changes))
  | Event_MULTIPLE_CHANGE => Panic "Multiple changes event sending is not supported on gRPC - implement on demand"
  | Event_RELOAD changes => Ok (DEvent (ReloadEvent changes))
  | Event_UNRECOGNIZED _ => Err ErrUnsupportedEvent
  end.

(** * Messages for a client that could not be served ([DeferredMessagesRegistry]) *)

Record gRPCChannelMsg := mkMsg { msg_terminal : bool; msg_event : Event }.
(** The messages that are not expired, by key. *)
Abbreviation DeferredMessagesRegistry := (gmap string (list gRPCChannelMsg)).
Definition ErrClientIdAbsent : error := ErrMsg "cannot perform defer msg operations: client id is not set".
Definition constructCacheKey (clientID topic : string) : string := topic ++ "-" ++ clientID.
(** A terminal message is not kept. *)
Definition PushMessageForClient (clientID topicName : string) (message : gRPCChannelMsg) (d : DeferredMessagesRegistry) :
    result DeferredMessagesRegistry :=
  if String.eqb clientID "" then Err ErrClientIdAbsent
  else if msg_terminal message then Ok d
  else
    let key := constructCacheKey clientID topicName in
    Ok (<[key := match d !! key with None => [message] | Some ms => (ms ++ [message])%list end]> d).
Fixpoint PushMessagesForClient (clientID topicName : string) (messages : list gRPCChannelMsg) (d : DeferredMessagesRegistry) :
    result DeferredMessagesRegistry :=
  match messages with
  | [] => Ok d
  | m :: rest => result_bind (PushMessageForClient clientID topicName m d) (PushMessagesForClient clientID topicName rest)
  end.
(** The key is never empty: its test is not reached. *)
Definition PopMessages (clientID topicName : string) (d : DeferredMessagesRegistry) :
    result (list gRPCChannelMsg * DeferredMessagesRegistry) :=
  let key := constructCacheKey clientID topicName in
  if String.eqb key "" then Err ErrClientIdAbsent
  else match d !! key with
       | None => Ok ([], d)
       | Some ms => Ok (ms, delete key d)
       end.
Definition ClearAllMessages (d : DeferredMessagesRegistry) : DeferredMessagesRegistry := ∅.
(** [PurgeAllDeferredMessages]: nothing before the publisher was activated. *)
Definition PurgeAllDeferredMessages (registry : option DeferredMessagesRegistry) : option DeferredMessagesRegistry :=
  ClearAllMessages <$> registry.

(** * The joined bus ([aggregator.go]) *)

Section aggregator.
Context {W S : Type} `{!EqDecision S}.
(** [BusPublisher] and [BusSubscriber]; [S] is the type of handlers. *)
Record BusPublisher := mkBusPublisher { bus_Publish : string -> bus_data -> prog W unit; publisher_Shutdown : prog W unit }.
Record BusSubscriber := mkBusSubscriber { bus_Subscribe : string -> S -> prog W unit; subscriber_Shutdown : prog W unit }.
Record EventBusAggregator := mkEventBusAggregator {
  evb_subscriptions : SubscribersCache S;
  evb_runningAsMaster : bool;
  evb_runningAsSlave : bool
}.
Variables externalPublisher internalPublisher : BusPublisher.
Variables externalSubscriber internalSubscriber : BusSubscriber.
(** The order in which [sync.Map] gives its entries. *)
Variable map_entries : list (string * nat) -> list (string * nat).

Definition NewEventBusAggregator : EventBusAggregator := mkEventBusAggregator NewSubscribersCache false false.
Definition ResubscribeOnNewMaster (evb : EventBusAggregator) : prog W unit :=
  ForEach map_entries (evb_subscriptions evb) (fun topic handlers =>
    for_each handlers (fun handler => bus_Subscribe externalSubscriber topic handler)).
Definition StartAsMaster (evb : EventBusAggregator) : EventBusAggregator :=
  if evb_runningAsMaster evb then evb else mkEventBusAggregator (evb_subscriptions evb) true false.
Definition StartAsSlave (evb : EventBusAggregator) : prog W EventBusAggregator :=
  if evb_runningAsSlave evb then ret evb
  else
    let evb := mkEventBusAggregator (evb_subscriptions evb) false true in
    ResubscribeOnNewMaster evb ;;; ret evb.
Definition RestartEventBus (role : Role) (evb : EventBusAggregator) : prog W EventBusAggregator :=
  match role with
  | Master => ret (StartAsMaster evb)
  | Slave => StartAsSlave evb
  | _ => ret evb
  end.
Definition AggregatorPublish (evb : EventBusAggregator) (topic : string) (data : bus_data) : prog W unit :=
  bus_Publish internalPublisher topic data ;;;
  if evb_runningAsMaster evb then bus_Publish externalPublisher topic data else ret tt.
Definition AggregatorSubscribe (evb : EventBusAggregator) (topic : string) (handler : S) : prog W EventBusAggregator :=
  let evb := mkEventBusAggregator (Add topic handler (evb_subscriptions evb)) (evb_runningAsMaster evb) (evb_runningAsSlave evb) in
  bus_Subscribe internalSubscriber topic handler ;;;
  (if evb_runningAsSlave evb then bus_Subscribe externalSubscriber topic handler else ret tt) ;;;
  ret evb.
Definition AggregatorShutdown (evb : EventBusAggregator) : prog W EventBusAggregator :=
  (if evb_runningAsMaster evb then publisher_Shutdown externalPublisher else ret tt) ;;;
  (if evb_runningAsSlave evb then subscriber_Shutdown externalSubscriber else ret tt) ;;;
  publisher_Shutdown internalPublisher ;;;
  ret (mkEventBusAggregator (evb_subscriptions evb) false false).
End aggregator.
