(* ===== verification/Replication.v ===== *)
(** [com9n]: how the slaves follow the master.  The master counts the events it
    publishes and sends a snapshot of its database when there were some since
    the last one; a slave loads a snapshot when it starts and each one that
    comes over the bus ([event/bus/grpcbus.go]).

    The second half is the master and its slaves as a transition system; a
    label is one step of one goroutine:
    - a commit, and later the announcement of an event on the internal bus;
    - the sender: a tick takes the snapshot, then it is put into the channel
      of each subscription of the topic (whose lock is held, and which waits
      while the channel is full), then the counter is reset;
    - the server of a subscription: it is added, sends what was deferred for
      its client, takes messages from its channel and sends them, and leaves;
    - the client: streams that break (all those of a client, which share a
      context), the handling of what arrives, the snapshot at the start;
    - deferred messages that expire or are purged.
    A server learns that its stream is broken when it sends. *)
From S2P Require Import Clustering Prelude GoLib Domain Tables MemDb Storage Events EventBus.
Open Scope string_scope.

Definition Topic := "SnapshotChanges".

(** * Roles ([configurator.go], [sender.go], [receiver.go]) *)

(** What is started: the sender and the receiver, the publisher of the bus and
    its subscriber, with its address; the tick numbers the calls of the
    network. *)
Record NodeComm := mkNodeComm {
  sender_stopped : bool;
  receiver_stopped : bool;
  publisher_active : bool;
  subscriber_active : option string;
  comm_tick : nat
}.
#[export] Instance NodeComm_eta : Eta NodeComm := fun c =>
  mkNodeComm (sender_stopped c) (receiver_stopped c) (publisher_active c) (subscriber_active c) (comm_tick c).
Definition NewConfigurator : NodeComm := mkNodeComm true true false None 0.

Section configurator.
(** Whether the n-th call can listen on an address, gets the snapshot. *)
Variable net_Listen : string -> nat -> result unit.
Variable tryGetSnapshot : nat -> result unit.

Definition comm {A} (f : nat -> result A) : prog NodeComm A := fun c =>
  (f (comm_tick c), c <| comm_tick := S (comm_tick c) |>).
Definition modify_comm (f : NodeComm -> NodeComm) : prog NodeComm unit := fun c => (Ok tt, f c).
Definition get_comm : prog NodeComm NodeComm := fun c => (Ok c, c).

Definition Publisher_Activate (address : string) : prog NodeComm unit :=
  c <- get_comm ;;
  if publisher_active c then fail (ErrMsg "attempt to activate gRPC publisher already activated")
  else comm (net_Listen address) ;;; modify_comm (fun c => c <| publisher_active := true |>).
Definition Publisher_Shutdown : prog NodeComm unit := modify_comm (fun c => c <| publisher_active := false |>).
Definition Subscriber_Activate (address : string) : prog NodeComm unit :=
  c <- get_comm ;;
  match subscriber_active c with
  | Some _ => fail (ErrMsg "attempt to activate gRPC suscriber already activated")
  | None => modify_comm (fun c => c <| subscriber_active := Some address |>)
  end.
Definition Subscriber_Shutdown : prog NodeComm unit := modify_comm (fun c => c <| subscriber_active := None |>).
Definition AttemptAmountGetSnapshot : nat := 10.
Fixpoint snapshot_attempts (attempts : nat) : prog NodeComm unit :=
  match attempts with
  | O => fail (ErrMsg "getting snapshot attempt limit exceeded")
  | S attempts => r <- try_ok (comm tryGetSnapshot) ;; match r with Some _ => ret tt | None => snapshot_attempts attempts end
  end.
Definition GetSnapshot : prog NodeComm unit :=
  c <- get_comm ;;
  match subscriber_active c with
  | Some _ => snapshot_attempts AttemptAmountGetSnapshot
  | None => fail (ErrMsg "attempt to get snapshot when gRPC subscriber is not active")
  end.

Definition StartSending (info : NodeInfo) : prog NodeComm unit :=
  Publisher_Activate (BusAddress info) ;;; modify_comm (fun c => c <| sender_stopped := false |>).
Definition StopSending : prog NodeComm unit := Publisher_Shutdown ;;; modify_comm (fun c => c <| sender_stopped := true |>).
Definition StartReceiving (busAddress : string) : prog NodeComm unit :=
  Subscriber_Activate busAddress ;;;
  r <- catch GetSnapshot ;;
  match r with
  | Err e => Subscriber_Shutdown ;;; fail e
  | _ => modify_comm (fun c => c <| receiver_stopped := false |>)
  end.
Definition StopReceiving : prog NodeComm unit := Subscriber_Shutdown ;;; modify_comm (fun c => c <| receiver_stopped := true |>).
Definition when (b : NodeComm -> bool) (m : prog NodeComm unit) : prog NodeComm unit :=
  c <- get_comm ;; if b c then m else ret tt.
Definition SetUpNodesCommunication (info : NodeInfo) (role : Role) : prog NodeComm unit :=
  match role with
  | Slave =>
      when (fun c => negb (sender_stopped c)) StopSending ;;;
      when (fun c => negb (receiver_stopped c)) StopReceiving ;;;
      wrap_err "Can't start receiver. Nodes communication is broken" (StartReceiving (BusAddress info))
  | Master =>
      when (fun c => negb (receiver_stopped c)) StopReceiving ;;;
      when sender_stopped (wrap_err "Can't start sender. Nodes communication is broken" (StartSending info))
  | _ => ret tt
  end.
Definition IsReceiverStarted (c : NodeComm) : bool := negb (receiver_stopped c).
End configurator.

(** * The master and its slaves *)

Section network.
Context `{M : MemDb}.

(** What its goroutine is at: before the deferred messages, waiting for the
    channel, sending a message, before the deferred [Remove]. *)
Inductive SessionPhase := Greeting | Serving | Sending (m : gRPCChannelMsg) | Leaving.
(** A subscription: the server's channel and what it is at, whether the client
    still reads the stream, and the events on their way. *)
Record Session := mkSession {
  ss_client : string;
  ss_topic : string;
  ss_chan : list gRPCChannelMsg;
  ss_phase : SessionPhase;
  ss_alive : bool;
  ss_flight : list Event
}.
#[export] Instance Session_eta : Eta Session := fun s =>
  mkSession (ss_client s) (ss_topic s) (ss_chan s) (ss_phase s) (ss_alive s) (ss_flight s).
(** The sender waits for a tick, or has the rest of the subscriptions to serve. *)
Inductive SenderState := SenderIdle | SenderPublishing (msg : Event) (rest : list nat).
(** A slave: its database, and the snapshot it asked for at its start. *)
Record SlaveNode := mkSlaveNode { slave_db : Db; slave_initial : option Event }.
Record Net := mkNet {
  net_db : Db;
  net_unannounced : nat;
  net_changes : Z;
  net_sender : SenderState;
  net_cache : SubscribersCache nat;
  net_sessions : gmap nat Session;
  net_deferred : DeferredMessagesRegistry;
  net_slaves : gmap string SlaveNode
}.
#[export] Instance Net_eta : Eta Net := fun s =>
  mkNet (net_db s) (net_unannounced s) (net_changes s) (net_sender s) (net_cache s) (net_sessions s) (net_deferred s) (net_slaves s).

Definition chanBuffer : nat := 10.
Definition HasSubscribers (s : Net) : bool := (0 <? cache_size (net_cache s))%Z.
(** The lock of the topic is held while the sender publishes. *)
Definition topic_locked (s : Net) (topic : string) : bool :=
  match net_sender s with SenderIdle => false | SenderPublishing _ _ => String.eqb topic Topic end.
Definition set_session (i : nat) (x : Session) (s : Net) : Net := s <| net_sessions := <[i := x]> (net_sessions s) |>.
Definition snapshot_event (uuid : string) (db : Db) : option Event :=
  match (Backup uuid db).1 with
  | Ok snapshot => match buildProtobufEventFromSnapshot snapshot with Ok e => Some e | _ => None end
  | _ => None
  end.

(** ** The master *)

(** [HandleChangeEvent] *)
Definition announce (s : Net) : option Net :=
  match net_unannounced s with
  | O => None
  | S n => Some (s <| net_unannounced := n |> <| net_changes := int32 (net_changes s + 1) |>)
  end.
(** The sender takes a tick: it does nothing when nothing changed, or nobody
    subscribed to any topic. *)
Definition tick_sender (uuid : string) (s : Net) : option Net :=
  match net_sender s with
  | SenderPublishing _ _ => None
  | SenderIdle =>
      if ((0 <? net_changes s)%Z && HasSubscribers s)
      then match snapshot_event uuid (net_db s) with
           | Some e => Some (s <| net_sender := SenderPublishing e (subs_in_topic (net_cache s) Topic) |>)
           | None => None
           end
      else Some s
  end.
(** The next subscription, when its channel has room. *)
Definition push (s : Net) : option Net :=
  match net_sender s with
  | SenderPublishing e (i :: rest) =>
      match net_sessions s !! i with
      | Some x =>
          if (length (ss_chan x) <? chanBuffer)%nat
          then Some (set_session i (x <| ss_chan := (ss_chan x ++ [mkMsg false e])%list |>)
                       (s <| net_sender := SenderPublishing e rest |>))
          else None
      | None => None
      end
  | _ => None
  end.
Definition reset_changes (s : Net) : option Net :=
  match net_sender s with
  | SenderPublishing _ [] => Some (s <| net_sender := SenderIdle |> <| net_changes := 0%Z |>)
  | _ => None
  end.

(** ** The server of a subscription ([EventBusServerImpl.Subscribe]) *)

Definition is_stream_of (client topic : string) (x : Session) : bool :=
  ss_alive x && String.eqb (ss_client x) client && String.eqb (ss_topic x) topic.
(** A client has one stream per topic: the next attempt follows the end of the
    one before. *)
Definition connect (i : nat) (client topic : string) (s : Net) : option Net :=
  match net_sessions s !! i with
  | Some _ => None
  | None =>
      if topic_locked s topic || existsb (fun e : nat * Session => is_stream_of client topic e.2) (map_to_list (net_sessions s)) then None
      else Some (s <| net_cache := Add topic i (net_cache s) |>
                   <| net_sessions := <[i := mkSession client topic [] Greeting true []]> (net_sessions s) |>)
  end.
(** [sendDeferredIfExists]: the first [n] of the messages are sent, all of them
    when the stream is intact; the others are kept.  What is sent on a broken
    stream is lost. *)
Definition greet (i n : nat) (s : Net) : option Net :=
  match net_sessions s !! i with
  | Some x =>
      match ss_phase x with
      | Greeting =>
          if String.eqb (ss_client x) "" then Some (set_session i (x <| ss_phase := Serving |>) s)
          else match PopMessages (ss_client x) (ss_topic x) (net_deferred s) with
               | Ok (msgs, registry) =>
                   if ss_alive x && negb (n =? length msgs)%nat then None
                   else match PushMessagesForClient (ss_client x) (ss_topic x) (drop n msgs) registry with
                        | Ok registry =>
                            let flight := if ss_alive x then (ss_flight x ++ (msg_event <$> take n msgs))%list else [] in
                            Some (set_session i (x <| ss_phase := Serving |> <| ss_flight := flight |>) (s <| net_deferred := registry |>))
                        | _ => None
                        end
               | _ => None
               end
      | _ => None
      end
  | None => None
  end.
(** The next message of the channel. *)
Definition take_message (i : nat) (s : Net) : option Net :=
  match net_sessions s !! i with
  | Some x =>
      match ss_phase x, ss_chan x with
      | Serving, m :: rest =>
          Some (set_session i (x <| ss_chan := rest |> <| ss_phase := if msg_terminal m then Leaving else Sending m |>) s)
      | _, _ => None
      end
  | None => None
  end.
(** [stream.Send] returns: on a broken stream the message may still be accepted,
    and lost, or fail, and be deferred. *)
Definition send_message (i : nat) (accepted : bool) (s : Net) : option Net :=
  match net_sessions s !! i with
  | Some x =>
      match ss_phase x with
      | Sending m =>
          if ss_alive x then Some (set_session i (x <| ss_phase := Serving |> <| ss_flight := (ss_flight x ++ [msg_event m])%list |>) s)
          else if accepted then Some (set_session i (x <| ss_phase := Serving |>) s)
          else
            let registry := match PushMessageForClient (ss_client x) (ss_topic x) m (net_deferred s) with
                            | Ok registry => registry
                            | _ => net_deferred s
                            end in
            Some (set_session i (x <| ss_phase := Leaving |>) (s <| net_deferred := registry |>))
      | _ => None
      end
  | None => None
  end.
(** The deferred [Remove]. *)
Definition leave (i : nat) (s : Net) : option Net :=
  match net_sessions s !! i with
  | Some x =>
      match ss_phase x with
      | Leaving =>
          if topic_locked s (ss_topic x) then None
          else Some (s <| net_cache := Remove (ss_topic x) i (net_cache s) |> <| net_sessions := delete i (net_sessions s) |>)
      | _ => None
      end
  | None => None
  end.

(** ** The slave *)

Definition break_session (client : string) (x : Session) : Session :=
  if String.eqb (ss_client x) client then x <| ss_alive := false |> <| ss_flight := [] |> else x.
Definition break_client (client : string) (s : Net) : Net := s <| net_sessions := break_session client <$> net_sessions s |>.
(** [ProcessSnapshot], whose error is not looked at. *)
Definition process_snapshot (snapshot : Snapshot) (slave : SlaveNode) : SlaveNode :=
  mkSlaveNode (Restore snapshot (slave_db slave)).2 (slave_initial slave).
Definition process_event (e : Event) (slave : SlaveNode) : SlaveNode :=
  match readProtobufEvent e with Ok (DSnapshot snapshot) => process_snapshot snapshot slave | _ => slave end.
(** The handlers of the other topics do not change the database. *)
Definition handle_stream (i : nat) (s : Net) : option Net :=
  match net_sessions s !! i with
  | Some x =>
      match ss_flight x with
      | e :: rest =>
          Some (set_session i (x <| ss_flight := rest |>)
                  (if String.eqb (ss_topic x) Topic then s <| net_slaves := alter (process_event e) (ss_client x) (net_slaves s) |> else s))
      | [] => None
      end
  | None => None
  end.
Definition fetch_snapshot (client uuid : string) (s : Net) : option Net :=
  match snapshot_event uuid (net_db s) with
  | Some e => Some (s <| net_slaves := alter (fun x => mkSlaveNode (slave_db x) (Some e)) client (net_slaves s) |>)
  | None => None
  end.
Definition handle_initial (client : string) (s : Net) : option Net :=
  match net_slaves s !! client with
  | Some x =>
      match slave_initial x with
      | Some e => Some (s <| net_slaves := <[client := process_event e (mkSlaveNode (slave_db x) None)]> (net_slaves s) |>)
      | None => None
      end
  | None => None
  end.

(** ** Steps *)

Inductive Label :=
  | Commit (db : Db) | Announce | Tick (uuid : string) | Push | Reset
  | Connect (i : nat) (client topic : string) | Greet (i n : nat) | Take (i : nat) | Send (i : nat) (accepted : bool) | Leave (i : nat)
  | Break (client : string) | HandleStream (i : nat) | FetchSnapshot (client uuid : string) | HandleInitial (client : string)
  | Expire (key : string) | Purge.

(** [None] when the goroutine cannot take the step. *)
Definition step (l : Label) (s : Net) : option Net :=
  match l with
  | Commit db => Some (s <| net_db := db |> <| net_unannounced := S (net_unannounced s) |>)
  | Announce => announce s
  | Tick uuid => tick_sender uuid s
  | Push => push s
  | Reset => reset_changes s
  | Connect i client topic => connect i client topic s
  | Greet i n => greet i n s
  | Take i => take_message i s
  | Send i accepted => send_message i accepted s
  | Leave i => leave i s
  | Break client => Some (break_client client s)
  | HandleStream i => handle_stream i s
  | FetchSnapshot client uuid => fetch_snapshot client uuid s
  | HandleInitial client => handle_initial client s
  | Expire key => Some (s <| net_deferred := delete key (net_deferred s) |>)
  | Purge => Some (s <| net_deferred := ClearAllMessages (net_deferred s) |>)
  end.
Fixpoint run (ls : list Label) (s : Net) : option Net :=
  match ls with [] => Some s | l :: ls => match step l s with Some s => run ls s | None => None end end.
End network.
