(* ===== verification/ReplicationSpec.v ===== *)
(** The slaves and the master: what a slave holds is what the master committed
    at some time, a slave whose stream stays intact catches up, and the runs in
    which it does not. *)
From S2P Require Import Clustering Prelude GoLib Domain Tables MemDb MemDbModel Storage Events EventBus Replication.
Open Scope string_scope.

(** * Subscriptions *)

Section cache_lemmas.
Context {S : Type} `{!EqDecision S}.
Implicit Types c : SubscribersCache S.
(** The topics that can be found are objects, each with one name. *)
Definition cache_wf c : Prop :=
  (forall n p, cache_topicSubs c !! n = Some p -> p < length (cache_topics c)) /\
  (forall n n' p, cache_topicSubs c !! n = Some p -> cache_topicSubs c !! n' = Some p -> n = n').
Lemma NewSubscribersCache_wf : cache_wf (NewSubscribersCache (S := S)).
Proof. by split; intros ??. Qed.

Lemma getOrCreateTopic_wf c name p c' : cache_wf c -> getOrCreateTopic c name = (p, c') ->
  cache_wf c' /\ cache_topicSubs c' !! name = Some p /\ (forall n, n <> name -> cache_topicSubs c' !! n = cache_topicSubs c !! n) /\
  forall n, subs_in_topic c' n = subs_in_topic c n.
Proof.
  intros [Hb Hi]. unfold getOrCreateTopic. destruct (cache_topicSubs c !! name) as [q|] eqn:E; intros [= <- <-]; [done|].
  unfold cache_wf, subs_in_topic, getTopic, topic_subs. cbn. split_and!.
  - intros n p. rewrite length_app. cbn. destruct (decide (n = name)) as [->|Hn].
    + rewrite lookup_insert_eq. intros [= <-]. lia.
    + rewrite lookup_insert_ne by done. intros ?%Hb. lia.
  - intros n n' p. destruct (decide (n = name)) as [->|Hn]; destruct (decide (n' = name)) as [->|Hn'];
      rewrite ?lookup_insert_eq, ?lookup_insert_ne by done; try done; try (intros [= <-] ?%Hb; lia); try (intros ?%Hb [= <-]; lia). apply Hi.
  - apply lookup_insert_eq.
  - intros n Hn. by rewrite lookup_insert_ne.
  - intros n. destruct (decide (n = name)) as [->|Hn].
    + rewrite lookup_insert_eq, E. by rewrite list_lookup_middle.
    + rewrite lookup_insert_ne by done. destruct (cache_topicSubs c !! n) as [p|] eqn:En; [|done].
      apply Hb in En. by rewrite lookup_app_l.
Qed.
Lemma Add_spec c topic sub : cache_wf c ->
  cache_wf (Add topic sub c) /\
  forall t, subs_in_topic (Add topic sub c) t = if decide (t = topic) then (subs_in_topic c t ++ [sub])%list else subs_in_topic c t.
Proof.
  intros Hw. unfold Add. destruct (getOrCreateTopic c topic) as [p c1] eqn:E.
  destruct (getOrCreateTopic_wf c topic p c1 Hw E) as ([Hb Hi] & Hp & _ & Hs). split.
  - split; cbn; [|exact Hi]. intros n q ?%Hb. by rewrite length_alter.
  - intros t. rewrite <- Hs. unfold subs_in_topic, getTopic, topic_subs, add_locked. cbn. case_decide as Ht.
    + subst t. rewrite Hp. rewrite list_lookup_alter_eq. apply Hb in Hp. apply lookup_lt_is_Some in Hp as [l ->]. done.
    + destruct (cache_topicSubs c1 !! t) as [q|] eqn:Eq; [|done]. rewrite list_lookup_alter_ne; [done|]. intros ->. by apply Ht, (Hi t topic q).
Qed.
Lemma Remove_spec c topic sub : cache_wf c ->
  cache_wf (Remove topic sub c) /\
  forall t, subs_in_topic (Remove topic sub c) t = if decide (t = topic) then removeSub sub (subs_in_topic c t) else subs_in_topic c t.
Proof.
  intros [Hb Hi]. unfold Remove, getTopic. destruct (cache_topicSubs c !! topic) as [p|] eqn:E.
  - unfold remove_locked. set (subs := removeSub sub (topic_subs c p)). split.
    + split; cbn; destruct subs eqn:Es.
      * intros n q [_ ?%Hb]%lookup_delete_Some. by rewrite length_insert.
      * intros n q ?%Hb. by rewrite length_insert.
      * intros n n' q [_ ?]%lookup_delete_Some [_ ?]%lookup_delete_Some. by apply (Hi n n' q).
      * exact Hi.
    + intros t. unfold subs_in_topic, getTopic, topic_subs. cbn. case_decide as Ht.
      * subst t. rewrite E. fold (topic_subs c p). fold subs. destruct subs eqn:Es; [by rewrite lookup_delete_eq|].
        rewrite E, list_lookup_insert_eq by (by apply (Hb topic)). done.
      * assert (forall l, l = subs -> match subs with [] => delete topic (cache_topicSubs c) | _ => cache_topicSubs c end !! t = cache_topicSubs c !! t) as Hl.
        { intros _ _. destruct subs; [by rewrite lookup_delete_ne|done]. }
        rewrite (Hl subs eq_refl). destruct (cache_topicSubs c !! t) as [q|] eqn:Eq; [|done].
        rewrite list_lookup_insert_ne; [done|]. intros <-. by apply Ht, (Hi t topic p).
  - split; [by split|]. intros t. case_decide as Ht; [|done]. subst t. unfold subs_in_topic, getTopic. by rewrite E.
Qed.
Lemma elem_of_removeSub (x sub : S) l : x ∈ removeSub sub l <-> x <> sub /\ x ∈ l.
Proof. unfold removeSub. rewrite list_elem_of_In, filter_In, <- list_elem_of_In, bool_decide_eq_true. tauto. Qed.
End cache_lemmas.

(** A subscription is lost when the topic is deleted between the two halves of
    [Add]: the object of the topic is held already, but not found any more. *)
Example add_lost :
  let c := Add "t" 1 (NewSubscribersCache (S := nat)) in
  let '(p, c1) := getOrCreateTopic c "t" in
  let c2 := add_locked p 2 (Remove "t" 1 c1) in
  subs_in_topic c2 "t" = [] /\ cache_size c2 = 1%Z.
Proof. by vm_compute. Qed.

Section spec.
Context `{ML : MemDbLaws}.

(** * Snapshots on their way *)

(** What a row of the master is on a slave. *)
Definition wire (t : table) (x : entity t) : entity t := gob t (MarshalPrepare t x).
Lemma gob_transparent t : transparent (gob t).
Proof. intros f x. by destruct t. Qed.
Lemma wire_transparent t : transparent (wire t).
Proof. intros f x. unfold wire. by rewrite gob_transparent, MarshalPrepare_transparent. Qed.
(** A slave's database is that of the master. *)
Definition holds (slave master : Db) : Prop := forall t, rows slave t = wire t <$> rows master t.
(** The event carries the database. *)
Definition event_of (e : Event) (db : Db) : Prop := exists s, e = Event_RAW_DATA s /\ snapshot_holds wire s db.

Lemma gob_snapshot_rows s t : snapshot_rows t (gob_snapshot s) = gob t <$> snapshot_rows t s.
Proof.
  assert (forall ts s, NoDup ts ->
    snapshot_rows t (fold_left (fun s t => snapshot_put t (gob t <$> snapshot_rows t s) s) ts s)
    = if decide (t ∈ ts) then gob t <$> snapshot_rows t s else snapshot_rows t s) as H.
  { clear s. induction ts as [|u ts IH]; intros s Hnd; [done|]. apply NoDup_cons in Hnd as [Hu Hnd]. cbn [fold_left]. rewrite (IH _ Hnd).
    destruct (decide (t = u)) as [->|Ht].
    - rewrite decide_False by done. rewrite decide_True by left. by rewrite snapshot_put_eq.
    - rewrite snapshot_put_ne by done. rewrite (decide_ext (t ∈ u :: ts) (t ∈ ts)); [done|]. rewrite elem_of_cons. tauto. }
  unfold gob_snapshot. rewrite H by apply TableRelationOrder_NoDup. by rewrite decide_True by apply TableRelationOrder_all.
Qed.
Lemma snapshot_event_spec uuid db : exists e, snapshot_event uuid db = Some e /\ event_of e db.
Proof.
  destruct (Backup_holds uuid db) as (s & E & Hs). exists (Event_RAW_DATA (gob_snapshot s)). unfold snapshot_event. rewrite E. split; [done|].
  exists (gob_snapshot s). split; [done|]. intros t. destruct (Hs t) as (l & Hl & Hnd & Hin). exists l. split; [|done].
  rewrite gob_snapshot_rows, Hl, <- list_fmap_compose. done.
Qed.
Lemma process_event_holds e db x : event_of e db ->
  holds (slave_db (process_event e x)) db /\ slave_initial (process_event e x) = slave_initial x.
Proof.
  intros (s & -> & Hs). destruct (Restore_holds wire s db (slave_db x) wire_transparent Hs) as (db' & E & Hr).
  unfold process_event, process_snapshot. cbn. by rewrite E.
Qed.

(** * What a slave holds was committed *)

(** The message that is taken from the channel and not sent yet. *)
Definition sending (x : Session) : list gRPCChannelMsg := match ss_phase x with Sending m => [m] | _ => [] end.

Section past.
Variables (H : list Db) (start : gmap string SlaveNode).
Definition from_past (e : Event) : Prop := exists db, db ∈ H /\ event_of e db.
Definition msgs_from_past (l : list gRPCChannelMsg) : Prop := Forall (fun m => from_past (msg_event m)) l.
Definition session_from_past (x : Session) : Prop :=
  msgs_from_past (ss_chan x) /\ msgs_from_past (sending x) /\ Forall from_past (ss_flight x).
Definition slave_from_past (client : string) (x : SlaveNode) : Prop :=
  (forall e, slave_initial x = Some e -> from_past e) /\
  ((exists x0, start !! client = Some x0 /\ slave_db x = slave_db x0) \/ exists db, db ∈ H /\ holds (slave_db x) db).
Definition net_from_past (s : Net) : Prop :=
  net_db s ∈ H /\ match net_sender s with SenderPublishing e _ => from_past e | SenderIdle => True end /\
  map_Forall (fun _ x => session_from_past x) (net_sessions s) /\
  map_Forall (fun _ ms => msgs_from_past ms) (net_deferred s) /\
  map_Forall slave_from_past (net_slaves s).

Lemma process_from_past e client x : from_past e -> slave_from_past client x -> slave_from_past client (process_event e x).
Proof.
  intros (db & Hdb & He) [Hi _]. destruct (process_event_holds e db x He) as [Hh Hini]. split; [rewrite Hini; exact Hi|].
  right. by exists db.
Qed.
Lemma push_message_from_past client topic m d d' :
  from_past (msg_event m) -> map_Forall (fun _ ms => msgs_from_past ms) d -> PushMessageForClient client topic m d = Ok d' ->
  map_Forall (fun _ ms => msgs_from_past ms) d'.
Proof.
  intros Hm Hd. unfold PushMessageForClient. destruct (String.eqb client ""); [done|]. destruct (msg_terminal m); [by intros [= <-]|].
  intros [= <-]. apply map_Forall_insert_2; [|done]. destruct (d !! _) as [ms|] eqn:E; [|by constructor].
  apply Forall_app. split; [by apply (Hd _ _ E)|by constructor].
Qed.
Lemma push_messages_from_past client topic ms d d' :
  msgs_from_past ms -> map_Forall (fun _ ms => msgs_from_past ms) d -> PushMessagesForClient client topic ms d = Ok d' ->
  map_Forall (fun _ ms => msgs_from_past ms) d'.
Proof.
  revert d. induction ms as [|m ms IH]; intros d Hms Hd; cbn; [by intros [= <-]|]. apply Forall_cons in Hms as [Hm Hms].
  destruct (PushMessageForClient client topic m d) as [d1|?|?] eqn:E; [|done..]. apply IH; [done|]. by eapply push_message_from_past.
Qed.
Lemma sessions_from_past_insert i x s : session_from_past x -> map_Forall (fun _ x => session_from_past x) (net_sessions s) ->
  map_Forall (fun _ x => session_from_past x) (<[i := x]> (net_sessions s)).
Proof. intros. by apply map_Forall_insert_2. Qed.
Lemma slaves_from_past_alter (f : SlaveNode -> SlaveNode) client (m : gmap string SlaveNode) :
  (forall x, slave_from_past client x -> slave_from_past client (f x)) -> map_Forall slave_from_past m ->
  map_Forall slave_from_past (alter f client m).
Proof.
  intros Hf Hm k x. destruct (decide (k = client)) as [->|Hk].
  - rewrite lookup_alter_eq. intros (y & Hy & ->)%fmap_Some. by apply Hf, (Hm client).
  - rewrite lookup_alter_ne by done. apply Hm.
Qed.
Lemma pop_from_past client topic d ms d' : map_Forall (fun _ ms => msgs_from_past ms) d -> PopMessages client topic d = Ok (ms, d') ->
  msgs_from_past ms /\ map_Forall (fun _ ms => msgs_from_past ms) d'.
Proof.
  intros Hd. unfold PopMessages. destruct (String.eqb _ ""); [done|]. destruct (d !! _) as [l|] eqn:E; intros [= <- <-].
  - split; [by apply (Hd _ _ E)|by apply map_Forall_delete].
  - split; [constructor|done].
Qed.

Lemma announce_from_past s s' : net_from_past s -> announce s = Some s' -> net_from_past s'.
Proof. unfold announce. by destruct (net_unannounced s); [|intros ? [= <-]]. Qed.
Lemma tick_from_past uuid s s' : net_from_past s -> tick_sender uuid s = Some s' -> net_from_past s'.
Proof.
  intros (Hdb & Hs & Hrest) E. unfold tick_sender in E. destruct (net_sender s) eqn:Es; [|done].
  destruct (_ && _); [|injection E as <-; unfold net_from_past; by rewrite Es].
  destruct (snapshot_event_spec uuid (net_db s)) as (e & Ee & He). rewrite Ee in E. injection E as <-.
  split; [done|]. split; [by exists (net_db s)|done].
Qed.
Lemma push_from_past s s' : net_from_past s -> push s = Some s' -> net_from_past s'.
Proof.
  intros (Hdb & Hs & Hx & Hd & Hn) E. unfold push in E. destruct (net_sender s) as [|e [|i rest]] eqn:Es; [done..|].
  destruct (net_sessions s !! i) as [x|] eqn:Ei; [|done]. destruct (_ <? _)%nat; [|done]. injection E as <-.
  split_and!; try done. cbn. apply map_Forall_insert_2; [|done]. destruct (Hx i x Ei) as (Hc & Hm & Hf). split; [|done].
  apply Forall_app. split; [done|by constructor].
Qed.
Lemma greet_from_past i n s s' : net_from_past s -> greet i n s = Some s' -> net_from_past s'.
Proof.
  intros (Hdb & Hs & Hx & Hd & Hn) E. unfold greet in E. destruct (net_sessions s !! i) as [x|] eqn:Ei; [|done].
  destruct (Hx i x Ei) as (Hc & Hm & Hf). destruct (ss_phase x); try done. destruct (String.eqb (ss_client x) "").
  { injection E as <-. split_and!; try done. apply map_Forall_insert_2; [|done]. split_and!; try done. constructor. }
  destruct (PopMessages _ _ _) as [[ms d1]|?|?] eqn:Ep; [|done..]. apply (pop_from_past _ _ _ _ _ Hd) in Ep as [Hms Hd1].
  destruct (ss_alive x && _); [done|]. destruct (PushMessagesForClient _ _ _ _) as [d2|?|?] eqn:Eq; [|done..]. injection E as <-.
  split_and!; try done; cbn.
  - apply map_Forall_insert_2; [|done]. split; [done|]. split; [constructor|]. cbn. destruct (ss_alive x); [|constructor]. apply Forall_app.
    split; [done|]. apply Forall_fmap, Forall_take, Hms.
  - eapply push_messages_from_past; [|exact Hd1|exact Eq]. by apply Forall_drop.
Qed.
Lemma take_from_past i s s' : net_from_past s -> take_message i s = Some s' -> net_from_past s'.
Proof.
  intros (Hdb & Hs & Hx & Hd & Hn) E. unfold take_message in E. destruct (net_sessions s !! i) as [x|] eqn:Ei; [|done].
  destruct (Hx i x Ei) as (Hc & _ & Hf). destruct (ss_phase x) as [| |m0|], (ss_chan x) as [|m rest]; try done. apply Forall_cons in Hc as [Hm Hc].
  injection E as <-. split_and!; try done. apply map_Forall_insert_2; [|done]. split; [done|]. split; [|done].
  unfold sending. cbn. destruct (msg_terminal m); [constructor|by constructor].
Qed.
Lemma send_from_past i b s s' : net_from_past s -> send_message i b s = Some s' -> net_from_past s'.
Proof.
  intros (Hdb & Hs & Hx & Hd & Hn) E. unfold send_message in E. destruct (net_sessions s !! i) as [x|] eqn:Ei; [|done].
  destruct (Hx i x Ei) as (Hc & Hm & Hf). unfold sending in Hm. destruct (ss_phase x) as [| |m|]; try done. apply Forall_cons in Hm as [Hm _].
  destruct (ss_alive x); [|destruct b]; injection E as <-.
  - split_and!; try done. apply map_Forall_insert_2; [|done]. split; [done|]. split; [constructor|]. apply Forall_app. split; [done|by constructor].
  - split_and!; try done. apply map_Forall_insert_2; [|done]. split_and!; try done. constructor.
  - split_and!; try done; cbn; [apply map_Forall_insert_2; [|done]; split_and!; try done; constructor|].
    destruct (PushMessageForClient _ _ _ _) as [d'|?|?] eqn:Ep; [|done..]. by eapply push_message_from_past.
Qed.
Lemma handle_stream_from_past i s s' : net_from_past s -> handle_stream i s = Some s' -> net_from_past s'.
Proof.
  intros (Hdb & Hs & Hx & Hd & Hn) E. unfold handle_stream in E. destruct (net_sessions s !! i) as [x|] eqn:Ei; [|done].
  destruct (Hx i x Ei) as (Hc & Hm & Hf). destruct (ss_flight x) as [|e rest]; [done|]. apply Forall_cons in Hf as [He Hf]. injection E as <-.
  destruct (String.eqb (ss_topic x) Topic); split_and!; try done; try (by apply map_Forall_insert_2).
  apply slaves_from_past_alter; [|done]. intros y. by apply process_from_past.
Qed.
Lemma break_from_past client s : net_from_past s -> net_from_past (break_client client s).
Proof.
  intros (Hdb & Hs & Hx & Hd & Hn). split_and!; try done.
  change (net_sessions (break_client client s)) with (break_session client <$> net_sessions s). intros i y. rewrite lookup_fmap. intros (x & Ex & ->)%fmap_Some.
  destruct (Hx i x Ex) as (Hc & Hm & Hf). unfold break_session. destruct (String.eqb _ _); [|done]. split; [done|]. by split; [|constructor].
Qed.
Lemma fetch_from_past client uuid s s' : net_from_past s -> fetch_snapshot client uuid s = Some s' -> net_from_past s'.
Proof.
  intros (Hdb & Hs & Hx & Hd & Hn) E. unfold fetch_snapshot in E.
  destruct (snapshot_event_spec uuid (net_db s)) as (e & Ee & He). rewrite Ee in E. injection E as <-.
  split_and!; try done. cbn. apply slaves_from_past_alter; [|done]. intros y [_ Hy]. split; [|exact Hy].
  cbn. intros e' [= <-]. by exists (net_db s).
Qed.
Lemma handle_initial_from_past client s s' : net_from_past s -> handle_initial client s = Some s' -> net_from_past s'.
Proof.
  intros (Hdb & Hs & Hx & Hd & Hn) E. unfold handle_initial in E. destruct (net_slaves s !! client) as [x|] eqn:Ec; [|done].
  destruct (Hn client x Ec) as [Hi Hh]. destruct (slave_initial x) as [e|]; [|done]. injection E as <-.
  split_and!; try done. cbn. apply map_Forall_insert_2; [|done]. apply process_from_past; [by apply Hi|]. split; [done|exact Hh].
Qed.
Lemma step_from_past l s s' : (forall db, l = Commit db -> db ∈ H) -> net_from_past s -> step l s = Some s' -> net_from_past s'.
Proof.
  intros Hl Hs E. destruct l; cbn in E.
  - injection E as <-. destruct Hs as (_ & Hs). split; [by apply Hl|done].
  - exact (announce_from_past _ _ Hs E).
  - exact (tick_from_past _ _ _ Hs E).
  - exact (push_from_past _ _ Hs E).
  - unfold reset_changes in E. destruct (net_sender s) as [|e []]; try done. injection E as <-. destruct Hs as (Hdb & _ & Hs). by split.
  - unfold connect in E. destruct (net_sessions s !! i); [done|]. destruct (_ || _); [done|]. injection E as <-.
    destruct Hs as (Hdb & Hs & Hx & Hd & Hn). split_and!; try done. apply map_Forall_insert_2; [|done]. by split_and!; constructor.
  - exact (greet_from_past _ _ _ _ Hs E).
  - exact (take_from_past _ _ _ Hs E).
  - exact (send_from_past _ _ _ _ Hs E).
  - unfold leave in E. destruct (net_sessions s !! i) as [x|]; [|done]. destruct (ss_phase x); try done.
    destruct (topic_locked _ _); [done|]. injection E as <-.
    destruct Hs as (Hdb & Hs & Hx & Hd & Hn). split_and!; try done. by apply map_Forall_delete.
  - injection E as <-. by apply break_from_past.
  - exact (handle_stream_from_past _ _ _ Hs E).
  - exact (fetch_from_past _ _ _ _ Hs E).
  - exact (handle_initial_from_past _ _ _ Hs E).
  - injection E as <-. destruct Hs as (Hdb & Hs & Hx & Hd & Hn). split_and!; try done. by apply map_Forall_delete.
  - injection E as <-. destruct Hs as (Hdb & Hs & Hx & Hd & Hn). by split_and!.
Qed.
End past.

Lemma run_app ls ls' s : run (ls ++ ls') s = match run ls s with Some s1 => run ls' s1 | None => None end.
Proof. revert s. induction ls as [|l ls IH]; intros s; [done|]. cbn. by destruct (step l s). Qed.
(** The databases a run commits. *)
Definition commits (ls : list Label) : list Db := omap (fun l => match l with Commit db => Some db | _ => None end) ls.
(** Nothing is on its way. *)
Definition pristine (s : Net) : Prop :=
  net_sender s = SenderIdle /\ net_sessions s = ∅ /\ net_deferred s = ∅ /\
  forall client x, net_slaves s !! client = Some x -> slave_initial x = None.

Lemma run_from_past H start ls s s' : (forall db, db ∈ commits ls -> db ∈ H) -> net_from_past H start s -> run ls s = Some s' ->
  net_from_past H start s'.
Proof.
  revert s. induction ls as [|l ls IH]; intros s Hl Hs E; cbn in E; [by injection E as <-|].
  destruct (step l s) as [s1|] eqn:E1; [|done]. apply (IH s1); [|eapply step_from_past; [|exact Hs|exact E1]|done].
  - intros db Hdb. apply Hl. unfold commits. cbn. destruct l; try done. by right.
  - intros db ->. apply Hl. left.
Qed.

(** C15: Whatever the order of the steps, whichever streams break and whatever
    is lost, deferred or expires: the database of a slave is its own of the
    start, or row for row that of the master at some time, as the wire leaves
    the rows. *)
Theorem slave_holds_past s0 ls s client x :
  pristine s0 -> run ls s0 = Some s -> net_slaves s !! client = Some x ->
  (exists x0, net_slaves s0 !! client = Some x0 /\ slave_db x = slave_db x0) \/
  (exists db, db ∈ net_db s0 :: commits ls /\ holds (slave_db x) db).
Proof.
  intros (Hp1 & Hp2 & Hp3 & Hp4) E Hx.
  assert (net_from_past (net_db s0 :: commits ls) (net_slaves s0) s) as (_ & _ & _ & _ & Hn).
  { eapply run_from_past; [|split_and!|exact E].
    - intros db Hdb. by right.
    - left.
    - by rewrite Hp1.
    - rewrite Hp2. apply map_Forall_empty.
    - rewrite Hp3. apply map_Forall_empty.
    - intros c y Hy. split; [intros e He; by rewrite (Hp4 c y Hy) in He|]. left. by exists y. }
  exact (proj2 (Hn client x Hx)).
Qed.

(** * A slave whose stream stays intact *)

Section follow.
#[local] Arguments set_field {R T} f {_} _ _ /.
Variables (c : string) (i : nat).
Definition pipeline (x : Session) : list Event := (ss_flight x ++ (msg_event <$> (sending x ++ ss_chan x)))%list.
(** What the slave is to restore: the snapshot it asked for, then the stream. *)
Definition intake (sl : SlaveNode) (x : Session) : list Event := (option_list (slave_initial sl) ++ pipeline x)%list.
(** The subscription does not end. *)
Definition stays (x : Session) : bool := match ss_phase x with Leaving => false | _ => true end.
(** When all of [events] are handled the slave has the master's database; with
    none this holds once it asked for a snapshot. *)
Definition up_to_date (asked : bool) (events : list Event) (slave master : Db) : Prop :=
  match last events with Some e => event_of e master | None => asked = true -> holds slave master end.
(** No other stream brings snapshots to the client. *)
Definition stray (y : Session) : Prop := ss_client y = c -> ss_topic y = Topic -> ss_alive y = false /\ ss_flight y = [].
Definition in_step (b : bool) (x : Session) (sl : SlaveNode) (s : Net) : Prop :=
  match net_sender s with
  | SenderIdle => 0 < net_unannounced s \/ (0 < net_changes s)%Z \/ up_to_date b (intake sl x) (slave_db sl) (net_db s)
  | SenderPublishing e rest => event_of e (net_db s) /\ (i ∈ rest \/ up_to_date b (intake sl x) (slave_db sl) (net_db s))
  end.
Record following_with (b : bool) (x : Session) (sl : SlaveNode) (s : Net) : Prop := mkFollowing {
  follow_cache : cache_wf (net_cache s);
  follow_subs : i ∈ subs_in_topic (net_cache s) Topic;
  follow_session : net_sessions s !! i = Some x;
  follow_client : ss_client x = c;
  follow_topic : ss_topic x = Topic;
  follow_alive : ss_alive x = true;
  follow_phase : stays x = true;
  follow_chan : Forall (fun m => msg_terminal m = false) (ss_chan x);
  follow_slave : net_slaves s !! c = Some sl;
  follow_stray : forall j y, j <> i -> net_sessions s !! j = Some y -> stray y;
  follow_changes : (0 <= net_changes s)%Z;
  follow_step : in_step b x sl s
}.
(** The slave is subscribed; [b]: it asked for a snapshot. *)
Definition following (b : bool) (s : Net) : Prop := exists x sl, following_with b x sl s.

(** The steps that keep the slave in step.  Its streams do not break; nothing
    is committed or announced between the snapshot of the sender and the reset
    of its counter ([change_lost]); nothing of the stream is handled while the
    snapshot it asked for is not restored yet ([join_overtaken]); nothing is
    deferred for it when its subscription starts ([deferred_regress]). *)
Definition calm (l : Label) (s : Net) : bool :=
  match l with
  | Commit _ | Announce => match net_sender s with SenderIdle => true | _ => false end
  | Break c' => negb (String.eqb c' c)
  | HandleStream j =>
      negb (j =? i)%nat || match net_slaves s !! c with Some sl => match slave_initial sl with None => true | Some _ => false end | None => true end
  | Greet j _ => negb (j =? i)%nat || match net_deferred s !! constructCacheKey c Topic with None => true | Some _ => false end
  | _ => true
  end.
Definition asks (l : Label) : bool := match l with FetchSnapshot c' _ => String.eqb c' c | _ => false end.

Section asked.
Context {b : bool}.
(** What is handled, or moves on, leaves the slave as up to date as it was. *)
Lemma in_step_moved x sl x' sl' s s' :
  net_sender s' = net_sender s -> net_unannounced s' = net_unannounced s -> net_changes s' = net_changes s -> net_db s' = net_db s ->
  (up_to_date b (intake sl x) (slave_db sl) (net_db s) -> up_to_date b (intake sl' x') (slave_db sl') (net_db s)) ->
  in_step b x sl s -> in_step b x' sl' s'.
Proof.
  intros E1 E2 E3 E4 Hu. unfold in_step. rewrite E1, E2, E3, E4. destruct (net_sender s) as [|e rest].
  - intros [?|[?|?]]; [by left|by right; left|right; right; auto].
  - intros [He [?|?]]; split; [exact He|by left|exact He|right; auto].
Qed.
Lemma up_to_date_tail e l sl m : up_to_date b (e :: l) (slave_db sl) m -> up_to_date b l (slave_db (process_event e sl)) m.
Proof.
  unfold up_to_date. destruct l as [|e1 l]; [intros He _; by apply process_event_holds|].
  rewrite last_cons_cons. destruct (last (e1 :: l)) eqn:E; [done|]. by apply last_None in E.
Qed.
(** Another session changes. *)
Lemma follow_other j y s x sl : j <> i -> stray y -> following_with b x sl s -> following_with b x sl (set_session j y s).
Proof.
  intros Hj Hy []. constructor; try done; cbn.
  - change (<[j := y]> (net_sessions s) !! i = Some x). by rewrite lookup_insert_ne.
  - intros k z Hk. change (<[j := y]> (net_sessions s) !! k = Some z -> stray z).
    intros [[<- <-]|[_ ?]]%lookup_insert_Some; [done|by eapply follow_stray0].
Qed.
Lemma not_leaving j y s x sl : following_with b x sl s -> net_sessions s !! j = Some y -> ss_phase y = Leaving -> j <> i.
Proof.
  intros [] Ej Hp ->. rewrite follow_session0 in Ej. injection Ej as <-. unfold stays in follow_phase0. by rewrite Hp in follow_phase0.
Qed.
Lemma follow_deferred d s x sl : following_with b x sl s -> following_with b x sl (s <| net_deferred := d |>).
Proof. intros []. by constructor. Qed.

Lemma follow_commit db s : following b s -> net_sender s = SenderIdle ->
  following b (s <| net_db := db |> <| net_unannounced := S (net_unannounced s) |>).
Proof. intros (x & sl & []) Hs. exists x, sl. constructor; try done. unfold in_step. cbn. rewrite Hs. left. lia. Qed.
Lemma follow_announce s s' : following b s -> net_sender s = SenderIdle -> (net_changes s < 2 ^ 31 - 1)%Z -> announce s = Some s' ->
  following b s' /\ (net_changes s' <= net_changes s + 1)%Z.
Proof.
  intros (x & sl & []) Hs Hb E. unfold announce in E. destruct (net_unannounced s) as [|n]; [done|]. injection E as <-. cbn.
  rewrite int32_id by lia. split; [|lia]. exists x, sl. constructor; try done; cbn; rewrite ?int32_id by lia; [lia|].
  unfold in_step. cbn. rewrite Hs. right. left. lia.
Qed.
Lemma follow_tick uuid s s' : following b s -> tick_sender uuid s = Some s' -> following b s' /\ (net_changes s' <= net_changes s)%Z.
Proof.
  intros (x & sl & F) E. pose proof F as []. unfold tick_sender in E. destruct (net_sender s) eqn:Es; [|done].
  destruct ((0 <? net_changes s)%Z && HasSubscribers s); [|injection E as <-; split; [by exists x, sl|lia]].
  destruct (snapshot_event_spec uuid (net_db s)) as (e & Ee & He). rewrite Ee in E. injection E as <-. split; [|cbn; lia].
  exists x, sl. constructor; try done. split; [done|by left].
Qed.
Lemma follow_push s s' : following b s -> push s = Some s' -> following b s' /\ (net_changes s' <= net_changes s)%Z.
Proof.
  intros (x & sl & F) E. pose proof F as []. unfold push in E. destruct (net_sender s) as [|e [|j rest]] eqn:Es; [done..|].
  destruct (net_sessions s !! j) as [y|] eqn:Ej; [|done]. destruct (_ <? _)%nat; [|done]. injection E as <-. split; [|cbn; lia].
  unfold in_step in follow_step0. rewrite Es in follow_step0. destruct follow_step0 as [He Hr].
  set (s1 := s <| net_sender := SenderPublishing e rest |>). destruct (decide (j = i)) as [->|Hj].
  - rewrite follow_session0 in Ej. injection Ej as <-. exists (x <| ss_chan := (ss_chan x ++ [mkMsg false e])%list |>), sl.
    constructor; try done; cbn.
    + change (<[i := x <| ss_chan := (ss_chan x ++ [mkMsg false e])%list |>]> (net_sessions s) !! i = Some (x <| ss_chan := (ss_chan x ++ [mkMsg false e])%list |>)).
      by rewrite lookup_insert_eq.
    + apply Forall_app. split; [done|by constructor].
    + intros k z Hk. change (<[i := x <| ss_chan := (ss_chan x ++ [mkMsg false e])%list |>]> (net_sessions s) !! k = Some z -> stray z).
      rewrite lookup_insert_ne by done. by apply follow_stray0.
    + split; [done|]. right. unfold intake, pipeline, up_to_date, sending. cbn. by rewrite (app_assoc (match _ with Sending _ => _ | _ => _ end)), fmap_app, !app_assoc, (last_snoc e).
  - exists x, sl. apply follow_other; [done|exact (follow_stray0 j y Hj Ej)|]. constructor; try done.
    split; [done|]. destruct Hr as [[?|Hr]%elem_of_cons|Hr]; [by subst j|by left|by right].
Qed.
Lemma follow_reset s s' : following b s -> reset_changes s = Some s' -> following b s' /\ (net_changes s' <= net_changes s)%Z.
Proof.
  intros (x & sl & []) E. unfold reset_changes in E. destruct (net_sender s) as [|e []] eqn:Es; try done. injection E as <-. split; [|cbn; lia].
  unfold in_step in follow_step0. rewrite Es in follow_step0. destruct follow_step0 as [He [[]%elem_of_nil|Hr]].
  exists x, sl. constructor; try done. by right; right.
Qed.
Lemma follow_connect j client topic s s' : following b s -> connect j client topic s = Some s' -> following b s'.
Proof.
  intros (x & sl & []) E. unfold connect in E. destruct (net_sessions s !! j) eqn:Ej; [done|].
  destruct (topic_locked s topic); [done|]. cbn [orb] in E. destruct (existsb _ _) eqn:Ex; [done|]. injection E as <-.
  assert (j <> i) as Hj by (intros ->; congruence).
  destruct (Add_spec (net_cache s) topic j follow_cache0) as [Hw Hsubs].
  exists x, sl. constructor; try done.
  - cbn. rewrite Hsubs. case_decide; [apply elem_of_app; by left|done].
  - change (<[j := mkSession client topic [] Greeting true []]> (net_sessions s) !! i = Some x). by rewrite lookup_insert_ne.
  - intros k z Hk. change (<[j := mkSession client topic [] Greeting true []]> (net_sessions s) !! k = Some z -> stray z).
    intros [[<- <-]|[_ ?]]%lookup_insert_Some; [|by eapply follow_stray0].
    intros Hc Ht. cbn in Hc, Ht. subst client topic. exfalso. apply not_true_iff_false in Ex. apply Ex, existsb_exists. exists (i, x).
    split; [by apply list_elem_of_In, elem_of_map_to_list|]. unfold is_stream_of. cbn.
    by rewrite follow_alive0, follow_client0, follow_topic0, !String.eqb_refl.
Qed.
Lemma follow_greet j n s s' : following b s -> calm (Greet j n) s = true -> greet j n s = Some s' ->
  following b s' /\ (net_changes s' <= net_changes s)%Z.
Proof.
  intros (x & sl & F) Hcalm E. pose proof F as []. unfold greet in E. destruct (net_sessions s !! j) as [y|] eqn:Ej; [|done].
  destruct (ss_phase y) eqn:Hg; try done. destruct (decide (j = i)) as [->|Hj].
  - rewrite follow_session0 in Ej. injection Ej as <-. split.
    2:{ destruct (String.eqb _ _); [by injection E as <-|]. destruct (PopMessages _ _ _) as [[ms d1]|?|?]; [|done..].
        destruct (_ && _); [done|]. destruct (PushMessagesForClient _ _ _ _); [|done..]. injection E as <-. cbn. lia. }
    exists (x <| ss_phase := Serving |>), sl.
    assert (following_with b (x <| ss_phase := Serving |>) sl (set_session i (x <| ss_phase := Serving |>) s)) as F'.
    { constructor; [..|eapply in_step_moved; [..|exact follow_step0]]; try done; cbn.
      - apply lookup_insert_eq.
      - intros k z Hk. rewrite lookup_insert_ne by done. by apply follow_stray0.
      - unfold intake, pipeline, sending. cbn. by rewrite Hg. }
    destruct (String.eqb _ _); [by injection E as <-|]. cbn in Hcalm. rewrite Nat.eqb_refl in Hcalm. cbn in Hcalm.
    unfold PopMessages in E. rewrite follow_client0, follow_topic0 in E. destruct (String.eqb (constructCacheKey c Topic) ""); [done|].
    destruct (net_deferred s !! _) eqn:Ed; [done|]. rewrite follow_alive0 in E. cbn in E. destruct (n =? 0)%nat; [|done]. cbn in E.
    rewrite drop_nil, take_nil in E. cbn in E. injection E as <-. rewrite app_nil_r. pose proof (follow_deferred (net_deferred s) _ _ _ F') as F''.
    replace (x <| ss_phase := Serving |> <| ss_flight := ss_flight x |>) with (x <| ss_phase := Serving |>) by done. exact F''.
  - pose proof (follow_stray0 j y Hj Ej) as Hst.
    destruct (String.eqb (ss_client y) ""); [injection E as <-; split; [exists x, sl; by apply follow_other|cbn; lia]|].
    destruct (PopMessages _ _ _) as [[ms d1]|?|?]; [|done..]. destruct (ss_alive y && _); [done|].
    destruct (PushMessagesForClient _ _ _ _) as [d2|?|?]; [|done..]. injection E as <-. split; [|cbn; lia].
    exists x, sl. apply follow_other; [done| |by apply follow_deferred].
    intros Hc Ht. destruct (Hst Hc Ht) as [Ha Hf]. cbn. rewrite Ha. done.
Qed.
Lemma follow_take j s s' : following b s -> take_message j s = Some s' -> following b s' /\ (net_changes s' <= net_changes s)%Z.
Proof.
  intros (x & sl & F) E. pose proof F as []. unfold take_message in E. destruct (net_sessions s !! j) as [y|] eqn:Ej; [|done].
  destruct (ss_phase y) as [| |m0|] eqn:Ep, (ss_chan y) as [|m rest] eqn:Ec; try done. injection E as <-. split; [|cbn; lia].
  destruct (decide (j = i)) as [->|Hj].
  - rewrite follow_session0 in Ej. injection Ej as <-. rewrite Ec in follow_chan0. apply Forall_cons in follow_chan0 as [Hm Hrest].
    rewrite Hm. exists (x <| ss_chan := rest |> <| ss_phase := Sending m |>), sl.
    constructor; [..|eapply in_step_moved; [..|exact follow_step0]]; try done; cbn.
    + apply lookup_insert_eq.
    + intros k z Hk. rewrite lookup_insert_ne by done. by apply follow_stray0.
    + unfold intake, pipeline, sending. cbn. by rewrite Ec, Ep.
  - exists x, sl. apply follow_other; [done| |done]. exact (follow_stray0 j y Hj Ej).
Qed.
Lemma follow_send j accepted s s' : following b s -> send_message j accepted s = Some s' -> following b s' /\ (net_changes s' <= net_changes s)%Z.
Proof.
  intros (x & sl & F) E. pose proof F as []. unfold send_message in E. destruct (net_sessions s !! j) as [y|] eqn:Ej; [|done].
  destruct (ss_phase y) as [| |m|] eqn:Ep; try done. destruct (decide (j = i)) as [->|Hj].
  - rewrite follow_session0 in Ej. injection Ej as <-. rewrite follow_alive0 in E. injection E as <-. split; [|cbn; lia].
    exists (x <| ss_phase := Serving |> <| ss_flight := (ss_flight x ++ [msg_event m])%list |>), sl.
    constructor; [..|eapply in_step_moved; [..|exact follow_step0]]; try done; cbn.
    + apply lookup_insert_eq.
    + intros k z Hk. rewrite lookup_insert_ne by done. by apply follow_stray0.
    + unfold intake, pipeline, sending. cbn. by rewrite Ep, <- (app_assoc (ss_flight x)).
  - pose proof (follow_stray0 j y Hj Ej) as Hst.
    destruct (ss_alive y) eqn:Ea; [|destruct accepted]; injection E as <-; (split; [|cbn; lia]); exists x, sl.
    + apply follow_other; try done. intros Hc Ht. cbn in *. destruct (Hst Hc Ht). congruence.
    + by apply follow_other.
    + by apply follow_other.
Qed.
Lemma follow_leave j s s' : following b s -> leave j s = Some s' -> following b s' /\ (net_changes s' <= net_changes s)%Z.
Proof.
  intros (x & sl & F) E. pose proof F as []. unfold leave in E. destruct (net_sessions s !! j) as [y|] eqn:Ej; [|done].
  destruct (ss_phase y) eqn:Ep; try done. destruct (topic_locked _ _); [done|]. injection E as <-. split; [|cbn; lia].
  assert (j <> i) as Hj by (eapply not_leaving; [exact F|exact Ej|done]).
  destruct (Remove_spec (net_cache s) (ss_topic y) j follow_cache0) as [Hw Hsubs].
  exists x, sl. constructor; try done; cbn.
  - rewrite Hsubs. case_decide; [|done]. by apply elem_of_removeSub.
  - by rewrite lookup_delete_ne.
  - intros k z Hk [_ ?]%lookup_delete_Some. by eapply follow_stray0.
Qed.
Lemma follow_break client s : following b s -> client <> c -> following b (break_client client s).
Proof.
  intros (x & sl & []) Hc. exists x, sl. constructor; try done; cbn.
  - rewrite lookup_fmap, follow_session0. cbn. unfold break_session. destruct (String.eqb_spec (ss_client x) client); [congruence|done].
  - intros k z Hk. rewrite lookup_fmap. intros (y & Hy & ->)%fmap_Some. unfold break_session.
    destruct (String.eqb _ client); [done|by eapply follow_stray0].
Qed.
Lemma process_event_initial e sl : slave_initial (process_event e sl) = slave_initial sl.
Proof. unfold process_event. destruct (readProtobufEvent e) as [[]|?|?]; done. Qed.
Lemma follow_handle_stream j s s' : following b s -> calm (HandleStream j) s = true -> handle_stream j s = Some s' ->
  following b s' /\ (net_changes s' <= net_changes s)%Z.
Proof.
  intros (x & sl & F) Hcalm E. pose proof F as []. unfold handle_stream in E. destruct (net_sessions s !! j) as [y|] eqn:Ej; [|done].
  destruct (ss_flight y) as [|e rest] eqn:Ef; [done|]. injection E as <-. destruct (decide (j = i)) as [->|Hj].
  - rewrite follow_session0 in Ej. injection Ej as <-. cbn in Hcalm. rewrite Nat.eqb_refl, follow_slave0 in Hcalm. cbn in Hcalm.
    destruct (slave_initial sl) eqn:Hini; [done|].
    rewrite follow_topic0, follow_client0. cbn [String.eqb]. split; [|cbn; lia].
    exists (mkSession c Topic (ss_chan x) (ss_phase x) (ss_alive x) rest), (process_event e sl).
    constructor; [..|eapply in_step_moved; [..|exact follow_step0]]; try done; cbn.
    + apply lookup_insert_eq.
    + by rewrite lookup_alter_eq, follow_slave0.
    + intros k z Hk. rewrite lookup_insert_ne by done. by apply follow_stray0.
    + unfold intake, pipeline, sending. cbn. rewrite process_event_initial, Hini, Ef. apply up_to_date_tail.
  - pose proof (follow_stray0 j y Hj Ej) as Hst. split; [|destruct (String.eqb _ _); cbn; lia].
    assert (ss_client y = c -> ss_topic y <> Topic) as Hne by (intros Hc Ht; destruct (Hst Hc Ht); congruence).
    destruct (String.eqb_spec (ss_topic y) Topic) as [Ht|Ht].
    + exists x, sl. apply follow_other; [done| |].
      * intros Hc. by apply Hne in Hc.
      * constructor; try done. cbn. rewrite lookup_alter_ne; [done|]. intros Hc. by apply Hne.
    + exists x, sl. apply follow_other; [done| |done]. by intros _.
Qed.
Lemma follow_handle_initial client s s' : following b s -> handle_initial client s = Some s' ->
  following b s' /\ (net_changes s' <= net_changes s)%Z.
Proof.
  intros (x & sl & []) E. unfold handle_initial in E. destruct (net_slaves s !! client) as [y|] eqn:Ey; [|done].
  destruct (slave_initial y) as [e|] eqn:Ee; [|done]. injection E as <-. split; [|cbn; lia]. destruct (decide (client = c)) as [->|Hc].
  - rewrite follow_slave0 in Ey. injection Ey as <-. exists x, (process_event e (mkSlaveNode (slave_db sl) None)).
    constructor; [..|eapply in_step_moved; [..|exact follow_step0]]; try done; cbn.
    + apply lookup_insert_eq.
    + unfold intake. rewrite process_event_initial, Ee. apply (up_to_date_tail e _ (mkSlaveNode (slave_db sl) None)).
  - exists x, sl. constructor; try done. cbn. by rewrite lookup_insert_ne.
Qed.
End asked.

Lemma follow_fetch b client uuid s s' : following b s -> fetch_snapshot client uuid s = Some s' ->
  following (b || String.eqb client c) s' /\ (net_changes s' <= net_changes s)%Z.
Proof.
  intros (x & sl & []) E. unfold fetch_snapshot in E. destruct (snapshot_event_spec uuid (net_db s)) as (e & Ee & He).
  rewrite Ee in E. injection E as <-. split; [|cbn; lia]. destruct (String.eqb_spec client c) as [->|Hc].
  - rewrite orb_true_r. exists x, (mkSlaveNode (slave_db sl) (Some e)). constructor; try done; cbn.
    + by rewrite lookup_alter_eq, follow_slave0.
    + assert (up_to_date b (intake sl x) (slave_db sl) (net_db s) ->
              up_to_date true (intake (mkSlaveNode (slave_db sl) (Some e)) x) (slave_db sl) (net_db s)) as Hu.
      { unfold up_to_date, intake. cbn. destruct (pipeline x) as [|e1 l]; [done|]. rewrite last_cons_cons, last_app.
        by destruct (last (e1 :: l)) eqn:El; [|apply last_None in El]. }
      revert follow_step0. unfold in_step. cbn. destruct (net_sender s); intuition auto.
  - rewrite orb_false_r. exists x, sl. constructor; try done. cbn. by rewrite lookup_alter_ne.
Qed.
Lemma follow_any_step b l s s' : following b s -> calm l s = true -> (net_changes s < 2 ^ 31 - 1)%Z -> step l s = Some s' ->
  following (b || asks l) s' /\ (net_changes s' <= net_changes s + 1)%Z.
Proof.
  intros F Hc Hb E. assert (forall b s1, following b s1 /\ (net_changes s1 <= net_changes s)%Z -> following b s1 /\ (net_changes s1 <= net_changes s + 1)%Z) as W
    by (intros b' s1 [? ?]; split; [done|lia]).
  destruct l; cbn [asks]; rewrite ?orb_false_r; cbn [step] in E.
  - injection E as <-. apply W. split; [|cbn; lia]. apply follow_commit; [done|]. cbn in Hc. by destruct (net_sender s).
  - apply (follow_announce s); [done| |done..]. cbn in Hc. by destruct (net_sender s).
  - apply W. by eapply follow_tick.
  - apply W. by eapply follow_push.
  - apply W. by eapply follow_reset.
  - apply W. pose proof (follow_connect _ _ _ _ _ F E). split; [done|]. unfold connect in E.
    destruct (net_sessions s !! i0); [done|]. destruct (_ || _); [done|]. injection E as <-. cbn. lia.
  - apply W. by eapply follow_greet.
  - apply W. by eapply follow_take.
  - apply W. by eapply follow_send.
  - apply W. by eapply follow_leave.
  - injection E as <-. apply W. split; [|cbn; lia]. apply follow_break; [done|]. intros ->. cbn in Hc. by rewrite String.eqb_refl in Hc.
  - apply W. by eapply follow_handle_stream.
  - apply W. by eapply follow_fetch.
  - apply W. by eapply follow_handle_initial.
  - injection E as <-. apply W. split; [|cbn; lia]. destruct F as (x & sl & F). exists x, sl. by apply follow_deferred.
  - injection E as <-. apply W. split; [|cbn; lia]. destruct F as (x & sl & F). exists x, sl. by apply follow_deferred.
Qed.

Fixpoint calm_run (ls : list Label) (s : Net) : bool :=
  match ls with
  | [] => true
  | l :: ls => calm l s && match step l s with Some s => calm_run ls s | None => false end
  end.
Lemma follow_run b ls s s' : following b s -> calm_run ls s = true -> (net_changes s + Z.of_nat (length ls) < 2 ^ 31)%Z -> run ls s = Some s' ->
  following (b || existsb asks ls) s'.
Proof.
  revert b s. induction ls as [|l ls IH]; intros b s F Hc Hb E; cbn in E, Hc; [injection E as <-; by rewrite orb_false_r|].
  apply andb_prop in Hc as [Hl Hc]. cbn [length] in Hb. destruct (step l s) as [s1|] eqn:E1; [|done].
  destruct (follow_any_step b l s s1 F Hl ltac:(lia) E1) as [F1 H1]. cbn [existsb]. rewrite orb_assoc. apply (IH _ s1); [done..|lia|done].
Qed.

(** Nothing is on its way to the slave, and everything is announced. *)
Definition quiet (s : Net) : Prop :=
  net_sender s = SenderIdle /\ net_unannounced s = 0 /\ net_changes s = 0%Z /\
  (forall x, net_sessions s !! i = Some x -> pipeline x = []) /\
  forall sl, net_slaves s !! c = Some sl -> slave_initial sl = None.
Lemma follow_quiet s : following true s -> quiet s -> exists sl, net_slaves s !! c = Some sl /\ holds (slave_db sl) (net_db s).
Proof.
  intros (x & sl & []) (Hs & Hu & Hc & Hx & Hi). exists sl. split; [done|]. pose proof (Hx x follow_session0) as Hp.
  pose proof (Hi sl follow_slave0) as Hn.
  unfold in_step, up_to_date, intake in follow_step0. rewrite Hs, Hp, Hn in follow_step0. cbn in follow_step0.
  destruct follow_step0 as [?|[?|H]]; [lia|lia|by apply H].
Qed.

(** Nothing is left for the slave from before, and no stream brings it
    snapshots: it starts with a subscription, then asks for a snapshot. *)
Definition ready (s : Net) : Prop :=
  cache_wf (net_cache s) /\ (0 <= net_changes s)%Z /\
  (exists sl, net_slaves s !! c = Some sl /\ slave_initial sl = None) /\
  forall j y, net_sessions s !! j = Some y -> stray y.
Lemma connect_following s s' : ready s -> step (Connect i c Topic) s = Some s' -> following false s' /\ net_changes s' = net_changes s.
Proof.
  intros (Hw & Hch & (sl & Hsl & Hi) & Hst) E. cbn in E. unfold connect in E. destruct (net_sessions s !! i) as [|] eqn:Ei; [done|].
  unfold topic_locked in E. destruct (net_sender s) eqn:Es; [|done]. destruct (_ || _); [done|]. injection E as <-. split; [|done].
  destruct (Add_spec (net_cache s) Topic i Hw) as [Hw' Hsubs].
  exists (mkSession c Topic [] Greeting true []), sl. constructor; try done; cbn.
  - rewrite Hsubs, decide_True by done. apply elem_of_app. right. by left.
  - apply lookup_insert_eq.
  - intros j y Hj. rewrite !lookup_insert_ne by done. apply Hst.
  - unfold in_step, intake. cbn. rewrite Es, Hi. by right; right.
Qed.
(** The start of a slave when nothing comes between. *)
Definition join (uuid : string) : list Label := [Connect i c Topic; Greet i 0; FetchSnapshot c uuid; HandleInitial c].

(** ** It catches up *)

(** The server goes through the channel of the subscription, whose stream is
    intact. *)
Definition serves (y : Session) : Prop :=
  match ss_phase y with Serving | Sending _ => True | _ => False end /\ ss_alive y = true /\
  Forall (fun m => msg_terminal m = false) (ss_chan y).
(** The subscriptions a snapshot is still to be given to. *)
Definition remaining (s : Net) : list nat := match net_sender s with SenderIdle => [] | SenderPublishing _ rest => rest end.
(** Every subscription to the snapshots is served; they are counted; and the
    counter of the changes does not overflow. *)
Definition all_served (s : Net) : Prop :=
  (forall j, j ∈ subs_in_topic (net_cache s) Topic \/ j ∈ remaining s -> exists y, net_sessions s !! j = Some y /\ serves y) /\
  HasSubscribers s = true /\ (net_changes s + Z.of_nat (net_unannounced s) < 2 ^ 31 - 1)%Z.
(** What is left to do: a message is taken, sent and handled; a change is
    announced, and sent to a channel per subscription. *)
Definition session_work (x : Session) : nat := 3 * length (ss_chan x) + 2 * length (sending x) + length (ss_flight x).
Definition sessions_work (m : gmap nat Session) : nat := sum_list_with (fun p => session_work p.2) (map_to_list m).
Definition round (s : Net) : nat := 4 * length (subs_in_topic (net_cache s) Topic).
Definition sender_work (s : Net) : nat :=
  match net_sender s with SenderIdle => if (net_changes s =? 0)%Z then 0 else 2 + round s | SenderPublishing _ rest => 1 + 4 * length rest end.
Definition initial_work (s : Net) : nat := match net_slaves s !! c with Some sl => length (option_list (slave_initial sl)) | None => 0 end.
Definition work (s : Net) : nat := (3 + round s) * net_unannounced s + sender_work s + sessions_work (net_sessions s) + initial_work s.
(** A step that does some of it. *)
Definition advances (l : Label) (s s' : Net) : Prop :=
  calm l s = true /\ step l s = Some s' /\ work s' < work s /\ all_served s' /\ net_db s' = net_db s.

Lemma sessions_work_insert (m : gmap nat Session) j y y' : m !! j = Some y ->
  sessions_work (<[j := y']> m) + session_work y = sessions_work m + session_work y'.
Proof.
  intros Hj. unfold sessions_work. rewrite <- (insert_delete_eq m j y'). 
  rewrite (sum_list_with_Permutation_proper _ _ _ (map_to_list_insert (delete j m) j y' (lookup_delete_eq _ _))).
  rewrite <- (sum_list_with_Permutation_proper _ _ _ (map_to_list_delete m j y Hj)). cbn. lia.
Qed.
Lemma all_served_session j y y' s : all_served s -> net_sessions s !! j = Some y -> (serves y -> serves y') -> all_served (set_session j y' s).
Proof.
  intros (Hs & Hh & Hb) Ej Hy. split; [|done]. intros k Hk. destruct (Hs k Hk) as (z & Ez & Hz). cbn. destruct (decide (k = j)) as [->|Hkj].
  - rewrite lookup_insert_eq. exists y'. split; [done|]. rewrite Ej in Ez. injection Ez as <-. auto.
  - rewrite lookup_insert_ne by done. by exists z.
Qed.
(** A subscription with something in its channel moves on. *)
Lemma advance_stream j y s : all_served s -> net_sessions s !! j = Some y -> serves y -> sending y <> [] \/ ss_chan y <> [] ->
  exists l s', advances l s s'.
Proof.
  intros Ho Ej (Hp & Ha & Hc) Hne. unfold sending in Hne. destruct (ss_phase y) as [| |m|] eqn:Ep; try done.
  - destruct (ss_chan y) as [|m ch] eqn:Ec; [by destruct Hne|]. apply Forall_cons in Hc as [Hm Hc].
    exists (Take j), (set_session j (y <| ss_chan := ch |> <| ss_phase := Sending m |>) s). split; [done|].
    split; [cbn; unfold take_message; by rewrite Ej, Ep, Ec, Hm|]. split; [|split; [|done]].
    + pose proof (sessions_work_insert (net_sessions s) j y (y <| ss_chan := ch |> <| ss_phase := Sending m |>) Ej) as W.
      unfold session_work, sending in W. rewrite Ep, Ec in W. unfold work, sender_work, round, initial_work. cbn in W |- *. lia.
    + apply (all_served_session j y); [done|done|]. intros _. by split.
  - exists (Send j true), (set_session j (y <| ss_phase := Serving |> <| ss_flight := (ss_flight y ++ [msg_event m])%list |>) s). split; [done|].
    split; [unfold step, send_message; by rewrite Ej, Ep, Ha|]. split; [|split; [|done]].
    + pose proof (sessions_work_insert (net_sessions s) j y (y <| ss_phase := Serving |> <| ss_flight := (ss_flight y ++ [msg_event m])%list |>) Ej) as W.
      unfold session_work, sending in W. rewrite Ep in W. cbn in W. rewrite length_app in W. unfold work, sender_work, round, initial_work. cbn in W |- *. lia.
    + apply (all_served_session j y); [done|done|]. intros _. by split.
Qed.
Lemma advance_session x sl s : following_with true x sl s -> all_served s -> intake sl x <> [] -> exists l s', advances l s s'.
Proof.
  intros [] Ho Hp. destruct (slave_initial sl) as [e|] eqn:Ei.
  - exists (HandleInitial c). eexists. split; [done|]. split; [cbn; unfold handle_initial; by rewrite follow_slave0, Ei|]. split; [|by split].
    unfold work, sender_work, round, initial_work. cbn. rewrite lookup_insert_eq, process_event_initial, follow_slave0, Ei. cbn. lia.
  - unfold intake in Hp. rewrite Ei in Hp. cbn in Hp. destruct (ss_flight x) as [|e fl] eqn:Ef.
    + destruct Ho as (Hs & Ho). destruct (Hs i (or_introl follow_subs0)) as (y & Ey & Hy). rewrite follow_session0 in Ey. injection Ey as <-.
      apply (advance_stream i x); try done. unfold pipeline in Hp. rewrite Ef in Hp. cbn in Hp.
      destruct (sending x); [right|by left]. by destruct (ss_chan x).
    + exists (HandleStream i). eexists. split; [cbn; by rewrite follow_slave0, Ei, orb_true_r|].
      split; [cbn; unfold handle_stream; by rewrite follow_session0, Ef|].
      rewrite follow_topic0, follow_client0. change (String.eqb Topic Topic) with true. cbn iota.
      pose proof (sessions_work_insert (net_sessions s) i x (x <| ss_flight := fl |>) follow_session0) as W.
      assert (session_work x = S (session_work (x <| ss_flight := fl |>))) as Hx by (unfold session_work, sending; cbn; rewrite Ef; cbn; lia).
      assert (sessions_work (<[i := x <| ss_flight := fl |>]> (net_sessions s)) < sessions_work (net_sessions s)) as W' by lia. clear W Hx.
      split; [|split; [|done]].
      * unfold work, sender_work, round, initial_work. cbn in W' |- *. rewrite lookup_alter_eq, follow_slave0. cbn. rewrite process_event_initial. lia.
      * assert (serves x -> serves (x <| ss_flight := fl |>)) as Hsv by done.
        exact (all_served_session i x _ s Ho follow_session0 Hsv).
Qed.
Lemma advance_sender x sl s : following_with true x sl s -> all_served s -> intake sl x = [] -> quiet s \/ exists l s', advances l s s'.
Proof.
  intros [] Ho Hp. pose proof Ho as (Hs & Hh & Hb). apply app_eq_nil in Hp as [Hi Hp].
  destruct (net_sender s) as [|e [|j rest]] eqn:Es; [destruct (Z.eqb_spec (net_changes s) 0) as [E0|E0]; [destruct (net_unannounced s) as [|n] eqn:Eu|]|..].
  - left. split_and!; try done; [intros y; rewrite follow_session0; by intros [= <-]|].
    intros sl'. rewrite follow_slave0. intros [= <-]. by destruct (slave_initial sl).
  - right. exists Announce. eexists. split; [cbn; by rewrite Es|]. split; [cbn; unfold announce; by rewrite Eu|].
    unfold work, sender_work, all_served, round, remaining, initial_work in *. cbn. rewrite Es, E0, Eu, int32_id by lia. change (0 + 1 =? 0)%Z with false. cbn iota.
    split; [lia|]. split; [|done]. split; [|split; [exact Hh|lia]]. intros k Hk. apply Hs. by rewrite Es.
  - destruct (snapshot_event_spec "" (net_db s)) as (e & Ee & _).
    right. exists (Tick ""). eexists. split; [done|]. split.
    { cbn. unfold tick_sender. rewrite Es, Hh, Ee. replace (0 <? net_changes s)%Z with true by lia. done. }
    unfold work, sender_work, all_served, round, remaining, initial_work in *. cbn. rewrite Es. replace (net_changes s =? 0)%Z with false by lia.
    split; [lia|]. split; [|done]. split; [|done]. intros k [Hk|Hk]; apply Hs; by left.
  - right. exists Reset. eexists. split; [done|]. split; [cbn; unfold reset_changes; by rewrite Es|].
    unfold work, sender_work, all_served, round, remaining, initial_work in *. cbn. rewrite Es. cbn.
    split; [lia|]. split; [|done]. split; [|split; [exact Hh|lia]]. intros k [Hk|Hk]; [|by apply elem_of_nil in Hk]. apply Hs. by left.
  - right. assert (j ∈ remaining s) as Hj by (unfold remaining; rewrite Es; left).
    destruct (Hs j (or_intror Hj)) as (y & Ey & Hy). destruct (length (ss_chan y) <? chanBuffer)%nat eqn:El.
    + exists Push. eexists. split; [done|]. split; [cbn; unfold push; by rewrite Es, Ey, El|].
      pose proof (sessions_work_insert (net_sessions s) j y (y <| ss_chan := (ss_chan y ++ [mkMsg false e])%list |>) Ey) as W.
      assert (session_work (y <| ss_chan := (ss_chan y ++ [mkMsg false e])%list |>) = 3 + session_work y) as Hw
        by (unfold session_work, sending; cbn; rewrite length_app; cbn; lia).
      assert (sessions_work (<[j := y <| ss_chan := (ss_chan y ++ [mkMsg false e])%list |>]> (net_sessions s)) = 3 + sessions_work (net_sessions s)) as W' by lia.
      clear W Hw. split; [|split; [|done]].
      * unfold work, sender_work, round, initial_work. cbn in W' |- *. rewrite Es. cbn. lia.
      * apply (all_served_session j y); [|done|].
        -- split; [|done]. intros k Hk. apply Hs. unfold remaining in *. cbn in Hk. rewrite Es. destruct Hk; [by left|right; by right].
        -- intros (? & ? & Hc). split; [done|]. split; [done|]. apply Forall_app. split; [done|by constructor].
    + apply (advance_stream j y); [done..|]. right. intros Hn. by rewrite Hn in El.
Qed.
Lemma catch_up n s : work s <= n -> following true s -> all_served s ->
  exists ls s', calm_run ls s = true /\ run ls s = Some s' /\ length ls <= n /\ quiet s' /\ following true s' /\ net_db s' = net_db s.
Proof.
  revert s. induction n as [|n IH]; intros s Hn F Ho; pose proof F as (x & sl & Fw);
    (assert (quiet s \/ exists l s', advances l s s') as [Hq|(l & s1 & Hc & E & Hw & Ho1 & Hd)];
     [destruct (intake sl x) eqn:Ep; [by eapply advance_sender|right; eapply advance_session; [done|done|by rewrite Ep]]|
      exists [], s; cbn; split_and!; try done; lia|]); [lia|].
  assert (following true s1) as F1.
  { pose proof Ho as (_ & _ & Hb). apply (follow_any_step true l s s1 F Hc); [lia|done]. }
  destruct (IH s1 ltac:(lia) F1 Ho1) as (ls & s' & Hcs & Er & Hl & Hq & F' & Hd').
  exists (l :: ls), s'. cbn. rewrite Hc, E. split_and!; try done; [lia|]. by rewrite Hd'.
Qed.
End follow.

(** C12: A slave subscribes, asks for a snapshot and restores it, while the
    master commits, announces and publishes and other slaves come, go and
    break.  Whenever nothing is on its way to it any more and everything is
    announced, it has the master's database - provided that the run is [calm]:
    its own streams do not break; nothing is committed or announced while the
    sender is between its snapshot and the reset of its counter; nothing that
    comes over the stream is handled between the arrival of the snapshot it
    asked for and the restoring of it; and nothing is deferred for it when the
    subscription starts.  Without each of these it can stay behind:
    [reconnect_behind], [change_lost], [join_overtaken], [deferred_regress]. *)
Theorem slave_follows c i s0 s1 ls s :
  ready c s0 -> step (Connect i c Topic) s0 = Some s1 ->
  calm_run c i ls s1 = true -> existsb (asks c) ls = true ->
  (net_changes s0 + Z.of_nat (length ls) < 2 ^ 31)%Z -> run ls s1 = Some s -> quiet c i s ->
  exists sl, net_slaves s !! c = Some sl /\ holds (slave_db sl) (net_db s).
Proof.
  intros Hr E1 Hc Ha Hb E2 Hq. destruct (connect_following c i s0 s1 Hr E1) as [F Hch].
  apply (follow_quiet c i); [|done]. rewrite <- Ha. apply (follow_run c i false ls s1); [done|done|by rewrite Hch|done].
Qed.

(** C13: Such a slave catches up: at any point of such a calm run after it asked
    for a snapshot, when every subscription to the snapshots is being served on
    an intact stream, the goroutines can finish what is left without a new
    commit - within a number of steps that is known beforehand, whatever fills
    the channels of the others - and then the slave has the master's database.
    A subscription that is not served any more can stop them all:
    [publisher_deadlock]. *)
Theorem slave_catches_up c i s0 s1 ls s :
  ready c s0 -> step (Connect i c Topic) s0 = Some s1 ->
  calm_run c i ls s1 = true -> existsb (asks c) ls = true ->
  (net_changes s0 + Z.of_nat (length ls) < 2 ^ 31)%Z -> run ls s1 = Some s -> all_served s ->
  exists ls' s' sl, calm_run c i ls' s = true /\ run ls' s = Some s' /\ length ls' <= work c s /\ quiet c i s' /\ net_db s' = net_db s /\
    net_slaves s' !! c = Some sl /\ holds (slave_db sl) (net_db s).
Proof.
  intros Hr E1 Hc Ha Hb E2 Ho. destruct (connect_following c i s0 s1 Hr E1) as [F Hch].
  assert (following c i true s) as F' by (rewrite <- Ha; apply (follow_run c i false ls s1); [done|done|by rewrite Hch|done]).
  destruct (catch_up c i (work c s) s (le_n _) F' Ho) as (ls' & s' & Hc' & Er & Hl & Hq & F'' & Hd).
  destruct (follow_quiet c i s' F'' Hq) as (sl & Hsl & Hh). exists ls', s', sl. rewrite Hd in Hh. done.
Qed.
End spec.

(** * A publisher that waits for a subscription that leaves *)

Section deadlock.
Context `{M : MemDb}.
#[local] Arguments set_field {R T} f {_} _ _ /.
(** The sender has the lock of the topic and waits for the channel of [j]; the
    goroutine of [j] returned from its loop and waits for the lock. *)
Definition stuck (e : Event) (j : nat) (rest : list nat) (s : Net) : Prop :=
  net_sender s = SenderPublishing e (j :: rest) /\
  exists x, net_sessions s !! j = Some x /\ ss_phase x = Leaving /\ ss_topic x = Topic /\ (chanBuffer <= length (ss_chan x))%nat.
Definition full_and_leaving (x y : Session) : Prop :=
  ss_phase y = ss_phase x /\ ss_topic y = ss_topic x /\ ss_chan y = ss_chan x.

Lemma stuck_keep e j rest s s' : stuck e j rest s -> net_sender s' = net_sender s ->
  (forall x, net_sessions s !! j = Some x -> ss_phase x = Leaving -> exists y, net_sessions s' !! j = Some y /\ full_and_leaving x y) ->
  stuck e j rest s'.
Proof.
  intros (Hs & x & Hx & Hp & Ht & Hl) Es Hk. split; [by rewrite Es|]. destruct (Hk x Hx Hp) as (y & Hy & E1 & E2 & E3).
  exists y. by rewrite E1, E2, E3.
Qed.
Lemma stuck_other e j rest s i x y s' : stuck e j rest s -> net_sender s' = net_sender s ->
  net_sessions s !! i = Some x -> ss_phase x <> Leaving -> net_sessions s' = <[i := y]> (net_sessions s) -> stuck e j rest s'.
Proof.
  intros Hst Es Hi Hp En. eapply stuck_keep; [exact Hst|exact Es|]. intros z Hz Hz'. exists z. split; [|done].
  rewrite En, lookup_insert_ne; [done|]. intros ->. congruence.
Qed.
Lemma stuck_same e j rest s s' : stuck e j rest s -> net_sender s' = net_sender s -> net_sessions s' = net_sessions s -> stuck e j rest s'.
Proof. intros Hst Es En. eapply stuck_keep; [exact Hst|exact Es|]. intros x Hx _. exists x. by rewrite En. Qed.
Lemma stuck_step e j rest l s s' : stuck e j rest s -> step l s = Some s' -> stuck e j rest s'.
Proof.
  intros Hst E. pose proof Hst as (Hs & x & Hx & Hp & Ht & Hl). destruct l as [| | | | |i client topic|i n|i|i b|i|client|i|client uuid|client| |]; cbn in E.
  - injection E as <-. by eapply stuck_same.
  - unfold announce in E. destruct (net_unannounced s); [done|]. injection E as <-. by eapply stuck_same.
  - unfold tick_sender in E. by rewrite Hs in E.
  - unfold push in E. rewrite Hs, Hx in E. destruct (Nat.ltb_spec (length (ss_chan x)) chanBuffer); [lia|done].
  - unfold reset_changes in E. by rewrite Hs in E.
  - unfold connect in E. destruct (net_sessions s !! i) eqn:Ei; [done|]. destruct (_ || _); [done|]. injection E as <-.
    eapply stuck_keep; [exact Hst|done|]. intros y Hy _. exists y. cbn. split; [|done]. rewrite lookup_insert_ne; [done|]. intros ->. congruence.
  - unfold greet in E. destruct (net_sessions s !! i) as [y|] eqn:Ei; [|done]. destruct (ss_phase y) eqn:Ey; try done.
    destruct (String.eqb _ _); [injection E as <-; by eapply stuck_other; [| |exact Ei|rewrite Ey|]|].
    destruct (PopMessages _ _ _) as [[ms d]|?|?]; [|done..]. destruct (_ && _); [done|].
    destruct (PushMessagesForClient _ _ _ _); [|done..]. injection E as <-. by eapply stuck_other; [| |exact Ei|rewrite Ey|].
  - unfold take_message in E. destruct (net_sessions s !! i) as [y|] eqn:Ei; [|done]. destruct (ss_phase y) eqn:Ey, (ss_chan y); try done.
    injection E as <-. by eapply stuck_other; [| |exact Ei|rewrite Ey|].
  - unfold send_message in E. destruct (net_sessions s !! i) as [y|] eqn:Ei; [|done]. destruct (ss_phase y) eqn:Ey; try done.
    destruct (ss_alive y); [|destruct b]; injection E as <-; by eapply stuck_other; [| |exact Ei|rewrite Ey|].
  - unfold leave in E. destruct (net_sessions s !! i) as [y|] eqn:Ei; [|done]. destruct (ss_phase y) eqn:Ey; try done.
    destruct (topic_locked s (ss_topic y)) eqn:El; [done|]. injection E as <-.
    eapply stuck_keep; [exact Hst|done|]. intros z Hz _. exists z. cbn. split; [|done]. rewrite lookup_delete_ne; [done|]. intros ->.
    unfold topic_locked in El. rewrite Hs in El. assert (y = x) as -> by congruence. by rewrite Ht in El.
  - injection E as <-. eapply stuck_keep; [exact Hst|done|]. intros y Hy _. exists (break_session client y). cbn.
    rewrite lookup_fmap, Hy. split; [done|]. unfold break_session. by destruct (String.eqb _ _).
  - unfold handle_stream in E. destruct (net_sessions s !! i) as [y|] eqn:Ei; [|done]. destruct (ss_flight y) as [|ev fl]; [done|].
    injection E as <-. eapply stuck_keep; [exact Hst|by destruct (String.eqb _ _)|]. intros z Hz _. cbn. destruct (decide (i = j)) as [->|Hne].
    + exists (y <| ss_flight := fl |>). assert (z = y) as -> by congruence. destruct (String.eqb _ _); cbn; by rewrite lookup_insert_eq.
    + exists z. split; [|done]. destruct (String.eqb _ _); cbn; by rewrite lookup_insert_ne.
  - unfold fetch_snapshot in E. destruct (snapshot_event _ _); [|done]. injection E as <-. by eapply stuck_same.
  - unfold handle_initial in E. destruct (net_slaves s !! client) as [y|]; [|done]. destruct (slave_initial y); [|done].
    injection E as <-. by eapply stuck_same.
  - injection E as <-. by eapply stuck_same.
  - injection E as <-. by eapply stuck_same.
Qed.
Lemma stuck_run e j rest ls s s' : stuck e j rest s -> run ls s = Some s' -> stuck e j rest s'.
Proof.
  revert s. induction ls as [|l ls IH]; intros s Hs E; cbn in E; [by injection E as <-|].
  destruct (step l s) as [s1|] eqn:E1; [|done]. apply (IH s1); [|done]. by eapply stuck_step.
Qed.
End deadlock.

(** C16: Once the sender waits for the full channel of a subscription whose
    goroutine has left its loop, nothing frees it: whatever the steps, it goes
    on waiting for the same subscription, the subscription stays registered,
    nobody subscribes to the topic again, and no change reaches a slave by a
    new snapshot. *)
Theorem publisher_deadlock `{M : MemDb} e j rest ls s s' client k :
  stuck e j rest s -> run ls s = Some s' ->
  net_sender s' = SenderPublishing e (j :: rest) /\ is_Some (net_sessions s' !! j) /\
  (forall uuid, step (Tick uuid) s' = None) /\ step Push s' = None /\ step Reset s' = None /\ step (Leave j) s' = None /\
  step (Connect k client Topic) s' = None.
Proof.
  intros Hst E. pose proof (stuck_run _ _ _ _ _ _ Hst E) as (Hs & x & Hx & Hp & Ht & Hl). unfold step, tick_sender, push, reset_changes, leave, connect.
  assert (topic_locked s' Topic = true) as Hk by (unfold topic_locked; by rewrite Hs).
  rewrite Hs, Hx, Hp, Ht, Hk. split_and!; try done.
  - destruct (Nat.ltb_spec (length (ss_chan x)) chanBuffer); [lia|done].
  - by destruct (net_sessions s' !! k).
Qed.

(** * Runs *)

Section witnesses.
Import MemDbModel.
#[local] Existing Instance MapMemDb.
#[local] Existing Instance MapMemDbLaws.

Definition saved (name : string) (db : Db) : Db := (Save NodeGroupTable ((zero : NodeGroup) <| NodeGroup_Name := name |>) db).2.
Definition names_of (db : Db) : list string := match (FindAll NodeGroupTable db).1 with Ok l => NodeGroup_Name <$> l | _ => [] end.
(** A master with a node group, and an empty slave. *)
Definition test_net : Net :=
  mkNet (saved "gw-a" db_empty) 0 0 SenderIdle NewSubscribersCache ∅ ∅ {["dc-2" := mkSlaveNode db_empty None]}.
Definition slave_names (client : string) (s : Net) : list string :=
  match net_slaves s !! client with Some x => names_of (slave_db x) | None => [] end.
(** What the slave and the master have after the run. *)
Definition outcome (client : string) (ls : list Label) (s : Net) : option (list string * list string) :=
  match run ls s with Some s => Some (slave_names client s, names_of (net_db s)) | None => None end.
Definition deliver (i : nat) : list Label := [Take i; Send i true; HandleStream i].
Definition joined (i : nat) : list Label := join "dc-2" i "u1".
Definition commit_b : list Label := [Commit (saved "gw-b" (saved "gw-a" db_empty)); Announce].

(** [quiet] and [all_served], as tests. *)
Definition settled (client : string) (i : nat) (s : Net) : bool :=
  match net_sender s with SenderIdle => true | _ => false end && (net_unannounced s =? 0)%nat && (net_changes s =? 0)%Z &&
  match net_sessions s !! i with Some x => match pipeline x with [] => true | _ => false end | None => true end &&
  match net_slaves s !! client with Some sl => match slave_initial sl with None => true | Some _ => false end | None => true end.
Lemma settled_quiet client i s : settled client i s = true -> quiet client i s.
Proof.
  unfold settled, quiet. intros [[[[Hs Hu%Nat.eqb_eq]%andb_prop Hc%Z.eqb_eq]%andb_prop Hx]%andb_prop Hi]%andb_prop.
  split_and!; [by destruct (net_sender s)|done..| |].
  - intros x E. rewrite E in Hx. by destruct (pipeline x).
  - intros sl E. rewrite E in Hi. by destruct (slave_initial sl).
Qed.
Definition settles (client : string) (i : nat) (ls : list Label) (s : Net) : bool :=
  match run ls s with Some s => settled client i s | None => false end.
Definition servesb (y : Session) : bool :=
  match ss_phase y with Serving | Sending _ => true | _ => false end && ss_alive y && forallb (fun m => negb (msg_terminal m)) (ss_chan y).
Lemma servesb_serves y : servesb y = true -> serves y.
Proof.
  unfold servesb, serves. intros [[Hp Ha]%andb_prop Hc]%andb_prop. split_and!; [by destruct (ss_phase y)|done|].
  apply Forall_forall. intros m Hm. rewrite forallb_forall in Hc. apply list_elem_of_In, Hc in Hm. by apply negb_true_iff.
Qed.
Definition all_servedb (s : Net) : bool :=
  forallb (fun j => match net_sessions s !! j with Some y => servesb y | None => false end) (subs_in_topic (net_cache s) Topic ++ remaining s)%list &&
  HasSubscribers s && (net_changes s + Z.of_nat (net_unannounced s) <? 2 ^ 31 - 1)%Z.
Lemma all_servedb_spec s : all_servedb s = true -> all_served s.
Proof.
  unfold all_servedb, all_served. intros [[Hs Hh]%andb_prop Hb%Z.ltb_lt]%andb_prop. split; [|done]. intros j Hj.
  rewrite forallb_forall in Hs. apply elem_of_app, list_elem_of_In, Hs in Hj. destruct (net_sessions s !! j) as [y|]; [|done].
  exists y. split; [done|by apply servesb_serves].
Qed.
Definition commit_c : list Label := [Commit (saved "gw-c" (saved "gw-b" (saved "gw-a" db_empty))); Announce].
(** Another slave subscribes, and a change is published, while the slave waits
    for its snapshot; it restores the snapshot before what the stream brought. *)
Definition follow_labels : list Label :=
  [Greet 1 0; FetchSnapshot "dc-2" "u1"; Connect 2 "dc-3" Topic] ++ commit_b ++
  [Tick "u2"; Push; Push; Reset; Take 1; Send 1 true; HandleInitial "dc-2"; HandleStream 1].

Example follows_run : outcome "dc-2" (Connect 1 "dc-2" Topic :: follow_labels) test_net = Some (["gw-b"; "gw-a"], ["gw-b"; "gw-a"]).
Proof. by vm_compute. Qed.

(** The same in the other order: the snapshot that was asked for is older than
    the one of the stream, and restored after it; nothing corrects it. *)
Definition overtaken_labels : list Label :=
  [Connect 1 "dc-2" Topic; Greet 1 0; FetchSnapshot "dc-2" "u1"] ++ commit_b ++
  [Tick "u2"; Push; Reset; Take 1; Send 1 true; HandleStream 1; HandleInitial "dc-2"].
Example join_overtaken : outcome "dc-2" overtaken_labels test_net = Some (["gw-a"], ["gw-b"; "gw-a"]) /\
  settles "dc-2" 1 overtaken_labels test_net = true.
Proof. by vm_compute. Qed.

(** A change that is announced while a snapshot is sent is forgotten with the
    reset of the counter: all is quiet, and the slave is behind. *)
Definition lost_labels : list Label := joined 1 ++ commit_b ++ [Tick "u2"] ++ commit_c ++ [Push; Reset] ++ deliver 1.
Example change_lost : outcome "dc-2" lost_labels test_net = Some (["gw-b"; "gw-a"], ["gw-c"; "gw-b"; "gw-a"]) /\
  settles "dc-2" 1 lost_labels test_net = true.
Proof. by vm_compute. Qed.

(** The message that a broken stream could not take is kept, and delivered after
    the newer snapshot that the slave asked for when it joined again: the slave
    goes back.  Another slave took the change in between. *)
Definition regress_labels : list Label :=
  joined 1 ++ [Connect 3 "dc-3" Topic; Greet 3 0] ++ commit_b ++ [Tick "u2"; Push; Push; Reset; Take 1; Break "dc-2"; Send 1 false; Leave 1] ++
  commit_c ++ [Tick "u3"; Push; Reset; Connect 2 "dc-2" Topic; Greet 2 1; FetchSnapshot "dc-2" "u4"; HandleInitial "dc-2"].
Example deferred_regress :
  outcome "dc-2" regress_labels test_net = Some (["gw-c"; "gw-b"; "gw-a"], ["gw-c"; "gw-b"; "gw-a"]) /\
  outcome "dc-2" (regress_labels ++ [HandleStream 2]) test_net = Some (["gw-b"; "gw-a"], ["gw-c"; "gw-b"; "gw-a"]) /\
  settles "dc-2" 2 (regress_labels ++ [HandleStream 2]) test_net = true.
Proof. by vm_compute. Qed.

(** What is sent before the server learns that the stream broke is lost, and
    the next attempt of the subscriber does not ask for a snapshot. *)
Definition reconnect_labels : list Label :=
  joined 1 ++ [Break "dc-2"] ++ commit_b ++ [Tick "u2"; Push; Reset; Take 1; Send 1 true; Connect 2 "dc-2" Topic; Greet 2 0].
Example reconnect_behind : outcome "dc-2" reconnect_labels test_net = Some (["gw-a"], ["gw-b"; "gw-a"]) /\
  settles "dc-2" 2 reconnect_labels test_net = true.
Proof. by vm_compute. Qed.

(** A subscription to any topic lets the sender take the change: with none to
    the snapshots, it is forgotten without being sent. *)
Definition swallowed_labels : list Label :=
  [Connect 1 "dc-2" "other"; Greet 1 0] ++ commit_b ++ [Tick "u2"; Reset].
Example change_swallowed : match run swallowed_labels test_net with Some s => (net_changes s, subs_in_topic (net_cache s) Topic) | None => (1%Z, []) end = (0%Z, []).
Proof. by vm_compute. Qed.

Lemma slave_holds_past_witness : exists s x,
  run lost_labels test_net = Some s /\ net_slaves s !! "dc-2" = Some x /\
  ((exists x0, net_slaves test_net !! "dc-2" = Some x0 /\ slave_db x = slave_db x0) \/
   (exists db, db ∈ net_db test_net :: commits lost_labels /\ holds (slave_db x) db)).
Proof.
  assert (match run lost_labels test_net with Some s => bool_decide (is_Some (net_slaves s !! "dc-2")) | None => false end = true) as H by (vm_compute; reflexivity).
  destruct (run lost_labels test_net) as [s|] eqn:E; [|discriminate H]. apply bool_decide_eq_true in H as [x Hx].
  exists s, x. split; [reflexivity|]. split; [exact Hx|]. apply (slave_holds_past test_net lost_labels s "dc-2" x); [|exact E|exact Hx].
  split; [reflexivity|]. split; [reflexivity|]. split; [reflexivity|].
  intros client y Hy. apply (lookup_singleton_Some "dc-2" client (mkSlaveNode db_empty None) y) in Hy as [_ <-]. reflexivity.
Defined.
Lemma test_net_ready : ready "dc-2" test_net.
Proof.
  split; [apply NewSubscribersCache_wf|]. split; [done|]. split; [by exists (mkSlaveNode db_empty None)|]. intros j y Hy. done.
Qed.
Lemma slave_follows_witness : exists s sl,
  run (Connect 1 "dc-2" Topic :: follow_labels) test_net = Some s /\ net_slaves s !! "dc-2" = Some sl /\ holds (slave_db sl) (net_db s).
Proof.
  assert (match step (Connect 1 "dc-2" Topic) test_net with
          | Some s1 => calm_run "dc-2" 1 follow_labels s1 && match run follow_labels s1 with Some s => settled "dc-2" 1 s | None => false end
          | None => false end = true) as H by (vm_compute; reflexivity).
  destruct (step (Connect 1 "dc-2" Topic) test_net) as [s1|] eqn:E1; [|discriminate H].
  apply andb_prop in H as [Hc H]. destruct (run follow_labels s1) as [s|] eqn:E2; [|discriminate H].
  destruct (slave_follows "dc-2" 1 test_net s1 follow_labels s test_net_ready E1 Hc eq_refl eq_refl E2 (settled_quiet "dc-2" 1 s H)) as (sl & Hsl & Hh).
  exists s, sl. split; [cbn [run]; rewrite E1; exact E2|]. split; [exact Hsl|exact Hh].
Defined.

(** Two slaves are served when a change comes. *)
Definition behind_labels : list Label := [Greet 1 0; FetchSnapshot "dc-2" "u1"; Connect 2 "dc-3" Topic; Greet 2 0] ++ commit_b.
Lemma slave_catches_up_witness : exists s ls' s' sl,
  run (Connect 1 "dc-2" Topic :: behind_labels) test_net = Some s /\
  run ls' s = Some s' /\ length ls' <= 11 /\ net_slaves s' !! "dc-2" = Some sl /\ holds (slave_db sl) (net_db s).
Proof.
  assert (match step (Connect 1 "dc-2" Topic) test_net with
          | Some s1 => calm_run "dc-2" 1 behind_labels s1 && match run behind_labels s1 with Some s => all_servedb s && (work "dc-2" s <=? 11)%nat | None => false end
          | None => false end = true) as H by (vm_compute; reflexivity).
  destruct (step (Connect 1 "dc-2" Topic) test_net) as [s1|] eqn:E1; [|discriminate H].
  apply andb_prop in H as [Hc H]. destruct (run behind_labels s1) as [s|] eqn:E2; [|discriminate H].
  apply andb_prop in H as [Ho Hw]. apply all_servedb_spec in Ho. apply Nat.leb_le in Hw.
  destruct (slave_catches_up "dc-2" 1 test_net s1 behind_labels s test_net_ready E1 Hc eq_refl eq_refl E2 Ho) as (ls' & s' & sl & _ & Er & Hl & _ & _ & Hsl & Hh).
  exists s, ls', s', sl. split; [cbn [run]; rewrite E1; exact E2|]. split; [exact Er|]. split; [exact (Nat.le_trans _ _ _ Hl Hw)|]. split; [exact Hsl|exact Hh].
Defined.

(** Eleven changes while the slave's stream is broken: one message is being
    sent, ten fill the channel, and one is on its way when the send fails. *)
Definition change_round (k : nat) : list Label := commit_b ++ [Tick "u2"; Push; Reset].
Definition deadlock_labels : list Label :=
  joined 1 ++ change_round 0 ++ [Take 1; Break "dc-2"] ++ concat (change_round <$> seq 1 10) ++ commit_c ++ [Tick "u3"; Send 1 false].
Lemma publisher_deadlock_witness : exists s e,
  run deadlock_labels test_net = Some s /\ step (Leave 1) s = None /\ step Push s = None /\ (exists s', run commit_b s = Some s' /\ net_sender s' = SenderPublishing e [1]).
Proof.
  assert (match run deadlock_labels test_net with
          | Some s => match net_sender s, net_sessions s !! 1, run commit_b s with
                      | SenderPublishing _ [1], Some x, Some _ =>
                          match ss_phase x with Leaving => true | _ => false end && String.eqb (ss_topic x) Topic && (chanBuffer <=? length (ss_chan x))%nat
                      | _, _, _ => false end
          | None => false end = true) as H by (vm_compute; reflexivity).
  destruct (run deadlock_labels test_net) as [s|] eqn:E; [|discriminate H].
  destruct (net_sender s) as [|e [|[|[|]] []]] eqn:Es; try discriminate H. destruct (net_sessions s !! 1) as [x|] eqn:Ex; [|discriminate H].
  destruct (run commit_b s) as [s'|] eqn:E'; [|discriminate H].
  apply andb_prop in H as [[Hp Ht]%andb_prop Hl]. apply String.eqb_eq in Ht. apply Nat.leb_le in Hl.
  assert (stuck e 1 [] s) as Hst. { split; [exact Es|]. exists x. split; [exact Ex|].
    split; [destruct (ss_phase x); [discriminate Hp..|reflexivity]|]. split; [exact Ht|exact Hl]. }
  destruct (publisher_deadlock e 1 [] [] s s "dc-2" 2 Hst eq_refl) as (_ & _ & _ & H1 & _ & H2 & _).
  destruct (publisher_deadlock e 1 [] commit_b s s' "dc-2" 2 Hst E') as (H3 & _).
  exists s, e. split; [reflexivity|]. split; [exact H2|]. split; [exact H1|]. exists s'. split; [exact E'|exact H3].
Defined.
End witnesses.

(** * Roles *)

Section roles.
Variable net_Listen : string -> nat -> result unit.
Variable tryGetSnapshot : nat -> result unit.
#[local] Arguments set_field {R T} f {_} _ _ /.
(** A node sends or receives, never both, and what it starts is what it uses. *)
Definition one_way (c : NodeComm) : Prop :=
  publisher_active c = negb (sender_stopped c) /\ (is_Some (subscriber_active c) <-> receiver_stopped c = false) /\
  (sender_stopped c = true \/ receiver_stopped c = true).

Lemma snapshot_attempts_spec n c : exists k,
  (snapshot_attempts tryGetSnapshot n c).2 = c <| comm_tick := k |> /\
  match (snapshot_attempts tryGetSnapshot n c).1 with
  | Ok _ => exists j, j < n /\ tryGetSnapshot (comm_tick c + j) = Ok tt
  | Err _ => forall j, j < n -> exists e, tryGetSnapshot (comm_tick c + j) = Err e
  | Panic _ => True
  end.
Proof.
  revert c. induction n as [|n IH]; intros c; cbn; unfold fail, bind, try_ok, comm, ret.
  - exists (comm_tick c). split; [by destruct c|]. intros j Hj. lia.
  - destruct (tryGetSnapshot (comm_tick c)) as [[]|e|why] eqn:E; cbn.
    + exists (S (comm_tick c)). split; [done|]. exists 0. rewrite Nat.add_0_r. split; [lia|done].
    + destruct (IH (c <| comm_tick := S (comm_tick c) |>)) as (k & E2 & Hr). cbn in E2, Hr. exists k. split; [exact E2|].
      destruct (snapshot_attempts tryGetSnapshot n _).1 as [?|?|?]; [|intros [|j] Hj; [rewrite Nat.add_0_r; by exists e|]|done].
      * destruct Hr as (j & Hj & Ej). exists (S j). rewrite Nat.add_succ_r. split; [lia|done].
      * rewrite Nat.add_succ_r. apply Hr. lia.
    + exists (S (comm_tick c)). done.
Qed.

(** What a node does after [SetUpNodesCommunication]. *)
Definition set_up_to (info : NodeInfo) (role : Role) (c : NodeComm) (r : result unit) (c' : NodeComm) : Prop :=
  match role, r with
  | Slave, Ok _ => sender_stopped c' = true /\ receiver_stopped c' = false /\ subscriber_active c' = Some (BusAddress info)
  | Master, Ok _ => sender_stopped c' = false /\ receiver_stopped c' = true /\ publisher_active c' = true
  | Slave, Err _ | Master, Err _ => sender_stopped c' = true /\ receiver_stopped c' = true
  | _, _ => r = Ok tt /\ c' = c
  end.
Lemma start_receiving_spec address c r c' :
  sender_stopped c = true -> publisher_active c = false -> receiver_stopped c = true -> subscriber_active c = None ->
  StartReceiving tryGetSnapshot address c = (r, c') ->
  match r with
  | Ok _ => exists k, c' = c <| receiver_stopped := false |> <| subscriber_active := Some address |> <| comm_tick := k |>
  | Err _ => exists k, c' = c <| comm_tick := k |> /\ forall j, j < AttemptAmountGetSnapshot -> exists e, tryGetSnapshot (comm_tick c + j) = Err e
  | Panic _ => True
  end.
Proof.
  intros Hs Hp Hr Ha. destruct c as [ss rs pa sa tick]. cbn in Hs, Hp, Hr, Ha. subst.
  unfold StartReceiving, Subscriber_Activate, GetSnapshot, bind, get_comm, modify_comm, catch. cbn -[snapshot_attempts].
  destruct (snapshot_attempts_spec AttemptAmountGetSnapshot (mkNodeComm true true false (Some address) tick)) as (k & E & Hout).
  destruct (snapshot_attempts _ _ _) as [res c1]. cbn in E, Hout. subst c1. destruct res as [[]|e|why]; intros [= <- <-]; try done; by exists k.
Qed.
Lemma start_sending_spec info c r c' : publisher_active c = false -> StartSending net_Listen info c = (r, c') ->
  match r with
  | Ok _ => exists k, c' = c <| sender_stopped := false |> <| publisher_active := true |> <| comm_tick := k |>
  | Err _ | Panic _ => exists k, c' = c <| comm_tick := k |>
  end.
Proof.
  intros Hp. destruct c as [ss rs pa sa tick]. cbn in Hp. subst. unfold StartSending, Publisher_Activate, comm, bind, get_comm, modify_comm. cbn.
  destruct (net_Listen _ _) as [[]|e|why]; intros [= <- <-]; by eexists.
Qed.
End roles.

(** The role decides the direction: a slave only receives, from the address
    of the master it was given; a master only sends; when the start fails the
    node does neither, and the next attempt starts from there.  A slave that
    fails was refused a snapshot ten times in a row. *)
Theorem roles_exclusive net_Listen tryGetSnapshot info role c r c' :
  one_way c -> SetUpNodesCommunication net_Listen tryGetSnapshot info role c = (r, c') -> (forall why, r <> Panic why) ->
  one_way c' /\ set_up_to info role c r c' /\
  (role = Slave -> forall e, r = Err e -> forall j, j < AttemptAmountGetSnapshot -> exists e', tryGetSnapshot (comm_tick c + j) = Err e').
Proof.
  intros (Hp & Ha & Hx) E Hr. destruct c as [ss rs pa sa tick]. cbn in Hp, Ha, Hx. subst pa.
  assert (rs = true -> sa = None) as Hn by (intros ->; destruct sa; [destruct Ha as [Ha _]; by discriminate Ha|done]).
  destruct role; try (injection E as <- <-; split; [done|split; [done|by intros]]).
  - set (idle := mkNodeComm true true false None tick).
    assert (SetUpNodesCommunication net_Listen tryGetSnapshot info Slave (mkNodeComm ss rs (negb ss) sa tick)
            = wrap_err "Can't start receiver. Nodes communication is broken" (StartReceiving tryGetSnapshot (BusAddress info)) idle) as Hs.
    { destruct ss, rs; try rewrite (Hn eq_refl); done. }
    rewrite Hs in E. unfold wrap_err in E. destruct (StartReceiving _ _ idle) as [r1 c1] eqn:E1.
    pose proof (start_receiving_spec tryGetSnapshot _ idle r1 c1 eq_refl eq_refl eq_refl eq_refl E1) as Hout. destruct r1 as [[]|e|why]; injection E as <- <-.
    + destruct Hout as [k ->]. split; [|done]. unfold one_way. cbn. split_and!; [done..|by left].
    + destruct Hout as (k & -> & Hall). split; [|split; [done|by intros _ ? _]]. unfold one_way. cbn. split_and!; [done| |by left]. split; [by intros []|done].
    + by destruct (Hr why).
  - set (sends := mkNodeComm ss true (negb ss) None tick).
    assert (SetUpNodesCommunication net_Listen tryGetSnapshot info Master (mkNodeComm ss rs (negb ss) sa tick)
            = when sender_stopped (wrap_err "Can't start sender. Nodes communication is broken" (StartSending net_Listen info)) sends) as Hs.
    { destruct rs; try rewrite (Hn eq_refl); done. }
    rewrite Hs in E. unfold when, bind, get_comm, wrap_err in E. cbn in E.
    assert (forall k, one_way (mkNodeComm false true true None k) /\ one_way (mkNodeComm true true false None k)) as Hw.
    { intros k. unfold one_way. cbn. split; (split_and!; [done| |by auto]); (split; [by intros []|done]). }
    destruct ss; [|injection E as <- <-; split; [apply Hw|by split]].
    destruct (StartSending net_Listen info sends) as [r1 c1] eqn:E1. pose proof (start_sending_spec net_Listen info sends r1 c1 eq_refl E1) as Hout.
    destruct r1 as [[]|e|why]; injection E as <- <-; [destruct Hout as [k ->]; split; [apply Hw|by split]..|by destruct (Hr why)].
Qed.

Lemma roles_exclusive_witness : exists c',
  SetUpNodesCommunication (fun _ _ => Ok tt) (fun n => if (n <? 3)%nat then Err (ErrMsg "not ready") else Ok tt) zero Slave NewConfigurator = (Ok tt, c') /\
  one_way c' /\ receiver_stopped c' = false.
Proof.
  eexists. split; [reflexivity|].
  refine (match roles_exclusive (fun _ _ => Ok tt) (fun n => if (n <? 3)%nat then Err (ErrMsg "not ready") else Ok tt) zero Slave NewConfigurator (Ok tt) _ _ eq_refl _ with
          | conj H1 (conj (conj _ (conj H2 _)) _) => conj H1 H2 end).
  - split; [reflexivity|]. split; [|by left]. split; [by intros []|intros H; discriminate H].
  - intros why H. discriminate H.
Defined.
