(* ===== verification/Migrations.v ===== *)
(** [constancy/migration], [constancy/fix]: the migrations that are written in
    Go.  Each rewrites rows of the persistent storage inside one transaction.

    The database is the rows of its tables, in an order that a SELECT without
    ORDER BY need not keep ([row_order], by the number of the statement); every
    statement may fail ([mig_faults]).  NULL is kept where a statement asks for
    it; a string column that is NULL is read as the empty string.  The header
    matchers of a route come in the order of their table.  Errors are not
    wrapped here as the code wraps them.  Not modelled: statements that change
    the schema, and so the migrations 4, 10, 12 and 25 that depend on them; the
    sequence that migration 17 moves on, its lock; the fix of migration 24. *)
From S2P Require Import Prelude GoLib Domain RouteKey Msaddr.
From Stdlib Require Import Ascii.
Import Prelude.
Open Scope string_scope.

(** * Strings *)

(** [strings.Count] of a string that is not empty *)
Fixpoint count_from (skip : nat) (s sub : string) : nat :=
  match s with
  | "" => O
  | String _ s' =>
      match skip with
      | S k => count_from k s' sub
      | O => if String.prefix sub s then S (count_from (String.length sub - 1) s' sub) else count_from O s' sub
      end
  end.
Definition strings_Count (s sub : string) : nat := count_from O s sub.
(** [strings.Replace(s, old, new, 1)] *)
Definition strings_Replace1 (s old new : string) : string :=
  match strings_Index s old with
  | Some n => str_take n s ++ new ++ str_drop (n + String.length old) s
  | None => s
  end.
Definition strings_TrimSuffix (s suffix : string) : string :=
  if strings_HasSuffix s suffix then str_take (String.length s - String.length suffix) s else s.
(** [for strings.HasSuffix(s, "/") { s = s[:len(s)-1] }] *)
Fixpoint trim_slashes_left (s : string) : string :=
  match s with String c s' => if Ascii.eqb c "/" then trim_slashes_left s' else s | "" => "" end.
Definition trim_slashes (s : string) : string := str_rev (trim_slashes_left (str_rev s)).
(** [string(rune)]: UTF-8; what is no character becomes U+FFFD. *)
Definition byte_string (n : Z) : string := String (ascii_of_N (Z.to_N n)) "".
Definition rune_string (r : Z) : string :=
  let r := if (r <? 0)%Z || (1114111 <? r)%Z || ((55296 <=? r) && (r <=? 57343))%Z then 65533%Z else r in
  if (r <? 128)%Z then byte_string r
  else if (r <? 2048)%Z then byte_string (192 + r / 64) ++ byte_string (128 + r mod 64)
  else if (r <? 65536)%Z then byte_string (224 + r / 4096) ++ byte_string (128 + (r / 64) mod 64) ++ byte_string (128 + r mod 64)
  else byte_string (240 + r / 262144) ++ byte_string (128 + (r / 4096) mod 64) ++ byte_string (128 + (r / 64) mod 64) ++ byte_string (128 + r mod 64).

(** * Rows *)

Record V16RangeMatch := mkV16RangeMatch { V16RangeMatch_Start : NullInt; V16RangeMatch_End : NullInt }.
Record V16HeaderMatcher := mkV16HeaderMatcher {
  V16HeaderMatcher_Id : Z;
  V16HeaderMatcher_Name : string;
  V16HeaderMatcher_Version : Z;
  V16HeaderMatcher_ExactMatch : string;
  V16HeaderMatcher_SafeRegexMatch : string;
  V16HeaderMatcher_RangeMatch : option V16RangeMatch;
  V16HeaderMatcher_PresentMatch : option bool;
  V16HeaderMatcher_PrefixMatch : string;
  V16HeaderMatcher_SuffixMatch : string;
  V16HeaderMatcher_InvertMatch : bool;
  V16HeaderMatcher_RouteId : Z
}.
Record V16Route := mkV16Route {
  V16Route_Id : Z;
  V16Route_Uuid : string;
  V16Route_VirtualHostId : Z;
  V16Route_RouteKey : string;
  V16Route_DirectResponseCode : Z;
  V16Route_Prefix : string;
  V16Route_Regexp : string;
  V16Route_Path : string;
  V16Route_ClusterName : string;
  V16Route_HostRewrite : string;
  V16Route_HostAutoRewrite : option bool;
  V16Route_PrefixRewrite : string;
  V16Route_RegexpRewrite : string;
  V16Route_PathRewrite : string;
  V16Route_Version : Z;
  V16Route_DeploymentVersion : string;
  V16Route_InitialDeploymentVersion : string;
  V16Route_Autogenerated : bool;
  V16Route_HeaderMatchers : list V16HeaderMatcher
}.
#[export] Instance V16Route_eta : Eta V16Route := fun r =>
  mkV16Route (V16Route_Id r) (V16Route_Uuid r) (V16Route_VirtualHostId r) (V16Route_RouteKey r) (V16Route_DirectResponseCode r)
    (V16Route_Prefix r) (V16Route_Regexp r) (V16Route_Path r) (V16Route_ClusterName r) (V16Route_HostRewrite r) (V16Route_HostAutoRewrite r)
    (V16Route_PrefixRewrite r) (V16Route_RegexpRewrite r) (V16Route_PathRewrite r) (V16Route_Version r) (V16Route_DeploymentVersion r)
    (V16Route_InitialDeploymentVersion r) (V16Route_Autogenerated r) (V16Route_HeaderMatchers r).
#[export] Instance V16Route_zero : Zero V16Route :=
  mkV16Route 0 "" 0 "" 0 "" "" "" "" "" None "" "" "" 0 "" "" false [].
(** A row of [routes], with the columns that are NULL. *)
Record RouteRow := mkRouteRow { row_route : V16Route; row_regexp_null : bool; row_rewrite_null : bool; row_initial_null : bool }.
#[export] Instance RouteRow_eta : Eta RouteRow := fun r =>
  mkRouteRow (row_route r) (row_regexp_null r) (row_rewrite_null r) (row_initial_null r).

Record V19Endpoint := mkV19Endpoint {
  V19Endpoint_Id : Z;
  V19Endpoint_Address : string;
  V19Endpoint_Port : Z;
  V19Endpoint_ClusterId : Z;
  V19Endpoint_DeploymentVersion : string;
  V19Endpoint_InitialDeploymentVersion : string
}.
#[export] Instance V19Endpoint_eta : Eta V19Endpoint := fun e =>
  mkV19Endpoint (V19Endpoint_Id e) (V19Endpoint_Address e) (V19Endpoint_Port e) (V19Endpoint_ClusterId e)
    (V19Endpoint_DeploymentVersion e) (V19Endpoint_InitialDeploymentVersion e).
Record EndpointRow := mkEndpointRow { row_endpoint : V19Endpoint; row_protocol : option string }.
#[export] Instance EndpointRow_eta : Eta EndpointRow := fun e => mkEndpointRow (row_endpoint e) (row_protocol e).
Record ClusterRow := mkClusterRow { cl_Id : Z; cl_Name : string; cl_TLSId : Z }.
Record V19DeploymentVersion := mkV19DeploymentVersion { V19DeploymentVersion_Version : string; V19DeploymentVersion_Stage : string }.
Record V23VirtualHostDomain := mkV23VirtualHostDomain {
  V23VirtualHostDomain_Domain : string;
  V23VirtualHostDomain_Version : Z;
  V23VirtualHostDomain_VirtualHostId : Z
}.
Record V23VirtualHost := mkV23VirtualHost {
  V23VirtualHost_Id : Z;
  V23VirtualHost_Name : string;
  V23VirtualHost_Domains : list V23VirtualHostDomain
}.
Record V141MicroserviceVersion := mkV141MicroserviceVersion {
  V141MicroserviceVersion_Name : string;
  V141MicroserviceVersion_Namespace : string;
  V141MicroserviceVersion_DeploymentVersion : string;
  V141MicroserviceVersion_InitialDeploymentVersion : string
}.
(** [envoy_config_versions] *)
Record VersionRow := mkVersionRow { vr_NodeGroup : string; vr_EntityType : string; vr_Version : Z }.

Record MigDb := mkMigDb {
  mig_routes : list RouteRow;
  mig_matchers : list V16HeaderMatcher;
  mig_clusters : list ClusterRow;
  mig_endpoints : list EndpointRow;
  mig_deployments : list V19DeploymentVersion;
  mig_versions : list VersionRow;
  mig_vhosts : list (Z * string);
  mig_domains : list V23VirtualHostDomain;
  mig_registry : list V141MicroserviceVersion;
  mig_faults : list (option error);
  mig_tick : nat
}.
#[export] Instance MigDb_eta : Eta MigDb := fun d =>
  mkMigDb (mig_routes d) (mig_matchers d) (mig_clusters d) (mig_endpoints d) (mig_deployments d) (mig_versions d) (mig_vhosts d)
    (mig_domains d) (mig_registry d) (mig_faults d) (mig_tick d).

Section migrations.
Context `{H256 : Sha256} `{E : Environment}.
Variable row_order : nat -> forall A : Type, list A -> list A.
(** The order in which a map gives its entries. *)
Variable map_entries : forall A : Type, list A -> list A.
(** [time.Now().UnixNano()] *)
Variable time_Now : Z.

(** * Statements *)

Definition sql_statement {A} (m : prog MigDb A) : prog MigDb A := fun d =>
  let d := d <| mig_tick := S (mig_tick d) |> in
  match mig_faults d with
  | Some e :: faults => (Err e, d <| mig_faults := faults |>)
  | None :: faults => m (d <| mig_faults := faults |>)
  | [] => m d
  end.
(** [bun.DB.RunInTx] *)
Definition RunInTx (f : prog MigDb unit) : prog MigDb unit := fun d =>
  match (sql_statement (ret tt) ;;; f ;;; sql_statement (ret tt)) d with
  | (Ok _, d') => (Ok tt, d')
  | (r, d') => (r, d <| mig_faults := mig_faults d' |> <| mig_tick := mig_tick d' |>)
  end.
Definition sql_select {A} (rows : MigDb -> list A) : prog MigDb (list A) :=
  sql_statement (fun d => (Ok (row_order (mig_tick d) A (rows d)), d)).
Definition sql_exec (f : MigDb -> MigDb) : prog MigDb unit := sql_statement (fun d => (Ok tt, f d)).

(** [Relation("HeaderMatchers")] *)
Definition matchers_of (d : MigDb) (id : Z) : list V16HeaderMatcher :=
  List.filter (fun m => (V16HeaderMatcher_RouteId m =? id)%Z) (mig_matchers d).
Definition loaded (d : MigDb) (row : RouteRow) : V16Route :=
  (row_route row) <| V16Route_HeaderMatchers := matchers_of d (V16Route_Id (row_route row)) |>.
Definition select_routes (where_ : RouteRow -> bool) : prog MigDb (list V16Route) :=
  sql_select (fun d => map (loaded d) (List.filter where_ (mig_routes d))).
(** [Update().Column(..).WherePK()] *)
Definition update_route (id : Z) (columns : RouteRow -> RouteRow) : prog MigDb unit :=
  sql_exec (fun d => d <| mig_routes := map (fun row => if (V16Route_Id (row_route row) =? id)%Z then columns row else row) (mig_routes d) |>).
Definition delete_matchers (id : Z) : prog MigDb unit :=
  sql_exec (fun d => d <| mig_matchers := List.filter (fun m => negb (V16HeaderMatcher_RouteId m =? id)%Z) (mig_matchers d) |>).
(** A route that header matchers refer to cannot be deleted. *)
Definition delete_route (id : Z) : prog MigDb unit :=
  sql_statement (fun d =>
    match matchers_of d id with
    | [] => (Ok tt, d <| mig_routes := List.filter (fun row => negb (V16Route_Id (row_route row) =? id)%Z) (mig_routes d) |>)
    | _ => (Err (ErrMsg "violates foreign key constraint"), d)
    end).
Definition set_routekey (key : string) (row : RouteRow) : RouteRow := row <| row_route := (row_route row) <| V16Route_RouteKey := key |> |>.
Definition set_regexp (regexp : string) (row : RouteRow) : RouteRow :=
  row <| row_route := (row_route row) <| V16Route_Regexp := regexp |> |> <| row_regexp_null := false |>.
Definition set_rewrite (rewrite : string) (row : RouteRow) : RouteRow :=
  row <| row_route := (row_route row) <| V16Route_RegexpRewrite := rewrite |> |> <| row_rewrite_null := false |>.

Definition bump_versions (entity : string) : prog MigDb unit :=
  sql_exec (fun d => d <| mig_versions := map (fun v => if String.eqb (vr_EntityType v) entity then mkVersionRow (vr_NodeGroup v) entity time_Now else v) (mig_versions d) |>).
Definition updateEnvoyRouteConfigVersion : prog MigDb unit :=
  wrap_err "Cannot update envoy config version for all RouteConfigs" (bump_versions "route_configurations").
Definition updateEnvoyClusterVersion : prog MigDb unit :=
  wrap_err "Cannot update envoy config version for all Clusters" (bump_versions "clusters").

(** * Route keys ([generateRouteKeyV18], [generateRouteKeyV19], [generateRouteKeyV20]) *)

Definition V16_header (hm : V16HeaderMatcher) : HeaderMatch := {|
  HeaderMatch_Name := V16HeaderMatcher_Name hm;
  HeaderMatch_ExactMatch := V16HeaderMatcher_ExactMatch hm;
  HeaderMatch_SafeRegexMatch := V16HeaderMatcher_SafeRegexMatch hm;
  HeaderMatch_RangeMatch := option_map (fun r => mkKeyRangeMatch (NullInt_Int64 (V16RangeMatch_Start r)) (NullInt_Int64 (V16RangeMatch_End r)))
                              (V16HeaderMatcher_RangeMatch hm);
  HeaderMatch_PresentMatch := V16HeaderMatcher_PresentMatch hm;
  HeaderMatch_PrefixMatch := V16HeaderMatcher_PrefixMatch hm;
  HeaderMatch_SuffixMatch := V16HeaderMatcher_SuffixMatch hm;
  HeaderMatch_InvertMatch := V16HeaderMatcher_InvertMatch hm
|}.
Definition V16_match (headers : list HeaderMatch) (version : string) (r : V16Route) : RouteMatch :=
  mkRouteMatch (V16Route_Prefix r) (V16Route_Regexp r) (V16Route_Path r) headers version.
(** The header matchers are built and not used. *)
Definition generateRouteKeyV16 (r : V16Route) : string := RouteKey_Generate (V16_match [] (V16Route_DeploymentVersion r) r).
Definition generateRouteKeyV18 (r : V16Route) : string :=
  RouteKey_Generate (V16_match (map V16_header (V16Route_HeaderMatchers r)) (V16Route_DeploymentVersion r) r).
Definition generateRouteKeyV19 (r : V16Route) : string :=
  RouteKey_Generate (V16_match (map V16_header (V16Route_HeaderMatchers r)) "" r).
Definition generateRouteKeyV20 (r : V16Route) : string :=
  RouteKey_Generate (V16_match (map V16_header (V16Route_HeaderMatchers r)) (V16Route_InitialDeploymentVersion r) r).
Definition regenerate_keys (key : V16Route -> string) : prog MigDb unit :=
  routes <- select_routes (fun _ => true) ;;
  for_each routes (fun r => update_route (V16Route_Id r) (set_routekey (key r))).

(** * #16: hashed route keys.  An error of an update panics. *)

Definition panic_err {A} (m : prog MigDb A) : prog MigDb A := fun d =>
  match m d with (Err _, d') => (Panic "can not update routekey", d') | r => r end.
Definition migration16 : prog MigDb unit := RunInTx (panic_err (regenerate_keys generateRouteKeyV16)).

(** * #18: regular expressions end in a group *)

Definition processRegexp (route : V16Route) : V16Route :=
  if String.eqb (V16Route_Regexp route) "" then route
  else
    let varsNumber := strings_Count (V16Route_Regexp route) "(.*)" in
    if (varsNumber =? 0)%nat then route
    else
      let regexp := trim_slashes (strings_ReplaceAll (V16Route_Regexp route) "(.*)" "([^/]+)") ++ "(/.*)?" in
      let rewrite := if String.eqb (V16Route_RegexpRewrite route) "" then ""
                     else trim_slashes (V16Route_RegexpRewrite route) ++ "\" ++ strconv_Itoa (Z.of_nat varsNumber + 1) in
      route <| V16Route_Regexp := regexp |> <| V16Route_RegexpRewrite := rewrite |>.

(** The routes of one virtual host: the first of each key is kept. *)
Definition split_routes (routes : list V16Route) : list V16Route * list V16Route :=
  fold_left (fun s route =>
      let '(unique, duplicates) := s in
      if existsb (fun d => (V16Route_Id route =? V16Route_Id d)%Z) duplicates then s
      else ((unique ++ [route])%list,
            (duplicates ++ List.filter (fun another => negb (V16Route_Id route =? V16Route_Id another)%Z &&
                                              String.eqb (V16Route_RouteKey route) (V16Route_RouteKey another)) routes)%list))
    routes ([], []).
Definition by_virtual_host (routes : list V16Route) : gmap Z (list V16Route) :=
  fold_left (fun m r => <[V16Route_VirtualHostId r := (default [] (m !! V16Route_VirtualHostId r) ++ [r])%list]> m) routes ∅.
Definition findRouteDuplicates (routes : list V16Route) : list V16Route * list V16Route :=
  let parts := map (fun e : Z * list V16Route => split_routes e.2) (map_entries _ (map_to_list (by_virtual_host routes))) in
  (concat (map fst parts), concat (map snd parts)).
Definition deleteRoutesAndHeaderMatchers (routes : list V16Route) : prog MigDb unit :=
  for_each routes (fun r => delete_matchers (V16Route_Id r) ;;; delete_route (V16Route_Id r)).
Definition update_all (columns : V16Route -> RouteRow -> RouteRow) (routes : list V16Route) : prog MigDb unit :=
  for_each routes (fun r => update_route (V16Route_Id r) (columns r)).
Definition with_key (key : V16Route -> string) (r : V16Route) : V16Route := r <| V16Route_RouteKey := key r |>.
Definition regexp_columns (r : V16Route) (row : RouteRow) : RouteRow :=
  set_rewrite (V16Route_RegexpRewrite r) (set_regexp (V16Route_Regexp r) (set_routekey (V16Route_RouteKey r) row)).
(** The routes that [where_] selects are rewritten by [fix_route] and get new
    keys; those that became duplicates are deleted. *)
Definition rewrite_routes (where_ : RouteRow -> bool) (fix_route : V16Route -> V16Route) (columns : V16Route -> RouteRow -> RouteRow) : prog MigDb unit :=
  routes <- select_routes where_ ;;
  let '(unique, duplicates) := findRouteDuplicates (map (fun r => with_key generateRouteKeyV18 (fix_route r)) routes) in
  deleteRoutesAndHeaderMatchers duplicates ;;;
  update_all columns unique.
Definition regexp_not_null (row : RouteRow) : bool := negb (row_regexp_null row).
Definition fixRoutesWithRegexp : prog MigDb unit := rewrite_routes regexp_not_null processRegexp regexp_columns.
Definition fixRouteKeyForNonRegexpRoutes : prog MigDb unit :=
  rewrite_routes row_regexp_null (fun r => r) (fun r => set_routekey (V16Route_RouteKey r)).
Definition migration18 : prog MigDb unit :=
  RunInTx (fixRoutesWithRegexp ;;; fixRouteKeyForNonRegexpRoutes ;;; updateEnvoyRouteConfigVersion).

(** * #70: regular expressions without backslashes *)

Definition drop_backslashes (r : V16Route) : V16Route :=
  if String.eqb (V16Route_Regexp r) "" then r else r <| V16Route_Regexp := strings_ReplaceAll (V16Route_Regexp r) "\" "" |>.
Definition fixRoutesWithRegexpWithBackslash : prog MigDb unit := rewrite_routes regexp_not_null drop_backslashes regexp_columns.
Definition migration70 : prog MigDb unit := RunInTx (fixRoutesWithRegexpWithBackslash ;;; updateEnvoyRouteConfigVersion).

(** * #27: variables of paths *)

Definition removeOldStylePathVars (r : V16Route) : V16Route :=
  r <| V16Route_Regexp := strings_ReplaceAll (strings_TrimSuffix (V16Route_Regexp r) "(/.*)?") ".*" "([^/]+)" ++ "(/.*)?" |>.
Definition same_target (target r : V16Route) : bool :=
  String.eqb (V16Route_Regexp target) (V16Route_Regexp r) && String.eqb (V16Route_Prefix target) (V16Route_Prefix r) &&
  String.eqb (V16Route_DeploymentVersion target) (V16Route_DeploymentVersion r) &&
  String.eqb (V16Route_PrefixRewrite target) (V16Route_PrefixRewrite r) && String.eqb (V16Route_RegexpRewrite target) (V16Route_RegexpRewrite r) &&
  (V16Route_VirtualHostId target =? V16Route_VirtualHostId r)%Z && String.eqb (V16Route_ClusterName target) (V16Route_ClusterName r) &&
  (V16Route_Version target =? V16Route_Version r)%Z.
Definition splitToUniqueAndDuplicatesByRegexpKey (routes : list V16Route) : list V16Route * list V16Route :=
  let '(_, unique, deletion) := fold_left (fun s route =>
      let '(regexps, unique, deletion) := s in
      let add := (<[V16Route_Regexp route := (default [] (regexps !! V16Route_Regexp route) ++ [route])%list]> regexps, (unique ++ [route])%list, deletion) in
      match regexps !! V16Route_Regexp route with
      | None => add
      | Some group => if existsb (same_target route) group then (regexps, unique, (deletion ++ [route])%list) else add
      end) routes (∅ : gmap string (list V16Route), [], []) in
  (unique, deletion).
Definition fixRegexpPathVars : prog MigDb unit :=
  routes <- select_routes regexp_not_null ;;
  let '(unique, deletion) := splitToUniqueAndDuplicatesByRegexpKey (map removeOldStylePathVars routes) in
  update_all (fun r => set_regexp (V16Route_Regexp r)) unique ;;;
  deleteRoutesAndHeaderMatchers deletion.
Definition migration27 : prog MigDb unit := RunInTx (fixRegexpPathVars ;;; updateEnvoyRouteConfigVersion).

(** * #20, #21, #22, #6 *)

Definition migration20 : prog MigDb unit := RunInTx (regenerate_keys generateRouteKeyV20 ;;; updateEnvoyRouteConfigVersion).
Fixpoint number_wildcards (orderNum n : nat) (rewrite : string) : string :=
  match n with
  | O => rewrite
  | S n => number_wildcards (S orderNum) n (strings_Replace1 rewrite ".*" ("\" ++ strconv_Itoa (Z.of_nat orderNum)))
  end.
Definition fixRouteRegexRewriteV21 (regexpRewrite : string) : string :=
  let n := strings_Count regexpRewrite ".*" in
  let s := number_wildcards 1 n regexpRewrite in
  str_take (String.length s - 2) s ++ "\" ++ strconv_Itoa (Z.of_nat n + 1).
Definition fixBrokenRouteRegexRewriteV21 : prog MigDb unit :=
  routes <- select_routes (fun row => negb (row_rewrite_null row)) ;;
  for_each routes (fun r =>
    if nonempty (V16Route_RegexpRewrite r) && strings_Contains (V16Route_RegexpRewrite r) ".*"
    then update_route (V16Route_Id r) (set_rewrite (fixRouteRegexRewriteV21 (V16Route_RegexpRewrite r)))
    else ret tt).
Definition migration21 : prog MigDb unit := RunInTx (fixBrokenRouteRegexRewriteV21 ;;; updateEnvoyRouteConfigVersion).
Definition migration22 : prog MigDb unit := RunInTx updateEnvoyRouteConfigVersion.
Definition set_initial (version : string) (row : RouteRow) : RouteRow :=
  row <| row_route := (row_route row) <| V16Route_InitialDeploymentVersion := version |> |> <| row_initial_null := false |>.
Definition migration6 : prog MigDb unit :=
  RunInTx (routes <- select_routes row_initial_null ;;
           for_each routes (fun r => update_route (V16Route_Id r) (set_initial (V16Route_DeploymentVersion r)))).

(** * #19: keys without versions, endpoints *)

Definition oob_gateways : list string := ["private-gateway-service"; "public-gateway-service"; "internal-gateway-service"].
(** The cluster name of a route is NULL or empty alike here: a direct answer. *)
Definition removeDuplicatedControlPlaneHealthRoute : prog MigDb unit :=
  sql_statement (fun d =>
    let doomed := fun row : RouteRow =>
      existsb (fun vh : Z * string => (vh.1 =? V16Route_VirtualHostId (row_route row))%Z && bool_decide (vh.2 ∈ oob_gateways)) (mig_vhosts d) &&
      String.eqb (V16Route_Prefix (row_route row)) "/health" &&
      (String.eqb (V16Route_ClusterName (row_route row)) "||control-plane||control-plane||8080" || String.eqb (V16Route_ClusterName (row_route row)) "") in
    if existsb (fun row => doomed row && negb (match matchers_of d (V16Route_Id (row_route row)) with [] => true | _ => false end)) (mig_routes d)
    then (Err (ErrMsg "violates foreign key constraint"), d)
    else (Ok tt, d <| mig_routes := List.filter (fun row => negb (doomed row)) (mig_routes d) |>)).

Fixpoint all_decimal (s : string) : bool :=
  match s with "" => true | String c s => match digit_value c with Some _ => all_decimal s | None => false end end.
(** "^.*-(v[[:digit:]]+)$" *)
Definition versionFromAddress (address : string) : option string :=
  match strings_LastIndex address "-" with
  | Some n =>
      let v := str_drop (S n) address in
      match v with
      | String c digits => if Ascii.eqb c "v" && nonempty digits && all_decimal digits then Some v else None
      | "" => None
      end
  | None => None
  end.
Definition update_endpoint (id : Z) (columns : EndpointRow -> EndpointRow) : prog MigDb unit :=
  sql_exec (fun d => d <| mig_endpoints := map (fun row => if (V19Endpoint_Id (row_endpoint row) =? id)%Z then columns row else row) (mig_endpoints d) |>).
Definition initial_version (e : V19Endpoint) : V19Endpoint :=
  e <| V19Endpoint_InitialDeploymentVersion := default "v1" (versionFromAddress (V19Endpoint_Address e)) |>.
(** One statement updates all of them. *)
Definition addAndFillInitialVersionForEndpoints : prog MigDb unit :=
  sql_statement (ret tt) ;;;
  endpoints <- sql_select (fun d => map row_endpoint (mig_endpoints d)) ;;
  match map initial_version endpoints with
  | [] => ret tt
  | updated => sql_exec (fun d => d <| mig_endpoints :=
      map (fun row => match List.find (fun e => (V19Endpoint_Id e =? V19Endpoint_Id (row_endpoint row))%Z) updated with
                      | Some e => row <| row_endpoint := (row_endpoint row) <| V19Endpoint_InitialDeploymentVersion := V19Endpoint_InitialDeploymentVersion e |> |>
                      | None => row
                      end) (mig_endpoints d) |>)
  end.

(** Clusters with their endpoints: [Relation("Endpoints")]. *)
Definition select_clusters : prog MigDb (list (ClusterRow * list V19Endpoint)) :=
  sql_select (fun d => map (fun c => (c, List.filter (fun e => (V19Endpoint_ClusterId e =? cl_Id c)%Z) (map row_endpoint (mig_endpoints d)))) (mig_clusters d)).
Definition update_routes_where (where_ : V16Route -> bool) (columns : RouteRow -> RouteRow) : prog MigDb unit :=
  sql_exec (fun d => d <| mig_routes := map (fun row => if where_ (row_route row) then columns row else row) (mig_routes d) |>).
Definition count_routes (where_ : V16Route -> bool) : prog MigDb nat :=
  sql_statement (fun d => (Ok (length (List.filter (fun row => where_ (row_route row)) (mig_routes d))), d)).
Definition leads_to (cluster version : string) (r : V16Route) : bool :=
  String.eqb (V16Route_ClusterName r) cluster && String.eqb (V16Route_DeploymentVersion r) version.
Definition updateInitialVersionForRoutes : prog MigDb unit :=
  clusters <- select_clusters ;;
  for_each clusters (fun c =>
    for_each c.2 (fun e =>
      update_routes_where (leads_to (cl_Name c.1) (V19Endpoint_DeploymentVersion e)) (set_initial (V19Endpoint_InitialDeploymentVersion e)))).
Definition select_version (stage : string) : prog MigDb V19DeploymentVersion :=
  versions <- sql_select (fun d => List.filter (fun v => String.eqb (V19DeploymentVersion_Stage v) stage) (mig_deployments d)) ;;
  match versions with v :: _ => ret v | [] => fail (ErrMsg "sql: no rows in result set") end.
Definition delete_endpoint (id : Z) : prog MigDb unit :=
  sql_exec (fun d => d <| mig_endpoints := List.filter (fun row => negb (V19Endpoint_Id (row_endpoint row) =? id)%Z) (mig_endpoints d) |>).
(** The port is converted to the character of that number. *)
Definition endpoint_key (e : V19Endpoint) : string := V19Endpoint_Address e ++ rune_string (V19Endpoint_Port e).
Definition by_address (endpoints : list V19Endpoint) : gmap string (list V19Endpoint) :=
  fold_left (fun m e => <[endpoint_key e := (default [] (m !! endpoint_key e) ++ [e])%list]> m) endpoints ∅.
Definition removeEndpointsDuplicate (activeVersion : V19DeploymentVersion) : prog MigDb unit :=
  endpoints <- sql_select (fun d => map row_endpoint (mig_endpoints d)) ;;
  for_each (map_entries _ (map_to_list (by_address endpoints))) (fun group =>
    if (1 <? length group.2)%nat
    then for_each group.2 (fun e =>
           if String.eqb (V19Endpoint_DeploymentVersion e) (V19DeploymentVersion_Version activeVersion) then ret tt
           else delete_endpoint (V19Endpoint_Id e))
    else ret tt).
Definition set_deployment (version : string) (row : RouteRow) : RouteRow :=
  row <| row_route := (row_route row) <| V16Route_DeploymentVersion := version |> |>.
(** The routes of a cluster without a route of the active version go there. *)
Definition moveRoutesToActualVersion (legacyVersion activeVersion : V19DeploymentVersion) : prog MigDb unit :=
  clusters <- select_clusters ;;
  for_each clusters (fun c =>
    legacyRoutesCount <- count_routes (leads_to (cl_Name c.1) (V19DeploymentVersion_Version legacyVersion)) ;;
    if (0 <? legacyRoutesCount)%nat
    then
      activeRoutesCount <- count_routes (fun r => String.eqb (V16Route_InitialDeploymentVersion r) (V19DeploymentVersion_Version activeVersion) &&
                                                  String.eqb (V16Route_ClusterName r) (cl_Name c.1)) ;;
      if (activeRoutesCount =? 0)%nat
      then ignore_err (update_routes_where (leads_to (cl_Name c.1) (V19DeploymentVersion_Version legacyVersion))
                         (set_deployment (V19DeploymentVersion_Version activeVersion)))
      else ret tt
    else ret tt).
Definition no_rows (e : error) : bool := match e with ErrMsg m => String.eqb m "sql: no rows in result set" | _ => false end.
Definition catch_err {A} (m : prog MigDb A) : prog MigDb (result A) := fun d =>
  match m d with (Panic p, d') => (Panic p, d') | (r, d') => (Ok r, d') end.
Definition migration19 : prog MigDb unit :=
  RunInTx (
    removeDuplicatedControlPlaneHealthRoute ;;;
    addAndFillInitialVersionForEndpoints ;;;
    updateInitialVersionForRoutes ;;;
    regenerate_keys generateRouteKeyV19 ;;;
    activeVersion <- select_version "ACTIVE" ;;
    removeEndpointsDuplicate activeVersion ;;;
    (legacyVersion <- catch_err (select_version "LEGACY") ;;
     match legacyVersion with
     | Ok v => moveRoutesToActualVersion v activeVersion
     | Err e => if no_rows e then ret tt else fail e
     | Panic p => panic p
     end) ;;;
    updateEnvoyRouteConfigVersion ;;;
    updateEnvoyClusterVersion).

(** * #7: routes of candidates.  The stage is not part of the query. *)

Definition getVersionsByStage (stage : string) : prog MigDb (list string) :=
  sql_select (fun d => map V19DeploymentVersion_Version (mig_deployments d)).
Definition getActiveVersion : prog MigDb string :=
  activeVersions <- getVersionsByStage "ACTIVE" ;;
  ret (match activeVersions with v :: _ => v | [] => "v1" end).
Record v7Route := mkV7Route { v7Route_VirtualHostId : Z; v7Route_RouteKey : string; v7Route_Prefix : string; v7Route_Regexp : string }.
#[export] Instance v7Route_eq_dec : EqDecision v7Route.
Proof. solve_decision. Defined.
Definition v7_of (r : V16Route) : v7Route := mkV7Route (V16Route_VirtualHostId r) (V16Route_RouteKey r) (V16Route_Prefix r) (V16Route_Regexp r).
Definition group_v7 (routes : list v7Route) : gmap Z (list v7Route) :=
  fold_left (fun m r => <[v7Route_VirtualHostId r := (default [] (m !! v7Route_VirtualHostId r) ++ [r])%list]> m) routes ∅.
Definition getRoutesGroupedByVirtualHostId (version : string) : prog MigDb (gmap Z (list v7Route)) :=
  routes <- sql_select (fun d => map (fun row => v7_of (row_route row))
                                   (List.filter (fun row => String.eqb (V16Route_DeploymentVersion (row_route row)) version) (mig_routes d))) ;;
  ret (group_v7 routes).
(** A route that forbids; its id is that of the sequence. *)
Definition forbidden_route (activeVersion candidateVersion : string) (r : v7Route) : V16Route :=
  (zero : V16Route) <| V16Route_VirtualHostId := v7Route_VirtualHostId r |>
    <| V16Route_RouteKey := strings_TrimSuffix (v7Route_RouteKey r) activeVersion ++ candidateVersion |>
    <| V16Route_Prefix := v7Route_Prefix r |> <| V16Route_Regexp := v7Route_Regexp r |>
    <| V16Route_DeploymentVersion := candidateVersion |> <| V16Route_DirectResponseCode := 404%Z |>
    <| V16Route_InitialDeploymentVersion := candidateVersion |> <| V16Route_Autogenerated := true |>.
Definition next_route_id (d : MigDb) : Z := (foldr Z.max 0 (map (fun row => V16Route_Id (row_route row)) (mig_routes d)) + 1)%Z.
Definition insert_route (r : V16Route) : prog MigDb unit :=
  sql_exec (fun d => d <| mig_routes := (mig_routes d ++ [mkRouteRow (r <| V16Route_Id := next_route_id d |>) false true false])%list |>).
Definition forbid_routes (activeVersion candidateVersion : string) (active candidate : gmap Z (list v7Route)) : prog MigDb unit :=
  for_each (map_entries _ (map_to_list active)) (fun group =>
    match candidate !! group.1 with
    | Some candidateRoutes => for_each group.2 (fun r =>
        if bool_decide (r ∈ candidateRoutes) then ret tt
        else insert_route (forbidden_route activeVersion candidateVersion r))
    | None => ret tt
    end).
Definition migration7 : prog MigDb unit :=
  RunInTx (
    candidateVersions <- getVersionsByStage "CANDIDATE" ;;
    match candidateVersions with
    | [] => ret tt
    | _ =>
        activeVersion <- getActiveVersion ;;
        groupedActiveRoutes <- getRoutesGroupedByVirtualHostId activeVersion ;;
        for_each candidateVersions (fun candidateVersion =>
          groupedCandidateRoutes <- getRoutesGroupedByVirtualHostId candidateVersion ;;
          forbid_routes activeVersion candidateVersion groupedActiveRoutes groupedCandidateRoutes)
    end).

(** * #23: domains of virtual hosts *)

Definition correspondsToOldDefaultFormat (domain virtualHostName namespace : string) : bool :=
  let namespace := if nonempty namespace then "." ++ namespace else namespace in
  String.eqb domain virtualHostName || String.eqb domain (virtualHostName ++ namespace) ||
  String.eqb domain (virtualHostName ++ namespace ++ ".svc") || String.eqb domain (virtualHostName ++ namespace ++ ".svc.cluster") ||
  String.eqb domain (virtualHostName ++ namespace ++ ".svc.cluster.local").
(** [s[from:to]], which panics out of range. *)
Definition go_slice (s : string) (from to : Z) : result string :=
  if ((0 <=? from) && (from <=? to) && (to <=? Z.of_nat (String.length s)))%Z
  then Ok (str_take (Z.to_nat (to - from)) (str_drop (Z.to_nat from) s))
  else Panic "slice bounds out of range".
(** The loop that looks for the namespace: [None] when a domain has a port or
    a wildcard. *)
Fixpoint domains_namespace (name : string) (domains : list V23VirtualHostDomain) (namespace : string) : result (option string) :=
  match domains with
  | [] => Ok (Some namespace)
  | d :: rest =>
      let dom := V23VirtualHostDomain_Domain d in
      if strings_Contains dom "*" || strings_Contains dom ":" then Ok None
      else if strings_HasSuffix dom ".svc" && (2 <=? strings_Count dom ".")%nat
      then result_bind (go_slice dom (Z.of_nat (String.length name) + 1) (Z.of_nat (String.length dom) - 4)) (domains_namespace name rest)
      else domains_namespace name rest namespace
  end.
Definition virtualHostHasDefaultDomains (virtualHost : V23VirtualHost) : result (bool * string) :=
  let n := length (V23VirtualHost_Domains virtualHost) in
  if negb (n =? 4)%nat && negb (n =? 5)%nat then Ok (false, "")
  else result_bind (domains_namespace (V23VirtualHost_Name virtualHost) (V23VirtualHost_Domains virtualHost) "") (fun namespace =>
    match namespace with
    | None => Ok (false, "")
    | Some ns =>
        if forallb (fun d => correspondsToOldDefaultFormat (V23VirtualHostDomain_Domain d) (V23VirtualHost_Name virtualHost) ns) (V23VirtualHost_Domains virtualHost)
        then Ok (true, ns) else Ok (false, "")
    end).
Definition default_domains (id : Z) (name namespace : string) : list V23VirtualHostDomain :=
  map (fun d => mkV23VirtualHostDomain d 1 id)
    [name ++ ":8080"; name ++ "." ++ namespace ++ ":8080"; name ++ "." ++ namespace ++ ".svc:8080"; name ++ "." ++ namespace ++ ".svc.cluster.local:8080"].
Definition fixDomainsForVirtualHost (virtualHost : V23VirtualHost) (namespace : string) : prog MigDb unit :=
  let namespace := if nonempty namespace then namespace else CurrentNamespaceAsString in
  for_each (default_domains (V23VirtualHost_Id virtualHost) (V23VirtualHost_Name virtualHost) namespace) (fun dom =>
    sql_exec (fun d => d <| mig_domains := (mig_domains d ++ [dom])%list |>)).
Definition select_virtual_hosts : prog MigDb (list V23VirtualHost) :=
  sql_select (fun d => map (fun vh : Z * string => mkV23VirtualHost vh.1 vh.2
                              (List.filter (fun dom => (V23VirtualHostDomain_VirtualHostId dom =? vh.1)%Z) (mig_domains d))) (mig_vhosts d)).
Definition fixDefaultVirtualHostDomains : prog MigDb unit :=
  virtualHosts <- select_virtual_hosts ;;
  for_each virtualHosts (fun virtualHost =>
    r <- lift (virtualHostHasDefaultDomains virtualHost) ;;
    if (r.1 : bool)
    then
      sql_exec (fun d => d <| mig_domains := List.filter (fun dom => negb (V23VirtualHostDomain_VirtualHostId dom =? V23VirtualHost_Id virtualHost)%Z) (mig_domains d) |>) ;;;
      fixDomainsForVirtualHost virtualHost r.2
    else ret tt).
Definition migration23 : prog MigDb unit := RunInTx (fixDefaultVirtualHostDomains ;;; updateEnvoyRouteConfigVersion).

(** * #111: protocols of endpoints *)

(** An endpoint without a cluster panics. *)
Definition resolveEndpointProtocol (cluster : option ClusterRow) : result string :=
  match cluster with
  | Some c => Ok (if (cl_TLSId c =? 0)%Z then "http" else "https")
  | None => Panic "nil pointer dereference"
  end.
Definition cluster_of (d : MigDb) (e : V19Endpoint) : option ClusterRow := List.find (fun c => (cl_Id c =? V19Endpoint_ClusterId e)%Z) (mig_clusters d).
Definition protocol_null (row : EndpointRow) : bool := match row_protocol row with None => true | Some _ => false end.
Definition fillDefaultEndpointProtocol : prog MigDb unit :=
  endpoints <- sql_select (fun d => map (fun row => (row_endpoint row, cluster_of d (row_endpoint row))) (List.filter protocol_null (mig_endpoints d))) ;;
  for_each endpoints (fun e =>
    protocol <- lift (resolveEndpointProtocol e.2) ;;
    update_endpoint (V19Endpoint_Id e.1) (fun row => row <| row_protocol := Some protocol |>)).
Definition migration111 : prog MigDb unit := RunInTx fillDefaultEndpointProtocol.

(** * #132: prefixes without a slash at the end, duplicates *)

(** [V132Route] has the matching columns of [V16Route]; the range of a header
    matcher is a struct, not a pointer. *)
Definition V132_header (hm : V16HeaderMatcher) : HeaderMatch :=
  let range := default (mkV16RangeMatch (mkNullInt 0 false) (mkNullInt 0 false)) (V16HeaderMatcher_RangeMatch hm) in
  {| HeaderMatch_Name := V16HeaderMatcher_Name hm;
     HeaderMatch_ExactMatch := V16HeaderMatcher_ExactMatch hm;
     HeaderMatch_SafeRegexMatch := V16HeaderMatcher_SafeRegexMatch hm;
     HeaderMatch_RangeMatch := if NullInt_Valid (V16RangeMatch_Start range) && NullInt_Valid (V16RangeMatch_End range)
                               then Some (mkKeyRangeMatch (NullInt_Int64 (V16RangeMatch_Start range)) (NullInt_Int64 (V16RangeMatch_End range))) else None;
     HeaderMatch_PresentMatch := V16HeaderMatcher_PresentMatch hm;
     HeaderMatch_PrefixMatch := V16HeaderMatcher_PrefixMatch hm;
     HeaderMatch_SuffixMatch := V16HeaderMatcher_SuffixMatch hm;
     HeaderMatch_InvertMatch := V16HeaderMatcher_InvertMatch hm |}.
Definition V132_fromRoute (r : V16Route) : RouteMatch :=
  V16_match (map V132_header (V16Route_HeaderMatchers r)) (V16Route_InitialDeploymentVersion r) r.
Definition V132_GenerateKey (r : V16Route) : string := RouteKey_Generate (V132_fromRoute r).
Definition removeConfigServerRoutes : prog MigDb unit :=
  routes <- select_routes (fun row => String.eqb (V16Route_Prefix (row_route row)) "/api/v1/config-server/") ;;
  for_each routes (fun r => delete_route (V16Route_Id r)).
Definition without_slash (prefix : string) : string :=
  if strings_HasSuffix prefix "/" then str_take (String.length prefix - 1) prefix else prefix.
Definition trimmed (r : V16Route) : V16Route := r <| V16Route_Prefix := without_slash (V16Route_Prefix r) |>.
Definition prefix_columns (prefix key : string) (row : RouteRow) : RouteRow :=
  set_routekey key (row <| row_route := (row_route row) <| V16Route_Prefix := prefix |> |>).
Definition duplicate_of (key : string) (r : V16Route) (row : RouteRow) : bool :=
  String.eqb (V16Route_RouteKey (row_route row)) key && (V16Route_VirtualHostId (row_route row) =? V16Route_VirtualHostId r)%Z &&
  negb (V16Route_Id (row_route row) =? V16Route_Id r)%Z.
(** One route of the loop; the ids of the routes that it deleted. *)
Definition dedup_route (r : V16Route) : prog MigDb (list Z) :=
  let routeKey := V132_GenerateKey (trimmed r) in
  duplicateRoutes <- select_routes (duplicate_of routeKey r) ;;
  for_each duplicateRoutes (fun d => delete_matchers (V16Route_Id d) ;;; delete_route (V16Route_Id d)) ;;;
  (if strings_HasSuffix (V16Route_Prefix r) "/"
   then update_route (V16Route_Id r) (prefix_columns (V16Route_Prefix (trimmed r)) routeKey)
   else ret tt) ;;;
  ret (map V16Route_Id duplicateRoutes).
Fixpoint dedup_routes (routes : list V16Route) (deletedRouteIds : list Z) : prog MigDb unit :=
  match routes with
  | [] => ret tt
  | r :: rest =>
      if existsb (Z.eqb (V16Route_Id r)) deletedRouteIds then dedup_routes rest deletedRouteIds
      else deleted <- dedup_route r ;; dedup_routes rest (deletedRouteIds ++ deleted)%list
  end.
Definition removeDuplicateRoutes : prog MigDb unit :=
  routes <- select_routes (fun _ => true) ;; dedup_routes routes [].
Definition migration132 : prog MigDb unit := RunInTx (removeConfigServerRoutes ;;; removeDuplicateRoutes).

(** * #141: the registry of versions *)

Definition v141ExtractFamilyName (clusterKey : string) : string :=
  match strings_Index clusterKey "||" with Some idx => str_take idx clusterKey | None => clusterKey end.
Definition v141ExtractNamespacedName (clusterKey : string) : string :=
  match strings_Split clusterKey "||" with _ :: name :: _ => name | _ => clusterKey end.
Definition v141ExtractNamespace (clusterKey : string) : Namespace :=
  let namespacedName := v141ExtractNamespacedName clusterKey in
  mkNamespace (match strings_Index namespacedName "." with Some dotIdx => str_drop (S dotIdx) namespacedName | None => "" end).
Definition same_microservice (a b : V141MicroserviceVersion) : bool :=
  String.eqb (V141MicroserviceVersion_Name a) (V141MicroserviceVersion_Name b) &&
  String.eqb (V141MicroserviceVersion_Namespace a) (V141MicroserviceVersion_Namespace b) &&
  String.eqb (V141MicroserviceVersion_InitialDeploymentVersion a) (V141MicroserviceVersion_InitialDeploymentVersion b).
Definition insertMicroserviceVersionIfNotExist (msVersion : V141MicroserviceVersion) : prog MigDb unit :=
  exists_ <- sql_statement (fun d => (Ok (existsb (same_microservice msVersion) (mig_registry d)), d)) ;;
  if exists_ : bool then ret tt
  else sql_exec (fun d => d <| mig_registry := (mig_registry d ++ [msVersion])%list |>).
Definition registry_entry (c : ClusterRow) (e : V19Endpoint) : V141MicroserviceVersion :=
  mkV141MicroserviceVersion (v141ExtractFamilyName (cl_Name c)) (GetNamespace (v141ExtractNamespace (cl_Name c)))
    (V19Endpoint_DeploymentVersion e) (V19Endpoint_InitialDeploymentVersion e).
Definition initBlueGreenVersionsRegistry : prog MigDb unit :=
  clusters <- select_clusters ;;
  for_each clusters (fun c => for_each c.2 (fun e => insertMicroserviceVersionIfNotExist (registry_entry c.1 e))).
Definition migration141 : prog MigDb unit := RunInTx (initBlueGreenVersionsRegistry).
End migrations.

(** * The record of migration 17 ([fix/migration17.go])

    Migration 17 was added when later ones had been applied: its record takes
    the id of 18, and the later ones move on by one.  An id is unique. *)

Record migrationRecord := mkMigrationRecord { rec_Id : Z; rec_Name : string }.
(** [ORDER BY id DESC] *)
Fixpoint insert_desc (r : migrationRecord) (l : list migrationRecord) : list migrationRecord :=
  match l with
  | [] => [r]
  | x :: rest => if (rec_Id x <=? rec_Id r)%Z then r :: l else x :: insert_desc r rest
  end.
Definition sort_desc (l : list migrationRecord) : list migrationRecord := foldr insert_desc [] l.
Definition move_record (id : Z) : prog (list migrationRecord) unit := fun recs =>
  if existsb (fun x => (rec_Id x =? id + 1)%Z) recs then (Err (ErrMsg "duplicate key value violates unique constraint"), recs)
  else (Ok tt, map (fun x => if (rec_Id x =? id)%Z then mkMigrationRecord (id + 1) (rec_Name x) else x) recs).
(** The id of 18, and the largest. *)
Fixpoint move_records (todo : list migrationRecord) (rec17Id : Z) : prog (list migrationRecord) Z :=
  match todo with
  | [] => ret rec17Id
  | r :: rest =>
      match strconv_Atoi (rec_Name r) with
      | None => fail (ErrMsg "strconv.ParseInt: parsing: invalid syntax")
      | Some n =>
          if (17 <? n)%Z
          then move_record (rec_Id r) ;;; move_records rest (if (n =? 18)%Z then rec_Id r else rec17Id)
          else move_records rest rec17Id
      end
  end.
Definition insert_record (r : migrationRecord) : prog (list migrationRecord) unit := fun recs =>
  if existsb (fun x => (rec_Id x =? rec_Id r)%Z) recs then (Err (ErrMsg "duplicate key value violates unique constraint"), recs)
  else (Ok tt, (recs ++ [r])%list).
Definition writeMigration17ToTable : prog (list migrationRecord) unit :=
  migrationRecords <- gets sort_desc ;;
  rec17Id <- move_records migrationRecords 0 ;;
  insert_record (mkMigrationRecord rec17Id "00000000000017").
