(* ===== verification/MigrationsSpec.v ===== *)
(** What the migrations promise: one route per key and virtual host, keys that
    are those of the rows, nothing lost but duplicates - or nothing changed. *)
From S2P Require Import Prelude GoLib Domain RouteKey Msaddr Migrations.
From Stdlib Require Import Ascii.
Import Prelude.
Open Scope string_scope.

(** * Lists with one element per key *)

Section dedup.
Context {A K : Type}.
Lemma fmap_NoDup_inj (f : A -> K) l x y : NoDup (f <$> l) -> x ∈ l -> y ∈ l -> f x = f y -> x = y.
Proof.
  intros Hnd [i Hi]%list_elem_of_lookup_1 [j Hj]%list_elem_of_lookup_1 E.
  assert (i = j) as ->; [|congruence]. eapply (NoDup_lookup (f <$> l)); [exact Hnd| |].
  - rewrite list_lookup_fmap, Hi. done.
  - rewrite list_lookup_fmap, Hj. cbn. by rewrite E.
Qed.
Lemma NoDup_fmap_of (f : A -> K) l : NoDup l -> (forall x y, x ∈ l -> y ∈ l -> f x = f y -> x = y) -> NoDup (f <$> l).
Proof.
  induction l as [|x l IH]; intros Hnd Hf; [constructor|]. apply NoDup_cons in Hnd as [Hx Hnd]. rewrite fmap_cons. apply NoDup_cons. split.
  - intros (y & E & Hy)%list_elem_of_fmap. apply Hf in E; [by subst|by left|by right].
  - apply IH; [done|]. intros y z Hy Hz. apply Hf; by right.
Qed.
Lemma NoDup_fmap_base (f : A -> K) l : NoDup (f <$> l) -> NoDup l.
Proof. apply NoDup_fmap_1. Qed.
End dedup.

Lemma elem_of_filter_bool {A} (p : A -> bool) l x : x ∈ List.filter p l <-> x ∈ l /\ p x = true.
Proof. by rewrite list_elem_of_In, filter_In, <- list_elem_of_In. Qed.
Lemma existsb_elem {A} (p : A -> bool) l : existsb p l = true <-> exists x, x ∈ l /\ p x = true.
Proof. rewrite existsb_exists. by setoid_rewrite list_elem_of_In. Qed.

#[local] Instance NullInt_eq_decision : EqDecision NullInt.
Proof. solve_decision. Defined.
#[local] Instance V16RangeMatch_eq_decision : EqDecision V16RangeMatch.
Proof. solve_decision. Defined.
#[local] Instance V16HeaderMatcher_eq_decision : EqDecision V16HeaderMatcher.
Proof. solve_decision. Defined.
#[local] Instance V16Route_eq_decision : EqDecision V16Route.
Proof. solve_decision. Defined.

(** * [findRouteDuplicates] *)

Section split.
Implicit Types r x y : V16Route.
Abbreviation id := V16Route_Id.
Abbreviation key := V16Route_RouteKey.
(** The routes [unique] and [duplicates] are split from [routes]. *)
Record split_by (routes unique duplicates : list V16Route) : Prop := mkSplit {
  split_unique : forall r, r ∈ unique -> r ∈ routes;
  split_keys : forall x y, x ∈ unique -> y ∈ unique -> V16Route_VirtualHostId x = V16Route_VirtualHostId y -> key x = key y -> x = y;
  split_dups : forall r, r ∈ duplicates <-> r ∈ routes /\ r ∉ unique;
  split_class : forall r, r ∈ routes -> exists u, u ∈ unique /\ key u = key r /\ V16Route_VirtualHostId u = V16Route_VirtualHostId r
}.

Definition split_step (routes : list V16Route) (s : list V16Route * list V16Route) (route : V16Route) : list V16Route * list V16Route :=
  let '(unique, duplicates) := s in
  if existsb (fun d => (id route =? id d)%Z) duplicates then s
  else ((unique ++ [route])%list,
        (duplicates ++ List.filter (fun another => negb (id route =? id another)%Z && String.eqb (key route) (key another)) routes)%list).
Definition split_inv (routes pre : list V16Route) (s : list V16Route * list V16Route) : Prop :=
  (forall r, r ∈ s.1 -> r ∈ pre) /\ (forall x y, x ∈ s.1 -> y ∈ s.1 -> key x = key y -> x = y) /\
  (forall r, r ∈ s.2 <-> r ∈ routes /\ r ∉ s.1 /\ exists u, u ∈ s.1 /\ key u = key r) /\
  (forall r, r ∈ pre -> exists u, u ∈ s.1 /\ key u = key r).
Lemma split_step_inv routes pre s r : NoDup (id <$> routes) -> r ∈ routes -> r ∉ pre ->
  split_inv routes pre s -> split_inv routes (pre ++ [r]) (split_step routes s r).
Proof.
  intros Hnd Hr Hn (Hu & Hk & Hd & Hc). destruct s as [unique dups]. unfold split_step. cbn [fst snd] in *.
  assert (r ∉ unique) as Hru by (intros ?%Hu; done).
  destruct (existsb _ dups) eqn:Ex; split_and!; cbn [fst snd]; [intros x ?%Hu; apply elem_of_app; by left|exact Hk|exact Hd| | | | |].
  - intros x [Hx|Hx]%elem_of_app; [auto|]. apply list_elem_of_singleton in Hx as ->.
    apply existsb_elem in Ex as (d & Hdd & E%Z.eqb_eq). apply Hd in Hdd as (Hdr & _ & u & Hu1 & Hu2).
    assert (r = d) as -> by (by eapply fmap_NoDup_inj). by exists u.
  - intros x [Hx|Hx]%elem_of_app; apply elem_of_app; [left; auto|by right].
  - assert (forall y, y ∈ unique -> key y = key r -> False) as Hno.
    { intros y Hy E. apply not_true_iff_false in Ex. apply Ex, existsb_elem. exists r. split; [|apply Z.eqb_refl].
      apply Hd. split; [done|]. split; [done|by exists y]. }
    intros x y [Hx|Hx%list_elem_of_singleton]%elem_of_app [Hy|Hy%list_elem_of_singleton]%elem_of_app E; subst.
    + by apply Hk.
    + by destruct (Hno x Hx).
    + by destruct (Hno y Hy).
    + done.
  - intros x. rewrite elem_of_app, Hd, elem_of_filter_bool, andb_true_iff, negb_true_iff, Z.eqb_neq, String.eqb_eq. split.
    + intros [(Hx & Hxu & u & Hu1 & Hu2)|(Hx & Hne & E)].
      * split; [done|]. split; [|exists u; split; [apply elem_of_app; by left|done]].
        intros [?|Hxr]%elem_of_app; [done|]. apply list_elem_of_singleton in Hxr as ->.
        apply not_true_iff_false in Ex. apply Ex, existsb_elem. exists r. split; [|apply Z.eqb_refl]. apply Hd. split; [done|]. split; [done|by exists u].
      * split; [done|]. split; [|exists r; split; [apply elem_of_app; right; by left|done]].
        intros [Hxu|Hxr]%elem_of_app; [|apply list_elem_of_singleton in Hxr as ->; done].
        apply not_true_iff_false in Ex. apply Ex, existsb_elem. exists r. split; [|apply Z.eqb_refl]. apply Hd. split; [done|]. split; [done|by exists x].
    + intros (Hx & Hxu & u & [Hu1|Hu1]%elem_of_app & Hu2).
      * left. split; [done|]. split; [|by exists u]. intros ?. apply Hxu, elem_of_app. by left.
      * apply list_elem_of_singleton in Hu1 as ->. right. split; [done|]. split; [|done].
        intros E. apply Hxu, elem_of_app. right. apply list_elem_of_singleton. symmetry. by eapply (fmap_NoDup_inj id).
  - intros x [Hx|Hx]%elem_of_app; [destruct (Hc x Hx) as (u & ? & ?); exists u; split; [apply elem_of_app; by left|done]|].
    apply list_elem_of_singleton in Hx as ->. exists r. split; [apply elem_of_app; right; by left|done].
Qed.
Lemma split_routes_spec routes : NoDup (id <$> routes) -> (forall x y, x ∈ routes -> y ∈ routes -> V16Route_VirtualHostId x = V16Route_VirtualHostId y) ->
  split_by routes (split_routes routes).1 (split_routes routes).2.
Proof.
  intros Hnd Hvh.
  assert (forall rest pre s, routes = (pre ++ rest)%list -> split_inv routes pre s -> split_inv routes routes (fold_left (split_step routes) rest s)) as H.
  { induction rest as [|r rest IH]; intros pre s E Hs; cbn [fold_left]; [rewrite app_nil_r in E; by subst pre|].
    apply (IH (pre ++ [r])%list); [by rewrite <- app_assoc|]. apply split_step_inv; [done| | |done].
    - rewrite E. apply elem_of_app. right. by left.
    - intros Hr. apply NoDup_fmap_base in Hnd. rewrite E in Hnd. apply NoDup_app in Hnd as (_ & Hd & _). apply (Hd r Hr). by left. }
  specialize (H routes [] ([], []) eq_refl). fold (split_step routes) in H.
  assert (split_inv routes [] ([], [])) as H0.
  { split_and!; cbn; try (intros ? []%elem_of_nil); try (intros ?? []%elem_of_nil).
    intros r. split; [intros []%elem_of_nil|]. intros (_ & _ & u & []%elem_of_nil & _). }
  destruct (H H0) as (Hu & Hk & Hd & Hc). change (fold_left (split_step routes) routes ([], [])) with (split_routes routes) in *.
  constructor; [done| | |].
  - intros x y Hx Hy _. by apply Hk.
  - intros r. rewrite Hd. split; [tauto|]. intros [Hr Hn]. split; [done|]. split; [done|]. auto.
  - intros r Hr. destruct (Hc r Hr) as (u & Hu1 & Hu2). exists u. split; [done|]. split; [done|]. apply Hvh; auto.
Qed.

Lemma by_virtual_host_spec routes vh :
  by_virtual_host routes !! vh = match List.filter (fun r => (V16Route_VirtualHostId r =? vh)%Z) routes with [] => None | l => Some l end.
Proof.
  induction routes as [|r routes IH] using rev_ind; [done|]. unfold by_virtual_host in *. rewrite fold_left_app, List.filter_app. cbn.
  destruct (Z.eqb_spec (V16Route_VirtualHostId r) vh) as [->|Hne].
  - rewrite lookup_insert_eq, IH. destruct (List.filter _ routes); done.
  - rewrite lookup_insert_ne, app_nil_r by done. exact IH.
Qed.
(** The groups that are split. *)
Lemma by_virtual_host_groups routes vh l : (vh, l) ∈ map_to_list (by_virtual_host routes) ->
  l = List.filter (fun r => (V16Route_VirtualHostId r =? vh)%Z) routes.
Proof.
  intros Hl%elem_of_map_to_list. rewrite by_virtual_host_spec in Hl. by destruct (List.filter _ _); [|injection Hl as <-].
Qed.
Lemma by_virtual_host_of routes r : r ∈ routes -> exists l, (V16Route_VirtualHostId r, l) ∈ map_to_list (by_virtual_host routes) /\ r ∈ l.
Proof.
  intros Hr. assert (r ∈ List.filter (fun x => (V16Route_VirtualHostId x =? V16Route_VirtualHostId r)%Z) routes) as Hf
    by (apply elem_of_filter_bool; split; [done|apply Z.eqb_refl]).
  destruct (List.filter _ _) as [|x l] eqn:E; [by apply elem_of_nil in Hf|]. exists (x :: l). split; [|done].
  apply elem_of_map_to_list. by rewrite by_virtual_host_spec, E.
Qed.

(** The unique routes have one route per virtual host and key; the duplicates
    are the others. *)
Lemma findRouteDuplicates_spec map_entries routes : (forall A (l : list A), map_entries A l ≡ₚ l) -> NoDup (id <$> routes) ->
  split_by routes (findRouteDuplicates map_entries routes).1 (findRouteDuplicates map_entries routes).2.
Proof.
  intros Hperm Hnd. unfold findRouteDuplicates. cbn [fst snd].
  set (groups := map_entries _ (map_to_list (by_virtual_host routes))).
  assert (forall e, e ∈ groups <-> e ∈ map_to_list (by_virtual_host routes)) as Hgr
    by (intros e; rewrite !list_elem_of_In; split; apply Permutation_in; [|symmetry]; apply Hperm).
  assert (forall vh l, (vh, l) ∈ groups -> l = List.filter (fun r => (V16Route_VirtualHostId r =? vh)%Z) routes) as Hg
    by (intros vh l Hl; by apply by_virtual_host_groups, Hgr).
  assert (forall vh l, (vh, l) ∈ groups -> split_by l (split_routes l).1 (split_routes l).2) as Hs.
  { intros vh l Hl. apply split_routes_spec.
    - rewrite (Hg vh l Hl). eapply sublist_NoDup; [exact Hnd|]. apply fmap_sublist. clear. induction routes as [|r routes IH]; cbn; [constructor|].
      destruct (_ =? _)%Z; by constructor.
    - intros x y. rewrite (Hg vh l Hl), !elem_of_filter_bool, !Z.eqb_eq. intros [_ ->] [_ ->]. done. }
  assert (forall (f : list V16Route * list V16Route -> list V16Route) r,
    r ∈ concat (map f (map (fun e : Z * list V16Route => split_routes e.2) groups)) <-> exists vh l, (vh, l) ∈ groups /\ r ∈ f (split_routes l)) as Hin.
  { intros f r. rewrite map_map, list_elem_of_In, in_concat. setoid_rewrite in_map_iff. split.
    - intros (l & ([vh l'] & <- & Hl) & Hr). exists vh, l'. by rewrite !list_elem_of_In.
    - intros (vh & l & Hl%list_elem_of_In & Hr%list_elem_of_In). exists (f (split_routes l)). split; [|done]. by exists (vh, l). }
  assert (forall vh l r, (vh, l) ∈ groups -> r ∈ l -> r ∈ routes /\ V16Route_VirtualHostId r = vh) as Hl.
  { intros vh l r Hv Hr. rewrite (Hg vh l Hv) in Hr. apply elem_of_filter_bool in Hr as [? ?%Z.eqb_eq]. done. }
  constructor.
  - intros r (vh & l & Hv & Hr)%Hin. apply (split_unique _ _ _ (Hs vh l Hv)) in Hr. by apply (Hl vh l).
  - intros x y (vh & l & Hv & Hx)%Hin (vh' & l' & Hv' & Hy)%Hin E Ek.
    destruct (Hl vh l x Hv (split_unique _ _ _ (Hs vh l Hv) x Hx)) as [_ E1], (Hl vh' l' y Hv' (split_unique _ _ _ (Hs vh' l' Hv') y Hy)) as [_ E2].
    assert (vh' = vh) as -> by congruence. assert (l' = l) as -> by (by rewrite (Hg vh l Hv), (Hg vh l' Hv')). by apply (split_keys _ _ _ (Hs vh l Hv)).
  - intros r. rewrite !Hin. split.
    + intros (vh & l & Hv & Hr). apply (split_dups _ _ _ (Hs vh l Hv)) in Hr as [Hr Hn]. destruct (Hl vh l r Hv Hr) as [Hrr Evh]. split; [done|].
      intros (vh' & l' & Hv' & Hu). destruct (Hl vh' l' r Hv' (split_unique _ _ _ (Hs vh' l' Hv') r Hu)) as [_ E2].
      assert (vh' = vh) as -> by congruence. assert (l' = l) as -> by (by rewrite (Hg vh l Hv), (Hg vh l' Hv')). done.
    + intros [Hr Hn]. destruct (by_virtual_host_of routes r Hr) as (l & Hv & Hrl). apply Hgr in Hv.
      exists (V16Route_VirtualHostId r), l. split; [done|]. apply (split_dups _ _ _ (Hs _ l Hv)). split; [done|]. intros Hu. apply Hn. by exists (V16Route_VirtualHostId r), l.
  - intros r Hr. destruct (by_virtual_host_of routes r Hr) as (l & Hv & Hrl). apply Hgr in Hv.
    destruct (split_class _ _ _ (Hs _ l Hv) r Hrl) as (u & Hu & Ek & Ev). exists u. split; [|done]. apply Hin. by exists (V16Route_VirtualHostId r), l.
Qed.
End split.

(** * Statements *)

Section statements.
Context `{H256 : Sha256} `{E : Environment}.
Variable row_order : nat -> forall A : Type, list A -> list A.
Variable map_entries : forall A : Type, list A -> list A.
Variable time_Now : Z.
#[local] Arguments set_field {R T} f {_} _ _ /.

(** The rows of all tables; of all but those of routes. *)
Definition tables (d : MigDb) : MigDb := d <| mig_faults := [] |> <| mig_tick := 0 |>.
Definition but_routes (d : MigDb) : MigDb := (tables d) <| mig_routes := [] |> <| mig_matchers := [] |>.
Lemma tables_routes d d' : tables d = tables d' -> mig_routes d = mig_routes d' /\ mig_matchers d = mig_matchers d' /\ but_routes d = but_routes d'.
Proof. intros Ht. split; [exact (f_equal mig_routes Ht)|]. split; [exact (f_equal mig_matchers Ht)|]. unfold but_routes. by rewrite Ht. Qed.

Lemma sql_statement_Ok {A} (m : prog MigDb A) d a d' : sql_statement m d = (Ok a, d') -> exists d1, tables d1 = tables d /\ m d1 = (Ok a, d').
Proof. unfold sql_statement. cbn. destruct (mig_faults d) as [|[]] eqn:Ef; cbn; intros Em; [|discriminate Em|]; (eexists; split; [|exact Em]; reflexivity). Qed.
Lemma sql_exec_Ok f d d' : sql_exec f d = (Ok tt, d') -> exists d1, tables d1 = tables d /\ d' = f d1.
Proof. intros (d1 & Ht & [= <-])%sql_statement_Ok. by exists d1. Qed.
Lemma sql_select_Ok {A} (rows : MigDb -> list A) d l d' : sql_select row_order rows d = (Ok l, d') ->
  exists n, tables d' = tables d /\ l = row_order n A (rows d').
Proof. intros (d1 & Ht & [= <- <-])%sql_statement_Ok. by exists (mig_tick d1). Qed.
Lemma RunInTx_Ok f d d' : RunInTx f d = (Ok tt, d') ->
  exists d1 d2, tables d1 = tables d /\ f d1 = (Ok tt, d2) /\ tables d' = tables d2.
Proof.
  unfold RunInTx. destruct (bind _ _ d) as [[[]|?|?] d0] eqn:Eb; [|done..]. intros [= <-].
  run_ok Eb. destruct a. run_ok Eb. destruct a. apply sql_statement_Ok in E0 as (d3 & Ht & [= <-]). apply sql_statement_Ok in Eb as (d4 & Ht' & [= <-]).
  by exists d3, w0.
Qed.
Lemma RunInTx_rollback f d r d' : RunInTx f d = (r, d') -> r <> Ok tt -> tables d' = tables d.
Proof. unfold RunInTx. destruct (bind _ _ d) as [[[]|?|?] d0]; intros [= <- <-]; done. Qed.

Lemma update_route_Ok i columns d d' : update_route i columns d = (Ok tt, d') ->
  mig_routes d' = map (fun row => if (V16Route_Id (row_route row) =? i)%Z then columns row else row) (mig_routes d) /\
  mig_matchers d' = mig_matchers d /\ but_routes d' = but_routes d.
Proof. intros (d1 & (Er & Em & Eb)%tables_routes & ->)%sql_exec_Ok. cbn. by rewrite Er, Em, <- Eb. Qed.
Lemma delete_matchers_Ok i d d' : delete_matchers i d = (Ok tt, d') ->
  mig_routes d' = mig_routes d /\ mig_matchers d' = List.filter (fun m => negb (V16HeaderMatcher_RouteId m =? i)%Z) (mig_matchers d) /\
  but_routes d' = but_routes d.
Proof. intros (d1 & (Er & Em & Eb)%tables_routes & ->)%sql_exec_Ok. cbn. by rewrite Er, Em, <- Eb. Qed.
Lemma delete_route_Ok i d d' : delete_route i d = (Ok tt, d') ->
  mig_routes d' = List.filter (fun row => negb (V16Route_Id (row_route row) =? i)%Z) (mig_routes d) /\
  mig_matchers d' = mig_matchers d /\ but_routes d' = but_routes d /\ matchers_of d i = [].
Proof.
  intros (d1 & (Er & Em & Eb)%tables_routes & E1)%sql_statement_Ok. unfold matchers_of in *. rewrite <- Em.
  destruct (List.filter _ (mig_matchers d1)); [|done]. injection E1 as <-. cbn. by rewrite Er, <- Eb.
Qed.

(** What the updates make of a row. *)
Definition updated (columns : V16Route -> RouteRow -> RouteRow) (l : list V16Route) (row : RouteRow) : RouteRow :=
  fold_left (fun row r => if (V16Route_Id (row_route row) =? V16Route_Id r)%Z then columns r row else row) l row.
Definition keeps_id (columns : V16Route -> RouteRow -> RouteRow) : Prop :=
  forall r row, V16Route_Id (row_route (columns r row)) = V16Route_Id (row_route row).
Lemma update_all_Ok columns l d d' : update_all columns l d = (Ok tt, d') ->
  mig_routes d' = map (updated columns l) (mig_routes d) /\ mig_matchers d' = mig_matchers d /\ but_routes d' = but_routes d.
Proof.
  unfold update_all. revert d. induction l as [|r l IH]; intros d Eu; cbn [for_each] in Eu.
  - injection Eu as <-. unfold updated. cbn. by rewrite map_id.
  - run_ok Eu. destruct a. apply update_route_Ok in E0 as (Er & Em & Eb). destruct (IH w Eu) as (Er' & Em' & Eb').
    rewrite Er', Er, map_map, Em', Em, Eb', Eb. done.
Qed.
Lemma updated_other columns l row : keeps_id columns -> V16Route_Id (row_route row) ∉ V16Route_Id <$> l -> updated columns l row = row.
Proof.
  intros Hk. unfold updated. induction l as [|r l IH]; intros Hn; [done|]. rewrite fmap_cons, not_elem_of_cons in Hn. destruct Hn as [Hr Hn].
  cbn [fold_left]. apply Z.eqb_neq in Hr. rewrite Hr. auto.
Qed.
Lemma updated_one columns l r row : keeps_id columns -> (forall r row, columns r (columns r row) = columns r row) ->
  (forall x, x ∈ l -> V16Route_Id x = V16Route_Id (row_route row) -> x = r) -> r ∈ l -> V16Route_Id r = V16Route_Id (row_route row) ->
  updated columns l row = columns r row.
Proof.
  intros Hk Hi Hx Hr Er.
  assert (forall l s, (forall x, x ∈ l -> V16Route_Id x = V16Route_Id (row_route row) -> x = r) -> s = row \/ s = columns r row ->
    (s = columns r row -> updated columns l s = columns r row) /\ (r ∈ l -> updated columns l s = columns r row)) as H.
  { clear l Hx Hr. induction l as [|x l IH]; intros s Hx Hs; [split; [done|by intros ?%elem_of_nil]|].
    assert (V16Route_Id (row_route s) = V16Route_Id (row_route row)) as Es by (destruct Hs as [->| ->]; [done|apply Hk]).
    unfold updated. cbn [fold_left]. rewrite Es. destruct (Z.eqb_spec (V16Route_Id (row_route row)) (V16Route_Id x)) as [Ex|Ex].
    - assert (x = r) as -> by (apply Hx; [by left|done]).
      assert (columns r s = columns r row) as Ec by (destruct Hs as [->| ->]; [done|apply Hi]). rewrite Ec.
      destruct (IH (columns r row)) as [IH1 _]; [intros y Hy; apply Hx; by right|by right|]. split; intros _; by apply IH1.
    - destruct (IH s) as [IH1 IH2]; [intros y Hy; apply Hx; by right|done|]. split; [done|]. intros [->|Hr]%elem_of_cons; [done|by apply IH2]. }
  apply (H l row Hx); [by left|done].
Qed.
Lemma updated_id columns l row : keeps_id columns -> V16Route_Id (row_route (updated columns l row)) = V16Route_Id (row_route row).
Proof.
  intros Hk. unfold updated. revert row. induction l as [|r l IH]; intros row; [done|]. cbn [fold_left]. rewrite IH. destruct (_ =? _)%Z; [apply Hk|done].
Qed.

Definition listed (l : list V16Route) (i : Z) : bool := existsb (fun r => (V16Route_Id r =? i)%Z) l.
Lemma listed_spec l i : listed l i = true <-> i ∈ V16Route_Id <$> l.
Proof.
  unfold listed. rewrite existsb_elem, list_elem_of_fmap. setoid_rewrite Z.eqb_eq. split; intros (r & H1 & H2); exists r; done.
Qed.
Lemma filter_every {A} (l : list A) : List.filter (fun _ => true) l = l.
Proof. induction l as [|x l IH]; cbn; congruence. Qed.
Lemma filter_filter_negb {A} (p q : A -> bool) l : List.filter p (List.filter q l) = List.filter (fun x => q x && p x) l.
Proof. induction l as [|x l IH]; cbn; [done|]. destruct (q x); cbn; [destruct (p x); by rewrite IH|exact IH]. Qed.
Lemma deleteRoutes_Ok l d d' : deleteRoutesAndHeaderMatchers l d = (Ok tt, d') ->
  mig_routes d' = List.filter (fun row => negb (listed l (V16Route_Id (row_route row)))) (mig_routes d) /\
  mig_matchers d' = List.filter (fun m => negb (listed l (V16HeaderMatcher_RouteId m))) (mig_matchers d) /\ but_routes d' = but_routes d.
Proof.
  unfold deleteRoutesAndHeaderMatchers. revert d. induction l as [|r l IH]; intros d Ed; cbn [for_each] in Ed.
  - injection Ed as <-. split_and!; [symmetry; apply filter_every..|done].
  - run_ok Ed. destruct a. run_ok E0. destruct a. apply delete_matchers_Ok in E1 as (Er & Em & Eb). apply delete_route_Ok in E0 as (Er1 & Em1 & Eb1 & _).
    destruct (IH w Ed) as (Er' & Em' & Eb'). rewrite Er', Er1, Er, Em', Em1, Em, Eb', Eb1, Eb, !filter_filter_negb. split_and!; [| |done].
    + apply filter_ext. intros row. cbn. rewrite Z.eqb_sym. by destruct (_ =? _)%Z.
    + apply filter_ext. intros m. cbn. rewrite Z.eqb_sym. by destruct (_ =? _)%Z.
Qed.

(** ** Rewriting a group of routes *)

Hypothesis row_order_perm : forall n A (l : list A), row_order n A l ≡ₚ l.
Hypothesis map_entries_perm : forall A (l : list A), map_entries A l ≡ₚ l.
Lemma perm_elem {A} (l k : list A) x : l ≡ₚ k -> x ∈ l <-> x ∈ k.
Proof. intros Hp. rewrite !list_elem_of_In. split; apply Permutation_in; [done|by symmetry]. Qed.
Definition route_ids (d : MigDb) : list Z := map (fun row => V16Route_Id (row_route row)) (mig_routes d).
Lemma route_ids_inj d x y : NoDup (route_ids d) -> x ∈ mig_routes d -> y ∈ mig_routes d ->
  V16Route_Id (row_route x) = V16Route_Id (row_route y) -> x = y.
Proof. intros Hnd. apply (fmap_NoDup_inj (fun row => V16Route_Id (row_route row))). exact Hnd. Qed.

(** A row as a migration reads it, repairs it and gives it its key. *)
Definition repaired (fix_route : V16Route -> V16Route) (d : MigDb) (row : RouteRow) : V16Route := with_key generateRouteKeyV18 (fix_route (loaded d row)).
Definition row_key (row : RouteRow) : string := V16Route_RouteKey (row_route row).
Definition row_vh (row : RouteRow) : Z := V16Route_VirtualHostId (row_route row).
(** [d'] is [d] with the selected rows repaired, one of each key and virtual
    host left. *)
Record deduplicated (where_ : RouteRow -> bool) (new : RouteRow -> V16Route) (columns : V16Route -> RouteRow -> RouteRow) (d d' : MigDb) : Prop := mkDeduplicated {
  dd_from : forall row', row' ∈ mig_routes d' -> exists row, row ∈ mig_routes d /\ row' = if where_ row then columns (new row) row else row;
  dd_others : forall row, row ∈ mig_routes d -> where_ row = false -> row ∈ mig_routes d';
  dd_kept : forall row, row ∈ mig_routes d -> where_ row = true -> exists kept, kept ∈ mig_routes d /\ where_ kept = true /\
    columns (new kept) kept ∈ mig_routes d' /\ V16Route_RouteKey (new kept) = V16Route_RouteKey (new row) /\ V16Route_VirtualHostId (new kept) = V16Route_VirtualHostId (new row);
  dd_unique : forall x y, x ∈ mig_routes d -> y ∈ mig_routes d -> where_ x = true -> where_ y = true ->
    columns (new x) x ∈ mig_routes d' -> columns (new y) y ∈ mig_routes d' ->
    V16Route_VirtualHostId (new x) = V16Route_VirtualHostId (new y) -> V16Route_RouteKey (new x) = V16Route_RouteKey (new y) -> x = y;
  dd_matchers : forall row', row' ∈ mig_routes d' -> matchers_of d' (V16Route_Id (row_route row')) = matchers_of d (V16Route_Id (row_route row'));
  dd_ids : NoDup (route_ids d');
  dd_tables : but_routes d' = but_routes d
}.

Lemma select_routes_Ok where_ d l d' : select_routes row_order where_ d = (Ok l, d') ->
  tables d' = tables d /\ l ≡ₚ map (loaded d) (List.filter where_ (mig_routes d)).
Proof.
  intros (n & Ht & ->)%sql_select_Ok. split; [done|]. rewrite row_order_perm. destruct (tables_routes _ _ Ht) as (Er & Em & _).
  unfold loaded, matchers_of. by rewrite Er, Em.
Qed.
Lemma filter_filter_matchers l (ms : list V16HeaderMatcher) i : listed l i = false ->
  List.filter (fun m => (V16HeaderMatcher_RouteId m =? i)%Z) (List.filter (fun m => negb (listed l (V16HeaderMatcher_RouteId m))) ms)
  = List.filter (fun m => (V16HeaderMatcher_RouteId m =? i)%Z) ms.
Proof.
  intros Hl. rewrite filter_filter_negb. apply filter_ext. intros m. destruct (Z.eqb_spec (V16HeaderMatcher_RouteId m) i) as [->|]; [by rewrite Hl|apply andb_false_r].
Qed.

Lemma rewrite_routes_Ok where_ fix_route columns d d' :
  keeps_id columns -> (forall r row, columns r (columns r row) = columns r row) -> (forall r, V16Route_Id (fix_route r) = V16Route_Id r) ->
  NoDup (route_ids d) -> rewrite_routes row_order map_entries where_ fix_route columns d = (Ok tt, d') ->
  deduplicated where_ (repaired fix_route d) columns d d'.
Proof.
  intros Hk Hci Hfix Hnd Er. unfold rewrite_routes in Er. apply bind_Ok in Er as (l & d1 & E1 & Er).
  apply select_routes_Ok in E1 as (Ht & Hp). set (sel := map (fun r => with_key generateRouteKeyV18 (fix_route r)) l) in *.
  assert (forall r, r ∈ sel <-> exists row, row ∈ mig_routes d /\ where_ row = true /\ r = repaired fix_route d row) as Hsel.
  { intros r. unfold sel. rewrite list_elem_of_In, in_map_iff. setoid_rewrite <- list_elem_of_In. setoid_rewrite (perm_elem _ _ _ Hp).
    setoid_rewrite list_elem_of_In. setoid_rewrite in_map_iff. setoid_rewrite filter_In. split.
    - intros (x & <- & row & <- & Hrow & Hw). exists row. done.
    - intros (row & Hrow & Hw & ->). exists (loaded d row). split; [done|]. by exists row. }
  assert (forall row, V16Route_Id (repaired fix_route d row) = V16Route_Id (row_route row)) as Hid by (intros row; cbn; by rewrite Hfix).
  assert (NoDup (V16Route_Id <$> sel)) as Hnds.
  { unfold sel. change (NoDup (map V16Route_Id (map (fun r => with_key generateRouteKeyV18 (fix_route r)) l))). rewrite map_map.
    rewrite (Permutation_map _ Hp), map_map. erewrite map_ext; [|intros row; cbn; rewrite Hfix; reflexivity]. cbn.
    eapply sublist_NoDup; [exact Hnd|]. apply fmap_sublist. clear. induction (mig_routes d) as [|r rs IH]; cbn; [constructor|]. destruct (where_ r); by constructor. }
  pose proof (findRouteDuplicates_spec map_entries sel map_entries_perm Hnds) as Hs.
  destruct (findRouteDuplicates map_entries sel) as [unique dups]. cbn [fst snd] in Hs.
  apply bind_Ok in Er as ([] & d2 & E2 & Er). apply deleteRoutes_Ok in E2 as (Er2 & Em2 & Eb2). apply update_all_Ok in Er as (Er3 & Em3 & Eb3).
  destruct (tables_routes _ _ Ht) as (Er1 & Em1 & Eb1). rewrite Er1 in Er2. rewrite Em1 in Em2. rewrite Er2 in Er3. rewrite Em2 in Em3.
  assert (forall row, row ∈ mig_routes d -> listed dups (V16Route_Id (row_route row)) = true <-> where_ row = true /\ repaired fix_route d row ∉ unique) as Hdups.
  { intros row Hrow. rewrite listed_spec, list_elem_of_fmap. split.
    - intros (r & Ei & Hr). apply (split_dups _ _ _ Hs) in Hr as [Hr Hn]. apply Hsel in Hr as (row0 & Hrow0 & Hw & ->). rewrite Hid in Ei.
      assert (row0 = row) as -> by (by eapply route_ids_inj). done.
    - intros [Hw Hn]. exists (repaired fix_route d row). split; [by rewrite Hid|]. apply (split_dups _ _ _ Hs). split; [|done]. apply Hsel. by exists row. }
  assert (forall x, x ∈ unique -> exists row, row ∈ mig_routes d /\ where_ row = true /\ x = repaired fix_route d row) as Hun
    by (intros x ?%(split_unique _ _ _ Hs); by apply Hsel).
  assert (forall row, row ∈ mig_routes d -> (where_ row = true -> repaired fix_route d row ∈ unique) ->
    updated columns unique row = if where_ row then columns (repaired fix_route d row) row else row) as Hupd.
  { intros row Hrow Hw. destruct (where_ row) eqn:Ew.
    - apply updated_one; [done|done| |auto|by rewrite Hid]. intros x Hx Ei. destruct (Hun x Hx) as (row0 & Hrow0 & _ & ->).
      rewrite Hid in Ei. by rewrite (route_ids_inj d row0 row).
    - apply updated_other; [done|]. intros (x & Ei & Hx)%list_elem_of_fmap. destruct (Hun x Hx) as (row0 & Hrow0 & Hw0 & ->).
      rewrite Hid in Ei. rewrite (route_ids_inj d row row0) in Ew; congruence. }
  assert (forall row', row' ∈ mig_routes d' <-> exists row, row ∈ mig_routes d /\ (where_ row = true -> repaired fix_route d row ∈ unique) /\
    row' = if where_ row then columns (repaired fix_route d row) row else row) as Hrows.
  { intros row'. rewrite Er3, list_elem_of_In, in_map_iff. setoid_rewrite filter_In. setoid_rewrite <- list_elem_of_In. split.
    - intros (row & <- & Hrow & Hn%negb_true_iff). assert (where_ row = true -> repaired fix_route d row ∈ unique) as Hw.
      { intros Hw. destruct (decide (repaired fix_route d row ∈ unique)) as [|Hu]; [done|].
        apply not_true_iff_false in Hn. destruct Hn. by apply Hdups. }
      exists row. split; [done|]. split; [done|]. by apply Hupd.
    - intros (row & Hrow & Hw & ->). exists row. split; [by apply Hupd|]. split; [done|]. apply negb_true_iff, not_true_iff_false.
      intros (Hw' & Hn)%Hdups; [|done]. auto. }
  constructor.
  - intros row' (row & Hrow & _ & ->)%Hrows. by exists row.
  - intros row Hrow Hw. apply Hrows. exists row. rewrite Hw. done.
  - intros row Hrow Hw. destruct (split_class _ _ _ Hs (repaired fix_route d row)) as (u & Hu & Eku & Evu); [apply Hsel; by exists row|].
    destruct (Hun u Hu) as (kept & Hkept & Hwk & ->). exists kept. split_and!; try done. apply Hrows. exists kept. rewrite Hwk. done.
  - intros x y Hx Hy Hwx Hwy Hx' Hy' Ev Ek.
    assert (forall z, z ∈ mig_routes d -> where_ z = true -> columns (repaired fix_route d z) z ∈ mig_routes d' -> repaired fix_route d z ∈ unique) as Hback.
    { intros z Hz Hwz (row & Hrow & Hwr & Ez)%Hrows. assert (row = z) as ->; [|auto]. apply (route_ids_inj d); [done..|].
      apply (f_equal (fun row => V16Route_Id (row_route row))) in Ez. rewrite Hk in Ez. rewrite Ez. by destruct (where_ row); rewrite ?Hk. }
    pose proof (split_keys _ _ _ Hs _ _ (Hback x Hx Hwx Hx') (Hback y Hy Hwy Hy') Ev Ek) as E1.
    apply (route_ids_inj d); [done..|]. rewrite <- (Hid x), <- (Hid y). by rewrite E1.
  - intros row' (row & Hrow & Hw & Ei)%Hrows. unfold matchers_of. rewrite Em3. apply filter_filter_matchers, not_true_iff_false.
    assert (V16Route_Id (row_route row') = V16Route_Id (row_route row)) as -> by (rewrite Ei; destruct (where_ row); [apply Hk|done]).
    intros (Hw' & Hn)%Hdups; [|done]. auto.
  - unfold route_ids. rewrite Er3, map_map. erewrite map_ext; [|intros row; apply updated_id, Hk].
    eapply sublist_NoDup; [exact Hnd|]. apply fmap_sublist. clear. induction (mig_routes d) as [|r rs IH]; cbn; [constructor|]. destruct (negb _); by constructor.
  - by rewrite Eb3, Eb2, Eb1.
Qed.

(** ** Migration 18 *)

Lemma bump_versions_Ok entity d d' : bump_versions time_Now entity d = (Ok tt, d') ->
  mig_routes d' = mig_routes d /\ mig_matchers d' = mig_matchers d.
Proof. intros (d1 & (Er & Em & _)%tables_routes & ->)%sql_exec_Ok. done. Qed.
Lemma processRegexp_fields r :
  V16Route_Id (processRegexp r) = V16Route_Id r /\ V16Route_VirtualHostId (processRegexp r) = V16Route_VirtualHostId r /\
  V16Route_Prefix (processRegexp r) = V16Route_Prefix r /\ V16Route_Path (processRegexp r) = V16Route_Path r /\
  V16Route_DeploymentVersion (processRegexp r) = V16Route_DeploymentVersion r /\
  V16Route_HeaderMatchers (processRegexp r) = V16Route_HeaderMatchers r.
Proof. unfold processRegexp. destruct (String.eqb _ _); [done|]. by destruct (_ =? _)%nat. Qed.
(** What the migration makes of a row, before it gets its key. *)
Definition regexp_fixed (d : MigDb) (row : RouteRow) : V16Route :=
  if row_regexp_null row then loaded d row else processRegexp (loaded d row).
Lemma V18_key_of r r' : V16Route_Prefix r = V16Route_Prefix r' -> V16Route_Regexp r = V16Route_Regexp r' -> V16Route_Path r = V16Route_Path r' ->
  V16Route_DeploymentVersion r = V16Route_DeploymentVersion r' -> V16Route_HeaderMatchers r = V16Route_HeaderMatchers r' ->
  generateRouteKeyV18 r = generateRouteKeyV18 r'.
Proof. intros E1 E2 E3 E4 E5. unfold generateRouteKeyV18, V16_match. by rewrite E1, E2, E3, E4, E5. Qed.
(** One route per virtual host, key and kind of route. *)
Definition keys_unique (d : MigDb) : Prop := forall x y, x ∈ mig_routes d -> y ∈ mig_routes d ->
  row_vh x = row_vh y -> row_key x = row_key y -> row_regexp_null x = row_regexp_null y -> x = y.

Section pass.
Variables d a b : MigDb.
Hypothesis first : deduplicated regexp_not_null (repaired processRegexp d) regexp_columns d a.
Hypothesis second : deduplicated row_regexp_null (repaired (fun r => r) a) (fun r => set_routekey (V16Route_RouteKey r)) a b.
(** Where a row of the result is from. *)
Lemma pass_from row' : row' ∈ mig_routes b ->
  (exists row, row ∈ mig_routes d /\ row_regexp_null row = false /\ row' = regexp_columns (repaired processRegexp d row) row /\ row' ∈ mig_routes a) \/
  (exists row, row ∈ mig_routes d /\ row ∈ mig_routes a /\ row_regexp_null row = true /\ row' = set_routekey (generateRouteKeyV18 (loaded a row)) row).
Proof.
  intros Hr. destruct (dd_from _ _ _ _ _ second row' Hr) as (row & Hrow & Er). destruct (dd_from _ _ _ _ _ first row Hrow) as (row0 & Hrow0 & Er0).
  unfold regexp_not_null in Er0. destruct (row_regexp_null row0) eqn:E0; cbn in Er0.
  - subst row. rewrite E0 in Er. right. by exists row0.
  - assert (row_regexp_null row = false) as En by (by rewrite Er0). rewrite En in Er. subst row'. left. by exists row0.
Qed.
Lemma pass_matchers row' : row' ∈ mig_routes b -> matchers_of b (V16Route_Id (row_route row')) = matchers_of a (V16Route_Id (row_route row')) /\
  matchers_of a (V16Route_Id (row_route row')) = matchers_of d (V16Route_Id (row_route row')).
Proof.
  intros Hr. split; [exact (dd_matchers _ _ _ _ _ second row' Hr)|].
  destruct (pass_from row' Hr) as [(row & _ & _ & _ & Ha)|(row & _ & Ha & _ & ->)]; exact (dd_matchers _ _ _ _ _ first _ Ha).
Qed.
Lemma pass_keys row : row ∈ mig_routes b -> row_key row = generateRouteKeyV18 (loaded b row).
Proof.
  intros Hr. destruct (pass_matchers row Hr) as [E1 E2]. unfold row_key, loaded. rewrite E1.
  destruct (pass_from row Hr) as [(row0 & _ & _ & Er & _)|(row0 & _ & _ & _ & ->)].
  - rewrite E2. destruct (processRegexp_fields (loaded d row0)) as (Hi & _ & Hp & Hpa & Hd & Hh).
    rewrite Er. cbn. apply V18_key_of; rewrite ?Hp, ?Hpa, ?Hd, ?Hh; done.
  - cbn. by apply V18_key_of.
Qed.
Lemma pass_unique : keys_unique b.
Proof.
  intros x y Hx Hy Ev Ek En.
  destruct (pass_from x Hx) as [(x0 & Hx0 & Nx & Ex & Xa)|(x0 & Hx0 & Xa & Nx & Ex)],
    (pass_from y Hy) as [(y0 & Hy0 & Ny & Ey & Ya)|(y0 & Hy0 & Ya & Ny & Ey)]; rewrite Ex, Ey in En; cbn in En; try congruence.
  - assert (x0 = y0) as ->; [|by rewrite Ex, Ey]. rewrite Ex, Ey in Ev, Ek.
    eapply (dd_unique _ _ _ _ _ first); [done|done|unfold regexp_not_null; by rewrite Nx|unfold regexp_not_null; by rewrite Ny| | | |exact Ek];
      [by rewrite <- Ex|by rewrite <- Ey|].
    unfold repaired, with_key. cbn. destruct (processRegexp_fields (loaded d x0)) as (_ & -> & _), (processRegexp_fields (loaded d y0)) as (_ & -> & _). exact Ev.
  - assert (x0 = y0) as ->; [|by rewrite Ex, Ey]. rewrite Ex, Ey in Ev, Ek.
    eapply (dd_unique _ _ _ _ _ second); [done|done|done|done| | |exact Ev|exact Ek]; cbn; [by rewrite <- Ex|by rewrite <- Ey].
Qed.
Lemma pass_kept row : row ∈ mig_routes d -> exists row', row' ∈ mig_routes b /\ row_vh row' = row_vh row /\
  row_regexp_null row' = row_regexp_null row /\ row_key row' = generateRouteKeyV18 (regexp_fixed d row).
Proof.
  intros Hr. unfold regexp_fixed. destruct (row_regexp_null row) eqn:En.
  - assert (row ∈ mig_routes a) as Ha by (apply (dd_others _ _ _ _ _ first); [done|unfold regexp_not_null; by rewrite En]).
    destruct (dd_kept _ _ _ _ _ second row Ha En) as (kept & Hk & Nk & Hb & Ek & Ev). eexists. split; [exact Hb|]. split; [exact Ev|]. split; [exact Nk|].
    cbn. cbn in Ek. rewrite Ek. apply V18_key_of; try done. cbn. by apply (dd_matchers _ _ _ _ _ first).
  - destruct (dd_kept _ _ _ _ _ first row Hr ltac:(by unfold regexp_not_null; rewrite En)) as (kept & Hk & Nk & Hb & Ek & Ev).
    exists (regexp_columns (repaired processRegexp d kept) kept). split; [by apply (dd_others _ _ _ _ _ second)|].
    split; [|split; [done|exact Ek]]. cbn in Ev. unfold row_vh. cbn.
    destruct (processRegexp_fields (loaded d kept)) as (_ & E1 & _), (processRegexp_fields (loaded d row)) as (_ & E2 & _). rewrite E1, E2 in Ev. exact Ev.
Qed.
End pass.

(** Migration 18 leaves, of the routes of a virtual host that match the
    same requests in the same version, one; every route it leaves has the key
    of what it matches, its header matchers included; no route is lost but for
    another with its repaired key; a route whose regular expression is NULL and
    one whose expression is the empty text are not compared.  A migration that
    fails changes nothing. *)
Theorem migration18_deduplicates d r d' : NoDup (route_ids d) -> migration18 row_order map_entries time_Now d = (r, d') ->
  match r with
  | Ok _ =>
      (forall row, row ∈ mig_routes d' -> row_key row = generateRouteKeyV18 (loaded d' row)) /\ keys_unique d' /\
      forall row, row ∈ mig_routes d -> exists row', row' ∈ mig_routes d' /\ row_vh row' = row_vh row /\
        row_regexp_null row' = row_regexp_null row /\ row_key row' = generateRouteKeyV18 (regexp_fixed d row)
  | _ => tables d' = tables d
  end.
Proof.
  intros Hnd E0. unfold migration18 in E0. destruct r as [[]|e|p]; [|by eapply RunInTx_rollback..].
  apply RunInTx_Ok in E0 as (d1 & d2 & Ht & Er & Ht').
  apply bind_Ok in Er as ([] & a & Ea & Er). apply bind_Ok in Er as ([] & b & Eb & Er).
  unfold updateEnvoyRouteConfigVersion in Er. apply wrap_err_Ok, bump_versions_Ok in Er as [Er2 Em2].
  destruct (tables_routes _ _ Ht) as (Er1 & Em1 & _), (tables_routes _ _ Ht') as (Er3 & Em3 & _).
  assert (forall row, loaded d1 row = loaded d row) as Hl by (intros row; unfold loaded, matchers_of; by rewrite Em1).
  assert (NoDup (route_ids d1)) as Hnd1 by (unfold route_ids; by rewrite Er1).
  unfold fixRoutesWithRegexp in Ea. apply rewrite_routes_Ok in Ea; [|done|done|intros; apply processRegexp_fields|done].
  unfold fixRouteKeyForNonRegexpRoutes in Eb. apply rewrite_routes_Ok in Eb; [|done|done|done|exact (dd_ids _ _ _ _ _ Ea)].
  assert (forall row, loaded d' row = loaded b row) as Hl' by (intros row; unfold loaded, matchers_of; by rewrite Em3, Em2).
  rewrite <- Er1, Er3, Er2. split_and!.
  - intros row Hr. rewrite Hl'. by eapply pass_keys.
  - unfold keys_unique. rewrite Er3, Er2. by eapply pass_unique.
  - intros row Hr. unfold regexp_fixed. rewrite <- Hl. by eapply pass_kept.
Qed.

(** ** Migration 132 *)

Definition class_of (r : V16Route) : string := V132_GenerateKey (trimmed r).
Lemma V132_key_of r r' : V16Route_Prefix r = V16Route_Prefix r' -> V16Route_Regexp r = V16Route_Regexp r' -> V16Route_Path r = V16Route_Path r' ->
  V16Route_InitialDeploymentVersion r = V16Route_InitialDeploymentVersion r' -> V16Route_HeaderMatchers r = V16Route_HeaderMatchers r' ->
  V132_GenerateKey r = V132_GenerateKey r'.
Proof. intros E1 E2 E3 E4 E5. unfold V132_GenerateKey, V132_fromRoute, V16_match. by rewrite E1, E2, E3, E4, E5. Qed.
(** The key of a route is that of what it matches. *)
Definition canonical (d : MigDb) (row : RouteRow) : Prop := row_key row = V132_GenerateKey (loaded d row).
Definition keys_canonical (d : MigDb) : Prop := forall row, row ∈ mig_routes d -> canonical d row.

(** The deletion of the rows with the ids of a list. *)
Lemma delete_listed_Ok l d d' :
  for_each l (fun x => delete_matchers (V16Route_Id x) ;;; delete_route (V16Route_Id x)) d = (Ok tt, d') ->
  (forall row, row ∈ mig_routes d' <-> row ∈ mig_routes d /\ listed l (V16Route_Id (row_route row)) = false) /\
  (forall row, row ∈ mig_routes d' -> loaded d' row = loaded d row) /\ (NoDup (route_ids d) -> NoDup (route_ids d')).
Proof.
  intros (Er & Em & _)%deleteRoutes_Ok. rewrite Er. split_and!.
  - intros row. by rewrite elem_of_filter_bool, negb_true_iff.
  - intros row Hr. apply elem_of_filter_bool in Hr as [_ Hn%negb_true_iff]. unfold loaded, matchers_of. rewrite Em. by rewrite filter_filter_matchers.
  - intros Hnd. unfold route_ids. rewrite Er. eapply sublist_NoDup; [exact Hnd|]. apply fmap_sublist. clear. induction (mig_routes d) as [|r rs IH]; cbn; [constructor|].
    destruct (negb _); by constructor.
Qed.
Lemma update_one_Ok i columns d d' : keeps_id (fun _ => columns) -> update_route i columns d = (Ok tt, d') ->
  (forall row', row' ∈ mig_routes d' <-> exists row, row ∈ mig_routes d /\ row' = if (V16Route_Id (row_route row) =? i)%Z then columns row else row) /\
  mig_matchers d' = mig_matchers d /\ route_ids d' = route_ids d.
Proof.
  intros Hk (Er & Em & _)%update_route_Ok. unfold route_ids. rewrite Er. split_and!; [|done|].
  - intros row'. rewrite list_elem_of_In, in_map_iff. setoid_rewrite list_elem_of_In. split; intros (row & H1 & H2); exists row; done.
  - rewrite map_map. apply map_ext. intros row. destruct (_ =? _)%Z; [apply (Hk (row_route row))|done].
Qed.

(** One route of the loop, when it is in the table as it was read. *)
Record dedup_step (r : V16Route) (deleted : list Z) (d d' : MigDb) : Prop := mkDedupStep {
  ds_rows : forall row', row' ∈ mig_routes d' <-> exists row, row ∈ mig_routes d /\ duplicate_of (class_of r) r row = false /\
    row' = if strings_HasSuffix (V16Route_Prefix r) "/" && (V16Route_Id (row_route row) =? V16Route_Id r)%Z
           then prefix_columns (without_slash (V16Route_Prefix r)) (class_of r) row else row;
  ds_matchers : forall row', row' ∈ mig_routes d' -> matchers_of d' (V16Route_Id (row_route row')) = matchers_of d (V16Route_Id (row_route row'));
  ds_ids : NoDup (route_ids d');
  ds_deleted : forall i, i ∈ deleted <-> exists row, row ∈ mig_routes d /\ duplicate_of (class_of r) r row = true /\ V16Route_Id (row_route row) = i
}.
Lemma dedup_route_Ok r d deleted d' : NoDup (route_ids d) -> dedup_route row_order r d = (Ok deleted, d') -> dedup_step r deleted d d'.
Proof.
  intros Hnd Ed. unfold dedup_route in Ed. fold (class_of r) in Ed. apply bind_Ok in Ed as (l & d1 & E1 & Ed).
  apply select_routes_Ok in E1 as (Ht & Hp). destruct (tables_routes _ _ Ht) as (Er1 & Em1 & _).
  apply bind_Ok in Ed as ([] & d2 & E2 & Ed). apply delete_listed_Ok in E2 as (Er2 & El2 & Hn2). rewrite Er1 in Er2.
  apply bind_Ok in Ed as ([] & d3 & E3 & Ed). apply ret_Ok in Ed as [-> ->].
  assert (forall row, loaded d1 row = loaded d row) as Hl1 by (intros row; unfold loaded, matchers_of; by rewrite Em1).
  assert (forall i, i ∈ V16Route_Id <$> l <-> exists row, row ∈ mig_routes d /\ duplicate_of (class_of r) r row = true /\ V16Route_Id (row_route row) = i) as Hdel.
  { intros i. rewrite list_elem_of_fmap. setoid_rewrite (perm_elem _ _ _ Hp). setoid_rewrite list_elem_of_In. setoid_rewrite in_map_iff. setoid_rewrite filter_In.
    setoid_rewrite <- list_elem_of_In. split; [intros (x & -> & row & <- & ? & ?); by exists row|]. intros (row & ? & ? & <-). exists (loaded d row). split; [done|]. by exists row. }
  assert (forall row, row ∈ mig_routes d2 <-> row ∈ mig_routes d /\ duplicate_of (class_of r) r row = false) as Hr2.
  { intros row. rewrite Er2. split; intros [Hr Hn]; (split; [done|]); apply not_true_iff_false; apply not_true_iff_false in Hn; intros Hd; apply Hn.
    - apply listed_spec, Hdel. by exists row.
    - apply listed_spec, Hdel in Hd as (row1 & H1 & H2 & H3). by rewrite <- (route_ids_inj d row1 row). }
  assert (NoDup (route_ids d2)) as Hnd2 by (apply Hn2; unfold route_ids; by rewrite Er1).
  assert (forall row, row ∈ mig_routes d2 -> matchers_of d2 (V16Route_Id (row_route row)) = matchers_of d (V16Route_Id (row_route row))) as Hm2.
  { intros row Hr. pose proof (f_equal V16Route_HeaderMatchers (El2 row Hr)) as Em. cbn in Em. rewrite Em. unfold matchers_of. by rewrite Em1. }
  destruct (strings_HasSuffix (V16Route_Prefix r) "/") eqn:Eh.
  - apply update_one_Ok in E3 as (Er3 & Em3 & Ei3); [|done]. constructor.
    + intros row'. rewrite Er3. setoid_rewrite Hr2. rewrite Eh. cbn [andb]. split; [intros (row & [? ?] & ->); by exists row|intros (row & ? & ? & ->); by exists row].
    + intros row' (row & Hr & ->)%Er3. unfold matchers_of in *. rewrite Em3. destruct (_ =? _)%Z; apply (Hm2 row Hr).
    + by rewrite Ei3.
    + exact Hdel.
  - apply ret_Ok in E3 as [_ ->]. constructor; [|done|done|exact Hdel]. intros row'. rewrite Hr2, Eh. cbn [andb].
    split; [intros [? ?]; by exists row'|by intros (row & ? & ? & ->)].
Qed.

(** The loop: the rows still to come are as they were read, and those that went
    by have no duplicate, as far as their keys are canonical. *)
Definition alone (d : MigDb) (row : RouteRow) : Prop :=
  canonical d row -> forall y, y ∈ mig_routes d -> canonical d y -> row_vh y = row_vh row -> row_key y = row_key row -> y = row.
Record loop_inv (todo : list V16Route) (gone : list Z) (d : MigDb) : Prop := mkLoopInv {
  li_ids : NoDup (route_ids d);
  li_todo : NoDup (V16Route_Id <$> todo);
  li_gone : forall row, row ∈ mig_routes d -> V16Route_Id (row_route row) ∉ gone;
  li_rows : forall row, row ∈ mig_routes d -> loaded d row ∈ todo \/ (V16Route_Id (row_route row) ∉ V16Route_Id <$> todo /\ alone d row);
  li_there : forall r, r ∈ todo -> V16Route_Id r ∈ gone \/ exists row, row ∈ mig_routes d /\ loaded d row = r
}.
Lemma loop_skip r todo gone d : loop_inv (r :: todo) gone d -> V16Route_Id r ∈ gone -> loop_inv todo gone d.
Proof.
  intros [] Hg. rewrite fmap_cons in li_todo0. apply NoDup_cons in li_todo0 as [Hr Hnd]. constructor; try done.
  - intros row Hrow. destruct (li_rows0 row Hrow) as [[Er|?]%elem_of_cons|[Hn Ha]]; [|by left|].
    + destruct (li_gone0 row Hrow). rewrite <- Er in Hg. exact Hg.
    + right. split; [|done]. rewrite fmap_cons, not_elem_of_cons in Hn. tauto.
  - intros x Hx. apply li_there0. by right.
Qed.
Lemma trimmed_no_slash r : strings_HasSuffix (V16Route_Prefix r) "/" = false -> trimmed r = r.
Proof. intros Hs. unfold trimmed, without_slash. rewrite Hs. by destruct r. Qed.

Section step132.
Variables (r : V16Route) (row0 : RouteRow) (todo : list V16Route) (gone deleted : list Z) (d d' : MigDb).
Hypothesis inv : loop_inv (r :: todo) gone d.
Hypothesis there : row0 ∈ mig_routes d.
Hypothesis as_read : loaded d row0 = r.
Hypothesis done_step : dedup_step r deleted d d'.
(** The row of the route, after the step. *)
Definition row0' : RouteRow :=
  if strings_HasSuffix (V16Route_Prefix r) "/" then prefix_columns (without_slash (V16Route_Prefix r)) (class_of r) row0 else row0.
Lemma row0_id : V16Route_Id (row_route row0) = V16Route_Id r.
Proof. by rewrite <- as_read. Qed.
Lemma row0'_fields : V16Route_Id (row_route row0') = V16Route_Id r /\ row_vh row0' = row_vh row0 /\ row0' ∈ mig_routes d' /\
  loaded d' row0' = (trimmed r) <| V16Route_RouteKey := row_key row0' |>.
Proof.
  assert (row0' ∈ mig_routes d') as Hin.
  { apply (ds_rows _ _ _ _ done_step). exists row0. split; [done|]. rewrite row0_id, Z.eqb_refl, andb_true_r. split; [|done].
    unfold duplicate_of. rewrite row0_id, Z.eqb_refl. cbn. apply andb_false_r. }
  pose proof (ds_matchers _ _ _ _ done_step row0' Hin) as Hm.
  assert (V16Route_Id (row_route row0') = V16Route_Id r) as Hi by (unfold row0'; destruct (strings_HasSuffix _ _); [apply row0_id|apply row0_id]).
  split; [exact Hi|]. unfold loaded. rewrite Hm, Hi, <- row0_id. clear Hm Hi. unfold row0' in *. destruct (strings_HasSuffix (V16Route_Prefix r) "/") eqn:Es.
  - split_and!; [done..|]. clear Es Hin. unfold class_of. rewrite <- as_read. generalize (V132_GenerateKey (trimmed (loaded d row0))) as key.
    intros key. unfold row_key, trimmed, loaded, prefix_columns, set_routekey. done.
  - rewrite (trimmed_no_slash r Es). split_and!; [done|done|]. clear Es Hin. rewrite <- as_read.
    unfold loaded, row_key. cbn. by destruct (row_route row0).
Qed.
(** Its key is canonical when it was, or when the prefix was shortened. *)
Lemma row0'_canonical : canonical d' row0' <-> row_key row0' = class_of r.
Proof.
  destruct row0'_fields as (_ & _ & _ & Hl). unfold canonical. rewrite Hl. unfold class_of. by rewrite (V132_key_of _ (trimmed r)).
Qed.
Lemma row0_canonical : canonical d row0 -> canonical d' row0'.
Proof.
  intros Hc. apply row0'_canonical. unfold row0', class_of. destruct (strings_HasSuffix (V16Route_Prefix r) "/") eqn:Es; [done|].
  unfold canonical in Hc. by rewrite (trimmed_no_slash r Es), <- as_read.
Qed.
(** The other rows do not change. *)
Lemma step_rows row' : row' ∈ mig_routes d' -> row' = row0' \/
  (row' ∈ mig_routes d /\ duplicate_of (class_of r) r row' = false /\ V16Route_Id (row_route row') <> V16Route_Id r /\ loaded d' row' = loaded d row').
Proof.
  intros Hr. pose proof (ds_matchers _ _ _ _ done_step row' Hr) as Hm. apply (ds_rows _ _ _ _ done_step) in Hr as (row & Hrow & Hd & Er).
  destruct (Z.eqb_spec (V16Route_Id (row_route row)) (V16Route_Id r)) as [Ei|Hne].
  - left. assert (row = row0) as -> by (eapply route_ids_inj; [exact (li_ids _ _ _ inv)|done|done|by rewrite row0_id]). by rewrite Er, andb_true_r.
  - right. rewrite andb_false_r in Er. subst row'. unfold loaded. by rewrite Hm.
Qed.
Lemma step_keep row : row ∈ mig_routes d -> duplicate_of (class_of r) r row = false -> V16Route_Id (row_route row) <> V16Route_Id r -> row ∈ mig_routes d'.
Proof.
  intros Hrow Hd Hi. apply (ds_rows _ _ _ _ done_step). exists row. split; [done|]. split; [done|]. apply Z.eqb_neq in Hi. by rewrite Hi, andb_false_r.
Qed.
Lemma step_inv : loop_inv todo (gone ++ deleted) d'.
Proof.
  destruct row0'_fields as (Hi0 & Hv0 & Hin0 & Hl0). pose proof inv as [].
  rewrite fmap_cons in li_todo0. apply NoDup_cons in li_todo0 as [Hrt Hndt]. constructor.
  - exact (ds_ids _ _ _ _ done_step).
  - done.
  - intros row' Hr [Hg|Hd]%elem_of_app.
    + destruct (step_rows row' Hr) as [->|(Hr1 & _)]; [|by apply (li_gone0 row')]. apply (li_gone0 row0 there). by rewrite row0_id, <- Hi0.
    + apply (ds_deleted _ _ _ _ done_step) in Hd as (row & Hrow & Hdup & Ei). destruct (step_rows row' Hr) as [->|(Hr1 & Hn & _)].
      * unfold duplicate_of in Hdup. rewrite Ei, Hi0, Z.eqb_refl, andb_false_r in Hdup. done.
      * rewrite (route_ids_inj d row row') in Hdup by done. congruence.
  - intros row' Hr. destruct (step_rows row' Hr) as [->|(Hr1 & Hdup & Hne & Hl)].
    + right. split; [by rewrite Hi0|]. intros Hk0%row0'_canonical y Hy _ Ev Ek. destruct (step_rows y Hy) as [->|(Hy1 & Hd1 & Hy2 & _)]; [done|]. exfalso.
      unfold duplicate_of in Hd1. apply Z.eqb_neq in Hy2. rewrite Hy2 in Hd1. unfold row_key, row_vh in *. rewrite Ek, Hk0, String.eqb_refl in Hd1.
      rewrite Ev, Hv0 in Hd1. rewrite <- as_read in Hd1. cbn in Hd1. by rewrite Z.eqb_refl in Hd1.
    + destruct (li_rows0 row' Hr1) as [[Er|Ht]%elem_of_cons|[Hn Ha]].
      * destruct Hne. by rewrite <- Er.
      * left. by rewrite Hl.
      * right. rewrite fmap_cons, not_elem_of_cons in Hn. split; [tauto|]. intros Hcan y Hy Hcy Ev Ek. unfold canonical in Hcan. rewrite Hl in Hcan.
        destruct (step_rows y Hy) as [->|(Hy1 & _ & _ & Hly)]; [|apply Ha; [done..| |done|done]; unfold canonical; by rewrite <- Hly]. exfalso. apply row0'_canonical in Hcy as Hk0.
        unfold duplicate_of in Hdup. apply Z.eqb_neq in Hne. unfold row_key, row_vh in *. rewrite Hne, <- Ek, Hk0, String.eqb_refl, <- Ev, Hv0 in Hdup.
        rewrite <- as_read in Hdup. cbn in Hdup. by rewrite Z.eqb_refl in Hdup.
  - intros x Hx. destruct (li_there0 x ltac:(by right)) as [Hg|(row & Hrow & Er)]; [left; apply elem_of_app; by left|].
    assert (V16Route_Id (row_route row) <> V16Route_Id r) as Hne.
    { intros Ei. apply Hrt. rewrite <- Ei. apply list_elem_of_fmap. exists x. split; [by rewrite <- Er|done]. }
    destruct (duplicate_of (class_of r) r row) eqn:Ed.
    + left. apply elem_of_app. right. apply (ds_deleted _ _ _ _ done_step). exists row. split; [done|]. split; [done|]. by rewrite <- Er.
    + right. exists row. pose proof (step_keep row Hrow Ed Hne) as Hr'. split; [done|]. unfold loaded in *. by rewrite (ds_matchers _ _ _ _ done_step row Hr').
Qed.

(** What the table covers: a virtual host and a match without the slash. *)
Definition covers (db : MigDb) (vh : Z) (key : string) : Prop :=
  exists row, row ∈ mig_routes db /\ row_vh row = vh /\ class_of (loaded db row) = key.
Definition single_slash (db : MigDb) : Prop := forall row, row ∈ mig_routes db -> strings_HasSuffix (V16Route_Prefix (row_route row)) "//" = false.
Lemma step_canonical : keys_canonical d -> keys_canonical d'.
Proof.
  intros Hc row' [->|(Hr & _ & _ & Hl)]%step_rows; [apply row0_canonical; by apply Hc|]. unfold canonical. rewrite Hl. by apply Hc.
Qed.
Hypothesis sha : forall m m', no_collision m m'.
Hypothesis single : single_slash d.
Hypothesis keys : keys_canonical d.
Lemma without_slash_single p : strings_HasSuffix p "//" = false -> strings_HasSuffix (without_slash p) "/" = false.
Proof.
  intros Hp. apply not_true_iff_false. intros Hs. apply not_true_iff_false in Hp. apply Hp. unfold without_slash in Hs.
  destruct (strings_HasSuffix p "/") eqn:E1; [|congruence]. apply HasSuffix_spec in E1 as [u ->].
  rewrite str_length_app, Nat.add_sub, str_take_app in Hs. apply HasSuffix_spec in Hs as [v ->].
  rewrite str_app_assoc. apply (HasSuffix_app v "//").
Qed.
Lemma r_single : strings_HasSuffix (V16Route_Prefix (trimmed r)) "/" = false.
Proof. apply without_slash_single. rewrite <- as_read. by apply single. Qed.
Lemma step_covers vh key : covers d vh key -> covers d' vh key.
Proof.
  intros (row & Hrow & Hv & Hk). destruct row0'_fields as (Hi0 & Hv0 & Hin0 & Hl0).
  assert (class_of (loaded d' row0') = class_of r) as Hc0.
  { rewrite Hl0. unfold class_of at 1. rewrite trimmed_no_slash by exact r_single. by apply V132_key_of. }
  destruct (duplicate_of (class_of r) r row) eqn:Ed; [|destruct (decide (V16Route_Id (row_route row) = V16Route_Id r)) as [Ei|Hne]].
  - unfold duplicate_of in Ed. apply andb_prop in Ed as [[Ek%String.eqb_eq Ev%Z.eqb_eq]%andb_prop _].
    exists row0'. split; [done|]. rewrite Hv0, Hc0, <- Hv, <- Hk. split; [unfold row_vh; rewrite Ev, <- as_read; done|].
    pose proof (keys row Hrow) as Hcan. unfold canonical, row_key in Hcan. rewrite Ek in Hcan. rewrite Hcan. unfold class_of at 1 in Hcan.
    apply RouteKey_Generate_inj in Hcan; [|apply sha]. apply (f_equal RouteMatch_Prefix) in Hcan. cbn in Hcan.
    unfold class_of. rewrite trimmed_no_slash; [done|]. cbn. rewrite <- Hcan. exact r_single.
  - assert (row = row0) as -> by (eapply route_ids_inj; [exact (li_ids _ _ _ inv)|done|done|by rewrite row0_id]).
    exists row0'. split; [done|]. by rewrite Hv0, Hc0, <- Hk, as_read.
  - exists row. pose proof (step_keep row Hrow Ed Hne) as Hr. split; [done|]. split; [done|]. rewrite <- Hk. f_equal. unfold loaded. by rewrite (ds_matchers _ _ _ _ done_step row Hr).
Qed.
Lemma step_single : single_slash d'.
Proof.
  intros row [->|(Hr & _)]%step_rows; [|by apply single]. unfold row0'. destruct (strings_HasSuffix (V16Route_Prefix r) "/"); [|by apply single].
  cbn. apply not_true_iff_false. intros [v Hv]%HasSuffix_spec. pose proof r_single as Hs. cbn in Hs. rewrite Hv in Hs.
  change "//" with ("/" ++ "/") in Hs. rewrite <- str_app_assoc, HasSuffix_app in Hs. done.
Qed.
End step132.

Lemma dedup_routes_Ok todo gone d d' : loop_inv todo gone d -> dedup_routes row_order todo gone d = (Ok tt, d') ->
  NoDup (route_ids d') /\ (forall row, row ∈ mig_routes d' -> alone d' row) /\
  (keys_canonical d -> keys_canonical d' /\
    ((forall m m', no_collision m m') -> single_slash d -> forall vh key, covers d vh key -> covers d' vh key)).
Proof.
  revert gone d. induction todo as [|r todo IH]; intros gone d Hi Ed; cbn [dedup_routes] in Ed.
  - apply ret_Ok in Ed as [_ ->]. destruct Hi. split_and!; [done| |by intros Hcan].
    intros row Hr. destruct (li_rows0 row Hr) as [[]%elem_of_nil|[_ Ha]]. exact Ha.
  - destruct (existsb _ gone) eqn:Eg.
    + apply existsb_elem in Eg as (i & Hg & Ei%Z.eqb_eq). apply (IH gone d); [|done]. eapply loop_skip; [exact Hi|by rewrite Ei].
    + apply bind_Ok in Ed as (deleted & d1 & E1 & Ed). destruct (li_there _ _ _ Hi r ltac:(by left)) as [Hg|(row0 & Hrow & Er)].
      { apply not_true_iff_false in Eg. destruct Eg. apply existsb_elem. exists (V16Route_Id r). split; [done|apply Z.eqb_refl]. }
      apply dedup_route_Ok in E1; [|exact (li_ids _ _ _ Hi)]. pose proof (step_inv r row0 todo gone deleted d d1 Hi Hrow Er E1) as Hi1.
      destruct (IH _ _ Hi1 Ed) as (H1 & H2 & H3). split_and!; [done..|]. intros Hcan.
      assert (keys_canonical d1) as Hcan1 by (by eapply step_canonical). destruct (H3 Hcan1) as [H4 H5]. split; [done|]. intros Hsha Hs vh key Hc.
      apply H5; [done|by eapply step_single|by eapply step_covers].
Qed.
Lemma delete_routes_Ok l d d' : for_each l (fun r => delete_route (V16Route_Id r)) d = (Ok tt, d') ->
  mig_routes d' = List.filter (fun row => negb (listed l (V16Route_Id (row_route row)))) (mig_routes d) /\ mig_matchers d' = mig_matchers d.
Proof.
  revert d. induction l as [|r l IH]; intros d Ed; cbn [for_each] in Ed.
  - injection Ed as <-. split; [symmetry; apply filter_every|done].
  - run_ok Ed. destruct a. apply delete_route_Ok in E0 as (Er & Em & _). destruct (IH w Ed) as [Er' Em']. rewrite Er', Er, Em', filter_filter_negb. split; [|done].
    apply filter_ext. intros row. cbn. rewrite Z.eqb_sym. by destruct (_ =? _)%Z.
Qed.

Definition config_server (row : RouteRow) : bool := String.eqb (V16Route_Prefix (row_route row)) "/api/v1/config-server/".
Lemma removeConfigServerRoutes_Ok d d' : NoDup (route_ids d) -> removeConfigServerRoutes row_order d = (Ok tt, d') ->
  (forall row, row ∈ mig_routes d' <-> row ∈ mig_routes d /\ config_server row = false) /\ (forall row, loaded d' row = loaded d row) /\ NoDup (route_ids d').
Proof.
  intros Hnd Ed. unfold removeConfigServerRoutes in Ed. fold config_server in Ed. apply bind_Ok in Ed as (l & d1 & E1 & Ed).
  apply select_routes_Ok in E1 as (Ht & Hp). destruct (tables_routes _ _ Ht) as (Er1 & Em1 & _). apply delete_routes_Ok in Ed as (Er & Em). rewrite Er1 in Er.
  assert (forall row, row ∈ mig_routes d -> listed l (V16Route_Id (row_route row)) = config_server row) as Hl.
  { intros row Hr. apply eq_true_iff_eq. rewrite listed_spec, list_elem_of_fmap. setoid_rewrite (perm_elem _ _ _ Hp). setoid_rewrite list_elem_of_In.
    setoid_rewrite in_map_iff. setoid_rewrite filter_In. setoid_rewrite <- list_elem_of_In. split.
    - intros (x & Ei & row1 & <- & Hr1 & Hc). by rewrite (route_ids_inj d row row1).
    - intros Hc. exists (loaded d row). split; [done|]. by exists row. }
  split_and!.
  - intros row. rewrite Er, elem_of_filter_bool, negb_true_iff. split; intros [Hr Hc]; (split; [done|]); by rewrite Hl in *.
  - intros row. unfold loaded, matchers_of. by rewrite Em, Em1.
  - unfold route_ids. rewrite Er. eapply sublist_NoDup; [exact Hnd|]. apply fmap_sublist. clear. induction (mig_routes d) as [|r rs IH]; cbn; [constructor|].
    destruct (negb _); by constructor.
Qed.

(** C30: Migration 132.  When it succeeds, two routes of one virtual host with the
    same key are one route, as far as their keys are those of what they match.
    If all keys are such before, they are so after it - of the shortened
    prefixes - and every route that is not the config server's has one left that
    matches the same but for a slash at the end, when SHA-256 does not collide
    and no prefix ends in two slashes.  When it fails nothing changes.  A route
    whose key is not that of what it matches, as migration 27 leaves them, is
    not told from another with the same key ([migration132_stale_keys]). *)
Theorem migration132_unique d r d' : NoDup (route_ids d) -> migration132 row_order d = (r, d') ->
  match r with
  | Ok _ =>
      (forall x y, x ∈ mig_routes d' -> y ∈ mig_routes d' -> canonical d' x -> canonical d' y ->
         row_vh x = row_vh y -> row_key x = row_key y -> x = y) /\
      (keys_canonical d -> keys_canonical d' /\
        ((forall m m', no_collision m m') -> single_slash d -> forall row, row ∈ mig_routes d -> config_server row = false ->
          exists row', row' ∈ mig_routes d' /\ row_vh row' = row_vh row /\ class_of (loaded d' row') = class_of (loaded d row)))
  | _ => tables d' = tables d
  end.
Proof.
  intros Hnd E0. unfold migration132 in E0. destruct r as [[]|e|p]; [|by eapply RunInTx_rollback..].
  apply RunInTx_Ok in E0 as (d1 & d2 & Ht & Er & Ht'). apply bind_Ok in Er as ([] & a & Ea & Er).
  unfold removeDuplicateRoutes in Er. apply bind_Ok in Er as (l & b & Eb & Er). apply select_routes_Ok in Eb as (Htb & Hp).
  destruct (tables_routes _ _ Ht) as (Er1 & Em1 & _), (tables_routes _ _ Ht') as (Er2 & Em2 & _), (tables_routes _ _ Htb) as (Erb & Emb & _).
  apply removeConfigServerRoutes_Ok in Ea as (Hra & Hla & Hna); [|unfold route_ids; by rewrite Er1]. rewrite Er1 in Hra.
  assert (forall row, loaded b row = loaded d row) as Hlb.
  { intros row. transitivity (loaded a row); [unfold loaded, matchers_of; by rewrite Emb|]. rewrite Hla. unfold loaded, matchers_of. by rewrite Em1. }
  assert (forall row, loaded d' row = loaded d2 row) as Hl2 by (intros row; unfold loaded, matchers_of; by rewrite Em2).
  assert (forall row, row ∈ mig_routes b <-> row ∈ mig_routes d /\ config_server row = false) as Hrb by (intros row; by rewrite Erb, Hra).
  assert (forall x, x ∈ l <-> exists row, row ∈ mig_routes b /\ loaded b row = x) as Hl.
  { assert (forall row, loaded b row = loaded a row) as Hab by (intros row; unfold loaded, matchers_of; by rewrite Emb).
    intros x. rewrite (perm_elem _ _ _ Hp), filter_every, list_elem_of_In, in_map_iff, <- Erb. setoid_rewrite <- list_elem_of_In. setoid_rewrite Hab.
    split; intros (row & H1 & H2); by exists row. }
  assert (loop_inv l [] b) as Hi.
  { constructor.
    - unfold route_ids. rewrite Erb. exact Hna.
    - change (NoDup (map V16Route_Id l)). rewrite (Permutation_map _ Hp), map_map, filter_every. exact Hna.
    - intros row _. apply not_elem_of_nil.
    - intros row Hr. left. apply Hl. by exists row.
    - intros x Hx. right. by apply Hl. }
  destruct (dedup_routes_Ok l [] b d2 Hi Er) as (_ & Ha & Hcov). rewrite Er2.
  assert (forall row, canonical d' row <-> canonical d2 row) as Hcan2 by (intros row; unfold canonical; by rewrite Hl2).
  split.
  - intros x y Hx Hy Hcx Hcy Ev Ek. apply (Ha y); [done|by apply Hcan2|done|by apply Hcan2|done..].
  - intros Hcan. destruct Hcov as [Hc Hcov].
    { intros row Hr. unfold canonical. rewrite Hlb. apply Hcan. by apply Hrb. }
    split; [intros row Hr; rewrite Er2 in Hr; apply Hcan2; by apply Hc|].
    intros Hsha Hs row Hr Hn. destruct (Hcov Hsha) with (vh := row_vh row) (key := class_of (loaded d row)) as (row' & H1 & H2 & H3).
    + intros z Hz. apply Hs. by apply Hrb.
    + exists row. split; [by apply Hrb|]. by rewrite Hlb.
    + exists row'. by rewrite Hl2.
Qed.

(** ** Migration 141 *)

(** The rows have different keys. *)
Fixpoint registry_keys (l : list V141MicroserviceVersion) : Prop :=
  match l with [] => True | v :: rest => (forall x, x ∈ rest -> same_microservice v x = false) /\ registry_keys rest end.
Lemma same_microservice_sym a b : same_microservice a b = same_microservice b a.
Proof. unfold same_microservice. by rewrite (String.eqb_sym (V141MicroserviceVersion_Name a)), (String.eqb_sym (V141MicroserviceVersion_Namespace a)), (String.eqb_sym (V141MicroserviceVersion_InitialDeploymentVersion a)). Qed.
Lemma same_microservice_refl a : same_microservice a a = true.
Proof. unfold same_microservice. by rewrite !String.eqb_refl. Qed.
Lemma registry_keys_snoc l v : registry_keys l -> existsb (same_microservice v) l = false -> registry_keys (l ++ [v]).
Proof.
  induction l as [|x l IH]; cbn; [intros _ _; split; [by intros ? []%elem_of_nil|done]|]. intros [Hx Hl] [Hv He]%orb_false_iff. split; [|by apply IH].
  intros y [Hy|Hy]%elem_of_app; [by apply Hx|]. apply list_elem_of_singleton in Hy as ->. by rewrite same_microservice_sym.
Qed.
(** The registry grows by entries of the endpoints, with new keys. *)
Definition registers (from : V141MicroserviceVersion -> Prop) (d d' : MigDb) : Prop :=
  (exists added, mig_registry d' = (mig_registry d ++ added)%list /\ forall v, v ∈ added -> from v) /\
  (registry_keys (mig_registry d) -> registry_keys (mig_registry d')) /\
  mig_clusters d' = mig_clusters d /\ mig_endpoints d' = mig_endpoints d /\ mig_routes d' = mig_routes d.
Definition registered (v : V141MicroserviceVersion) (d : MigDb) : Prop := exists x, x ∈ mig_registry d /\ same_microservice v x = true.
Lemma registers_refl from d : registers from d d.
Proof. split; [exists []; split; [by rewrite app_nil_r|by intros ? []%elem_of_nil]|done]. Qed.
Lemma registers_trans from d d1 d2 : registers from d d1 -> registers from d1 d2 -> registers from d d2.
Proof.
  intros ((l & El & Hl) & Hk & E1 & E2 & E3) ((l' & El' & Hl') & Hk' & E1' & E2' & E3').
  split; [|split; [by auto|rewrite E1', E2', E3'; done]]. exists (l ++ l')%list. split; [by rewrite El', El, app_assoc|].
  intros v [?|?]%elem_of_app; auto.
Qed.
Lemma registered_mono from v d d' : registers from d d' -> registered v d -> registered v d'.
Proof. intros ((l & El & _) & _) (x & Hx & Es). exists x. rewrite El. split; [apply elem_of_app; by left|done]. Qed.
Lemma insert_registers v (from : V141MicroserviceVersion -> Prop) d d' : from v -> insertMicroserviceVersionIfNotExist v d = (Ok tt, d') ->
  registers from d d' /\ registered v d'.
Proof.
  intros Hv Ei. unfold insertMicroserviceVersionIfNotExist in Ei. apply bind_Ok in Ei as (b & d1 & Eb & Ei).
  apply sql_statement_Ok in Eb as (d2 & Ht & [= <- <-]).
  pose proof (f_equal mig_registry Ht : mig_registry d2 = mig_registry d) as Er. pose proof (f_equal mig_clusters Ht : mig_clusters d2 = mig_clusters d) as Ec.
  pose proof (f_equal mig_endpoints Ht : mig_endpoints d2 = mig_endpoints d) as Ee. pose proof (f_equal mig_routes Ht : mig_routes d2 = mig_routes d) as Ero.
  destruct (existsb _ _) eqn:Ex.
  - injection Ei as <-. split.
    + split; [exists []; split; [by rewrite app_nil_r|by intros ? []%elem_of_nil]|]. by rewrite Er, Ec, Ee, Ero.
    + apply existsb_elem in Ex as (x & Hx & Es). by exists x.
  - apply sql_exec_Ok in Ei as (d3 & Ht3 & ->).
    pose proof (f_equal mig_registry Ht3 : mig_registry d3 = mig_registry d2) as Er3. pose proof (f_equal mig_clusters Ht3 : mig_clusters d3 = mig_clusters d2) as Ec3.
    pose proof (f_equal mig_endpoints Ht3 : mig_endpoints d3 = mig_endpoints d2) as Ee3. pose proof (f_equal mig_routes Ht3 : mig_routes d3 = mig_routes d2) as Ero3.
    split; [split|].
    + exists [v]. cbn. rewrite Er3, Er. split; [done|]. by intros x ->%list_elem_of_singleton.
    + cbn. rewrite Er3, Ec3, Ee3, Ero3, Ec, Ee, Ero. split; [|done]. rewrite Er in *. intros Hk. by apply registry_keys_snoc.
    + exists v. cbn. split; [apply elem_of_app; right; by left|apply same_microservice_refl].
Qed.
(** The endpoints of the clusters, with their clusters. *)
Definition cluster_endpoint (d : MigDb) (c : ClusterRow) (e : V19Endpoint) : Prop :=
  c ∈ mig_clusters d /\ (exists row, row ∈ mig_endpoints d /\ row_endpoint row = e) /\ V19Endpoint_ClusterId e = cl_Id c.

(** Migration 141 enters every endpoint of every cluster into the registry of
    versions, under the family and the namespace of the cluster and the version
    the endpoint was first registered in; it adds nothing else, changes no
    entry, adds none that has its key already - or changes nothing. *)
Theorem migration141_registers d r d' : migration141 row_order d = (r, d') ->
  match r with
  | Ok _ => registers (fun v => exists c e, cluster_endpoint d c e /\ v = registry_entry c e) d d' /\
            forall c e, cluster_endpoint d c e -> registered (registry_entry c e) d'
  | _ => tables d' = tables d
  end.
Proof.
  intros E0. unfold migration141 in E0. destruct r as [[]|e|p]; [|by eapply RunInTx_rollback..].
  apply RunInTx_Ok in E0 as (d1 & d2 & Ht & Er & Ht'). unfold initBlueGreenVersionsRegistry, select_clusters in Er.
  apply bind_Ok in Er as (l & d3 & E3 & Er). apply sql_select_Ok in E3 as (n & Ht3 & ->). rewrite Ht in Ht3.
  set (from := fun v => exists c e, cluster_endpoint d c e /\ v = registry_entry c e).
  set (raw := map _ (mig_clusters d3)) in Er. set (clusters := row_order n _ raw) in Er.
  assert (clusters ≡ₚ raw) as Hperm by apply row_order_perm.
  assert (forall c es, (c, es) ∈ clusters -> c ∈ mig_clusters d /\ forall e, e ∈ es <-> cluster_endpoint d c e) as Hcl.
  { intros c es Hc. apply (perm_elem _ _ _ Hperm) in Hc. apply list_elem_of_In, in_map_iff in Hc as (c0 & [= -> <-] & Hc%list_elem_of_In).
    pose proof (f_equal mig_clusters Ht3 : mig_clusters d3 = mig_clusters d) as Ecl. pose proof (f_equal mig_endpoints Ht3 : mig_endpoints d3 = mig_endpoints d) as Een.
    rewrite Ecl in Hc. split; [done|]. intros e. rewrite elem_of_filter_bool, Z.eqb_eq, list_elem_of_In, in_map_iff, Een. setoid_rewrite <- list_elem_of_In.
    unfold cluster_endpoint. split; [intros [(row & H1 & H2) H3]; split; [done|]; split; [by exists row|done]|intros (_ & (row & H1 & H2) & H3); split; [by exists row|done]]. }
  destruct (for_each_Ok clusters _ (fun s => registers from d3 s) (fun c s => forall e, e ∈ c.2 -> registered (registry_entry c.1 e) s) d3 d2 Er) as (Hr & _ & Hq).
  - apply registers_refl.
  - intros [c es] s1 s2 Hc Hs1 Ef. cbn [fst snd] in *. destruct (Hcl c es Hc) as [_ Hes].
    destruct (for_each_Ok es _ (fun s => registers from s1 s) (fun e s => registered (registry_entry c e) s) s1 s2 Ef) as (Hr & Hk & Hq).
    + apply registers_refl.
    + intros e t1 t2 He Ht1 Ei. destruct (insert_registers (registry_entry c e) from t1 t2) as [Hr Hd]; [exists c, e; split; [by apply Hes|done]|done|].
      split; [by eapply registers_trans|]. split; [done|]. intros b. by apply (registered_mono from).
    + split; [by eapply registers_trans|]. split; [exact Hq|]. intros b Hb e He. apply (registered_mono from (registry_entry b.1 e) s1 s2); auto.
  - assert (registers from d d') as Hrd.
    { destruct Hr as ((added & Ea & Ha) & Hk & Ec & Ee & Ero). pose proof (f_equal mig_registry Ht3 : mig_registry d3 = mig_registry d) as Er3.
      pose proof (f_equal mig_registry Ht' : mig_registry d' = mig_registry d2) as Er'. unfold registers. rewrite Er', <- Er3. split; [by exists added|]. split; [done|].
      split; [exact (eq_trans (f_equal mig_clusters Ht') (eq_trans Ec (f_equal mig_clusters Ht3)))|].
      split; [exact (eq_trans (f_equal mig_endpoints Ht') (eq_trans Ee (f_equal mig_endpoints Ht3)))|exact (eq_trans (f_equal mig_routes Ht') (eq_trans Ero (f_equal mig_routes Ht3)))]. }
    split; [done|]. intros c e Hce. destruct Hce as (Hc & Hce).
    assert (exists es, (c, es) ∈ clusters) as [es Hes].
    { eexists. apply (perm_elem _ _ _ Hperm), list_elem_of_In, in_map_iff. exists c. split; [reflexivity|]. apply list_elem_of_In.
      exact (eq_ind_r (fun l => c ∈ l) Hc (f_equal mig_clusters Ht3)). }
    destruct (Hcl c es Hes) as [_ He]. destruct (Hq (c, es) Hes e) as (x & Hx & Es); [apply He; by split|]. exists x. split; [|done].
    exact (eq_ind_r (fun l => x ∈ l) Hx (f_equal mig_registry Ht')).
Qed.
End statements.

(** * Regular expressions of migration 18 *)

(** No "(.*)" is left, and none appears where texts are joined. *)
Definition wildcard : string := "(.*)".
Lemma prefix_wildcard s : String.prefix wildcard s = true -> exists t, s = String "(" (String "." (String "*" (String ")" t))).
Proof. intros [t ->]%prefix_spec. by exists t. Qed.
Lemma wildcard_prefix t : String.prefix wildcard (String "(" (String "." (String "*" (String ")" t)))) = true.
Proof. apply prefix_spec. by exists t. Qed.
Lemma Contains_cons c s sub : sub <> "" -> strings_Contains (String c s) sub = String.prefix sub (String c s) || strings_Contains s sub.
Proof. intros Hs. unfold strings_Contains. rewrite Index_unfold. destruct (String.prefix _ _); [done|]. by destruct (strings_Index s sub). Qed.
Lemma replace_wildcards s : strings_Contains (replace_all 0 s wildcard "([^/]+)") wildcard = false.
Proof.
  assert (forall n s, (String.length s <= n)%nat -> strings_Contains (replace_all 0 s wildcard "([^/]+)") wildcard = false) as H; [|by apply (H (String.length s))].
  induction n as [|n IH]; intros [|c s0] Hl; try done; cbn [String.length] in Hl; [lia|]. cbn [replace_all].
  destruct (String.prefix wildcard (String c s0)) eqn:Ep.
  - apply prefix_wildcard in Ep as [t [= -> ->]]. cbn in Hl.
    change (replace_all (String.length wildcard - 1) _ wildcard "([^/]+)") with (replace_all 0 t wildcard "([^/]+)").
    cbn [String.append]. rewrite !Contains_cons by done. rewrite IH by lia. by rewrite !orb_false_r.
  - rewrite Contains_cons by done. rewrite IH by lia. rewrite orb_false_r. apply not_true_iff_false. intros [t Ht]%prefix_wildcard.
    injection Ht as -> Ht. assert (forall x u, replace_all 0 x wildcard "([^/]+)" = String "." u -> exists x', x = String "." x' /\ replace_all 0 x' wildcard "([^/]+)" = u) as H1.
    { intros [|a x] u; [done|]. cbn [replace_all]. destruct (String.prefix wildcard (String a x)); [done|]. intros [= -> <-]. by exists x. }
    assert (forall x u, replace_all 0 x wildcard "([^/]+)" = String "*" u -> exists x', x = String "*" x' /\ replace_all 0 x' wildcard "([^/]+)" = u) as H2.
    { intros [|a x] u; [done|]. cbn [replace_all]. destruct (String.prefix wildcard (String a x)); [done|]. intros [= -> <-]. by exists x. }
    assert (forall x u, replace_all 0 x wildcard "([^/]+)" = String ")" u -> exists x', x = String ")" x') as H3.
    { intros [|a x] u; [done|]. cbn [replace_all]. destruct (String.prefix wildcard (String a x)); [done|]. intros [= -> <-]. by exists x. }
    apply H1 in Ht as (x1 & -> & Ht). apply H2 in Ht as (x2 & -> & Ht). apply H3 in Ht as (x3 & ->).
    pose proof (wildcard_prefix x3). congruence.
Qed.
Lemma Contains_prefix_of u v sub : strings_Contains (u ++ v) sub = false -> strings_Contains u sub = false.
Proof.
  intros Hn. apply not_true_iff_false. intros (a & b & ->)%Contains_spec. apply not_true_iff_false in Hn. apply Hn, Contains_spec.
  exists a, (b ++ v). by rewrite !str_app_assoc.
Qed.
Lemma trim_slashes_prefix s : exists t, s = trim_slashes s ++ t.
Proof.
  unfold trim_slashes. assert (forall u, exists t, u = t ++ trim_slashes_left u) as H.
  { induction u as [|c u IH]; [by exists ""|]. cbn. destruct (Ascii.eqb c "/"); [|by exists ""]. destruct IH as [t Ht]. exists (String c t). cbn. by rewrite <- Ht. }
  destruct (H (str_rev s)) as [t Ht]. exists (str_rev t). rewrite <- str_rev_app_distr, <- Ht. by rewrite str_rev_involutive.
Qed.
Lemma Contains_tail u : strings_Contains u wildcard = false -> strings_Contains (u ++ "(/.*)?") wildcard = false.
Proof.
  induction u as [|c u IH]; intros Hn; [reflexivity|]. cbn [String.append]. rewrite Contains_cons in Hn |- * by done. apply orb_false_iff in Hn as [Hp Hn].
  rewrite IH, orb_false_r by done. apply not_true_iff_false. intros [t Ht]%prefix_wildcard. injection Ht as -> Ht.
  destruct u as [|c1 u]; [discriminate Ht|]. cbn in Ht. injection Ht as -> Ht. destruct u as [|c2 u]; [discriminate Ht|]. cbn in Ht. injection Ht as -> Ht.
  destruct u as [|c3 u]; [discriminate Ht|]. cbn in Ht. injection Ht as -> Ht.
  change (String.prefix wildcard (String "(" (String "." (String "*" (String ")" u)))) = false) in Hp. rewrite wildcard_prefix in Hp. discriminate Hp.
Qed.
Lemma Count_absent s sub : sub <> "" -> strings_Contains s sub = false -> strings_Count s sub = 0.
Proof.
  intros Hs. unfold strings_Count. induction s as [|c s IH]; [done|]. rewrite Contains_cons by done. intros [Hp Hn]%orb_false_iff.
  cbn [count_from]. rewrite Hp. auto.
Qed.

(** Migration 18 makes of a regular expression one without wildcards that ends
    in a group for the rest of the path; doing it again changes nothing. *)
Theorem processRegexp_normal r : 0 < strings_Count (V16Route_Regexp r) wildcard ->
  strings_Contains (V16Route_Regexp (processRegexp r)) wildcard = false /\ (exists u, V16Route_Regexp (processRegexp r) = u ++ "(/.*)?") /\
  processRegexp (processRegexp r) = processRegexp r.
Proof.
  intros Hc. unfold wildcard in Hc. assert (strings_Contains (V16Route_Regexp (processRegexp r)) wildcard = false /\ exists u, V16Route_Regexp (processRegexp r) = u ++ "(/.*)?") as [H1 H2].
  { unfold processRegexp. destruct (String.eqb_spec (V16Route_Regexp r) "") as [E0|_]; [rewrite E0 in Hc; cbn in Hc; lia|].
    destruct (Nat.eqb_spec (strings_Count (V16Route_Regexp r) "(.*)") 0) as [E0|_]; [lia|]. cbn [V16Route_Regexp]. split; [|by eexists].
    apply Contains_tail. destruct (trim_slashes_prefix (strings_ReplaceAll (V16Route_Regexp r) "(.*)" "([^/]+)")) as [t Ht].
    apply (Contains_prefix_of _ t). rewrite <- Ht. apply replace_wildcards. }
  split; [done|]. split; [done|]. unfold processRegexp at 1. destruct (String.eqb _ ""); [done|].
  rewrite (Count_absent _ "(.*)") by done. done.
Qed.

(** * Witnesses *)

Definition keep_order (n : nat) (A : Type) (l : list A) : list A := l.
Definition keep_entries (A : Type) (l : list A) : list A := l.
Definition example_route (id : Z) (key prefix regexp : string) : V16Route :=
  (zero : V16Route) <| V16Route_Id := id |> <| V16Route_VirtualHostId := 1%Z |> <| V16Route_RouteKey := key |>
    <| V16Route_Prefix := prefix |> <| V16Route_Regexp := regexp |> <| V16Route_DeploymentVersion := "v1" |>
    <| V16Route_InitialDeploymentVersion := "v1" |>.
Definition example_db (routes : list RouteRow) : MigDb :=
  mkMigDb routes [] [mkClusterRow 1 "orders||orders.ns2||8080" 0; mkClusterRow 2 "stock||stock||8080" 0]
    [mkEndpointRow (mkV19Endpoint 1 "orders-v1" 8080 1 "v1" "v1") None; mkEndpointRow (mkV19Endpoint 2 "orders-v2" 8080 1 "v2" "v2") None;
     mkEndpointRow (mkV19Endpoint 3 "stock-v1" 8080 2 "v2" "v1") None]
    [] [mkVersionRow "gateway" "route_configurations" 5] [] [] [mkV141MicroserviceVersion "orders" "ns2" "v1" "v1"] [] 0.
(** Two regular expressions that become one, and a route without. *)
Definition example18 : MigDb := example_db
  [mkRouteRow (example_route 1 "k1" "" "/a/(.*)") false true false;
   mkRouteRow (example_route 2 "k2" "" "/a/([^/]+)(/.*)?") false true false;
   mkRouteRow (example_route 3 "k3" "/b" "") true true false].
Lemma keep_order_perm n A (l : list A) : keep_order n A l ≡ₚ l.
Proof. done. Qed.
Lemma keep_entries_perm A (l : list A) : keep_entries A l ≡ₚ l.
Proof. done. Qed.
Lemma migration18_deduplicates_witness : let '(r, d') := migration18 (H256 := identity_digest) keep_order keep_entries 9 example18 in
  r = Ok tt /\ route_ids d' = [1; 3]%Z /\ keys_unique d'.
Proof.
  assert (NoDup (route_ids example18)) as Hnd by (apply (bool_decide_unpack _); vm_compute; exact I).
  pose proof (migration18_deduplicates (H256 := identity_digest) keep_order keep_entries 9 keep_order_perm keep_entries_perm example18) as T.
  assert (match migration18 (H256 := identity_digest) keep_order keep_entries 9 example18 with
          | (Ok tt, d') => bool_decide (route_ids d' = [1; 3]%Z) | _ => false end = true) as Hc by (vm_compute; reflexivity).
  destruct (migration18 (H256 := identity_digest) keep_order keep_entries 9 example18) as [[[]|e|p] d'] eqn:Er; try discriminate Hc.
  specialize (T _ _ Hnd eq_refl) as (_ & T & _). split; [reflexivity|]. split; [exact (bool_decide_eq_true_1 _ Hc)|exact T].
Defined.

Definition keyed (r : V16Route) : RouteRow := mkRouteRow (r <| V16Route_RouteKey := V132_GenerateKey (H256 := identity_digest) r |>) false true false.
(** A prefix with and without a slash, another prefix, and the config server's. *)
Definition example132 : MigDb := example_db
  [keyed (example_route 1 "" "/a/" ""); keyed (example_route 2 "" "/a" ""); keyed (example_route 3 "" "/b/" "");
   keyed (example_route 4 "" "/api/v1/config-server/" "")].
Lemma migration132_unique_witness : let '(r, d') := migration132 (H256 := identity_digest) keep_order example132 in
  r = Ok tt /\ route_ids d' = [1; 3]%Z /\ keys_canonical (H256 := identity_digest) d' /\
  (forall x y, x ∈ mig_routes d' -> y ∈ mig_routes d' -> row_vh x = row_vh y -> row_key x = row_key y -> x = y).
Proof.
  assert (NoDup (route_ids example132)) as Hnd by (apply (bool_decide_unpack _); vm_compute; exact I).
  assert (keys_canonical (H256 := identity_digest) example132) as Hcan.
  { intros row Hr. apply list_elem_of_In in Hr. cbn [In mig_routes example132 example_db] in Hr.
    destruct Hr as [<-|[<-|[<-|[<-|[]]]]]; vm_compute; reflexivity. }
  pose proof (migration132_unique (H256 := identity_digest) keep_order keep_order_perm example132) as T.
  assert (match migration132 (H256 := identity_digest) keep_order example132 with
          | (Ok tt, d') => bool_decide (route_ids d' = [1; 3]%Z) | _ => false end = true) as Hc by (vm_compute; reflexivity).
  destruct (migration132 (H256 := identity_digest) keep_order example132) as [[[]|e|p] d'] eqn:Er; try discriminate Hc.
  specialize (T _ _ Hnd eq_refl) as (T1 & T2). destruct (T2 Hcan) as [T3 _]. split; [reflexivity|]. split; [exact (bool_decide_eq_true_1 _ Hc)|].
  split; [exact T3|]. intros x y Hx Hy. exact (T1 x y Hx Hy (T3 x Hx) (T3 y Hy)).
Defined.

Lemma migration141_registers_witness : let '(r, d') := migration141 (E := witness_env) keep_order (example_db []) in
  r = Ok tt /\ length (mig_registry d') = 3%nat /\
  registered (mkV141MicroserviceVersion "orders" "ns2" "v2" "v2") d' /\ registry_keys (mig_registry d').
Proof.
  pose proof (migration141_registers (E := witness_env) keep_order keep_order_perm (example_db [])) as T.
  assert (match migration141 (E := witness_env) keep_order (example_db []) with (Ok tt, d') => (length (mig_registry d') =? 3)%nat | _ => false end = true) as Hc by (vm_compute; reflexivity).
  destruct (migration141 (E := witness_env) keep_order (example_db [])) as [[[]|e|p] d'] eqn:Er; try discriminate Hc.
  specialize (T _ _ eq_refl) as ((_ & T & _) & Hall). split; [reflexivity|]. split; [exact (proj1 (Nat.eqb_eq _ _) Hc)|]. split.
  - apply (Hall (mkClusterRow 1 "orders||orders.ns2||8080" 0) (mkV19Endpoint 2 "orders-v2" 8080 1 "v2" "v2")). unfold cluster_endpoint. split; [left|split; [|reflexivity]].
    eexists. split; [right; left|reflexivity].
  - apply T. cbn. split; [intros x Hx; inversion Hx|exact I].
Defined.

(** * What the code does *)

Definition rows_of (p : prog MigDb unit) (d : MigDb) : result unit * list (Z * string * string * string * string) :=
  let '(r, d') := p d in
  (r, map (fun row => (V16Route_Id (row_route row), V16Route_Prefix (row_route row), V16Route_Regexp (row_route row),
                       V16Route_DeploymentVersion (row_route row), V16Route_RouteKey (row_route row))) (mig_routes d')).
(** Migration 7 takes the versions of every stage for candidates: without a
    candidate the legacy version gets a route that forbids, and even the active
    one is compared with itself; the keys that are compared end in the version. *)
Example migration7_every_version :
  rows_of (migration7 keep_order keep_entries)
    ((example_db [mkRouteRow (example_route 1 "/a||v1" "/a" "") false true false;
                  mkRouteRow ((example_route 2 "/a||v0" "/a" "") <| V16Route_DeploymentVersion := "v0" |>) false true false])
       <| mig_deployments := [mkV19DeploymentVersion "v1" "ACTIVE"; mkV19DeploymentVersion "v0" "LEGACY"] |>) =
  (Ok tt, [(1, "/a", "", "v1", "/a||v1"); (2, "/a", "", "v0", "/a||v0"); (3, "/a", "", "v0", "/a||v0")]%Z).
Proof. vm_compute. reflexivity. Qed.
(** Migration 27 changes regular expressions and leaves the keys. *)
Example migration27_stale_key :
  rows_of (migration27 keep_order 9) (example_db [mkRouteRow (example_route 1 "k1" "" "/a/.*(/.*)?") false true false]) =
  (Ok tt, [(1, "", "/a/([^/]+)(/.*)?", "v1", "k1")]%Z).
Proof. vm_compute. reflexivity. Qed.
(** Migration 132 leaves two routes of one virtual host with the same match and
    the same key, when that is not the key of what they match. *)
Example migration132_stale_keys :
  rows_of (migration132 (H256 := identity_digest) keep_order)
    (example_db [mkRouteRow (example_route 1 "k1" "/a" "") false true false; mkRouteRow (example_route 2 "k1" "/a" "") false true false]) =
  (Ok tt, [(1, "/a", "", "v1", "k1"); (2, "/a", "", "v1", "k1")]%Z).
Proof. vm_compute. reflexivity. Qed.
(** Migration 132 makes of the prefix "/" the empty one. *)
Example migration132_root :
  (rows_of (migration132 (H256 := identity_digest) keep_order) (example_db [keyed (example_route 1 "" "/" "")])).2.*1.*1 =
  [(1, "", "")]%Z.
Proof. vm_compute. reflexivity. Qed.
(** Migration 19 deletes both endpoints of an address whose versions are not active. *)
Example migration19_both_deleted :
  mig_endpoints (removeEndpointsDuplicate keep_order keep_entries (mkV19DeploymentVersion "v3" "ACTIVE")
    ((example_db []) <| mig_endpoints := [mkEndpointRow (mkV19Endpoint 1 "a" 8080 1 "v1" "v1") None; mkEndpointRow (mkV19Endpoint 2 "a" 8080 1 "v2" "v1") None] |>)).2 = [].
Proof. vm_compute. reflexivity. Qed.
(** The record of migration 17 takes the id of 18; later ones move on. *)
Example record17 :
  writeMigration17ToTable [mkMigrationRecord 1 "00000000000016"; mkMigrationRecord 2 "00000000000018"; mkMigrationRecord 3 "00000000000019"] =
  (Ok tt, [mkMigrationRecord 1 "00000000000016"; mkMigrationRecord 3 "00000000000018"; mkMigrationRecord 4 "00000000000019"; mkMigrationRecord 2 "00000000000017"])%Z.
Proof. vm_compute. reflexivity. Qed.
