(* ===== verification/Controllers.v ===== *)
(** The handlers of the REST API ([restcontrollers]), the errors they answer
    with ([errorcodes]) and the checks before them.

    The body of a request is given as [json.Unmarshal] leaves it: a value, or
    no value.  A handler ends with a reply (status and payload), or with an
    error, which the server turns into a reply by its code, or panics.
    Messages are those of the code, without the values it prints with [%v].
    [Proxy] decides which node handles a request, and answers the probes.  The
    answers that are made of responses ([GetClusters], [GetVirtualService] and
    the like) are in [Views].  Not modelled: logging, the reading of headers,
    certificates. *)
From S2P Require Import Persistence.
From S2P Require Import Prelude GoLib Domain Tables MemDb Msaddr Events RouteKey Runtime Dao Entity RegCommon Format RouteCreation Dto Requests.
From S2P Require Import Registration Util RouteServices LoadBalance StatefulSessions Validation Registry VersionState BlueGreen Gateways RateLimits HttpFilters.
From S2P Require Import ActiveDCs Composite DebugValidate.
From Stdlib Require Import Ascii.
Import Prelude.
Open Scope string_scope.

(** * Errors ([errorcodes]) *)

Definition OkErrorCode := "CORE-MESH-CP-0000".
Definition OperationOnArchivedVersionError := "CORE-MESH-CP-0002".
Definition CompositeConflictError := "CORE-MESH-CP-0004".
Definition MultiCauseApplyConfigError := "CORE-MESH-CP-2002".
Definition ApplyConfigError := "CORE-MESH-CP-2003".
Definition UnmarshalRequestError := "CORE-MESH-CP-4000".
Definition PhantomModeError := "CORE-MESH-CP-8000".
Definition StatusMasterNodeUnavailable : Z := 521.
(** The status of an error with that code; one that is not of these answers
    500 ([GetCpErrCodeErrorOrNil]). *)
Definition GetHttpCode (code : string) : Z :=
  if bool_decide (code ∈ [BlueGreenConflictError; OperationOnArchivedVersionError; CompositeConflictError]) then 409%Z
  else if String.eqb code NotFoundEntityError then 404%Z
  else if String.eqb code MasterNodeError then StatusMasterNodeUnavailable
  else if String.eqb code UnmarshalRequestError || String.eqb code ValidationRequestError then 400%Z
  else if String.eqb code PhantomModeError then 503%Z
  else 500%Z.
(** [GetCpErrCodeErrorOrNil]: the first error with a code of the chain. *)
Fixpoint GetCpErrCodeErrorOrNil (e : error) : option (string * string) :=
  match e with
  | ErrCp code msg => Some (code, msg)
  | ErrWrap _ e => GetCpErrCodeErrorOrNil e
  | _ => None
  end.
(** [errors.Is] for a target that is no error of go-errors: also when it is
    wrapped. *)
Fixpoint errors_Is (e target : error) : bool :=
  bool_decide (e = target) || match e with ErrWrap _ e' => errors_Is e' target | _ => false end.
(** [==], and [errors.Is] of the standard library for a target made by
    go-errors: wrapping copies what is in the target, not the target. *)
Definition same_error (e target : error) : bool := bool_decide (e = target).

(** * Replies *)

Inductive Payload : Type :=
  | PNil
  | PError (msg : string)
  | PErrorOf (e : error)                    (* the text of an error *)
  | PMessage (msg : string)
  | PNotFound                               (* the page of the server *)
  | PVersionName (version : string)
  | PRoute (r : Route)
  | PRoutes (l : list Route)
  | PEndpoints (l : list Endpoint)
  | PVersion (v : DeploymentVersion)
  | PVersions (l : list DeploymentVersion)
  | PRegistry (l : list VersionInRegistry)
  | PStatus (s : StatusConfig)
  | PRateLimits (l : list RateLimitDto)
  | PGateways (l : list GatewayDeclaration)
  | PFilters (f : HttpFiltersConfigRequestV3)
  | PRoutingMode (s : Summary)
  | PStructure (s : Structure).
Record Reply := mkReply { Reply_Code : Z; Reply_Payload : Payload }.
(** A body: what it was decoded to, or nothing. *)
Definition Body (A : Type) : Type := option A.

(** * Strings *)

Definition hex_digit (c : ascii) : option N :=
  let n := N_of_ascii c in
  if ((48 <=? n) && (n <=? 57))%N then Some (n - 48)%N
  else if ((65 <=? n) && (n <=? 70))%N then Some (n - 55)%N
  else if ((97 <=? n) && (n <=? 102))%N then Some (n - 87)%N
  else None.
(** [url.QueryUnescape] *)
Fixpoint url_QueryUnescape (s : string) : option string :=
  match s with
  | "" => Some ""
  | String c s' =>
      if Ascii.eqb c "%" then
        match s' with
        | String a (String b rest) =>
            match hex_digit a, hex_digit b, url_QueryUnescape rest with
            | Some x, Some y, Some t => Some (String (ascii_of_N (16 * x + y)) t)
            | _, _, _ => None
            end
        | _ => None
        end
      else option_map (String (if Ascii.eqb c "+" then " "%char else c)) (url_QueryUnescape s')
  end.
(** [restutils.GetFiberParam] of what stands in the path. *)
Definition GetFiberParam (paramValue : string) : string := default paramValue (url_QueryUnescape paramValue).

Definition is_dns_char (c : ascii) : bool :=
  let n := N_of_ascii c in ((48 <=? n) && (n <=? 57) || (97 <=? n) && (n <=? 122))%N.
Fixpoint all_chars (p : ascii -> bool) (s : string) : bool :=
  match s with "" => true | String c s' => p c && all_chars p s' end.
Definition first_char (p : ascii -> bool) (s : string) : bool := match s with String c _ => p c | "" => false end.
(** "^[a-z0-9]([-a-z0-9]*[a-z0-9])?$" *)
Definition dns1123LabelRegexp (s : string) : bool :=
  all_chars (fun c => is_dns_char c || Ascii.eqb c "-") s && first_char is_dns_char s && first_char is_dns_char (str_rev s).
Definition IsDNS1123Label (value : string) : option string :=
  if (63 <? String.length value)%nat then Some "value length must not be greater than that 63"
  else if negb (dns1123LabelRegexp value)
  then Some "value must consist of lower case alphanumeric characters or '-', and must start and end with an alphanumeric character"
  else None.
(** What comes between "://" and the next colon. *)
Definition sanitizeMicroserviceHost (microservice : string) : string :=
  let microservice := match strings_Index microservice "://" with Some idx => str_drop (idx + 3) microservice | None => microservice end in
  match strings_Index microservice ":" with Some idx => str_take idx microservice | None => microservice end.
Definition quoted (s : string) : string := String (ascii_of_N 34) (s ++ String (ascii_of_N 34) "").
Definition int32 (z : Z) : Z := ((z + 2 ^ 31) mod 2 ^ 32 - 2 ^ 31)%Z.

(** * Requests ([restcontrollers/dto/dto.go]) *)

Record RouteEntryDto := mkRouteEntryDto { RouteEntryDto_From : string; RouteEntryDto_To : string; RouteEntryDto_Namespace : string; RouteEntryDto_Timeout : Z }.
(** [Routes] is a pointer. *)
Record RouteEntityRequestDto := mkRouteEntityRequestDto {
  RouteEntityRequestDto_MicroserviceUrl : string;
  RouteEntityRequestDto_Routes : option (list RouteEntryDto);
  RouteEntityRequestDto_Allowed : bool
}.
Definition ToRouteEntityRequestModel (req : RouteEntityRequestDto) (entries : list RouteEntryDto) : RouteEntityRequest :=
  mkRouteEntityRequest (RouteEntityRequestDto_MicroserviceUrl req) (RouteEntityRequestDto_Allowed req)
    (map (fun r => mkRouteEntry (RouteEntryDto_From r) (RouteEntryDto_To r) (RouteEntryDto_Namespace r) (RouteEntryDto_Timeout r) DefaultIdleTimeoutSpec []) entries).
Record RouteDeleteRequest := mkRouteDeleteRequest {
  RouteDeleteRequest_Routes : list string;
  RouteDeleteRequest_Namespace : string;
  RouteDeleteRequest_Version : string
}.
Record EndpointDeleteRequest := mkEndpointDeleteRequest {
  EndpointDeleteRequest_Endpoints : list (string * Z);
  EndpointDeleteRequest_Version : string
}.
Record HashPolicyDto := mkHashPolicyDto {
  HashPolicyDto_Id : Z;
  HashPolicyDto_Header : option string;
  HashPolicyDto_Cookie : option dto.Cookie;
  HashPolicyDto_ConnectionProperties : option NullBool;
  HashPolicyDto_QueryParameter : option string;
  HashPolicyDto_Terminal : NullBool
}.
Record LoadBalanceRequest := mkLoadBalanceRequest {
  LoadBalanceRequest_Cluster : string;
  LoadBalanceRequest_Version : string;
  LoadBalanceRequest_Endpoint : string;
  LoadBalanceRequest_Namespace : string;
  LoadBalanceRequest_Policies : option (list HashPolicyDto);
  LoadBalanceRequest_Overridden : bool
}.
Record ClusterKeepAliveReq := mkClusterKeepAliveReq {
  ClusterKeepAliveReq_ClusterKey : string;
  ClusterKeepAliveReq_TcpKeepalive : option dto.TcpKeepalive
}.

(** * Hash policies ([v2/loadbalance.go], [v3/loadbalance.go]) *)

Definition hashPolicyIsValid (p : HashPolicy) : bool :=
  let header := nonempty (HashPolicy_HeaderName p) in
  let cookie := nonempty (HashPolicy_CookieName p) in
  let query := nonempty (HashPolicy_QueryParamName p) in
  let source := NullBool_Valid (HashPolicy_QueryParamSourceIP p) in
  header && (negb cookie && negb query && negb source) || cookie && (negb header && negb query && negb source) ||
  query && (negb header && negb cookie && negb source) || source && (negb header && negb cookie && negb query).
Definition buildDomainHashPolicyFromDto (policy : HashPolicyDto) : HashPolicy :=
  let result := match HashPolicyDto_Header policy with Some name => (zero : HashPolicy) <| HashPolicy_HeaderName := name |> | None => zero end in
  let result := match HashPolicyDto_Cookie policy with
                | Some cookie =>
                    let result := result <| HashPolicy_CookieName := dto.Cookie_Name cookie |> in
                    let result := match dto.Cookie_Ttl cookie with Some ttl => result <| HashPolicy_CookieTTL := NewNullInt ttl |> | None => result end in
                    result <| HashPolicy_CookiePath := default "" (dto.Cookie_Path cookie) |>
                | None => result
                end in
  let result := match HashPolicyDto_ConnectionProperties policy with Some ip => result <| HashPolicy_QueryParamSourceIP := ip |> | None => result end in
  let result := match HashPolicyDto_QueryParameter policy with Some name => result <| HashPolicy_QueryParamName := name |> | None => result end in
  if NullBool_Valid (HashPolicyDto_Terminal policy) then result <| HashPolicy_Terminal := HashPolicyDto_Terminal policy |> else result.
Definition buildHashPoliciesFromDto (policies : list HashPolicyDto) : option (list HashPolicy) :=
  let built := map buildDomainHashPolicyFromDto policies in
  if forallb hashPolicyIsValid built then Some built else None.

(** [dto.ServicesVersionPayload.Validate]: the namespace is trimmed in a copy. *)
Definition ServicesVersionPayload_Validate (p : ServicesVersionPayload) : verdict :=
  let namespace := strings_TrimSpace (Payload_Namespace p) in
  if nonempty namespace && match IsDNS1123Label namespace with Some _ => true | None => false end
  then (false, "invalid " ++ quoted "namespace" ++ ": " ++ default "" (IsDNS1123Label namespace))
  else match Payload_Services p with
       | [] => (false, "field " ++ quoted "services" ++ " must contain one or more non-empty service names")
       | services =>
           match List.find (fun s => match IsDNS1123Label s with Some _ => true | None => false end) services with
           | Some service => (false, "invalid service name " ++ quoted service ++ ": " ++ default "" (IsDNS1123Label service))
           | None =>
               if nonempty (Payload_Version p) && negb (isValidDeploymentVersion (Payload_Version p))
               then (false, "invalid " ++ quoted "version" ++ " value: " ++ quoted (Payload_Version p))
               else (true, "")
           end
       end.

Section controllers.
Context `{R : Runtime} `{H : Sha256} `{E : EntityService} `{T : TlsMode} `{U : NetUrl} `{CS : CompositeService}.

(** * Answers *)

Definition respond (code : Z) (payload : Payload) : prog World Reply := ret (mkReply code payload).
(** What a handler makes of the outcome of a service. *)
Definition answer {A} (m : prog World A) (ok : A -> Reply) (failed : error -> result Reply) : prog World Reply :=
  fun w => match m w with
           | (Ok a, w') => (Ok (ok a), w')
           | (Err e, w') => (failed e, w')
           | (Panic p, w') => (Panic p, w')
           end.
Definition replied (code : Z) (payload : Payload) : result Reply := Ok (mkReply code payload).
(** [if err != nil { return reply }]: the reply, or the value. *)
Definition answer_with {A} (m : prog World A) (failed : error -> Reply) : prog World (Reply + A) :=
  fun w => match m w with
           | (Ok a, w') => (Ok (inr a), w')
           | (Err e, w') => (Ok (inl (failed e)), w')
           | (Panic p, w') => (Panic p, w')
           end.
(** The form value [archiveSize]: 1 when it is empty. *)
Definition archive_size (archiveSizeString : string) : option Z :=
  if String.eqb archiveSizeString "" then Some 1%Z else strconv_Atoi archiveSizeString.
(** [if dr.GetMode() == dr.Standby { return .. }] *)
Definition unless_standby (reply : Reply) (m : prog World Reply) : prog World Reply :=
  if bool_decide (GetMode = Standby) then ret reply else m.
(** Version 3 answers with errors: the body that cannot be decoded, the request
    that is not valid, the path variable that is empty. *)
Definition unmarshal {A} (body : Body A) (msg : string) (m : A -> prog World Reply) : prog World Reply :=
  match body with Some a => m a | None => fail (ErrCp UnmarshalRequestError msg) end.
Definition validated (v : verdict) (msg : string) (m : prog World Reply) : prog World Reply :=
  if (v.1 : bool) then m else fail (ErrCp ValidationRequestError (msg ++ v.2)).
Definition path_variable (name value : string) (m : prog World Reply) : prog World Reply :=
  if String.eqb (strings_TrimSpace value) "" then fail (ErrCp ValidationRequestError ("Path variable '" ++ name ++ "' must not be empty.")) else m.

(** * Middleware: [None] goes on *)

Definition middleware (check : prog World (option Reply)) (next : prog World Reply) : prog World Reply :=
  refused <- check ;; match refused with Some reply => ret reply | None => next end.

(** [RoutingModeController]; the same in versions 2 and 3. *)
Definition HandleGetRoutingModeDetails : prog World Reply := answer UpdateRouteModeDetails (fun s => mkReply 200 (PRoutingMode s)) Err.
Definition AllowedRoutesMiddlewareV1 (body : Body RouteEntityRequestDto) : prog World (option Reply) :=
  match body with
  | None => ret (Some (mkReply 400 (PError "invalid request payload: ")))
  | Some req =>
      entries <- deref (RouteEntityRequestDto_Routes req) ;;
      forbidden <- fold_each entries false (fun (forbidden : bool) entry =>
        if forbidden then ret true else IsForbiddenRoutingMode "" (RouteEntryDto_Namespace entry)) ;;
      ret (if forbidden : bool
           then Some (mkReply 400 (PError ("Routes for microservice with URL " ++ RouteEntityRequestDto_MicroserviceUrl req ++ " are not registered, because routes with routing mode are registered on the Control-Plane")))
           else None)
  end.
Definition validateSingleRouteRegistrationRequest (req : dto.RouteRegistrationRequest) : prog World (option string) :=
  let version := dto.RouteRegistrationRequest_Version req in
  let namespace := dto.RouteRegistrationRequest_Namespace req in
  if of_other_version version && negb (IsCurrentNamespace (mkNamespace namespace))
  then ret (Some "ValidateRoutesApplicabilityToCurrentRoutingMode: request contains both 'version' and 'namespace' fields")
  else
    forbidden <- IsForbiddenRoutingMode version namespace ;;
    ret (if forbidden : bool
         then Some ("ValidateRoutesApplicabilityToCurrentRoutingMode: Routes for cluster " ++ dto.RouteRegistrationRequest_Cluster req
                    ++ " are not registered, because routes with routing mode are registered on the Control-Plane")
         else None).
Definition ValidateRoutesApplicabilityToCurrentRoutingMode (body : Body (list dto.RouteRegistrationRequest)) : prog World (option Reply) :=
  match body with
  | None => ret (Some (mkReply 400 (PError "invalid request payload: ")))
  | Some requests =>
      refused <- fold_each requests None (fun (refused : option string) req =>
        match refused with Some _ => ret refused | None => validateSingleRouteRegistrationRequest req end) ;;
      ret (option_map (fun why => mkReply 400 (PError ("ValidateRoutesApplicabilityToCurrentRoutingMode request validation error: " ++ why))) refused)
  end.

(** [v2.RoutesController.ValidateHeaderMatcher], [v2.ValidateRouteDeleteRequest] *)
Definition b2n (b : bool) : nat := if b then 1 else 0.
Definition validate_header_matcher (m : dto.HeaderMatcher) : option string :=
  let range := dto.HeaderMatcher_RangeMatch m in
  if String.eqb (dto.HeaderMatcher_Name m) "" then Some "Header name have to be set"
  else
    let numberOfAssignedVariables :=
      (b2n (nonempty (dto.HeaderMatcher_ExactMatch m)) + b2n (nonempty (dto.HeaderMatcher_PrefixMatch m))
       + b2n (NullBool_Valid (dto.HeaderMatcher_PresentMatch m))
       + b2n (NullInt_Valid (RangeMatch_Start range) || NullInt_Valid (RangeMatch_End range))
       + b2n (nonempty (dto.HeaderMatcher_SafeRegexMatch m)) + b2n (nonempty (dto.HeaderMatcher_SuffixMatch m)))%nat in
    if (1 <? numberOfAssignedVariables)%nat then Some "Only one header matcher fields have to be filled!" else None.
Fixpoint first_error {A} (f : A -> option string) (l : list A) : option string :=
  match l with [] => None | x :: l => match f x with Some e => Some e | None => first_error f l end end.
Definition ValidateHeaderMatcherInSingleRouteRequest (req : dto.RouteRegistrationRequest) : option string :=
  first_error validate_header_matcher (flat_map dto.RouteItem_HeaderMatchers (dto.RouteRegistrationRequest_Routes req)).
Definition ValidateHeaderMatcher (body : Body (list dto.RouteRegistrationRequest)) : prog World (option Reply) :=
  ret match body with
      | None => Some (mkReply 400 (PError "invalid request payload: "))
      | Some requests =>
          option_map (fun why => mkReply 400 (PError ("ValidateHeaderMatcher request validation error: " ++ why)))
            (first_error ValidateHeaderMatcherInSingleRouteRequest requests)
      end.
Definition validate_delete_request (r : RouteDeleteRequest) : option string :=
  let version := RouteDeleteRequest_Version r in
  if String.eqb version "" && match RouteDeleteRequest_Routes r with [] => true | _ => false end && String.eqb (RouteDeleteRequest_Namespace r) ""
  then Some "at least on of 'namespace', 'routes', 'versions' should be present in request body."
  else if negb (IsCurrentNamespace (mkNamespace (RouteDeleteRequest_Namespace r))) && nonempty version
  then Some "namespace should be current or version should be absent"
  else None.
Definition ValidateRouteDeleteRequest (body : Body (list RouteDeleteRequest)) : prog World (option Reply) :=
  ret match body with
      | None => Some (mkReply 400 (PError "Error during validation. Invalid request body: "))
      | Some requests => option_map (fun why => mkReply 400 (PError why)) (first_error validate_delete_request requests)
      end.
End controllers.

(** * Version 1 ([v1/routes.go]) *)

Module V1.
Section V1.
Context `{R : Runtime} `{H : Sha256} `{E : EntityService} `{T : TlsMode} `{U : NetUrl} `{CS : CompositeService}.
Definition HandlePostRoutesWithNodeGroup (nodeGroup : string) (body : Body RouteEntityRequestDto) : prog World Reply :=
  match body with
  | None => respond 400 (PError "Could not unmarshal request body JSON: ")
  | Some data =>
      entries <- deref (RouteEntityRequestDto_Routes data) ;;
      match entries with
      | [] => respond 400 (PError "Array of routes is empty")
      | _ =>
          let model := ToRouteEntityRequestModel data entries in
          let v := ValidateV1 model nodeGroup in
          if negb (v.1 : bool) then respond 400 (PError v.2)
          else unless_standby (mkReply 201 PNil)
            (answer (v1.RegisterRoutes nodeGroup model) (fun _ => mkReply 201 PNil) (fun err =>
              if errors_Is err LegacyRouteDisallowed || errors_Is err BadRouteRegistrationRequest
              then replied 400 (PErrorOf err) else replied 500 (PErrorOf err)))
      end
  end.
(** The id is an int that becomes an int32. *)
Definition HandleDeleteClusterWithID (clusterIdVar : string) : prog World Reply :=
  match strconv_Atoi clusterIdVar with
  | None => respond 400 (PError "strconv.Atoi: ")
  | Some clusterId =>
      unless_standby (mkReply 204 PNil)
        (answer (v1.DeleteCluster (int32 clusterId)) (fun _ => mkReply 204 PNil) (fun err =>
          if same_error err ErrNoClusterExist
          then replied 400 (PError ("Cluster does not exist for passed clusterId: " ++ strconv_Itoa clusterId))
          else replied 500 (PErrorOf err)))
  end.
Definition HandleDeleteRoutesWithNodeGroup (nodeGroup from namespace : string) : prog World Reply :=
  if String.eqb nodeGroup "" then respond 400 (PError "Empty nodeGroup path param")
  else unless_standby (mkReply 204 (PRoutes []))
    (answer (v1.DeleteRoutes nodeGroup from namespace) (fun deleted => mkReply 204 (PRoutes deleted)) (fun err => replied 500 (PErrorOf err))).
End V1.
End V1.

(** * Version 2 ([v2/routes.go], [v2/bluegreen.go], [v2/loadbalance.go]) *)

Definition endpoints_of (r : EndpointDeleteRequest) : list Endpoint :=
  map (fun e : string * Z => (zero : Endpoint) <| Endpoint_Address := e.1 |> <| Endpoint_Port := e.2 |>
         <| Endpoint_DeploymentVersion := EndpointDeleteRequest_Version r |>) (EndpointDeleteRequest_Endpoints r).
(** One request after the other, each in a transaction of its own. *)
Definition delete_each `{R : Runtime} {A B} (requests : list A) (delete : A -> prog World (list B)) : prog World (list B) :=
  fold_each requests [] (fun deleted r => more <- delete r ;; ret (deleted ++ more)%list).
Definition lb_spec (data : LoadBalanceRequest) : LoadBalanceSpec :=
  mkLoadBalanceSpec (LoadBalanceRequest_Cluster data) (LoadBalanceRequest_Version data) (LoadBalanceRequest_Endpoint data)
    (map buildDomainHashPolicyFromDto <$> LoadBalanceRequest_Policies data).
(** The cluster of the request, and its policies. *)
Definition lb_cluster `{R : Runtime} (data : LoadBalanceRequest) : result string :=
  result_bind (NewMicroserviceAddress (LoadBalanceRequest_Endpoint data) (LoadBalanceRequest_Namespace data)) (fun address =>
  Ok (GenerateClusterKey (LoadBalanceRequest_Cluster data) address)).
Definition lb_policies (data : LoadBalanceRequest) : option (list HashPolicy) := buildHashPoliciesFromDto (default [] (LoadBalanceRequest_Policies data)).

Module V2.
Section V2.
Context `{R : Runtime} `{H : Sha256} `{E : EntityService} `{T : TlsMode} `{U : NetUrl} `{CS : CompositeService}.
Definition HandlePostRoutesWithNodeGroup (nodeGroup : string) (body : Body (list dto.RouteRegistrationRequest)) : prog World Reply :=
  if String.eqb nodeGroup "" then respond 400 (PError "Path variable 'nodeGroup' must not be empty.")
  else match body with
       | None => respond 400 (PError "Could not unmarshal request body JSON: ")
       | Some data =>
           let v := ValidateV2 data nodeGroup in
           if negb (v.1 : bool) then respond 400 (PError v.2)
           else unless_standby (mkReply 201 PNil)
             (answer (v2.RegisterRoutes data nodeGroup) (fun _ => mkReply 201 PNil) (fun err =>
               if errors_Is err LegacyRouteDisallowed || errors_Is err BadRouteRegistrationRequest then replied 400 (PErrorOf err)
               else match GetCpErrCodeErrorOrNil err with
                    | Some (code, msg) => replied (GetHttpCode code) (PErrorOf (ErrCp code msg))
                    | None => replied 500 (PError "Routes registration has failed.")
                    end))
       end.
Definition HandleDeleteRoutesWithNodeGroup (nodeGroup : string) (body : Body (list RouteDeleteRequest)) : prog World Reply :=
  if String.eqb nodeGroup "" then respond 400 (PError "Empty nodeGroup path param")
  else match body with
       | None => respond 400 (PError "Invalid request payload: ")
       | Some requests =>
           unless_standby (mkReply 200 (PRoutes []))
             (answer (delete_each requests (fun r =>
                        v2.DeleteRoutes nodeGroup (RouteDeleteRequest_Namespace r) (RouteDeleteRequest_Version r) (RouteDeleteRequest_Routes r)))
                (fun deleted => mkReply 200 (PRoutes deleted)) (fun err => replied 500 (PErrorOf err)))
       end.
(** [errs.Cause] stops at an error that is wrapped by go-errors. *)
Definition HandleDeleteRouteWithUUID (routeUUID : string) : prog World Reply :=
  if String.eqb routeUUID "" then respond 400 (PError "Empty UUID path param")
  else unless_standby (mkReply 200 PNil)
    (answer (DeleteRouteByUUID routeUUID) (fun deleted => mkReply 200 (PRoute deleted)) (fun err =>
      if same_error err (RouteUUIDMatchError routeUUID) then replied 400 (PErrorOf err) else replied 500 (PErrorOf err))).
Definition HandleDeleteRoutes (body : Body (list RouteDeleteRequest)) : prog World Reply :=
  match body with
  | None => respond 400 (PError "Invalid request payload: ")
  | Some requests =>
      unless_standby (mkReply 200 (PRoutes []))
        (answer (delete_each requests (fun r =>
                   nodeGroups <- FindAllNodeGroups Local ;;
                   delete_each nodeGroups (fun nodeGroup =>
                     v2.DeleteRoutes (NodeGroup_Name nodeGroup) (RouteDeleteRequest_Namespace r) (RouteDeleteRequest_Version r) (RouteDeleteRequest_Routes r))))
           (fun deleted => mkReply 200 (PRoutes deleted)) (fun err => replied 500 (PErrorOf err)))
  end.
Definition HandleDeleteEndpoints (body : Body (list EndpointDeleteRequest)) : prog World Reply :=
  match body with
  | None => respond 400 (PError "Invalid request payload: ")
  | Some requests =>
      unless_standby (mkReply 200 (PEndpoints []))
        (answer (delete_each requests (fun r => DeleteEndpoints (endpoints_of r) (EndpointDeleteRequest_Version r)))
           (fun deleted => mkReply 200 (PEndpoints deleted)) (fun err => replied 500 (PErrorOf err)))
  end.

Definition HandleGetDeploymentVersions : prog World Reply :=
  answer (FindAllDeploymentVersions Local) (fun versions => mkReply 200 (PVersions versions)) (fun err => replied 500 (PErrorOf err)).
(** What is found for the path variable [version], or the reply without it. *)
Definition with_version (version : string) (m : DeploymentVersion -> prog World Reply) : prog World Reply :=
  found <- answer_with (FindDeploymentVersion Local version) (fun err => mkReply 500 (PErrorOf err)) ;;
  match found with
  | inl reply => ret reply
  | inr None => respond 404 PNotFound
  | inr (Some v) => m v
  end.
Definition HandleDeleteDeploymentVersionWithID (version : string) : prog World Reply :=
  if String.eqb version "" then respond 400 (PError "Empty version path param")
  else with_version version (fun deploymentVersion =>
    if String.eqb (DeploymentVersion_Stage deploymentVersion) ActiveStage
    then respond 403 (PError ("Deleting active deployment version " ++ version ++ " is forbidden"))
    else unless_standby (mkReply 200 (PVersion deploymentVersion))
      (answer (DeleteCandidate deploymentVersion) (fun _ => mkReply 200 (PVersion deploymentVersion)) (fun err => replied 500 (PErrorOf err)))).
Definition HandlePostPromoteVersion (version archiveSizeString : string) : prog World Reply :=
  if String.eqb version "" then respond 400 (PError "Empty version path param")
  else match archive_size archiveSizeString with
       | None => respond 400 (PError "strconv.Atoi: ")
       | Some archiveSize =>
           _ <- try_ok (FindAllDeploymentVersions Local) ;;
           with_version version (fun deploymentVersion =>
             if negb (String.eqb (DeploymentVersion_Stage deploymentVersion) CandidateStage)
             then respond 400 (PError ("Promote non candidate version (" ++ version ++ ") is prohibited"))
             else unless_standby (mkReply 202 (PVersions []))
               (answer (Promote deploymentVersion archiveSize) (fun versions => mkReply 202 (PVersions versions)) (fun err => replied 500 (PErrorOf err))))
       end.
Definition HandlePostRollbackVersion : prog World Reply :=
  unless_standby (mkReply 202 (PVersions []))
    (_ <- try_ok (FindAllDeploymentVersions Local) ;;
     answer Rollback (fun versions => mkReply 202 (PVersions versions)) Err).

Definition HandlePostLoadBalance (body : Body LoadBalanceRequest) : prog World Reply :=
  match body with
  | None => respond 400 (PError "Invalid request payload: ")
  | Some data =>
      v <- ValidateLoadBalance (lb_spec data) ;;
      if negb (v.1 : bool) then respond 400 (PError ("Error processing request body: " ++ v.2))
      else
        clusterName <- lift (lb_cluster data) ;;
        match lb_policies data with
        | None => respond 400 (PError "Invalid hash policy in request: v2: route action hash policy must have precisely one of header, cookie, queryParameter or connectionProperties settings")
        | Some hashPolicy =>
            unless_standby (mkReply 200 PNil)
              (answer (ApplyLoadBalanceConfig clusterName (LoadBalanceRequest_Version data) hashPolicy) (fun _ => mkReply 200 PNil)
                 (fun err => replied 400 (PErrorOf err)))
        end
  end.
End V2.
End V2.

(** * Version 3 *)

Module V3.
Section V3.
Context `{R : Runtime} `{H : Sha256} `{E : EntityService} `{T : TlsMode} `{U : NetUrl} `{CS : CompositeService}.
Definition done (code : Z) : unit -> Reply := fun _ => mkReply code PNil.
Definition message (msg : string) : unit -> Reply := fun _ => mkReply 200 (PMessage msg).

(** Routes ([v3/routes.go]) *)
Definition HandlePostRoutingConfig (body : Body dto.RoutingConfigRequestV3) : prog World Reply :=
  unmarshal body "Could not unmarshal routes registration v3 request body: " (fun routingReq =>
  validated (ValidateV3 routingReq) "Routes registration v3 is invalid. Cause: "
  (unless_standby (mkReply 201 PNil)
    (answer (v3.RegisterRoutingConfig routingReq) (done 201) (fun err =>
      if errors_Is err BadRouteRegistrationRequest then Err (ErrCp ValidationRequestError "Failed to register routes via v3 api. Cause: ")
      else Err err)))).
Definition HandleDeleteVirtualService (nodeGroup virtualService : string) : prog World Reply :=
  path_variable "nodeGroup" nodeGroup (path_variable "virtualServiceName" virtualService
  (unless_standby (mkReply 200 PNil) (answer (v3.DeleteVirtualService nodeGroup virtualService) (done 200) Err))).
Definition HandlePutVirtualService (nodeGroup virtualService : string) (body : Body dto.VirtualService) : prog World Reply :=
  path_variable "nodeGroup" nodeGroup (path_variable "virtualService" virtualService
  (unmarshal body "Failed to unmarshal virtual service v3 request body " (fun req =>
   validated (ValidateVirtualServiceUpdate req nodeGroup) "Update virtual service request v3 is invalid. Cause: "
   (unless_standby (mkReply 200 PNil)
     (answer (v3.UpdateVirtualService nodeGroup virtualService req) (done 200) (fun err =>
       if same_error err LegacyRouteDisallowed then Err (ErrCp BlueGreenConflictError "registering new routes for Legacy or Archived versions is prohibited")
       else Err err)))))).
Definition named (name : string) (s : dto.VirtualService) : dto.VirtualService :=
  dto.mkVirtualService name (dto.VirtualService_Hosts s) (dto.VirtualService_RateLimit s) (dto.VirtualService_AddHeaders s)
    (dto.VirtualService_RemoveHeaders s) (dto.VirtualService_RouteConfiguration s) (dto.VirtualService_Overridden s).
Definition HandleCreateVirtualService (nodeGroup virtualServiceName : string) (body : Body dto.VirtualService) : prog World Reply :=
  path_variable "nodeGroup" nodeGroup (path_variable "virtualServiceName" virtualServiceName
  (unmarshal body "Failed to unmarshal virtual service creation request body JSON: " (fun req =>
   let req := named virtualServiceName req in
   validated (ValidateVirtualService req [nodeGroup]) "Request for creation virtual service is invalid. Cause: "
   (unless_standby (mkReply 201 PNil) (answer (v3.CreateVirtualService nodeGroup req) (done 201) Err))))).
Definition HandleDeleteVirtualServiceRoutes (body : Body (list dto.RouteDeleteRequestV3)) : prog World Reply :=
  unmarshal body "Failed to unmarshal routes deletion v3 request body: " (fun request =>
  unless_standby (mkReply 200 PNil) (answer (v3.DeleteRoutes request) (fun deleted => mkReply 200 (PRoutes deleted)) Err)).
Definition HandleDeleteVirtualServiceDomains (body : Body (list dto.DomainDeleteRequestV3)) : prog World Reply :=
  unmarshal body "Failed to unmarshal domains deletion v3 request body: " (fun request =>
  validated (ValidateDomainDeleteRequestV3 request) "Request for deleting virtual service domains is invalid. Cause: "
  (unless_standby (mkReply 200 PNil) (answer (v3.DeleteDomains request) (fun _ => mkReply 200 PNil) Err))).
Definition HandleDeleteEndpoints (body : Body (list EndpointDeleteRequest)) : prog World Reply :=
  unmarshal body "Failed to unmarshal delete endpoints request body JSON: " (fun requests =>
  unless_standby (mkReply 200 (PEndpoints []))
    (answer (delete_each requests (fun r => DeleteEndpoints (endpoints_of r) (EndpointDeleteRequest_Version r)))
       (fun deleted => mkReply 200 (PEndpoints deleted)) Err)).

(** Blue-green ([v3/bluegreen.go]) *)
Definition HandleGetMicroserviceVersion (microservice : string) : prog World Reply :=
  if String.eqb (strings_TrimSpace microservice) "" then fail (ErrCp ValidationRequestError "Microservice name must not be empty")
  else answer (GetMicroserviceVersion (sanitizeMicroserviceHost microservice)) (fun version => mkReply 200 (PVersionName version)) Err.
Definition HandleGetDeploymentVersions : prog World Reply :=
  answer (FindAllDeploymentVersions Local) (fun versions => mkReply 200 (PVersions versions)) Err.
Definition version_not_empty (version : string) (m : prog World Reply) : prog World Reply :=
  if String.eqb version "" then fail (ErrCp ValidationRequestError "Path variable 'version' must not be empty.") else m.
Definition with_version (version : string) (m : DeploymentVersion -> prog World Reply) : prog World Reply :=
  found <- FindDeploymentVersion Local version ;;
  match found with
  | None => fail (ErrCp NotFoundEntityError ("Deployment version " ++ version ++ " not found"))
  | Some v => m v
  end.
Definition HandleDeleteDeploymentVersionWithID (version : string) : prog World Reply :=
  version_not_empty version (with_version version (fun deploymentVersion =>
    if String.eqb (DeploymentVersion_Stage deploymentVersion) ActiveStage
    then fail (ErrCp BlueGreenConflictError ("Deleting Active deployment version " ++ version ++ " is forbidden"))
    else unless_standby (mkReply 200 (PVersion deploymentVersion))
      (answer (DeleteCandidate deploymentVersion) (fun _ => mkReply 200 (PVersion deploymentVersion)) Err))).
Definition HandlePostPromoteVersion (version archiveSizeString : string) : prog World Reply :=
  version_not_empty version
    match archive_size archiveSizeString with
    | None => fail (ErrCp ValidationRequestError "Can't convert archiveSize to integer ")
    | Some archiveSize =>
        _ <- try_ok (FindAllDeploymentVersions Local) ;;
        with_version version (fun deploymentVersion =>
          if negb (String.eqb (DeploymentVersion_Stage deploymentVersion) CandidateStage)
          then fail (ErrCp BlueGreenConflictError ("Promote non candidate version " ++ DeploymentVersion_Stage deploymentVersion
                                                  ++ " deployment version " ++ version ++ " is prohibited"))
          else unless_standby (mkReply 202 (PVersions []))
            (answer (Promote deploymentVersion archiveSize) (fun versions => mkReply 202 (PVersions versions)) Err))
    end.
Definition HandlePostRollbackVersion : prog World Reply :=
  unless_standby (mkReply 202 (PVersions []))
    (_ <- try_ok (FindAllDeploymentVersions Local) ;;
     answer Rollback (fun versions => mkReply 202 (PVersions versions)) Err).

(** The registry of versions ([v3/bgregistry.go]) *)
Inductive Method := MethodPost | MethodDelete.
Definition without_exists (payload : ServicesVersionPayload) : ServicesVersionPayload :=
  mkServicesVersionPayload (Payload_Namespace payload) (Payload_Services payload) (Payload_Version payload) (Some false) (Payload_Overridden payload).
Definition handleRegistrationRequest (method : Method) (body : Body ServicesVersionPayload) : prog World Reply :=
  unmarshal body "Failed to unmarshal ServicesVersionPayload from request body JSON: " (fun payload =>
  validated (ServicesVersionPayload_Validate payload) "Invalid request payload: "
    match method with
    | MethodPost => unless_standby (mkReply 201 PNil) (answer (Registry.Apply payload) (done 200) Err)
    | MethodDelete =>
        if match Payload_Exists payload with Some b => b | None => false end
        then fail (ErrCp ValidationRequestError "Invalid request payload: field exists cannot be true for DELETE request")
        else unless_standby (mkReply 201 PNil) (answer (Registry.Apply (without_exists payload)) (done 200) Err)
    end).
Definition registry_reply (l : list VersionInRegistry) : Reply := mkReply 200 (PRegistry l).
Definition HandleGetMicroserviceVersions (version initialVersion serviceName namespace : string) : prog World Reply :=
  if String.eqb serviceName "" then
    if nonempty initialVersion then fail (ErrCp ValidationRequestError "initialVersion param cannot be specified without serviceName")
    else if String.eqb version "" then answer (Registry.GetAll Local) registry_reply Err
    else answer (GetMicroservicesForVersion Local ((zero : DeploymentVersion) <| DeploymentVersion_Version := version |>)) registry_reply Err
  else if nonempty version
  then fail (ErrCp ValidationRequestError "Version param cannot be specified with serviceName (use initialVersion if you need to get actual BG version for concrete microservice)")
  else if String.eqb initialVersion "" then answer (GetVersionsForMicroservice Local serviceName (mkNamespace namespace)) registry_reply Err
  else answer (GetMicroserviceCurrentVersion Local serviceName (mkNamespace namespace) initialVersion) registry_reply Err.

(** Gateways, HTTP filters, rate limits ([v3/gateway.go], [v3/httpfilter.go], [v3/ratelimit.go]) *)
Definition deleting (payload : GatewayDeclaration) : GatewayDeclaration :=
  mkGatewayDeclaration (GatewayDeclaration_Name payload) (GatewayDeclaration_GatewayType payload) (GatewayDeclaration_AllowVirtualHosts payload)
    (Some false) (GatewayDeclaration_Overridden payload).
Definition applied_gateway := mkReply 200 (PMessage "gateway declaration applied successfully").
Definition handleGatewaySpecApply (method : Method) (body : Body GatewayDeclaration) : prog World Reply :=
  unless_standby applied_gateway
    (unmarshal body "Failed to unmarshall gateway spec modification request: " (fun payload =>
     answer (Gateways.Apply (match method with MethodDelete => deleting payload | MethodPost => payload end)) (fun _ => applied_gateway) (fun err =>
       if IsInputError err then Err (ErrCp ValidationRequestError "Gateway spec modification request validation failed: ") else Err err))).
Definition HandleGetGatewaySpecs : prog World Reply := answer Gateways.GetAll (fun l => mkReply 200 (PGateways l)) Err.
Definition accepted (v : option string) : verdict := match v with Some msg => (false, msg) | None => (true, "") end.
Definition name_taken (err : error) : result Reply :=
  if same_error err ErrNameTaken then Err (ErrCp ValidationRequestError "HttpFilter apply request validation failed: ") else Err err.
Definition HandlePostHttpFilters (body : Body HttpFiltersConfigRequestV3) : prog World Reply :=
  unless_standby (message "http filters applied successfully" tt)
    (unmarshal body "Failed to unmarshal HttpFilter apply request body: " (fun payload =>
     validated (accepted (HttpFilters_ValidateApply payload)) "HttpFilter apply request validation failed: "
       (answer (HttpFilters_Apply payload) (message "http filters applied successfully") name_taken))).
Definition HandleDeleteHttpFilters (body : Body HttpFiltersDropConfigRequestV3) : prog World Reply :=
  unless_standby (message "http filters deleted successfully" tt)
    (unmarshal body "Failed to unmarshal HttpFilter delete request body: " (fun payload =>
     validated (accepted (HttpFilters_ValidateDelete payload)) "HttpFilter delete request validation failed: "
       (answer (HttpFilters_Delete payload) (message "http filters deleted successfully") name_taken))).
Definition HandleGetHttpFilters (nodeGroup : string) : prog World Reply :=
  if String.eqb nodeGroup "" then fail (ErrCp ValidationRequestError "HttpFilter GET request validation failed: path variable 'nodeGroup' is mandatory")
  else answer (GetGatewayFilters nodeGroup) (fun f => mkReply 200 (PFilters f)) Err.
Definition HandleGetRateLimit : prog World Reply := answer GetRateLimits (fun l => mkReply 200 (PRateLimits l)) Err.
Definition HandlePostRateLimit (body : Body RateLimitDto) : prog World Reply :=
  unmarshal body "Failed to unmarshal rate limit creation v3 request body: " (fun rateLimit =>
  validated (accepted (ValidateRequest rateLimit)) "Rate Limit request did not pass validation. Cause: "
    (unless_standby (mkReply 200 PNil) (answer (ApplyRateLimit rateLimit) (done 200) Err))).
Definition HandleDeleteRateLimit (body : Body RateLimitDto) : prog World Reply :=
  unmarshal body "Failed to unmarshal rate limit deletion v3 request body JSON: " (fun rateLimit =>
  validated (accepted (ValidateRequest rateLimit)) "Rate Limit request did not pass validation. Cause: "
    (unless_standby (mkReply 200 PNil) (answer (DeleteRateLimit rateLimit) (done 200) Err))).

(** Data centers, load balancing, sessions ([v3/active.go], [v3/loadbalance.go], [v3/stateful_session.go]) *)
Definition check_host (host : string) : option string :=
  let host := strings_TrimSpace host in
  if String.eqb host "" then Some "'publicGwHosts' and 'privateGwHosts' cannot contain empty elements"
  else if strings_Contains host ":" then Some "host elements from 'publicGwHosts' and 'privateGwHosts' cannot contain ':'"
  else None.
Definition validateRequest (activeDCs : ActiveDCsV3) : option string :=
  let protocol := ActiveDCs_Protocol activeDCs in
  let public := ActiveDCs_PublicGwHosts activeDCs in
  let private := ActiveDCs_PrivateGwHosts activeDCs in
  if String.eqb (strings_TrimSpace protocol) "" then Some "'protocol' cannot be empty"
  else if negb (String.eqb protocol ProtocolHttp) && negb (String.eqb protocol ProtocolHttps) then Some "'protocol' can be either http or https"
  else if (length public =? 0)%nat || (length private =? 0)%nat then Some "'publicGwHosts' or 'privateGwHosts' cannot be empty"
  else if negb (length public =? length private)%nat then Some "'publicGwHosts' and 'privateGwHosts' must contain the same amount of elements"
  else first_error check_host (public ++ private).
(** The hosts of the gateways of this data center are given. *)
Definition HandleActiveActiveConfigPost (localPublicGwHost localPrivateGwHost : string) (body : Body ActiveDCsV3) : prog World Reply :=
  unmarshal body "Failed to unmarshal ActiveActive config creation request body: " (fun activeDCsConfig =>
  validated (accepted (validateRequest activeDCsConfig)) "Request for ActiveActive config creation is invalid. Cause: "
    (unless_standby (mkReply 200 PNil) (answer (ApplyActiveDCsConfig localPublicGwHost localPrivateGwHost activeDCsConfig) (done 200) Err))).
Definition HandleActiveActiveConfigDelete (attached : RouteConfiguration -> option (NodeGroup * list Cluster)) : prog World Reply :=
  unless_standby (mkReply 200 PNil) (answer (DeleteActiveDCsConfig attached) (done 200) Err).
Definition HandlePostLoadBalance (body : Body LoadBalanceRequest) : prog World Reply :=
  unmarshal body "Can't parse request body: " (fun data =>
  v <- ValidateLoadBalance (lb_spec data) ;;
  validated v "Error validation request body. Cause: "
    (clusterName <- lift (lb_cluster data) ;;
     match lb_policies data with
     | None => fail (ErrCp ValidationRequestError "Invalid hash policy in request: v3: route action hash policy must have precisely one of header, cookie, queryParameter or connectionProperties settings")
     | Some hashPolicy =>
         unless_standby (mkReply 200 PNil)
           (answer (ApplyLoadBalanceConfig clusterName (LoadBalanceRequest_Version data) hashPolicy) (done 200) Err)
     end)).
Definition readSession (body : Body dto.StatefulSession) (m : dto.StatefulSession -> prog World Reply) : prog World Reply :=
  unmarshal body "Failed to unmarshal StatefulSession apply request body: " (fun request =>
  validated (ValidateStatefulSession request) "Request for StatefulSession apply is invalid. Cause: " (m request)).
Definition applyStatefulSession (request : dto.StatefulSession) : prog World Reply :=
  unless_standby (mkReply 200 PNil)
    (answer (ApplyStatefulSession request) (message "StatefulSession configuration applied successfully") Err).
Definition HandlePostStatefulSession (body : Body dto.StatefulSession) : prog World Reply := readSession body applyStatefulSession.
Definition HandlePutStatefulSession (body : Body dto.StatefulSession) : prog World Reply := HandlePostStatefulSession body.
Definition cleared (request : dto.StatefulSession) : dto.StatefulSession :=
  request <| dto.StatefulSession_Cookie := None |> <| dto.StatefulSession_Enabled := None |>.
Definition HandleDeleteStatefulSession (body : Body dto.StatefulSession) : prog World Reply :=
  readSession body (fun request => applyStatefulSession (cleared request)).

(** TCP keepalive of a cluster ([v3/tcpKeepalive.go]) *)
Definition errClusterNotFound : error := ErrMsg "no cluster found for provided clusterKey".
Definition keepalive_of (k : dto.TcpKeepalive) : TcpKeepalive :=
  (zero : TcpKeepalive) <| TcpKeepalive_Probes := int32 (dto.TcpKeepalive_Probes k) |> <| TcpKeepalive_Time := int32 (dto.TcpKeepalive_Time k) |>
    <| TcpKeepalive_Interval := int32 (dto.TcpKeepalive_Interval k) |>.
Definition validate_keepalive (req : ClusterKeepAliveReq) : option string :=
  if String.eqb (ClusterKeepAliveReq_ClusterKey req) "" then Some "ClusterTcpKeepAlive configuration is invalid: clusterKey field not be empty."
  else match ClusterKeepAliveReq_TcpKeepalive req with
       | Some k =>
           if ((dto.TcpKeepalive_Probes k <? 0) || (dto.TcpKeepalive_Time k <? 0) || (dto.TcpKeepalive_Interval k <? 0))%Z
           then Some "ClusterTcpKeepAlive configuration is invalid: probes, time and interval fields must be greater than 0." else None
       | None => None
       end.
Definition trim_key (req : ClusterKeepAliveReq) : ClusterKeepAliveReq :=
  mkClusterKeepAliveReq (strings_TrimSpace (ClusterKeepAliveReq_ClusterKey req)) (ClusterKeepAliveReq_TcpKeepalive req).
Definition keepalive_payload (req : ClusterKeepAliveReq) : prog World unit :=
  cluster <- FindClusterByName InTx (ClusterKeepAliveReq_ClusterKey req) ;;
  match cluster with
  | None => fail errClusterNotFound
  | Some cluster =>
      keepalive <- deref (ClusterKeepAliveReq_TcpKeepalive req) ;;
      _ <- UpdateExistingClusterWithTcpKeepalive InTx cluster (Some (keepalive_of keepalive)) ;;
      nodeGroups <- FindNodeGroupsByCluster InTx cluster ;;
      for_each nodeGroups (fun nodeGroup =>
        nodeGroup <- deref nodeGroup ;;
        now <- Now ;;
        SaveEnvoyConfigVersion InTx (NewEnvoyConfigVersion now (NodeGroup_Name nodeGroup) (table_name ClusterTable)))
  end.
Definition applyClusterKeepalive (req : ClusterKeepAliveReq) : prog World unit :=
  changes <- WithWTx (keepalive_payload req) ;;
  Publish TopicMultipleChanges (NewMultipleChangeEvent changes).
Definition HandlePostClusterTcpKeepAlive (body : Body ClusterKeepAliveReq) : prog World Reply :=
  unmarshal body "Failed to unmarshal ClusterTcpKeepAlive apply request body: " (fun request =>
  let request := trim_key request in
  validated (accepted (validate_keepalive request)) ""
    (unless_standby (mkReply 200 PNil)
      (answer (applyClusterKeepalive request) (message "TCP keepalive for cluster applied successfully") (fun err =>
        if same_error err errClusterNotFound then Err (ErrCp ValidationRequestError "no cluster found for provided clusterKey") else Err err)))).

(** Composite platform ([v3/composite/composite.go]); the mode of disaster
    recovery is not looked at. *)
Definition HandleGetCompositeStructure : prog World Reply := answer GetCompositeStructure (fun s => mkReply 200 (PStructure s)) Err.
Definition validateNamespace (namespace : string) : option error :=
  if String.eqb (strings_TrimSpace namespace) "" then Some (ErrMsg "namespace path variable must no be empty")
  else if IsCurrentNamespace (mkNamespace namespace) && bool_decide (composite_mode = BaselineMode)
  then Some (ErrCp CompositeConflictError "This operation cannot be performed on the baseline namespace")
  else ErrMsg <$> IsDNS1123Label namespace.
Definition with_namespace (namespace : string) (m : prog World Reply) : prog World Reply :=
  match validateNamespace namespace with
  | None => m
  | Some err =>
      fail (match GetCpErrCodeErrorOrNil err with
            | Some (code, msg) => ErrCp code msg
            | None => ErrCp ValidationRequestError ("Invalid namespace '" ++ namespace ++ "': ")
            end)
  end.
Definition HandleAddNamespaceToComposite (namespace : string) : prog World Reply :=
  with_namespace namespace (answer (AddCompositeNamespace namespace) (done 200) Err).
Definition HandleRemoveNamespaceFromComposite (namespace : string) : prog World Reply :=
  with_namespace namespace (answer (RemoveCompositeNamespace namespace) (done 200) Err).

(** The report on the configuration ([v3/debug.go]) *)
Definition HandleGetConfigValidation : prog World Reply :=
  answer (ValidateConfig Local) (fun s => mkReply 200 (PStatus s)) (fun err => replied 500 (PError "Can't validate config: ")).
End V3.
End V3.

(** * Before the handlers: the role of the node ([proxy], [services/health],
    the proxy of [composite]) *)

From S2P Require Clustering.

Module Proxy.
(** What becomes of a request: it is handled here - by a master once it is ready -
    or sent to an address, or answered. *)
Inductive Routed :=
  | Next
  | NextWhenReady
  | Redirect (address : string)
  | Refuse (e : error)
  | SendStatus (code : Z).
Definition urlPathBelongsToApi (path : string) : bool := strings_HasPrefix path "/api/".
Definition ProxyRequestsToMaster (node : Clustering.NodeState) (is_get : bool) (path : string) : Routed :=
  match Clustering.role node with
  | Clustering.Master => NextWhenReady
  | Clustering.Slave =>
      if urlPathBelongsToApi path then if is_get then Next else Redirect (Clustering.GetHttpAddress (Clustering.masterInfo node)) else Next
  | Clustering.Phantom => if is_get then Next else Refuse (ErrCp PhantomModeError "The database is currently unavailable")
  | Clustering.Initial => SendStatus 500
  end.
(** The headers Connection and Upgrade of the request that is sent, and whether
    the connection is closed after it. *)
Definition getWebSocketUpgradeHeaderRequest (connection upgrade : string) : string :=
  if strings_EqualFold connection "upgrade" then upgrade else "".
Definition prepareRequest (connection upgrade : string) : string * string * bool :=
  let webSocketConnection := getWebSocketUpgradeHeaderRequest connection upgrade in
  if nonempty webSocketConnection then ("Upgrade", webSocketConnection, false) else ("", upgrade, true).
(** The ports are those of the configuration, when it has them. *)
Definition composite_address `{T : TlsMode} `{CS : CompositeService} (http_bind https_bind : option string) : string :=
  "control-plane." ++ coreBaseNamespace ++ (if tls_preferred then default "8443" https_bind else default "8080" http_bind).
Definition CompositeProxyHandler `{T : TlsMode} `{CS : CompositeService} (http_bind https_bind : option string) : Routed :=
  match composite_mode with
  | BaselineMode => Next
  | SatelliteMode => Redirect (composite_address http_bind https_bind)
  end.

(** Readiness: whether, and why not; liveness: the errors. *)
Definition CheckReadiness (node : Clustering.NodeState) (receiver_started : bool) : bool * string :=
  match Clustering.role node with
  | Clustering.Master =>
      if Clustering.masterReady node || Clustering.masterHasLoadedData node then (true, "") else (false, "Master is not ready to serve requests")
  | Clustering.Slave => if receiver_started then (true, "") else (false, "Receiver data from master is not active")
  | Clustering.Phantom => (true, "")
  | Clustering.Initial => (false, "Unknown state of node: 0")
  end.
Definition HandleReadinessProbe (node : Clustering.NodeState) (receiver_started : bool) : Z :=
  if ((CheckReadiness node receiver_started).1 : bool) then 200 else 503.
Definition CheckLiveness (fatalErrors : list Clustering.fatalError) : list Clustering.fatalError := Clustering.GetFatalErrorsExceptInitErrors fatalErrors.
Definition HandleLivenessProbe (fatalErrors : list Clustering.fatalError) : Z :=
  match CheckLiveness fatalErrors with [] => 200 | _ => 503 end.
End Proxy.

(** * Requests that change something, as [lib/runner.go] routes them

    Those with a list of resources are in [Resources]. *)

Inductive Call : Type :=
  | RoutingDetailsV2
  | RoutingDetailsV3
  | PostRoutesV1 (nodeGroup : string) (body : Body RouteEntityRequestDto)
  | DeleteClusterV1 (clusterId : string)
  | DeleteRoutesV1 (nodeGroup from namespace : string)
  | PostRoutesV2 (nodeGroup : string) (body : Body (list dto.RouteRegistrationRequest))
  | DeleteNodeGroupRoutesV2 (nodeGroup : string) (registration : Body (list dto.RouteRegistrationRequest)) (body : Body (list RouteDeleteRequest))
  | DeleteRoutesV2 (registration : Body (list dto.RouteRegistrationRequest)) (body : Body (list RouteDeleteRequest))
  | DeleteRouteV2 (uuid : string)
  | DeleteEndpointsV2 (body : Body (list EndpointDeleteRequest))
  | DeleteVersionV2 (version : string)
  | PromoteV2 (version archiveSize : string)
  | RollbackV2
  | LoadBalanceV2 (body : Body LoadBalanceRequest)
  | PostRoutesV3 (body : Body dto.RoutingConfigRequestV3)
  | CreateVirtualServiceV3 (nodeGroup name : string) (body : Body dto.VirtualService)
  | PutVirtualServiceV3 (nodeGroup name : string) (body : Body dto.VirtualService)
  | DeleteVirtualServiceV3 (nodeGroup name : string)
  | DeleteRoutesV3 (body : Body (list dto.RouteDeleteRequestV3))
  | DeleteDomainsV3 (body : Body (list dto.DomainDeleteRequestV3))
  | DeleteEndpointsV3 (body : Body (list EndpointDeleteRequest))
  | DeleteVersionV3 (version : string)
  | PromoteV3 (version archiveSize : string)
  | RollbackV3
  | RegistryV3 (method : V3.Method) (body : Body ServicesVersionPayload)
  | GatewaySpecV3 (method : V3.Method) (body : Body GatewayDeclaration)
  | PostHttpFiltersV3 (body : Body HttpFiltersConfigRequestV3)
  | DeleteHttpFiltersV3 (body : Body HttpFiltersDropConfigRequestV3)
  | PostRateLimitV3 (body : Body RateLimitDto)
  | DeleteRateLimitV3 (body : Body RateLimitDto)
  | PostActiveActiveV3 (body : Body ActiveDCsV3)
  | DeleteActiveActiveV3
  | LoadBalanceV3 (body : Body LoadBalanceRequest)
  | PostStatefulSessionV3 (body : Body dto.StatefulSession)
  | PutStatefulSessionV3 (body : Body dto.StatefulSession)
  | DeleteStatefulSessionV3 (body : Body dto.StatefulSession)
  | TcpKeepAliveV3 (body : Body ClusterKeepAliveReq)
  | AddNamespaceV3 (namespace : string)
  | RemoveNamespaceV3 (namespace : string).

Section handle.
Context `{R : Runtime} `{H : Sha256} `{E : EntityService} `{T : TlsMode} `{U : NetUrl} `{CS : CompositeService}.
Variables localPublicGwHost localPrivateGwHost : string.
Variable attached : RouteConfiguration -> option (NodeGroup * list Cluster).

(** The checks of the group of registrations are made for every later route
    under its path, whatever the method: a request to delete routes passes them
    too, with its body decoded as one to register routes. *)
Definition registering (body : Body (list dto.RouteRegistrationRequest)) (next : prog World Reply) : prog World Reply :=
  middleware (ValidateRoutesApplicabilityToCurrentRoutingMode body) (middleware (ValidateHeaderMatcher body) next).
(** Values of the path are unescaped in version 3 only. *)
Definition handle (c : Call) : prog World Reply :=
  let param := GetFiberParam in
  match c with
  | RoutingDetailsV2 | RoutingDetailsV3 => HandleGetRoutingModeDetails
  | PostRoutesV1 nodeGroup body => V1.HandlePostRoutesWithNodeGroup nodeGroup body
  | DeleteClusterV1 clusterId => V1.HandleDeleteClusterWithID clusterId
  | DeleteRoutesV1 nodeGroup from namespace => V1.HandleDeleteRoutesWithNodeGroup nodeGroup from namespace
  | PostRoutesV2 nodeGroup body =>
      registering body (V2.HandlePostRoutesWithNodeGroup nodeGroup body)
  | DeleteNodeGroupRoutesV2 nodeGroup registration body =>
      registering registration (middleware (ValidateRouteDeleteRequest body) (V2.HandleDeleteRoutesWithNodeGroup nodeGroup body))
  | DeleteRoutesV2 registration body => registering registration (middleware (ValidateRouteDeleteRequest body) (V2.HandleDeleteRoutes body))
  | DeleteRouteV2 uuid => V2.HandleDeleteRouteWithUUID uuid
  | DeleteEndpointsV2 body => V2.HandleDeleteEndpoints body
  | DeleteVersionV2 version => V2.HandleDeleteDeploymentVersionWithID version
  | PromoteV2 version archiveSize => V2.HandlePostPromoteVersion version archiveSize
  | RollbackV2 => V2.HandlePostRollbackVersion
  | LoadBalanceV2 body => V2.HandlePostLoadBalance body
  | PostRoutesV3 body => V3.HandlePostRoutingConfig body
  | CreateVirtualServiceV3 nodeGroup name body => V3.HandleCreateVirtualService (param nodeGroup) (param name) body
  | PutVirtualServiceV3 nodeGroup name body => V3.HandlePutVirtualService (param nodeGroup) (param name) body
  | DeleteVirtualServiceV3 nodeGroup name => V3.HandleDeleteVirtualService (param nodeGroup) (param name)
  | DeleteRoutesV3 body => V3.HandleDeleteVirtualServiceRoutes body
  | DeleteDomainsV3 body => V3.HandleDeleteVirtualServiceDomains body
  | DeleteEndpointsV3 body => V3.HandleDeleteEndpoints body
  | DeleteVersionV3 version => V3.HandleDeleteDeploymentVersionWithID (param version)
  | PromoteV3 version archiveSize => V3.HandlePostPromoteVersion (param version) archiveSize
  | RollbackV3 => V3.HandlePostRollbackVersion
  | RegistryV3 method body => V3.handleRegistrationRequest method body
  | GatewaySpecV3 method body => V3.handleGatewaySpecApply method body
  | PostHttpFiltersV3 body => V3.HandlePostHttpFilters body
  | DeleteHttpFiltersV3 body => V3.HandleDeleteHttpFilters body
  | PostRateLimitV3 body => V3.HandlePostRateLimit body
  | DeleteRateLimitV3 body => V3.HandleDeleteRateLimit body
  | PostActiveActiveV3 body => V3.HandleActiveActiveConfigPost localPublicGwHost localPrivateGwHost body
  | DeleteActiveActiveV3 => V3.HandleActiveActiveConfigDelete attached
  | LoadBalanceV3 body => V3.HandlePostLoadBalance body
  | PostStatefulSessionV3 body => V3.HandlePostStatefulSession body
  | PutStatefulSessionV3 body => V3.HandlePutStatefulSession body
  | DeleteStatefulSessionV3 body => V3.HandleDeleteStatefulSession body
  | TcpKeepAliveV3 body => V3.HandlePostClusterTcpKeepAlive body
  | AddNamespaceV3 namespace => V3.HandleAddNamespaceToComposite (param namespace)
  | RemoveNamespaceV3 namespace => V3.HandleRemoveNamespaceFromComposite (param namespace)
  end.
End handle.
Definition of_composite (c : Call) : bool := match c with AddNamespaceV3 _ | RemoveNamespaceV3 _ => true | _ => false end.
Definition routing_details (c : Call) : bool := match c with RoutingDetailsV2 | RoutingDetailsV3 => true | _ => false end.

(** * Properties

    What a standby instance does not change; errors that the handlers do not
    recognise. *)
From S2P Require RuntimeModel DisasterRecovery.

Section standby.
Context `{R : Runtime} `{H : Sha256} `{E : EntityService} `{T : TlsMode} `{U : NetUrl} `{CS : CompositeService}.
Variables localPublicGwHost localPrivateGwHost : string.
Variable attached : RouteConfiguration -> option (NodeGroup * list Cluster).

(** The world is the same afterwards. *)
Definition still {A} (m : prog World A) : Prop := forall w, (m w).2 = w.
Lemma still_ret {A} (a : A) : still (ret a).
Proof. done. Qed.
Lemma still_fail {A} e : still (fail e : prog World A).
Proof. done. Qed.
Lemma still_lift {A} (r : result A) : still (lift r).
Proof. done. Qed.
Lemma still_deref {A} (o : option A) : still (deref o).
Proof. by destruct o. Qed.
Lemma still_bind {A B} (m : prog World A) (k : A -> prog World B) : still m -> (forall a, still (k a)) -> still (bind m k).
Proof. intros Hm Hk w. unfold bind. specialize (Hm w). destruct (m w) as [[a|e|p] w1]; cbn in Hm |- *; subst; [apply Hk|done|done]. Qed.
Lemma still_answer_with {A} (m : prog World A) f : still m -> still (answer_with m f).
Proof. intros Hm w. unfold answer_with. specialize (Hm w). by destruct (m w) as [[a|e|p] w1]. Qed.
Lemma still_answer {A} (m : prog World A) ok f : still m -> still (answer m ok f).
Proof. intros Hm w. unfold answer. specialize (Hm w). by destruct (m w) as [[a|e|p] w1]. Qed.
Lemma still_try_ok {A} (m : prog World A) : still m -> still (try_ok m).
Proof. intros Hm w. unfold try_ok. specialize (Hm w). by destruct (m w) as [[a|e|p] w1]. Qed.
Lemma still_wrap_err {A} p (m : prog World A) : still m -> still (wrap_err p m).
Proof. intros Hm w. unfold wrap_err. specialize (Hm w). by destruct (m w) as [[a|e|q] w1]. Qed.
Lemma still_read {A} (m : prog Db A) : still (in_ctx Local false m).
Proof. done. Qed.
Lemma still_fold_each {A S} (l : list A) (s : S) f : (forall s a, still (f s a)) -> still (fold_each l s f).
Proof. intros Hf. revert s. induction l as [|a l IH]; intros s; [done|]. cbn [fold_each]. by apply still_bind. Qed.
Lemma still_standby reply m : GetMode = Standby -> still (unless_standby reply m).
Proof. intros Hs. unfold unless_standby. rewrite bool_decide_true by done. done. Qed.
Lemma still_versions : still (FindAllDeploymentVersions Local).
Proof. apply still_wrap_err, still_read. Qed.
Lemma still_version v : still (FindDeploymentVersion Local v).
Proof. apply still_wrap_err, still_read. Qed.
Lemma still_mode : still GetRoutingMode.
Proof. done. Qed.
Lemma still_forbidden v n : still (IsForbiddenRoutingMode v n).
Proof. apply still_bind; [apply still_mode|]. intros m. apply still_ret. Qed.
Lemma still_unmarshal {A} (body : Body A) msg m : (forall a, still (m a)) -> still (unmarshal body msg m).
Proof. intros Hm. destruct body; [apply Hm|apply still_fail]. Qed.
Lemma still_validated v msg m : still m -> still (validated v msg m).
Proof. intros Hm. unfold validated. destruct (v.1); [done|apply still_fail]. Qed.
Lemma still_path_variable n v m : still m -> still (path_variable n v m).
Proof. intros Hm. unfold path_variable. destruct (String.eqb _ _); [apply still_fail|done]. Qed.
Lemma still_middleware c m : still c -> still m -> still (middleware c m).
Proof. intros Hc Hm. apply still_bind; [done|]. intros []; [apply still_ret|done]. Qed.
Lemma still_load_balance spec : still (ValidateLoadBalance spec).
Proof.
  unfold ValidateLoadBalance. match goal with |- still (match ?c with _ => _ end) => destruct c; [apply still_ret|] end. destruct (String.eqb _ _); [apply still_ret|].
  apply still_bind; [apply still_try_ok, still_version|]. intros o. apply still_ret.
Qed.
End standby.
Create HintDb still.
#[export] Hint Resolve still_ret still_fail still_lift still_deref still_bind still_answer_with still_answer still_try_ok still_fold_each still_standby
  still_versions still_version still_forbidden still_unmarshal still_validated still_path_variable still_middleware still_load_balance : still.
Create HintDb handlers.
#[export] Hint Unfold V1.HandleDeleteClusterWithID V1.HandleDeleteRoutesWithNodeGroup V1.HandlePostRoutesWithNodeGroup V2.HandleDeleteDeploymentVersionWithID V2.HandleDeleteEndpoints V2.HandleDeleteRouteWithUUID V2.HandleDeleteRoutes V2.HandleDeleteRoutesWithNodeGroup V2.HandlePostLoadBalance V2.HandlePostPromoteVersion V2.HandlePostRollbackVersion V2.HandlePostRoutesWithNodeGroup V3.HandleActiveActiveConfigDelete V3.HandleActiveActiveConfigPost V3.HandleAddNamespaceToComposite V3.HandleCreateVirtualService V3.HandleDeleteDeploymentVersionWithID V3.HandleDeleteEndpoints V3.HandleDeleteHttpFilters V3.HandleDeleteRateLimit V3.HandleDeleteStatefulSession V3.HandleDeleteVirtualService V3.HandleDeleteVirtualServiceDomains V3.HandleDeleteVirtualServiceRoutes V3.HandlePostClusterTcpKeepAlive V3.HandlePostHttpFilters V3.HandlePostLoadBalance V3.HandlePostPromoteVersion V3.HandlePostRateLimit V3.HandlePostRollbackVersion V3.HandlePostRoutingConfig V3.HandlePostStatefulSession V3.HandlePutStatefulSession V3.HandlePutVirtualService V3.HandleRemoveNamespaceFromComposite V3.handleGatewaySpecApply V3.handleRegistrationRequest V2.with_version V3.with_version V3.version_not_empty V3.applyStatefulSession V3.readSession respond ValidateHeaderMatcher ValidateRouteDeleteRequest ValidateRoutesApplicabilityToCurrentRoutingMode validateSingleRouteRegistrationRequest registering : handlers.
(** A guard of a handler. *)
Ltac still_guard := match goal with |- still (match ?c with _ => _ end) => destruct c | |- still (if ?c then _ else _) => destruct c end.
Ltac solve_still := repeat first [assumption | progress intros | still_guard | solve [auto with still] | first [apply still_bind | apply still_middleware | apply still_unmarshal | apply still_validated | apply still_path_variable | apply still_answer_with | apply still_fold_each]].

Section standby.
Context `{R : Runtime} `{H : Sha256} `{E : EntityService} `{T : TlsMode} `{U : NetUrl} `{CS : CompositeService}.
Variables localPublicGwHost localPrivateGwHost : string.
Variable attached : RouteConfiguration -> option (NodeGroup * list Cluster).

(** Of the requests above a standby instance carries out those for the
    namespaces of the composite alone. *)
Lemma still_handle c : GetMode = Standby -> of_composite c = false -> routing_details c = false ->
  still (handle localPublicGwHost localPrivateGwHost attached c).
Proof.
  intros Hs Hc Hd. destruct c; try discriminate Hc; try discriminate Hd; unfold handle.
  all: autounfold with handlers; solve_still.
Qed.
(** * Errors that the handlers look for in vain *)

(** The world in which the payload of a write transaction runs. *)
Definition in_write_tx (w : World) : World := set_writer true (set_tx (Some (txn_track_changes (w_db w), true)) w).
Definition tx_error (e : error) : error := ErrWrap "Executing actions in write transaction caused error" e.
Lemma payload_fails {A} (payload : prog World A) w e w1 : w_writer w = false -> payload (in_write_tx w) = (Err e, w1) ->
  WithWTxVal payload w = (Err (tx_error e), close_tx w w1).
Proof. intros Hw Ep. unfold WithWTxVal. rewrite Hw. cbv zeta. fold (in_write_tx w). unfold wrap_err. by rewrite Ep. Qed.
Lemma bind_Err {A B} (m : prog World A) (k : A -> prog World B) w e w' : m w = (Err e, w') -> bind m k w = (Err e, w').
Proof. intros Em. unfold bind. by rewrite Em. Qed.
Lemma active_instance reply m : GetMode = Active -> unless_standby reply m = m.
Proof. intros Ha. unfold unless_standby. by rewrite Ha. Qed.

(** What the handler of keepalives checks. *)
Definition validate_keepalive_req (req : ClusterKeepAliveReq) : option string := V3.validate_keepalive (V3.trim_key req).

(** C38: An error raised inside a write transaction reaches the handler wrapped,
    and three handlers do not find it there: deleting a route by an uuid that
    no route, or more than one, has answers 500 instead of 400; a keepalive for
    a cluster that does not exist is no error of validation; an update of a
    virtual service that fails is never the conflict of blue-green, whatever it
    failed with.  Nothing is committed. *)
Theorem wrapped_errors_missed w : GetMode = Active -> w_writer w = false ->
  (forall uuid found w1, uuid <> "" -> FindRoutesByUUIDPrefix InTx uuid (in_write_tx w) = (Ok found, w1) -> length found <> 1%nat ->
    V2.HandleDeleteRouteWithUUID uuid w = (Ok (mkReply 500 (PErrorOf (tx_error (RouteUUIDMatchError uuid)))), close_tx w w1)) /\
  (forall req w1, validate_keepalive_req req = None ->
    FindClusterByName InTx (strings_TrimSpace (ClusterKeepAliveReq_ClusterKey req)) (in_write_tx w) = (Ok None, w1) ->
    V3.HandlePostClusterTcpKeepAlive (Some req) w = (Err (tx_error V3.errClusterNotFound), close_tx w w1)) /\
  (forall nodeGroup name req e w1, strings_TrimSpace nodeGroup <> "" -> strings_TrimSpace name <> "" -> (ValidateVirtualServiceUpdate req nodeGroup).1 = true ->
    v3.update_virtual_service nodeGroup name req (in_write_tx w) = (Err e, w1) ->
    V3.HandlePutVirtualService nodeGroup name (Some req) w = (Err (tx_error e), close_tx w w1)).
Proof.
  intros Ha Hw. split_and!.
  - intros uuid found w1 Hu Ef Hn. unfold V2.HandleDeleteRouteWithUUID. rewrite (proj2 (String.eqb_neq _ _) Hu), active_instance by done.
    assert (delete_route_by_uuid uuid (in_write_tx w) = (Err (RouteUUIDMatchError uuid), w1)) as Ed.
    { unfold delete_route_by_uuid. rewrite (bind_run _ _ _ _ _ Ef). destruct found as [|r1 [|r2 l]]; [reflexivity|by cbn in Hn|reflexivity]. }
    unfold answer, DeleteRouteByUUID. rewrite (bind_Err _ _ _ _ _ (payload_fails _ _ _ _ Hw Ed)). reflexivity.
  - intros req w1 Hv Ef. unfold V3.HandlePostClusterTcpKeepAlive, unmarshal, validated. unfold validate_keepalive_req in Hv. rewrite Hv. cbn [V3.accepted fst].
    rewrite active_instance by done.
    assert (V3.keepalive_payload (V3.trim_key req) (in_write_tx w) = (Err V3.errClusterNotFound, w1)) as Ed.
    { unfold V3.keepalive_payload. rewrite (bind_run _ _ _ _ _ Ef). reflexivity. }
    unfold answer, V3.applyClusterKeepalive, WithWTx. rewrite (bind_Err _ _ _ _ _ (bind_Err _ _ _ _ _ (payload_fails _ _ _ _ Hw Ed))). reflexivity.
  - intros nodeGroup name req e w1 Hg Hn Hv Ed. unfold V3.HandlePutVirtualService, path_variable.
    rewrite (proj2 (String.eqb_neq _ _) Hg), (proj2 (String.eqb_neq _ _) Hn). unfold unmarshal, validated. rewrite Hv, active_instance by done.
    unfold answer, v3.UpdateVirtualService, WithWTx. rewrite (bind_Err _ _ _ _ _ (bind_Err _ _ _ _ _ (payload_fails _ _ _ _ Hw Ed))). reflexivity.
Qed.
End standby.

(** * The routing mode is set by a request that reads *)
From S2P Require Import DaoSpec.

Section details.
Context `{RL : RuntimeLaws} `{H : Sha256} `{E : EntityService} `{T : TlsMode} `{U : NetUrl} `{CS : CompositeService}.
Variables localPublicGwHost localPrivateGwHost : string.
Variable attached : RouteConfiguration -> option (NodeGroup * list Cluster).

Lemma still_in d {A} (m : prog Db A) : frame eq m -> still (in_ctx d false m).
Proof.
  intros Hm w. unfold in_ctx, open_ctx, on_tx. destruct d; [done|]. destruct (w_tx w) as [[db b]|] eqn:Et; [|done]. cbn.
  specialize (Hm db). destruct (m db) as [r db']. cbn in *. subst. rewrite <- Et. apply set_tx_same.
Qed.
Lemma still_FindAll d t : still (FindAll d t).
Proof. apply still_wrap_err, still_in. auto with frame. Qed.
Lemma still_FindByIndex d t idx args : still (FindByIndex d t idx args).
Proof. apply still_wrap_err, still_in. auto with frame. Qed.
Lemma still_open_ctx d {A} (m : prog World A) : still m -> still (open_ctx d false m).
Proof. intros Hm w. unfold open_ctx. destruct d; [apply Hm|]. destruct (w_tx w) as [[db b]|]; [|done]. cbn. apply Hm. Qed.
Lemma still_WithRTxVal {A} (m : prog World A) : still m -> still (WithRTxVal m).
Proof.
  intros Hm w. unfold WithRTxVal. pose proof (still_wrap_err "Executing actions in read transaction caused error" m Hm (set_tx (Some (w_db w, false)) w)) as Hw.
  destruct (wrap_err _ m _) as [r w1]. cbn in *. subst w1. by rewrite set_tx_set_tx, set_tx_same.
Qed.
Lemma still_or_nil {A} (m : prog World (list A)) : still m -> still (or_nil m).
Proof. intros Hm. apply still_bind; [by apply still_try_ok|intros; apply still_ret]. Qed.
Lemma still_namespaced : still getNamespacedRouteKeys.
Proof.
  apply still_bind; [|intros; apply still_ret]. apply still_or_nil, still_WithRTxVal. apply still_bind; [exact (still_FindAll InTx RouteTable)|].
  intros routes. apply still_fold_each. intros s r.
  apply still_bind; [exact (still_FindByIndex InTx HeaderMatcherTable "routeId" [VInt (Route_Id r)])|intros; apply still_ret].
Qed.
Lemma still_versioned : still getVersionedRouteKeys.
Proof.
  apply still_bind; [apply still_or_nil; exact (still_FindAll Local DeploymentVersionTable)|]. intros dv.
  destruct (length dv =? 1)%nat; [apply still_ret|].
  apply still_bind; [|intros; apply still_ret]. apply still_or_nil, still_WithRTxVal, still_open_ctx. apply still_bind.
  - apply still_fold_each. intros s stage.
    apply still_bind; [apply still_try_ok; exact (still_FindByIndex InTx DeploymentVersionTable "stage" [VStr stage])|intros; apply still_ret].
  - intros versions. apply still_open_ctx, still_fold_each. intros s v.
    apply still_bind; [exact (still_FindByIndex InTx RouteTable "dVersion" [VStr v])|intros; apply still_ret].
Qed.
(** The details of the routing mode set it, in any mode of disaster recovery. *)
Lemma routing_details_mode c w r w' : routing_details c = true ->
  handle localPublicGwHost localPrivateGwHost attached c w = (r, w') ->
  match r with
  | Ok reply => exists s, reply = mkReply 200 (PRoutingMode s) /\ w' = set_mode (Summary_RoutingMode s) w
  | _ => w' = w
  end.
Proof.
  intros Hd Eh. assert (HandleGetRoutingModeDetails w = (r, w')) as E1 by by destruct c. clear Eh.
  unfold HandleGetRoutingModeDetails, answer, UpdateRouteModeDetails in E1.
  pose proof (still_namespaced w) as Hn. unfold bind in E1. destruct (getNamespacedRouteKeys w) as [[ns|e|p] w1]; cbn in Hn; subst w1; [|by injection E1 as <- <-..].
  pose proof (still_versioned w) as Hv. destruct (getVersionedRouteKeys w) as [[vs|e|p] w1]; cbn in Hv; subst w1; [|by injection E1 as <- <-..].
  injection E1 as <- <-. by eexists.
Qed.

End details.

(** * Smaller facts *)

(** A policy is valid when exactly one of its four kinds is set. *)
Lemma hashPolicyIsValid_one p : hashPolicyIsValid p = true <->
  (b2n (nonempty (HashPolicy_HeaderName p)) + b2n (nonempty (HashPolicy_CookieName p)) + b2n (nonempty (HashPolicy_QueryParamName p))
   + b2n (NullBool_Valid (HashPolicy_QueryParamSourceIP p)) = 1)%nat.
Proof.
  unfold hashPolicyIsValid, b2n.
  destruct (nonempty (HashPolicy_HeaderName p)), (nonempty (HashPolicy_CookieName p)), (nonempty (HashPolicy_QueryParamName p)), (NullBool_Valid (HashPolicy_QueryParamSourceIP p)); cbn; lia.
Qed.
(** A request that may change something is handled by a master alone. *)
Lemma writes_on_master_only node path : Proxy.urlPathBelongsToApi path = true ->
  Proxy.ProxyRequestsToMaster node false path <> Proxy.Next /\
  (Proxy.ProxyRequestsToMaster node false path = Proxy.NextWhenReady <-> Clustering.role node = Clustering.Master).
Proof. intros Hp. unfold Proxy.ProxyRequestsToMaster. rewrite Hp. by destruct (Clustering.role node). Qed.
(** Errors of the initialisation do not make a node unhealthy. *)
Lemma init_errors_alive e errs : Clustering.isInitError e = true -> Proxy.HandleLivenessProbe (errs ++ [e]) = Proxy.HandleLivenessProbe errs.
Proof.
  intros He. unfold Proxy.HandleLivenessProbe, Proxy.CheckLiveness, Clustering.GetFatalErrorsExceptInitErrors.
  rewrite List.filter_app. cbn. rewrite He. cbn. by rewrite app_nil_r.
Qed.
(** A node that becomes the master again is ready at once, while requests wait. *)
Example ready_and_waiting :
  let node := Clustering.ChangeNodeState (Clustering.mkNodeInfo "10.0.0.1" 0 0 8080) Clustering.Master (Clustering.SetMasterReady Clustering.initial_node_state) in
  Proxy.HandleReadinessProbe node false = 200%Z /\ Proxy.ProxyRequestsToMaster node true "/api/v3/versions" = Proxy.NextWhenReady /\ Clustering.masterReady node = false.
Proof. done. Qed.
(** Ids of clusters that differ by 2 to the 32 are the same. *)
Lemma int32_wraps k n : (- 2 ^ 31 <= k < 2 ^ 31)%Z -> int32 (k + 2 ^ 32 * n) = k.
Proof. intros Hk. unfold int32. rewrite <- Z.add_assoc, (Z.add_comm (2 ^ 32 * n)), Z.add_assoc, (Z.mul_comm (2 ^ 32)), Z_mod_plus_full, Z.mod_small; lia. Qed.
Example delete_cluster_wraps `{R : Runtime} `{H : Sha256} `{E : EntityService} w :
  (V1.HandleDeleteClusterWithID "4294967297" w).2 = (V1.HandleDeleteClusterWithID "1" w).2.
Proof.
  unfold V1.HandleDeleteClusterWithID. change (strconv_Atoi "4294967297") with (Some 4294967297%Z). change (strconv_Atoi "1") with (Some 1%Z).
  cbv beta iota. change (int32 4294967297) with 1%Z. change (int32 1) with 1%Z. unfold unless_standby, answer. destruct (bool_decide _); [done|].
  destruct (v1.DeleteCluster 1 w) as [[a|e|p] w']; done.
Qed.
(** The namespace that is checked is trimmed, the one that is stored is not. *)
Example namespace_not_trimmed : ServicesVersionPayload_Validate (mkServicesVersionPayload " ns " ["orders"] "v2" None false) = (true, "").
Proof. vm_compute. reflexivity. Qed.
Example QueryUnescape_ex : GetFiberParam "a%2Fb+c" = "a/b c" /\ GetFiberParam "100%" = "100%".
Proof. split; reflexivity. Qed.
Example sanitize_ex : sanitizeMicroserviceHost "http://orders-v1:8080/x" = "orders-v1".
Proof. reflexivity. Qed.
Example dns_label : IsDNS1123Label "my-ns1" = None /\ IsDNS1123Label "-ns" <> None /\ IsDNS1123Label "" <> None.
Proof. split_and!; [reflexivity|discriminate..]. Qed.

(** * Witnesses *)

Definition test_entity : EntityService := {| defaultVersion := "v1" |}.
Definition test_tls : TlsMode := {| tls_preferred := false |}.
Definition test_url : NetUrl := {| url_Parse := fun s => Some (mkURL "http" s); net_LookupPort := fun _ => None; SelectUrl := "http" |}.
Definition test_composite : CompositeService :=
  {| composite_mode := BaselineMode; coreBaseNamespace := "cloud"; sync_default_tenant := fun _ => Ok tt; post_to_baseline := fun _ => Some 201%Z |}.
(** A rate limit changes an active instance. *)
Definition limit_call : Call := PostRateLimitV3 (Some (mkRateLimitDto "limit" 10 "PRODUCT" false)).
(** Without a port in the configuration the address of the baseline has none. *)
Example composite_address_default : Proxy.composite_address (T := test_tls) (CS := test_composite) None None = "control-plane.cloud8080".
Proof. reflexivity. Qed.
Example limit_active :
  length (txn_changes (w_db (handle (R := RuntimeModel.test_runtime) (H := RouteKey.identity_digest) (E := test_entity) (T := test_tls) (U := test_url) (CS := test_composite)
    "" "" (fun _ => None) limit_call RuntimeModel.empty_world).2)) = 1%nat.
Proof. vm_compute. reflexivity. Qed.

Definition keepalive_call : ClusterKeepAliveReq := mkClusterKeepAliveReq "orders" (Some (dto.mkTcpKeepalive 3 10 10)).
Definition cluster_none := FindClusterByName InTx "orders" (in_write_tx RuntimeModel.empty_world).
Lemma wrapped_errors_missed_witness :
  (V3.HandlePostClusterTcpKeepAlive (R := RuntimeModel.test_runtime) (Some keepalive_call) RuntimeModel.empty_world).1 = Err (tx_error V3.errClusterNotFound).
Proof.
  assert (cluster_none.1 = Ok None) as E2 by (vm_compute; reflexivity).
  destruct (wrapped_errors_missed (R := RuntimeModel.test_runtime) (H := RouteKey.identity_digest) (E := test_entity) (T := test_tls) (U := test_url)
    RuntimeModel.empty_world eq_refl eq_refl) as (_ & T2 & _).
  rewrite (T2 keepalive_call cluster_none.2); [reflexivity|reflexivity|]. rewrite <- E2. exact (surjective_pairing cluster_none).
Defined.
