(* ===== verification/Resources.v ===== *)
(** Declarative configuration: a request is a list of resources, each decoded,
    validated and applied by the definition registered for its version and kind
    ([services/configresources], the [resource.go] and [res.go] of the services,
    [restcontrollers/v3/applyConfig.go], [errorcodes/multi_cause_error.go]).

    The specification of a resource is what the parser of JSON or YAML made of
    it; how mapstructure turns it into the type of its kind is a parameter, and
    so is the text of an error that carries a code.  Metadata are kept as far as
    the code looks: strings, and values that are no strings. *)
From S2P Require Import Persistence.
From S2P Require Import Prelude GoLib Domain Tables MemDb Msaddr Events RouteKey Runtime Dao Entity RegCommon Format RouteCreation Dto Requests.
From S2P Require Import Registration Util RouteServices LoadBalance StatefulSessions Validation Registry BlueGreen Gateways RateLimits HttpFilters.
From S2P Require Import ActiveDCs Composite DebugValidate Tls ClusterService Controllers.
Open Scope string_scope.

(** * Data *)

(** A value of the metadata: a string, or anything else. *)
Inductive Value := VText (s : string) | VOther.
Definition Metadata : Type := gmap string Value.
Definition ResourceKey : Type := string * string.
(** [Spec] is what an [interface{}] holds after parsing; [None] is nil. *)
Record ConfigResource {Spec : Type} := mkConfigResource {
  ConfigResource_APIVersion : string;
  ConfigResource_Kind : string;
  ConfigResource_NodeGroup : string;
  ConfigResource_Metadata : option Metadata;
  ConfigResource_Spec : option Spec
}.
Arguments ConfigResource : clear implicits.
Arguments mkConfigResource {Spec}.
Definition Key {Spec} (config : ConfigResource Spec) : ResourceKey := (ConfigResource_APIVersion config, ConfigResource_Kind config).
(** What a handler returns beside its error. *)
Inductive Data : Type :=
  | DNil
  | DText (s : string)
  | DMessage (msg : string)
  | DRoutes (l : list Route).

(** mapstructure: the value of each type a specification is decoded to, or what
    is wrong with it; and the text of an error with a code. *)
Class Decoder (Spec : Type) : Type := {
  decode_registrations : option Spec -> string + list dto.RouteRegistrationRequest;
  decode_routing : option Spec -> string + dto.RoutingConfigRequestV3;
  decode_virtual_service : option Spec -> string + dto.VirtualService;
  decode_drop : option Spec -> string + list dto.RouteDeleteRequestV3;
  decode_filters : option Spec -> string + HttpFiltersConfigRequestV3;
  decode_filters_drop : option Spec -> string + HttpFiltersDropConfigRequestV3;
  decode_cluster : option Spec -> string + ClusterConfigRequestV3;
  decode_tls : option Spec -> string + TlsConfigDto;
  decode_session : option Spec -> string + dto.StatefulSession;
  decode_rate_limit : option Spec -> string + RateLimitDto;
  decode_services_version : option Spec -> string + ServicesVersionPayload;
  decode_gateway : option Spec -> string + GatewayDeclaration;
  decode_load_balance : option Spec -> string + LoadBalanceRequest;
  coded_error_text : string -> string -> string
}.

(** [err.Error()] *)
Fixpoint error_text `{D : Decoder Spec} (e : error) : string :=
  match e with
  | ErrNotFound => "not found"
  | ErrMemDb msg | ErrMsg msg => msg
  | ErrCp code msg => coded_error_text code msg
  | ErrWrap prefix e => prefix ++ ": " ++ error_text e
  end.

(** The entity is a pointer: a validation may change what the handler is given. *)
Record ResourceDef `{R : Runtime} {Spec : Type} := mkResourceDef {
  Entity : Type;
  Decode : option Spec -> string + Entity;
  Validate : Metadata -> Entity -> prog World (verdict * Entity);
  Handler : Metadata -> Entity -> prog World Data;
  IsOverriddenByCR : Metadata -> Entity -> bool
}.
Arguments ResourceDef {R} Spec.
Arguments mkResourceDef {R Spec Entity}.

(** * Metadata ([services/route/routeUtils.go]) *)

Definition ValidateMetadataStringField (md : Metadata) (field : string) : verdict :=
  match md !! field with
  | None => (false, "field '" ++ field ++ "' must be set")
  | Some VOther => (false, "field '" ++ field ++ "' must have string type")
  | Some (VText value) => if String.eqb (strings_TrimSpace value) "" then (false, "field '" ++ field ++ "' must not be empty") else (true, "")
  end.
(** [md[field].(string)] *)
Definition metadata_string `{R : Runtime} (md : Metadata) (field : string) : prog World string :=
  match md !! field with
  | Some (VText value) => ret value
  | _ => panic "interface conversion: not a string"
  end.
(** The namespace of the metadata, when there is one. *)
Definition metadata_namespace (md : Metadata) : option (option string) :=
  match md !! "namespace" with
  | None => None
  | Some (VText namespace) => Some (Some (strings_TrimSpace namespace))
  | Some VOther => Some None
  end.
Definition mesh_v3 := "nc.core.mesh/v3".

(** * The kinds *)

Section kinds.
Context `{R : Runtime} `{H : Sha256} `{E : EntityService} `{T : TlsMode} `{U : NetUrl} `{K : Certificates}.
Context `{D : Decoder Spec}.

(** A validation that leaves the entity. *)
Definition checked {A} (v : verdict) (a : A) : prog World (verdict * A) := ret (v, a).

(** [services/route/v2/service.go] *)
Definition RegisterRoutesResource : ResourceDef Spec := mkResourceDef decode_registrations
  (fun md req =>
     let v := ValidateMetadataStringField md "nodeGroup" in
     if negb (v.1 : bool) then checked v req
     else nodeGroup <- metadata_string md "nodeGroup" ;; checked (ValidateV2 req nodeGroup) req)
  (fun md req => nodeGroup <- metadata_string md "nodeGroup" ;; v2.RegisterRoutes req nodeGroup ;;; ret DNil)
  (fun _ req => v2.IsOverriddenByCR req).

(** [services/route/v3/res.go] *)
Definition with_routing_namespace (namespace : string) (req : dto.RoutingConfigRequestV3) : dto.RoutingConfigRequestV3 :=
  dto.mkRoutingConfigRequestV3 namespace (dto.RoutingConfigRequestV3_Gateways req) (dto.RoutingConfigRequestV3_ListenerPort req)
    (dto.RoutingConfigRequestV3_TlsSupported req) (dto.RoutingConfigRequestV3_VirtualServices req) (dto.RoutingConfigRequestV3_Overridden req).
Definition bad_namespace : error := ErrMsg "field 'namespace' must have string type".
Definition RouteConfigurationResource : ResourceDef Spec := mkResourceDef decode_routing
  (fun _ req => checked (ValidateV3 req) req)
  (fun md req =>
     match metadata_namespace md with
     | Some None => fail bad_namespace
     | Some (Some namespace) => wrap_err "failed to register routes via v3 api" (v3.RegisterRoutingConfig (with_routing_namespace namespace req)) ;;; ret DNil
     | None => wrap_err "failed to register routes via v3 api" (v3.RegisterRoutingConfig req) ;;; ret DNil
     end)
  (fun _ req => dto.RoutingConfigRequestV3_Overridden req).
(** The name of the specification is validated, that of the metadata is used. *)
Definition VirtualServiceResource : ResourceDef Spec := mkResourceDef decode_virtual_service
  (fun md req =>
     let name := ValidateMetadataStringField md "name" in
     let gateway := ValidateMetadataStringField md "gateway" in
     if negb (name.1 : bool) then checked name req
     else if negb (gateway.1 : bool) then checked gateway req
     else nodeGroup <- metadata_string md "gateway" ;; checked (ValidateVirtualService req [nodeGroup]) req)
  (fun md vs =>
     name <- metadata_string md "name" ;;
     nodeGroup <- metadata_string md "gateway" ;;
     wrap_err "creating virtual service caused error" (v3.CreateVirtualService nodeGroup (V3.named name vs)) ;;; ret DNil)
  (fun _ vs => dto.VirtualService_Overridden vs).
Definition with_drop_namespace (namespace : string) (req : dto.RouteDeleteRequestV3) : dto.RouteDeleteRequestV3 :=
  dto.mkRouteDeleteRequestV3 (dto.RouteDeleteRequestV3_Gateways req) (dto.RouteDeleteRequestV3_VirtualService req)
    (dto.RouteDeleteRequestV3_Routes req) namespace (dto.RouteDeleteRequestV3_Version req) (dto.RouteDeleteRequestV3_Overridden req).
Definition RoutesDropResource : ResourceDef Spec := mkResourceDef decode_drop
  (fun _ requests => checked (true, "") requests)
  (fun md requests =>
     let delete requests := deletedRoutes <- wrap_err "removing routes caused error" (v3.DeleteRoutes requests) ;; ret (DRoutes deletedRoutes) in
     match metadata_namespace md with
     | Some None => fail bad_namespace
     | Some (Some namespace) => delete (map (with_drop_namespace namespace) requests)
     | None => delete requests
     end)
  (fun _ requests =>
     match requests with
     | [] => false
     | r :: _ => forallb (fun request => Bool.eqb (dto.RouteDeleteRequestV3_Overridden r) (dto.RouteDeleteRequestV3_Overridden request)) requests
                 && dto.RouteDeleteRequestV3_Overridden r
     end).

(** [services/httpFilter] *)
Definition HttpFiltersResource : ResourceDef Spec := mkResourceDef decode_filters
  (fun _ req => checked (V3.accepted (HttpFilters_ValidateApply req)) req)
  (fun _ req => HttpFilters_Apply req ;;; ret DNil)
  (fun _ req => HttpFilters_Overridden req).
Definition HttpFiltersDropResource : ResourceDef Spec := mkResourceDef decode_filters_drop
  (fun _ req => checked (V3.accepted (HttpFilters_ValidateDelete req)) req)
  (fun _ req => HttpFilters_Delete req ;;; ret DNil)
  (fun _ req => HttpFiltersDrop_Overridden req).

(** [services/cluster/resource.go], [services/tls/resource.go], [services/ratelimit/resource.go] *)
Definition ClusterResource : ResourceDef Spec := mkResourceDef decode_cluster
  (fun _ req => checked (V3.accepted (validate_cluster_resource req)) req)
  (fun _ req => handle_cluster_resource req ;;; ret DNil)
  (fun _ req => ClusterConfig_Overridden req).
Definition TlsDefResource : ResourceDef Spec := mkResourceDef decode_tls
  (fun _ tlsConfig => checked (V3.accepted (validate_resource tlsConfig)) tlsConfig)
  (fun _ tlsConfig => SaveTlsConfig_ tlsConfig ;;; ret DNil)
  (fun _ tlsConfig => TlsConfigDto_Overridden tlsConfig).
Definition RateLimitResource : ResourceDef Spec := mkResourceDef decode_rate_limit
  (fun _ rateLimit => checked (V3.accepted (ValidateRequest rateLimit)) rateLimit)
  (fun _ rateLimit => ApplyRateLimit rateLimit ;;; ret DNil)
  (fun _ rateLimit => RateLimitDto_Overridden rateLimit).

(** [services/statefulsession/res.go] *)
Definition with_session_namespace (namespace : string) (spec : dto.StatefulSession) : dto.StatefulSession :=
  dto.mkStatefulSession (dto.StatefulSession_Version spec) namespace (dto.StatefulSession_Cluster spec) (dto.StatefulSession_Hostname spec)
    (dto.StatefulSession_Gateways spec) (dto.StatefulSession_Port spec) (dto.StatefulSession_Enabled spec) (dto.StatefulSession_Cookie spec)
    (dto.StatefulSession_Overridden spec).
Definition enrichSpecWithNamespace (spec : dto.StatefulSession) (md : Metadata) : string + dto.StatefulSession :=
  if String.eqb (dto.StatefulSession_Namespace spec) "" then
    match metadata_namespace md with
    | Some None => inl "statefulsession: field 'namespace' must have string type"
    | Some (Some namespace) => inr (with_session_namespace namespace spec)
    | None => inr spec
    end
  else inr spec.
Definition StatefulSessionResource : ResourceDef Spec := mkResourceDef decode_session
  (fun md config =>
     match enrichSpecWithNamespace config md with
     | inl msg => checked (false, msg) config
     | inr config => checked (ValidateStatefulSession config) config
     end)
  (fun md config =>
     match enrichSpecWithNamespace config md with
     | inl msg => fail (ErrMsg msg)
     | inr config => ApplyStatefulSession config ;;; ret (DText "StatefulSession configuration applied successfully")
     end)
  (fun _ config => dto.StatefulSession_Overridden config).

(** [configresources/generic.go] with [services/bluegreen/registry.go] and
    [services/gateway/gateway.go]; the second validates while it applies. *)
Definition ServicesVersionResource : ResourceDef Spec := mkResourceDef decode_services_version
  (fun _ payload => checked (ServicesVersionPayload_Validate payload) payload)
  (fun _ payload => Registry.Apply payload ;;; ret (DMessage "microservices version applied successfully"))
  (fun _ payload => Payload_Overridden payload).
Definition GatewayDeclarationResource : ResourceDef Spec := mkResourceDef decode_gateway
  (fun _ payload => checked (true, "") payload)
  (fun _ payload => Gateways.Apply payload ;;; ret (DMessage "gateway declaration applied successfully"))
  (fun _ payload => GatewayDeclaration_Overridden payload).

(** [restcontrollers/v2/loadbalance.go]: policies that are absent become none
    before they are validated. *)
Definition with_policies (spec : LoadBalanceRequest) : LoadBalanceRequest :=
  match LoadBalanceRequest_Policies spec with
  | Some _ => spec
  | None => mkLoadBalanceRequest (LoadBalanceRequest_Cluster spec) (LoadBalanceRequest_Version spec) (LoadBalanceRequest_Endpoint spec)
              (LoadBalanceRequest_Namespace spec) (Some []) (LoadBalanceRequest_Overridden spec)
  end.
Definition LoadBalanceResource : ResourceDef Spec := mkResourceDef decode_load_balance
  (fun _ spec =>
     let spec := with_policies spec in
     v <- ValidateLoadBalance (lb_spec spec) ;;
     checked (if (v.1 : bool) then (true, "") else (false, v.2)) spec)
  (fun _ spec =>
     clusterName <- lift (lb_cluster spec) ;;
     match lb_policies spec with
     | None => fail (ErrMsg "v2: route action hash policy must have precisely one of header, cookie, queryParameter or connectionProperties settings")
     | Some hashPolicy =>
         ApplyLoadBalanceConfig clusterName (LoadBalanceRequest_Version spec) hashPolicy ;;;
         ret (DText "LoadBalance configuration has applied")
     end)
  (fun _ spec => LoadBalanceRequest_Overridden spec).

(** * The registry ([configresources/def.go]) *)

(** As [lib/runner.go] registers them: a key registered again is overwritten. *)
Definition registered : list (ResourceKey * ResourceDef Spec) :=
  [(("", ""), RegisterRoutesResource);
   ((mesh_v3, "RouteConfiguration"), RouteConfigurationResource);
   ((mesh_v3, "VirtualService"), VirtualServiceResource);
   ((mesh_v3, "RoutesDrop"), RoutesDropResource);
   ((mesh_v3, "HttpFilters"), HttpFiltersResource);
   ((mesh_v3, "HttpFiltersDrop"), HttpFiltersDropResource);
   ((mesh_v3, "Cluster"), ClusterResource);
   ((mesh_v3, "TlsDef"), TlsDefResource);
   ((mesh_v3, "StatefulSession"), StatefulSessionResource);
   ((mesh_v3, "RateLimit"), RateLimitResource);
   ((mesh_v3, "ServicesVersion"), ServicesVersionResource);
   ((mesh_v3, "GatewayDeclaration"), GatewayDeclarationResource);
   (("", "LoadBalance"), LoadBalanceResource);
   ((mesh_v3, "LoadBalance"), LoadBalanceResource)].
Definition registry (key : ResourceKey) : option (ResourceDef Spec) :=
  snd <$> List.find (fun d => bool_decide (d.1 = key)) (rev registered).

Definition ErrIsOverridden := "Error for overriding config".
(** The metadata a resource is handled with. *)
Definition handled_metadata (config : ConfigResource Spec) : Metadata :=
  <["nodeGroup" := VText (ConfigResource_NodeGroup config)]> (default ∅ (ConfigResource_Metadata config)).
(** An error is a code and a detail. *)
Definition HandleConfigResource (config : ConfigResource Spec) : prog World ((string * string) + Data) :=
  let refuse code detail := ret (inl (code, detail)) in
  match registry (Key config) with
  | None => refuse ValidationRequestError
              ("can't find resource definition for apiVersion: " ++ ConfigResource_APIVersion config ++ " and kind: " ++ ConfigResource_Kind config)
  | Some resDef =>
      let metadata := handled_metadata config in
      match Decode resDef (ConfigResource_Spec config) with
      | inl err => refuse ValidationRequestError err
      | inr entity =>
          if IsOverriddenByCR resDef metadata entity then refuse ValidationRequestError ErrIsOverridden
          else
            validated <- Validate resDef metadata entity ;;
            if negb (validated.1.1 : bool) then refuse ValidationRequestError validated.1.2
            else fun w => match Handler resDef metadata validated.2 w with
                          | (Ok result, w') => (Ok (inr result), w')
                          | (Err err, w') => (Ok (inl (MultiCauseApplyConfigError, error_text err)), w')
                          | (Panic p, w') => (Panic p, w')
                          end
      end
  end.

(** * The request ([restcontrollers/v3/applyConfig.go]) *)

Record ApplyResult := mkApplyResult {
  ApplyResult_Request : ConfigResource Spec;
  Response_Code : Z;
  Response_Error : option (string * string);
  Response_Data : Data
}.
Definition zero_result : ApplyResult := mkApplyResult (mkConfigResource "" "" "" None None) 0 None DNil.
Definition firstOrderConfigs := ["TlsDef"].
Definition thirdOrderConfigs := ["StatefulSession"; "LoadBalance"].
(** The lists of the three orders. *)
Definition orderConfigs (configResources : list (ConfigResource Spec)) : list (ConfigResource Spec) * list (ConfigResource Spec) * list (ConfigResource Spec) :=
  fold_left (fun '(first, second, third) config =>
    let kind := ConfigResource_Kind config in
    if String.eqb kind "" then (first, second ++ [config], third)
    else if SliceContains firstOrderConfigs [kind] then (first ++ [config], second, third)
    else if SliceContains thirdOrderConfigs [kind] then (first, second, third ++ [config])
    else (first, second ++ [config], third))%list configResources ([], [], []).
(** The map of the metadata, when there is one, is shared with the request: the
    answer shows what handling wrote to it. *)
Definition shown (config : ConfigResource Spec) : ConfigResource Spec :=
  match registry (Key config), ConfigResource_Metadata config with
  | Some _, Some _ => mkConfigResource (ConfigResource_APIVersion config) (ConfigResource_Kind config) (ConfigResource_NodeGroup config)
                        (Some (handled_metadata config)) (ConfigResource_Spec config)
  | _, _ => config
  end.
(** [GetHttpCode]: a handler that failed is an error 500. *)
Definition NewApplyResult (config : ConfigResource Spec) (outcome : (string * string) + Data) : ApplyResult :=
  match outcome with
  | inr data => mkApplyResult (shown config) 200 None data
  | inl (code, detail) =>
      if String.eqb detail ErrIsOverridden
      then mkApplyResult (shown config) 200 None
             (DText ("Configuration wasn't applied because flag " ++ quoted "overridden" ++ " is set to true"))
      else mkApplyResult (shown config) (GetHttpCode code) (Some (code, detail)) DNil
  end.
Definition succeeded (r : ApplyResult) : bool := match Response_Error r with None => true | Some _ => false end.
(** [results[*idx] = result; *idx++] *)
Definition store (idx : nat) (r : ApplyResult) (results : list ApplyResult) : prog World (nat * list ApplyResult) :=
  if (idx <? length results)%nat then ret (S idx, <[idx := r]> results) else panic "index out of range".
Definition applyConfig (s : bool * nat * list ApplyResult) (config : ConfigResource Spec) : prog World (bool * nat * list ApplyResult) :=
  let '(isAllResourcesAppliedSuccessfully, idx, results) := s in
  outcome <- HandleConfigResource config ;;
  let result := NewApplyResult config outcome in
  stored <- store idx result results ;;
  ret (isAllResourcesAppliedSuccessfully && succeeded result, stored.1, stored.2).
Definition applyConfigs (configs : list (ConfigResource Spec)) (idx : nat) (results : list ApplyResult) : prog World (bool * nat * list ApplyResult) :=
  fold_each configs (true, idx, results) applyConfig.

(** [errorcodes.NewRestErrorWithMeta] *)
Record Cause := mkCause { Cause_Code : string; Cause_Detail : string; Cause_httpCode : Z; Cause_meta : ConfigResource Spec }.
Definition cause_of (r : ApplyResult) : Cause :=
  match Response_Error r with
  | Some (code, detail) => mkCause code (coded_error_text code detail) (GetHttpCode code) (ApplyResult_Request r)
  | None => mkCause OkErrorCode "" (Response_Code r) (ApplyResult_Request r)
  end.
Inductive ConfigReply :=
  | RespondResults (results : list ApplyResult)
  | RespondCauses (code detail : string) (causes : list Cause) (httpCode : Z).
Definition NewMultiCauseError (errCode : string) (causes : list Cause) : prog World ConfigReply :=
  match causes with
  | [] => panic "index out of range"
  | first :: rest =>
      let detail := match rest with
                    | [] => Cause_Detail first
                    | [second] => Cause_Detail first ++ "; " ++ Cause_Detail second
                    | second :: more => Cause_Detail first ++ "; " ++ Cause_Detail second ++ "; See " ++ strconv_Itoa (Z.of_nat (length more)) ++ " more errors in errors[*].message"
                    end in
      let httpCode := if forallb (fun c => (Cause_httpCode c =? Cause_httpCode first)%Z) causes then Cause_httpCode first else 500%Z in
      ret (RespondCauses errCode detail causes httpCode)
  end.
(** The body after it was made JSON and decoded, or nothing. *)
Definition HandlePostConfig (body : Body (list (ConfigResource Spec))) : prog World ConfigReply :=
  match body with
  | None => fail (ErrCp UnmarshalRequestError "Unmarshalling json string to array of ConfigResource caused error: ")
  | Some configResources =>
      let results := repeat zero_result (length configResources) in
      if bool_decide (GetMode = Standby) then ret (RespondResults results)
      else
        let '(first, second, third) := orderConfigs configResources in
        s0 <- applyConfigs first 0 results ;;
        let '(ok0, idx, results) := s0 in
        s1 <- applyConfigs second idx results ;;
        let '(ok1, idx, results) := s1 in
        s2 <- applyConfigs third idx results ;;
        let '(ok2, idx, results) := s2 in
        if ok2 && (ok1 && ok0) then ret (RespondResults results)
        else NewMultiCauseError MultiCauseApplyConfigError (map cause_of results)
  end.
Definition HandleConfig (body : Body (list (ConfigResource Spec))) : prog World ConfigReply := HandlePostConfig body.

(** All requests that change something, with those of [Controllers]. *)
Inductive Request :=
  | Called (c : Call)
  | ConfigV3 (body : Body (list (ConfigResource Spec)))
  | ApplyConfigV3 (body : Body (list (ConfigResource Spec))).
Definition handle_request `{CS : CompositeService} (localPublicGwHost localPrivateGwHost : string)
    (attached : RouteConfiguration -> option (NodeGroup * list Cluster)) (request : Request) : prog World (Reply + ConfigReply) :=
  match request with
  | Called c => reply <- handle localPublicGwHost localPrivateGwHost attached c ;; ret (inl reply)
  | ConfigV3 body => reply <- HandleConfig body ;; ret (inr reply)
  | ApplyConfigV3 body => reply <- HandlePostConfig body ;; ret (inr reply)
  end.
End kinds.

(** * Properties

    Every resource is handled once, in the order of its kind; one that is
    refused changes nothing. *)

(** ** Order *)

(** The phase of a kind. *)
Definition phase {Spec} (config : ConfigResource Spec) : nat :=
  if String.eqb (ConfigResource_Kind config) "TlsDef" then 0
  else if String.eqb (ConfigResource_Kind config) "StatefulSession" || String.eqb (ConfigResource_Kind config) "LoadBalance" then 2
  else 1.
(** [l'] is [l] sorted by phase, keeping the order within each. *)
Definition by_phase {Spec} (l l' : list (ConfigResource Spec)) : Prop :=
  l' ≡ₚ l /\ StronglySorted (fun c c' => phase c <= phase c')%nat l' /\
  forall k, List.filter (fun c => phase c =? k)%nat l' = List.filter (fun c => phase c =? k)%nat l.
Definition of_phase {Spec} (k : nat) (l : list (ConfigResource Spec)) : list (ConfigResource Spec) := List.filter (fun c => phase c =? k)%nat l.
Definition in_order {Spec} (l : list (ConfigResource Spec)) : list (ConfigResource Spec) := (of_phase 0 l ++ of_phase 1 l ++ of_phase 2 l)%list.

Section order.
Context {Spec : Type}.
Implicit Types (l : list (ConfigResource Spec)) (c : ConfigResource Spec).

Lemma phase_cases c :
  phase c = (if String.eqb (ConfigResource_Kind c) "" then 1
             else if SliceContains firstOrderConfigs [ConfigResource_Kind c] then 0
             else if SliceContains thirdOrderConfigs [ConfigResource_Kind c] then 2 else 1)%nat.
Proof.
  unfold phase, firstOrderConfigs, thirdOrderConfigs, SliceContains. generalize (ConfigResource_Kind c). intros k.
  destruct (String.eqb k "") eqn:E0; [apply String.eqb_eq in E0; subst; reflexivity|].
  cbn. rewrite ?andb_true_r, ?orb_false_r. by destruct (String.eqb k "TlsDef").
Qed.
Lemma of_phase_app k l l' : of_phase k (l ++ l') = (of_phase k l ++ of_phase k l')%list.
Proof. unfold of_phase. induction l as [|c l IH]; [done|]. cbn. destruct (phase c =? k)%nat; cbn; by rewrite IH. Qed.
Lemma of_phase_same k l : of_phase k (of_phase k l) = of_phase k l.
Proof. unfold of_phase. induction l as [|c l IH]; [done|]. cbn. destruct (phase c =? k)%nat eqn:Ek; [|done]. cbn. by rewrite Ek, IH. Qed.
Lemma of_phase_other k j l : k <> j -> of_phase k (of_phase j l) = [].
Proof.
  intros Hn. unfold of_phase. induction l as [|c l IH]; [done|]. cbn. destruct (phase c =? j)%nat eqn:Ej; [|done].
  apply Nat.eqb_eq in Ej. cbn. by rewrite Ej, (proj2 (Nat.eqb_neq _ _) (not_eq_sym Hn)).
Qed.
Lemma phase_le c : (phase c <= 2)%nat.
Proof. unfold phase. repeat case_match; lia. Qed.
Lemma of_phase_none k l : (2 < k)%nat -> of_phase k l = [].
Proof.
  intros Hk. unfold of_phase. induction l as [|c l IH]; [done|]. cbn. pose proof (phase_le c).
  by rewrite (proj2 (Nat.eqb_neq _ _)) by lia.
Qed.
Lemma of_phase_one k c : of_phase k [c] = if (phase c =? k)%nat then [c] else [].
Proof. done. Qed.
Lemma orderConfigs_phases l : orderConfigs l = (of_phase 0 l, of_phase 1 l, of_phase 2 l).
Proof.
  unfold orderConfigs. induction l as [|c l IH] using rev_ind; [done|].
  rewrite fold_left_app, IH, !of_phase_app. cbn [fold_left]. rewrite !of_phase_one.
  pose proof (phase_cases c) as Ep.
  destruct (String.eqb (ConfigResource_Kind c) ""); [|destruct (SliceContains firstOrderConfigs _); [|destruct (SliceContains thirdOrderConfigs _)]];
    rewrite Ep; cbn; by rewrite ?app_nil_r.
Qed.
Lemma of_phase_cons k c l : of_phase k (c :: l) = if (phase c =? k)%nat then c :: of_phase k l else of_phase k l.
Proof. done. Qed.
Lemma in_order_permutation l : in_order l ≡ₚ l.
Proof.
  induction l as [|c l IH]; [done|]. trans (c :: in_order l); [|by constructor].
  unfold in_order. rewrite !of_phase_cons. pose proof (phase_le c) as Hp.
  destruct (phase c) as [|[|[|n]]]; [done| | |lia]; cbn [Nat.eqb].
  - symmetry. apply Permutation_middle.
  - rewrite !app_assoc. symmetry. apply Permutation_middle.
Qed.
Lemma of_phase_elem k l c : c ∈ of_phase k l -> phase c = k.
Proof. unfold of_phase. rewrite list_elem_of_In, filter_In. intros [_ Hk]. by apply Nat.eqb_eq. Qed.
Lemma sorted_app (l l' : list (ConfigResource Spec)) (P : ConfigResource Spec -> ConfigResource Spec -> Prop) :
  StronglySorted P l -> StronglySorted P l' -> (forall c c', c ∈ l -> c' ∈ l' -> P c c') -> StronglySorted P (l ++ l').
Proof.
  intros Hs Hs' Hc. induction Hs as [|c l Hs IH Hf]; [done|]. cbn. constructor.
  - apply IH. intros d d' Hd. apply Hc. by apply list_elem_of_further.
  - apply Forall_app. split; [done|]. apply Forall_forall. intros d Hd. apply Hc; [apply list_elem_of_here|done].
Qed.
Lemma of_phase_sorted k l : StronglySorted (fun c c' => phase c <= phase c')%nat (of_phase k l).
Proof.
  assert (forall c, c ∈ of_phase k l -> phase c = k) as Hk by (intros c; apply of_phase_elem).
  induction (of_phase k l) as [|c m IH]; constructor.
  - apply IH. intros d Hd. apply Hk. by apply list_elem_of_further.
  - apply Forall_forall. intros d Hd. rewrite (Hk c), (Hk d); [done| |]; [by apply list_elem_of_further|apply list_elem_of_here].
Qed.
Lemma in_order_by_phase l : by_phase l (in_order l).
Proof.
  split_and!; [apply in_order_permutation| |].
  - unfold in_order. repeat apply sorted_app; try apply of_phase_sorted; intros c c' Hc Hc'; apply of_phase_elem in Hc; rewrite Hc.
    all: rewrite ?elem_of_app in Hc'; destruct_or?; apply of_phase_elem in Hc'; lia.
  - intros k. fold (of_phase k (in_order l)) (of_phase k l). unfold in_order. rewrite !of_phase_app.
    destruct k as [|[|[|k]]]; rewrite ?of_phase_same, ?(of_phase_other _ _ l) by done; rewrite ?app_nil_r; try done.
    by rewrite !of_phase_none by lia.
Qed.
End order.

(** ** What a resource does *)

Local Open Scope list_scope.
Section resources.
Context `{R : Runtime} `{H : Sha256} `{E : EntityService} `{T : TlsMode} `{U : NetUrl} `{K : Certificates}.
Context `{D : Decoder Spec}.

Implicit Types (results filled : list (ApplyResult (Spec := Spec))) (configs : list (ConfigResource Spec)).

(** Resources handled one after the other, with the result of each. *)
Inductive applied : list (ConfigResource Spec) -> World -> list ApplyResult -> World -> Prop :=
  | applied_nil w : applied [] w [] w
  | applied_cons config configs w outcome w1 results w' :
      HandleConfigResource config w = (Ok outcome, w1) -> applied configs w1 results w' ->
      applied (config :: configs) w (NewApplyResult config outcome :: results) w'.
Lemma applied_length configs w results w' : applied configs w results w' -> length results = length configs.
Proof. induction 1; cbn; lia. Qed.
Lemma applied_app configs configs' w results results' w1 w' :
  applied configs w results w1 -> applied configs' w1 results' w' -> applied (configs ++ configs') w (results ++ results') w'.
Proof. induction 1; intros Ha; [done|]. cbn. econstructor; eauto. Qed.

(** A validation reads, and has no errors. *)
Definition mild {A} (m : prog World A) : Prop := forall w, (m w).2 = w /\ forall e, (m w).1 <> Err e.
Lemma mild_ret {A} (a : A) : mild (ret a).
Proof. done. Qed.
Lemma mild_bind {A B} (m : prog World A) (k : A -> prog World B) : mild m -> (forall a, mild (k a)) -> mild (bind m k).
Proof. intros Hm Hk w. unfold bind. destruct (Hm w) as [Hw He]. destruct (m w) as [[a|e|p] w1]; cbn in Hw, He |- *; subst; [apply Hk|by destruct (He e)|done]. Qed.
Lemma mild_metadata_string md field : mild (metadata_string md field).
Proof. unfold metadata_string. by repeat case_match. Qed.
Lemma mild_try_ok {A} (m : prog World A) : still m -> mild (try_ok m).
Proof. intros Hm w. specialize (Hm w). unfold try_ok. by destruct (m w) as [[a|e|p] w1]. Qed.
Lemma mild_load_balance spec : mild (ValidateLoadBalance spec).
Proof.
  unfold ValidateLoadBalance. match goal with |- mild (match ?c with _ => _ end) => destruct c; [apply mild_ret|] end. destruct (String.eqb _ _); [apply mild_ret|].
  apply mild_bind; [apply mild_try_ok, still_version|]. intros o. apply mild_ret.
Qed.
Lemma validations_mild : Forall (fun d => forall md entity, mild (Validate d.2 md entity)) registered.
Proof.
  unfold registered. repeat (apply Forall_cons_2; [intros md entity|]); [..|apply Forall_nil_2]; cbn [snd Validate RegisterRoutesResource RouteConfigurationResource VirtualServiceResource RoutesDropResource
    HttpFiltersResource HttpFiltersDropResource ClusterResource TlsDefResource StatefulSessionResource RateLimitResource ServicesVersionResource GatewayDeclarationResource LoadBalanceResource];
    try apply mild_ret.
  - destruct (negb _); [apply mild_ret|]. apply mild_bind; [apply mild_metadata_string|]. intros; apply mild_ret.
  - destruct (negb _); [apply mild_ret|]. destruct (negb _); [apply mild_ret|]. apply mild_bind; [apply mild_metadata_string|]. intros; apply mild_ret.
  - destruct (enrichSpecWithNamespace entity md); apply mild_ret.
  - apply mild_bind; [apply mild_load_balance|]. intros; apply mild_ret.
  - apply mild_bind; [apply mild_load_balance|]. intros; apply mild_ret.
Qed.
Lemma registry_mild key resDef md entity : registry key = Some resDef -> mild (Validate resDef md entity).
Proof.
  unfold registry. destruct (List.find _ _) as [d|] eqn:Ef; [|done]. intros [= <-]. apply find_some in Ef as [Hin _].
  rewrite <- in_rev in Hin. apply list_elem_of_In in Hin. exact (proj1 (Forall_forall _ _) validations_mild d Hin md entity).
Qed.
Lemma HandleConfigResource_no_error config w e : (HandleConfigResource config w).1 <> Err e.
Proof.
  unfold HandleConfigResource. destruct (registry (Key config)) as [resDef|] eqn:Er; [|done]. cbv zeta.
  destruct (Decode resDef _) as [err|entity]; [done|]. destruct (IsOverriddenByCR _ _ _); [done|]. unfold bind.
  destruct (registry_mild _ _ (handled_metadata config) entity Er w) as [_ Hn].
  destruct (Validate resDef _ entity w) as [[v|e'|p] w1]; [|by destruct (Hn e')|done]. destruct (negb _); [done|].
  by destruct (Handler resDef _ _ w1) as [[?|?|?] ?].
Qed.

(** A resource that is answered with an error of validation - its kind is
    not registered, its specification cannot be decoded, it is overridden or
    not valid - has changed nothing; the error of a handler never has that
    code. *)
Theorem refused_resource_inert config w detail w' :
  HandleConfigResource config w = (Ok (inl (ValidationRequestError, detail)), w') -> w' = w.
Proof.
  unfold HandleConfigResource. destruct (registry (Key config)) as [resDef|] eqn:Er; [|by intros [= _ <-]]. cbv zeta.
  destruct (Decode resDef _) as [err|entity]; [by intros [= _ <-]|]. destruct (IsOverriddenByCR _ _ _); [by intros [= _ <-]|]. unfold bind.
  destruct (registry_mild _ _ (handled_metadata config) entity Er w) as [Hw _].
  destruct (Validate resDef _ entity w) as [[v|e|p] w1]; cbn in Hw; subst; [|done..]. destruct (negb _); [by intros [= _ <-]|].
  by destruct (Handler resDef _ _ w) as [[?|?|?] ?].
Qed.

(** ** The answer *)

(** Without failures, the results; otherwise a cause for each, and the status
    they share, or 500. *)
Inductive answers (results : list ApplyResult) : ConfigReply -> Prop :=
  | answers_results : Forall (fun r => Response_Error r = None) results -> answers results (RespondResults results)
  | answers_causes detail (causes : list (Cause (Spec := Spec))) httpCode :
      Exists (fun r => Response_Error r <> None) results ->
      Forall2 (fun r c => Cause_meta c = ApplyResult_Request r /\
        match Response_Error r with
        | Some (code, _) => Cause_Code c = code /\ Cause_httpCode c = GetHttpCode code
        | None => Cause_Code c = OkErrorCode /\ Cause_httpCode c = Response_Code r
        end) results causes ->
      (forall c, c ∈ causes -> Cause_httpCode c = httpCode) \/ (httpCode = 500%Z /\ exists c c', c ∈ causes /\ c' ∈ causes /\ Cause_httpCode c <> Cause_httpCode c') ->
      answers results (RespondCauses MultiCauseApplyConfigError detail causes httpCode).

(** The resources before one that panics are handled. *)
Definition panics (configs : list (ConfigResource Spec)) (w : World) (p : string) (w' : World) : Prop :=
  exists before config rest results w1,
    configs = (before ++ config :: rest)%list /\ applied before w results w1 /\ HandleConfigResource config w1 = (Panic p, w').
Lemma panics_app_l configs more w p w' : panics configs w p w' -> panics (configs ++ more) w p w'.
Proof. intros (before & config & rest & rs & w1 & -> & Ha & Hp). exists before, config, (rest ++ more)%list, rs, w1. by rewrite <- app_assoc. Qed.
Lemma panics_app_r configs more w results w1 p w' : applied configs w results w1 -> panics more w1 p w' -> panics (configs ++ more) w p w'.
Proof.
  intros Ha (before & config & rest & rs & w2 & -> & Hb & Hp). exists (configs ++ before)%list, config, rest, (results ++ rs)%list, w2.
  rewrite <- app_assoc. split_and!; [done|by eapply applied_app|done].
Qed.

Lemma store_next filled r n : store (length filled) r (filled ++ repeat zero_result (S n)) = ret (S (length filled), (filled ++ r :: repeat zero_result n)%list).
Proof.
  unfold store. rewrite (proj2 (Nat.ltb_lt _ _)); [|rewrite length_app, repeat_length; lia].
  do 2 f_equal. by rewrite insert_app_r_alt, Nat.sub_diag by done.
Qed.
Lemma applyConfigs_run configs ok filled n w : length configs <= n ->
  (exists results w', applied configs w results w' /\
     fold_each configs (ok, length filled, filled ++ repeat zero_result n) applyConfig w =
     (Ok (ok && forallb succeeded results, length (filled ++ results), (filled ++ results) ++ repeat zero_result (n - length configs)), w')) \/
  (exists p w', panics configs w p w' /\ fold_each configs (ok, length filled, filled ++ repeat zero_result n) applyConfig w = (Panic p, w')).
Proof.
  revert ok filled n w. induction configs as [|config configs IH]; intros ok filled n w Hn.
  - left. exists [], w. split; [constructor|]. cbn. by rewrite andb_true_r, app_nil_r, Nat.sub_0_r.
  - cbn [length] in Hn. destruct n as [|n]; [lia|]. cbn [fold_each].
    destruct (HandleConfigResource config w) as [[outcome|e|p] w1] eqn:Eh.
    + assert (applyConfig (ok, length filled, filled ++ repeat zero_result (S n)) config w =
              (Ok (ok && succeeded (NewApplyResult config outcome), length (filled ++ [NewApplyResult config outcome]),
                   (filled ++ [NewApplyResult config outcome]) ++ repeat zero_result n), w1))%list as Es.
      { unfold applyConfig. rewrite (bind_run _ _ _ _ _ Eh), store_next, length_app, <- app_assoc, Nat.add_1_r. reflexivity. }
      rewrite (bind_run _ _ _ _ _ Es).
      destruct (IH (ok && succeeded (NewApplyResult config outcome)) (filled ++ [NewApplyResult config outcome])%list n w1) as [(rs & w' & Ha & Ef)|(p & w' & Hp & Ef)]; [lia| |].
      * left. exists (NewApplyResult config outcome :: rs), w'. split; [by econstructor|].
        rewrite Ef, <- app_assoc. cbn [app forallb length Nat.sub]. by rewrite andb_assoc.
      * right. exists p, w'. split; [|done]. destruct Hp as (before & c & rest & rs & w2 & -> & Ha & Hp).
        exists (config :: before), c, rest, (NewApplyResult config outcome :: rs), w2. split_and!; [done|by econstructor|done].
    + exfalso. apply (HandleConfigResource_no_error config w e). by rewrite Eh.
    + right. exists p, w1. split; [by exists [], config, configs, [], w; split_and!; [|constructor|]|].
      unfold bind at 1. unfold applyConfig. unfold bind at 1. by rewrite Eh.
Qed.
Lemma all_succeeded results : forallb succeeded results = true <-> Forall (fun r => Response_Error r = None) results.
Proof. rewrite forallb_forall, Forall_forall. unfold succeeded. split; intros Hr r Hin; specialize (Hr r); rewrite list_elem_of_In in *; destruct (Response_Error r); naive_solver. Qed.
Lemma causes_of_results results :
  Forall2 (fun r c => Cause_meta c = ApplyResult_Request r /\
    match Response_Error r with
    | Some (code, _) => Cause_Code c = code /\ Cause_httpCode c = GetHttpCode code
    | None => Cause_Code c = OkErrorCode /\ Cause_httpCode c = Response_Code r
    end) results (map cause_of results).
Proof. induction results as [|r results IH]; constructor; [|done]. unfold cause_of. by destruct (Response_Error r) as [[code detail]|]. Qed.
Lemma failed_answer results w : forallb succeeded results = false ->
  exists reply, NewMultiCauseError MultiCauseApplyConfigError (map cause_of results) w = (Ok reply, w) /\ answers results reply.
Proof.
  intros Hf. pose proof (causes_of_results results) as Hc. set (causes := map cause_of results) in *. unfold NewMultiCauseError.
  destruct causes as [|first rest] eqn:Ec. { inversion Hc; subst. done. }
  eexists. split; [reflexivity|]. constructor; [|done|].
  - apply not_Forall_Exists; [intros r; by apply option_eq_None_dec|]. intros Ha. apply all_succeeded in Ha. congruence.
  - destruct (forallb _ (first :: rest)) eqn:Ea.
    + left. intros c Hin. rewrite forallb_forall in Ea. apply Z.eqb_eq, Ea. by apply list_elem_of_In.
    + right. split; [done|]. apply not_true_iff_false in Ea. rewrite forallb_forall in Ea.
      assert (Exists (fun c => (Cause_httpCode c =? Cause_httpCode first)%Z <> true) (first :: rest)) as Hx.
      { apply not_Forall_Exists; [intros c; apply bool_eq_dec|]. intros Ha. apply Ea. intros c Hin. rewrite Forall_forall in Ha. apply Ha. by apply list_elem_of_In. }
      apply Exists_exists in Hx as (c & Hin & Hne). exists c, first. split_and!; [done|apply list_elem_of_here|]. intros He. by rewrite He, Z.eqb_refl in Hne.
Qed.

Lemma standby_configs_still body w r w' : GetMode = Standby ->
  (reply <- HandlePostConfig body ;; ret (inr reply)) w = ((r : result (Reply + ConfigReply (Spec := Spec))), w') -> w' = w.
Proof.
  intros Hs. unfold bind, HandlePostConfig. destruct body as [configs|]; [|by intros [= _ <-]]. cbv zeta.
  rewrite bool_decide_true by done. by intros [= _ <-].
Qed.

(** C33: What a standby instance may change, of all the requests that change an
    active one - the routes of [lib/runner.go] for POST, PUT and DELETE, and the
    details of the routing mode, which are read with GET.  The details set the
    routing mode to the one they answer with, and change nothing else.  Any other
    request - also one with a list of resources - leaves everything as it is: no
    row, no event, no routing mode, no clock is touched.  The two requests for
    the namespaces of the composite do not look at the mode of disaster
    recovery, and nothing is said of them. *)
Theorem standby_inert `{!RuntimeLaws} `{CS : CompositeService} public private attached request w r w' :
  GetMode = Standby -> handle_request public private attached request w = (r, w') ->
  match request with
  | Called (AddNamespaceV3 _ | RemoveNamespaceV3 _) => True
  | Called (RoutingDetailsV2 | RoutingDetailsV3) =>
      match r with
      | Ok reply => exists s, reply = inl (mkReply 200 (PRoutingMode s)) /\ w' = set_mode (Summary_RoutingMode s) w
      | _ => w' = w
      end
  | _ => w' = w
  end.
Proof.
  intros Hs Er. destruct request as [c|body|body]; cbn [handle_request] in Er.
  - destruct (handle public private attached c w) as [r1 w1] eqn:Eh.
    pose proof (routing_details_mode public private attached c w r1 w1) as Hd. pose proof (still_handle public private attached c Hs) as Hq.
    assert (w1 = w' /\ r = match r1 with Ok reply => Ok (inl reply) | Err e => Err e | Panic p => Panic p end) as [-> ->].
    { unfold bind in Er. rewrite Eh in Er. by destruct r1; injection Er as <- <-. }
    destruct (routing_details c) eqn:Erd.
    + specialize (Hd eq_refl Eh). destruct c; try discriminate Erd; (destruct r1 as [reply|e|p]; [|done..]); destruct Hd as (s & -> & ->); by exists s.
    + assert (of_composite c = false -> w' = w) as Hw by (intros Hc; pose proof (Hq Hc eq_refl w) as Hw; by rewrite Eh in Hw).
      destruct c; try discriminate Erd; try (by apply Hw); done.
  - unfold HandleConfig in Er. by apply (standby_configs_still body w r w' Hs) in Er.
  - by apply (standby_configs_still body w r w' Hs) in Er.
Qed.

(** C32: A request with a list of resources to an instance that is not on
    standby handles them one after the other,
    sorted by phase - certificates first, load balancing and sessions last - and
    otherwise in the order of the request, whatever became of the ones before;
    it is answered with one result for each, in that order, and with an error
    exactly when some failed, of the status the causes share, or 500.  Only a
    resource that panics ends it earlier. *)
Theorem resources_handled_in_order configs w r w' : GetMode <> Standby -> HandlePostConfig (Some configs) w = (r, w') ->
  exists ordered, by_phase configs ordered /\
    ((exists results reply, applied ordered w results w' /\ answers results reply /\ r = Ok reply) \/
     (exists p, panics ordered w p w' /\ r = Panic p)).
Proof.
  intros Hm Eh. exists (in_order configs). split; [apply in_order_by_phase|].
  unfold HandlePostConfig in Eh. rewrite bool_decide_false, orderConfigs_phases in Eh by done. cbv beta iota zeta in Eh.
  assert (length configs = length (of_phase 0 configs) + (length (of_phase 1 configs) + length (of_phase 2 configs))) as El.
  { rewrite <- (Permutation_length (in_order_permutation configs)). unfold in_order. by rewrite !length_app. }
  unfold in_order. unfold applyConfigs in Eh. rewrite El in Eh. generalize dependent (of_phase 0 configs). generalize dependent (of_phase 1 configs). generalize dependent (of_phase 2 configs).
  intros c2 c1 c0 Eh _.
  destruct (applyConfigs_run c0 true [] (length c0 + (length c1 + length c2)) w) as [(r0 & w0 & H0 & E0)|(p & w0 & Hp & E0)]; [lia| |].
  2:{ right. exists p. unfold bind in Eh. cbn [length app] in E0. rewrite E0 in Eh. injection Eh as <- <-. split; [by apply panics_app_l|done]. }
  cbn [app] in E0. rewrite (bind_run _ _ _ _ _ E0) in Eh. clear E0. cbv beta iota zeta in Eh. rewrite Nat.add_comm, Nat.add_sub in Eh.
  destruct (applyConfigs_run c1 true r0 (length c1 + length c2) w0) as [(r1 & w1 & H1 & E1)|(p & w1 & Hp & E1)]; [lia| |].
  2:{ right. exists p. unfold bind in Eh. rewrite E1 in Eh. injection Eh as <- <-. split; [by eapply panics_app_r, panics_app_l|done]. }
  rewrite (bind_run _ _ _ _ _ E1) in Eh. clear E1. cbv beta iota zeta in Eh. rewrite Nat.add_comm, Nat.add_sub in Eh.
  destruct (applyConfigs_run c2 true (r0 ++ r1) (length c2) w1) as [(r2 & w2 & H2 & E2)|(p & w2 & Hp & E2)]; [lia| |].
  2:{ right. exists p. unfold bind in Eh. rewrite E2 in Eh. injection Eh as <- <-. split; [|done]. eapply panics_app_r; [done|]. by eapply panics_app_r. }
  rewrite (bind_run _ _ _ _ _ E2) in Eh. clear E2. cbv beta iota zeta in Eh. rewrite Nat.sub_diag, app_nil_r, !andb_true_l in Eh.
  left. assert (applied (c0 ++ c1 ++ c2) w ((r0 ++ r1) ++ r2) w2) as Ha.
  { rewrite <- app_assoc. eapply applied_app; [done|]. by eapply applied_app. }
  assert (forallb succeeded r2 && (forallb succeeded r1 && forallb succeeded r0) = forallb succeeded ((r0 ++ r1) ++ r2)) as Es.
  { rewrite !forallb_app. by destruct (forallb succeeded r0), (forallb succeeded r1), (forallb succeeded r2). }
  rewrite Es in Eh. destruct (forallb succeeded ((r0 ++ r1) ++ r2)) eqn:Ef.
  - injection Eh as <- <-. eexists _, _. split_and!; [done| |done]. constructor. by apply all_succeeded.
  - destruct (failed_answer _ w2 Ef) as (reply & En & Hans). rewrite En in Eh. injection Eh as <- <-. by eexists _, _.
Qed.
End resources.
Local Open Scope string_scope.

(** * Smaller facts *)

Section facts.
Context `{R : Runtime} `{H : Sha256} `{E : EntityService} `{T : TlsMode} `{U : NetUrl} `{K : Certificates}.
Context `{D : Decoder Spec}.

(** No resource is registered twice. *)
Lemma registered_once : NoDup (map fst registered).
Proof. apply (bool_decide_unpack _). vm_compute. exact I. Qed.
(** The handler of virtual services does not look at the name that was
    validated. *)
Lemma validated_name_unused md n vs : Handler VirtualServiceResource md (V3.named n vs) = Handler VirtualServiceResource md vs.
Proof. reflexivity. Qed.
(** ... and one that stands in the metadata alone, where it is asked for, is
    refused. *)
Lemma virtual_service_name_twice md vs w : dto.VirtualService_Name vs = "" -> (ValidateMetadataStringField md "name").1 = true ->
  match md !! "gateway" with Some (VText gateway) => negb (String.eqb (strings_TrimSpace gateway) "") | _ => false end = true ->
  Validate VirtualServiceResource md vs w = (Ok ((false, "Name of virtual service is empty"), vs), w).
Proof.
  intros Hn Hm Hg. cbn [Validate VirtualServiceResource]. cbv zeta. rewrite Hm. unfold ValidateMetadataStringField, metadata_string in *.
  destruct (md !! "gateway") as [[gateway|]|]; [|done..]. destruct (String.eqb (strings_TrimSpace gateway) "") eqn:Eg; [done|].
  cbn [fst negb]. unfold ValidateVirtualService, validateVirtualServiceInternal. rewrite Hn. reflexivity.
Qed.
(** A standby instance applies nothing, and answers with results that are
    empty. *)
Lemma standby_configs configs w : GetMode = Standby -> HandlePostConfig (Some configs) w = (Ok (RespondResults (repeat zero_result (length configs))), w).
Proof. intros Hs. unfold HandlePostConfig. by rewrite bool_decide_true. Qed.
End facts.

(** * Witnesses *)

Inductive TestSpec := TestLimit (r : RateLimitDto) | TestOther.
Definition test_certificates : Certificates :=
  {| pem_Decode := fun _ => None; x509_ParseCertificate := fun _ => false; x509_ParsePKCS1PrivateKey := fun _ => false;
     x509_ParsePKCS8PrivateKey := fun _ => false; x509_ParseECPrivateKey := fun _ => false; tls_X509KeyPair := fun _ _ => false |}.
Definition bad {A} : option TestSpec -> string + A := fun _ => inl "expected a map".
Definition test_decoder : Decoder TestSpec :=
  {| decode_registrations := bad; decode_routing := bad; decode_virtual_service := bad; decode_drop := bad; decode_filters := bad; decode_filters_drop := bad;
     decode_cluster := bad; decode_tls := bad; decode_session := bad;
     decode_rate_limit := fun spec => match spec with Some (TestLimit r) => inr r | _ => inl "expected a map" end;
     decode_services_version := bad; decode_gateway := bad; decode_load_balance := bad; coded_error_text := fun code msg => code ++ ": " ++ msg |}.
Definition test_config (kind : string) (spec : TestSpec) : ConfigResource TestSpec := mkConfigResource "nc.core.mesh/v3" kind "" None (Some spec).
Definition overridden_limit := test_config "RateLimit" (TestLimit (mkRateLimitDto "limit" 20 "PRODUCT" true)).
Definition test_configs :=
  [test_config "StatefulSession" TestOther; test_config "RateLimit" (TestLimit (mkRateLimitDto "limit" 10 "PRODUCT" false)); overridden_limit; test_config "TlsDef" TestOther].
Definition test_run := HandlePostConfig (R := RuntimeModel.test_runtime) (H := RouteKey.identity_digest) (E := test_entity) (T := test_tls) (U := test_url)
  (K := test_certificates) (D := test_decoder) (Some test_configs) RuntimeModel.empty_world.
(** Certificates come first and sessions last, the limit is applied although
    the certificates are refused, and the status is 500 as the causes differ. *)
Example test_run_causes :
  match test_run.1 with
  | Ok (RespondCauses _ _ causes httpCode) => map (fun c => (ConfigResource_Kind (Cause_meta c), Cause_httpCode c)) causes = [("TlsDef", 400%Z); ("RateLimit", 200%Z); ("RateLimit", 200%Z); ("StatefulSession", 400%Z)] /\ httpCode = 500%Z
  | _ => False
  end.
Proof. vm_compute. split; reflexivity. Qed.
Definition completes {A} (r : result A) : bool := match r with Ok _ => true | _ => false end.
(** A standby instance and a session with a limit; the same limit changes an
    active instance ([Controllers.limit_active]). *)
Definition standby_request : Request (Spec := TestSpec) := ConfigV3 (Some test_configs).
Definition standby_run :=
  handle_request (R := DisasterRecovery.standby_runtime) (H := RouteKey.identity_digest) (E := test_entity) (T := test_tls) (U := test_url)
    (K := test_certificates) (D := test_decoder) (CS := test_composite) "" "" (fun _ => None) standby_request DisasterRecovery.standby_world.
(** Reading the details of the routing mode sets it, also on standby. *)
Example details_on_standby :
  w_mode (handle_request (R := DisasterRecovery.standby_runtime) (H := RouteKey.identity_digest) (E := test_entity) (T := test_tls) (U := test_url)
    (K := test_certificates) (D := test_decoder) (CS := test_composite) "" "" (fun _ => None) (Called RoutingDetailsV3)
    (set_mode MIXED DisasterRecovery.standby_world)).2 = SIMPLE.
Proof. vm_compute. reflexivity. Qed.
Lemma standby_inert_witness :
  standby_run = (Ok (inr (RespondResults (repeat zero_result (length test_configs)))), DisasterRecovery.standby_world).
Proof.
  assert (standby_run.1 = Ok (inr (RespondResults (repeat zero_result (length test_configs))))) as E1 by (vm_compute; reflexivity).
  pose proof (standby_inert (H0 := DisasterRecovery.standby_laws) (R := DisasterRecovery.standby_runtime) (H := RouteKey.identity_digest) (E := test_entity)
    (T := test_tls) (U := test_url) (K := test_certificates) (D := test_decoder) (CS := test_composite)
    "" "" (fun _ => None) standby_request DisasterRecovery.standby_world standby_run.1 standby_run.2 eq_refl (surjective_pairing _)) as E2.
  rewrite (surjective_pairing standby_run), E1, E2. reflexivity.
Defined.
Lemma resources_handled_in_order_witness :
  exists ordered results reply, by_phase test_configs ordered /\ length results = 4 /\ answers results reply /\ test_run.1 = Ok reply.
Proof.
  assert (completes test_run.1 = true) as E1 by (vm_compute; reflexivity).
  destruct (resources_handled_in_order (R := RuntimeModel.test_runtime) (H := RouteKey.identity_digest) (E := test_entity) (T := test_tls) (U := test_url)
    (K := test_certificates) (D := test_decoder) test_configs RuntimeModel.empty_world test_run.1 test_run.2) as (ordered & Ho & [(results & reply & Ha & Hr & Er)|(p & _ & Ep)]);
    [discriminate|exact (surjective_pairing _)| |].
  - exists ordered, results, reply. split_and!; [done| |done|done]. rewrite (applied_length _ _ _ _ Ha). exact (Permutation_length (proj1 Ho)).
  - rewrite Ep in E1. exact (match Bool.diff_false_true E1 with end).
Defined.
Definition refused_run := HandleConfigResource (R := RuntimeModel.test_runtime) (H := RouteKey.identity_digest) (E := test_entity) (T := test_tls) (U := test_url)
  (K := test_certificates) (D := test_decoder) overridden_limit RuntimeModel.empty_world.
Lemma refused_resource_inert_witness : refused_run = (Ok (inl (ValidationRequestError, ErrIsOverridden)), RuntimeModel.empty_world).
Proof.
  assert (refused_run.1 = Ok (inl (ValidationRequestError, ErrIsOverridden))) as E1 by (vm_compute; reflexivity).
  assert (refused_run = (Ok (inl (ValidationRequestError, ErrIsOverridden)), refused_run.2)) as E2 by (rewrite <- E1; exact (surjective_pairing _)).
  pose proof (refused_resource_inert (R := RuntimeModel.test_runtime) (H := RouteKey.identity_digest) (E := test_entity) (T := test_tls) (U := test_url)
    (K := test_certificates) (D := test_decoder) overridden_limit RuntimeModel.empty_world ErrIsOverridden refused_run.2 E2) as E3.
  rewrite E2, E3. reflexivity.
Defined.
