(* ===== verification/Views.v ===== *)
(** What is shown: the pages of the console ([ui/service.go], [ui/convert.go],
    [ui/controller.go]), the responses of the REST API
    ([restcontrollers/dto/converters.go]) and the handlers that answer with them.

    Nothing here changes the database.  A page is a slice of the routes in the
    order Envoy has them; integers are those of 64 bits.  Dereferences of what is
    not found panic, as they do in the code. *)
From S2P Require Import Persistence.
From S2P Require Import Prelude GoLib Domain Tables MemDb Msaddr Events RouteKey Runtime Dao Entity RouteSort Dto.
From S2P Require Import RegCommon StatefulSessions Composite Controllers.
Open Scope string_scope.

(** * Types ([ui/dto.go]) *)

Module ui.
Record DeploymentVersion := mkDeploymentVersion { DeploymentVersion_Name : string; DeploymentVersion_Stage : string }.
Record VirtualHost := mkVirtualHost { VirtualHost_Id : Z; VirtualHost_Name : string; VirtualHost_DeploymentVersions : list DeploymentVersion }.
Record SimplifiedRouteConfig := mkSimplifiedRouteConfig { SimplifiedRouteConfig_NodeGroup : string; SimplifiedRouteConfig_VirtualHosts : list VirtualHost }.
Record Route := mkRoute { Route_Uuid : string; Route_Match : string; Route_MatchRewrite : string; Route_ClusterName : string; Route_Allowed : bool }.
Record PageRoutes := mkPageRoutes {
  PageRoutes_NodeGroup : string;
  PageRoutes_VirtualHostName : string;
  PageRoutes_VersionName : string;
  PageRoutes_VersionStage : string;
  PageRoutes_TotalCount : nat;
  PageRoutes_Routes : list Route
}.
Record Endpoint := mkEndpoint { Endpoint_Id : Z; Endpoint_Address : string; Endpoint_Port : Z }.
Record DeploymentVersionsExt := mkDeploymentVersionsExt {
  DeploymentVersionsExt_Name : string;
  DeploymentVersionsExt_Stage : string;
  DeploymentVersionsExt_Endpoint : Endpoint;
  DeploymentVersionsExt_BalancingPolicies : list HashPolicyDto
}.
Record Cluster := mkCluster {
  Cluster_Id : Z;
  Cluster_Name : string;
  Cluster_EnableH2 : bool;
  Cluster_NodeGroups : list string;
  Cluster_DeploymentVersions : list DeploymentVersionsExt
}.
Record HeaderMatcher := mkHeaderMatcher {
  HeaderMatcher_Name : string;
  HeaderMatcher_ExactMatch : string;
  HeaderMatcher_SafeRegexMatch : string;
  HeaderMatcher_RangeMatch : RangeMatch;
  HeaderMatcher_PresentMatch : NullBool;
  HeaderMatcher_PrefixMatch : string;
  HeaderMatcher_SuffixMatch : string;
  HeaderMatcher_InvertMatch : bool
}.
Record RouteDetails := mkRouteDetails {
  RouteDetails_Path : string;
  RouteDetails_PathRewrite : string;
  RouteDetails_Prefix : string;
  RouteDetails_PrefixRewrite : string;
  RouteDetails_Regexp : string;
  RouteDetails_RegexpRewrite : string;
  RouteDetails_ClusterName : string;
  RouteDetails_HostRewrite : string;
  RouteDetails_HostAutoRewrite : option bool;
  RouteDetails_DirectResponse : Z;
  RouteDetails_Endpoint : string;
  RouteDetails_Timeout : option Z;
  RouteDetails_IdleTimeout : option Z;
  RouteDetails_HeaderMatchers : list HeaderMatcher;
  RouteDetails_RequestHeadersToAdd : list Header;
  RouteDetails_RequestHeadersToRemove : list string
}.
End ui.

(** The parameters of a search ([ui/controller.go]). *)
Record SearchRoutesParameters := mkSearchRoutesParameters {
  Params_VirtualHostId : Z;
  Params_Version : string;
  Params_Size : Z;
  Params_Page : Z;
  Params_Search : string
}.

(** * Pages *)

Definition int64 (z : Z) : Z := ((z + 2 ^ 63) mod 2 ^ 64 - 2 ^ 63)%Z.
Definition LowerBound (size page : Z) : Z := int64 (int64 (page - 1) * size).
Definition UpperBound (size page : Z) : Z := int64 (page * size).
(** The bounds of the slice: of the page, when it starts among the routes;
    otherwise from the page before the last full one, or all of them. *)
Definition page_bounds (size page len : Z) : Z * Z :=
  let lowerBound := LowerBound size page in
  let upperBound := UpperBound size page in
  let lowerBound :=
    if (len <? int64 (lowerBound + 1))%Z
    then if (len <? size)%Z then LowerBound len 1 else LowerBound size (Z.quot len size)
    else lowerBound in
  let upperBound := if (len <? upperBound)%Z then len else upperBound in
  (lowerBound, upperBound).
(** [l[lo:hi]], when [hi] is at most the length. *)
Definition go_slice {A} (lo hi : Z) (l : list A) : result (list A) :=
  if ((0 <=? lo) && (lo <=? hi) && (hi <=? Z.of_nat (length l)))%Z
  then Ok (take (Z.to_nat (hi - lo)) (drop (Z.to_nat lo) l)) else Panic "slice bounds out of range".
Definition route_page {A} (size page : Z) (l : list A) : result (list A) :=
  let '(lo, hi) := page_bounds size page (Z.of_nat (length l)) in go_slice lo hi l.

(** The query parameters [size] and [page], the path parameters; empty ones are
    absent. *)
Definition ParseGetRoutesParameters (sizeRaw pageRaw vhIdRaw versionRaw search : string) : result SearchRoutesParameters :=
  let or_default (raw : string) (d : Z) := if String.eqb raw "" then Some d else strconv_Atoi raw in
  match or_default sizeRaw 50%Z with
  | None => Err (ErrWrap "parsing query parameter 'size' caused error" (ErrMsg "strconv.Atoi: "))
  | Some size =>
      match or_default pageRaw 1%Z with
      | None => Err (ErrWrap "parsing query parameter 'page' caused error" (ErrMsg "strconv.Atoi: "))
      | Some page =>
          if String.eqb vhIdRaw "" then Err (ErrMsg "Path parameter virtualHostId is not set, but required")
          else
            match strconv_Atoi vhIdRaw with
            | Some vhId =>
                if ((- 2 ^ 31 <=? vhId) && (vhId <? 2 ^ 31))%Z then
                  if String.eqb versionRaw "" then Err (ErrMsg "Path parameter versionId is not set, but required")
                  else Ok (mkSearchRoutesParameters vhId versionRaw size page search)
                else Err (ErrWrap "Parsing virtualHostId caused error: %v" (ErrMsg "strconv.ParseInt: "))
            | None => Err (ErrWrap "Parsing virtualHostId caused error: %v" (ErrMsg "strconv.ParseInt: "))
            end
      end
  end.

(** * Conversions ([ui/convert.go]) *)

Definition adaptDeploymentVersions (versions : list DeploymentVersion) : list ui.DeploymentVersion :=
  map (fun v => ui.mkDeploymentVersion (DeploymentVersion_Version v) (DeploymentVersion_Stage v)) versions.
Definition adaptVirtualHostToUI (versions : gmap Z (list DeploymentVersion)) (vh : VirtualHost) : ui.VirtualHost :=
  ui.mkVirtualHost (VirtualHost_Id vh) (VirtualHost_Name vh) (adaptDeploymentVersions (default [] (versions !! VirtualHost_Id vh))).
Definition adaptRouteConfigToUI (vhVersions : gmap Z (list DeploymentVersion)) (config : RouteConfiguration) : ui.SimplifiedRouteConfig :=
  ui.mkSimplifiedRouteConfig (RouteConfiguration_NodeGroupId config) (map (adaptVirtualHostToUI vhVersions) (RouteConfiguration_VirtualHosts config)).
(** The prefix, else the path, else the regular expression. *)
Definition adaptRouteToUI (route : Route) : ui.Route :=
  let '(matched, rewrite) :=
    if nonempty (Route_Prefix route) then (Route_Prefix route, Route_PrefixRewrite route)
    else if nonempty (Route_Path route) then (Route_Path route, Route_PathRewrite route)
    else if nonempty (Route_Regexp route) then (Route_Regexp route, Route_RegexpRewrite route)
    else ("", "") in
  ui.mkRoute (Route_Uuid route) matched rewrite (Route_ClusterName route) (negb (Route_DirectResponseCode route =? 404)%Z).
(** [convertHashPolicy] of the responses; the console has a copy of it. *)
Definition convertHashPolicy (policy : HashPolicy) : HashPolicyDto :=
  mkHashPolicyDto (HashPolicy_Id policy)
    (if nonempty (HashPolicy_HeaderName policy) then Some (HashPolicy_HeaderName policy) else None)
    (if nonempty (HashPolicy_CookieName policy)
     then Some (dto.mkCookie (HashPolicy_CookieName policy)
                  (if NullInt_Valid (HashPolicy_CookieTTL policy) then Some (NullInt_Int64 (HashPolicy_CookieTTL policy)) else None)
                  (if nonempty (HashPolicy_CookiePath policy) then Some (HashPolicy_CookiePath policy) else None))
     else None)
    (if NullBool_Valid (HashPolicy_QueryParamSourceIP policy) then Some (HashPolicy_QueryParamSourceIP policy) else None)
    (if nonempty (HashPolicy_QueryParamName policy) then Some (HashPolicy_QueryParamName policy) else None)
    (HashPolicy_Terminal policy).
Definition adaptHashPoliciesToUI (policies : list HashPolicy) : list HashPolicyDto := map convertHashPolicy policies.
(** An endpoint of a version that is not known is dereferenced. *)
Definition adaptDeploymentVersionsExt (versions : list DeploymentVersion) (endpoints : list Endpoint) : result (list ui.DeploymentVersionsExt) :=
  let versionsMap : gmap string DeploymentVersion := fold_left (fun m v => <[DeploymentVersion_Version v := v]> m) versions ∅ in
  map_result (fun endpoint =>
    match versionsMap !! Endpoint_DeploymentVersion endpoint with
    | None => Panic "nil pointer dereference"
    | Some dVersion =>
        Ok (ui.mkDeploymentVersionsExt (DeploymentVersion_Version dVersion) (DeploymentVersion_Stage dVersion)
              (ui.mkEndpoint (Endpoint_Id endpoint) (Endpoint_Address endpoint) (Endpoint_Port endpoint))
              (adaptHashPoliciesToUI (Endpoint_HashPolicies endpoint)))
    end) endpoints.
Definition adaptNodeGroupsToUI (groups : list (option NodeGroup)) : result (list string) :=
  map_result (fun g => match g with Some g => Ok (NodeGroup_Name g) | None => Panic "nil pointer dereference" end) groups.
Definition adaptClusterToUI (versions : list DeploymentVersion) (cluster : Cluster) : result ui.Cluster :=
  result_bind (adaptNodeGroupsToUI (Cluster_NodeGroups cluster)) (fun nodeGroups =>
  result_bind (adaptDeploymentVersionsExt versions (Cluster_Endpoints cluster)) (fun deploymentVersions =>
  Ok (ui.mkCluster (Cluster_Id cluster) (Cluster_Name cluster) (Cluster_EnableH2 cluster) nodeGroups deploymentVersions))).

Section services.
Context `{R : Runtime} `{E : EntityService}.

(** * The console ([ui/service.go]) *)

(** The versions that have routes on each virtual host, in the order of the
    versions. *)
Definition virtual_host_versions (virtualHosts : list VirtualHost) (dVersions : list DeploymentVersion) : prog World (gmap Z (list DeploymentVersion)) :=
  fold_each dVersions ∅ (fun m dVersion =>
    fold_each virtualHosts m (fun m virtualHost =>
      routes <- FindRoutesByVirtualHostIdAndDeploymentVersion Local (VirtualHost_Id virtualHost) (DeploymentVersion_Version dVersion) ;;
      ret match routes with
          | [] => m
          | _ => <[VirtualHost_Id virtualHost := (default [] (m !! VirtualHost_Id virtualHost) ++ [dVersion])%list]> m
          end)).
Definition GetAllSimplifiedRouteConfigs : prog World (list ui.SimplifiedRouteConfig) :=
  routeConfigs <- wrap_err "finding all RouteConfigs caused error" (FindAllRouteConfigs Local) ;;
  match routeConfigs with
  | [] => ret []
  | _ =>
      routeConfigs <- map_each routeConfigs (fun rc =>
        vhs <- wrap_err ("finding VirtualHosts for RouteConfigurationId=" ++ strconv_Itoa (RouteConfiguration_Id rc) ++ " caused error")
                 (FindVirtualHostsByRouteConfigurationId Local (RouteConfiguration_Id rc)) ;;
        ret (rc <| RouteConfiguration_VirtualHosts := vhs |>)) ;;
      let virtualHosts := flat_map RouteConfiguration_VirtualHosts routeConfigs in
      dVersions <- wrap_err "finding all DeploymentVersions caused error" (FindAllDeploymentVersions Local) ;;
      virtualHostsVersions <- virtual_host_versions virtualHosts dVersions ;;
      ret (map (adaptRouteConfigToUI virtualHostsVersions) routeConfigs)
  end.

Definition matches_search (search : string) (route : Route) : bool :=
  strings_Contains (Route_Prefix route) search || strings_Contains (Route_ClusterName route) search || strings_Contains (Route_Regexp route) search.
(** The routes of a search, in the order of Envoy. *)
Definition search_routes (params : SearchRoutesParameters) : prog World (list Route) :=
  routes <- FindRoutesByVirtualHostIdAndDeploymentVersion Local (Params_VirtualHostId params) (Params_Version params) ;;
  let filteredRoutes := if nonempty (Params_Search params) then List.filter (matches_search (Params_Search params)) routes else routes in
  filteredRoutes <- map_each filteredRoutes (fun route =>
    hm <- FindHeaderMatcherByRouteId Local (Route_Id route) ;; ret (route <| Route_HeaderMatchers := hm |>)) ;;
  ret (OrderRoutesForEnvoy filteredRoutes).
Definition GetRoutesPage (params : SearchRoutesParameters) : prog World ui.PageRoutes :=
  if (Params_Size params <? 1)%Z then fail (ErrMsg "size of routes per page must be greater than 0")
  else if (Params_Page params <? 1)%Z then fail (ErrMsg "number of page must be greater than 0")
  else
    filteredRoutes <- search_routes params ;;
    rawPageRoutes <- lift (route_page (Params_Size params) (Params_Page params) filteredRoutes) ;;
    virtualHost <- FindVirtualHostById Local (Params_VirtualHostId params) ;;
    dVersion <- FindDeploymentVersion Local (Params_Version params) ;;
    virtualHost <- deref virtualHost ;;
    routeConfig <- FindRouteConfigById Local (VirtualHost_RouteConfigurationId virtualHost) ;;
    routeConfig <- deref routeConfig ;;
    dVersion <- deref dVersion ;;
    ret (ui.mkPageRoutes (RouteConfiguration_NodeGroupId routeConfig) (VirtualHost_Name virtualHost)
           (DeploymentVersion_Version dVersion) (DeploymentVersion_Stage dVersion) (length filteredRoutes) (map adaptRouteToUI rawPageRoutes)).

Definition GetAllClusters : prog World (list ui.Cluster) :=
  clusters <- GetClustersWithRelations Local ;;
  versions <- FindAllDeploymentVersions Local ;;
  lift (map_result (adaptClusterToUI versions) clusters).

(** The version and the cluster of a route are dereferenced. *)
Definition resolveEndpoint (route : Route) : prog World string :=
  dVersion <- FindDeploymentVersion Local (Route_DeploymentVersion route) ;;
  cluster <- FindClusterByName Local (Route_ClusterName route) ;;
  cluster <- deref cluster ;;
  dVersion <- deref dVersion ;;
  endpoints <- FindEndpointsByClusterIdAndDeploymentVersion Local (Cluster_Id cluster) dVersion ;;
  match endpoints with
  | [endpoint] => ret ("http://" ++ Endpoint_Address endpoint ++ ":" ++ strconv_Itoa (Endpoint_Port endpoint))
  | _ => fail (ErrMsg ("there is the only one endpoint by version and clusterId but got '" ++ strconv_Itoa (Z.of_nat (length endpoints)) ++ "'"))
  end.
Definition int_value (n : NullInt) : option Z := if NullInt_Valid n then Some (NullInt_Int64 n) else None.
(** The header matchers of a route that was only found are not loaded. *)
Definition GetRouteDetails (uuid : string) : prog World ui.RouteDetails :=
  route <- FindRouteByUuid Local uuid ;;
  route <- deref route ;;
  endpoint <- resolveEndpoint route ;;
  ret (ui.mkRouteDetails (Route_Path route) (Route_PathRewrite route) (Route_Prefix route) (Route_PrefixRewrite route)
         (Route_Regexp route) (Route_RegexpRewrite route) (Route_ClusterName route) (Route_HostRewrite route)
         (if NullBool_Valid (Route_HostAutoRewrite route) then Some (NullBool_Bool (Route_HostAutoRewrite route)) else None)
         (Route_DirectResponseCode route) endpoint (int_value (Route_Timeout route)) (int_value (Route_IdleTimeout route))
         (map (fun m => ui.mkHeaderMatcher (HeaderMatcher_Name m) (HeaderMatcher_ExactMatch m) (HeaderMatcher_SafeRegexMatch m) (HeaderMatcher_RangeMatch m)
                 (HeaderMatcher_PresentMatch m) (HeaderMatcher_PrefixMatch m) (HeaderMatcher_SuffixMatch m) (HeaderMatcher_InvertMatch m)) (Route_HeaderMatchers route))
         (Route_RequestHeadersToAdd route) (Route_RequestHeadersToRemove route)).

(** The handlers of the console fail with the error of the service; a request
    for routes whose parameters cannot be parsed is not valid. *)
Definition HandleGetRoutes (sizeRaw pageRaw vhIdRaw versionRaw search : string) : prog World ui.PageRoutes :=
  match ParseGetRoutesParameters sizeRaw pageRaw vhIdRaw versionRaw search with
  | Ok params => GetRoutesPage params
  | Err _ => fail (ErrCp ValidationRequestError "Can't parse request parameters: ")
  | Panic p => panic p
  end.
Definition HandleGetRouteDetails (routeUuid : string) : prog World ui.RouteDetails := GetRouteDetails (GetFiberParam routeUuid).
End services.

(** * Responses ([restcontrollers/dto/converters.go]): a header definition has
    the fields of a header *)

Module response.
Record EndpointResponse := mkEndpointResponse {
  EndpointResponse_Id : Z;
  EndpointResponse_Address : string;
  EndpointResponse_Port : Z;
  EndpointResponse_DeploymentVersion : option DeploymentVersion;
  EndpointResponse_InitialDeploymentVersion : string;
  EndpointResponse_HashPolicies : list HashPolicyDto
}.
Record ClusterResponse := mkClusterResponse {
  ClusterResponse_Id : Z;
  ClusterResponse_Name : string;
  ClusterResponse_LbPolicy : string;
  ClusterResponse_DiscoveryType : string;
  ClusterResponse_Version : Z;
  ClusterResponse_EnableH2 : bool;
  ClusterResponse_NodeGroups : list (option NodeGroup);
  ClusterResponse_Endpoints : list EndpointResponse
}.
Record RouteMatcher := mkRouteMatcher {
  RouteMatcher_Prefix : dto.NullString;
  RouteMatcher_Regexp : dto.NullString;
  RouteMatcher_Path : dto.NullString;
  RouteMatcher_HeaderMatchers : list HeaderMatcher;
  RouteMatcher_AddHeaders : list Header;
  RouteMatcher_RemoveHeaders : list string
}.
Record RouteAction := mkRouteAction {
  RouteAction_ClusterName : dto.NullString;
  RouteAction_HostRewrite : dto.NullString;
  RouteAction_HostAutoRewrite : NullBool;
  RouteAction_PrefixRewrite : dto.NullString;
  RouteAction_RegexpRewrite : dto.NullString;
  RouteAction_PathRewrite : dto.NullString
}.
Record RouteResponse := mkRouteResponse {
  RouteResponse_Id : Z;
  RouteResponse_Uuid : string;
  RouteResponse_RouteKey : string;
  RouteResponse_RouteMatcher : option RouteMatcher;
  RouteResponse_RouteAction : option RouteAction;
  RouteResponse_DirectResponseAction : option Z;
  RouteResponse_Version : Z;
  RouteResponse_Timeout : NullInt;
  RouteResponse_IdleTimeout : NullInt;
  RouteResponse_DeploymentVersion : option DeploymentVersion;
  RouteResponse_InitialDeploymentVersion : string;
  RouteResponse_Autogenerated : bool;
  RouteResponse_HashPolicies : list HashPolicyDto
}.
Record VirtualHostResponse := mkVirtualHostResponse {
  VirtualHostResponse_Id : Z;
  VirtualHostResponse_Name : string;
  VirtualHostResponse_Version : Z;
  VirtualHostResponse_AddHeaders : list Header;
  VirtualHostResponse_RemoveHeaders : list string;
  VirtualHostResponse_Routes : list RouteResponse;
  VirtualHostResponse_Domains : list string
}.
Record RouteConfigurationResponse := mkRouteConfigurationResponse {
  RouteConfigurationResponse_Id : Z;
  RouteConfigurationResponse_Name : string;
  RouteConfigurationResponse_Version : Z;
  RouteConfigurationResponse_NodeGroupId : string;
  RouteConfigurationResponse_VirtualHosts : list VirtualHostResponse
}.
Record VirtualServiceResponse := mkVirtualServiceResponse {
  VirtualServiceResponse_VirtualHost : VirtualHostResponse;
  VirtualServiceResponse_Clusters : list ClusterResponse
}.
End response.

Definition NewNullString (str : string) : dto.NullString := if String.eqb str "" then None else Some str.
Definition convertEndpoint (endpoint : Endpoint) : response.EndpointResponse :=
  response.mkEndpointResponse (Endpoint_Id endpoint) (Endpoint_Address endpoint) (Endpoint_Port endpoint) (Endpoint_DeploymentVersionVal endpoint)
    (Endpoint_InitialDeploymentVersion endpoint) (map convertHashPolicy (Endpoint_HashPolicies endpoint)).
Definition convertClusterToResponse (cluster : Cluster) : response.ClusterResponse :=
  response.mkClusterResponse (Cluster_Id cluster) (Cluster_Name cluster) (Cluster_LbPolicy cluster) (Cluster_DiscoveryType cluster) (Cluster_Version cluster)
    (Cluster_EnableH2 cluster) (Cluster_NodeGroups cluster) (map convertEndpoint (Cluster_Endpoints cluster)).
Definition ConvertRouteMatcher (route : Route) : option response.RouteMatcher :=
  let prefix := NewNullString (Route_Prefix route) in
  let path := NewNullString (Route_Path route) in
  let regexp := NewNullString (Route_Regexp route) in
  match prefix, path, regexp, Route_HeaderMatchers route with
  | None, None, None, [] => None
  | _, _, _, matchers => Some (response.mkRouteMatcher prefix regexp path matchers (Route_RequestHeadersToAdd route) (Route_RequestHeadersToRemove route))
  end.
Definition convertRouteAction (route : Route) : option response.RouteAction :=
  if String.eqb (Route_ClusterName route) "" && String.eqb (Route_PrefixRewrite route) "" && String.eqb (Route_RegexpRewrite route) ""
     && String.eqb (Route_PathRewrite route) "" && negb (NullBool_Valid (Route_HostAutoRewrite route)) && String.eqb (Route_HostRewrite route) ""
  then None
  else Some (response.mkRouteAction (NewNullString (Route_ClusterName route)) (NewNullString (Route_HostRewrite route)) (Route_HostAutoRewrite route)
               (NewNullString (Route_PrefixRewrite route)) (NewNullString (Route_RegexpRewrite route)) (NewNullString (Route_PathRewrite route))).
Definition convertDirectResponseAction (responseCode : Z) : option Z := if (responseCode =? 0)%Z then None else Some responseCode.
Definition convertRoute (route : Route) : response.RouteResponse :=
  response.mkRouteResponse (Route_Id route) (Route_Uuid route) (Route_RouteKey route) (ConvertRouteMatcher route) (convertRouteAction route)
    (convertDirectResponseAction (Route_DirectResponseCode route)) (Route_Version route) (Route_Timeout route) (Route_IdleTimeout route)
    (Route_DeploymentVersionVal route) (Route_InitialDeploymentVersion route) (Route_Autogenerated route) (map convertHashPolicy (Route_HashPolicies route)).
Definition ConvertVirtualHost (virtualHost : VirtualHost) : response.VirtualHostResponse :=
  response.mkVirtualHostResponse (VirtualHost_Id virtualHost) (VirtualHost_Name virtualHost) (VirtualHost_Version virtualHost)
    (VirtualHost_RequestHeadersToAdd virtualHost) (VirtualHost_RequestHeadersToRemove virtualHost) (map convertRoute (VirtualHost_Routes virtualHost))
    (map VirtualHostDomain_Domain (VirtualHost_Domains virtualHost)).
Definition convertRouteConfiguration (routeConfig : RouteConfiguration) : response.RouteConfigurationResponse :=
  response.mkRouteConfigurationResponse (RouteConfiguration_Id routeConfig) (RouteConfiguration_Name routeConfig) (RouteConfiguration_Version routeConfig)
    (RouteConfiguration_NodeGroupId routeConfig) (map ConvertVirtualHost (RouteConfiguration_VirtualHosts routeConfig)).

Section responses.
Context `{R : Runtime} `{E : EntityService}.

(** ** What is read ([services/route/v1], [services/route/v3], [services/statefulsession]) *)

Definition GetClusters : prog World (list response.ClusterResponse) :=
  clusters <- GetClustersWithRelations Local ;; ret (map convertClusterToResponse clusters).
Definition GetRouteConfigurations : prog World (list response.RouteConfigurationResponse) :=
  routeConfigs <- GetRouteConfigurationsWithRelations Local ;; ret (map convertRouteConfiguration routeConfigs).
(** The clusters of the routes, each once, in the order of a map; the one that
    is not found is kept as nil, and dereferenced in the conversion. *)
Definition virtual_service_payload (nodeGroup virtualServiceName : string) : prog World response.VirtualServiceResponse :=
  virtualHost <- LoadVirtualHostRelationByNameAndNodeGroup InTx nodeGroup virtualServiceName ;;
  names <- range (elements (list_to_set (Route_ClusterName <$> VirtualHost_Routes virtualHost) : gset string)) ;;
  clusters <- map_each names (GetClusterWithRelations InTx) ;;
  clusters <- map_each clusters deref ;;
  ret (response.mkVirtualServiceResponse (ConvertVirtualHost virtualHost) (map convertClusterToResponse clusters)).
Definition GetVirtualService (nodeGroup virtualServiceName : string) : prog World response.VirtualServiceResponse :=
  WithRTxVal (virtual_service_payload nodeGroup virtualServiceName).
(** A session, with the matcher of its route when it belongs to one. *)
Definition statefulSessionToDto (session : StatefulSession) : prog World (dto.StatefulSession * option response.RouteMatcher) :=
  let cookie := if nonempty (StatefulSession_CookieName session)
                then Some (dto.mkCookie (StatefulSession_CookieName session) (StatefulSession_CookieTtl session) (NewNullString (StatefulSession_CookiePath session)))
                else None in
  let sessionDto hostname port := dto.mkStatefulSession (StatefulSession_DeploymentVersion session) (StatefulSession_Namespace session)
    (StatefulSession_ClusterName session) hostname (StatefulSession_Gateways session) port (Some (StatefulSession_Enabled session)) cookie false in
  endpoint <- FindEndpointByStatefulSession Local (StatefulSession_Id session) ;;
  match endpoint with
  | Some endpoint => ret (sessionDto (Endpoint_Address endpoint) (Some (Endpoint_Port endpoint)), None)
  | None =>
      route <- FindRouteByStatefulSession Local (StatefulSession_Id session) ;;
      match route with
      | Some route => route <- LoadRouteRelations Local route ;; ret (sessionDto "" None, ConvertRouteMatcher route)
      | None => ret (sessionDto "" None, None)
      end
  end.
Definition FindAll : prog World (list (dto.StatefulSession * option response.RouteMatcher)) :=
  sessions <- FindAllStatefulSessionConfigs Local ;; map_each sessions statefulSessionToDto.

(** ** The handlers ([restcontrollers/v1], [restcontrollers/v3]): the value
    shown with 200, or the status of an error; version 3 fails with the error. *)
Definition show {A} (m : prog World A) : prog World (A + Reply) :=
  fun w => match m w with
           | (Ok a, w') => (Ok (inl a), w')
           | (Err err, w') => (Ok (inr (mkReply 500 (PErrorOf err))), w')
           | (Panic p, w') => (Panic p, w')
           end.
Definition HandleGetClusters : prog World (list response.ClusterResponse + Reply) := show GetClusters.
Definition HandleGetRouteConfigs : prog World (list response.RouteConfigurationResponse + Reply) := show GetRouteConfigurations.
Definition HandleGetNodeGroups : prog World (list NodeGroup + Reply) := show (FindAllNodeGroups Local).
Definition HandleGetListeners : prog World (list Listener + Reply) := show (FindAllListeners Local).
Definition HandleGetVirtualService (nodeGroup virtualServiceName : string) : prog World response.VirtualServiceResponse :=
  if String.eqb (strings_TrimSpace nodeGroup) "" then fail (ErrCp ValidationRequestError "Path variable 'nodeGroup' must not be empty.")
  else if String.eqb (strings_TrimSpace virtualServiceName) "" then fail (ErrCp ValidationRequestError "Path variable 'virtualServiceName' must not be empty.")
  else GetVirtualService nodeGroup virtualServiceName.
Definition HandleGetStatefulSessions : prog World (list (dto.StatefulSession * option response.RouteMatcher)) := FindAll.
End responses.

(** * Properties

    Pages of routes: together they are all routes, each once. *)

(** ** Pages *)

(** Where a page starts, in 64 bits. *)
Definition page_start (size page : Z) : Z := int64 ((page - 1) * size).
(** What a page of [size] routes that starts at [start] shows: the routes from
    there on, or, past the last one, those of the page before the last full one
    and what follows it. *)
Definition window {A} (size start : Z) (l : list A) : list A :=
  let len := Z.of_nat (length l) in
  if (start <? len)%Z then take (Z.to_nat size) (drop (Z.to_nat start) l)
  else if (len <? size)%Z then l
  else drop (Z.to_nat ((len / size - 1) * size)) l.
(** The page, unless it starts or ends outside of 64 bits. *)
Definition page_spec {A} (size page : Z) (l : list A) : option (list A) :=
  let start := page_start size page in
  if ((0 <=? start) && (start + size <? 2 ^ 63))%Z then Some (window size start l) else None.

Lemma int64_small z : (- 2 ^ 63 <= z < 2 ^ 63)%Z -> int64 z = z.
Proof. intros Hz. unfold int64. rewrite Z.mod_small; lia. Qed.
Lemma int64_bounded z : (- 2 ^ 63 <= int64 z < 2 ^ 63)%Z.
Proof. unfold int64. pose proof (Z.mod_pos_bound (z + 2 ^ 63) (2 ^ 64) ltac:(lia)). lia. Qed.
Lemma int64_add a b : int64 (int64 a + b) = int64 (a + b).
Proof.
  unfold int64. f_equal. replace ((a + 2 ^ 63) mod 2 ^ 64 - 2 ^ 63 + b + 2 ^ 63)%Z with ((a + 2 ^ 63) mod 2 ^ 64 + b)%Z by lia.
  rewrite Zplus_mod_idemp_l. f_equal. lia.
Qed.
Lemma int64_wrap z : (2 ^ 63 <= z < 2 ^ 64)%Z -> int64 z = (z - 2 ^ 64)%Z.
Proof. intros Hz. unfold int64. replace (z + 2 ^ 63)%Z with (z - 2 ^ 63 + 1 * 2 ^ 64)%Z by lia. rewrite Z_mod_plus_full, Z.mod_small; lia. Qed.
Lemma go_slice_ok {A} (lo hi : Z) (l : list A) : (0 <= lo <= hi)%Z -> (hi <= Z.of_nat (length l))%Z ->
  go_slice lo hi l = Ok (take (Z.to_nat (hi - lo)) (drop (Z.to_nat lo) l)).
Proof. intros H1 H2. unfold go_slice. by rewrite !(proj2 (Z.leb_le _ _)) by lia. Qed.
Lemma go_slice_panic {A} (lo hi : Z) (l : list A) : (lo < 0 \/ hi < 0)%Z -> go_slice lo hi l = Panic "slice bounds out of range".
Proof. intros Hb. unfold go_slice. destruct (Z.leb_spec 0 lo); [|done]. by rewrite (proj2 (Z.leb_gt lo hi)) by lia. Qed.
Lemma page_end size page : (1 <= page < 2 ^ 63)%Z ->
  LowerBound size page = page_start size page /\ UpperBound size page = int64 (page_start size page + size).
Proof.
  intros Hp. unfold LowerBound, UpperBound, page_start. rewrite (int64_small (page - 1)) by lia. split; [done|].
  rewrite int64_add. f_equal. lia.
Qed.
Lemma window_slice {A} (size start : Z) (l : list A) :
  (1 <= size)%Z -> (0 <= start)%Z -> (start + size < 2 ^ 63)%Z -> (Z.of_nat (length l) < 2 ^ 63)%Z ->
  let len := Z.of_nat (length l) in
  go_slice (if (len <? start + 1)%Z then if (len <? size)%Z then LowerBound len 1 else LowerBound size (Z.quot len size) else start)
           (if (len <? start + size)%Z then len else start + size)%Z l = Ok (window size start l).
Proof.
  intros Hs H0 Hb Hl len. unfold window. fold len. destruct (Z.ltb_spec start len) as [Hin|Hout].
  - rewrite (proj2 (Z.ltb_ge _ _)) by lia. destruct (Z.ltb_spec len (start + size)); rewrite go_slice_ok by lia; f_equal; [|f_equal; lia].
    rewrite !take_ge; [done| |]; rewrite length_drop; lia.
  - rewrite (proj2 (Z.ltb_lt _ _)), (proj2 (Z.ltb_lt len (start + size))) by lia. destruct (Z.ltb_spec len size) as [Hsmall|Hbig].
    + unfold LowerBound. change (int64 (int64 (1 - 1) * len)) with 0%Z. rewrite go_slice_ok by lia. rewrite drop_0, take_ge by lia. done.
    + assert (1 <= len / size)%Z as Hq by (apply Z.div_le_lower_bound; lia).
      pose proof (Z.mul_div_le len size ltac:(lia)) as Hm. rewrite Z.quot_div_nonneg by lia.
      assert (LowerBound size (len / size) = (len / size - 1) * size)%Z as ->.
      { unfold LowerBound. rewrite (int64_small (_ - 1)) by nia. rewrite int64_small by nia. done. }
      rewrite go_slice_ok by nia. rewrite take_ge; [done|]. rewrite length_drop. lia.
Qed.
Lemma route_page_spec {A} (size page : Z) (l : list A) :
  (1 <= size < 2 ^ 63)%Z -> (1 <= page < 2 ^ 63)%Z -> (Z.of_nat (length l) < 2 ^ 63)%Z ->
  route_page size page l = match page_spec size page l with Some shown => Ok shown | None => Panic "slice bounds out of range" end.
Proof.
  intros Hs Hp Hl. unfold route_page, page_bounds, page_spec. destruct (page_end size page Hp) as [-> ->]. cbv zeta.
  pose proof (int64_bounded ((page - 1) * size)) as Hr. fold (page_start size page) in Hr. set (start := page_start size page) in *. clearbody start.
  destruct (Z.leb_spec 0 start) as [H0|H0]; cbn [andb].
  - destruct (Z.ltb_spec (start + size) (2 ^ 63)) as [Hb|Hb].
    + rewrite (int64_small (start + size)), (int64_small (start + 1)) by lia. apply window_slice; lia.
    + rewrite (int64_wrap (start + size)) by lia. apply go_slice_panic. right. rewrite (proj2 (Z.ltb_ge _ _)) by lia. lia.
  - rewrite (int64_small (start + 1)) by lia. rewrite (proj2 (Z.ltb_ge _ _)) by lia. apply go_slice_panic. by left.
Qed.
(** In 64 bits a page starts where its number says. *)
Lemma page_within {A} (size page : Z) (l : list A) : (1 <= size)%Z -> (1 <= page)%Z -> (page * size < 2 ^ 63)%Z ->
  page_spec size page l = Some (window size ((page - 1) * size) l).
Proof.
  intros Hs Hp Hb. unfold page_spec, page_start. rewrite int64_small by nia.
  rewrite (proj2 (Z.leb_le _ _)), (proj2 (Z.ltb_lt _ _)) by nia. done.
Qed.
(** The pages up to the last one are the list, cut into pieces. *)
Lemma pages_cover {A} (size : Z) (k : nat) (l : list A) : (1 <= size)%Z -> ((Z.of_nat k - 1) * size < Z.of_nat (length l) <= Z.of_nat k * size)%Z ->
  concat (map (fun i => window size (Z.of_nat i * size) l) (seq 0 k)) = l.
Proof.
  intros Hs Hk. set (n := Z.to_nat size).
  assert (forall j, j <= k -> concat (map (fun i => window size (Z.of_nat i * size) l) (seq 0 j)) = take (j * n) l) as Hj.
  { induction j as [|j IH]; intros Hjk; [done|]. rewrite seq_S, map_app, concat_app, IH by lia. cbn [map concat Nat.add]. rewrite app_nil_r.
    unfold window. rewrite (proj2 (Z.ltb_lt _ _)) by nia. replace (Z.to_nat (Z.of_nat j * size)) with (j * n) by nia.
    replace (S j * n) with (j * n + n) by lia. symmetry. by rewrite take_take_drop. }
  rewrite Hj, take_ge by nia. done.
Qed.
Lemma page_past_end {A} (size start : Z) (l : list A) : (1 <= size)%Z -> (Z.of_nat (length l) <= start)%Z ->
  (Z.of_nat (length (window size start l)) <= 2 * size - 1)%Z.
Proof.
  intros Hs Hp. unfold window. rewrite (proj2 (Z.ltb_ge _ _)) by lia. destruct (Z.ltb_spec (Z.of_nat (length l)) size); [lia|].
  rewrite length_drop. set (len := Z.of_nat (length l)) in *.
  pose proof (Z.div_mod len size ltac:(lia)) as Hd. pose proof (Z.mod_pos_bound len size ltac:(lia)) as Hm.
  assert (1 <= len / size)%Z by (apply Z.div_le_lower_bound; lia). nia.
Qed.

Section pages.
Context `{R : Runtime} `{E : EntityService}.

Lemma search_routes_page vh version size page page' search :
  search_routes (mkSearchRoutesParameters vh version size page search) = search_routes (mkSearchRoutesParameters vh version size page' search).
Proof. reflexivity. Qed.
Lemma GetRoutesPage_page vh version search (size page : Z) w ordered w1 : (1 <= size)%Z -> (1 <= page)%Z ->
  let params := mkSearchRoutesParameters vh version size page search in
  search_routes params w = (Ok ordered, w1) ->
  match route_page size page ordered with
  | Ok shown => forall p w', GetRoutesPage params w = (Ok p, w') ->
      ui.PageRoutes_TotalCount p = length ordered /\ ui.PageRoutes_Routes p = map adaptRouteToUI shown
  | Err e => GetRoutesPage params w = (Err e, w1)
  | Panic q => GetRoutesPage params w = (Panic q, w1)
  end.
Proof.
  intros Hs Hp params Es. subst params. unfold GetRoutesPage. cbn [Params_Size Params_Page Params_VirtualHostId Params_Version].
  rewrite !(proj2 (Z.ltb_ge _ _)) by lia. rewrite (bind_run _ _ _ _ _ Es).
  destruct (route_page size page ordered) as [shown|e|q]; [|done..]. intros p w' Ep.
  apply bind_Ok in Ep as (? & ? & Eq & Ep). injection Eq as <- <-.
  repeat (apply bind_Ok in Ep as (? & ? & _ & Ep)). by injection Ep as <- <-.
Qed.

(** C35: The pages of a search, for any size and number from 1 that a query can
    give: a page shows the routes, in the order of Envoy, from where it starts
    on, with the count of all; where a page starts is its number less one times
    the size, wrapped to 64 bits, and when that is negative or the end does not
    fit in 64 bits the server panics.  As long as nothing wraps a page starts
    where its number says: the pages up to the last one show every route exactly
    as often as it is in the order, and a page past the last one repeats routes,
    up to twice the size of a page.  When it wraps, a page far behind the last
    one may panic, or show the first routes ([far_pages]). *)
Theorem routes_paged vh version search (size : Z) w ordered w1 :
  (1 <= size < 2 ^ 63)%Z -> (Z.of_nat (length ordered) < 2 ^ 63)%Z ->
  search_routes (mkSearchRoutesParameters vh version size 1 search) w = (Ok ordered, w1) ->
  (forall page, (1 <= page < 2 ^ 63)%Z ->
     match page_spec size page ordered with
     | Some shown => forall p w', GetRoutesPage (mkSearchRoutesParameters vh version size page search) w = (Ok p, w') ->
         ui.PageRoutes_TotalCount p = length ordered /\ ui.PageRoutes_Routes p = map adaptRouteToUI shown
     | None => GetRoutesPage (mkSearchRoutesParameters vh version size page search) w = (Panic "slice bounds out of range", w1)
     end) /\
  (forall page, (1 <= page)%Z -> (page * size < 2 ^ 63)%Z -> page_spec size page ordered = Some (window size ((page - 1) * size) ordered)) /\
  (forall k : nat, ((Z.of_nat k - 1) * size < Z.of_nat (length ordered) <= Z.of_nat k * size)%Z ->
     concat (map (fun i => window size (Z.of_nat i * size) ordered) (seq 0 k)) = ordered) /\
  (forall start, (Z.of_nat (length ordered) <= start)%Z -> (Z.of_nat (length (window size start ordered)) <= 2 * size - 1)%Z).
Proof.
  intros Hs Hl Es. split_and!.
  - intros page Hp. pose proof (GetRoutesPage_page vh version search size page w ordered w1 (proj1 Hs) (proj1 Hp) Es) as Hr. cbv zeta in Hr.
    rewrite route_page_spec in Hr by done. by destruct (page_spec size page ordered).
  - intros page Hp Hb. apply page_within; lia.
  - intros k Hk. apply pages_cover; lia.
  - intros start Hp. apply page_past_end; lia.
Qed.
End pages.

(** ** Hash policies *)

(** A policy as it is stored: what belongs to a cookie is absent without one,
    a nullable value that is not valid is zero. *)
Definition stored_policy (p : HashPolicy) : Prop :=
  (HashPolicy_CookieName p = "" -> HashPolicy_CookieTTL p = zero /\ HashPolicy_CookiePath p = "") /\
  (NullInt_Valid (HashPolicy_CookieTTL p) = false -> HashPolicy_CookieTTL p = zero) /\
  (NullBool_Valid (HashPolicy_QueryParamSourceIP p) = false -> HashPolicy_QueryParamSourceIP p = zero) /\
  (NullBool_Valid (HashPolicy_Terminal p) = false -> HashPolicy_Terminal p = zero).
(** A policy that is shown can be sent back: it is valid exactly when the one
    stored is, and the same but for the ids. *)
Theorem hash_policy_roundtrip p : stored_policy p ->
  buildDomainHashPolicyFromDto (convertHashPolicy p) = p <| HashPolicy_Id := 0%Z |> <| HashPolicy_RouteId := 0%Z |> <| HashPolicy_EndpointId := 0%Z |> /\
  hashPolicyIsValid (buildDomainHashPolicyFromDto (convertHashPolicy p)) = hashPolicyIsValid p.
Proof.
  intros (Hc & Ht & Hs & Hm).
  assert (buildDomainHashPolicyFromDto (convertHashPolicy p) = p <| HashPolicy_Id := 0%Z |> <| HashPolicy_RouteId := 0%Z |> <| HashPolicy_EndpointId := 0%Z |>) as ->; [|done].
  destruct p as [i header cookie ttl path source query terminal r e]. cbn in Hc, Ht, Hs, Hm.
  destruct ttl as [ttl tv], source as [sb sv], terminal as [tb tm]. cbn in *. unfold buildDomainHashPolicyFromDto, convertHashPolicy, nonempty. cbn.
  destruct header as [|hc header], cookie as [|cc cookie], query as [|qc query], sv, tm, tv; cbn in *;
    repeat match goal with
    | H : ?x = ?x -> _ |- _ => specialize (H eq_refl)
    | H : _ /\ _ |- _ => destruct H
    end; try (injection Hs as ->); try (injection Hm as ->); try (injection Ht as ->); subst; try discriminate; try reflexivity; destruct path; reflexivity.
Qed.

(** * Witnesses *)

Definition a_route (vh : Z) (key prefix cluster : string) : Route :=
  (zero : Route) <| Route_VirtualHostId := vh |> <| Route_Uuid := "00000000-0000-0000-0000-0000000000" ++ key |> <| Route_RouteKey := key |> <| Route_Prefix := prefix |>
    <| Route_ClusterName := cluster |> <| Route_DeploymentVersion := "v1" |> <| Route_InitialDeploymentVersion := "v1" |>.
(** Three routes of a virtual host, one that is prohibited and has no cluster. *)
Definition save_shown : prog (World (R := RuntimeModel.test_runtime)) unit :=
    _ <- SaveNodeGroup InTx (mkNodeGroup "private" "" false) ;;
    _ <- SaveDeploymentVersion InTx (mkDeploymentVersion "v1" "ACTIVE" zero zero) ;;
    rc <- SaveRouteConfig InTx ((zero : RouteConfiguration) <| RouteConfiguration_Name := "rc" |> <| RouteConfiguration_NodeGroupId := "private" |>) ;;
    vh <- SaveVirtualHost InTx ((zero : VirtualHost) <| VirtualHost_Name := "vh" |> <| VirtualHost_RouteConfigurationId := RouteConfiguration_Id rc |>) ;;
    _ <- SaveCluster InTx ((zero : Cluster) <| Cluster_Name := "orders" |>) ;;
    _ <- SaveRoute InTx (a_route (VirtualHost_Id vh) "01" "/a" "orders") ;;
    _ <- SaveRoute InTx (a_route (VirtualHost_Id vh) "02" "/b/c" "orders") ;;
    _ <- SaveRoute InTx ((a_route (VirtualHost_Id vh) "03" "/forbidden" "") <| Route_DirectResponseCode := 404%Z |>) ;;
    ret tt.
Definition shown_world : World (R := RuntimeModel.test_runtime) := (WithWTx (R := RuntimeModel.test_runtime) save_shown RuntimeModel.empty_world).2.
Definition a_search (size page : Z) := mkSearchRoutesParameters 2 "v1" size page "".

Definition found_routes := search_routes (R := RuntimeModel.test_runtime) (a_search 2 1) shown_world.
Definition test_ordered : list Route := match found_routes.1 with Ok l => l | _ => [] end.
Definition lengths (r : result ui.PageRoutes) : option (nat * list string) :=
  match r with Ok p => Some (ui.PageRoutes_TotalCount p, map ui.Route_Match (ui.PageRoutes_Routes p)) | _ => None end.
(** The second page, and the ninth: three routes on a page of two. *)
Example second_page : lengths (GetRoutesPage (R := RuntimeModel.test_runtime) (a_search 2 2) shown_world).1 = Some (3, ["/a"]).
Proof. vm_compute. reflexivity. Qed.
Example ninth_page : lengths (GetRoutesPage (R := RuntimeModel.test_runtime) (a_search 2 9) shown_world).1 = Some (3, ["/forbidden"; "/b/c"; "/a"]).
Proof. vm_compute. reflexivity. Qed.
(** A virtual service with a prohibited route cannot be shown. *)
Example prohibited_not_shown :
  (GetVirtualService (R := RuntimeModel.test_runtime) "private" "vh" shown_world).1 = Panic "nil pointer dereference".
Proof. vm_compute. reflexivity. Qed.
(** A version, or a route, that does not exist. *)
Example unknown_version : (GetRoutesPage (R := RuntimeModel.test_runtime) (mkSearchRoutesParameters 2 "v9" 2 1 "") shown_world).1 = Panic "nil pointer dereference".
Proof. vm_compute. reflexivity. Qed.
Example unknown_route : (GetRouteDetails (R := RuntimeModel.test_runtime) "00000000-0000-0000-0000-000000000009" shown_world).1 = Panic "nil pointer dereference".
Proof. vm_compute. reflexivity. Qed.
(** Pages of four routes whose bounds leave 64 bits: the page with the number 2
    to the 62 panics, the next one shows the first routes. *)
Example far_pages :
  (GetRoutesPage (R := RuntimeModel.test_runtime) (a_search 4 (2 ^ 62)) shown_world).1 = Panic "slice bounds out of range" /\
  lengths (GetRoutesPage (R := RuntimeModel.test_runtime) (a_search 4 (2 ^ 62 + 1)) shown_world).1 =
  lengths (GetRoutesPage (R := RuntimeModel.test_runtime) (a_search 4 1) shown_world).1.
Proof. split; vm_compute; reflexivity. Qed.
Lemma routes_paged_witness :
  length test_ordered = 3 /\ concat (map (fun i => window 2 (Z.of_nat i * 2) test_ordered) (seq 0 2)) = test_ordered /\
  (GetRoutesPage (R := RuntimeModel.test_runtime) (a_search 2 (2 ^ 62 + 1)) shown_world).1 = Panic "slice bounds out of range".
Proof.
  assert (length test_ordered = 3) as El by (vm_compute; reflexivity).
  assert (found_routes.1 = Ok test_ordered) as Ef by (vm_compute; reflexivity).
  destruct (routes_paged (R := RuntimeModel.test_runtime) 2 "v1" "" 2 shown_world test_ordered found_routes.2) as (Hp & _ & Hc & _).
  - lia.
  - rewrite El. lia.
  - rewrite <- Ef. exact (surjective_pairing found_routes).
  - split; [exact El|]. split.
    + apply Hc. rewrite El. lia.
    + specialize (Hp (2 ^ 62 + 1)%Z ltac:(lia)). exact (f_equal fst Hp).
Defined.
Definition a_policy : HashPolicy := (zero : HashPolicy) <| HashPolicy_Id := 7%Z |> <| HashPolicy_CookieName := "sticky" |> <| HashPolicy_CookieTTL := NewNullInt 60 |>.
Lemma hash_policy_roundtrip_witness : buildDomainHashPolicyFromDto (convertHashPolicy a_policy) = a_policy <| HashPolicy_Id := 0%Z |>.
Proof. apply (hash_policy_roundtrip a_policy). repeat split; discriminate. Defined.
