(* ===== verification/Watchers.v ===== *)
(** [websocket]: clients that watch the versions and the active data centers.

    First the messages: what a change of the database tells a watcher, and what
    it is told when it connects.  Then the watchers as a transition system, a
    label is one step of one goroutine:
    - a commit, whose change is announced later by a goroutine of its own;
    - [Iter]: it takes the lock of the set, and puts a message into the channel
      of each watcher (it waits while the channel is full), or tells each
      watcher to quit (it waits until that is received);
    - the handler of a watcher: it registers, sends the present state, serves its
      channel and leaves; a write may fail at any time;
    - the reader of its connection, which tells the handler to quit when the
      connection ends.
    Changes are numbered by their commits.  Pings, close frames and the upgrade of
    the connection are not modelled. *)
From S2P Require Import Prelude GoLib Domain RouteKey Tables MemDb Msaddr Events RegCommon Runtime Dao Entity EventBus.
From S2P Require Import Util Dto ActiveDCs.
Open Scope string_scope.

(** * Messages about versions ([message.go], [versioncontroller.go]) *)

(** What an [interface{}] of a change holds: nil, a version (external bus), a
    pointer to one (internal bus), something else.  Pointers are addresses of
    the heap. *)
Inductive boxed := BNil | BStruct (v : DeploymentVersion) | BPointer (p : nat) | BOther.
Definition Heap : Type := list DeploymentVersion.
Record MemdbChange := mkMemdbChange { memdb_Before : boxed; memdb_After : boxed }.
Record VersionChange := mkVersionChange { Change_New : option nat; Change_Old : option nat }.
#[export] Instance VersionChange_eq_dec : EqDecision VersionChange.
Proof. solve_decision. Defined.
Record Message := mkMessage { Message_Changes : list VersionChange; Message_State : list DeploymentVersion }.

Definition NewMessage (state : list DeploymentVersion) (changes : list VersionChange) : result Message := Ok (mkMessage changes state).
(** [&val] is a new object. *)
Definition version_pointer (b : boxed) : prog Heap (option nat) :=
  match b with
  | BStruct v => fun h => (Ok (Some (length h)), (h ++ [v])%list)
  | BPointer p => ret (Some p)
  | BNil | BOther => ret None
  end.
Definition NewChange (change : MemdbChange) : prog Heap VersionChange :=
  newCh <- version_pointer (memdb_After change) ;;
  oldCh <- version_pointer (memdb_Before change) ;;
  ret (mkVersionChange newCh oldCh).
Fixpoint unique_from (chMap : list VersionChange) (changes : list VersionChange) : list VersionChange :=
  match changes with
  | [] => []
  | change :: rest => if bool_decide (change ∈ chMap) then unique_from chMap rest else change :: unique_from (change :: chMap) rest
  end.
Definition unique (changes : list VersionChange) : list VersionChange := unique_from [] changes.
Definition convertChanges (changes : list MemdbChange) : prog Heap (list VersionChange) :=
  newChanges <- map_each changes NewChange ;; ret (unique newChanges).

Inductive MessageType := Error | Versions.
Definition MessageType_String (t : MessageType) : string := match t with Error => "Error" | Versions => "Versions" end.
(** A name that is not known is the zero value. *)
Definition toID (name : string) : MessageType := if String.eqb name "Versions" then Versions else Error.

(** * Messages about data centers ([activecontroller.go]) *)

Record ActiveActiveConfigMessage := mkActiveActiveConfigMessage { Message_Aliases : list string; Message_CurrentAlias : string }.
(** nil is an empty list here: the message never has null. *)
Definition NewActiveActiveMessage (aliases : list string) (currentAlias : string) : ActiveActiveConfigMessage :=
  mkActiveActiveConfigMessage aliases currentAlias.
Definition ClusterSliceToMap (clusters : list Cluster) : gmap string Cluster :=
  fold_left (fun m cluster => <[Cluster_Name cluster := cluster]> m) clusters ∅.
(** [aliases[endpoint.OrderId] = alias] *)
Definition set_alias (aliases : list string) (endpoint : Endpoint) : result (list string) :=
  if ((0 <=? Endpoint_OrderId endpoint) && (Endpoint_OrderId endpoint <? Z.of_nat (length aliases)))%Z
  then Ok (<[Z.to_nat (Endpoint_OrderId endpoint) := Endpoint_Hostname endpoint]> aliases)
  else Panic "index out of range".
Fixpoint place_aliases (clustersMap : gmap string Cluster) (endpoints : list Endpoint) (aliases : list string) (currentAlias : string) :
    result (list string * string) :=
  match endpoints with
  | [] => Ok (aliases, currentAlias)
  | endpoint :: rest =>
      result_bind (set_alias aliases endpoint) (fun aliases =>
        place_aliases clustersMap rest aliases
          match clustersMap !! GetClusterNameForExternalGw PublicGwName (Endpoint_Hostname endpoint) with
          | Some _ => currentAlias
          | None => Endpoint_Hostname endpoint
          end)
  end.
Definition NewActiveActiveMessageFromClusters (created deleted : list Cluster) : result (option ActiveActiveConfigMessage) :=
  let name := GetActiveActiveClusterName PublicGwName in
  match created, deleted with
  | [], _ :: _ =>
      match ClusterSliceToMap deleted !! name with
      | None => Ok None
      | Some _ => Ok (Some (NewActiveActiveMessage [] ""))
      end
  | _ :: _, [] =>
      let clustersMap := ClusterSliceToMap created in
      match clustersMap !! name with
      | None => Ok None
      | Some activeActiveCluster =>
          let endpoints := Cluster_Endpoints activeActiveCluster in
          result_bind (place_aliases clustersMap endpoints (replicate (length endpoints) "") "") (fun r =>
            Ok (Some (NewActiveActiveMessage r.1 r.2)))
      end
  | _, _ => Ok None
  end.
(** The clusters of a change of their table. *)
Definition change_clusters (c : Change) : option Cluster * option Cluster :=
  match c with
  | mkChange t before after =>
      match t return option (entity t) -> option (entity t) -> option Cluster * option Cluster with
      | ClusterTable => fun before after => (before, after)
      | _ => fun _ _ => (None, None)
      end before after
  end.
Definition convertActiveActiveClusterChanges (changes : list Change) : list Cluster * list Cluster :=
  fold_left (fun (acc : list Cluster * list Cluster) change =>
    match change_clusters change with
    | (Some before, None) => (acc.1, (acc.2 ++ [before])%list)
    | (_, Some after) => ((acc.1 ++ [after])%list, acc.2)
    | (None, None) => acc
    end) changes ([], []).
(** What the watchers of the data centers are sent. *)
Definition ActiveActive_NotifyWatchers (changes : list Change) : result (option ActiveActiveConfigMessage) :=
  let '(created, deleted) := convertActiveActiveClusterChanges changes in NewActiveActiveMessageFromClusters created deleted.
Definition handleActiveActiveChange (nodeGroup : string) (changes : ChangesByTable) : result (option ActiveActiveConfigMessage) :=
  if negb (String.eqb nodeGroup PublicGwName) then Ok None
  else match changes !! ClusterTable with
       | Some clusterChanges => ActiveActive_NotifyWatchers clusterChanges
       | None => Ok None
       end.

(** * The first message of a connection *)

Section upgrade.
Context `{R : Runtime}.
(** [WriteJSON] of a message. *)
Context {Msg : Type} (WriteJSON : Msg -> prog World unit).
Variable versions_message : Message -> Msg.
Variable active_message : option ActiveActiveConfigMessage -> Msg.

Definition Versions_doOnUpgradeWsSocket : prog World unit :=
  dVersions <- FindAllDeploymentVersions InTx ;;
  message <- lift (NewMessage dVersions []) ;;
  WriteJSON (versions_message message).
(** The clusters of the other data centers' gateways, after the one that
    balances. *)
Definition external_clusters (activeCluster : Cluster) : prog World (list Cluster) :=
  fold_each (Cluster_Endpoints activeCluster) [activeCluster] (fun clusters endpoint =>
    externalGwCluster <- FindClusterByName InTx (GetClusterNameForExternalGw PublicGwName (Endpoint_Hostname endpoint)) ;;
    ret (clusters ++ option_list externalGwCluster)%list).
Definition ActiveActive_doOnUpgradeWsSocket : prog World unit :=
  activeCluster <- FindClusterByName InTx (GetActiveActiveClusterName PublicGwName) ;;
  message <- (match activeCluster with
              | None => ret (Some (NewActiveActiveMessage [] ""))
              | Some activeCluster =>
                  activeActiveClusters <- external_clusters activeCluster ;;
                  lift (NewActiveActiveMessageFromClusters activeActiveClusters [])
              end) ;;
  WriteJSON (active_message message).
End upgrade.

(** * Watchers ([util.go], [common.go]) *)

(** What its handler is at: before it is registered, before the transaction,
    writing the state of [n] commits, waiting for its channels, writing a
    change, having received quit, before the deferred [Remove], at its end. *)
Inductive HandlerPhase := Opened | Registered | Greeting (n : nat) | Working | Writing (k : nat) | Quitting | Leaving | Closed.
(** The reader of the connection: reading, sending quit, at its end. *)
Inductive ReaderPhase := Reading | TellingQuit | ReaderGone.
Inductive Sent := SentState (n : nat) | SentChange (k : nat).
#[export] Instance Sent_eq_dec : EqDecision Sent.
Proof. solve_decision. Defined.
Record watcher := mkWatcher {
  source : list nat;
  stopped : bool;
  phase : HandlerPhase;
  reader : ReaderPhase;
  received : list Sent
}.
#[export] Instance watcher_eta : Eta watcher := fun w => mkWatcher (source w) (stopped w) (phase w) (reader w) (received w).
Definition newWatcher : watcher := mkWatcher [] false Opened Reading [].
Definition sourceBuffer : nat := 10.
Definition Stop (w : watcher) : watcher := w <| stopped := true |>.

(** Who has the lock of the set: nobody, [Iter] of a notification, [Iter] of
    [ResetConnections], which has seen the first watcher or not. *)
Inductive SetLock := Unlocked | Notifying (k : nat) (rest : list nat) | Resetting (rest : list nat) (seen : bool).
Record WatcherSet := mkWatcherSet {
  commits : nat;
  unannounced : gset nat;
  watchersMap : gset nat;
  locker : SetLock;
  watchers : gmap nat watcher
}.
#[export] Instance WatcherSet_eta : Eta WatcherSet := fun s =>
  mkWatcherSet (commits s) (unannounced s) (watchersMap s) (locker s) (watchers s).
Definition NewWatcherSet : WatcherSet := mkWatcherSet 0 ∅ ∅ Unlocked ∅.

Definition set_watcher (i : nat) (w : watcher) (s : WatcherSet) : WatcherSet := s <| watchers := <[i := w]> (watchers s) |>.
Definition unlocked (s : WatcherSet) : bool := match locker s with Unlocked => true | _ => false end.
(** An order in which a range over the set may go. *)
Definition is_range (order : list nat) (s : WatcherSet) : bool :=
  bool_decide (NoDup order) && bool_decide (list_to_set order = watchersMap s).

(** ** The handler *)

Definition commit (s : WatcherSet) : WatcherSet :=
  s <| commits := S (commits s) |> <| unannounced := {[commits s]} ∪ unannounced s |>.
Definition open (i : nat) (s : WatcherSet) : option WatcherSet :=
  match watchers s !! i with Some _ => None | None => Some (set_watcher i newWatcher s) end.
(** [Push] *)
Definition push_watcher (i : nat) (s : WatcherSet) : option WatcherSet :=
  match watchers s !! i with
  | Some w =>
      match phase w with
      | Opened =>
          if unlocked s then Some (set_watcher i (w <| phase := Registered |>) (s <| watchersMap := {[i]} ∪ watchersMap s |>)) else None
      | _ => None
      end
  | None => None
  end.
(** The transaction reads the state, or fails. *)
Definition read_state (i : nat) (ok : bool) (s : WatcherSet) : option WatcherSet :=
  match watchers s !! i with
  | Some w =>
      match phase w with
      | Registered => Some (set_watcher i (if ok then w <| phase := Greeting (commits s) |> else Stop w <| phase := Leaving |>) s)
      | _ => None
      end
  | None => None
  end.
(** [WriteJSON] returns: the first message, then the changes. *)
Definition write (i : nat) (ok : bool) (s : WatcherSet) : option WatcherSet :=
  match watchers s !! i with
  | Some w =>
      match phase w with
      | Greeting n =>
          Some (set_watcher i (if ok then w <| phase := Working |> <| received := [SentState n] |> else Stop w <| phase := Leaving |>) s)
      | Writing k =>
          Some (set_watcher i (if ok then w <| phase := Working |> <| received := (received w ++ [SentChange k])%list |>
                               else w <| phase := Leaving |>) s)
      | _ => None
      end
  | None => None
  end.
Definition take_change (i : nat) (s : WatcherSet) : option WatcherSet :=
  match watchers s !! i with
  | Some w =>
      match phase w, source w with
      | Working, k :: rest => Some (set_watcher i (w <| source := rest |> <| phase := Writing k |>) s)
      | _, _ => None
      end
  | None => None
  end.
Definition stop (i : nat) (s : WatcherSet) : option WatcherSet :=
  match watchers s !! i with
  | Some w => match phase w with Quitting => Some (set_watcher i (Stop w <| phase := Leaving |>) s) | _ => None end
  | None => None
  end.
(** [Remove], then the connection is closed. *)
Definition remove_watcher (i : nat) (s : WatcherSet) : option WatcherSet :=
  match watchers s !! i with
  | Some w =>
      match phase w with
      | Leaving =>
          if unlocked s then Some (set_watcher i (w <| phase := Closed |>) (s <| watchersMap := watchersMap s ∖ {[i]} |>)) else None
      | _ => None
      end
  | None => None
  end.

(** ** The reader ([validateConnection]) *)

Definition connection_ends (i : nat) (s : WatcherSet) : option WatcherSet :=
  match watchers s !! i with
  | Some w =>
      match reader w with
      | Reading => Some (set_watcher i (w <| reader := if stopped w then ReaderGone else TellingQuit |>) s)
      | _ => None
      end
  | None => None
  end.
Definition reader_quits (i : nat) (s : WatcherSet) : option WatcherSet :=
  match watchers s !! i with
  | Some w =>
      match reader w, phase w with
      | TellingQuit, Working => Some (set_watcher i (w <| reader := ReaderGone |> <| phase := Quitting |>) s)
      | _, _ => None
      end
  | None => None
  end.

(** ** Notifications and [ResetConnections] *)

Definition notify (k : nat) (order : list nat) (s : WatcherSet) : option WatcherSet :=
  if unlocked s && bool_decide (k ∈ unannounced s) && is_range order s
  then Some (s <| unannounced := unannounced s ∖ {[k]} |> <| locker := Notifying k order |>) else None.
Definition deliver (s : WatcherSet) : option WatcherSet :=
  match locker s with
  | Notifying k (i :: rest) =>
      match watchers s !! i with
      | Some w =>
          if (length (source w) <? sourceBuffer)%nat
          then Some (set_watcher i (w <| source := (source w ++ [k])%list |>) (s <| locker := Notifying k rest |>)) else None
      | None => None
      end
  | _ => None
  end.
Definition reset (order : list nat) (s : WatcherSet) : option WatcherSet :=
  if unlocked s && is_range order s then Some (s <| locker := Resetting order false |>) else None.
Definition look_stopped (s : WatcherSet) : option WatcherSet :=
  match locker s with
  | Resetting (i :: rest) false =>
      match watchers s !! i with
      | Some w => Some (s <| locker := if stopped w then Resetting rest false else Resetting (i :: rest) true |>)
      | None => None
      end
  | _ => None
  end.
Definition reset_quits (s : WatcherSet) : option WatcherSet :=
  match locker s with
  | Resetting (i :: rest) true =>
      match watchers s !! i with
      | Some w =>
          match phase w with
          | Working => Some (set_watcher i (w <| phase := Quitting |>) (s <| locker := Resetting rest false |>))
          | _ => None
          end
      | None => None
      end
  | _ => None
  end.
(** [Iter] has come to its end. *)
Definition unlock (s : WatcherSet) : option WatcherSet :=
  match locker s with
  | Notifying _ [] | Resetting [] _ => Some (s <| locker := Unlocked |>)
  | _ => None
  end.

(** ** Steps *)

Inductive Label :=
  | Commit | Open (i : nat) | Push (i : nat) | Read (i : nat) (ok : bool) | Write (i : nat) (ok : bool) | Take (i : nat) | StopStep (i : nat)
  | Remove (i : nat) | ConnectionEnds (i : nat) | ReaderQuits (i : nat) | Notify (k : nat) (order : list nat) | Deliver
  | Reset (order : list nat) | LookStopped | ResetQuits | Unlock.
(** [None] when the goroutine cannot take the step. *)
Definition step (l : Label) (s : WatcherSet) : option WatcherSet :=
  match l with
  | Commit => Some (commit s)
  | Open i => open i s
  | Push i => push_watcher i s
  | Read i ok => read_state i ok s
  | Write i ok => write i ok s
  | Take i => take_change i s
  | StopStep i => stop i s
  | Remove i => remove_watcher i s
  | ConnectionEnds i => connection_ends i s
  | ReaderQuits i => reader_quits i s
  | Notify k order => notify k order s
  | Deliver => deliver s
  | Reset order => reset order s
  | LookStopped => look_stopped s
  | ResetQuits => reset_quits s
  | Unlock => unlock s
  end.
Fixpoint run (ls : list Label) (s : WatcherSet) : option WatcherSet :=
  match ls with [] => Some s | l :: ls => match step l s with Some s => run ls s | None => None end end.

(** * Messages: properties *)

Lemma unique_from_spec chMap l :
  NoDup (unique_from chMap l) /\ unique_from chMap l `sublist_of` l /\
  forall c, c ∈ unique_from chMap l <-> c ∈ l /\ c ∉ chMap.
Proof.
  revert chMap. induction l as [|c l IH]; intros chMap; cbn.
  - split_and!; [constructor|done|]. intros c. rewrite elem_of_nil. tauto.
  - case_bool_decide as Hc.
    + destruct (IH chMap) as (H1 & H2 & H3). split_and!; [done|by constructor|]. intros d. rewrite H3, elem_of_cons.
      split; [tauto|]. intros [[->|?] ?]; [done|tauto].
    + destruct (IH (c :: chMap)) as (H1 & H2 & H3). split_and!; [|by constructor|].
      * constructor; [|done]. rewrite H3, elem_of_cons. tauto.
      * intros d. rewrite !elem_of_cons, H3, elem_of_cons. destruct (decide (d = c)) as [->|?]; tauto.
Qed.
(** Changes with the same pointers are sent once, in their order. *)
Theorem unique_spec changes :
  NoDup (unique changes) /\ unique changes `sublist_of` changes /\ forall c, c ∈ unique changes <-> c ∈ changes.
Proof.
  destruct (unique_from_spec [] changes) as (H1 & H2 & H3). split_and!; [done..|]. intros c. unfold unique. rewrite H3. set_solver.
Qed.

(** The message about created data centers panics when the order of an endpoint
    is not below their number, and names the last alias without a cluster of its
    own as the current one. *)
Definition alias_cluster (orders : list (Z * string)) : Cluster :=
  (zero : Cluster) <| Cluster_Name := GetActiveActiveClusterName PublicGwName |>
    <| Cluster_Endpoints := (fun e : Z * string => (zero : Endpoint) <| Endpoint_OrderId := e.1 |> <| Endpoint_Hostname := e.2 |>) <$> orders |>.
Definition external_cluster (alias : string) : Cluster := (zero : Cluster) <| Cluster_Name := GetClusterNameForExternalGw PublicGwName alias |>.
Example active_message_ex :
  NewActiveActiveMessageFromClusters [alias_cluster [(1%Z, "dc-2"); (0%Z, "dc-1")]; external_cluster "dc-2"] []
  = Ok (Some (mkActiveActiveConfigMessage ["dc-1"; "dc-2"] "dc-1")) /\
  NewActiveActiveMessageFromClusters [alias_cluster [(1%Z, "dc-2")]] [] = Panic "index out of range".
Proof. by vm_compute. Qed.
(** An instance that is told of the change over the network, where an entity
    travels without its relations, sends a message without aliases; when both
    clusters are created and deleted nobody is told. *)
Example active_message_lost :
  let cluster := alias_cluster [(0%Z, "dc-1")] in
  ActiveActive_NotifyWatchers [mkChange ClusterTable None (Some cluster)] = Ok (Some (mkActiveActiveConfigMessage ["dc-1"] "dc-1")) /\
  ActiveActive_NotifyWatchers [wire_change (mkChange ClusterTable None (Some cluster))] = Ok (Some (mkActiveActiveConfigMessage [] "")) /\
  ActiveActive_NotifyWatchers [mkChange ClusterTable None (Some cluster); mkChange ClusterTable (Some (external_cluster "dc-2")) None] = Ok None.
Proof. by vm_compute. Qed.

(** * What a watcher is told *)

#[local] Arguments set_field {R T} f {_} _ _ /.

(** The changes a watcher was sent, is being sent and has in its channel, and
    the one that is on its way to it. *)
Definition sent_changes (l : list Sent) : list nat := omap (fun m => match m with SentChange k => Some k | SentState _ => None end) l.
Definition writing (w : watcher) : list nat := match phase w with Writing k => [k] | _ => [] end.
Definition visits (i : nat) (s : WatcherSet) : list nat :=
  match locker s with Notifying k rest => if decide (i ∈ rest) then [k] else [] | _ => [] end.
Definition tickets (i : nat) (w : watcher) (s : WatcherSet) : list nat :=
  (sent_changes (received w) ++ writing w ++ source w ++ visits i s)%list.
Definition covered (n : nat) (i : nat) (w : watcher) (s : WatcherSet) : Prop :=
  n <= commits s /\ forall k, n <= k < commits s -> k ∈ unannounced s \/ k ∈ tickets i w s.
Definition in_phase (i : nat) (w : watcher) (s : WatcherSet) : Prop :=
  match phase w with
  | Opened | Registered => received w = []
  | Greeting n => received w = [] /\ covered n i w s
  | Working | Writing _ | Quitting => exists n l, received w = SentState n :: (SentChange <$> l) /\ covered n i w s
  | Leaving | Closed => True
  end.
Definition is_member (w : watcher) : bool := match phase w with Opened | Closed => false | _ => true end.
Record watcher_inv (i : nat) (w : watcher) (s : WatcherSet) : Prop := {
  inv_once : NoDup (tickets i w s);
  inv_known : forall k, k ∈ tickets i w s -> k < commits s /\ k ∉ unannounced s;
  inv_member : is_member w = true -> i ∈ watchersMap s;
  inv_phase : in_phase i w s
}.
Record set_inv (s : WatcherSet) : Prop := {
  inv_unannounced : forall k, k ∈ unannounced s -> k < commits s;
  inv_locker : match locker s with Notifying k rest => NoDup rest /\ k < commits s /\ k ∉ unannounced s | _ => True end;
  inv_watchers : forall i w, watchers s !! i = Some w -> watcher_inv i w s
}.

Lemma sent_changes_app l l' : sent_changes (l ++ l') = (sent_changes l ++ sent_changes l')%list.
Proof. apply omap_app. Qed.
Lemma sent_changes_fmap n l : sent_changes (SentState n :: (SentChange <$> l)) = l.
Proof. unfold sent_changes. csimpl. induction l as [|c l IH]; [done|]. csimpl. by rewrite IH. Qed.
(** The same tickets, the same place in the set: what held still holds. *)
Lemma in_phase_ext i w s s' : commits s' = commits s -> unannounced s' = unannounced s -> visits i s' = visits i s ->
  in_phase i w s -> in_phase i w s'.
Proof. intros E1 E2 E3. unfold in_phase, covered, tickets. by rewrite E1, E2, E3. Qed.
Lemma watcher_inv_ext i w s s' : commits s' = commits s -> unannounced s' = unannounced s -> visits i s' = visits i s ->
  (i ∈ watchersMap s -> i ∈ watchersMap s') -> watcher_inv i w s -> watcher_inv i w s'.
Proof.
  intros E1 E2 E3 Hm []. constructor; [..|by eapply in_phase_ext].
  - by unfold tickets; rewrite E3.
  - unfold tickets. by rewrite E3, E1, E2.
  - auto.
Qed.
(** A step of one watcher: the others see the lock and the set as before. *)
Lemma set_inv_watcher i w w' s s' : set_inv s -> watchers s !! i = Some w ->
  watchers s' = <[i := w']> (watchers s) -> commits s' = commits s -> unannounced s' = unannounced s -> locker s' = locker s ->
  (forall j, j <> i -> j ∈ watchersMap s -> j ∈ watchersMap s') -> (watcher_inv i w s -> watcher_inv i w' s') -> set_inv s'.
Proof.
  intros [] Hi E1 E2 E3 E4 Hm Hw. constructor.
  - rewrite E3, E2. done.
  - by rewrite E4, E3, E2.
  - intros j v. rewrite E1. intros [[<- <-]|[Hj Ev]]%lookup_insert_Some; [by apply Hw, inv_watchers0|].
    eapply watcher_inv_ext; [done|done|by unfold visits; rewrite E4|by apply Hm|by apply inv_watchers0].
Qed.
(** Losing what is written, or leaving, keeps the rest. *)
Lemma inv_left i w w' s s' : commits s' = commits s -> unannounced s' = unannounced s -> locker s' = locker s -> source w' = source w ->
  received w' = received w -> (phase w' = Closed \/ phase w' = Leaving /\ i ∈ watchersMap s') -> watcher_inv i w s -> watcher_inv i w' s'.
Proof.
  intros E1 E2 E3 E4 E5 Hp []. assert (tickets i w' s' `sublist_of` tickets i w s) as Ht.
  { unfold tickets, visits. rewrite E3, E4, E5. apply sublist_app; [done|]. apply sublist_app; [|done]. unfold writing at 1.
    destruct Hp as [-> |[-> _]]; apply sublist_nil_l. }
  constructor.
  - by eapply sublist_NoDup.
  - intros k Hk. rewrite E1, E2. apply inv_known0. eapply sublist_subseteq; [exact Ht|exact Hk].
  - unfold is_member. by destruct Hp as [-> |[-> ?]].
  - unfold in_phase. by destruct Hp as [-> |[-> ?]].
Qed.

(** The tickets stay the same list: a change moves on. *)
Lemma inv_moved i w w' s s' : commits s' = commits s -> unannounced s' = unannounced s -> tickets i w' s' = tickets i w s ->
  (is_member w' = true -> i ∈ watchersMap s') -> in_phase i w' s' -> watcher_inv i w s -> watcher_inv i w' s'.
Proof. intros E1 E2 E3 Hm Hp []. constructor; [by rewrite E3| |done..]. rewrite E1, E2, E3. done. Qed.
Lemma covered_moved n i w w' s s' : commits s' = commits s -> unannounced s' = unannounced s -> tickets i w' s' = tickets i w s ->
  covered n i w s -> covered n i w' s'.
Proof. unfold covered. by intros -> -> ->. Qed.

Lemma in_phase_mono i w w' s s' : phase w' = phase w -> received w' = received w ->
  (is_member w = true -> forall n, covered n i w s -> covered n i w' s') -> in_phase i w s -> in_phase i w' s'.
Proof.
  unfold in_phase, is_member. intros -> -> Hc. destruct (phase w); try done; [intros [? ?]; split; auto|intros (n & l & ? & ?); exists n, l; split; auto..].
Qed.
Definition held (w : watcher) : list nat := (sent_changes (received w) ++ writing w ++ source w)%list.
Lemma tickets_held i w s : tickets i w s = (held w ++ visits i s)%list.
Proof. unfold tickets, held. by rewrite <- !app_assoc. Qed.

Lemma commit_inv s : set_inv s -> set_inv (commit s).
Proof.
  intros []. constructor; cbn.
  - intros k [->%elem_of_singleton|?%inv_unannounced0]%elem_of_union; lia.
  - destruct (locker s); [done| |done]. destruct inv_locker0 as (? & ? & ?). split_and!; [done|lia|]. intros [->%elem_of_singleton|?]%elem_of_union; [lia|done].
  - intros i w [H1 H2 H3 H4]%inv_watchers0. constructor; [done| |done|].
    + intros k Hk. cbn. destruct (H2 k Hk). split; [lia|]. intros [->%elem_of_singleton|?]%elem_of_union; [lia|done].
    + apply (in_phase_mono i w w s); try done. intros _ n [Hn Hc]. split; cbn; [lia|]. intros k Hk.
      destruct (decide (k = commits s)) as [->|?]; [left; set_solver|]. destruct (Hc k ltac:(lia)) as [?|?]; [left; set_solver|by right].
Qed.
Lemma open_inv i s s' : set_inv s -> open i s = Some s' -> set_inv s'.
Proof.
  intros [] E. unfold open in E. destruct (watchers s !! i) eqn:Ei; [done|]. injection E as <-. constructor; [done|done|].
  intros j v. cbn. intros [[<- <-]|[_ Hv]]%lookup_insert_Some; [|by eapply watcher_inv_ext; [..|by apply inv_watchers0]].
  assert (tickets i newWatcher s = visits i s) as Ht by done. constructor.
  - change (NoDup (visits i s)). unfold visits. destruct (locker s); [constructor| |constructor]. case_decide; [apply NoDup_singleton|constructor].
  - change (forall k, k ∈ visits i s -> k < commits s /\ k ∉ unannounced s). unfold visits. intros k. destruct (locker s); [by intros ?%elem_of_nil| |by intros ?%elem_of_nil].
    destruct inv_locker0 as (_ & ? & ?). case_decide; [by intros ->%list_elem_of_singleton|by intros ?%elem_of_nil].
  - done.
  - done.
Qed.
Lemma push_inv i s s' : set_inv s -> push_watcher i s = Some s' -> set_inv s'.
Proof.
  intros I E. unfold push_watcher in E. destruct (watchers s !! i) as [w|] eqn:Ei; [|done]. destruct (phase w) eqn:Ep; try done.
  destruct (unlocked s); [|done]. injection E as <-. eapply set_inv_watcher; [exact I|exact Ei|done..| |].
  - intros j _ Hj. cbn. set_solver.
  - intros W. pose proof W as []. apply (inv_moved i w _ s); try done.
    + unfold tickets, writing. cbn. by rewrite Ep.
    + intros _. cbn. set_solver.
    + unfold in_phase in *. cbn. by rewrite Ep in *.
Qed.
Lemma read_inv i ok s s' : set_inv s -> read_state i ok s = Some s' -> set_inv s'.
Proof.
  intros I E. unfold read_state in E. destruct (watchers s !! i) as [w|] eqn:Ei; [|done]. destruct (phase w) eqn:Ep; try done.
  injection E as <-. eapply set_inv_watcher; [exact I|exact Ei|done..|]. intros W. pose proof W as [].
  assert (i ∈ watchersMap s) as Hm by (apply inv_member0; unfold is_member; by rewrite Ep). destruct ok.
  - apply (inv_moved i w _ s); try done.
    + unfold tickets, writing. cbn. by rewrite Ep.
    + unfold in_phase in *. rewrite Ep in inv_phase0. split; [done|]. split; [done|]. cbn. lia.
  - by eapply inv_left; [..|exact W]; try done; right.
Qed.
Lemma write_inv i ok s s' : set_inv s -> write i ok s = Some s' -> set_inv s'.
Proof.
  intros I E. unfold write in E. destruct (watchers s !! i) as [w|] eqn:Ei; [|done].
  assert (forall w', (watcher_inv i w s -> watcher_inv i w' s) -> set_inv (set_watcher i w' s)) as Hset.
  { intros w' Hw. eapply set_inv_watcher; [exact I|exact Ei|done..|]. intros W%Hw. by eapply watcher_inv_ext; [..|exact W]. }
  assert (is_member w = true -> i ∈ watchersMap s) as Hm by (apply inv_watchers; [exact I|exact Ei]). unfold is_member in Hm.
  destruct (phase w) eqn:Ep; try done; injection E as <-; apply Hset; intros W; pose proof W as []; destruct ok;
    try (by eapply inv_left; [..|exact W]; try done; right; auto);
    unfold in_phase in inv_phase0; rewrite Ep in inv_phase0.
  - destruct inv_phase0 as [Hr Hc]. assert (forall w', w' = w <| phase := Working |> <| received := [SentState n] |> -> tickets i w' s = tickets i w s) as Ht
      by (intros ? ->; unfold tickets, writing; cbn; by rewrite Ep, Hr).
    apply (inv_moved i w _ s); try done; [by apply Ht|].
    exists n, []. split; [done|]. by eapply covered_moved; [..|exact Hc]; try done; apply Ht.
  - destruct inv_phase0 as (n & l & Hr & Hc).
    assert (forall w', w' = w <| phase := Working |> <| received := (received w ++ [SentChange k])%list |> -> tickets i w' s = tickets i w s) as Ht.
    { intros ? ->. unfold tickets, writing. cbn. rewrite Ep, sent_changes_app, <- app_assoc. done. }
    apply (inv_moved i w _ s); try done; [by apply Ht|].
    exists n, (l ++ [k])%list. split; [cbn; by rewrite Hr, fmap_app|]. by eapply covered_moved; [..|exact Hc]; try done; apply Ht.
Qed.
Lemma take_inv i s s' : set_inv s -> take_change i s = Some s' -> set_inv s'.
Proof.
  intros I E. unfold take_change in E. destruct (watchers s !! i) as [w|] eqn:Ei; [|done].
  destruct (phase w) eqn:Ep, (source w) as [|c rest] eqn:Es; try done. injection E as <-.
  eapply set_inv_watcher; [exact I|exact Ei|done..|]. intros W. pose proof W as [].
  assert (forall w', w' = w <| source := rest |> <| phase := Writing c |> -> tickets i w' s = tickets i w s) as Ht
    by (intros ? ->; unfold tickets, writing; cbn; by rewrite Ep, Es).
  apply (inv_moved i w _ s); try done; [by apply Ht|intros _; apply inv_member0; unfold is_member; by rewrite Ep|].
  unfold in_phase in *. rewrite Ep in inv_phase0. destruct inv_phase0 as (n & l & Hr & Hc). exists n, l. split; [done|].
  by eapply covered_moved; [..|exact Hc]; try done; apply Ht.
Qed.
Lemma stop_inv i s s' : set_inv s -> stop i s = Some s' -> set_inv s'.
Proof.
  intros I E. unfold stop in E. destruct (watchers s !! i) as [w|] eqn:Ei; [|done]. destruct (phase w) eqn:Ep; try done. injection E as <-.
  eapply set_inv_watcher; [exact I|exact Ei|done..|]. intros W. eapply inv_left; [..|exact W]; try done. right. split; [done|].
  apply W. unfold is_member. by rewrite Ep.
Qed.
Lemma remove_inv i s s' : set_inv s -> remove_watcher i s = Some s' -> set_inv s'.
Proof.
  intros I E. unfold remove_watcher in E. destruct (watchers s !! i) as [w|] eqn:Ei; [|done]. destruct (phase w) eqn:Ep; try done.
  destruct (unlocked s); [|done]. injection E as <-. eapply set_inv_watcher; [exact I|exact Ei|done..| |].
  - intros j Hj Hm. cbn. set_solver.
  - intros W. by eapply inv_left; [..|exact W]; try done; left.
Qed.
(** Only the reader, or the phase, changes. *)
Lemma quit_inv i w r s : set_inv s -> watchers s !! i = Some w -> phase w = Working ->
  set_inv (set_watcher i (w <| reader := r |> <| phase := Quitting |>) s).
Proof.
  intros I Ei Ep. eapply set_inv_watcher; [exact I|exact Ei|done..|]. intros W. pose proof W as [].
  assert (forall w', w' = w <| reader := r |> <| phase := Quitting |> -> tickets i w' s = tickets i w s) as Ht
    by (intros ? ->; unfold tickets, writing; cbn; by rewrite Ep).
  apply (inv_moved i w _ s); try done; [by apply Ht|intros _; apply inv_member0; unfold is_member; by rewrite Ep|].
  unfold in_phase in *. rewrite Ep in inv_phase0. destruct inv_phase0 as (n & l & Hr & Hc). exists n, l. split; [done|].
  by eapply covered_moved; [..|exact Hc]; try done; apply Ht.
Qed.
Lemma connection_ends_inv i s s' : set_inv s -> connection_ends i s = Some s' -> set_inv s'.
Proof.
  intros I E. unfold connection_ends in E. destruct (watchers s !! i) as [w|] eqn:Ei; [|done]. destruct (reader w); try done. injection E as <-.
  eapply set_inv_watcher; [exact I|exact Ei|done..|]. by intros [].
Qed.
Lemma reader_quits_inv i s s' : set_inv s -> reader_quits i s = Some s' -> set_inv s'.
Proof.
  intros I E. unfold reader_quits in E. destruct (watchers s !! i) as [w|] eqn:Ei; [|done].
  destruct (reader w); try done. destruct (phase w) eqn:Ep; try done. injection E as <-. by apply quit_inv.
Qed.
Lemma visits_unlocked i s : unlocked s = true -> visits i s = [].
Proof. unfold unlocked, visits. by destruct (locker s). Qed.
Lemma is_range_spec order s : is_range order s = true -> NoDup order /\ forall i, i ∈ order <-> i ∈ watchersMap s.
Proof.
  unfold is_range. intros [H1%bool_decide_eq_true H2%bool_decide_eq_true]%andb_prop. split; [done|]. intros i. by rewrite <- H2, elem_of_list_to_set.
Qed.
(** The change leaves those that are not announced for every watcher of the set. *)
Lemma notify_inv k order s s' : set_inv s -> notify k order s = Some s' -> set_inv s'.
Proof.
  intros [] E. unfold notify in E. destruct (unlocked s) eqn:Eu; [|done]. case_bool_decide as Hk; [|done].
  destruct (is_range order s) eqn:Eo; [|done]. cbn in E. injection E as <-. apply is_range_spec in Eo as [Hnd Ho].
  set (s1 := mkWatcherSet _ _ _ _ _). assert (forall i, visits i s1 = if decide (i ∈ order) then [k] else []) as Ev1 by done.
  constructor; [cbn; set_solver|cbn; split_and!; [done|auto|set_solver]|]. intros i w Hi. pose proof (inv_watchers0 i w Hi) as [].
  assert (tickets i w s = held w) as Ev by (by rewrite tickets_held, visits_unlocked, app_nil_r). rewrite Ev in *.
  assert (k ∉ held w) as Hn by (intros H%inv_known0; tauto). constructor; [| |done|].
  - rewrite tickets_held, Ev1. apply NoDup_app. split_and!; [done| |case_decide; [apply NoDup_singleton|constructor]].
    intros c Hc. case_decide; [|by intros ?%elem_of_nil]. by intros ->%list_elem_of_singleton.
  - rewrite tickets_held, Ev1. intros c [Hc|Hc]%elem_of_app.
    + destruct (inv_known0 c Hc). split; [done|]. cbn. set_solver.
    + case_decide; [|by apply elem_of_nil in Hc]. apply list_elem_of_singleton in Hc as ->. split; [by apply inv_unannounced0|]. cbn. set_solver.
  - apply (in_phase_mono i w w s); try done. intros Hm n [Hn1 Hn2]. split; [done|]. intros c Hc. rewrite Ev in Hn2.
    rewrite tickets_held, Ev1, decide_True by (by apply Ho; auto). rewrite elem_of_app, list_elem_of_singleton. cbn.
    destruct (decide (c = k)) as [->|Hck]; [tauto|]. destruct (Hn2 c Hc) as [?|?]; [left; set_solver|tauto].
Qed.
(** The change moves from the lock to the channel. *)
Lemma deliver_inv s s' : set_inv s -> deliver s = Some s' -> set_inv s'.
Proof.
  intros [] E. unfold deliver in E. destruct (locker s) as [|k [|i rest]|] eqn:El; try done.
  destruct (watchers s !! i) as [w|] eqn:Ei; [|done]. destruct (_ <? _)%nat; [|done]. injection E as <-.
  destruct inv_locker0 as (Hnd & Hk & Hu). apply NoDup_cons in Hnd as [Hi Hnd]. constructor; [done|done|].
  intros j v. cbn. intros [[<- <-]|[Hj Hv]]%lookup_insert_Some.
  - pose proof (inv_watchers0 i w Ei) as W. pose proof W as [].
    assert (forall s', locker s' = Notifying k rest -> tickets i (w <| source := (source w ++ [k])%list |>) s' = tickets i w s) as Ht.
    { intros s' E. unfold tickets, visits, writing. rewrite E, El. cbn. rewrite decide_False by done.
      rewrite decide_True by left. by rewrite app_nil_r. }
    apply (inv_moved i w _ s); try done; [by apply Ht|].
    apply (in_phase_mono i w _ s); try done. intros _ n. apply covered_moved; try done. by apply Ht.
  - eapply watcher_inv_ext; [..|by apply inv_watchers0]; try done. unfold visits. cbn. rewrite El.
    rewrite (decide_ext (j ∈ i :: rest) (j ∈ rest)); [done|]. rewrite elem_of_cons. split; [|by right]. by intros [?|?].
Qed.
(** Where no change is on its way, the lock may pass on. *)
Lemma relocked_inv l s : set_inv s -> (forall i, visits i s = []) -> match l with Notifying _ _ => False | _ => True end ->
  set_inv (s <| locker := l |>).
Proof.
  intros [] Hv Hl. constructor; [done|cbn; by destruct l|]. intros i w Hi. eapply watcher_inv_ext; [..|by apply inv_watchers0]; try done.
  rewrite Hv. unfold visits. cbn. by destruct l.
Qed.
Lemma reset_inv order s s' : set_inv s -> reset order s = Some s' -> set_inv s'.
Proof.
  intros I E. unfold reset in E. destruct (unlocked s) eqn:Eu; [|done]. destruct (is_range order s); [|done]. injection E as <-.
  apply relocked_inv; [done|intros i; by apply visits_unlocked|done].
Qed.
Lemma visits_resetting i s rest seen : locker s = Resetting rest seen -> visits i s = [].
Proof. unfold visits. by intros ->. Qed.
Lemma look_stopped_inv s s' : set_inv s -> look_stopped s = Some s' -> set_inv s'.
Proof.
  intros I E. unfold look_stopped in E. destruct (locker s) as [| |[|i rest] []] eqn:El; try done.
  destruct (watchers s !! i) as [w|]; [|done]. injection E as <-.
  apply relocked_inv; [done|intros j; by eapply visits_resetting|by destruct (stopped w)].
Qed.
Lemma reset_quits_inv s s' : set_inv s -> reset_quits s = Some s' -> set_inv s'.
Proof.
  intros I E. unfold reset_quits in E. destruct (locker s) as [| |[|i rest] []] eqn:El; try done.
  destruct (watchers s !! i) as [w|] eqn:Ei; [|done]. destruct (phase w) eqn:Ep; try done. injection E as <-.
  assert (set_inv (s <| locker := Resetting rest false |>)) as I' by (apply relocked_inv; [done|intros j; by eapply visits_resetting|done]).
  exact (quit_inv i w (reader w) _ I' Ei Ep).
Qed.
Lemma unlock_inv s s' : set_inv s -> unlock s = Some s' -> set_inv s'.
Proof.
  intros I E. unfold unlock in E. destruct (locker s) as [|k []|[]] eqn:El; try done; injection E as <-; apply relocked_inv; try done;
    intros i; unfold visits; rewrite El; [|done]. by rewrite decide_False by apply not_elem_of_nil.
Qed.
Lemma set_step_inv l s s' : set_inv s -> step l s = Some s' -> set_inv s'.
Proof.
  intros I E. destruct l; cbn in E.
  - injection E as <-. by apply commit_inv.
  - by eapply open_inv.
  - by eapply push_inv.
  - by eapply read_inv.
  - by eapply write_inv.
  - by eapply take_inv.
  - by eapply stop_inv.
  - by eapply remove_inv.
  - by eapply connection_ends_inv.
  - by eapply reader_quits_inv.
  - by eapply notify_inv.
  - by eapply deliver_inv.
  - by eapply reset_inv.
  - by eapply look_stopped_inv.
  - by eapply reset_quits_inv.
  - by eapply unlock_inv.
Qed.
Lemma set_run_inv ls s s' : set_inv s -> run ls s = Some s' -> set_inv s'.
Proof.
  revert s. induction ls as [|l ls IH]; intros s I E; cbn in E; [by injection E as <-|].
  destruct (step l s) as [s1|] eqn:E1; [|done]. eapply IH; [by eapply set_step_inv|done].
Qed.
Lemma NewWatcherSet_inv : set_inv NewWatcherSet.
Proof. constructor; [by intros k ?%elem_of_empty|done|by intros i w; cbn; rewrite lookup_empty]. Qed.

(** C17: Whatever the order of the steps and whichever connections end: a watcher that
    is served was sent the state of some commit first, then changes, each at most
    once; and every change since that state was sent, is being sent, waits in its
    channel, is on its way to it or is still to be announced.  Registering comes
    before reading the state, so nothing falls between them. *)
Theorem watcher_misses_nothing ls s i w :
  run ls NewWatcherSet = Some s -> watchers s !! i = Some w -> phase w ∈ [Working; Quitting] ->
  exists n l, received w = SentState n :: (SentChange <$> l) /\ n <= commits s /\ NoDup (l ++ source w) /\
    forall k, n <= k < commits s -> k ∈ unannounced s \/ k ∈ l \/ k ∈ source w \/ k ∈ visits i s.
Proof.
  intros E Hi Hp. destruct (set_run_inv ls _ s NewWatcherSet_inv E) as [_ _ Hw]. destruct (Hw i w Hi) as [H1 H2 _ H4].
  assert (phase w = Working \/ phase w = Quitting) as Hp' by set_solver.
  assert (writing w = []) as Hwr by (unfold writing; by destruct Hp' as [-> | ->]).
  assert (exists n l, received w = SentState n :: (SentChange <$> l) /\ covered n i w s) as (n & l & Hr & Hn & Hc).
  { unfold in_phase in H4. by destruct Hp' as [E1|E1]; rewrite E1 in H4. }
  assert (sent_changes (received w) = l) as Hs by (by rewrite Hr, sent_changes_fmap).
  unfold tickets in *. rewrite Hs, Hwr in *. cbn in *. exists n, l. split_and!; [done|done| |].
  - rewrite app_assoc in H1. by apply NoDup_app in H1 as (? & _ & _).
  - intros k Hk. destruct (Hc k Hk) as [?|H]; [by left|]. rewrite !elem_of_app in H. tauto.
Qed.

(** * The lock that is kept *)

(** A handler waits for the lock to leave the set, and who has the lock waits
    for that handler: for room in its channel, or for it to receive quit. *)
Definition blocked (i : nat) (s : WatcherSet) : Prop :=
  exists w, watchers s !! i = Some w /\ phase w = Leaving /\
  match locker s with
  | Notifying _ (j :: _) => j = i /\ sourceBuffer <= length (source w)
  | Resetting (j :: _) true => j = i
  | _ => False
  end.
Definition stays (s s' : WatcherSet) : Prop :=
  locker s' = locker s /\ watchersMap s' = watchersMap s /\ unannounced s ⊆ unannounced s'.
#[export] Instance stays_preorder : PreOrder stays.
Proof. split; [by intros s|]. intros s1 s2 s3 (E1 & E2 & ?) (E3 & E4 & ?). split_and!; [congruence..|]. by transitivity (unannounced s2). Qed.

(** A step of another watcher, or of the reader of this one. *)
Lemma blocked_set i j w w' s : blocked i s -> watchers s !! j = Some w -> (phase w = Leaving -> phase w' = Leaving /\ source w' = source w) ->
  blocked i (set_watcher j w' s) /\ stays s (set_watcher j w' s).
Proof.
  intros (v & Hi & Hp & Hl) Hj Hw. split; [|done]. destruct (decide (j = i)) as [->|Hji].
  - rewrite Hj in Hi. injection Hi as ->. destruct (Hw Hp) as [Hp' Hs']. exists w'. cbn. rewrite lookup_insert_eq. split_and!; [done..|].
    by rewrite Hs'.
  - exists v. cbn. by rewrite lookup_insert_ne.
Qed.
Lemma blocked_locked i s : blocked i s -> unlocked s = false.
Proof. intros (w & _ & _ & Hl). unfold unlocked. by destruct (locker s). Qed.
Lemma blocked_holder i s : blocked i s -> deliver s = None /\ look_stopped s = None /\ reset_quits s = None /\ unlock s = None.
Proof.
  intros (w & Hi & Hp & Hl). unfold deliver, look_stopped, reset_quits, unlock.
  destruct (locker s) as [|k [|j rest]|[|j rest] []]; try done.
  - destruct Hl as [-> Hs]. rewrite Hi. by replace (length (source w) <? sourceBuffer)%nat with false by (symmetry; by apply Nat.ltb_ge).
  - subst j. by rewrite Hi, Hp.
Qed.
Lemma blocked_step i l s s' : blocked i s -> step l s = Some s' -> blocked i s' /\ stays s s'.
Proof.
  intros B E. pose proof (blocked_locked i s B) as Hu. destruct (blocked_holder i s B) as (E1 & E2 & E3 & E4).
  destruct l as [|j|j|j ok|j ok|j|j|j|j|j|k order| |order| | |]; cbn in E; try congruence.
  - injection E as <-. destruct B as (w & Hi & Hp & Hl). split; [by exists w|]. split_and!; [done..|]. cbn. set_solver.
  - unfold open in E. destruct (watchers s !! j) eqn:Ej; [done|]. injection E as <-. split; [|done].
    destruct B as (w & Hi & Hp & Hl). exists w. cbn. rewrite lookup_insert_ne by congruence. done.
  - unfold push_watcher in E. rewrite Hu in E. destruct (watchers s !! j) as [w|]; [|done]. by destruct (phase w).
  - unfold read_state in E. destruct (watchers s !! j) as [w|] eqn:Ej; [|done]. destruct (phase w) eqn:Ep; try done. injection E as <-.
    apply (blocked_set i j w); [done..|congruence].
  - unfold write in E. destruct (watchers s !! j) as [w|] eqn:Ej; [|done]. destruct (phase w) eqn:Ep; try done; injection E as <-;
      (apply (blocked_set i j w); [done..|congruence]).
  - unfold take_change in E. destruct (watchers s !! j) as [w|] eqn:Ej; [|done]. destruct (phase w) eqn:Ep, (source w); try done. injection E as <-.
    apply (blocked_set i j w); [done..|congruence].
  - unfold stop in E. destruct (watchers s !! j) as [w|] eqn:Ej; [|done]. destruct (phase w) eqn:Ep; try done. injection E as <-.
    apply (blocked_set i j w); [done..|congruence].
  - unfold remove_watcher in E. rewrite Hu in E. destruct (watchers s !! j) as [w|]; [|done]. by destruct (phase w).
  - unfold connection_ends in E. destruct (watchers s !! j) as [w|] eqn:Ej; [|done]. destruct (reader w); try done. injection E as <-.
    by apply (blocked_set i j w).
  - unfold reader_quits in E. destruct (watchers s !! j) as [w|] eqn:Ej; [|done]. destruct (reader w), (phase w) eqn:Ep; try done. injection E as <-.
    apply (blocked_set i j w); [done..|congruence].
  - unfold notify in E. by rewrite Hu in E.
  - unfold reset in E. by rewrite Hu in E.
Qed.
Lemma blocked_run i ls s s' : blocked i s -> run ls s = Some s' -> stays s s'.
Proof.
  revert s. induction ls as [|l ls IH]; intros s B E; cbn in E; [by injection E as <-|].
  destruct (step l s) as [s1|] eqn:E1; [|done]. destruct (blocked_step i l s s1 B E1) as [B1 S1]. etransitivity; [exact S1|by apply IH].
Qed.

(** A client connects and is sent a change, whose write does not return. *)
Definition slow_client : list Label := [Open 0; Push 0; Read 0 true; Write 0 true; Commit; Notify 0 [0]; Deliver; Unlock; Take 0].
Definition announced (k : nat) : list Label := [Commit; Notify k [0]; Deliver; Unlock].
Definition blocked_notification : list Label := slow_client ++ concat (announced <$> seq 1 10) ++ [Commit; Notify 11 [0]; Write 0 false].
Definition blocked_reset : list Label := slow_client ++ [Reset [0]; LookStopped; Write 0 false].

(** C18: One client that reads too slowly, and whose connection then breaks while a
    change waits for its channel, keeps the lock of the set for ever; so does one
    whose connection breaks after [ResetConnections] has seen that it is not
    stopped.  From then on nobody registers or leaves, and no change is announced
    to anyone; a reset that hangs holds up the change of the role. *)
Theorem watchers_deadlock :
  (exists s, run blocked_notification NewWatcherSet = Some s /\ blocked 0 s) /\
  (exists s, run blocked_reset NewWatcherSet = Some s /\ blocked 0 s) /\
  (forall i s, blocked i s -> forall ls s', run ls s = Some s' ->
     locker s' = locker s /\ watchersMap s' = watchersMap s /\ unannounced s ⊆ unannounced s').
Proof.
  split_and!.
  - eexists. split; [vm_compute; reflexivity|]. eexists. split; [vm_compute; reflexivity|]. split; [reflexivity|]. split; [reflexivity|vm_compute; lia].
  - eexists. split; [vm_compute; reflexivity|]. eexists. split; [vm_compute; reflexivity|]. split; reflexivity.
  - intros i s B ls s' E. by apply (blocked_run i ls).
Qed.

(** A change may be sent after a later one, and after a state that has it. *)
Example changes_out_of_order :
  exists s w, run [Commit; Commit; Open 0; Push 0; Read 0 true; Write 0 true; Notify 1 [0]; Deliver; Unlock; Notify 0 [0]; Deliver; Unlock;
                   Take 0; Write 0 true; Take 0; Write 0 true] NewWatcherSet = Some s /\
    watchers s !! 0 = Some w /\ received w = [SentState 2; SentChange 1; SentChange 0].
Proof. do 2 eexists. by vm_compute. Qed.
(** After a write failed the reader waits for ever to tell the handler. *)
Example reader_leaks :
  exists s w, run (slow_client ++ [Write 0 false; ConnectionEnds 0; Remove 0]) NewWatcherSet = Some s /\
    watchers s !! 0 = Some w /\ phase w = Closed /\ reader w = TellingQuit.
Proof. do 2 eexists. by vm_compute. Qed.

(** A client that got the first change while the second waits in its channel and
    the third is on its way. *)
Definition wit_run : list Label :=
  slow_client ++ [Write 0 true; Commit; Notify 1 [0]; Deliver; Unlock; Commit; Notify 2 [0]; Commit].
Definition wit_set : WatcherSet := default NewWatcherSet (run wit_run NewWatcherSet).
Definition wit_watcher : watcher := mkWatcher [1] false Working Reading [SentState 0; SentChange 0].
Lemma watcher_misses_nothing_witness : exists n l, received wit_watcher = SentState n :: (SentChange <$> l) /\ n <= commits wit_set /\
  NoDup (l ++ source wit_watcher) /\
  forall k, n <= k < commits wit_set -> k ∈ unannounced wit_set \/ k ∈ l \/ k ∈ source wit_watcher \/ k ∈ visits 0 wit_set.
Proof.
  apply (watcher_misses_nothing wit_run wit_set 0 wit_watcher); [vm_compute; reflexivity|vm_compute; reflexivity|left].
Defined.
