(* ===== verification/Tenants.v ===== *)
(** [services/tm], [services/cache]: the namespaces of the tenants, which the
    master learns from the tenant manager and puts into the listeners.

    A message is given as [json.Unmarshal] leaves it.  The second half is the
    watcher's goroutines as a transition system: changes of the role, the loop
    that connects and reads, and [StopWatching], which hands over a token.  The
    socket is a library: it connects or does not, and closes at any time. *)
From S2P Require Import Clustering.
From S2P Require Import Prelude GoLib Domain RouteKey Tables MemDb Msaddr Events RegCommon Runtime RuntimeModel Dao Entity Util Tls.
From S2P Require Import EnvoyApi EnvoyProps EnvoyRoutes EnvoyListeners EnvoyBuilder EnvoyActions EnvoyEvents EnvoyProcessor EnvoyManager EnvoyModel SnapshotSpec.
Import Prelude.
Open Scope string_scope.

(** * The cache ([services/cache/cache.go]) *)

(** An [interface{}]: a string, or something else. *)
Inductive CacheValue := CacheString (s : string) | CacheOther.
Abbreviation CacheClient := (gmap string CacheValue).
Definition NewCacheClient : CacheClient := ∅.
Definition CacheClient_Set (key : string) (value : CacheValue) (client : CacheClient) : CacheClient := <[key := value]> client.
Definition CacheClient_Delete (key : string) (client : CacheClient) : CacheClient := delete key client.
Definition CacheClient_Get (key : string) (client : CacheClient) : option CacheValue := client !! key.
Definition CacheClient_GetAll (client : CacheClient) : gmap string CacheValue := client.

(** * Tenants ([services/tm/entity]) *)

Definition TenantActive := "ACTIVE".
Record Tenant := mkTenant { Tenant_ObjectId : string; Tenant_ExternalId : string; Tenant_Namespace : string; Tenant_Status : string }.
(** [WatchApiTenant]: pointers, which may be nil. *)
Definition WatchApiTenant : Type := list (option Tenant).

Definition tenantsNamespacesUpdate (tenant : Tenant) (client : CacheClient) : bool * CacheClient :=
  if String.eqb (Tenant_ExternalId tenant) "" then (false, client)
  else if String.eqb (Tenant_Status tenant) "" then (false, client)
  else if String.eqb (Tenant_Status tenant) TenantActive
  then if negb (String.eqb (Tenant_Namespace tenant) "")
       then (true, CacheClient_Set (Tenant_ExternalId tenant) (CacheString (Tenant_Namespace tenant)) client)
       else (false, client)
  else match CacheClient_Get (Tenant_ExternalId tenant) client with
       | Some _ => (true, CacheClient_Delete (Tenant_ExternalId tenant) client)
       | None => (false, client)
       end.

(** * The mapping of namespaces ([updater.go]) *)

(** [value.(string)] of each *)
Definition as_string (value : CacheValue) : result string :=
  match value with CacheString s => Ok s | CacheOther => Panic "interface conversion" end.
Definition convertTenantsToUpdate (tenantsToUpdate : gmap string CacheValue) : result (gmap string string) :=
  result_bind (map_result (fun e : string * CacheValue => result_bind (as_string e.2) (fun s => Ok (e.1, s))) (map_to_list tenantsToUpdate))
    (fun entries => Ok (list_to_map entries)).
(** The keys in ascending order, with their values. *)
Definition sorted_entries (m : gmap string string) : list (string * string) :=
  SliceStable (fun a b => String.ltb a.1 b.1) (map_to_list m).
Definition mapping_entry (e : string * string) : string := "[" ++ dq ++ e.1 ++ dq ++ "]" ++ " = " ++ dq ++ e.2 ++ dq.
(** What the loop appends, then without the last two bytes. *)
Definition convertToNamespaceMappings (tenantsToUpdate : gmap string string) : string :=
  let namespaceMapping :=
    fold_left (fun acc e => acc ++ mapping_entry e ++ ", ") (sorted_entries tenantsToUpdate) "tenantsNS = {" in
  str_take (String.length namespaceMapping - 2) namespaceMapping ++ "}".

Section tenants.
Context `{R : Runtime} `{H : Sha256} `{E : EntityService} `{K : Certificates} `{Pb : Protobuf}
  `{B : !EnvoyConfigBuilder (R := R)} `{SC : SnapshotCache} `{T : TlsMode}.

Definition UpdateListeners (listeners : list Listener) (namespaceMapping : string) : prog EnvoyWorld unit :=
  for_each listeners (fun listener =>
    version <- on_dao Now ;; UpdateListener (Listener_NodeGroupId listener) version listener namespaceMapping).
(** Without tenants an error of the update is not looked at. *)
Definition updateAllListenersWithTenants (tenantsToUpdate : gmap string string) : prog EnvoyWorld unit :=
  listeners <- on_dao (FindAllListeners Local) ;;
  if bool_decide (tenantsToUpdate = ∅) then ignore_err (UpdateListeners listeners "")
  else UpdateListeners listeners (convertToNamespaceMappings tenantsToUpdate).
Definition UpdateAllListeners (rawTenantsToUpdate : gmap string CacheValue) : prog EnvoyWorld unit :=
  tenantsToUpdate <- lift (convertTenantsToUpdate rawTenantsToUpdate) ;;
  updateAllListenersWithTenants tenantsToUpdate.

(** * Messages ([watcherclient.go]) *)

Record TenantWorld := mkTenantWorld { tw_envoy : EnvoyWorld; tw_cache : CacheClient }.
Definition on_envoy {A} (m : prog EnvoyWorld A) : prog TenantWorld A := fun w =>
  let '(r, e) := m (tw_envoy w) in (r, mkTenantWorld e (tw_cache w)).
Definition on_cache {A} (f : CacheClient -> A * CacheClient) : prog TenantWorld A := fun w =>
  let '(a, c) := f (tw_cache w) in (Ok a, mkTenantWorld (tw_envoy w) c).

Definition processTenant (isUpdated : bool) (tenant : option Tenant) : prog TenantWorld bool :=
  match tenant with
  | None => panic "nil pointer dereference"
  | Some tenant => updated <- on_cache (tenantsNamespacesUpdate tenant) ;; ret (isUpdated || updated)
  end.
Definition processTenants (tenants : WatchApiTenant) : prog TenantWorld bool := fold_each tenants false processTenant.
Definition processFrame (frame : result WatchApiTenant) : prog TenantWorld unit :=
  tenants <- lift frame ;;
  isUpdated <- processTenants tenants ;;
  if isUpdated : bool
  then tenantsToUpdate <- gets (fun w => CacheClient_GetAll (tw_cache w)) ;; on_envoy (UpdateAllListeners tenantsToUpdate)
  else ret tt.
(** Frames until the socket closes or the watcher is stopped; empty ones are
    skipped, and errors logged. *)
Inductive FrameInput := FrameReceived (frame : option (result WatchApiTenant)) | SocketClosed | Cancelled.
Fixpoint handleFrames (inputs : list FrameInput) : prog TenantWorld unit :=
  match inputs with
  | FrameReceived (Some frame) :: rest => ignore_err (processFrame frame) ;;; handleFrames rest
  | FrameReceived None :: rest => handleFrames rest
  | SocketClosed :: _ | Cancelled :: _ | [] => ret tt
  end.
End tenants.

(** * The watcher ([watcher.go]) *)

(** The loop: before the test of [w.active], connecting, in its pause, reading
    frames, at its end.  The callback of a change of the role: none, in
    [cancel <- true], before [w.active = false]. *)
Inductive LoopPhase := LoopTest | LoopConnecting | LoopSleeping | LoopReceiving | LoopEnded.
Inductive RoleCallback := CallbackIdle | StoppingWatch | Deactivating.
#[export] Instance LoopPhase_eq_dec : EqDecision LoopPhase.
Proof. solve_decision. Defined.
Record Watcher := mkWatcher { w_active : bool; client_active : bool; w_loops : list LoopPhase; w_callback : RoleCallback }.
#[export] Instance Watcher_eta : Eta Watcher := fun w => mkWatcher (w_active w) (client_active w) (w_loops w) (w_callback w).
Definition NewWatcher : Watcher := mkWatcher false false [] CallbackIdle.

(** Each promotion starts a loop. *)
Definition UpAndStartWatchSocket (state : Role) (w : Watcher) : option Watcher :=
  match w_callback w with
  | CallbackIdle =>
      match state with
      | Master => Some (w <| w_active := true |> <| w_loops := (w_loops w ++ [LoopTest])%list |>)
      | Slave => Some (w <| w_callback := if client_active w then StoppingWatch else Deactivating |>)
      | _ => Some w
      end
  | _ => None
  end.
Definition loop_step (i : nat) (phase : LoopPhase) (next : LoopPhase) (w : Watcher) : option Watcher :=
  if bool_decide (w_loops w !! i = Some phase) then Some (w <| w_loops := <[i := next]> (w_loops w) |>) else None.
Inductive WatcherLabel :=
  | RoleChanged (state : Role) | TestActive (i : nat) | Connect (i : nat) (ok : bool) | Wake (i : nat) | SocketCloses (i : nat)
  | CancelReceived (i : nat) | Deactivate.
Definition watcher_step (l : WatcherLabel) (w : Watcher) : option Watcher :=
  match l with
  | RoleChanged state => UpAndStartWatchSocket state w
  | TestActive i => loop_step i LoopTest (if w_active w then LoopConnecting else LoopEnded) w
  | Connect i true => (fun w => w <| client_active := true |>) <$> loop_step i LoopConnecting LoopReceiving w
  | Connect i false => loop_step i LoopConnecting LoopSleeping w
  | Wake i => loop_step i LoopSleeping LoopTest w
  | SocketCloses i => loop_step i LoopReceiving LoopTest w
  | CancelReceived i =>
      match w_callback w with
      | StoppingWatch =>
          (fun w => w <| client_active := false |> <| w_callback := Deactivating |>) <$> loop_step i LoopReceiving LoopTest w
      | _ => None
      end
  | Deactivate =>
      match w_callback w with
      | Deactivating => Some (w <| w_active := false |> <| w_callback := CallbackIdle |>)
      | _ => None
      end
  end.
Fixpoint watcher_run (ls : list WatcherLabel) (w : Watcher) : option Watcher :=
  match ls with [] => Some w | l :: ls => match watcher_step l w with Some w => watcher_run ls w | None => None end end.

(** ** What may go wrong with it *)

Definition not_receiving (w : Watcher) : Prop := Forall (fun p => p <> LoopReceiving) (w_loops w).
Lemma loop_step_spec i p q w w' : loop_step i p q w = Some w' ->
  w_loops w !! i = Some p /\ w' = w <| w_loops := <[i := q]> (w_loops w) |>.
Proof. unfold loop_step. case_bool_decide; [|done]. by intros [= <-]. Qed.
Lemma stopping_step l w w' : w_callback w = StoppingWatch -> not_receiving w -> watcher_step l w = Some w' ->
  (forall i, l <> Connect i true) -> w_callback w' = StoppingWatch /\ not_receiving w' /\ w_active w' = w_active w.
Proof.
  intros Hc Hr E Hl.
  assert (forall i p q, q <> LoopReceiving -> loop_step i p q w = Some w' ->
    w_callback w' = StoppingWatch /\ not_receiving w' /\ w_active w' = w_active w) as Hs.
  { intros i p q Hq [_ ->]%loop_step_spec. split_and!; [done| |done]. by apply Forall_insert. }
  destruct l as [r|i|i []|i|i|i|]; cbn in E.
  - unfold UpAndStartWatchSocket in E. by rewrite Hc in E.
  - by destruct (w_active w); apply Hs in E.
  - by destruct (Hl i).
  - by apply Hs in E.
  - by apply Hs in E.
  - by apply Hs in E.
  - rewrite Hc in E. destruct (loop_step i LoopReceiving LoopTest w) eqn:El; [|done]. apply loop_step_spec in El as [El _].
    by eapply Forall_lookup_1 in Hr.
  - by rewrite Hc in E.
Qed.
(** The connection closed, and then the node was demoted: the callback waits to
    hand over its token, though nobody reads, until the tenant manager can be
    connected to again.  Until then the callbacks after it are not called. *)
Theorem demotion_waits :
  (exists w, watcher_run [RoleChanged Master; TestActive 0; Connect 0 true; SocketCloses 0; RoleChanged Slave] NewWatcher = Some w /\
     w_callback w = StoppingWatch /\ not_receiving w /\ w_active w = true) /\
  (forall ls w w', w_callback w = StoppingWatch -> not_receiving w -> watcher_run ls w = Some w' ->
     (forall i, Connect i true ∉ ls) -> w_callback w' = StoppingWatch /\ w_active w' = w_active w).
Proof.
  split.
  - eexists. split; [vm_compute; reflexivity|]. split_and!; [done| |done]. by repeat constructor.
  - induction ls as [|l ls IH]; intros w w' Hc Hr E Hl; cbn in E; [by injection E as <-|].
    destruct (watcher_step l w) as [w1|] eqn:E1; [|done].
    destruct (stopping_step l w w1 Hc Hr E1) as (Hc1 & Hr1 & <-); [intros i ->; by apply (Hl i); left|].
    apply (IH w1 w' Hc1 Hr1 E). intros i Hi. by apply (Hl i); right.
Qed.
(** A demoted node may go on watching: the loop tests [w.active] before the
    callback clears it. *)
Example demoted_watches :
  exists w, watcher_run [RoleChanged Master; TestActive 0; Connect 0 true; RoleChanged Slave; CancelReceived 0; TestActive 0; Deactivate;
                         Connect 0 true] NewWatcher = Some w /\
    w_callback w = CallbackIdle /\ w_active w = false /\ w_loops w = [LoopReceiving].
Proof. eexists. by vm_compute. Qed.
(** A node that is demoted and promoted during the pause of its loop watches
    twice, and its next demotion stops one of the two. *)
Example watches_twice :
  exists w, watcher_run [RoleChanged Master; TestActive 0; Connect 0 false; RoleChanged Slave; Deactivate; RoleChanged Master; Wake 0; TestActive 0;
                         TestActive 1; Connect 0 true; Connect 1 true; RoleChanged Slave; CancelReceived 0; Deactivate] NewWatcher = Some w /\
    w_active w = false /\ w_loops w = [LoopTest; LoopReceiving].
Proof. eexists. by vm_compute. Qed.

(** * Listeners with the namespaces of the tenants *)

Section published.
Context `{R : Runtime} `{H : Sha256} `{E : EntityService} `{K : Certificates} `{Pb : Protobuf}
  `{B : !EnvoyConfigBuilder (R := R)} `{SC : SnapshotCache} `{T : TlsMode}.

(** The snapshot of the gateway has the listener as the builder makes it with
    the mapping, at some time. *)
Definition published (namespaceMapping : string) (l : Listener) (w : EnvoyWorld) : Prop :=
  exists el w1 w2,
    on_builder (BuildListener l namespaceMapping (if listener_withTls l then false else Listener_WithTls l)) w1 = (Ok el, w2) /\
    items w (Listener_NodeGroupId l) ListenerType !! Listener_Name l = Some (ResListener el).
(** An update of [a] does not overwrite [b]. *)
Definition apart (a b : Listener) : Prop :=
  Listener_NodeGroupId a = Listener_NodeGroupId b -> Listener_Name b <> Listener_Name a /\ Listener_Name b <> Listener_Name a ++ "-tls".

Lemma ensure_snapshot_items ng w w' : ensure_snapshot ng w = (Ok tt, w') -> forall other t, items w' other t = items w other t.
Proof.
  unfold ensure_snapshot. intros (c & w0 & [-> ->]%gets_Ok & X)%bind_Ok. intros other t.
  destruct (ew_cache w !! ng) as [s|] eqn:Es; [by apply ret_Ok in X as [_ ->]|].
  apply ignore_err_Ok in X. unfold SetSnapshot, bind in X. cbn in X. subst w'. unfold items. cbn.
  destruct (decide (other = ng)) as [->|]; [by rewrite lookup_insert_eq, Es|by rewrite lookup_insert_ne].
Qed.
Lemma SetSnapshot_items ng s w w' : SetSnapshot ng s w = (Ok tt, w') -> (forall t, items w ng t = Resources_Items (s t)) ->
  forall other t, items w' other t = items w other t.
Proof.
  unfold SetSnapshot, bind. cbn. intros [= _ <-] Hs other t. unfold items at 1. cbn.
  destruct (decide (other = ng)) as [->|]; [by rewrite lookup_insert_eq, Hs|by rewrite lookup_insert_ne].
Qed.
Lemma on_builder_items {A} (m : prog (World * BuilderState) A) r w w' ng t : on_builder m w = (r, w') -> items w' ng t = items w ng t.
Proof. intros Eb. apply same_snapshots_items. by eapply (frame_run same_snapshots); [apply frame_on_builder, _|]. Qed.
(** The update of a listener puts it under its name, and its twin for TLS under
    another. *)
Lemma listener_update_effect ng l mapping w w' : perform_listener_update ng l mapping w = (Ok tt, w') ->
  (exists el w1 w2, on_builder (BuildListener l mapping (if listener_withTls l then false else Listener_WithTls l)) w1 = (Ok el, w2) /\
     items w' ng ListenerType !! Listener_Name l = Some (ResListener el)) /\
  (forall name, name <> Listener_Name l -> name <> Listener_Name l ++ "-tls" ->
     items w' ng ListenerType !! name = items w ng ListenerType !! name).
Proof.
  unfold perform_listener_update. intros ([] & w0 & X & (el & w1 & Eb & [U _]%update_items_effect)%bind_Ok)%bind_Ok. split.
  - exists el, w0, w1. split; [exact Eb|]. rewrite U. apply lookup_insert_eq.
  - intros name N1 N2. rewrite U, lookup_insert_ne by done. rewrite (on_builder_items _ _ _ _ ng ListenerType Eb).
    destruct (tls_preferred && listener_withTls l).
    + apply bind_Ok in X as (el' & w2 & Eb' & [U' _]%update_items_effect). rewrite U', lookup_insert_ne by done.
      by rewrite (on_builder_items _ _ _ _ ng ListenerType Eb').
    + by apply ret_Ok in X as [_ ->].
Qed.
Lemma UpdateListener_effect l version mapping w w' : UpdateListener (Listener_NodeGroupId l) version l mapping w = (Ok tt, w') ->
  published mapping l w' /\ (forall b m, apart l b -> published m b w -> published m b w').
Proof.
  unfold UpdateListener, UpdateSnapshot.
  intros ([] & w1 & En & ([] & w2 & P & (s & w3 & [-> G]%get_snapshot_items & Es)%bind_Ok)%bind_Ok)%bind_Ok.
  pose proof (ensure_snapshot_items _ _ _ En) as I1. pose proof (SetSnapshot_items _ _ _ _ Es G) as I3.
  pose proof (frame_run (performs (Listener_NodeGroupId l)) _ _ _ _ (frame_Perform _ _) P) as Fr. cbn [Perform] in P.
  apply listener_update_effect in P as [(el & v1 & v2 & Eb & Ei) Ho]. split.
  - exists el, v1, v2. by rewrite I3.
  - intros b m Ha (el' & u1 & u2 & Eb' & Ei'). exists el', u1, u2. split; [exact Eb'|]. rewrite I3.
    destruct (decide (Listener_NodeGroupId l = Listener_NodeGroupId b)) as [Eg|Ng].
    + destruct (Ha Eg). rewrite <- Eg, Ho by done. by rewrite I1, Eg.
    + unfold items. rewrite (performs_other _ _ _ Fr) by congruence. fold (items w1 (Listener_NodeGroupId b) ListenerType). by rewrite I1.
Qed.
Lemma published_same m l w w' : (forall ng t, items w' ng t = items w ng t) -> published m l w -> published m l w'.
Proof. intros Ei (el & w1 & w2 & Eb & El). exists el, w1, w2. by rewrite Ei. Qed.
Lemma UpdateListeners_published listeners mapping w w' : UpdateListeners listeners mapping w = (Ok tt, w') ->
  (forall a b, a ∈ listeners -> b ∈ listeners -> a = b \/ apart a b) -> forall l, l ∈ listeners -> published mapping l w'.
Proof.
  intros X Hd. assert (forall l, l ∈ listeners -> l ∈ listeners -> published mapping l w') as HQ; [|by auto].
  eapply (for_each_Ok listeners _ (fun _ => True) (fun l w => l ∈ listeners -> published mapping l w)); [exact X|done|].
  intros a w1 w3 Ha _ (v & w2 & Ev & U)%bind_Ok. destruct (UpdateListener_effect _ _ _ _ _ U) as [Hp Ho]. split_and!; [done|done|].
  intros b Hb Hin. destruct (Hd a b Ha Hin) as [->|Hab]; [done|]. apply Ho; [done|].
  apply (published_same mapping b w1); [|by apply Hb]. intros ng t. apply same_snapshots_items.
  by eapply (frame_run same_snapshots); [apply frame_on_dao, _|].
Qed.

(** ** The cache *)

(** The watcher puts strings only. *)
Definition strings_only (c : CacheClient) : Prop := map_Forall (fun _ v => exists s, v = CacheString s) c.
Definition text (v : CacheValue) : string := match v with CacheString s => s | CacheOther => "" end.
Definition namespaces (c : CacheClient) : gmap string string := text <$> c.
(** What a message tells of a tenant: its namespace, or that it has none; or
    nothing that counts. *)
Definition report (externalId : string) (tenant : Tenant) : option (option string) :=
  if bool_decide (Tenant_ExternalId tenant = externalId /\ externalId <> "" /\ Tenant_Status tenant <> "")
  then if bool_decide (Tenant_Status tenant = TenantActive)
       then if bool_decide (Tenant_Namespace tenant = "") then None else Some (Some (Tenant_Namespace tenant))
       else Some None
  else None.

Lemma convert_strings c : strings_only c -> convertTenantsToUpdate c = Ok (namespaces c).
Proof.
  intros Hs. unfold convertTenantsToUpdate, namespaces.
  assert (forall l, (forall e, e ∈ l -> exists s, e.2 = CacheString s) ->
    map_result (fun e : string * CacheValue => result_bind (as_string e.2) (fun s => Ok (e.1, s))) l = Ok (prod_map id text <$> l)) as Hl.
  { induction l as [|[k v] l IH]; intros Hl; [done|]. cbn. destruct (Hl (k, v)) as [s Ev]; [left|]. cbn in Ev. subst v. cbn.
    rewrite IH by (intros e He; apply Hl; by right). done. }
  rewrite Hl.
  - cbn. by rewrite list_to_map_fmap, list_to_map_to_list.
  - intros [k v] Hkv%elem_of_map_to_list. exact (Hs k v Hkv).
Qed.
Lemma tenant_update_spec tenant c updated c' : tenantsNamespacesUpdate tenant c = (updated, c') -> strings_only c ->
  strings_only c' /\ (updated = false -> c' = c) /\
  forall externalId, namespaces c' !! externalId = match report externalId tenant with Some r => r | None => namespaces c !! externalId end.
Proof.
  unfold tenantsNamespacesUpdate, report, CacheClient_Set, CacheClient_Delete, CacheClient_Get, namespaces. intros X Hs.
  destruct (String.eqb_spec (Tenant_ExternalId tenant) "") as [Ei|Ei].
  { injection X as <- <-. split_and!; [done..|]. intros id. rewrite bool_decide_false; [done|]. intros (? & ? & ?). congruence. }
  destruct (String.eqb_spec (Tenant_Status tenant) "") as [Es|Es].
  { injection X as <- <-. split_and!; [done..|]. intros id. rewrite bool_decide_false; [done|]. tauto. }
  destruct (String.eqb_spec (Tenant_Status tenant) TenantActive) as [Ea|Ea]; [destruct (String.eqb_spec (Tenant_Namespace tenant) "") as [En|En]|].
  - injection X as <- <-. split_and!; [done..|]. intros id. rewrite (bool_decide_true _ Ea), (bool_decide_true _ En). by case_bool_decide.
  - injection X as <- <-. split_and!; [by apply map_Forall_insert_2; [eexists|]|done|]. intros id.
    rewrite (bool_decide_true _ Ea), (bool_decide_false _ En), fmap_insert. case_bool_decide as Hid.
    + destruct Hid as (<- & _). by rewrite lookup_insert_eq.
    + rewrite lookup_insert_ne; [done|]. intros <-. tauto.
  - destruct (c !! Tenant_ExternalId tenant) as [v|] eqn:Ev; injection X as <- <-.
    + split_and!; [by apply map_Forall_delete|done|]. intros id. rewrite (bool_decide_false _ Ea), fmap_delete. case_bool_decide as Hid.
      * destruct Hid as (<- & _). by rewrite lookup_delete_eq.
      * rewrite lookup_delete_ne; [done|]. intros <-. tauto.
    + split_and!; [done..|]. intros id. rewrite (bool_decide_false _ Ea). case_bool_decide as Hid; [|done].
      destruct Hid as (<- & _). by rewrite lookup_fmap, Ev.
Qed.
Lemma processTenants_updated tenants w b' w' : fold_each tenants true processTenant w = (Ok b', w') -> b' = true.
Proof.
  revert w. induction tenants as [|[t|] tenants IH]; intros w; cbn [fold_each]; [by intros [-> _]%ret_Ok| |by intros (b1 & w1 & ? & _)%bind_Ok].
  intros (b1 & w1 & (u & w2 & _ & [-> ->]%ret_Ok)%bind_Ok & X)%bind_Ok. exact (IH _ X).
Qed.
(** The last report of each tenant counts. *)
Lemma processTenants_spec tenants b w b' w' : fold_each tenants b processTenant w = (Ok b', w') -> strings_only (tw_cache w) ->
  tw_envoy w' = tw_envoy w /\ strings_only (tw_cache w') /\ (b' = false -> tw_cache w' = tw_cache w) /\
  forall externalId, namespaces (tw_cache w') !! externalId
    = match last (omap (fun t => t ≫= report externalId) tenants) with Some r => r | None => namespaces (tw_cache w) !! externalId end.
Proof.
  revert b w. induction tenants as [|[t|] tenants IH]; intros b w; cbn [fold_each].
  - intros [-> ->]%ret_Ok Hs. by split_and!.
  - intros (b1 & w1 & (u & w2 & Ec & [-> ->]%ret_Ok)%bind_Ok & X)%bind_Ok Hs. unfold on_cache in Ec.
    destruct (tenantsNamespacesUpdate t (tw_cache w)) as [u' c] eqn:Et. injection Ec as <- <-.
    destruct (tenant_update_spec t _ u' c Et Hs) as (Hc & Hu & Hn). destruct (IH _ _ X Hc) as (I1 & I2 & I3 & I4). cbn in *.
    split_and!; [done|done| |].
    + intros ->. destruct u'; [|by rewrite I3, Hu]. rewrite orb_true_r in X. by apply processTenants_updated in X.
    + intros id. rewrite I4, Hn. set (f := fun t : option Tenant => t ≫= report id).
      change (omap f (Some t :: tenants)) with (match report id t with Some y => y :: omap f tenants | None => omap f tenants end).
      destruct (report id t) as [r|]; [|done]. destruct (omap f tenants) as [|y l]; [done|]. rewrite last_cons_cons. destruct (last (y :: l)) eqn:El; [done|by apply last_None in El].
  - by intros (b1 & w1 & ? & _)%bind_Ok.
Qed.

(** ** The mapping as a text *)

Lemma fold_entries es s :
  fold_left (fun acc e => acc ++ mapping_entry e ++ ", ") es s
  = match es with [] => s | _ => s ++ strings_Join (mapping_entry <$> es) ", " ++ ", " end.
Proof.
  revert s. induction es as [|e es IH]; intros s; [done|]. cbn [fold_left]. rewrite IH. unfold strings_Join. destruct es as [|e' es]; [done|].
  rewrite !fmap_cons. change (String.concat ", " (mapping_entry e :: mapping_entry e' :: (mapping_entry <$> es)))
    with (mapping_entry e ++ ", " ++ String.concat ", " (mapping_entry e' :: (mapping_entry <$> es))).
  by rewrite !str_app_assoc.
Qed.
(** Cutting off the last two bytes leaves the entries with commas between. *)
Lemma convertToNamespaceMappings_spec m : m <> ∅ ->
  convertToNamespaceMappings m = "tenantsNS = {" ++ strings_Join (mapping_entry <$> sorted_entries m) ", " ++ "}".
Proof.
  intros Hm. unfold convertToNamespaceMappings. rewrite fold_entries. destruct (sorted_entries m) as [|e es] eqn:Es.
  - destruct Hm. apply map_to_list_empty_iff. assert (length (sorted_entries m) = 0) as Hl by (by rewrite Es).
    unfold sorted_entries in Hl. rewrite (Permutation_length (SliceStable_perm _ _)) in Hl. by apply nil_length_inv.
  - set (body := strings_Join _ _). rewrite <- (str_app_assoc "tenantsNS = {" body ", "). rewrite str_length_app.
    replace (String.length ("tenantsNS = {" ++ body) + String.length ", " - 2) with (String.length ("tenantsNS = {" ++ body)) by (cbn [String.length]; lia).
    by rewrite str_take_app, str_app_assoc.
Qed.

(** C29: The namespace of a tenant is that of its last report that counts.  When a
    message changed one and was handled without an error, every listener in the
    database is published to its gateway with the namespaces of all tenants known
    so far - unless no tenant is left, where errors are not looked at, or another
    listener of the gateway has its name.  What a listener makes of the namespaces
    is its builder's: the one of a facade ignores them. *)
Theorem tenants_published tenants w w' :
  processFrame (Ok tenants) w = (Ok tt, w') -> strings_only (tw_cache w) ->
  (forall externalId, namespaces (tw_cache w') !! externalId
     = match last (omap (fun t => t ≫= report externalId) tenants) with Some r => r | None => namespaces (tw_cache w) !! externalId end) /\
  (namespaces (tw_cache w') <> namespaces (tw_cache w) -> namespaces (tw_cache w') <> ∅ ->
   forall listeners w1, FindAllListeners Local (ew_world (tw_envoy w)) = (Ok listeners, w1) ->
   (forall a b, a ∈ listeners -> b ∈ listeners -> a = b \/ apart a b) -> forall l, l ∈ listeners ->
   published ("tenantsNS = {" ++ strings_Join (mapping_entry <$> sorted_entries (namespaces (tw_cache w'))) ", " ++ "}") l (tw_envoy w')).
Proof.
  intros (ts & w0 & [[= <-] ->]%lift_Ok & (u & w1 & X & U)%bind_Ok)%bind_Ok Hs.
  destruct (processTenants_spec _ _ _ _ _ X Hs) as (I1 & I2 & I3 & I4). destruct u.
  - apply bind_Ok in U as (c & w2 & [-> ->]%gets_Ok & U). unfold on_envoy in U.
    destruct (UpdateAllListeners _ (tw_envoy w1)) as [r e] eqn:Eu. injection U as -> <-. cbn [tw_cache tw_envoy]. split; [exact I4|].
    intros _ Hne listeners v1 El Ha l Hl. unfold UpdateAllListeners, CacheClient_GetAll in Eu. rewrite (convert_strings _ I2) in Eu.
    apply bind_Ok in Eu as (m & v2 & [[= <-] ->]%lift_Ok & (ls & v3 & Ef & Eu)%bind_Ok). rewrite bool_decide_false in Eu by done.
    unfold on_dao in Ef. rewrite I1, El in Ef. injection Ef as <- <-. rewrite <- convertToNamespaceMappings_spec by done.
    by eapply UpdateListeners_published.
  - apply ret_Ok in U as [_ ->]. split; [exact I4|]. intros Hn. by rewrite I3 in Hn.
Qed.
End published.

(** * Witnesses *)

(** The filters of the listener, as the witnesses' marshalling names them. *)
Definition filters_of (w : EnvoyWorld (R := test_runtime)) : option (list string) :=
  match items_of w "public-gateway-service" ListenerType "public-gateway-service-listener" with
  | Some (ResListener l) => Some (EnvoyExtension_TypedConfig <$> EnvoyListener_Filters l)
  | _ => None
  end.
Definition wit_public_listener : Listener :=
  (zero : Listener) <| Listener_Id := 1%Z |> <| Listener_Name := "public-gateway-service-listener" |>
    <| Listener_NodeGroupId := "public-gateway-service" |> <| Listener_BindHost := "0.0.0.0" |> <| Listener_BindPort := "8080" |>
    <| Listener_RouteConfigurationName := "public-gateway-service-routes" |>.
Definition wit_listener_world : World (R := test_runtime) :=
  in_storage (SaveNodeGroup InTx (mkNodeGroup "public-gateway-service" "" false) ;;; _ <- SaveListener InTx wit_public_listener ;; ret tt).
Definition wit_tenants : WatchApiTenant :=
  [Some (mkTenant "1" "acme" "ns-a" TenantActive); Some (mkTenant "2" "" "ns-b" TenantActive);
   Some (mkTenant "3" "zeta" "ns-z" TenantActive); Some (mkTenant "1" "acme" "ns-a" "SUSPENDED")].
Definition wit_frame : prog (TenantWorld (R := test_runtime)) unit := processFrame (Ok wit_tenants).
Definition wit_tenant_world : TenantWorld (R := test_runtime) := mkTenantWorld (R := test_runtime) (started wit_listener_world) ∅.
Definition wit_mapping : string := "tenantsNS = {[" ++ dq ++ "zeta" ++ dq ++ "] = " ++ dq ++ "ns-z" ++ dq ++ "}".
Lemma tenants_published_witness :
  namespaces (tw_cache (wit_frame wit_tenant_world).2) = {["zeta" := "ns-z"]} /\
  published (R := test_runtime) wit_mapping wit_public_listener (tw_envoy (wit_frame wit_tenant_world).2).
Proof.
  assert ((wit_frame wit_tenant_world).1 = Ok tt) as X by (vm_compute; reflexivity).
  assert (namespaces (tw_cache (wit_frame wit_tenant_world).2) = {["zeta" := "ns-z"]}) as En by (vm_compute; reflexivity).
  split; [exact En|]. apply (run_pair wit_frame) in X. unfold wit_frame at 1 in X.
  destruct (tenants_published (R := test_runtime) wit_tenants wit_tenant_world (wit_frame wit_tenant_world).2 X (map_Forall_empty _)) as [_ Hp].
  assert ((FindAllListeners (R := test_runtime) Local (ew_world (tw_envoy wit_tenant_world))).1 = Ok [wit_public_listener]) as El
    by (vm_compute; reflexivity).
  apply (run_pair (FindAllListeners (R := test_runtime) Local)) in El. rewrite En in Hp.
  refine (Hp _ _ [wit_public_listener] _ El _ wit_public_listener _); [vm_compute; discriminate|vm_compute; discriminate| |left].
  intros a b ->%list_elem_of_singleton ->%list_elem_of_singleton. by left.
Defined.
(** The namespaces get lost: whatever else builds the listener - here a reload -
    builds it without them, and a message that changes nothing does not put them
    back. *)
Definition after_reload (w : TenantWorld (R := test_runtime)) : TenantWorld (R := test_runtime) :=
  (on_envoy HandleReloadEvent w).2.
Definition filters_after (w : TenantWorld (R := test_runtime)) : option (list string) := filters_of (tw_envoy w).
Example mapping_lost :
  let w1 := (wit_frame wit_tenant_world).2 in
  let w2 := after_reload w1 in
  let w3 := (processFrame (R := test_runtime) (Ok [Some (mkTenant "3" "zeta" "" TenantActive)]) w2).2 in
  filters_after w1 <> filters_after w2 /\ filters_after w2 = filters_after w3.
Proof. vm_compute. split; [discriminate|reflexivity]. Qed.
